(* ===== verification/_CoqProject ===== *)
-Q . S2P
Prelude.v
Spreads.v
Amounts.v
Decimals.v
Terms.v
Signing.v
Orders.v
Time.v
Quote.v
Nonce.v
Paging.v
Reconnect.v
Rows.v
Messages.v
Tracker.v
Subscriptions.v
Outcome.v
Writer.v
Challenge.v
Texts.v
Control.v
Login.v
Session.v
Running.v
Handle.v
Inbound.v
Ready.v
Chain.v
Account.v
Crank.v
Positions.v
Price.v
Vault.v
Opens.v
Wire.v
Swap.v
Served.v
Settle.v
Rpc.v
Batch.v
Confirm.v
Funding.v
Owner.v
Intent.v
SwapIntent.v
Snapshot.v
Operator.v
Sell.v
Venues.v
Oracle.v
Pricing.v
Config.v
Transport.v
Teardown.v
Lifetime.v
Data.v
Clients.v
HttpRows.v
Http.v
Fleet.v
Router.v
Curator.v
Backend.v
Capital.v
Quoters.v
Custody.v
SpreadQuotes.v
