(* ===== verification/Prelude.v ===== *)
(** * A verification library for acta-maker-sdk

    The program is a Rust SDK for option market makers.  A maker keeps one
    authenticated WebSocket session with the venue, receives requests for quotes,
    answers them with signed orders, and follows what becomes of them.  A vault's
    operator does the same on a vault's behalf and signs transactions that the venue
    builds; a curator trades a vault's assets; an owner governs it; all of them read and
    submit to a Solana cluster.  The code is under [src/src/]; paths below are relative
    to it, and those that start with [examples/] to [src/].

    ** The program's parts and the files that model them

    Arithmetic and data (pure functions):
    - [Spreads], [Pricing] : [spreads.rs], cash spreads (validation, [quote_amount],
      collateral, payoff, settlement, premium and fee; the price from a model of the legs);
    - [Amounts] : [types/amounts.rs] and [Price] of [types/ids.rs], premiums of physical
      options;
    - [Decimals] : [types/decimal.rs], the decimal views of prices and amounts, over the
      class [RustDecimal] with its laws [RustDecimalLaws];
    - [Terms] : [types/ids.rs], [types/products.rs], [types/vault.rs], option terms and
      bit sets;
    - [Time] : [types/unix_time.rs], [types/expiry.rs].

    What a maker signs:
    - [Signing] : [signing.rs], [wire.rs] and the signer half of [orders/mod.rs]; the class
      [Crypto] holds SHA-256, Ed25519, hex and base58 as parameters, [CryptoLaws] what
      their crates document, [SignerLike]/[SignerLaws] the interface between signers and
      their clients; [Sample] is an instance of all of them, used by the witnesses;
    - [Orders] : [orders/mod.rs], [orders/spreads.rs], the three order preimages, order ids,
      signatures;
    - [Quote] : [quote.rs], [RfqBinding] (is this RFQ the market I think it is?) and
      [QuoteBuilder]; the class [Pda] is Solana's derivation of addresses;
    - [Nonce] : [nonce.rs], the lock-free nonce generator as an interleaving of atomic
      accesses;
    - [Challenge] : [ws/auth.rs], the challenge texts a signer accepts;
    - [Texts] : [types/invite.rs], [types/address.rs], [types/macros.rs], referral codes and
      the texts of keys and digests.

    The managed session:
    - [Rows], [Messages] : [ws/types], the rows of lists and pushes, and the client and
      server messages with lanes, correlation ids and error codes;
    - [Transport] : [ws/client.rs], [ws/error.rs], the two readers of a socket, its close
      frame, undecodable frames, the typed sends; the class [WsJson] is serde's JSON;
    - [Tracker] : [ws/managed/tracker.rs], the replies that callers wait for;
    - [Subscriptions] : [ws/managed/desired_subscriptions.rs], the subscription target that
      survives a reconnect;
    - [Outcome] : [ws/maker/outcome.rs], the fate of one quote;
    - [Writer] : [ws/managed/writer.rs], the task that drains two queues into the socket, a
      labelled transition system;
    - [Reconnect] : [ws/reconnect.rs], the backoff;
    - [Control] : [ws/managed/session_control.rs], [state.rs], how a session ends;
    - [Login] : [ws/managed/session_auth.rs], [signer.rs], the authentication conversation;
    - [Ready] : [ws/managed/session_ready.rs], restoring subscriptions and reading the
      server's lists before the session is ready;
    - [Session] : [ws/managed/session.rs], the phases of one session and the supervisor that
      reconnects;
    - [Running] : [ws/managed/session_io.rs], [session_message.rs] and the session's loop,
      composed from [Writer], [Tracker] and [Subscriptions];
    - [Handle] : [ws/managed/mod.rs], [outbound.rs], what callers hold: the bounded command
      queue, connection epochs, awaited requests;
    - [Inbound] : [ws/managed/inbound.rs], [ws/vault/projection.rs], the receivers over the
      broadcast ring, whose contract is the relation [covers];
    - [Teardown] : the end of a session in [ws/managed/session.rs] and the panic handler of
      [mod.rs], composed from [Writer], [Tracker] and [Transport];
    - [Lifetime] : closing and dropping the handles of a session, [subscribe_events], in
      [ws/managed/mod.rs];
    - [Config] : [ws/managed/config.rs], [endpoint.rs] and the limits of [ws/client.rs];
    - [Paging] : [paging.rs], following continuations of a list.

    The maker's and the operator's clients, and the HTTP API:
    - [Data] : [ws/maker/data.rs], [ws/market_decimals.rs], the data requests, their pages
      and how they are merged;
    - [Clients] : [ws/maker/quote.rs], the typed sends of [ws/vault/client.rs], the
      operator's configuration of [ws/vault/config.rs];
    - [HttpRows], [Http] : [http/types.rs], [http/mod.rs], the records of the HTTP API, the
      cached request and the lists; the network and what other clones do to the cache are
      arguments, serde and the url crate are the classes [DeserializeOwned] and [UrlCrate];
    - [Operator] : [ws/vault/client.rs], [tx.rs], gated requests and signatures;
    - [Sell] : [ws/vault/sell.rs], the sale of an option through an RFQ;
    - [Fleet] : [ws/vault/fleet.rs], the feed of the vaults an operator may run.

    Solana accounts and instructions:
    - [Chain] : [chain/ix.rs], [chain/vault/pda.rs], keys, addresses, instructions;
    - [Account], [Positions], [Price] : the decoders of [chain/vault/account.rs], of
      [chain/accounts.rs] and [events.rs], and of [chain/vault/price_route.rs];
    - [Vault], [Batch] : [chain/vault/manager.rs], a vault's identity and its instructions,
      and the compute budgets of its batches;
    - [Opens], [Swap] : [chain/vault/trading.rs], positions and swaps of a vault;
    - [Settle] : [chain/settlement.rs], [spreads.rs], [vault/settle.rs];
    - [Owner] : [chain/vault/governance.rs], [lifecycle.rs], [owner_rpc.rs];
    - [Crank] : [chain/vault/crank.rs], the capital crank.

    Transactions built by the venue ([chain/vault/served.rs]):
    - [Wire] : the transaction decoder;
    - [Served] : account resolution, compute budget, quote signature, the comparison with
      the expected instructions, signing;
    - [Intent], [SwapIntent] : the checks of served opens and swaps against what the signer
      agreed to.

    The cluster and the curator:
    - [Rpc], [Confirm], [Funding] : [chain/rpc.rs], [confirmation.rs], [wsol.rs]; the class
      [Cluster] is the cluster, which answers each call by its number;
    - [Snapshot] : [chain/batch.rs], [vault/scan.rs], [vault/counterparty.rs];
    - [Venues], [Oracle] : [chain/vault/venues/], [router_price.rs]; the class [Powers] holds
      the powers of binary64 numbers;
    - [Router], [Curator] : [chain/vault/router.rs], [curator.rs]; the class
      [MessageCompiler] is Solana's compiler of messages, [CuratorIO] the curator's reads
      and Jupiter, [Driver] what a caller of [execute] supplies;
    - [Backend] : [backend_swap] of [curator.rs], a purchase through the venue, composed from
      [Curator], [Clients] and [SwapIntent].

    The programs the repository ships, composed from all of the above:
    - [Capital] : [examples/vault_capital.rs], the capital crank as a loop over the cluster;
    - [Quoters] : [examples/managed_quote.rs], [examples/vault_operator.rs], and
      [QuoteBuilder::venue], the loops of a maker and of a vault's operator;
    - [Custody] : [examples/taker_buy_quote.rs], a writer that keeps its custody at a target;
    - [SpreadQuotes] : [examples/spread_quote.rs], [examples/quote.rs],
      [examples/hello_auth.rs], programs on the bare socket.

    ** Conventions

    A computation returns [res E A]: [Ok], [Err], or [Panic] where Rust does not return
    (an index out of range, an overflow of a plain operator).  Theorems of fallible code
    say what happens on every branch, and that [Panic] is not one of them.  A machine
    integer is a [Z] with [fits w]; a byte slice is a list of bytes; a 32-byte key is such
    a list.  A [HashMap] is a [gmap], or an association list where order matters.  A oneshot
    channel is its identity.  Code of other crates (cryptography, base64, the Solana SDK's
    address derivation, random generators, clocks, sockets) is a parameter or an input; a
    law about one is a field of a class with an instance, or a named hypothesis whose
    witness instantiates it.  Concurrency is an explicit sequence of labels: one per
    atomic access in [Nonce], one per suspension point in [Writer] and [Running]; where an
    [async] function waits, what happens meanwhile is an argument.

    Each definition that translates code is preceded by a comment with the file, lines and
    symbol.

    ** What the theorems show

    - Money: rounding, collateral, payoff and premium are exact and never overflow
      ([quote_amount_exact], [settle_splits_collateral]); a spread's price lies
      within its width, whatever the model of its legs says ([spread_prices_bounded]).
    - Signatures bind: order ids commit to every field, a built quote is inside the RFQ it
      answers and verifies, an RFQ is accepted only for its market, challenges are a fixed
      grammar that never is an order id, nonces never repeat within a generator
      ([order_id_commits], [sign_sound], [from_broadcast_sound], [challenges_bind],
      [nonces_unique]).
    - Nobody waits forever, nothing is answered twice: the invariant of the awaiter table,
      disposal of each command, order of the writer's lanes, the running session's
      invariant, commands that reach only the connection they were meant for, queues whose
      memory is bounded ([tracker_accounting], [command_disposed_once], [writer_order],
      [running_session_sound], [outcomes_are_reported], [commands_keep_their_epoch],
      [outbound_memory_bounded]).
    - The session's life: events refine a small automaton, retries are bounded, a session
      is granted only after a validated challenge and a matching reply, and ready only
      after its subscriptions and lists are restored; subscriptions are those intended and
      recovery reaches them ([lifecycle_is_observed], [retries_are_bounded],
      [authentication_sound], [ready_barrier], [target_is_intended],
      [recovery_converges]).  A session's end leaves no task and no [Close] before the
      server's, and a panic still ends the automaton ([sessions_are_torn_down],
      [panics_are_reported]); [Lifetime.close_is_a_barrier]: closing returns only after
      the task has ended, and one of the calls is told of its panic.
    - Reading: both readers of a socket deliver the same messages, pings and close frame;
      receivers lose nothing unreported; lists are complete and in order, over the socket
      and over HTTP, whose answers are what the server served; typed sends are one message
      of a ready session; texts of keys and codes have one normal form ([readers_agree],
      [losses_are_reported], [lists_are_complete], [http_answers_are_served],
      [typed_sends_are_ready], [sends_write_their_message], [operator_authenticates_for_its_vault],
      [referral_codes_canonical], [key_texts_roundtrip]).
    - Served transactions: the decoder is its grammar, the check accepts exactly the
      expected transaction, signing writes one slot, and what is signed is the open or swap
      the signer asked for ([wire_decoding], [matches_sound], [sign_writes_own_slot],
      [verify_open_sound], [verify_swap_sound]).
    - Operators: a request said not to have been forwarded was not, a sale hands over only
      a transaction that sells what was asked at a quote that was taken, the feed of vaults
      is that of the last listing ([not_forwarded_is_truthful], [sale_sound],
      [fleet_is_current]).
    - The cluster: funding stays within its budget, confirmations are what the cluster said,
      settlements pay each side the asset its option says, snapshots are what was read, an
      owner's operations submit nothing and are refused in the wrong state, the crank runs on
      and takes exactly the step that is due, its withdrawals end
      ([funding_covered], [confirmation_truthful], [settle_position_sound],
      [maker_snapshot_faithful], [owner_operations_guarded], [crank_does_what_is_due],
      [withdrawals_drain], [manager_stays_current]), the budget of a batch covers whichever
      destinations are missing ([batch_budget_covers]).
    - The curator: a plan moves the asked assets through allowed venues within the oracle's
      bound, its funding needs are those of a reference definition, and its execution
      reports what was submitted ([router_plan_sound], [curator_plan_sound],
      [execute_accounts], [funding_needs_exact],
      [backend_swap_submits_what_was_asked]).
    - The shipped programs: a maker quotes only in the epoch whose recovery it received, an
      operator only with its permission, each quote is of the RFQ just received, a fill is
      signed only by its taker, a rebalance submits what it verified
      ([Quoters.makers_quote_after_recovery], [operators_quote_with_permission],
      [follower_keeps_up], [fills_are_signed_by_their_taker],
      [rebalance_submits_what_it_verified]); a custody account is brought to its target from
      the balance that was read ([Custody.custody_reaches_its_target]); spreads are priced
      inside their width, and a bare socket is answered what it asks
      ([SpreadQuotes.spreads_are_priced_inside], [raw_programs_answer_what_they_are_asked]).

    ** Bounds and fuel

    [Paging.fetch_loop] takes fuel, and its file shows the fuel that is enough for a finite
    list of continuations; [Data] and [Http] use it for their lists.  [Inbound.recv_next]
    turns as often as the ring was called, [Transport]'s readers recurse on what the stream
    yields.  [Session.run_managed_ws] recurses on the list of turns the network provides,
    [Login.authenticate], [Ready.establish], [Sell.sell_loop] and [Fleet.feed_session] on the
    events the socket provides; they return what is known when the inputs run out.  The
    rounds of [Curator.curator_plan] and the hops of a swap are bounded by the code's own
    constants.  Everything else is structural.

    ** What is not modelled

    The bytes below tungstenite's messages, reqwest and the RPC client (their results are
    inputs), serde's JSON text, the [f64] display views, the jitter of the backoff (an
    input), the conversions between the SDK's and the Solana client's types, and the test
    doubles; of the shipped programs, their environment variables, their logs, and the ones
    that only print what they read or measure latency ([examples/discovery.rs],
    [indicative.rs], [curator_pt.rs], [loopback_latency.rs]). *)

From Stdlib Require Import ZArith Lia.
From stdpp Require Import base list gmap strings sorting.

#[global] Set Default Goal Selector "!".

Open Scope Z_scope.

(** ** Results

    A Rust computation that may fail or panic.  [Ok] and [Err] are the two
    constructors of [Result]; a function that returns [Option] uses [unit] as
    its error.  [Panic] is what Rust does where it does not return at all: an
    index out of range, or an arithmetic overflow in a checked build (the same
    program point wraps in an unchecked build, so a theorem that excludes
    [Panic] also excludes the wrap). *)
Inductive res (E A : Type) : Type :=
| Ok (a : A)
| Err (e : E)
| Panic.
Arguments Ok {E A} a.
Arguments Err {E A} e.
Arguments Panic {E A}.

#[export] Instance res_eq_dec {E A} `{EqDecision E, EqDecision A} : EqDecision (res E A).
Proof. solve_decision. Defined.

#[export] Instance res_ret {E} : MRet (res E) := fun _ a => Ok a.
#[export] Instance res_bind {E} : MBind (res E) := fun _ _ k m =>
  match m with Ok a => k a | Err e => Err e | Panic => Panic end.
#[export] Instance res_fmap {E} : FMap (res E) := fun _ _ f m =>
  match m with Ok a => Ok (f a) | Err e => Err e | Panic => Panic end.

(** [Option::ok_or], [Result::map_err], [Result::ok]. *)
Definition ok_or {E A} (o : option A) (e : E) : res E A :=
  match o with Some a => Ok a | None => Err e end.

Definition map_err {E F A} (f : E -> F) (m : res E A) : res F A :=
  match m with Ok a => Ok a | Err e => Err (f e) | Panic => Panic end.

Definition res_ok {E A} (m : res E A) : option A :=
  match m with Ok a => Some a | _ => None end.

(** [if bad { return Err(e) }] at the head of a block. *)
Definition reject_if {E} (bad : bool) (e : E) : res E unit :=
  if bad then Err e else Ok tt.

Definition is_ok {E A} (m : res E A) : bool :=
  match m with Ok _ => true | _ => false end.

(** [Iterator::map(f).collect::<Result<Vec<_>, _>>()]: stops at the first error. *)
Fixpoint try_map {E A B} (f : A -> res E B) (l : list A) : res E (list B) :=
  match l with
  | [] => Ok []
  | x :: l => y ← f x; ys ← try_map f l; Ok (y :: ys)
  end.

Section results.
Context {E : Type}.

Lemma bind_Ok {A B} (m : res E A) (k : A -> res E B) b :
  (m ≫= k) = Ok b <-> exists a, m = Ok a /\ k a = Ok b.
Proof.
  split.
  - destruct m; intros H; [eauto | discriminate H | discriminate H].
  - intros (a & -> & H). exact H.
Qed.

Lemma ok_or_Ok {A} (o : option A) (e : E) a : ok_or o e = Ok a <-> o = Some a.
Proof. destruct o; simpl; split; congruence. Qed.

Lemma reject_if_Ok b (e : E) u : reject_if b e = Ok u <-> b = false.
Proof. destruct b, u; simpl; split; congruence. Qed.

Lemma map_err_Ok {F A} (f : F -> E) (m : res F A) a :
  map_err f m = Ok a <-> m = Ok a.
Proof. destruct m; simpl; split; congruence. Qed.

Lemma try_map_Ok {A B} (f : A -> res E B) l ys :
  try_map f l = Ok ys <-> Forall2 (fun x y => f x = Ok y) l ys.
Proof.
  revert ys; induction l as [|x l IH]; intros ys; simpl.
  - split; [intros [= <-]; constructor | by intros H; inversion H].
  - rewrite bind_Ok. split.
    + intros (y & Hy & H). apply bind_Ok in H as (zs & Hzs & [= <-]).
      constructor; [done | by apply IH].
    + intros H; inversion H; subst. eexists; split; [done|].
      apply bind_Ok. eexists; split; [by apply IH | done].
Qed.

(** A computation that returns, whatever it returns. *)
Definition returns {A} (m : res E A) : Prop := m <> Panic.

Lemma returns_bind {A B} (m : res E A) (k : A -> res E B) :
  returns m -> (forall a, m = Ok a -> returns (k a)) -> returns (m ≫= k).
Proof. unfold returns. destruct m; cbn; [eauto | done | done]. Qed.

Lemma returns_Ok {A} (a : A) : returns (Ok a).
Proof. done. Qed.

Lemma returns_Err {A} (e : E) : returns (@Err E A e).
Proof. done. Qed.

Lemma returns_ok_or {A} (o : option A) (e : E) : returns (ok_or o e).
Proof. by destruct o. Qed.

Lemma returns_reject_if b (e : E) : returns (reject_if b e).
Proof. by destruct b. Qed.

Lemma returns_map_err {F A} (f : F -> E) (m : res F A) : m <> Panic -> returns (map_err f m).
Proof. unfold returns. by destruct m. Qed.
End results.

Lemma try_map_returns {E A B} (f : A -> res E B) l : (forall x, x ∈ l -> returns (f x)) -> returns (try_map f l).
Proof.
  induction l as [|x l IH]; intros H; cbn; [done|]. apply returns_bind; [apply H; set_solver|]. intros y _.
  apply returns_bind; [apply IH; set_solver|]. done.
Qed.

(** Peel a computation down to the parts that might panic. *)
Ltac returns_step :=
  match goal with
  | |- returns (_ ≫= _) => apply returns_bind; [|intros ? ?]
  | |- returns (Ok _) => apply returns_Ok
  | |- returns (Err _) => apply returns_Err
  | |- returns (ok_or _ _) => apply returns_ok_or
  | |- returns (reject_if _ _) => apply returns_reject_if
  | |- returns (map_err _ _) => apply returns_map_err
  | |- returns (match ?x with _ => _ end) => destruct x eqn:?
  | |- returns (let _ := _ in _) => cbv zeta
  end.

(** Take apart a hypothesis that says a [res] computation returned [Ok]. *)
Ltac inv_ok H :=
  repeat lazymatch type of H with
  | (_ ≫= _) = Ok _ =>
      let a := fresh "v" in let Ha := fresh "Hv" in
      apply bind_Ok in H as (a & Ha & H); try inv_ok Ha
  | ok_or _ _ = Ok _ => apply ok_or_Ok in H
  | reject_if _ _ = Ok _ => apply reject_if_Ok in H
  | map_err _ _ = Ok _ => apply map_err_Ok in H
  end.

(** ** Machine integers

    An unsigned [w]-bit integer is a [Z] with [fits w]; the operations below are
    the ones the sources use, each with what it does at the edge. *)
Definition fits (w z : Z) : Prop := 0 <= z < 2 ^ w.
Definition umax (w : Z) : Z := 2 ^ w - 1.

#[export] Instance fits_dec w z : Decision (fits w z).
Proof. unfold fits. apply _. Defined.

(** [checked_add], [checked_sub], [checked_mul]. *)
Definition checked_add (w a b : Z) : option Z := if a + b <? 2 ^ w then Some (a + b) else None.
Definition checked_sub (a b : Z) : option Z := if b <=? a then Some (a - b) else None.
Definition checked_mul (w a b : Z) : option Z := if a * b <? 2 ^ w then Some (a * b) else None.

(** [saturating_add], [saturating_sub], [saturating_mul]. *)
Definition saturating_add (w a b : Z) : Z := Z.min (umax w) (a + b).
Definition saturating_sub (a b : Z) : Z := Z.max 0 (a - b).
Definition saturating_mul (w a b : Z) : Z := Z.min (umax w) (a * b).

(** [wrapping_add]. *)
Definition wrapping_add (w a b : Z) : Z := (a + b) mod 2 ^ w.

(** [uN::try_from] from a wider unsigned integer. *)
Definition try_from (w z : Z) : option Z := if z <? 2 ^ w then Some z else None.

(** The plain operators, which panic where the result does not fit (or the
    divisor is zero). *)
Section panicking.
Context {E : Type}.
Definition add_p (w a b : Z) : res E Z := if a + b <? 2 ^ w then Ok (a + b) else Panic.
Definition sub_p (a b : Z) : res E Z := if b <=? a then Ok (a - b) else Panic.
Definition mul_p (w a b : Z) : res E Z := if a * b <? 2 ^ w then Ok (a * b) else Panic.
Definition div_p (a b : Z) : res E Z := if b =? 0 then Panic else Ok (a / b).
Definition rem_p (a b : Z) : res E Z := if b =? 0 then Panic else Ok (a mod b).
Definition pow_p (w a n : Z) : res E Z := if a ^ n <? 2 ^ w then Ok (a ^ n) else Panic.
End panicking.

(** Turn every boolean comparison of the context and the goal into the
    proposition it decides. *)
Ltac reflect_bool :=
  repeat match goal with
  | H : context [?a =? ?b] |- _ => destruct (Z.eqb_spec a b)
  | H : context [?a <? ?b] |- _ => destruct (Z.ltb_spec a b)
  | H : context [?a <=? ?b] |- _ => destruct (Z.leb_spec a b)
  | |- context [?a =? ?b] => destruct (Z.eqb_spec a b)
  | |- context [?a <? ?b] => destruct (Z.ltb_spec a b)
  | |- context [?a <=? ?b] => destruct (Z.leb_spec a b)
  end; simpl in *.

Create HintDb sdk.

Section arithmetic.
Context {E : Type}.

Lemma mul_p_Ok w a b : a * b < 2 ^ w -> @mul_p E w a b = Ok (a * b).
Proof. intros H. unfold mul_p. destruct (Z.ltb_spec (a * b) (2 ^ w)); [done | lia]. Qed.

Lemma add_p_Ok w a b : a + b < 2 ^ w -> @add_p E w a b = Ok (a + b).
Proof. intros H. unfold add_p. destruct (Z.ltb_spec (a + b) (2 ^ w)); [done | lia]. Qed.

Lemma sub_p_Ok a b : b <= a -> @sub_p E a b = Ok (a - b).
Proof. intros H. unfold sub_p. destruct (Z.leb_spec b a); [done | lia]. Qed.

Lemma div_p_Ok a b : 0 < b -> @div_p E a b = Ok (a / b).
Proof. intros H. unfold div_p. destruct (Z.eqb_spec b 0); [lia | done]. Qed.

Lemma rem_p_Ok a b : 0 < b -> @rem_p E a b = Ok (a mod b).
Proof. intros H. unfold rem_p. destruct (Z.eqb_spec b 0); [lia | done]. Qed.

Lemma pow_p_Ok w a n : a ^ n < 2 ^ w -> @pow_p E w a n = Ok (a ^ n).
Proof. intros H. unfold pow_p. destruct (Z.ltb_spec (a ^ n) (2 ^ w)); [done | lia]. Qed.
End arithmetic.

(** The product of two [u64]s fits [u128]. *)
Lemma mul_u64_fits a b : fits 64 a -> fits 64 b -> a * b < 2 ^ 128.
Proof. unfold fits. intros. change (2 ^ 128) with (2 ^ 64 * 2 ^ 64). nia. Qed.

(** Division rounded up, the reference for the code's "divide and add one when
    there is a remainder". *)
Definition ceil_div (a b : Z) : Z := (a + b - 1) / b.

Lemma ceil_div_spec a b :
  0 < b -> a / b + (if a mod b =? 0 then 0 else 1) = ceil_div a b.
Proof.
  intros Hb. unfold ceil_div.
  pose proof (Z.div_mod a b ltac:(lia)) as Ha.
  pose proof (Z.mod_pos_bound a b Hb) as Hm.
  destruct (Z.eqb_spec (a mod b) 0) as [H0|H0].
  - apply (Z.div_unique_pos _ _ _ (b - 1)); lia.
  - apply (Z.div_unique_pos _ _ _ (a mod b - 1)); lia.
Qed.

Lemma ceil_div_le_mono a a' b : 0 < b -> a <= a' -> ceil_div a b <= ceil_div a' b.
Proof. intros. unfold ceil_div. apply Z.div_le_mono; lia. Qed.

Lemma floor_le_ceil a b : 0 < b -> a / b <= ceil_div a b.
Proof. intros. unfold ceil_div. apply Z.div_le_mono; lia. Qed.

(** Rounding up is sub-additive, and by at most one. *)
Lemma ceil_div_add a a' b :
  0 < b ->
  ceil_div (a + a') b <= ceil_div a b + ceil_div a' b <= ceil_div (a + a') b + 1.
Proof.
  intros Hb. unfold ceil_div.
  assert (Hr : forall x, exists r, b * ((x + b - 1) / b) = x + r /\ 0 <= r < b).
  { intros x. exists (b - 1 - (x + b - 1) mod b).
    pose proof (Z.div_mod (x + b - 1) b ltac:(lia)).
    pose proof (Z.mod_pos_bound (x + b - 1) b Hb). lia. }
  destruct (Hr a) as (r1 & H1 & ?), (Hr a') as (r2 & H2 & ?), (Hr (a + a')) as (r3 & H3 & ?).
  split; nia.
Qed.

(** ** Bytes

    A byte is a [Z] with [fits 8]; a byte slice is a list of them. *)
Abbreviation bytes := (list Z) (only parsing).

Definition is_bytes (bs : bytes) : Prop := Forall (fits 8) bs.

(** A fixed-size array [[u8; N]]. *)
Definition is_array (n : nat) (bs : bytes) : Prop := length bs = n /\ is_bytes bs.

#[export] Instance is_array_dec n bs : Decision (is_array n bs).
Proof. unfold is_array, is_bytes. apply _. Defined.

(** [uN::to_le_bytes] and [uN::from_le_bytes], [n] bytes wide. *)
Fixpoint to_le_bytes (n : nat) (z : Z) : bytes :=
  match n with
  | O => []
  | S n => z mod 256 :: to_le_bytes n (z / 256)
  end.

Fixpoint from_le_bytes (bs : bytes) : Z :=
  match bs with
  | [] => 0
  | b :: bs => b + 256 * from_le_bytes bs
  end.

Lemma length_to_le_bytes n z : length (to_le_bytes n z) = n.
Proof. revert z; induction n as [|n IH]; intros z; simpl; [done | by rewrite IH]. Qed.

Lemma to_le_bytes_bytes n z : is_bytes (to_le_bytes n z).
Proof.
  unfold is_bytes. revert z; induction n as [|n IH]; intros z; simpl; constructor; [|apply IH].
  apply Z.mod_pos_bound. lia.
Qed.

Lemma to_le_bytes_array n z : is_array n (to_le_bytes n z).
Proof. split; [apply length_to_le_bytes | apply to_le_bytes_bytes]. Qed.

Lemma pow_byte n : 2 ^ (8 * Z.of_nat (S n)) = 256 * 2 ^ (8 * Z.of_nat n).
Proof. rewrite Nat2Z.inj_succ, Z.mul_succ_r, Z.pow_add_r by lia. simpl (2 ^ 8). lia. Qed.

Lemma from_to_le_bytes n z : fits (8 * Z.of_nat n) z -> from_le_bytes (to_le_bytes n z) = z.
Proof.
  revert z; induction n as [|n IH]; intros z Hz.
  - unfold fits in Hz. simpl in *. lia.
  - unfold fits in *. rewrite pow_byte in Hz. simpl.
    pose proof (Z.div_mod z 256 ltac:(lia)).
    rewrite IH; [lia|]. split; [apply Z.div_pos; lia | apply Z.div_lt_upper_bound; lia].
Qed.

Lemma from_le_bytes_fits bs : is_bytes bs -> fits (8 * Z.of_nat (length bs)) (from_le_bytes bs).
Proof.
  induction 1 as [|b bs Hb _ IH]; [unfold fits; simpl; lia|].
  cbn [length]. unfold fits in *. rewrite pow_byte. cbn [from_le_bytes].
  simpl (2 ^ 8) in Hb. lia.
Qed.

Lemma to_from_le_bytes bs : is_bytes bs -> to_le_bytes (length bs) (from_le_bytes bs) = bs.
Proof.
  induction 1 as [|b bs Hb _ IH]; [done|]. cbn [length to_le_bytes from_le_bytes].
  unfold fits in Hb. simpl (2 ^ 8) in Hb.
  rewrite (Z.mul_comm 256), Z.mod_add, Z.mod_small, Z.div_add, Z.div_small by lia.
  rewrite Z.add_0_l. by f_equal.
Qed.

Lemma to_le_bytes_inj n a b :
  fits (8 * Z.of_nat n) a -> fits (8 * Z.of_nat n) b ->
  to_le_bytes n a = to_le_bytes n b -> a = b.
Proof. intros Ha Hb H. by rewrite <- (from_to_le_bytes n a), H, from_to_le_bytes. Qed.

(** [u8::from(bool)]. *)
Definition u8_of_bool (b : bool) : Z := if b then 1 else 0.

Lemma u8_of_bool_inj a b : u8_of_bool a = u8_of_bool b -> a = b.
Proof. destruct a, b; simpl; congruence. Qed.

Lemma u8_of_bool_fits b : fits 8 (u8_of_bool b).
Proof. destruct b; unfold fits; simpl; lia. Qed.

(** ** Slices *)

(** [data.get(a..b)]. *)
Definition get_range {A} (l : list A) (a b : nat) : option (list A) :=
  if ((a <=? b) && (b <=? length l))%nat then Some (take (b - a) (drop a l)) else None.

(** [&data[a..b]] and [data[i]], which panic out of range. *)
Definition slice_p {E A} (l : list A) (a b : nat) : res E (list A) :=
  match get_range l a b with Some s => Ok s | None => Panic end.
Definition index_p {E A} (l : list A) (i : nat) : res E A :=
  match l !! i with Some x => Ok x | None => Panic end.

(** [buf[at..at + src.len()].copy_from_slice(src)]. *)
Definition copy_at (buf : bytes) (at_ : nat) (src : bytes) : bytes :=
  take at_ buf ++ src ++ drop (at_ + length src) buf.

Lemma get_range_Some {A} (l : list A) a b s :
  get_range l a b = Some s <-> (a <= b <= length l)%nat /\ s = take (b - a) (drop a l).
Proof.
  unfold get_range.
  destruct (Nat.leb_spec a b), (Nat.leb_spec b (length l)); simpl;
    split; [intros [= <-]; split; [lia | done] | intros [_ ->]; done | | | | | |];
    try discriminate; intros [? _]; lia.
Qed.

Lemma get_range_length {A} (l : list A) a b s :
  get_range l a b = Some s -> length s = (b - a)%nat.
Proof. intros [? ->]%get_range_Some. rewrite length_take, length_drop. lia. Qed.

Lemma get_range_bytes l a b s : is_bytes l -> get_range l a b = Some s -> is_bytes s.
Proof. intros Hl [? ->]%get_range_Some. by apply Forall_take, Forall_drop. Qed.

Lemma get_range_is_Some {A} (l : list A) a b :
  (a <= b <= length l)%nat -> exists s, get_range l a b = Some s.
Proof. intros H. eexists. by apply get_range_Some. Qed.

(** A range of a concatenation that is exactly the middle part. *)
Lemma get_range_app {A} (x y z : list A) a b :
  a = length x -> b = (a + length y)%nat -> get_range (x ++ y ++ z) a b = Some y.
Proof.
  intros -> ->. apply get_range_Some. rewrite !length_app. split; [lia|].
  rewrite drop_app_length, (Nat.add_comm (length x)), Nat.add_sub, take_app_length. done.
Qed.

Lemma lookup_index_p {E A} (l : list A) i x : @index_p E A l i = Ok x <-> l !! i = Some x.
Proof. unfold index_p. destruct (l !! i); split; congruence. Qed.

Lemma slice_p_Ok {E A} (l : list A) a b s : @slice_p E A l a b = Ok s <-> get_range l a b = Some s.
Proof. unfold slice_p. destruct (get_range l a b); split; congruence. Qed.

Lemma returns_slice {E A} (l : list A) a b :
  (a <= b <= length l)%nat -> returns (E := E) (slice_p l a b).
Proof. intros H. unfold slice_p. by destruct (get_range_is_Some l a b H) as [? ->]. Qed.

(** ** Keys *)

(** A 32-byte account address ([Address32], [Pubkey], [[u8; 32]]). *)
Abbreviation key := bytes (only parsing).
Definition is_key (k : key) : Prop := is_array 32 k.

(** A key of one repeated byte, used by the concrete examples. *)
Definition key_of (b : Z) : key := replicate 32 b.

Lemma key_of_is_key b : fits 8 b -> is_key (key_of b).
Proof.
  intros Hb. unfold key_of. split; [by rewrite length_replicate|].
  by apply Forall_replicate.
Qed.

#[export] Hint Resolve length_to_le_bytes to_le_bytes_bytes to_le_bytes_array u8_of_bool_fits
  key_of_is_key mul_u64_fits : sdk.
