(* ===== verification/Spreads.v ===== *)
(** * Cash spreads ([src/spreads.rs])

    Strike and premium validation, the decimal-scaled quote amount, collateral,
    payoff, settlement and the premium split of a two-leg cash-settled spread.
    Prices are 1e9 fixed point; collateral, premium and payoff are quote atoms.
    [price_spread] (floating point) is not modelled. *)

From Stdlib Require Import ZArith Lia.
From stdpp Require Import base list.
From S2P Require Import Prelude.

Open Scope Z_scope.

Module SpreadType.
(* spreads.rs:5-10 SpreadType *)
Inductive t := CallSpread | PutSpread.
#[global] Instance t_eq_dec : EqDecision t.
Proof. solve_decision. Defined.

(** The [repr(u8)] discriminant. *)
(* spreads.rs:5-10 SpreadType *)
Definition to_u8 (k : t) : Z := match k with CallSpread => 2 | PutSpread => 3 end.
End SpreadType.

Module SpreadError.
(* spreads.rs:23-39 SpreadError *)
Inductive t :=
| InvalidType | InvalidStrikes | InvalidPremium | Overflow | InvalidFee
| InsufficientCollateral | InvalidPricing.
#[global] Instance t_eq_dec : EqDecision t.
Proof. solve_decision. Defined.
End SpreadError.

(* spreads.rs:12-21 TryFrom<u8> for SpreadType *)
Definition spread_type_try_from (value : Z) : res SpreadError.t SpreadType.t :=
  match value with
  | 2 => Ok SpreadType.CallSpread
  | 3 => Ok SpreadType.PutSpread
  | _ => Err SpreadError.InvalidType
  end.

(* spreads.rs:41-46 width *)
Definition width (lower upper : Z) : res SpreadError.t Z :=
  match checked_sub upper lower with
  | Some v => if 0 <? v then Ok v else Err SpreadError.InvalidStrikes
  | None => Err SpreadError.InvalidStrikes
  end.

(* spreads.rs:48-54 validate_strikes *)
Definition validate_strikes (kind : SpreadType.t) (lower upper : Z) : res SpreadError.t Z :=
  _ ← reject_if (bool_decide (kind = SpreadType.CallSpread) && (lower =? 0))
        SpreadError.InvalidStrikes;
  width lower upper.

(* spreads.rs:56-68 validate_premium *)
Definition validate_premium (kind : SpreadType.t) (lower upper quantity price : Z)
  : res SpreadError.t unit :=
  w ← validate_strikes kind lower upper;
  reject_if ((quantity =? 0) || (price =? 0) || (w <=? price)) SpreadError.InvalidPremium.

(* spreads.rs:70-92 quote_amount *)
Definition quote_amount (price quantity quote_decimals underlying_decimals : Z) (ceil : bool)
  : res SpreadError.t Z :=
  _ ← reject_if ((18 <? quote_decimals) || (18 <? underlying_decimals)) SpreadError.Overflow;
  quote_scale ← pow_p 128 10 quote_decimals;
  underlying_scale ← pow_p 128 10 underlying_decimals;
  denominator ← mul_p 128 1000000000 underlying_scale;
  numerator ← mul_p 128 price quantity;
  result ←
    (if quote_scale <=? denominator then
       divisor ← div_p denominator quote_scale;
       floor ← div_p numerator divisor;
       up ← (if ceil then
               rest ← rem_p numerator divisor; Ok (if rest =? 0 then 0 else 1)
             else Ok 0);
       add_p 128 floor up
     else
       factor ← div_p quote_scale denominator;
       ok_or (checked_mul 128 numerator factor) SpreadError.Overflow);
  ok_or (try_from 64 result) SpreadError.Overflow.

(* spreads.rs:94-108 collateral *)
Definition collateral (lower upper quantity quote_decimals underlying_decimals : Z)
  : res SpreadError.t Z :=
  w ← width lower upper;
  quote_amount w quantity quote_decimals underlying_decimals true.

(* spreads.rs:110-118 SpreadTerms *)
Record SpreadTerms := {
  kind : SpreadType.t;
  lower_strike : Z;
  upper_strike : Z;
  quantity : Z;
  quote_decimals : Z;
  underlying_decimals : Z;
}.

(* spreads.rs:120-127 SpreadPremium *)
Record SpreadPremium := {
  sp_collateral : Z;
  sp_gross_premium : Z;
  sp_protocol_fee : Z;
  sp_net_premium : Z;
  sp_prefunded_quote : Z;
}.

(* spreads.rs:129-133 SpreadSettlement *)
Record SpreadSettlement := {
  holder_payoff : Z;
  writer_return : Z;
}.

(** [u64::try_from(u128::from(amount) * u128::from(bps) / 10_000)], the closure
    [fee] of the two premium functions. *)
(* spreads.rs:196-199 SpreadTerms::premium (closure fee) *)
Definition fee_bps (amount bps : Z) : res SpreadError.t Z :=
  product ← mul_p 128 amount bps;
  fee ← div_p product 10000;
  ok_or (try_from 64 fee) SpreadError.Overflow.

Module SpreadTerm.
Section methods.
Variable self : SpreadTerms.

(* spreads.rs:212-220 SpreadTerms::quote *)
Definition quote (price : Z) (ceil : bool) : res SpreadError.t Z :=
  quote_amount price (quantity self) (quote_decimals self) (underlying_decimals self) ceil.

(* spreads.rs:136-144 SpreadTerms::collateral *)
Definition collateral : res SpreadError.t Z :=
  collateral (lower_strike self) (upper_strike self) (quantity self)
    (quote_decimals self) (underlying_decimals self).

(* spreads.rs:146-154 SpreadTerms::payoff *)
Definition payoff (settlement_price : Z) : res SpreadError.t Z :=
  w ← width (lower_strike self) (upper_strike self);
  let intrinsic :=
    Z.min (match kind self with
           | SpreadType.CallSpread => saturating_sub settlement_price (lower_strike self)
           | SpreadType.PutSpread => saturating_sub (upper_strike self) settlement_price
           end) w in
  quote intrinsic true.

(* spreads.rs:156-172 SpreadTerms::settle *)
Definition settle (settlement_price actual_collateral : Z)
  : res SpreadError.t SpreadSettlement :=
  required ← collateral;
  _ ← reject_if (actual_collateral <? required) SpreadError.InsufficientCollateral;
  holder_payoff ← payoff settlement_price;
  writer_return ← ok_or (checked_sub actual_collateral holder_payoff)
                    SpreadError.InsufficientCollateral;
  Ok {| holder_payoff := holder_payoff; writer_return := writer_return |}.

(* spreads.rs:174-210 SpreadTerms::premium *)
Definition premium (price premium_bps volume_bps : Z) : res SpreadError.t SpreadPremium :=
  _ ← validate_premium (kind self) (lower_strike self) (upper_strike self)
        (quantity self) price;
  _ ← reject_if ((10000 <? premium_bps) || (10000 <? volume_bps)) SpreadError.InvalidFee;
  coll ← collateral;
  gross_premium ← quote price false;
  w ← width (lower_strike self) (upper_strike self);
  exposure ← quote w false;
  _ ← reject_if ((gross_premium =? 0) || (coll <=? gross_premium) || (exposure =? 0))
        SpreadError.InvalidPremium;
  per_unit_fee ← fee_bps price premium_bps;
  net_price ← sub_p price per_unit_fee;
  net_quote ← quote net_price false;
  premium_fee ← sub_p gross_premium net_quote;
  volume_fee ← fee_bps exposure volume_bps;
  let protocol_fee := Z.min premium_fee volume_fee in
  net_premium ← sub_p gross_premium protocol_fee;
  prefunded_quote ← sub_p coll net_premium;
  Ok {| sp_collateral := coll; sp_gross_premium := gross_premium;
        sp_protocol_fee := protocol_fee; sp_net_premium := net_premium;
        sp_prefunded_quote := prefunded_quote |}.
End methods.
End SpreadTerm.

(** ** The exact amount *)

(** What [quote_amount] promises: [price * quantity * 10^quote_decimals] over
    [10^9 * 10^underlying_decimals], rounded down or up. *)
Definition exact_quote (price quantity qd ud : Z) (ceil : bool) : Z :=
  let n := price * quantity * 10 ^ qd in
  let d := 10 ^ (9 + ud) in
  if ceil then ceil_div n d else n / d.

(** The inputs the Rust types allow. *)
Definition terms_typed (t : SpreadTerms) : Prop :=
  fits 64 (lower_strike t) /\ fits 64 (upper_strike t) /\ fits 64 (quantity t) /\
  fits 8 (quote_decimals t) /\ fits 8 (underlying_decimals t).

#[global] Instance terms_typed_dec t : Decision (terms_typed t).
Proof. unfold terms_typed. apply _. Defined.

Lemma pow10_small n : 0 <= n <= 18 -> 1 <= 10 ^ n <= 10 ^ 18.
Proof. intros. split; [apply (Z.pow_le_mono_r 10 0) | apply Z.pow_le_mono_r]; lia. Qed.

(** Scaling numerator and denominator by the same power does not move the result. *)
Lemma exact_quote_scale_down price quantity qd ud ceil k :
  0 <= qd -> 0 <= k -> 9 + ud = qd + k ->
  exact_quote price quantity qd ud ceil =
  price * quantity / 10 ^ k +
    (if ceil then (if price * quantity mod 10 ^ k =? 0 then 0 else 1) else 0).
Proof.
  intros Hq Hk E9. unfold exact_quote. rewrite E9, Z.pow_add_r, (Z.mul_comm (10 ^ qd)) by lia.
  assert (0 < 10 ^ qd /\ 0 < 10 ^ k) as [??] by (split; apply Z.pow_pos_nonneg; lia).
  destruct ceil.
  - rewrite <- ceil_div_spec by nia.
    rewrite Z.div_mul_cancel_r, Z.mul_mod_distr_r by lia.
    f_equal. destruct (Z.eqb_spec (price * quantity mod 10 ^ k) 0) as [E|E].
    + rewrite E. done.
    + destruct (Z.eqb_spec (price * quantity mod 10 ^ k * 10 ^ qd) 0); nia.
  - rewrite Z.div_mul_cancel_r by lia. lia.
Qed.

Lemma exact_quote_scale_up price quantity qd ud ceil k :
  0 <= ud -> 0 <= k -> qd = 9 + ud + k ->
  exact_quote price quantity qd ud ceil = price * quantity * 10 ^ k.
Proof.
  intros Hu Hk ->. unfold exact_quote. rewrite Z.pow_add_r by lia.
  assert (0 < 10 ^ (9 + ud)) by (apply Z.pow_pos_nonneg; lia).
  replace (price * quantity * (10 ^ (9 + ud) * 10 ^ k))
    with (price * quantity * 10 ^ k * 10 ^ (9 + ud)) by lia.
  destruct ceil; [|apply Z.div_mul; lia].
  rewrite <- ceil_div_spec by lia. rewrite Z.div_mul, Z.mod_mul by lia. simpl. lia.
Qed.

Lemma div_pow10 a b : 0 <= a <= b -> 10 ^ b / 10 ^ a = 10 ^ (b - a).
Proof. intros. symmetry. apply Z.pow_sub_r; lia. Qed.

Lemma quote_amount_unfold price quantity qd ud ceil :
  fits 64 price -> fits 64 quantity -> 0 <= qd -> 0 <= ud ->
  quote_amount price quantity qd ud ceil =
    if (18 <? qd) || (18 <? ud) then Err SpreadError.Overflow
    else ok_or (try_from 64 (exact_quote price quantity qd ud ceil)) SpreadError.Overflow.
Proof.
  intros Hp Hn Hq Hu. unfold quote_amount, reject_if.
  destruct (Z.ltb_spec 18 qd) as [?|Hq'], (Z.ltb_spec 18 ud) as [?|Hu']; [done..|].
  cbn [orb mbind res_bind].
  pose proof (pow10_small qd ltac:(lia)) as Bq. pose proof (pow10_small ud ltac:(lia)) as Bu.
  pose proof (mul_u64_fits _ _ Hp Hn) as Hm.
  assert (Hn0 : 0 <= price * quantity) by (unfold fits in *; nia).
  rewrite !pow_p_Ok by lia. cbn [mbind res_bind]. rewrite (mul_p_Ok _ 1000000000) by lia.
  cbn [mbind res_bind]. rewrite (mul_p_Ok _ price) by done. cbn [mbind res_bind].
  change 1000000000 with (10 ^ 9). rewrite <- Z.pow_add_r by lia.
  destruct (Z.leb_spec (10 ^ qd) (10 ^ (9 + ud))) as [Hle|Hlt].
  - assert (qd <= 9 + ud) by (apply (Z.pow_le_mono_r_iff 10); lia).
    rewrite div_p_Ok by lia. cbn [mbind res_bind]. rewrite div_pow10 by lia.
    assert (0 < 10 ^ (9 + ud - qd)) by (apply Z.pow_pos_nonneg; lia).
    rewrite (exact_quote_scale_down _ _ _ _ _ (9 + ud - qd)) by lia.
    rewrite div_p_Ok by lia. cbn [mbind res_bind].
    assert (price * quantity / 10 ^ (9 + ud - qd) <= price * quantity)
      by (apply Z.div_le_upper_bound; nia).
    assert (price * quantity < 2 ^ 128 - 1).
    { unfold fits in *. change (2 ^ 128) with (2 ^ 64 * 2 ^ 64). nia. }
    destruct ceil; rewrite ?rem_p_Ok by lia; cbn [mbind res_bind];
      (rewrite add_p_Ok by (repeat case_match; lia)); done.
  - assert (9 + ud < qd) by (apply (Z.pow_lt_mono_r_iff 10); lia).
    rewrite div_p_Ok by lia. cbn [mbind res_bind]. rewrite div_pow10 by lia.
    rewrite (exact_quote_scale_up _ _ _ _ _ (qd - (9 + ud))) by lia.
    unfold checked_mul. reflect_bool; cbn [mbind res_bind ok_or]; [done|].
    unfold try_from. reflect_bool; [lia | done].
Qed.

Lemma exact_quote_nonneg price quantity qd ud ceil :
  0 <= price -> 0 <= quantity -> 0 <= qd -> 0 <= ud -> 0 <= exact_quote price quantity qd ud ceil.
Proof.
  intros. unfold exact_quote, ceil_div.
  assert (0 <= 10 ^ qd /\ 0 < 10 ^ (9 + ud)) as [??]
    by (split; [apply Z.pow_nonneg | apply Z.pow_pos_nonneg]; lia).
  destruct ceil; apply Z.div_pos; nia.
Qed.

Lemma exact_quote_mono price price' quantity qd ud ceil :
  price <= price' -> 0 <= quantity -> 0 <= ud ->
  exact_quote price quantity qd ud ceil <= exact_quote price' quantity qd ud ceil.
Proof.
  intros. unfold exact_quote.
  assert (0 <= 10 ^ qd) by (apply Z.pow_nonneg; lia).
  assert (0 < 10 ^ (9 + ud)) by (apply Z.pow_pos_nonneg; lia).
  assert (price * quantity * 10 ^ qd <= price' * quantity * 10 ^ qd)
    by (apply Z.mul_le_mono_nonneg_r; nia).
  destruct ceil; [apply ceil_div_le_mono | apply Z.div_le_mono]; lia.
Qed.

Lemma exact_quote_floor_le_ceil price quantity qd ud :
  0 <= ud -> exact_quote price quantity qd ud false <= exact_quote price quantity qd ud true.
Proof. intros. apply floor_le_ceil, Z.pow_pos_nonneg; lia. Qed.

Lemma width_Ok lower upper w : width lower upper = Ok w <-> w = upper - lower /\ 0 < w.
Proof.
  unfold width, checked_sub. reflect_bool; split; try congruence;
    [intros [= <-]; lia | intros [-> ?]; done | lia | lia].
Qed.

Lemma width_cases lower upper :
  width lower upper =
    if lower <? upper then Ok (upper - lower) else Err SpreadError.InvalidStrikes.
Proof. unfold width, checked_sub. reflect_bool; try done; lia. Qed.

(** [quote_amount] on success. *)
Lemma quote_amount_Ok price quantity qd ud ceil a :
  fits 64 price -> fits 64 quantity -> 0 <= qd -> 0 <= ud ->
  quote_amount price quantity qd ud ceil = Ok a <->
    qd <= 18 /\ ud <= 18 /\ a = exact_quote price quantity qd ud ceil /\ a < 2 ^ 64.
Proof.
  intros Hp Hq ??. rewrite quote_amount_unfold by done. unfold try_from.
  reflect_bool; (split; [try congruence; intros [= <-]; auto | intros (?&?&?&?); subst; try lia; done]).
Qed.

(** A price below one that quotes successfully quotes successfully too. *)
Lemma quote_amount_below price price' quantity qd ud ceil a :
  fits 64 price -> fits 64 price' -> fits 64 quantity -> 0 <= qd -> 0 <= ud ->
  price <= price' -> quote_amount price' quantity qd ud ceil = Ok a ->
  exists b, quote_amount price quantity qd ud ceil = Ok b /\ 0 <= b <= a.
Proof.
  intros ?????? H. apply quote_amount_Ok in H as (?&?&->&?); [|done..].
  pose proof (exact_quote_mono price price' quantity qd ud ceil).
  pose proof (exact_quote_nonneg price quantity qd ud ceil). unfold fits in *.
  eexists. rewrite quote_amount_Ok by (unfold fits; lia). split; [split_and!; [..|done|]; lia | lia].
Qed.

(** C1: for every [u64] price and quantity and every pair of [u8] decimals,
    [quote_amount] returns the exact value of
    [price * quantity * 10^quote_decimals / (10^9 * 10^underlying_decimals)],
    rounded down or up as asked, whatever the relative scale; it never panics, and
    it fails, with [Overflow], exactly when a decimals argument exceeds 18 or the
    rounded value does not fit [u64]. *)
Theorem quote_amount_exact price quantity qd ud ceil :
  fits 64 price -> fits 64 quantity -> fits 8 qd -> fits 8 ud ->
  let n := price * quantity * 10 ^ qd in
  let d := 1000000000 * 10 ^ ud in
  match quote_amount price quantity qd ud ceil with
  | Ok a =>
      qd <= 18 /\ ud <= 18 /\ fits 64 a /\
      (if ceil then (a - 1) * d < n <= a * d else a * d <= n < (a + 1) * d)
  | Err e =>
      e = SpreadError.Overflow /\
      (18 < qd \/ 18 < ud \/ if ceil then (2 ^ 64 - 1) * d < n else 2 ^ 64 * d <= n)
  | Panic => False
  end.
Proof.
  intros Hp Hq [Hqd _] [Hud _] n d. rewrite quote_amount_unfold by done.
  destruct (Z.ltb_spec 18 qd), (Z.ltb_spec 18 ud); cbn [orb]; [auto..|].
  pose proof (exact_quote_nonneg price quantity qd ud ceil) as Hnn.
  assert (Hd : d = 10 ^ (9 + ud)) by (unfold d; rewrite Z.pow_add_r by lia; done).
  assert (0 < d) by (rewrite Hd; apply Z.pow_pos_nonneg; lia).
  pose proof (Z.div_mod n d ltac:(lia)). pose proof (Z.mod_pos_bound n d ltac:(lia)).
  assert (Hc : exact_quote price quantity qd ud ceil =
               n / d + (if ceil then if n mod d =? 0 then 0 else 1 else 0)).
  { unfold exact_quote. rewrite <- Hd. fold n. destruct ceil; [by rewrite ceil_div_spec | lia]. }
  rewrite Hc in *. unfold try_from, fits in *.
  destruct ceil; reflect_bool; cbn [ok_or];
    first [split_and!; [lia..|] | split; [done|right; right]]; nia.
Qed.

Lemma quote_amount_exact_witness :
  quote_amount 1500000000 2000001 6 8 true = Ok 30001 /\
  match quote_amount 1500000000 2000001 6 8 true with
  | Ok a => (a - 1) * (1000000000 * 10 ^ 8) < 1500000000 * 2000001 * 10 ^ 6
  | _ => False
  end.
Proof.
  split; [reflexivity|].
  pose proof (quote_amount_exact 1500000000 2000001 6 8 true ltac:(unfold fits; lia)
    ltac:(unfold fits; lia) ltac:(unfold fits; lia) ltac:(unfold fits; lia)) as H.
  cbv zeta in H.
  replace (quote_amount 1500000000 2000001 6 8 true) with (@Ok SpreadError.t Z 30001) in *
    by reflexivity.
  apply H.
Defined.

(** ** Settlement *)

(** The price move the holder is paid for, per unit. *)
Definition intrinsic (t : SpreadTerms) (settlement_price : Z) : Z :=
  let w := upper_strike t - lower_strike t in
  match kind t with
  | SpreadType.CallSpread => Z.min (Z.max 0 (settlement_price - lower_strike t)) w
  | SpreadType.PutSpread => Z.min (Z.max 0 (upper_strike t - settlement_price)) w
  end.

Lemma intrinsic_bounds t s :
  lower_strike t < upper_strike t ->
  0 <= intrinsic t s <= upper_strike t - lower_strike t.
Proof. intros. unfold intrinsic. destruct (kind t); lia. Qed.

Lemma collateral_Ok t c :
  terms_typed t -> SpreadTerm.collateral t = Ok c <->
    lower_strike t < upper_strike t /\
    quote_amount (upper_strike t - lower_strike t) (quantity t)
      (quote_decimals t) (underlying_decimals t) true = Ok c.
Proof.
  intros _. unfold SpreadTerm.collateral, collateral. rewrite width_cases.
  reflect_bool; cbn; split; [intros H'; split; [lia | done] | by intros [_ ?] | done | lia].
Qed.

Lemma payoff_unfold t s :
  lower_strike t < upper_strike t ->
  SpreadTerm.payoff t s = SpreadTerm.quote t (intrinsic t s) true.
Proof.
  intros H. unfold SpreadTerm.payoff. rewrite width_cases.
  destruct (Z.ltb_spec (lower_strike t) (upper_strike t)); [|lia]. cbn.
  unfold intrinsic, saturating_sub. destruct (kind t); done.
Qed.

Lemma payoff_within_collateral t s c :
  terms_typed t -> SpreadTerm.collateral t = Ok c ->
  exists p, SpreadTerm.payoff t s = Ok p /\ 0 <= p <= c /\
            quote_amount (intrinsic t s) (quantity t) (quote_decimals t)
              (underlying_decimals t) true = Ok p.
Proof.
  intros Ht Hc. pose proof Hc as [Hlt Hq]%collateral_Ok; [|done].
  pose proof (intrinsic_bounds t s Hlt).
  destruct Ht as (?&?&?&?&?). rewrite payoff_unfold by done.
  destruct (quote_amount_below (intrinsic t s) (upper_strike t - lower_strike t) (quantity t)
    (quote_decimals t) (underlying_decimals t) true c) as (p & Hp & ?);
    [unfold fits in *; lia .. | done |].
  by exists p.
Qed.

(** C2: settling a well-typed spread against [actual] atoms of collateral either
    fails (bad strikes, an amount that overflows, or [actual] below the required
    collateral) or splits [actual] exactly: the holder's payoff and the writer's
    return are non-negative and sum to [actual], the payoff never exceeds the
    required collateral, and it is the intrinsic value rounded up.  It never
    panics, and it succeeds whenever the collateral is computable and covered. *)
Theorem settle_splits_collateral t price actual :
  terms_typed t -> fits 64 price -> fits 64 actual ->
  match SpreadTerm.settle t price actual with
  | Ok r =>
      exists c, SpreadTerm.collateral t = Ok c /\ c <= actual /\
        holder_payoff r + writer_return r = actual /\
        0 <= holder_payoff r <= c /\ 0 <= writer_return r /\
        holder_payoff r =
          exact_quote (intrinsic t price) (quantity t) (quote_decimals t)
            (underlying_decimals t) true
  | Err e =>
      match SpreadTerm.collateral t with
      | Ok c => e = SpreadError.InsufficientCollateral /\ actual < c
      | Err e' => e = e'
      | Panic => False
      end
  | Panic => False
  end.
Proof.
  intros Ht Hp Ha. unfold SpreadTerm.settle.
  destruct (SpreadTerm.collateral t) as [c|e|] eqn:Hc.
  - cbn [mbind res_bind]. unfold reject_if.
    destruct (Z.ltb_spec actual c) as [?|Hle]; [done|]. cbn [mbind res_bind].
    destruct (payoff_within_collateral t price c Ht Hc) as (p & -> & ? & Hq).
    cbn [mbind res_bind]. unfold checked_sub.
    destruct (Z.leb_spec p actual); [|lia]. cbn. exists c.
    apply collateral_Ok in Hc as [Hlt _]; [|done].
    pose proof (intrinsic_bounds t price Hlt).
    destruct Ht as (?&?&?&?&?).
    apply quote_amount_Ok in Hq as (?&?&?&?); [|unfold fits in *; lia ..].
    split_and!; (done || lia).
  - done.
  - unfold SpreadTerm.collateral, collateral in Hc. rewrite width_cases in Hc.
    destruct Ht as (?&?&?&?&?).
    destruct (Z.ltb_spec (lower_strike t) (upper_strike t)); [|discriminate Hc].
    cbn in Hc. rewrite quote_amount_unfold in Hc by (unfold fits in *; lia).
    unfold try_from in Hc. repeat case_match; discriminate Hc.
Qed.

Definition example_terms : SpreadTerms :=
  {| kind := SpreadType.CallSpread; lower_strike := 100000000000; upper_strike := 120000000000;
     quantity := 3000000007; quote_decimals := 6; underlying_decimals := 9 |}.

Lemma settle_splits_collateral_witness :
  SpreadTerm.settle example_terms 107000000000 70000000 =
    Ok {| holder_payoff := 21000001; writer_return := 48999999 |} /\
  exists c, SpreadTerm.collateral example_terms = Ok c /\ 21000001 <= c <= 70000000.
Proof.
  split; [reflexivity|].
  pose proof (settle_splits_collateral example_terms 107000000000 70000000
    ltac:(unfold terms_typed, fits; simpl; lia) ltac:(unfold fits; lia) ltac:(unfold fits; lia)) as H.
  replace (SpreadTerm.settle example_terms 107000000000 70000000)
    with (@Ok SpreadError.t _ {| holder_payoff := 21000001; writer_return := 48999999 |})
    in H by reflexivity.
  destruct H as (c & Hc & ? & _ & ? & _). exists c. split; [done|]. simpl in *. lia.
Defined.

(** A call spread and a put spread on the same strikes and size together pay
    out the full collateral at every settlement price inside the strikes' range and
    beyond it, up to one atom: rounding each payoff up adds at most one. *)
Theorem call_put_parity t price c :
  terms_typed t -> fits 64 price -> SpreadTerm.collateral t = Ok c ->
  let with_kind k :=
    {| kind := k; lower_strike := lower_strike t; upper_strike := upper_strike t;
       quantity := quantity t; quote_decimals := quote_decimals t;
       underlying_decimals := underlying_decimals t |} in
  exists pc pp,
    SpreadTerm.payoff (with_kind SpreadType.CallSpread) price = Ok pc /\
    SpreadTerm.payoff (with_kind SpreadType.PutSpread) price = Ok pp /\
    c <= pc + pp <= c + 1.
Proof.
  intros Ht Hp Hc with_kind.
  destruct (payoff_within_collateral (with_kind SpreadType.CallSpread) price c Ht Hc)
    as (pc & Hpc & ? & Hqc).
  destruct (payoff_within_collateral (with_kind SpreadType.PutSpread) price c Ht Hc)
    as (pp & Hpp & ? & Hqp).
  exists pc, pp. split; [done|]. split; [done|].
  pose proof Hc as [Hlt Hq]%collateral_Ok; [|done].
  pose proof (intrinsic_bounds (with_kind SpreadType.CallSpread) price Hlt).
  pose proof (intrinsic_bounds (with_kind SpreadType.PutSpread) price Hlt).
  destruct Ht as (?&?&?&?&?). simpl in *.
  apply quote_amount_Ok in Hq as (?&?&Hc'&?), Hqc as (?&?&Hpc'&?), Hqp as (?&?&Hpp'&?);
     [|unfold fits in *; lia ..].
  assert (Hsum : upper_strike t - lower_strike t =
     intrinsic (with_kind SpreadType.CallSpread) price +
     intrinsic (with_kind SpreadType.PutSpread) price) by (unfold intrinsic; simpl; lia).
  unfold exact_quote in *. rewrite Hsum, !Z.mul_add_distr_r in Hc'.
  pose proof (ceil_div_add
     (intrinsic (with_kind SpreadType.CallSpread) price * quantity t * 10 ^ quote_decimals t)
     (intrinsic (with_kind SpreadType.PutSpread) price * quantity t * 10 ^ quote_decimals t)
     (10 ^ (9 + underlying_decimals t)) ltac:(apply Z.pow_pos_nonneg; unfold fits in *; lia)). lia.
Qed.

Lemma call_put_parity_witness :
  exists pc pp, SpreadTerm.payoff example_terms 107000000000 = Ok pc /\ 60000001 <= pc + pp.
Proof.
  destruct (call_put_parity example_terms 107000000000 60000001
    ltac:(unfold terms_typed, fits; simpl; lia) ltac:(unfold fits; lia) ltac:(reflexivity))
    as (pc & pp & H & _ & ?).
  exists pc, pp. split; [exact H | lia].
Defined.

(** ** Premium *)

Definition bps_floor (amount bps : Z) : Z := amount * bps / 10000.

Lemma bps_floor_bounds amount bps :
  0 <= amount -> 0 <= bps <= 10000 -> 0 <= bps_floor amount bps <= amount.
Proof.
  intros. unfold bps_floor. split; [apply Z.div_pos; nia | apply Z.div_le_upper_bound; nia].
Qed.

Lemma fee_bps_Ok amount bps :
  fits 64 amount -> 0 <= bps <= 10000 -> fee_bps amount bps = Ok (bps_floor amount bps).
Proof.
  intros Ha Hb. unfold fee_bps. rewrite mul_p_Ok.
  - pose proof (bps_floor_bounds amount bps). unfold fits in *. cbn.
    unfold bps_floor, try_from in *. destruct (Z.ltb_spec (amount * bps / 10000) (2 ^ 64)); [done | lia].
  - unfold fits in *. change (2 ^ 128) with (2 ^ 64 * 2 ^ 64). nia.
Qed.

(** The inputs [premium] accepts. *)
Definition premium_accepts (t : SpreadTerms) (price premium_bps volume_bps : Z) : Prop :=
  let w := upper_strike t - lower_strike t in
  let quote p ceil := exact_quote p (quantity t) (quote_decimals t) (underlying_decimals t) ceil in
  (kind t = SpreadType.CallSpread -> 0 < lower_strike t) /\
  0 < price < w /\ 0 < quantity t /\
  quote_decimals t <= 18 /\ underlying_decimals t <= 18 /\
  premium_bps <= 10000 /\ volume_bps <= 10000 /\
  quote w true < 2 ^ 64 /\ 0 < quote price false < quote w true /\ 0 < quote w false.

Lemma validate_premium_Ok k lower upper q price :
  0 <= lower -> 0 <= q -> 0 <= price ->
  validate_premium k lower upper q price = Ok tt <->
    (k = SpreadType.CallSpread -> 0 < lower) /\ 0 < price < upper - lower /\ 0 < q.
Proof.
  intros Hl Hq Hp. unfold validate_premium, validate_strikes. rewrite width_cases. unfold reject_if.
  destruct (bool_decide_reflect (k = SpreadType.CallSpread)) as [->|];
    reflect_bool; cbn; reflect_bool; cbn; split; intros H'; try done; try (split_and!; [done || lia ..]);
    destruct H' as (H1 & ? & ?); try (specialize (H1 eq_refl)); lia.
Qed.

Lemma validate_premium_no_panic k lower upper q price :
  validate_premium k lower upper q price <> Panic.
Proof.
  unfold validate_premium, validate_strikes, reject_if. rewrite width_cases.
  repeat case_match; cbn; repeat case_match; done.
Qed.

(** The last part of [premium], once every guard has passed. *)
Lemma premium_split t price pb vb coll gross exposure :
  terms_typed t -> fits 64 price -> 0 <= pb <= 10000 -> 0 <= vb <= 10000 -> fits 64 exposure ->
  SpreadTerm.quote t price false = Ok gross -> 0 <= gross < coll ->
  exists net_quote r,
    SpreadTerm.quote t (price - bps_floor price pb) false = Ok net_quote /\
    (per_unit_fee ← fee_bps price pb;
     net_price ← sub_p price per_unit_fee;
     net_quote ← SpreadTerm.quote t net_price false;
     premium_fee ← sub_p gross net_quote;
     volume_fee ← fee_bps exposure vb;
     net_premium ← sub_p gross (Z.min premium_fee volume_fee);
     prefunded_quote ← sub_p coll net_premium;
     Ok {| sp_collateral := coll; sp_gross_premium := gross; 
           sp_protocol_fee := Z.min premium_fee volume_fee;
           sp_net_premium := net_premium; sp_prefunded_quote := prefunded_quote |}) = Ok r /\
    sp_collateral r = coll /\ sp_gross_premium r = gross /\
    sp_protocol_fee r = Z.min (gross - net_quote) (bps_floor exposure vb) /\
    0 <= sp_protocol_fee r <= gross /\
    sp_net_premium r = gross - sp_protocol_fee r /\
    sp_prefunded_quote r = coll - sp_net_premium r.
Proof.
  intros (?&?&?&?&?) Hp Hpb Hvb He Hg Hc.
  pose proof (bps_floor_bounds price pb ltac:(unfold fits in *; lia) Hpb).
  pose proof (bps_floor_bounds exposure vb ltac:(unfold fits in *; lia) Hvb).
  destruct (quote_amount_below (price - bps_floor price pb) price (quantity t)
    (quote_decimals t) (underlying_decimals t) false gross) as (nq & Hnq & ?);
    [unfold fits in *; lia .. | done |].
  change (SpreadTerm.quote t (price - bps_floor price pb) false = Ok nq) in Hnq.
  exists nq. rewrite Hnq, !fee_bps_Ok by (done || lia). cbn [mbind res_bind].
  rewrite (sub_p_Ok price) by lia. cbn [mbind res_bind]. rewrite Hnq. cbn [mbind res_bind].
  rewrite (sub_p_Ok gross nq) by lia. cbn [mbind res_bind].
  rewrite (sub_p_Ok gross) by lia. cbn [mbind res_bind].
  rewrite (sub_p_Ok coll) by lia. cbn [mbind res_bind].
  eexists. split; [done|]. split; [done|]. cbn. split_and!; (done || lia).
Qed.

Lemma quote_cases t p ceil :
  terms_typed t -> fits 64 p ->
  SpreadTerm.quote t p ceil =
    if (18 <? quote_decimals t) || (18 <? underlying_decimals t) then Err SpreadError.Overflow
    else
      let q := exact_quote p (quantity t) (quote_decimals t) (underlying_decimals t) ceil in
      if q <? 2 ^ 64 then Ok q else Err SpreadError.Overflow.
Proof.
  intros (?&?&?&?&?) ?. unfold SpreadTerm.quote.
  rewrite quote_amount_unfold by (unfold fits in *; lia). unfold try_from. by repeat case_match.
Qed.

Lemma collateral_quote t :
  lower_strike t < upper_strike t ->
  SpreadTerm.collateral t = SpreadTerm.quote t (upper_strike t - lower_strike t) true.
Proof.
  intros. unfold SpreadTerm.collateral, collateral. rewrite width_cases.
  destruct (Z.ltb_spec (lower_strike t) (upper_strike t)); [done | lia].
Qed.

(** Below a width whose collateral fits, every floor-rounded amount fits. *)
Lemma floor_quote_Ok t w p :
  let quote p ceil := exact_quote p (quantity t) (quote_decimals t) (underlying_decimals t) ceil in
  terms_typed t -> quote_decimals t <= 18 -> underlying_decimals t <= 18 ->
  quote w true < 2 ^ 64 -> fits 64 p -> p <= w ->
  SpreadTerm.quote t p false = Ok (quote p false) /\ 0 <= quote p false <= quote w false.
Proof.
  intros quote Ht Hqd Hud Hc Hp Hle. rewrite quote_cases by done. cbv zeta. fold (quote p false).
  pose proof Ht as (?&?&?&?&?). unfold fits in *.
  pose proof (exact_quote_floor_le_ceil w (quantity t) (quote_decimals t) (underlying_decimals t)).
  pose proof (exact_quote_mono p w (quantity t) (quote_decimals t) (underlying_decimals t) false).
  pose proof (exact_quote_nonneg p (quantity t) (quote_decimals t) (underlying_decimals t) false).
  unfold quote in *. reflect_bool; split; (done || lia).
Qed.

(** [premium] never panics on [u64]/[u16] inputs (none of its three plain
    subtractions underflows).  It succeeds exactly on [premium_accepts]; then
    [net + fee = gross], [prefunded + net = collateral], the holder prefunds a
    positive amount, and the fee is the smaller of the premium fee (the gross
    premium less the gross premium at the fee-reduced price) and the volume fee on
    the floor-rounded exposure. *)
Theorem premium_accounts t price pb vb :
  terms_typed t -> fits 64 price -> fits 16 pb -> fits 16 vb ->
  let quote p ceil := exact_quote p (quantity t) (quote_decimals t) (underlying_decimals t) ceil in
  match SpreadTerm.premium t price pb vb with
  | Ok r =>
      premium_accepts t price pb vb /\
      sp_collateral r = quote (upper_strike t - lower_strike t) true /\
      sp_gross_premium r = quote price false /\
      sp_protocol_fee r =
        Z.min (quote price false - quote (price - price * pb / 10000) false)
              (quote (upper_strike t - lower_strike t) false * vb / 10000) /\
      0 <= sp_protocol_fee r <= sp_gross_premium r /\
      sp_net_premium r + sp_protocol_fee r = sp_gross_premium r /\
      sp_prefunded_quote r + sp_net_premium r = sp_collateral r /\
      0 < sp_prefunded_quote r
  | Err _ => ~ premium_accepts t price pb vb
  | Panic => False
  end.
Proof.
  intros Ht Hp Hpb Hvb quote. pose proof Ht as (Hl&Hu&Hq&Hqd&Hud).
  unfold SpreadTerm.premium, premium_accepts. cbv zeta.
  pose proof (validate_premium_Ok (kind t) (lower_strike t) (upper_strike t) (quantity t) price
    (proj1 Hl) (proj1 Hq) (proj1 Hp)) as HV.
  pose proof (validate_premium_no_panic (kind t) (lower_strike t) (upper_strike t) (quantity t) price)
    as HN.
  destruct (validate_premium _ _ _ _ _) as [[]|e|] eqn:EV;
    [|intros (?&?&?&_); discriminate (proj2 HV ltac:(done)) | done].
  destruct (proj1 HV eq_refl) as (Hk & Hpw & Hq0). cbn [mbind res_bind]. clear HN HV.
  unfold reject_if. destruct (Z.ltb_spec 10000 pb), (Z.ltb_spec 10000 vb); cbn [orb mbind res_bind];
    [intros ?; lia ..|].
  assert (Hw64 : fits 64 (upper_strike t - lower_strike t)) by (unfold fits in *; lia).
  rewrite collateral_quote by lia. rewrite (quote_cases t _ true) by done.
  destruct (Z.ltb_spec 18 (quote_decimals t)), (Z.ltb_spec 18 (underlying_decimals t));
    cbn [orb mbind res_bind]; [intros ?; lia ..|]. fold (quote (upper_strike t - lower_strike t) true).
  destruct (Z.ltb_spec (quote (upper_strike t - lower_strike t) true) (2 ^ 64)) as [Hc|Hc];
    cbn [mbind res_bind]; [|intros ?; lia].
  assert (Hfc : quote (upper_strike t - lower_strike t) false <=
                quote (upper_strike t - lower_strike t) true)
    by (apply exact_quote_floor_le_ceil, Hud).
  assert (Hq' : forall p, fits 64 p -> p <= upper_strike t - lower_strike t ->
    SpreadTerm.quote t p false = Ok (quote p false) /\
    0 <= quote p false <= quote (upper_strike t - lower_strike t) false)
    by (intros; by apply floor_quote_Ok).
  destruct (Hq' price Hp ltac:(lia)) as [Hg ?].
  destruct (Hq' _ Hw64 ltac:(lia)) as [He ?].
  rewrite Hg, width_cases. destruct (Z.ltb_spec (lower_strike t) (upper_strike t)); [|lia].
  cbn [mbind res_bind]. rewrite He. cbn [mbind res_bind].
  destruct (Z.eqb_spec (quote price false) 0),
    (Z.leb_spec (quote (upper_strike t - lower_strike t) true) (quote price false)),
    (Z.eqb_spec (quote (upper_strike t - lower_strike t) false) 0); cbn [orb mbind res_bind];
    [unfold quote in *; intros ?; lia ..|].
  unfold fits in Hpb, Hvb.
  destruct (premium_split t price pb vb (quote (upper_strike t - lower_strike t) true)
    (quote price false) (quote (upper_strike t - lower_strike t) false)) as (nq & r & Hnq & -> & E);
    [done | done | lia | lia | unfold fits; lia | done | lia |].
  pose proof (bps_floor_bounds price pb ltac:(unfold fits in Hp; lia) ltac:(lia)).
  destruct (Hq' (price - bps_floor price pb)) as [Hnq' _]; [unfold fits in *; lia | lia|].
  rewrite Hnq' in Hnq. injection Hnq as <-. unfold bps_floor in *. destruct E as (?&?&?&?&?&?).
  unfold quote in *. split; [split_and!; (done || lia)|]. split_and!; (done || lia).
Qed.

Lemma premium_accounts_witness :
  SpreadTerm.premium example_terms 4000000000 500 100 =
    Ok {| sp_collateral := 60000001; sp_gross_premium := 12000000; sp_protocol_fee := 600000;
          sp_net_premium := 11400000; sp_prefunded_quote := 48600001 |} /\
  premium_accepts example_terms 4000000000 500 100.
Proof.
  assert (E : SpreadTerm.premium example_terms 4000000000 500 100 =
    Ok {| sp_collateral := 60000001; sp_gross_premium := 12000000; sp_protocol_fee := 600000;
          sp_net_premium := 11400000; sp_prefunded_quote := 48600001 |}) by reflexivity.
  split; [exact E|].
  pose proof (premium_accounts example_terms 4000000000 500 100
    ltac:(unfold terms_typed, fits; simpl; lia) ltac:(unfold fits; lia)
    ltac:(unfold fits; lia) ltac:(unfold fits; lia)) as H.
  cbv zeta in H. rewrite E in H. apply H.
Defined.
