(* ===== verification/Amounts.v ===== *)
(** * Amounts and premiums of physical options

    [src/types/amounts.rs] (the contract's [scaled_quote_amount], the gross premium
    of a fill and the physical premium split) and [Price::after_fee_bps] of
    [src/types/ids.rs].  The [f64] display views are not modelled. *)

From Stdlib Require Import ZArith Lia.
From stdpp Require Import base list.
From S2P Require Import Prelude Spreads.

Open Scope Z_scope.

(* types/mod.rs:4-4 PRICE_SCALE *)
Definition PRICE_SCALE : Z := 1000000000.

(** A Rust function that returns [Option] has [unit] as its error. *)
Definition none {A} : res unit A := Err tt.

(* types/amounts.rs:98-118 scaled_quote_amount *)
Definition scaled_quote_amount (per_unit quantity quote_decimals underlying_decimals : Z)
  : res unit Z :=
  _ ← reject_if ((18 <? quote_decimals) || (18 <? underlying_decimals)) tt;
  quote_scale ← pow_p 128 10 quote_decimals;
  underlying_scale ← pow_p 128 10 underlying_decimals;
  denominator ← mul_p 128 PRICE_SCALE underlying_scale;
  numerator ← mul_p 128 per_unit quantity;
  amount ←
    (if quote_scale <=? denominator then
       divisor ← div_p denominator quote_scale;
       div_p numerator divisor
     else
       factor ← div_p quote_scale denominator;
       ok_or (checked_mul 128 numerator factor) tt);
  ok_or (try_from 64 amount) tt.

(* types/amounts.rs:36-52 total_premium_quote_atoms *)
Definition total_premium_quote_atoms (price quantity underlying_decimals quote_decimals : Z)
  : res unit Z :=
  scaled_quote_amount price quantity quote_decimals underlying_decimals.

(* types/amounts.rs:54-60 PhysicalPremium *)
Record PhysicalPremium := {
  pp_gross_premium : Z;
  pp_protocol_fee : Z;
  pp_net_premium : Z;
}.

(* types/amounts.rs:86-87 physical_premium (closure fee) *)
Definition physical_fee (amount bps : Z) : res unit Z :=
  product ← mul_p 128 amount bps;
  fee ← div_p product 10000;
  ok_or (try_from 64 fee) tt.

(* types/amounts.rs:62-96 physical_premium *)
Definition physical_premium
  (price strike quantity underlying_decimals quote_decimals premium_bps volume_bps : Z)
  : res unit PhysicalPremium :=
  _ ← reject_if ((10000 <? premium_bps) || (10000 <? volume_bps)) tt;
  let quote per_unit :=
    scaled_quote_amount per_unit quantity quote_decimals underlying_decimals in
  gross_premium ← quote price;
  per_unit_fee ← physical_fee price premium_bps;
  net_price ← sub_p price per_unit_fee;
  net_quote ← quote net_price;
  premium_fee ← sub_p gross_premium net_quote;
  notional ← quote strike;
  volume_fee ← physical_fee notional volume_bps;
  let protocol_fee := Z.min premium_fee volume_fee in
  net_premium ← sub_p gross_premium protocol_fee;
  Ok {| pp_gross_premium := gross_premium; pp_protocol_fee := protocol_fee;
        pp_net_premium := net_premium |}.

(* types/ids.rs:25-35 Price::after_fee_bps *)
Definition after_fee_bps (price bps : Z) : res unit Z :=
  product ← mul_p 128 price bps;
  fee ← div_p product 10000;
  Ok (saturating_sub price (match try_from 64 fee with Some f => f | None => umax 64 end)).

(** ** One amount, two routines *)

Lemma scaled_quote_amount_floor per_unit quantity qd ud :
  fits 64 per_unit -> fits 64 quantity -> 0 <= qd -> 0 <= ud ->
  scaled_quote_amount per_unit quantity qd ud =
  map_err (fun _ => tt) (quote_amount per_unit quantity qd ud false).
Proof.
  intros Hp Hq ??. unfold scaled_quote_amount, quote_amount, reject_if, PRICE_SCALE.
  destruct (Z.ltb_spec 18 qd), (Z.ltb_spec 18 ud); [done..|]. cbn [orb mbind res_bind].
  pose proof (mul_u64_fits _ _ Hp Hq) as Hm.
  pose proof (pow10_small qd ltac:(lia)). pose proof (pow10_small ud ltac:(lia)).
  rewrite !pow_p_Ok by lia. cbn [mbind res_bind].
  rewrite !(mul_p_Ok _ 1000000000) by lia. cbn [mbind res_bind].
  rewrite !(mul_p_Ok _ per_unit) by done. cbn [mbind res_bind].
  destruct (Z.leb_spec (10 ^ qd) (1000000000 * 10 ^ ud)).
  - rewrite !div_p_Ok by lia. cbn [mbind res_bind].
    assert (1 <= 1000000000 * 10 ^ ud / 10 ^ qd) by (apply Z.div_le_lower_bound; lia).
    rewrite !div_p_Ok by lia. cbn [mbind res_bind].
    assert (per_unit * quantity / (1000000000 * 10 ^ ud / 10 ^ qd) <= per_unit * quantity)
      by (apply Z.div_le_upper_bound; unfold fits in *; nia).
    rewrite add_p_Ok by lia. cbn [mbind res_bind]. rewrite Z.add_0_r.
    by destruct (try_from 64 _).
  - rewrite !div_p_Ok by lia. cbn [mbind res_bind].
    destruct (checked_mul 128 _ _); cbn [ok_or mbind res_bind]; [by destruct (try_from 64 _) | done].
Qed.

Lemma scaled_quote_amount_Ok per_unit quantity qd ud a :
  fits 64 per_unit -> fits 64 quantity -> 0 <= qd -> 0 <= ud ->
  scaled_quote_amount per_unit quantity qd ud = Ok a <->
  quote_amount per_unit quantity qd ud false = Ok a.
Proof. intros. by rewrite scaled_quote_amount_floor, map_err_Ok. Qed.

Lemma scaled_quote_amount_no_panic per_unit quantity qd ud :
  fits 64 per_unit -> fits 64 quantity -> 0 <= qd -> 0 <= ud ->
  scaled_quote_amount per_unit quantity qd ud <> Panic.
Proof.
  intros. rewrite scaled_quote_amount_floor, quote_amount_unfold by done.
  repeat case_match; try done. by destruct (try_from 64 _).
Qed.

Lemma physical_fee_Ok amount bps :
  fits 64 amount -> 0 <= bps <= 10000 -> physical_fee amount bps = Ok (bps_floor amount bps).
Proof.
  intros Ha Hb. pose proof (fee_bps_Ok amount bps Ha Hb) as H. unfold fee_bps in H.
  inv_ok H. unfold physical_fee. unfold mul_p in *. case_match; [cbn in *|discriminate].
  simplify_eq. cbn in *. simplify_eq. by rewrite H.
Qed.

Lemma scaled_quote_amount_cases per_unit quantity qd ud :
  fits 64 per_unit -> fits 64 quantity -> 0 <= qd <= 18 -> 0 <= ud <= 18 ->
  scaled_quote_amount per_unit quantity qd ud =
    let q := exact_quote per_unit quantity qd ud false in
    if q <? 2 ^ 64 then Ok q else Err tt.
Proof.
  intros. rewrite scaled_quote_amount_floor, quote_amount_unfold by (done || lia).
  unfold try_from. reflect_bool; (done || lia).
Qed.

(** The physical premium split never panics, and on success the fee is the
    smaller of the premium fee and the volume fee on the strike notional, it is at
    most the gross premium, and [net + fee = gross]; it returns [None] only for a
    rate above 10000 bps, decimals above 18, or a gross premium or strike notional
    that does not fit [u64]. *)
Theorem physical_premium_accounts price strike quantity ud qd pb vb :
  fits 64 price -> fits 64 strike -> fits 64 quantity -> fits 8 ud -> fits 8 qd ->
  fits 16 pb -> fits 16 vb ->
  let quote p := exact_quote p quantity qd ud false in
  match physical_premium price strike quantity ud qd pb vb with
  | Ok r =>
      pb <= 10000 /\ vb <= 10000 /\
      pp_gross_premium r = quote price /\
      pp_protocol_fee r =
        Z.min (quote price - quote (price - price * pb / 10000)) (quote strike * vb / 10000) /\
      0 <= pp_protocol_fee r <= pp_gross_premium r /\
      pp_net_premium r + pp_protocol_fee r = pp_gross_premium r
  | Err _ =>
      10000 < pb \/ 10000 < vb \/ 18 < qd \/ 18 < ud \/
      2 ^ 64 <= quote price \/ 2 ^ 64 <= quote strike
  | Panic => False
  end.
Proof.
  intros Hp Hs Hq Hud Hqd Hpb Hvb quote. unfold physical_premium, reject_if.
  destruct (Z.ltb_spec 10000 pb), (Z.ltb_spec 10000 vb); cbn [orb mbind res_bind]; [auto..|].
  destruct (Z.ltb_spec 18 qd), (Z.ltb_spec 18 ud);
    [unfold scaled_quote_amount, reject_if; reflect_bool; try lia; cbn; auto ..|].
  unfold fits in Hud, Hqd, Hpb, Hvb.
  assert (Hsc : forall p, fits 64 p -> scaled_quote_amount p quantity qd ud =
    if quote p <? 2 ^ 64 then Ok (quote p) else Err tt)
    by (intros; apply scaled_quote_amount_cases; (done || lia)).
  assert (Hmono : forall p, 0 <= p <= price -> 0 <= quote p <= quote price).
  { intros p ?. unfold quote, fits in *. split; [apply exact_quote_nonneg | apply exact_quote_mono]; lia. }
  pose proof (bps_floor_bounds price pb ltac:(unfold fits in Hp; lia) ltac:(lia)).
  cbv zeta. rewrite (Hsc price) by done.
  destruct (Z.ltb_spec (quote price) (2 ^ 64)); cbn [mbind res_bind]; [|auto 10].
  rewrite physical_fee_Ok by (done || lia). cbn [mbind res_bind].
  rewrite sub_p_Ok by lia. cbn [mbind res_bind].
  rewrite (Hsc (price - bps_floor price pb)) by (unfold fits in *; lia).
  pose proof (Hmono (price - bps_floor price pb) ltac:(lia)).
  destruct (Z.ltb_spec (quote (price - bps_floor price pb)) (2 ^ 64)); cbn [mbind res_bind]; [|lia].
  rewrite sub_p_Ok by lia. cbn [mbind res_bind].
  rewrite (Hsc strike) by done.
  destruct (Z.ltb_spec (quote strike) (2 ^ 64)); cbn [mbind res_bind]; [|auto 10].
  assert (0 <= quote strike) by (apply exact_quote_nonneg; unfold fits in *; lia).
  rewrite physical_fee_Ok by (unfold fits; lia). cbn [mbind res_bind].
  pose proof (bps_floor_bounds (quote strike) vb ltac:(lia) ltac:(lia)).
  rewrite sub_p_Ok by lia. cbn [mbind res_bind pp_gross_premium pp_protocol_fee pp_net_premium].
  unfold bps_floor in *. split_and!; (done || lia).
Qed.

Lemma physical_premium_accounts_witness :
  physical_premium 2500000000 100000000000 1500000000 9 6 1000 50 =
    Ok {| pp_gross_premium := 3750000; pp_protocol_fee := 375000; pp_net_premium := 3375000 |} /\
  3375000 + 375000 = exact_quote 2500000000 1500000000 6 9 false.
Proof.
  assert (E : physical_premium 2500000000 100000000000 1500000000 9 6 1000 50 =
    Ok {| pp_gross_premium := 3750000; pp_protocol_fee := 375000; pp_net_premium := 3375000 |})
    by reflexivity.
  split; [exact E|].
  pose proof (physical_premium_accounts 2500000000 100000000000 1500000000 9 6 1000 50
    ltac:(unfold fits; lia) ltac:(unfold fits; lia) ltac:(unfold fits; lia) ltac:(unfold fits; lia)
    ltac:(unfold fits; lia) ltac:(unfold fits; lia) ltac:(unfold fits; lia)) as H.
  cbv zeta in H. rewrite E in H. destruct H as (_ & _ & Hg & _ & _ & Hn). rewrite <- Hg. exact Hn.
Defined.

(** [after_fee_bps] never panics and takes off exactly the floor-rounded fee up to
    10000 bps, everything beyond. *)
Lemma after_fee_bps_Ok price bps :
  fits 64 price -> fits 16 bps ->
  after_fee_bps price bps = Ok (Z.max 0 (price - price * bps / 10000)).
Proof.
  intros Hp Hb. unfold after_fee_bps. unfold fits in *.
  rewrite mul_p_Ok by (change (2 ^ 128) with (2 ^ 64 * 2 ^ 64); nia). cbn.
  unfold try_from, saturating_sub, umax.
  destruct (Z.ltb_spec (price * bps / 10000) (2 ^ 64)); [done|]. f_equal. lia.
Qed.
