(* ===== verification/Decimals.v ===== *)
(** * Decimal views ([types/decimal.rs])

    Prices, strikes and quantities as [rust_decimal] values, and back, rounded down.  The
    crate is a parameter: a [Decimal] is an integer of less than 96 bits divided by a power
    of ten of at most 28, so [units] counts it in units of [10 ^ -28], and the laws say what
    the crate documents of the operations used here. *)

From Stdlib Require Import ZArith Lia.
From stdpp Require Import base list.
From S2P Require Import Prelude.

Open Scope Z_scope.

Definition MAX_SCALE : Z := 28.
Definition ONE : Z := 10 ^ MAX_SCALE.

(** [None] of [from_i128_with_scale] is its panic. *)
Class RustDecimal := {
  Decimal : Type;
  units : Decimal -> Z;
  try_from_i128_with_scale : Z -> Z -> option Decimal;
  checked_mul : Decimal -> Decimal -> option Decimal;
  floor : Decimal -> Decimal;
  u64_try_from : Decimal -> option Z;
}.

(** [m * 10 ^ -s] is representable. *)
Definition representable (m s : Z) : Prop := Z.abs m < 2 ^ 96 /\ 0 <= s <= MAX_SCALE.

Class RustDecimalLaws `(D : RustDecimal) : Prop := {
  dec_repr d : exists m s, representable m s /\ units d = m * 10 ^ (MAX_SCALE - s);
  dec_from m s : representable m s -> exists d, try_from_i128_with_scale m s = Some d /\ units d = m * 10 ^ (MAX_SCALE - s);
  dec_from_big m s : 2 ^ 96 <= Z.abs m \/ MAX_SCALE < s -> try_from_i128_with_scale m s = None;
  (** Exact where the product is representable, [None] where it is too large. *)
  dec_mul a b m s : representable m s -> units a * units b = m * 10 ^ (MAX_SCALE - s) * ONE ->
    exists c, checked_mul a b = Some c /\ units c = m * 10 ^ (MAX_SCALE - s);
  dec_mul_big a b : 2 ^ 96 * ONE * ONE <= Z.abs (units a * units b) -> checked_mul a b = None;
  dec_floor d : units (floor d) = units d / ONE * ONE;
  dec_u64 d z : units d = z * ONE -> u64_try_from d = if (0 <=? z) && (z <? 2 ^ 64) then Some z else None;
}.

Section views.
Context `{D : RustDecimal}.

(* types/decimal.rs:8-8 PRICE_DECIMALS *)
Definition PRICE_DECIMALS : Z := 9.
Definition PRICE_SCALE : Z := 10 ^ PRICE_DECIMALS.

(** [Decimal::from_i128_with_scale] panics where [try_from_i128_with_scale] fails. *)
Definition from_i128_with_scale (value scale : Z) : res unit Decimal :=
  match try_from_i128_with_scale value scale with Some d => Ok d | None => Panic end.

(* types/decimal.rs:10-12 scaled *)
Definition scaled (value : Z) : res unit Decimal := from_i128_with_scale value PRICE_DECIMALS.

(* types/decimal.rs:14-18 floor_atoms *)
Definition floor_atoms (value multiplier : Decimal) : option Z :=
  atoms ← checked_mul value multiplier; u64_try_from (floor atoms).

(* types/decimal.rs:20-25 Strike::to_decimal *)
Definition strike_to_decimal (self : Z) : res unit Decimal := scaled self.
(* types/decimal.rs:27-31 Price::to_decimal *)
Definition price_to_decimal (self : Z) : res unit Decimal := scaled self.

(** [Decimal::from(PRICE_SCALE)]: an integer has no fraction. *)
(* types/decimal.rs:33-37 Price::from_decimal_floor *)
Definition price_from_decimal_floor (value : Decimal) : option Z :=
  multiplier ← try_from_i128_with_scale PRICE_SCALE 0; floor_atoms value multiplier.

(* types/decimal.rs:41-47 Quantity::to_decimal *)
Definition quantity_to_decimal (self decimals : Z) : option (res unit Decimal) :=
  if decimals <=? MAX_SCALE then Some (from_i128_with_scale self decimals) else None.

(** [10i128.checked_pow(decimals)]. *)
Definition pow10_i128 (decimals : Z) : option Z := if 10 ^ decimals <? 2 ^ 127 then Some (10 ^ decimals) else None.

(* types/decimal.rs:49-55 Quantity::from_decimal_floor *)
Definition quantity_from_decimal_floor (value : Decimal) (decimals : Z) : option Z :=
  power ← pow10_i128 decimals;
  multiplier ← try_from_i128_with_scale power 0;
  floor_atoms value multiplier.

(** ** Exactness *)

Context `{L : !RustDecimalLaws D}.

Lemma ONE_pos : 0 < ONE.
Proof. done. Qed.

(** The value in atoms of [10 ^ -k], rounded down. *)
Definition atoms (value : Decimal) (k : Z) : Z := units value * 10 ^ k / ONE.

Definition as_u64 (z : Z) : option Z := if (0 <=? z) && (z <? 2 ^ 64) then Some z else None.

Lemma u64_of_floor c a : units c * ONE = a * ONE -> u64_try_from (floor c) = as_u64 (a / ONE).
Proof.
  intros H. apply Z.mul_cancel_r in H; [|done]. rewrite (dec_u64 _ (units c / ONE)) by apply dec_floor. by rewrite H.
Qed.

(** Multiplying by a power of ten loses nothing: the product is representable, or it is too
    large for a [u64] anyway. *)
Lemma floor_atoms_exact value multiplier k :
  0 <= k <= MAX_SCALE -> units multiplier = 10 ^ k * ONE -> floor_atoms value multiplier = as_u64 (atoms value k).
Proof.
  intros Hk Hm. destruct (dec_repr value) as (m & s & [Hr Hs] & Hv). unfold floor_atoms, atoms.
  assert (Hpow : forall x y, 0 <= x -> 0 <= y -> 10 ^ x * 10 ^ y = 10 ^ (x + y)) by (intros; by rewrite Z.pow_add_r).
  unfold MAX_SCALE in *. destruct (Z.le_gt_cases k s) as [Hle|Hgt].
  - destruct (dec_mul value multiplier m (s - k)) as (c & -> & Hc).
    + split; [done|unfold MAX_SCALE; lia].
    + rewrite Hv, Hm. unfold MAX_SCALE. replace (28 - (s - k)) with (28 - s + k) by lia.
      rewrite (Z.pow_add_r 10 (28 - s) k) by lia. ring.
    + cbn. rewrite (u64_of_floor c (units value * 10 ^ k)); [done|]. rewrite Hc, Hv. unfold MAX_SCALE.
      replace (28 - (s - k)) with (28 - s + k) by lia. rewrite (Z.pow_add_r 10 (28 - s) k) by lia. ring.
  - assert (Hprod : units value * 10 ^ k = m * 10 ^ (k - s) * ONE).
    { rewrite Hv. unfold ONE, MAX_SCALE. rewrite <- !Z.mul_assoc, !Hpow by lia. do 2 f_equal. lia. }
    destruct (Z.lt_ge_cases (Z.abs (m * 10 ^ (k - s))) (2 ^ 96)) as [Hlt|Hge].
    + destruct (dec_mul value multiplier (m * 10 ^ (k - s)) 0) as (c & -> & Hc).
      * split; [done|unfold MAX_SCALE; lia].
      * rewrite Hm, Z.mul_assoc, Hprod. unfold MAX_SCALE. rewrite Z.sub_0_r. by change (10 ^ 28) with ONE.
      * cbn. rewrite (u64_of_floor c (units value * 10 ^ k)); [done|]. rewrite Hc, Hprod. unfold MAX_SCALE.
        rewrite Z.sub_0_r. by change (10 ^ 28) with ONE.
    + rewrite dec_mul_big.
      2: { rewrite Hm, Z.mul_assoc, Hprod, !Z.abs_mul, (Z.abs_eq ONE) by (pose proof ONE_pos; lia).
           rewrite Z.abs_mul in Hge. pose proof ONE_pos. nia. }
      cbn. rewrite Hprod, Z.div_mul by done. unfold as_u64. repeat case_match; try done.
      rewrite !andb_true_iff, Z.leb_le, Z.ltb_lt in *. lia.
Qed.

(** Reading a price or a quantity from a decimal is rounding down: the result is the largest
    number of atoms not above the value, exactly when that is a [u64], whatever the value and
    the decimals; and the views of a [u64] exist and read back as it was. *)
Theorem decimal_views_exact :
  (forall value, price_from_decimal_floor value = as_u64 (atoms value 9)) /\
  (forall value decimals, 0 <= decimals ->
     quantity_from_decimal_floor value decimals = if decimals <=? 28 then as_u64 (atoms value decimals) else None) /\
  (forall price, fits 64 price -> exists d, price_to_decimal price = Ok d /\ strike_to_decimal price = Ok d /\
     price_from_decimal_floor d = Some price) /\
  (forall quantity decimals, fits 64 quantity -> 0 <= decimals ->
     match quantity_to_decimal quantity decimals with
     | Some r => decimals <= 28 /\ exists d, r = Ok d /\ quantity_from_decimal_floor d decimals = Some quantity
     | None => 28 < decimals
     end).
Proof.
  assert (Hint : forall k, 0 <= k <= 28 -> exists d, try_from_i128_with_scale (10 ^ k) 0 = Some d /\ units d = 10 ^ k * ONE).
  { intros k Hk. destruct (dec_from (10 ^ k) 0) as (d & Hd & Hu); [|by exists d].
    split; [|unfold MAX_SCALE; lia]. rewrite Z.abs_eq by (apply Z.pow_nonneg; lia).
    apply Z.le_lt_trans with (10 ^ 28); [apply Z.pow_le_mono_r; lia|done]. }
  assert (Hprice : forall value, price_from_decimal_floor value = as_u64 (atoms value 9)).
  { intros value. unfold price_from_decimal_floor. destruct (Hint 9) as (d & Hd & Hu); [lia|].
    change PRICE_SCALE with (10 ^ 9). rewrite Hd. cbn. by apply floor_atoms_exact. }
  assert (Hquant : forall value decimals, 0 <= decimals ->
     quantity_from_decimal_floor value decimals = if decimals <=? 28 then as_u64 (atoms value decimals) else None).
  { intros value k Hk. unfold quantity_from_decimal_floor, pow10_i128. destruct (Z.leb_spec k 28) as [Hle|Hgt].
    - rewrite (proj2 (Z.ltb_lt _ _)) by (apply Z.le_lt_trans with (10 ^ 28); [apply Z.pow_le_mono_r; lia|done]).
      destruct (Hint k) as (d & Hd & Hu); [lia|]. cbn. rewrite Hd. cbn. by apply floor_atoms_exact.
    - destruct (_ <? _); [|done]. cbn. rewrite dec_from_big; [done|]. left. rewrite Z.abs_eq by (apply Z.pow_nonneg; lia).
      apply Z.le_trans with (10 ^ 29); [by vm_compute|apply Z.pow_le_mono_r; lia]. }
  assert (Hback : forall v k, fits 64 v -> 0 <= k <= 28 ->
            exists d, try_from_i128_with_scale v k = Some d /\ as_u64 (atoms d k) = Some v).
  { intros v k Hv Hk. destruct (dec_from v k) as (d & Hd & Hu); [split; [unfold fits in Hv; lia|done]|].
    exists d. split; [done|]. unfold atoms. rewrite Hu, <- Z.mul_assoc, <- Z.pow_add_r by (unfold MAX_SCALE; lia).
    unfold MAX_SCALE. replace (28 - k + k) with 28 by lia. change (10 ^ 28) with ONE. rewrite Z.div_mul by done.
    unfold as_u64, fits in *. rewrite (proj2 (Z.leb_le _ _)), (proj2 (Z.ltb_lt _ _)) by lia. done. }
  split_and!; [done..| |].
  - intros price Hp. destruct (Hback price 9 Hp) as (d & Hd & Ha); [lia|]. exists d.
    unfold price_to_decimal, strike_to_decimal, scaled, from_i128_with_scale. change PRICE_DECIMALS with 9. rewrite Hd, Hprice. done.
  - intros q k Hq Hk. unfold quantity_to_decimal, MAX_SCALE. destruct (Z.leb_spec k 28) as [Hle|Hgt]; [|done].
    split; [done|]. destruct (Hback q k Hq) as (d & Hd & Ha); [lia|]. exists d. unfold from_i128_with_scale.
    rewrite Hd, Hquant by done. by rewrite (proj2 (Z.leb_le _ _) Hle).
Qed.
End views.

(** The laws hold of the exact arithmetic on such numbers. *)
Module DecimalSample.
#[local] Instance representable_dec m s : Decision (representable m s).
Proof. unfold representable. apply _. Defined.

Record dec := { mantissa : Z; dscale : Z; valid : bool_decide (representable mantissa dscale) = true }.
Definition dunits (d : dec) : Z := mantissa d * 10 ^ (MAX_SCALE - dscale d).
Definition make (m s : Z) : option dec :=
  match bool_decide (representable m s) as b return bool_decide (representable m s) = b -> option dec with
  | true => fun H => Some {| mantissa := m; dscale := s; valid := H |}
  | false => fun _ => None
  end eq_refl.
(** The first scale at which the product is exact. *)
Definition exact_at (product s : Z) : option dec :=
  let m := product / (10 ^ (MAX_SCALE - s) * ONE) in
  if m * 10 ^ (MAX_SCALE - s) * ONE =? product then make m s else None.
Definition mul (a b : dec) : option dec := head (omap (exact_at (dunits a * dunits b)) (seqZ 0 29)).

#[local] Instance exact : RustDecimal :=
  {| Decimal := dec; units := dunits; try_from_i128_with_scale := make; checked_mul := mul;
     floor d := default d (make (dunits d / ONE) 0);
     u64_try_from d := let z := dunits d / ONE in if (0 <=? z) && (z <? 2 ^ 64) then Some z else None |}.

Lemma make_Some m s d : make m s = Some d <-> representable m s /\ mantissa d = m /\ dscale d = s.
Proof.
  unfold make. assert (G : forall b (H : bool_decide (representable m s) = b),
    (if b as b0 return bool_decide (representable m s) = b0 -> option dec
     then fun H => Some {| mantissa := m; dscale := s; valid := H |} else fun _ => None) H = Some d <->
    b = true /\ mantissa d = m /\ dscale d = s).
  { intros [|] H; split; [by intros [= <-]| |done|by intros (? & _)]. intros (_ & <- & <-). f_equal.
    destruct d as [m' s' v]. f_equal. apply (eq_pi _ _). }
  rewrite (G _ eq_refl), bool_decide_eq_true. done.
Qed.

Lemma make_rep m s : representable m s -> exists d, make m s = Some d /\ dunits d = m * 10 ^ (MAX_SCALE - s).
Proof.
  intros H. destruct (make m s) as [d|] eqn:E.
  - exists d. split; [done|]. apply make_Some in E as (_ & Hm & Hs). unfold dunits. by rewrite Hm, Hs.
  - exfalso. pose (d := {| mantissa := m; dscale := s; valid := proj2 (bool_decide_eq_true _) H |}).
    assert (make m s = Some d) by (by apply make_Some). congruence.
Qed.

Lemma exact_at_Some p s d : exact_at p s = Some d -> dunits d * ONE = p.
Proof.
  unfold exact_at. cbv zeta. destruct (Z.eqb_spec (p / (10 ^ (MAX_SCALE - s) * ONE) * 10 ^ (MAX_SCALE - s) * ONE) p); [|done].
  intros (_ & Hm & Hs)%make_Some. unfold dunits. by rewrite Hm, Hs.
Qed.

Lemma exact_at_rep m s : representable m s -> exists d, exact_at (m * 10 ^ (MAX_SCALE - s) * ONE) s = Some d.
Proof.
  intros H. unfold exact_at. cbv zeta. assert (0 < 10 ^ (MAX_SCALE - s)) by (apply Z.pow_pos_nonneg; destruct H; lia).
  assert (Hq : m * 10 ^ (MAX_SCALE - s) * ONE / (10 ^ (MAX_SCALE - s) * ONE) = m).
  { rewrite <- Z.mul_assoc. apply Z.div_mul. pose proof ONE_pos. nia. }
  rewrite Hq, Z.eqb_refl.
  destruct (make_rep m s H) as (d & -> & _). by exists d.
Qed.

Lemma valid_rep (d : dec) : representable (mantissa d) (dscale d).
Proof. exact (proj1 (bool_decide_eq_true _) (valid d)). Qed.

Lemma units_bound d : Z.abs (dunits d) < 2 ^ 96 * ONE.
Proof.
  destruct (valid_rep d) as [Hm Hs]. unfold dunits. rewrite Z.abs_mul, (Z.abs_eq (10 ^ _)) by (apply Z.pow_nonneg; lia).
  assert (0 < 10 ^ (MAX_SCALE - dscale d) <= ONE).
  { split; [apply Z.pow_pos_nonneg; lia|apply Z.pow_le_mono_r; lia]. }
  nia.
Qed.

#[local] Instance exact_laws : RustDecimalLaws exact.
Proof.
  split; cbn.
  - intros d. exists (mantissa d), (dscale d). split; [apply valid_rep|done].
  - apply make_rep.
  - intros m s H. destruct (make m s) as [d|] eqn:E; [|done]. apply make_Some in E as ([? ?] & _ & _). lia.
  - intros a b m s H Hp. unfold mul. rewrite Hp. destruct (exact_at_rep m s H) as [d Hd].
    assert (Hin : d ∈ omap (exact_at (m * 10 ^ (MAX_SCALE - s) * ONE)) (seqZ 0 29)).
    { apply list_elem_of_omap. exists s. split; [|done]. apply elem_of_seqZ. destruct H as [_ H]. unfold MAX_SCALE in H. lia. }
    destruct (omap _ _) as [|c l] eqn:E; [by apply not_elem_of_nil in Hin|]. exists c. split; [done|].
    assert (Hc : c ∈ omap (exact_at (m * 10 ^ (MAX_SCALE - s) * ONE)) (seqZ 0 29)) by (rewrite E; apply list_elem_of_here).
    apply list_elem_of_omap in Hc as (s' & _ & Hc). apply exact_at_Some in Hc. apply Z.mul_cancel_r in Hc; done.
  - intros a b H. unfold mul. destruct (omap _ _) as [|c l] eqn:E; [done|]. exfalso.
    assert (Hc : c ∈ omap (exact_at (dunits a * dunits b)) (seqZ 0 29)) by (rewrite E; apply list_elem_of_here).
    apply list_elem_of_omap in Hc as (s' & _ & Hc). apply exact_at_Some in Hc. rewrite <- Hc in H.
    rewrite Z.abs_mul, (Z.abs_eq ONE) in H by (pose proof ONE_pos; lia). pose proof (units_bound c). pose proof ONE_pos. nia.
  - intros d. destruct (make_rep (dunits d / ONE) 0) as (c & -> & Hc); [|exact Hc].
    split; [|unfold MAX_SCALE; lia]. pose proof (units_bound d) as Hb. pose proof ONE_pos.
    assert (- (2 ^ 96) < dunits d / ONE < 2 ^ 96); [|lia]. split; [|apply Z.div_lt_upper_bound; lia].
    destruct (valid_rep d) as [Hm Hs]. apply Z.lt_le_trans with (- (2 ^ 96) + 1); [lia|].
    apply Z.div_le_lower_bound; [done|].
    destruct (Z.eq_dec (dscale d) 0) as [E|Hne].
    + unfold dunits. rewrite E. change (10 ^ (MAX_SCALE - 0)) with ONE. nia.
    + assert (10 ^ (MAX_SCALE - dscale d) <= 10 ^ 27) by (apply Z.pow_le_mono_r; unfold MAX_SCALE; lia).
      assert (0 < 10 ^ (MAX_SCALE - dscale d)) by (apply Z.pow_pos_nonneg; lia).
      unfold dunits. change ONE with (10 * 10 ^ 27). nia.
  - intros d z ->. by rewrite Z.div_mul by done.
Qed.

(** 0.1 at nine decimals, one atom more at ten, and a negative price. *)
Example decimal_sample :
  (d ← make 1000000005 10; price_from_decimal_floor d) = Some 100000000 /\
  (d ← make 1000000005 10; quantity_from_decimal_floor d 10) = Some 1000000005 /\
  (d ← make (-1) 28; price_from_decimal_floor d) = None.
Proof. by vm_compute. Qed.
End DecimalSample.
