(* ===== verification/Terms.v ===== *)
(** * Option terms, products and delegate permissions

    [src/types/ids.rs] (public and chain option terms), [src/types/products.rs] (the
    product policy bit set) and [src/types/vault.rs] (delegate permission bits).
    Strikes are [u64]. *)

From Stdlib Require Import ZArith Lia.
From stdpp Require Import base list sets gmap.
From S2P Require Import Prelude Spreads.

Open Scope Z_scope.

Module PositionType.
(* types/ids.rs:183-189 PositionType *)
Inductive t := CoveredCall | CashSecuredPut | CallSpread | PutSpread | CashPut.
#[global] Instance t_eq_dec : EqDecision t.
Proof. solve_decision. Defined.

(* types/ids.rs:198-200 PositionType::is_spread *)
Definition is_spread (p : t) : bool :=
  match p with CallSpread | PutSpread | CashPut => true | _ => false end.

(* types/ids.rs:201-203 PositionType::is_put *)
Definition is_put (p : t) : bool :=
  match p with CashSecuredPut | PutSpread | CashPut => true | _ => false end.
End PositionType.

Module ChainPositionType.
(* types/ids.rs:353-362 ChainPositionType *)
Inductive t := CoveredCall | CashSecuredPut | CallSpread | PutSpread.
#[global] Instance t_eq_dec : EqDecision t.
Proof. solve_decision. Defined.

(* types/ids.rs:368-379 TryFrom<u8> for ChainPositionType *)
Definition try_from (value : Z) : res Z t :=
  match value with
  | 0 => Ok CoveredCall
  | 1 => Ok CashSecuredPut
  | 2 => Ok CallSpread
  | 3 => Ok PutSpread
  | _ => Err value
  end.

(* types/ids.rs:380-384 From<ChainPositionType> for u8 *)
Definition to_u8 (p : t) : Z :=
  match p with CoveredCall => 0 | CashSecuredPut => 1 | CallSpread => 2 | PutSpread => 3 end.

(* types/ids.rs:386-389 ChainPositionType::is_spread *)
Definition is_spread (p : t) : bool :=
  match p with CallSpread | PutSpread => true | _ => false end.

(* types/ids.rs:390-393 ChainPositionType::is_put *)
Definition is_put (p : t) : bool :=
  match p with CashSecuredPut | PutSpread => true | _ => false end.

(* types/ids.rs:394-397 ChainPositionType::uses_quote_collateral *)
Definition uses_quote_collateral (p : t) : bool :=
  match p with CoveredCall => false | _ => true end.
End ChainPositionType.

Module ChainTerms.
(* types/ids.rs:400-416 ChainTerms *)
Inductive t :=
| CoveredCall (strike : Z)
| CashSecuredPut (strike : Z)
| CallSpread (lower_strike upper_strike : Z)
| PutSpread (lower_strike upper_strike : Z).
#[global] Instance t_eq_dec : EqDecision t.
Proof. solve_decision. Defined.

(* types/ids.rs:418-446 ChainTerms::from_parts *)
Definition from_parts (product : ChainPositionType.t) (strike : Z) (upper : option Z)
  : res SpreadError.t t :=
  match product, upper with
  | ChainPositionType.CoveredCall, None =>
      if 0 <? strike then Ok (CoveredCall strike) else Err SpreadError.InvalidStrikes
  | ChainPositionType.CashSecuredPut, None =>
      if 0 <? strike then Ok (CashSecuredPut strike) else Err SpreadError.InvalidStrikes
  | ChainPositionType.CallSpread, Some upper_strike =>
      if (0 <? strike) && (strike <? upper_strike)
      then Ok (CallSpread strike upper_strike) else Err SpreadError.InvalidStrikes
  | ChainPositionType.PutSpread, Some upper_strike =>
      if strike <? upper_strike
      then Ok (PutSpread strike upper_strike) else Err SpreadError.InvalidStrikes
  | _, _ => Err SpreadError.InvalidStrikes
  end.

(* types/ids.rs:447-455 ChainTerms::position_type *)
Definition position_type (c : t) : ChainPositionType.t :=
  match c with
  | CoveredCall _ => ChainPositionType.CoveredCall
  | CashSecuredPut _ => ChainPositionType.CashSecuredPut
  | CallSpread _ _ => ChainPositionType.CallSpread
  | PutSpread _ _ => ChainPositionType.PutSpread
  end.

(* types/ids.rs:456-464 ChainTerms::strike *)
Definition strike (c : t) : Z :=
  match c with
  | CoveredCall s | CashSecuredPut s => s
  | CallSpread lower_strike _ | PutSpread lower_strike _ => lower_strike
  end.

(* types/ids.rs:465-473 ChainTerms::upper_strike *)
Definition upper_strike (c : t) : option Z :=
  match c with
  | CoveredCall _ | CashSecuredPut _ => None
  | CallSpread _ upper | PutSpread _ upper => Some upper
  end.

(** The terms the contract can hold. *)
Definition valid (c : t) : Prop :=
  match c with
  | CoveredCall s | CashSecuredPut s => 0 < s
  | CallSpread l u => 0 < l < u
  | PutSpread l u => l < u
  end.

(** The strikes are [u64]s. *)
Definition typed (c : t) : Prop :=
  match c with
  | CoveredCall s | CashSecuredPut s => fits 64 s
  | CallSpread l u | PutSpread l u => fits 64 l /\ fits 64 u
  end.
End ChainTerms.

Module OptionTerms.
(* types/ids.rs:206-231 OptionTerms *)
Inductive t :=
| CashPut (strike : Z)
| CoveredCall (strike : Z)
| CashSecuredPut (strike : Z)
| CallSpread (lower_strike upper_strike : Z)
| PutSpread (lower_strike upper_strike : Z).
#[global] Instance t_eq_dec : EqDecision t.
Proof. solve_decision. Defined.

(* types/ids.rs:255-264 OptionTerms::position_type *)
Definition position_type (o : t) : PositionType.t :=
  match o with
  | CashPut _ => PositionType.CashPut
  | CoveredCall _ => PositionType.CoveredCall
  | CashSecuredPut _ => PositionType.CashSecuredPut
  | CallSpread _ _ => PositionType.CallSpread
  | PutSpread _ _ => PositionType.PutSpread
  end.

(* types/ids.rs:234-236 OptionTerms::is_spread *)
Definition is_spread (o : t) : bool := PositionType.is_spread (position_type o).

(* types/ids.rs:237-253 OptionTerms::with_strike *)
Definition with_strike (o : t) (strike : Z) : t :=
  match o with
  | CashPut _ => CashPut strike
  | CoveredCall _ => CoveredCall strike
  | CashSecuredPut _ => CashSecuredPut strike
  | CallSpread _ upper_strike => CallSpread strike upper_strike
  | PutSpread _ upper_strike => PutSpread strike upper_strike
  end.

(* types/ids.rs:266-275 OptionTerms::strike *)
Definition strike (o : t) : Z :=
  match o with
  | CashPut s | CoveredCall s | CashSecuredPut s => s
  | CallSpread lower_strike _ | PutSpread lower_strike _ => lower_strike
  end.

(* types/ids.rs:277-286 OptionTerms::upper_strike *)
Definition upper_strike (o : t) : option Z :=
  match o with
  | CashPut s => Some s
  | CoveredCall _ | CashSecuredPut _ => None
  | CallSpread _ upper | PutSpread _ upper => Some upper
  end.

(* types/ids.rs:288-313 OptionTerms::to_chain *)
Definition to_chain (o : t) : ChainTerms.t :=
  match o with
  | CoveredCall strike => ChainTerms.CoveredCall strike
  | CashSecuredPut strike => ChainTerms.CashSecuredPut strike
  | CallSpread lower upper => ChainTerms.CallSpread lower upper
  | PutSpread lower upper => ChainTerms.PutSpread lower upper
  | CashPut strike => ChainTerms.PutSpread 0 strike
  end.

(* types/ids.rs:315-342 OptionTerms::from_chain *)
Definition from_chain (c : ChainTerms.t) : t :=
  match c with
  | ChainTerms.CoveredCall strike => CoveredCall strike
  | ChainTerms.CashSecuredPut strike => CashSecuredPut strike
  | ChainTerms.CallSpread lower upper => CallSpread lower upper
  | ChainTerms.PutSpread 0 upper => CashPut upper
  | ChainTerms.PutSpread lower upper => PutSpread lower upper
  end.

(* types/ids.rs:344-350 OptionTerms::from_chain_parts *)
Definition from_chain_parts (product : ChainPositionType.t) (strike : Z) (upper : option Z)
  : res SpreadError.t t :=
  from_chain <$> ChainTerms.from_parts product strike upper.
End OptionTerms.

Module TakerSide.
(* types/ids.rs:476-498 TakerSide *)
Inductive t := Sell | Buy.
#[global] Instance t_eq_dec : EqDecision t.
Proof. solve_decision. Defined.

(* types/ids.rs:500-505 TakerSide::is_taker_buy *)
Definition is_taker_buy (s : t) : bool := match s with Buy => true | Sell => false end.
End TakerSide.

(** ** The product policy *)

Module ProductSet.
(* types/products.rs:12-20 product_bit *)
Definition product_bit (product : PositionType.t) : Z :=
  match product with
  | PositionType.CoveredCall => 1
  | PositionType.CashSecuredPut => 2
  | PositionType.CallSpread => 4
  | PositionType.PutSpread => 8
  | PositionType.CashPut => 16
  end.

(** A [ProductSet] is its private [u8]. *)
(* types/products.rs:37-43 ProductSet::from_bits *)
Definition from_bits (bits : Z) : res unit Z :=
  if (bits =? 0) || (31 <? bits) then Err tt else Ok bits.

(** The loop of [new], from the bits gathered so far. *)
(* types/products.rs:25-35 ProductSet::new (loop) *)
Fixpoint new_from (bits : Z) (products : list PositionType.t) : res unit Z :=
  match products with
  | [] => from_bits bits
  | product :: products =>
      let bit := product_bit product in
      if negb (Z.land bits bit =? 0) then Err tt
      else new_from (Z.lor bits bit) products
  end.

(* types/products.rs:25-35 ProductSet::new *)
Definition new (products : list PositionType.t) : res unit Z := new_from 0 products.

(* types/products.rs:50-53 ProductSet::contains *)
Definition contains (self : Z) (product : PositionType.t) : bool :=
  negb (Z.land self (product_bit product) =? 0).

(** The array [iter] walks. *)
Definition all_products : list PositionType.t :=
  [PositionType.CoveredCall; PositionType.CashSecuredPut; PositionType.CallSpread;
   PositionType.PutSpread; PositionType.CashPut].

(* types/products.rs:55-65 ProductSet::iter *)
Definition iter (self : Z) : list PositionType.t :=
  List.filter (contains self) all_products.

(* types/products.rs:23-23 ProductSet::ALL *)
Definition ALL : Z := 31.
(* types/products.rs:24-24 ProductSet::PHYSICAL *)
Definition PHYSICAL : Z := 3.
End ProductSet.

(** ** Delegate permissions *)

Module VaultStagingStep.
(* types/vault.rs:12-19 VaultStagingStep *)
Inductive t := Stage | Unstage.
End VaultStagingStep.
#[export] Instance staging_step_eq_dec : EqDecision VaultStagingStep.t.
Proof. solve_decision. Defined.

Module VaultSwapMode.
(* types/vault.rs:29-36 VaultSwapMode *)
Inductive t := Rebalance | Recovery | Closing.
End VaultSwapMode.
#[export] Instance swap_mode_eq_dec : EqDecision VaultSwapMode.t.
Proof. solve_decision. Defined.

Module VaultSwapDirection.
(* types/vault.rs:38-44 VaultSwapDirection *)
Inductive t := MainToSecond | SecondToMain.
End VaultSwapDirection.

Module VaultDelegatePermissions.
(** A permission set is its [u32]; unknown bits are kept. *)
(* types/vault.rs:51-60 VaultDelegatePermissions constants *)
Definition KNOWN_MASK : Z := 127.
Definition OPEN_AS_WRITER : Z := Z.shiftl 1 0.
Definition SIGN_HOLDER_QUOTES : Z := Z.shiftl 1 1.
Definition FUND_HOLDER : Z := Z.shiftl 1 2.
Definition REBALANCE : Z := Z.shiftl 1 3.
Definition PROCESS_CAPITAL : Z := Z.shiftl 1 4.
Definition SET_DEPOSIT_WINDOW : Z := Z.shiftl 1 5.
Definition SIGN_WRITER_QUOTES : Z := Z.shiftl 1 6.

(* types/vault.rs:72-75 VaultDelegatePermissions::contains *)
Definition contains (self other : Z) : bool := Z.land self other =? other.

(* types/vault.rs:77-80 VaultDelegatePermissions::union *)
Definition union (self other : Z) : Z := Z.lor self other.

(* types/vault.rs:82-86 VaultDelegatePermissions::can_maker *)
Definition can_maker (self : Z) : bool := contains self SIGN_HOLDER_QUOTES.
(* types/vault.rs:88-92 VaultDelegatePermissions::can_write_buys *)
Definition can_write_buys (self : Z) : bool := contains self SIGN_WRITER_QUOTES.
(* types/vault.rs:94-98 VaultDelegatePermissions::can_taker *)
Definition can_taker (self : Z) : bool := contains self OPEN_AS_WRITER.
End VaultDelegatePermissions.

(** ** Chain and public terms *)

Lemma to_chain_from_chain c : OptionTerms.to_chain (OptionTerms.from_chain c) = c.
Proof. destruct c as [| | |l u]; try done. by destruct l. Qed.

Lemma from_parts_Ok product strike upper c :
  ChainTerms.from_parts product strike upper = Ok c <->
    ChainTerms.valid c /\ ChainTerms.position_type c = product /\
    ChainTerms.strike c = strike /\ ChainTerms.upper_strike c = upper.
Proof.
  split.
  - unfold ChainTerms.from_parts. intros H. destruct product, upper; try discriminate H;
      reflect_bool; simplify_eq; simpl; auto with lia.
  - intros (Hv & <- & <- & <-). destruct c; simpl in *; reflect_bool; (done || lia).
Qed.

(** The public and the contract's representation of option terms carry the
    same information.  A chain term survives the public form; a public term
    survives the chain form unless it is the one non-canonical spelling, a put
    spread with a zero lower strike, which comes back as the cash put with the same
    upper strike; and parsing a position's discriminant, strike and optional upper
    strike accepts exactly the valid terms and gives back the parsed parts. *)
Theorem terms_roundtrip :
  (forall c, OptionTerms.to_chain (OptionTerms.from_chain c) = c) /\
  (forall o, OptionTerms.from_chain (OptionTerms.to_chain o) =
     match o with OptionTerms.PutSpread 0 u => OptionTerms.CashPut u | _ => o end) /\
  (forall product strike upper o,
     OptionTerms.from_chain_parts product strike upper = Ok o <->
       ChainTerms.valid (OptionTerms.to_chain o) /\
       OptionTerms.from_chain (OptionTerms.to_chain o) = o /\
       ChainTerms.position_type (OptionTerms.to_chain o) = product /\
       ChainTerms.strike (OptionTerms.to_chain o) = strike /\
       ChainTerms.upper_strike (OptionTerms.to_chain o) = upper) /\
  (forall p, ChainPositionType.try_from (ChainPositionType.to_u8 p) = Ok p).
Proof.
  split; [apply to_chain_from_chain|]. split; [|split].
  - by intros [].
  - intros product strike upper o. unfold OptionTerms.from_chain_parts. split.
    + intros H. destruct (ChainTerms.from_parts _ _ _) as [c| |] eqn:Hc; [|discriminate H ..].
      injection H as <-. rewrite to_chain_from_chain. apply from_parts_Ok in Hc. naive_solver.
    + intros (Hv & Ho & Hp). rewrite (proj2 (from_parts_Ok _ _ _ (OptionTerms.to_chain o))).
      * cbn. by rewrite Ho.
      * naive_solver.
  - by intros [].
Qed.

(** ** Products *)

Lemma small_bits (P : Z -> bool) b :
  0 <= b <= 31 -> forallb P (seqZ 0 32) = true -> P b = true.
Proof.
  intros Hb H. rewrite forallb_forall in H. apply H.
  apply list_elem_of_In, elem_of_seqZ. lia.
Qed.

Lemma product_bit_bounds p : 0 <= ProductSet.product_bit p <= 31.
Proof. destruct p; simpl; lia. Qed.

Lemma lor_small b p : 0 <= b <= 31 -> 0 <= Z.lor b (ProductSet.product_bit p) <= 31.
Proof.
  intros Hb. pose proof (small_bits (fun b => forallb (fun p =>
    bool_decide (0 <= Z.lor b (ProductSet.product_bit p) <= 31)) ProductSet.all_products)
    b Hb eq_refl) as H.
  rewrite forallb_forall in H. specialize (H p ltac:(destruct p; simpl; tauto)).
  by apply bool_decide_eq_true in H.
Qed.

Lemma contains_lor b p q :
  0 <= b <= 31 ->
  ProductSet.contains (Z.lor b (ProductSet.product_bit p)) q =
  ProductSet.contains b q || bool_decide (q = p).
Proof.
  intros _. unfold ProductSet.contains. rewrite Z.land_lor_distr_l.
  assert (Hpq : Z.land (ProductSet.product_bit p) (ProductSet.product_bit q) =
    if bool_decide (q = p) then ProductSet.product_bit p else 0) by (by destruct p, q).
  rewrite Hpq. case_bool_decide as E.
  - subst q. rewrite orb_true_r. destruct (Z.eqb_spec (Z.lor
      (Z.land b (ProductSet.product_bit p)) (ProductSet.product_bit p)) 0) as [H|]; [|done].
    apply Z.lor_eq_0_iff in H as [_ H]. by destruct p.
  - by rewrite Z.lor_0_r, orb_false_r.
Qed.

Lemma contains_zero q : ProductSet.contains 0 q = false.
Proof. done. Qed.

Lemma new_from_Ok products b s :
  0 <= b <= 31 ->
  ProductSet.new_from b products = Ok s <->
    NoDup products /\ (forall p, p ∈ products -> ProductSet.contains b p = false) /\
    s = foldl (fun b p => Z.lor b (ProductSet.product_bit p)) b products /\ 0 < s <= 31.
Proof.
  revert b; induction products as [|p ps IH]; intros b Hb; simpl.
  - unfold ProductSet.from_bits. split.
    + intros H. reflect_bool; simplify_eq. split_and!; [constructor | set_solver | done | lia..].
    + intros (_ & _ & -> & ?). reflect_bool; (done || lia).
  - change (negb (Z.land b (ProductSet.product_bit p) =? 0)) with (ProductSet.contains b p).
    destruct (ProductSet.contains b p) eqn:Hc.
    + split; [done|]. intros (_ & H & _). rewrite (H p) in Hc; [done | set_solver].
    + rewrite IH by (by apply lor_small). rewrite NoDup_cons. split.
      * intros (Hnd & Hn & Hs & ?).
        assert (p ∉ ps). { intros Hin. specialize (Hn p Hin). rewrite contains_lor in Hn by done.
          rewrite bool_decide_true, orb_true_r in Hn by done. done. }
        split_and!; try done; try lia. intros q [->|Hq]%elem_of_cons; [done|].
        specialize (Hn q Hq). rewrite contains_lor in Hn by done. by apply orb_false_iff in Hn as [? _].
      * intros ([Hni Hnd] & Hn & Hs & ?). split_and!; try done; try lia.
        intros q Hq. rewrite contains_lor, (Hn q) by (done || set_solver).
        apply bool_decide_eq_false. set_solver.
Qed.

Lemma contains_fold products b q :
  0 <= b <= 31 ->
  ProductSet.contains (foldl (fun b p => Z.lor b (ProductSet.product_bit p)) b products) q =
  ProductSet.contains b q || bool_decide (q ∈ products).
Proof.
  revert b; induction products as [|p ps IH]; intros b Hb; simpl.
  - by rewrite orb_false_r.
  - rewrite IH, contains_lor by (done || by apply lor_small). rewrite <- orb_assoc. f_equal.
    repeat case_bool_decide; set_solver.
Qed.

Lemma lor_positive b p : 0 <= b <= 31 -> 0 < Z.lor b (ProductSet.product_bit p).
Proof.
  intros Hb. pose proof (lor_small b p Hb). assert (Z.lor b (ProductSet.product_bit p) <> 0); [|lia].
  rewrite Z.lor_eq_0_iff. intros [_ H']. by destruct p.
Qed.

Lemma fold_bounds products b :
  0 <= b <= 31 -> (0 < b \/ products <> []) ->
  0 < foldl (fun b p => Z.lor b (ProductSet.product_bit p)) b products <= 31.
Proof.
  revert b; induction products as [|p ps IH]; intros b Hb Hn; simpl.
  - destruct Hn; [lia | done].
  - apply IH; [by apply lor_small | left; by apply lor_positive].
Qed.

Lemma new_Ok products s :
  ProductSet.new products = Ok s <->
    products <> [] /\ NoDup products /\
    s = foldl (fun b p => Z.lor b (ProductSet.product_bit p)) 0 products.
Proof.
  unfold ProductSet.new. rewrite new_from_Ok by lia. split.
  - intros (? & _ & Hs & ?). split_and!; [|done|done]. intros ->. simpl in Hs. lia.
  - intros (Hne & ? & Hs). pose proof (fold_bounds products 0 ltac:(lia) ltac:(auto)).
    split_and!; try done; lia.
Qed.

Lemma iter_contains s p : p ∈ ProductSet.iter s <-> ProductSet.contains s p = true.
Proof.
  unfold ProductSet.iter. rewrite list_elem_of_In, filter_In.
  split; [by intros [_ ?] | intros ?; split; [destruct p; simpl; tauto | done]].
Qed.

(** A product policy is a non-empty set.  [new] accepts a list exactly when it
    is non-empty and has no duplicate, and then the set contains exactly the
    listed products, whatever their order; and every stored policy, listed by
    [iter] (its serialized form), is accepted by [new] and read back unchanged. *)
Theorem product_set_roundtrip :
  (forall products, is_ok (ProductSet.new products) = true <-> products <> [] /\ NoDup products) /\
  (forall products s p, ProductSet.new products = Ok s ->
     ProductSet.contains s p = bool_decide (p ∈ products)) /\
  (forall bits s, fits 8 bits -> ProductSet.from_bits bits = Ok s ->
     ProductSet.new (ProductSet.iter s) = Ok s).
Proof.
  split; [|split].
  - intros products. destruct (ProductSet.new products) as [s| |] eqn:E; simpl.
    + apply new_Ok in E as (?&?&_). done.
    + split; [done|]. intros [Hne Hnd].
      by rewrite (proj2 (new_Ok products _) (conj Hne (conj Hnd eq_refl))) in E.
    + split; [done|]. intros [Hne Hnd].
      by rewrite (proj2 (new_Ok products _) (conj Hne (conj Hnd eq_refl))) in E.
  - intros products s p (_ & _ & ->)%new_Ok. by rewrite contains_fold by lia.
  - unfold ProductSet.from_bits. intros bits s [Hb _] H. reflect_bool; try discriminate H.
    injection H as <-.
    pose proof (small_bits (fun b => (b =? 0) ||
      bool_decide (ProductSet.new (ProductSet.iter b) = Ok b)) bits ltac:(lia) eq_refl) as Hs.
    simpl in Hs. reflect_bool; [lia|]. by apply bool_decide_eq_true in Hs.
Qed.

Lemma product_set_roundtrip_witness :
  ProductSet.new [PositionType.PutSpread; PositionType.CoveredCall] = Ok 9 /\
  ProductSet.contains 9 PositionType.PutSpread = true /\
  ProductSet.new (ProductSet.iter 9) = Ok 9.
Proof.
  split; [reflexivity|]. split.
  - rewrite (proj1 (proj2 product_set_roundtrip) [PositionType.PutSpread; PositionType.CoveredCall] 9
      PositionType.PutSpread eq_refl). reflexivity.
  - apply (proj2 (proj2 product_set_roundtrip) 9 9); [unfold fits; lia | reflexivity].
Defined.

(** ** Permissions *)

(** [contains] is inclusion of bits, so it is a preorder and [union] its join. *)
Lemma permissions_contains self other :
  VaultDelegatePermissions.contains self other = true <->
  forall i, 0 <= i -> Z.testbit other i = true -> Z.testbit self i = true.
Proof.
  unfold VaultDelegatePermissions.contains. rewrite Z.eqb_eq. split.
  - intros H i Hi Ho. rewrite <- H, Z.land_spec in Ho. by apply andb_true_iff in Ho as [? _].
  - intros H. apply Z.bits_inj'. intros i Hi. rewrite Z.land_spec.
    specialize (H i Hi). destruct (Z.testbit other i); [by rewrite H | by rewrite andb_false_r].
Qed.

Lemma permissions_union self other req :
  VaultDelegatePermissions.contains self req = true \/
  VaultDelegatePermissions.contains other req = true ->
  VaultDelegatePermissions.contains (VaultDelegatePermissions.union self other) req = true.
Proof.
  unfold VaultDelegatePermissions.union. rewrite !permissions_contains.
  intros [H|H] i Hi Hr; rewrite Z.lor_spec, (H i Hi Hr); [done | by rewrite orb_true_r].
Qed.
