(* ===== verification/Signing.v ===== *)
(** * Signers and textual keys

    [src/signing.rs] (the asynchronous signer and its verification), the signer
    half of [src/orders/mod.rs] ([SignerLike], [BytesSigner]) and [src/wire.rs]
    (hex and base58 of fixed size).  SHA-256, Ed25519, hex and base58 are other
    crates' code: the class [Crypto] holds them as parameters, and [CryptoLaws] what
    their documentation promises. *)

From Stdlib Require Import ZArith Lia String Ascii.
From stdpp Require Import base list strings.
From S2P Require Import Prelude.

Open Scope Z_scope.

(** The third-party operations the SDK calls. *)
Class Crypto := {
  sha256 : bytes -> bytes;
  (** [SigningKey::from_bytes(secret).verifying_key().to_bytes()] *)
  verifying_key : bytes -> key;
  (** [SigningKey::sign] *)
  ed_sign : bytes -> bytes -> bytes;
  (** [VerifyingKey::from_bytes] *)
  vk_from_bytes : key -> res string unit;
  (** [Verifier::verify] and [VerifyingKey::verify_strict]: key, message, signature *)
  ed_verify : key -> bytes -> bytes -> bool;
  ed_verify_strict : key -> bytes -> bytes -> bool;
  hex_decode : string -> res string bytes;
  hex_encode : bytes -> string;
  bs58_decode : string -> res string bytes;
  bs58_encode : bytes -> string;
}.

(** What the crates document: output sizes, a signature verifies under its own key,
    and decoding inverts encoding. *)
Class CryptoLaws (C : Crypto) := {
  sha256_array m : is_array 32 (sha256 m);
  verifying_key_array s : is_array 32 (verifying_key s);
  ed_sign_array s m : is_array 64 (ed_sign s m);
  vk_own_key s : vk_from_bytes (verifying_key s) = Ok tt;
  ed_verify_own s m : ed_verify (verifying_key s) m (ed_sign s m) = true;
  hex_decode_encode b : is_bytes b -> hex_decode (hex_encode b) = Ok b;
  hex_encode_no_prefix b : String.prefix "0x" (hex_encode b) = false;
  bs58_decode_encode b : is_bytes b -> bs58_decode (bs58_encode b) = Ok b;
}.

Module WireError.
(* wire.rs:12-20 WireError *)
Inductive t :=
| InvalidHex (e : string)
| InvalidBase58 (e : string)
| InvalidLength (expected actual : nat).
End WireError.

Module OrderError.
(* orders/mod.rs:131-145 OrderError *)
Inductive t :=
| SpreadLayoutRequired
| KeypairPublicKeyMismatch
| InvalidSigningKey (e : string)
| InvalidVerifyingKey (e : string)
| InvalidSignature
| Wire (e : WireError.t).
End OrderError.

(** [SigningError] is its message. *)
Abbreviation SigningError := string (only parsing).

(** [str::strip_prefix]. *)
Definition strip_prefix (p s : string) : option string :=
  if String.prefix p s
  then Some (String.substring (String.length p) (String.length s - String.length p) s)
  else None.

(** A signer that answers at once, and one that answers a future (modelled by the
    value the future resolves to). *)
(* orders/mod.rs:50-62 SignerLike *)
Class SignerLike (T : Type) := {
  pubkey_bytes : T -> key;
  sign_message : T -> bytes -> bytes;
}.

(* signing.rs:25-32 AsyncSignerLike *)
Class AsyncSignerLike (T : Type) := {
  async_pubkey_bytes : T -> key;
  async_sign_message : T -> bytes -> res SigningError bytes;
}.

Section wire.
Context `{C : Crypto}.

(* wire.rs:22-34 decode_hex_32 *)
Definition decode_hex_32 (hex_str : string) : res WireError.t bytes :=
  let trimmed := match strip_prefix "0x" hex_str with Some s => s | None => hex_str end in
  decoded ← map_err WireError.InvalidHex (hex_decode trimmed);
  _ ← reject_if (negb (length decoded =? 32)%nat) (WireError.InvalidLength 32 (length decoded));
  Ok decoded.

(* wire.rs:52-65 decode_base58_fixed *)
Definition decode_base58_fixed (n : nat) (value : string) : res WireError.t bytes :=
  decoded ← map_err WireError.InvalidBase58 (bs58_decode value);
  _ ← reject_if (negb (length decoded =? n)%nat) (WireError.InvalidLength n (length decoded));
  Ok decoded.

(* wire.rs:36-38 decode_base58_32 *)
Definition decode_base58_32 (value : string) : res WireError.t bytes := decode_base58_fixed 32 value.
(* wire.rs:40-42 decode_base58_64 *)
Definition decode_base58_64 (value : string) : res WireError.t bytes := decode_base58_fixed 64 value.
(* wire.rs:44-46 encode_base58 *)
Definition encode_base58 (b : bytes) : string := bs58_encode b.
(* wire.rs:48-50 encode_hex *)
Definition encode_hex (b : bytes) : string := hex_encode b.
End wire.

(* orders/mod.rs:64-69 BytesSigner *)
Record BytesSigner := {
  signing_key : bytes;
  bs_pubkey : key;
}.

Section signers.
Context `{C : Crypto}.

(* orders/mod.rs:80-88 BytesSigner::from_secret *)
Definition from_secret (secret : bytes) : BytesSigner :=
  {| signing_key := secret; bs_pubkey := verifying_key secret |}.

(* orders/mod.rs:90-101 BytesSigner::from_keypair *)
Definition from_keypair (keypair : bytes) : res OrderError.t BytesSigner :=
  secret ← slice_p keypair 0 32;
  let signer := from_secret secret in
  public ← slice_p keypair 32 64;
  _ ← reject_if (negb (bool_decide (bs_pubkey signer = public)))
        OrderError.KeypairPublicKeyMismatch;
  Ok signer.

(* orders/mod.rs:104-113 SignerLike for BytesSigner *)
#[export] Instance bytes_signer_like : SignerLike BytesSigner := {
  pubkey_bytes s := bs_pubkey s;
  sign_message s msg := ed_sign (signing_key s) msg;
}.

(* signing.rs:34-47 sign_verified *)
Definition sign_verified `{AsyncSignerLike T} (signer : T) (message : bytes)
  : res SigningError bytes :=
  signature ← async_sign_message signer message;
  _ ← map_err (fun _ => "async signer returned an invalid Ed25519 public key"%string)
        (vk_from_bytes (async_pubkey_bytes signer));
  _ ← reject_if (negb (ed_verify_strict (async_pubkey_bytes signer) message signature))
        "async signer returned a signature for a different key or message"%string;
  Ok signature.
End signers.

(** What a signer promises its callers: the signature verifies under the public key
    it reports. *)
Class SignerLaws `{C : Crypto} (T : Type) `{SignerLike T} (own : T -> Prop) := {
  signer_key_valid s : own s -> vk_from_bytes (pubkey_bytes s) = Ok tt;
  signer_verifies s m : own s -> ed_verify (pubkey_bytes s) m (sign_message s m) = true;
}.

(** ** Lemmas *)

Section laws.
Context `{CL : CryptoLaws}.

(** The signers [from_secret] and [from_keypair] build. *)
Definition signer_wf (s : BytesSigner) : Prop := bs_pubkey s = verifying_key (signing_key s).

#[export] Instance bytes_signer_laws : SignerLaws BytesSigner signer_wf.
Proof.
  split; intros s; [|intros m]; unfold signer_wf; intros Hs; simpl; rewrite Hs.
  - apply vk_own_key.
  - apply ed_verify_own.
Qed.

Lemma from_keypair_Ok keypair s :
  from_keypair keypair = Ok s ->
  signer_wf s /\ get_range keypair 0 32 = Some (signing_key s) /\
  get_range keypair 32 64 = Some (bs_pubkey s).
Proof.
  unfold from_keypair. intros H. inv_ok H. apply slice_p_Ok in Hv, Hv0.
  apply negb_false_iff, bool_decide_eq_true in Hv1. injection H as <-. simpl in *.
  subst v0. done.
Qed.

Lemma decode_hex_32_encode b : is_array 32 b -> decode_hex_32 (encode_hex b) = Ok b.
Proof.
  intros [Hl Hb]. unfold decode_hex_32, encode_hex, strip_prefix.
  rewrite hex_encode_no_prefix, hex_decode_encode by done. cbn. by rewrite Hl.
Qed.

Lemma decode_base58_encode n b :
  is_array n b -> decode_base58_fixed n (encode_base58 b) = Ok b.
Proof.
  intros [Hl Hb]. unfold decode_base58_fixed, encode_base58.
  rewrite bs58_decode_encode by done. cbn. by rewrite Hl, Nat.eqb_refl.
Qed.
End laws.

(** ** A concrete instance

    Not real cryptography: functions that satisfy [CryptoLaws], so that the
    theorems stated for every [Crypto] can be evaluated. *)
Module Sample.

Definition pad (n : nat) (b : bytes) : bytes :=
  take n (map (fun z => z mod 256) b ++ replicate n 0).

Lemma pad_array n b : is_array n (pad n b).
Proof.
  unfold pad. split.
  - rewrite length_take, length_app, length_replicate. lia.
  - apply Forall_take, Forall_app. split.
    + apply Forall_map, Forall_true. intros z. unfold fits. simpl. apply Z.mod_pos_bound. lia.
    + apply Forall_replicate. unfold fits. lia.
Qed.

Definition encode (b : bytes) : string :=
  fold_right (fun z s => String (ascii_of_N (Z.to_N z)) s) EmptyString b.

Fixpoint decode (s : string) : bytes :=
  match s with EmptyString => [] | String a s => Z.of_N (N_of_ascii a) :: decode s end.

Lemma decode_encode b : is_bytes b -> decode (encode b) = b.
Proof.
  induction 1 as [|z b Hz _ IH]; [done|]. simpl. rewrite IH. unfold fits in Hz.
  rewrite N_ascii_embedding by lia. f_equal. lia.
Qed.

#[global] Instance crypto : Crypto := {
  sha256 m := pad 32 m;
  verifying_key s := pad 32 s;
  ed_sign s m := pad 64 (pad 32 s ++ m);
  vk_from_bytes k := if (length k =? 32)%nat then Ok tt else Err "length"%string;
  ed_verify k m sig := bool_decide (sig = pad 64 (k ++ m));
  ed_verify_strict k m sig := bool_decide (sig = pad 64 (k ++ m));
  hex_decode s := match s with String _ s => Ok (decode s) | EmptyString => Err "empty"%string end;
  hex_encode b := String "h"%char (encode b);
  bs58_decode s := Ok (decode s);
  bs58_encode b := encode b;
}.

#[global] Instance crypto_laws : CryptoLaws crypto.
Proof.
  split; simpl; intros.
  - apply pad_array.
  - apply pad_array.
  - apply pad_array.
  - by rewrite (proj1 (pad_array 32 s)).
  - by apply bool_decide_eq_true.
  - by rewrite decode_encode.
  - done.
  - by rewrite decode_encode.
Qed.
End Sample.
