(* ===== verification/Orders.v ===== *)
(** * Order preimages and order ids

    [src/orders/mod.rs] and [src/orders/spreads.rs]: the byte layouts a maker signs,
    the order id (their SHA-256), signing and verifying it.  A buffer is written
    field by field, as the code does, and proved equal to the concatenation of the
    fields. *)

From Stdlib Require Import ZArith Lia String.
From stdpp Require Import base list strings.
From S2P Require Import Prelude Spreads Terms Signing.

Open Scope Z_scope.

(* orders/mod.rs:11-48 layout constants *)
Definition ORDER_ID_LEN : nat := 32.
Definition ORDER_DOMAIN_TAG : bytes := [65; 67; 84; 65].
Definition TAG_LEN : nat := 4.
Definition CHAIN_ID_LEN : nat := 8.
Definition PUBKEY_LEN : nat := 32.
Definition BOOL_LEN : nat := 1.
Definition U64_LEN : nat := 8.
Definition HEADER_LEN : nat := TAG_LEN + CHAIN_ID_LEN + PUBKEY_LEN.
Definition OFF_IS_TAKER_BUY : nat := 0.
Definition OFF_POSITION_TYPE : nat := OFF_IS_TAKER_BUY + BOOL_LEN.
Definition OFF_MARKET : nat := OFF_POSITION_TYPE + BOOL_LEN.
Definition OFF_STRIKE : nat := OFF_MARKET + PUBKEY_LEN.
Definition OFF_QUANTITY : nat := OFF_STRIKE + U64_LEN.
Definition OFF_GROSS_PRICE : nat := OFF_QUANTITY + U64_LEN.
Definition OFF_VALID_UNTIL : nat := OFF_GROSS_PRICE + U64_LEN.
Definition OFF_MAKER : nat := OFF_VALID_UNTIL + U64_LEN.
Definition OFF_TAKER : nat := OFF_MAKER + PUBKEY_LEN.
Definition OFF_NONCE : nat := OFF_TAKER + PUBKEY_LEN.
(* orders/mod.rs:33-48 ORDER_PREIMAGE_LEN *)
Definition ORDER_PREIMAGE_LEN : nat :=
  TAG_LEN + CHAIN_ID_LEN + PUBKEY_LEN + BOOL_LEN + BOOL_LEN + PUBKEY_LEN
  + U64_LEN + U64_LEN + U64_LEN + U64_LEN + PUBKEY_LEN + PUBKEY_LEN + U64_LEN.
(* orders/spreads.rs:7-8 SPREAD_ORDER_PREIMAGE_LEN *)
Definition SPREAD_ORDER_PREIMAGE_LEN : nat := 190.

(* orders/mod.rs:115-129 OrderPreimageArgs *)
Record OrderPreimageArgs := {
  o_chain_id : Z;
  o_program_id : key;
  o_side : TakerSide.t;
  o_position_type : PositionType.t;
  o_market : key;
  o_strike : Z;
  o_quantity : Z;
  o_gross_price : Z;
  o_valid_until : Z;
  o_maker : key;
  o_taker : key;
  o_nonce : Z;
}.

(* orders/spreads.rs:10-25 SpreadOrderPreimageArgs *)
Record SpreadOrderPreimageArgs := {
  s_chain_id : Z;
  s_program_id : key;
  s_side : TakerSide.t;
  s_position_type : SpreadType.t;
  s_market : key;
  s_lower_strike : Z;
  s_upper_strike : Z;
  s_quantity : Z;
  s_gross_price : Z;
  s_valid_until : Z;
  s_maker : key;
  s_taker : key;
  s_nonce : Z;
}.

(** [buf[a..b].copy_from_slice(src)]: panics when the range is out of bounds or has
    another length than [src]. *)
Definition copy_from_slice {E} (a b : nat) (src buf : bytes) : res E bytes :=
  if ((a <=? b) && (b <=? length buf) && (length src =? b - a))%nat
  then Ok (copy_at buf a src) else Panic.

(** [buf[i] = v]. *)
Definition set_byte {E} (i : nat) (v : Z) (buf : bytes) : res E bytes :=
  copy_from_slice i (i + 1) [v] buf.

(** [u64::to_le_bytes]. *)
Abbreviation le64 := (to_le_bytes 8).

(* orders/mod.rs:159-182 build_physical_order_preimage *)
Definition build_physical_order_preimage {E} (args : OrderPreimageArgs) (is_put : bool)
  : res E bytes :=
  let buf := replicate ORDER_PREIMAGE_LEN 0 in
  buf ← copy_from_slice 0 TAG_LEN ORDER_DOMAIN_TAG buf;
  buf ← copy_from_slice TAG_LEN (TAG_LEN + CHAIN_ID_LEN) (le64 (o_chain_id args)) buf;
  buf ← copy_from_slice (TAG_LEN + CHAIN_ID_LEN) HEADER_LEN (o_program_id args) buf;
  let b := HEADER_LEN in
  buf ← set_byte (b + OFF_IS_TAKER_BUY) (u8_of_bool (TakerSide.is_taker_buy (o_side args))) buf;
  buf ← set_byte (b + OFF_POSITION_TYPE) (u8_of_bool is_put) buf;
  buf ← copy_from_slice (b + OFF_MARKET) (b + OFF_MARKET + PUBKEY_LEN) (o_market args) buf;
  buf ← copy_from_slice (b + OFF_STRIKE) (b + OFF_STRIKE + U64_LEN) (le64 (o_strike args)) buf;
  buf ← copy_from_slice (b + OFF_QUANTITY) (b + OFF_QUANTITY + U64_LEN) (le64 (o_quantity args)) buf;
  buf ← copy_from_slice (b + OFF_GROSS_PRICE) (b + OFF_GROSS_PRICE + U64_LEN)
          (le64 (o_gross_price args)) buf;
  buf ← copy_from_slice (b + OFF_VALID_UNTIL) (b + OFF_VALID_UNTIL + U64_LEN)
          (le64 (o_valid_until args)) buf;
  buf ← copy_from_slice (b + OFF_MAKER) (b + OFF_MAKER + PUBKEY_LEN) (o_maker args) buf;
  buf ← copy_from_slice (b + OFF_TAKER) (b + OFF_TAKER + PUBKEY_LEN) (o_taker args) buf;
  copy_from_slice (b + OFF_NONCE) (b + OFF_NONCE + U64_LEN) (le64 (o_nonce args)) buf.

(* orders/mod.rs:147-157 build_order_preimage *)
Definition build_order_preimage (args : OrderPreimageArgs) : res OrderError.t bytes :=
  _ ← reject_if (PositionType.is_spread (o_position_type args)) OrderError.SpreadLayoutRequired;
  build_physical_order_preimage args
    (bool_decide (o_position_type args = PositionType.CashSecuredPut)).

(** The loop over the [(offset, value)] pairs. *)
(* orders/spreads.rs:44-53 build_spread_order_preimage (loop) *)
Fixpoint write_values {E} (fields : list (nat * Z)) (buf : bytes) : res E bytes :=
  match fields with
  | [] => Ok buf
  | (offset, value) :: fields =>
      buf ← copy_from_slice offset (offset + 8) (le64 value) buf;
      write_values fields buf
  end.

(* orders/spreads.rs:27-57 build_spread_order_preimage *)
Definition build_spread_order_preimage (args : SpreadOrderPreimageArgs)
  : res SpreadError.t bytes :=
  _ ← validate_premium (s_position_type args) (s_lower_strike args) (s_upper_strike args)
        (s_quantity args) (s_gross_price args);
  let buf := replicate SPREAD_ORDER_PREIMAGE_LEN 0 in
  buf ← copy_from_slice 0 4 ORDER_DOMAIN_TAG buf;
  buf ← copy_from_slice 4 12 (le64 (s_chain_id args)) buf;
  buf ← copy_from_slice 12 44 (s_program_id args) buf;
  buf ← set_byte 44 (u8_of_bool (TakerSide.is_taker_buy (s_side args))) buf;
  buf ← set_byte 45 (SpreadType.to_u8 (s_position_type args)) buf;
  buf ← copy_from_slice 46 78 (s_market args) buf;
  buf ← write_values
    [(78%nat, s_lower_strike args); (86%nat, s_quantity args); (94%nat, s_gross_price args);
     (102%nat, s_valid_until args); (174%nat, s_nonce args); (182%nat, s_upper_strike args)] buf;
  buf ← copy_from_slice 110 142 (s_maker args) buf;
  copy_from_slice 142 174 (s_taker args) buf.

Section orders.
Context `{C : Crypto}.

(* orders/mod.rs:184-187 hash_order_preimage *)
Definition hash_order_preimage (preimage : bytes) : bytes := sha256 preimage.

(* orders/mod.rs:189-191 compute_order_id *)
Definition compute_order_id (args : OrderPreimageArgs) : res OrderError.t bytes :=
  preimage ← build_order_preimage args;
  Ok (hash_order_preimage preimage).

(* orders/spreads.rs:59-63 compute_spread_order_id *)
Definition compute_spread_order_id (args : SpreadOrderPreimageArgs) : res SpreadError.t bytes :=
  preimage ← build_spread_order_preimage args;
  Ok (sha256 preimage).

(* orders/mod.rs:201-212 sign_order_id_bytes *)
Definition sign_order_id_bytes (order_id signing_key_bytes : bytes) : res OrderError.t bytes :=
  Ok (ed_sign signing_key_bytes order_id).

(* orders/mod.rs:223-228 sign_order_id_with_signer *)
Definition sign_order_id_with_signer `{SignerLike T} (order_id : bytes) (signer : T) : bytes :=
  sign_message signer order_id.

(* orders/mod.rs:230-235 sign_order_id_with_signer_base58 *)
Definition sign_order_id_with_signer_base58 `{SignerLike T} (order_id : bytes) (signer : T)
  : string :=
  encode_base58 (sign_message signer order_id).

(* orders/mod.rs:237-242 sign_order_id_with_async_signer *)
Definition sign_order_id_with_async_signer `{AsyncSignerLike T} (order_id : bytes) (signer : T)
  : res SigningError bytes :=
  sign_verified signer order_id.

(* orders/mod.rs:244-255 verify_order_id_signature_bytes *)
Definition verify_order_id_signature_bytes (order_id signature verifying_key_bytes : bytes)
  : res OrderError.t unit :=
  _ ← map_err OrderError.InvalidVerifyingKey (vk_from_bytes verifying_key_bytes);
  reject_if (negb (ed_verify verifying_key_bytes order_id signature)) OrderError.InvalidSignature.

(* orders/mod.rs:257-266 verify_order_id_signature_base58 *)
Definition verify_order_id_signature_base58 (order_id_hex signature_base58 pubkey_base58 : string)
  : res OrderError.t unit :=
  order_id ← map_err OrderError.Wire (decode_hex_32 order_id_hex);
  signature ← map_err OrderError.Wire (decode_base58_64 signature_base58);
  pubkey ← map_err OrderError.Wire (decode_base58_32 pubkey_base58);
  verify_order_id_signature_bytes order_id signature pubkey.

(* orders/mod.rs:268-276 sign_order_id_from_base58_keypair *)
Definition sign_order_id_from_base58_keypair (order_id_hex keypair_base58 : string)
  : res OrderError.t string :=
  order_id ← map_err OrderError.Wire (decode_hex_32 order_id_hex);
  keypair ← map_err OrderError.Wire (decode_base58_64 keypair_base58);
  signer ← from_keypair keypair;
  Ok (sign_order_id_with_signer_base58 order_id signer).

(* orders/spreads.rs:65-71 sign_spread_order *)
Definition sign_spread_order `{SignerLike T} (args : SpreadOrderPreimageArgs) (signer : T)
  : res SpreadError.t (bytes * bytes) :=
  order_id ← compute_spread_order_id args;
  Ok (order_id, sign_order_id_with_signer order_id signer).
End orders.

(** ** The layouts *)

(** What the Rust types guarantee of the arguments. *)
Definition order_typed (a : OrderPreimageArgs) : Prop :=
  fits 64 (o_chain_id a) /\ is_key (o_program_id a) /\ is_key (o_market a) /\
  fits 64 (o_strike a) /\ fits 64 (o_quantity a) /\ fits 64 (o_gross_price a) /\
  fits 64 (o_valid_until a) /\ is_key (o_maker a) /\ is_key (o_taker a) /\ fits 64 (o_nonce a).

Definition spread_typed (a : SpreadOrderPreimageArgs) : Prop :=
  fits 64 (s_chain_id a) /\ is_key (s_program_id a) /\ is_key (s_market a) /\
  fits 64 (s_lower_strike a) /\ fits 64 (s_upper_strike a) /\ fits 64 (s_quantity a) /\
  fits 64 (s_gross_price a) /\ fits 64 (s_valid_until a) /\ is_key (s_maker a) /\
  is_key (s_taker a) /\ fits 64 (s_nonce a).

(** The documented layout, as a concatenation. *)
Definition physical_layout (a : OrderPreimageArgs) (is_put : bool) : bytes :=
  ORDER_DOMAIN_TAG ++ le64 (o_chain_id a) ++ o_program_id a ++
  [u8_of_bool (TakerSide.is_taker_buy (o_side a))] ++ [u8_of_bool is_put] ++ o_market a ++
  le64 (o_strike a) ++ le64 (o_quantity a) ++ le64 (o_gross_price a) ++ le64 (o_valid_until a) ++
  o_maker a ++ o_taker a ++ le64 (o_nonce a).

Definition spread_layout (a : SpreadOrderPreimageArgs) : bytes :=
  ORDER_DOMAIN_TAG ++ le64 (s_chain_id a) ++ s_program_id a ++
  [u8_of_bool (TakerSide.is_taker_buy (s_side a))] ++ [SpreadType.to_u8 (s_position_type a)] ++
  s_market a ++ le64 (s_lower_strike a) ++ le64 (s_quantity a) ++ le64 (s_gross_price a) ++
  le64 (s_valid_until a) ++ s_maker a ++ s_taker a ++ le64 (s_nonce a) ++ le64 (s_upper_strike a).

(** Writing over the middle part of a buffer. *)
Lemma copy_middle {E} a b (src x y z : bytes) :
  length x = a -> length src = length y -> b = (a + length src)%nat ->
  @copy_from_slice E a b src (x ++ y ++ z) = Ok (x ++ src ++ z).
Proof.
  intros <- Hy ->. unfold copy_from_slice, copy_at. rewrite !length_app, <- Hy.
  destruct (Nat.leb_spec (length x) (length x + length src)); [|lia].
  destruct (Nat.leb_spec (length x + length src) (length x + (length src + length z))); [|lia].
  replace (length x + length src - length x)%nat with (length src) by lia.
  rewrite Nat.eqb_refl, take_app_length, <- drop_drop, drop_app_length, Hy, drop_app_length.
  done.
Qed.

(** Filling a zeroed buffer from the left. *)
Lemma copy_next {E} a b n (src pre : bytes) :
  length pre = a -> b = (a + length src)%nat -> (length src <= n)%nat ->
  @copy_from_slice E a b src (pre ++ replicate n 0) =
  Ok ((pre ++ src) ++ replicate (n - length src) 0).
Proof.
  intros Ha Hb Hn. replace n with (length src + (n - length src))%nat at 1 by lia.
  rewrite replicate_add, copy_middle by (done || by rewrite length_replicate).
  by rewrite app_assoc.
Qed.

Lemma is_key_length k : is_key k -> length k = 32%nat.
Proof. by intros [? _]. Qed.

Ltac key_lengths :=
  repeat match goal with H : is_key ?k |- _ => apply is_key_length in H end.

Ltac fill_next :=
  rewrite copy_next by (rewrite ?length_app, ?length_to_le_bytes; simpl; lia);
  cbn [mbind res_bind].

Lemma physical_preimage_layout {E} a is_put :
  order_typed a -> @build_physical_order_preimage E a is_put = Ok (physical_layout a is_put).
Proof.
  intros (?&?&?&?&?&?&?&?&?&?). key_lengths. unfold build_physical_order_preimage, set_byte.
  change (replicate ORDER_PREIMAGE_LEN 0) with ([] ++ replicate 182 0). cbv zeta.
  unfold HEADER_LEN, OFF_NONCE, OFF_TAKER, OFF_MAKER, OFF_VALID_UNTIL, OFF_GROSS_PRICE,
    OFF_QUANTITY, OFF_STRIKE, OFF_MARKET, OFF_POSITION_TYPE, OFF_IS_TAKER_BUY, TAG_LEN,
    CHAIN_ID_LEN, PUBKEY_LEN, BOOL_LEN, U64_LEN.
  do 13 fill_next.
  rewrite !length_to_le_bytes. unfold physical_layout. rewrite <- !app_assoc.
  repeat match goal with H : length _ = 32%nat |- _ => rewrite H end. simpl.
  by rewrite ?app_nil_r.
Qed.

(** The spread preimage writes its last four fields out of order. *)
Lemma fill_tail {E} (pre maker taker : bytes) nonce upper :
  length pre = 110%nat -> length maker = 32%nat -> length taker = 32%nat ->
  (buf ← @write_values E [(174%nat, nonce); (182%nat, upper)] (pre ++ replicate 80 0);
   buf ← copy_from_slice 110 142 maker buf;
   copy_from_slice 142 174 taker buf) = Ok (pre ++ maker ++ taker ++ le64 nonce ++ le64 upper).
Proof.
  intros Hp Hm Ht. pose proof (length_to_le_bytes 8 nonce). pose proof (length_to_le_bytes 8 upper).
  cbn [write_values Nat.add].
  change (replicate 80 0) with (replicate 32 0 ++ replicate 32 0 ++ replicate 8 0 ++ replicate 8 0).
  pose proof (@copy_middle E 174 182 (le64 nonce) (pre ++ replicate 32 0 ++ replicate 32 0)
    (replicate 8 0) (replicate 8 0)) as H1.
  rewrite <- !app_assoc in H1. rewrite H1 by (rewrite ?length_app; simpl; lia). clear H1.
  cbn [mbind res_bind].
  pose proof (@copy_middle E 182 190 (le64 upper) (pre ++ replicate 32 0 ++ replicate 32 0 ++ le64 nonce)
    (replicate 8 0) []) as H1.
  rewrite <- !app_assoc, !app_nil_r in H1. rewrite H1 by (rewrite ?length_app; simpl; lia). clear H1.
  cbn [mbind res_bind]. rewrite copy_middle by (simpl; lia). cbn [mbind res_bind].
  pose proof (@copy_middle E 142 174 taker (pre ++ maker) (replicate 32 0) (le64 nonce ++ le64 upper)) as H1.
  rewrite <- !app_assoc in H1. rewrite H1 by (rewrite ?length_app; simpl; lia). done.
Qed.

Lemma bind_assoc {E A B D} (m : res E A) (f : A -> res E B) (g : B -> res E D) :
  ((m ≫= f) ≫= g) = (m ≫= fun x => f x ≫= g).
Proof. by destruct m. Qed.

Lemma write_values_cons {E} offset v fs buf :
  @write_values E ((offset, v) :: fs) buf =
  (copy_from_slice offset (offset + 8) (le64 v) buf ≫= write_values fs).
Proof. done. Qed.

Lemma spread_preimage_layout a :
  spread_typed a ->
  build_spread_order_preimage a =
    match validate_premium (s_position_type a) (s_lower_strike a) (s_upper_strike a)
            (s_quantity a) (s_gross_price a) with
    | Ok _ => Ok (spread_layout a)
    | Err e => Err e
    | Panic => Panic
    end.
Proof.
  intros (?&?&?&?&?&?&?&?&?&?&?). key_lengths. unfold build_spread_order_preimage, set_byte.
  destruct (validate_premium _ _ _ _ _) as [[]| |]; [|done..]. cbn [mbind res_bind].
  change (replicate SPREAD_ORDER_PREIMAGE_LEN 0) with ([] ++ replicate 190 0). cbv zeta.
  do 6 fill_next.
  do 4 (rewrite write_values_cons, bind_assoc; fill_next).
  rewrite !length_to_le_bytes.
  repeat match goal with H : length _ = 32%nat |- _ => rewrite H end.
  match goal with |- context [replicate ?n 0] => change n with 80%nat end.
  etrans; [apply fill_tail; rewrite ?length_app, ?length_to_le_bytes; simpl; lia|].
  unfold spread_layout. by rewrite <- !app_assoc.
Qed.

Lemma length_physical_layout a is_put : order_typed a -> length (physical_layout a is_put) = 182%nat.
Proof.
  intros (?&?&?&?&?&?&?&?&?&?). key_lengths. unfold physical_layout.
  rewrite !length_app, !length_to_le_bytes. simpl. lia.
Qed.

Lemma length_spread_layout a : spread_typed a -> length (spread_layout a) = 190%nat.
Proof.
  intros (?&?&?&?&?&?&?&?&?&?&?). key_lengths. unfold spread_layout.
  rewrite !length_app, !length_to_le_bytes. simpl. lia.
Qed.

(** Split an equality of two concatenations of fields of equal lengths. *)
Ltac split_fields H :=
  repeat
    let Hf := fresh "F" in
    apply app_inj_1 in H as [Hf H];
    [|by rewrite ?length_to_le_bytes; simpl; congruence].


Lemma is_taker_buy_inj a b : TakerSide.is_taker_buy a = TakerSide.is_taker_buy b -> a = b.
Proof. by destruct a, b. Qed.

Lemma physical_layout_inj a b p q :
  order_typed a -> order_typed b -> physical_layout a p = physical_layout b q ->
  p = q /\ (o_position_type a = o_position_type b -> a = b).
Proof.
  intros (?&?&?&?&?&?&?&?&?&?) (?&?&?&?&?&?&?&?&?&?) HE. key_lengths. unfold physical_layout in HE.
  split_fields HE.
  repeat match goal with
  | H : le64 _ = le64 _ |- _ => apply to_le_bytes_inj in H; [|assumption..]
  | H : [_] = [_] |- _ => injection H; clear H; intros H; apply u8_of_bool_inj in H
  end.
  match goal with H : TakerSide.is_taker_buy _ = _ |- _ => apply is_taker_buy_inj in H end.
  split; [done|]. destruct a, b; simpl in *. congruence.
Qed.

Lemma spread_layout_inj a b :
  spread_typed a -> spread_typed b -> spread_layout a = spread_layout b -> a = b.
Proof.
  intros (?&?&?&?&?&?&?&?&?&?&?) (?&?&?&?&?&?&?&?&?&?&?) HE. key_lengths. unfold spread_layout in HE.
  split_fields HE.
  repeat match goal with
  | H : le64 _ = le64 _ |- _ => apply to_le_bytes_inj in H; [|assumption..]
  | H : [_] = [_] |- _ => injection H; clear H; intros H
  end.
  match goal with H : u8_of_bool _ = _ |- _ => apply u8_of_bool_inj, is_taker_buy_inj in H end.
  match goal with H : SpreadType.to_u8 ?x = SpreadType.to_u8 ?y |- _ =>
    assert (x = y) by (by destruct x, y) end.
  destruct a, b; simpl in *. congruence.
Qed.

(** The two preimage builders never panic on well-typed arguments and write the
    documented layouts: 182 bytes for a physical option, rejected exactly for the
    spread products, and 190 bytes for a spread, rejected exactly when its strikes,
    size and price do not pass [validate_premium].  No physical preimage equals a
    spread preimage, so the shared [ACTA] tag does not mix the two domains. *)
Theorem preimage_layouts :
  (forall a, order_typed a ->
     build_order_preimage a =
       if PositionType.is_spread (o_position_type a) then Err OrderError.SpreadLayoutRequired
       else Ok (physical_layout a (PositionType.is_put (o_position_type a)))) /\
  (forall a, spread_typed a ->
     build_spread_order_preimage a =
       match validate_premium (s_position_type a) (s_lower_strike a) (s_upper_strike a)
               (s_quantity a) (s_gross_price a) with
       | Err e => Err e
       | _ => Ok (spread_layout a)
       end) /\
  (forall a p, order_typed a -> length (physical_layout a p) = ORDER_PREIMAGE_LEN) /\
  (forall a, spread_typed a -> length (spread_layout a) = SPREAD_ORDER_PREIMAGE_LEN) /\
  (forall a b p, order_typed a -> spread_typed b -> physical_layout a p <> spread_layout b).
Proof.
  split_and!.
  - intros a Ha. unfold build_order_preimage.
    destruct (o_position_type a) eqn:E; try done;
      cbn [reject_if mbind res_bind PositionType.is_spread]; by rewrite physical_preimage_layout.
  - intros a Ha. rewrite spread_preimage_layout by done.
    pose proof (validate_premium_no_panic (s_position_type a) (s_lower_strike a)
      (s_upper_strike a) (s_quantity a) (s_gross_price a)). by destruct (validate_premium _ _ _ _ _).
  - apply length_physical_layout.
  - apply length_spread_layout.
  - intros a b p Ha Hb H. apply (f_equal length) in H.
    rewrite length_physical_layout, length_spread_layout in H by done. discriminate H.
Qed.

Definition example_order : OrderPreimageArgs :=
  {| o_chain_id := 0; o_program_id := key_of 7; o_side := TakerSide.Sell;
     o_position_type := PositionType.CashSecuredPut; o_market := key_of 9;
     o_strike := 150000000000; o_quantity := 2000000000; o_gross_price := 3000000000;
     o_valid_until := 1760000000; o_maker := key_of 11; o_taker := key_of 13; o_nonce := 42 |}.

Definition example_spread_order : SpreadOrderPreimageArgs :=
  {| s_chain_id := 0; s_program_id := key_of 7; s_side := TakerSide.Sell;
     s_position_type := SpreadType.PutSpread; s_market := key_of 9;
     s_lower_strike := 0; s_upper_strike := 150000000000; s_quantity := 2000000000;
     s_gross_price := 3000000000; s_valid_until := 1760000000; s_maker := key_of 11;
     s_taker := key_of 13; s_nonce := 42 |}.

Lemma example_order_typed : order_typed example_order.
Proof. unfold order_typed. split_and!; try (apply key_of_is_key); unfold fits; simpl; lia. Qed.

Lemma example_spread_typed : spread_typed example_spread_order.
Proof. unfold spread_typed. split_and!; try (apply key_of_is_key); unfold fits; simpl; lia. Qed.

Lemma preimage_layouts_witness :
  build_order_preimage example_order = Ok (physical_layout example_order true) /\
  build_spread_order_preimage example_spread_order = Ok (spread_layout example_spread_order).
Proof.
  split.
  - exact (proj1 preimage_layouts example_order example_order_typed).
  - exact (proj1 (proj2 preimage_layouts) example_spread_order example_spread_typed).
Defined.

(** An order of either layout. *)
Inductive AnyOrder :=
| Physical (a : OrderPreimageArgs)
| Spread (a : SpreadOrderPreimageArgs).

Definition any_typed (o : AnyOrder) : Prop :=
  match o with Physical a => order_typed a | Spread a => spread_typed a end.

Section identity.
Context `{C : Crypto}.

Definition any_id (o : AnyOrder) : option bytes :=
  match o with
  | Physical a => res_ok (compute_order_id a)
  | Spread a => res_ok (compute_spread_order_id a)
  end.

(** The bytes that are hashed. *)
Definition any_preimage (o : AnyOrder) : option bytes :=
  match o with
  | Physical a => res_ok (build_order_preimage a)
  | Spread a => res_ok (build_spread_order_preimage a)
  end.

Lemma any_id_Some o i :
  any_typed o -> any_id o = Some i ->
  exists pre, any_preimage o = Some pre /\ i = sha256 pre /\
    match o with
    | Physical a => pre = physical_layout a (bool_decide (o_position_type a = PositionType.CashSecuredPut))
                    /\ PositionType.is_spread (o_position_type a) = false
    | Spread a => pre = spread_layout a
    end.
Proof.
  destruct o as [a|a]; simpl; intros Ht H.
  - unfold compute_order_id, build_order_preimage in H.
    destruct (PositionType.is_spread _) eqn:E; [discriminate H|].
    unfold build_order_preimage. rewrite E.
    cbn [reject_if mbind res_bind] in *. rewrite physical_preimage_layout in * by done.
    cbn in H. injection H as <-. by eexists.
  - unfold compute_spread_order_id in H. rewrite spread_preimage_layout in * by done.
    destruct (validate_premium _ _ _ _ _); [|discriminate H ..]. cbn in H. injection H as <-.
    by eexists.
Qed.

(** C7: an order id commits to every field of the order.  If two well-typed orders,
    physical or spread, have the same id, they are the same order, or the bytes that were
    hashed for the one and for the other are different, so that the id exhibits a collision
    of the hash between the two orders' own preimages.  Two different orders never have the
    same preimage, and nothing is assumed of the hash. *)
Theorem order_id_commits o1 o2 i :
  any_typed o1 -> any_typed o2 -> any_id o1 = Some i -> any_id o2 = Some i ->
  exists p1 p2, any_preimage o1 = Some p1 /\ any_preimage o2 = Some p2 /\
    sha256 p1 = i /\ sha256 p2 = i /\ (p1 = p2 -> o1 = o2).
Proof.
  intros T1 T2 H1 H2.
  destruct (any_id_Some _ _ T1 H1) as (p1 & E1 & -> & L1), (any_id_Some _ _ T2 H2) as (p2 & E2 & Hs & L2).
  exists p1, p2. split_and!; try done. intros <-. clear E1 E2 Hs.
  destruct o1 as [a|a], o2 as [b|b]; simpl in *.
  - destruct L1 as [L1 S1], L2 as [L2 S2]. rewrite L1 in L2.
    destruct (physical_layout_inj _ _ _ _ T1 T2 L2) as [Hp Ha]. f_equal. apply Ha.
    by destruct (o_position_type a), (o_position_type b).
  - destruct L1 as [L1 S1]. subst p1. apply (f_equal length) in L2.
    rewrite length_physical_layout, length_spread_layout in L2 by done. discriminate L2.
  - destruct L2 as [L2 S2]. subst p1. apply (f_equal length) in L2.
    rewrite length_physical_layout, length_spread_layout in L2 by done. discriminate L2.
  - f_equal. apply spread_layout_inj; congruence.
Qed.
End identity.

(** The same order with another nonce: the sample hash, which keeps the first bytes, cannot
    tell them apart, and their preimages differ. *)
Definition other_order : OrderPreimageArgs :=
  {| o_chain_id := 0; o_program_id := key_of 7; o_side := TakerSide.Sell;
     o_position_type := PositionType.CashSecuredPut; o_market := key_of 9;
     o_strike := 150000000000; o_quantity := 2000000000; o_gross_price := 3000000000;
     o_valid_until := 1760000000; o_maker := key_of 11; o_taker := key_of 13; o_nonce := 43 |}.

Lemma other_order_typed : order_typed other_order.
Proof. unfold order_typed. split_and!; try (apply key_of_is_key); unfold fits; simpl; lia. Qed.

Lemma order_id_commits_witness :
  Physical example_order <> Physical other_order /\
  exists p1 p2, any_preimage (Physical example_order) = Some p1 /\ any_preimage (Physical other_order) = Some p2 /\
    p1 <> p2 /\ sha256 p1 = sha256 p2.
Proof.
  assert (Hne : Physical example_order <> Physical other_order) by discriminate.
  split; [exact Hne|].
  destruct (order_id_commits (Physical example_order) (Physical other_order)
    (sha256 (physical_layout example_order true)) example_order_typed other_order_typed)
    as (p1 & p2 & H1 & H2 & H3 & H4 & H5); [vm_compute; reflexivity..|].
  exists p1, p2. split; [exact H1|]. split; [exact H2|]. split; [intros H; exact (Hne (H5 H))|]. rewrite H3, H4. reflexivity.
Defined.

Section signatures.
Context `{CL : CryptoLaws}.

(** What [sign_order_id_from_base58_keypair] returns for a keypair it accepts,
    [verify_order_id_signature_base58] accepts for the public key in that keypair and
    the same order id; and it accepts a 64-byte keypair exactly when its public half
    is the key its secret half derives. *)
Theorem keypair_sign_verify order_id keypair :
  is_array 32 order_id -> is_array 64 keypair ->
  (is_ok (sign_order_id_from_base58_keypair (encode_hex order_id) (encode_base58 keypair)) = true <->
     drop 32 keypair = verifying_key (take 32 keypair)) /\
  (forall signature,
     sign_order_id_from_base58_keypair (encode_hex order_id) (encode_base58 keypair) = Ok signature ->
     verify_order_id_signature_base58 (encode_hex order_id) signature
       (encode_base58 (drop 32 keypair)) = Ok tt).
Proof.
  intros Ho [Hl Hb].
  unfold sign_order_id_from_base58_keypair, decode_base58_64.
  rewrite decode_hex_32_encode, decode_base58_encode by done. cbn [map_err mbind res_bind].
  unfold from_keypair, slice_p, get_range. rewrite Hl. cbn [Nat.leb andb mbind res_bind Nat.sub].
  change (drop 0 keypair) with keypair.
  rewrite (take_ge (drop 32 keypair)) by (rewrite length_drop, Hl; lia).
  case_bool_decide as E; cbn in E; cbn.
  - split; [done|]. intros signature [= <-].
    unfold verify_order_id_signature_base58, sign_order_id_with_signer_base58, decode_base58_64,
      decode_base58_32.
    rewrite decode_hex_32_encode by done. cbn [map_err mbind res_bind].
    rewrite (decode_base58_encode 64) by apply ed_sign_array. cbn [map_err mbind res_bind].
    rewrite (decode_base58_encode 32) by (rewrite <- E; apply verifying_key_array).
    cbn [map_err mbind res_bind]. unfold verify_order_id_signature_bytes. simpl.
    rewrite <- E, vk_own_key. cbn. by rewrite ed_verify_own.
  - split; [|done]. split; [done|]. intros H. by destruct E.
Qed.
End signatures.

Lemma keypair_sign_verify_witness :
  exists signature,
    sign_order_id_from_base58_keypair (encode_hex (key_of 3)) (encode_base58 (key_of 5 ++ key_of 5))
      = Ok signature /\
    verify_order_id_signature_base58 (encode_hex (key_of 3)) signature (encode_base58 (key_of 5))
      = Ok tt.
Proof.
  eexists. split; [vm_compute; reflexivity|].
  refine (proj2 (keypair_sign_verify (key_of 3) (key_of 5 ++ key_of 5) _ _) _ _).
  - apply key_of_is_key. unfold fits; lia.
  - split; [reflexivity|]. apply Forall_app. split; apply key_of_is_key; unfold fits; lia.
  - vm_compute. reflexivity.
Defined.
