(* ===== verification/Time.v ===== *)
(** * Wall-clock times on the wire

    [src/types/expiry.rs] ([QuoteExpiry]) and [src/types/unix_time.rs] (the serde
    adapters).  A [SystemTime] is its offset from the Unix epoch in nanoseconds, its
    whole seconds within [i64]; a [Duration] is a non-negative number of
    nanoseconds, its whole seconds within [u64].  A serde adapter is modelled by the
    integer it writes or reads. *)

From Stdlib Require Import ZArith Lia String.
From stdpp Require Import base list strings.
From S2P Require Import Prelude.

Open Scope Z_scope.

Definition NANOS : Z := 1000000000.
Definition MILLI : Z := 1000000.

Definition is_system_time (t : Z) : Prop := - 2 ^ 63 <= t / NANOS < 2 ^ 63.
Definition is_duration (d : Z) : Prop := 0 <= d /\ d / NANOS < 2 ^ 64.

(** [Duration::as_secs], [Duration::subsec_nanos], [Duration::as_millis]. *)
Definition as_secs (d : Z) : Z := d / NANOS.
Definition subsec_nanos (d : Z) : Z := d mod NANOS.
Definition as_millis (d : Z) : Z := d / MILLI.

(** [SystemTime::duration_since(UNIX_EPOCH)] and [SystemTime::duration_since]. *)
Definition duration_since (t earlier : Z) : option Z :=
  if earlier <=? t then Some (t - earlier) else None.

(** [SystemTime::checked_add]: the seconds are an [i64]. *)
Definition checked_add_time (t d : Z) : option Z :=
  if (t + d) / NANOS <? 2 ^ 63 then Some (t + d) else None.

Module QuoteExpiry.
(** A [QuoteExpiry] is its [u64] of whole seconds. *)
(* types/expiry.rs:19-25 QuoteExpiry::from_system_time *)
Definition from_system_time (time : Z) : option Z :=
  since ← duration_since time 0;
  Some (as_secs since).

(** [now] is what [SystemTime::now()] reads. *)
(* types/expiry.rs:27-33 QuoteExpiry::after *)
Definition after (now lifetime : Z) : option Z :=
  time ← checked_add_time now lifetime;
  from_system_time time.

(* types/expiry.rs:40-44 QuoteExpiry::to_system_time *)
Definition to_system_time (self : Z) : option Z := checked_add_time 0 (self * NANOS).

(* types/expiry.rs:46-50 QuoteExpiry::remaining_from *)
Definition remaining_from (self now : Z) : option Z :=
  time ← to_system_time self;
  duration_since time now.
End QuoteExpiry.

Module UnixSeconds.
(* types/unix_time.rs:13-19 UnixSeconds::serialize_as *)
Definition serialize_as (source : Z) : res string Z :=
  since ← ok_or (duration_since source 0) "second time provided was later than self"%string;
  Ok (as_secs since).

(* types/unix_time.rs:23-28 UnixSeconds::deserialize_as *)
Definition deserialize_as (seconds : Z) : res string Z :=
  ok_or (checked_add_time 0 (seconds * NANOS)) "unix timestamp exceeds SystemTime"%string.
End UnixSeconds.

Module UnixMillis.
(* types/unix_time.rs:35-44 UnixMillis::serialize_as *)
Definition serialize_as (source : Z) : res string Z :=
  since ← ok_or (duration_since source 0) "second time provided was later than self"%string;
  ok_or (try_from 64 (as_millis since)) "out of range integral type conversion attempted"%string.

(* types/unix_time.rs:48-53 UnixMillis::deserialize_as *)
Definition deserialize_as (millis : Z) : res string Z :=
  ok_or (checked_add_time 0 (millis * MILLI)) "unix timestamp exceeds SystemTime"%string.
End UnixMillis.

(** ** Lemmas *)

Lemma as_secs_whole s : as_secs (s * NANOS) = s.
Proof. unfold as_secs, NANOS. by rewrite Z.div_mul. Qed.

Lemma truncates_within d : as_secs d * NANOS <= d < (as_secs d + 1) * NANOS.
Proof.
  unfold as_secs, NANOS. pose proof (Z.div_mod d 1000000000 ltac:(lia)).
  pose proof (Z.mod_pos_bound d 1000000000 ltac:(lia)). lia.
Qed.

Lemma checked_add_whole s :
  checked_add_time 0 (s * NANOS) = if s <? 2 ^ 63 then Some (s * NANOS) else None.
Proof. unfold checked_add_time. rewrite Z.add_0_l. by rewrite (as_secs_whole s : _ / _ = _). Qed.

Lemma checked_add_millis m :
  fits 64 m -> checked_add_time 0 (m * MILLI) = Some (m * MILLI).
Proof.
  intros [Hm0 Hm]. unfold checked_add_time. rewrite Z.add_0_l.
  destruct (Z.ltb_spec (m * MILLI / NANOS) (2 ^ 63)) as [|H]; [done|].
  unfold MILLI, NANOS in *. apply Z.le_ngt in H. destruct H.
  apply Z.div_lt_upper_bound; lia.
Qed.

(** The venue's window check compares truncated seconds; it is exact on them: an
    expiry [now + lifetime] lies within one second below the exact instant. *)
Lemma after_bounds now lifetime e :
  QuoteExpiry.after now lifetime = Some e ->
  e * NANOS <= now + lifetime < (e + 1) * NANOS.
Proof.
  unfold QuoteExpiry.after, QuoteExpiry.from_system_time, checked_add_time, duration_since.
  case_match; [|done]. simpl. case_match; [|done]. simpl. intros [= <-].
  rewrite Z.sub_0_r. apply truncates_within.
Qed.

(** Timestamps survive the wire.  Seconds and milliseconds are truncated
    toward the epoch, never rounded: writing a non-negative time gives the whole
    unit at or just before it, a time before the epoch is refused, and reading back
    what was written for a whole-unit time gives the same time.  A seconds value
    beyond the platform's range is refused when it is decoded into a time, while a
    [QuoteExpiry] keeps it; every [u64] of milliseconds is representable. *)
Theorem timestamps_truncate_and_roundtrip :
  (forall t, is_system_time t -> t < 0 ->
     is_ok (UnixSeconds.serialize_as t) = false /\ is_ok (UnixMillis.serialize_as t) = false /\
     QuoteExpiry.from_system_time t = None) /\
  (forall t, is_system_time t -> 0 <= t ->
     exists s m, UnixSeconds.serialize_as t = Ok s /\ QuoteExpiry.from_system_time t = Some s /\
       s * NANOS <= t < (s + 1) * NANOS /\
       (as_millis t < 2 ^ 64 -> UnixMillis.serialize_as t = Ok m /\ m * MILLI <= t < (m + 1) * MILLI)) /\
  (forall s, fits 64 s ->
     (s < 2 ^ 63 -> exists t, UnixSeconds.deserialize_as s = Ok t /\
        QuoteExpiry.to_system_time s = Some t /\
        UnixSeconds.serialize_as t = Ok s /\ QuoteExpiry.from_system_time t = Some s) /\
     (2 ^ 63 <= s -> is_ok (UnixSeconds.deserialize_as s) = false /\
        QuoteExpiry.to_system_time s = None)) /\
  (forall m, fits 64 m -> exists t, UnixMillis.deserialize_as m = Ok t /\ UnixMillis.serialize_as t = Ok m).
Proof.
  unfold UnixSeconds.serialize_as, UnixSeconds.deserialize_as, UnixMillis.serialize_as,
    UnixMillis.deserialize_as, QuoteExpiry.from_system_time, QuoteExpiry.to_system_time.
  split_and!.
  - intros t _ Ht. unfold duration_since. destruct (Z.leb_spec 0 t); [lia | done].
  - intros t _ Ht. exists (as_secs t), (as_millis t). unfold duration_since.
    destruct (Z.leb_spec 0 t); [|lia]. cbn. rewrite Z.sub_0_r. split_and!; try done.
    + apply truncates_within.
    + apply truncates_within.
    + intros Hm. unfold try_from. destruct (Z.ltb_spec (as_millis t) (2 ^ 64)); [|lia].
      split; [done|]. unfold as_millis, MILLI in *.
      pose proof (Z.div_mod t 1000000 ltac:(lia)). pose proof (Z.mod_pos_bound t 1000000 ltac:(lia)). lia.
  - intros s [Hs _]. rewrite checked_add_whole. split; intros H.
    + destruct (Z.ltb_spec s (2 ^ 63)); [|lia]. exists (s * NANOS).
      assert (0 <= s * NANOS) by (unfold NANOS; lia). unfold duration_since.
      destruct (Z.leb_spec 0 (s * NANOS)); [|lia]. cbn.
      by rewrite Z.sub_0_r, as_secs_whole.
    + destruct (Z.ltb_spec s (2 ^ 63)); [lia | done].
  - intros m Hm. rewrite checked_add_millis by done. exists (m * MILLI). split; [done|].
    destruct Hm as [Hm0 Hm]. unfold duration_since, MILLI, as_millis.
    destruct (Z.leb_spec 0 (m * 1000000)); [|lia]. cbn. rewrite Z.sub_0_r. unfold MILLI.
    rewrite Z.div_mul by lia. unfold try_from. destruct (Z.ltb_spec m (2 ^ 64)); [done | lia].
Qed.

Lemma timestamps_truncate_and_roundtrip_witness :
  exists s m, UnixSeconds.serialize_as 1800000000700000000 = Ok s /\
    (UnixMillis.serialize_as 1800000000700000000 = Ok m) /\ s = 1800000000.
Proof.
  destruct (proj1 (proj2 timestamps_truncate_and_roundtrip) 1800000000700000000)
    as (s & m & Hs & _ & ? & Hm).
  - unfold is_system_time. vm_compute. split; discriminate || done.
  - lia.
  - exists s, m. split; [exact Hs|]. split; [apply Hm; vm_compute; done|].
    unfold NANOS in *. lia.
Defined.
