(* ===== verification/Quote.v ===== *)
(** * Quote assembly ([src/quote.rs])

    [RfqBinding] checks an inbound RFQ against the expected program and market;
    [QuoteBuilder] resolves the maker's side and derives the signed order and the
    wire message from the same values.  [find_program_address] (Solana) is a
    parameter. *)

From Stdlib Require Import ZArith Lia String.
From stdpp Require Import base list strings.
From S2P Require Import Prelude Spreads Terms Signing Orders Time.

Open Scope Z_scope.

(** [Pubkey::find_program_address(seeds, program).0]. *)
Class Pda := { find_program_address : list bytes -> key -> key }.

(** An identifier of the uuid crate: its 128 bits. *)
Abbreviation Uuid := Z (only parsing).

Module QuoteBuildError.
(* quote.rs:14-64 QuoteBuildError *)
Inductive t :=
| Order (e : OrderError.t)
| Spread (e : SpreadError.t)
| Identity (field : string) (source : WireError.t)
| MarketBinding (what : string)
| TermsNotOffered (requested : OptionTerms.t) (offered : list OptionTerms.t)
| Missing (what : string)
| ValidUntilAfterMarketExpiry (valid_until market_expiry : Z)
| ValidUntilTooSoon (valid_until min_valid_until : Z)
| ValidUntilWithinSettlementBuffer (valid_until buffer_end : Z)
| Signing (e : SigningError).
End QuoteBuildError.

Abbreviation qres := (res QuoteBuildError.t).

(* ws/types/common.rs:118-129 MarketDescriptor *)
Record MarketDescriptor := {
  md_chain_id : Z;
  md_program_id : key;
  md_market_pda : key;
  md_underlying_mint : key;
  md_quote_mint : key;
  md_expiry_ts : Z;
  md_is_put : bool;
  md_collateral_mint : key;
  md_settlement_mint : key;
}.

(* ws/types/server/server_rfq.rs:66-79 RfqBroadcastMessage *)
Record RfqBroadcastMessage := {
  rb_rfq_id : Uuid;
  rb_market : MarketDescriptor;
  rb_terms : OptionTerms.t;
  rb_side : TakerSide.t;
  rb_quantity : Z;
  rb_expires_at : Z;
  rb_taker : key;
  rb_order_options : list OptionTerms.t;
  rb_sent_at_unix_ms : Z;
}.

(* ws/types/client.rs:177-186 QuoteMessage *)
Record QuoteMessage := {
  qm_rfq_id : Uuid;
  qm_terms : OptionTerms.t;
  qm_side : TakerSide.t;
  qm_price : Z;
  qm_valid_until : Z;
  qm_nonce : Z;
  qm_order_id : bytes;
  qm_signature : string;
}.

(* ws/types/client.rs:190-200 ReplaceQuoteMessage *)
Record ReplaceQuoteMessage := {
  rq_old_order_id : bytes;
  rq_rfq_id : Uuid;
  rq_terms : OptionTerms.t;
  rq_side : TakerSide.t;
  rq_price : Z;
  rq_valid_until : Z;
  rq_nonce : Z;
  rq_order_id : bytes;
  rq_signature : string;
}.

(* quote.rs:66-81 RfqBinding *)
Record RfqBinding := {
  b_rfq_id : Uuid;
  b_chain_id : Z;
  b_program_id : key;
  b_market : key;
  b_market_expiry : Z;
  b_taker : key;
  b_terms : OptionTerms.t;
  b_quantity : Z;
  b_offered_terms : list OptionTerms.t;
  b_side : TakerSide.t;
}.

(* quote.rs:277-283 Resolved *)
Record Resolved := {
  r_price : Z;
  r_valid_until : Z;
  r_nonce : Z;
  r_maker : key;
}.

(* quote.rs:285-297 QuoteBuilder *)
Record QuoteBuilder := {
  qb_binding : RfqBinding;
  qb_terms : OptionTerms.t;
  qb_price : option Z;
  qb_valid_until : option Z;
  qb_min_valid_until : option Z;
  qb_buffer_end : option Z;
  qb_nonce : option Z;
  qb_maker : option key;
}.

Section market.
Context `{P : Pda}.

(* quote.rs:257-275 market_pda *)
Definition market_pda (program_id underlying_mint quote_mint : key) (expiry_ts : Z) (is_put : bool)
  : key :=
  find_program_address
    [[109; 97; 114; 107; 101; 116]; underlying_mint; quote_mint; to_le_bytes 8 expiry_ts;
     [u8_of_bool is_put]] program_id.

(* quote.rs:206-255 validate_market_binding *)
Definition validate_market_binding (rfq : RfqBroadcastMessage) (expected_program : key)
  : qres (key * Z) :=
  let descriptor := rb_market rfq in
  _ ← reject_if (negb (md_chain_id descriptor =? 0)) (QuoteBuildError.MarketBinding "chain_id");
  _ ← reject_if (negb (bool_decide (md_program_id descriptor = expected_program)))
        (QuoteBuildError.MarketBinding "program_id");
  _ ← reject_if (negb (eqb (md_is_put descriptor)
                         (PositionType.is_put (OptionTerms.position_type (rb_terms rfq)))))
        (QuoteBuildError.MarketBinding "terms");
  let underlying := md_underlying_mint descriptor in
  let quote := md_quote_mint descriptor in
  let '(collateral, settlement) :=
    if OptionTerms.is_spread (rb_terms rfq) then (quote, quote)
    else if md_is_put descriptor then (quote, underlying)
    else (underlying, quote) in
  _ ← reject_if (negb (bool_decide (md_collateral_mint descriptor = collateral))
                 || negb (bool_decide (md_settlement_mint descriptor = settlement)))
        (QuoteBuildError.MarketBinding "collateral/settlement mint");
  expiry ← ok_or (duration_since (md_expiry_ts descriptor) 0)
             (QuoteBuildError.MarketBinding "expiry_ts");
  _ ← reject_if (negb (subsec_nanos expiry =? 0) || (2 ^ 63 - 1 <? as_secs expiry))
        (QuoteBuildError.MarketBinding "expiry_ts");
  let expected_market :=
    market_pda expected_program underlying quote (as_secs expiry) (md_is_put descriptor) in
  let market := md_market_pda descriptor in
  _ ← reject_if (negb (bool_decide (market = expected_market)))
        (QuoteBuildError.MarketBinding "market_pda");
  Ok (market, as_secs expiry).

(** The first half of [from_broadcast_for_program]: the terms against the options. *)
(* quote.rs:101-127 RfqBinding::from_broadcast_for_program *)
Definition validate_rfq_terms (rfq : RfqBroadcastMessage) : qres unit :=
  let terms := rb_terms rfq in
  if OptionTerms.is_spread terms then
    upper ← ok_or (OptionTerms.upper_strike terms) (QuoteBuildError.MarketBinding "spread terms");
    _ ← reject_if (negb (bool_decide (OptionTerms.position_type terms = PositionType.CashPut))
                   && (OptionTerms.strike terms =? 0))
          (QuoteBuildError.Spread SpreadError.InvalidStrikes);
    kind ← map_err QuoteBuildError.Spread
             (spread_type_try_from (ChainPositionType.to_u8
                (ChainTerms.position_type (OptionTerms.to_chain terms))));
    _ ← map_err QuoteBuildError.Spread
          (validate_strikes kind (ChainTerms.strike (OptionTerms.to_chain terms)) upper);
    _ ← reject_if ((rb_quantity rfq =? 0) || negb (length (rb_order_options rfq) =? 1)%nat
                   || negb (bool_decide (rb_order_options rfq !! 0%nat = Some terms)))
          (QuoteBuildError.MarketBinding "spread pair");
    Ok tt
  else
    reject_if (existsb (fun option => OptionTerms.is_spread option
        || negb (bool_decide (OptionTerms.position_type option = OptionTerms.position_type terms)))
        (rb_order_options rfq))
      (QuoteBuildError.MarketBinding "physical order_options").

(* quote.rs:97-150 RfqBinding::from_broadcast_for_program *)
Definition from_broadcast_for_program (rfq : RfqBroadcastMessage) (expected_program : key)
  : qres RfqBinding :=
  let terms := rb_terms rfq in
  _ ← validate_rfq_terms rfq;
  '(market, market_expiry) ← validate_market_binding rfq expected_program;
  let offered_terms :=
    terms :: List.filter (fun option => negb (bool_decide (option = terms))) (rb_order_options rfq) in
  Ok {| b_rfq_id := rb_rfq_id rfq; b_chain_id := md_chain_id (rb_market rfq);
        b_program_id := expected_program; b_market := market; b_market_expiry := market_expiry;
        b_taker := rb_taker rfq; b_terms := terms; b_quantity := rb_quantity rfq;
        b_offered_terms := offered_terms; b_side := rb_side rfq |}.

(** The bytes of [33Ezs5eoa16QyPW8wifnyz2nCyMEcq2crqkVBNjnTE8U]. *)
(* lib.rs:27-28 ACTA_PROGRAM_ID *)
Definition ACTA_PROGRAM_ID : key :=
  [30; 74; 92; 215; 61; 228; 38; 29; 242; 73; 93; 71; 12; 105; 28; 13; 179; 249; 75; 162; 251;
   213; 13; 21; 120; 49; 201; 116; 107; 243; 234; 229].

(* quote.rs:89-91 RfqBinding::from_broadcast *)
Definition from_broadcast (rfq : RfqBroadcastMessage) : qres RfqBinding :=
  from_broadcast_for_program rfq ACTA_PROGRAM_ID.
End market.

(* quote.rs:191-203 RfqBinding::quote *)
Definition quote (binding : RfqBinding) : QuoteBuilder :=
  {| qb_binding := binding; qb_terms := b_terms binding; qb_price := None;
     qb_valid_until := None; qb_min_valid_until := None; qb_buffer_end := None;
     qb_nonce := None; qb_maker := None |}.

Module QuoteBuilderOps.
Section ops.
Context `{C : Crypto}.
Variable self : QuoteBuilder.

(** The chained setters. *)
(* quote.rs:306-310 QuoteBuilder::terms *)
Definition terms (v : OptionTerms.t) : QuoteBuilder :=
  {| qb_binding := qb_binding self; qb_terms := v; qb_price := qb_price self;
     qb_valid_until := qb_valid_until self; qb_min_valid_until := qb_min_valid_until self;
     qb_buffer_end := qb_buffer_end self; qb_nonce := qb_nonce self; qb_maker := qb_maker self |}.
(* quote.rs:312-315 QuoteBuilder::price *)
Definition price (v : Z) : QuoteBuilder :=
  {| qb_binding := qb_binding self; qb_terms := qb_terms self; qb_price := Some v;
     qb_valid_until := qb_valid_until self; qb_min_valid_until := qb_min_valid_until self;
     qb_buffer_end := qb_buffer_end self; qb_nonce := qb_nonce self; qb_maker := qb_maker self |}.
(* quote.rs:317-320 QuoteBuilder::valid_until *)
Definition valid_until (v : Z) : QuoteBuilder :=
  {| qb_binding := qb_binding self; qb_terms := qb_terms self; qb_price := qb_price self;
     qb_valid_until := Some v; qb_min_valid_until := qb_min_valid_until self;
     qb_buffer_end := qb_buffer_end self; qb_nonce := qb_nonce self; qb_maker := qb_maker self |}.
(* quote.rs:322-327 QuoteBuilder::min_valid_until *)
Definition min_valid_until (v : Z) : QuoteBuilder :=
  {| qb_binding := qb_binding self; qb_terms := qb_terms self; qb_price := qb_price self;
     qb_valid_until := qb_valid_until self; qb_min_valid_until := Some v;
     qb_buffer_end := qb_buffer_end self; qb_nonce := qb_nonce self; qb_maker := qb_maker self |}.
(* quote.rs:348-357 QuoteBuilder::quote_window *)
Definition quote_window (now min_quote_validity_seconds settlement_buffer_seconds : Z)
  : QuoteBuilder :=
  let after seconds := QuoteExpiry.after now (seconds * NANOS) in
  {| qb_binding := qb_binding self; qb_terms := qb_terms self; qb_price := qb_price self;
     qb_valid_until := qb_valid_until self;
     qb_min_valid_until := after min_quote_validity_seconds;
     qb_buffer_end := after settlement_buffer_seconds;
     qb_nonce := qb_nonce self; qb_maker := qb_maker self |}.
(* quote.rs:359-362 QuoteBuilder::nonce *)
Definition nonce (v : Z) : QuoteBuilder :=
  {| qb_binding := qb_binding self; qb_terms := qb_terms self; qb_price := qb_price self;
     qb_valid_until := qb_valid_until self; qb_min_valid_until := qb_min_valid_until self;
     qb_buffer_end := qb_buffer_end self; qb_nonce := Some v; qb_maker := qb_maker self |}.
(* quote.rs:364-368 QuoteBuilder::maker_owner *)
Definition maker_owner (v : key) : QuoteBuilder :=
  {| qb_binding := qb_binding self; qb_terms := qb_terms self; qb_price := qb_price self;
     qb_valid_until := qb_valid_until self; qb_min_valid_until := qb_min_valid_until self;
     qb_buffer_end := qb_buffer_end self; qb_nonce := qb_nonce self; qb_maker := Some v |}.

(* quote.rs:370-409 QuoteBuilder::resolve *)
Definition resolve : qres Resolved :=
  _ ← reject_if (negb (bool_decide (qb_terms self ∈ b_offered_terms (qb_binding self))))
        (QuoteBuildError.TermsNotOffered (qb_terms self) (b_offered_terms (qb_binding self)));
  valid_until ← ok_or (qb_valid_until self) (QuoteBuildError.Missing "valid_until");
  min_valid_until ← ok_or (qb_min_valid_until self) (QuoteBuildError.Missing "min_valid_until");
  let market_expiry := b_market_expiry (qb_binding self) in
  _ ← reject_if (market_expiry <? valid_until)
        (QuoteBuildError.ValidUntilAfterMarketExpiry valid_until market_expiry);
  _ ← reject_if (valid_until <? min_valid_until)
        (QuoteBuildError.ValidUntilTooSoon valid_until min_valid_until);
  _ ← match qb_buffer_end self with
      | Some buffer_end =>
          reject_if (valid_until <=? buffer_end)
            (QuoteBuildError.ValidUntilWithinSettlementBuffer valid_until buffer_end)
      | None => Ok tt
      end;
  price ← ok_or (qb_price self) (QuoteBuildError.Missing "price");
  nonce ← ok_or (qb_nonce self) (QuoteBuildError.Missing "nonce");
  maker ← ok_or (qb_maker self) (QuoteBuildError.Missing "maker_owner");
  Ok {| r_price := price; r_valid_until := valid_until; r_nonce := nonce; r_maker := maker |}.

(* quote.rs:411-426 QuoteBuilder::args_for *)
Definition args_for (resolved : Resolved) : OrderPreimageArgs :=
  {| o_chain_id := b_chain_id (qb_binding self);
     o_program_id := b_program_id (qb_binding self);
     o_side := b_side (qb_binding self);
     o_position_type := OptionTerms.position_type (qb_terms self);
     o_market := b_market (qb_binding self);
     o_strike := OptionTerms.strike (qb_terms self);
     o_quantity := b_quantity (qb_binding self);
     o_gross_price := r_price resolved;
     o_valid_until := r_valid_until resolved;
     o_maker := r_maker resolved;
     o_taker := b_taker (qb_binding self);
     o_nonce := r_nonce resolved |}.

(* quote.rs:428-437 QuoteBuilder::preimage_args *)
Definition preimage_args : qres OrderPreimageArgs :=
  _ ← reject_if (OptionTerms.is_spread (qb_terms self))
        (QuoteBuildError.Order OrderError.SpreadLayoutRequired);
  resolved ← resolve;
  Ok (args_for resolved).

(* quote.rs:489-515 QuoteBuilder::spread_args_for *)
Definition spread_args_for (resolved : Resolved) : qres SpreadOrderPreimageArgs :=
  let args := args_for resolved in
  position_type ← map_err QuoteBuildError.Spread
    (spread_type_try_from (ChainPositionType.to_u8
       (ChainTerms.position_type (OptionTerms.to_chain (qb_terms self)))));
  upper_strike ← ok_or (OptionTerms.upper_strike (qb_terms self))
                   (QuoteBuildError.MarketBinding "spread terms");
  Ok {| s_chain_id := o_chain_id args; s_program_id := o_program_id args; s_side := o_side args;
        s_position_type := position_type; s_market := o_market args;
        s_lower_strike := ChainTerms.strike (OptionTerms.to_chain (qb_terms self));
        s_upper_strike := upper_strike;
        s_quantity := o_quantity args; s_gross_price := o_gross_price args;
        s_valid_until := o_valid_until args; s_maker := o_maker args; s_taker := o_taker args;
        s_nonce := o_nonce args |}.

(* quote.rs:483-487 QuoteBuilder::spread_preimage_args *)
Definition spread_preimage_args : qres SpreadOrderPreimageArgs :=
  resolved ← resolve;
  spread_args_for resolved.

(* quote.rs:517-525 QuoteBuilder::order_id *)
Definition order_id (resolved : Resolved) : qres bytes :=
  if OptionTerms.is_spread (qb_terms self) then
    args ← spread_args_for resolved;
    map_err QuoteBuildError.Spread (compute_spread_order_id args)
  else map_err QuoteBuildError.Order (compute_order_id (args_for resolved)).

(* quote.rs:527-543 QuoteBuilder::assemble *)
Definition assemble (resolved : Resolved) (order_id signature : bytes) : QuoteMessage :=
  {| qm_rfq_id := b_rfq_id (qb_binding self); qm_terms := qb_terms self;
     qm_side := b_side (qb_binding self); qm_price := r_price resolved;
     qm_valid_until := r_valid_until resolved; qm_nonce := r_nonce resolved;
     qm_order_id := order_id; qm_signature := encode_base58 signature |}.

(* quote.rs:470-481 QuoteBuilder::sign_parts *)
Definition sign_parts `{SignerLike T} (signer : T) : qres (Resolved * bytes * bytes) :=
  resolved ← resolve;
  order_id ← order_id resolved;
  Ok (resolved, order_id, sign_order_id_with_signer order_id signer).

(* quote.rs:439-451 QuoteBuilder::sign *)
Definition sign `{SignerLike T} (signer : T) : qres QuoteMessage :=
  '(resolved, order_id, signature) ← sign_parts signer;
  Ok (assemble resolved order_id signature).

(* quote.rs:453-468 QuoteBuilder::sign_with_async_signer *)
Definition sign_with_async_signer `{AsyncSignerLike T} (signer : T) : qres QuoteMessage :=
  resolved ← resolve;
  order_id ← order_id resolved;
  signature ← map_err QuoteBuildError.Signing (sign_order_id_with_async_signer order_id signer);
  Ok (assemble resolved order_id signature).
End ops.
End QuoteBuilderOps.

(* quote.rs:546-562 QuoteMessage::into_replacement *)
Definition into_replacement (self : QuoteMessage) (old_order_id : bytes) : ReplaceQuoteMessage :=
  {| rq_old_order_id := old_order_id; rq_rfq_id := qm_rfq_id self; rq_terms := qm_terms self;
     rq_side := qm_side self; rq_price := qm_price self; rq_valid_until := qm_valid_until self;
     rq_nonce := qm_nonce self; rq_order_id := qm_order_id self;
     rq_signature := qm_signature self |}.

(** ** What a binding guarantees *)

(** The facts about an RFQ that [from_broadcast_for_program] establishes. *)
Record binding_sound `{P : Pda} (rfq : RfqBroadcastMessage) (program : key) (b : RfqBinding) : Prop := {
  bs_program : md_program_id (rb_market rfq) = program /\ b_program_id b = program;
  bs_chain : b_chain_id b = 0 /\ md_chain_id (rb_market rfq) = 0;
  bs_expiry : md_expiry_ts (rb_market rfq) = b_market_expiry b * NANOS /\
              0 <= b_market_expiry b < 2 ^ 63;
  bs_market :
    b_market b = md_market_pda (rb_market rfq) /\
    b_market b = market_pda program (md_underlying_mint (rb_market rfq))
                   (md_quote_mint (rb_market rfq)) (b_market_expiry b)
                   (PositionType.is_put (OptionTerms.position_type (rb_terms rfq)));
  bs_mints :
    (md_collateral_mint (rb_market rfq), md_settlement_mint (rb_market rfq)) =
    let u := md_underlying_mint (rb_market rfq) in
    let q := md_quote_mint (rb_market rfq) in
    match OptionTerms.position_type (rb_terms rfq) with
    | PositionType.CoveredCall => (u, q)
    | PositionType.CashSecuredPut => (q, u)
    | _ => (q, q)
    end;
  bs_same : b_terms b = rb_terms rfq /\ b_side b = rb_side rfq /\ b_taker b = rb_taker rfq /\
            b_quantity b = rb_quantity rfq /\ b_rfq_id b = rb_rfq_id rfq;
  bs_offered o : o ∈ b_offered_terms b <-> o = rb_terms rfq \/ o ∈ rb_order_options rfq;
  bs_product o : o ∈ b_offered_terms b ->
    OptionTerms.position_type o = OptionTerms.position_type (rb_terms rfq);
  bs_spread : OptionTerms.is_spread (rb_terms rfq) = true ->
    b_offered_terms b = [rb_terms rfq] /\ 0 <> rb_quantity rfq /\
    ChainTerms.valid (OptionTerms.to_chain (rb_terms rfq));
}.

Section binding.
Context `{P : Pda}.

Lemma validate_market_binding_Ok rfq program market expiry :
  validate_market_binding rfq program = Ok (market, expiry) ->
  let d := rb_market rfq in
  md_chain_id d = 0 /\ md_program_id d = program /\
  md_is_put d = PositionType.is_put (OptionTerms.position_type (rb_terms rfq)) /\
  (md_collateral_mint d, md_settlement_mint d) =
    (if OptionTerms.is_spread (rb_terms rfq) then (md_quote_mint d, md_quote_mint d)
     else if md_is_put d then (md_quote_mint d, md_underlying_mint d)
     else (md_underlying_mint d, md_quote_mint d)) /\
  md_expiry_ts d = expiry * NANOS /\ 0 <= expiry < 2 ^ 63 /\ market = md_market_pda d /\
  market = market_pda program (md_underlying_mint d) (md_quote_mint d) expiry (md_is_put d).
Proof.
  intros H d. unfold validate_market_binding in H. fold d in H.
  destruct (if OptionTerms.is_spread (rb_terms rfq) then _ else _) as [coll sett] eqn:E.
  inv_ok H. injection H as <- <-.
  apply negb_false_iff, Z.eqb_eq in Hv. apply negb_false_iff, bool_decide_eq_true in Hv0.
  apply negb_false_iff, eqb_prop in Hv1.
  apply orb_false_iff in Hv2 as [Hc Hs]. apply negb_false_iff, bool_decide_eq_true in Hc, Hs.
  apply orb_false_iff in Hv4 as [Hn Hb]. apply negb_false_iff, Z.eqb_eq in Hn.
  apply negb_false_iff, bool_decide_eq_true in Hv5. apply Z.ltb_ge in Hb.
  unfold duration_since in Hv3. destruct (Z.leb_spec 0 (md_expiry_ts d)); [|discriminate].
  injection Hv3 as <-. rewrite Z.sub_0_r in *. unfold subsec_nanos in Hn.
  pose proof (truncates_within (md_expiry_ts d)).
  split_and!; try done.
  - by rewrite Hc, Hs.
  - unfold as_secs, NANOS in *. pose proof (Z.div_mod (md_expiry_ts d) 1000000000). lia.
  - unfold as_secs, NANOS. apply Z.div_pos; lia.
  - lia.
Qed.

Lemma validate_rfq_terms_Ok rfq :
  0 <= OptionTerms.strike (rb_terms rfq) -> validate_rfq_terms rfq = Ok tt ->
  (forall o, o ∈ rb_order_options rfq ->
     OptionTerms.position_type o = OptionTerms.position_type (rb_terms rfq)) /\
  (OptionTerms.is_spread (rb_terms rfq) = true ->
     rb_order_options rfq = [rb_terms rfq] /\ 0 <> rb_quantity rfq /\
     ChainTerms.valid (OptionTerms.to_chain (rb_terms rfq))).
Proof.
  unfold validate_rfq_terms. intros H0 H. destruct (OptionTerms.is_spread (rb_terms rfq)) eqn:E.
  - inv_ok H. apply orb_false_iff in Hv3 as [[Hq Hl]%orb_false_iff Ho].
    apply Z.eqb_neq in Hq. apply negb_false_iff, Nat.eqb_eq in Hl.
    apply negb_false_iff, bool_decide_eq_true in Ho.
    destruct (rb_order_options rfq) as [|o [|]]; try discriminate. injection Ho as ->.
    split; [by intros o ->%list_elem_of_singleton|]. intros _. split; [done|]. split; [lia|].
    unfold validate_strikes in Hv2. inv_ok Hv2. apply width_Ok in Hv2 as [-> Hw].
    destruct (rb_terms rfq) as [s|s|s|l u|l u]; try discriminate E; cbn in *; simplify_eq; cbn in *;
      reflect_bool; try discriminate; lia.
  - apply reject_if_Ok in H. split; [|done]. intros o Ho.
    apply not_true_iff_false in H. rewrite existsb_exists in H.
    destruct (decide (OptionTerms.position_type o = OptionTerms.position_type (rb_terms rfq)))
      as [|Hne]; [done|].
    destruct H. exists o. split; [by apply list_elem_of_In|].
    rewrite bool_decide_false by done. by rewrite orb_true_r.
Qed.

Lemma from_broadcast_returns rfq program : returns (from_broadcast_for_program rfq program).
Proof.
  unfold from_broadcast_for_program, validate_rfq_terms, validate_market_binding, validate_strikes,
    width, spread_type_try_from.
  repeat returns_step; try done.
  all: try (repeat case_match; discriminate).
  all: unfold reject_if; repeat case_match; cbn; try discriminate.
Qed.

(** C6: an RFQ is bound only if it is what it says.  When
    [from_broadcast_for_program] succeeds, the descriptor names the expected
    program on chain 0, its market address is the program-derived address of the
    underlying, quote, whole-second expiry and put flag, its collateral and
    settlement mints are the ones of the product, and the binding repeats the RFQ's
    fields; every offered term has the requested product, and a spread RFQ offers
    exactly its own valid, non-zero-size terms.  It never panics. *)
Theorem from_broadcast_sound rfq program :
  fits 64 (OptionTerms.strike (rb_terms rfq)) ->
  match from_broadcast_for_program rfq program with
  | Ok b => binding_sound rfq program b
  | Err _ => True
  | Panic => False
  end.
Proof.
  intros [Hs _]. destruct (from_broadcast_for_program rfq program) as [b| |] eqn:E; [|done|].
  - unfold from_broadcast_for_program in E. inv_ok E. destruct v0 as [market expiry].
    injection E as <-. destruct v.
    apply validate_rfq_terms_Ok in Hv as [Hprod Hspread]; [|done].
    apply validate_market_binding_Ok in Hv0 as (?&?&Hput&Hm&He&?&?&?).
    split; simpl.
    + done.
    + done.
    + done.
    + by rewrite <- Hput.
    + rewrite Hm, Hput. unfold OptionTerms.is_spread. by destruct (OptionTerms.position_type _).
    + done.
    + intros o. rewrite elem_of_cons, !list_elem_of_In, filter_In.
      destruct (decide (o = rb_terms rfq)) as [->|Hne]; [tauto|].
      rewrite bool_decide_false by done. tauto.
    + intros o [->|[Ho _]%list_elem_of_In%filter_In]%elem_of_cons; [done|].
      by apply Hprod, list_elem_of_In.
    + intros Hsp. destruct (Hspread Hsp) as (Ho & ? & ?). rewrite Ho. simpl.
      by rewrite bool_decide_true.
  - by destruct (from_broadcast_returns rfq program).
Qed.
End binding.

(** ** What a signed quote guarantees *)

Definition builder_typed (qb : QuoteBuilder) : Prop :=
  let b := qb_binding qb in
  fits 64 (b_chain_id b) /\ is_key (b_program_id b) /\ is_key (b_market b) /\ is_key (b_taker b) /\
  fits 64 (b_quantity b) /\ ChainTerms.typed (OptionTerms.to_chain (qb_terms qb)) /\
  (forall p, qb_price qb = Some p -> fits 64 p) /\
  (forall v, qb_valid_until qb = Some v -> fits 64 v) /\
  (forall n, qb_nonce qb = Some n -> fits 64 n) /\
  (forall k, qb_maker qb = Some k -> is_key k).

(** The order a third party rebuilds from the RFQ, the maker's key and the quote
    message. *)
Definition order_of (b : RfqBinding) (maker : key) (m : QuoteMessage) : AnyOrder :=
  if OptionTerms.is_spread (qm_terms m) then
    Spread {| s_chain_id := b_chain_id b; s_program_id := b_program_id b; s_side := qm_side m;
      s_position_type := if PositionType.is_put (OptionTerms.position_type (qm_terms m))
                         then SpreadType.PutSpread else SpreadType.CallSpread;
      s_market := b_market b;
      s_lower_strike := ChainTerms.strike (OptionTerms.to_chain (qm_terms m));
      s_upper_strike := default 0 (OptionTerms.upper_strike (qm_terms m));
      s_quantity := b_quantity b; s_gross_price := qm_price m; s_valid_until := qm_valid_until m;
      s_maker := maker; s_taker := b_taker b; s_nonce := qm_nonce m |}
  else
    Physical {| o_chain_id := b_chain_id b; o_program_id := b_program_id b; o_side := qm_side m;
      o_position_type := OptionTerms.position_type (qm_terms m); o_market := b_market b;
      o_strike := OptionTerms.strike (qm_terms m); o_quantity := b_quantity b;
      o_gross_price := qm_price m; o_valid_until := qm_valid_until m; o_maker := maker;
      o_taker := b_taker b; o_nonce := qm_nonce m |}.

(** The builders that resolve, with the values they resolve to. *)
Definition resolves_to (qb : QuoteBuilder) (r : Resolved) : Prop :=
  qb_terms qb ∈ b_offered_terms (qb_binding qb) /\
  qb_price qb = Some (r_price r) /\ qb_valid_until qb = Some (r_valid_until r) /\
  qb_nonce qb = Some (r_nonce r) /\ qb_maker qb = Some (r_maker r) /\
  (exists m, qb_min_valid_until qb = Some m /\ m <= r_valid_until r) /\
  r_valid_until r <= b_market_expiry (qb_binding qb) /\
  (forall e, qb_buffer_end qb = Some e -> e < r_valid_until r).

Lemma resolve_Ok qb r : QuoteBuilderOps.resolve qb = Ok r <-> resolves_to qb r.
Proof.
  unfold QuoteBuilderOps.resolve, resolves_to. split.
  - intros H. inv_ok H. injection H as <-. simpl.
    apply negb_false_iff, bool_decide_eq_true in Hv. apply Z.ltb_ge in Hv2, Hv3.
    split_and!; try done.
    + by exists v1.
    + intros e He. rewrite He in Hv4. apply reject_if_Ok, Z.leb_gt in Hv4. done.
  - intros (Ht & -> & -> & -> & -> & (m & -> & Hm) & He & Hb).
    rewrite bool_decide_true by done. cbn [negb reject_if ok_or mbind res_bind].
    destruct (Z.ltb_spec (b_market_expiry (qb_binding qb)) (r_valid_until r)); [lia|].
    cbn [reject_if mbind res_bind]. destruct (Z.ltb_spec (r_valid_until r) m); [lia|].
    cbn [reject_if mbind res_bind]. destruct (qb_buffer_end qb) as [e|].
    + specialize (Hb e eq_refl). destruct (Z.leb_spec (r_valid_until r) e); [lia|].
      by destruct r.
    + by destruct r.
Qed.

Lemma resolve_returns qb : returns (QuoteBuilderOps.resolve qb).
Proof. unfold QuoteBuilderOps.resolve. repeat returns_step. Qed.

(** A spread whose price is inside its width, of some size, and, for a call, above zero;
    every physical order. *)
Definition order_acceptable (o : AnyOrder) : Prop :=
  match o with
  | Physical a => PositionType.is_spread (o_position_type a) = false
  | Spread a =>
      (s_position_type a = SpreadType.CallSpread -> 0 < s_lower_strike a) /\
      0 < s_gross_price a < s_upper_strike a - s_lower_strike a /\ 0 < s_quantity a
  end.

Section sign.
Context `{C : Crypto}.

(** The order [order_id] hashes is the one rebuilt from the message. *)
Lemma order_id_rebuilt qb r sig i :
  let m := QuoteBuilderOps.assemble qb r i sig in
  QuoteBuilderOps.order_id qb r =
    match order_of (qb_binding qb) (r_maker r) m with
    | Physical a => map_err QuoteBuildError.Order (compute_order_id a)
    | Spread a => map_err QuoteBuildError.Spread (compute_spread_order_id a)
    end.
Proof.
  unfold QuoteBuilderOps.order_id, order_of. simpl.
  unfold OptionTerms.is_spread. destruct (qb_terms qb) eqn:E; cbn; try done;
    unfold QuoteBuilderOps.spread_args_for, QuoteBuilderOps.args_for; rewrite E; done.
Qed.

Lemma order_of_typed qb r sig i :
  builder_typed qb -> resolves_to qb r ->
  any_typed (order_of (qb_binding qb) (r_maker r) (QuoteBuilderOps.assemble qb r i sig)).
Proof.
  intros (?&?&?&?&?&Ht&Hp&Hv&Hn&Hm) (_&Hp'&Hv'&Hn'&Hm'&_). apply Hp in Hp'. apply Hv in Hv'.
  apply Hn in Hn'. apply Hm in Hm'. unfold order_of. simpl. unfold OptionTerms.is_spread.
  destruct (qb_terms qb) eqn:E; simpl in *; destruct_and?; unfold spread_typed, order_typed; simpl;
    by split_and!.
Qed.

Lemma any_id_order o :
  any_typed o ->
  (order_acceptable o -> exists i, any_id o = Some i) /\
  (match o with
   | Physical a => compute_order_id a <> Panic
   | Spread a => compute_spread_order_id a <> Panic
   end) /\
  (forall i, any_id o = Some i -> order_acceptable o).
Proof.
  destruct o as [a|a]; simpl; intros Ht.
  - unfold compute_order_id, build_order_preimage.
    destruct (PositionType.is_spread (o_position_type a)); cbn [reject_if mbind res_bind].
    + split_and!; done.
    + rewrite physical_preimage_layout by done. split_and!; try done. intros _. cbn. eauto.
  - unfold compute_spread_order_id. rewrite spread_preimage_layout by done.
    pose proof (validate_premium_no_panic (s_position_type a) (s_lower_strike a)
      (s_upper_strike a) (s_quantity a) (s_gross_price a)).
    assert (Hv : validate_premium (s_position_type a) (s_lower_strike a) (s_upper_strike a)
                   (s_quantity a) (s_gross_price a) = Ok tt <-> order_acceptable (Spread a)).
    { apply validate_premium_Ok; unfold spread_typed, fits in Ht; lia. }
    cbn [order_acceptable] in Hv. setoid_rewrite <- Hv.
    destruct (validate_premium _ _ _ _ _) as [[]| |]; cbn; split_and!; try done; eauto.
Qed.
End sign.

Section signed.
Context `{C : Crypto} {T : Type} `{SL : SignerLike T} {own : T -> Prop} `{!SignerLaws T own}.

(** What the message of a resolved builder says once its order has an id. *)
Lemma signed_facts qb r signer i :
  own signer -> resolves_to qb r ->
  any_id (order_of (qb_binding qb) (r_maker r) (QuoteBuilderOps.assemble qb r [] [])) = Some i ->
  order_acceptable (order_of (qb_binding qb) (r_maker r) (QuoteBuilderOps.assemble qb r [] [])) ->
  let m := QuoteBuilderOps.assemble qb r i (sign_order_id_with_signer i signer) in
  exists r sig, resolves_to qb r /\
    order_acceptable (order_of (qb_binding qb) (r_maker r) m) /\
    qm_terms m = qb_terms qb /\ qm_side m = b_side (qb_binding qb) /\
    qm_rfq_id m = b_rfq_id (qb_binding qb) /\
    qm_price m = r_price r /\ qm_valid_until m = r_valid_until r /\ qm_nonce m = r_nonce r /\
    any_id (order_of (qb_binding qb) (r_maker r) m) = Some (qm_order_id m) /\
    qm_signature m = encode_base58 sig /\
    verify_order_id_signature_bytes (qm_order_id m) sig (pubkey_bytes signer) = Ok tt.
Proof.
  intros Hown Hr Hi Ha m. exists r, (sign_message signer i). split_and!; try done.
  unfold verify_order_id_signature_bytes.
  rewrite (signer_key_valid _ Hown). cbn. by rewrite (signer_verifies _ i Hown).
Qed.

(** C5: signing a quote never panics.  It succeeds exactly when the terms are
    offered by the RFQ, every field is set, [valid_until] is inside the venue's
    window (not before the minimum, not after market expiry, past the settlement
    buffer), and a spread's price is strictly between zero and its width, its size is
    not zero and a call spread's lower strike is not zero.  The message then
    carries the builder's values, its order id is the id of the order anyone can
    rebuild from the RFQ, the maker key and the message, and its signature verifies
    under the signer's key. *)
Theorem sign_sound qb signer :
  builder_typed qb -> own signer ->
  match QuoteBuilderOps.sign qb signer with
  | Ok m =>
      exists r sig, resolves_to qb r /\
        order_acceptable (order_of (qb_binding qb) (r_maker r) m) /\
        qm_terms m = qb_terms qb /\ qm_side m = b_side (qb_binding qb) /\
        qm_rfq_id m = b_rfq_id (qb_binding qb) /\
        qm_price m = r_price r /\ qm_valid_until m = r_valid_until r /\ qm_nonce m = r_nonce r /\
        any_id (order_of (qb_binding qb) (r_maker r) m) = Some (qm_order_id m) /\
        qm_signature m = encode_base58 sig /\
        verify_order_id_signature_bytes (qm_order_id m) sig (pubkey_bytes signer) = Ok tt
  | Err _ =>
      ~ exists r, resolves_to qb r /\
          order_acceptable (order_of (qb_binding qb) (r_maker r)
                              (QuoteBuilderOps.assemble qb r [] []))
  | Panic => False
  end.
Proof.
  intros Ht Hown. unfold QuoteBuilderOps.sign, QuoteBuilderOps.sign_parts.
  pose proof (resolve_returns qb) as Hret.
  destruct (QuoteBuilderOps.resolve qb) as [r|e|] eqn:Er; [|..|by destruct Hret].
  - apply resolve_Ok in Er. cbn [mbind res_bind]. rewrite (order_id_rebuilt qb r [] []).
    pose proof (order_of_typed qb r [] [] Ht Er) as Hty.
    destruct (any_id_order _ Hty) as (Hacc & Hnp & Hback).
    destruct (order_of _ _ _) as [a|a] eqn:Eo; simpl in *.
    + destruct (compute_order_id a) as [i|e|] eqn:Ei; cbn; [| |by destruct Hnp].
      * apply (signed_facts qb r signer i Hown Er); rewrite Eo; cbn; [by rewrite Ei|].
        by apply (Hback i).
      * intros (r' & Hr' & Ho). apply resolve_Ok in Hr', Er. rewrite Er in Hr'. injection Hr' as <-.
        rewrite Eo in Ho. by destruct (Hacc Ho).
    + destruct (compute_spread_order_id a) as [i|e|] eqn:Ei; cbn; [| |by destruct Hnp].
      * apply (signed_facts qb r signer i Hown Er); rewrite Eo; cbn; [by rewrite Ei|].
        by apply (Hback i).
      * intros (r' & Hr' & Ho). apply resolve_Ok in Hr', Er. rewrite Er in Hr'. injection Hr' as <-.
        rewrite Eo in Ho. by destruct (Hacc Ho).
  - cbn. intros (r & Hr & _). apply resolve_Ok in Hr. rewrite Hr in Er. discriminate Er.
Qed.
End signed.

(** A concrete RFQ, with program-derived addresses made of their leading seeds. *)
Module QuoteExample.
#[global] Instance pda : Pda := {| find_program_address seeds program := Sample.pad 32 (concat seeds ++ program) |}.

Definition descriptor : MarketDescriptor :=
  {| md_chain_id := 0; md_program_id := key_of 7;
     md_market_pda := market_pda (key_of 7) (key_of 1) (key_of 2) 1760000000 true;
     md_underlying_mint := key_of 1; md_quote_mint := key_of 2;
     md_expiry_ts := 1760000000000000000; md_is_put := true;
     md_collateral_mint := key_of 2; md_settlement_mint := key_of 2 |}.

Definition rfq : RfqBroadcastMessage :=
  {| rb_rfq_id := 99; rb_market := descriptor; rb_terms := OptionTerms.CashPut 150000000000;
     rb_side := TakerSide.Sell; rb_quantity := 2000000000; rb_expires_at := 1700000600000000000;
     rb_taker := key_of 13; rb_order_options := [OptionTerms.CashPut 150000000000];
     rb_sent_at_unix_ms := 1700000000000000000 |}.

Definition binding : RfqBinding :=
  {| b_rfq_id := 99; b_chain_id := 0; b_program_id := key_of 7;
     b_market := market_pda (key_of 7) (key_of 1) (key_of 2) 1760000000 true;
     b_market_expiry := 1760000000; b_taker := key_of 13;
     b_terms := OptionTerms.CashPut 150000000000; b_quantity := 2000000000;
     b_offered_terms := [OptionTerms.CashPut 150000000000]; b_side := TakerSide.Sell |}.

Definition builder : QuoteBuilder :=
  let q := quote binding in
  let q := QuoteBuilderOps.price q 3000000000 in
  let q := QuoteBuilderOps.valid_until q 1700000500 in
  let q := QuoteBuilderOps.quote_window q 1700000000700000000 30 60 in
  let q := QuoteBuilderOps.nonce q 42 in
  QuoteBuilderOps.maker_owner q (key_of 11).

Lemma builder_is_typed : builder_typed builder.
Proof.
  unfold builder_typed. cbn [qb_binding builder binding QuoteBuilderOps.maker_owner QuoteBuilderOps.nonce
    QuoteBuilderOps.quote_window QuoteBuilderOps.valid_until QuoteBuilderOps.price quote
    b_chain_id b_program_id b_market b_taker b_quantity qb_price qb_valid_until qb_nonce qb_maker].
  split_and!; try (apply key_of_is_key; unfold fits; lia); try (unfold fits; lia).
  - apply Sample.pad_array.
  - simpl. unfold fits. lia.
  - intros ? [= <-]. unfold fits. lia.
  - intros ? [= <-]. unfold fits. lia.
  - intros ? [= <-]. unfold fits. lia.
  - intros ? [= <-]. apply key_of_is_key. unfold fits. lia.
Qed.
End QuoteExample.

Lemma from_broadcast_sound_witness :
  from_broadcast_for_program QuoteExample.rfq (key_of 7) = Ok QuoteExample.binding /\
  binding_sound QuoteExample.rfq (key_of 7) QuoteExample.binding.
Proof.
  assert (E : from_broadcast_for_program QuoteExample.rfq (key_of 7) = Ok QuoteExample.binding)
    by (vm_compute; reflexivity).
  split; [exact E|].
  pose proof (from_broadcast_sound QuoteExample.rfq (key_of 7) ltac:(unfold fits; simpl; lia)) as H.
  rewrite E in H. exact H.
Defined.

Lemma sign_sound_witness :
  exists m, QuoteBuilderOps.sign QuoteExample.builder (from_secret (key_of 5)) = Ok m /\
    qm_price m = 3000000000.
Proof.
  pose proof (sign_sound QuoteExample.builder (from_secret (key_of 5))
    QuoteExample.builder_is_typed (eq_refl : signer_wf (from_secret (key_of 5)))) as H.
  destruct (QuoteBuilderOps.sign QuoteExample.builder (from_secret (key_of 5))) as [m| |] eqn:E.
  - exists m. split; [reflexivity|]. destruct H as (r & sig & Hr & _ & _ & _ & _ & Hp & _).
    rewrite Hp. destruct Hr as (_ & Hr & _). injection Hr as <-. reflexivity.
  - vm_compute in E. discriminate E.
  - destruct H.
Defined.
