(* ===== verification/Nonce.v ===== *)
(** * The atomic nonce generator ([src/nonce.rs])

    [AtomicNonceGenerator] is shared by the threads that sign quotes.  Each call of
    [next_u64] is a sequence of atomic accesses to its two [AtomicU64] cells, which
    may interleave with other calls in any order; the model has one step per access.
    [OsRng] is a parameter of each step (the bytes it fills, or its failure).
    [NonceGenerator], a plain wrapper of rand's [StdRng], is not modelled. *)

From Stdlib Require Import ZArith Lia String.
From stdpp Require Import base list gmap strings relations.
From S2P Require Import Prelude.

Open Scope Z_scope.

(* nonce.rs:36-42 AtomicNonceGenerator *)
Record Generator := {
  counter : Z;
  entropy_base : Z;
}.

(* nonce.rs:45-50 AtomicNonceGenerator::new *)
Definition new : Generator := {| counter := 1; entropy_base := 0 |}.

(** Where a call of [next_u64] stands: its next atomic access. *)
(* nonce.rs:52-79 AtomicNonceGenerator::next_u64 (control points) *)
Inductive pc :=
| Load                    (** [next_u64]: first load of [entropy_base] *)
| InitLoad                (** [init]: its own load *)
| InitDraw                (** [init]: [OsRng::try_fill_bytes] *)
| InitCas (entropy : Z)   (** [init]: [compare_exchange(0, entropy)] *)
| Reload                  (** [next_u64]: load after [init] *)
| FetchAdd (base : Z)     (** [next_u64]: [counter.fetch_add(1)] *)
| Returned (nonce : Z)
| Failed.

(** One atomic access.  [draw] is what [OsRng] gives at a draw: eight bytes, or
    [None] when it is unavailable. *)
(* nonce.rs:52-79 AtomicNonceGenerator::init, next_u64 *)
Definition access (draw : option bytes) (g : Generator) (p : pc) : Generator * pc :=
  match p with
  | Load => (g, if entropy_base g =? 0 then InitLoad else FetchAdd (entropy_base g))
  | InitLoad => (g, if entropy_base g =? 0 then InitDraw else Reload)
  | InitDraw =>
      match draw with
      | Some buf => (g, InitCas (from_le_bytes buf))
      | None => (g, Failed)
      end
  | InitCas entropy =>
      (if entropy_base g =? 0
       then {| counter := counter g; entropy_base := entropy |} else g, Reload)
  | Reload => (g, FetchAdd (entropy_base g))
  | FetchAdd base =>
      ({| counter := wrapping_add 64 (counter g) 1; entropy_base := entropy_base g |},
       Returned (wrapping_add 64 base (counter g)))
  | Returned _ | Failed => (g, p)
  end.

(** ** Interleaved calls *)

(** The generator, the calls under way or finished, the nonces in the order their
    [fetch_add] happened, and what [OsRng] drew. *)
Record System := {
  gen : Generator;
  calls : list pc;
  issued : list Z;
  drawn : list Z;
}.

(** What an access adds to the nonces and to the draws. *)
Definition nonce_of (p p' : pc) : list Z :=
  match p, p' with FetchAdd _, Returned n => [n] | _, _ => [] end.
Definition draw_of (p : pc) (draw : option bytes) : list Z :=
  match p, draw with InitDraw, Some buf => [from_le_bytes buf] | _, _ => [] end.

(** A new call begins, or call [i] makes its next access.  Every value [OsRng]
    draws is non-zero (a zero draw has probability [2^-64]). *)
Inductive step : System -> System -> Prop :=
| step_call s :
    step s {| gen := gen s; calls := calls s ++ [Load]; issued := issued s; drawn := drawn s |}
| step_access s i p draw g' p' :
    calls s !! i = Some p ->
    (forall buf, draw = Some buf -> is_array 8 buf /\ from_le_bytes buf <> 0) ->
    access draw (gen s) p = (g', p') ->
    step s {| gen := g'; calls := <[i := p']> (calls s);
              issued := issued s ++ nonce_of p p'; drawn := drawn s ++ draw_of p draw |}.

Definition start : System := {| gen := new; calls := []; issued := []; drawn := [] |}.

Inductive reachable : System -> Prop :=
| reach_start : reachable start
| reach_step s s' : reachable s -> step s s' -> reachable s'.

(** The invariant: the base is set once; a call past its load holds that base; the
    nonces issued are the base plus 1, 2, 3, ... in order. *)
Definition pc_ok (g : Generator) (p : pc) : Prop :=
  match p with
  | InitCas e => fits 64 e /\ e <> 0
  | Reload => entropy_base g <> 0
  | FetchAdd b => b = entropy_base g /\ entropy_base g <> 0
  | _ => True
  end.

Definition nth_nonce (base : Z) (i : nat) : Z := wrapping_add 64 base (Z.of_nat i).

Definition inv (s : System) : Prop :=
  fits 64 (entropy_base (gen s)) /\
  counter (gen s) = wrapping_add 64 1 (Z.of_nat (length (issued s))) /\
  issued s = map (nth_nonce (entropy_base (gen s))) (seq 1 (length (issued s))) /\
  (entropy_base (gen s) = 0 -> issued s = []) /\
  Forall (pc_ok (gen s)) (calls s).

Lemma wrapping_add_assoc w a b c :
  0 <= w -> wrapping_add w a (wrapping_add w b c) = wrapping_add w a (b + c).
Proof.
  intros Hw. unfold wrapping_add. rewrite Zplus_mod_idemp_r. done.
Qed.

(** A step of a call that leaves the base alone keeps the other calls' facts. *)
Lemma pc_ok_frame g g' p :
  entropy_base g' = entropy_base g -> pc_ok g p -> pc_ok g' p.
Proof. intros E. destruct p; simpl; rewrite ?E; done. Qed.

(** Setting the base for the first time does too. *)
Lemma pc_ok_set g g' p :
  entropy_base g = 0 -> entropy_base g' <> 0 -> pc_ok g p -> pc_ok g' p.
Proof. intros E0 E1. destruct p; simpl; try done. all: intros H; exfalso; rewrite E0 in H; tauto. Qed.

Lemma nth_nonce_inj base i j :
  0 <= Z.of_nat i < 2 ^ 64 + 1 -> 0 <= Z.of_nat j < 2 ^ 64 + 1 -> (1 <= i)%nat -> (1 <= j)%nat ->
  nth_nonce base i = nth_nonce base j -> i = j.
Proof.
  intros Hi Hj ?? H. unfold nth_nonce, wrapping_add in H.
  assert (Hd : (Z.of_nat i - Z.of_nat j) mod 2 ^ 64 = 0).
  { replace (Z.of_nat i - Z.of_nat j) with ((base + Z.of_nat i) - (base + Z.of_nat j)) by lia.
    by rewrite Zminus_mod, H, Z.sub_diag. }
  apply Z.mod_divide in Hd as [q Hq]; [|lia]. destruct (Z.eq_dec q 0) as [->|Hq0]; [lia|].
  assert (q = 0); [|lia]. nia.
Qed.

(** A call's own facts after its access, and what the access does to the base. *)
Lemma access_pc draw g p g' p' :
  (forall buf, draw = Some buf -> is_array 8 buf /\ from_le_bytes buf <> 0) ->
  pc_ok g p -> access draw g p = (g', p') ->
  pc_ok g' p' /\
  (entropy_base g' = entropy_base g \/
   entropy_base g = 0 /\ fits 64 (entropy_base g') /\ entropy_base g' <> 0).
Proof.
  intros Hd Hp H. destruct p; simpl in *; simplify_eq; auto.
  - split; [|auto]. reflect_bool; simpl; auto.
  - split; [|auto]. reflect_bool; simpl; auto.
  - destruct draw as [buf|]; simplify_eq; simpl; [|auto]. split; [|auto].
    destruct (Hd buf eq_refl) as [[Hl Hb] ?]. split; [|done].
    apply from_le_bytes_fits in Hb. by rewrite Hl in Hb.
  - destruct Hp. reflect_bool; simpl; split; auto.
  - simpl. auto.
  - simpl. auto.
Qed.

Lemma access_issue draw g p g' p' :
  access draw g p = (g', p') ->
  match p, p' with
  | FetchAdd b, Returned n =>
      n = wrapping_add 64 b (counter g) /\ counter g' = wrapping_add 64 (counter g) 1
  | FetchAdd _, _ => False
  | Returned n, Returned n' => n = n' /\ counter g' = counter g
  | Returned _, _ => False
  | _, Returned _ => False
  | _, _ => counter g' = counter g
  end.
Proof.
  destruct p; simpl; intros H; simplify_eq; simpl; auto.
  - by destruct (_ =? _).
  - by destruct (_ =? _).
  - by destruct draw; simplify_eq.
  - by destruct (_ =? _).
Qed.

Lemma step_inv s s' : inv s -> step s s' -> inv s'.
Proof.
  intros (Hb & Hc & Hi & H0 & Hp) Hs. destruct Hs as [s|s i p draw g' p' Hi' Hd Ha].
  - unfold inv. simpl. split_and!; try done.
    apply Forall_app. split; [done|]. by constructor.
  - pose proof (access_pc _ _ _ _ _ Hd (proj1 (Forall_lookup _ _) Hp _ _ Hi') Ha) as [Hpc Hbase].
    pose proof (access_issue _ _ _ _ _ Ha) as Hiss.
    pose proof (proj1 (Forall_lookup _ _) Hp _ _ Hi') as Hpold.
    assert (Hold : Forall (pc_ok g') (calls s)).
    { eapply Forall_impl; [exact Hp|]. intros q Hq. destruct Hbase as [E|(E0 & _ & E1)];
        [by eapply pc_ok_frame | by eapply pc_ok_set]. }
    assert (Hmap : issued s = map (nth_nonce (entropy_base g')) (seq 1 (length (issued s)))).
    { destruct Hbase as [E|(E0 & _ & _)]; [by rewrite E | by rewrite (H0 E0)]. }
    unfold inv, nonce_of. simpl. split_and!; [| | | |by apply Forall_insert].
    + destruct Hbase as [->|(_ & ? & _)]; done.
    + destruct p, p'; try done; rewrite ?app_nil_r; rewrite ?length_app; simpl;
        try congruence; destruct Hiss as [_ ->]; [|done].
      rewrite Hc, Nat2Z.inj_add. unfold wrapping_add. simpl (Z.of_nat 1).
      rewrite Zplus_mod_idemp_l. f_equal. lia.
    + destruct p, p'; try done; rewrite ?app_nil_r; try done.
      rewrite length_app, seq_app, map_app, <- Hmap. simpl. f_equal. f_equal.
      destruct Hiss as [-> _], Hpold as [-> _]. unfold nth_nonce.
      simpl in Ha. injection Ha as <-. simpl.
      rewrite Hc, wrapping_add_assoc by lia. f_equal. lia.
    + intros E0. destruct Hbase as [E|(_ & _ & E)]; [|done].
      destruct p, p'; try done; rewrite ?app_nil_r; try (apply H0; congruence).
      destruct Hpold as [_ Hne]. congruence.
Qed.

Lemma reachable_inv s : reachable s -> inv s.
Proof.
  induction 1 as [|s s' _ IH Hs]; [|by eapply step_inv].
  unfold inv. simpl. split_and!; try done.
Qed.

(** What a finished call returned. *)
Definition returned (p : pc) : option Z := match p with Returned n => Some n | _ => None end.

(** Results that are all different come from one position each. *)
Lemma omap_NoDup_inj {A B} (f : A -> option B) l i j x y b :
  NoDup (omap f l) -> l !! i = Some x -> l !! j = Some y -> f x = Some b -> f y = Some b -> i = j.
Proof.
  assert (Hin : forall (l : list A) k z, l !! k = Some z -> f z = Some b -> b ∈ omap f l)
    by (intros l' k z Hk Hz; apply list_elem_of_omap; exists z; split; [by eapply list_elem_of_lookup_2|done]).
  revert i j. induction l as [|a l IH]; intros i j Hnd Hi Hj Hx Hy; [done|].
  simpl in Hnd. destruct i as [|i], j as [|j]; simpl in *; simplify_eq; [done|..].
  - rewrite Hx in Hnd. apply NoDup_cons in Hnd as [Hn _]. destruct Hn. eauto.
  - rewrite Hy in Hnd. apply NoDup_cons in Hnd as [Hn _]. destruct Hn. eauto.
  - f_equal. destruct (f a); [apply NoDup_cons in Hnd as [_ Hnd]|]; eauto.
Qed.

(** The finished calls returned the nonces that were issued, each of them once. *)
Lemma returned_issued s : reachable s -> omap returned (calls s) ≡ₚ issued s.
Proof.
  induction 1 as [|s s' _ IH Hs]; [done|]. destruct Hs as [s|s i p draw g' p' Hi Hd Ha]; simpl.
  - by rewrite omap_app, app_nil_r.
  - pose proof (access_issue _ _ _ _ _ Ha) as Hiss. rewrite <- IH. clear IH Hd.
    rewrite insert_take_drop by (by eapply lookup_lt_Some).
    rewrite <- (take_drop_middle _ _ _ Hi) at 3. rewrite !omap_app. simpl.
    assert (Hp : match returned p' with Some n => n :: omap returned (drop (S i) (calls s)) | None => omap returned (drop (S i) (calls s)) end
      ≡ₚ match returned p with Some n => n :: omap returned (drop (S i) (calls s)) | None => omap returned (drop (S i) (calls s)) end ++ nonce_of p p').
    { destruct p, p'; simpl in *; rewrite ?app_nil_r; try done; [|by destruct Hiss as [-> _]].
      apply Permutation_cons_append. }
    rewrite Hp, app_assoc. done.
Qed.

(** The base, once set, and every seed about to be set were drawn. *)
Lemma seeds_drawn s :
  reachable s ->
  (entropy_base (gen s) <> 0 -> entropy_base (gen s) ∈ drawn s) /\
  (forall i e, calls s !! i = Some (InitCas e) -> e ∈ drawn s).
Proof.
  induction 1 as [|s s' _ [IHb IHc] Hs]; [done|]. destruct Hs as [s|s i p draw g' p' Hi _ Ha]; simpl.
  - split; [done|]. intros i e. rewrite lookup_app.
    destruct (calls s !! i) eqn:E; [intros [= ->]; eauto|]. by destruct (i - length (calls s))%nat.
  - split.
    + intros Hne. apply elem_of_app. left. destruct p; simpl in Ha; simplify_eq; auto;
        [by destruct draw; simplify_eq; auto|].
      destruct (Z.eqb_spec (entropy_base (gen s)) 0); eauto.
    + intros j e Hj. apply elem_of_app. destruct (decide (i = j)) as [<-|Hn].
      * rewrite list_lookup_insert_eq in Hj by (by eapply lookup_lt_Some). injection Hj as ->.
        destruct p; simpl in Ha; try (by destruct (_ =? _)); simplify_eq; eauto.
        right. destruct draw; simplify_eq. simpl. by apply list_elem_of_singleton.
      * rewrite list_lookup_insert_ne in Hj by done. eauto.
Qed.

(** No step changes a base that is set. *)
Lemma base_stays s s' :
  rtc step s s' -> entropy_base (gen s) <> 0 -> entropy_base (gen s') = entropy_base (gen s).
Proof.
  induction 1 as [s|s s1 s' Hs _ IH]; [done|]. intros Hb.
  assert (E : entropy_base (gen s1) = entropy_base (gen s)); [|by rewrite IH; rewrite E].
  destruct Hs as [|s i p draw g' p' _ _ Ha]; [done|]. simpl.
  destruct p; simpl in Ha; simplify_eq; try done; [by destruct draw; simplify_eq|].
  by rewrite (proj2 (Z.eqb_neq _ _) Hb).
Qed.

(** C40: whatever the interleaving of concurrent [next_u64] calls, the nonces they
    return are pairwise different as long as at most [2^64] have been issued and the
    operating system never draws a zero seed.  The sequence of issued values is
    [base + 1, base + 2, ...] modulo [2^64]; once a nonce was issued the base is not zero,
    is one of the values the operating system drew, and never changes again; the finished
    calls returned exactly the issued values, and no two calls returned the same. *)
Theorem nonces_unique s :
  reachable s -> Z.of_nat (length (issued s)) <= 2 ^ 64 ->
  let base := entropy_base (gen s) in
  NoDup (issued s) /\ Forall (fits 64) (issued s) /\
  issued s = map (nth_nonce base) (seq 1 (length (issued s))) /\
  (issued s <> [] -> base <> 0 /\ base ∈ drawn s /\
     forall s', rtc step s s' -> entropy_base (gen s') = base) /\
  omap returned (calls s) ≡ₚ issued s /\
  (forall i j n, calls s !! i = Some (Returned n) -> calls s !! j = Some (Returned n) -> i = j).
Proof.
  intros Hs Hl base. destruct (reachable_inv _ Hs) as (Hb & _ & Hi & H0 & _).
  assert (Hnd : NoDup (issued s)).
  { rewrite Hi. apply NoDup_fmap_2_strong; [|apply NoDup_seq].
    intros i j [??]%elem_of_seq [??]%elem_of_seq HE. eapply nth_nonce_inj; [..|exact HE]; lia. }
  pose proof (returned_issued _ Hs) as Hr. split_and!; try done.
  - rewrite Hi. apply Forall_map, Forall_true. intros i.
    unfold nth_nonce, wrapping_add, fits. apply Z.mod_pos_bound. lia.
  - intros Hne. assert (Hb0 : base <> 0) by (intros E; apply Hne, H0, E).
    split_and!; [done|by apply seeds_drawn|]. intros s' Hrun. by apply base_stays.
  - intros i j n Hci Hcj. eapply omap_NoDup_inj; [by rewrite Hr|exact Hci|exact Hcj|done..].
Qed.

(** Running a schedule: [None] starts a call, [Some (i, draw)] lets call [i] make
    its next access. *)
Definition run_step (s : System) (a : option (nat * option bytes)) : System :=
  match a with
  | None => {| gen := gen s; calls := calls s ++ [Load]; issued := issued s; drawn := drawn s |}
  | Some (i, draw) =>
      match calls s !! i with
      | None => s
      | Some p =>
          let '(g', p') := access draw (gen s) p in
          {| gen := g'; calls := <[i := p']> (calls s);
             issued := issued s ++ nonce_of p p'; drawn := drawn s ++ draw_of p draw |}
      end
  end.

Definition draw_ok (a : option (nat * option bytes)) : Prop :=
  match a with
  | Some (_, Some buf) => is_array 8 buf /\ from_le_bytes buf <> 0
  | _ => True
  end.

Lemma run_reachable s sched :
  reachable s -> Forall draw_ok sched -> reachable (foldl run_step s sched).
Proof.
  intros Hs Hd. revert s Hs. induction Hd as [|a sched Ha _ IH]; intros s Hs; [done|].
  simpl. apply IH. destruct a as [[i draw]|]; simpl.
  - destruct (calls s !! i) as [p|] eqn:E; [|done].
    destruct (access draw (gen s) p) as [g' p'] eqn:Ea.
    eapply reach_step; [done|]. eapply step_access; [done| |done].
    intros buf ->. exact Ha.
  - eapply reach_step; [done|constructor].
Qed.

(** A call makes at most six accesses, whatever the other calls do in between: each
    access of its own lowers this measure, and no access of another call changes it. *)
Definition accesses_left (p : pc) : nat :=
  match p with
  | Load => 6 | InitLoad => 5 | InitDraw => 4 | InitCas _ => 3 | Reload => 2 | FetchAdd _ => 1
  | Returned _ | Failed => 0
  end.

Lemma access_progress draw g p :
  (0 < accesses_left p)%nat -> (accesses_left (snd (access draw g p)) < accesses_left p)%nat.
Proof. destruct p; simpl; try lia; repeat case_match; simpl; lia. Qed.

(** Two calls that both see an unset base and race to set it. *)
Definition race : list (option (nat * option bytes)) :=
  [None; None;
   Some (0%nat, None); Some (1%nat, None); Some (0%nat, None); Some (1%nat, None);
   Some (0%nat, Some [9; 0; 0; 0; 0; 0; 0; 0]); Some (1%nat, Some [255; 255; 255; 255; 255; 255; 255; 255]);
   Some (1%nat, None); Some (0%nat, None); Some (0%nat, None); Some (1%nat, None);
   Some (1%nat, None); Some (0%nat, None)].

Lemma nonces_unique_witness :
  issued (foldl run_step start race) = [0; 1] /\ NoDup (issued (foldl run_step start race)) /\
  entropy_base (gen (foldl run_step start race)) ∈ drawn (foldl run_step start race).
Proof.
  split; [vm_compute; reflexivity|].
  enough (H : NoDup (issued (foldl run_step start race)) /\ (issued (foldl run_step start race) <> [] ->
    entropy_base (gen (foldl run_step start race)) ∈ drawn (foldl run_step start race)))
    by (split; [apply H|apply H; vm_compute; discriminate]).
  assert (Hr : reachable (foldl run_step start race)).
  { apply run_reachable; [constructor|]. unfold race.
    repeat constructor; vm_compute; (discriminate || lia). }
  destruct (nonces_unique (foldl run_step start race) Hr ltac:(vm_compute; discriminate)) as (H1 & _ & _ & H2 & _).
  split; [exact H1|]. intros H. apply (H2 H).
Defined.
