(* ===== verification/Paging.v ===== *)
(** * Following continuations ([src/paging.rs])

    [Continuation] remembers the continuation ids it has seen; [fetch_all] follows
    them until the list ends.  The page loader is the caller's: it has a state of
    its own and may fail. *)

From Stdlib Require Import ZArith Lia String.
From stdpp Require Import base list gmap strings.
From S2P Require Import Prelude.

Module Cursor.
(* ws/types/common.rs:391-397 Cursor *)
Inductive t := Start | After (id : string).
#[global] Instance t_eq_dec : EqDecision t.
Proof. solve_decision. Defined.
End Cursor.

(* paging.rs:18-20 InvalidPage *)
Inductive InvalidPage := invalid_page.

(** [Continuation] is its [HashSet] of seen ids; [advance] returns the set it
    leaves behind. *)
(* paging.rs:5-17 Continuation::advance *)
Definition advance (seen : gset string) (next : option string)
  : gset string * res InvalidPage (option Cursor.t) :=
  match next with
  | None => (seen, Ok None)
  | Some id =>
      if bool_decide (id = ""%string) then (seen, Err invalid_page)
      else if bool_decide (id ∈ seen) then (seen, Err invalid_page)
      else ({[id]} ∪ seen, Ok (Some (Cursor.After id)))
  end.

Lemma size_list_bound (ids : list string) :
  (size (list_to_set ids : gset string) <= length ids)%nat.
Proof.
  induction ids as [|id ids IH]; simpl; [done|].
  rewrite size_union_alt, size_singleton.
  assert (size (list_to_set ids ∖ {[id]} : gset string) <= size (list_to_set ids : gset string))%nat
    by (apply subseteq_size; set_solver). lia.
Qed.

Section fetch.
(** A page, the caller's error (with [From<InvalidPage>]), and the loader's state. *)
Context {T E W : Type}.
Variable from_invalid : InvalidPage -> E.
Variable load : W -> Cursor.t -> W * res E T.
Variable next : T -> option string.
Variable append : T -> T -> T.

(** The [while let] loop.  [None] is running out of fuel. *)
(* paging.rs:35-39 fetch_all (loop) *)
Fixpoint fetch_loop (fuel : nat) (seen : gset string) (all : T) (w : W) : option (W * res E T) :=
  match fuel with
  | O => None
  | S fuel =>
      match advance seen (next all) with
      | (_, Err e) => Some (w, Err (from_invalid e))
      | (_, Panic) => Some (w, Panic)
      | (_, Ok None) => Some (w, Ok all)
      | (seen, Ok (Some cursor)) =>
          let '(w, page) := load w cursor in
          match page with
          | Ok page => fetch_loop fuel seen (append all page) w
          | Err e => Some (w, Err e)
          | Panic => Some (w, Panic)
          end
      end
  end.

(* paging.rs:22-40 fetch_all *)
Definition fetch_all (fuel : nat) (w : W) : option (W * res E T) :=
  let '(w, first) := load w Cursor.Start in
  match first with
  | Ok all => fetch_loop fuel ∅ all w
  | Err e => Some (w, Err e)
  | Panic => Some (w, Panic)
  end.

(** ** A complete traversal

    [follows w all seen w' result]: from the list [all], with [seen] already
    followed, the loader answers each continuation and the last page has none. *)
Inductive follows : W -> T -> list string -> list string -> W -> T -> Prop :=
| follows_end w all seen :
    next all = None -> follows w all seen [] w all
| follows_page w all seen id w1 page ids w' result :
    next all = Some id -> id <> ""%string -> id ∉ seen ->
    load w (Cursor.After id) = (w1, Ok page) ->
    follows w1 (append all page) (id :: seen) ids w' result ->
    follows w all seen (id :: ids) w' result.

Lemma fetch_loop_mono fuel fuel' seen all w r :
  (fuel <= fuel')%nat -> fetch_loop fuel seen all w = Some r -> fetch_loop fuel' seen all w = Some r.
Proof.
  revert fuel' seen all w. induction fuel as [|fuel IH]; intros fuel' seen all w Hle H; [done|].
  destruct fuel' as [|fuel']; [lia|]. simpl in *.
  destruct (advance seen (next all)) as [seen' [[cursor|]| |]]; try done.
  destruct (load w cursor) as [w1 [page| |]]; try done. apply IH; [lia | done].
Qed.

(** A list [ids] that bounds what the loader can name as next, for an [append] that
    takes over the new page's continuation. *)
Definition bounded_by (ids : list string) : Prop :=
  (forall w c w' page id, load w c = (w', Ok page) -> next page = Some id -> id ∈ ids) /\
  (forall all page, next (append all page) = next page).

(** Each iteration moves one of the bounding ids into [seen]. *)
Lemma fetch_loop_terminates ids fuel seen all w :
  bounded_by ids -> (forall id, id ∈ seen -> id ∈ ids) -> (forall id, next all = Some id -> id ∈ ids) ->
  (size (list_to_set ids ∖ seen : gset string) < fuel)%nat ->
  is_Some (fetch_loop fuel seen all w).
Proof.
  intros [Hb Ha]. revert seen all w. induction fuel as [|fuel IH]; intros seen all w Hs Hn Hf; [lia|].
  simpl. unfold advance. destruct (next all) as [id|] eqn:En; [|by eexists].
  case_bool_decide; [by eexists|]. case_bool_decide as Hin; [by eexists|].
  destruct (load w (Cursor.After id)) as [w1 [page| |]] eqn:El; [|by eexists..].
  pose proof (Hn _ eq_refl) as Hid. apply IH.
  - set_solver.
  - intros id'. rewrite Ha. by apply (Hb _ _ _ _ _ El).
  - apply Nat.lt_le_trans with (size (list_to_set ids ∖ seen : gset string)); [|lia].
    apply subset_size. set_solver.
Qed.

Lemma fetch_loop_follows fuel seen all w w' result (sl : list string) :
  (forall id, id ∈ seen <-> id ∈ sl) ->
  fetch_loop fuel seen all w = Some (w', Ok result) ->
  exists ids, follows w all sl ids w' result.
Proof.
  revert seen all w sl. induction fuel as [|fuel IH]; intros seen all w sl Hs H; [done|].
  simpl in H. unfold advance in H. destruct (next all) as [id|] eqn:En.
  - case_bool_decide; [done|]. case_bool_decide as Hin; [done|].
    destruct (load w (Cursor.After id)) as [w1 [page| |]] eqn:El; try done.
    destruct (IH ({[id]} ∪ seen) _ _ (id :: sl) ltac:(set_solver) H) as [ids Hf].
    exists (id :: ids). eapply follows_page; try done. by rewrite <- Hs.
  - injection H as <- <-. exists []. by constructor.
Qed.

Lemma follows_fetch_loop w all sl ids w' result seen :
  (forall id, id ∈ seen <-> id ∈ sl) ->
  follows w all sl ids w' result ->
  fetch_loop (S (length ids)) seen all w = Some (w', Ok result).
Proof.
  intros Hs Hf. revert seen Hs.
  induction Hf as [w all sl En|w all sl id w1 page ids w' result En Hne Hni El Hf IH];
    intros seen Hs; simpl; rewrite En; simpl; [done|].
  rewrite bool_decide_false by done. rewrite bool_decide_false by (by rewrite Hs).
  rewrite El. apply IH. set_solver.
Qed.

Lemma follows_ids w all sl ids w' result :
  follows w all sl ids w' result ->
  NoDup ids /\ (forall id, id ∈ ids -> id <> ""%string /\ id ∉ sl) /\ next result = None.
Proof.
  induction 1 as [|w all sl id w1 page ids w' result En Hne Hni El Hf (IH1 & IH2 & IH3)].
  - split_and!; [constructor | set_solver | done].
  - split_and!; [|set_solver|done]. constructor; [|done]. intros Hin. set_solver.
Qed.

(** [fetch_all] returns exactly the complete lists.  It succeeds with [result]
    if and only if the loader, asked for the start and then for each continuation in
    turn, gives pages whose continuations are non-empty and pairwise different and
    whose last one is absent; a failing page or a repeated continuation is an error,
    never a partial list.  And it terminates: if the loader can only name
    continuations of a finite list [ids], fuel [length ids + 1] is enough. *)
Theorem fetch_all_complete w :
  (forall w' result,
     (exists fuel, fetch_all fuel w = Some (w', Ok result)) <->
     exists w1 first ids, load w Cursor.Start = (w1, Ok first) /\
       follows w1 first [] ids w' result /\
       NoDup ids /\ ""%string ∉ ids /\ next result = None) /\
  (forall ids, bounded_by ids -> is_Some (fetch_all (S (length ids)) w)).
Proof.
  unfold fetch_all. split.
  - intros w' result. split.
    + intros [fuel H]. destruct (load w Cursor.Start) as [w1 [first| |]] eqn:El; try done.
      destruct (fetch_loop_follows _ ∅ _ _ _ _ [] ltac:(set_solver) H) as [ids Hf].
      exists w1, first, ids. destruct (follows_ids _ _ _ _ _ _ Hf) as (?&Hn&?).
      split_and!; try done. intros Hin. by destruct (Hn _ Hin).
    + intros (w1 & first & ids & -> & Hf & _). exists (S (length ids)).
      eapply follows_fetch_loop; [|done]. set_solver.
  - intros ids Hb. destruct (load w Cursor.Start) as [w1 [first| |]] eqn:El; [|by eexists..].
    apply (fetch_loop_terminates ids); [done | set_solver | intros id; by apply (proj1 Hb _ _ _ _ _ El)|].
    rewrite difference_empty_L. apply Nat.lt_succ_r, size_list_bound.
Qed.
(** ** The pages behind a list

    [page_chain w earlier page w']: starting from [w] the loader gave the pages [earlier] and
    then [page], each at the continuation of the one before, no continuation empty or
    used twice. *)
Inductive page_chain (w : W) : list T -> T -> W -> Prop :=
| chain_first page w1 : load w Cursor.Start = (w1, Ok page) -> page_chain w [] page w1
| chain_next earlier page w1 id page' w2 :
    page_chain w earlier page w1 -> next page = Some id -> id <> ""%string -> id ∉ omap next earlier ->
    load w1 (Cursor.After id) = (w2, Ok page') -> page_chain w (earlier ++ [page]) page' w2.

Definition merge_pages (earlier : list T) (page : T) : T :=
  match earlier with [] => page | first :: rest => foldl append first (rest ++ [page]) end.

Lemma merge_snoc earlier page page' : merge_pages (earlier ++ [page]) page' = append (merge_pages earlier page) page'.
Proof. destruct earlier as [|first rest]; simpl; [done|]. by rewrite !foldl_app. Qed.

(** A measure of pages that [append] adds up is added up over the list. *)
Lemma merge_rows {A} (rows : T -> list A) :
  (forall all page, rows (append all page) = rows all ++ rows page) ->
  forall earlier page, rows (merge_pages earlier page) = (earlier ++ [page]) ≫= rows.
Proof.
  intros Hr earlier. induction earlier as [|p earlier IH] using rev_ind; intros page; [simpl; by rewrite app_nil_r|].
  rewrite merge_snoc, Hr, IH, !bind_app. simpl. by rewrite !app_nil_r.
Qed.

Lemma merge_rows_perm {A} (rows : T -> list A) :
  (forall all page, rows (append all page) ≡ₚ rows all ++ rows page) ->
  forall earlier page, rows (merge_pages earlier page) ≡ₚ (earlier ++ [page]) ≫= rows.
Proof.
  intros Hr earlier. induction earlier as [|p earlier IH] using rev_ind; intros page; [simpl; by rewrite app_nil_r|].
  rewrite merge_snoc, Hr, IH, !bind_app. simpl. by rewrite !app_nil_r.
Qed.

(** How [fetch_all] ends: with all pages of the chain and no continuation left, or with
    the first failure, and then nothing of the list. *)
Definition traversed (w w' : W) (r : res E T) : Prop :=
  match r with
  | Ok result => exists earlier page, page_chain w earlier page w' /\ next page = None /\ result = merge_pages earlier page
  | Err e =>
      load w Cursor.Start = (w', Err e) \/
      exists earlier page w1 id, page_chain w earlier page w1 /\ next page = Some id /\
        ((id = ""%string \/ id ∈ omap next earlier) /\ e = from_invalid invalid_page /\ w' = w1 \/
         load w1 (Cursor.After id) = (w', Err e))
  | Panic => exists w1 c, load w1 c = (w', Panic)
  end.

Section traversal.
Hypothesis next_append : forall all page, next (append all page) = next page.

Lemma next_merge earlier page : next (merge_pages earlier page) = next page.
Proof.
  induction earlier as [|p earlier IH] using rev_ind; [done|]. by rewrite merge_snoc, next_append.
Qed.

Lemma fetch_loop_traversed fuel w0 earlier page seen w w' r :
  page_chain w0 earlier page w -> (forall id, id ∈ seen <-> id ∈ omap next earlier) ->
  fetch_loop fuel seen (merge_pages earlier page) w = Some (w', r) -> traversed w0 w' r.
Proof.
  revert earlier page seen w. induction fuel as [|fuel IH]; intros earlier page seen w Hc Hs H; [done|].
  simpl in H. rewrite next_merge in H. unfold advance in H. destruct (next page) as [id|] eqn:En.
  - case_bool_decide as He; [injection H as <- <-; right; eauto 12|].
    case_bool_decide as Hi; [injection H as <- <-; right; do 4 eexists; split; [done|]; split; [done|]; left; rewrite <- Hs; auto|].
    rewrite Hs in Hi.
    destruct (load w (Cursor.After id)) as [w1 [page'|e|]] eqn:El.
    + rewrite <- merge_snoc in H. eapply IH; [by eapply chain_next| |done].
      intros id'. rewrite omap_app. simpl. rewrite En. set_solver.
    + injection H as <- <-. right. eauto 12.
    + injection H as <- <-. simpl. eauto.
  - injection H as <- <-. exists earlier, page. done.
Qed.

Lemma fetch_all_traversed fuel w w' r : fetch_all fuel w = Some (w', r) -> traversed w w' r.
Proof.
  unfold fetch_all. destruct (load w Cursor.Start) as [w1 [first|e|]] eqn:El; intros H.
  - eapply (fetch_loop_traversed fuel w [] first ∅); [by constructor|set_solver|done].
  - injection H as <- <-. by left.
  - injection H as <- <-. simpl. eauto.
Qed.
End traversal.
End fetch.

(** A server of three pages. *)
Definition demo_load (w : list Cursor.t) (c : Cursor.t)
  : list Cursor.t * res string (list Z * option string) :=
  (w ++ [c],
   match c with
   | Cursor.Start => Ok ([1%Z], Some "a"%string)
   | Cursor.After "a" => Ok ([2%Z; 3%Z], Some "b"%string)
   | Cursor.After _ => Ok ([4%Z], None)
   end).

Definition demo_append (all page : list Z * option string) : list Z * option string :=
  (fst all ++ fst page, snd page).

Lemma demo_bounded : bounded_by demo_load snd demo_append ["a"%string; "b"%string].
Proof.
  split; [|done]. intros w c w' page id Hl Hn. unfold demo_load in Hl. injection Hl as _ Hp.
  destruct c as [|s]; [injection Hp as <-; injection Hn as <-; set_solver|].
  repeat case_match; injection Hp as <-; try discriminate Hn; injection Hn as <-; set_solver.
Qed.

Lemma fetch_all_complete_witness :
  is_Some (fetch_all (fun _ => "bad"%string) demo_load snd demo_append 3 []) /\
  exists w1 first ids,
    demo_load [] Cursor.Start = (w1, Ok first) /\
    follows demo_load snd demo_append w1 first [] ids
      [Cursor.Start; Cursor.After "a"; Cursor.After "b"] ([1; 2; 3; 4]%Z, None) /\
    NoDup ids /\ ""%string ∉ ids /\ snd ([1; 2; 3; 4]%Z, @None string) = None.
Proof.
  split; [exact (proj2 (fetch_all_complete (fun _ => "bad"%string) demo_load snd demo_append [])
    ["a"%string; "b"%string] demo_bounded)|].
  apply (fetch_all_complete (fun _ => "bad"%string) demo_load snd demo_append []).
  exists 5%nat. vm_compute. reflexivity.
Defined.
