(* ===== verification/Reconnect.v ===== *)
(** * Reconnect backoff ([src/ws/reconnect.rs])

    The doubling delay of [ReconnectBackoff], its attempt counter and its limit.
    Durations are nanoseconds (see Time.v).  The jitter, computed in [f64] from the
    thread's random generator, is not modelled. *)

From Stdlib Require Import ZArith Lia.
From stdpp Require Import base list.
From S2P Require Import Prelude Time.

Open Scope Z_scope.

(** [Duration::MAX]. *)
Definition DURATION_MAX : Z := 2 ^ 64 * NANOS - 1.

(* ws/reconnect.rs:5-12 ReconnectBackoff *)
Record ReconnectBackoff := {
  initial : Z;
  current : Z;
  maximum : Z;
  attempts : Z;
}.

(* ws/reconnect.rs:51-54 next_reconnect_delay *)
Definition next_reconnect_delay (current max : Z) : Z :=
  let doubled := Z.min DURATION_MAX (current * 2) in
  if max <? doubled then max else doubled.

Module Backoff.
(* ws/reconnect.rs:16-23 ReconnectBackoff::new *)
Definition new (initial maximum : Z) : ReconnectBackoff :=
  {| initial := initial; current := initial; maximum := maximum; attempts := 0 |}.

(* ws/reconnect.rs:25-27 ReconnectBackoff::limit_reached *)
Definition limit_reached (self : ReconnectBackoff) (maximum_attempts : Z) : bool :=
  (0 <? maximum_attempts) && (maximum_attempts <=? attempts self).

(* ws/reconnect.rs:29-34 ReconnectBackoff::next_attempt *)
Definition next_attempt (self : ReconnectBackoff) : ReconnectBackoff * (Z * Z) :=
  let attempts := saturating_add 64 (attempts self) 1 in
  let delay := current self in
  ({| initial := initial self;
      current := next_reconnect_delay (current self) (maximum self);
      maximum := maximum self;
      attempts := attempts |}, (attempts, delay)).

(* ws/reconnect.rs:36-39 ReconnectBackoff::reset *)
Definition reset (self : ReconnectBackoff) : ReconnectBackoff :=
  {| initial := initial self; current := initial self; maximum := maximum self; attempts := 0 |}.

(* ws/reconnect.rs:41-48 ReconnectBackoff::reset_after_stable_session *)
Definition reset_after_stable_session (self : ReconnectBackoff) (authenticated_for : Z)
  : ReconnectBackoff * bool :=
  if authenticated_for <? maximum self then (self, false) else (reset self, true).
End Backoff.

(** [n] attempts in a row, with what each returned. *)
Fixpoint attempts_in_a_row (n : nat) (b : ReconnectBackoff) : ReconnectBackoff * list (Z * Z) :=
  match n with
  | O => (b, [])
  | S n => let '(b, r) := attempts_in_a_row n b in
           let '(b, x) := Backoff.next_attempt b in (b, r ++ [x])
  end.

(** The [n]th delay of a fresh or reset backoff. *)
Definition delay_after (initial maximum : Z) (n : nat) : Z :=
  Z.min maximum (initial * 2 ^ Z.of_nat n).

Lemma next_delay_doubles i m n :
  0 <= i <= m -> m <= DURATION_MAX ->
  next_reconnect_delay (delay_after i m n) m = delay_after i m (S n).
Proof.
  intros Hi Hm. unfold next_reconnect_delay, delay_after.
  rewrite Nat2Z.inj_succ, Z.pow_succ_r by lia.
  assert (0 < 2 ^ Z.of_nat n) by (apply Z.pow_pos_nonneg; lia). reflect_bool; nia.
Qed.

Lemma attempts_in_a_row_state n i m :
  0 <= i <= m -> m <= DURATION_MAX ->
  attempts_in_a_row n (Backoff.new i m) =
    ({| initial := i; current := delay_after i m n; maximum := m;
        attempts := Z.min (umax 64) (Z.of_nat n) |},
     map (fun k => (Z.min (umax 64) (Z.of_nat k + 1), delay_after i m k)) (seq 0 n)).
Proof.
  intros Hi Hm. induction n as [|n IH].
  - cbn [attempts_in_a_row seq map]. unfold Backoff.new, delay_after. do 2 f_equal. simpl (2 ^ _). lia.
  - cbn [attempts_in_a_row]. rewrite IH, seq_S, map_app. unfold Backoff.next_attempt.
    cbn [current maximum initial attempts map]. rewrite next_delay_doubles by done.
    unfold saturating_add, umax. rewrite Nat.add_0_l. do 2 f_equal; [lia|]. do 2 f_equal. lia.
Qed.

(** From a fresh backoff with [initial <= maximum], the [n]th attempt (from 0)
    waits [min(maximum, initial * 2^n)] and is numbered [n + 1] (saturating at
    [u64::MAX]); so delays never exceed the maximum and never shrink.  A reset, or a
    session that stayed up for the maximum, starts the same sequence again, and the
    attempt limit is reached exactly after [limit] attempts without a reset ([0]
    means no limit). *)
Theorem backoff_schedule i m :
  0 <= i <= m -> m <= DURATION_MAX ->
  (forall n, snd (attempts_in_a_row n (Backoff.new i m)) =
     map (fun k => (Z.min (umax 64) (Z.of_nat k + 1), Z.min m (i * 2 ^ Z.of_nat k))) (seq 0 n)) /\
  (forall n k, (k <= n)%nat -> delay_after i m k <= delay_after i m n <= m) /\
  (forall n up, m <= up ->
     Backoff.reset_after_stable_session (fst (attempts_in_a_row n (Backoff.new i m))) up =
     (Backoff.new i m, true)) /\
  (forall n limit, fits 64 limit ->
     Backoff.limit_reached (fst (attempts_in_a_row n (Backoff.new i m))) limit = true <->
     0 < limit <= Z.of_nat n).
Proof.
  intros Hi Hm. split_and!.
  - intros n. by rewrite attempts_in_a_row_state.
  - intros n k Hk. unfold delay_after.
    assert (0 < 2 ^ Z.of_nat k) by (apply Z.pow_pos_nonneg; lia).
    assert (2 ^ Z.of_nat k <= 2 ^ Z.of_nat n) by (apply Z.pow_le_mono_r; lia). nia.
  - intros n up Hup. rewrite attempts_in_a_row_state by done.
    unfold Backoff.reset_after_stable_session. simpl. destruct (Z.ltb_spec up m); [lia | done].
  - intros n limit [Hl0 Hl]. rewrite attempts_in_a_row_state by done.
    unfold Backoff.limit_reached, umax. simpl attempts. rewrite andb_true_iff, Z.ltb_lt, Z.leb_le. lia.
Qed.

Lemma backoff_schedule_witness :
  snd (attempts_in_a_row 4 (Backoff.new 250 1500)) = [(1, 250); (2, 500); (3, 1000); (4, 1500)].
Proof.
  rewrite (proj1 (backoff_schedule 250 1500 ltac:(lia) ltac:(vm_compute; discriminate))).
  vm_compute. reflexivity.
Defined.
