(* ===== verification/Rows.v ===== *)
(** * Rows and pages ([src/ws/types], [src/types])

    What the server's lists and pushes are made of.  A record keeps its fields' names in a
    module of its own.  Fixed-size integers, timestamps (whole seconds) and their newtypes
    are [Z]; a [String] that the code does not look into is a [string]; [f64] is
    [spec_float]. *)

From Stdlib Require Import ZArith Lia String SpecFloat.
From stdpp Require Import base list strings countable.
From S2P Require Import Prelude Terms Quote.

Local Open Scope string_scope.

Module WsChannel.
(* ws/types/common.rs:61-72 WsChannel *)
Inductive t := Stats | Rfqs | Trades | ChainEvents | Markets | Vaults | TakerBuyRfqs.
#[global] Instance t_eq_dec : EqDecision t.
Proof. solve_decision. Defined.

Definition to_nat (c : t) : nat :=
  match c with
  | Stats => 0 | Rfqs => 1 | Trades => 2 | ChainEvents => 3 | Markets => 4 | Vaults => 5
  | TakerBuyRfqs => 6
  end.
Definition of_nat (n : nat) : option t :=
  nth_error [Stats; Rfqs; Trades; ChainEvents; Markets; Vaults; TakerBuyRfqs] n.
#[global] Instance t_countable : Countable t.
Proof. refine (inj_countable to_nat of_nat _). by intros []. Defined.
End WsChannel.

Module PositionStatus.
(* ws/types/common.rs:97-102 PositionStatus *)
Inductive t := Open | Funded | Liquidated | Settled.
End PositionStatus.

Module QueryFilter.
(* ws/types/common.rs:326-329 QueryFilter *)
Inductive t (A : Type) := All | Only (value : A).
Arguments All {A}.
Arguments Only {A} value.

(* ws/types/common.rs:331-338 QueryFilter::only *)
Definition only {A} (self : t A) : option A :=
  match self with All => None | Only value => Some value end.
End QueryFilter.

Module TimeBound.
(* ws/types/common.rs:344-350 TimeBound *)
Inductive t := Unbounded | Bounded (value : Z).

(* ws/types/common.rs:352-359 TimeBound::bound *)
Definition bound (self : t) : option Z :=
  match self with Unbounded => None | Bounded value => Some value end.
End TimeBound.

(** ** Markets and tokens *)

Module PositionSizeRule.
(* ws/types/common.rs:108-114 PositionSizeRule *)
Record t := {
  min_size : Z; max_size : Z; step : Z;
}.
End PositionSizeRule.

Module MarketDescriptorInfo.
(* ws/types/common.rs:131-142 MarketDescriptorInfo *)
Record t := {
  products : Z; market : MarketDescriptor; underlying_oracle_pda : key; quote_oracle_pda : key;
  underlying_decimals : Z; quote_decimals : Z; size_rule : PositionSizeRule.t; underlying_symbol : string;
  quote_symbol : string;
}.
End MarketDescriptorInfo.

Module TokenRole.
(* ws/types/common.rs:153-163 TokenRole *)
Inductive t :=
| Quote | Underlying (size_rule : PositionSizeRule.t) (strike_tick : Z) (quote_mints : list key).
End TokenRole.

Module TokenInfo.
(* ws/types/common.rs:144-151 TokenInfo *)
Record t := {
  mint : key; symbol : string; decimals : Z; oracle_feed_ids : list string; role : TokenRole.t;
}.
End TokenInfo.

Module MarketStatus.
(* ws/types/market.rs:9-15 MarketStatus *)
Inductive t :=
| Active | Closed | Finalized.
End MarketStatus.

Module MarketInfo.
(* ws/types/market.rs:17-31 MarketInfo *)
Record t := {
  products : Z; pda : key; underlying : key; quote : key; expiry_ts : Z; is_put : bool; status : MarketStatus.t;
  settlement_price : option Z;
}.
End MarketInfo.

(** ** Caps *)

Module TokenCapInfo.
(* types/domain.rs:62-69 TokenCapInfo *)
Record t := {
  underlying_mint : key; symbol : string; current_oi : Z; max_oi : Z; utilization : spec_float;
}.
End TokenCapInfo.

Module MarketCapInfo.
(* types/domain.rs:71-77 MarketCapInfo *)
Record t := {
  market_id : key; current_oi : Z; max_oi : Z; utilization : spec_float;
}.
End MarketCapInfo.

Module MakerPositionCapInfo.
(* types/domain.rs:79-83 MakerPositionCapInfo *)
Record t := {
  current : Z; limit : Z;
}.
End MakerPositionCapInfo.

Module MakerNotionalCapInfo.
(* types/domain.rs:85-91 MakerNotionalCapInfo *)
Record t := {
  underlying_mint : key; symbol : string; current : Z; limit : Z;
}.
End MakerNotionalCapInfo.

Module MakerBalanceCapInfo.
(* types/domain.rs:93-101 MakerBalanceCapInfo *)
Record t := {
  mint : key; symbol : string; decimals : Z; deposited : Z; committed : Z; available : Z;
}.
End MakerBalanceCapInfo.

Module QuoteCapInfo.
(* types/domain.rs:103-110 QuoteCapInfo *)
Record t := {
  quote_mint : key; symbol : string; current_notional : Z; max_notional : Z; utilization : spec_float;
}.
End QuoteCapInfo.

Module QuoteLiabilityPolicy.
(* types/domain.rs:121-130 QuoteLiabilityPolicy *)
Inductive t :=
| Unconfigured | Unlimited | Limited (max_liability : Z) (headroom : Z).
End QuoteLiabilityPolicy.

Module QuoteLiabilityCapInfo.
(* types/domain.rs:112-119 QuoteLiabilityCapInfo *)
Record t := {
  quote_mint : key; symbol : string; current_liability : Z; policy : QuoteLiabilityPolicy.t;
}.
End QuoteLiabilityCapInfo.

Module CapError.
(* types/errors.rs:30-109 CapError *)
Inductive t :=
| TokenOiCapExceeded (underlying_mint : string) (current : Z) (limit : Z)
| MarketOiCapExceeded (market_id : string) (current : Z) (limit : Z)
| MakerPositionCapExceeded (current : Z) (limit : Z)
| MakerNotionalCapExceeded (underlying_mint : string) (current : Z) (limit : Z)
| MakerInsufficientBalance (available : Z) (required : Z)
| QuoteNotionalCapExceeded (quote_mint : string) (current : Z) (limit : Z)
| MakerQuoteNotionalCapExceeded (quote_mint : string) (current : Z) (limit : Z)
| QuoteLiabilityCapExceeded (quote_mint : string) (current : Z) (limit : Z)
| MakerQuoteLiabilityCapExceeded (quote_mint : string) (current : Z) (limit : Z) | CapsUnavailable.
End CapError.

Module MakerCapsSnapshot.
(* ws/types/server/server_query.rs:380-386 MakerCapsSnapshot *)
Record t := {
  positions : MakerPositionCapInfo.t; notional : list MakerNotionalCapInfo.t;
  balances : list MakerBalanceCapInfo.t; quote_liabilities : list QuoteLiabilityCapInfo.t;
}.
End MakerCapsSnapshot.

Module CapsUpdateReason.
(* ws/types/server/server_query.rs:467-473 CapsUpdateReason *)
Inductive t :=
| Lifecycle | Policy.
End CapsUpdateReason.

Module MakerCapsUpdatedMessage.
(* ws/types/server/server_query.rs:458-465 MakerCapsUpdatedMessage *)
Record t := {
  caps_snapshot : MakerCapsSnapshot.t; reason : CapsUpdateReason.t;
}.
End MakerCapsUpdatedMessage.

(** ** Requests for quotes *)

Module RfqSkippedMessage.
(* ws/types/server/server_rfq.rs:92-100 RfqSkippedMessage *)
Record t := {
  rfq_id : Uuid; market_id : key; quantity : Z; cap_detail : CapError.t;
}.
End RfqSkippedMessage.

Module ActiveRfqInfo.
(* ws/types/server/server_rfq.rs:102-118 ActiveRfqInfo *)
Record t := {
  rfq_id : Uuid; market : key; taker : key; terms : OptionTerms.t; side : TakerSide.t; quantity : Z;
  expires_at : Z; quotes_count : Z; best_price : option Z; order_options : list OptionTerms.t;
}.
End ActiveRfqInfo.

Module MyActiveRfqState.
(* ws/types/server/server_rfq.rs:128-134 MyActiveRfqState *)
Inductive t :=
| Active | PendingSignature | Enqueued.
End MyActiveRfqState.

Module MyActiveRfqInfo.
(* ws/types/server/server_rfq.rs:136-154 MyActiveRfqInfo *)
Record t := {
  rfq_id : Uuid; market : key; terms : OptionTerms.t; side : TakerSide.t; quantity : Z; expires_at : Z;
  state : MyActiveRfqState.t; locked_order_id : option bytes; quotes_count : Z; best_price : option Z;
}.
End MyActiveRfqInfo.

(** ** Positions, trades and quotes *)

Module PositionSettlement.
(* ws/types/common.rs:188-203 PositionSettlement *)
Inductive t :=
| Physical (settlement_price : Z) (is_otm : bool) | NotExercised (settlement_price : Z)
| Cash (settlement_price : Z) (holder_payoff : Z) (writer_return : Z).
End PositionSettlement.

Module PendingTerminalOutcome.
(* ws/types/common.rs:222-227 PendingTerminalOutcome *)
Inductive t :=
| Liquidated | Settled (is_otm : bool).
End PendingTerminalOutcome.

Module PositionState.
(* ws/types/common.rs:205-220 PositionState *)
Inductive t :=
| Open | Funded | Liquidated | Settled (settlement : PositionSettlement.t)
| TerminalPending (slot : Z) (outcome : PendingTerminalOutcome.t).
End PositionState.

Module PositionInfo.
(* ws/types/common.rs:229-251 PositionInfo *)
Record t := {
  revision : Z; pda : key; market : key; underlying_mint : key; underlying_decimals : Z; quote_mint : key;
  quote_decimals : Z; terms : OptionTerms.t; side : TakerSide.t; state : PositionState.t; quantity : Z;
  price : Z; total_premium : Z; created_at : Z; expiry_ts : Z;
}.
End PositionInfo.

Module PositionUpdateType.
(* ws/types/common.rs:84-92 PositionUpdateType *)
Inductive t :=
| Created | Funded | Liquidated | Settled.
End PositionUpdateType.

Module TradeInfo.
(* ws/types/common.rs:253-267 TradeInfo *)
Record t := {
  id : Uuid; market : key; terms : OptionTerms.t; side : TakerSide.t; quantity : Z; price : Z; taker : key;
  maker : key; tx_signature : string; executed_at : Z;
}.
End TradeInfo.

Module UsdTradeStats.
(* ws/types/common.rs:165-172 UsdTradeStats *)
Record t := {
  notional_24h : string; premium_24h : string; priced_trades_24h : Z;
}.
End UsdTradeStats.

Module GlobalStats.
(* ws/types/common.rs:174-186 GlobalStats *)
Record t := {
  usd : option UsdTradeStats.t; total_volume_24h : Z; total_trades_24h : Z; spread_trades_24h : Z;
  total_price_24h : Z; active_markets : Z; active_makers : Z; active_rfqs : Z;
}.
End GlobalStats.

Module PositionUpdatedMessage.
(* ws/types/server/server_query.rs:452-456 PositionUpdatedMessage *)
Record t := {
  position : PositionInfo.t; update_type : PositionUpdateType.t;
}.
End PositionUpdatedMessage.

Module UnrenderablePositionInfo.
(* ws/types/server/server_query.rs:82-93 UnrenderablePositionInfo *)
Record t := {
  pda : key; market : key; created_at : Z; missing : list string;
}.
End UnrenderablePositionInfo.

Module MakerPositionInfo.
(* ws/types/server/server_query.rs:95-119 MakerPositionInfo *)
Record t := {
  revision : Z; pda : key; market : key; underlying_mint : key; underlying_symbol : string;
  underlying_decimals : Z; quote_mint : key; quote_symbol : string; quote_decimals : Z; terms : OptionTerms.t;
  side : TakerSide.t; state : PositionState.t; quantity : Z; price : Z; total_premium : Z; created_at : Z;
  expiry_ts : Z;
}.
End MakerPositionInfo.

Module QuoteRank.
(* ws/types/server/server_query.rs:175-180 QuoteRank *)
Inductive t :=
| Best | Outbid.
End QuoteRank.

Module HistoricalQuoteStatus.
(* ws/types/server/server_query.rs:182-191 HistoricalQuoteStatus *)
Inductive t :=
| Submitted | Filled | Cancelled | Replaced | Expired | Lost.
End HistoricalQuoteStatus.

Module MakerQuoteState.
(* ws/types/server/server_query.rs:151-173 MakerQuoteState *)
Inductive t :=
| Active (rank : QuoteRank.t) (rfq_version : Z) | Retained (rfq_version : Z)
| AwaitingSignature (rfq_version : Z) | Executing (rfq_version : Z)
| Historical (status : HistoricalQuoteStatus.t).
End MakerQuoteState.

Module MakerQuoteInfo.
(* ws/types/server/server_query.rs:129-149 MakerQuoteInfo *)
Record t := {
  rfq_id : Uuid; order_id : bytes; market : key; underlying_mint : key; underlying_symbol : string;
  underlying_decimals : Z; quote_mint : key; quote_symbol : string; quote_decimals : Z; terms : OptionTerms.t;
  side : TakerSide.t; price : Z; quantity : Z; valid_until : Z; state : MakerQuoteState.t; created_at : Z;
}.
End MakerQuoteInfo.

Module MakerMarketInfo.
(* ws/types/server/server_query.rs:201-214 MakerMarketInfo *)
Record t := {
  products : Z; market_pda : key; underlying_mint : key; quote_mint : key; expiry_ts : Z; is_put : bool;
  is_finalized : bool; underlying_symbol : string; quote_symbol : string;
}.
End MakerMarketInfo.

Module MakerTradeInfo.
(* ws/types/server/server_query.rs:224-246 MakerTradeInfo *)
Record t := {
  id : Uuid; rfq_id : Uuid; market_pda : key; underlying_mint : key; underlying_symbol : string;
  underlying_decimals : Z; quote_mint : key; quote_symbol : string; quote_decimals : Z; terms : OptionTerms.t;
  side : TakerSide.t; taker : key; quantity : Z; price : Z; tx_signature : string; position_pda : option key;
  confirmed_at : Z;
}.
End MakerTradeInfo.

Module AprRange.
(* ws/types/server/server_query.rs:372-378 AprRange *)
Inductive t :=
| Unavailable | Available (min : spec_float) (max : spec_float).
End AprRange.

Module EarnAssetSummary.
(* ws/types/server/server_query.rs:259-276 EarnAssetSummary *)
Record t := {
  underlying_mint : key; underlying_symbol : string; quote_mint : key; quote_symbol : string;
  position_type : PositionType.t; apr : AprRange.t; cap_filled_pct : spec_float; cap_total : Z; cap_used : Z;
  strikes_count : Z; nearest_market_pda : key; markets_count : Z; nearest_expiry_ts : Z;
}.
End EarnAssetSummary.

Module IndicativeStrikeBest.
(* ws/types/server/server_query.rs:328-333 IndicativeStrikeBest *)
Record t := {
  strike : Z; best_price : option Z;
}.
End IndicativeStrikeBest.

Module TokenMarketIndicatives.
(* ws/types/server/server_query.rs:304-312 TokenMarketIndicatives *)
Record t := {
  position_type : PositionType.t; updated_at : Z; is_stale : bool; strikes : list IndicativeStrikeBest.t;
}.
End TokenMarketIndicatives.

Module TokenMarketEntry.
(* ws/types/server/server_query.rs:293-302 TokenMarketEntry *)
Record t := {
  products : Z; market_pda : key; expiry_ts : Z; is_put : bool; indicatives : list TokenMarketIndicatives.t;
}.
End TokenMarketEntry.

Module DailyPositionPremium.
(* ws/types/server/server_query.rs:642-646 DailyPositionPremium *)
Record t := {
  day : string; premium : string;
}.
End DailyPositionPremium.

Module PositionSummaryInfo.
(* ws/types/server/server_query.rs:632-640 PositionSummaryInfo *)
Record t := {
  quote_mint : key; quote_decimals : Z; premium_all_time : string; premium_30d : string; open_positions : Z;
  daily : list DailyPositionPremium.t;
}.
End PositionSummaryInfo.

(** ** Answers to queries

    A page is modelled as an envelope with the id of the request and the continuation
    ([PageReply] of Messages.v) around the rest of its fields, which are here. *)

Module ActiveRfqsData.
(* ws/types/server/server_rfq.rs:120-126 ActiveRfqsData *)
Record t := {
  rfqs : list ActiveRfqInfo.t;
}.
End ActiveRfqsData.

Module MyActiveRfqsData.
(* ws/types/server/server_rfq.rs:156-162 MyActiveRfqsData *)
Record t := {
  rfqs : list MyActiveRfqInfo.t;
}.
End MyActiveRfqsData.

Module PositionsData.
(* ws/types/server/server_query.rs:24-30 PositionsData *)
Record t := {
  positions : list PositionInfo.t;
}.
End PositionsData.

Module MarketsData.
(* ws/types/server/server_query.rs:32-38 MarketsData *)
Record t := {
  markets : list MarketInfo.t;
}.
End MarketsData.

Module MarketDescriptorsData.
(* ws/types/server/server_query.rs:40-46 MarketDescriptorsData *)
Record t := {
  markets : list MarketDescriptorInfo.t;
}.
End MarketDescriptorsData.

Module ExpiriesData.
(* ws/types/server/server_query.rs:48-56 ExpiriesData *)
Record t := {
  expiries_ts : list Z;
}.
End ExpiriesData.

Module TokensData.
(* ws/types/server/server_query.rs:58-64 TokensData *)
Record t := {
  tokens : list TokenInfo.t;
}.
End TokensData.

Module MakerPositionsMessage.
(* ws/types/server/server_query.rs:72-80 MakerPositionsMessage *)
Record t := {
  positions : list MakerPositionInfo.t; unrenderable : list UnrenderablePositionInfo.t;
}.
End MakerPositionsMessage.

Module MyQuotesMessage.
(* ws/types/server/server_query.rs:121-127 MyQuotesMessage *)
Record t := {
  quotes : list MakerQuoteInfo.t;
}.
End MyQuotesMessage.

Module MakerMarketsMessage.
(* ws/types/server/server_query.rs:193-199 MakerMarketsMessage *)
Record t := {
  markets : list MakerMarketInfo.t;
}.
End MakerMarketsMessage.

Module MyTradesMessage.
(* ws/types/server/server_query.rs:216-222 MyTradesMessage *)
Record t := {
  trades : list MakerTradeInfo.t;
}.
End MyTradesMessage.

Module EarnSummaryData.
(* ws/types/server/server_query.rs:248-257 EarnSummaryData *)
Record t := {
  assets : list EarnAssetSummary.t; computed_at : Z;
}.
End EarnSummaryData.

Module TokenMarketsInfoData.
(* ws/types/server/server_query.rs:278-291 TokenMarketsInfoData *)
Record t := {
  underlying_symbol : string; underlying_decimals : Z; quote_symbol : string; quote_decimals : Z;
  size_rule : PositionSizeRule.t; reference_price : Z; markets : list TokenMarketEntry.t;
}.
End TokenMarketsInfoData.

Module IndicativePricesMessage.
(* ws/types/server/server_query.rs:314-326 IndicativePricesMessage *)
Record t := {
  market : key; position_type : PositionType.t; updated_at : Z; is_stale : bool;
  strikes : list IndicativeStrikeBest.t;
}.
End IndicativePricesMessage.

Module TokenCapsData.
(* ws/types/server/server_query.rs:335-344 TokenCapsData *)
Record t := {
  tokens : list TokenCapInfo.t; markets : list MarketCapInfo.t; quotes : list QuoteCapInfo.t;
  quote_liabilities : list QuoteLiabilityCapInfo.t;
}.
End TokenCapsData.

Module MyCapsData.
(* ws/types/server/server_query.rs:346-355 MyCapsData *)
Record t := {
  positions : MakerPositionCapInfo.t; notional : list MakerNotionalCapInfo.t;
  balances : list MakerBalanceCapInfo.t; quote_liabilities : list QuoteLiabilityCapInfo.t;
}.
End MyCapsData.

Module QuoteVerdict.
(* ws/types/server/server_query.rs:365-370 QuoteVerdict *)
Inductive t :=
| Admissible | Rejected (cap_detail : CapError.t).
End QuoteVerdict.

Module QuoteCheckData.
(* ws/types/server/server_query.rs:357-363 QuoteCheckData *)
Record t := {
  request_id : Uuid; verdict : QuoteVerdict.t;
}.
End QuoteCheckData.

Module MmSummaryData.
(* ws/types/server/server_query.rs:388-404 MmSummaryData *)
Record t := {
  maker_pda : key; caps : MakerCapsSnapshot.t; positions : list MakerPositionInfo.t;
  active_quotes : list MakerQuoteInfo.t; markets : list MakerMarketInfo.t; tokens : list TokenInfo.t;
  computed_at : Z; unrenderable_positions : list UnrenderablePositionInfo.t;
}.
End MmSummaryData.

Module OrderExecutionState.
(* ws/types/server/server_query.rs:431-440 OrderExecutionState *)
Inductive t :=
| Pending | Confirmed (position_pda : key) | Unknown.
End OrderExecutionState.

Module OrderStatusMessage.
(* ws/types/server/server_query.rs:424-429 OrderStatusMessage *)
Record t := {
  request_id : Uuid; order_id : bytes; state : OrderExecutionState.t;
}.
End OrderStatusMessage.

Module PositionSummaryData.
(* ws/types/server/server_query.rs:624-630 PositionSummaryData *)
Record t := {
  summaries : list PositionSummaryInfo.t;
}.
End PositionSummaryData.

(** ** Pushes *)

Module ReferenceChangedData.
(* ws/types/server/server_query.rs:66-70 ReferenceChangedData *)
Record t := {
  tokens_etag : string; markets_etag : string;
}.
End ReferenceChangedData.

Module SnapshotMessage.
(* ws/types/server/server_query.rs:442-445 SnapshotMessage *)
Record t := {
  markets : list MarketInfo.t;
}.
End SnapshotMessage.

Module OrderAcceptedData.
(* ws/types/server/server_query.rs:490-494 OrderAcceptedData *)
Record t := {
  order_id : bytes; order_version : Z;
}.
End OrderAcceptedData.

Module OrderSubmittedData.
(* ws/types/server/server_query.rs:496-501 OrderSubmittedData *)
Record t := {
  order_id : bytes; tx_signature : string; order_version : Z;
}.
End OrderSubmittedData.

Module OrderConfirmedData.
(* ws/types/server/server_query.rs:503-508 OrderConfirmedData *)
Record t := {
  order_id : bytes; position_pda : key; order_version : Z;
}.
End OrderConfirmedData.

Module OrderFailedData.
(* ws/types/server/server_query.rs:510-515 OrderFailedData *)
Record t := {
  order_id : bytes; reason : string; order_version : Z;
}.
End OrderFailedData.

Module MarketFinalizedData.
(* ws/types/server/server_query.rs:517-521 MarketFinalizedData *)
Record t := {
  market_pda : key; settlement_price : Z;
}.
End MarketFinalizedData.

Module PositionOpenedEvent.
(* ws/types/server/server_query.rs:559-573 PositionOpenedEvent *)
Record t := {
  signature : string; instruction_index : Z; slot : Z; market : key; maker : key; taker : key;
  terms : OptionTerms.t; side : TakerSide.t; quantity : Z; price : Z; order_id : bytes;
}.
End PositionOpenedEvent.

Module MarketCreatedEvent.
(* ws/types/server/server_query.rs:575-587 MarketCreatedEvent *)
Record t := {
  signature : string; instruction_index : Z; slot : Z; market : key; underlying_mint : key; quote_mint : key;
  expiry_ts : Z; is_put : bool;
}.
End MarketCreatedEvent.

Module MarketFinalizedEvent.
(* ws/types/server/server_query.rs:589-596 MarketFinalizedEvent *)
Record t := {
  signature : string; instruction_index : Z; slot : Z; market : key; settlement_price : Z;
}.
End MarketFinalizedEvent.

Module MakerRegisteredEvent.
(* ws/types/server/server_query.rs:598-606 MakerRegisteredEvent *)
Record t := {
  signature : string; instruction_index : Z; slot : Z; owner : key; maker_pda : key; quote_signing : key;
}.
End MakerRegisteredEvent.

Module PositionSettledEvent.
(* ws/types/server/server_query.rs:608-614 PositionSettledEvent *)
Record t := {
  signature : string; instruction_index : Z; slot : Z; position : key;
}.
End PositionSettledEvent.

Module PositionLiquidatedEvent.
(* ws/types/server/server_query.rs:616-622 PositionLiquidatedEvent *)
Record t := {
  signature : string; instruction_index : Z; slot : Z; position : key;
}.
End PositionLiquidatedEvent.

Module ChainEventIdentity.
(* ws/types/server/server_query.rs:534-539 ChainEventIdentity *)
Record t := {
  signature : string; instruction_index : Z;
}.
End ChainEventIdentity.

Module ChainEventMessage.
(* ws/types/server/server_query.rs:523-532 ChainEventMessage *)
Inductive t :=
| PositionOpened (data : PositionOpenedEvent.t) | MarketCreated (data : MarketCreatedEvent.t)
| MarketFinalized (data : MarketFinalizedEvent.t) | MakerRegistered (data : MakerRegisteredEvent.t)
| PositionSettled (data : PositionSettledEvent.t) | PositionLiquidated (data : PositionLiquidatedEvent.t).

(* ws/types/server/server_query.rs:542-556 ChainEventMessage::identity *)
Definition identity (self : t) : ChainEventIdentity.t :=
  let identify signature instruction_index :=
    {| ChainEventIdentity.signature := signature; ChainEventIdentity.instruction_index := instruction_index |} in
  match self with
  | PositionOpened event => identify (PositionOpenedEvent.signature event) (PositionOpenedEvent.instruction_index event)
  | MarketCreated event => identify (MarketCreatedEvent.signature event) (MarketCreatedEvent.instruction_index event)
  | MarketFinalized event => identify (MarketFinalizedEvent.signature event) (MarketFinalizedEvent.instruction_index event)
  | MakerRegistered event => identify (MakerRegisteredEvent.signature event) (MakerRegisteredEvent.instruction_index event)
  | PositionSettled event => identify (PositionSettledEvent.signature event) (PositionSettledEvent.instruction_index event)
  | PositionLiquidated event =>
      identify (PositionLiquidatedEvent.signature event) (PositionLiquidatedEvent.instruction_index event)
  end.
End ChainEventMessage.

Module VaultProjectionAdvancedData.
(* ws/types/server/server_vault.rs:15-23 VaultProjectionAdvancedData *)
Record t := {
  vault_pda : key; version : Z; slot : Z; transaction_index : Z; signature : string; event_index : Z;
}.
End VaultProjectionAdvancedData.

Module SwapExecutionState.
(* ws/types/server/server_vault.rs:55-69 SwapExecutionState *)
Inductive t :=
| Pending | Finalized (signature : string) (slot : Z) | Failed | Expired | Unknown.
End SwapExecutionState.

Module SwapSubmitResultData.
(* ws/types/server/server_vault.rs:48-53 SwapSubmitResultData *)
Record t := {
  request_id : Uuid; execution_id : bytes;
}.
End SwapSubmitResultData.

Module SwapStatusMessage.
(* ws/types/server/server_vault.rs:71-76 SwapStatusMessage *)
Record t := {
  request_id : Uuid; execution_id : bytes; state : SwapExecutionState.t;
}.
End SwapStatusMessage.

Module SwapSettledMessage.
(* ws/types/server/server_vault.rs:78-84 SwapSettledMessage *)
Record t := {
  vault_pda : key; execution_id : bytes; state : SwapExecutionState.t;
}.
End SwapSettledMessage.
