(* ===== verification/Messages.v ===== *)
(** * Wire messages ([src/ws/types])

    The closed sets of client and server messages, with what the session code reads
    of each: queries and their answers carry their fields (Rows.v); of the other messages,
    one that is only correlated carries its [request_id], and the quote, subscription,
    authentication and error messages the fields the modelled code inspects.  Serde's JSON
    form is not modelled. *)

From Stdlib Require Import ZArith Lia String.
From stdpp Require Import base list strings countable.
From S2P Require Import Prelude Terms Quote Paging Rows.

Local Open Scope string_scope.

Module WsErrorCode.
(* ws/types/error_code.rs:10-111 WsErrorCode *)
Inductive t :=
| ParseError | TooManyParseErrors | HelloRequired | HelloTimeout | HelloAlreadySent |
RateLimited | ServerOverloaded | ServerBusy | InternalError | TemporarilyUnavailable |
ClockError | TimeOverflow | TradingPaused | BatchQuotesTooLarge | SessionReplaced |
SessionExpired | SessionLimitExceeded | SessionConflict | Blacklisted | MakerUnregistered |
MakerNotRegistered | AuthTimeout | TooManyAuthAttempts | AlreadyAuthenticated |
ChallengeNotIssued | ChallengeMismatch | PubkeyMismatch | InvalidSignature | OperatorMismatch |
VaultAuthNotStarted | VaultAuthRequired | VaultResumeNotSupported | VaultOperatorUnauthorized |
VaultAuthorizationUnavailable | VaultSessionInvalidated | InvalidVaultSubscription |
InvalidProducts | SubscriptionScopeTooLarge | HistoryProjectionIncomplete | InvalidLimit |
InvalidCursor | InvalidTimeout | MarketNotFound | InvalidProgramId | UnsupportedProtocolVersion |
InvalidStrikeNotional | InsufficientCollateral | InvalidQuantitySizeRule | ProductNotAllowed |
MissingSizeRuleForUnderlyingMint | InvalidUnderlyingMintKey | MissingTickForUnderlyingMint |
LadderStrikeSourceUnavailable | InvalidStrikes | TakerBuyUnsupported | SpreadInvalidStrikes |
SpreadTickViolation | SpreadPremiumInvalid | DuplicateRfqId | RfqClosed | MarketFinalized |
MarketDisabled | MarketExpired | MarketPreExpiry | QuoteIdentityMismatch | QuoteRefreshRequired |
DuplicateQuote | ResourceLimit | KernelTimeout | CapsAuthorityUnavailable | VaultNotTradable |
InvalidVaultCounterparty | TxBuildFailed | OrderAlreadySubmitted | SponsoredTxNotReady |
InvalidSignedTx | InvalidAmount | VaultAuthorizationFailed | VaultProjectionUnavailable |
VaultSafetyMode | VaultPendingCapital | VaultTradingClosed | VaultMismatch |
VaultGovernanceRequired | VaultSwapInvalidState | VaultSwapInvalidAmount |
VaultSwapIdempotencyConflict | VaultSwapQuoteExpired | VaultSwapSignedTxRejected |
VaultSwapOracleStale | VaultSwapRouteUnavailable | VaultSwapServiceUnavailable.

(** [Display], the snake-case name. *)
(* ws/types/error_code.rs:114-117 WsErrorCode::as_str *)
Definition to_string (c : t) : string :=
  match c with
  | ParseError => "parse_error"
  | TooManyParseErrors => "too_many_parse_errors"
  | HelloRequired => "hello_required"
  | HelloTimeout => "hello_timeout"
  | HelloAlreadySent => "hello_already_sent"
  | RateLimited => "rate_limited"
  | ServerOverloaded => "server_overloaded"
  | ServerBusy => "server_busy"
  | InternalError => "internal_error"
  | TemporarilyUnavailable => "temporarily_unavailable"
  | ClockError => "clock_error"
  | TimeOverflow => "time_overflow"
  | TradingPaused => "trading_paused"
  | BatchQuotesTooLarge => "batch_quotes_too_large"
  | SessionReplaced => "session_replaced"
  | SessionExpired => "session_expired"
  | SessionLimitExceeded => "session_limit_exceeded"
  | SessionConflict => "session_conflict"
  | Blacklisted => "blacklisted"
  | MakerUnregistered => "maker_unregistered"
  | MakerNotRegistered => "maker_not_registered"
  | AuthTimeout => "auth_timeout"
  | TooManyAuthAttempts => "too_many_auth_attempts"
  | AlreadyAuthenticated => "already_authenticated"
  | ChallengeNotIssued => "challenge_not_issued"
  | ChallengeMismatch => "challenge_mismatch"
  | PubkeyMismatch => "pubkey_mismatch"
  | InvalidSignature => "invalid_signature"
  | OperatorMismatch => "operator_mismatch"
  | VaultAuthNotStarted => "vault_auth_not_started"
  | VaultAuthRequired => "vault_auth_required"
  | VaultResumeNotSupported => "vault_resume_not_supported"
  | VaultOperatorUnauthorized => "vault_operator_unauthorized"
  | VaultAuthorizationUnavailable => "vault_authorization_unavailable"
  | VaultSessionInvalidated => "vault_session_invalidated"
  | InvalidVaultSubscription => "invalid_vault_subscription"
  | InvalidProducts => "invalid_products"
  | SubscriptionScopeTooLarge => "subscription_scope_too_large"
  | HistoryProjectionIncomplete => "history_projection_incomplete"
  | InvalidLimit => "invalid_limit"
  | InvalidCursor => "invalid_cursor"
  | InvalidTimeout => "invalid_timeout"
  | MarketNotFound => "market_not_found"
  | InvalidProgramId => "invalid_program_id"
  | UnsupportedProtocolVersion => "unsupported_protocol_version"
  | InvalidStrikeNotional => "invalid_strike_notional"
  | InsufficientCollateral => "insufficient_collateral"
  | InvalidQuantitySizeRule => "invalid_quantity_size_rule"
  | ProductNotAllowed => "product_not_allowed"
  | MissingSizeRuleForUnderlyingMint => "missing_size_rule_for_underlying_mint"
  | InvalidUnderlyingMintKey => "invalid_underlying_mint_key"
  | MissingTickForUnderlyingMint => "missing_tick_for_underlying_mint"
  | LadderStrikeSourceUnavailable => "ladder_strike_source_unavailable"
  | InvalidStrikes => "invalid_strikes"
  | TakerBuyUnsupported => "taker_buy_unsupported"
  | SpreadInvalidStrikes => "spread_invalid_strikes"
  | SpreadTickViolation => "spread_tick_violation"
  | SpreadPremiumInvalid => "spread_premium_invalid"
  | DuplicateRfqId => "duplicate_rfq_id"
  | RfqClosed => "rfq_closed"
  | MarketFinalized => "market_finalized"
  | MarketDisabled => "market_disabled"
  | MarketExpired => "market_expired"
  | MarketPreExpiry => "market_pre_expiry"
  | QuoteIdentityMismatch => "quote_identity_mismatch"
  | QuoteRefreshRequired => "quote_refresh_required"
  | DuplicateQuote => "duplicate_quote"
  | ResourceLimit => "resource_limit"
  | KernelTimeout => "kernel_timeout"
  | CapsAuthorityUnavailable => "caps_authority_unavailable"
  | VaultNotTradable => "vault_not_tradable"
  | InvalidVaultCounterparty => "invalid_vault_counterparty"
  | TxBuildFailed => "tx_build_failed"
  | OrderAlreadySubmitted => "order_already_submitted"
  | SponsoredTxNotReady => "sponsored_tx_not_ready"
  | InvalidSignedTx => "invalid_signed_tx"
  | InvalidAmount => "invalid_amount"
  | VaultAuthorizationFailed => "vault_authorization_failed"
  | VaultProjectionUnavailable => "vault_projection_unavailable"
  | VaultSafetyMode => "vault_safety_mode"
  | VaultPendingCapital => "vault_pending_capital"
  | VaultTradingClosed => "vault_trading_closed"
  | VaultMismatch => "vault_mismatch"
  | VaultGovernanceRequired => "vault_governance_required"
  | VaultSwapInvalidState => "vault_swap_invalid_state"
  | VaultSwapInvalidAmount => "vault_swap_invalid_amount"
  | VaultSwapIdempotencyConflict => "vault_swap_idempotency_conflict"
  | VaultSwapQuoteExpired => "vault_swap_quote_expired"
  | VaultSwapSignedTxRejected => "vault_swap_signed_tx_rejected"
  | VaultSwapOracleStale => "vault_swap_oracle_stale"
  | VaultSwapRouteUnavailable => "vault_swap_route_unavailable"
  | VaultSwapServiceUnavailable => "vault_swap_service_unavailable"
  end.
End WsErrorCode.

Module QuoteCancelReason.
(* types/domain.rs:28-37 QuoteCancelReason *)
Inductive t := Requested | RiskCheck | RfqAccepted | MakerDisconnected.
#[global] Instance t_eq_dec : EqDecision t.
Proof. solve_decision. Defined.
End QuoteCancelReason.

Module QuoteFinalStatus.
(* types/domain.rs:18-26 QuoteFinalStatus *)
Inductive t := Expired | Outbid | Cancelled | Filled.
#[global] Instance t_eq_dec : EqDecision t.
Proof. solve_decision. Defined.
End QuoteFinalStatus.

Module RfqCloseReason.
(* types/domain.rs:6-16 RfqCloseReason *)
Inductive t := Expired | TakerCancelled | Filled | MarketExpired | NoEligibleMakers.
#[global] Instance t_eq_dec : EqDecision t.
Proof. solve_decision. Defined.
End RfqCloseReason.

Module QuoteRejectReason.
(** [CapExceeded] carries a description of the cap that is not inspected. *)
(* ws/types/server/server_quote.rs:80-103 QuoteRejectReason *)
Inductive t :=
| ProductNotAllowed | TakerBuyUnsupported | SpreadInvalidStrikes | SpreadTickViolation
| SpreadPremiumInvalid | QuoteIdentityMismatch | Unauthorized | InvalidStrike | MarketExpired
| QuoteExpiryTooShort | InvalidSignature | MakerNotRegistered | OrderIdMismatch
| CapExceeded (e : string) | RfqNotFound | RfqNotActive | DuplicateOrderId | RateLimited
| TradingPaused | InternalError.
End QuoteRejectReason.

Module ServerError.
(* ws/types/server/mod.rs:201-309 ServerError *)
Inductive t :=
| Unauthenticated | Unauthorized | RfqNotFound | RfqNotActive | RfqAlreadyLocked | InvalidState |
QuoteLocked | QuoteNotFound | QuoteExpired | QuoteExpiryTooShort | InvalidStrike |
InvalidValidUntil | OrderIdMismatch | UnknownOrder | SignatureTimeout | OracleNotReady |
OraclePriceStale | OraclePriceNotReady | InvalidPositionType | InvalidMarket |
MarketMetadataIncomplete | TokenMetadataIncomplete | RateLimit | Cap | InternalError |
KernelNotAvailable | DbDisabled | ServerShuttingDown | InviteRequired | Invite | Claim |
WrongEndpoint | Generic (code : WsErrorCode.t) (message : string).
End ServerError.

Module Delivery.
(* ws/types/server/mod.rs:125-132 Delivery *)
Inductive t := NotForwarded | Unknown.
#[global] Instance t_eq_dec : EqDecision t.
Proof. solve_decision. Defined.
End Delivery.

(** ** Payloads *)

(** A frame that was not decoded, as far as it could be read. *)
(* ws/error.rs:38-45 UnreadableFrame *)
Record UnreadableFrame := {
  uf_frame_type : option string; uf_request_id : option Uuid; uf_error : string;
}.
#[export] Instance unreadable_frame_eq_dec : EqDecision UnreadableFrame.
Proof. solve_decision. Defined.

(* ws/types/server/mod.rs:325-331 VersionMismatchData *)
Record VersionMismatchData := {
  vm_requested_version : string; vm_server_version : string; vm_min_supported_version : string;
}.

(* ws/types/server/server_auth.rs:25-29 AuthErrorData *)
Record AuthErrorData := { ae_reason : WsErrorCode.t; ae_message : string }.

(* types/vault.rs:4-10 VaultOperatorKind *)
Inductive VaultOperatorKind := Governance | Delegate.

(* ws/types/server/server_vault.rs:7-13 VaultAuthSuccessData *)
Record VaultAuthSuccessData := {
  va_vault_pda : key; va_operator : key; va_operator_kind : VaultOperatorKind; va_permissions : Z;
}.

(* ws/types/server/server_quote.rs:25-31 QuoteAcknowledgedMessage *)
Record QuoteAcknowledgedMessage := {
  qa_rfq_id : Uuid; qa_order_id : bytes; qa_replaced_order_id : option bytes;
}.

(* ws/types/server/server_quote.rs:105-111 QuoteRejectedMessage *)
Record QuoteRejectedMessage := {
  qr_rfq_id : Uuid; qr_order_id : bytes; qr_reason : QuoteRejectReason.t; qr_message : string;
}.

(* ws/types/server/server_quote.rs:113-125 QuoteSelectedMessage *)
Record QuoteSelectedMessage := {
  qs_rfq_id : Uuid; qs_order_id : bytes; qs_taker : key; qs_price : Z; qs_quantity : Z;
  qs_terms : OptionTerms.t; qs_side : TakerSide.t; qs_signature_deadline : Z;
}.

(* ws/types/server/server_quote.rs:51-69 QuoteFilledMessage *)
Record QuoteFilledMessage := {
  qf_rfq_id : Uuid; qf_order_id : bytes; qf_market_pda : key; qf_expiry_ts : option Z;
  qf_terms : OptionTerms.t; qf_side : TakerSide.t; qf_taker : key; qf_price : Z;
  qf_quantity : Z; qf_position_pda : key; qf_tx_signature : string; qf_filled_at : Z;
}.

(* ws/types/server/server_quote.rs:71-76 QuoteExpiredMessage *)
Record QuoteExpiredMessage := { qe_rfq_id : Uuid; qe_order_id : bytes }.

(* ws/types/server/server_quote.rs:127-135 QuoteCancelledMessage *)
Record QuoteCancelledMessage := {
  qc_rfq_id : Uuid; qc_order_ids : list bytes; qc_reason : QuoteCancelReason.t; qc_cancelled_at : Z;
}.

(* ws/types/server/server_rfq.rs:33-38 RfqClosedYourQuote *)
Record RfqClosedYourQuote := {
  yq_order_id : bytes; yq_status : QuoteFinalStatus.t; yq_price : Z;
}.

(** The [winner] is not read. *)
(* ws/types/server/server_rfq.rs:49-63 RfqClosedMessage *)
Record RfqClosedMessage := {
  rc_rfq_id : Uuid; rc_reason : RfqCloseReason.t; rc_your_quote : option RfqClosedYourQuote;
}.

(* ws/types/server/server_quote.rs:151-156 BatchQuoteResult *)
Inductive BatchQuoteResult :=
| Acknowledged (m : QuoteAcknowledgedMessage)
| Rejected (m : QuoteRejectedMessage).

(* ws/types/server/server_quote.rs:159-165 BatchQuoteResult::order_id *)
Definition batch_order_id (r : BatchQuoteResult) : bytes :=
  match r with Acknowledged m => qa_order_id m | Rejected m => qr_order_id m end.

(* ws/types/server/server_quote.rs:173-186 QuoteReceivedMessage *)
Record QuoteReceivedMessage := {
  rv_rfq_id : Uuid; rv_terms : OptionTerms.t; rv_side : TakerSide.t; rv_maker : key; rv_price : Z;
  rv_valid_until : Z; rv_nonce : Z; rv_order_id : bytes; rv_net_price : option Z;
}.

(** The times, the version and the order options are not read. *)
(* ws/types/server/server_rfq.rs:14-31 RfqCreatedMessage *)
Record RfqCreatedMessage := {
  cr_rfq_id : Uuid; cr_terms : OptionTerms.t; cr_side : TakerSide.t; cr_request_id : option Uuid;
}.

(* ws/types/server/server_query.rs:480-488 SponsoredTxToSignData *)
Record SponsoredTxToSignData := {
  stx_order_id : key; stx_tx_base64 : string; stx_last_valid_block_height : Z; stx_signature_deadline : Z;
}.

(* ws/types/common.rs:315-321 OnDisconnect *)
Inductive OnDisconnect := CancelQuotes | KeepQuotes.

(* ws/types/client.rs:72-79 HelloData *)
Record HelloData := {
  he_protocol_version : string; he_on_disconnect : OnDisconnect; he_client_name : string; he_client_version : string;
}.

(* ws/types/client.rs:81-84 StartAuthData *)
Record StartAuthData := { sa_pubkey : key }.

(* ws/types/client_vault.rs:7-11 StartVaultAuthData *)
Record StartVaultAuthData := { sv_operator : key; sv_vault_pda : key }.

(* ws/types/client.rs:86-89 ResumeAuthData *)
Record ResumeAuthData := { ra_session_id : string }.

(* ws/types/client.rs:91-96 AuthChallengeData *)
Record AuthChallengeData := { ac_challenge : string; ac_signature : string; ac_pubkey : key }.

(* ws/types/client.rs:98-102 CancelQuoteData *)
Record CancelQuoteData := { cn_rfq_id : Uuid; cn_request_id : Uuid }.

(* ws/types/client.rs:111-115 CancelRfqData *)
Record CancelRfqData := { cx_rfq_id : Uuid; cx_request_id : Uuid }.

(* ws/types/client.rs:242-246 IndicativeStrikePrice *)
Record IndicativeStrikePrice := { is_strike : Z; is_price : Z }.

(* ws/types/client.rs:234-240 IndicativePricesResponseMessage *)
Record IndicativePricesResponseMessage := {
  ir_request_id : Uuid; ir_market : key; ir_position_type : PositionType.t; ir_prices : list IndicativeStrikePrice;
}.

(* ws/types/client.rs:158-162 RedeemInviteData *)
Record RedeemInviteData := { ri_request_id : Uuid; ri_code : string }.

(* ws/types/client.rs:164-168 ClaimReferralCodeData *)
Record ClaimReferralCodeData := { cl_request_id : Uuid; cl_code : string }.

(* ws/types/client.rs:170-173 GetMyReferralInfoData *)
Record GetMyReferralInfoData := { gf_request_id : Uuid }.

(* ws/types/client.rs:207-216 RfqRequestMessage *)
Record RfqRequestMessage := {
  rr_request_id : Uuid; rr_market : key; rr_terms : OptionTerms.t; rr_side : TakerSide.t; rr_quantity : Z;
  rr_timeout_seconds : Z;
}.

(* ws/types/client.rs:218-224 AcceptQuoteMessage *)
Record AcceptQuoteMessage := { aq_request_id : Uuid; aq_rfq_id : Uuid; aq_maker : key; aq_order_id : bytes }.

(* ws/types/client.rs:104-109 SubmitSignedSponsoredTxData *)
Record SubmitSignedSponsoredTxData := { ss_request_id : Uuid; ss_order_id : bytes; ss_tx_base64 : string }.

(* ws/types/client_vault.rs:13-22 SwapQuoteData *)
Record SwapQuoteData := {
  rq_request_id : Uuid;
  rq_vault_pda : key;
  rq_mode : VaultSwapMode.t;
  rq_direction : VaultSwapDirection.t;
  rq_amount : string;
  rq_slippage_bps : Z;
}.

(** The block height is not read. *)
(* ws/types/server/server_vault.rs:31-46 SwapQuoteResultData *)
Record SwapQuoteResultData := {
  qt_request_id : Uuid;
  qt_execution_id : bytes;
  qt_mode : VaultSwapMode.t;
  qt_tx_base64 : string;
  qt_in_amount : string;
  qt_quoted_out_amount : string;
  qt_minimum_out_amount : string;
  qt_valid_until : string;
  qt_staging : option VaultStagingStep.t;
}.

(* ws/types/client_vault.rs:24-29 SwapSubmitData *)
Record SwapSubmitData := { sw_request_id : Uuid; sw_execution_id : bytes; sw_signed_tx_base64 : string }.

(* ws/types/client_vault.rs:31-35 GetSwapStatusMessage *)
Record GetSwapStatusMessage := { sg_request_id : Uuid; sg_execution_id : bytes }.

(* ws/types/client.rs:117-124 SubscribeData *)
Record SubscribeData := {
  sub_products : Z; sub_request_id : Uuid; sub_channels : list WsChannel.t;
  sub_underlying_mints : list key; sub_quote_mints : list key;
}.

(* ws/types/client.rs:126-130 UnsubscribeData *)
Record UnsubscribeData := { un_request_id : Uuid; un_channels : list WsChannel.t }.

(** [AddMintsData] and [RemoveMintsData]. *)
(* ws/types/client.rs:132-144 AddMintsData, RemoveMintsData *)
Record MintsData := {
  mints_request_id : Uuid; mints_underlying : list key; mints_quote : list key;
}.

(** [AddChannelsData] and [RemoveChannelsData]. *)
(* ws/types/client.rs:146-156 AddChannelsData, RemoveChannelsData *)
Record ChannelsData := { ch_request_id : Uuid; ch_channels : list WsChannel.t }.

(* ws/types/server/server_query.rs:406-414 SubscriptionsMessage *)
Record SubscriptionsMessage := {
  subs_request_id : Uuid; subs_next_cursor : option string; subs_channels : list WsChannel.t;
  subs_underlying_mints : list key; subs_quote_mints : list key;
}.

(** ** Paged reads *)

(** The requests that are an id, a limit and a cursor: [GetActiveRfqsMessage],
    [GetMyActiveRfqsMessage], [GetMyCapsMessage], [GetSubscriptionsMessage],
    [GetTokensMessage], [GetMmSummaryMessage], [GetMarketsMessage],
    [GetMarketDescriptorsMessage], [GetEarnSummaryMessage] and [GetPositionSummaryMessage]. *)
(* ws/types/client_query.rs:58-63 GetActiveRfqsMessage *)
Record PageRequest := { pq_request_id : Uuid; pq_limit : Z; pq_cursor : Cursor.t }.

(* ws/types/client_query.rs:36-48 default_request *)
Definition default_request (new_v4 : Uuid) : PageRequest :=
  {| pq_request_id := new_v4; pq_limit := 200; pq_cursor := Cursor.Start |}.

(** [GetPositionsMessage] and [GetMakerPositionsMessage] have the same fields. *)
(* ws/types/client_query.rs:10-20 GetPositionsMessage *)
Record GetPositionsMessage := {
  gp_request_id : Uuid; gp_market : QueryFilter.t key; gp_underlying_mint : QueryFilter.t key;
  gp_status : list PositionStatus.t; gp_min_expiry_ts : TimeBound.t; gp_limit : Z; gp_cursor : Cursor.t;
}.

Module MakerQuoteScope.
(* ws/types/client_query.rs:189-194 MakerQuoteScope *)
Inductive t := Live | History.
End MakerQuoteScope.

(* ws/types/client_query.rs:170-176 GetMyQuotesMessage *)
Record GetMyQuotesMessage := {
  gq_request_id : Uuid; gq_scope : MakerQuoteScope.t; gq_limit : Z; gq_cursor : Cursor.t;
}.

(* ws/types/client_query.rs:179-186 GetMyQuotesMessage::default *)
Definition default_my_quotes (new_v4 : Uuid) : GetMyQuotesMessage :=
  {| gq_request_id := new_v4; gq_scope := MakerQuoteScope.Live; gq_limit := 200; gq_cursor := Cursor.Start |}.

(* ws/types/client_query.rs:197-207 GetMarketsForMakerMessage *)
Record GetMarketsForMakerMessage := {
  gm_request_id : Uuid; gm_limit : Z; gm_cursor : Cursor.t; gm_underlying_mints : list key;
  gm_quote_mints : list key; gm_min_expiry_ts : TimeBound.t; gm_max_expiry_ts : TimeBound.t;
  gm_is_put : QueryFilter.t bool;
}.

(* ws/types/client_query.rs:210-221 GetMarketsForMakerMessage::default *)
Definition default_markets_for_maker (new_v4 : Uuid) : GetMarketsForMakerMessage :=
  {| gm_request_id := new_v4; gm_limit := 200; gm_cursor := Cursor.Start; gm_underlying_mints := [];
     gm_quote_mints := []; gm_min_expiry_ts := TimeBound.Unbounded; gm_max_expiry_ts := TimeBound.Unbounded;
     gm_is_put := QueryFilter.All |}.

(** A page of a list: its id and continuation, and its other fields (Rows.v). *)
(* ws/types/server/server_query.rs:24-30 PositionsData *)
Record PageReply {B : Type} := { pg_request_id : Uuid; pg_next_cursor : option string; pg_body : B }.
Arguments PageReply B : clear implicits.

(* ws/types/client_query.rs:74-80 GetTokenCapsMessage *)
Record GetTokenCapsMessage := {
  gc_limit : Z; gc_cursor : Cursor.t; gc_request_id : Uuid; gc_include_markets : bool;
}.

(* ws/types/client_query.rs:124-132 GetExpiriesMessage *)
Record GetExpiriesMessage := {
  ge_limit : Z; ge_cursor : Cursor.t; ge_request_id : Uuid; ge_underlying_mint : QueryFilter.t key;
  ge_quote_mint : QueryFilter.t key; ge_is_put : QueryFilter.t bool;
}.

(* ws/types/client_query.rs:239-246 GetIndicativePricesMessage *)
Record GetIndicativePricesMessage := {
  gi_limit : Z; gi_cursor : Cursor.t; gi_request_id : Uuid; gi_market : key; gi_position_type : PositionType.t;
}.

(* ws/types/client_query.rs:248-255 GetMyTradesMessage *)
Record GetMyTradesMessage := {
  gt_request_id : Uuid; gt_limit : Z; gt_cursor : Cursor.t; gt_market : QueryFilter.t key;
}.

(* ws/types/client_query.rs:288-294 GetTokenMarketsInfoMessage *)
Record GetTokenMarketsInfoMessage := {
  gk_limit : Z; gk_cursor : Cursor.t; gk_request_id : Uuid; gk_underlying_mint : key;
}.

(* ws/types/client_query.rs:89-100 CheckQuoteMessage *)
Record CheckQuoteMessage := {
  cq_request_id : Uuid; cq_market_id : key; cq_quantity : Z; cq_price : Z; cq_terms : OptionTerms.t;
  cq_side : TakerSide.t;
}.

(* ws/types/client_query.rs:134-138 GetOrderStatusMessage *)
Record GetOrderStatusMessage := { go_request_id : Uuid; go_order_id : bytes }.

(* ws/types/client_query.rs:224-228 CancelAllQuotesMessage *)
Record CancelAllQuotesMessage := { ca_request_id : Uuid; ca_market : QueryFilter.t key }.

(** ** Messages *)

Module ClientMessage.
(* ws/types/client.rs:16-70 ClientMessage *)
Inductive t :=
| Hello (m : HelloData) | StartAuth (m : StartAuthData) | StartVaultAuth (m : StartVaultAuthData)
| ResumeAuth (m : ResumeAuthData) | Logout | AuthChallenge (m : AuthChallengeData) | Quote (m : QuoteMessage)
| ReplaceQuote (m : ReplaceQuoteMessage) | BatchQuotes (m : list QuoteMessage)
| CancelQuote (m : CancelQuoteData) | IndicativePricesResponse (m : IndicativePricesResponseMessage) | RfqRequest (m : RfqRequestMessage)
| AcceptQuote (m : AcceptQuoteMessage) | SubmitSignedSponsoredTx (m : SubmitSignedSponsoredTxData)
| SwapQuote (m : SwapQuoteData) | SwapSubmit (m : SwapSubmitData) | GetSwapStatus (m : GetSwapStatusMessage)
| CancelRfq (m : CancelRfqData) | GetIndicativePrices (m : GetIndicativePricesMessage)
| GetPositions (m : GetPositionsMessage) | GetPositionSummary (m : PageRequest)
| GetMyActiveRfqs (m : PageRequest) | GetOrderStatus (m : GetOrderStatusMessage) | GetMarkets (m : PageRequest)
| GetMarketDescriptors (m : PageRequest) | GetExpiries (m : GetExpiriesMessage) | GetTokens (m : PageRequest)
| GetActiveRfqs (m : PageRequest) | GetMakerPositions (m : GetPositionsMessage)
| GetMyQuotes (m : GetMyQuotesMessage) | GetMarketsForMaker (m : GetMarketsForMakerMessage)
| GetTokenCaps (m : GetTokenCapsMessage) | GetMyCaps (m : PageRequest) | CheckQuote (m : CheckQuoteMessage)
| GetMyTrades (m : GetMyTradesMessage) | GetEarnSummary (m : PageRequest) | GetMmSummary (m : PageRequest)
| GetTokenMarketsInfo (m : GetTokenMarketsInfoMessage) | GetSubscriptions (m : PageRequest)
| CancelAllQuotes (m : CancelAllQuotesMessage) | Ping | Subscribe (m : SubscribeData)
| Unsubscribe (m : UnsubscribeData) | AddMints (m : MintsData) | RemoveMints (m : MintsData)
| AddChannels (m : ChannelsData) | RemoveChannels (m : ChannelsData) | RedeemInvite (m : RedeemInviteData)
| ClaimReferralCode (m : ClaimReferralCodeData) | GetMyReferralInfo (m : GetMyReferralInfoData).

(* ws/types/client.rs:249-304 ClientMessage::request_id *)
Definition request_id (message : t) : option Uuid :=
  match message with
  | CancelQuote m => Some (cn_request_id m)
  | RfqRequest m => Some (rr_request_id m)
  | AcceptQuote m => Some (aq_request_id m)
  | SubmitSignedSponsoredTx m => Some (ss_request_id m)
  | SwapQuote m => Some (rq_request_id m)
  | SwapSubmit m => Some (sw_request_id m)
  | GetSwapStatus m => Some (sg_request_id m)
  | CancelRfq m => Some (cx_request_id m)
  | GetIndicativePrices m => Some (gi_request_id m)
  | GetPositions m => Some (gp_request_id m)
  | GetPositionSummary m => Some (pq_request_id m)
  | GetMyActiveRfqs m => Some (pq_request_id m)
  | GetOrderStatus m => Some (go_request_id m)
  | GetMarkets m => Some (pq_request_id m)
  | GetMarketDescriptors m => Some (pq_request_id m)
  | GetExpiries m => Some (ge_request_id m)
  | GetTokens m => Some (pq_request_id m)
  | GetActiveRfqs m => Some (pq_request_id m)
  | GetMakerPositions m => Some (gp_request_id m)
  | GetMyQuotes m => Some (gq_request_id m)
  | GetMarketsForMaker m => Some (gm_request_id m)
  | GetTokenCaps m => Some (gc_request_id m)
  | GetMyCaps m => Some (pq_request_id m)
  | CheckQuote m => Some (cq_request_id m)
  | GetMyTrades m => Some (gt_request_id m)
  | GetEarnSummary m => Some (pq_request_id m)
  | GetMmSummary m => Some (pq_request_id m)
  | GetTokenMarketsInfo m => Some (gk_request_id m)
  | GetSubscriptions m => Some (pq_request_id m)
  | CancelAllQuotes m => Some (ca_request_id m)
  | Subscribe m => Some (sub_request_id m)
  | Unsubscribe m => Some (un_request_id m)
  | AddMints m => Some (mints_request_id m)
  | RemoveMints m => Some (mints_request_id m)
  | AddChannels m => Some (ch_request_id m)
  | RemoveChannels m => Some (ch_request_id m)
  | RedeemInvite m => Some (ri_request_id m)
  | ClaimReferralCode m => Some (cl_request_id m)
  | GetMyReferralInfo m => Some (gf_request_id m)
  | Hello _ | StartAuth _ | StartVaultAuth _ | ResumeAuth _ | Logout | AuthChallenge _ | Quote _ |
  ReplaceQuote _ | BatchQuotes _ | IndicativePricesResponse _ | Ping => None
  end.

(* ws/types/client.rs:354-378 ClientMessage::requires_ready *)
Definition requires_ready (message : t) : bool :=
  match message with
  | Quote _ | BatchQuotes _ | ReplaceQuote _ | IndicativePricesResponse _ | CancelQuote _ |
  CancelAllQuotes _ | RfqRequest _ | AcceptQuote _ | SubmitSignedSponsoredTx _ | CancelRfq _ |
  SwapQuote _ | SwapSubmit _ | GetSwapStatus _ | GetOrderStatus _ | Subscribe _ | Unsubscribe _ |
  AddChannels _ | RemoveChannels _ | AddMints _ | RemoveMints _ => true
  | _ => false
  end.
End ClientMessage.

Module Lane.
(* ws/types/client.rs:307-313 Lane *)
Inductive t := Control | Data.
#[global] Instance t_eq_dec : EqDecision t.
Proof. solve_decision. Defined.

(* ws/types/client.rs:380-392 ClientMessage::lane *)
Definition of_message (message : ClientMessage.t) : t :=
  match message with
  | ClientMessage.Hello _ | ClientMessage.StartAuth _ | ClientMessage.StartVaultAuth _
  | ClientMessage.ResumeAuth _ | ClientMessage.AuthChallenge _ | ClientMessage.Logout
  | ClientMessage.Ping | ClientMessage.CancelRfq _ => Control
  | _ => Data
  end.
End Lane.

Module SubscriptionChange.
(* ws/types/client.rs:315-324 SubscriptionChange *)
Inductive t :=
| Subscribe (data : SubscribeData)
| Unsubscribe (data : UnsubscribeData)
| AddChannels (data : ChannelsData)
| RemoveChannels (data : ChannelsData)
| AddMints (data : MintsData)
| RemoveMints (data : MintsData).

(* ws/types/client.rs:328-338 SubscriptionChange::from_message *)
Definition from_message (message : ClientMessage.t) : option t :=
  match message with
  | ClientMessage.Subscribe data => Some (Subscribe data)
  | ClientMessage.Unsubscribe data => Some (Unsubscribe data)
  | ClientMessage.AddChannels data => Some (AddChannels data)
  | ClientMessage.RemoveChannels data => Some (RemoveChannels data)
  | ClientMessage.AddMints data => Some (AddMints data)
  | ClientMessage.RemoveMints data => Some (RemoveMints data)
  | _ => None
  end.

(* ws/types/client.rs:340-349 SubscriptionChange::request_id *)
Definition request_id (change : t) : Uuid :=
  match change with
  | Subscribe data => sub_request_id data
  | Unsubscribe data => un_request_id data
  | AddChannels data | RemoveChannels data => ch_request_id data
  | AddMints data | RemoveMints data => mints_request_id data
  end.
End SubscriptionChange.

Module ServerMessage.
(* ws/types/server/mod.rs:30-113 ServerMessage *)
Inductive t :=
| Welcome (protocol_version : string) | VersionMismatch (m : VersionMismatchData)
| AuthRequest (challenge : string) | AuthSuccess (session_id : string)
| VaultAuthSuccess (m : VaultAuthSuccessData) | AuthError (m : AuthErrorData) | LogoutSuccess
| RfqCreated (m : RfqCreatedMessage) | RfqClosed (m : RfqClosedMessage)
| RfqBroadcast (m : RfqBroadcastMessage) | QuoteSelected (m : QuoteSelectedMessage)
| QuoteCancelled (m : QuoteCancelledMessage) | QuoteReceived (m : QuoteReceivedMessage) | QuotesUpdate
| IndicativePrices (m : PageReply IndicativePricesMessage.t) | QuoteRefreshRequested | IndicativePricesRequest
| QuoteAcknowledged (m : QuoteAcknowledgedMessage) | QuoteBestStatus | QuoteOutbid
| QuoteFilled (m : QuoteFilledMessage) | RfqAvailableAgain (rfq_id : Uuid)
| QuoteExpired (m : QuoteExpiredMessage) | QuoteRejected (m : QuoteRejectedMessage)
| ActiveRfqs (m : PageReply ActiveRfqsData.t) | MakerPositions (m : PageReply MakerPositionsMessage.t)
| MyQuotes (m : PageReply MyQuotesMessage.t) | MakerMarkets (m : PageReply MakerMarketsMessage.t)
| TokenCaps (m : PageReply TokenCapsData.t) | MyCaps (m : PageReply MyCapsData.t)
| QuoteCheck (m : QuoteCheckData.t) | MyTrades (m : PageReply MyTradesMessage.t)
| EarnSummary (m : PageReply EarnSummaryData.t) | MmSummary (m : PageReply MmSummaryData.t)
| TokenMarketsInfo (m : PageReply TokenMarketsInfoData.t) | RfqSkipped (m : RfqSkippedMessage.t)
| CancelQuoteAck (request_id : Uuid) | CancelAllQuotesAck (request_id : Uuid)
| BatchQuotesAck (m : list BatchQuoteResult) | Subscriptions (m : SubscriptionsMessage)
| MyActiveRfqs (m : PageReply MyActiveRfqsData.t) | OrderStatus (m : OrderStatusMessage.t)
| OrderAccepted (m : OrderAcceptedData.t) | SponsoredTxToSign (m : SponsoredTxToSignData)
| OrderSubmitted (m : OrderSubmittedData.t) | OrderConfirmed (m : OrderConfirmedData.t)
| OrderFailed (m : OrderFailedData.t) | MarketCreated (m : MarketInfo.t)
| MarketFinalized (m : MarketFinalizedData.t) | ChainEvent (m : ChainEventMessage.t)
| Snapshot (m : SnapshotMessage.t) | Positions (m : PageReply PositionsData.t)
| PositionSummary (m : PageReply PositionSummaryData.t) | Markets (m : PageReply MarketsData.t)
| MarketDescriptors (m : PageReply MarketDescriptorsData.t) | Expiries (m : PageReply ExpiriesData.t)
| Tokens (m : PageReply TokensData.t) | TradeExecuted (m : TradeInfo.t)
| PositionUpdated (m : PositionUpdatedMessage.t) | MakerCapsUpdated (m : MakerCapsUpdatedMessage.t)
| StatsUpdate (m : GlobalStats.t) | Pong | Error (m : ServerError.t)
| RequestError (request_id : Uuid) (error : ServerError.t) (delivery : option Delivery.t)
| SubscribeAck (request_id : Uuid) | UnsubscribeAck (request_id : Uuid)
| SubscriptionUpdated (request_id : Uuid) | RequireInvite | InviteRedeemed (request_id : Uuid)
| ReferralCodeClaimed (request_id : Uuid) | MyReferralInfo (request_id : Uuid)
| VaultProjectionAdvanced (m : VaultProjectionAdvancedData.t) | VaultCatalogChanged
| ReferenceChanged (m : ReferenceChangedData.t) | SwapQuoteResult (m : SwapQuoteResultData)
| SwapSubmitResult (m : SwapSubmitResultData.t) | SwapStatus (m : SwapStatusMessage.t)
| SwapSettled (m : SwapSettledMessage.t) | CommandAccepted (request_id : Uuid).

(* ws/types/server/mod.rs:341-425 ServerMessage::request_id *)
Definition request_id (message : t) : option Uuid :=
  match message with
  | IndicativePrices m => Some (pg_request_id m)
  | ActiveRfqs m => Some (pg_request_id m)
  | MakerPositions m => Some (pg_request_id m)
  | MyQuotes m => Some (pg_request_id m)
  | MakerMarkets m => Some (pg_request_id m)
  | TokenCaps m => Some (pg_request_id m)
  | MyCaps m => Some (pg_request_id m)
  | QuoteCheck m => Some (QuoteCheckData.request_id m)
  | MyTrades m => Some (pg_request_id m)
  | EarnSummary m => Some (pg_request_id m)
  | MmSummary m => Some (pg_request_id m)
  | TokenMarketsInfo m => Some (pg_request_id m)
  | CancelQuoteAck request_id => Some request_id
  | CancelAllQuotesAck request_id => Some request_id
  | Subscriptions m => Some (subs_request_id m)
  | MyActiveRfqs m => Some (pg_request_id m)
  | OrderStatus m => Some (OrderStatusMessage.request_id m)
  | Positions m => Some (pg_request_id m)
  | PositionSummary m => Some (pg_request_id m)
  | Markets m => Some (pg_request_id m)
  | MarketDescriptors m => Some (pg_request_id m)
  | Expiries m => Some (pg_request_id m)
  | Tokens m => Some (pg_request_id m)
  | RequestError request_id _ _ => Some request_id
  | SubscribeAck request_id => Some request_id
  | UnsubscribeAck request_id => Some request_id
  | SubscriptionUpdated request_id => Some request_id
  | InviteRedeemed request_id => Some request_id
  | ReferralCodeClaimed request_id => Some request_id
  | MyReferralInfo request_id => Some request_id
  | SwapQuoteResult m => Some (qt_request_id m)
  | SwapSubmitResult m => Some (SwapSubmitResultData.request_id m)
  | SwapStatus m => Some (SwapStatusMessage.request_id m)
  | CommandAccepted request_id => Some request_id
  | _ => None
  end.
End ServerMessage.
