(* ===== verification/Tracker.v ===== *)
(** * Awaited replies ([src/ws/managed/tracker.rs])

    [AwaitTracker] matches server replies to the calls that wait for them, by
    request id, by order id, or by the set of order ids of a batch.  A sender is the
    identity of its oneshot channel; which receivers have been dropped is the
    environment's, an argument of the operations that look ([tx.is_closed()]). *)

From Stdlib Require Import ZArith Lia String.
From stdpp Require Import base list gmap strings sorting.
From S2P Require Import Prelude Terms Quote Messages.

Open Scope Z_scope.

Module SendAwaitError.
(* ws/managed/mod.rs:137-160 SendAwaitError *)
Inductive t :=
| SubscriptionPending
| NotReady
| Disconnected
| Timeout
| UnreadableResponse (frame : UnreadableFrame)
| NoCorrelationKey
| DuplicateInFlight
| TooManyPending (limit : nat)
| QueueFull
| InvalidMessage (e : string).
#[global] Instance t_eq_dec : EqDecision t.
Proof. solve_decision. Defined.
End SendAwaitError.

(* ws/managed/tracker.rs:20-25 CorrelationKey *)
Inductive CorrelationKey :=
| Request (id : Uuid)
| Quote (id : bytes)
| Batch (ids : list bytes).

#[export] Instance key_eq_dec : EqDecision CorrelationKey.
Proof. solve_decision. Defined.

#[export] Instance key_countable : Countable CorrelationKey.
Proof.
  refine (inj_countable'
    (fun k => match k with Request i => inl i | Quote i => inr (inl i) | Batch l => inr (inr l) end)
    (fun x => match x with inl i => Request i | inr (inl i) => Quote i | inr (inr l) => Batch l end) _).
  by intros [].
Defined.

(** The derived order on [[u8; 32]]: lexicographic. *)
Fixpoint bytes_le (a b : bytes) : bool :=
  match a, b with
  | [], _ => true
  | _ :: _, [] => false
  | x :: a, y :: b => (x <? y) || ((x =? y) && bytes_le a b)
  end.

Abbreviation bytes_le_rel := (fun a b : bytes => Is_true (bytes_le a b)).

(** [sort_unstable]: any sort gives the same list, the order being total and
    antisymmetric. *)
(* ws/managed/tracker.rs:54-58 sorted_order_ids *)
Definition sorted_order_ids (ids : list bytes) : list bytes := merge_sort bytes_le_rel ids.

(* ws/managed/tracker.rs:28-40 CorrelationKey::for_client *)
Definition for_client (message : ClientMessage.t) : option (list CorrelationKey) :=
  match message with
  | ClientMessage.Quote message => Some [Quote (qm_order_id message)]
  | ClientMessage.ReplaceQuote message => Some [Quote (rq_order_id message)]
  | ClientMessage.BatchQuotes quotes => Some [Batch (sorted_order_ids (map qm_order_id quotes))]
  | ClientMessage.CancelRfq _ => None
  | _ => (fun request_id => [Request request_id]) <$> ClientMessage.request_id message
  end.

(* ws/managed/tracker.rs:42-51 CorrelationKey::for_server *)
Definition for_server (message : ServerMessage.t) : option CorrelationKey :=
  match message with
  | ServerMessage.QuoteAcknowledged message => Some (Quote (qa_order_id message))
  | ServerMessage.QuoteRejected message => Some (Quote (qr_order_id message))
  | ServerMessage.BatchQuotesAck results =>
      Some (Batch (sorted_order_ids (map batch_order_id results)))
  | _ => Request <$> ServerMessage.request_id message
  end.

(** A oneshot sender, by its channel. *)
Abbreviation Sender := nat (only parsing).

(* ws/managed/tracker.rs:60-63 PendingAwait *)
Record PendingAwait := {
  pa_keys : list CorrelationKey;
  pa_tx : Sender;
}.

(* ws/managed/tracker.rs:65-69 AwaitTracker *)
Record AwaitTracker := {
  max_pending : nat;
  by_id : gmap Z PendingAwait;
  by_key : gmap CorrelationKey Z;
}.

Module Tracker.
(* ws/managed/tracker.rs:72-78 AwaitTracker::new *)
Definition new (max_pending : nat) : AwaitTracker :=
  {| max_pending := max_pending; by_id := ∅; by_key := ∅ |}.

(* ws/managed/tracker.rs:80-84 AwaitTracker::prepare *)
Definition prepare (message : ClientMessage.t) : res SendAwaitError.t (list CorrelationKey) :=
  ok_or (for_client message) SendAwaitError.NoCorrelationKey.

(* ws/managed/tracker.rs:140-146 AwaitTracker::cancel *)
Definition cancel (t : AwaitTracker) (await_id : Z) : AwaitTracker * option Sender :=
  match by_id t !! await_id with
  | None => (t, None)
  | Some pending =>
      ({| max_pending := max_pending t;
          by_id := delete await_id (by_id t);
          by_key := foldl (fun m k => delete k m) (by_key t) (pa_keys pending) |},
       Some (pa_tx pending))
  end.

(** The ids the map iterates over whose receiver is gone. *)
(* ws/managed/tracker.rs:129-138 AwaitTracker::prune_closed *)
Definition prune_closed (is_closed : Sender -> bool) (t : AwaitTracker) : AwaitTracker :=
  let closed_ids :=
    omap (fun '(await_id, pending) => if is_closed (pa_tx pending) then Some await_id else None)
      (map_to_list (by_id t)) in
  foldl (fun t await_id => fst (cancel t await_id)) t closed_ids.

Definition at_limit (t : AwaitTracker) : bool := (max_pending t <=? size (by_id t))%nat.
Definition key_taken (t : AwaitTracker) (keys : list CorrelationKey) : bool :=
  existsb (fun key => bool_decide (is_Some (by_key t !! key))) keys.

(** On failure the sender is handed back to the caller, which reports the error
    through it. *)
(* ws/managed/tracker.rs:86-127 AwaitTracker::register *)
Definition register (is_closed : Sender -> bool) (t : AwaitTracker) (await_id : Z)
  (keys : list CorrelationKey) (tx : Sender)
  : AwaitTracker * res (SendAwaitError.t * Sender) unit :=
  let t := if at_limit t || key_taken t keys then prune_closed is_closed t else t in
  if at_limit t then (t, Err (SendAwaitError.TooManyPending (max_pending t), tx))
  else if key_taken t keys then (t, Err (SendAwaitError.DuplicateInFlight, tx))
  else
    ({| max_pending := max_pending t;
        by_id := <[await_id := {| pa_keys := keys; pa_tx := tx |}]> (by_id t);
        by_key := foldl (fun m k => <[k := await_id]> m) (by_key t) keys |}, Ok tt).

(* ws/managed/tracker.rs:148-152 AwaitTracker::take_for_message *)
Definition take_for_message (t : AwaitTracker) (message : ServerMessage.t)
  : AwaitTracker * option Sender :=
  match for_server message with
  | None => (t, None)
  | Some key =>
      match by_key t !! key with
      | None => (t, None)
      | Some await_id => cancel t await_id
      end
  end.

(* ws/managed/tracker.rs:154-157 AwaitTracker::take_for_request *)
Definition take_for_request (t : AwaitTracker) (request_id : Uuid) : AwaitTracker * option Sender :=
  match by_key t !! Request request_id with
  | None => (t, None)
  | Some await_id => cancel t await_id
  end.

(** The senders that receive [Disconnected], in the map's iteration order. *)
(* ws/managed/tracker.rs:159-164 AwaitTracker::drain_all *)
Definition drain_all (t : AwaitTracker) : AwaitTracker * list Sender :=
  ({| max_pending := max_pending t; by_id := ∅; by_key := ∅ |},
   map (fun p => pa_tx (snd p)) (map_to_list (by_id t))).
End Tracker.

(** ** Canonical batches *)

#[export] Instance bytes_le_total : Total bytes_le_rel.
Proof.
  intros a. induction a as [|x a IH]; intros [|y b]; simpl; try (by left); try (by right).
  destruct (Z.ltb_spec x y), (Z.ltb_spec y x), (Z.eqb_spec x y), (Z.eqb_spec y x); simpl; try lia;
    try (by left); try (by right). apply IH.
Qed.

#[export] Instance bytes_le_trans : Transitive bytes_le_rel.
Proof.
  intros a. induction a as [|x a IH]; intros [|y b] [|z c]; simpl; try done.
  destruct (Z.ltb_spec x y), (Z.ltb_spec y z), (Z.ltb_spec x z), (Z.eqb_spec x y), (Z.eqb_spec y z),
    (Z.eqb_spec x z); simpl; try done; try lia. apply IH.
Qed.

#[export] Instance bytes_le_antisymm : AntiSymm (=) bytes_le_rel.
Proof.
  intros a. induction a as [|x a IH]; intros [|y b]; simpl; try done.
  destruct (Z.ltb_spec x y), (Z.ltb_spec y x), (Z.eqb_spec x y), (Z.eqb_spec y x); simpl; try done;
    try lia. intros. subst. f_equal. by apply IH.
Qed.

Lemma sorted_order_ids_perm ids : Permutation (sorted_order_ids ids) ids.
Proof. apply merge_sort_Permutation. Qed.

(** The key of a batch does not depend on the order of its quotes, and only on them. *)
Lemma sorted_order_ids_canonical ids ids' :
  sorted_order_ids ids = sorted_order_ids ids' <-> Permutation ids ids'.
Proof.
  split.
  - intros H. by rewrite <- (sorted_order_ids_perm ids), H, sorted_order_ids_perm.
  - intros H. apply (Sorted_unique bytes_le_rel).
    + apply (Sorted_merge_sort _).
    + apply (Sorted_merge_sort _).
    + by rewrite !sorted_order_ids_perm.
Qed.

(** ** The index invariant *)

Record tracker_inv (t : AwaitTracker) : Prop := {
  inv_keys id p k : by_id t !! id = Some p -> k ∈ pa_keys p -> by_key t !! k = Some id;
  inv_ids k id : by_key t !! k = Some id -> exists p, by_id t !! id = Some p /\ k ∈ pa_keys p;
  inv_bound : (size (by_id t) <= max_pending t)%nat;
}.

Lemma lookup_delete_keys (m : gmap CorrelationKey Z) ks k :
  foldl (fun m k => delete k m) m ks !! k = if bool_decide (k ∈ ks) then None else m !! k.
Proof.
  revert m; induction ks as [|k0 ks IH]; intros m; simpl; [done|].
  rewrite IH. repeat case_bool_decide; try set_solver.
  - apply lookup_delete_None. set_solver.
  - apply lookup_delete_ne. set_solver.
Qed.

Lemma lookup_insert_keys (m : gmap CorrelationKey Z) ks id k :
  foldl (fun m k => <[k := id]> m) m ks !! k = if bool_decide (k ∈ ks) then Some id else m !! k.
Proof.
  revert m; induction ks as [|k0 ks IH]; intros m; simpl; [done|].
  rewrite IH. destruct (decide (k = k0)) as [->|].
  - rewrite lookup_insert_eq. repeat case_bool_decide; set_solver.
  - rewrite lookup_insert_ne by done. repeat case_bool_decide; set_solver.
Qed.

Lemma tracker_inv_new n : tracker_inv (Tracker.new n).
Proof. split; simpl; [done | done | by rewrite map_size_empty; lia]. Qed.

Lemma cancel_inv t id : tracker_inv t -> tracker_inv (fst (Tracker.cancel t id)).
Proof.
  intros [Hk Hi Hb]. unfold Tracker.cancel. destruct (by_id t !! id) as [p|] eqn:E; [|by split].
  split; simpl.
  - intros id' p' k [Hne Hid]%lookup_delete_Some Hin. rewrite lookup_delete_keys.
    case_bool_decide as Hp; [|by eapply Hk].
    pose proof (Hk _ _ _ E Hp). pose proof (Hk _ _ _ Hid Hin). congruence.
  - intros k id'. rewrite lookup_delete_keys. case_bool_decide as Hp; [done|].
    intros (p' & Hp' & Hin)%Hi. exists p'. split; [|done]. apply lookup_delete_Some.
    split; [|done]. intros <-. rewrite E in Hp'. by injection Hp' as <-.
  - rewrite map_size_delete_Some by eauto. lia.
Qed.

Lemma cancel_max t id : max_pending (fst (Tracker.cancel t id)) = max_pending t.
Proof. unfold Tracker.cancel. by destruct (by_id t !! id). Qed.

Lemma prune_inv f t : tracker_inv t -> tracker_inv (Tracker.prune_closed f t).
Proof.
  unfold Tracker.prune_closed. generalize (omap (fun '(await_id, pending) =>
    if f (pa_tx pending) then Some await_id else None) (map_to_list (by_id t))).
  intros ids. revert t. induction ids as [|id ids IH]; intros t Ht; simpl; [done|].
  by apply IH, cancel_inv.
Qed.

Lemma key_taken_false t keys :
  Tracker.key_taken t keys = false <-> forall k, k ∈ keys -> by_key t !! k = None.
Proof.
  unfold Tracker.key_taken. rewrite <- not_true_iff_false, existsb_exists. split.
  - intros H k Hin. apply eq_None_not_Some. intros Hs. apply H. exists k.
    split; [by apply list_elem_of_In | by apply bool_decide_eq_true].
  - intros H (k & Hin%list_elem_of_In & Hs%bool_decide_eq_true). rewrite (H k Hin) in Hs.
    by destruct Hs.
Qed.

Lemma insert_inv t id keys tx :
  tracker_inv t -> by_id t !! id = None -> Tracker.at_limit t = false ->
  Tracker.key_taken t keys = false ->
  tracker_inv {| max_pending := max_pending t;
                 by_id := <[id := {| pa_keys := keys; pa_tx := tx |}]> (by_id t);
                 by_key := foldl (fun m k => <[k := id]> m) (by_key t) keys |}.
Proof.
  intros [Hk Hi Hb] Hid Hl Hf. rewrite key_taken_false in Hf. apply Nat.leb_gt in Hl.
  split; simpl.
  - intros id' p k. rewrite lookup_insert_keys.
    intros [[<- <-]|[Hne Hp]]%lookup_insert_Some Hin; simpl in *; [by rewrite bool_decide_true|].
    pose proof (Hk _ _ _ Hp Hin) as Hold. case_bool_decide as Hkk; [|done].
    rewrite (Hf _ Hkk) in Hold. done.
  - intros k id'. rewrite lookup_insert_keys. case_bool_decide as Hin.
    + intros [= <-]. eexists. by rewrite lookup_insert_eq.
    + intros (p & Hp & Hpk)%Hi. exists p. rewrite lookup_insert_ne by congruence. done.
  - rewrite map_size_insert_None by done. lia.
Qed.

(** ** Every accepted sender is released exactly once *)

Definition senders (t : AwaitTracker) : list Sender := map (fun e => pa_tx (snd e)) (map_to_list (by_id t)).

(** What the session does with its tracker. *)
Inductive op :=
| Register (is_closed : Sender -> bool) (await_id : Z) (keys : list CorrelationKey) (tx : Sender)
| Reply (message : ServerMessage.t)
| Unreadable (request_id : Uuid)
| Cancel (await_id : Z)
| Drain.

(** The tracker after an operation, the sender it accepted, and the senders that
    left it: used to answer, dropped because their receiver is gone, or told
    [Disconnected]. *)
Definition run_op (t : AwaitTracker) (o : op) : AwaitTracker * list Sender * list Sender :=
  match o with
  | Register is_closed id keys tx =>
      let '(t', r) := Tracker.register is_closed t id keys tx in
      (t', if is_ok r then [tx] else [],
       if Tracker.at_limit t || Tracker.key_taken t keys
       then List.filter is_closed (senders t) else [])
  | Reply message => let '(t', o) := Tracker.take_for_message t message in (t', [], option_list o)
  | Unreadable id => let '(t', o) := Tracker.take_for_request t id in (t', [], option_list o)
  | Cancel id => let '(t', o) := Tracker.cancel t id in (t', [], option_list o)
  | Drain => let '(t', l) := Tracker.drain_all t in (t', [], l)
  end.

Fixpoint run_ops (t : AwaitTracker) (ops : list op) : AwaitTracker * list Sender * list Sender :=
  match ops with
  | [] => (t, [], [])
  | o :: ops =>
      let '(t1, a1, r1) := run_op t o in
      let '(t2, a2, r2) := run_ops t1 ops in
      (t2, a1 ++ a2, r1 ++ r2)
  end.

Definition registered_ids (ops : list op) : list Z :=
  omap (fun o => match o with Register _ id _ _ => Some id | _ => None end) ops.

Lemma cancel_senders t id :
  Permutation (senders t)
    (option_list (snd (Tracker.cancel t id)) ++ senders (fst (Tracker.cancel t id))).
Proof.
  unfold Tracker.cancel. destruct (by_id t !! id) as [p|] eqn:E; [|done]. unfold senders. simpl.
  by rewrite <- (map_to_list_delete _ _ _ E).
Qed.

Lemma cancel_dom t id id' :
  is_Some (by_id (fst (Tracker.cancel t id)) !! id') -> is_Some (by_id t !! id').
Proof.
  unfold Tracker.cancel. destruct (by_id t !! id) as [p|] eqn:E; [|done]. simpl.
  intros [q [_ Hq]%lookup_delete_Some]. by exists q.
Qed.

Lemma cancel_list t (l : list (Z * PendingAwait)) :
  NoDup (map fst l) -> (forall e, e ∈ l -> by_id t !! e.1 = Some e.2) ->
  Permutation (senders t)
    (map (fun e => pa_tx (snd e)) l ++
     senders (foldl (fun t await_id => fst (Tracker.cancel t await_id)) t (map fst l))).
Proof.
  revert t. induction l as [|[id p] l IH]; intros t Hnd Hin; [done|].
  apply NoDup_cons in Hnd as [Hni Hnd]. cbn [map foldl fst snd app].
  rewrite (cancel_senders t id), (IH (fst (Tracker.cancel t id)) Hnd).
  - unfold Tracker.cancel. rewrite (Hin (id, p) ltac:(set_solver) : by_id t !! id = Some p). done.
  - intros [id' p'] He. unfold Tracker.cancel. rewrite (Hin (id, p) ltac:(set_solver) : by_id t !! id = Some p). simpl.
    rewrite lookup_delete_ne; [by apply (Hin (id', p')); set_solver|]. intros <-.
    apply Hni. by apply (list_elem_of_fmap_2 fst _ (id, p')).
Qed.

Lemma omap_closed (f : Sender -> bool) (l : list (Z * PendingAwait)) :
  omap (fun '(await_id, pending) => if f (pa_tx pending) then Some await_id else None) l =
  map fst (List.filter (fun e => f (pa_tx (snd e))) l).
Proof.
  induction l as [|[id p] l IH]; [done|]. csimpl. destruct (f (pa_tx p)); csimpl; by rewrite IH.
Qed.

Lemma filter_map_comm {A B} (f : B -> bool) (g : A -> B) (l : list A) :
  List.filter f (map g l) = map g (List.filter (fun x => f (g x)) l).
Proof. induction l as [|x l IH]; simpl; [done|]. destruct (f (g x)); simpl; by rewrite IH. Qed.

Lemma sublist_filter_bool {A} (f : A -> bool) (l : list A) : sublist (List.filter f l) l.
Proof. induction l as [|x l IH]; simpl; [done|]. destruct (f x); by constructor. Qed.

Lemma prune_senders f t :
  Permutation (senders t) (List.filter f (senders t) ++ senders (Tracker.prune_closed f t)).
Proof.
  unfold Tracker.prune_closed. rewrite omap_closed. unfold senders at 2. rewrite filter_map_comm.
  apply cancel_list.
  - eapply sublist_NoDup; [|apply (fmap_sublist fst), sublist_filter_bool].
    apply NoDup_fst_map_to_list.
  - intros [id p] He. apply elem_of_map_to_list.
    by apply list_elem_of_In, filter_In, proj1, list_elem_of_In in He.
Qed.

Lemma prune_frame f t :
  max_pending (Tracker.prune_closed f t) = max_pending t /\
  (forall id, is_Some (by_id (Tracker.prune_closed f t) !! id) -> is_Some (by_id t !! id)).
Proof.
  unfold Tracker.prune_closed. generalize (omap (fun '(await_id, pending) =>
    if f (pa_tx pending) then Some await_id else None) (map_to_list (by_id t))).
  intros ids. revert t. induction ids as [|i ids IH]; intros t; simpl; [done|].
  destruct (IH (fst (Tracker.cancel t i))) as [Hm Hd]. rewrite Hm, cancel_max. split; [done|].
  intros id Hid. by eapply cancel_dom, Hd.
Qed.

Lemma register_spec f t id keys tx t' res :
  tracker_inv t -> by_id t !! id = None -> Tracker.register f t id keys tx = (t', res) ->
  tracker_inv t' /\ max_pending t' = max_pending t /\
  (forall i, is_Some (by_id t' !! i) -> is_Some (by_id t !! i) \/ i = id) /\
  Permutation ((if is_ok res then [tx] else []) ++ senders t)
    (senders t' ++ if Tracker.at_limit t || Tracker.key_taken t keys
                   then List.filter f (senders t) else []).
Proof.
  intros Hinv Hid. unfold Tracker.register.
  set (b := Tracker.at_limit t || Tracker.key_taken t keys).
  set (t1 := if b then Tracker.prune_closed f t else t).
  assert (H1 : tracker_inv t1 /\ max_pending t1 = max_pending t /\
    (forall i, is_Some (by_id t1 !! i) -> is_Some (by_id t !! i)) /\
    Permutation (senders t) (senders t1 ++ if b then List.filter f (senders t) else [])).
  { unfold t1. destruct b; [|by rewrite app_nil_r].
    destruct (prune_frame f t). split_and!; try done; [by apply prune_inv|].
    rewrite Permutation_app_comm. apply prune_senders. }
  destruct H1 as (Hi1 & Hm1 & Hd1 & Hp1).
  destruct (Tracker.at_limit t1) eqn:El.
  { intros [= <- <-]. simpl. split_and!; auto. }
  destruct (Tracker.key_taken t1 keys) eqn:Ek.
  { intros [= <- <-]. simpl. split_and!; auto. }
  intros [= <- <-]. simpl.
  assert (Hid1 : by_id t1 !! id = None).
  { apply eq_None_not_Some. intros Hs. apply Hd1 in Hs as [? Hs]. congruence. }
  split_and!; [by apply insert_inv | done | |].
  - intros i Hi. destruct (decide (i = id)) as [->|Hne]; [by right|].
    rewrite lookup_insert_ne in Hi by done. auto.
  - rewrite Hp1 at 1. unfold senders at 3. simpl. rewrite map_to_list_insert by done. done.
Qed.

Lemma cancel_spec t id t' o :
  tracker_inv t -> Tracker.cancel t id = (t', o) ->
  tracker_inv t' /\ max_pending t' = max_pending t /\
  (forall i, is_Some (by_id t' !! i) -> is_Some (by_id t !! i)) /\
  Permutation (senders t) (senders t' ++ option_list o).
Proof.
  intros Hinv H. pose proof (cancel_inv t id Hinv) as H1. pose proof (cancel_max t id) as H2.
  pose proof (cancel_dom t id) as H3. pose proof (cancel_senders t id) as H4. rewrite H in *.
  split_and!; try done. by rewrite Permutation_app_comm.
Qed.

(** One operation, on a tracker that has not seen the id it registers. *)
Lemma run_op_spec t o t' a r :
  tracker_inv t -> (forall id, id ∈ registered_ids [o] -> by_id t !! id = None) ->
  run_op t o = (t', a, r) ->
  tracker_inv t' /\ max_pending t' = max_pending t /\
  (forall i, is_Some (by_id t' !! i) -> is_Some (by_id t !! i) \/ i ∈ registered_ids [o]) /\
  Permutation (a ++ senders t) (senders t' ++ r).
Proof.
  intros Hinv Hf H.
  assert (Htake : forall k t' o, match by_key t !! k with
      | None => (t, None) | Some i => Tracker.cancel t i end = (t', o) ->
    tracker_inv t' /\ max_pending t' = max_pending t /\
    (forall i, is_Some (by_id t' !! i) -> is_Some (by_id t !! i)) /\
    Permutation (senders t) (senders t' ++ option_list o)).
  { intros k t1 o1. destruct (by_key t !! k) as [i|]; [by apply cancel_spec|].
    intros [= <- <-]. simpl. by rewrite app_nil_r. }
  destruct o as [f id keys tx|m|rid|id|]; simpl in H.
  - destruct (Tracker.register f t id keys tx) as [t1 res] eqn:E. injection H as <- <- <-.
    destruct (register_spec _ _ _ _ _ _ _ Hinv (Hf id ltac:(set_solver)) E) as (?&?&Hd&?).
    split_and!; try done. intros i Hi. destruct (Hd i Hi) as [? | ->]; [by left | right; set_solver].
  - unfold Tracker.take_for_message in H. destruct (for_server m) as [k|].
    + destruct (match by_key t !! k with None => (t, None) | Some i => Tracker.cancel t i end)
        as [t1 o1] eqn:E. injection H as <- <- <-.
      destruct (Htake k _ _ E) as (?&?&?&?). split_and!; auto.
    + injection H as <- <- <-. simpl. rewrite app_nil_r. auto.
  - unfold Tracker.take_for_request in H.
    destruct (match by_key t !! Request rid with None => (t, None) | Some i => Tracker.cancel t i end)
      as [t1 o1] eqn:E. injection H as <- <- <-.
    destruct (Htake (Request rid) _ _ E) as (?&?&?&?). split_and!; auto.
  - destruct (Tracker.cancel t id) as [t1 o1] eqn:E. injection H as <- <- <-.
    destruct (cancel_spec _ _ _ _ Hinv E) as (?&?&?&?). split_and!; auto.
  - injection H as <- <- <-. simpl. split_and!; try done; [by apply (tracker_inv_new (max_pending t))|].
    intros i [? Hi]. by rewrite lookup_empty in Hi.
Qed.

Lemma run_ops_spec ops t t' a r :
  tracker_inv t -> NoDup (registered_ids ops) ->
  (forall id, id ∈ registered_ids ops -> by_id t !! id = None) ->
  run_ops t ops = (t', a, r) ->
  tracker_inv t' /\ max_pending t' = max_pending t /\ Permutation (a ++ senders t) (senders t' ++ r).
Proof.
  revert t a r. induction ops as [|o ops IH]; intros t a r Hinv Hnd Hf H; simpl in H.
  { injection H as <- <- <-. by rewrite app_nil_r. }
  destruct (run_op t o) as [[t1 a1] r1] eqn:E1. destruct (run_ops t1 ops) as [[t2 a2] r2] eqn:E2.
  injection H as <- <- <-.
  assert (Hids : registered_ids (o :: ops) = registered_ids [o] ++ registered_ids ops)
    by (by destruct o).
  rewrite Hids in Hnd, Hf. apply NoDup_app in Hnd as (_ & Hdis & Hnd).
  destruct (run_op_spec _ _ _ _ _ Hinv ltac:(set_solver) E1) as (Hi1 & Hm1 & Hd1 & Hp1).
  destruct (IH t1 a2 r2 Hi1 Hnd) as (Hi2 & Hm2 & Hp2); [|done|].
  - intros id Hid. apply eq_None_not_Some. intros [Hs|Hs]%Hd1.
    + rewrite (Hf id) in Hs by set_solver. by destruct Hs.
    + by apply (Hdis id).
  - split_and!; [done | congruence|].
    rewrite (Permutation_app_comm a1 a2), <- app_assoc, Hp1.
    rewrite (app_assoc a2), Hp2, <- !app_assoc. apply Permutation_app_head, Permutation_app_comm.
Qed.

(** C3: however replies, cancellations, registrations and disconnects interleave
    (with await ids used once), the tracker's two indices stay consistent, it never
    holds more than [max_pending] calls, and every sender it accepted is either still
    pending or was released exactly once: none is lost, none is answered twice. *)
Theorem tracker_accounting n ops t a r :
  NoDup (registered_ids ops) -> run_ops (Tracker.new n) ops = (t, a, r) ->
  tracker_inv t /\ (size (by_id t) <= n)%nat /\ Permutation a (senders t ++ r) /\
  (NoDup a -> NoDup (senders t ++ r)).
Proof.
  intros Hnd H.
  destruct (run_ops_spec ops (Tracker.new n) t a r (tracker_inv_new n) Hnd) as (Hi & Hm & Hp);
    [done | done |].
  simpl in Hm. rewrite app_nil_r in Hp. split_and!; try done.
  - rewrite <- Hm. apply Hi.
  - intros Ha. by rewrite <- Hp.
Qed.

(** Replies reach the call they answer.  In a consistent tracker, a server
    message releases the sender of the pending call that registered its key, and of
    no other; a message with no key, or whose key nobody waits for, changes nothing.
    A batch acknowledgement has the key of a sent batch exactly when it reports the
    same order ids, in any order; a quote or replacement is answered by the
    acknowledgement or rejection of its order id, and any other correlated request by
    a message with its request id. *)
Theorem replies_are_routed t message :
  tracker_inv t ->
  (forall id p k, by_id t !! id = Some p -> for_server message = Some k -> k ∈ pa_keys p ->
     Tracker.take_for_message t message = (fst (Tracker.cancel t id), Some (pa_tx p))) /\
  (forall t' tx, Tracker.take_for_message t message = (t', Some tx) ->
     exists id p k, by_id t !! id = Some p /\ for_server message = Some k /\ k ∈ pa_keys p /\
       tx = pa_tx p /\ by_id t' = delete id (by_id t)) /\
  (forall t', Tracker.take_for_message t message = (t', None) -> t' = t) /\
  (forall quotes results,
     (exists keys k, for_client (ClientMessage.BatchQuotes quotes) = Some keys /\
        for_server (ServerMessage.BatchQuotesAck results) = Some k /\ k ∈ keys) <->
     Permutation (map qm_order_id quotes) (map batch_order_id results)).
Proof.
  intros [Hk Hi Hb]. split_and!.
  - intros id p k Hp Hs Hin. unfold Tracker.take_for_message. rewrite Hs, (Hk _ _ _ Hp Hin).
    unfold Tracker.cancel. by rewrite Hp.
  - intros t' tx. unfold Tracker.take_for_message. destruct (for_server message) as [k|]; [|done].
    destruct (by_key t !! k) as [id|] eqn:E; [|done].
    destruct (Hi _ _ E) as (p & Hp & Hin). unfold Tracker.cancel. rewrite Hp.
    intros [= <- <-]. by exists id, p, k.
  - intros t'. unfold Tracker.take_for_message. destruct (for_server message) as [k|]; [|by intros [= <-]].
    destruct (by_key t !! k) as [id|] eqn:E; [|by intros [= <-]].
    destruct (Hi _ _ E) as (p & Hp & Hin). unfold Tracker.cancel. by rewrite Hp.
  - intros quotes results. cbn. rewrite <- sorted_order_ids_canonical. split.
    + intros (keys & k & [= <-] & [= <-] & Hin). apply list_elem_of_singleton in Hin. by injection Hin.
    + intros H. do 2 eexists. split; [done|]. split; [done|]. rewrite H. set_solver.
Qed.

(** Two calls: a quote answered by its acknowledgement, and a request that times out
    and is cancelled; a third is refused because its key is taken. *)
Definition demo_ops : list op :=
  [Register (fun _ => false) 1 [Quote (key_of 1)] 10;
   Register (fun _ => false) 2 [Request 77] 20;
   Register (fun _ => false) 3 [Quote (key_of 1)] 30;
   Reply (ServerMessage.QuoteAcknowledged
     {| qa_rfq_id := 5; qa_order_id := key_of 1; qa_replaced_order_id := None |});
   Cancel 2;
   Register (fun _ => false) 4 [Request 77] 40;
   Drain].

Lemma tracker_accounting_witness :
  exists t, run_ops (Tracker.new 2) demo_ops = (t, [10; 20; 40]%nat, [10; 20; 40]%nat) /\
    senders t = [] /\ Permutation [10; 20; 40]%nat (senders t ++ [10; 20; 40]%nat).
Proof.
  eexists. split; [vm_compute; reflexivity|]. split; [vm_compute; reflexivity|].
  refine (proj1 (proj2 (proj2 (tracker_accounting 2 demo_ops _ _ _ _ _)))).
  - vm_compute. repeat constructor; set_solver.
  - vm_compute. reflexivity.
Defined.

Lemma replies_are_routed_witness :
  let t := fst (fst (run_ops (Tracker.new 2) (take 1 demo_ops))) in
  Tracker.take_for_message t (ServerMessage.QuoteAcknowledged
     {| qa_rfq_id := 5; qa_order_id := key_of 1; qa_replaced_order_id := None |}) =
  (fst (Tracker.cancel t 1), Some 10%nat).
Proof.
  intros t.
  apply (proj1 (replies_are_routed t (ServerMessage.QuoteAcknowledged
     {| qa_rfq_id := 5; qa_order_id := key_of 1; qa_replaced_order_id := None |})
     (proj1 (run_ops_spec (take 1 demo_ops) (Tracker.new 2) t _ _ (tracker_inv_new 2)
        ltac:(vm_compute; repeat constructor; set_solver) ltac:(done) ltac:(vm_compute; reflexivity))))
     1 {| pa_keys := [Quote (key_of 1)]; pa_tx := 10%nat |} (Quote (key_of 1))).
  - vm_compute. reflexivity.
  - reflexivity.
  - simpl. set_solver.
Defined.
