(* ===== verification/Subscriptions.v ===== *)
(** * Desired subscriptions ([src/ws/managed/desired_subscriptions.rs])

    The subscription target a managed session restores after it reconnects: applying
    a change, undoing it when the server rejects it, keeping it when the connection is
    lost, and computing the recovery messages from the server's current state.
    [Uuid::new_v4] is a parameter. *)

From Stdlib Require Import ZArith Lia String.
From stdpp Require Import base list gmap strings.
From S2P Require Import Prelude Terms Quote Rows Messages.

Open Scope Z_scope.

(* ws/managed/desired_subscriptions.rs:19-25 SubscriptionSet *)
Record SubscriptionSet := {
  products : option Z;
  channels : gset WsChannel.t;
  underlying_mints : gset key;
  quote_mints : gset key;
}.

(* ws/managed/desired_subscriptions.rs:27-31 PendingSubscriptionChange *)
Record PendingSubscriptionChange := {
  pend_request_id : Uuid;
  pend_previous : SubscriptionSet;
}.

(* ws/managed/desired_subscriptions.rs:10-17 DesiredSubscriptions *)
Record DesiredSubscriptions := {
  current : SubscriptionSet;
  pending : option PendingSubscriptionChange;
}.

(* ws/managed/desired_subscriptions.rs:33-36 SubscriptionRecovery *)
Record SubscriptionRecovery := {
  rec_unsubscribe : option UnsubscribeData;
  rec_subscribe : option SubscribeData;
}.

(** [SubscriptionSet::default()]. *)
Definition empty_set : SubscriptionSet :=
  {| products := None; channels := ∅; underlying_mints := ∅; quote_mints := ∅ |}.

(* ws/managed/desired_subscriptions.rs:177-179 normalized *)
Definition normalized (mints : list key) : gset key := list_to_set mints.

(* ws/managed/desired_subscriptions.rs:144-149 SubscriptionSet::apply_subscribe *)
Definition apply_subscribe (s : SubscriptionSet) (data : SubscribeData) : SubscriptionSet :=
  {| products := Some (sub_products data);
     channels := channels s ∪ list_to_set (sub_channels data);
     underlying_mints := normalized (sub_underlying_mints data);
     quote_mints := normalized (sub_quote_mints data) |}.

(* ws/managed/desired_subscriptions.rs:151-155 SubscriptionSet::add_mints *)
Definition add_mints (s : SubscriptionSet) (data : MintsData) : SubscriptionSet :=
  {| products := products s; channels := channels s;
     underlying_mints := underlying_mints s ∪ normalized (mints_underlying data);
     quote_mints := quote_mints s ∪ normalized (mints_quote data) |}.

(* ws/managed/desired_subscriptions.rs:157-164 SubscriptionSet::remove_mints *)
Definition remove_mints (s : SubscriptionSet) (data : MintsData) : SubscriptionSet :=
  {| products := products s; channels := channels s;
     underlying_mints := underlying_mints s ∖ normalized (mints_underlying data);
     quote_mints := quote_mints s ∖ normalized (mints_quote data) |}.

(* ws/managed/desired_subscriptions.rs:166-168 SubscriptionSet::add_channels *)
Definition add_channels (s : SubscriptionSet) (data : ChannelsData) : SubscriptionSet :=
  {| products := products s; channels := channels s ∪ list_to_set (ch_channels data);
     underlying_mints := underlying_mints s; quote_mints := quote_mints s |}.

(* ws/managed/desired_subscriptions.rs:170-174 SubscriptionSet::remove_channels *)
Definition remove_channels (s : SubscriptionSet) (chs : list WsChannel.t) : SubscriptionSet :=
  {| products := products s; channels := channels s ∖ list_to_set chs;
     underlying_mints := underlying_mints s; quote_mints := quote_mints s |}.

(** What a change makes of a target. *)
(* ws/managed/desired_subscriptions.rs:63-72 DesiredSubscriptions::begin (match) *)
Definition apply_change (s : SubscriptionSet) (change : SubscriptionChange.t) : SubscriptionSet :=
  match change with
  | SubscriptionChange.Subscribe data => apply_subscribe s data
  | SubscriptionChange.Unsubscribe data => remove_channels s (un_channels data)
  | SubscriptionChange.AddMints data => add_mints s data
  | SubscriptionChange.RemoveMints data => remove_mints s data
  | SubscriptionChange.AddChannels data => add_channels s data
  | SubscriptionChange.RemoveChannels data => remove_channels s (ch_channels data)
  end.

Module Desired.
(* ws/managed/desired_subscriptions.rs:39-48 DesiredSubscriptions::from_initial *)
Definition from_initial (initial : option SubscribeData) : DesiredSubscriptions :=
  {| current := match initial with Some d => apply_subscribe empty_set d | None => empty_set end;
     pending := None |}.

(* ws/managed/desired_subscriptions.rs:50-52 DesiredSubscriptions::wants_vault_feed *)
Definition wants_vault_feed (d : DesiredSubscriptions) : bool :=
  bool_decide (WsChannel.Vaults ∈ channels (current d)).

(* ws/managed/desired_subscriptions.rs:54-57 DesiredSubscriptions::has_pending *)
Definition has_pending (d : DesiredSubscriptions) : bool := bool_decide (is_Some (pending d)).

(* ws/managed/desired_subscriptions.rs:59-77 DesiredSubscriptions::begin *)
Definition begin (d : DesiredSubscriptions) (change : SubscriptionChange.t) : DesiredSubscriptions :=
  {| current := apply_change (current d) change;
     pending := Some {| pend_request_id := SubscriptionChange.request_id change;
                        pend_previous := current d |} |}.

(* ws/managed/desired_subscriptions.rs:103-107 DesiredSubscriptions::reject_pending *)
Definition reject_pending (d : DesiredSubscriptions) : DesiredSubscriptions :=
  match pending d with
  | Some p => {| current := pend_previous p; pending := None |}
  | None => d
  end.

(* ws/managed/desired_subscriptions.rs:79-101 DesiredSubscriptions::resolve *)
Definition resolve (d : DesiredSubscriptions) (message : ServerMessage.t) : DesiredSubscriptions :=
  match pending d with
  | None => d
  | Some p =>
      let request_id :=
        match message with
        | ServerMessage.SubscribeAck id => Some id
        | ServerMessage.UnsubscribeAck id => Some id
        | ServerMessage.SubscriptionUpdated id => Some id
        | ServerMessage.RequestError id _ _ => Some id
        | _ => None
        end in
      match request_id with
      | None => d
      | Some request_id =>
          if negb (pend_request_id p =? request_id) then d
          else match message with
               | ServerMessage.RequestError _ _ _ => reject_pending d
               | _ => {| current := current d; pending := None |}
               end
      end
  end.

(* ws/managed/desired_subscriptions.rs:109-113 DesiredSubscriptions::connection_lost *)
Definition connection_lost (d : DesiredSubscriptions) : DesiredSubscriptions :=
  {| current := current d; pending := None |}.

(* ws/managed/desired_subscriptions.rs:115-140 DesiredSubscriptions::recovery *)
Definition recovery (new_v4 : bool -> Uuid) (d : DesiredSubscriptions)
  (actual : SubscriptionsMessage) : SubscriptionRecovery :=
  let extra_channels :=
    List.filter (fun channel => negb (bool_decide (channel ∈ channels (current d))))
      (subs_channels actual) in
  {| rec_unsubscribe :=
       match extra_channels with
       | [] => None
       | _ => Some {| un_request_id := new_v4 false; un_channels := extra_channels |}
       end;
     rec_subscribe :=
       match products (current d) with
       | Some products =>
           Some {| sub_products := products; sub_request_id := new_v4 true;
                   sub_channels := elements (channels (current d));
                   sub_underlying_mints := elements (underlying_mints (current d));
                   sub_quote_mints := elements (quote_mints (current d)) |}
       | None => None
       end |}.
End Desired.

(** ** The session's view: one change at a time *)

(** What happens to the target while the session runs. *)
Inductive event :=
| Begin (change : SubscriptionChange.t)
| Message (m : ServerMessage.t)
| Lost.

(** The session sends a change only when none is pending. *)
Definition handle (d : DesiredSubscriptions) (e : event) : DesiredSubscriptions :=
  match e with
  | Begin change => if Desired.has_pending d then d else Desired.begin d change
  | Message m => Desired.resolve d m
  | Lost => Desired.connection_lost d
  end.

(** How the reply to request [id] among [events] comes out: the first matching reply,
    or the loss of the connection, decides. *)
Inductive decision := Accepted | Rejected | Undecided.

Definition decides (id : Uuid) (e : event) : decision :=
  match e with
  | Message (ServerMessage.RequestError i _ _) => if id =? i then Rejected else Undecided
  | Message (ServerMessage.SubscribeAck i) | Message (ServerMessage.UnsubscribeAck i)
  | Message (ServerMessage.SubscriptionUpdated i) => if id =? i then Accepted else Undecided
  | Lost => Accepted
  | _ => Undecided
  end.

Fixpoint decided (id : Uuid) (events : list event) : decision :=
  match events with
  | [] => Undecided
  | e :: events => match decides id e with Undecided => decided id events | v => v end
  end.

(** The reference: changes applied in order, each rejected one skipped. *)
Fixpoint intended (s : SubscriptionSet) (events : list event) : SubscriptionSet :=
  match events with
  | [] => s
  | Begin change :: events =>
      match decided (SubscriptionChange.request_id change) events with
      | Rejected => intended s events
      | _ => intended (apply_change s change) events
      end
  | _ :: events => intended s events
  end.

(** The session starts no change while one is undecided. *)
Fixpoint serialized (events : list event) : Prop :=
  match events with
  | [] => True
  | Begin change :: events =>
      serialized events /\
      forall pre change' post, events = pre ++ Begin change' :: post ->
        decided (SubscriptionChange.request_id change) pre <> Undecided
  | _ :: events => serialized events
  end.

(** A reply to another request, or one that is none, leaves a pending change alone. *)
Lemma handle_pending d p e :
  pending d = Some p -> (forall change, e <> Begin change) ->
  match decides (pend_request_id p) e with
  | Undecided => handle d e = d
  | Accepted => handle d e = {| current := current d; pending := None |}
  | Rejected => handle d e = {| current := pend_previous p; pending := None |}
  end.
Proof.
  intros Hp Hb. destruct e as [change|m|]; [by destruct (Hb change)| |done].
  unfold decides, handle, Desired.resolve, Desired.reject_pending. rewrite Hp.
  destruct m; simpl; try done; by destruct (pend_request_id p =? _).
Qed.

Lemma handle_idle d e :
  pending d = None -> (forall change, e <> Begin change) -> current (handle d e) = current d /\
  pending (handle d e) = None.
Proof.
  intros Hp Hb. destruct e as [change|m|]; [by destruct (Hb change)| |done].
  unfold handle, Desired.resolve. by rewrite Hp.
Qed.

Lemma run_intended events d :
  serialized events ->
  (pending d = None -> current (foldl handle d events) = intended (current d) events) /\
  (forall p, pending d = Some p ->
     (forall pre change post, events = pre ++ Begin change :: post ->
        decided (pend_request_id p) pre <> Undecided) ->
     current (foldl handle d events) =
       match decided (pend_request_id p) events with
       | Rejected => intended (pend_previous p) events
       | _ => intended (current d) events
       end).
Proof.
  revert d. induction events as [|e events IH]; intros d Hs; [done|].
  split.
  - intros Hp. destruct e as [change|m|].
    + destruct Hs as [Hs Hser]. simpl. unfold Desired.has_pending. rewrite Hp. cbn.
      rewrite (proj2 (IH (Desired.begin d change) Hs) _ eq_refl Hser). simpl.
      by destruct (decided _ events).
    + destruct (handle_idle d (Message m) Hp ltac:(done)) as [Hc Hp'].
      cbn [foldl]. rewrite (proj1 (IH _ Hs) Hp'). by rewrite Hc.
    + simpl. by rewrite (proj1 (IH (Desired.connection_lost d) Hs) eq_refl).
  - intros p Hp Hser. destruct e as [change|m|].
    + by destruct (Hser [] change events eq_refl).
    + assert (Hd := handle_pending d p (Message m) Hp ltac:(done)).
      cbn [foldl decided intended].
      destruct (decides (pend_request_id p) (Message m)) eqn:Ed; rewrite Hd.
      * by rewrite (proj1 (IH {| current := current d; pending := None |} Hs) eq_refl).
      * by rewrite (proj1 (IH {| current := pend_previous p; pending := None |} Hs) eq_refl).
      * apply (proj2 (IH d Hs) p Hp). intros pre change post ->.
        specialize (Hser (Message m :: pre) change post eq_refl). cbn [decided] in Hser.
        by rewrite Ed in Hser.
    + cbn [foldl decided intended decides].
      by rewrite (proj1 (IH (handle d Lost) Hs) eq_refl).
Qed.

(** C39: the desired target is the intended one.  Along any run in which a change
    begins only when none is undecided, the target is the initial one with every
    change applied in order, except those the server answered with an error: a
    rejection restores exactly the previous target, a success or a lost connection
    keeps the change, and replies to other requests do not matter. *)
Theorem target_is_intended initial events :
  serialized events ->
  current (foldl handle (Desired.from_initial initial) events) =
  intended (current (Desired.from_initial initial)) events.
Proof. intros Hs. by apply run_intended. Qed.

Definition demo_initial : SubscribeData :=
  {| sub_products := 31; sub_request_id := 1; sub_channels := [WsChannel.Rfqs];
     sub_underlying_mints := [key_of 52]; sub_quote_mints := [key_of 99] |}.

Definition demo_events : list event :=
  [Begin (SubscriptionChange.AddChannels {| ch_request_id := 2; ch_channels := [WsChannel.Trades] |});
   Message (ServerMessage.SubscribeAck 9);
   Message (ServerMessage.RequestError 2 ServerError.InternalError None);
   Begin (SubscriptionChange.AddMints
     {| mints_request_id := 3; mints_underlying := [key_of 7]; mints_quote := [] |});
   Lost].

Lemma target_is_intended_witness :
  channels (current (foldl handle (Desired.from_initial (Some demo_initial)) demo_events)) =
    {[WsChannel.Rfqs]} /\
  current (foldl handle (Desired.from_initial (Some demo_initial)) demo_events) =
  intended (current (Desired.from_initial (Some demo_initial))) demo_events.
Proof.
  split; [vm_compute; reflexivity|].
  apply target_is_intended. simpl. split_and!; try done.
  - intros pre change' post H. destruct pre as [|e1 [|e2 [|e3 [|e4 pre]]]]; cbn in H; simplify_eq; done.
  - intros pre change' post H. destruct pre as [|e1 [|e2 [|e3 [|e4 pre]]]]; cbn in H; simplify_eq;
      first [discriminate | destruct pre; discriminate].
Defined.

(** ** Recovery *)

(** The server's own set after the recovery messages: [Unsubscribe] removes the named
    channels; [Subscribe] adds its channels and replaces products and mint scopes. *)
Definition recovered (server : SubscriptionSet) (r : SubscriptionRecovery) : SubscriptionSet :=
  let server :=
    match rec_unsubscribe r with
    | Some u => apply_change server (SubscriptionChange.Unsubscribe u)
    | None => server
    end in
  match rec_subscribe r with
  | Some s => apply_change server (SubscriptionChange.Subscribe s)
  | None => server
  end.

Lemma elem_of_extra (d : DesiredSubscriptions) l c :
  c ∈ List.filter (fun channel => negb (bool_decide (channel ∈ channels (current d)))) l <->
  c ∈ l /\ c ∉ channels (current d).
Proof.
  rewrite list_elem_of_In, filter_In, <- list_elem_of_In, negb_true_iff, bool_decide_eq_false. done.
Qed.

Lemma recovered_channels new_v4 d actual server :
  list_to_set (subs_channels actual) = channels server ->
  channels (recovered server (Desired.recovery new_v4 d actual)) =
    match products (current d) with
    | Some _ => channels (current d)
    | None => channels server ∩ channels (current d)
    end.
Proof.
  intros Hc. unfold recovered, Desired.recovery. cbn [rec_unsubscribe rec_subscribe].
  set (extra := List.filter _ _).
  assert (He : forall c, c ∈ extra <-> c ∈ channels server /\ c ∉ channels (current d)).
  { intros c. unfold extra. rewrite elem_of_extra, <- Hc. set_solver. }
  clearbody extra. assert (Hd : channels server ∖ list_to_set extra =
    channels server ∩ channels (current d)).
  { apply set_eq. intros c. rewrite elem_of_difference, elem_of_intersection, elem_of_list_to_set, He.
    destruct (decide (c ∈ channels (current d))); tauto. }
  assert (Hu : (channels server ∩ channels (current d)) ∪ list_to_set (elements (channels (current d)))
    = channels (current d)) by (rewrite list_to_set_elements_L; set_solver).
  destruct extra as [|x l]; cbn [apply_change]; destruct (products (current d)); simpl in *;
    rewrite ?difference_empty_L in Hd; first [exact Hd | rewrite Hd; exact Hu].
Qed.

(** recovery converges.  From whatever subscriptions the server reports, the
    recovery messages leave the server with exactly the desired target (products,
    channels and both mint scopes) whenever the target has a product policy, and
    unsubscribe only channels that are not desired.  Without a product policy no
    [Subscribe] is sent: a channel or mint that was added but never came with a
    [Subscribe] is not restored. *)
Theorem recovery_converges new_v4 d actual server :
  list_to_set (subs_channels actual) = channels server ->
  (forall u, rec_unsubscribe (Desired.recovery new_v4 d actual) = Some u ->
     forall c, c ∈ un_channels u -> c ∉ channels (current d)) /\
  (is_Some (products (current d)) ->
     recovered server (Desired.recovery new_v4 d actual) = current d) /\
  (products (current d) = None ->
     recovered server (Desired.recovery new_v4 d actual) =
       {| products := products server; channels := channels server ∩ channels (current d);
          underlying_mints := underlying_mints server; quote_mints := quote_mints server |}).
Proof.
  intros Hc. pose proof (recovered_channels new_v4 d actual server Hc) as Hr. split_and!.
  - intros u Hu c Hin. unfold Desired.recovery in Hu. cbn [rec_unsubscribe] in Hu.
    destruct (List.filter _ _) eqn:E; [done|]. injection Hu as <-. cbn [un_channels] in Hin.
    rewrite <- E in Hin. by apply elem_of_extra in Hin as [_ ?].
  - intros [p Hp]. rewrite Hp in Hr. revert Hr. unfold recovered, Desired.recovery.
    cbn [rec_subscribe]. rewrite Hp. simpl. unfold apply_subscribe, normalized. simpl.
    intros ->. rewrite !list_to_set_elements_L. destruct (current d). simpl in *. by subst.
  - intros Hp. rewrite Hp in Hr. revert Hr. unfold recovered, Desired.recovery.
    cbn [rec_subscribe rec_unsubscribe]. rewrite Hp.
    destruct (List.filter _ _); simpl; intros Hr; rewrite <- Hr; by destruct server.
Qed.

Lemma recovery_converges_witness :
  let d := Desired.from_initial (Some demo_initial) in
  let actual := {| subs_request_id := 4; subs_next_cursor := None;
                   subs_channels := [WsChannel.Rfqs; WsChannel.Trades];
                   subs_underlying_mints := [key_of 99]; subs_quote_mints := [] |} in
  let server := {| products := Some 1; channels := {[WsChannel.Rfqs; WsChannel.Trades]};
                   underlying_mints := {[key_of 99]}; quote_mints := ∅ |} in
  recovered server (Desired.recovery (fun _ => 5) d actual) = current d.
Proof.
  intros d actual server.
  apply (recovery_converges (fun _ => 5) d actual server).
  - vm_compute. reflexivity.
  - by eexists.
Defined.
