(* ===== verification/Outcome.v ===== *)
(** * The fate of one quote ([src/ws/maker/outcome.rs])

    [QuoteOutcomeTracker] follows one order in one connection epoch.  An [Instant] is
    a number of nanoseconds on a monotonic clock. *)

From Stdlib Require Import ZArith Lia String.
From stdpp Require Import base list strings.
From S2P Require Import Prelude Terms Quote Messages.

Open Scope Z_scope.

Module QuoteLossReason.
(* ws/maker/outcome.rs:30-35 QuoteLossReason *)
Inductive t := RfqClosed (reason : RfqCloseReason.t) | RfqAccepted.
End QuoteLossReason.

Module QuoteUnknownReason.
(* ws/maker/outcome.rs:37-44 QuoteUnknownReason *)
Inductive t := EpochChanged | TimedOut | StreamGap | StreamClosed.
End QuoteUnknownReason.

Module QuoteOutcome.
(* ws/maker/outcome.rs:9-21 QuoteOutcome *)
Inductive t :=
| Pending
| Acked
| Selected
| Rejected (reason : QuoteRejectReason.t)
| Filled (m : QuoteFilledMessage)
| Expired
| Cancelled
| Lost (reason : QuoteLossReason.t)
| Unknown (reason : QuoteUnknownReason.t).

(* ws/maker/outcome.rs:24-27 QuoteOutcome::is_terminal *)
Definition is_terminal (o : t) : bool :=
  match o with Pending | Acked | Selected => false | _ => true end.
End QuoteOutcome.

(* ws/maker/outcome.rs:46-55 QuoteOutcomeTracker *)
Record QuoteOutcomeTracker := {
  rfq_id : Uuid;
  order_id : bytes;
  connection_epoch : Z;
  deadline : Z;
  outcome : QuoteOutcome.t;
}.

(* ws/managed/inbound.rs:7-13 ManagedInbound *)
Record ManagedInbound := {
  in_connection_epoch : Z;
  in_sequence : Z;
  in_received_at : Z;
  in_message : ServerMessage.t;
}.

Definition set_outcome (t : QuoteOutcomeTracker) (o : QuoteOutcome.t) : QuoteOutcomeTracker :=
  {| rfq_id := rfq_id t; order_id := order_id t; connection_epoch := connection_epoch t;
     deadline := deadline t; outcome := o |}.

Module OutcomeTracker.
(* ws/maker/outcome.rs:58-72 QuoteOutcomeTracker::new *)
Definition new (rfq_id : Uuid) (order_id : bytes) (connection_epoch deadline : Z)
  : QuoteOutcomeTracker :=
  {| rfq_id := rfq_id; order_id := order_id; connection_epoch := connection_epoch;
     deadline := deadline; outcome := QuoteOutcome.Pending |}.

(* ws/maker/outcome.rs:89-94 QuoteOutcomeTracker::mark_unknown *)
Definition mark_unknown (t : QuoteOutcomeTracker) (reason : QuoteUnknownReason.t)
  : QuoteOutcomeTracker :=
  if QuoteOutcome.is_terminal (outcome t) then t
  else set_outcome t (QuoteOutcome.Unknown reason).

(* ws/maker/outcome.rs:79-87 QuoteOutcomeTracker::check *)
Definition check (t : QuoteOutcomeTracker) (epoch now : Z) : QuoteOutcomeTracker :=
  if negb (epoch =? connection_epoch t) then mark_unknown t QuoteUnknownReason.EpochChanged
  else if deadline t <=? now then mark_unknown t QuoteUnknownReason.TimedOut
  else t.

(** The message is about this order. *)
Definition ours (t : QuoteOutcomeTracker) (rfq : Uuid) (order : bytes) : bool :=
  bool_decide (order = order_id t) && (rfq =? rfq_id t).

Definition is_selected (o : QuoteOutcome.t) : bool :=
  match o with QuoteOutcome.Selected => true | _ => false end.
Definition is_acked (o : QuoteOutcome.t) : bool :=
  match o with QuoteOutcome.Acked => true | _ => false end.

(** The next outcome, or [None] where [apply] returns without a change. *)
(* ws/maker/outcome.rs:121-191 QuoteOutcomeTracker::apply *)
Definition next_outcome (t : QuoteOutcomeTracker) (message : ServerMessage.t)
  : option QuoteOutcome.t :=
  match message with
  | ServerMessage.QuoteAcknowledged m =>
      if ours t (qa_rfq_id m) (qa_order_id m) then
        if is_selected (outcome t) then None else Some QuoteOutcome.Acked
      else None
  | ServerMessage.QuoteRejected m =>
      if ours t (qr_rfq_id m) (qr_order_id m) then Some (QuoteOutcome.Rejected (qr_reason m)) else None
  | ServerMessage.QuoteSelected m =>
      if ours t (qs_rfq_id m) (qs_order_id m) then Some QuoteOutcome.Selected else None
  | ServerMessage.QuoteFilled m =>
      if ours t (qf_rfq_id m) (qf_order_id m) then Some (QuoteOutcome.Filled m) else None
  | ServerMessage.QuoteExpired m =>
      if ours t (qe_rfq_id m) (qe_order_id m) then Some QuoteOutcome.Expired else None
  | ServerMessage.QuoteCancelled m =>
      if (qc_rfq_id m =? rfq_id t) && bool_decide (order_id t ∈ qc_order_ids m) then
        if bool_decide (qc_reason m = QuoteCancelReason.RfqAccepted)
        then Some (QuoteOutcome.Lost QuoteLossReason.RfqAccepted)
        else Some QuoteOutcome.Cancelled
      else None
  | ServerMessage.RfqAvailableAgain rfq =>
      if (rfq =? rfq_id t) && is_selected (outcome t) then Some QuoteOutcome.Acked else None
  | ServerMessage.RfqClosed m =>
      if rc_rfq_id m =? rfq_id t then
        let lost := Some (QuoteOutcome.Lost (QuoteLossReason.RfqClosed (rc_reason m))) in
        let unquoted :=
          if bool_decide (rc_reason m = RfqCloseReason.Filled) then
            if is_acked (outcome t) then lost else None
          else lost in
        match rc_your_quote m with
        | Some q =>
            if bool_decide (yq_order_id q = order_id t) then
              match yq_status q with
              | QuoteFinalStatus.Expired => Some QuoteOutcome.Expired
              | QuoteFinalStatus.Cancelled => Some QuoteOutcome.Cancelled
              | QuoteFinalStatus.Outbid => lost
              | QuoteFinalStatus.Filled => None
              end
            else unquoted
        | None => unquoted
        end
      else None
  | _ => None
  end.

(* ws/maker/outcome.rs:121-191 QuoteOutcomeTracker::apply *)
Definition apply (t : QuoteOutcomeTracker) (message : ServerMessage.t) : QuoteOutcomeTracker :=
  match next_outcome t message with Some o => set_outcome t o | None => t end.

(* ws/maker/outcome.rs:105-119 QuoteOutcomeTracker::observe_message *)
Definition observe_message (t : QuoteOutcomeTracker) (epoch received_at : Z)
  (message : ServerMessage.t) : QuoteOutcomeTracker :=
  if epoch <? connection_epoch t then t
  else
    let t := check t epoch received_at in
    if QuoteOutcome.is_terminal (outcome t) then t else apply t message.

(* ws/maker/outcome.rs:96-103 QuoteOutcomeTracker::observe *)
Definition observe (t : QuoteOutcomeTracker) (inbound : ManagedInbound) : QuoteOutcomeTracker :=
  observe_message t (in_connection_epoch inbound) (in_received_at inbound) (in_message inbound).
End OutcomeTracker.

(** ** Runs *)

(** What a caller does with a tracker. *)
Inductive input :=
| Observe (i : ManagedInbound)
| Check (epoch now : Z)
| MarkUnknown (reason : QuoteUnknownReason.t).

Definition step (t : QuoteOutcomeTracker) (i : input) : QuoteOutcomeTracker :=
  match i with
  | Observe i => OutcomeTracker.observe t i
  | Check epoch now => OutcomeTracker.check t epoch now
  | MarkUnknown reason => OutcomeTracker.mark_unknown t reason
  end.

(** A terminal outcome the server reported (not [Unknown]). *)
Definition reported (o : QuoteOutcome.t) : bool :=
  QuoteOutcome.is_terminal o && match o with QuoteOutcome.Unknown _ => false | _ => true end.

(** Message [m] names the tracked order (or, for a close without a quote and for a
    re-opened RFQ, its RFQ). *)
Definition about (t : QuoteOutcomeTracker) (m : ServerMessage.t) : Prop :=
  match m with
  | ServerMessage.QuoteAcknowledged m => qa_rfq_id m = rfq_id t /\ qa_order_id m = order_id t
  | ServerMessage.QuoteRejected m => qr_rfq_id m = rfq_id t /\ qr_order_id m = order_id t
  | ServerMessage.QuoteSelected m => qs_rfq_id m = rfq_id t /\ qs_order_id m = order_id t
  | ServerMessage.QuoteFilled m => qf_rfq_id m = rfq_id t /\ qf_order_id m = order_id t
  | ServerMessage.QuoteExpired m => qe_rfq_id m = rfq_id t /\ qe_order_id m = order_id t
  | ServerMessage.QuoteCancelled m => qc_rfq_id m = rfq_id t /\ order_id t ∈ qc_order_ids m
  | ServerMessage.RfqAvailableAgain rfq => rfq = rfq_id t
  | ServerMessage.RfqClosed m => rc_rfq_id m = rfq_id t
  | _ => False
  end.

(** The close message says this of the tracked order's own quote. *)
Definition own_status (t : QuoteOutcomeTracker) (m : RfqClosedMessage) (status : QuoteFinalStatus.t) : Prop :=
  exists q, rc_your_quote m = Some q /\ yq_order_id q = order_id t /\ yq_status q = status.

(** What a server message reports of the order a tracker follows.  A close says the order is
    lost if its own quote was outbid, or if it shows no quote of this order and the RFQ was
    not filled, or was filled after the order was acknowledged. *)
Definition reports (t : QuoteOutcomeTracker) (m : ServerMessage.t) (o : QuoteOutcome.t) : Prop :=
  match o, m with
  | QuoteOutcome.Filled f, ServerMessage.QuoteFilled f' => f = f'
  | QuoteOutcome.Rejected r, ServerMessage.QuoteRejected m => r = qr_reason m
  | QuoteOutcome.Expired, ServerMessage.QuoteExpired _ => True
  | QuoteOutcome.Expired, ServerMessage.RfqClosed m => own_status t m QuoteFinalStatus.Expired
  | QuoteOutcome.Cancelled, ServerMessage.QuoteCancelled m => qc_reason m <> QuoteCancelReason.RfqAccepted
  | QuoteOutcome.Cancelled, ServerMessage.RfqClosed m => own_status t m QuoteFinalStatus.Cancelled
  | QuoteOutcome.Lost QuoteLossReason.RfqAccepted, ServerMessage.QuoteCancelled m =>
      qc_reason m = QuoteCancelReason.RfqAccepted
  | QuoteOutcome.Lost (QuoteLossReason.RfqClosed r), ServerMessage.RfqClosed m =>
      r = rc_reason m /\
      (own_status t m QuoteFinalStatus.Outbid \/
       (forall q, rc_your_quote m = Some q -> yq_order_id q <> order_id t) /\
       (rc_reason m = RfqCloseReason.Filled -> outcome t = QuoteOutcome.Acked))
  | _, _ => False
  end.

Section facts.
Implicit Types (t : QuoteOutcomeTracker) (o : QuoteOutcome.t).

Lemma next_outcome_about t m o :
  OutcomeTracker.next_outcome t m = Some o -> about t m.
Proof.
  destruct m; simpl; try discriminate; unfold OutcomeTracker.ours; intros H;
    repeat case_match; try discriminate; simplify_eq;
    repeat match goal with
    | H : _ && _ = true |- _ => apply andb_prop in H as [? ?]
    | H : bool_decide _ = true |- _ => apply bool_decide_eq_true in H
    | H : (_ =? _) = true |- _ => apply Z.eqb_eq in H
    end; auto.
Qed.

Lemma next_outcome_reports t m o :
  OutcomeTracker.next_outcome t m = Some o -> reported o = true -> reports t m o.
Proof.
  destruct m; simpl; try discriminate; intros H Hr;
    repeat case_match; try discriminate; simplify_eq; simpl; try done;
    repeat match goal with
    | H : bool_decide _ = true |- _ => apply bool_decide_eq_true in H
    | H : bool_decide _ = false |- _ => apply bool_decide_eq_false in H
  end; unfold own_status; eauto 10.
    all: split; [done|]; right; split; [intros q Hq; congruence|]; try done.
    all: unfold OutcomeTracker.is_acked in *; by destruct (outcome t).
Qed.

(** A message that reports an outcome gives it. *)
Lemma reports_next_outcome t m o :
  about t m -> reports t m o -> OutcomeTracker.next_outcome t m = Some o.
Proof.
  destruct m; destruct o as [| | | | | | |[]|]; simpl; try done; unfold OutcomeTracker.ours;
    intros Ha Hr; try (destruct Ha as [-> Ha]); rewrite ?Z.eqb_refl, ?Ha, ?bool_decide_true by done; simpl;
    try (by subst); unfold own_status in Hr;
    try (destruct Hr as (q & -> & -> & ->); by rewrite bool_decide_true).
  - destruct Hr as [-> [(q & -> & -> & ->)|[Hq Hf]]]; [by rewrite bool_decide_true|].
    assert (Hu : (if bool_decide (rc_reason m = RfqCloseReason.Filled) then
        if OutcomeTracker.is_acked (outcome t)
        then Some (QuoteOutcome.Lost (QuoteLossReason.RfqClosed (rc_reason m))) else None
      else Some (QuoteOutcome.Lost (QuoteLossReason.RfqClosed (rc_reason m)))) =
      Some (QuoteOutcome.Lost (QuoteLossReason.RfqClosed (rc_reason m)))).
    { case_bool_decide as E; [|done]. by rewrite (Hf E). }
    destruct (rc_your_quote m) as [q|]; [|done]. by rewrite bool_decide_false by (by apply Hq).
  - by rewrite bool_decide_false.
Qed.

Lemma next_outcome_known t m r : OutcomeTracker.next_outcome t m <> Some (QuoteOutcome.Unknown r).
Proof. intros H. destruct m; simpl in H; repeat case_match; discriminate. Qed.

Lemma terminal_step t i : QuoteOutcome.is_terminal (outcome t) = true -> step t i = t.
Proof.
  intros Ht.
  assert (Hm : forall r, OutcomeTracker.mark_unknown t r = t)
    by (intros r; unfold OutcomeTracker.mark_unknown; by rewrite Ht).
  assert (Hc : forall e n, OutcomeTracker.check t e n = t)
    by (intros e n; unfold OutcomeTracker.check; by rewrite !Hm; repeat case_match).
  destruct i as [i | e n | r]; simpl; [|done|done].
  unfold OutcomeTracker.observe, OutcomeTracker.observe_message.
  rewrite Hc, Ht. by case_match.
Qed.

Lemma terminal_absorbing t ins :
  QuoteOutcome.is_terminal (outcome t) = true -> foldl step t ins = t.
Proof.
  intros Ht. induction ins as [|i ins IH]; [done|]. simpl. by rewrite terminal_step.
Qed.

(** What a step never touches: the order it follows. *)
Definition same_order t t' : Prop :=
  rfq_id t' = rfq_id t /\ order_id t' = order_id t /\
  connection_epoch t' = connection_epoch t /\ deadline t' = deadline t.

#[global] Instance same_order_refl : Reflexive same_order.
Proof. by intros t. Qed.
#[global] Instance same_order_trans : Transitive same_order.
Proof. intros a b c (? & ? & ? & ?) (? & ? & ? & ?); repeat split; congruence. Qed.

Lemma mark_unknown_same t r : same_order t (OutcomeTracker.mark_unknown t r).
Proof. unfold OutcomeTracker.mark_unknown. by case_match. Qed.

Lemma check_same t e n : same_order t (OutcomeTracker.check t e n).
Proof. unfold OutcomeTracker.check. repeat case_match; auto using mark_unknown_same; done. Qed.

Lemma step_same t i : same_order t (step t i).
Proof.
  destruct i as [i | e n | r]; simpl; auto using check_same, mark_unknown_same.
  unfold OutcomeTracker.observe, OutcomeTracker.observe_message.
  case_match; [done|]. case_match; [apply check_same|].
  etrans; [apply (check_same t)|]. unfold OutcomeTracker.apply. by case_match.
Qed.

Lemma check_alive t e n :
  QuoteOutcome.is_terminal (outcome (OutcomeTracker.check t e n)) = false ->
  OutcomeTracker.check t e n = t /\ e = connection_epoch t /\ n < deadline t.
Proof.
  unfold OutcomeTracker.check, OutcomeTracker.mark_unknown. intros H.
  destruct (Z.eqb_spec e (connection_epoch t)); simpl in *;
    [destruct (Z.leb_spec (deadline t) n)|]; repeat case_match; try done; simpl in *; congruence.
Qed.

(** The messages that can change a live tracker. *)
Definition counts t (i : ManagedInbound) : Prop :=
  in_connection_epoch i = connection_epoch t /\ in_received_at i < deadline t /\
  about t (in_message i).

Lemma check_reported t e n :
  reported (outcome (OutcomeTracker.check t e n)) = true ->
  OutcomeTracker.check t e n = t.
Proof.
  unfold OutcomeTracker.check, OutcomeTracker.mark_unknown. by repeat case_match.
Qed.

Lemma step_reported t i :
  reported (outcome t) = false -> reported (outcome (step t i)) = true ->
  exists n, i = Observe n /\ counts t n /\ reports t (in_message n) (outcome (step t i)).
Proof.
  intros Hf. destruct i as [n | e n | r]; simpl.
  - unfold OutcomeTracker.observe, OutcomeTracker.observe_message. intros Hr.
    case_match; [congruence|].
    destruct (QuoteOutcome.is_terminal _) eqn:Ht.
    { apply check_reported in Hr as Heq. congruence. }
    destruct (check_alive _ _ _ Ht) as (Heq & He & Hd). rewrite Heq in *.
    unfold OutcomeTracker.apply in *. case_match; [|congruence]. simpl in *.
    exists n. repeat split; eauto using next_outcome_about, next_outcome_reports.
  - intros Hr. apply check_reported in Hr as Heq. congruence.
  - unfold OutcomeTracker.mark_unknown. case_match; simpl; [|done]. intros ?; congruence.
Qed.

Lemma run_reported t ins :
  reported (outcome t) = false -> reported (outcome (foldl step t ins)) = true ->
  exists pre n post, ins = pre ++ Observe n :: post /\ counts t n /\
    reports (foldl step t pre) (in_message n) (outcome (foldl step t ins)).
Proof.
  revert t. induction ins as [|i ins IH]; intros t Hf Hr; simpl in *; [congruence|].
  destruct (reported (outcome (step t i))) eqn:Hs.
  - destruct (step_reported _ _ Hf Hs) as (n & -> & Hc & Hrep). exists [], n, ins.
    by rewrite (terminal_absorbing (step t (Observe n)) ins) by (apply andb_prop in Hs as [? _]; done).
  - destruct (IH _ Hs Hr) as (pre & n & post & -> & (H1 & H2 & H3) & Hrep). exists (i :: pre), n, post.
    split; [done|]. split; [|done].
    destruct (step_same t (i)) as (E1 & E2 & E3 & E4).
    unfold counts. rewrite <- E3, <- E4. split; [done|]. split; [done|].
    destruct (in_message n); simpl in *; rewrite ?E1, ?E2 in H3; done.
Qed.
End facts.

(** C38: The fate of an order, for every sequence of messages, deadline checks and
    explicit marks: once terminal it never changes again; a terminal outcome other
    than [Unknown] was reported by a server message that was among the inputs, arrived
    in the tracked epoch and before the deadline, and named this order or closed its RFQ,
    and the outcome is the one that message carries: a [Filled] outcome holds that very
    fill, and the status a close shows counts only if it shows this order's quote.
    Conversely a live tracker takes the outcome such a message reports; and a message from
    an earlier epoch, or about another order and RFQ, leaves a tracker in its epoch and
    before its deadline as it was. *)
Theorem outcomes_are_reported (t0 : QuoteOutcomeTracker) (ins js : list input) (i : ManagedInbound) :
  outcome t0 = QuoteOutcome.Pending ->
  let t := foldl step t0 ins in
  (QuoteOutcome.is_terminal (outcome t) = true -> foldl step t0 (ins ++ js) = t) /\
  (reported (outcome t) = true ->
   exists pre n post, ins = pre ++ Observe n :: post /\ in_connection_epoch n = connection_epoch t0 /\
     in_received_at n < deadline t0 /\ about t0 (in_message n) /\
     reports (foldl step t0 pre) (in_message n) (outcome t)) /\
  (QuoteOutcome.is_terminal (outcome t) = false ->
   in_connection_epoch i = connection_epoch t -> in_received_at i < deadline t ->
   about t (in_message i) -> forall o, reports t (in_message i) o -> outcome (OutcomeTracker.observe t i) = o) /\
  (in_connection_epoch i < connection_epoch t -> OutcomeTracker.observe t i = t) /\
  (in_connection_epoch i = connection_epoch t -> in_received_at i < deadline t ->
   ~ about t (in_message i) -> OutcomeTracker.observe t i = t).
Proof.
  intros H0 t. split_and!.
  - intros Ht. rewrite foldl_app. by apply terminal_absorbing.
  - intros Hr. destruct (run_reported t0 ins) as (pre & n & post & Hn & (? & ? & ?) & ?);
      [by rewrite H0 | done | eauto 12].
  - intros Ht He Hd Ha o Hr. unfold OutcomeTracker.observe, OutcomeTracker.observe_message, OutcomeTracker.check.
    rewrite He, Z.ltb_irrefl, Z.eqb_refl. simpl. rewrite (proj2 (Z.leb_gt _ _) Hd), Ht.
    unfold OutcomeTracker.apply. by rewrite (reports_next_outcome _ _ _ Ha Hr).
  - intros He. unfold OutcomeTracker.observe, OutcomeTracker.observe_message.
    by rewrite (proj2 (Z.ltb_lt _ _) He).
  - intros He Hd Hn. unfold OutcomeTracker.observe, OutcomeTracker.observe_message.
    case_match; [done|]. unfold OutcomeTracker.check.
    rewrite He, Z.eqb_refl. simpl. rewrite (proj2 (Z.leb_gt _ _) Hd).
    case_match; [done|]. unfold OutcomeTracker.apply. case_match; [|done].
    exfalso. eauto using next_outcome_about.
Qed.

Module OutcomeSample.
Definition order : bytes := repeat 7 32.
Definition tracker := OutcomeTracker.new 9 order 2 1000.
Definition inbound (epoch at_ : Z) (m : ServerMessage.t) : ManagedInbound :=
  {| in_connection_epoch := epoch; in_sequence := 1; in_received_at := at_; in_message := m |}.
End OutcomeSample.

Lemma outcomes_are_reported_witness :
  outcome OutcomeSample.tracker = QuoteOutcome.Pending /\
  outcome (foldl step OutcomeSample.tracker
    [Observe (OutcomeSample.inbound 1 1 (ServerMessage.QuoteExpired {| qe_rfq_id := 9; qe_order_id := OutcomeSample.order |}));
     Check 2 500;
     Observe (OutcomeSample.inbound 2 600 (ServerMessage.QuoteExpired {| qe_rfq_id := 9; qe_order_id := OutcomeSample.order |}));
     Check 2 2000]) = QuoteOutcome.Expired.
Proof.
  split; [done|].
  set (a := OutcomeSample.inbound 1 1 _). set (b := OutcomeSample.inbound 2 600 _).
  destruct (outcomes_are_reported OutcomeSample.tracker [Observe a; Check 2 500; Observe b]
              [Check 2 2000] a eq_refl) as [H _].
  change [Observe a; Check 2 500; Observe b; Check 2 2000]
    with ([Observe a; Check 2 500; Observe b] ++ [Check 2 2000]).
  rewrite H; reflexivity.
Defined.
