(* ===== verification/Writer.v ===== *)
(** * The socket writer ([src/ws/managed/writer.rs])

    One task drains two bounded queues into the socket, the control lane first; the
    session enqueues without blocking.  The two run concurrently, so the model is a
    labelled transition system whose labels are the session's calls and the points at
    which the task is suspended: a selected command is held across the [await] of its
    write, and the socket decides how that write ends.  A ticket is the identity of
    its oneshot channel. *)

From Stdlib Require Import ZArith Lia String.
From stdpp Require Import base list strings.
From S2P Require Import Prelude Terms Quote Messages.

Module WriteOutcome.
(** [Result<(), ManagedWsError>] of [write]. *)
(* ws/managed/writer.rs:209-223 write *)
Inductive t := Written | Failed | TimedOut.
#[global] Instance t_eq_dec : EqDecision t.
Proof. solve_decision. Defined.

Definition is_ok (o : t) : bool := match o with Written => true | _ => false end.
End WriteOutcome.

Module WriterCommand.
(* ws/managed/writer.rs:17-27 WriterCommand *)
Inductive t :=
| Frame (message : ClientMessage.t) (done : option nat) (written : option nat)
| Pong (payload : bytes)
| Close
| Stop.

(** The write-result sender of a frame. *)
Definition done (c : t) : option nat := match c with Frame _ d _ => d | _ => None end.
Definition receipt (c : t) : option nat := match c with Frame _ _ r => r | _ => None end.
End WriterCommand.

Module LaneFull.
(* ws/managed/writer.rs:36-42 LaneFull *)
Inductive t := Full | Closed.
#[global] Instance t_eq_dec : EqDecision t.
Proof. solve_decision. Defined.
End LaneFull.

(** Where the task is: in [select!], in the [await] of a command's write, or gone. *)
Inductive Task :=
| Selecting
| Writing (lane : Lane.t) (command : WriterCommand.t)
| Ended (sink_returned : bool).

(** [w_senders] is whether the [WriterLanes] are still held.  The last four fields
    record what happened: the commands accepted by [enqueue] and taken by the task,
    those whose write succeeded (a [Close] counts when the sink was closed), the
    tickets answered and the receipts sent. *)
(* ws/managed/writer.rs:29-34 WriterLanes *)
Record Writer := {
  w_capacity : nat;
  w_control : list WriterCommand.t;
  w_data : list WriterCommand.t;
  w_senders : bool;
  w_control_open : bool;
  w_data_open : bool;
  w_task : Task;
  w_accepted : list (Lane.t * WriterCommand.t);
  w_taken : list (Lane.t * WriterCommand.t);
  w_written : list (Lane.t * WriterCommand.t);
  w_answered : list (nat * WriteOutcome.t);
  w_receipts : list nat;
}.

Definition queue (w : Writer) (lane : Lane.t) : list WriterCommand.t :=
  match lane with Lane.Control => w_control w | Lane.Data => w_data w end.

Definition set_queue (w : Writer) (lane : Lane.t) (q : list WriterCommand.t) : Writer :=
  match lane with
  | Lane.Control =>
      {| w_capacity := w_capacity w; w_control := q; w_data := w_data w; w_senders := w_senders w;
         w_control_open := w_control_open w; w_data_open := w_data_open w; w_task := w_task w;
         w_accepted := w_accepted w; w_taken := w_taken w; w_written := w_written w;
         w_answered := w_answered w; w_receipts := w_receipts w |}
  | Lane.Data =>
      {| w_capacity := w_capacity w; w_control := w_control w; w_data := q; w_senders := w_senders w;
         w_control_open := w_control_open w; w_data_open := w_data_open w; w_task := w_task w;
         w_accepted := w_accepted w; w_taken := w_taken w; w_written := w_written w;
         w_answered := w_answered w; w_receipts := w_receipts w |}
  end.

Definition accept (w : Writer) (lane : Lane.t) (c : WriterCommand.t) : Writer :=
  let w := set_queue w lane (queue w lane ++ [c]) in
  {| w_capacity := w_capacity w; w_control := w_control w; w_data := w_data w;
     w_senders := w_senders w; w_control_open := w_control_open w; w_data_open := w_data_open w;
     w_task := w_task w; w_accepted := w_accepted w ++ [(lane, c)]; w_taken := w_taken w;
     w_written := w_written w; w_answered := w_answered w; w_receipts := w_receipts w |}.

(** The task is gone: both receivers are dropped with what they hold. *)
Definition ended (w : Writer) (sink_returned : bool) : Writer :=
  {| w_capacity := w_capacity w; w_control := []; w_data := []; w_senders := w_senders w;
     w_control_open := w_control_open w; w_data_open := w_data_open w;
     w_task := Ended sink_returned; w_accepted := w_accepted w; w_taken := w_taken w;
     w_written := w_written w; w_answered := w_answered w; w_receipts := w_receipts w |}.

Definition is_ended (w : Writer) : bool :=
  match w_task w with Ended _ => true | _ => false end.

Module Lanes.
(* ws/managed/writer.rs:120-134 spawn *)
Definition spawn (capacity : nat) : Writer :=
  {| w_capacity := capacity; w_control := []; w_data := []; w_senders := true;
     w_control_open := true; w_data_open := true; w_task := Selecting;
     w_accepted := []; w_taken := []; w_written := []; w_answered := []; w_receipts := [] |}.

(** [try_send]: the receiver's end of life is checked before the capacity. *)
(* ws/managed/writer.rs:45-54 WriterLanes::enqueue *)
Definition enqueue (w : Writer) (lane : Lane.t) (c : WriterCommand.t)
  : Writer * res (LaneFull.t * WriterCommand.t) unit :=
  if is_ended w then (w, Err (LaneFull.Closed, c))
  else if (w_capacity w <=? length (queue w lane))%nat then (w, Err (LaneFull.Full, c))
  else (accept w lane c, Ok tt).

(* ws/managed/writer.rs:65-84 WriterLanes::frame_with_receipt *)
Definition frame_with_receipt (w : Writer) (message : ClientMessage.t)
  (done written : option nat) : Writer * res (LaneFull.t * option nat) unit :=
  let '(w, r) := enqueue w (Lane.of_message message) (WriterCommand.Frame message done written) in
  (w, map_err (fun '(full, c) => (full, WriterCommand.done c)) r).

(* ws/managed/writer.rs:57-63 WriterLanes::frame *)
Definition frame (w : Writer) (message : ClientMessage.t) (done : option nat)
  : Writer * res (LaneFull.t * option nat) unit := frame_with_receipt w message done None.

(* ws/managed/writer.rs:86-89 WriterLanes::pong *)
Definition pong (w : Writer) (payload : bytes) : Writer * res LaneFull.t unit :=
  let '(w, r) := enqueue w Lane.Control (WriterCommand.Pong payload) in
  (w, map_err fst r).

(** [drop(self)]: both senders go at once. *)
Definition drop (w : Writer) : Writer :=
  {| w_capacity := w_capacity w; w_control := w_control w; w_data := w_data w;
     w_senders := false; w_control_open := w_control_open w; w_data_open := w_data_open w;
     w_task := w_task w; w_accepted := w_accepted w; w_taken := w_taken w;
     w_written := w_written w; w_answered := w_answered w; w_receipts := w_receipts w |}.

(** [task.abort()]: the task stops at its [await]. *)
Definition abort (w : Writer) : Writer := if is_ended w then w else ended w false.

(** Up to the wait for the task; the second component is whether it is waited for
    ([false]: aborted at once). *)
(* ws/managed/writer.rs:91-98 WriterLanes::close *)
Definition close (w : Writer) : Writer * bool :=
  let '(w, r) := enqueue w Lane.Control WriterCommand.Close in
  let w := drop w in
  if is_ok r then (w, true) else (abort w, false).

(* ws/managed/writer.rs:101-114 WriterLanes::stop *)
Definition stop (w : Writer) : Writer * bool :=
  let '(w, r) := enqueue w Lane.Control WriterCommand.Stop in
  let w := drop w in
  if is_ok r then (w, true) else (abort w, false).
End Lanes.

(** What [recv] of one lane yields: a command, the end of the channel, or nothing yet. *)
Inductive Recv := Got (c : WriterCommand.t) (rest : list WriterCommand.t) | EndOfLane | Waiting.

Definition recv (w : Writer) (lane : Lane.t) : Recv :=
  match queue w lane with
  | c :: rest => Got c rest
  | [] => if w_senders w then Waiting else EndOfLane
  end.

Definition lane_open (w : Writer) (lane : Lane.t) : bool :=
  match lane with Lane.Control => w_control_open w | Lane.Data => w_data_open w end.

Definition close_lane (w : Writer) (lane : Lane.t) : Writer :=
  {| w_capacity := w_capacity w; w_control := w_control w; w_data := w_data w;
     w_senders := w_senders w;
     w_control_open := match lane with Lane.Control => false | _ => w_control_open w end;
     w_data_open := match lane with Lane.Data => false | _ => w_data_open w end;
     w_task := w_task w; w_accepted := w_accepted w; w_taken := w_taken w;
     w_written := w_written w; w_answered := w_answered w; w_receipts := w_receipts w |}.

Definition take (w : Writer) (lane : Lane.t) (c : WriterCommand.t) (rest : list WriterCommand.t)
  : Writer :=
  let w := set_queue w lane rest in
  {| w_capacity := w_capacity w; w_control := w_control w; w_data := w_data w;
     w_senders := w_senders w; w_control_open := w_control_open w; w_data_open := w_data_open w;
     w_task := Writing lane c; w_accepted := w_accepted w; w_taken := w_taken w ++ [(lane, c)];
     w_written := w_written w; w_answered := w_answered w; w_receipts := w_receipts w |}.

(** One pass of the loop up to the [await] of a write: the biased [select!] and the
    arms that do not write.  [None] while neither lane is ready. *)
(* ws/managed/writer.rs:147-166 run (select!) *)
Definition select (w : Writer) : option Writer :=
  let on (lane : Lane.t) (c : WriterCommand.t) (rest : list WriterCommand.t) :=
    let w := take w lane c rest in
    match c with WriterCommand.Stop => ended w true | _ => w end in
  if negb (w_control_open w) && negb (w_data_open w) then Some (ended w true)
  else
    let data :=
      if w_data_open w then
        match recv w Lane.Data with
        | Got c rest => Some (on Lane.Data c rest)
        | EndOfLane => Some (close_lane w Lane.Data)
        | Waiting => None
        end
      else None in
    if w_control_open w then
      match recv w Lane.Control with
      | Got c rest => Some (on Lane.Control c rest)
      | EndOfLane => Some (close_lane w Lane.Control)
      | Waiting => data
      end
    else data.

(** The write of the held command ends. *)
(* ws/managed/writer.rs:167-205 run (command) *)
Definition complete (w : Writer) (lane : Lane.t) (c : WriterCommand.t) (o : WriteOutcome.t)
  : Writer :=
  let ok := WriteOutcome.is_ok o in
  let w :=
    {| w_capacity := w_capacity w; w_control := w_control w; w_data := w_data w;
       w_senders := w_senders w; w_control_open := w_control_open w;
       w_data_open := w_data_open w; w_task := Selecting; w_accepted := w_accepted w;
       w_taken := w_taken w;
       w_written := w_written w ++ (if ok then [(lane, c)] else []);
       w_answered := w_answered w ++
         match WriterCommand.done c with Some d => [(d, o)] | None => [] end;
       w_receipts := w_receipts w ++
         match WriterCommand.receipt c with Some r => if ok then [r] else [] | None => [] end |} in
  match c with
  | WriterCommand.Close => ended w false
  | _ => if ok then w else ended w false
  end.

(** Everything that can happen to the writer. *)
Inductive label :=
| Enqueue (lane : Lane.t) (c : WriterCommand.t)
| Drop
| Abort
| Select
| Complete (o : WriteOutcome.t).

(** [None]: not possible in this state. *)
Definition writer_step (w : Writer) (l : label) : option Writer :=
  match l with
  | Enqueue lane c => if w_senders w then Some (fst (Lanes.enqueue w lane c)) else None
  | Drop => Some (Lanes.drop w)
  | Abort => Some (Lanes.abort w)
  | Select => match w_task w with Selecting => select w | _ => None end
  | Complete o => match w_task w with Writing lane c => Some (complete w lane c o) | _ => None end
  end.

Fixpoint writer_run (w : Writer) (ls : list label) : option Writer :=
  match ls with
  | [] => Some w
  | l :: ls => match writer_step w l with Some w => writer_run w ls | None => None end
  end.

(** ** Invariant *)

Definition on_lane (lane : Lane.t) (p : Lane.t * WriterCommand.t) : option WriterCommand.t :=
  if decide (fst p = lane) then Some (snd p) else None.

(** The commands of one lane, in order. *)
Definition per_lane (lane : Lane.t) (l : list (Lane.t * WriterCommand.t)) : list WriterCommand.t :=
  omap (on_lane lane) l.

Definition tag (lane : Lane.t) (l : list WriterCommand.t) : list (Lane.t * WriterCommand.t) :=
  map (fun c => (lane, c)) l.

Definition tickets (l : list (Lane.t * WriterCommand.t)) : list nat :=
  omap (fun p => WriterCommand.done (snd p)) l.

(** The commands after which the task ends. *)
Definition final (c : WriterCommand.t) : bool :=
  match c with WriterCommand.Close | WriterCommand.Stop => true | _ => false end.

(** What the task holds besides what it has written. *)
Definition in_flight (w : Writer) (tail : list (Lane.t * WriterCommand.t)) : Prop :=
  match w_task w with
  | Selecting => tail = []
  | Writing lane c => tail = [(lane, c)] /\ c <> WriterCommand.Stop
  | Ended _ => (length tail <= 1)%nat
  end.

(** The failed tickets: at most the one of the command in flight when the task ended. *)
Definition failures (w : Writer) (tail : list (Lane.t * WriterCommand.t))
  (failed : list (nat * WriteOutcome.t)) : Prop :=
  (failed = [] \/ is_ended w = true /\ exists d o, failed = [(d, o)] /\
     o <> WriteOutcome.Written /\ tickets tail = [d]).

Record writer_inv (w : Writer) : Prop := {
  wi_bound lane : (length (queue w lane) <= w_capacity w)%nat;
  wi_lane lane : per_lane lane (w_taken w) ++ queue w lane `prefix_of` per_lane lane (w_accepted w) /\
    (is_ended w = false -> per_lane lane (w_accepted w) = per_lane lane (w_taken w) ++ queue w lane);
  wi_perm : exists lost, Permutation (w_accepted w)
    (w_taken w ++ tag Lane.Control (w_control w) ++ tag Lane.Data (w_data w) ++ lost);
  wi_taken : exists tail failed, w_taken w = w_written w ++ tail /\ in_flight w tail /\
    w_answered w = map (fun d => (d, WriteOutcome.Written)) (tickets (w_written w)) ++ failed /\
    failures w tail failed;
  wi_final : is_ended w = false -> Forall (fun p => final (snd p) = false) (w_written w);
  wi_last a p b : w_written w = a ++ p :: b -> final (snd p) = true -> b = [];
  wi_open lane : lane_open w lane = false -> w_senders w = false /\ queue w lane = [];
}.

Lemma per_lane_app lane a b : per_lane lane (a ++ b) = per_lane lane a ++ per_lane lane b.
Proof. apply omap_app. Qed.

Lemma per_lane_one lane lane' c :
  per_lane lane [(lane', c)] = if decide (lane' = lane) then [c] else [].
Proof. unfold per_lane, on_lane. simpl. by case_decide. Qed.

Lemma tickets_app a b : tickets (a ++ b) = tickets a ++ tickets b.
Proof. apply omap_app. Qed.

Lemma queue_set_queue w lane lane' q :
  queue (set_queue w lane q) lane' = if decide (lane = lane') then q else queue w lane'.
Proof. destruct lane, lane'; reflexivity. Qed.

(** Where the successor does not touch [w_accepted], [w_taken], ... the projections
    compute. *)
Ltac writer_fields := cbn [w_capacity w_control w_data w_senders w_control_open w_data_open w_task
  w_accepted w_taken w_written w_answered w_receipts] in *.

Lemma inv_spawn capacity : writer_inv (Lanes.spawn capacity).
Proof.
  split; simpl.
  - intros []; simpl; lia.
  - intros []; done.
  - by exists [].
  - exists [], []. repeat split. by left.
  - by constructor.
  - intros a p b H. by destruct a.
  - by intros [].
Qed.

Lemma inv_accept w lane c :
  writer_inv w -> is_ended w = false -> w_senders w = true ->
  (length (queue w lane) < w_capacity w)%nat -> writer_inv (accept w lane c).
Proof.
  intros [Hb Hl [lost Hp] Ht Hf Hla Ho] He Hs Hc.
  assert (Hq : forall lane', queue (accept w lane c) lane' =
    if decide (lane = lane') then queue w lane ++ [c] else queue w lane')
    by (destruct lane; intros []; done).
  assert (He' : is_ended (accept w lane c) = is_ended w) by (by destruct lane).
  split.
  - intros l. rewrite Hq. replace (w_capacity (accept w lane c)) with (w_capacity w) by (by destruct lane).
    case_decide; [|apply Hb]. rewrite length_app. simpl. lia.
  - intros l. rewrite Hq. destruct (Hl l) as [_ Heq]. specialize (Heq He).
    replace (w_accepted (accept w lane c)) with (w_accepted w ++ [(lane, c)]) by (by destruct lane).
    replace (w_taken (accept w lane c)) with (w_taken w) by (by destruct lane).
    rewrite per_lane_app, per_lane_one, Heq.
    case_decide; subst; rewrite ?app_nil_r, ?app_assoc; done.
  - exists lost. destruct lane; simpl; rewrite Hp; unfold tag; rewrite map_app; simpl;
      solve_Permutation.
  - destruct Ht as (tail & failed & ?). exists tail, failed. by destruct lane.
  - rewrite He'. by destruct lane.
  - by destruct lane.
  - intros l Hopen. destruct (Ho l) as [Hn Hql]; [by destruct lane, l|congruence].
Qed.

Lemma inv_drop w : writer_inv w -> writer_inv (Lanes.drop w).
Proof.
  intros [Hb Hl Hp Ht Hf Hla Ho]. split; try done. intros l Hopen. by destruct (Ho l Hopen).
Qed.

Lemma inv_close_lane w lane :
  writer_inv w -> recv w lane = EndOfLane -> writer_inv (close_lane w lane).
Proof.
  intros [Hb Hl Hp Ht Hf Hla Ho] He. split; try done. intros l Hopen. change (queue _ l) with (queue w l).
  change (w_senders (close_lane w lane)) with (w_senders w).
  unfold recv in He. destruct lane, l; simpl in Hopen; try (by apply Ho); simpl in *;
    repeat case_match; done.
Qed.

Lemma prefix_of_weaken {A} (a q l : list A) : a ++ q `prefix_of` l -> a ++ [] `prefix_of` l.
Proof. rewrite app_nil_r. intros H. etrans; [|apply H]. by apply prefix_app_r. Qed.

Lemma inv_ended w b : writer_inv w -> is_ended w = false -> writer_inv (ended w b).
Proof.
  intros [Hb Hl [lost Hp] (tail & failed & Ht & Hin & Ha & Hfa) Hf Hla Ho] He. split; simpl.
  - intros []; simpl; lia.
  - intros l. split; [|done]. destruct (Hl l) as [H _]. destruct l; by eapply prefix_of_weaken.
  - exists (tag Lane.Control (w_control w) ++ tag Lane.Data (w_data w) ++ lost). by rewrite Hp.
  - exists tail, failed. split_and!; [done | | done | destruct Hfa as [|[? _]]; [by left|congruence]].
    unfold in_flight in *. simpl. destruct (w_task w); [rewrite Hin; simpl; lia | | done].
    destruct Hin as [-> _]. simpl. lia.
  - done.
  - done.
  - intros l Hopen. destruct (Ho l); [by destruct l|]. destruct l; done.
Qed.

Lemma per_lane_none lane lane' c : lane' <> lane -> per_lane lane [(lane', c)] = [].
Proof. intros H. rewrite per_lane_one. by rewrite decide_False. Qed.

Lemma inv_take w lane c rest :
  writer_inv w -> w_task w = Selecting -> queue w lane = c :: rest ->
  c <> WriterCommand.Stop -> writer_inv (take w lane c rest).
Proof.
  intros [Hb Hl [lost Hp] (tail & failed & Ht & Hin & Ha & Hfa) Hf Hla Ho] Hs Hq Hc.
  assert (He : is_ended w = false) by (unfold is_ended; by rewrite Hs).
  assert (Hq' : forall l, queue (take w lane c rest) l = if decide (lane = l) then rest else queue w l)
    by (destruct lane; intros []; done).
  unfold in_flight in Hin. rewrite Hs in Hin. subst tail. rewrite app_nil_r in Ht.
  split.
  - intros l. rewrite Hq'. replace (w_capacity _) with (w_capacity w) by (by destruct lane).
    specialize (Hb l). case_decide; [|done]. subst. rewrite Hq in Hb. simpl in Hb. lia.
  - intros l. rewrite Hq'. destruct (Hl l) as [_ Heq]. specialize (Heq He).
    replace (w_accepted _) with (w_accepted w) by (by destruct lane).
    replace (w_taken _) with (w_taken w ++ [(lane, c)]) by (by destruct lane).
    rewrite per_lane_app, per_lane_one, Heq.
    case_decide; subst; [rewrite Hq|]; rewrite <- !app_assoc; simpl; done.
  - exists lost. destruct lane; simpl in *; rewrite Hp, Hq; unfold tag; simpl; solve_Permutation.
  - exists [(lane, c)], failed. destruct Hfa as [->|[? _]]; [|congruence].
    split_and!; [destruct lane; simpl; by rewrite Ht | by destruct lane | by destruct lane | by left].
  - intros _. destruct lane; by apply Hf.
  - by destruct lane.
  - intros l Hopen. destruct (Ho l) as [Hn Hql]; [by destruct lane, l|]. rewrite Hq'.
    case_decide; [subst; congruence|]. by destruct lane.
Qed.

Lemma inv_take_stop w lane rest :
  writer_inv w -> w_task w = Selecting -> queue w lane = WriterCommand.Stop :: rest ->
  writer_inv (ended (take w lane WriterCommand.Stop rest) true).
Proof.
  intros [Hb Hl [lost Hp] (tail & failed & Ht & Hin & Ha & Hfa) Hf Hla Ho] Hs Hq.
  assert (He : is_ended w = false) by (unfold is_ended; by rewrite Hs).
  unfold in_flight in Hin. rewrite Hs in Hin. subst tail. rewrite app_nil_r in Ht.
  split.
  - intros []; simpl; lia.
  - intros l. split; [|done]. destruct (Hl l) as [_ Heq]. specialize (Heq He).
    replace (w_accepted _) with (w_accepted w) by (by destruct lane).
    replace (w_taken _) with (w_taken w ++ [(lane, WriterCommand.Stop)]) by (by destruct lane).
    replace (queue _ l) with (@nil WriterCommand.t) by (by destruct l).
    rewrite per_lane_app, per_lane_one, Heq, app_nil_r.
    case_decide; subst; [|rewrite app_nil_r; by apply prefix_app_r].
    rewrite Hq. apply prefix_app. by exists rest.
  - exists (tag Lane.Control (match lane with Lane.Control => rest | _ => w_control w end) ++
            tag Lane.Data (match lane with Lane.Data => rest | _ => w_data w end) ++ lost).
    destruct lane; simpl in *; rewrite Hp, Hq; unfold tag; simpl; solve_Permutation.
  - exists [(lane, WriterCommand.Stop)], failed. destruct Hfa as [->|[? _]]; [|congruence].
    split_and!; [destruct lane; simpl; by rewrite Ht | unfold in_flight; simpl; lia | by destruct lane | by left].
  - done.
  - by destruct lane.
  - intros l Hopen. destruct (Ho l) as [Hn Hql]; [by destruct lane, l|].
    split; [by destruct lane|by destruct l].
Qed.

Lemma forall_final_last (l : list (Lane.t * WriterCommand.t)) x a p b :
  Forall (fun p => final (snd p) = false) l -> l ++ [x] = a ++ p :: b -> final (snd p) = true -> b = [].
Proof.
  intros Hf Heq Hp. destruct b as [|y b _] using rev_ind; [done|].
  rewrite app_comm_cons, app_assoc in Heq. apply app_inj_tail in Heq as [-> _].
  rewrite Forall_app, Forall_cons in Hf. destruct Hf as (_ & ? & _). congruence.
Qed.

Lemma inv_complete w lane c o :
  writer_inv w -> w_task w = Writing lane c -> writer_inv (complete w lane c o).
Proof.
  intros [Hb Hl [lost Hp] (tail & failed & Ht & Hin & Ha & Hfa) Hf Hla Ho] Hw.
  assert (He : is_ended w = false) by (unfold is_ended; by rewrite Hw).
  unfold in_flight in Hin. rewrite Hw in Hin. destruct Hin as [-> Hstop].
  destruct Hfa as [->|[? _]]; [|congruence]. rewrite app_nil_r in Ha. specialize (Hf He).
  set (w1 := {| w_capacity := w_capacity w; w_control := w_control w; w_data := w_data w;
       w_senders := w_senders w; w_control_open := w_control_open w;
       w_data_open := w_data_open w; w_task := Selecting; w_accepted := w_accepted w;
       w_taken := w_taken w;
       w_written := w_written w ++ (if WriteOutcome.is_ok o then [(lane, c)] else []);
       w_answered := w_answered w ++
         match WriterCommand.done c with Some d => [(d, o)] | None => [] end;
       w_receipts := w_receipts w ++ match WriterCommand.receipt c with
         | Some r => if WriteOutcome.is_ok o then [r] else [] | None => [] end |}).
  assert (Hlost : writer_inv (ended w1 false)).
  { split; simpl.
    - intros []; simpl; lia.
    - intros l. split; [|done]. destruct (Hl l) as [H _]. destruct l; by eapply prefix_of_weaken.
    - exists (tag Lane.Control (w_control w) ++ tag Lane.Data (w_data w) ++ lost). by rewrite Hp.
    - rewrite Ha. destruct o; simpl.
      + exists [], []. rewrite !app_nil_r, tickets_app, map_app. split_and!; [done | unfold in_flight; simpl; lia | | by left].
        f_equal. by destruct c as [? []| | |].
      + exists [(lane, c)], (match WriterCommand.done c with Some d => [(d, WriteOutcome.Failed)] | None => [] end).
        rewrite app_nil_r. split_and!; [done | unfold in_flight; simpl; lia | done |].
        destruct c as [? [d|] ?| | |]; simpl; [right|by left..]. split; [done|]. by exists d, WriteOutcome.Failed.
      + exists [(lane, c)], (match WriterCommand.done c with Some d => [(d, WriteOutcome.TimedOut)] | None => [] end).
        rewrite app_nil_r. split_and!; [done | unfold in_flight; simpl; lia | done |].
        destruct c as [? [d|] ?| | |]; simpl; [right|by left..]. split; [done|]. by exists d, WriteOutcome.TimedOut.
    - done.
    - intros a p b. destruct (WriteOutcome.is_ok o); [by apply forall_final_last|].
      rewrite app_nil_r. apply Hla.
    - intros l Hopen. destruct (Ho l); [by destruct l|]. by destruct l. }
  assert (Hnext : o = WriteOutcome.Written -> final c = false -> writer_inv w1).
  { intros -> Hc. subst w1. split; simpl; try done.
    - intros l. destruct (Hl l) as [H1 H2]. destruct l; split; [done | intros _; by apply H2 | done | intros _; by apply H2].
    - by exists lost.
    - exists [], []. rewrite !app_nil_r, tickets_app, map_app. split_and!; [done | done | | by left].
      rewrite Ha. f_equal. by destruct c as [? []| | |].
    - intros _. apply Forall_app; split; [done|]. by repeat constructor.
    - intros a p b. by apply forall_final_last. }
  change (complete w lane c o) with (match c with WriterCommand.Close => ended w1 false
    | _ => if WriteOutcome.is_ok o then w1 else ended w1 false end).
  clearbody w1. destruct c, o; simpl; auto; done.
Qed.

Lemma inv_select w w' :
  writer_inv w -> w_task w = Selecting -> select w = Some w' -> writer_inv w'.
Proof.
  intros Hi Hs. assert (He : is_ended w = false) by (unfold is_ended; by rewrite Hs).
  assert (Hgot : forall lane c rest, recv w lane = Got c rest ->
    writer_inv (match c with WriterCommand.Stop => ended (take w lane c rest) true
                | _ => take w lane c rest end)).
  { intros lane c rest Hr. assert (queue w lane = c :: rest)
      by (unfold recv in Hr; repeat case_match; by simplify_eq).
    destruct c; [by apply inv_take..| by apply inv_take_stop]. }
  unfold select. case_match; [intros [= <-]; by apply inv_ended|].
  destruct (w_control_open w).
  - destruct (recv w Lane.Control) eqn:Hr; [intros [= <-]; by apply Hgot | intros [= <-]; by apply inv_close_lane|].
    destruct (w_data_open w); [|done].
    destruct (recv w Lane.Data) eqn:Hr'; [intros [= <-]; by apply Hgot | intros [= <-]; by apply inv_close_lane|done].
  - destruct (w_data_open w); [|done].
    destruct (recv w Lane.Data) eqn:Hr'; [intros [= <-]; by apply Hgot | intros [= <-]; by apply inv_close_lane|done].
Qed.

Lemma inv_step w l w' : writer_inv w -> writer_step w l = Some w' -> writer_inv w'.
Proof.
  intros Hi. destruct l as [lane c| | | |o]; simpl.
  - destruct (w_senders w) eqn:Hs; [|done]. intros [= <-]. unfold Lanes.enqueue.
    destruct (is_ended w) eqn:He; [done|]. destruct (Nat.leb_spec (w_capacity w) (length (queue w lane))); [done|].
    by apply inv_accept.
  - intros [= <-]. by apply inv_drop.
  - intros [= <-]. unfold Lanes.abort. destruct (is_ended w) eqn:He; [done|]. by apply inv_ended.
  - destruct (w_task w) eqn:Ht; [|done..]. by apply inv_select.
  - destruct (w_task w) eqn:Ht; [done| |done]. intros [= <-]. by apply inv_complete.
Qed.

Lemma inv_run w ls w' : writer_inv w -> writer_run w ls = Some w' -> writer_inv w'.
Proof.
  revert w; induction ls as [|l ls IH]; intros w Hi; simpl; [by intros [= <-]|].
  destruct (writer_step w l) eqn:E; [|done]. eauto using inv_step.
Qed.

Lemma capacity_step w l w' : writer_step w l = Some w' -> w_capacity w' = w_capacity w.
Proof.
  destruct l as [[] c| | | |o]; simpl; unfold Lanes.enqueue, Lanes.abort, select, complete; intros H;
    repeat case_match; simplify_eq/=; done.
Qed.

Lemma capacity_run w ls w' : writer_run w ls = Some w' -> w_capacity w' = w_capacity w.
Proof.
  revert w; induction ls as [|l ls IH]; intros w; simpl; [by intros [= <-]|].
  destruct (writer_step w l) eqn:E; [|done]. intros H. rewrite (IH _ H). by eapply capacity_step.
Qed.

Lemma ended_step w l w' :
  is_ended w = true -> writer_step w l = Some w' ->
  is_ended w' = true /\ w_written w' = w_written w /\ w_answered w' = w_answered w.
Proof.
  unfold is_ended. destruct (w_task w) eqn:Ht; try done. intros _. destruct l; simpl; rewrite ?Ht; try done.
  - case_match; [|done]. intros [= <-]. unfold Lanes.enqueue, is_ended. rewrite Ht. simpl. by rewrite Ht.
  - intros [= <-]. simpl. by rewrite Ht.
  - intros [= <-]. unfold Lanes.abort, is_ended. rewrite Ht. by rewrite Ht.
Qed.

Lemma ended_run w ls w' :
  is_ended w = true -> writer_run w ls = Some w' ->
  w_written w' = w_written w /\ w_answered w' = w_answered w.
Proof.
  revert w; induction ls as [|l ls IH]; intros w He; simpl; [by intros [= <-]|].
  destruct (writer_step w l) as [w1|] eqn:E; [|done]. intros H.
  destruct (ended_step _ _ _ He E) as (He1 & <- & <-). by apply IH.
Qed.

Lemma answered_NoDup w :
  writer_inv w -> NoDup (tickets (w_accepted w)) -> NoDup (map fst (w_answered w)).
Proof.
  intros [_ _ [lost Hp] (tail & failed & Ht & _ & Ha & Hfa) _ _ _] Hnd.
  assert (Hpt : Permutation (tickets (w_accepted w)) (tickets (w_taken w) ++
    tickets (tag Lane.Control (w_control w) ++ tag Lane.Data (w_data w) ++ lost))).
  { rewrite <- tickets_app. unfold tickets. by rewrite Hp. }
  rewrite Hpt, Ht, tickets_app in Hnd. apply NoDup_app in Hnd as (Hnd & _ & _).
  rewrite Ha, map_app, map_map. simpl. rewrite map_id.
  destruct Hfa as [->|(_ & d & o & -> & _ & Htl)]; [by rewrite app_nil_r; apply NoDup_app in Hnd as [? _]|].
  rewrite Htl in Hnd. exact Hnd.
Qed.

Lemma answered_ok w d :
  writer_inv w -> (d, WriteOutcome.Written) ∈ w_answered w <->
    exists lane c, (lane, c) ∈ w_written w /\ WriterCommand.done c = Some d.
Proof.
  intros [_ _ _ (tail & failed & Ht & _ & Ha & Hfa) _ _ _].
  assert (Hn : (d, WriteOutcome.Written) ∉ failed).
  { destruct Hfa as [->|(_ & d' & o & -> & Ho & _)]; [apply not_elem_of_nil|].
    rewrite list_elem_of_singleton. congruence. }
  rewrite Ha, elem_of_app. split.
  - intros [H|]; [|done]. apply list_elem_of_fmap in H as (x & [= <-] & H).
    apply list_elem_of_omap in H as ([lane c] & ? & ?). eauto.
  - intros (lane & c & H & Hd). left. apply list_elem_of_fmap. exists d. split; [done|].
    apply list_elem_of_omap. by exists (lane, c).
Qed.

Lemma written_prefix w lane :
  writer_inv w -> per_lane lane (w_written w) `prefix_of` per_lane lane (w_accepted w).
Proof.
  intros [_ Hl _ (tail & _ & Ht & _) _ _ _]. destruct (Hl lane) as [H _]. etrans; [|apply H].
  rewrite Ht, per_lane_app, <- app_assoc. by apply prefix_app_r.
Qed.

(** C4: The socket writer, for every interleaving of the session's calls with the
    task: on each lane what reaches the socket is a prefix of what was accepted, in
    order (so a cancellation cannot overtake the quote it follows, both being on the
    data lane); no queue grows past its capacity; a queued control command is always
    selected before any data command; a ticket is answered with success exactly when
    its frame was written, and no ticket is answered twice; a [Close] is the last
    thing written; and once the task has ended nothing more is written or answered. *)
Theorem writer_order capacity ls w :
  writer_run (Lanes.spawn capacity) ls = Some w ->
  (forall lane, per_lane lane (w_written w) `prefix_of` per_lane lane (w_accepted w)) /\
  (forall lane, (length (queue w lane) <= capacity)%nat) /\
  (forall c rest, w_task w = Selecting -> w_control w = c :: rest ->
     exists w', select w = Some w' /\ w_taken w' = w_taken w ++ [(Lane.Control, c)]) /\
  (forall d, (d, WriteOutcome.Written) ∈ w_answered w <->
     exists lane c, (lane, c) ∈ w_written w /\ WriterCommand.done c = Some d) /\
  (NoDup (tickets (w_accepted w)) -> NoDup (map fst (w_answered w))) /\
  (forall a lane b, w_written w = a ++ (lane, WriterCommand.Close) :: b -> b = []) /\
  (is_ended w = true -> forall ls' w', writer_run w ls' = Some w' ->
     w_written w' = w_written w /\ w_answered w' = w_answered w).
Proof.
  intros H. assert (Hi : writer_inv w) by (eapply inv_run; [apply inv_spawn | done]).
  split_and!; eauto using written_prefix, answered_ok, answered_NoDup, ended_run.
  - intros lane. pose proof (capacity_run _ _ _ H) as Hc. cbn in Hc. rewrite <- Hc. apply Hi.
  - intros c rest Hs Hq. unfold select.
    destruct (w_control_open w) eqn:Ho; [|destruct (wi_open _ Hi Lane.Control Ho) as [_ Hn]; simpl in Hn; congruence].
    unfold recv. simpl. rewrite Hq. simpl. eexists; split; [done|]. by destruct c.
  - intros a lane b Hw. by eapply (wi_last _ Hi).
Qed.

Lemma writer_order_witness :
  exists w, writer_run (Lanes.spawn 2)
    [Enqueue Lane.Data (WriterCommand.Frame (ClientMessage.GetMarkets (default_request 1)) (Some 7%nat) None);
     Enqueue Lane.Control (WriterCommand.Pong []); Select; Complete WriteOutcome.Written;
     Select; Complete WriteOutcome.Written] = Some w /\
  (7%nat, WriteOutcome.Written) ∈ w_answered w.
Proof.
  eexists. split; [reflexivity|].
  destruct (writer_order 2
    [Enqueue Lane.Data (WriterCommand.Frame (ClientMessage.GetMarkets (default_request 1)) (Some 7%nat) None);
     Enqueue Lane.Control (WriterCommand.Pong []); Select; Complete WriteOutcome.Written;
     Select; Complete WriteOutcome.Written] _ eq_refl) as (_ & _ & _ & H & _).
  apply H. exists Lane.Data. eexists. split; [right; left|reflexivity].
Defined.
