(* ===== verification/Challenge.v ===== *)
(** * Authentication challenges ([src/ws/auth.rs])

    The texts a signer may be asked to sign when a session authenticates: the exact
    grammar the validators accept, what a vault challenge binds, and why no challenge
    can be mistaken for an order id.  A Rust [&str] is the string of its UTF-8 bytes. *)

From Stdlib Require Import ZArith Lia String Ascii.
From stdpp Require Import base list strings.
From S2P Require Import Prelude Signing.

Open Scope Z_scope.

Definition nl : string := String "010"%char EmptyString.

(** [str::strip_suffix]. *)
Fixpoint strip_suffix (suf s : string) : option string :=
  if String.eqb s suf then Some EmptyString
  else match s with
       | EmptyString => None
       | String c s => String c <$> strip_suffix suf s
       end.

(** [str::split_once]: at the first occurrence. *)
Fixpoint split_once (sep s : string) : option (string * string) :=
  match strip_prefix sep s with
  | Some rest => Some (EmptyString, rest)
  | None =>
      match s with
      | EmptyString => None
      | String c s => (fun '(a, b) => (String c a, b)) <$> split_once sep s
      end
  end.

(** [str::as_bytes]. *)
Definition as_bytes (s : string) : bytes :=
  map (fun c => Z.of_nat (nat_of_ascii c)) (list_ascii_of_string s).

(** [u8::is_ascii_digit]. *)
Definition is_ascii_digit (b : Z) : bool := (48 <=? b) && (b <=? 57).

(** [str::parse::<u64>]: an optional plus sign and decimal digits that fit. *)
Fixpoint parse_digits (bs : bytes) (value : Z) : option Z :=
  match bs with
  | [] => Some value
  | b :: bs =>
      if is_ascii_digit b then
        value ← checked_mul 64 value 10;
        value ← checked_add 64 value (b - 48);
        parse_digits bs value
      else None
  end.

Definition parse_u64 (bs : bytes) : option Z :=
  match bs with
  | [] => None
  | 43 :: [] => None
  | 43 :: digits => parse_digits digits 0
  | digits => parse_digits digits 0
  end.

(* ws/auth.rs:3-4 AUTH_PREFIX *)
Definition AUTH_PREFIX : string :=
  "Acta RFQ Authentication" +:+ nl +:+ nl +:+
  "Sign this message to authenticate your wallet." +:+ nl +:+ nl.

Definition nth0 (b : bytes) (i : nat) : Z := nth i b 0.

(** The byte [is_utc_seconds] wants at position [i]. *)
Definition utc_byte (i : nat) (byte : Z) : bool :=
  match i with
  | 4%nat | 7%nat => byte =? 45
  | 10%nat => byte =? 84
  | 13%nat | 16%nat => byte =? 58
  | 19%nat => byte =? 90
  | _ => is_ascii_digit byte
  end.

(* ws/auth.rs:83-89 is_utc_seconds (days) *)
Definition days (year month : Z) : option Z :=
  match month with
  | 4 | 6 | 9 | 11 => Some 30
  | 2 => if (year mod 4 =? 0) && (negb (year mod 100 =? 0) || (year mod 400 =? 0))
         then Some 29 else Some 28
  | 1 | 3 | 5 | 7 | 8 | 10 | 12 => Some 31
  | _ => None
  end.

(** All twenty bytes exist once the length is checked, and two digits stay below 256,
    so the [u8] arithmetic of [pair] does not wrap. *)
(* ws/auth.rs:68-91 is_utc_seconds *)
Definition is_utc_seconds (timestamp : string) : bool :=
  let b := as_bytes timestamp in
  if negb (length b =? 20)%nat || negb (forallb (fun i => utc_byte i (nth0 b i)) (seq 0 (length b)))
  then false
  else
    let pair i := (nth0 b i - 48) * 10 + nth0 b (S i) - 48 in
    let year := pair 0%nat * 100 + pair 2%nat in
    match days year (pair 5%nat) with
    | None => false
    | Some d =>
        ((1 <=? pair 8%nat) && (pair 8%nat <=? d)) && (pair 11%nat <? 24) &&
        (pair 14%nat <? 60) && (pair 17%nat <? 60)
    end.

(** The nonce's alphabet. *)
Definition is_nonce_byte (b : Z) : bool := is_ascii_digit b || ((97 <=? b) && (b <=? 102)).

(* ws/auth.rs:54-66 valid_nonce_and_time *)
Definition valid_nonce_and_time (body : string) : bool :=
  match strip_prefix "Nonce: " body ≫= split_once (nl +:+ "Issued At: ") with
  | None => false
  | Some (nonce, timestamp) =>
      (String.length nonce =? 64)%nat && forallb is_nonce_byte (as_bytes nonce) &&
      match strip_suffix nl timestamp with Some t => is_utc_seconds t | None => false end
  end.

Section validators.
Context `{C : Crypto}.

(* ws/auth.rs:6-15 validate_maker_auth_challenge *)
Definition validate_maker_auth_challenge (challenge : string) : res SigningError unit :=
  match strip_prefix AUTH_PREFIX challenge with
  | Some body =>
      if valid_nonce_and_time body then Ok tt
      else Err "invalid maker authentication challenge"%string
  | None => Err "invalid maker authentication challenge"%string
  end.

(* ws/auth.rs:18-29 validate_wallet_auth_challenge *)
Definition validate_wallet_auth_challenge (challenge wallet : string) : res SigningError unit :=
  let body :=
    (s ← strip_prefix AUTH_PREFIX challenge; s ← strip_prefix "Wallet: " s;
     s ← strip_prefix wallet s; strip_prefix nl s) in
  if is_ok (decode_base58_32 wallet) &&
     match body with Some body => valid_nonce_and_time body | None => false end
  then Ok tt else Err "invalid wallet authentication challenge"%string.

(* ws/auth.rs:32-52 validate_vault_auth_challenge *)
Definition validate_vault_auth_challenge (challenge : string) (operator vault : key)
  : res SigningError unit :=
  let operator := encode_base58 operator in
  let vault := encode_base58 vault in
  body ← ok_or
    (s ← strip_prefix AUTH_PREFIX challenge; s ← strip_prefix "Wallet: " s;
     s ← strip_prefix operator s; s ← strip_prefix nl s;
     s ← strip_suffix vault s; strip_suffix (nl +:+ "Vault: ") s)
    "invalid vault authentication challenge"%string;
  if valid_nonce_and_time body then Ok tt
  else Err "invalid vault authentication challenge"%string.
End validators.

(** ** String lemmas *)

Lemma append_cons c a b : String c a +:+ b = String c (a +:+ b).
Proof. reflexivity. Qed.

Lemma append_nil a : EmptyString +:+ a = a.
Proof. reflexivity. Qed.

Lemma length_append a b : String.length (a +:+ b) = (String.length a + String.length b)%nat.
Proof. induction a as [|c a IH]; [done|]. rewrite append_cons. simpl. by rewrite IH. Qed.

Lemma substring_all s : substring 0 (String.length s) s = s.
Proof. induction s as [|c s IH]; simpl; [done|]. by rewrite IH. Qed.

Lemma prefix_drop p s :
  String.prefix p s = true ->
  s = p +:+ String.substring (String.length p) (String.length s - String.length p) s.
Proof.
  revert s. induction p as [|c p IH]; intros s; simpl.
  - intros _. by rewrite Nat.sub_0_r, substring_all.
  - destruct s as [|c' s]; [done|]. cbn [String.prefix].
    destruct (ascii_dec c c') as [->|]; [|done]. intros H. rewrite append_cons. f_equal. by apply IH.
Qed.

Lemma strip_prefix_Some p s r : strip_prefix p s = Some r <-> s = p +:+ r.
Proof.
  unfold strip_prefix. split.
  - destruct (String.prefix p s) eqn:E; [|done]. intros [= <-]. by apply prefix_drop.
  - intros ->. assert (E : String.prefix p (p +:+ r) = true).
    { induction p as [|c p IH]; [by destruct r|]. rewrite append_cons. cbn [String.prefix].
      by destruct (ascii_dec c c). }
    rewrite E. f_equal. clear E. induction p as [|c p IH].
    + rewrite append_nil. simpl. rewrite Nat.sub_0_r. apply substring_all.
    + rewrite append_cons. simpl. apply IH.
Qed.

Lemma strip_suffix_Some suf s r : strip_suffix suf s = Some r <-> s = r +:+ suf.
Proof.
  revert r. induction s as [|c s IH]; intros r; cbn [strip_suffix].
  - destruct (String.eqb_spec EmptyString suf) as [<-|Hn].
    + split; [by intros [= <-]|]. by destruct r.
    + split; [done|]. by destruct r, suf.
  - destruct (String.eqb_spec (String c s) suf) as [<-|Hn].
    + split; [by intros [= <-]|]. intros H. destruct r as [|a r]; [done|]. exfalso.
      apply (f_equal String.length) in H. rewrite length_append in H. simpl in H. lia.
    + split.
      * intros H. apply fmap_Some in H as (r' & Hr & ->). apply IH in Hr as ->. done.
      * destruct r as [|a r]; [rewrite append_nil; congruence|]. rewrite append_cons. intros [= -> Hs].
        apply fmap_Some. exists r. split; [by apply IH|done].
Qed.

Lemma split_once_Some sep s a b : split_once sep s = Some (a, b) -> s = a +:+ sep +:+ b.
Proof.
  revert a b. induction s as [|c s IH]; intros a b; simpl.
  - destruct (strip_prefix sep _) as [r|] eqn:E; [|done]. intros [= <- <-]. by apply strip_prefix_Some in E.
  - destruct (strip_prefix sep _) as [r|] eqn:E; [intros [= <- <-]; by apply strip_prefix_Some in E|].
    intros H. apply fmap_Some in H as ([a' b'] & Hr & [= -> ->]). by rewrite append_cons, (IH _ _ Hr) at 1.
Qed.

(** The separator's first character does not occur in the left part. *)
Lemma split_once_first c sep a b :
  c ∉ list_ascii_of_string a -> split_once (String c sep) (a +:+ String c sep +:+ b) = Some (a, b).
Proof.
  induction a as [|d a IH]; intros Hn.
  - rewrite append_nil. assert (E : strip_prefix (String c sep) (String c sep +:+ b) = Some b)
      by by apply strip_prefix_Some.
    destruct (String c sep +:+ b); cbn [split_once]; by rewrite E.
  - rewrite append_cons. cbn [list_ascii_of_string] in *. apply not_elem_of_cons in Hn as [Hd Hn].
    cbn [split_once]. destruct (strip_prefix _ _) eqn:E.
    + apply strip_prefix_Some in E. rewrite append_cons in E. injection E as E _. congruence.
    + by rewrite IH.
Qed.

Lemma append_assoc a b c : (a +:+ b) +:+ c = a +:+ b +:+ c.
Proof. induction a as [|x a IH]; [done|]. by rewrite !append_cons, IH. Qed.

Lemma as_bytes_app a b : as_bytes (a +:+ b) = as_bytes a ++ as_bytes b.
Proof.
  unfold as_bytes. rewrite <- map_app. f_equal.
  induction a as [|c a IH]; [done|]. rewrite append_cons. simpl. by rewrite IH.
Qed.

Lemma length_as_bytes s : length (as_bytes s) = String.length s.
Proof. unfold as_bytes. rewrite length_map. by induction s; simpl; f_equal. Qed.

Lemma as_bytes_inj a b : as_bytes a = as_bytes b -> a = b.
Proof.
  unfold as_bytes. revert b. induction a as [|x a IH]; intros [|y b]; simpl; try done.
  intros [= Hxy H]. apply Nat2Z.inj in Hxy. rewrite (IH _ H). f_equal.
  rewrite <- (ascii_nat_embedding x), Hxy. apply ascii_nat_embedding.
Qed.

(** ** Timestamps *)

Definition digit (z : Z) : ascii := ascii_of_nat (Z.to_nat (48 + z)).
Definition two (z : Z) : string := String (digit (z / 10)) (String (digit (z mod 10)) EmptyString).

(** RFC 3339 in UTC with whole seconds. *)
Definition render (y mo d h mi s : Z) : string :=
  two (y / 100) +:+ two (y mod 100) +:+ "-" +:+ two mo +:+ "-" +:+ two d +:+ "T" +:+
  two h +:+ ":" +:+ two mi +:+ ":" +:+ two s +:+ "Z".

Definition valid_time (y mo d h mi s : Z) : Prop :=
  0 <= y < 10000 /\ (exists dm, days y mo = Some dm /\ 1 <= d <= dm) /\
  0 <= h < 24 /\ 0 <= mi < 60 /\ 0 <= s < 60.

Lemma as_bytes_digit z : 0 <= z < 10 -> Z.of_nat (nat_of_ascii (digit z)) = 48 + z.
Proof. intros H. unfold digit. rewrite nat_ascii_embedding; lia. Qed.

Lemma as_bytes_two z : 0 <= z < 100 -> as_bytes (two z) = [48 + z / 10; 48 + z mod 10].
Proof.
  intros H. unfold two, as_bytes. simpl.
  rewrite !as_bytes_digit by (Z.to_euclidean_division_equations; lia). done.
Qed.

Lemma days_range y mo dm : days y mo = Some dm -> 1 <= mo <= 12 /\ dm <= 31.
Proof.
  unfold days. intros H. repeat case_match; simplify_eq; lia.
Qed.

Lemma as_bytes_render y mo d h mi s :
  valid_time y mo d h mi s ->
  as_bytes (render y mo d h mi s) =
    [48 + y / 1000; 48 + y / 100 mod 10; 48 + y mod 100 / 10; 48 + y mod 10; 45;
     48 + mo / 10; 48 + mo mod 10; 45; 48 + d / 10; 48 + d mod 10; 84;
     48 + h / 10; 48 + h mod 10; 58; 48 + mi / 10; 48 + mi mod 10; 58;
     48 + s / 10; 48 + s mod 10; 90].
Proof.
  intros (Hy & (dm & Hdm & Hd) & Hh & Hmi & Hs). apply days_range in Hdm.
  unfold render. rewrite !as_bytes_app, !as_bytes_two by (Z.to_euclidean_division_equations; lia).
  cbn [app]. repeat (f_equal; try (Z.to_euclidean_division_equations; lia)).
Qed.

Lemma is_utc_seconds_render y mo d h mi s :
  valid_time y mo d h mi s -> is_utc_seconds (render y mo d h mi s) = true.
Proof.
  intros Hv. pose proof Hv as (Hy & (dm & Hdm & Hd) & Hh & Hmi & Hs). unfold is_utc_seconds.
  rewrite (as_bytes_render _ _ _ _ _ _ Hv). pose proof (days_range _ _ _ Hdm).
  cbn [length Nat.eqb negb orb seq forallb utc_byte nth0 nth].
  replace (negb _) with false.
  2: { symmetry. rewrite negb_false_iff. unfold nth0, is_ascii_digit; simpl.
       rewrite ?andb_true_iff, ?Z.leb_le. repeat split; Z.to_euclidean_division_equations; lia. }
  unfold nth0. cbn [nth].
  replace (((48 + y / 1000 - 48) * 10 + (48 + y / 100 mod 10) - 48) * 100 +
    ((48 + y mod 100 / 10 - 48) * 10 + (48 + y mod 10) - 48)) with y
    by (Z.to_euclidean_division_equations; lia).
  replace ((48 + mo / 10 - 48) * 10 + (48 + mo mod 10) - 48) with mo
    by (Z.to_euclidean_division_equations; lia).
  rewrite Hdm. rewrite !andb_true_iff, !Z.leb_le, !Z.ltb_lt.
  repeat split; Z.to_euclidean_division_equations; lia.
Qed.

Lemma is_utc_seconds_inv t :
  is_utc_seconds t = true -> exists y mo d h mi s, valid_time y mo d h mi s /\ t = render y mo d h mi s.
Proof.
  unfold is_utc_seconds. destruct (length (as_bytes t) =? 20)%nat eqn:Hl; [|done]. cbn [negb orb].
  apply Nat.eqb_eq in Hl. rewrite Hl.
  destruct (forallb _ _) eqn:Hall; [|done]. cbn [negb].
  remember (as_bytes t) as b eqn:Hb. 
  destruct b as [|b0 b]; [discriminate Hl|]. destruct b as [|b1 b]; [discriminate Hl|].
  destruct b as [|b2 b]; [discriminate Hl|]. destruct b as [|b3 b]; [discriminate Hl|].
  destruct b as [|b4 b]; [discriminate Hl|]. destruct b as [|b5 b]; [discriminate Hl|].
  destruct b as [|b6 b]; [discriminate Hl|]. destruct b as [|b7 b]; [discriminate Hl|].
  destruct b as [|b8 b]; [discriminate Hl|]. destruct b as [|b9 b]; [discriminate Hl|].
  destruct b as [|b10 b]; [discriminate Hl|]. destruct b as [|b11 b]; [discriminate Hl|].
  destruct b as [|b12 b]; [discriminate Hl|]. destruct b as [|b13 b]; [discriminate Hl|].
  destruct b as [|b14 b]; [discriminate Hl|]. destruct b as [|b15 b]; [discriminate Hl|].
  destruct b as [|b16 b]; [discriminate Hl|]. destruct b as [|b17 b]; [discriminate Hl|].
  destruct b as [|b18 b]; [discriminate Hl|]. destruct b as [|b19 b]; [discriminate Hl|].
  destruct b; [|discriminate Hl].
  unfold nth0 in *. cbn [nth seq forallb utc_byte] in *. unfold is_ascii_digit in Hall.
  rewrite !andb_true_iff, !Z.leb_le, !Z.eqb_eq in Hall.
  destruct (days _ _) as [dm|] eqn:Hd; [|done]. rewrite !andb_true_iff, !Z.leb_le, !Z.ltb_lt.
  intros Hr.
  set (pair u v := (u - 48) * 10 + v - 48) in *.
  assert (Hv : valid_time (pair b0 b1 * 100 + pair b2 b3) (pair b5 b6) (pair b8 b9) (pair b11 b12)
                 (pair b14 b15) (pair b17 b18)).
  { unfold valid_time, pair in *.
    split; [lia|]. split; [exists dm; split; [exact Hd|lia]|]. lia. }
  do 6 eexists. split; [exact Hv|]. apply as_bytes_inj. rewrite <- Hb, (as_bytes_render _ _ _ _ _ _ Hv).
  unfold pair. clear Hr Hv Hd Hb. destruct_and! Hall. subst.
  repeat (f_equal; try (Z.to_euclidean_division_equations; lia)).
Qed.

(** ** The grammar *)

(** 64 lower-case hexadecimal digits. *)
Definition valid_nonce (nonce : string) : Prop :=
  String.length nonce = 64%nat /\ forallb is_nonce_byte (as_bytes nonce) = true.

Definition body (nonce time : string) : string :=
  "Nonce: " +:+ nonce +:+ nl +:+ "Issued At: " +:+ time +:+ nl.

(** A body [valid_nonce_and_time] accepts. *)
Definition valid_body (b : string) : Prop :=
  exists nonce y mo d h mi s, valid_nonce nonce /\ valid_time y mo d h mi s /\
    b = body nonce (render y mo d h mi s).

Definition newline_free (s : string) : Prop := "010"%char ∉ list_ascii_of_string s.

Lemma nonce_newline_free nonce : forallb is_nonce_byte (as_bytes nonce) = true -> newline_free nonce.
Proof.
  unfold newline_free. induction nonce as [|c s IH]; simpl; [intros _; apply not_elem_of_nil|].
  intros H. apply andb_prop in H as [Hc H]. apply not_elem_of_cons. split; [|by apply IH].
  intros <-. discriminate Hc.
Qed.

Lemma valid_nonce_and_time_iff b : valid_nonce_and_time b = true <-> valid_body b.
Proof.
  unfold valid_nonce_and_time. split.
  - destruct (strip_prefix _ b) as [s|] eqn:Hp; [|done]. apply strip_prefix_Some in Hp as ->.
    cbn [mbind option_bind]. destruct (split_once _ s) as [[nonce ts]|] eqn:Hs; [|done].
    apply split_once_Some in Hs as ->. intros H. apply andb_prop in H as [H Ht].
    apply andb_prop in H as [Hl Hn]. apply Nat.eqb_eq in Hl.
    destruct (strip_suffix nl ts) as [t|] eqn:Hx; [|done]. apply strip_suffix_Some in Hx as ->.
    apply is_utc_seconds_inv in Ht as (y & mo & d & h & mi & se & Hv & ->).
    exists nonce, y, mo, d, h, mi, se. split; [done|]. split; [done|]. unfold body.
    by rewrite !append_assoc.
  - intros (nonce & y & mo & d & h & mi & se & [Hl Hn] & Hv & ->). unfold body.
    replace (strip_prefix "Nonce: " _) with
      (Some (nonce +:+ nl +:+ "Issued At: " +:+ render y mo d h mi se +:+ nl))
      by (symmetry; by apply strip_prefix_Some).
    cbn [mbind option_bind].
    change (nl +:+ "Issued At: " +:+ ?t) with (String "010" ("Issued At: ") +:+ t).
    change (nl +:+ "Issued At: ") with (String "010" "Issued At: ").
    rewrite split_once_first by by apply nonce_newline_free.
    rewrite Hl, Hn. cbn [Nat.eqb andb].
    replace (strip_suffix nl _) with (Some (render y mo d h mi se)) by (symmetry; by apply strip_suffix_Some).
    by apply is_utc_seconds_render.
Qed.

Lemma length_render y mo d h mi s :
  valid_time y mo d h mi s -> String.length (render y mo d h mi s) = 20%nat.
Proof. intros H. by rewrite <- length_as_bytes, (as_bytes_render _ _ _ _ _ _ H). Qed.

Lemma length_body b : valid_body b -> String.length b = 104%nat.
Proof.
  intros (nonce & y & mo & d & h & mi & s & [Hl _] & Hv & ->). unfold body.
  rewrite !length_append, Hl, (length_render _ _ _ _ _ _ Hv). done.
Qed.

Lemma append_inj_length a a' b b' :
  String.length a = String.length a' -> a +:+ b = a' +:+ b' -> a = a' /\ b = b'.
Proof.
  revert a'. induction a as [|x a IH]; intros [|y a'] Hl; try done.
  rewrite !append_cons. intros [= -> H]. simpl in Hl. destruct (IH a') as [-> ->]; auto.
Qed.

Lemma append_inj_newline a a' b b' :
  newline_free a -> newline_free a' -> a +:+ nl +:+ b = a' +:+ nl +:+ b' -> a = a' /\ b = b'.
Proof.
  unfold newline_free. revert a'. induction a as [|x a IH]; intros [|y a'] Hn Hn';
    rewrite ?append_nil, ?append_cons; cbn [list_ascii_of_string] in *.
  - intros H. unfold nl in H. rewrite !append_cons, !append_nil in H. by injection H.
  - intros [= H _]. exfalso. apply Hn'. rewrite H. left.
  - intros [= H _]. exfalso. apply Hn. rewrite H. left.
  - intros [= -> H]. apply not_elem_of_cons in Hn as [_ Hn], Hn' as [_ Hn'].
    destruct (IH a' Hn Hn' H) as [-> ->]. done.
Qed.

Section grammar.
Context `{CL : CryptoLaws}.

Lemma validate_maker_iff c :
  validate_maker_auth_challenge c = Ok tt <-> exists b, valid_body b /\ c = AUTH_PREFIX +:+ b.
Proof.
  unfold validate_maker_auth_challenge. split.
  - destruct (strip_prefix _ c) as [b|] eqn:Hp; [|done]. apply strip_prefix_Some in Hp as ->.
    destruct (valid_nonce_and_time b) eqn:Hb; [|done]. apply valid_nonce_and_time_iff in Hb. eauto.
  - intros (b & Hb & ->). replace (strip_prefix _ _) with (Some b) by (symmetry; by apply strip_prefix_Some).
    by rewrite (proj2 (valid_nonce_and_time_iff b) Hb).
Qed.

Definition vault_challenge (operator vault : key) (b : string) : string :=
  AUTH_PREFIX +:+ "Wallet: " +:+ encode_base58 operator +:+ nl +:+ b +:+ nl +:+ "Vault: " +:+
  encode_base58 vault.

Lemma validate_vault_iff c operator vault :
  validate_vault_auth_challenge c operator vault = Ok tt <->
  exists b, valid_body b /\ c = vault_challenge operator vault b.
Proof.
  unfold validate_vault_auth_challenge, vault_challenge. split.
  - intros H. inv_ok H. destruct (valid_nonce_and_time v) eqn:Hb; [|done].
    apply valid_nonce_and_time_iff in Hb. exists v. split; [done|].
    repeat (apply bind_Some in Hv as (? & ?%strip_prefix_Some & Hv); subst).
    apply bind_Some in Hv as (? & ?%strip_suffix_Some & Hv); subst.
    apply strip_suffix_Some in Hv as ->. by rewrite !append_assoc.
  - intros (b & Hb & ->).
    replace (strip_prefix AUTH_PREFIX _) with (Some ("Wallet: " +:+ encode_base58 operator +:+ nl +:+ b +:+
      nl +:+ "Vault: " +:+ encode_base58 vault)) by (symmetry; by apply strip_prefix_Some).
    cbn [mbind option_bind].
    replace (strip_prefix "Wallet: " _) with (Some (encode_base58 operator +:+ nl +:+ b +:+
      nl +:+ "Vault: " +:+ encode_base58 vault)) by (symmetry; by apply strip_prefix_Some).
    cbn [mbind option_bind].
    replace (strip_prefix (encode_base58 operator) _) with (Some (nl +:+ b +:+
      nl +:+ "Vault: " +:+ encode_base58 vault)) by (symmetry; by apply strip_prefix_Some).
    cbn [mbind option_bind].
    replace (strip_prefix nl _) with (Some (b +:+ nl +:+ "Vault: " +:+ encode_base58 vault))
      by (symmetry; by apply strip_prefix_Some).
    cbn [mbind option_bind].
    replace (strip_suffix (encode_base58 vault) _) with (Some (b +:+ nl +:+ "Vault: "))
      by (symmetry; apply strip_suffix_Some; by rewrite !append_assoc).
    cbn [mbind option_bind].
    replace (strip_suffix (nl +:+ "Vault: ") _) with (Some b)
      by (symmetry; by apply strip_suffix_Some).
    cbn [ok_or mbind res_bind]. by rewrite (proj2 (valid_nonce_and_time_iff b) Hb).
Qed.

Lemma encode_base58_inj a b : is_bytes a -> is_bytes b -> encode_base58 a = encode_base58 b -> a = b.
Proof.
  intros Ha Hb H. unfold encode_base58 in H. apply (f_equal bs58_decode) in H.
  rewrite !bs58_decode_encode in H by done. by injection H.
Qed.

Lemma vault_challenge_inj o v b o' v' b' :
  newline_free (encode_base58 o) -> newline_free (encode_base58 o') ->
  valid_body b -> valid_body b' ->
  vault_challenge o v b = vault_challenge o' v' b' ->
  encode_base58 o = encode_base58 o' /\ b = b' /\ encode_base58 v = encode_base58 v'.
Proof.
  intros Ho Ho' Hb Hb' H. unfold vault_challenge in H.
  apply append_inj_length in H as [_ H]; [|done]. apply append_inj_length in H as [_ H]; [|done].
  apply append_inj_newline in H as [-> H]; [|done..].
  apply append_inj_length in H as [-> H]; [|by rewrite !length_body].
  apply append_inj_length in H as [_ H]; [|done]. by apply append_inj_length in H as [_ ->].
Qed.

(** C37: What a session lets a signer sign.  A maker challenge is accepted exactly when
    it is the authentication header followed by a nonce of 64 lower-case hex digits
    and a real UTC calendar time to the second; a vault challenge exactly when that
    text also names the operator's wallet and ends with the vault.  So no accepted
    challenge has the 32 bytes of an order id, no text is both a maker and a vault
    challenge, and one text is a vault challenge for one operator and one vault only. *)
Theorem challenges_bind (c : string) (operator vault operator' vault' : key) :
  is_key operator -> is_key vault -> is_key operator' -> is_key vault' ->
  newline_free (encode_base58 operator) -> newline_free (encode_base58 operator') ->
  (validate_maker_auth_challenge c = Ok tt <-> exists b, valid_body b /\ c = AUTH_PREFIX +:+ b) /\
  (validate_vault_auth_challenge c operator vault = Ok tt <->
     exists b, valid_body b /\ c = vault_challenge operator vault b) /\
  (validate_maker_auth_challenge c = Ok tt -> String.length c <> 32%nat /\
     validate_vault_auth_challenge c operator vault <> Ok tt) /\
  (validate_vault_auth_challenge c operator vault = Ok tt -> String.length c <> 32%nat /\
     (validate_vault_auth_challenge c operator' vault' = Ok tt <->
        operator' = operator /\ vault' = vault)).
Proof.
  intros [_ Ho] [_ Hv] [_ Ho'] [_ Hv'] Hn Hn'.
  split; [apply validate_maker_iff|]. split; [apply validate_vault_iff|]. split.
  - intros Hm. apply validate_maker_iff in Hm as (b & Hb & ->). split.
    + rewrite length_append. intros H. discriminate H.
    + intros H. apply validate_vault_iff in H as (b' & Hb' & H). unfold vault_challenge in H.
      apply append_inj_length in H as [_ ->]; [|done].
      destruct Hb as (nonce & y & mo & d & h & mi & s & _ & _ & H). discriminate H.
  - intros Hc. pose proof Hc as (b & Hb & ->)%validate_vault_iff. split.
    + unfold vault_challenge. rewrite length_append. intros H. discriminate H.
    + split; [|intros [-> ->]; apply validate_vault_iff; eauto].
      intros (b' & Hb' & H)%validate_vault_iff.
      apply vault_challenge_inj in H as (H1 & _ & H2); [|done..].
      split; symmetry; by apply encode_base58_inj.
Qed.
End grammar.

Module ChallengeSample.
Definition operator : key := key_of 65.
Definition vault : key := key_of 66.
Definition nonce : string := "0123456789abcdef0123456789abcdef0123456789abcdef0123456789abcdef".
Definition challenge : string :=
  vault_challenge operator vault (body nonce (render 2028 2 29 23 59 59)).
End ChallengeSample.

Lemma challenges_bind_witness :
  validate_vault_auth_challenge ChallengeSample.challenge ChallengeSample.operator
    ChallengeSample.vault = Ok tt /\
  String.length ChallengeSample.challenge <> 32%nat /\
  validate_vault_auth_challenge ChallengeSample.challenge ChallengeSample.operator
    (key_of 67) <> Ok tt.
Proof.
  assert (Hk : forall z, 0 <= z < 256 -> is_key (key_of z)) by (intros z Hz; by apply key_of_is_key).
  assert (Hn : newline_free (encode_base58 ChallengeSample.operator)).
  { unfold newline_free. intros H. apply list_elem_of_In in H. vm_compute in H.
    repeat destruct H as [H|H]; done. }
  destruct (challenges_bind ChallengeSample.challenge ChallengeSample.operator ChallengeSample.vault
    ChallengeSample.operator (key_of 67)) as (_ & _ & _ & H); [by apply Hk; lia..|done|done|].
  assert (E : validate_vault_auth_challenge ChallengeSample.challenge ChallengeSample.operator
    ChallengeSample.vault = Ok tt) by (vm_compute; reflexivity).
  split; [exact E|]. destruct (H E) as [Hl Hi]. split; [exact Hl|].
  intros E'. apply Hi in E' as [_ Hv]. discriminate Hv.
Defined.
