(* ===== verification/Texts.v ===== *)
(** * Texts of codes and keys ([types/invite.rs], [types/address.rs], [types/macros.rs], [MarketId] of [types/ids.rs])

    Parsers of the short texts that name things: referral codes, base58 addresses, hex
    digests.  A [&str] is the list of its UTF-8 bytes where its characters are examined, and
    a string where a crate decodes it. *)

From Stdlib Require Import ZArith Lia Ascii String.
From stdpp Require Import base list strings.
From S2P Require Import Prelude Signing Challenge.

Open Scope Z_scope.

(** ** [str::trim]

    The UTF-8 encodings of the characters with the White_Space property. *)
Definition white_space : list bytes :=
  map (fun b => [b]) [9; 10; 11; 12; 13; 32] ++ [[194; 133]; [194; 160]; [225; 154; 128]] ++
  map (fun b => [226; 128; b]) [128; 129; 130; 131; 132; 133; 134; 135; 136; 137; 138; 168; 169; 175] ++
  [[226; 129; 159]; [227; 128; 128]].

Definition strip_space (spaces : list bytes) (bs : bytes) : option bytes :=
  match list_find (fun w => w `prefix_of` bs) spaces with
  | Some (_, w) => Some (drop (length w) bs)
  | None => None
  end.

(** Each step removes a character, so the length is fuel enough. *)
Fixpoint trim_front (fuel : nat) (spaces : list bytes) (bs : bytes) : bytes :=
  match fuel with
  | O => bs
  | S fuel => match strip_space spaces bs with Some bs => trim_front fuel spaces bs | None => bs end
  end.

Definition trim (bs : bytes) : bytes :=
  let bs := trim_front (length bs) white_space bs in
  reverse (trim_front (length bs) (map reverse white_space) (reverse bs)).

(** ** Referral codes *)

(* types/invite.rs:3-4 REFERRAL_CODE_MIN_LEN, REFERRAL_CODE_MAX_LEN *)
Definition REFERRAL_CODE_MIN_LEN : nat := 4.
Definition REFERRAL_CODE_MAX_LEN : nat := 16.

Module ReferralCodeFormatError.
(* types/invite.rs:6-12 ReferralCodeFormatError *)
Inductive t := Length (min max : nat) | Charset.
End ReferralCodeFormatError.

(** [u8::to_ascii_uppercase] and [u8::is_ascii_alphanumeric]; a byte of a character beyond
    ASCII is neither a letter nor a digit. *)
Definition to_ascii_uppercase (b : Z) : Z := if (97 <=? b) && (b <=? 122) then b - 32 else b.
Definition is_ascii_alphanumeric (b : Z) : bool :=
  is_ascii_digit b || ((65 <=? b) && (b <=? 90)) || ((97 <=? b) && (b <=? 122)).

Module ReferralCode.
(* types/invite.rs:24-39 ReferralCode::parse *)
Definition parse (input : bytes) : res ReferralCodeFormatError.t bytes :=
  let normalized := map to_ascii_uppercase (trim input) in
  _ ← reject_if (negb ((REFERRAL_CODE_MIN_LEN <=? length normalized)%nat && (length normalized <=? REFERRAL_CODE_MAX_LEN)%nat))
        (ReferralCodeFormatError.Length REFERRAL_CODE_MIN_LEN REFERRAL_CODE_MAX_LEN);
  _ ← reject_if (negb (forallb is_ascii_alphanumeric normalized)) ReferralCodeFormatError.Charset;
  Ok normalized.

(** Reading a code from a message. *)
(* types/invite.rs:86-91 Deserialize for ReferralCode *)
Definition deserialize (raw : bytes) : option bytes := res_ok (parse raw).
End ReferralCode.

(* types/invite.rs:120-120 RESERVED_CODES *)
Definition RESERVED_CODES : list bytes :=
  map as_bytes ["ACTA"; "ADMIN"; "SYSTEM"; "SUPPORT"; "NULL"; "ROOT"; "API"]%string.

(** [str::eq_ignore_ascii_case]. *)
Definition eq_ignore_ascii_case (a b : bytes) : bool :=
  bool_decide (map to_ascii_uppercase a = map to_ascii_uppercase b).

(* types/invite.rs:122-127 is_reserved *)
Definition is_reserved (code : bytes) : bool :=
  existsb (fun reserved => eq_ignore_ascii_case reserved code) RESERVED_CODES.

Module TakerStatus.
(* types/invite.rs:105-110 TakerStatus *)
Inductive t := Pending | Active.

(** The names in snake case, which strum derives. *)
Definition to_string (s : t) : string := match s with Pending => "pending" | Active => "active" end.

(* types/invite.rs:112-118 TryFrom<String> for TakerStatus *)
Definition try_from (value : string) : option t :=
  if String.eqb value "pending" then Some Pending else if String.eqb value "active" then Some Active else None.
End TakerStatus.

(** ** Addresses and digests *)

Module AddressError.
(* types/address.rs:101-107 AddressError *)
Inductive t := InvalidBase58 | InvalidLength (actual : nat).
End AddressError.

Section keys.
Context `{C : Crypto}.

(* types/address.rs:27-35 Address32::from_base58 *)
Definition from_base58 (value : string) : res AddressError.t key :=
  decoded ← map_err (fun _ => AddressError.InvalidBase58) (bs58_decode value);
  _ ← reject_if (negb (length decoded =? 32)%nat) (AddressError.InvalidLength (length decoded));
  Ok decoded.

(* types/address.rs:38-40 Address32::to_base58 *)
Definition to_base58 (self : key) : string := bs58_encode self.

(** An address and its text. *)
(* types/ids.rs:112-119 define_address_id *)
Record AddressId := { ai_address : key; ai_base58 : string }.
(* types/ids.rs:121-127 define_address_id (new) *)
Definition address_id (address : key) : AddressId := {| ai_address := address; ai_base58 := to_base58 address |}.

(* types/macros.rs:62-72 define_bytes32_newtype (from_hex) *)
Definition from_hex (s : string) : option bytes :=
  let s := match strip_prefix "0x" s with Some rest => rest | None => s end in
  decoded ← res_ok (hex_decode s);
  if (length decoded =? 32)%nat then Some decoded else None.

(* types/macros.rs:74-77 define_bytes32_newtype (hex) *)
Definition hex (self : bytes) : string := hex_encode self.
End keys.

(** ** Facts *)

(** What a code consists of. *)
Definition canonical (code : bytes) : Prop :=
  (REFERRAL_CODE_MIN_LEN <= length code <= REFERRAL_CODE_MAX_LEN)%nat /\
  Forall (fun b => 48 <= b <= 57 \/ 65 <= b <= 90) code.

(** Each space starts, and ends, with a byte that is not alphanumeric. *)
Definition foreign (w : bytes) : Prop := match w with [] => False | x :: _ => x < 48 \/ 122 < x end.

#[export] Instance foreign_dec w : Decision (foreign w).
Proof. destruct w; simpl; apply _. Defined.

Lemma spaces_foreign : Forall foreign white_space /\ Forall foreign (map reverse white_space).
Proof. split; by apply (bool_decide_unpack _). Qed.

Lemma trim_front_id fuel spaces bs :
  Forall foreign spaces -> Forall (fun b => 48 <= b <= 122) bs -> trim_front fuel spaces bs = bs.
Proof.
  intros Hw Hb. destruct fuel as [|fuel]; [done|]. simpl. unfold strip_space.
  destruct (list_find _ spaces) as [[i w]|] eqn:Hf; [|done]. exfalso.
  apply list_find_Some in Hf as (Hi & [k ->] & _). apply list_elem_of_lookup_2 in Hi.
  rewrite Forall_forall in Hw. specialize (Hw w Hi). destruct w as [|x w]; [done|].
  apply Forall_app in Hb as [Hb _]. inversion Hb; subst. simpl in Hw. lia.
Qed.

Lemma trim_id bs : Forall (fun b => 48 <= b <= 122) bs -> trim bs = bs.
Proof.
  intros H. destruct spaces_foreign as [H1 H2]. unfold trim. rewrite (trim_front_id _ white_space) by done.
  rewrite trim_front_id; [apply reverse_involutive|done|by apply Forall_reverse].
Qed.

Lemma uppercase_canonical b :
  is_ascii_alphanumeric (to_ascii_uppercase b) = true <->
  48 <= to_ascii_uppercase b <= 57 \/ 65 <= to_ascii_uppercase b <= 90.
Proof.
  unfold is_ascii_alphanumeric, is_ascii_digit, to_ascii_uppercase.
  destruct ((97 <=? b) && (b <=? 122)) eqn:Hb; rewrite ?orb_true_iff, ?andb_true_iff, ?Z.leb_le in *; [lia|].
  rewrite andb_false_iff, !Z.leb_gt in Hb. lia.
Qed.

Lemma uppercase_id b : 48 <= b <= 57 \/ 65 <= b <= 90 -> to_ascii_uppercase b = b.
Proof.
  intros H. unfold to_ascii_uppercase. destruct ((97 <=? b) && (b <=? 122)) eqn:Hb; [|done].
  rewrite andb_true_iff, !Z.leb_le in Hb. lia.
Qed.

Lemma uppercase_ids code : Forall (fun b => 48 <= b <= 57 \/ 65 <= b <= 90) code -> map to_ascii_uppercase code = code.
Proof. induction 1; simpl; [done|]. f_equal; [by apply uppercase_id|done]. Qed.

(** The parser accepts an input whose trimmed, uppercased text is a code, and returns it. *)
Lemma parse_Ok input code :
  ReferralCode.parse input = Ok code <-> code = map to_ascii_uppercase (trim input) /\ canonical code.
Proof.
  unfold ReferralCode.parse, canonical. set (n := map _ _).
  assert (Hc : forallb is_ascii_alphanumeric n = true <-> Forall (fun b => 48 <= b <= 57 \/ 65 <= b <= 90) n).
  { unfold n. rewrite forallb_forall, Forall_map, Forall_forall. setoid_rewrite in_map_iff. split.
    - intros H x Hx. apply uppercase_canonical, H. exists x. by rewrite <- list_elem_of_In.
    - intros H x (y & <- & Hy). apply uppercase_canonical, H. by apply list_elem_of_In. }
  destruct ((REFERRAL_CODE_MIN_LEN <=? length n)%nat && (length n <=? REFERRAL_CODE_MAX_LEN)%nat) eqn:Hl; simpl.
  - rewrite andb_true_iff, !Nat.leb_le in Hl. destruct (forallb is_ascii_alphanumeric n) eqn:Hf; simpl.
    + split; [intros [= <-]; split; [done|]; split; [lia|by apply Hc]|intros [-> _]; done].
    + split; [done|]. intros [-> [_ H]]. apply Hc in H. congruence.
  - split; [done|]. intros [-> [H _]]. rewrite andb_false_iff, !Nat.leb_gt in Hl. lia.
Qed.

(** No byte of a space is a letter, so changing case and trimming commute. *)
Definition unlettered (w : bytes) : Prop := Forall (fun x => x < 65 \/ (90 < x /\ x < 97) \/ 122 < x) w.

Lemma spaces_unlettered : Forall unlettered white_space /\ Forall unlettered (map reverse white_space).
Proof. unfold unlettered. split; by apply (bool_decide_unpack _). Qed.

Lemma uppercase_prefix w bs : unlettered w -> w `prefix_of` map to_ascii_uppercase bs <-> w `prefix_of` bs.
Proof.
  intros Hw. revert bs. induction Hw as [|x w Hx Hw IH]; intros [|b bs]; simpl.
  1-2: split; intros; apply prefix_nil.
  - done.
  - assert (Hb : x = to_ascii_uppercase b <-> x = b).
    { unfold to_ascii_uppercase. destruct ((97 <=? b) && (b <=? 122)) eqn:Hb; [|done].
      rewrite andb_true_iff, !Z.leb_le in Hb. lia. }
    split; intros H; pose proof (prefix_cons_inv_1 _ _ _ _ H) as Hx'; apply prefix_cons_inv_2 in H.
    + apply Hb in Hx' as ->. by apply prefix_cons, IH.
    + rewrite <- (proj2 Hb Hx'). by apply prefix_cons, IH.
Qed.

Lemma uppercase_strip spaces bs :
  Forall unlettered spaces ->
  strip_space spaces (map to_ascii_uppercase bs) = map to_ascii_uppercase <$> strip_space spaces bs.
Proof.
  intros Hw. unfold strip_space.
  assert (H : list_find (fun w => w `prefix_of` map to_ascii_uppercase bs) spaces = list_find (fun w => w `prefix_of` bs) spaces).
  { induction Hw as [|w spaces Hs Hw IH]; [done|]. simpl. pose proof (uppercase_prefix w bs Hs).
    do 2 case_decide; try tauto. by rewrite IH. }
  rewrite H. clear H. destruct (list_find _ spaces) as [[i w]|]; cbn; [|done]. by rewrite skipn_map.
Qed.

Lemma uppercase_trim_front fuel spaces bs :
  Forall unlettered spaces ->
  trim_front fuel spaces (map to_ascii_uppercase bs) = map to_ascii_uppercase (trim_front fuel spaces bs).
Proof.
  intros Hw. revert bs. induction fuel as [|fuel IH]; intros bs; [done|]. simpl. rewrite uppercase_strip by done.
  destruct (strip_space spaces bs) as [bs'|]; simpl; [apply IH|done].
Qed.

Lemma uppercase_trim bs : trim (map to_ascii_uppercase bs) = map to_ascii_uppercase (trim bs).
Proof.
  destruct spaces_unlettered as [H1 H2]. unfold trim. rewrite length_map, uppercase_trim_front, length_map by done.
  set (front := trim_front _ white_space bs). rewrite <- !(fmap_reverse to_ascii_uppercase).
  change (to_ascii_uppercase <$> reverse front) with (map to_ascii_uppercase (reverse front)).
  rewrite uppercase_trim_front by done. apply (eq_sym (fmap_reverse to_ascii_uppercase _)).
Qed.

Lemma uppercase_twice bs : map to_ascii_uppercase (map to_ascii_uppercase bs) = map to_ascii_uppercase bs.
Proof.
  rewrite map_map. apply map_ext. intros b. unfold to_ascii_uppercase.
  destruct ((97 <=? b) && (b <=? 122)) eqn:Hb; [|by rewrite Hb]. rewrite andb_true_iff, !Z.leb_le in Hb.
  by rewrite (proj2 (Z.leb_gt 97 (b - 32))) by lia.
Qed.

(** A referral code is in normal form: what the parser returns is 4 to 16 uppercase letters
    and digits, which parse to themselves; an input is refused exactly when its normal form
    is not a code; a code is reserved exactly when it is one of the reserved ones. *)
Theorem referral_codes_canonical input :
  match ReferralCode.parse input with
  | Ok code =>
      canonical code /\ ReferralCode.parse code = Ok code /\ ReferralCode.parse (map to_ascii_uppercase input) = Ok code /\
      (is_reserved code = true <-> code ∈ RESERVED_CODES)
  | Err _ => ~ canonical (map to_ascii_uppercase (trim input))
  | Panic => False
  end.
Proof.
  destruct (ReferralCode.parse input) as [code|e|] eqn:Hp.
  - apply parse_Ok in Hp as [Hc H]. pose proof H as [_ Hb].
    assert (Hz : Forall (fun b => 48 <= b <= 122) code) by (eapply Forall_impl; [exact Hb|]; simpl; lia).
    split_and!; [done|apply parse_Ok; by rewrite trim_id, uppercase_ids|
                 apply parse_Ok; by rewrite uppercase_trim, uppercase_twice|].
    unfold is_reserved. rewrite existsb_exists. setoid_rewrite bool_decide_eq_true.
    rewrite (uppercase_ids code Hb). split.
    + intros (r & Hr & Heq). apply list_elem_of_In in Hr.
      assert (Hup : Forall (fun r => map to_ascii_uppercase r = r) RESERVED_CODES) by by repeat constructor.
      rewrite Forall_forall in Hup. by rewrite <- Heq, (Hup r Hr).
    + intros Hr. exists code. split; [by apply list_elem_of_In|by apply uppercase_ids].
  - intros Hc. assert (ReferralCode.parse input = Ok (map to_ascii_uppercase (trim input))); [|congruence].
    by apply parse_Ok.
  - revert Hp. unfold ReferralCode.parse, reject_if. destruct (negb (_ && _)); [done|]. by destruct (negb _).
Qed.

(** The texts of addresses and digests read back as what was written, with or without the
    prefix of a digest, and nothing else than 32 bytes is read. *)
Theorem key_texts_roundtrip `{CL : CryptoLaws} a :
  is_array 32 a ->
  from_base58 (to_base58 a) = Ok a /\ from_base58 (ai_base58 (address_id a)) = Ok (ai_address (address_id a)) /\
  from_hex (hex a) = Some a /\ from_hex ("0x" +:+ hex a) = Some a /\
  (forall s, from_hex s = res_ok (decode_hex_32 s)) /\
  (forall s b, from_base58 s = Ok b -> length b = 32%nat) /\ (forall s b, from_hex s = Some b -> length b = 32%nat).
Proof.
  intros Ha. pose proof Ha as [Hl Hb].
  assert (H58 : from_base58 (to_base58 a) = Ok a).
  { unfold from_base58, to_base58. rewrite bs58_decode_encode by done. simpl. by rewrite Hl. }
  split_and!; try done.
  - unfold from_hex, hex, strip_prefix. rewrite hex_encode_no_prefix, hex_decode_encode by done. simpl. by rewrite Hl.
  - unfold from_hex, hex. rewrite (proj2 (strip_prefix_Some "0x" _ _) eq_refl), hex_decode_encode by done. simpl. by rewrite Hl.
  - intros s. unfold from_hex, decode_hex_32. destruct (hex_decode _) as [d|e|]; simpl; try done.
    by destruct (length d =? 32)%nat.
  - intros s b. unfold from_base58. destruct (bs58_decode s) as [d|e|]; simpl; try done.
    destruct (length d =? 32)%nat eqn:Hd; simpl; [|done]. intros [= <-]. by apply Nat.eqb_eq.
  - intros s b. unfold from_hex. destruct (hex_decode _) as [d|e|]; simpl; try done.
    destruct (length d =? 32)%nat eqn:Hd; [|done]. intros [= <-]. by apply Nat.eqb_eq.
Qed.
