(* ===== verification/Control.v ===== *)
(** * How a session ends ([src/ws/managed/session_control.rs], [state.rs], [session.rs])

    The classification of the server's control frames and the values a session attempt
    ends with. *)

From Stdlib Require Import ZArith Lia String.
From stdpp Require Import base list strings.
From S2P Require Import Prelude Terms Quote Messages.

Open Scope Z_scope.

Module ManagedWsTerminationReason.
(* ws/managed/state.rs:16-36 ManagedWsTerminationReason *)
Inductive t :=
| Requested
| ReconnectLimitReached (limit : Z)
| SessionReplaced
| ProtocolVersionMismatch (requested_version server_version min_supported_version : string)
| AuthenticationRejected (reason : string) (message : option string)
| SessionPanicked
| UnsupportedProtocolVersion.
#[global] Instance t_eq_dec : EqDecision t.
Proof. solve_decision. Defined.
End ManagedWsTerminationReason.
Abbreviation Reason := ManagedWsTerminationReason.t (only parsing).

Module ControlFailure.
(* ws/managed/session_control.rs:6-10 ControlFailure *)
Inductive t :=
| Retry (detail : string)
| ClearCredentials (detail : string)
| Terminate (reason : Reason).
End ControlFailure.

(* ws/managed/session_control.rs:71-76 format_detail *)
Definition format_detail (code : WsErrorCode.t) (message : option string) : string :=
  match message with
  | Some message => WsErrorCode.to_string code +:+ " (" +:+ message +:+ ")"
  | None => WsErrorCode.to_string code
  end.

(* ws/managed/session_control.rs:42-69 classify_code *)
Definition classify_code (code : WsErrorCode.t) (message : option string)
  : option ControlFailure.t :=
  match code with
  | WsErrorCode.SessionReplaced =>
      Some (ControlFailure.Terminate ManagedWsTerminationReason.SessionReplaced)
  | WsErrorCode.UnsupportedProtocolVersion =>
      Some (ControlFailure.Terminate ManagedWsTerminationReason.UnsupportedProtocolVersion)
  | WsErrorCode.Blacklisted | WsErrorCode.MakerUnregistered | WsErrorCode.MakerNotRegistered
  | WsErrorCode.InvalidSignature | WsErrorCode.OperatorMismatch
  | WsErrorCode.VaultOperatorUnauthorized =>
      Some (ControlFailure.Terminate
        (ManagedWsTerminationReason.AuthenticationRejected (WsErrorCode.to_string code) message))
  | WsErrorCode.VaultSessionInvalidated => Some (ControlFailure.Retry (format_detail code message))
  | WsErrorCode.SessionExpired => Some (ControlFailure.ClearCredentials (format_detail code message))
  | _ => None
  end.

(* ws/managed/session_control.rs:33-40 classify_auth_error *)
Definition classify_auth_error (error : AuthErrorData) : ControlFailure.t :=
  let code := ae_reason error in
  let message := Some (ae_message error) in
  match classify_code code message with
  | Some failure => failure
  | None => ControlFailure.Retry (format_detail code message)
  end.

(* ws/managed/session_control.rs:12-30 classify *)
Definition classify (message : ServerMessage.t) : option ControlFailure.t :=
  match message with
  | ServerMessage.VersionMismatch data =>
      Some (ControlFailure.Terminate (ManagedWsTerminationReason.ProtocolVersionMismatch
        (vm_requested_version data) (vm_server_version data) (vm_min_supported_version data)))
  | ServerMessage.AuthError error => Some (classify_auth_error error)
  | ServerMessage.Error (ServerError.Generic code message) => classify_code code (Some message)
  | ServerMessage.Error ServerError.ServerShuttingDown =>
      Some (ControlFailure.Retry "server is shutting down")
  | _ => None
  end.

Module SessionEnd.
(* ws/managed/session.rs:27-35 SessionEnd *)
Inductive t :=
| CloseRequested
| AuthenticationFailed
| Terminated (reason : Reason)
| Disconnected (authenticated_for : Z) (clear_resume : bool).
End SessionEnd.

Module AuthenticatedSessionEnd.
(* ws/managed/session.rs:37-42 AuthenticatedSessionEnd *)
Inductive t := CloseRequested | Disconnected | CredentialsExpired | Terminated (reason : Reason).

(** [elapsed] is [authenticated_at.elapsed()]. *)
(* ws/managed/session.rs:44-59 AuthenticatedSessionEnd::finish *)
Definition finish (self : t) (elapsed : Z) : SessionEnd.t :=
  match self with
  | CloseRequested => SessionEnd.CloseRequested
  | Disconnected => SessionEnd.Disconnected elapsed false
  | CredentialsExpired => SessionEnd.Disconnected elapsed true
  | Terminated reason => SessionEnd.Terminated reason
  end.
End AuthenticatedSessionEnd.

Module SessionFailure.
(* ws/managed/session.rs:61-74 SessionFailure *)
Inductive t :=
| Retryable (detail : string)
| Rejected (detail : string)
| CredentialsExpired (detail : string)
| Terminated (reason : Reason)
| Shutdown.

(* ws/managed/session.rs:77-83 SessionFailure::from_control *)
Definition from_control (message : ServerMessage.t) : option t :=
  match classify message with
  | Some (ControlFailure.Retry detail) => Some (Rejected detail)
  | Some (ControlFailure.ClearCredentials detail) => Some (CredentialsExpired detail)
  | Some (ControlFailure.Terminate reason) => Some (Terminated reason)
  | None => None
  end.

(* ws/managed/session.rs:85-92 SessionFailure::into_session_end *)
Definition into_session_end (self : t) : AuthenticatedSessionEnd.t :=
  match self with
  | CredentialsExpired _ => AuthenticatedSessionEnd.CredentialsExpired
  | Terminated reason => AuthenticatedSessionEnd.Terminated reason
  | Retryable _ | Rejected _ => AuthenticatedSessionEnd.Disconnected
  | Shutdown => AuthenticatedSessionEnd.CloseRequested
  end.

(* ws/managed/session.rs:95-100 SessionFailure::is_server_rejection *)
Definition is_server_rejection (self : t) : bool :=
  match self with Rejected _ | CredentialsExpired _ | Terminated _ => true | _ => false end.
End SessionFailure.

(** [WsClientError], without the wrapped library errors. *)
Module WsClientError.
(* ws/error.rs:3-22 WsClientError *)
Inductive t :=
| WebSocket | Json | UnreadableFrame (frame : UnreadableFrame) | Timeout | ConnectTimeout
| ConnectionClosed | Protocol (detail : string) | InvalidTransportConfig.
End WsClientError.

Module AuthenticationError.
(* ws/managed/session_auth.rs:18-28 AuthenticationError *)
Inductive t :=
| Transport (e : WsClientError.t)
| Rejected (detail : string)
| Terminated (reason : Reason)
| Signer (e : string).

(* ws/managed/session_auth.rs:32-38 AuthenticationError::is_server_rejection *)
Definition is_server_rejection (self : t) : bool :=
  match self with Rejected _ | Terminated _ => true | Transport _ | Signer _ => false end.

(* ws/managed/session_auth.rs:40-45 AuthenticationError::termination_reason *)
Definition termination_reason (self : t) : option Reason :=
  match self with Terminated reason => Some reason | _ => None end.
End AuthenticationError.

(** Only codes about identity or protocol end a session for good. *)
Lemma classify_code_terminates code message reason :
  classify_code code message = Some (ControlFailure.Terminate reason) ->
  reason = ManagedWsTerminationReason.SessionReplaced \/
  reason = ManagedWsTerminationReason.UnsupportedProtocolVersion \/
  reason = ManagedWsTerminationReason.AuthenticationRejected (WsErrorCode.to_string code) message.
Proof. destruct code; simpl; intros [= <-]; auto. Qed.
