(* ===== verification/Login.v ===== *)
(** * Authentication of a connection ([src/ws/managed/session_auth.rs])

    [authenticate] is a conversation: it writes to the socket and reads from it until
    the server grants the session or the attempt fails.  The socket is a list of the
    results its reads will have and a list of the outcomes its writes will have; what
    is sent and what is published to subscribers is recorded.  A conversation whose
    reads run out is still waiting ([None]): the caller bounds it by [auth_timeout]. *)

From Stdlib Require Import ZArith Lia String.
From stdpp Require Import base list sets strings.
From S2P Require Import Prelude Terms Quote Signing Messages Challenge Control.

Open Scope Z_scope.

(** Signing a challenge, [Local] or [Async]. *)
Section signing.
Context `{C : Crypto}.
(* ws/managed/signer.rs:10-14 ChallengeSigning *)
Inductive ChallengeSigning :=
| Local {T} `{SignerLike T} (signer : T)
| Async {T} `{AsyncSignerLike T} (signer : T).

(* ws/managed/signer.rs:16-25 ChallengeSigning::sign *)
Definition challenge_sign (self : ChallengeSigning) (challenge : string) : res SigningError string :=
  match self with
  | Local signer => Ok (encode_base58 (sign_message signer (as_bytes challenge)))
  | Async signer =>
      encode_base58 <$> sign_verified signer (as_bytes challenge)
  end.
End signing.

(** The fields of [ManagedWsConfig] the authentication reads. *)
(* ws/managed/config.rs:186-191 ManagedWsConfig::vault_pda *)
Record AuthConfig `{C : Crypto} := {
  hello : HelloData;
  auth_pubkey : key;
  challenge_signing : ChallengeSigning;
  vault_pda : option key;
}.

(** A read of the socket: [client.next()]. *)
Inductive Read :=
| Msg (m : ServerMessage.t)
| ReadErr (e : WsClientError.t)
| Eof.

(** A write: done, failed, or timed out. *)
Inductive WriteResult := WriteOk | WriteErr (e : WsClientError.t) | WriteTimeout.

Record Socket := {
  reads : list Read;
  writes : list WriteResult;
  sent : list ClientMessage.t;
  published : list ServerMessage.t;
}.

(** What [authenticate] leaves: a grant or an error, the socket and the session id kept
    for a resume. *)
Record AuthOutcome := { ao_vault : option VaultAuthSuccessData }.
Abbreviation Login A := (option (res AuthenticationError.t A * Socket * option string)).

(** [timeout(config.write_timeout, client.send(..))]: writes beyond the recorded
    outcomes succeed. *)
Definition send_to (s : Socket) (m : ClientMessage.t) : res AuthenticationError.t unit * Socket :=
  let s' r := {| reads := reads s; writes := tl (writes s); sent := sent s ++ r;
                 published := published s |} in
  match hd WriteOk (writes s) with
  | WriteOk => (Ok tt, s' [m])
  | WriteErr e => (Err (AuthenticationError.Transport e), s' [])
  | WriteTimeout => (Err (AuthenticationError.Transport WsClientError.Timeout), s' [])
  end.

Definition consumed (s : Socket) (rest : list Read) : Socket :=
  {| reads := rest; writes := writes s; sent := sent s; published := published s |}.

(** What [InboundPublisher::publish] hands to subscribers (numbered in Running.v). *)
Definition publish_read (s : Socket) (m : ServerMessage.t) : Socket :=
  {| reads := reads s; writes := writes s; sent := sent s; published := published s ++ [m] |}.

(* ws/managed/session_auth.rs:242-254 control_error *)
Definition control_error (failure : ControlFailure.t) (resume : option string)
  : AuthenticationError.t * option string :=
  match failure with
  | ControlFailure.Retry detail => (AuthenticationError.Rejected detail, resume)
  | ControlFailure.ClearCredentials detail => (AuthenticationError.Rejected detail, None)
  | ControlFailure.Terminate reason => (AuthenticationError.Terminated reason, resume)
  end.

Section authenticate.
Context `{C : Crypto} (config : AuthConfig).

(* ws/managed/session_auth.rs:48-63 build_auth_response *)
Definition build_auth_response (challenge : string) : res SigningError AuthChallengeData :=
  _ ← match vault_pda config with
      | Some vault => validate_vault_auth_challenge challenge (auth_pubkey config) vault
      | None => validate_maker_auth_challenge challenge
      end;
  signature ← challenge_sign (challenge_signing config) challenge;
  Ok {| ac_challenge := challenge; ac_signature := signature; ac_pubkey := auth_pubkey config |}.

(* ws/managed/session_auth.rs:228-240 send_auth_response *)
Definition send_auth_response (s : Socket) (challenge : string)
  : res AuthenticationError.t unit * Socket :=
  match build_auth_response challenge with
  | Ok auth => send_to s (ClientMessage.AuthChallenge auth)
  | Err e => (Err (AuthenticationError.Signer e), s)
  | Panic => (Panic, s)
  end.

Definition fail {A} (failure : ControlFailure.t) (s : Socket) (resume : option string) : Login A :=
  let '(e, resume) := control_error failure resume in Some (Err e, s, resume).

(** One read, published; errors end the conversation. *)
Definition with_read {A} (s : Socket) (resume : option string)
  (k : ServerMessage.t -> Socket -> Login A) : Login A :=
  match reads s with
  | [] => None
  | Msg m :: rest => k m (publish_read (consumed s rest) m)
  | ReadErr e :: rest => Some (Err (AuthenticationError.Transport e), consumed s rest, resume)
  | Eof :: rest =>
      Some (Err (AuthenticationError.Transport WsClientError.ConnectionClosed), consumed s rest, resume)
  end.

(** [fuel] counts the reads: [length (reads s)] is enough for every loop below. *)
(* ws/managed/session_auth.rs:76-94 authenticate (welcome) *)
Fixpoint await_welcome (fuel : nat) (s : Socket) (resume : option string) : Login unit :=
  match fuel with
  | O => None
  | S fuel =>
      with_read s resume (fun m s =>
        match m with
        | ServerMessage.Welcome _ => Some (Ok tt, s, resume)
        | message =>
            match classify message with
            | Some failure => fail failure s resume
            | None => await_welcome fuel s resume
            end
        end)
  end.

(** The answer to [ResumeAuth]: a grant, or (when the session expired) the challenge
    to continue with. *)
(* ws/managed/session_auth.rs:109-138 authenticate (resume) *)
Fixpoint await_resume (fuel : nat) (s : Socket) (resume pending : option string)
  : Login (AuthOutcome + option string) :=
  match fuel with
  | O => None
  | S fuel =>
      with_read s resume (fun m s =>
        match m with
        | ServerMessage.AuthSuccess session_id =>
            Some (Ok (inl {| ao_vault := None |}), s, Some session_id)
        | ServerMessage.AuthError err =>
            match ae_reason err with
            | WsErrorCode.SessionExpired => Some (Ok (inr pending), s, None)
            | _ => fail (classify_auth_error err) s resume
            end
        | ServerMessage.AuthRequest challenge => await_resume fuel s resume (Some challenge)
        | message =>
            match classify message with
            | Some failure => fail failure s resume
            | None => await_resume fuel s resume pending
            end
        end)
  end.

(* ws/managed/session_auth.rs:151-175 authenticate (challenge loop) *)
Fixpoint await_auth (fuel : nat) (s : Socket) (resume : option string) : Login AuthOutcome :=
  match fuel with
  | O => None
  | S fuel =>
      with_read s resume (fun m s =>
        match m with
        | ServerMessage.AuthRequest challenge =>
            match send_auth_response s challenge with
            | (Ok _, s) => await_auth fuel s resume
            | (Err e, s) => Some (Err e, s, resume)
            | (Panic, s) => Some (Panic, s, resume)
            end
        | ServerMessage.AuthSuccess session_id =>
            Some (Ok {| ao_vault := None |}, s, Some session_id)
        | ServerMessage.AuthError err => fail (classify_auth_error err) s resume
        | message =>
            match classify message with
            | Some failure => fail failure s resume
            | None => await_auth fuel s resume
            end
        end)
  end.

(* ws/managed/session_auth.rs:195-225 authenticate_vault (loop) *)
Fixpoint await_vault_auth (fuel : nat) (s : Socket) (resume : option string) : Login AuthOutcome :=
  match fuel with
  | O => None
  | S fuel =>
      with_read s resume (fun m s =>
        match m with
        | ServerMessage.AuthRequest challenge =>
            match send_auth_response s challenge with
            | (Ok _, s) => await_vault_auth fuel s resume
            | (Err e, s) => Some (Err e, s, resume)
            | (Panic, s) => Some (Panic, s, resume)
            end
        | ServerMessage.VaultAuthSuccess data => Some (Ok {| ao_vault := Some data |}, s, resume)
        | ServerMessage.AuthSuccess _ =>
            Some (Err (AuthenticationError.Rejected
                    "server answered vault auth with a maker session"), s, resume)
        | ServerMessage.AuthError err => fail (classify_auth_error err) s resume
        | message =>
            match classify message with
            | Some failure => fail failure s resume
            | None => await_vault_auth fuel s resume
            end
        end)
  end.

(** Continue after a write or a phase that may have failed. *)
Definition then_sent {A} (r : res AuthenticationError.t unit * Socket) (resume : option string)
  (k : Socket -> Login A) : Login A :=
  match r with
  | (Ok _, s) => k s
  | (Err e, s) => Some (Err e, s, resume)
  | (Panic, s) => Some (Panic, s, resume)
  end.

Definition then_phase {A B} (r : Login A) (k : A -> Socket -> option string -> Login B) : Login B :=
  match r with
  | Some (Ok a, s, resume) => k a s resume
  | Some (Err e, s, resume) => Some (Err e, s, resume)
  | Some (Panic, s, resume) => Some (Panic, s, resume)
  | None => None
  end.

(* ws/managed/session_auth.rs:180-226 authenticate_vault *)
Definition authenticate_vault (s : Socket) (resume : option string) (vault : key)
  : Login AuthOutcome :=
  then_sent (send_to s (ClientMessage.StartVaultAuth {| sv_operator := auth_pubkey config; sv_vault_pda := vault |})) resume
    (fun s => await_vault_auth (length (reads s)) s resume).

(* ws/managed/session_auth.rs:65-176 authenticate *)
Definition authenticate (s : Socket) (resume : option string) : Login AuthOutcome :=
  then_sent (send_to s (ClientMessage.Hello (hello config))) resume (fun s =>
  then_phase (await_welcome (length (reads s)) s resume) (fun _ s resume =>
  match vault_pda config with
  | Some vault => authenticate_vault s resume vault
  | None =>
      let challenge_phase (pending : option string) (s : Socket) (resume : option string) :=
        then_sent
          match pending with
          | Some challenge => send_auth_response s challenge
          | None => send_to s (ClientMessage.StartAuth {| sa_pubkey := auth_pubkey config |})
          end resume
          (fun s => await_auth (length (reads s)) s resume) in
      match resume with
      | Some session_id =>
          then_sent (send_to s (ClientMessage.ResumeAuth {| ra_session_id := session_id |})) resume (fun s =>
          then_phase (await_resume (length (reads s)) s resume None) (fun r s resume =>
          match r with
          | inl outcome => Some (Ok outcome, s, resume)
          | inr pending => challenge_phase pending s resume
          end))
      | None => challenge_phase None s None
      end
  end)).
End authenticate.

(** ** What a conversation can do *)

Section soundness.
Context `{C : Crypto} (config : AuthConfig).

Definition messages (rs : list Read) : list ServerMessage.t :=
  omap (fun r => match r with Msg m => Some m | _ => None end) rs.

(** A challenge goes out only if the server asked for it and it passed validation. *)
Definition sent_ok (pub : list ServerMessage.t) (x : ClientMessage.t) : Prop :=
  match x with
  | ClientMessage.AuthChallenge d =>
      ServerMessage.AuthRequest (ac_challenge d) ∈ pub /\
      build_auth_response config (ac_challenge d) = Ok d
  | _ => True
  end.

(** Reads are consumed and published in order; what is sent is [sent_ok]. *)
Definition progress (s s' : Socket) : Prop :=
  exists c l, reads s = c ++ reads s' /\ published s' = published s ++ messages c /\
    sent s' = sent s ++ l /\ Forall (sent_ok (published s')) l.

Lemma sent_ok_mono pub pub' x : pub ⊆ pub' -> sent_ok pub x -> sent_ok pub' x.
Proof. intros H. destruct x; simpl; auto. intros [? ?]; auto. Qed.

#[local] Instance progress_refl : Reflexive progress.
Proof. intros s. exists [], []. cbn. by rewrite !app_nil_r. Qed.

#[local] Instance progress_trans : Transitive progress.
Proof.
  intros a b d (c1 & l1 & H1 & H2 & H3 & H4) (c2 & l2 & G1 & G2 & G3 & G4).
  exists (c1 ++ c2), (l1 ++ l2). rewrite H1, G1, G2, H2, G3, H3, !app_assoc. split_and!; try done.
  - unfold messages. by rewrite omap_app, app_assoc.
  - apply Forall_app. split; [|by rewrite <- H2, <- G2].
    eapply Forall_impl; [exact H4|]. intros x. apply sent_ok_mono. rewrite H2. set_solver.
Qed.

Lemma progress_send s m : sent_ok (published s) m -> progress s (snd (send_to s m)).
Proof.
  intros Hm. unfold send_to. exists [].
  destruct (hd WriteOk (writes s)); simpl; [exists [m]|exists []..]; rewrite ?app_nil_r;
    split_and!; auto.
Qed.

Lemma reads_send s m : reads (snd (send_to s m)) = reads s.
Proof. unfold send_to. by destruct (hd _ _). Qed.

Lemma reads_auth_response s challenge : reads (snd (send_auth_response config s challenge)) = reads s.
Proof. unfold send_auth_response. case_match; [apply reads_send|done..]. Qed.

Lemma progress_read s m rest :
  reads s = Msg m :: rest -> progress s (publish_read (consumed s rest) m).
Proof. intros H. exists [Msg m], []. rewrite H. simpl. rewrite app_nil_r. auto. Qed.

Lemma progress_auth_response s challenge :
  ServerMessage.AuthRequest challenge ∈ published s ->
  progress s (snd (send_auth_response config s challenge)).
Proof.
  intros H. unfold send_auth_response. destruct (build_auth_response config challenge) as [d|e|] eqn:E;
    [|done..]. apply progress_send. simpl.
  assert (ac_challenge d = challenge) as -> by (unfold build_auth_response in E; inv_ok E; by injection E as <-).
  done.
Qed.

(** The connection ends among the reads to come. *)
Definition closes (s : Socket) : Prop := Eof ∈ reads s.

Lemma closes_read s m rest : reads s = Msg m :: rest -> closes s -> closes (publish_read (consumed s rest) m).
Proof. unfold closes. intros -> H. simpl. by apply elem_of_cons in H as [|]. Qed.

(** How the kept session id may change when the attempt fails. *)
Definition failed {A} (r : res AuthenticationError.t A) (resume resume' : option string) : Prop :=
  is_ok r = false /\ (resume' = resume \/ resume' = None).

(** What every phase guarantees, [Q] being what a success means. *)
Definition phase_ok {A} (Q : A -> Socket -> option string -> Prop) (s : Socket)
  (resume : option string) (out : Login A) : Prop :=
  forall r s' resume', out = Some (r, s', resume') ->
    progress s s' /\
    (failed r resume resume' \/ exists a, r = Ok a /\ Q a s' resume' /\ (closes s -> closes s')).

Lemma phase_fail {A} Q s s' resume failure :
  progress s s' -> phase_ok Q s resume (@fail A failure s' resume).
Proof.
  intros Hp r s2 resume'. unfold fail. destruct (control_error failure resume) as [e x] eqn:E.
  intros [= <- <- <-]. split; [done|]. left. split; [done|].
  destruct failure; simpl in E; injection E as <- <-; auto.
Qed.

Lemma phase_read {A} Q s resume (k : ServerMessage.t -> Socket -> Login A) :
  (forall m rest, reads s = Msg m :: rest ->
     phase_ok Q (publish_read (consumed s rest) m) resume (k m (publish_read (consumed s rest) m))) ->
  phase_ok Q s resume (with_read s resume k).
Proof.
  intros Hk r s' resume'. unfold with_read. destruct (reads s) as [|[m|e|] rest] eqn:Hr; [done|..].
  - intros H. destruct (Hk m rest eq_refl r s' resume' H) as [Hp Hq]. split.
    + etrans; [by apply progress_read|done].
    + destruct Hq as [?|(a & ? & ? & Hc)]; [by left|]. right. exists a. split; [done|]. split; [done|].
      intros. by apply Hc, (closes_read s).
  - intros [= <- <- <-]. split; [|left; by split; [|left]]. exists [ReadErr e], []. rewrite Hr. simpl.
    by rewrite !app_nil_r.
  - intros [= <- <- <-]. split; [|left; by split; [|left]]. exists [Eof], []. rewrite Hr. simpl.
    by rewrite !app_nil_r.
Qed.

Lemma phase_sent {A} Q s resume x (k : Socket -> Login A) :
  progress s (snd x) -> reads (snd x) = reads s ->
  (forall s', phase_ok Q s' resume (k s')) ->
  phase_ok Q s resume (then_sent x resume k).
Proof.
  intros Hp Hr Hk r s' resume'. destruct x as [[u|e|] sx]; simpl in *.
  - intros H. destruct (Hk sx _ _ _ H) as [? Hq]. split; [by etrans|]. unfold closes in *. by rewrite <- Hr.
  - intros [= <- <- <-]. split; [done|]. left. by split; [|left].
  - intros [= <- <- <-]. split; [done|]. left. by split; [|left].
Qed.

Definition asked (pending : option string) (s : Socket) : Prop :=
  forall challenge, pending = Some challenge -> ServerMessage.AuthRequest challenge ∈ published s.

(** What a success means, for each phase. *)
Definition maker_granted (o : AuthOutcome) (s : Socket) (resume : option string) : Prop :=
  ao_vault o = None /\ exists id, last (published s) = Some (ServerMessage.AuthSuccess id) /\
    resume = Some id.

Definition vault_granted (kept : option string) (o : AuthOutcome) (s : Socket)
  (resume : option string) : Prop :=
  exists d, ao_vault o = Some d /\ last (published s) = Some (ServerMessage.VaultAuthSuccess d) /\
    resume = kept.

Definition resume_granted (r : AuthOutcome + option string) (s : Socket) (resume : option string)
  : Prop :=
  match r with
  | inl o => maker_granted o s resume
  | inr pending => asked pending s /\ resume = None
  end.

Lemma last_publish_read s m : last (published (publish_read s m)) = Some m.
Proof. simpl. by rewrite last_snoc. Qed.

Lemma in_publish_read s m : m ∈ published (publish_read s m).
Proof. simpl. set_solver. Qed.

(** The arm for a message that only matters when it is a control frame. *)
Lemma phase_control {A} Q s resume message (k : Login A) :
  phase_ok Q s resume k ->
  phase_ok Q s resume
    match classify message with Some failure => fail failure s resume | None => k end.
Proof. intros Hk. destruct (classify message); [by apply phase_fail|done]. Qed.

Lemma phase_done {A} (Q : A -> Socket -> option string -> Prop) s resume a resume' :
  Q a s resume' -> phase_ok Q s resume (Some (Ok a, s, resume')).
Proof. intros H r s' x [= <- <- <-]. split; [done|]. right. eauto. Qed.

Lemma phase_err {A} (Q : A -> Socket -> option string -> Prop) s resume e :
  phase_ok Q s resume (Some (Err e, s, resume)).
Proof. intros r s' x [= <- <- <-]. split; [done|]. left. by split; [|left]. Qed.

(** After the answer to a challenge: sent, or failed. *)
Lemma phase_answer {A} Q s resume challenge (k : Socket -> Login A) :
  ServerMessage.AuthRequest challenge ∈ published s ->
  (forall s', phase_ok Q s' resume (k s')) ->
  phase_ok Q s resume
    match send_auth_response config s challenge with
    | (Ok _, s) => k s
    | (Err e, s) => Some (Err e, s, resume)
    | (Panic, s) => Some (Panic, s, resume)
    end.
Proof.
  intros Hin Hk. change (phase_ok Q s resume (then_sent (send_auth_response config s challenge) resume k)).
  eapply phase_sent; [by apply progress_auth_response | apply reads_auth_response | auto].
Qed.

Lemma welcome_ok fuel s resume :
  phase_ok (fun _ _ resume' => resume' = resume) s resume (await_welcome fuel s resume).
Proof.
  revert s. induction fuel as [|fuel IH]; intros s; [done|]. apply phase_read. intros m rest _.
  destruct m; try (by apply phase_done); by apply phase_control.
Qed.

Lemma resume_ok fuel s resume pending :
  asked pending s -> phase_ok resume_granted s resume (await_resume fuel s resume pending).
Proof.
  revert s pending. induction fuel as [|fuel IH]; intros s pending Ha; [done|].
  apply phase_read. intros m rest _.
  assert (Ha' : forall m, asked pending (publish_read (consumed s rest) m))
    by (intros m' c Hc; specialize (Ha c Hc); simpl; set_solver).
  destruct m; try (apply phase_control; by apply IH).
  - apply IH. intros c [= <-]. apply in_publish_read.
  - apply phase_done. split; [done|]. eexists. split; [apply last_publish_read|done].
  - destruct (ae_reason m) eqn:E; try (by apply phase_fail). by apply phase_done.
Qed.

Lemma auth_ok fuel s resume : phase_ok maker_granted s resume (await_auth config fuel s resume).
Proof.
  revert s. induction fuel as [|fuel IH]; intros s; [done|]. apply phase_read. intros m rest _.
  destruct m; try (by apply phase_control).
  - apply phase_answer; [apply in_publish_read|done].
  - apply phase_done. split; [done|]. eexists. split; [apply last_publish_read|done].
  - by apply phase_fail.
Qed.

Lemma vault_auth_ok fuel s resume :
  phase_ok (vault_granted resume) s resume (await_vault_auth config fuel s resume).
Proof.
  revert s. induction fuel as [|fuel IH]; intros s; [done|]. apply phase_read. intros m rest _.
  destruct m; try (by apply phase_control).
  - apply phase_answer; [apply in_publish_read|done].
  - apply phase_err.
  - apply phase_done. eexists. split; [done|]. split; [apply last_publish_read|done].
  - by apply phase_fail.
Qed.

(** Sequencing; the second phase may start with the session id the first one left. *)
Lemma phase_seq {A B} QA QB s resume (x : Login A) (k : A -> Socket -> option string -> Login B) :
  phase_ok QA s resume x ->
  (forall a s' resume', QA a s' resume' ->
     (resume' = resume \/ resume' = None \/ forall y, k a s' resume' = Some y -> is_ok y.1.1 = true) /\
     phase_ok QB s' resume' (k a s' resume')) ->
  phase_ok QB s resume (then_phase x k).
Proof.
  intros Hx Hk r s' resume'. destruct x as [[[[a|e|] s1] resume1]|]; simpl; [..|done].
  - intros H. destruct (Hx _ _ _ eq_refl) as [Hp [[? _]|(a' & [= <-] & Hq & Hc)]]; [done|].
    destruct (Hk _ _ _ Hq) as [Hres Hk']. destruct (Hk' _ _ _ H) as [Hp' Hout].
    split; [by etrans|]. destruct Hout as [[Hf Hr]|(b & ? & ? & ?)]; [|right; eauto 10]. left. split; [done|].
    destruct Hres as [-> | [-> | Hok]]; [done | by destruct Hr; right |].
    specialize (Hok _ H). simpl in Hok. congruence.
  - intros [= <- <- <-]. destruct (Hx _ _ _ eq_refl) as [Hp [[_ ?]|(a' & ? & _)]]; [|done].
    split; [done|]. by left.
  - intros [= <- <- <-]. destruct (Hx _ _ _ eq_refl) as [Hp [[_ ?]|(a' & ? & _)]]; [|done].
    split; [done|]. by left.
Qed.

Lemma challenge_phase_ok pending s resume :
  asked pending s ->
  phase_ok maker_granted s resume
    (then_sent
       match pending with
       | Some challenge => send_auth_response config s challenge
       | None => send_to s (ClientMessage.StartAuth {| sa_pubkey := auth_pubkey config |})
       end resume (fun s => await_auth config (length (reads s)) s resume)).
Proof.
  intros Ha. eapply phase_sent; [| |intros; apply auth_ok].
  - destruct pending as [c|]; [apply progress_auth_response; by apply Ha | by apply progress_send].
  - destruct pending; [apply reads_auth_response | apply reads_send].
Qed.

Definition granted (kept : option string) (o : AuthOutcome) (s : Socket) (resume : option string)
  : Prop :=
  match vault_pda config with
  | Some _ => vault_granted kept o s resume
  | None => maker_granted o s resume
  end.

Lemma authenticate_ok s resume : phase_ok (granted resume) s resume (authenticate config s resume).
Proof.
  unfold authenticate, granted. eapply phase_sent; [by apply progress_send | apply reads_send |]. intros s1.
  eapply phase_seq; [apply welcome_ok|]. intros _ s2 r2 ->. split; [by left|].
  destruct (vault_pda config) as [vault|].
  - eapply phase_sent; [by apply progress_send | apply reads_send |]. intros s3. apply vault_auth_ok.
  - destruct resume as [id|]; [|by apply (challenge_phase_ok None)].
    eapply phase_sent; [by apply progress_send | apply reads_send |]. intros s3.
    eapply phase_seq; [apply resume_ok; by intros c|]. intros [o|pending] s4 r4 Hq; simpl in Hq.
    + split; [right; right; by intros y [= <-]|]. by apply phase_done.
    + destruct Hq as [Ha ->]. split; [by right; left|]. by apply (challenge_phase_ok pending).
Qed.

(** A conversation ends when the socket does: the fuel is enough. *)
Lemma with_read_ends {A} s resume (k : ServerMessage.t -> Socket -> Login A) :
  closes s ->
  (forall m rest, reads s = Msg m :: rest -> closes (publish_read (consumed s rest) m) ->
     is_Some (k m (publish_read (consumed s rest) m))) ->
  is_Some (with_read s resume k).
Proof.
  unfold with_read. intros Hc Hk. destruct (reads s) as [|[m|e|] rest] eqn:Hr; eauto.
  - unfold closes in Hc. rewrite Hr in Hc. set_solver.
  - apply Hk; [done|]. by apply (closes_read s).
Qed.

Lemma fail_ends {A} failure s resume : is_Some (@fail A failure s resume).
Proof. unfold fail. destruct (control_error _ _). eauto. Qed.

Lemma answer_ends {A} s resume challenge (k : Socket -> Login A) :
  closes s ->
  (forall s', reads s' = reads s -> closes s' -> is_Some (k s')) ->
  is_Some match send_auth_response config s challenge with
    | (Ok _, s) => k s
    | (Err e, s) => Some (Err e, s, resume)
    | (Panic, s) => Some (Panic, s, resume)
    end.
Proof.
  intros Hc Hk. pose proof (reads_auth_response s challenge) as Hr.
  destruct (send_auth_response config s challenge) as [[u|e|] s'] eqn:E; eauto.
  simpl in Hr. apply Hk; [done|]. unfold closes in *. by rewrite Hr.
Qed.

Lemma welcome_ends fuel s resume :
  (length (reads s) <= fuel)%nat -> closes s -> is_Some (await_welcome fuel s resume).
Proof.
  revert s. induction fuel as [|fuel IH]; intros s Hf Hc.
  { unfold closes in Hc. destruct (reads s); [set_solver|simpl in Hf; lia]. }
  cbn [await_welcome]. apply with_read_ends; [done|]. intros m rest Hr Hc'.
  rewrite Hr in Hf. simpl in Hf. apply le_S_n in Hf.
  destruct m; try (case_match; [by apply fail_ends | by apply IH]); eauto.
Qed.

Lemma resume_ends fuel s resume pending :
  (length (reads s) <= fuel)%nat -> closes s -> is_Some (await_resume fuel s resume pending).
Proof.
  revert s pending. induction fuel as [|fuel IH]; intros s pending Hf Hc.
  { unfold closes in Hc. destruct (reads s); [set_solver|simpl in Hf; lia]. }
  cbn [await_resume]. apply with_read_ends; [done|]. intros m rest Hr Hc'.
  rewrite Hr in Hf. simpl in Hf. apply le_S_n in Hf.
  destruct m; try (case_match; [by apply fail_ends | by apply IH]); eauto.
  case_match; eauto using fail_ends.
Qed.

Lemma auth_ends fuel s resume :
  (length (reads s) <= fuel)%nat -> closes s -> is_Some (await_auth config fuel s resume).
Proof.
  revert s. induction fuel as [|fuel IH]; intros s Hf Hc.
  { unfold closes in Hc. destruct (reads s); [set_solver|simpl in Hf; lia]. }
  cbn [await_auth]. apply with_read_ends; [done|]. intros m rest Hr Hc'.
  rewrite Hr in Hf. simpl in Hf. apply le_S_n in Hf.
  destruct m; try (case_match; [by apply fail_ends | by apply IH]); eauto using fail_ends.
  apply answer_ends; [done|]. intros s' Hs' Hc2. apply IH; [by rewrite Hs'|done].
Qed.

Lemma vault_auth_ends fuel s resume :
  (length (reads s) <= fuel)%nat -> closes s -> is_Some (await_vault_auth config fuel s resume).
Proof.
  revert s. induction fuel as [|fuel IH]; intros s Hf Hc.
  { unfold closes in Hc. destruct (reads s); [set_solver|simpl in Hf; lia]. }
  cbn [await_vault_auth]. apply with_read_ends; [done|]. intros m rest Hr Hc'.
  rewrite Hr in Hf. simpl in Hf. apply le_S_n in Hf.
  destruct m; try (case_match; [by apply fail_ends | by apply IH]); eauto using fail_ends.
  apply answer_ends; [done|]. intros s' Hs' Hc2. apply IH; [by rewrite Hs'|done].
Qed.

Lemma then_sent_ends {A} s x resume (k : Socket -> Login A) :
  reads (snd x) = reads s -> closes s -> (forall s', closes s' -> is_Some (k s')) ->
  is_Some (then_sent x resume k).
Proof.
  destruct x as [[u|e|] s']; simpl; eauto. intros Hr Hc Hk. apply Hk. unfold closes in *. by rewrite Hr.
Qed.

Lemma then_phase_ends {A B} Q s resume (x : Login A) (k : A -> Socket -> option string -> Login B) :
  phase_ok Q s resume x -> is_Some x -> closes s ->
  (forall a s' resume', closes s' -> is_Some (k a s' resume')) -> is_Some (then_phase x k).
Proof.
  intros Hx [[[[a|e|] s'] resume'] ->] Hc Hk; simpl; eauto.
  destruct (Hx _ _ _ eq_refl) as [_ [[? _]|(a' & [= <-] & _ & Hc')]]; [done|]. auto.
Qed.

Lemma authenticate_ends s resume : closes s -> is_Some (authenticate config s resume).
Proof.
  intros Hc. unfold authenticate. eapply then_sent_ends; [apply reads_send | done|]. intros s1 H1.
  eapply then_phase_ends; [apply welcome_ok | by apply welcome_ends | done|]. intros _ s2 r2 H2.
  destruct (vault_pda config) as [vault|].
  - eapply then_sent_ends; [apply reads_send | done|]. intros. by apply vault_auth_ends.
  - assert (Hch : forall pending s r, closes s -> is_Some
      (then_sent match pending with
         | Some challenge => send_auth_response config s challenge
         | None => send_to s (ClientMessage.StartAuth {| sa_pubkey := auth_pubkey config |}) end r
       (fun s => await_auth config (length (reads s)) s r))).
    { intros pending s3 r3 H3. eapply then_sent_ends; [| exact H3 | intros; by apply auth_ends].
      destruct pending; [apply reads_auth_response | apply reads_send]. }
    destruct r2 as [id|]; [|by apply (Hch None)].
    eapply then_sent_ends; [apply reads_send | done|]. intros s3 H3.
    eapply then_phase_ends; [by apply resume_ok | by apply resume_ends | done|].
    intros [o|pending] s4 r4 H4; [eauto | by apply (Hch pending)].
Qed.
End soundness.

(** The challenge check the configuration asks for. *)
Definition accepts_challenge `{C : Crypto} (config : AuthConfig) (challenge : string) : Prop :=
  match vault_pda config with
  | Some vault => validate_vault_auth_challenge challenge (auth_pubkey config) vault = Ok tt
  | None => validate_maker_auth_challenge challenge = Ok tt
  end.

Lemma build_auth_response_Ok `{C : Crypto} config challenge d :
  build_auth_response config challenge = Ok d ->
  accepts_challenge config challenge /\
  challenge_sign (challenge_signing config) challenge = Ok (ac_signature d) /\
  ac_pubkey d = auth_pubkey config.
Proof.
  unfold build_auth_response, accepts_challenge. intros H. inv_ok H. injection H as <-. simpl.
  split; [|done]. destruct (vault_pda config), v; done.
Qed.

(** C12: An authentication attempt, for every sequence of socket reads and write
    outcomes.  Every message read is published to subscribers, once and in order; a
    signature goes out only for a challenge the server sent and that passed the
    validator of this configuration (maker or vault); the attempt succeeds only on the
    grant the flow expects, the last message read ([AuthSuccess], whose session id is
    kept for a resume, or [VaultAuthSuccess], which leaves it alone); a failed attempt
    keeps or forgets the session id and never invents one; and the attempt ends
    whenever the connection does. *)
Theorem authentication_sound `{C : Crypto} config s resume :
  sent s = [] -> published s = [] ->
  (forall r s' resume', authenticate config s resume = Some (r, s', resume') ->
     (exists c, reads s = c ++ reads s' /\ published s' = messages c) /\
     (forall d, ClientMessage.AuthChallenge d ∈ sent s' ->
        ServerMessage.AuthRequest (ac_challenge d) ∈ published s' /\
        accepts_challenge config (ac_challenge d) /\
        challenge_sign (challenge_signing config) (ac_challenge d) = Ok (ac_signature d) /\
        ac_pubkey d = auth_pubkey config) /\
     (forall o, r = Ok o ->
        match vault_pda config with
        | None => ao_vault o = None /\ exists id, resume' = Some id /\
            last (published s') = Some (ServerMessage.AuthSuccess id)
        | Some _ => resume' = resume /\ exists d, ao_vault o = Some d /\
            last (published s') = Some (ServerMessage.VaultAuthSuccess d)
        end) /\
     (is_ok r = false -> resume' = resume \/ resume' = None)) /\
  (Eof ∈ reads s -> is_Some (authenticate config s resume)).
Proof.
  intros Hs Hp. split; [|apply authenticate_ends]. intros r s' resume' H.
  destruct (authenticate_ok config s resume _ _ _ H) as [(c & l & H1 & H2 & H3 & H4) Hq].
  rewrite Hs in H3. rewrite Hp in H2. simpl in H2, H3. split_and!.
  - by exists c.
  - intros d Hd. rewrite H3 in Hd. rewrite Forall_forall in H4. destruct (H4 _ Hd) as [? Hb].
    split; [done|]. by apply build_auth_response_Ok.
  - intros o ->. destruct Hq as [[? _]|(o' & [= <-] & Hg & _)]; [done|]. unfold granted in Hg.
    destruct (vault_pda config).
    + destruct Hg as (d & ? & ? & ?). eauto.
    + destruct Hg as (? & id & ? & ?). eauto.
  - intros Hf. destruct Hq as [[_ ?]|(o & -> & _)]; done.
Qed.

Module LoginSample.
(** A vault operator answers the challenge of the server and is granted the session. *)
Definition operator : BytesSigner := from_secret (key_of 65).
Definition config : AuthConfig :=
  {| hello := {| he_protocol_version := "1"; he_on_disconnect := CancelQuotes; he_client_name := "operator";
                he_client_version := "1" |};
     auth_pubkey := ChallengeSample.operator; challenge_signing := Local operator;
     vault_pda := Some ChallengeSample.vault |}.
Definition grant : VaultAuthSuccessData :=
  {| va_vault_pda := ChallengeSample.vault; va_operator := ChallengeSample.operator;
     va_operator_kind := Delegate; va_permissions := 2 |}.
Definition socket : Socket :=
  {| reads := [Msg (ServerMessage.Welcome "1"); Msg (ServerMessage.AuthRequest ChallengeSample.challenge);
               Msg (ServerMessage.VaultAuthSuccess grant); Eof];
     writes := []; sent := []; published := [] |}.
End LoginSample.

Lemma authentication_sound_witness :
  exists s', authenticate LoginSample.config LoginSample.socket (Some "old"%string) =
    Some (Ok {| ao_vault := Some LoginSample.grant |}, s', Some "old"%string) /\
  last (published s') = Some (ServerMessage.VaultAuthSuccess LoginSample.grant).
Proof.
  destruct (authentication_sound LoginSample.config LoginSample.socket (Some "old"%string) eq_refl eq_refl)
    as [H _].
  eexists. split; [vm_compute; reflexivity|].
  match goal with |- last (published ?s) = _ =>
    destruct (H (Ok {| ao_vault := Some LoginSample.grant |}) s (Some "old"%string)) as (_ & _ & Hg & _)
  end; [vm_compute; reflexivity|].
  destruct (Hg _ eq_refl) as (_ & d & [= <-] & Hl). exact Hl.
Defined.
