(* ===== verification/Session.v ===== *)
(** * The managed session's life ([src/ws/managed/session.rs], [state.rs], [mod.rs])

    [run_managed_ws] connects, runs one session per connection, and reconnects with a
    backoff until it is told to stop or gives up.  What the network does is an input: each
    turn of the loop is given how the connection attempt, the phases of the session
    and the reconnect window came out.  What the model computes is everything the code
    makes of that: states, events, epochs, credentials, strikes, limits. *)

From Stdlib Require Import ZArith Lia String.
From stdpp Require Import base list gmap strings.
From S2P Require Import Prelude Time Terms Quote Messages Tracker Subscriptions Reconnect Control Login.

Open Scope Z_scope.

Module ManagedWsState.
(* ws/managed/state.rs:3-14 ManagedWsState *)
Inductive t :=
| Connecting
| Connected (connection_epoch : Z)
| Authenticated (connection_epoch : Z)
| Reconciled (connection_epoch : Z)
| Ready (connection_epoch : Z)
| Reconnecting (attempt delay_ms : Z)
| Closed (reason : Reason).
End ManagedWsState.

Module ManagedWsFailureKind.
(* ws/managed/mod.rs:83-94 ManagedWsFailureKind *)
Inductive t := Network | Auth | Readiness | Server.
End ManagedWsFailureKind.

(** [ManagedWsFailure] is its kind: callers decide on the kind, its text is for logs. *)
Module ManagedWsEvent.
(* ws/managed/mod.rs:61-81 ManagedWsEvent *)
Inductive t :=
| Connected
| Authenticated
| Reconciled
| Ready
| Reconnecting (attempt delay_ms : Z)
| Disconnected (close : option (Z * string))
| Error (kind : ManagedWsFailureKind.t)
| UnreadableFrame (frame : UnreadableFrame)
| Terminated (reason : Reason).
End ManagedWsEvent.

(** What leaves the task: a state and the event sent with it, an event, or a state
    replaced without an event. *)
Inductive out :=
| Transition (state : ManagedWsState.t) (event : ManagedWsEvent.t)
| Event (event : ManagedWsEvent.t)
| SetState (state : ManagedWsState.t).

(* ws/managed/mod.rs:51-59 transition_state *)
Definition transition_state (state : ManagedWsState.t) (event : ManagedWsEvent.t) : list out :=
  [Transition state event].

(* ws/managed/session.rs:638-651 terminate *)
Definition terminate (reason : Reason) : list out :=
  transition_state (ManagedWsState.Closed reason) (ManagedWsEvent.Terminated reason).

Definition error (kind : ManagedWsFailureKind.t) : list out := [Event (ManagedWsEvent.Error kind)].

(** How a phase raced against shutdown and its deadline came out. *)
(* ws/managed/session.rs:653-673 Phase, race_shutdown *)
Inductive Phase (A : Type) := ShutdownRequested | TimedOut | Done (a : A).
Arguments ShutdownRequested {A}.
Arguments TimedOut {A}.
Arguments Done {A} a.

(** What the running session reports besides its end. *)
Inductive LoopEvent := LoopError (kind : ManagedWsFailureKind.t) | LoopUnreadable (frame : UnreadableFrame)
| LoopAuthenticated.

Definition loop_event (e : LoopEvent) : out :=
  Event match e with
        | LoopError kind => ManagedWsEvent.Error kind
        | LoopUnreadable frame => ManagedWsEvent.UnreadableFrame frame
        | LoopAuthenticated => ManagedWsEvent.Authenticated
        end.

(** One connection, as its phases came out. [sx_resume] is the session id the
    authentication left, [sx_ping] whether the ping message could be prepared,
    [sx_loop] what the loop reported and how it ended, [sx_elapsed] the time since
    authentication, [sx_tracker] and [sx_subscriptions] what the session left there,
    [sx_close] the server's close frame. *)
Record Session := {
  sx_auth : Phase (AuthOutcome + AuthenticationError.t);
  sx_resume : option string;
  sx_ready : Phase (unit + SessionFailure.t);
  sx_ping : bool;
  sx_loop : list LoopEvent * AuthenticatedSessionEnd.t;
  sx_elapsed : Z;
  sx_tracker : AwaitTracker;
  sx_subscriptions : DesiredSubscriptions;
  sx_close : option (Z * string);
}.

(** A panic of the task is Teardown.v's. *)
(* ws/managed/session.rs:349-483 run_session *)
Definition run_session (epoch : Z) (x : Session) : list out * SessionEnd.t :=
  match sx_auth x with
  | ShutdownRequested => ([], SessionEnd.CloseRequested)
  | TimedOut => (error ManagedWsFailureKind.Auth, SessionEnd.AuthenticationFailed)
  | Done (inr err) =>
      (error ManagedWsFailureKind.Auth,
       match AuthenticationError.termination_reason err with
       | Some reason => SessionEnd.Terminated reason
       | None => SessionEnd.AuthenticationFailed
       end)
  | Done (inl auth) =>
      let outs := transition_state (ManagedWsState.Authenticated epoch) ManagedWsEvent.Authenticated in
      match sx_ready x with
      | ShutdownRequested => (outs, SessionEnd.CloseRequested)
      | TimedOut =>
          (outs ++ error ManagedWsFailureKind.Readiness,
           AuthenticatedSessionEnd.finish AuthenticatedSessionEnd.Disconnected (sx_elapsed x))
      | Done (inr err) =>
          (outs ++ error ManagedWsFailureKind.Readiness,
           AuthenticatedSessionEnd.finish (SessionFailure.into_session_end err) (sx_elapsed x))
      | Done (inl _) =>
          let outs := outs ++
            transition_state (ManagedWsState.Reconciled epoch) ManagedWsEvent.Reconciled ++
            transition_state (ManagedWsState.Ready epoch) ManagedWsEvent.Ready in
          if sx_ping x then
            (outs ++ map loop_event (fst (sx_loop x)) ++ [SetState (ManagedWsState.Connected epoch)],
             AuthenticatedSessionEnd.finish (snd (sx_loop x)) (sx_elapsed x))
          else
            (outs ++ error ManagedWsFailureKind.Server,
             AuthenticatedSessionEnd.finish AuthenticatedSessionEnd.Disconnected (sx_elapsed x))
      end
  end.

(* ws/managed/session.rs:160-172 connection_ended *)
Definition connection_ended (open : bool) (close : option (Z * string)) : list out :=
  if open then [Event (ManagedWsEvent.Disconnected close)] else [].

(* ws/managed/session.rs:23-23 INVALID_SIGNATURE_STRIKE_LIMIT *)
Definition INVALID_SIGNATURE_STRIKE_LIMIT : Z := 3.

(** The variables of the loop. *)
(* ws/managed/session.rs:189-196 run_managed_ws (state) *)
Record Supervisor := {
  sv_tracker : AwaitTracker;
  sv_subscriptions : DesiredSubscriptions;
  sv_backoff : ReconnectBackoff;
  sv_epoch : Z;
  sv_resume : option string;
  sv_strikes : Z;
  sv_pending : option Reason;
}.

(** The fields of [ManagedWsConfig] the loop reads. *)
Record SupervisorConfig := {
  reconnect_delay : Z;
  max_reconnect_delay : Z;
  max_reconnect_attempts : Z;
  max_pending_awaits : nat;
  initial_subscribe : option SubscribeData;
}.

Definition initial_supervisor (config : SupervisorConfig) : Supervisor :=
  {| sv_tracker := Tracker.new (max_pending_awaits config);
     sv_subscriptions := Desired.from_initial (initial_subscribe config);
     sv_backoff := Backoff.new (reconnect_delay config) (max_reconnect_delay config);
     sv_epoch := 0; sv_resume := None; sv_strikes := 0; sv_pending := None |}.

(** How the connection attempt came out. *)
Inductive Attempt := AttemptShutdown | AttemptFailed | AttemptOk (x : Session).

(** One turn of the loop: the attempt, the jittered delay, and whether the reconnect
    window ended by a shutdown (or the loss of a command channel). *)
Record Turn := { t_attempt : Attempt; t_jitter : Z -> Z; t_window : bool }.

Definition strike (reason : Reason) : bool :=
  match reason with
  | ManagedWsTerminationReason.AuthenticationRejected reason _ =>
      String.eqb reason "invalid_signature"
  | _ => false
  end.

(** What the session's end does to the loop: go on with new variables, or return. *)
(* ws/managed/session.rs:250-300 run_managed_ws (match outcome) *)
Definition on_session_end (sv : Supervisor) (outcome : SessionEnd.t)
  : list out * option Supervisor :=
  let update strikes pending resume backoff :=
    {| sv_tracker := sv_tracker sv; sv_subscriptions := sv_subscriptions sv; sv_backoff := backoff;
       sv_epoch := sv_epoch sv; sv_resume := resume; sv_strikes := strikes; sv_pending := pending |} in
  match outcome with
  | SessionEnd.CloseRequested => (terminate ManagedWsTerminationReason.Requested, None)
  | SessionEnd.AuthenticationFailed => ([], Some sv)
  | SessionEnd.Terminated reason =>
      let strikes := if strike reason then sv_strikes sv + 1 else sv_strikes sv in
      if strike reason && (strikes <? INVALID_SIGNATURE_STRIKE_LIMIT) then
        (error ManagedWsFailureKind.Auth,
         Some (update strikes (Some reason) (sv_resume sv) (sv_backoff sv)))
      else (terminate reason, None)
  | SessionEnd.Disconnected authenticated_for clear_resume =>
      ([], Some (update 0 None (if clear_resume then None else sv_resume sv)
                   (fst (Backoff.reset_after_stable_session (sv_backoff sv) authenticated_for))))
  end.

(** The part of the turn before the backoff. *)
(* ws/managed/session.rs:199-308 run_managed_ws (connect) *)
Definition connect_turn (sv : Supervisor) (t : Turn) : list out * option Supervisor :=
  match t_attempt t with
  | AttemptShutdown => (terminate ManagedWsTerminationReason.Requested, None)
  | AttemptFailed => (error ManagedWsFailureKind.Network, Some sv)
  | AttemptOk x =>
      let epoch := wrapping_add 64 (sv_epoch sv) 1 in
      let opened := transition_state (ManagedWsState.Connected epoch) ManagedWsEvent.Connected in
      let '(outs, outcome) := run_session epoch x in
      let closed := connection_ended true (sx_close x) in
      let sv := {| sv_tracker := fst (Tracker.drain_all (sx_tracker x));
                   sv_subscriptions := Desired.connection_lost (sx_subscriptions x);
                   sv_backoff := sv_backoff sv; sv_epoch := epoch; sv_resume := sx_resume x;
                   sv_strikes := sv_strikes sv; sv_pending := sv_pending sv |} in
      let '(more, next) := on_session_end sv outcome in
      (opened ++ outs ++ closed ++ more, next)
  end.

(** [wait_reconnect_window] from [delay]: its state, event and result. *)
(* ws/managed/reconnect_window.rs:11-60 wait_reconnect_window *)
Definition reconnect_window (delay attempt : Z) : list out :=
  let delay_ms := (delay / 1000000) mod 2 ^ 64 in
  transition_state (ManagedWsState.Reconnecting attempt delay_ms)
    (ManagedWsEvent.Reconnecting attempt delay_ms).

(* ws/managed/session.rs:310-345 run_managed_ws (backoff) *)
Definition backoff_turn (config : SupervisorConfig) (sv : Supervisor) (t : Turn)
  : list out * option Supervisor :=
  if Backoff.limit_reached (sv_backoff sv) (max_reconnect_attempts config) then
    let reason :=
      match sv_pending sv with
      | Some rejection => rejection
      | None => ManagedWsTerminationReason.ReconnectLimitReached (max_reconnect_attempts config)
      end in
    (error ManagedWsFailureKind.Network ++ terminate reason, None)
  else
    let '(backoff, (attempt, base_delay)) := Backoff.next_attempt (sv_backoff sv) in
    let outs := reconnect_window (t_jitter t base_delay) attempt in
    let sv := {| sv_tracker := sv_tracker sv; sv_subscriptions := sv_subscriptions sv;
                 sv_backoff := backoff; sv_epoch := sv_epoch sv; sv_resume := sv_resume sv;
                 sv_strikes := sv_strikes sv; sv_pending := sv_pending sv |} in
    if t_window t then (outs ++ terminate ManagedWsTerminationReason.Requested, None)
    else (outs, Some sv).

(* ws/managed/session.rs:198-346 run_managed_ws (loop) *)
Definition turn (config : SupervisorConfig) (sv : Supervisor) (t : Turn)
  : list out * option Supervisor :=
  match connect_turn sv t with
  | (outs, None) => (outs, None)
  | (outs, Some sv) => let '(more, next) := backoff_turn config sv t in (outs ++ more, next)
  end.

(** [None]: the task returned. *)
Fixpoint turns (config : SupervisorConfig) (sv : Supervisor) (ts : list Turn)
  : list out * option Supervisor :=
  match ts with
  | [] => ([], Some sv)
  | t :: ts =>
      match turn config sv t with
      | (outs, None) => (outs, None)
      | (outs, Some sv) => let '(more, end_) := turns config sv ts in (outs ++ more, end_)
      end
  end.

(* ws/managed/session.rs:174-347 run_managed_ws *)
Definition run_managed_ws (config : SupervisorConfig) (ts : list Turn)
  : list out * option Supervisor := turns config (initial_supervisor config) ts.

(** ** Commands by epoch ([mod.rs]) *)

Inductive EpochError := NotReady.

(* ws/managed/mod.rs:294-300 ManagedWsHandle::command_epoch *)
Definition command_epoch (state : ManagedWsState.t) (message : ClientMessage.t)
  : res EpochError (option Z) :=
  match state with
  | ManagedWsState.Ready connection_epoch => Ok (Some connection_epoch)
  | _ => if ClientMessage.requires_ready message then Err NotReady else Ok None
  end.

(* ws/managed/mod.rs:302-307 ManagedWsHandle::ready_epoch *)
Definition ready_epoch (state : ManagedWsState.t) : res EpochError Z :=
  match state with
  | ManagedWsState.Ready connection_epoch => Ok connection_epoch
  | _ => Err NotReady
  end.

(** ** The promise to subscribers

    The lifecycle as an automaton over what leaves the task: epochs count up from 1, a
    connection goes through [Connected], [Authenticated], [Reconciled] and [Ready] in
    this order and ends with one [Disconnected], and [Terminated] is the last thing
    sent, together with the final state. *)
Inductive phase := Idle | Open | Authed | Reconciling | Live | Closing | Over.

#[export] Instance phase_eq_dec : EqDecision phase.
Proof. solve_decision. Defined.

(** [last] is the epoch of the latest connection. *)
Definition observe (st : Z * phase) (o : out) : option (Z * phase) :=
  let '(last, p) := st in
  match p, o with
  | Idle, Transition (ManagedWsState.Connected e) ManagedWsEvent.Connected =>
      if e =? last + 1 then Some (e, Open) else None
  | Idle, Transition (ManagedWsState.Reconnecting a d) (ManagedWsEvent.Reconnecting a' d') =>
      if (a =? a') && (d =? d') then Some (last, Idle) else None
  | Idle, Transition (ManagedWsState.Closed r) (ManagedWsEvent.Terminated r') =>
      if bool_decide (r = r') then Some (last, Over) else None
  | Idle, Event (ManagedWsEvent.Error _) => Some (last, Idle)
  | Open, Transition (ManagedWsState.Authenticated e) ManagedWsEvent.Authenticated =>
      if e =? last then Some (last, Authed) else None
  | Authed, Transition (ManagedWsState.Reconciled e) ManagedWsEvent.Reconciled =>
      if e =? last then Some (last, Reconciling) else None
  | Reconciling, Transition (ManagedWsState.Ready e) ManagedWsEvent.Ready =>
      if e =? last then Some (last, Live) else None
  | (Open | Authed | Live), Event (ManagedWsEvent.Error _) => Some (last, p)
  | Live, Event ManagedWsEvent.Authenticated | Live, Event (ManagedWsEvent.UnreadableFrame _) =>
      Some (last, p)
  | Live, SetState (ManagedWsState.Connected e) => if e =? last then Some (last, Closing) else None
  | (Open | Authed | Reconciling | Live | Closing), Event (ManagedWsEvent.Disconnected _) => Some (last, Idle)
  | _, _ => None
  end.

Fixpoint observes (st : Z * phase) (os : list out) : option (Z * phase) :=
  match os with
  | [] => Some st
  | o :: os => match observe st o with Some st => observes st os | None => None end
  end.

Lemma observes_app st a b :
  observes st (a ++ b) = match observes st a with Some st => observes st b | None => None end.
Proof. revert st. induction a as [|o a IH]; intros st; simpl; [done|]. by destruct (observe st o). Qed.

Lemma observes_loop n evs : observes (n, Live) (map loop_event evs) = Some (n, Live).
Proof. induction evs as [|e evs IH]; [done|]. by destruct e. Qed.

(** A session leaves its connection in a phase from which it can be closed. *)
Lemma run_session_observes n x outs e :
  run_session n x = (outs, e) ->
  exists p, observes (n, Open) outs = Some (n, p) /\
    forall close, observe (n, p) (Event (ManagedWsEvent.Disconnected close)) = Some (n, Idle).
Proof.
  unfold run_session. destruct (sx_auth x) as [| |[auth|err]]; try (intros [= <- <-]; by exists Open).
  destruct (sx_ready x) as [| |[u|err]]; simpl;
    try (intros [= <- <-]; exists Authed; simpl; by rewrite !Z.eqb_refl).
  destruct (sx_ping x); intros [= <- <-].
  - exists Closing. do 3 (cbn [observes observe]; rewrite !Z.eqb_refl).
    rewrite observes_app, observes_loop. simpl. by rewrite Z.eqb_refl.
  - exists Live. do 3 (cbn [observes observe]; rewrite !Z.eqb_refl). done.
Qed.

Lemma terminate_observes n r : observes (n, Idle) (terminate r) = Some (n, Over).
Proof. simpl. by rewrite bool_decide_true. Qed.

Lemma window_observes n d a : observes (n, Idle) (reconnect_window d a) = Some (n, Idle).
Proof. simpl. by rewrite !Z.eqb_refl. Qed.

(** A part of a turn observed from [Idle]: from epoch [n] to [m], ending in [Over]
    exactly if the task returned. *)
Definition stage (n m : Z) (r : list out * option Supervisor) : Prop :=
  match snd r with
  | None => observes (n, Idle) (fst r) = Some (m, Over)
  | Some sv => observes (n, Idle) (fst r) = Some (m, Idle) /\ sv_epoch sv = m
  end.

Lemma session_end_stage sv e : stage (sv_epoch sv) (sv_epoch sv) (on_session_end sv e).
Proof.
  unfold stage. destruct e; simpl; try done.
  destruct (_ && _); simpl; [done|]. by rewrite bool_decide_true.
Qed.

Lemma backoff_stage config sv t : stage (sv_epoch sv) (sv_epoch sv) (backoff_turn config sv t).
Proof.
  unfold stage, backoff_turn. destruct (Backoff.limit_reached _ _).
  - simpl. by rewrite bool_decide_true.
  - destruct (Backoff.next_attempt _) as [b [a d]]. destruct (t_window t); simpl;
      rewrite !Z.eqb_refl; simpl; done.
Qed.

Definition connects (t : Turn) : Z := match t_attempt t with AttemptOk _ => 1 | _ => 0 end.

Lemma connect_stage sv t :
  0 <= sv_epoch sv < 2 ^ 64 - 1 -> stage (sv_epoch sv) (sv_epoch sv + connects t) (connect_turn sv t).
Proof.
  intros Hf. unfold connect_turn, connects. destruct (t_attempt t) as [| |x].
  - unfold stage. rewrite Z.add_0_r. apply terminate_observes.
  - unfold stage. by rewrite Z.add_0_r.
  - assert (wrapping_add 64 (sv_epoch sv) 1 = sv_epoch sv + 1) as ->
      by (unfold wrapping_add; apply Z.mod_small; lia).
    destruct (run_session (sv_epoch sv + 1) x) as [outs e] eqn:Hx.
    destruct (run_session_observes _ _ _ _ Hx) as (p & Ho & Hc).
    set (sv' := {| sv_epoch := _ |}). pose proof (session_end_stage sv' e) as Hs.
    destruct (on_session_end sv' e) as [more next]. unfold stage in *. cbn [fst snd] in *.
    assert (observes (sv_epoch sv, Idle) (transition_state (ManagedWsState.Connected (sv_epoch sv + 1))
      ManagedWsEvent.Connected ++ outs ++ connection_ended true (sx_close x) ++ more) =
      observes (sv_epoch sv + 1, Idle) more) as ->; [|done].
    simpl. rewrite Z.eqb_refl, observes_app, Ho. cbn [observes]. by rewrite Hc.
Qed.

Lemma turn_stage config sv t :
  0 <= sv_epoch sv < 2 ^ 64 - 1 -> stage (sv_epoch sv) (sv_epoch sv + connects t) (turn config sv t).
Proof.
  intros Hf. pose proof (connect_stage sv t Hf) as Hc. unfold turn, stage in *.
  destruct (connect_turn sv t) as [outs [sv1|]]; cbn [fst snd] in *; [|done].
  destruct Hc as [Ho He]. pose proof (backoff_stage config sv1 t) as Hb. unfold stage in Hb.
  destruct (backoff_turn config sv1 t) as [more next]. cbn [fst snd] in *.
  by rewrite observes_app, Ho, <- He.
Qed.

Lemma turns_stage config sv ts :
  0 <= sv_epoch sv -> sv_epoch sv + Z.of_nat (length ts) < 2 ^ 64 - 1 ->
  exists m, sv_epoch sv <= m <= sv_epoch sv + Z.of_nat (length ts) /\
    stage (sv_epoch sv) m (turns config sv ts).
Proof.
  revert sv. induction ts as [|t ts IH]; intros sv H0 Hf.
  - exists (sv_epoch sv). split; [simpl; lia|done].
  - cbn [length] in Hf. pose proof (turn_stage config sv t) as Ht. cbn [turns].
    unfold stage in *. destruct (turn config sv t) as [outs [sv1|]]; cbn [fst snd] in *.
    + destruct Ht as [Ho He]; [lia|]. assert (0 <= connects t <= 1) by (unfold connects; case_match; lia).
      destruct (IH sv1) as (m & Hm & Hs); [lia..|]. destruct (turns config sv1 ts) as [more end_].
      cbn [fst snd] in *. exists m. cbn [length]. split; [lia|]. by rewrite observes_app, Ho, <- He.
    + exists (sv_epoch sv + connects t). assert (0 <= connects t <= 1) by (unfold connects; case_match; lia).
      cbn [length]. split; [lia|]. apply Ht. lia.
Qed.

Definition is_terminated (o : out) : bool :=
  match o with
  | Transition _ (ManagedWsEvent.Terminated _) | Event (ManagedWsEvent.Terminated _) => true
  | _ => false
  end.

(** The automaton accepts one termination, with its state, and nothing after it. *)
Lemma observe_step l p o st :
  observe (l, p) o = Some st ->
  p <> Over /\
  if bool_decide (snd st = Over)
  then exists r, o = Transition (ManagedWsState.Closed r) (ManagedWsEvent.Terminated r)
  else is_terminated o = false.
Proof.
  unfold observe. intros H. repeat case_match; simplify_eq; simpl; try done.
  split; [done|]. eexists. f_equal. match goal with H : bool_decide _ = true |- _ =>
    apply bool_decide_eq_true in H as -> end. done.
Qed.

Lemma observes_terminated st os n p :
  observes st os = Some (n, p) -> snd st <> Over ->
  if bool_decide (p = Over)
  then exists pre r, os = pre ++ [Transition (ManagedWsState.Closed r) (ManagedWsEvent.Terminated r)] /\
         Forall (fun o => is_terminated o = false) pre
  else Forall (fun o => is_terminated o = false) os.
Proof.
  revert st. induction os as [|o os IH]; intros [l q] H Hq; cbn [observes] in H.
  - injection H as <- <-. simpl in Hq. rewrite bool_decide_false by done. constructor.
  - destruct (observe (l, q) o) as [[l1 q1]|] eqn:E; [|done].
    destruct (observe_step _ _ _ _ E) as [_ Ho]. simpl in Ho. destruct (decide (q1 = Over)) as [->|Hn].
    + rewrite bool_decide_true in Ho by done. destruct Ho as [r ->].
      destruct os as [|o' os]; [|done]. injection H as <- <-. exists [], r. done.
    + rewrite bool_decide_false in Ho by done. specialize (IH _ H Hn).
      destruct (bool_decide (p = Over)); [|by constructor].
      destruct IH as (pre & r & -> & Hf). exists (o :: pre), r. split; [done|]. by constructor.
Qed.

(** C10: The life of a managed connection, for every sequence of connection results,
    session results and reconnect windows.  What subscribers see follows the
    lifecycle automaton: connection epochs count up from 1; each connection is
    authenticated, reconciled and made ready in this order and in its own epoch; it
    ends with exactly one [Disconnected] before the next connection or the end.  While
    the task runs no [Terminated] has been sent, and when it has returned its last
    output is the final state [Closed] with the matching [Terminated] event, the only
    one. *)
Theorem lifecycle_is_observed config ts :
  Z.of_nat (length ts) < 2 ^ 64 - 1 ->
  let '(outs, end_) := run_managed_ws config ts in
  exists n, 0 <= n <= Z.of_nat (length ts) /\
    match end_ with
    | Some sv => observes (0, Idle) outs = Some (n, Idle) /\ sv_epoch sv = n /\
        Forall (fun o => is_terminated o = false) outs
    | None => observes (0, Idle) outs = Some (n, Over) /\
        exists pre r, Forall (fun o => is_terminated o = false) pre /\
          outs = pre ++ [Transition (ManagedWsState.Closed r) (ManagedWsEvent.Terminated r)]
    end.
Proof.
  intros Hl. destruct (turns_stage config (initial_supervisor config) ts) as (m & Hm & Hs);
    [simpl; lia..|]. change (turns config (initial_supervisor config) ts) with (run_managed_ws config ts) in Hs.
  destruct (run_managed_ws config ts) as [outs end_]. unfold stage in Hs. cbn in Hm, Hs.
  exists m. split; [lia|]. destruct end_ as [sv|].
  - destruct Hs as [Ho He]. split; [done|]. split; [done|]. by apply (observes_terminated _ _ _ _ Ho).
  - split; [done|]. destruct (observes_terminated _ _ _ _ Hs) as (pre & r & H1 & H2); [done|]. eauto.
Qed.

Module SessionSample.
Definition config : SupervisorConfig :=
  {| reconnect_delay := 250000000; max_reconnect_delay := 5000000000; max_reconnect_attempts := 2;
     max_pending_awaits := 4; initial_subscribe := None |}.
Definition session : Session :=
  {| sx_auth := Done (inl {| ao_vault := None |}); sx_resume := Some "s1"%string;
     sx_ready := Done (inl tt); sx_ping := true;
     sx_loop := ([LoopError ManagedWsFailureKind.Network], AuthenticatedSessionEnd.Disconnected);
     sx_elapsed := 1000; sx_tracker := Tracker.new 4; sx_subscriptions := Desired.from_initial None;
     sx_close := None |}.
Definition turn_ok : Turn := {| t_attempt := AttemptOk session; t_jitter := id; t_window := false |}.
Definition turn_failed : Turn := {| t_attempt := AttemptFailed; t_jitter := id; t_window := false |}.
End SessionSample.

Lemma lifecycle_is_observed_witness :
  exists pre r, Forall (fun o => is_terminated o = false) pre /\
    fst (run_managed_ws SessionSample.config
      [SessionSample.turn_ok; SessionSample.turn_failed; SessionSample.turn_ok]) =
    pre ++ [Transition (ManagedWsState.Closed r) (ManagedWsEvent.Terminated r)].
Proof.
  pose proof (lifecycle_is_observed SessionSample.config
    [SessionSample.turn_ok; SessionSample.turn_failed; SessionSample.turn_ok] ltac:(simpl; lia)) as H.
  vm_compute in H. destruct H as (n & _ & _ & pre & r & H1 & H2). exists pre, r. split; [exact H1|].
  vm_compute. exact H2.
Defined.

(** ** Giving up *)

(** The session of the turn, if there is one, did not last the maximum delay. *)
Definition unstable (config : SupervisorConfig) (t : Turn) : Prop :=
  match t_attempt t with AttemptOk x => sx_elapsed x < max_reconnect_delay config | _ => True end.

Definition turn_end (t : Turn) : option SessionEnd.t :=
  match t_attempt t with AttemptOk x => Some (snd (run_session 0 x)) | _ => None end.

(** The connection was refused with [invalid_signature]. *)
Definition is_strike (t : Turn) : bool :=
  match turn_end t with Some (SessionEnd.Terminated r) => strike r | _ => false end.

(** The connection was authenticated and lost, which clears the strikes. *)
Definition is_disconnect (t : Turn) : bool :=
  match turn_end t with Some (SessionEnd.Disconnected _ _) => true | _ => false end.

Definition count_strikes (ts : list Turn) : Z := Z.of_nat (length (List.filter is_strike ts)).

Lemma run_session_end n x : snd (run_session n x) = snd (run_session 0 x).
Proof. unfold run_session. by repeat case_match. Qed.

Lemma session_end_elapsed n x d c :
  snd (run_session n x) = SessionEnd.Disconnected d c -> d = sx_elapsed x.
Proof.
  unfold run_session. intros H. repeat case_match; simpl in H; try discriminate;
    unfold AuthenticatedSessionEnd.finish in H; repeat case_match; by simplify_eq.
Qed.

(** The loop's variables between turns. *)
Definition steady (config : SupervisorConfig) (sv : Supervisor) : Prop :=
  maximum (sv_backoff sv) = max_reconnect_delay config /\ 0 <= attempts (sv_backoff sv) /\
  0 <= sv_strikes sv < INVALID_SIGNATURE_STRIKE_LIMIT.

Lemma initial_steady config : steady config (initial_supervisor config).
Proof. by unfold steady. Qed.

(** What one turn that goes on does to the backoff and the strikes. *)
Lemma turn_continues config sv t outs sv' :
  turn config sv t = (outs, Some sv') -> steady config sv -> fits 64 (max_reconnect_attempts config) ->
  steady config sv' /\
  (0 < max_reconnect_attempts config -> unstable config t ->
     attempts (sv_backoff sv) < max_reconnect_attempts config /\
     attempts (sv_backoff sv') = attempts (sv_backoff sv) + 1) /\
  (is_disconnect t = false ->
     sv_strikes sv' = sv_strikes sv + (if is_strike t then 1 else 0) /\
     (is_strike t = true -> sv_strikes sv' < INVALID_SIGNATURE_STRIKE_LIMIT)).
Proof.
  intros H (Hm & Hat & Hsv) Hfit. unfold turn in H.
  destruct (connect_turn sv t) as [o1 [sv1|]] eqn:Hc; [|done].
  assert (Hb : (sv_backoff sv1 = sv_backoff sv \/ sv_backoff sv1 = Backoff.reset (sv_backoff sv) /\ ~ unstable config t) /\
    0 <= sv_strikes sv1 < INVALID_SIGNATURE_STRIKE_LIMIT /\
    (is_disconnect t = false -> sv_strikes sv1 = sv_strikes sv + (if is_strike t then 1 else 0) /\
       (is_strike t = true -> sv_strikes sv1 < INVALID_SIGNATURE_STRIKE_LIMIT))).
  { unfold connect_turn in Hc. unfold unstable, is_disconnect, is_strike, turn_end in *.
    destruct (t_attempt t) as [| |x]; simplify_eq/=; [by split; [left|split; [|split; [lia|]]]|].
    set (n := wrapping_add 64 (sv_epoch sv) 1) in *.
    pose proof (run_session_end n x) as He. pose proof (session_end_elapsed n x) as Hd.
    destruct (run_session n x) as [outs1 e]. simpl in He, Hd. rewrite <- He.
    destruct e as [| |r|d c]; simpl in Hc; simplify_eq/=; try (by split; [left|split; [|split; [lia|]]]).
    - destruct (strike r) eqn:Hst; simpl in Hc; [|done].
      destruct (Z.ltb_spec (sv_strikes sv + 1) INVALID_SIGNATURE_STRIKE_LIMIT); simplify_eq/=.
      split; [by left|]. split; [lia|]. by split.
    - split; [|by split]. unfold Backoff.reset_after_stable_session.
      rewrite (Hd _ _ eq_refl), Hm. destruct (Z.ltb_spec (sx_elapsed x) (max_reconnect_delay config)); [by left|right].
      split; [done|lia]. }
  destruct Hb as (Hb & Hst & Hs). unfold backoff_turn in H.
  destruct (Backoff.limit_reached (sv_backoff sv1) _) eqn:Hl; simplify_eq/=.
  destruct (t_window t); simplify_eq/=. split; [|split; [|done]].
  - unfold steady. cbn. destruct Hb as [->|[-> _]]; cbn; unfold saturating_add, umax; split_and!; try done; lia.
  - intros H0 Hu. destruct Hb as [Hb|[_ []]]; [rewrite Hb in *|done].
    unfold Backoff.limit_reached in Hl. unfold saturating_add, umax, fits in *. simpl.
    destruct (Z.ltb_spec 0 (max_reconnect_attempts config)); [|lia]. simpl in Hl.
    apply Z.leb_gt in Hl. lia.
Qed.

Lemma turns_continue config sv ts outs sv' :
  turns config sv ts = (outs, Some sv') -> steady config sv -> fits 64 (max_reconnect_attempts config) ->
  steady config sv' /\
  (0 < max_reconnect_attempts config -> Forall (unstable config) ts -> ts <> [] ->
     attempts (sv_backoff sv) + Z.of_nat (length ts) <= max_reconnect_attempts config) /\
  (forallb (fun t => negb (is_disconnect t)) ts = true -> sv_strikes sv' = sv_strikes sv + count_strikes ts).
Proof.
  revert sv outs. induction ts as [|t ts IH]; intros sv outs H Hm Hf; cbn [turns] in H.
  - injection H as <- <-. split; [done|]. split; [done|]. unfold count_strikes. simpl. lia.
  - destruct (turn config sv t) as [o1 [sv1|]] eqn:Ht; [|done].
    destruct (turns config sv1 ts) as [o2 e2] eqn:Hts. injection H as <- ->.
    destruct (turn_continues _ _ _ _ _ Ht Hm Hf) as (Hm1 & Ha1 & Hs1).
    destruct (IH _ _ Hts Hm1 Hf) as (Hm2 & Ha2 & Hs2). split; [done|]. split.
    + intros H0 Hu _. apply Forall_cons in Hu as [Hu1 Hu2]. destruct (Ha1 H0 Hu1).
      destruct ts as [|t' ts]; [cbn [length]; lia|]. specialize (Ha2 H0 Hu2 ltac:(done)). cbn [length] in *. lia.
    + intros Hd. cbn [forallb] in Hd. apply andb_prop in Hd as [Hd1 Hd2].
      apply negb_true_iff in Hd1. destruct (Hs1 Hd1) as [Hs _]. rewrite (Hs2 Hd2), Hs.
      unfold count_strikes. cbn [List.filter]. destruct (is_strike t); cbn [length]; lia.
Qed.

(** Turns after turns. *)
Lemma turns_app config sv a b :
  snd (turns config sv (a ++ b)) =
    match snd (turns config sv a) with Some sv => snd (turns config sv b) | None => None end.
Proof.
  revert sv. induction a as [|t a IH]; intros sv; cbn [app turns]; [done|].
  destruct (turn config sv t) as [o [sv1|]]; [|done]. specialize (IH sv1).
  destruct (turns config sv1 (a ++ b)), (turns config sv1 a). exact IH.
Qed.

(** C11: A managed connection does not retry for ever, at the start of the task or later.
    After any earlier turns: with a limit of [m > 0] attempts, the task has returned after
    [m + 1] more turns in which no session lasts the maximum reconnect delay; and in any
    stretch of turns without an authenticated session that was lost, at most two
    connections are refused with [invalid_signature] while the task still runs. *)
Theorem retries_are_bounded config earlier ts :
  fits 64 (max_reconnect_attempts config) ->
  (0 < max_reconnect_attempts config < Z.of_nat (length ts) -> Forall (unstable config) ts ->
     snd (run_managed_ws config (earlier ++ ts)) = None) /\
  (forallb (fun t => negb (is_disconnect t)) ts = true ->
     snd (run_managed_ws config (earlier ++ ts)) <> None -> count_strikes ts <= 2).
Proof.
  intros Hf. unfold run_managed_ws. rewrite turns_app.
  destruct (turns config (initial_supervisor config) earlier) as [o0 [sv0|]] eqn:H0; simpl; [|done].
  apply turns_continue in H0 as (Hst & _); [|by apply initial_steady|done].
  destruct (turns config sv0 ts) as [outs [sv|]] eqn:H; simpl; [|done].
  destruct (turns_continue _ _ _ _ _ H Hst Hf) as ((_ & _ & Hs2) & Ha & Hs). destruct Hst as (_ & Hat & Hs1). split.
  - intros [Hp Hlt] Hu. destruct ts as [|t ts]; [simpl in Hlt; lia|]. specialize (Ha Hp Hu ltac:(done)). lia.
  - intros Hd _. specialize (Hs Hd). unfold INVALID_SIGNATURE_STRIKE_LIMIT in *. lia.
Qed.

Lemma retries_are_bounded_witness :
  snd (run_managed_ws SessionSample.config
    ([] ++ [SessionSample.turn_ok; SessionSample.turn_failed; SessionSample.turn_ok])) = None.
Proof.
  apply (retries_are_bounded SessionSample.config []
    [SessionSample.turn_ok; SessionSample.turn_failed; SessionSample.turn_ok]).
  - split; vm_compute; congruence.
  - simpl. lia.
  - repeat constructor.
Defined.
