(* ===== verification/Running.v ===== *)
(** * The running session ([session_io.rs], [session_message.rs], the loop of [session.rs])

    Once ready, a session is a loop over whatever happens next: a command, a frame, a
    timer, the writer's receipts.  The model is a transition system over these labels,
    composed with the writer task of Writer.v, the awaited replies of Tracker.v and the
    subscription target of Subscriptions.v.  A oneshot channel is its identity; the ones
    the loop itself creates are numbered from [r_next]. *)

From Stdlib Require Import ZArith Lia String.
From stdpp Require Import base list gmap strings.
From S2P Require Import Prelude Time Terms Quote Rows Messages Tracker Subscriptions Outcome Writer Control Session.

Open Scope Z_scope.

Module ManagedWsError.
(** Without the wrapped library errors. *)
(* ws/managed/mod.rs:112-135 ManagedWsError *)
Inductive t :=
| Closed | QueueFull | SubscriptionPending | NotReady | Disconnected | WriteTimeout | Write
| TaskJoin | InvalidMessage.
#[global] Instance t_eq_dec : EqDecision t.
Proof. solve_decision. Defined.
End ManagedWsError.

(** [message] is the prepared message: its lane and its subscription change are
    functions of it (see [PreparedClientMessage::new]). *)
(* ws/managed/mod.rs:162-175 ManagedCommand *)
Inductive ManagedCommand :=
| Send (message : ClientMessage.t) (connection_epoch : option Z) (tx : nat)
| SendAwait (await_id : Z) (message : ClientMessage.t) (connection_epoch : option Z)
    (registration : list CorrelationKey) (tx : nat).

(** What is sent through a caller's oneshot channel. *)
Inductive Reply :=
| SendFailed (e : ManagedWsError.t)
| AwaitFailed (e : SendAwaitError.t)
| AwaitOk (m : ServerMessage.t).

(** What the inbound ring receives. *)
Inductive InboundItem := Message (sequence : Z) (m : ServerMessage.t) | Unreadable.

(* ws/managed/session.rs:485-491 run_session (loop variables) *)
Record Running := {
  r_lanes : Writer;
  r_tracker : AwaitTracker;
  r_subs : DesiredSubscriptions;
  r_sub_written : option nat;
  r_sub_deadline : option Z;
  r_ping_written : option nat;
  r_pong_deadline : option Z;
  r_sequence : Z;
  r_next : nat;
  r_inbound : list InboundItem;
  r_events : list LoopEvent;
  r_replies : list (nat * Reply);
}.

(** [subscription.as_ref().map(|_| oneshot::channel())]. *)
Definition with_lanes (r : Running) (w : Writer) : Running :=
  {| r_lanes := w; r_tracker := r_tracker r; r_subs := r_subs r; r_sub_written := r_sub_written r;
     r_sub_deadline := r_sub_deadline r; r_ping_written := r_ping_written r;
     r_pong_deadline := r_pong_deadline r; r_sequence := r_sequence r; r_next := r_next r;
     r_inbound := r_inbound r; r_events := r_events r; r_replies := r_replies r |}.

Definition with_tracker (r : Running) (t : AwaitTracker) : Running :=
  {| r_lanes := r_lanes r; r_tracker := t; r_subs := r_subs r; r_sub_written := r_sub_written r;
     r_sub_deadline := r_sub_deadline r; r_ping_written := r_ping_written r;
     r_pong_deadline := r_pong_deadline r; r_sequence := r_sequence r; r_next := r_next r;
     r_inbound := r_inbound r; r_events := r_events r; r_replies := r_replies r |}.

Definition reply (r : Running) (tx : nat) (x : Reply) : Running :=
  {| r_lanes := r_lanes r; r_tracker := r_tracker r; r_subs := r_subs r;
     r_sub_written := r_sub_written r; r_sub_deadline := r_sub_deadline r;
     r_ping_written := r_ping_written r; r_pong_deadline := r_pong_deadline r;
     r_sequence := r_sequence r; r_next := r_next r; r_inbound := r_inbound r;
     r_events := r_events r; r_replies := r_replies r ++ [(tx, x)] |}.

Definition report (r : Running) (e : LoopEvent) : Running :=
  {| r_lanes := r_lanes r; r_tracker := r_tracker r; r_subs := r_subs r;
     r_sub_written := r_sub_written r; r_sub_deadline := r_sub_deadline r;
     r_ping_written := r_ping_written r; r_pong_deadline := r_pong_deadline r;
     r_sequence := r_sequence r; r_next := r_next r; r_inbound := r_inbound r;
     r_events := r_events r ++ [e]; r_replies := r_replies r |}.

(** A subscription change was queued: it becomes the target, and its receipt is
    awaited. *)
Definition started (r : Running) (subscription : option SubscriptionChange.t) : Running :=
  match subscription with
  | None => r
  | Some change =>
      {| r_lanes := r_lanes r; r_tracker := r_tracker r; r_subs := Desired.begin (r_subs r) change;
         r_sub_written := Some (r_next r); r_sub_deadline := r_sub_deadline r;
         r_ping_written := r_ping_written r; r_pong_deadline := r_pong_deadline r;
         r_sequence := r_sequence r; r_next := S (r_next r); r_inbound := r_inbound r;
         r_events := r_events r; r_replies := r_replies r |}
  end.

Definition epoch_differs (connection_epoch : option Z) (current_epoch : Z) : bool :=
  match connection_epoch with Some epoch => negb (epoch =? current_epoch) | None => false end.

Definition blocked (r : Running) (subscription : option SubscriptionChange.t) : bool :=
  match subscription with Some _ => Desired.has_pending (r_subs r) | None => false end.

(** The receipt channel of a subscription change. *)
Definition receipt_of (r : Running) (subscription : option SubscriptionChange.t) : option nat :=
  match subscription with Some _ => Some (r_next r) | None => None end.

(** [is_closed] says which callers have gone away. *)
(* ws/managed/session_io.rs:15-115 handle_command *)
Definition handle_command (is_closed : nat -> bool) (current_epoch : Z) (r : Running)
  (maybe_cmd : option ManagedCommand) : Running * option AuthenticatedSessionEnd.t :=
  match maybe_cmd with
  | Some (Send message connection_epoch tx) =>
      if is_closed tx then (r, None)
      else if epoch_differs connection_epoch current_epoch
      then (reply r tx (SendFailed ManagedWsError.NotReady), None)
      else
        let subscription := SubscriptionChange.from_message message in
        if blocked r subscription
        then (reply r tx (SendFailed ManagedWsError.SubscriptionPending), None)
        else
          let '(lanes, res) :=
            Lanes.frame_with_receipt (r_lanes r) message (Some tx) (receipt_of r subscription) in
          let r := with_lanes r lanes in
          match res with
          | Ok _ => (started r subscription, None)
          | Err (LaneFull.Full, done) =>
              (match done with
               | Some tx => reply r tx (SendFailed ManagedWsError.QueueFull)
               | None => r end, None)
          | Err (LaneFull.Closed, done) =>
              (match done with
               | Some tx => reply r tx (SendFailed ManagedWsError.Disconnected)
               | None => r end, Some AuthenticatedSessionEnd.Disconnected)
          | Panic => (r, None)
          end
  | Some (SendAwait await_id message connection_epoch registration tx) =>
      if is_closed tx then (r, None)
      else if epoch_differs connection_epoch current_epoch
      then (reply r tx (AwaitFailed SendAwaitError.NotReady), None)
      else
        let subscription := SubscriptionChange.from_message message in
        if blocked r subscription
        then (reply r tx (AwaitFailed SendAwaitError.SubscriptionPending), None)
        else
          let '(tracker, res) := Tracker.register is_closed (r_tracker r) await_id registration tx in
          let r := with_tracker r tracker in
          match res with
          | Err (err, tx) => (reply r tx (AwaitFailed err), None)
          | Panic => (r, None)
          | Ok _ =>
              let '(lanes, res) :=
                Lanes.frame_with_receipt (r_lanes r) message None (receipt_of r subscription) in
              let r := with_lanes r lanes in
              let answer_failed e :=
                let '(tracker, sender) := Tracker.cancel (r_tracker r) await_id in
                let r := with_tracker r tracker in
                match sender with Some tx => reply r tx (AwaitFailed e) | None => r end in
              match res with
              | Ok _ => (started r subscription, None)
              | Err (LaneFull.Full, _) => (answer_failed SendAwaitError.QueueFull, None)
              | Err (LaneFull.Closed, _) =>
                  (answer_failed SendAwaitError.Disconnected, Some AuthenticatedSessionEnd.Disconnected)
              | Panic => (r, None)
              end
          end
  | None => (r, Some AuthenticatedSessionEnd.CloseRequested)
  end.

(** ** Disposal of a command *)

Definition tx_of (c : ManagedCommand) : nat :=
  match c with Send _ _ tx => tx | SendAwait _ _ _ _ tx => tx end.
Definition message_of (c : ManagedCommand) : ClientMessage.t :=
  match c with Send m _ _ => m | SendAwait _ m _ _ _ => m end.
Definition epoch_of (c : ManagedCommand) : option Z :=
  match c with Send _ e _ => e | SendAwait _ _ e _ _ => e end.

(** The caller's channel, as far as the tracker is concerned. *)
Definition awaiting (t : AwaitTracker) (c : ManagedCommand) : option PendingAwait :=
  match c with Send _ _ _ => None | SendAwait id _ _ _ _ => by_id t !! id end.

Definition registered (c : ManagedCommand) : option PendingAwait :=
  match c with
  | Send _ _ _ => None
  | SendAwait _ _ _ keys tx => Some {| pa_keys := keys; pa_tx := tx |}
  end.

Definition ticket (c : ManagedCommand) : option nat :=
  match c with Send _ _ tx => Some tx | SendAwait _ _ _ _ _ => None end.

(** The command was answered, and nothing else happened but pruning. *)
Definition answered (r : Running) (c : ManagedCommand) (r' : Running) : Prop :=
  exists x, r_replies r' = r_replies r ++ [(tx_of c, x)] /\ r_lanes r' = r_lanes r /\
    r_subs r' = r_subs r /\ awaiting (r_tracker r') c = None.

(** The command was queued, unanswered; its caller waits for the write, or for the
    server's reply. *)
Definition queued (epoch : Z) (r : Running) (c : ManagedCommand) (r' : Running) : Prop :=
  let change := SubscriptionChange.from_message (message_of c) in
  r_replies r' = r_replies r /\
  r_lanes r' = accept (r_lanes r) (Lane.of_message (message_of c))
                 (WriterCommand.Frame (message_of c) (ticket c) (receipt_of r change)) /\
  epoch_differs (epoch_of c) epoch = false /\ blocked r change = false /\
  r_subs r' = match change with Some s => Desired.begin (r_subs r) s | None => r_subs r end /\
  awaiting (r_tracker r') c = registered c.

Lemma frame_cases w m done rc w' res :
  Lanes.frame_with_receipt w m done rc = (w', res) ->
  (res = Ok tt /\ is_ended w = false /\
     w' = accept w (Lane.of_message m) (WriterCommand.Frame m done rc)) \/
  (res = Err (LaneFull.Full, done) /\ is_ended w = false /\ w' = w) \/
  (res = Err (LaneFull.Closed, done) /\ is_ended w = true /\ w' = w).
Proof.
  unfold Lanes.frame_with_receipt, Lanes.enqueue. destruct (is_ended w) eqn:He; simpl.
  - intros [= <- <-]. auto.
  - destruct (_ <=? _)%nat; intros [= <- <-]; auto.
Qed.

Lemma register_cases f t id keys tx t' res :
  tracker_inv t -> by_id t !! id = None -> Tracker.register f t id keys tx = (t', res) ->
  tracker_inv t' /\
  ((res = Ok tt /\ by_id t' !! id = Some {| pa_keys := keys; pa_tx := tx |}) \/
   (exists e, res = Err (e, tx)) /\ by_id t' !! id = None).
Proof.
  intros Hi Hid H. destruct (register_spec _ _ _ _ _ _ _ Hi Hid H) as (Hi' & _ & _ & _).
  split; [done|]. unfold Tracker.register in H.
  set (t1 := if _ || _ then Tracker.prune_closed f t else t) in H.
  assert (H1 : by_id t1 !! id = None).
  { unfold t1. destruct (_ || _); [|done]. destruct (prune_frame f t) as [_ Hd].
    apply eq_None_not_Some. intros Hs. apply Hd in Hs as [? Hs]. congruence. }
  destruct (Tracker.at_limit t1); [injection H as <- <-; eauto|].
  destruct (Tracker.key_taken t1 keys); [injection H as <- <-; eauto|].
  injection H as <- <-. left. split; [done|]. simpl. by rewrite lookup_insert_eq.
Qed.

Lemma cancel_none t id : by_id (fst (Tracker.cancel t id)) !! id = None.
Proof. unfold Tracker.cancel. destruct (by_id t !! id) eqn:E; simpl; [by rewrite lookup_delete_eq|done]. Qed.

(** C8: What the running session does with a command whose caller still waits.  It is
    disposed of in exactly one of two ways: answered at once, with nothing queued, the
    subscription target untouched and no awaiter left behind; or queued on its lane
    with no answer yet, its ticket in the frame or its awaiter registered, and its
    subscription change, if it is one, made the target.  A command bound to another
    connection epoch, or a subscription change while another is unacknowledged, is
    never queued, and the session ends only when the writer is gone. *)
Theorem command_disposed_once is_closed epoch r c :
  tracker_inv (r_tracker r) -> awaiting (r_tracker r) c = None -> is_closed (tx_of c) = false ->
  let '(r', end_) := handle_command is_closed epoch r (Some c) in
  tracker_inv (r_tracker r') /\
  (answered r c r' \/ queued epoch r c r') /\ ~ (answered r c r' /\ queued epoch r c r') /\
  (epoch_differs (epoch_of c) epoch = true \/
     blocked r (SubscriptionChange.from_message (message_of c)) = true -> answered r c r') /\
  (end_ <> None -> is_ended (r_lanes r) = true).
Proof.
  intros Hi Hn Hc.
  assert (Hexcl : forall r', ~ (answered r c r' /\ queued epoch r c r')).
  { intros r' [(x & Hx & _) (Hq & _)]. rewrite Hq in Hx. apply (f_equal length) in Hx.
    rewrite length_app in Hx. simpl in Hx. lia. }
  assert (Hmain : let '(r', end_) := handle_command is_closed epoch r (Some c) in
    tracker_inv (r_tracker r') /\ (answered r c r' \/ queued epoch r c r') /\
    (end_ <> None -> is_ended (r_lanes r) = true)).
  { unfold handle_command. destruct c as [m e tx|id m e keys tx]; simpl in Hn, Hc; rewrite Hc.
    - destruct (epoch_differs e epoch) eqn:He; [split; [done|]; split; [left; by eexists|done]|].
      destruct (blocked r _) eqn:Hb; [split; [done|]; split; [left; by eexists|done]|].
      destruct (Lanes.frame_with_receipt _ _ _ _) as [w res] eqn:Hf.
      destruct (frame_cases _ _ _ _ _ _ Hf) as [(-> & Hw & ->)|[(-> & Hw & ->)|(-> & Hw & ->)]].
      + split; [by destruct (SubscriptionChange.from_message m)|]. split; [|done]. right.
        unfold queued. simpl. by destruct (SubscriptionChange.from_message m).
      + split; [done|]. split; [left; by eexists|done].
      + split; [done|]. split; [left; by eexists|done].
    - destruct (epoch_differs e epoch) eqn:He; [split; [done|]; split; [left; by eexists|done]|].
      destruct (blocked r _) eqn:Hb; [split; [done|]; split; [left; by eexists|done]|].
      destruct (Tracker.register _ _ _ _ _) as [t res] eqn:Hr.
      destruct (register_cases _ _ _ _ _ _ _ Hi Hn Hr) as [Hi' [[-> Hl]|[[x ->] Hl]]];
        [|split; [done|]; split; [left; by eexists|done]].
      destruct (Lanes.frame_with_receipt _ _ _ _) as [w res] eqn:Hf. simpl.
      pose proof (cancel_inv t id Hi') as Hci. pose proof (cancel_none t id) as Hcn.
      destruct (Tracker.cancel t id) as [t2 s2] eqn:Hca. simpl in Hci, Hcn.
      assert (s2 = Some tx) as -> by (unfold Tracker.cancel in Hca; rewrite Hl in Hca; by injection Hca).
      destruct (frame_cases _ _ _ _ _ _ Hf) as [(-> & Hw & ->)|[(-> & Hw & ->)|(-> & Hw & ->)]].
      + split; [by destruct (SubscriptionChange.from_message m)|]. split; [|done]. right.
        unfold queued. simpl. by destruct (SubscriptionChange.from_message m).
      + split; [done|]. split; [left; by eexists|done].
      + split; [done|]. split; [left; by eexists|done]. }
  destruct (handle_command is_closed epoch r (Some c)) as [r' end_].
  destruct Hmain as (H1 & H2 & H3). split_and!; auto.
  intros Hbad. destruct H2 as [|(_ & _ & He & Hb & _)]; [done|]. destruct Hbad; congruence.
Qed.

(** A caller waits for the reply to a query, and gives up while the queue is full. *)
Module RunningSample.
Definition idle (capacity : nat) : Running :=
  {| r_lanes := Lanes.spawn capacity; r_tracker := Tracker.new 4;
     r_subs := Desired.from_initial None; r_sub_written := None; r_sub_deadline := None;
     r_ping_written := None; r_pong_deadline := None; r_sequence := 0; r_next := 100;
     r_inbound := []; r_events := []; r_replies := [] |}.
Definition query : ManagedCommand :=
  SendAwait 1 (ClientMessage.GetMarkets (default_request 5)) (Some 3) [Request 5] 7.
End RunningSample.

Lemma command_disposed_once_witness :
  answered (RunningSample.idle 0) RunningSample.query
    (fst (handle_command (fun _ => false) 3 (RunningSample.idle 0) (Some RunningSample.query))) /\
  queued 3 (RunningSample.idle 8) RunningSample.query
    (fst (handle_command (fun _ => false) 3 (RunningSample.idle 8) (Some RunningSample.query))).
Proof.
  split.
  - pose proof (command_disposed_once (fun _ => false) 4 (RunningSample.idle 0) RunningSample.query
      (tracker_inv_new 4) eq_refl eq_refl) as H.
    destruct (command_disposed_once (fun _ => false) 3 (RunningSample.idle 0) RunningSample.query
      (tracker_inv_new 4) eq_refl eq_refl) as (_ & [Ha|Hq] & _); [exact Ha|].
    destruct Hq as [Hq _]. vm_compute in Hq. discriminate Hq.
  - destruct (command_disposed_once (fun _ => false) 3 (RunningSample.idle 8) RunningSample.query
      (tracker_inv_new 4) eq_refl eq_refl) as (_ & [Ha|Hq] & _); [|exact Hq].
    destruct Ha as (x & Hx & _). vm_compute in Hx. discriminate Hx.
Defined.

(** ** Frames *)

Definition publish_item (r : Running) (item : Z -> InboundItem) : Running :=
  let sequence := wrapping_add 64 (r_sequence r) 1 in
  {| r_lanes := r_lanes r; r_tracker := r_tracker r; r_subs := r_subs r;
     r_sub_written := r_sub_written r; r_sub_deadline := r_sub_deadline r;
     r_ping_written := r_ping_written r; r_pong_deadline := r_pong_deadline r;
     r_sequence := sequence; r_next := r_next r; r_inbound := r_inbound r ++ [item sequence];
     r_events := r_events r; r_replies := r_replies r |}.

(* ws/managed/session.rs:132-143 InboundPublisher::publish *)
Definition publish (r : Running) (m : ServerMessage.t) : Running :=
  publish_item r (fun sequence => Message sequence m).

(* ws/managed/session.rs:145-148 InboundPublisher::publish_unreadable *)
Definition publish_unreadable (r : Running) : Running := publish_item r (fun _ => Unreadable).

(** [signed] is how signing a challenge came out, if the message is one (Login.v models
    what is signed); the signed message always serializes. *)
(* ws/managed/session_message.rs:66-132 handle_session_message *)
Definition handle_session_message (signed : Phase (AuthChallengeData + string)) (r : Running)
  (message : ServerMessage.t) : Running * option SessionFailure.t :=
  let '(r, failure) :=
    match message with
    | ServerMessage.AuthRequest _ =>
        match signed with
        | ShutdownRequested => (r, Some SessionFailure.Shutdown)
        | TimedOut => (r, Some (SessionFailure.Retryable "challenge signing timed out"))
        | Done (inr error) => (r, Some (SessionFailure.Retryable ("challenge signer failed: " +:+ error)))
        | Done (inl auth) =>
            let '(lanes, res) := Lanes.frame (r_lanes r) (ClientMessage.AuthChallenge auth) None in
            (with_lanes r lanes,
             if is_ok res then None
             else Some (SessionFailure.Retryable "auth response could not be queued"))
        end
    | ServerMessage.AuthSuccess _ => (report r LoopAuthenticated, None)
    | _ => (r, None)
    end in
  match failure with
  | Some failure => (r, Some failure)
  | None => (r, SessionFailure.from_control message)
  end.

(* ws/managed/session_message.rs:17-64 handle_ws_read *)
Definition handle_ws_read (signed : Phase (AuthChallengeData + string)) (r : Running)
  (read_result : option (ServerMessage.t + WsClientError.t))
  : Running * option (AuthenticatedSessionEnd.t * bool) :=
  match read_result with
  | Some (inl message) =>
      let r := publish r message in
      let '(tracker, sender) := Tracker.take_for_message (r_tracker r) message in
      let r := with_tracker r tracker in
      let r := match sender with Some tx => reply r tx (AwaitOk message) | None => r end in
      match handle_session_message signed r message with
      | (r, None) => (r, None)
      | (r, Some error) =>
          let rejected := SessionFailure.is_server_rejection error in
          let r :=
            match error with
            | SessionFailure.Shutdown => r
            | _ => report r (LoopError (if rejected then ManagedWsFailureKind.Server
                                        else ManagedWsFailureKind.Network))
            end in
          (r, Some (SessionFailure.into_session_end error, rejected))
      end
  | Some (inr (WsClientError.UnreadableFrame frame)) =>
      let r :=
        match uf_request_id frame with
        | Some id =>
            let '(tracker, sender) := Tracker.take_for_request (r_tracker r) id in
            let r := with_tracker r tracker in
            match sender with
            | Some tx => reply r tx (AwaitFailed (SendAwaitError.UnreadableResponse frame))
            | None => r
            end
        | None => r
        end in
      (report (publish_unreadable r) (LoopUnreadable frame), None)
  | Some (inr error) =>
      (report r (LoopError ManagedWsFailureKind.Network),
       Some (AuthenticatedSessionEnd.Disconnected, false))
  | None => (r, Some (AuthenticatedSessionEnd.Disconnected, false))
  end.

(** ** The loop *)

(** A frame read from the socket. *)
Inductive WsFrame := FrameMessage (m : ServerMessage.t) | FramePing (payload : bytes) | FramePong.

(** What happens next: an arm of the [select!], with what it observes, or a step of the
    writer task. *)
Inductive loop_label :=
| LShutdown
| LGap
| LWriterEnded
| LCommand (is_closed : nat -> bool) (cmd : option ManagedCommand)
| LReceipt (written_at : Z)
| LSubscriptionDeadline (now : Z)
| LCancel (await_id : option Z)
| LTick
| LPingWritten (now : Z)
| LPongDeadline (now : Z)
| LRead (signed : Phase (AuthChallengeData + string)) (frame : option (WsFrame + WsClientError.t))
| LWriter (l : Writer.label).

Definition set_subs (r : Running) (subs : DesiredSubscriptions) (deadline : option Z)
  (written : option nat) : Running :=
  {| r_lanes := r_lanes r; r_tracker := r_tracker r; r_subs := subs; r_sub_written := written;
     r_sub_deadline := deadline; r_ping_written := r_ping_written r;
     r_pong_deadline := r_pong_deadline r; r_sequence := r_sequence r; r_next := r_next r;
     r_inbound := r_inbound r; r_events := r_events r; r_replies := r_replies r |}.

Definition set_ping (r : Running) (written : option nat) (deadline : option Z) (next : nat)
  : Running :=
  {| r_lanes := r_lanes r; r_tracker := r_tracker r; r_subs := r_subs r;
     r_sub_written := r_sub_written r; r_sub_deadline := r_sub_deadline r;
     r_ping_written := written; r_pong_deadline := deadline; r_sequence := r_sequence r;
     r_next := next; r_inbound := r_inbound r; r_events := r_events r; r_replies := r_replies r |}.

Definition due (deadline : option Z) (now : Z) : bool :=
  match deadline with Some d => d <=? now | None => false end.

Definition is_pong (m : ServerMessage.t) : bool :=
  match m with ServerMessage.Pong => true | _ => false end.

(** The fields of [ManagedWsConfig] the loop reads. *)
Record LoopConfig := { readiness_timeout : Z; pong_timeout : Z; current_epoch : Z }.

(** A message read: the subscription target and the pong deadline first. *)
Definition before_read (r : Running) (m : ServerMessage.t) : Running :=
  let subs := Desired.resolve (r_subs r) m in
  let deadline := if Desired.has_pending subs then r_sub_deadline r else None in
  let r := set_subs r subs deadline (r_sub_written r) in
  if is_pong m then set_ping r (r_ping_written r) None (r_next r) else r.

(** [None]: the arm is not ready.  A result with an end leaves the loop; its flag says
    whether the server rejected the session. *)
(* ws/managed/session.rs:493-593 run_session (loop) *)
Definition loop_step (config : LoopConfig) (r : Running) (l : loop_label)
  : option (Running * option (AuthenticatedSessionEnd.t * bool)) :=
  let ends r e := Some (r, Some (e, false)) in
  let goes r := Some (r, None) in
  match l with
  | LShutdown => ends r AuthenticatedSessionEnd.CloseRequested
  | LGap => ends (report r (LoopError ManagedWsFailureKind.Network)) AuthenticatedSessionEnd.Disconnected
  | LWriterEnded =>
      if is_ended (r_lanes r) then ends r AuthenticatedSessionEnd.Disconnected else None
  | LCommand is_closed cmd =>
      match handle_command is_closed (current_epoch config) r cmd with
      | (r, Some e) => ends r e
      | (r, None) => goes r
      end
  | LReceipt written_at =>
      match r_sub_written r with
      | None => None
      | Some receipt =>
          if bool_decide (receipt ∈ w_receipts (r_lanes r)) then
            goes (set_subs r (r_subs r)
              (if Desired.has_pending (r_subs r) then Some (written_at + readiness_timeout config)
               else r_sub_deadline r) None)
          else if is_ended (r_lanes r) then
            ends (set_subs r (r_subs r) (r_sub_deadline r) None) AuthenticatedSessionEnd.Disconnected
          else None
      end
  | LSubscriptionDeadline now =>
      if due (r_sub_deadline r) now then
        ends (report r (LoopError ManagedWsFailureKind.Server)) AuthenticatedSessionEnd.Disconnected
      else None
  | LCancel None => ends r AuthenticatedSessionEnd.CloseRequested
  | LCancel (Some await_id) => goes (with_tracker r (fst (Tracker.cancel (r_tracker r) await_id)))
  | LTick =>
      match r_pong_deadline r, r_ping_written r with
      | None, None =>
          let '(lanes, res) := Lanes.frame (r_lanes r) ClientMessage.Ping (Some (r_next r)) in
          let r := with_lanes r lanes in
          match res with
          | Ok _ => goes (set_ping r (Some (r_next r)) (r_pong_deadline r) (S (r_next r)))
          | Err (LaneFull.Full, _) => goes r
          | Err (LaneFull.Closed, _) => ends r AuthenticatedSessionEnd.Disconnected
          | Panic => None
          end
      | _, _ => None
      end
  | LPingWritten now =>
      match r_ping_written r with
      | None => None
      | Some ticket =>
          if bool_decide ((ticket, WriteOutcome.Written) ∈ w_answered (r_lanes r)) then
            goes (set_ping r None (Some (now + pong_timeout config)) (r_next r))
          else if is_ended (r_lanes r) then goes (set_ping r None (r_pong_deadline r) (r_next r))
          else None
      end
  | LPongDeadline now =>
      if due (r_pong_deadline r) now then
        ends (report r (LoopError ManagedWsFailureKind.Network)) AuthenticatedSessionEnd.Disconnected
      else None
  | LRead signed (Some (inl (FramePing payload))) =>
      let '(lanes, res) := Lanes.pong (r_lanes r) payload in
      let r := with_lanes r lanes in
      match res with
      | Err LaneFull.Closed => ends r AuthenticatedSessionEnd.Disconnected
      | _ => goes r
      end
  | LRead signed (Some (inl FramePong)) => goes r
  | LRead signed (Some (inl (FrameMessage m))) =>
      Some (handle_ws_read signed (before_read r m) (Some (inl m)))
  | LRead signed (Some (inr e)) => Some (handle_ws_read signed r (Some (inr e)))
  | LRead signed None => Some (handle_ws_read signed r None)
  | LWriter l =>
      match l with
      | Writer.Select | Writer.Complete _ =>
          match writer_step (r_lanes r) l with Some w => goes (with_lanes r w) | None => None end
      | _ => None
      end
  end.

(** The loop until an arm leaves it. *)
Fixpoint run_loop (config : LoopConfig) (r : Running) (ls : list loop_label)
  : option (Running * option (AuthenticatedSessionEnd.t * bool)) :=
  match ls with
  | [] => Some (r, None)
  | l :: ls =>
      match loop_step config r l with
      | Some (r, None) => run_loop config r ls
      | Some (r, Some e) => match ls with [] => Some (r, Some e) | _ => None end
      | None => None
      end
  end.

(** ** What the loop does to the subscription target and the inbound stream *)

(** The change a command started, if it was queued. *)
Definition begun (config : LoopConfig) (r : Running) (is_closed : nat -> bool) (c : ManagedCommand)
  : list Subscriptions.event :=
  let r' := fst (handle_command is_closed (current_epoch config) r (Some c)) in
  if (length (w_accepted (r_lanes r)) <? length (w_accepted (r_lanes r')))%nat then
    match SubscriptionChange.from_message (message_of c) with
    | Some change => [Begin change]
    | None => []
    end
  else [].

Definition sub_events (config : LoopConfig) (r : Running) (l : loop_label) : list Subscriptions.event :=
  match l with
  | LCommand is_closed (Some c) => begun config r is_closed c
  | LRead _ (Some (inl (FrameMessage m))) => [Subscriptions.Message m]
  | _ => []
  end.

(** The items a label publishes. *)
Definition items (l : loop_label) : list (option ServerMessage.t) :=
  match l with
  | LRead _ (Some (inl (FrameMessage m))) => [Some m]
  | LRead _ (Some (inr (WsClientError.UnreadableFrame _))) => [None]
  | _ => []
  end.

Fixpoint history (config : LoopConfig) (r : Running) (ls : list loop_label)
  : list Subscriptions.event :=
  match ls with
  | [] => []
  | l :: ls =>
      sub_events config r l ++
      match loop_step config r l with
      | Some (r', _) => history config r' ls
      | None => []
      end
  end.

(** Items numbered from [sequence + 1]. *)
Fixpoint numbered (sequence : Z) (ms : list (option ServerMessage.t)) : list InboundItem :=
  match ms with
  | [] => []
  | m :: ms =>
      match m with Some m => Message (sequence + 1) m | None => Unreadable end :: numbered (sequence + 1) ms
  end.

Lemma frame_accepted w m done rc w' res :
  Lanes.frame_with_receipt w m done rc = (w', res) ->
  (is_ok res = true /\ length (w_accepted w') = S (length (w_accepted w))) \/
  (is_ok res = false /\ w_accepted w' = w_accepted w).
Proof.
  intros H. destruct (frame_cases _ _ _ _ _ _ H) as [(-> & _ & ->)|[(-> & _ & ->)|(-> & _ & ->)]]; [left|right..]; auto.
  split; [done|]. destruct (Lane.of_message m); simpl; rewrite length_app; simpl; lia.
Qed.

Lemma handle_command_subs is_closed epoch r c :
  let r' := fst (handle_command is_closed epoch r (Some c)) in
  let change := SubscriptionChange.from_message (message_of c) in
  (length (w_accepted (r_lanes r')) = length (w_accepted (r_lanes r)) /\ r_subs r' = r_subs r) \/
  (length (w_accepted (r_lanes r')) = S (length (w_accepted (r_lanes r))) /\ blocked r change = false /\
   r_subs r' = match change with Some s => Desired.begin (r_subs r) s | None => r_subs r end).
Proof.
  unfold handle_command. destruct c as [m e tx|id m e keys tx]; cbn [message_of].
  - destruct (is_closed tx); [by left|]. destruct (epoch_differs e epoch); [by left|].
    destruct (blocked r _) eqn:Hb; [by left|].
    destruct (Lanes.frame_with_receipt _ _ _ _) as [w [u|[[] d]|]] eqn:Hf;
      apply frame_accepted in Hf as [[? Hl]|[? Hl]]; try done; simpl.
    + right. by destruct (SubscriptionChange.from_message m).
    + left. destruct d; simpl; by rewrite Hl.
    + left. destruct d; simpl; by rewrite Hl.
    + left. by rewrite Hl.
  - destruct (is_closed tx); [by left|]. destruct (epoch_differs e epoch); [by left|].
    destruct (blocked r _) eqn:Hb; [by left|].
    destruct (Tracker.register _ _ _ _ _) as [t [u|[x tx']|]]; [|by left..].
    destruct (Lanes.frame_with_receipt _ _ _ _) as [w [u'|[[] d]|]] eqn:Hf;
      apply frame_accepted in Hf as [[? Hl]|[? Hl]]; try done; simpl in *;
      destruct (Tracker.cancel t id) as [t2 [s2|]]; simpl;
      try (left; by rewrite Hl); right; by destruct (SubscriptionChange.from_message m).
Qed.

(** The part of the state only the subscription, liveness and publishing arms touch. *)
Definition core (r : Running) :=
  (r_subs r, r_ping_written r, r_pong_deadline r, (r_sequence r, r_inbound r)).

Lemma session_message_core signed r m : core (fst (handle_session_message signed r m)) = core r.
Proof.
  unfold handle_session_message. destruct m; try done.
  destruct signed as [| |[u|e]]; try done. by destruct (Lanes.frame _ _ _) as [w []].
Qed.

(** What a read publishes. *)
Definition read_item (rr : option (ServerMessage.t + WsClientError.t)) : list (option ServerMessage.t) :=
  match rr with
  | Some (inl m) => [Some m]
  | Some (inr (WsClientError.UnreadableFrame _)) => [None]
  | _ => []
  end.

Lemma read_core signed r rr :
  fits 64 (r_sequence r + 1) ->
  core (fst (handle_ws_read signed r rr)) =
    (r_subs r, r_ping_written r, r_pong_deadline r,
     (r_sequence r + Z.of_nat (length (read_item rr)), r_inbound r ++ numbered (r_sequence r) (read_item rr))).
Proof.
  intros Hf.
  assert (Hs : wrapping_add 64 (r_sequence r) 1 = r_sequence r + 1)
    by (unfold wrapping_add, fits in *; apply Z.mod_small; lia).
  assert (Hid : core r = (r_subs r, r_ping_written r, r_pong_deadline r,
    (r_sequence r + 0, r_inbound r ++ []))) by (by rewrite Z.add_0_r, app_nil_r).
  destruct rr as [[m|e]|]; [| |exact Hid]; cbn [read_item numbered length].
  - unfold handle_ws_read. destruct (Tracker.take_for_message _ _) as [t o].
    set (r1 := match o with Some tx => _ | None => _ end).
    assert (H1 : core r1 = (r_subs r, r_ping_written r, r_pong_deadline r,
      (r_sequence r + 1, r_inbound r ++ [Message (r_sequence r + 1) m])))
      by (unfold r1; destruct o; unfold core; simpl; by rewrite Hs).
    pose proof (session_message_core signed r1 m) as H2. rewrite H1 in H2.
    destruct (handle_session_message signed r1 m) as [r2 [f|]]; [|exact H2].
    destruct f; exact H2.
  - destruct e; try exact Hid. cbn [handle_ws_read read_item numbered length fst].
    set (r1 := match uf_request_id frame with Some _ => _ | None => _ end).
    assert (H1 : core r1 = core r).
    { unfold r1. destruct (uf_request_id frame) as [id|]; [|done].
      by destruct (Tracker.take_for_request (r_tracker r) id) as [t [tx|]]. }
    unfold core in *. simpl. injection H1 as -> -> -> -> ->. by rewrite Hs.
Qed.

Lemma command_core is_closed epoch r c :
  let r' := fst (handle_command is_closed epoch r c) in
  r_ping_written r' = r_ping_written r /\ r_pong_deadline r' = r_pong_deadline r /\
  r_sequence r' = r_sequence r /\ r_inbound r' = r_inbound r.
Proof.
  assert (Hst : forall r s, core (started r s) = (r_subs (started r s), r_ping_written r, r_pong_deadline r,
    (r_sequence r, r_inbound r))) by (intros r0 [s|]; done).
  unfold handle_command. destruct c as [[m e tx|id m e keys tx]|]; [| |done].
  - destruct (is_closed tx); [done|]. destruct (epoch_differs e epoch); [done|].
    destruct (blocked r _); [done|].
    destruct (Lanes.frame_with_receipt _ _ _ _) as [w [u|[[] [d|]]|]]; try done.
    by destruct (SubscriptionChange.from_message m).
  - destruct (is_closed tx); [done|]. destruct (epoch_differs e epoch); [done|].
    destruct (blocked r _); [done|].
    destruct (Tracker.register _ _ _ _ _) as [t [u|[x tx']|]]; [|done..].
    destruct (Lanes.frame_with_receipt _ _ _ _) as [w [u'|[[] d]|]]; simpl;
      destruct (Tracker.cancel t id) as [t2 [s2|]]; try done;
      by destruct (SubscriptionChange.from_message m).
Qed.

(** At most one ping is under way. *)
Definition one_ping (r : Running) : Prop := r_ping_written r = None \/ r_pong_deadline r = None.

(** One label: the target moves by the label's events, started only when none is
    pending; its items are published, numbered on; pings do not overlap. *)
Lemma loop_step_core config r l r' e :
  loop_step config r l = Some (r', e) -> fits 64 (r_sequence r + 1) -> one_ping r ->
  r_subs r' = foldl handle (r_subs r) (sub_events config r l) /\
  (forall change, sub_events config r l = [Begin change] -> pending (r_subs r) = None) /\
  r_sequence r' = r_sequence r + Z.of_nat (length (items l)) /\
  r_inbound r' = r_inbound r ++ numbered (r_sequence r) (items l) /\ one_ping r'.
Proof.
  intros H Hf Hp.
  assert (Hkeep : forall r1, core r1 = core r -> sub_events config r l = [] -> items l = [] ->
    r_subs r1 = foldl handle (r_subs r) (sub_events config r l) /\
    (forall change, sub_events config r l = [Begin change] -> pending (r_subs r) = None) /\
    r_sequence r1 = r_sequence r + Z.of_nat (length (items l)) /\
    r_inbound r1 = r_inbound r ++ numbered (r_sequence r) (items l) /\ one_ping r1).
  { intros r1 Hc -> ->. unfold core in Hc. injection Hc as H1 H2 H3 H4 H5. unfold one_ping.
    rewrite H2, H3, H4, app_nil_r. simpl. split_and!; try done. lia. }
  destruct l as [| | |is_closed [c|]|at_|now|[id|]| |now|now|signed [[[m|payload|]|er]|]|wl];
    cbn [loop_step] in H; try (simplify_eq; by apply Hkeep).
  - repeat case_match; simplify_eq; by apply Hkeep.
  - (* a command *)
    pose proof (handle_command_subs is_closed (current_epoch config) r c) as Hs.
    pose proof (command_core is_closed (current_epoch config) r (Some c)) as Hc.
    cbn [sub_events items]. unfold begun. destruct (handle_command _ _ r (Some c)) as [r1 e1] eqn:E.
    cbn [fst] in *. assert (r' = r1) as -> by (by destruct e1; simplify_eq).
    destruct Hc as (H1 & H2 & H3 & H4). unfold one_ping. rewrite H1, H2, H3, H4, app_nil_r.
    simpl. rewrite Z.add_0_r. destruct Hs as [[Hl Hs]|(Hl & Hb & Hs)].
    + rewrite Hl, Nat.ltb_irrefl. split_and!; done.
    + rewrite (proj2 (Nat.ltb_lt _ _)) by lia. unfold blocked in Hb.
      destruct (SubscriptionChange.from_message (message_of c)) as [ch|]; [|split_and!; done].
      simpl. rewrite Hb. split_and!; try done. intros _ _. unfold Desired.has_pending in Hb.
      apply bool_decide_eq_false in Hb. by apply eq_None_not_Some.
  - cbn in H. simplify_eq. by apply Hkeep.
  - repeat case_match; simplify_eq; by apply Hkeep.
  - repeat case_match; simplify_eq; by apply Hkeep.
  - destruct (r_pong_deadline r) eqn:E1; [done|]. destruct (r_ping_written r) eqn:E2; [done|].
    destruct (Lanes.frame _ _ _) as [w [u|[[] d]|]]; simplify_eq; try (by apply Hkeep).
    simpl. rewrite app_nil_r, Z.add_0_r. split_and!; try done. by right.
  - destruct (r_ping_written r) eqn:E2; [|done].
    assert (r_pong_deadline r = None) as E1 by (destruct Hp; congruence).
    repeat case_match; simplify_eq; simpl; rewrite app_nil_r, Z.add_0_r; split_and!; try done; by left.
  - repeat case_match; simplify_eq; by apply Hkeep.
  - assert (Hb : fits 64 (r_sequence (before_read r m) + 1) /\ r_sequence (before_read r m) = r_sequence r /\
      r_inbound (before_read r m) = r_inbound r /\ one_ping (before_read r m) /\
      r_subs (before_read r m) = Desired.resolve (r_subs r) m).
    { unfold before_read, one_ping in *. destruct (is_pong m); simpl; split_and!; auto. }
    destruct Hb as (Hf' & Hq & Hi & Hp' & Hsub).
    pose proof (read_core signed (before_read r m) (Some (inl m)) Hf') as Hr.
    destruct (handle_ws_read signed (before_read r m) (Some (inl m))) as [r1 e1]. injection H as <- <-.
    unfold core in Hr. cbn [fst read_item] in Hr. injection Hr as H1 H2 H3 H4 H5.
    unfold one_ping in *. rewrite H1, H2, H3, H4, H5, Hq, Hi, Hsub. split_and!; done.
  - destruct (Lanes.pong _ _) as [w [u|[]|]]; simplify_eq; by apply Hkeep.
  - pose proof (read_core signed r (Some (inr er)) Hf) as Hr.
    destruct (handle_ws_read signed r (Some (inr er))) as [r1 e1]. injection H as <- <-.
    unfold core in Hr. cbn [fst] in Hr. injection Hr as H1 H2 H3 H4 H5.
    unfold one_ping in *. rewrite H1, H2, H3, H4, H5. split_and!; done.
  - cbn in H. simplify_eq. by apply Hkeep.
  - destruct wl; try done; case_match; simplify_eq; by apply Hkeep.
Qed.

(** Every change begins with none pending. *)
Fixpoint well_started (d : DesiredSubscriptions) (evs : list Subscriptions.event) : Prop :=
  match evs with
  | [] => True
  | e :: evs =>
      match e with Begin _ => pending d = None | _ => True end /\ well_started (handle d e) evs
  end.

Lemma pending_until_decided d p evs pre change post :
  pending d = Some p -> well_started d evs -> evs = pre ++ Begin change :: post ->
  decided (pend_request_id p) pre <> Undecided.
Proof.
  revert d evs. induction pre as [|e pre IH]; intros d evs Hp Hw ->; simpl in *.
  - destruct Hw as [Hn _]. congruence.
  - destruct Hw as [He Hw]. destruct (decides (pend_request_id p) e) eqn:Hd; [done..|].
    destruct e as [ch|m|]; [congruence| |done].
    pose proof (handle_pending d p (Subscriptions.Message m) Hp) as Hh. rewrite Hd in Hh.
    rewrite Hh in Hw by done. by apply (IH d _ Hp Hw).
Qed.

Lemma well_started_serialized d evs : well_started d evs -> serialized evs.
Proof.
  revert d. induction evs as [|e evs IH]; intros d Hw; [done|]. simpl in Hw. destruct Hw as [He Hw].
  destruct e as [ch|m|]; simpl; eauto. split; [by eapply IH|]. intros pre change' post Heq.
  assert (Hp : pending (handle d (Begin ch)) = Some {| pend_request_id := SubscriptionChange.request_id ch;
    pend_previous := current d |}) by (simpl; unfold Desired.has_pending; by rewrite He).
  exact (pending_until_decided _ _ _ _ _ _ Hp Hw Heq).
Qed.

Lemma numbered_app s a b :
  numbered s (a ++ b) = numbered s a ++ numbered (s + Z.of_nat (length a)) b.
Proof.
  revert s. induction a as [|m a IH]; intros s; simpl; [by rewrite Z.add_0_r|].
  rewrite IH. do 3 f_equal. lia.
Qed.

Lemma well_started_app d a b :
  well_started d a -> well_started (foldl handle d a) b -> well_started d (a ++ b).
Proof. revert d. induction a as [|e a IH]; intros d; simpl; [done|]. intros [? ?] ?. split; eauto. Qed.

Lemma run_loop_core config r ls r' e :
  run_loop config r ls = Some (r', e) -> 0 <= r_sequence r ->
  r_sequence r + Z.of_nat (length ls) < 2 ^ 64 - 1 -> one_ping r ->
  r_subs r' = foldl handle (r_subs r) (history config r ls) /\
  well_started (r_subs r) (history config r ls) /\
  r_inbound r' = r_inbound r ++ numbered (r_sequence r) (concat (map items ls)) /\ one_ping r'.
Proof.
  revert r. induction ls as [|l ls IH]; intros r H H0 Hn Hp; cbn [run_loop length] in *.
  - injection H as <- <-. simpl. by rewrite app_nil_r.
  - destruct (loop_step config r l) as [[r1 e1]|] eqn:Hl; [|done].
    destruct (loop_step_core _ _ _ _ _ Hl) as (Hs & Hb & Hq & Hi & Hp1); [unfold fits; lia|done|].
    assert (Hw : well_started (r_subs r) (sub_events config r l)).
    { destruct l; simpl; try done.
      - destruct cmd as [c|]; [|done]. simpl in Hb. unfold begun in *. repeat case_match; simpl; eauto.
      - repeat case_match; done. }
    assert (Hlen : (length (items l) <= 1)%nat) by (unfold items; repeat case_match; simpl; lia).
    cbn [history map concat]. rewrite Hl, foldl_app, numbered_app, <- Hs, <- Hq.
    destruct e1 as [e1|].
    + destruct ls as [|? ?]; [|done]. injection H as <- <-. simpl. rewrite !app_nil_r. done.
    + destruct (IH _ H) as (Hs' & Hw' & Hi' & Hp'); [lia..|done|].
      rewrite Hi', Hi, app_assoc. split_and!; try done. apply well_started_app; [done|]. by rewrite <- Hs.
Qed.

(** C9: The running session, for every sequence of commands, frames, timers and writer
    steps.  Its subscription target is the initial one with every queued change
    applied in order, except those the server rejected (the session starts a change
    only when none is pending, which is what the target's own theorem asks of it);
    every readable message is published to subscribers once, in the order read, and
    every frame, readable or not, takes the next sequence number; and at most one ping
    is ever waiting for its write or its pong. *)
Theorem running_session_sound config r ls r' e :
  run_loop config r ls = Some (r', e) -> pending (r_subs r) = None ->
  0 <= r_sequence r -> r_sequence r + Z.of_nat (length ls) < 2 ^ 64 - 1 -> one_ping r ->
  current (r_subs r') = intended (current (r_subs r)) (history config r ls) /\
  r_inbound r' = r_inbound r ++ numbered (r_sequence r) (concat (map items ls)) /\ one_ping r'.
Proof.
  intros H Hn H0 Hs Hp. destruct (run_loop_core _ _ _ _ _ H H0 Hs Hp) as (Hsub & Hw & Hi & Hp').
  split_and!; try done. rewrite Hsub. apply run_intended; [by eapply well_started_serialized|done].
Qed.

Lemma running_session_sound_witness :
  let change := ClientMessage.AddChannels {| ch_request_id := 9; ch_channels := [WsChannel.Rfqs] |} in
  exists r', run_loop {| readiness_timeout := 10; pong_timeout := 10; current_epoch := 3 |}
    (RunningSample.idle 8)
    [LCommand (fun _ => false) (Some (Send change (Some 3) 1)); LTick; LWriter Select;
     LRead ShutdownRequested (Some (inl (FrameMessage (ServerMessage.SubscriptionUpdated 9))))] =
    Some (r', None) /\
  current (r_subs r') = apply_change empty_set (SubscriptionChange.AddChannels
    {| ch_request_id := 9; ch_channels := [WsChannel.Rfqs] |}) /\
  r_inbound r' = [Message 1 (ServerMessage.SubscriptionUpdated 9)].
Proof.
  intros change. eexists. split; [vm_compute; reflexivity|].
  match goal with |- current (r_subs ?r') = _ /\ _ =>
    destruct (running_session_sound {| readiness_timeout := 10; pong_timeout := 10; current_epoch := 3 |}
      (RunningSample.idle 8)
      [LCommand (fun _ => false) (Some (Send change (Some 3) 1)); LTick; LWriter Select;
       LRead ShutdownRequested (Some (inl (FrameMessage (ServerMessage.SubscriptionUpdated 9))))] r' None)
      as (H1 & H2 & _) end;
    [vm_compute; reflexivity | reflexivity | simpl; lia | simpl; lia | by left |].
  split; [rewrite H1; vm_compute; reflexivity | rewrite H2; vm_compute; reflexivity].
Defined.
