(* ===== verification/Handle.v ===== *)
(** * The handle of a managed session ([ws/managed/mod.rs], [outbound.rs])

    Callers talk to a session through a cloneable handle: a bounded queue of commands, the
    latest lifecycle state, and counters.  A command is stamped with the connection epoch
    it was meant for; Running.v drops a command whose epoch is over.

    An [async] send may wait for room in the queue: what happens meanwhile, to the queue
    and to the session, is the argument [wait].  The text of a message and its size are
    serde's, [serialize]. *)

From Stdlib Require Import ZArith Lia String.
From stdpp Require Import base list gmap strings pretty.
From S2P Require Import Prelude Time Terms Quote Messages Tracker Subscriptions Outcome Writer Control Session Running.

Open Scope Z_scope.

Module OutboundMessageError.
(* ws/managed/outbound.rs:25-36 OutboundMessageError *)
Inductive t :=
| TakerBuyUnsupported
| BatchTooLarge (actual limit : nat)
| MessageTooLarge (actual limit : nat)
| Serialization (e : string).

Definition display (e : t) : string :=
  match e with
  | TakerBuyUnsupported => "taker_buy_unsupported"
  | BatchTooLarge actual limit => "batch contains " +:+ pretty actual +:+ " quotes, maximum is " +:+ pretty limit
  | MessageTooLarge actual limit => "serialized message is " +:+ pretty actual +:+ " bytes, maximum is " +:+ pretty limit
  | Serialization e => "message serialization failed: " +:+ e
  end.
End OutboundMessageError.

(** The fields that commands read and write; [h_gone]: the session dropped its end. *)
(* ws/managed/mod.rs:177-197 ManagedWsHandle *)
Record Handle := {
  h_state : ManagedWsState.t;
  h_queue : list ManagedCommand;
  h_capacity : nat;
  h_gone : bool;
  h_cancels : list Z;
  h_next_await_id : Z;
  h_next_tx : nat;
  h_max_batch_quotes : nat;
  h_max_outbound_message_size : nat;
}.

Definition set_queue (h : Handle) (q : list ManagedCommand) : Handle :=
  {| h_state := h_state h; h_queue := q; h_capacity := h_capacity h; h_gone := h_gone h;
     h_cancels := h_cancels h; h_next_await_id := h_next_await_id h; h_next_tx := h_next_tx h;
     h_max_batch_quotes := h_max_batch_quotes h; h_max_outbound_message_size := h_max_outbound_message_size h |}.

(** [oneshot::channel()]. *)
Definition new_channel (h : Handle) : nat * Handle :=
  (h_next_tx h,
   {| h_state := h_state h; h_queue := h_queue h; h_capacity := h_capacity h; h_gone := h_gone h;
      h_cancels := h_cancels h; h_next_await_id := h_next_await_id h; h_next_tx := S (h_next_tx h);
      h_max_batch_quotes := h_max_batch_quotes h; h_max_outbound_message_size := h_max_outbound_message_size h |}).

(** [next_await_id.fetch_add(1, Relaxed)], which wraps. *)
Definition fetch_add_await_id (h : Handle) : Z * Handle :=
  (h_next_await_id h,
   {| h_state := h_state h; h_queue := h_queue h; h_capacity := h_capacity h; h_gone := h_gone h;
      h_cancels := h_cancels h; h_next_await_id := (h_next_await_id h + 1) mod 2 ^ 64; h_next_tx := h_next_tx h;
      h_max_batch_quotes := h_max_batch_quotes h; h_max_outbound_message_size := h_max_outbound_message_size h |}).

Definition cancel_await (h : Handle) (id : Z) : Handle :=
  {| h_state := h_state h; h_queue := h_queue h; h_capacity := h_capacity h; h_gone := h_gone h;
     h_cancels := h_cancels h ++ [id]; h_next_await_id := h_next_await_id h; h_next_tx := h_next_tx h;
     h_max_batch_quotes := h_max_batch_quotes h; h_max_outbound_message_size := h_max_outbound_message_size h |}.

(** [mpsc::Sender::try_send]. *)
Module TrySendError.
Inductive t := Full | Closed.
End TrySendError.

Definition cmd_try_send (h : Handle) (c : ManagedCommand) : res TrySendError.t unit * Handle :=
  if h_gone h then (Err TrySendError.Closed, h)
  else if (h_capacity h <=? length (h_queue h))%nat then (Err TrySendError.Full, h)
  else (Ok tt, set_queue h (h_queue h ++ [c])).

(** [mpsc::Sender::send], once there is room or nobody receives. *)
Definition cmd_send (h : Handle) (c : ManagedCommand) : res unit unit * Handle :=
  if h_gone h then (Err tt, h) else (Ok tt, set_queue h (h_queue h ++ [c])).

(* ws/managed/outbound.rs:64-67 has_unsupported_buy *)
Definition has_unsupported_buy (message : ClientMessage.t) : bool :=
  match message with ClientMessage.RfqRequest request => TakerSide.is_taker_buy (rr_side request) | _ => false end.

(** How a pending reply resolves. *)
Inductive Awaited (A : Type) := Replied (r : A) | Dropped | Elapsed.
Arguments Replied {A} r.
Arguments Dropped {A}.
Arguments Elapsed {A}.

Section handle.
Context (serialize : ClientMessage.t -> string + string).

(** The prepared message is the message: its text, lane and subscription change are
    functions of it. *)
(* ws/managed/outbound.rs:38-62 prepare_outbound *)
Definition prepare_outbound (h : Handle) (message : ClientMessage.t) : res OutboundMessageError.t unit :=
  _ ← reject_if (has_unsupported_buy message) OutboundMessageError.TakerBuyUnsupported;
  _ ← match message with
      | ClientMessage.BatchQuotes quotes =>
          reject_if (h_max_batch_quotes h <? length quotes)%nat
            (OutboundMessageError.BatchTooLarge (length quotes) (h_max_batch_quotes h))
      | _ => Ok tt
      end;
  match serialize message with
  | inl e => Err (OutboundMessageError.Serialization e)
  | inr text =>
      reject_if (h_max_outbound_message_size h <? String.length text)%nat
        (OutboundMessageError.MessageTooLarge (String.length text) (h_max_outbound_message_size h))
  end.

(* ws/managed/mod.rs:302-307 ManagedWsHandle::ready_epoch *)
Definition ready_epoch (h : Handle) : res ManagedWsError.t Z :=
  match h_state h with ManagedWsState.Ready connection_epoch => Ok connection_epoch | _ => Err ManagedWsError.NotReady end.

(* ws/managed/mod.rs:266-269 ManagedWsHandle::is_ready *)
Definition is_ready (h : Handle) : bool := match h_state h with ManagedWsState.Ready _ => true | _ => false end.

(* ws/managed/mod.rs:271-273 ManagedWsHandle::ensure_ready *)
Definition ensure_ready (h : Handle) : res ManagedWsError.t unit := (fun _ => tt) <$> ready_epoch h.

(* ws/managed/mod.rs:294-300 ManagedWsHandle::command_epoch *)
Definition command_epoch (h : Handle) (message : ClientMessage.t) : res ManagedWsError.t (option Z) :=
  match h_state h with
  | ManagedWsState.Ready connection_epoch => Ok (Some connection_epoch)
  | _ => if ClientMessage.requires_ready message then Err ManagedWsError.NotReady else Ok None
  end.

(** The states the watch channel takes, the current one first; then its sender is gone. *)
(* ws/managed/mod.rs:275-292 ManagedWsHandle::wait_until_ready *)
Fixpoint wait_until_ready (states : list ManagedWsState.t) : res (option Reason) Z :=
  match states with
  | [] => Err None
  | ManagedWsState.Ready connection_epoch :: _ => Ok connection_epoch
  | ManagedWsState.Closed reason :: _ => Err (Some reason)
  | _ :: states => wait_until_ready states
  end.

(* ws/managed/outbound.rs:17-22 SendTicket::wait *)
Definition ticket_wait (rx : option (res ManagedWsError.t unit)) : res ManagedWsError.t unit :=
  match rx with Some result => result | None => Err ManagedWsError.Disconnected end.

(** Sends answer with the channel the session replies on. *)
(* ws/managed/mod.rs:362-378 ManagedWsHandle::try_send_with_epoch *)
Definition try_send_with_epoch (h : Handle) (message : ClientMessage.t) (connection_epoch : option Z)
  : res ManagedWsError.t nat * Handle :=
  match prepare_outbound h message with
  | Err _ => (Err ManagedWsError.InvalidMessage, h)
  | Panic => (Panic, h)
  | Ok _ =>
      let '(tx, h) := new_channel h in
      match cmd_try_send h (Send message connection_epoch tx) with
      | (Ok _, h) => (Ok tx, h)
      | (Err TrySendError.Closed, h) => (Err ManagedWsError.Closed, h)
      | (Err TrySendError.Full, h) => (Err ManagedWsError.QueueFull, h)
      | (Panic, h) => (Panic, h)
      end
  end.

(* ws/managed/mod.rs:345-348 ManagedWsHandle::try_send *)
Definition try_send (h : Handle) (message : ClientMessage.t) : res ManagedWsError.t nat * Handle :=
  match command_epoch h message with
  | Ok connection_epoch => try_send_with_epoch h message connection_epoch
  | Err e => (Err e, h)
  | Panic => (Panic, h)
  end.

(* ws/managed/mod.rs:350-360 ManagedWsHandle::try_send_in_epoch *)
Definition try_send_in_epoch (h : Handle) (message : ClientMessage.t) (connection_epoch : Z)
  : res ManagedWsError.t nat * Handle :=
  match ready_epoch h with
  | Ok ready => if ready =? connection_epoch then try_send_with_epoch h message (Some connection_epoch)
                else (Err ManagedWsError.NotReady, h)
  | Err e => (Err e, h)
  | Panic => (Panic, h)
  end.

(* ws/managed/mod.rs:327-343 ManagedWsHandle::send_with_epoch *)
Definition send_with_epoch (wait : Handle -> Handle) (h : Handle) (message : ClientMessage.t) (connection_epoch : option Z)
  : res ManagedWsError.t nat * Handle :=
  match prepare_outbound h message with
  | Err _ => (Err ManagedWsError.InvalidMessage, h)
  | Panic => (Panic, h)
  | Ok _ =>
      let '(tx, h) := new_channel h in
      match cmd_send (wait h) (Send message connection_epoch tx) with
      | (Ok _, h) => (Ok tx, h)
      | (_, h) => (Err ManagedWsError.Closed, h)
      end
  end.

(* ws/managed/mod.rs:309-312 ManagedWsHandle::send *)
Definition send (wait : Handle -> Handle) (h : Handle) (message : ClientMessage.t) : res ManagedWsError.t nat * Handle :=
  match command_epoch h message with
  | Ok connection_epoch => send_with_epoch wait h message connection_epoch
  | Err e => (Err e, h)
  | Panic => (Panic, h)
  end.

(* ws/managed/mod.rs:314-325 ManagedWsHandle::send_in_epoch *)
Definition send_in_epoch (wait : Handle -> Handle) (h : Handle) (message : ClientMessage.t) (connection_epoch : Z)
  : res ManagedWsError.t nat * Handle :=
  match ready_epoch h with
  | Ok ready => if ready =? connection_epoch then send_with_epoch wait h message (Some connection_epoch)
                else (Err ManagedWsError.NotReady, h)
  | Err e => (Err e, h)
  | Panic => (Panic, h)
  end.

(** The command, with its id and its channel. *)
(* ws/managed/mod.rs:444-478 ManagedWsHandle::await_command *)
Definition await_command (h : Handle) (message : ClientMessage.t) (connection_epoch : option Z)
  : res SendAwaitError.t (ManagedCommand * Z) * Handle :=
  match prepare_outbound h message with
  | Err e => (Err (SendAwaitError.InvalidMessage (OutboundMessageError.display e)), h)
  | Panic => (Panic, h)
  | Ok _ =>
      match Tracker.prepare message with
      | Err e => (Err e, h)
      | Panic => (Panic, h)
      | Ok registration =>
          let '(await_id, h) := fetch_add_await_id h in
          let '(tx, h) := new_channel h in
          (Ok (SendAwait await_id message connection_epoch registration tx, await_id), h)
      end
  end.

(* ws/managed/mod.rs:467-476 ManagedWsHandle::await_command (response) *)
Definition response (h : Handle) (await_id : Z) (rx : Awaited (res SendAwaitError.t ServerMessage.t))
  : res SendAwaitError.t ServerMessage.t * Handle :=
  match rx with
  | Replied result => (result, h)
  | Dropped => (Err SendAwaitError.Disconnected, h)
  | Elapsed => (Err SendAwaitError.Timeout, cancel_await h await_id)
  end.

(** [wait] gives [None] when the deadline passes first; the command is dropped then.  The
    id of the command that was queued is returned: its response is awaited next. *)
(* ws/managed/mod.rs:402-418 ManagedWsHandle::send_await_with_epoch *)
Definition send_await_with_epoch (wait : Handle -> option Handle) (h : Handle) (message : ClientMessage.t)
  (connection_epoch : option Z) : res SendAwaitError.t Z * Handle :=
  match await_command h message connection_epoch with
  | (Err e, h) => (Err e, h)
  | (Panic, h) => (Panic, h)
  | (Ok (command, await_id), h) =>
      match wait h with
      | None => (Err SendAwaitError.Timeout, h)
      | Some h =>
          match cmd_send h command with
          | (Ok _, h) => (Ok await_id, h)
          | (_, h) => (Err SendAwaitError.Disconnected, h)
          end
      end
  end.

(* ws/managed/mod.rs:380-390 ManagedWsHandle::send_await *)
Definition send_await (wait : Handle -> option Handle) (h : Handle) (message : ClientMessage.t) : res SendAwaitError.t Z * Handle :=
  match command_epoch h message with
  | Ok connection_epoch => send_await_with_epoch wait h message connection_epoch
  | _ => (Err SendAwaitError.NotReady, h)
  end.

(* ws/managed/mod.rs:392-400 ManagedWsHandle::send_await_ready *)
Definition send_await_ready (wait : Handle -> option Handle) (h : Handle) (message : ClientMessage.t)
  : res SendAwaitError.t Z * Handle :=
  match ready_epoch h with
  | Ok connection_epoch => send_await_with_epoch wait h message (Some connection_epoch)
  | _ => (Err SendAwaitError.NotReady, h)
  end.

(* ws/managed/mod.rs:420-442 ManagedWsHandle::try_send_await_in_epoch *)
Definition try_send_await_in_epoch (h : Handle) (message : ClientMessage.t) (connection_epoch : Z)
  : res SendAwaitError.t Z * Handle :=
  if bool_decide (res_ok (ready_epoch h) = Some connection_epoch) then
    match await_command h message (Some connection_epoch) with
    | (Err e, h) => (Err e, h)
    | (Panic, h) => (Panic, h)
    | (Ok (command, await_id), h) =>
        match cmd_try_send h command with
        | (Ok _, h) => (Ok await_id, h)
        | (Err TrySendError.Full, h) => (Err SendAwaitError.QueueFull, h)
        | (Err TrySendError.Closed, h) => (Err SendAwaitError.Disconnected, h)
        | (Panic, h) => (Panic, h)
        end
    end
  else (Err SendAwaitError.NotReady, h).
End handle.

(** ** A command keeps its epoch *)

(** The ways to send a message. *)
Inductive HandleOp :=
| OpSend | OpTrySend | OpSendAwait | OpSendAwaitReady
| OpSendInEpoch (epoch : Z) | OpTrySendInEpoch (epoch : Z) | OpTrySendAwaitInEpoch (epoch : Z).

(** The epoch a caller names. *)
Definition named_epoch (op : HandleOp) : option Z :=
  match op with OpSendInEpoch e | OpTrySendInEpoch e | OpTrySendAwaitInEpoch e => Some e | _ => None end.

(** The message, or the way it is sent, asks for a ready session. *)
Definition needs_ready (op : HandleOp) (message : ClientMessage.t) : bool :=
  match op with OpSend | OpTrySend | OpSendAwait => ClientMessage.requires_ready message | _ => true end.

Section epochs.
Context (serialize : ClientMessage.t -> string + string).
Context (wait : Handle -> Handle) (timed : Handle -> option Handle).

Definition run_op (op : HandleOp) (h : Handle) (m : ClientMessage.t) : bool * Handle :=
  let plain (x : res ManagedWsError.t nat * Handle) := (is_ok x.1, x.2) in
  let awaited (x : res SendAwaitError.t Z * Handle) := (is_ok x.1, x.2) in
  match op with
  | OpSend => plain (send serialize wait h m)
  | OpTrySend => plain (try_send serialize h m)
  | OpSendInEpoch e => plain (send_in_epoch serialize wait h m e)
  | OpTrySendInEpoch e => plain (try_send_in_epoch serialize h m e)
  | OpSendAwait => awaited (send_await serialize timed h m)
  | OpSendAwaitReady => awaited (send_await_ready serialize timed h m)
  | OpTrySendAwaitInEpoch e => awaited (try_send_await_in_epoch serialize h m e)
  end.

(** What a stamped send does: one command at the end of the queue, as the queue is after
    any wait, and success; or nothing, and an error. *)
Definition stamped (h : Handle) (m : ClientMessage.t) (epoch : option Z) (x : bool * Handle) : Prop :=
  exists q, (q = h_queue h \/ exists h0, q = h_queue (wait h0) \/ h_queue <$> timed h0 = Some q) /\
  match x.1 with
  | true => prepare_outbound serialize h m = Ok tt /\
            exists c, h_queue x.2 = q ++ [c] /\ message_of c = m /\ epoch_of c = epoch
  | false => h_queue x.2 = q
  end.

Lemma unstamped h m e : stamped h m e (false, h).
Proof. exists (h_queue h). split; [by left|done]. Qed.

Lemma cmd_send_stamped h h1 m e c (q := h_queue h1) :
  prepare_outbound serialize h m = Ok tt -> message_of c = m -> epoch_of c = e ->
  (q = h_queue h \/ exists h0, q = h_queue (wait h0) \/ h_queue <$> timed h0 = Some q) ->
  stamped h m e (is_ok (cmd_send h1 c).1, (cmd_send h1 c).2).
Proof.
  intros Hp Hm He Hq. exists q. split; [exact Hq|]. unfold cmd_send. destruct (h_gone h1); simpl; [done|]. eauto.
Qed.

Lemma cmd_try_send_stamped h h1 m e c :
  prepare_outbound serialize h m = Ok tt -> message_of c = m -> epoch_of c = e -> h_queue h1 = h_queue h ->
  stamped h m e (is_ok (cmd_try_send h1 c).1, (cmd_try_send h1 c).2).
Proof.
  intros Hp Hm He Hq. exists (h_queue h). split; [by left|]. unfold cmd_try_send.
  destruct (h_gone h1); [done|]. destruct (_ <=? _)%nat; simpl; [done|]. rewrite Hq. eauto.
Qed.

Lemma try_send_stamped h m e (x := try_send_with_epoch serialize h m e) : stamped h m e (is_ok x.1, x.2).
Proof.
  subst x. unfold try_send_with_epoch. destruct (prepare_outbound serialize h m) as [[]| |] eqn:Hp; [|apply unstamped..].
  simpl. set (h1 := Build_Handle _ _ _ _ _ _ _ _ _).
  pose proof (cmd_try_send_stamped h h1 m e (Send m e (h_next_tx h)) Hp eq_refl eq_refl eq_refl) as H.
  destruct (cmd_try_send h1 _) as [[[]|[]|] h2]; exact H.
Qed.

Lemma send_stamped h m e (x := send_with_epoch serialize wait h m e) : stamped h m e (is_ok x.1, x.2).
Proof.
  subst x. unfold send_with_epoch. destruct (prepare_outbound serialize h m) as [[]| |] eqn:Hp; [|apply unstamped..].
  simpl. set (h1 := Build_Handle _ _ _ _ _ _ _ _ _).
  pose proof (cmd_send_stamped h (wait h1) m e (Send m e (h_next_tx h)) Hp eq_refl eq_refl (or_intror (ex_intro _ h1 (or_introl eq_refl)))) as H.
  destruct (cmd_send (wait h1) _) as [[[]|[]|] h2]; exact H.
Qed.

Lemma await_command_cases h m e r h' :
  await_command serialize h m e = (r, h') ->
  h_queue h' = h_queue h /\
  match r with
  | Ok (c, _) => prepare_outbound serialize h m = Ok tt /\ message_of c = m /\ epoch_of c = e
  | _ => True
  end.
Proof.
  unfold await_command. destruct (prepare_outbound serialize h m) as [[]| |]; [|by intros [= <- <-]..].
  destruct (Tracker.prepare m); intros [= <- <-]; done.
Qed.

Lemma send_await_stamped h m e (x := send_await_with_epoch serialize timed h m e) : stamped h m e (is_ok x.1, x.2).
Proof.
  subst x. unfold send_await_with_epoch.
  destruct (await_command serialize h m e) as [r h1] eqn:E. apply await_command_cases in E as [Hq Hr].
  destruct r as [[c id]| |]; [|exists (h_queue h); by split; [left|]..]. destruct Hr as (Hp & Hm & He).
  destruct (timed h1) as [h2|] eqn:Ht; [|exists (h_queue h); by split; [left|]].
  pose proof (cmd_send_stamped h h2 m e c Hp Hm He) as H. simpl in H.
  destruct (cmd_send h2 c) as [[[]|[]|] h3]; apply H; right; exists h1; right; by rewrite Ht.
Qed.

Lemma try_send_await_stamped h m e (x := try_send_await_in_epoch serialize h m e) : stamped h m (Some e) (is_ok x.1, x.2).
Proof.
  subst x. unfold try_send_await_in_epoch. case_bool_decide as Hready; [|apply unstamped].
  destruct (await_command serialize h m (Some e)) as [r h1] eqn:E. apply await_command_cases in E as [Hq Hr].
  destruct r as [[c id]| |]; [|exists (h_queue h); by split; [left|]..]. destruct Hr as (Hp & Hm & He).
  pose proof (cmd_try_send_stamped h h1 m (Some e) c Hp Hm He Hq) as H.
  destruct (cmd_try_send h1 c) as [[[]|[]|] h3]; exact H.
Qed.

Lemma command_epoch_Ok h m e :
  command_epoch h m = Ok e -> e = res_ok (ready_epoch h) /\ (ClientMessage.requires_ready m = true -> is_Some e).
Proof.
  unfold command_epoch, ready_epoch.
  destruct (h_state h), (ClientMessage.requires_ready m); intros [= <-]; simpl; (split; [done|]); try done; by eexists.
Qed.

(** The epoch a send stamps, and when it is refused before anything else. *)
Lemma run_op_stamped op h m : exists epoch,
  stamped h m epoch (run_op op h m) /\
  ((run_op op h m).1 = true -> epoch = res_ok (ready_epoch h) /\
     (needs_ready op m = true -> is_Some epoch) /\ (forall e, named_epoch op = Some e -> epoch = Some e)).
Proof.
  destruct op as [ | | | |e|e|e]; simpl;
    unfold send, try_send, send_await, send_await_ready, send_in_epoch, try_send_in_epoch.
  1-3: destruct (command_epoch h m) as [epoch| |] eqn:E; [|exists None; split; [apply unstamped|done]..];
    apply command_epoch_Ok in E as [He Hr]; exists epoch; split; [|done];
    by (apply send_stamped || apply try_send_stamped || apply send_await_stamped).
  1-3: destruct (ready_epoch h) as [epoch| |] eqn:E; [|exists None; split; [apply unstamped|done]..].
  - exists (Some epoch). split; [apply send_await_stamped|]. simpl. naive_solver.
  - destruct (Z.eqb_spec epoch e) as [->|]; [|exists None; split; [apply unstamped|done]].
    exists (Some e). split; [apply send_stamped|]. simpl. naive_solver.
  - destruct (Z.eqb_spec epoch e) as [->|]; [|exists None; split; [apply unstamped|done]].
    exists (Some e). split; [apply try_send_stamped|]. simpl. naive_solver.
  - exists (Some e). split; [apply try_send_await_stamped|]. unfold try_send_await_in_epoch.
    case_bool_decide as Hready; simpl; [|done]. naive_solver.
Qed.
End epochs.

Lemma handled_in_epoch is_closed epoch r c e :
  epoch_of c = Some e -> r_lanes (handle_command is_closed epoch r (Some c)).1 <> r_lanes r -> e = epoch.
Proof.
  intros He H. apply dec_stable. intros Hne. apply H. unfold handle_command.
  assert (Hd : epoch_differs (Some e) epoch = true) by (simpl; destruct (Z.eqb_spec e epoch); done).
  destruct c as [m o tx|id m o keys tx]; simpl in He; subst o; rewrite Hd; by destruct (is_closed tx).
Qed.

(** C15: However a message is sent, it is queued at most once, within the limits on batches and
    sizes, and a refused one is not queued.  A command that needs a ready session, or
    names its epoch, is stamped with the epoch that was ready when the caller asked; and
    the session gives it to the socket's writer only in that epoch, whatever happened to
    the connection while the command waited for room and then in the queue. *)
Theorem commands_keep_their_epoch serialize wait timed op h m :
  let '(ok, h') := run_op serialize wait timed op h m in
  exists epoch q,
    (q = h_queue h \/ exists h0, q = h_queue (wait h0) \/ h_queue <$> timed h0 = Some q) /\
    if ok then
      prepare_outbound serialize h m = Ok tt /\
      exists c, h_queue h' = q ++ [c] /\ message_of c = m /\ epoch_of c = epoch /\
      (needs_ready op m = true -> forall is_closed current r,
         r_lanes (handle_command is_closed current r (Some c)).1 <> r_lanes r ->
         h_state h = ManagedWsState.Ready current /\ forall e, named_epoch op = Some e -> e = current)
    else h_queue h' = q.
Proof.
  destruct (run_op_stamped serialize wait timed op h m) as (epoch & (q & Hq & Hs) & He).
  destruct (run_op serialize wait timed op h m) as [ok h'] eqn:E. simpl in Hs, He. exists epoch, q. split; [exact Hq|].
  destruct ok; [|exact Hs]. destruct Hs as (Hp & c & Hc & Hm & Hce). destruct (He eq_refl) as (Hr & Hn & Hnamed).
  split; [done|]. exists c. split_and!; [done..|]. intros Hneed is_closed current r Hl.
  destruct (Hn Hneed) as [e Hsome]. rewrite Hsome in Hce. pose proof (handled_in_epoch _ _ _ _ _ Hce Hl) as ->.
  split; [|intros e' He'; specialize (Hnamed _ He'); congruence].
  unfold ready_epoch in Hr. rewrite Hsome in Hr. destruct (h_state h); simpl in Hr; congruence.
Qed.
