(* ===== verification/Inbound.v ===== *)
(** * Receiving what a session publishes ([ws/managed/inbound.rs], [ws/vault/projection.rs])

    A session broadcasts every decoded frame, and a mark for a frame it could not decode,
    through a ring of bounded size.  A subscriber that falls behind loses the oldest items
    and is told how many.  The ring is tokio's: what successive calls of its [recv] give is an
    argument, and [covers] is its documented contract. *)

From Stdlib Require Import ZArith Lia String.
From stdpp Require Import base list strings.
From S2P Require Import Prelude Time Terms Quote Rows Messages Outcome.

Open Scope Z_scope.

(* ws/managed/inbound.rs:33-38 InboundItem *)
Inductive InboundItem := ItemMessage (inbound : ManagedInbound) | ItemUnreadable.

Module ManagedReceiveError.
(* ws/managed/inbound.rs:40-47 ManagedReceiveError *)
Inductive t := Closed | Gap (skipped : Z).
#[global] Instance t_eq_dec : EqDecision t.
Proof. solve_decision. Defined.
End ManagedReceiveError.

(** [broadcast::Receiver::recv], a call at a time. *)
Inductive RingRecv := RingItem (item : InboundItem) | RingLagged (skipped : Z) | RingClosed.

(** The contract of the ring: every published item is received, in order, or counted in the
    lag that is reported in its place; it closes after the last. *)
Inductive covers : list InboundItem -> list RingRecv -> Prop :=
| covers_pending items : covers items []
| covers_closed rest : covers [] (RingClosed :: rest)
| covers_item item items calls : covers items calls -> covers (item :: items) (RingItem item :: calls)
| covers_lag lost items calls :
    lost <> [] -> covers items calls -> covers (lost ++ items) (RingLagged (Z.of_nat (length lost)) :: calls).

(** A receiver: the calls to come, whether a lag asks for a reconnect ([gap_tx]), and how
    many were asked for. *)
(* ws/managed/inbound.rs:49-53 ManagedMessageReceiver *)
Record ManagedMessageReceiver := {
  mr_calls : list RingRecv;
  mr_reconnects : bool;
  mr_asked : nat;
}.

Definition after_call (r : ManagedMessageReceiver) (calls : list RingRecv) (asked : nat) : ManagedMessageReceiver :=
  {| mr_calls := calls; mr_reconnects := mr_reconnects r; mr_asked := mr_asked r + asked |}.

(** [None]: the receiver is still waiting. *)
(* ws/managed/inbound.rs:56-69 ManagedMessageReceiver::recv *)
Definition recv (r : ManagedMessageReceiver)
  : option (res ManagedReceiveError.t ManagedInbound * ManagedMessageReceiver) :=
  match mr_calls r with
  | [] => None
  | RingItem (ItemMessage message) :: calls => Some (Ok message, after_call r calls 0)
  | RingItem ItemUnreadable :: calls => Some (Err (ManagedReceiveError.Gap 1), after_call r calls 0)
  | RingClosed :: calls => Some (Err ManagedReceiveError.Closed, after_call r calls 0)
  | RingLagged skipped :: calls =>
      Some (Err (ManagedReceiveError.Gap skipped), after_call r calls (if mr_reconnects r then 1 else 0))
  end.

(** The handle's side: the receiver made when the session was spawned, which the first
    subscriber takes, and whether a lag asks for a reconnect. *)
Record Subscribers := { sb_initial : option (list RingRecv); sb_gap_tx : bool }.

(** [fresh] are the calls of a receiver made now. *)
(* ws/managed/mod.rs:219-229 ManagedWsHandle::subscribe_messages *)
Definition subscribe_messages (h : Subscribers) (fresh : list RingRecv) : ManagedMessageReceiver * Subscribers :=
  ({| mr_calls := default fresh (sb_initial h); mr_reconnects := sb_gap_tx h; mr_asked := 0 |},
   {| sb_initial := None; sb_gap_tx := sb_gap_tx h |}).

(** The loops of the receivers of one kind of message. *)
Section filtered.
Context {A : Type} (pick : ManagedInbound -> option A).

Fixpoint recv_loop (fuel : nat) (r : ManagedMessageReceiver)
  : option (res ManagedReceiveError.t A * ManagedMessageReceiver) :=
  match fuel with
  | O => None
  | S fuel =>
      match recv r with
      | None => None
      | Some (Err e, r) => Some (Err e, r)
      | Some (Panic, r) => Some (Panic, r)
      | Some (Ok inbound, r) =>
          match pick inbound with Some a => Some (Ok a, r) | None => recv_loop fuel r end
      end
  end.

(** Every call of the ring is consumed once: as many turns as calls are enough. *)
Definition recv_next (r : ManagedMessageReceiver) := recv_loop (length (mr_calls r)) r.
End filtered.

(* ws/managed/inbound.rs:84-86 ReferenceChangeReceiver::recv (pattern) *)
Definition pick_reference (inbound : ManagedInbound) : option ReferenceChangedData.t :=
  match in_message inbound with ServerMessage.ReferenceChanged data => Some data | _ => None end.

(* ws/managed/inbound.rs:81-88 ReferenceChangeReceiver::recv *)
Definition recv_reference_change (r : ManagedMessageReceiver) := recv_next pick_reference r.

(* ws/vault/projection.rs:4-10 VaultProjection *)
Record VaultProjection := {
  vp_connection_epoch : Z; vp_sequence : Z; vp_data : VaultProjectionAdvancedData.t;
}.

(* ws/vault/projection.rs:13-16 VaultProjection::version *)
Definition version (self : VaultProjection) : Z := VaultProjectionAdvancedData.version (vp_data self).

(* ws/vault/projection.rs:18-21 VaultProjection::follows *)
Definition follows_version (self : VaultProjection) (previous_version : Z) : bool :=
  match checked_add 64 previous_version 1 with Some next => next =? version self | None => false end.

(* ws/vault/projection.rs:37-43 VaultProjectionReceiver::recv (pattern) *)
Definition pick_projection (inbound : ManagedInbound) : option VaultProjection :=
  match in_message inbound with
  | ServerMessage.VaultProjectionAdvanced data =>
      Some {| vp_connection_epoch := in_connection_epoch inbound; vp_sequence := in_sequence inbound; vp_data := data |}
  | _ => None
  end.

(* ws/vault/projection.rs:34-45 VaultProjectionReceiver::recv *)
Definition recv_projection (r : ManagedMessageReceiver) := recv_next pick_projection r.

(** ** Losses are reported *)

(** What a call consumes of the items published since the last one. *)
Definition consumed (items : list InboundItem) (x : res ManagedReceiveError.t ManagedInbound) (rest : list InboundItem) : Prop :=
  match x with
  | Ok m => items = ItemMessage m :: rest
  | Err (ManagedReceiveError.Gap k) => exists lost, items = lost ++ rest /\ lost <> [] /\ k = Z.of_nat (length lost)
  | Err ManagedReceiveError.Closed => items = [] /\ rest = []
  | Panic => False
  end.

Lemma recv_consumes items r x r' :
  covers items (mr_calls r) -> recv r = Some (x, r') ->
  exists rest, consumed items x rest /\ (x <> Err ManagedReceiveError.Closed -> covers rest (mr_calls r')) /\
    length (mr_calls r) = S (length (mr_calls r')).
Proof.
  intros Hc. unfold recv. destruct Hc as [items|rest|item items calls Hc|lost items calls Hl Hc]; [done| | |].
  - intros [= <- <-]. exists []. split_and!; done.
  - destruct item as [m|]; intros [= <- <-]; exists items; split_and!; try done. by exists [ItemUnreadable].
  - intros [= <- <-]. exists items. split_and!; [by exists lost|done|done].
Qed.

Section loss.
Context {A : Type} (pick : ManagedInbound -> option A).

(** Messages the receiver passes over. *)
Definition passed (skipped : list ManagedInbound) : Prop := Forall (fun m => pick m = None) skipped.

Definition accounted (items : list InboundItem) (x : res ManagedReceiveError.t A) (r' : ManagedMessageReceiver) : Prop :=
  exists skipped, passed skipped /\
  match x with
  | Ok a => exists m rest, items = (ItemMessage <$> skipped) ++ ItemMessage m :: rest /\ pick m = Some a /\ covers rest (mr_calls r')
  | Err (ManagedReceiveError.Gap k) =>
      exists lost rest, items = (ItemMessage <$> skipped) ++ lost ++ rest /\ lost <> [] /\ k = Z.of_nat (length lost) /\
        covers rest (mr_calls r')
  | Err ManagedReceiveError.Closed => items = ItemMessage <$> skipped
  | Panic => False
  end.

Lemma accounted_skip items m x r' : pick m = None -> accounted items x r' -> accounted (ItemMessage m :: items) x r'.
Proof.
  intros Hm (skipped & Hs & H). exists (m :: skipped). split; [by constructor|].
  destruct x as [a|[|k]|]; simpl in *.
  - destruct H as (m' & rest & -> & H). by exists m', rest.
  - by rewrite H.
  - destruct H as (lost & rest & -> & H). by exists lost, rest.
  - done.
Qed.

Lemma recv_loop_accounted fuel items r x r' :
  covers items (mr_calls r) -> recv_loop pick fuel r = Some (x, r') -> accounted items x r'.
Proof.
  revert items r. induction fuel as [|fuel IH]; intros items r Hc; simpl; [done|].
  destruct (recv r) as [[y r1]|] eqn:Er; [|done].
  destruct (recv_consumes _ _ _ _ Hc Er) as (rest & Hy & Hcr & _). destruct y as [m|[|k]|]; simpl in Hy; [| | |done].
  - subst items. specialize (Hcr ltac:(done)). destruct (pick m) as [a|] eqn:Ep.
    + intros [= <- <-]. exists []. split; [constructor|]. by exists m, rest.
    + intros H. apply accounted_skip; [done|]. by eapply IH.
  - intros [= <- <-]. exists []. split; [constructor|]. by destruct Hy as [-> _].
  - destruct Hy as (lost & -> & Hl & ->). intros [= <- <-]. exists []. split; [constructor|].
    exists lost, rest. split_and!; try done. by apply Hcr.
Qed.

(** A receiver still waits only for want of calls to make, and has passed over nothing but
    messages of other kinds. *)
Lemma recv_loop_waiting fuel items r :
  covers items (mr_calls r) -> (length (mr_calls r) <= fuel)%nat -> recv_loop pick fuel r = None ->
  exists skipped rest, items = (ItemMessage <$> skipped) ++ rest /\ passed skipped /\ length skipped = length (mr_calls r).
Proof.
  revert items r. induction fuel as [|fuel IH]; intros items r Hc Hf; simpl.
  - intros _. exists [], items. split_and!; [done|constructor|simpl; lia].
  - destruct (recv r) as [[y r1]|] eqn:Er.
    + destruct (recv_consumes _ _ _ _ Hc Er) as (rest & Hy & Hcr & Hlen). destruct y as [m|e|]; [|done..].
      simpl in Hy. subst items. destruct (pick m) eqn:Ep; [done|]. intros H.
      destruct (IH rest r1 (Hcr ltac:(done)) ltac:(lia) H) as (skipped & rest' & -> & Hs & Hl).
      exists (m :: skipped), rest'. split_and!; [done|by constructor|simpl; lia].
    + intros _. exists [], items. unfold recv in Er. destruct (mr_calls r) as [|[[]| |] calls]; try done.
      split_and!; [done|constructor|done].
Qed.
End loss.

(** A receiver of one kind of message never loses one silently: when it returns a message, all
    that was published between this one and the last call was read and is of another kind;
    when anything was lost or unreadable, the call says so, with the number, before it returns
    anything published later; it says closed only when everything published was read; and
    while it waits, it has only passed over messages of other kinds. *)
Theorem losses_are_reported {A} (pick : ManagedInbound -> option A) items r :
  covers items (mr_calls r) ->
  match recv_next pick r with
  | Some (x, r') => accounted pick items x r'
  | None => exists skipped rest,
      items = (ItemMessage <$> skipped) ++ rest /\ passed pick skipped /\ length skipped = length (mr_calls r)
  end.
Proof.
  intros Hc. unfold recv_next. destruct (recv_loop pick _ r) as [[x r']|] eqn:E.
  - by eapply recv_loop_accounted.
  - by eapply recv_loop_waiting.
Qed.

(** Steps that follow each other from a known version are that version's successors, one by
    one: no step is missing between them, and the count never wraps. *)
Fixpoint follow_on (previous : Z) (steps : list VaultProjection) : bool :=
  match steps with
  | [] => true
  | p :: steps => follows_version p previous && follow_on (version p) steps
  end.

Lemma followed_versions v steps :
  fits 64 v -> follow_on v steps = true ->
  version <$> steps = (fun n => v + Z.of_nat n) <$> seq 1 (length steps) /\ v + Z.of_nat (length steps) < 2 ^ 64.
Proof.
  intros [Hv Hv']. revert v Hv Hv'. induction steps as [|p steps IH]; intros v Hv Hv' H; [split; [done|simpl; lia]|].
  simpl in H. apply andb_true_iff in H as [Hp Hs]. unfold follows_version, checked_add in Hp.
  destruct (Z.ltb_spec (v + 1) (2 ^ 64)); [|done]. apply Z.eqb_eq in Hp.
  destruct (IH (version p) ltac:(lia) ltac:(lia) Hs) as [Hm Hb]. split.
  - cbn [fmap list_fmap seq length]. f_equal; [cbn; lia|]. rewrite Hm, <- (fmap_S_seq 1), <- list_fmap_compose.
    apply list_fmap_ext. intros i n _. cbn. lia.
  - simpl length. lia.
Qed.

(** The first subscriber starts with everything published since the session was spawned;
    a later one with what is published from then on. *)
Lemma first_subscriber_misses_nothing items later initial fresh gap h' :
  covers items initial -> covers later fresh ->
  let h := {| sb_initial := Some initial; sb_gap_tx := gap |} in
  (subscribe_messages h fresh).2 = h' ->
  covers items (mr_calls (subscribe_messages h fresh).1) /\ covers later (mr_calls (subscribe_messages h' fresh).1).
Proof. intros Hi Hf h <-. done. Qed.
