(* ===== verification/Ready.v ===== *)
(** * Becoming ready ([src/ws/managed/session_ready.rs])

    Between authentication and [Ready] a session restores its subscriptions and reads the
    server's authoritative lists to their ends.  It is a conversation like the one of
    Login.v: the socket is a list of the results its reads will have and of the outcomes
    its writes will have; what is sent and published is recorded.  A conversation whose
    reads run out is still waiting ([None]); the caller bounds it by [readiness_timeout].
    [Uuid::new_v4] is a parameter: the [n]th id. *)

From Stdlib Require Import ZArith Lia String.
From stdpp Require Import base list gmap strings.
From S2P Require Import Prelude Terms Quote Paging Rows Messages Subscriptions Control.

Open Scope Z_scope.

Module MakerWsEndpoint.
(* ws/managed/endpoint.rs:1-8 MakerWsEndpoint *)
Inductive t := Quote | Data | Vault.
#[global] Instance t_eq_dec : EqDecision t.
Proof. solve_decision. Defined.
End MakerWsEndpoint.

(** A read: a message, an error by its text, or the end of the stream. *)
Inductive Read := Msg (m : ServerMessage.t) | ReadErr (text : string) | Eof.

(** [writes] are the outcomes of the writes: done, or the text of the error; writes beyond
    the recorded ones succeed. *)
Record Socket := {
  reads : list Read;
  writes : list (option string);
  sent : list ClientMessage.t;
  published : list ServerMessage.t;
  ids : nat;
  step : nat;
}.

Definition Conversation (A : Type) : Type := Socket -> option (res SessionFailure.t A * Socket).

Definition done {A} (a : A) : Conversation A := fun s => Some (Ok a, s).
Definition fail {A} (e : SessionFailure.t) : Conversation A := fun s => Some (Err e, s).
Definition and_then {A B} (m : Conversation A) (k : A -> Conversation B) : Conversation B := fun s =>
  match m s with
  | Some (Ok a, s) => k a s
  | Some (Err e, s) => Some (Err e, s)
  | Some (Panic, s) => Some (Panic, s)
  | None => None
  end.
Notation "x <- m ;; k" := (and_then m (fun x => k)) (at level 100, m at next level, right associativity).
Notation "m ;;; k" := (and_then m (fun _ => k)) (at level 100, right associativity).

Section ready.
Context (new_v4 : nat -> Uuid).

Definition fresh : Conversation Uuid := fun s =>
  Some (Ok (new_v4 (ids s)),
        {| reads := reads s; writes := writes s; sent := sent s; published := published s;
           ids := S (ids s); step := step s |}).

(* ws/managed/session_ready.rs:27-29 ReadinessStep::enter *)
Definition enter (index : nat) : Conversation unit := fun s =>
  Some (Ok tt, {| reads := reads s; writes := writes s; sent := sent s; published := published s;
                  ids := ids s; step := index |}).

(* ws/managed/session_ready.rs:21-33 ReadinessStep::name *)
Definition step_name (index : nat) : res SessionFailure.t string :=
  match index with
  | 0%nat => Ok "subscription snapshot"%string
  | 1%nat => Ok "subscription recovery"%string
  | 2%nat => Ok "reconciliation reads"%string
  | _ => Panic
  end.

(** With the error's text in [SessionFailure::Retryable]. *)
(* ws/managed/session_io.rs:119-129 write_message *)
Definition write_message (m : ClientMessage.t) : Conversation unit := fun s =>
  let s' ms := {| reads := reads s; writes := tl (writes s); sent := sent s ++ ms; published := published s;
                  ids := ids s; step := step s |} in
  match hd None (writes s) with
  | None => Some (Ok tt, s' [m])
  | Some text => Some (Err (SessionFailure.Retryable text), s' [])
  end.

(** The socket after the first read, with what it published. *)
Definition consumed (s : Socket) (rest : list Read) (ms : list ServerMessage.t) : Socket :=
  {| reads := rest; writes := writes s; sent := sent s; published := published s ++ ms;
     ids := ids s; step := step s |}.

Definition closed : SessionFailure.t := SessionFailure.Retryable "connection closed during readiness barrier".

(** What one read makes of the conversation. *)
(* ws/managed/session_ready.rs:331-349 next_message *)
Definition read_message (r : Read) : res SessionFailure.t ServerMessage.t * list ServerMessage.t :=
  match r with
  | Msg m => match SessionFailure.from_control m with Some failure => (Err failure, [m]) | None => (Ok m, [m]) end
  | ReadErr text => (Err (SessionFailure.Retryable text), [])
  | Eof => (Err closed, [])
  end.

(** The texts of an id and of an error. *)
Context (uuid_text : Uuid -> string) (debug : ServerError.t -> string).

(* ws/managed/session_ready.rs:351-353 request_failed *)
Definition request_failed (request_id : Uuid) (error : ServerError.t) : SessionFailure.t :=
  SessionFailure.Retryable ("readiness request " +:+ uuid_text request_id +:+ " failed: " +:+ debug error).

(** The three [wait_for_*] loops: [answers] picks the reply, an error reply to the same
    request ends the wait, everything else is passed over. *)
Fixpoint wait_for {A} (answers : ServerMessage.t -> option A) (request_id : Uuid) (rs : list Read) (s : Socket)
  : option (res SessionFailure.t A * Socket) :=
  match rs with
  | [] => None
  | r :: rest =>
      let '(got, ms) := read_message r in
      let s := consumed s rest ms in
      match got with
      | Err e => Some (Err e, s)
      | Panic => Some (Panic, s)
      | Ok m =>
          match answers m with
          | Some a => Some (Ok a, s)
          | None =>
              match m with
              | ServerMessage.RequestError id error _ =>
                  if id =? request_id then Some (Err (request_failed id error), s)
                  else wait_for answers request_id rest s
              | _ => wait_for answers request_id rest s
              end
          end
      end
  end.

(* ws/managed/session_ready.rs:208-225 wait_for_subscriptions *)
Definition wait_for_subscriptions (request_id : Uuid) : Conversation SubscriptionsMessage := fun s =>
  wait_for (fun m => match m with
                     | ServerMessage.Subscriptions data =>
                         if subs_request_id data =? request_id then Some data else None
                     | _ => None
                     end) request_id (reads s) s.

(* ws/managed/session_ready.rs:227-242 wait_for_subscribe_ack *)
Definition wait_for_subscribe_ack (request_id : Uuid) : Conversation unit := fun s =>
  wait_for (fun m => match m with
                     | ServerMessage.SubscribeAck id => if id =? request_id then Some tt else None
                     | _ => None
                     end) request_id (reads s) s.

(* ws/managed/session_ready.rs:244-259 wait_for_unsubscribe_ack *)
Definition wait_for_unsubscribe_ack (request_id : Uuid) : Conversation unit := fun s =>
  wait_for (fun m => match m with
                     | ServerMessage.UnsubscribeAck id => if id =? request_id then Some tt else None
                     | _ => None
                     end) request_id (reads s) s.

(* ws/maker/data.rs:49-81 PagedRequest::append (GetSubscriptionsMessage) *)
Definition append_subscriptions (all page : SubscriptionsMessage) : SubscriptionsMessage :=
  {| subs_request_id := subs_request_id all; subs_next_cursor := subs_next_cursor page;
     subs_channels := subs_channels all ++ subs_channels page;
     subs_underlying_mints := subs_underlying_mints all ++ subs_underlying_mints page;
     subs_quote_mints := subs_quote_mints all ++ subs_quote_mints page |}.

Definition no_subscriptions (id : Uuid) : SubscriptionsMessage :=
  {| subs_request_id := id; subs_next_cursor := None; subs_channels := []; subs_underlying_mints := [];
     subs_quote_mints := [] |}.

(** The text of [InvalidPage]. *)
Definition invalid_page_text : string := "page returned an empty or repeated continuation".

(** Each page consumes a read, so one more than their number is fuel enough. *)
(* ws/managed/session_ready.rs:56-75 establish (snapshot loop) *)
Fixpoint snapshot (fuel : nat) (request : PageRequest) (actual : SubscriptionsMessage) (seen : gset string)
  : Conversation SubscriptionsMessage :=
  match fuel with
  | O => fun _ => None
  | S fuel =>
      write_message (ClientMessage.GetSubscriptions request) ;;;
      page <- wait_for_subscriptions (pq_request_id request) ;;
      let actual := append_subscriptions actual page in
      match advance seen (subs_next_cursor actual) with
      | (_, Err _) => fail (SessionFailure.Retryable invalid_page_text)
      | (_, Panic) => fun s => Some (Panic, s)
      | (_, Ok None) => done actual
      | (seen, Ok (Some cursor)) =>
          id <- fresh ;;
          snapshot fuel {| pq_request_id := id; pq_limit := pq_limit request; pq_cursor := cursor |} actual seen
      end
  end.

(* ws/managed/session_ready.rs:184-206 recover_subscriptions *)
Definition recover_subscriptions (recovery : SubscriptionRecovery) : Conversation unit :=
  match rec_unsubscribe recovery with
  | Some unsubscribe =>
      write_message (ClientMessage.Unsubscribe unsubscribe) ;;;
      wait_for_unsubscribe_ack (un_request_id unsubscribe)
  | None => done tt
  end ;;;
  match rec_subscribe recovery with
  | None => done tt
  | Some subscribe =>
      write_message (ClientMessage.Subscribe subscribe) ;;;
      wait_for_subscribe_ack (sub_request_id subscribe)
  end.

(** ** Reconciliation reads *)

(* ws/managed/session_ready.rs:158-173 quote_reads *)
Definition quote_reads : Conversation (list ClientMessage.t) :=
  id1 <- fresh ;;
  id2 <- fresh ;;
  done [ClientMessage.GetActiveRfqs {| pq_request_id := id1; pq_limit := 200; pq_cursor := Cursor.Start |};
        ClientMessage.GetMyQuotes {| gq_request_id := id2; gq_scope := MakerQuoteScope.Live; gq_limit := 200;
                                     gq_cursor := Cursor.Start |}].

(* ws/managed/session_ready.rs:175-182 mm_summary_read *)
Definition mm_summary_read : Conversation ClientMessage.t :=
  id <- fresh ;;
  done (ClientMessage.GetMmSummary {| pq_request_id := id; pq_limit := 200; pq_cursor := Cursor.Start |}).

(** The open and the funded positions. *)
Definition live_positions (id : Uuid) : GetPositionsMessage :=
  {| gp_request_id := id; gp_market := QueryFilter.All; gp_underlying_mint := QueryFilter.All;
     gp_status := [PositionStatus.Open; PositionStatus.Funded]; gp_min_expiry_ts := TimeBound.Unbounded;
     gp_limit := 200; gp_cursor := Cursor.Start |}.

(** Which pending read a reply answers. *)
(* ws/managed/session_ready.rs:277-309 wait_for_reconciliation (position) *)
Definition answers_read (request : ClientMessage.t) (message : ServerMessage.t) : bool :=
  match request, message with
  | ClientMessage.GetMmSummary request, ServerMessage.MmSummary data => pq_request_id request =? pg_request_id data
  | ClientMessage.GetActiveRfqs request, ServerMessage.ActiveRfqs data => pq_request_id request =? pg_request_id data
  | ClientMessage.GetMyActiveRfqs request, ServerMessage.MyActiveRfqs data => pq_request_id request =? pg_request_id data
  | ClientMessage.GetMyCaps request, ServerMessage.MyCaps data => pq_request_id request =? pg_request_id data
  | ClientMessage.GetTokens request, ServerMessage.Tokens data => pq_request_id request =? pg_request_id data
  | ClientMessage.GetMyQuotes request, ServerMessage.MyQuotes data => gq_request_id request =? pg_request_id data
  | ClientMessage.GetMakerPositions request, ServerMessage.MakerPositions data => gp_request_id request =? pg_request_id data
  | ClientMessage.GetPositions request, ServerMessage.Positions data => gp_request_id request =? pg_request_id data
  | ClientMessage.GetMarketsForMaker request, ServerMessage.MakerMarkets data =>
      gm_request_id request =? pg_request_id data
  | _, _ => false
  end.

(** The [HashMap] of continuations, by the name of the request. *)
Definition Continuations : Type := gmap string (gset string).

(* ws/managed/session_ready.rs:361-374 reconciliation_pages (continue_page) *)
Definition continue_page (name : string) (next_cursor : option string) (make : Uuid -> Cursor.t -> ClientMessage.t)
  (continuations : Continuations) : Conversation (list ClientMessage.t * Continuations) :=
  match advance (default ∅ (continuations !! name)) next_cursor with
  | (_, Err _) => fail (SessionFailure.Retryable invalid_page_text)
  | (_, Panic) => fun s => Some (Panic, s)
  | (seen, Ok None) => done ([], <[name := seen]> continuations)
  | (seen, Ok (Some cursor)) =>
      id <- fresh ;;
      done ([make id cursor], <[name := seen]> continuations)
  end.

Definition paged (request : PageRequest) (id : Uuid) (cursor : Cursor.t) : PageRequest :=
  {| pq_request_id := id; pq_limit := pq_limit request; pq_cursor := cursor |}.
Definition paged_positions (request : GetPositionsMessage) (id : Uuid) (cursor : Cursor.t) : GetPositionsMessage :=
  {| gp_request_id := id; gp_market := gp_market request; gp_underlying_mint := gp_underlying_mint request;
     gp_status := gp_status request; gp_min_expiry_ts := gp_min_expiry_ts request; gp_limit := gp_limit request;
     gp_cursor := cursor |}.
Definition paged_quotes (request : GetMyQuotesMessage) (id : Uuid) (cursor : Cursor.t) : GetMyQuotesMessage :=
  {| gq_request_id := id; gq_scope := gq_scope request; gq_limit := gq_limit request; gq_cursor := cursor |}.
Definition paged_markets (request : GetMarketsForMakerMessage) (id : Uuid) (cursor : Cursor.t)
  : GetMarketsForMakerMessage :=
  {| gm_request_id := id; gm_limit := gm_limit request; gm_cursor := cursor;
     gm_underlying_mints := gm_underlying_mints request; gm_quote_mints := gm_quote_mints request;
     gm_min_expiry_ts := gm_min_expiry_ts request; gm_max_expiry_ts := gm_max_expiry_ts request;
     gm_is_put := gm_is_put request |}.

(** The reads that replace the rest of a summary. *)
(* ws/managed/session_ready.rs:400-428 reconciliation_pages (summary) *)
Definition collections : Conversation (list ClientMessage.t) :=
  id1 <- fresh ;;
  id2 <- fresh ;;
  id3 <- fresh ;;
  id4 <- fresh ;;
  id5 <- fresh ;;
  done [ClientMessage.GetMakerPositions (live_positions id1);
        ClientMessage.GetMyQuotes (default_my_quotes id2);
        ClientMessage.GetMyCaps {| pq_request_id := id3; pq_limit := 200; pq_cursor := Cursor.Start |};
        ClientMessage.GetMarketsForMaker (default_markets_for_maker id4);
        ClientMessage.GetTokens {| pq_request_id := id5; pq_limit := 200; pq_cursor := Cursor.Start |}].

(* ws/managed/session_ready.rs:355-432 reconciliation_pages *)
Definition reconciliation_pages (request : ClientMessage.t) (response : ServerMessage.t) (cs : Continuations)
  : Conversation (list ClientMessage.t * Continuations) :=
  match request, response with
  | ClientMessage.GetPositions request, ServerMessage.Positions data =>
      continue_page "GetPositions" (pg_next_cursor data)
        (fun id c => ClientMessage.GetPositions (paged_positions request id c)) cs
  | ClientMessage.GetActiveRfqs request, ServerMessage.ActiveRfqs data =>
      continue_page "GetActiveRfqs" (pg_next_cursor data)
        (fun id c => ClientMessage.GetActiveRfqs (paged request id c)) cs
  | ClientMessage.GetMyActiveRfqs request, ServerMessage.MyActiveRfqs data =>
      continue_page "GetMyActiveRfqs" (pg_next_cursor data)
        (fun id c => ClientMessage.GetMyActiveRfqs (paged request id c)) cs
  | ClientMessage.GetMyQuotes request, ServerMessage.MyQuotes data =>
      continue_page "GetMyQuotes" (pg_next_cursor data)
        (fun id c => ClientMessage.GetMyQuotes (paged_quotes request id c)) cs
  | ClientMessage.GetMakerPositions request, ServerMessage.MakerPositions data =>
      continue_page "GetMakerPositions" (pg_next_cursor data)
        (fun id c => ClientMessage.GetMakerPositions (paged_positions request id c)) cs
  | ClientMessage.GetMyCaps request, ServerMessage.MyCaps data =>
      continue_page "GetMyCaps" (pg_next_cursor data)
        (fun id c => ClientMessage.GetMyCaps (paged request id c)) cs
  | ClientMessage.GetMarketsForMaker request, ServerMessage.MakerMarkets data =>
      continue_page "GetMarketsForMaker" (pg_next_cursor data)
        (fun id c => ClientMessage.GetMarketsForMaker (paged_markets request id c)) cs
  | ClientMessage.GetTokens request, ServerMessage.Tokens data =>
      continue_page "GetTokens" (pg_next_cursor data)
        (fun id c => ClientMessage.GetTokens (paged request id c)) cs
  | ClientMessage.GetMmSummary _, ServerMessage.MmSummary data =>
      match pg_next_cursor data with
      | Some _ => pages <- collections ;; done (pages, cs)
      | None => done ([], cs)
      end
  | _, _ => done ([], cs)
  end.

(** A live quote read after a summary is the data endpoint's only. *)
(* ws/managed/session_ready.rs:315-320 wait_for_reconciliation (skip) *)
Definition skipped (endpoint : MakerWsEndpoint.t) (message : ServerMessage.t) (next : ClientMessage.t) : bool :=
  match next, message with
  | ClientMessage.GetMyQuotes _, ServerMessage.MmSummary _ => negb (bool_decide (endpoint = MakerWsEndpoint.Data))
  | _, _ => false
  end.

(* ws/managed/session_ready.rs:311-326 wait_for_reconciliation (pages) *)
Fixpoint send_pages (endpoint : MakerWsEndpoint.t) (message : ServerMessage.t) (pages pending : list ClientMessage.t)
  : Conversation (list ClientMessage.t) :=
  match pages with
  | [] => done pending
  | next :: pages =>
      if skipped endpoint message next then send_pages endpoint message pages pending
      else write_message next ;;; send_pages endpoint message pages (pending ++ [next])
  end.

(** An error reply to a pending read. *)
Definition rejection (pending : list ClientMessage.t) (message : ServerMessage.t) : option SessionFailure.t :=
  match message with
  | ServerMessage.RequestError id error _ =>
      if existsb (fun request => bool_decide (ClientMessage.request_id request = Some id)) pending
      then Some (request_failed id error) else None
  | _ => None
  end.

(* ws/managed/session_ready.rs:261-329 wait_for_reconciliation *)
Fixpoint reconcile (endpoint : MakerWsEndpoint.t) (rs : list Read) (pending : list ClientMessage.t)
  (cs : Continuations) (s : Socket) : option (res SessionFailure.t unit * Socket) :=
  match pending with
  | [] => Some (Ok tt, s)
  | _ =>
      match rs with
      | [] => None
      | r :: rest =>
          let '(got, ms) := read_message r in
          let s := consumed s rest ms in
          match got with
          | Err e => Some (Err e, s)
          | Panic => Some (Panic, s)
          | Ok message =>
              match rejection pending message with
              | Some e => Some (Err e, s)
              | None =>
                  match list_find (fun request => answers_read request message = true) pending with
                  | None => reconcile endpoint rest pending cs s
                  | Some (index, request) =>
                      match (p <- reconciliation_pages request message cs ;;
                             pending <- send_pages endpoint message (fst p) (delete index pending) ;;
                             done (pending, snd p)) s with
                      | Some (Ok (pending, cs), s) => reconcile endpoint rest pending cs s
                      | Some (Err e, s) => Some (Err e, s)
                      | Some (Panic, s) => Some (Panic, s)
                      | None => None
                      end
                  end
              end
          end
      end
  end.

Definition wait_for_reconciliation (endpoint : MakerWsEndpoint.t) (pending : list ClientMessage.t)
  : Conversation unit := fun s => reconcile endpoint (reads s) pending ∅ s.

(* ws/managed/session_ready.rs:114-149 establish (reads) *)
Definition endpoint_reads (endpoint : MakerWsEndpoint.t) (can_maker : bool) : Conversation (list ClientMessage.t) :=
  match endpoint with
  | MakerWsEndpoint.Quote => quote_reads
  | MakerWsEndpoint.Data => read <- mm_summary_read ;; done [read]
  | MakerWsEndpoint.Vault =>
      id1 <- fresh ;;
      id2 <- fresh ;;
      let own := [ClientMessage.GetMyActiveRfqs {| pq_request_id := id1; pq_limit := 200; pq_cursor := Cursor.Start |};
                  ClientMessage.GetPositions (live_positions id2)] in
      if can_maker then
        summary <- mm_summary_read ;;
        quotes <- quote_reads ;;
        done (own ++ [summary] ++ quotes)
      else done own
  end.

Fixpoint write_all (ms : list ClientMessage.t) : Conversation unit :=
  match ms with
  | [] => done tt
  | m :: ms => write_message m ;;; write_all ms
  end.

(* ws/managed/session_ready.rs:46-80 establish (quote) *)
Definition establish_quote (subscriptions : DesiredSubscriptions) : Conversation unit :=
  id <- fresh ;;
  actual <- (fun s => snapshot (S (length (reads s))) (default_request id) (no_subscriptions id) ∅ s) ;;
  enter 1 ;;;
  id1 <- fresh ;;
  id2 <- fresh ;;
  recover_subscriptions (Desired.recovery (fun b : bool => if b then id2 else id1) subscriptions actual).

(** The server keeps no vault subscriptions: the target is sent as it is, without mints,
    or the feed is turned off. *)
(* ws/managed/session_ready.rs:82-112 establish (vault) *)
Definition establish_vault (subscriptions : DesiredSubscriptions) : Conversation unit :=
  enter 1 ;;;
  if Desired.wants_vault_feed subscriptions then
    id <- fresh ;;
    id1 <- fresh ;;
    id2 <- fresh ;;
    let recovery := Desired.recovery (fun b : bool => if b then id2 else id1) subscriptions (no_subscriptions id) in
    recover_subscriptions
      {| rec_unsubscribe := rec_unsubscribe recovery;
         rec_subscribe := (fun subscribe =>
           {| sub_products := sub_products subscribe; sub_request_id := sub_request_id subscribe;
              sub_channels := sub_channels subscribe; sub_underlying_mints := []; sub_quote_mints := [] |})
           <$> rec_subscribe recovery |}
  else
    id <- fresh ;;
    write_message (ClientMessage.Unsubscribe {| un_request_id := id; un_channels := [WsChannel.Vaults] |}) ;;;
    wait_for_unsubscribe_ack id.

(** [auth.vault.is_some_and(|vault| vault.permissions.can_maker())]. *)
Definition may_make (vault : option VaultAuthSuccessData) : bool :=
  match vault with
  | Some vault => VaultDelegatePermissions.can_maker (va_permissions vault)
  | None => false
  end.

(* ws/managed/session_ready.rs:36-156 establish *)
Definition establish (endpoint : MakerWsEndpoint.t) (subscriptions : DesiredSubscriptions)
  (vault : option VaultAuthSuccessData) : Conversation unit :=
  match endpoint with
  | MakerWsEndpoint.Quote => establish_quote subscriptions
  | MakerWsEndpoint.Data => done tt
  | MakerWsEndpoint.Vault => establish_vault subscriptions
  end ;;;
  enter 2 ;;;
  pending <- endpoint_reads endpoint (may_make vault) ;;
  write_all pending ;;;
  wait_for_reconciliation endpoint pending.
End ready.

(** ** What a conversation that succeeds has said and heard *)

(** A reply that is no control failure. *)
Definition quiet (r : ServerMessage.t) : Prop := SessionFailure.from_control r = None.

(** [c] ended well, having sent [ms] and published [ps]. *)
Definition ran {A} (c : Conversation A) (Q : A -> list ClientMessage.t -> list ServerMessage.t -> Prop) : Prop :=
  forall s a s', c s = Some (Ok a, s') -> exists ms ps,
    sent s' = sent s ++ ms /\ published s' = published s ++ ps /\ Forall quiet ps /\ Q a ms ps.

Lemma ran_weaken {A} (c : Conversation A) Q R :
  ran c Q -> (forall a ms ps, Q a ms ps -> R a ms ps) -> ran c R.
Proof. intros H Hi s a s' Hc. destruct (H s a s' Hc) as (ms & ps & ? & ? & ? & ?). exists ms, ps. auto. Qed.

Lemma ran_bind {A B} (m : Conversation A) (k : A -> Conversation B) Q R :
  ran m Q -> (forall a, ran (k a) (R a)) ->
  ran (and_then m k) (fun b ms ps => exists a ms1 ms2 ps1 ps2,
    ms = ms1 ++ ms2 /\ ps = ps1 ++ ps2 /\ Q a ms1 ps1 /\ R a b ms2 ps2).
Proof.
  intros Hm Hk s b s' H. unfold and_then in H. destruct (m s) as [[[a|e|] s1]|] eqn:E; try done.
  destruct (Hm s a s1 E) as (ms1 & ps1 & Hs1 & Hp1 & Hq1 & HQ).
  destruct (Hk a s1 b s' H) as (ms2 & ps2 & Hs2 & Hp2 & Hq2 & HR).
  exists (ms1 ++ ms2), (ps1 ++ ps2). rewrite Hs2, Hs1, Hp2, Hp1, !app_assoc. split_and!; [done|done| |].
  - by apply Forall_app.
  - by exists a, ms1, ms2, ps1, ps2.
Qed.

Definition silent {A} (P : A -> Prop) (a : A) (ms : list ClientMessage.t) (ps : list ServerMessage.t) : Prop :=
  P a /\ ms = [] /\ ps = [].

Lemma ran_done {A} (a : A) : ran (done a) (silent (eq a)).
Proof. intros s b s' [= <- <-]. exists [], []. by rewrite !app_nil_r. Qed.
Lemma ran_fail {A} e Q : ran (A := A) (fail e) Q.
Proof. by intros s b s' H. Qed.
Lemma ran_enter n : ran (enter n) (silent (fun _ => True)).
Proof. intros s b s' [= <- <-]. exists [], []. by rewrite !app_nil_r. Qed.
Lemma ran_write m : ran (write_message m) (fun _ ms ps => ms = [m] /\ ps = []).
Proof.
  intros s a s'. unfold write_message. destruct (hd None (writes s)); intros [= _ <-]. exists [m], [].
  by rewrite app_nil_r.
Qed.

(** The empty pieces of a conversation. *)
Ltac silent_parts :=
  cbv beta zeta in *;
  repeat match goal with
  | H : silent _ _ _ _ |- _ => destruct H as (? & -> & ->)
  | H : _ /\ _ |- _ => destruct H
  | H : exists _, _ |- _ => destruct H
  end; cbv beta zeta in *; subst; cbn [app] in *; rewrite ?app_nil_r in *.

Section facts.
Context (new_v4 : nat -> Uuid) (uuid_text : Uuid -> string) (debug : ServerError.t -> string).

Lemma ran_fresh : ran (fresh new_v4) (silent (fun _ => True)).
Proof. intros s b s' [= <- <-]. exists [], []. by rewrite !app_nil_r. Qed.

(** A wait sends nothing and ends with a reply that answers. *)
Lemma ran_wait {A} (answers : ServerMessage.t -> option A) id :
  ran (fun s => wait_for uuid_text debug answers id (reads s) s)
    (fun a ms ps => ms = [] /\ exists r, r ∈ ps /\ answers r = Some a).
Proof.
  intros s a s'. generalize (reads s) as rs. intros rs. revert s.
  induction rs as [|r rs IH]; intros s H; cbn [wait_for] in H; [done|].
  destruct r as [m|text|]; cbn [read_message] in H; [|done..].
  destruct (SessionFailure.from_control m) eqn:Hc; [done|].
  destruct (answers m) as [a'|] eqn:Ha.
  - injection H as <- <-. exists [], [m]. cbn. rewrite app_nil_r. split_and!; try done.
    + by repeat constructor.
    + exists m. split; [set_solver|done].
  - assert (Hrec : wait_for uuid_text debug answers id rs (consumed s rs [m]) = Some (Ok a, s'))
      by (destruct m; try exact H; destruct (_ =? _) in H; [done|exact H]).
    destruct (IH _ Hrec) as (ms & ps & Hs & Hp & Hq & -> & r & Hr & Har). cbn in Hs, Hp.
    exists [], (m :: ps). rewrite <- app_assoc in Hp. split_and!; try done; [by constructor|].
    exists r. split; [set_solver|done].
Qed.
End facts.

(** ** What must be answered *)

(** The reply that acknowledges a message of the barrier. *)
Definition acknowledges (m : ClientMessage.t) (r : ServerMessage.t) : bool :=
  match m, r with
  | ClientMessage.GetSubscriptions request, ServerMessage.Subscriptions data =>
      subs_request_id data =? pq_request_id request
  | ClientMessage.Subscribe data, ServerMessage.SubscribeAck id => id =? sub_request_id data
  | ClientMessage.Unsubscribe data, ServerMessage.UnsubscribeAck id => id =? un_request_id data
  | _, _ => answers_read m r
  end.
Definition acknowledged (ms : list ClientMessage.t) (ps : list ServerMessage.t) : Prop :=
  forall m, m ∈ ms -> exists r, r ∈ ps /\ acknowledges m r = true.

Lemma acknowledged_app ms ms' ps ps' :
  acknowledged ms ps -> acknowledged ms' ps' -> acknowledged (ms ++ ms') (ps ++ ps').
Proof.
  intros H H' m [Hm|Hm]%elem_of_app; [destruct (H m Hm) as (r & Hr & Ha)|destruct (H' m Hm) as (r & Hr & Ha)];
    exists r; rewrite elem_of_app; auto.
Qed.

Lemma acknowledged_nil ps : acknowledged [] ps.
Proof. by intros m []%elem_of_nil. Qed.

(** The continuation a reply names. *)
Definition next_of (r : ServerMessage.t) : option string :=
  match r with
  | ServerMessage.Positions p => pg_next_cursor p
  | ServerMessage.ActiveRfqs p => pg_next_cursor p
  | ServerMessage.MyActiveRfqs p => pg_next_cursor p
  | ServerMessage.MyQuotes p => pg_next_cursor p
  | ServerMessage.MakerPositions p => pg_next_cursor p
  | ServerMessage.MyCaps p => pg_next_cursor p
  | ServerMessage.MakerMarkets p => pg_next_cursor p
  | ServerMessage.Tokens p => pg_next_cursor p
  | ServerMessage.MmSummary p => pg_next_cursor p
  | _ => None
  end.

(** The same read, at another cursor. *)
Definition with_page (m : ClientMessage.t) (id : Uuid) (c : Cursor.t) : ClientMessage.t :=
  match m with
  | ClientMessage.GetPositions q => ClientMessage.GetPositions (paged_positions q id c)
  | ClientMessage.GetMakerPositions q => ClientMessage.GetMakerPositions (paged_positions q id c)
  | ClientMessage.GetMyQuotes q => ClientMessage.GetMyQuotes (paged_quotes q id c)
  | ClientMessage.GetMarketsForMaker q => ClientMessage.GetMarketsForMaker (paged_markets q id c)
  | ClientMessage.GetActiveRfqs q => ClientMessage.GetActiveRfqs (paged q id c)
  | ClientMessage.GetMyActiveRfqs q => ClientMessage.GetMyActiveRfqs (paged q id c)
  | ClientMessage.GetMyCaps q => ClientMessage.GetMyCaps (paged q id c)
  | ClientMessage.GetTokens q => ClientMessage.GetTokens (paged q id c)
  | m => m
  end.

(** Messages up to their ids. *)
Definition all_sent (makes : list (Uuid -> ClientMessage.t)) (ms : list ClientMessage.t) : Prop :=
  Forall (fun make => exists i, make i ∈ ms) makes.

Definition summary_reads (endpoint : MakerWsEndpoint.t) : list (Uuid -> ClientMessage.t) :=
  [fun i => ClientMessage.GetMakerPositions (live_positions i)] ++
  (if decide (endpoint = MakerWsEndpoint.Data) then [fun i => ClientMessage.GetMyQuotes (default_my_quotes i)] else []) ++
  [fun i => ClientMessage.GetMyCaps (default_request i);
   fun i => ClientMessage.GetMarketsForMaker (default_markets_for_maker i);
   fun i => ClientMessage.GetTokens (default_request i)].

(** The read [m], answered by [r], is taken up again where [r] stops: at the continuation
    it names, or, for a summary, list by list from their starts. *)
Definition continued (endpoint : MakerWsEndpoint.t) (m : ClientMessage.t) (r : ServerMessage.t)
  (ms : list ClientMessage.t) : Prop :=
  match m with
  | ClientMessage.GetMmSummary _ => next_of r <> None -> all_sent (summary_reads endpoint) ms
  | _ => forall id, next_of r = Some id -> exists i, with_page m i (Cursor.After id) ∈ ms
  end.

Lemma continued_mono endpoint m r ms ms' :
  continued endpoint m r ms -> ms ⊆ ms' -> continued endpoint m r ms'.
Proof.
  intros H Hsub. unfold continued, all_sent in *.
  destruct m; try (intros id Hid; destruct (H id Hid) as [i Hi]; exists i; by apply Hsub).
  intros Hne. eapply Forall_impl; [by apply H|]. intros make [i Hi]. exists i. by apply Hsub.
Qed.

Lemma elem_delete {A} (l : list A) i x m : l !! i = Some x -> m ∈ l -> m = x \/ m ∈ delete i l.
Proof.
  intros Hx [j Hj]%list_elem_of_lookup. destruct (decide (j = i)) as [->|Hji]; [left; congruence|right].
  rewrite delete_take_drop, elem_of_app, !list_elem_of_lookup.
  destruct (decide (j < i)%nat); [left; exists j; by rewrite lookup_take_lt|right].
  exists (j - S i)%nat. rewrite lookup_drop. by replace (S i + (j - S i))%nat with j by lia.
Qed.

Section reconciliation.
Context (new_v4 : nat -> Uuid) (uuid_text : Uuid -> string) (debug : ServerError.t -> string).
Context (endpoint : MakerWsEndpoint.t).

Lemma ran_continue name next make cs :
  ran (continue_page new_v4 name next make cs)
    (silent (fun p => forall id, next = Some id -> exists i, fst p = [make i (Cursor.After id)])).
Proof.
  unfold continue_page, advance. destruct next as [id|].
  - case_bool_decide; [by apply ran_fail|]. case_bool_decide; [by apply ran_fail|].
    eapply ran_weaken; [apply ran_bind; [apply ran_fresh|intros i; apply ran_done]|].
    intros p ms ps Hp. silent_parts. split; [|done]. intros id' [= <-]. by eexists.
  - eapply ran_weaken; [apply ran_done|]. intros p ms ps H. silent_parts. done.
Qed.

(** Five reads in order. *)
Lemma ran_collections :
  ran (collections new_v4) (silent (fun pages => exists i1 i2 i3 i4 i5,
    pages = [ClientMessage.GetMakerPositions (live_positions i1); ClientMessage.GetMyQuotes (default_my_quotes i2);
             ClientMessage.GetMyCaps (default_request i3); ClientMessage.GetMarketsForMaker (default_markets_for_maker i4);
             ClientMessage.GetTokens (default_request i5)])).
Proof. intros s a s' [= <- <-]. exists [], []. rewrite !app_nil_r. split_and!; try done. split; [|done]. do 5 eexists. done. Qed.

Lemma ran_pages request message cs :
  answers_read request message = true ->
  ran (reconciliation_pages new_v4 request message cs)
    (silent (fun p => continued endpoint request message
       (filter (fun m => skipped endpoint message m = false) (fst p)))).
Proof.
  intros Ha. destruct request, message; try done; cbn [reconciliation_pages];
    try (eapply ran_weaken; [apply ran_continue|]; intros p ms ps (Hp & -> & ->); split; [|done];
         intros id Hid; destruct (Hp id Hid) as [i ->]; exists i; cbn; set_solver).
  destruct (pg_next_cursor m0) as [id|] eqn:En; cbn [continued next_of].
  - eapply ran_weaken; [apply ran_bind; [apply ran_collections|intros i; apply ran_done]|].
    intros p ms ps H. silent_parts. split; [|done]. intros _. unfold all_sent, summary_reads. cbn.
    destruct endpoint; cbn; repeat apply Forall_cons_2; try apply Forall_nil_2; eexists;
      repeat first [apply list_elem_of_here | apply list_elem_of_further].
  - eapply ran_weaken; [apply ran_done|]. intros p ms ps H. silent_parts. split; [|done]. cbn. congruence.
Qed.

Lemma ran_send_pages message pages pending :
  ran (send_pages endpoint message pages pending) (fun pending' ms ps => ps = [] /\
    ms = filter (fun m => skipped endpoint message m = false) pages /\ pending' = pending ++ ms).
Proof.
  revert pending. induction pages as [|next pages IH]; intros pending; cbn [send_pages].
  - eapply ran_weaken; [apply ran_done|]. intros p ms ps H. silent_parts. by rewrite ?app_nil_r.
  - rewrite filter_cons. destruct (skipped endpoint message next) eqn:Hs.
    + rewrite decide_False by done. apply IH.
    + rewrite decide_True by done.
      eapply ran_weaken; [apply ran_bind; [apply ran_write|intros u; apply IH]|].
      intros p ms ps H. silent_parts. by rewrite <- app_assoc.
Qed.

(** Every read of the barrier, those it started with and those it sent, is answered and
    taken up where the answer stops. *)
Lemma ran_reconcile rs pending cs :
  ran (reconcile new_v4 uuid_text debug endpoint rs pending cs)
    (fun _ ms ps => forall m, m ∈ pending ++ ms -> exists r, r ∈ ps /\ answers_read m r = true /\ continued endpoint m r ms).
Proof.
  revert pending cs. induction rs as [|r rs IH]; intros pending cs s a s' H.
  - destruct pending; [|done]. injection H as <- <-. exists [], []. rewrite !app_nil_r. split_and!; try done. by intros m []%elem_of_nil.
  - destruct pending as [|p0 pend]; [injection H as <- <-; exists [], []; rewrite !app_nil_r; split_and!; try done; by intros m []%elem_of_nil|].
    cbn [reconcile] in H. remember (p0 :: pend) as pending eqn:Epend. clear Epend p0 pend.
    destruct r as [msg|text|]; cbn [read_message] in H; [|done..].
    destruct (SessionFailure.from_control msg) eqn:Hc; [done|].
    destruct (rejection uuid_text debug pending msg); [done|].
    destruct (list_find _ pending) as [[index request]|] eqn:Hf.
    + apply list_find_Some in Hf as (Hlk & Hans & _).
      destruct (and_then _ _ _) as [[[[pending' cs']|e|] s1]|] eqn:Hp; try done.
      assert (Hran : ran (p <- reconciliation_pages new_v4 request msg cs;;
             pending <- send_pages endpoint msg (fst p) (delete index pending);; done (pending, snd p))
        (fun b ms ps => ps = [] /\ continued endpoint request msg ms /\ fst b = delete index pending ++ ms)).
      { eapply ran_weaken; [apply ran_bind; [by apply ran_pages|intros p; apply ran_bind;
          [apply ran_send_pages|intros pend1; apply ran_done]]|].
        intros b ms ps Hb. silent_parts. done. }
      destruct (Hran _ _ _ Hp) as (ms1 & ps1 & Hs1 & Hp1 & _ & -> & Hcont & Hpend). cbn in Hpend, Hs1, Hp1.
      destruct (IH _ _ _ _ _ H) as (ms & ps & Hs & Hpub & Hq & Hall).
      exists (ms1 ++ ms), (msg :: ps). rewrite Hs, Hs1, Hpub, Hp1, !app_nil_r, <- !app_assoc.
      split_and!; try done; [by constructor|]. intros m Hm.
      assert (Hcase : m = request \/ m ∈ pending' ++ ms).
      { rewrite Hpend, !elem_of_app in *. destruct Hm as [Hm|]; [|tauto].
        destruct (elem_delete _ _ _ _ Hlk Hm) as [->|]; tauto. }
      destruct Hcase as [->|Hin].
      * exists msg. split; [set_solver|]. split; [done|]. eapply continued_mono; [done|set_solver].
      * destruct (Hall m Hin) as (r & Hr & Har & Hcr). exists r. split; [set_solver|]. split; [done|].
        eapply continued_mono; [done|set_solver].
    + destruct (IH _ _ _ _ _ H) as (ms & ps & Hs & Hpub & Hq & Hall). cbn in Hs, Hpub.
      exists ms, (msg :: ps). rewrite Hs, Hpub, <- app_assoc. split_and!; try done; [by constructor|].
      intros m Hm. destruct (Hall m Hm) as (r & Hr & ?). exists r. split; [set_solver|done].
Qed.
End reconciliation.

(** ** Subscriptions *)

Definition recovery_messages (r : SubscriptionRecovery) : list ClientMessage.t :=
  option_list (ClientMessage.Unsubscribe <$> rec_unsubscribe r) ++
  option_list (ClientMessage.Subscribe <$> rec_subscribe r).

(** Requests and their pages, one or more: from [cursor], each request at the continuation
    the page before it named, to a page that names none. *)
Fixpoint exchanged (cursor : Cursor.t) (xs : list (PageRequest * SubscriptionsMessage)) : Prop :=
  match xs with
  | [] => False
  | (request, page) :: xs =>
      pq_cursor request = cursor /\ subs_request_id page = pq_request_id request /\
      match subs_next_cursor page with
      | None => xs = []
      | Some id => exchanged (Cursor.After id) xs
      end
  end.

(** [actual] is all pages of the server's subscriptions: what was asked for was sent, and
    what was answered was heard. *)
Definition complete (actual : SubscriptionsMessage) (ms : list ClientMessage.t) (ps : list ServerMessage.t) : Prop :=
  exists xs, exchanged Cursor.Start xs /\
    ms = map (fun x => ClientMessage.GetSubscriptions (fst x)) xs /\
    (forall x, x ∈ xs -> ServerMessage.Subscriptions (snd x) ∈ ps) /\
    subs_channels actual = concat (map (fun x => subs_channels (snd x)) xs) /\
    subs_underlying_mints actual = concat (map (fun x => subs_underlying_mints (snd x)) xs) /\
    subs_quote_mints actual = concat (map (fun x => subs_quote_mints (snd x)) xs).

Definition without_mints (d : SubscribeData) : SubscribeData :=
  {| sub_products := sub_products d; sub_request_id := sub_request_id d; sub_channels := sub_channels d;
     sub_underlying_mints := []; sub_quote_mints := [] |}.

(** What an endpoint sends to restore its subscriptions. *)
Definition restored (endpoint : MakerWsEndpoint.t) (subscriptions : DesiredSubscriptions)
  (ms : list ClientMessage.t) (ps : list ServerMessage.t) : Prop :=
  match endpoint with
  | MakerWsEndpoint.Quote => exists actual ids asked later heard answered,
      complete actual asked heard /\ ps = heard ++ answered /\
      ms = asked ++ recovery_messages (Desired.recovery ids subscriptions actual) ++ later
  | MakerWsEndpoint.Data => True
  | MakerWsEndpoint.Vault =>
      if Desired.wants_vault_feed subscriptions
      then exists id ids, forall d, rec_subscribe (Desired.recovery ids subscriptions (no_subscriptions id)) = Some d ->
             ClientMessage.Subscribe (without_mints d) ∈ ms
      else exists id, ClientMessage.Unsubscribe {| un_request_id := id; un_channels := [WsChannel.Vaults] |} ∈ ms
  end.

Definition wanted_reads (endpoint : MakerWsEndpoint.t) (can_maker : bool) : list (Uuid -> ClientMessage.t) :=
  let quote := [fun i => ClientMessage.GetActiveRfqs (default_request i);
                fun i => ClientMessage.GetMyQuotes (default_my_quotes i)] in
  let summary := fun i => ClientMessage.GetMmSummary (default_request i) in
  match endpoint with
  | MakerWsEndpoint.Quote => quote
  | MakerWsEndpoint.Data => [summary]
  | MakerWsEndpoint.Vault =>
      [fun i => ClientMessage.GetMyActiveRfqs (default_request i); fun i => ClientMessage.GetPositions (live_positions i)] ++
      (if can_maker then summary :: quote else [])
  end.

Section establishing.
Context (new_v4 : nat -> Uuid) (uuid_text : Uuid -> string) (debug : ServerError.t -> string).
Abbreviation wait_subscriptions := (wait_for_subscriptions uuid_text debug).

Lemma ran_wait_subscriptions id :
  ran (wait_subscriptions id) (fun page ms ps => ms = [] /\
    ServerMessage.Subscriptions page ∈ ps /\ subs_request_id page = id).
Proof.
  eapply ran_weaken; [apply ran_wait|]. intros page ms ps (-> & r & Hr & Ha).
  destruct r; try done. destruct (_ =? _) eqn:E in Ha; [|done]. injection Ha as <-. by apply Z.eqb_eq in E.
Qed.

(** Sending a message and waiting for its acknowledgement. *)
Lemma ran_unsubscribe d :
  ran (write_message (ClientMessage.Unsubscribe d) ;;; wait_for_unsubscribe_ack uuid_text debug (un_request_id d))
    (fun _ ms ps => ms = [ClientMessage.Unsubscribe d] /\ acknowledged ms ps).
Proof.
  eapply ran_weaken; [apply ran_bind; [apply ran_write|intros u; apply ran_wait]|].
  intros a ms ps H. silent_parts. split; [done|]. intros m ->%list_elem_of_singleton.
  match goal with H : match ?r with _ => _ end = Some _ |- _ => exists r; split; [done|]; destruct r; try done end.
  cbn. by destruct (_ =? _).
Qed.

Lemma ran_subscribe d :
  ran (write_message (ClientMessage.Subscribe d) ;;; wait_for_subscribe_ack uuid_text debug (sub_request_id d))
    (fun _ ms ps => ms = [ClientMessage.Subscribe d] /\ acknowledged ms ps).
Proof.
  eapply ran_weaken; [apply ran_bind; [apply ran_write|intros u; apply ran_wait]|].
  intros a ms ps H. silent_parts. split; [done|]. intros m ->%list_elem_of_singleton.
  match goal with H : match ?r with _ => _ end = Some _ |- _ => exists r; split; [done|]; destruct r; try done end.
  cbn. by destruct (_ =? _).
Qed.

Lemma ran_nothing : ran (done tt) (fun _ ms ps => ms = [] /\ acknowledged ms ps).
Proof. eapply ran_weaken; [apply ran_done|]. intros a ms ps H. silent_parts. split; [done|apply acknowledged_nil]. Qed.

Lemma ran_recover r :
  ran (recover_subscriptions uuid_text debug r) (fun _ ms ps => ms = recovery_messages r /\ acknowledged ms ps).
Proof.
  unfold recover_subscriptions, recovery_messages.
  eapply ran_weaken; [apply ran_bind with
    (Q := fun _ ms ps => ms = option_list (ClientMessage.Unsubscribe <$> rec_unsubscribe r) /\ acknowledged ms ps)
    (R := fun _ _ ms ps => ms = option_list (ClientMessage.Subscribe <$> rec_subscribe r) /\ acknowledged ms ps)|].
  - destruct (rec_unsubscribe r) as [d|]; [apply ran_unsubscribe|apply ran_nothing].
  - intros _. destruct (rec_subscribe r) as [d|]; [apply ran_subscribe|apply ran_nothing].
  - intros a ms ps (_ & ms1 & ms2 & ps1 & ps2 & -> & -> & [-> H1] & [-> H2]). split; [done|].
    by apply acknowledged_app.
Qed.

(** The pages of a snapshot, to the last. *)
Lemma ran_snapshot fuel request actual seen :
  ran (snapshot new_v4 uuid_text debug fuel request actual seen) (fun result ms ps =>
    acknowledged ms ps /\ exists xs, exchanged (pq_cursor request) xs /\
    ms = map (fun x => ClientMessage.GetSubscriptions (fst x)) xs /\
    (forall x, x ∈ xs -> ServerMessage.Subscriptions (snd x) ∈ ps) /\
    subs_channels result = subs_channels actual ++ concat (map (fun x => subs_channels (snd x)) xs) /\
    subs_underlying_mints result = subs_underlying_mints actual ++ concat (map (fun x => subs_underlying_mints (snd x)) xs) /\
    subs_quote_mints result = subs_quote_mints actual ++ concat (map (fun x => subs_quote_mints (snd x)) xs)).
Proof.
  revert request actual seen. induction fuel as [|fuel IH]; intros request actual seen; cbn [snapshot]; [by intros s a s' H|].
  eapply ran_weaken; [apply ran_bind; [apply ran_write|intros u; apply ran_bind with
    (R := fun page result ms ps =>
       acknowledged ms ps /\ exists xs,
       match subs_next_cursor page with None => xs = [] | Some id => exchanged (Cursor.After id) xs end /\
       ms = map (fun x => ClientMessage.GetSubscriptions (fst x)) xs /\
       (forall x, x ∈ xs -> ServerMessage.Subscriptions (snd x) ∈ ps) /\
       subs_channels result = subs_channels actual ++ subs_channels page ++ concat (map (fun x => subs_channels (snd x)) xs) /\
       subs_underlying_mints result = subs_underlying_mints actual ++ subs_underlying_mints page ++
         concat (map (fun x => subs_underlying_mints (snd x)) xs) /\
       subs_quote_mints result = subs_quote_mints actual ++ subs_quote_mints page ++
         concat (map (fun x => subs_quote_mints (snd x)) xs));
    [apply ran_wait_subscriptions|]]|].
  - intros page. cbv zeta. set (next := append_subscriptions actual page).
    destruct (advance seen (subs_next_cursor next)) as [seen' [[cursor|]|e|]] eqn:Ea; try (by intros s a s' H).
    + eapply ran_weaken; [apply ran_bind; [apply ran_fresh|intros id; apply IH]|].
      intros a ms ps (id & ms1 & ms2 & ps1 & ps2 & -> & -> & (_ & -> & ->) & Hk & xs & Hx & Hms & Hps & Hc & Hu & Hq).
      split; [done|]. exists xs. cbn in Hx, Hc, Hu, Hq. rewrite <- !app_assoc in Hc, Hu, Hq. split_and!; try done.
      unfold advance in Ea. cbn [append_subscriptions subs_next_cursor next] in Ea. destruct (subs_next_cursor page); [|done].
      repeat case_bool_decide; try done. by injection Ea as _ <-.
    + eapply ran_weaken; [apply ran_done|]. intros a ms ps H. silent_parts. split; [apply acknowledged_nil|].
      exists []. cbn. rewrite !app_nil_r. split_and!; try done; [|by intros p []%elem_of_nil].
      unfold advance in Ea. cbn [append_subscriptions subs_next_cursor next] in Ea. destruct (subs_next_cursor page); [|done].
      by repeat case_bool_decide.
  - intros result ms ps (u & ms1 & ms2 & ps1 & ps2 & -> & -> & (-> & ->) & page & ms3 & ms4 & ps3 & ps4 & -> & -> &
      (-> & Hin & Hid) & Hk & xs & Hx & -> & Hps & Hc & Hu & Hq).
    cbn [app]. split.
    + apply (acknowledged_app [_]); [|done]. intros m ->%list_elem_of_singleton. eexists. split; [done|]. by apply Z.eqb_eq.
    + exists ((request, page) :: xs). cbn [exchanged map concat fst snd]. split_and!; try done.
      intros x [->|Hxin]%elem_of_cons; rewrite elem_of_app; auto.
Qed.

Lemma ran_establish_quote subscriptions :
  ran (establish_quote new_v4 uuid_text debug subscriptions) (fun _ ms ps =>
    acknowledged ms ps /\ restored MakerWsEndpoint.Quote subscriptions ms ps).
Proof.
  unfold establish_quote.
  eapply ran_weaken; [apply ran_bind; [apply ran_fresh|intros id; apply ran_bind; [|intros actual; apply ran_bind;
    [apply ran_enter|intros u; apply ran_bind; [apply ran_fresh|intros id1; apply ran_bind; [apply ran_fresh|intros id2; apply ran_recover]]]]]|].
  - intros s. exact (ran_snapshot (S (length (reads s))) _ _ _ s).
  - intros a ms ps H. silent_parts. split; [by apply acknowledged_app|].
    eexists _, _, _, [], _, _. split; [|split; [reflexivity|by rewrite app_nil_r]].
    eexists. split_and!; [done|reflexivity|done..].
Qed.

Lemma ran_establish_vault subscriptions :
  ran (establish_vault new_v4 uuid_text debug subscriptions) (fun _ ms ps =>
    acknowledged ms ps /\ restored MakerWsEndpoint.Vault subscriptions ms ps).
Proof.
  unfold establish_vault, restored. destruct (Desired.wants_vault_feed subscriptions).
  - eapply ran_weaken; [apply ran_bind; [apply ran_enter|intros u; apply ran_bind; [apply ran_fresh|intros id;
      apply ran_bind; [apply ran_fresh|intros id1; apply ran_bind; [apply ran_fresh|intros id2; apply ran_recover]]]]|].
    intros a ms ps H. silent_parts. split; [done|]. eexists _, _. intros d Hd.
    unfold recovery_messages. cbn [rec_subscribe]. rewrite Hd. cbn. set_solver.
  - eapply ran_weaken; [apply ran_bind; [apply ran_enter|intros u; apply ran_bind; [apply ran_fresh|intros id; apply (ran_unsubscribe {| un_request_id := id; un_channels := [WsChannel.Vaults] |})]]|].
    intros a ms ps H. silent_parts. split; [done|]. eexists. by apply list_elem_of_singleton.
Qed.

Lemma ran_endpoint_reads endpoint can_maker :
  ran (endpoint_reads new_v4 endpoint can_maker) (silent (all_sent (wanted_reads endpoint can_maker))).
Proof.
  intros s a s' H. destruct endpoint, can_maker; injection H as <- <-; exists [], []; rewrite !app_nil_r; split_and!; try done;
    (split; [|done]); cbn; repeat apply Forall_cons_2; try apply Forall_nil_2; eexists;
    repeat first [apply list_elem_of_here | apply list_elem_of_further].
Qed.

Lemma ran_write_all l : ran (write_all l) (fun _ ms ps => ms = l /\ ps = []).
Proof.
  induction l as [|m l IH]; cbn [write_all].
  - eapply ran_weaken; [apply ran_done|]. intros a ms ps H. by silent_parts.
  - eapply ran_weaken; [apply ran_bind; [apply ran_write|intros u; apply IH]|]. intros a ms ps H. by silent_parts.
Qed.
End establishing.

(** ** A connection that ends, ends the barrier *)

(** A read that fails, or the end of the stream, is to come. *)
Definition final (r : Read) : Prop := match r with Msg _ => False | _ => True end.
Definition ends (rs : list Read) : Prop := Exists final rs.

(** [c] returns without reading; [c] returns, and if well then before the end. *)
Definition calm {A} (c : Conversation A) : Prop :=
  forall s, exists r s', c s = Some (r, s') /\ r <> Panic /\ reads s' = reads s.
Definition total {A} (c : Conversation A) : Prop :=
  forall s, ends (reads s) -> exists r s', c s = Some (r, s') /\ r <> Panic /\
    forall a, r = Ok a -> ends (reads s') /\ (length (reads s') <= length (reads s))%nat.

Lemma calm_total {A} (c : Conversation A) : calm c -> total c.
Proof.
  intros H s Hs. destruct (H s) as (r & s' & Hc & Hp & Hr). exists r, s'. split_and!; [done|done|].
  intros a _. rewrite Hr. split; [done|lia].
Qed.

Lemma calm_bind {A B} (m : Conversation A) (k : A -> Conversation B) :
  calm m -> (forall a, calm (k a)) -> calm (and_then m k).
Proof.
  intros Hm Hk s. unfold and_then. destruct (Hm s) as (r & s1 & -> & Hp & Hr). destruct r as [a|e|]; [|by eexists _, _|done].
  destruct (Hk a s1) as (r & s' & Hc & Hp' & Hr'). exists r, s'. rewrite Hr', Hr. done.
Qed.

Lemma replies_total_bind {A B} (m : Conversation A) (k : A -> Conversation B) :
  total m -> (forall a, total (k a)) -> total (and_then m k).
Proof.
  intros Hm Hk s Hs. unfold and_then. destruct (Hm s Hs) as (r & s1 & -> & Hp & Hr). destruct r as [a|e|]; [|by eexists _, _|done].
  destruct (Hr a eq_refl) as [Hs1 Hl]. destruct (Hk a s1 Hs1) as (r & s' & Hc & Hp' & Hr'). exists r, s'. split_and!; [done|done|].
  intros b Hb. destruct (Hr' b Hb). split; [done|lia].
Qed.

Lemma calm_done {A} (a : A) : calm (done a).
Proof. intros s. by eexists _, _. Qed.
Lemma calm_fail {A} e : calm (A := A) (fail e).
Proof. intros s. by eexists _, _. Qed.
Lemma calm_enter n : calm (enter n).
Proof. intros s. by eexists _, _. Qed.
Lemma calm_fresh new_v4 : calm (fresh new_v4).
Proof. intros s. by eexists _, _. Qed.
Lemma calm_write m : calm (write_message m).
Proof. intros s. unfold write_message. destruct (hd None (writes s)); by eexists _, _. Qed.

Create HintDb barrier.
#[export] Hint Resolve calm_done calm_fail calm_enter calm_fresh calm_write : barrier.
#[export] Hint Extern 5 (calm (and_then _ _)) => apply calm_bind; [|intros ?] : barrier.
#[export] Hint Extern 5 (total (and_then _ _)) => apply replies_total_bind; [|intros ?] : barrier.
#[export] Hint Extern 9 (total _) => apply calm_total : barrier.

Section returns.
Context (new_v4 : nat -> Uuid) (uuid_text : Uuid -> string) (debug : ServerError.t -> string).

Lemma wait_returns {A} (answers : ServerMessage.t -> option A) id rs s :
  ends rs -> exists r s', wait_for uuid_text debug answers id rs s = Some (r, s') /\ r <> Panic /\
    forall a, r = Ok a -> ends (reads s') /\ (length (reads s') < length rs)%nat.
Proof.
  revert s. induction rs as [|r rs IH]; intros s He; [by inversion He|]. cbn [wait_for].
  destruct r as [m|text|]; cbn [read_message]; [|by eexists _, _..].
  apply Exists_cons in He as [[]|He]. destruct (SessionFailure.from_control m); [by eexists _, _|].
  destruct (answers m) as [a|].
  - eexists _, _. split; [done|]. split; [done|]. intros a' [= <-]. cbn. split; [done|lia].
  - assert (Hrec : exists r s', wait_for uuid_text debug answers id rs (consumed s rs [m]) = Some (r, s') /\ r <> Panic /\
      forall a, r = Ok a -> ends (reads s') /\ (length (reads s') < S (length rs))%nat).
    { destruct (IH (consumed s rs [m]) He) as (r & s' & Hw & Hp & Ha). exists r, s'. split_and!; [done|done|].
      intros a Hr. destruct (Ha a Hr). split; [done|lia]. }
    destruct m; try exact Hrec. destruct (_ =? _); [by eexists _, _|exact Hrec].
Qed.

Lemma total_wait {A} (answers : ServerMessage.t -> option A) id :
  total (fun s => wait_for uuid_text debug answers id (reads s) s).
Proof.
  intros s He. destruct (wait_returns answers id (reads s) s He) as (r & s' & Hw & Hp & Ha). exists r, s'.
  split_and!; [done|done|]. intros a Hr. destruct (Ha a Hr). split; [done|lia].
Qed.

Lemma advance_returns seen next : snd (advance seen next) <> Panic.
Proof. unfold advance. destruct next; [repeat case_bool_decide|]; done. Qed.

(** The fuel is enough: each page consumes a read. *)
Lemma snapshot_returns fuel request actual seen s :
  ends (reads s) -> (length (reads s) < fuel)%nat ->
  exists r s', snapshot new_v4 uuid_text debug fuel request actual seen s = Some (r, s') /\ r <> Panic /\
    forall a, r = Ok a -> ends (reads s') /\ (length (reads s') <= length (reads s))%nat.
Proof.
  revert request actual seen s. induction fuel as [|fuel IH]; intros request actual seen s He Hf; [lia|].
  cbn [snapshot]. unfold and_then at 1. destruct (calm_write (ClientMessage.GetSubscriptions request) s) as (r & s1 & -> & Hp & Hr).
  destruct r as [[]|e|]; [|by eexists _, _|done]. unfold and_then at 1, wait_for_subscriptions.
  rewrite <- Hr in He, Hf |- *.
  match goal with |- context [wait_for _ _ ?f ?i _ _] => destruct (wait_returns f i _ s1 He) as (r & s2 & -> & Hp2 & Ha2) end.
  destruct r as [page|e|]; [|by eexists _, _|done]. destruct (Ha2 page eq_refl) as [He2 Hl2].
  cbv zeta. set (next := append_subscriptions actual page).
  pose proof (advance_returns seen (subs_next_cursor next)) as Hadv.
  destruct (advance seen (subs_next_cursor next)) as [seen' [[cursor|]|e|]]; [|by eexists _, _; split_and!; try done; intros; split; [done|lia]|by eexists _, _|done].
  unfold and_then, fresh. match goal with |- context [snapshot _ _ _ _ ?q ?a ?se ?st] =>
    destruct (IH q a se st) as (r & s' & Hs' & Hp' & Ha'); [done|cbn; lia|] end.
  exists r, s'. split_and!; [exact Hs'|done|]. intros a Hra. destruct (Ha' a Hra). cbn in *. split; [done|lia].
Qed.

Lemma calm_continue name next make cs : calm (continue_page new_v4 name next make cs).
Proof.
  unfold continue_page. pose proof (advance_returns (default ∅ (cs !! name)) next) as H.
  destruct (advance _ next) as [seen [[c|]|e|]]; auto with barrier. done.
Qed.
Lemma calm_pages request message cs : calm (reconciliation_pages new_v4 request message cs).
Proof.
  destruct request, message; try apply calm_done; try apply calm_continue. cbn [reconciliation_pages].
  destruct (pg_next_cursor m0); [|apply calm_done]. unfold collections. repeat (apply calm_bind; [|intros ?]); auto with barrier.
Qed.
Lemma calm_send_pages endpoint message pages pending : calm (send_pages endpoint message pages pending).
Proof.
  revert pending. induction pages as [|next pages IH]; intros pending; cbn [send_pages]; auto with barrier.
  destruct (skipped _ _ _); auto with barrier.
Qed.

Lemma reconcile_returns endpoint rs pending cs s :
  ends rs -> exists r s', reconcile new_v4 uuid_text debug endpoint rs pending cs s = Some (r, s') /\ r <> Panic.
Proof.
  revert pending cs s. induction rs as [|r rs IH]; intros pending cs s He; [by inversion He|].
  cbn [reconcile]. destruct pending as [|p0 pend]; [by eexists _, _|].
  destruct r as [m|text|]; cbn [read_message]; [|by eexists _, _..].
  apply Exists_cons in He as [[]|He]. destruct (SessionFailure.from_control m); [by eexists _, _|].
  destruct (rejection _ _ _ _); [by eexists _, _|]. destruct (list_find _ _) as [[index request]|]; [|by apply IH].
  match goal with |- context [and_then ?c ?k ?st] =>
    assert (Hc : calm (and_then c k)) by (apply calm_bind; [apply calm_pages|intros p; apply calm_bind;
      [apply calm_send_pages|auto with barrier]]); destruct (Hc st) as (r & s1 & -> & Hp & _) end.
  destruct r as [[pending' cs']|e|]; [by apply IH|by eexists _, _|done].
Qed.

Lemma total_recover r : total (recover_subscriptions uuid_text debug r).
Proof.
  unfold recover_subscriptions. apply replies_total_bind; [|intros _].
  - destruct (rec_unsubscribe r); auto with barrier. apply replies_total_bind; [auto with barrier|intros _; apply total_wait].
  - destruct (rec_subscribe r); auto with barrier. apply replies_total_bind; [auto with barrier|intros _; apply total_wait].
Qed.

Lemma calm_endpoint_reads endpoint can_maker : calm (endpoint_reads new_v4 endpoint can_maker).
Proof.
  unfold endpoint_reads, quote_reads, mm_summary_read. destruct endpoint; [..|destruct can_maker]; cbv zeta;
    repeat (apply calm_bind; [|intros ?]); auto with barrier.
Qed.

Lemma calm_write_all l : calm (write_all l).
Proof. induction l; cbn [write_all]; auto with barrier. Qed.

Lemma establish_returns endpoint subscriptions vault s :
  ends (reads s) -> exists r s', establish new_v4 uuid_text debug endpoint subscriptions vault s = Some (r, s') /\ r <> Panic.
Proof.
  intros He. unfold establish. unfold and_then at 1.
  assert (Hfirst : total match endpoint with
    | MakerWsEndpoint.Quote => establish_quote new_v4 uuid_text debug subscriptions
    | MakerWsEndpoint.Data => done tt
    | MakerWsEndpoint.Vault => establish_vault new_v4 uuid_text debug subscriptions end).
  { destruct endpoint; auto with barrier.
    - unfold establish_quote. apply replies_total_bind; [auto with barrier|intros id]. apply replies_total_bind.
      + intros s' Hs'. apply snapshot_returns; [done|lia].
      + intros actual. do 3 (apply replies_total_bind; [auto with barrier|intros ?]). apply total_recover.
    - unfold establish_vault. apply replies_total_bind; [auto with barrier|intros _].
      destruct (Desired.wants_vault_feed _).
      + do 3 (apply replies_total_bind; [auto with barrier|intros ?]). apply total_recover.
      + do 2 (apply replies_total_bind; [auto with barrier|intros ?]). apply total_wait. }
  destruct (Hfirst s He) as (r & s1 & -> & Hp & Ha). destruct r as [[]|e|]; [|by eexists _, _|done].
  destruct (Ha tt eq_refl) as [He1 _]. unfold and_then at 1. cbn [enter].
  unfold and_then at 1. match goal with |- context [endpoint_reads _ _ _ ?st] =>
    destruct (calm_endpoint_reads endpoint (may_make vault) st) as (r & s2 & -> & Hp2 & Hr2) end.
  destruct r as [pending|e|]; [|by eexists _, _|done]. unfold and_then.
  destruct (calm_write_all pending s2) as (r & s3 & -> & Hp3 & Hr3). destruct r as [[]|e|]; [|by eexists _, _|done].
  apply reconcile_returns. by rewrite Hr3, Hr2.
Qed.
End returns.

(** ** The barrier *)

Section barrier.
Context (new_v4 : nat -> Uuid) (uuid_text : Uuid -> string) (debug : ServerError.t -> string).

Lemma ran_establish endpoint subscriptions vault :
  ran (establish new_v4 uuid_text debug endpoint subscriptions vault) (fun _ ms ps =>
    acknowledged ms ps /\ restored endpoint subscriptions ms ps /\
    exists reads_ms, reads_ms ⊆ ms /\ all_sent (wanted_reads endpoint (may_make vault)) reads_ms /\
      forall m, m ∈ reads_ms -> exists r, r ∈ ps /\ answers_read m r = true /\ continued endpoint m r reads_ms).
Proof.
  eapply ran_weaken; [apply ran_bind with (Q := fun _ ms ps => acknowledged ms ps /\ restored endpoint subscriptions ms ps);
    [|intros u; apply ran_bind; [apply ran_enter|intros u'; apply ran_bind; [apply ran_endpoint_reads|intros pending; apply ran_bind;
      [apply ran_write_all|intros u''; intros s; exact (ran_reconcile new_v4 uuid_text debug endpoint (reads s) pending ∅ s)]]]]|].
  - destruct endpoint; [apply ran_establish_quote| |apply ran_establish_vault].
    eapply ran_weaken; [apply ran_done|]. intros a ms ps H. silent_parts. split; [apply acknowledged_nil|done].
  - intros a ms ps H. silent_parts. rename select (list ClientMessage.t) into pending.
    match goal with H : forall m, m ∈ ?p ++ ?q -> exists r, _ |- acknowledged (?ms0 ++ ?p ++ ?q) (?ps0 ++ ?ps1) /\ _ =>
      split_and!; [apply acknowledged_app; [done|]; intros m Hm; destruct (H m Hm) as (r & Hr & Ha & _); exists r; split; [done|]| |
        exists (p ++ q); split_and!] end.
    + destruct m, r; done.
    + match goal with H : restored _ _ _ _ |- _ => revert H end. unfold restored, complete. destruct endpoint; [|done|].
      * intros (actual & ids & asked & later & heard & answered & Hc & -> & ->).
        eexists actual, ids, asked, _, heard, _. split; [exact Hc|]. by rewrite <- !app_assoc.
      * destruct (Desired.wants_vault_feed _).
        -- intros (id & ids & Hsub). exists id, ids. intros d Hd. rewrite elem_of_app. auto.
        -- intros (id & Hin). exists id. rewrite elem_of_app. auto.
    + set_solver.
    + match goal with H : all_sent _ _ |- _ => eapply Forall_impl; [exact H|]; intros make [i Hi]; exists i end. rewrite elem_of_app. auto.
    + intros m Hm. match goal with H : forall m, m ∈ _ ++ _ -> exists r, _ |- _ => destruct (H m Hm) as (r & Hr & Ha & Hc) end.
      exists r. split; [rewrite elem_of_app; auto|]. split; [done|]. eapply continued_mono; [exact Hc|set_solver].
Qed.

(** C13: A session reports ready only after the barrier.  When [establish] succeeds, no
    control failure was heard; every message it sent was acknowledged by a reply to it;
    the endpoint's subscriptions were restored after and from a complete snapshot of the
    server's, one or more pages from the first to the one that names no other (the vault
    feed as it is wanted); and all the reads the endpoint needs were made, each
    answered, each taken up again at the continuation its answer names, until answers
    name none.  A connection that fails or ends makes [establish] return, never panic. *)
Theorem ready_barrier endpoint subscriptions vault s :
  (ends (reads s) -> exists r s', establish new_v4 uuid_text debug endpoint subscriptions vault s = Some (r, s') /\ r <> Panic) /\
  (forall s', establish new_v4 uuid_text debug endpoint subscriptions vault s = Some (Ok tt, s') ->
     exists ms ps, sent s' = sent s ++ ms /\ published s' = published s ++ ps /\ Forall quiet ps /\
       acknowledged ms ps /\ restored endpoint subscriptions ms ps /\
       exists reads_ms, reads_ms ⊆ ms /\ all_sent (wanted_reads endpoint (may_make vault)) reads_ms /\
         forall m, m ∈ reads_ms -> exists r, r ∈ ps /\ answers_read m r = true /\ continued endpoint m r reads_ms).
Proof.
  split; [apply establish_returns|]. intros s' H. by apply (ran_establish endpoint subscriptions vault s tt s').
Qed.
End barrier.

(** A quote session that must unsubscribe and subscribe, and whose active RFQs take two
    pages. *)
Module ReadySample.
Definition no_text {A} (_ : A) : string := EmptyString.
Definition new_v4 (n : nat) : Uuid := Z.of_nat n + 100.
Definition wanted : SubscribeData :=
  {| sub_products := 1; sub_request_id := 7; sub_channels := [WsChannel.Rfqs]; sub_underlying_mints := [key_of 1];
     sub_quote_mints := [key_of 2] |}.
Definition subscriptions : DesiredSubscriptions := Desired.from_initial (Some wanted).
Definition page {B} (id : Uuid) (next : option string) (body : B) : PageReply B :=
  {| pg_request_id := id; pg_next_cursor := next; pg_body := body |}.
Definition rfqs : ActiveRfqsData.t := {| ActiveRfqsData.rfqs := [] |}.
Definition quotes : MyQuotesMessage.t := {| MyQuotesMessage.quotes := [] |}.
Definition socket : Socket :=
  {| reads := [Msg (ServerMessage.Subscriptions {| subs_request_id := 100; subs_next_cursor := Some "a"%string;
                 subs_channels := [WsChannel.Trades]; subs_underlying_mints := []; subs_quote_mints := [] |});
               Msg ServerMessage.Pong;
               Msg (ServerMessage.Subscriptions {| subs_request_id := 101; subs_next_cursor := None;
                 subs_channels := [WsChannel.Rfqs]; subs_underlying_mints := []; subs_quote_mints := [] |});
               Msg (ServerMessage.UnsubscribeAck 102); Msg (ServerMessage.SubscribeAck 103);
               Msg (ServerMessage.ActiveRfqs (page 104 (Some "b"%string) rfqs)); Msg (ServerMessage.MyQuotes (page 105 None quotes));
               Msg (ServerMessage.ActiveRfqs (page 106 None rfqs)); Eof];
     writes := []; sent := []; published := []; ids := 0; step := 0 |}.
Definition run := establish new_v4 no_text no_text MakerWsEndpoint.Quote subscriptions None socket.
End ReadySample.

Lemma ready_barrier_witness :
  exists s', ReadySample.run = Some (Ok tt, s') /\ length (sent s') = 7%nat /\ acknowledged (sent s') (published s').
Proof.
  destruct ReadySample.run as [[[[]|e|] s']|] eqn:E; try (exfalso; vm_compute in E; discriminate E).
  exists s'. split; [reflexivity|]. split; [vm_compute in E; injection E as <-; reflexivity|].
  destruct (proj2 (ready_barrier ReadySample.new_v4 ReadySample.no_text ReadySample.no_text MakerWsEndpoint.Quote
    ReadySample.subscriptions None ReadySample.socket) s' E) as (ms & ps & Hs & Hp & _ & Ha & _).
  rewrite Hs, Hp. exact Ha.
Defined.
