(* ===== verification/Chain.v ===== *)
(** * Solana data and addresses ([src/chain/ix.rs], [src/chain/vault/pda.rs], [error.rs])

    Accounts, instructions and program ids, the addresses the program derives, and the
    instructions a maker sends.  The derivation itself is Solana's
    ([find_program_address], a parameter; see Quote.v). *)

From Stdlib Require Import ZArith Lia String.
From stdpp Require Import base list strings.
From S2P Require Import Prelude Signing Quote Challenge.

Open Scope Z_scope.
Local Open Scope string_scope.

(** Solana's [AccountMeta], [Instruction] and [AddressLookupTableAccount]. *)
Record AccountMeta := { pubkey : key; is_signer : bool; is_writable : bool }.
Record Instruction := { program_id : key; accounts : list AccountMeta; data : bytes }.
Record LookupTable := { table_key : key; addresses : list key }.

#[export] Instance meta_eq_dec : EqDecision AccountMeta.
Proof. solve_decision. Defined.
#[export] Instance instruction_eq_dec : EqDecision Instruction.
Proof. solve_decision. Defined.

(** [AccountMeta::new] and [AccountMeta::new_readonly]. *)
Definition meta_new (k : key) (s : bool) : AccountMeta :=
  {| pubkey := k; is_signer := s; is_writable := true |}.
Definition new_readonly (k : key) (s : bool) : AccountMeta :=
  {| pubkey := k; is_signer := s; is_writable := false |}.

Module VaultChainError.
(* chain/vault/error.rs:5-49 VaultChainError *)
Inductive t :=
| Staged
| GovernanceAuthorityRequired
| ColdAuthorityRequired
| MissingPriceSection
| Owner (expected actual : key)
| AccountTooShort (expected actual : nat)
| AccountLength (expected actual : nat)
| Discriminator (expected actual : Z)
| Version (v : Z)
| UnknownPhase (v : Z)
| UnknownSafety (v : Z)
| UnknownTokenProgramKind (v : Z)
| UnknownAccountingFlags (v : Z)
| UnknownStagedKind (v : Z)
| UnknownStagedLeg (v : Z)
| PriceRoute (reason : string)
| SecondLegRolled
| BatchTooLarge
| InvalidInput (reason : string).
End VaultChainError.
Abbreviation cres A := (res VaultChainError.t A) (only parsing).

(* chain/ix.rs:265-266 ASSOCIATED_TOKEN_PROGRAM_ID *)
Definition ASSOCIATED_TOKEN_PROGRAM_ID : key :=
  [140; 151; 37; 143; 78; 36; 137; 241; 187; 61; 16; 41; 20; 142; 13; 131; 11; 90; 19; 153; 218; 255;
   16; 132; 4; 142; 123; 216; 219; 233; 248; 89].
(* chain/ix.rs:267-268 SYSTEM_PROGRAM_ID *)
Definition SYSTEM_PROGRAM_ID : key := key_of 0.
(* chain/ix.rs:269-269 RENT_SYSVAR_ID *)
Definition RENT_SYSVAR_ID : key :=
  [6; 167; 213; 23; 25; 44; 92; 81; 33; 140; 201; 76; 61; 74; 241; 127; 88; 218; 238; 8; 155; 161; 253;
   68; 227; 219; 217; 138; 0; 0; 0; 0].
(* chain/ix.rs:270-271 TOKEN_PROGRAM_ID *)
Definition TOKEN_PROGRAM_ID : key :=
  [6; 221; 246; 225; 215; 101; 161; 147; 217; 203; 225; 70; 206; 235; 121; 172; 28; 180; 133; 237; 95;
   91; 55; 145; 58; 140; 245; 133; 126; 255; 0; 169].
(* chain/ix.rs:272-273 TOKEN_2022_PROGRAM_ID *)
Definition TOKEN_2022_PROGRAM_ID : key :=
  [6; 221; 246; 225; 238; 117; 143; 222; 24; 66; 93; 188; 228; 108; 205; 218; 182; 26; 252; 77; 131; 185;
   13; 39; 254; 189; 249; 40; 216; 161; 139; 252].

Section addresses.
Context `{P : Pda}.

(* chain/ix.rs:220-222 maker_pda_with_program_id *)
Definition maker_pda_with_program_id (program_id maker_owner : key) : key :=
  find_program_address [as_bytes "maker"; maker_owner] program_id.

(* chain/ix.rs:224-241 derive_associated_token_address *)
Definition derive_associated_token_address (owner mint token_program : key) : key :=
  find_program_address [owner; token_program; mint] ASSOCIATED_TOKEN_PROGRAM_ID.

(* chain/ix.rs:243-263 create_associated_token_account_idempotent_ix *)
Definition create_associated_token_account_idempotent_ix (payer ata owner mint token_program : key)
  : Instruction :=
  {| program_id := ASSOCIATED_TOKEN_PROGRAM_ID;
     accounts := [meta_new payer true; meta_new ata false; new_readonly owner false;
                  new_readonly mint false; new_readonly SYSTEM_PROGRAM_ID false;
                  new_readonly token_program false; new_readonly RENT_SYSVAR_ID false];
     data := [1] |}.
End addresses.

Module pda.
Section derived.
Context `{P : Pda}.
(* chain/vault/pda.rs:3-5 global_config *)
Definition global_config (program_id : key) : key :=
  find_program_address [as_bytes "global_config"] program_id.
(* chain/vault/pda.rs:7-9 price_route *)
Definition price_route (program_id mint : key) : key :=
  find_program_address [as_bytes "price_route"; mint] program_id.
(* chain/vault/pda.rs:11-13 swap_venues *)
Definition swap_venues (program_id : key) : key :=
  find_program_address [as_bytes "swap_venues"] program_id.
(* chain/vault/pda.rs:15-17 vault *)
Definition vault (program_id vault_id : key) : key :=
  find_program_address [as_bytes "vault"; vault_id] program_id.
(* chain/vault/pda.rs:19-21 vault_policy *)
Definition vault_policy (program_id vault : key) : key :=
  find_program_address [as_bytes "vault_policy"; vault] program_id.
(* chain/vault/pda.rs:23-32 vault_delegate *)
Definition vault_delegate (program_id vault delegate : key) : key :=
  find_program_address [as_bytes "vault_delegate"; vault; delegate] program_id.
(* chain/vault/pda.rs:34-36 manager_stake *)
Definition manager_stake (program_id vault : key) : key :=
  find_program_address [as_bytes "manager_stake"; vault] program_id.
(* chain/vault/pda.rs:38-43 deposit_request *)
Definition deposit_request (program_id vault user : key) : key :=
  find_program_address [as_bytes "deposit_request"; vault; user] program_id.
(* chain/vault/pda.rs:45-54 deposit_escrow_authority *)
Definition deposit_escrow_authority (program_id vault user : key) : key :=
  find_program_address [as_bytes "deposit_escrow"; vault; user] program_id.
(* chain/vault/pda.rs:56-61 withdraw_request *)
Definition withdraw_request (program_id vault user : key) : key :=
  find_program_address [as_bytes "withdraw_request"; vault; user] program_id.
(* chain/vault/pda.rs:63-72 withdraw_escrow_authority *)
Definition withdraw_escrow_authority (program_id vault user : key) : key :=
  find_program_address [as_bytes "withdraw_escrow"; vault; user] program_id.
(* chain/vault/pda.rs:74-76 pending_vault_update *)
Definition pending_vault_update (program_id vault : key) (kind : Z) : key :=
  find_program_address [as_bytes "pending_update"; vault; [kind]] program_id.
(* chain/vault/pda.rs:78-80 position *)
Definition position (program_id order_id : key) : key :=
  find_program_address [as_bytes "position"; order_id] program_id.
(* chain/vault/pda.rs:82-84 premium_config *)
Definition premium_config (program_id premium_mint : key) : key :=
  find_program_address [as_bytes "config"; premium_mint] program_id.
End derived.
End pda.
