(* ===== verification/Account.v ===== *)
(** * Vault accounts ([src/chain/vault/account.rs])

    Decoding of the vault's own accounts from their bytes: the vault and the deposit and
    withdrawal requests.  [Account] is Solana's: an owner, data and a balance. *)

From Stdlib Require Import ZArith Lia String.
From stdpp Require Import base list strings.
From S2P Require Import Prelude Terms Chain.

Open Scope Z_scope.

Module VaultPhase.
(* chain/vault/account.rs:8-17 VaultPhase *)
Inductive t := Idle | Active | Settling | ProcessingCapital.
(* chain/vault/account.rs:19-31 TryFrom<u8> for VaultPhase *)
Definition try_from (value : Z) : cres t :=
  if value =? 0 then Ok Idle else if value =? 1 then Ok Active
  else if value =? 2 then Ok Settling else if value =? 3 then Ok ProcessingCapital
  else Err (VaultChainError.UnknownPhase value).
End VaultPhase.

Module VaultSafety.
(* chain/vault/account.rs:33-43 VaultSafety *)
Inductive t := Normal | Frozen | EmergencyUnwind | WithdrawOnly | Closing.
(* chain/vault/account.rs:45-58 TryFrom<u8> for VaultSafety *)
Definition try_from (value : Z) : cres t :=
  if value =? 0 then Ok Normal else if value =? 1 then Ok Frozen
  else if value =? 2 then Ok EmergencyUnwind else if value =? 3 then Ok WithdrawOnly
  else if value =? 4 then Ok Closing else Err (VaultChainError.UnknownSafety value).
End VaultSafety.

Module VaultLeg.
(* types/vault.rs:21-27 VaultLeg *)
Inductive t := Main | Second.
End VaultLeg.
#[export] Instance vault_leg_eq_dec : EqDecision VaultLeg.t.
Proof. solve_decision. Defined.

(* chain/vault/account.rs:100-107 VaultStagedSlot *)
Record VaultStagedSlot := {
  slot_mint : key; slot_from_leg : VaultLeg.t; slot_amount : Z; slot_staged_at : Z }.

(* chain/vault/account.rs:92-98 VaultStagingState *)
Record VaultStagingState := { generation : Z; open : option VaultStagedSlot }.

(* chain/vault/account.rs:60-90 VaultAccount *)
Record VaultAccount := {
  va_vault_id : key;
  va_phase : VaultPhase.t;
  va_safety : VaultSafety.t;
  va_equity_computed : bool;
  va_accepting_deposits : bool;
  va_governance_authority : key;
  va_primary_delegate : key;
  va_pending_governance_authority : key;
  va_fee_recipient : key;
  va_main_mint : key;
  va_second_mint : key;
  va_share_mint : key;
  va_main_token_program : key;
  va_second_token_program : key;
  va_active_expiry : Z;
  va_open_positions : Z;
  va_total_shares : Z;
  va_pending_deposit_count : Z;
  va_pending_withdraw_count : Z;
  va_capital_fallback_delay_secs : Z;
  va_closing_started_at : Z;
  va_boundary_equity : Z;
  va_boundary_shares : Z;
  va_staging : VaultStagingState;
  va_second_leg_generation : Z;
}.

(* chain/vault/account.rs:109-113 account constants *)
Definition VAULT_DISCRIMINATOR : Z := 9.
Definition VAULT_VERSION : Z := 1.
Definition REQUEST_VERSION : Z := 1.
Definition EQUITY_COMPUTED : Z := 1.
Definition ACCEPTING_DEPOSITS : Z := 2.

(** Solana's [Account], as far as it is read. *)
Record Account := { owner : key; account_data : bytes; lamports : Z }.

(* chain/vault/account.rs:254-276 header *)
Definition header (data : bytes) (len : nat) (discriminator version : Z) : cres bytes :=
  match get_range data 0 len with
  | None => Err (VaultChainError.AccountTooShort len (length data))
  | Some data =>
      d ← index_p data 0;
      _ ← reject_if (negb (d =? discriminator)) (VaultChainError.Discriminator discriminator d);
      v ← index_p data 1;
      _ ← reject_if (negb (v =? version)) (VaultChainError.Version v);
      Ok data
  end.

(* chain/vault/account.rs:278-284 token_program *)
Definition token_program (kind : Z) : cres key :=
  if kind =? 0 then Ok TOKEN_PROGRAM_ID else if kind =? 1 then Ok TOKEN_2022_PROGRAM_ID
  else Err (VaultChainError.UnknownTokenProgramKind kind).

(* chain/vault/account.rs:286-294 bytes32, pubkey *)
Definition bytes32 (data : bytes) (offset : nat) : cres key := slice_p data offset (offset + 32).
(* chain/vault/account.rs:296-300 u32_at *)
Definition u32_at (data : bytes) (offset : nat) : cres Z :=
  from_le_bytes <$> slice_p data offset (offset + 4).
(* chain/vault/account.rs:302-306 u64_at *)
Definition u64_at (data : bytes) (offset : nat) : cres Z :=
  from_le_bytes <$> slice_p data offset (offset + 8).

Module VaultAccountOps.
(* chain/vault/account.rs:116-116 VaultAccount::LEN *)
Definition LEN : nat := 712.

(* chain/vault/account.rs:147-159 VaultAccount::parse (staging slot) *)
Definition staged (data : bytes) : cres (option VaultStagedSlot) :=
  amount ← u64_at data 488;
  if amount =? 0 then Ok None
  else
    mint ← bytes32 data 456;
    b ← index_p data 5;
    leg ← (if b =? 0 then Ok VaultLeg.Main else if b =? 1 then Ok VaultLeg.Second
           else Err (VaultChainError.UnknownStagedLeg b));
    staged_at ← u64_at data 496;
    Ok (Some {| slot_mint := mint; slot_from_leg := leg; slot_amount := amount;
                slot_staged_at := staged_at |}).

(* chain/vault/account.rs:132-190 VaultAccount::parse *)
Definition parse (data : bytes) : cres VaultAccount :=
  _ ← reject_if (negb (length data =? LEN)%nat) (VaultChainError.AccountLength LEN (length data));
  data ← header data LEN VAULT_DISCRIMINATOR VAULT_VERSION;
  flags ← u32_at data 12;
  _ ← reject_if (negb (Z.land flags (Z.lnot (Z.lor EQUITY_COMPUTED ACCEPTING_DEPOSITS)) =? 0))
        (VaultChainError.UnknownAccountingFlags flags);
  kind ← index_p data 6;
  _ ← reject_if (negb (kind =? 0)) (VaultChainError.UnknownStagedKind kind);
  open ← staged data;
  vault_id ← bytes32 data 16;
  phase ← (b ← index_p data 3; VaultPhase.try_from b);
  safety ← (b ← index_p data 4; VaultSafety.try_from b);
  governance_authority ← bytes32 data 48;
  primary_delegate ← bytes32 data 144;
  pending_governance_authority ← bytes32 data 80;
  fee_recipient ← bytes32 data 112;
  main_mint ← bytes32 data 176;
  second_mint ← bytes32 data 208;
  share_mint ← bytes32 data 240;
  main_token_program ← (b ← index_p data 402; token_program b);
  second_token_program ← (b ← index_p data 403; token_program b);
  active_expiry ← u64_at data 272;
  open_positions ← u64_at data 280;
  total_shares ← u64_at data 288;
  pending_deposit_count ← u32_at data 320;
  pending_withdraw_count ← u32_at data 324;
  capital_fallback_delay_secs ← u64_at data 408;
  closing_started_at ← u64_at data 432;
  boundary_equity ← u64_at data 440;
  boundary_shares ← u64_at data 448;
  staged_generation ← u64_at data 504;
  second_leg_generation ← u64_at data 512;
  Ok {| va_vault_id := vault_id; va_phase := phase; va_safety := safety;
        va_equity_computed := negb (Z.land flags EQUITY_COMPUTED =? 0);
        va_accepting_deposits := negb (Z.land flags ACCEPTING_DEPOSITS =? 0);
        va_governance_authority := governance_authority; va_primary_delegate := primary_delegate;
        va_pending_governance_authority := pending_governance_authority;
        va_fee_recipient := fee_recipient; va_main_mint := main_mint; va_second_mint := second_mint;
        va_share_mint := share_mint; va_main_token_program := main_token_program;
        va_second_token_program := second_token_program; va_active_expiry := active_expiry;
        va_open_positions := open_positions; va_total_shares := total_shares;
        va_pending_deposit_count := pending_deposit_count;
        va_pending_withdraw_count := pending_withdraw_count;
        va_capital_fallback_delay_secs := capital_fallback_delay_secs;
        va_closing_started_at := closing_started_at; va_boundary_equity := boundary_equity;
        va_boundary_shares := boundary_shares;
        va_staging := {| generation := staged_generation; open := open |};
        va_second_leg_generation := second_leg_generation |}.

(* chain/vault/account.rs:118-130 VaultAccount::from_account *)
Definition from_account (account : Account) (program_id : key) : cres VaultAccount :=
  _ ← reject_if (negb (bool_decide (owner account = program_id)))
        (VaultChainError.Owner program_id (owner account));
  parse (account_data account).
End VaultAccountOps.

Module VaultRequestKind.
(* chain/vault/account.rs:193-197 VaultRequestKind *)
Inductive t := Deposit | Withdraw.
(* chain/vault/account.rs:199-207 VaultRequestKind::discriminator *)
Definition discriminator (k : t) : Z := match k with Deposit => 12 | Withdraw => 13 end.
End VaultRequestKind.

(* chain/vault/account.rs:209-216 VaultRequest *)
Record VaultRequest := { vr_user : key; vr_vault : key; vr_amount : Z; vr_created_at : Z }.

Module VaultRequestOps.
(* chain/vault/account.rs:219-220 VaultRequest::LEN, VAULT_OFFSET *)
Definition LEN : nat := 344.
Definition VAULT_OFFSET : nat := 40.

(* chain/vault/account.rs:243-251 VaultRequest::parse *)
Definition parse (data : bytes) (kind : VaultRequestKind.t) : cres VaultRequest :=
  data ← header data LEN (VaultRequestKind.discriminator kind) REQUEST_VERSION;
  user ← bytes32 data 8;
  vault ← bytes32 data VAULT_OFFSET;
  amount ← u64_at data 72;
  created_at ← u64_at data 80;
  Ok {| vr_user := user; vr_vault := vault; vr_amount := amount; vr_created_at := created_at |}.

(* chain/vault/account.rs:222-241 VaultRequest::from_account *)
Definition from_account (account : Account) (program_id : key) (kind : VaultRequestKind.t)
  : cres VaultRequest :=
  _ ← reject_if (negb (bool_decide (owner account = program_id)))
        (VaultChainError.Owner program_id (owner account));
  _ ← reject_if (negb (length (account_data account) =? LEN)%nat)
        (VaultChainError.AccountLength LEN (length (account_data account)));
  parse (account_data account) kind.
End VaultRequestOps.

(** ** The layout *)

(** What the fields of a decoded vault can hold. *)
Definition token_program_kind (k : key) : option Z :=
  if bool_decide (k = TOKEN_PROGRAM_ID) then Some 0
  else if bool_decide (k = TOKEN_2022_PROGRAM_ID) then Some 1 else None.

Definition phase_byte (p : VaultPhase.t) : Z :=
  match p with
  | VaultPhase.Idle => 0 | VaultPhase.Active => 1 | VaultPhase.Settling => 2
  | VaultPhase.ProcessingCapital => 3
  end.
Definition safety_byte (s : VaultSafety.t) : Z :=
  match s with
  | VaultSafety.Normal => 0 | VaultSafety.Frozen => 1 | VaultSafety.EmergencyUnwind => 2
  | VaultSafety.WithdrawOnly => 3 | VaultSafety.Closing => 4
  end.
Definition leg_byte (l : VaultLeg.t) : Z := match l with VaultLeg.Main => 0 | VaultLeg.Second => 1 end.
Definition flag_bits (v : VaultAccount) : Z :=
  u8_of_bool (va_equity_computed v) + 2 * u8_of_bool (va_accepting_deposits v).

(** The bytes an account keeps that [parse] does not read, and the slot it ignores when
    nothing is staged. *)
Record Reserved := {
  pad2 : bytes; pad7 : bytes; pad296 : bytes; pad328 : bytes; pad404 : bytes; pad416 : bytes; pad520 : bytes;
  stale : VaultStagedSlot }.

Definition reserved_wf (r : Reserved) : Prop :=
  map length [pad2 r; pad7 r; pad296 r; pad328 r; pad404 r; pad416 r; pad520 r; slot_mint (stale r)]
  = [1; 5; 24; 74; 4; 16; 192; 32]%nat.

(** The account's bytes, segment by segment. *)
Definition slot_of (v : VaultAccount) (r : Reserved) : VaultStagedSlot :=
  match open (va_staging v) with Some s => s | None => stale r end.
Definition amount_of (v : VaultAccount) : Z :=
  match open (va_staging v) with Some s => slot_amount s | None => 0 end.

Definition vault_segments (v : VaultAccount) (mp sp : Z) (r : Reserved) : list bytes :=
  [[VAULT_DISCRIMINATOR]; [VAULT_VERSION]; pad2 r; [phase_byte (va_phase v)]; [safety_byte (va_safety v)];
   [leg_byte (slot_from_leg (slot_of v r))]; [0]; pad7 r; to_le_bytes 4 (flag_bits v); va_vault_id v;
   va_governance_authority v; va_pending_governance_authority v; va_fee_recipient v;
   va_primary_delegate v; va_main_mint v; va_second_mint v; va_share_mint v;
   to_le_bytes 8 (va_active_expiry v); to_le_bytes 8 (va_open_positions v);
   to_le_bytes 8 (va_total_shares v); pad296 r; to_le_bytes 4 (va_pending_deposit_count v);
   to_le_bytes 4 (va_pending_withdraw_count v); pad328 r; [mp]; [sp]; pad404 r;
   to_le_bytes 8 (va_capital_fallback_delay_secs v); pad416 r; to_le_bytes 8 (va_closing_started_at v);
   to_le_bytes 8 (va_boundary_equity v); to_le_bytes 8 (va_boundary_shares v); slot_mint (slot_of v r);
   to_le_bytes 8 (amount_of v); to_le_bytes 8 (slot_staged_at (slot_of v r));
   to_le_bytes 8 (generation (va_staging v)); to_le_bytes 8 (va_second_leg_generation v); pad520 r].

(** The integers of a vault are in range, a staged slot is not empty. *)
Definition vault_wf (v : VaultAccount) : Prop :=
  Forall (fun k => length k = 32%nat)
    [va_vault_id v; va_governance_authority v; va_pending_governance_authority v; va_fee_recipient v;
     va_primary_delegate v; va_main_mint v; va_second_mint v; va_share_mint v] /\
  Forall (fits 64)
    [va_active_expiry v; va_open_positions v; va_total_shares v; va_capital_fallback_delay_secs v;
     va_closing_started_at v; va_boundary_equity v; va_boundary_shares v; generation (va_staging v);
     va_second_leg_generation v] /\
  Forall (fits 32) [va_pending_deposit_count v; va_pending_withdraw_count v] /\
  match open (va_staging v) with
  | Some s => length (slot_mint s) = 32%nat /\ 0 < slot_amount s < 2 ^ 64 /\ fits 64 (slot_staged_at s)
  | None => True
  end.

(** Segment [i] of a concatenation starts where the lengths before it add up to. *)
Lemma length_concat_take (segs : list bytes) i :
  length (concat (take i segs)) = sum_list (take i (map length segs)).
Proof.
  revert i. induction segs as [|x segs IH]; intros [|i]; [done..|]. cbn. by rewrite length_app, IH.
Qed.

Lemma segment_at (segs : list bytes) (lens : list nat) i s off :
  map length segs = lens -> segs !! i = Some s -> off = sum_list (take i lens) ->
  get_range (concat segs) off (off + length s) = Some s.
Proof.
  intros <- Hi ->. rewrite <- length_concat_take. rewrite <- (take_drop_middle _ _ _ Hi) at 1.
  rewrite concat_app. cbn [concat]. by apply get_range_app.
Qed.

(** An account laid out in segments [segs] of lengths [lens]. *)
Section segments.
Context {segs : list bytes} {lens : list nat} (Hlens : map length segs = lens).

Lemma range_at i s off n :
  segs !! i = Some s -> off = sum_list (take i lens) -> lens !! i = Some n ->
  get_range (concat segs) off (off + n) = Some s.
Proof.
  intros Hi Ho Hn. rewrite <- Hlens in Hn. change (map length segs) with (length <$> segs) in Hn. rewrite list_lookup_fmap, Hi in Hn.
  injection Hn as <-. by eapply segment_at.
Qed.

Lemma slice_at {E} i s off n :
  segs !! i = Some s -> off = sum_list (take i lens) -> lens !! i = Some n ->
  slice_p (E := E) (concat segs) off (off + n) = Ok s.
Proof. intros. apply slice_p_Ok. by apply (range_at i). Qed.

Lemma segments_length : length (concat segs) = sum_list lens.
Proof.
  rewrite <- (firstn_all segs), length_concat_take, Hlens, <- Hlens. rewrite <- (length_map length segs).
  by rewrite firstn_all.
Qed.

Lemma segment_byte {E} i b off :
  segs !! i = Some [b] -> off = sum_list (take i lens) ->
  index_p (E := E) (concat segs) off = Ok b.
Proof.
  intros Hi Ho. apply lookup_index_p. pose proof (segment_at _ _ _ _ _ Hlens Hi Ho) as H.
  apply get_range_Some in H as [_ H]. apply (f_equal (fun l => l !! 0%nat)) in H.
  rewrite lookup_take_lt, lookup_drop, Nat.add_0_r in H by (simpl; lia). by rewrite <- H.
Qed.

Lemma int_at i n z off :
  segs !! i = Some (to_le_bytes n z) -> off = sum_list (take i lens) -> lens !! i = Some n ->
  fits (8 * Z.of_nat n) z ->
  from_le_bytes <$> slice_p (E := VaultChainError.t) (concat segs) off (off + n) = Ok z.
Proof. intros Hi Ho Hn Hz. rewrite (slice_at _ _ _ _ Hi Ho Hn). cbn. by rewrite from_to_le_bytes. Qed.

Lemma u64_seg i z off :
  segs !! i = Some (to_le_bytes 8 z) -> off = sum_list (take i lens) -> lens !! i = Some 8%nat -> fits 64 z ->
  u64_at (concat segs) off = Ok z.
Proof. intros. by apply (int_at i 8). Qed.

Lemma u32_seg i z off :
  segs !! i = Some (to_le_bytes 4 z) -> off = sum_list (take i lens) -> lens !! i = Some 4%nat -> fits 32 z ->
  u32_at (concat segs) off = Ok z.
Proof. intros. by apply (int_at i 4). Qed.

Lemma key_seg i s off :
  segs !! i = Some s -> off = sum_list (take i lens) -> lens !! i = Some 32%nat ->
  bytes32 (concat segs) off = Ok s.
Proof. intros. by apply (slice_at i s off 32). Qed.

Lemma header_seg len d w :
  sum_list lens = len -> segs !! 0%nat = Some [d] -> segs !! 1%nat = Some [w] ->
  length (concat segs) = len /\ header (concat segs) len d w = Ok (concat segs).
Proof.
  intros Hs H0 H1. assert (Hl : length (concat segs) = len) by (by rewrite segments_length).
  assert (Hlens1 : sum_list (take 1 lens) = 1%nat).
  { rewrite <- Hlens. destruct segs as [|x l]; [done|]. by injection H0 as ->. }
  split; [done|]. unfold header. assert (get_range (concat segs) 0 len = Some (concat segs)) as ->.
  { apply get_range_Some. rewrite Hl. split; [lia|]. by rewrite drop_0, Nat.sub_0_r, <- Hl, firstn_all. }
  rewrite (segment_byte 0 d 0) by done. cbn [mbind res_bind]. rewrite Z.eqb_refl. cbn.
  rewrite (segment_byte 1 w 1) by done. cbn. by rewrite Z.eqb_refl.
Qed.
End segments.

Section layout.
Context (v : VaultAccount) (mp sp : Z) (r : Reserved).
Context (Hv : vault_wf v) (Hr : reserved_wf r).
Context (Hmp : token_program_kind (va_main_token_program v) = Some mp).
Context (Hsp : token_program_kind (va_second_token_program v) = Some sp).

Abbreviation segs := (vault_segments v mp sp r) (only parsing).

(** Lengths of the segments. *)
Definition lens : list nat :=
  [1; 1; 1; 1; 1; 1; 1; 5; 4; 32; 32; 32; 32; 32; 32; 32; 32; 8; 8; 8; 24; 4; 4; 74; 1; 1; 4; 8; 16; 8; 8; 8;
   32; 8; 8; 8; 8; 192]%nat.

Lemma segment_lengths : map length segs = lens.
Proof.
  destruct Hv as (Hk & _ & _ & Hs). injection Hr as H1 H2 H3 H4 H5 H6 H7 H8.
  repeat (apply Forall_cons in Hk as [? Hk]).
  assert (length (slot_mint (slot_of v r)) = 32%nat).
  { unfold slot_of. destruct (open (va_staging v)); [apply Hs|done]. }
  unfold vault_segments, lens. cbn [map length]. rewrite ?length_to_le_bytes. congruence.
Qed.

Lemma header_vault :
  length (concat segs) = VaultAccountOps.LEN /\
  header (concat segs) VaultAccountOps.LEN VAULT_DISCRIMINATOR VAULT_VERSION = Ok (concat segs).
Proof. by apply (header_seg segment_lengths). Qed.

Lemma staged_vault : VaultAccountOps.staged (concat segs) = Ok (open (va_staging v)).
Proof.
  destruct Hv as (_ & _ & _ & Hs). unfold VaultAccountOps.staged.
  assert (Ha : fits 64 (amount_of v)).
  { unfold amount_of. destruct (open _) as [s|]; unfold fits in *; lia. }
  rewrite (u64_seg segment_lengths 33 (amount_of v) 488) by done. cbn [mbind res_bind].
  rewrite (key_seg segment_lengths 32 (slot_mint (slot_of v r)) 456) by done. cbn [mbind res_bind].
  rewrite (segment_byte segment_lengths 5 (leg_byte (slot_from_leg (slot_of v r))) 5) by done. cbn [mbind res_bind].
  unfold amount_of, slot_of in *. destruct (open (va_staging v)) as [[m l a at_]|] eqn:Ho; [|done].
  cbn [slot_amount slot_from_leg slot_mint slot_staged_at] in *. destruct Hs as (_ & Hs & Hat).
  destruct (Z.eqb_spec a 0); [lia|].
  assert (Hst : slot_staged_at (slot_of v r) = at_) by (unfold slot_of; by rewrite Ho).
  rewrite (u64_seg segment_lengths 34 at_ 496) by (done || (simpl; by rewrite Hst)). by destruct l.
Qed.
End layout.

Lemma token_program_of_kind k n : token_program_kind k = Some n -> token_program n = Ok k.
Proof. unfold token_program_kind. repeat case_bool_decide; by intros [= <-]; subst. Qed.

Lemma parse_segments v mp sp r :
  vault_wf v -> reserved_wf r -> token_program_kind (va_main_token_program v) = Some mp ->
  token_program_kind (va_second_token_program v) = Some sp ->
  VaultAccountOps.parse (concat (vault_segments v mp sp r)) = Ok v.
Proof.
  intros Hv Hr Hmp Hsp. pose proof (segment_lengths v mp sp r Hv Hr) as Hsegs.
  destruct (header_vault v mp sp r Hv Hr) as [Hl Hh].
  unfold VaultAccountOps.parse. rewrite Hl, Nat.eqb_refl. cbn [negb reject_if mbind res_bind].
  rewrite Hh. cbn [mbind res_bind].
  assert (Hf : fits 32 (flag_bits v)).
  { unfold flag_bits, fits. destruct (va_equity_computed v), (va_accepting_deposits v); cbn; lia. }
  rewrite (u32_seg Hsegs 8 (flag_bits v) 12) by done. cbn [mbind res_bind].
  assert (Z.land (flag_bits v) (Z.lnot (Z.lor EQUITY_COMPUTED ACCEPTING_DEPOSITS)) = 0) as ->
    by (unfold flag_bits; destruct (va_equity_computed v), (va_accepting_deposits v); reflexivity).
  cbn [Z.eqb negb reject_if mbind res_bind].
  rewrite (segment_byte Hsegs 6 0 6) by done. cbn [Z.eqb negb reject_if mbind res_bind].
  rewrite staged_vault by done. cbn [mbind res_bind].
  destruct (Hv) as (Hk & Hz & Hw & _). repeat (apply Forall_cons in Hz as [? Hz]). repeat (apply Forall_cons in Hw as [? Hw]).
  rewrite (key_seg Hsegs 9 (va_vault_id v) 16) by done.
  rewrite (segment_byte Hsegs 3 (phase_byte (va_phase v)) 3) by done.
  rewrite (segment_byte Hsegs 4 (safety_byte (va_safety v)) 4) by done.
  assert (VaultPhase.try_from (phase_byte (va_phase v)) = Ok (va_phase v)) as Hp by (by destruct (va_phase v)).
  assert (VaultSafety.try_from (safety_byte (va_safety v)) = Ok (va_safety v)) as Hs by (by destruct (va_safety v)).
  cbn [mbind res_bind]. rewrite Hp, Hs. cbn [mbind res_bind].
  rewrite (key_seg Hsegs 10 (va_governance_authority v) 48) by done.
  rewrite (key_seg Hsegs 13 (va_primary_delegate v) 144) by done.
  rewrite (key_seg Hsegs 11 (va_pending_governance_authority v) 80) by done.
  rewrite (key_seg Hsegs 12 (va_fee_recipient v) 112) by done.
  rewrite (key_seg Hsegs 14 (va_main_mint v) 176) by done.
  rewrite (key_seg Hsegs 15 (va_second_mint v) 208) by done.
  rewrite (key_seg Hsegs 16 (va_share_mint v) 240) by done.
  rewrite (segment_byte Hsegs 24 mp 402), (segment_byte Hsegs 25 sp 403) by done.
  cbn [mbind res_bind]. rewrite (token_program_of_kind _ _ Hmp), (token_program_of_kind _ _ Hsp).
  cbn [mbind res_bind].
  rewrite (u64_seg Hsegs 17 (va_active_expiry v) 272) by done.
  rewrite (u64_seg Hsegs 18 (va_open_positions v) 280) by done.
  rewrite (u64_seg Hsegs 19 (va_total_shares v) 288) by done.
  rewrite (u32_seg Hsegs 21 (va_pending_deposit_count v) 320) by done.
  rewrite (u32_seg Hsegs 22 (va_pending_withdraw_count v) 324) by done.
  rewrite (u64_seg Hsegs 27 (va_capital_fallback_delay_secs v) 408) by done.
  rewrite (u64_seg Hsegs 29 (va_closing_started_at v) 432) by done.
  rewrite (u64_seg Hsegs 30 (va_boundary_equity v) 440) by done.
  rewrite (u64_seg Hsegs 31 (va_boundary_shares v) 448) by done.
  rewrite (u64_seg Hsegs 35 (generation (va_staging v)) 504) by done.
  rewrite (u64_seg Hsegs 36 (va_second_leg_generation v) 512) by done.
  cbn [mbind res_bind]. f_equal. destruct v as [? ? ? e a]. cbn. unfold flag_bits. cbn.
  destruct va_staging0. by destruct e, a.
Qed.

(** Reads inside the account return. *)
Lemma header_length data len d v out :
  header data len d v = Ok out -> length out = len /\ out = take len data.
Proof.
  unfold header. destruct (get_range data 0 len) as [out'|] eqn:E; [|done]. intros H. inv_ok H. injection H as <-.
  split; [by rewrite (get_range_length _ _ _ _ E), Nat.sub_0_r|].
  apply get_range_Some in E as [_ ->]. by rewrite drop_0, Nat.sub_0_r.
Qed.

Lemma returns_index {E A} (l : list A) i : (i < length l)%nat -> returns (E := E) (index_p l i).
Proof. intros H. unfold index_p. by destruct (lookup_lt_is_Some_2 l i H) as [? ->]. Qed.

Lemma returns_header data len d v : (2 <= len)%nat -> returns (header data len d v).
Proof.
  intros Hl. unfold header. destruct (get_range data 0 len) as [out|] eqn:E; [|done].
  apply get_range_length in E. repeat (returns_step || (apply returns_index; lia)).
Qed.

Lemma returns_fmap {E A B} (f : A -> B) (m : res E A) : returns m -> returns (f <$> m).
Proof. unfold returns. by destruct m. Qed.

Lemma returns_u64 l off : (off + 8 <= length l)%nat -> returns (u64_at l off).
Proof. intros H. apply returns_fmap, returns_slice. lia. Qed.
Lemma returns_u32 l off : (off + 4 <= length l)%nat -> returns (u32_at l off).
Proof. intros H. apply returns_fmap, returns_slice. lia. Qed.
Lemma returns_key l off : (off + 32 <= length l)%nat -> returns (bytes32 l off).
Proof. intros H. apply returns_slice. lia. Qed.

#[export] Hint Resolve returns_u64 returns_u32 returns_key returns_index returns_header : sdk.

Ltac returns_reads Hl :=
  repeat (returns_step || (first [apply returns_u64 | apply returns_u32 | apply returns_key | apply returns_index];
                           rewrite Hl; lia)).

Lemma parse_returns data : returns (VaultAccountOps.parse data).
Proof.
  unfold VaultAccountOps.parse. returns_step; [apply returns_reject_if|].
  returns_step; [apply returns_header; unfold VaultAccountOps.LEN; lia|].
  match goal with H : header _ _ _ _ = Ok _ |- _ => apply header_length in H as [Hl _] end.
  unfold VaultAccountOps.LEN in Hl.
  unfold VaultAccountOps.staged, VaultPhase.try_from, VaultSafety.try_from, token_program.
  returns_reads Hl.
Qed.

Lemma request_returns data kind : returns (VaultRequestOps.parse data kind).
Proof.
  unfold VaultRequestOps.parse. returns_step; [apply returns_header; unfold VaultRequestOps.LEN; lia|].
  match goal with H : header _ _ _ _ = Ok _ |- _ => apply header_length in H as [Hl _] end.
  unfold VaultRequestOps.LEN, VaultRequestOps.VAULT_OFFSET in *. returns_reads Hl.
Qed.

(** Decoding a vault account never panics, whatever the bytes; and it reads every
    field from its place: the bytes that lay a vault out decode to that vault, whatever
    the bytes it does not use hold. *)
Theorem vault_account_roundtrip :
  (forall data, VaultAccountOps.parse data <> Panic) /\
  (forall v mp sp r, vault_wf v -> reserved_wf r ->
     token_program_kind (va_main_token_program v) = Some mp ->
     token_program_kind (va_second_token_program v) = Some sp ->
     VaultAccountOps.parse (concat (vault_segments v mp sp r)) = Ok v).
Proof. split; [apply parse_returns|apply parse_segments]. Qed.

Module AccountSample.
Definition reserved : Reserved :=
  {| pad2 := [7]; pad7 := replicate 5 1; pad296 := replicate 24 2; pad328 := replicate 74 3;
     pad404 := replicate 4 4; pad416 := replicate 16 5; pad520 := replicate 192 6;
     stale := {| slot_mint := key_of 9; slot_from_leg := VaultLeg.Main; slot_amount := 0; slot_staged_at := 1 |} |}.
Definition vault : VaultAccount :=
  {| va_vault_id := key_of 1; va_phase := VaultPhase.Active; va_safety := VaultSafety.Normal;
     va_equity_computed := false; va_accepting_deposits := true; va_governance_authority := key_of 2;
     va_primary_delegate := key_of 3; va_pending_governance_authority := key_of 0;
     va_fee_recipient := key_of 4; va_main_mint := key_of 11; va_second_mint := key_of 12;
     va_share_mint := key_of 13; va_main_token_program := TOKEN_PROGRAM_ID;
     va_second_token_program := TOKEN_2022_PROGRAM_ID; va_active_expiry := 1760000000;
     va_open_positions := 2; va_total_shares := 5000; va_pending_deposit_count := 1;
     va_pending_withdraw_count := 0; va_capital_fallback_delay_secs := 3600; va_closing_started_at := 0;
     va_boundary_equity := 7; va_boundary_shares := 8;
     va_staging := {| generation := 3;
       open := Some {| slot_mint := key_of 14; slot_from_leg := VaultLeg.Second; slot_amount := 900;
                       slot_staged_at := 1750000000 |} |};
     va_second_leg_generation := 1 |}.
End AccountSample.

Lemma vault_account_roundtrip_witness :
  VaultAccountOps.parse (concat (vault_segments AccountSample.vault 0 1 AccountSample.reserved))
  = Ok AccountSample.vault.
Proof.
  apply (proj2 vault_account_roundtrip); [|reflexivity|reflexivity|reflexivity].
  unfold vault_wf, fits. simpl. repeat split; repeat constructor; lia.
Defined.
