(* ===== verification/Crank.v ===== *)
(** * The capital crank ([src/chain/vault/crank.rs])

    Which capital operation a vault is due next, how long its deposit window has been open
    or closed, and which withdrawals may be redeemed together.  An [Instant] is a number of
    nanoseconds, as is a [Duration]. *)

From Stdlib Require Import ZArith Lia.
From stdpp Require Import base list sorting.
From S2P Require Import Prelude Account.

Open Scope Z_scope.

Module CapitalStep.
(* chain/vault/crank.rs:7-15 CapitalStep *)
Inductive t := CloseDeposits | OpenDeposits | ComputeEquity | ProcessWithdrawals | ProcessDeposits | FinalizeCycle.
#[global] Instance t_eq_dec : EqDecision t.
Proof. solve_decision. Defined.
End CapitalStep.

#[export] Instance phase_eq_dec : EqDecision VaultPhase.t.
Proof. solve_decision. Defined.
#[export] Instance safety_eq_dec : EqDecision VaultSafety.t.
Proof. solve_decision. Defined.

(* chain/vault/crank.rs:17-21 WindowClock *)
Record WindowClock := { open_for : option Z; closed_for : option Z }.

(* chain/vault/crank.rs:23-26 WindowTracker *)
Definition WindowTracker : Type := option (bool * Z).

(** The clock, and the tracker afterwards. *)
(* chain/vault/crank.rs:29-49 WindowTracker::observe *)
Definition observe (state : WindowTracker) (open : bool) (now : Z) : WindowClock * WindowTracker :=
  let '(since, state) :=
    match state with
    | Some (was_open, since) => if Bool.eqb was_open open then (since, state) else (now, Some (open, now))
    | None => (now, Some (open, now))
    end in
  let held := Z.max 0 (now - since) in
  (if open then {| open_for := Some held; closed_for := None |}
   else {| open_for := None; closed_for := Some held |}, state).

(* chain/vault/crank.rs:52-57 WindowPolicy *)
Record WindowPolicy := { reopen : bool; deposit_window : Z; trading_window : Z }.

(* chain/vault/crank.rs:59-68 VaultView *)
Record VaultView := {
  v_phase : VaultPhase.t; v_safety : VaultSafety.t; v_equity_computed : bool; v_accepting_deposits : bool;
  v_pending_deposits : Z; v_pending_withdrawals : Z; v_staging : VaultStagingState;
}.

(* chain/vault/crank.rs:71-81 VaultView::from *)
Definition view_of (vault : VaultAccount) : VaultView :=
  {| v_phase := va_phase vault; v_safety := va_safety vault; v_equity_computed := va_equity_computed vault;
     v_accepting_deposits := va_accepting_deposits vault; v_pending_deposits := va_pending_deposit_count vault;
     v_pending_withdrawals := va_pending_withdraw_count vault; v_staging := va_staging vault |}.

(** [o.is_some_and(|d| d >= bound)]. *)
Definition elapsed (o : option Z) (bound : Z) : bool := match o with Some d => bound <=? d | None => false end.

(** The arms in the order of the source. *)
(* chain/vault/crank.rs:94-130 next_step (match) *)
Definition due_step (view : VaultView) (window : WindowClock) (policy : WindowPolicy) : option CapitalStep.t :=
  let deposits := 0 <? v_pending_deposits view in
  let withdrawals := 0 <? v_pending_withdrawals view in
  let pending := deposits || withdrawals in
  let processing :=
    Some (if negb (v_equity_computed view) then CapitalStep.ComputeEquity
          else if bool_decide (v_safety view = VaultSafety.Normal) && deposits then CapitalStep.ProcessDeposits
          else if withdrawals then CapitalStep.ProcessWithdrawals
          else CapitalStep.FinalizeCycle) in
  let idle :=
    if negb pending && v_accepting_deposits view then
      if elapsed (open_for window) (deposit_window policy) then Some CapitalStep.CloseDeposits else None
    else if negb pending then
      if reopen policy && negb (v_equity_computed view) && elapsed (closed_for window) (trading_window policy)
      then Some CapitalStep.OpenDeposits else None
    else if v_accepting_deposits view then Some CapitalStep.CloseDeposits
    else if negb (v_equity_computed view) then Some CapitalStep.ComputeEquity
    else if deposits then Some CapitalStep.ProcessDeposits
    else Some CapitalStep.ProcessWithdrawals in
  match v_safety view, v_phase view with
  | VaultSafety.WithdrawOnly, phase =>
      if bool_decide (phase = VaultPhase.Idle) && withdrawals then Some CapitalStep.ProcessWithdrawals
      else if deposits then Some CapitalStep.ProcessDeposits else None
  | VaultSafety.Closing, _ => if deposits then Some CapitalStep.ProcessDeposits else None
  | VaultSafety.Frozen, phase =>
      if deposits then Some CapitalStep.ProcessDeposits
      else match phase with
           | VaultPhase.ProcessingCapital => processing
           | VaultPhase.Idle =>
               if withdrawals
               then Some (if v_equity_computed view then CapitalStep.ProcessWithdrawals else CapitalStep.ComputeEquity)
               else None
           | _ => None
           end
  | VaultSafety.Normal, VaultPhase.ProcessingCapital => processing
  | VaultSafety.Normal, VaultPhase.Idle => idle
  | _, _ => None
  end.

(* chain/vault/crank.rs:84-142 next_step *)
Definition next_step (view : VaultView) (window : WindowClock) (policy : WindowPolicy) : option CapitalStep.t :=
  let step := due_step view window policy in
  match open (v_staging view), step with
  | Some _, Some (CapitalStep.ComputeEquity | CapitalStep.FinalizeCycle) => None
  | _, _ => step
  end.

(* chain/vault/crank.rs:144-149 WithdrawalPlan *)
Record WithdrawalPlan := { partial : list key; final_user : option key }.

(** [slice::sort_by_key] is stable: an element goes before the first one that is not
    greater. *)
Fixpoint insert_by_shares (x : key * Z) (l : list (key * Z)) : list (key * Z) :=
  match l with
  | [] => [x]
  | y :: l' => if snd y <=? snd x then x :: l else y :: insert_by_shares x l'
  end.
Definition sort_by_shares (l : list (key * Z)) : list (key * Z) := foldr insert_by_shares [] l.

(* chain/vault/crank.rs:151-171 plan_withdrawals *)
Definition plan_withdrawals (requests : list (key * Z)) (total_shares : Z) : WithdrawalPlan :=
  let batch :=
    let queued := foldl (fun sum r => saturating_add 64 sum (snd r)) 0 requests in
    let ordered := match requests with
                   | [] => []
                   | _ => if total_shares <=? queued then tl (sort_by_shares requests) else requests
                   end in
    {| partial := map fst ordered; final_user := None |} in
  match requests with
  | [(user, shares)] => if shares =? total_shares then {| partial := []; final_user := Some user |} else batch
  | _ => batch
  end.

(** ** The window *)

(** The reference: when the flag last took its present value. *)
Fixpoint since (open : bool) (start : Z) (history : list (bool * Z)) : Z :=
  match history with
  | (flag, time) :: older => if Bool.eqb flag open then since open time older else start
  | [] => start
  end.

(** The tracker after the observations, the latest first. *)
Fixpoint tracked (history : list (bool * Z)) : WindowTracker :=
  match history with
  | (flag, time) :: older => snd (observe (tracked older) flag time)
  | [] => None
  end.

Lemma tracked_since flag time older :
  tracked ((flag, time) :: older) = Some (flag, since flag time older).
Proof.
  revert flag time. induction older as [|[f t] older IH]; intros flag time; [done|].
  change (tracked ((flag, time) :: (f, t) :: older)) with (snd (observe (tracked ((f, t) :: older)) flag time)).
  rewrite IH. unfold observe. cbn [since]. destruct (Bool.eqb f flag) eqn:E; [|by destruct flag].
  apply Bool.eqb_prop in E as ->. by destruct flag.
Qed.

(** The tracker is equivalent to keeping the whole history: the clock it reports runs
    from the first observation of the present state of the window since it last changed. *)
Theorem window_clock_exact history open now :
  fst (observe (tracked history) open now) =
  let held := Z.max 0 (now - since open now history) in
  if open then {| open_for := Some held; closed_for := None |} else {| open_for := None; closed_for := Some held |}.
Proof.
  destruct history as [|[flag time] older]; [done|]. rewrite tracked_since. unfold observe. cbn [since].
  destruct (Bool.eqb flag open) eqn:E; [|done]. by apply Bool.eqb_prop in E as ->.
Qed.

(** ** Withdrawals *)

Definition shares (l : list (key * Z)) : Z := foldr (fun r sum => snd r + sum) 0 l.

Lemma shares_app a b : shares (a ++ b) = shares a + shares b.
Proof. unfold shares. induction a as [|x a IH]; cbn; lia. Qed.
Lemma shares_perm a b : a ≡ₚ b -> shares a = shares b.
Proof. unfold shares. induction 1; cbn; lia. Qed.

Lemma shares_nonneg l : Forall (fun r => 0 <= snd r) l -> 0 <= shares l.
Proof. unfold shares. induction 1; cbn; lia. Qed.

Lemma insert_perm x l : insert_by_shares x l ≡ₚ x :: l.
Proof.
  induction l as [|y l IH]; cbn; [done|]. destruct (_ <=? _); [done|]. rewrite IH. apply perm_swap.
Qed.
Lemma sort_perm l : sort_by_shares l ≡ₚ l.
Proof. induction l as [|x l IH]; cbn; [done|]. by rewrite insert_perm, IH. Qed.

(** The first of the sorted requests is one of the largest. *)
Lemma insert_head x l y rest :
  (forall z, z ∈ l -> exists m rest, l = m :: rest /\ snd z <= snd m) ->
  insert_by_shares x l = y :: rest -> forall z, z ∈ x :: l -> snd z <= snd y.
Proof.
  intros Hmax H z Hz. destruct l as [|m l]; cbn in H.
  - injection H as <- <-. apply list_elem_of_singleton in Hz as ->. lia.
  - destruct (snd m <=? snd x) eqn:E.
    + injection H as <- <-. apply Z.leb_le in E. apply elem_of_cons in Hz as [->|Hz]; [lia|].
      destruct (Hmax z Hz) as (? & ? & [= <- <-] & ?). lia.
    + injection H as <- <-. apply Z.leb_gt in E. apply elem_of_cons in Hz as [->|Hz]; [lia|].
      destruct (Hmax z Hz) as (? & ? & [= <- <-] & ?). lia.
Qed.
Lemma sort_head l z : z ∈ sort_by_shares l -> exists m rest, sort_by_shares l = m :: rest /\ snd z <= snd m.
Proof.
  revert z. induction l as [|x l IH]; intros z Hz; [by apply elem_of_nil in Hz|].
  change (sort_by_shares (x :: l)) with (insert_by_shares x (sort_by_shares l)) in *.
  destruct (insert_by_shares x (sort_by_shares l)) as [|m rest] eqn:E; [by apply elem_of_nil in Hz|].
  exists m, rest. split; [done|]. eapply insert_head; [exact IH|exact E|]. rewrite <- E, insert_perm in Hz. exact Hz.
Qed.

Lemma queued_exact l s :
  0 <= s -> Forall (fun r => 0 <= snd r) l -> s + shares l < 2 ^ 64 ->
  foldl (fun sum (r : key * Z) => saturating_add 64 sum (snd r)) s l = s + shares l.
Proof.
  revert s. induction l as [|x l IH]; intros s Hs Hl Hf; [cbn; lia|]. apply Forall_cons in Hl as [Hx Hl].
  change (shares (x :: l)) with (snd x + shares l) in *. pose proof (shares_nonneg l Hl). cbn [foldl].
  unfold saturating_add at 2, umax. rewrite Z.min_r by lia. rewrite IH by (done || lia). lia.
Qed.

(** What is left after the planned withdrawals: the requests, and the supply. *)
Definition left_over (plan : WithdrawalPlan) (requests : list (key * Z)) : list (key * Z) :=
  filter (fun r => fst r ∉ partial plan) requests.
Definition redeemed (plan : WithdrawalPlan) (requests : list (key * Z)) : list (key * Z) :=
  filter (fun r => fst r ∈ partial plan) requests.

(** The requests are of distinct users, for some of the shares each, and for no more than
    there are. *)
Record queue_ok (requests : list (key * Z)) (total_shares : Z) : Prop := {
  qo_users : NoDup (map fst requests);
  qo_positive : Forall (fun r => 0 < snd r) requests;
  qo_total : shares requests <= total_shares < 2 ^ 64;
}.

Lemma filter_all {A} (P : A -> Prop) `{forall x, Decision (P x)} l : Forall P l -> filter P l = l.
Proof. induction 1 as [|x l Hx _ IH]; [done|]. rewrite filter_cons, decide_True by done. by rewrite IH. Qed.
Lemma filter_none {A} (P : A -> Prop) `{forall x, Decision (P x)} l : Forall (fun x => ~ P x) l -> filter P l = [].
Proof. induction 1 as [|x l Hx _ IH]; [done|]. by rewrite filter_cons, decide_False. Qed.

(** Requests of distinct users, split by the users of one part. *)
Lemma split_by_users (l a b : list (key * Z)) :
  NoDup (map fst l) -> l ≡ₚ a ++ b ->
  filter (fun r => fst r ∈ map fst a) l ≡ₚ a /\ filter (fun r => fst r ∉ map fst a) l ≡ₚ b.
Proof.
  intros Hnd Hp.
  assert (Hdis : NoDup (map fst a ++ map fst b)) by (rewrite <- map_app; by rewrite <- Hp).
  apply NoDup_app in Hdis as (_ & Hdis & _).
  assert (Ha : forall r, r ∈ a -> fst r ∈ map fst a)
    by (intros r Hr; change (map fst) with (fmap (M := list) (@fst key Z)); by apply list_elem_of_fmap_2).
  assert (Hb : forall r, r ∈ b -> fst r ∉ map fst a).
  { intros r Hr Hin. apply (Hdis _ Hin). change (map fst) with (fmap (M := list) (@fst key Z)). by apply list_elem_of_fmap_2. }
  split; rewrite Hp, filter_app.
  - rewrite (filter_all _ a), (filter_none _ b), app_nil_r; [done|by apply Forall_forall..].
  - rewrite (filter_none _ a), (filter_all _ b); [done|by apply Forall_forall|].
    apply Forall_forall. intros r Hr Hn. by apply Hn, Ha.
Qed.

(** The plan redeems [rest] and leaves [kept]. *)
Lemma planned requests total_shares plan :
  queue_ok requests total_shares -> requests <> [] -> plan_withdrawals requests total_shares = plan -> final_user plan = None ->
  exists kept rest, requests ≡ₚ kept ++ rest /\ partial plan = map fst rest /\
    (kept = [] /\ shares requests < total_shares \/
     exists m, kept = [m] /\ shares requests = total_shares).
Proof.
  intros [Hnd Hpos Htot] Hne Hplan Hfin.
  assert (Hq : foldl (fun sum r => saturating_add 64 sum (snd r)) 0 requests = shares requests).
  { rewrite queued_exact; [lia|lia| |lia]. eapply Forall_impl; [exact Hpos|]. cbn. lia. }
  assert (Hbatch : plan = {| partial := map fst (if total_shares <=? shares requests then tl (sort_by_shares requests) else requests);
                             final_user := None |}).
  { subst plan. unfold plan_withdrawals in *. rewrite Hq in *. destruct requests as [|[u s] [|r l]]; [done| |done].
    destruct (s =? total_shares); [|done]. done. }
  rewrite Hbatch. cbn [partial]. destruct (Z.leb_spec total_shares (shares requests)) as [Hle|Hlt].
  - pose proof (sort_perm requests) as Hp. destruct (sort_by_shares requests) as [|m rest].
    { by apply Permutation_nil_l in Hp. }
    exists [m], rest. cbn [tl]. split; [by rewrite <- Hp|]. split; [done|]. right. exists m. split; [done|lia].
  - exists [], requests. split; [done|]. split; [done|]. by left.
Qed.

(** The withdrawal queue drains, and never the whole supply at once.  Of a queue of
    distinct users that together hold no more than the supply, a plan either is the final
    redemption of the one user who holds everything, or redeems some of the queue, once
    each, for less than the supply; then at most one request is left, and if one is, it is
    for exactly what remains, and the next plan is its final redemption. *)
Theorem withdrawals_drain requests total_shares :
  queue_ok requests total_shares -> requests <> [] ->
  let plan := plan_withdrawals requests total_shares in
  match final_user plan with
  | Some user => requests = [(user, total_shares)] /\ partial plan = []
  | None =>
      map fst (redeemed plan requests) ≡ₚ partial plan /\ partial plan <> [] /\
      shares (redeemed plan requests) < total_shares /\
      (left_over plan requests = [] \/
       exists user, let rest := total_shares - shares (redeemed plan requests) in
         left_over plan requests = [(user, rest)] /\
         plan_withdrawals [(user, rest)] rest = {| partial := []; final_user := Some user |})
  end.
Proof.
  intros Hok Hne plan. destruct (final_user plan) as [user|] eqn:Hfin.
  { unfold plan, plan_withdrawals in *. destruct requests as [|[u s] [|r l]]; [done| |done].
    destruct (Z.eqb_spec s total_shares) as [->|]; [|done]. cbn in *. by injection Hfin as <-. }
  destruct (planned _ _ _ Hok Hne eq_refl Hfin) as (kept & rest & Hp & Hpart & Hcase).
  assert (Hp' : requests ≡ₚ rest ++ kept) by (by rewrite (Permutation_app_comm rest kept)).
  destruct (split_by_users _ _ _ (qo_users _ _ Hok) Hp') as [Hr Hl].
  fold plan in Hpart. unfold redeemed, left_over. rewrite Hpart.
  assert (Hsum : shares requests = shares rest + shares kept) by (by rewrite (shares_perm _ _ Hp'), shares_app).
  assert (Hsr : shares (filter (fun r => fst r ∈ map fst rest) requests) = shares rest) by (by apply shares_perm).
  destruct Hok as [Hnd Hpos Htot].
  destruct Hcase as [[-> Hlt]|(m & -> & Heq)].
  - rewrite app_nil_r in Hp'. change (shares []) with 0 in Hsum.
    split_and!; [by rewrite Hr| | |left; by apply Permutation_nil_r].
    + destruct rest; [|done]. by apply Permutation_nil_r in Hp'.
    + rewrite Hsr. lia.
  - assert (Hm : 0 < snd m) by (rewrite Forall_forall in Hpos; apply Hpos; rewrite Hp'; apply elem_of_app; right; by apply list_elem_of_singleton).
    change (shares [m]) with (snd m + 0) in Hsum.
    split_and!; [by rewrite Hr| |rewrite Hsr; lia|].
    + destruct rest; [|done]. exfalso. cbn in Hp'. apply Permutation_singleton_r in Hp'. subst requests.
      unfold plan, plan_withdrawals in Hfin. destruct m as [u s]. cbn in Heq.
      rewrite (proj2 (Z.eqb_eq s total_shares)) in Hfin; [done|lia].
    + right. exists (fst m). cbv zeta. rewrite Hsr. replace (total_shares - shares rest) with (snd m) by lia.
      split; [apply Permutation_singleton_r in Hl; rewrite Hl; by destruct m|].
      unfold plan_withdrawals. by rewrite Z.eqb_refl.
Qed.

(** Three users who hold the whole supply: the largest waits. *)
Lemma withdrawals_drain_witness :
  let requests := [(key_of 1, 20); (key_of 2, 50); (key_of 3, 30)] in
  let plan := plan_withdrawals requests 100 in
  left_over plan requests = [(key_of 2, 50)] /\ shares (redeemed plan requests) < 100.
Proof.
  cbv zeta. pose proof (withdrawals_drain [(key_of 1, 20); (key_of 2, 50); (key_of 3, 30)] 100) as H.
  split; [vm_compute; reflexivity|]. apply H; [|done].
  split; [by apply (bool_decide_unpack _); vm_compute|repeat constructor; cbn; lia|unfold shares; cbn; lia].
Defined.

(** ** Steps *)

Lemma elapsed_true o bound : elapsed o bound = true <-> exists d, o = Some d /\ bound <= d.
Proof.
  unfold elapsed. destruct o as [d|]; [rewrite Z.leb_le|]; [|naive_solver].
  split; [by exists d|]. by intros (d' & [= <-] & ?).
Qed.

(** Exactly when each step is due.  A governed vault closes its window before it prices
    and serves what is queued, and, as a frozen one, takes deposits before withdrawals; a
    vault that only pays out serves withdrawals first while it is idle and refunds deposits
    otherwise; a closing one only refunds. *)
Definition may_step (view : VaultView) (window : WindowClock) (policy : WindowPolicy) (step : CapitalStep.t) : Prop :=
  let deposits := 0 < v_pending_deposits view in
  let withdrawals := 0 < v_pending_withdrawals view in
  let idle := v_phase view = VaultPhase.Idle in
  let processing := v_phase view = VaultPhase.ProcessingCapital in
  let settled := processing \/ idle /\ v_accepting_deposits view = false in
  match step with
  | CapitalStep.CloseDeposits =>
      v_safety view = VaultSafety.Normal /\ idle /\ v_accepting_deposits view = true /\
      (deposits \/ withdrawals \/ exists d, open_for window = Some d /\ deposit_window policy <= d)
  | CapitalStep.OpenDeposits =>
      v_safety view = VaultSafety.Normal /\ idle /\ v_accepting_deposits view = false /\
      ~ deposits /\ ~ withdrawals /\ v_equity_computed view = false /\
      reopen policy = true /\ exists d, closed_for window = Some d /\ trading_window policy <= d
  | CapitalStep.ComputeEquity =>
      v_equity_computed view = false /\ open (v_staging view) = None /\
      match v_safety view with
      | VaultSafety.Normal => settled /\ (idle -> deposits \/ withdrawals)
      | VaultSafety.Frozen => ~ deposits /\ (processing \/ idle /\ withdrawals)
      | _ => False
      end
  | CapitalStep.ProcessDeposits =>
      deposits /\
      match v_safety view with
      | VaultSafety.Normal => v_equity_computed view = true /\ settled
      | VaultSafety.Frozen | VaultSafety.Closing => True
      | VaultSafety.WithdrawOnly => ~ (idle /\ withdrawals)
      | VaultSafety.EmergencyUnwind => False
      end
  | CapitalStep.ProcessWithdrawals =>
      withdrawals /\
      match v_safety view with
      | VaultSafety.Normal => ~ deposits /\ v_equity_computed view = true /\ settled
      | VaultSafety.Frozen => ~ deposits /\ v_equity_computed view = true /\ (processing \/ idle)
      | VaultSafety.WithdrawOnly => idle
      | _ => False
      end
  | CapitalStep.FinalizeCycle =>
      (v_safety view = VaultSafety.Normal \/ v_safety view = VaultSafety.Frozen) /\ processing /\
      v_equity_computed view = true /\ open (v_staging view) = None /\ ~ deposits /\ ~ withdrawals
  end.

(** The crank names a step exactly when it is due, so at most one is. *)
Lemma next_step_iff view window policy step :
  next_step view window policy = Some step <-> may_step view window policy step.
Proof.
  unfold next_step, due_step, may_step.
  destruct view as [phase safety equity accepting dep wd [g slot]], window as [op cl], policy as [re dw tw]. cbn.
  destruct step; rewrite <- ?elapsed_true;
    destruct (Z.ltb_spec 0 dep) as [Hd|Hd], (Z.ltb_spec 0 wd) as [Hw|Hw], equity, safety, phase; cbn;
    repeat case_match; try (split; [discriminate|intuition (congruence || lia)]);
    first [naive_solver lia | destruct re, (elapsed cl tw); naive_solver lia].
Qed.

(** Requests are queued that the vault serves in its state of safety, and nothing is staged
    that must be undone first. *)
Definition waiting (view : VaultView) : Prop :=
  let deposits := 0 < v_pending_deposits view in
  let withdrawals := 0 < v_pending_withdrawals view in
  open (v_staging view) = None /\
  match v_safety view with
  | VaultSafety.Normal | VaultSafety.Frozen =>
      (deposits \/ withdrawals) /\ (v_phase view = VaultPhase.Idle \/ v_phase view = VaultPhase.ProcessingCapital)
  | VaultSafety.WithdrawOnly => deposits \/ withdrawals /\ v_phase view = VaultPhase.Idle
  | VaultSafety.Closing => deposits
  | VaultSafety.EmergencyUnwind => False
  end.

(** Requests that wait are not left waiting. *)
Lemma next_step_live view window policy : waiting view -> next_step view window policy <> None.
Proof.
  unfold waiting, next_step, due_step. intros (Ho & Hp). revert Hp Ho.
  destruct view as [phase safety equity accepting dep wd [g slot]], window as [op cl], policy as [re dw tw]. cbn.
  destruct (Z.ltb_spec 0 dep) as [Hd|Hd], (Z.ltb_spec 0 wd) as [Hw|Hw], equity; cbn;
    destruct safety, phase; cbn; repeat case_match; intros; simplify_eq; naive_solver lia.
Qed.
