(* ===== verification/Positions.v ===== *)
(** * The program's accounts and events ([src/chain/accounts.rs], [events.rs], [error.rs])

    Decoding of positions, markets, makers and the global configuration from their
    accounts, and of the events of positions from a transaction's log. *)

From Stdlib Require Import ZArith Lia String.
From stdpp Require Import base list strings.
From S2P Require Import Prelude Spreads Terms Chain Account.

Open Scope Z_scope.

Module ChainError.
(** The errors of the RPC client and of a signer are their texts. *)
(* chain/error.rs:6-61 ChainError *)
Inductive t :=
| TakerBuyUnsupported
| Spread (e : SpreadError.t)
| MissingAccount (k : key)
| Confirmation (text : string)
| InvalidAccountData
| AccountOwnerMismatch (expected actual : key)
| AccountDiscriminatorMismatch (expected actual : Z)
| UninitializedAccount
| UnknownPositionStatus (v : Z)
| InvalidPositionType (v : Z)
| InvalidSettlementState
| SettlementAmountOverflow
| MissingFundingAccount (k : key)
| InvalidNativeTokenProgram (k : key)
| InsufficientNativeSol (needed_lamports available_lamports : Z)
| MissingLookupTable (k : key)
| LookupTableDeactivated (k : key)
| NativeSolBudgetOverflow
| Ix (invalid_position_type : Z)
| Vault (e : VaultChainError.t)
| Identity (what : string)
| Rpc (text : string)
| Signing (text : string).
End ChainError.
Abbreviation xres A := (res ChainError.t A) (only parsing).

(* chain/accounts.rs:6-12 account constants *)
Definition POSITION_DISCRIMINATOR : Z := 1.
Definition MAKER_DISCRIMINATOR : Z := 2.
Definition MARKET_DISCRIMINATOR : Z := 4.
Definition GLOBAL_CONFIG_DISCRIMINATOR : Z := 6.
Definition ACCOUNT_VERSION : Z := 1.

Module OnChainStatus.
(* chain/accounts.rs:14-24 PositionStatus *)
Inductive t := None | Open | Funded | Liquidated | Settled | Closed.
#[global] Instance t_eq_dec : EqDecision t.
Proof. solve_decision. Defined.

(* chain/accounts.rs:26-40 TryFrom<u8> for PositionStatus *)
Definition try_from (value : Z) : xres t :=
  if value =? 0 then Ok None else if value =? 1 then Ok Open else if value =? 2 then Ok Funded
  else if value =? 3 then Ok Liquidated else if value =? 4 then Ok Settled else if value =? 5 then Ok Closed
  else Err (ChainError.UnknownPositionStatus value).

Definition byte (s : t) : Z :=
  match s with None => 0 | Open => 1 | Funded => 2 | Liquidated => 3 | Settled => 4 | Closed => 5 end.
End OnChainStatus.

(* chain/accounts.rs:42-56 PositionInfo *)
Record PositionInfo := {
  pi_terms : OptionTerms.t;
  pi_side : TakerSide.t;
  pi_flags : Z;
  pi_flags2 : Z;
  pi_flags3 : Z;
  pi_status : OnChainStatus.t;
  pi_writer : key;
  pi_holder : key;
  pi_market_pda : key;
  pi_quantity : Z;
  pi_order_id : key;
}.

(* chain/accounts.rs:58-70 MarketInfo *)
Record MarketInfo := {
  mi_expiry_ts : Z;
  mi_is_put : bool;
  mi_is_finalized : bool;
  mi_settlement_price : Z;
  mi_underlying_mint : key;
  mi_quote_mint : key;
  mi_underlying_token_program_id : key;
  mi_quote_token_program_id : key;
  mi_underlying_decimals : Z;
  mi_quote_decimals : Z;
}.

(* chain/accounts.rs:72-77 GlobalConfigInfo *)
Record GlobalConfigInfo := { gc_hot_authority : key; gc_bump : Z }.

(* chain/accounts.rs:211-216 MakerInfo *)
Record MakerInfo := { mk_owner : key; mk_quote_signer : key }.

(* chain/accounts.rs:253-280 validate_account *)
Definition validate_account (account : Account) (program_id : key) (expected_discriminator : Z) : xres unit :=
  _ ← reject_if (negb (bool_decide (owner account = program_id)))
        (ChainError.AccountOwnerMismatch program_id (owner account));
  discriminator ← ok_or (account_data account !! 0%nat) ChainError.InvalidAccountData;
  _ ← reject_if (negb (discriminator =? expected_discriminator))
        (ChainError.AccountDiscriminatorMismatch expected_discriminator discriminator);
  match account_data account !! 1%nat with
  | None => Err ChainError.UninitializedAccount
  | Some version => reject_if (version =? 0) ChainError.UninitializedAccount
  end.

(* chain/accounts.rs:239-251 current_layout *)
Definition current_layout (account : Account) (program_id : key) (discriminator version : Z) (len : nat) : xres bytes :=
  _ ← validate_account account program_id discriminator;
  if negb (length (account_data account) =? len)%nat then Err ChainError.InvalidAccountData
  else
    v ← index_p (account_data account) 1;
    _ ← reject_if (negb (v =? version)) ChainError.InvalidAccountData;
    Ok (account_data account).

(* chain/accounts.rs:282-289 read_pubkey *)
Definition read_pubkey (data : bytes) (offset : nat) : xres key :=
  ok_or (get_range data offset (offset + 32)) ChainError.InvalidAccountData.

(* chain/accounts.rs:291-298 read_u64 *)
Definition read_u64 (data : bytes) (offset : nat) : xres Z :=
  from_le_bytes <$> ok_or (get_range data offset (offset + 8)) ChainError.InvalidAccountData.

(* chain/accounts.rs:79-83 global configuration constants *)
Definition GLOBAL_CONFIG_LEN : nat := 296.
Definition GLOBAL_CONFIG_KNOWN_FLAGS : Z := 1.

(* chain/accounts.rs:86-106 GlobalConfigInfo::from_account *)
Definition global_config_from_account (account : Account) (program_id : key) : xres GlobalConfigInfo :=
  data ← current_layout account program_id GLOBAL_CONFIG_DISCRIMINATOR ACCOUNT_VERSION GLOBAL_CONFIG_LEN;
  hot_authority ← read_pubkey data 8;
  flags ← index_p data 3;
  pad ← slice_p data 4 8;
  _ ← reject_if (negb (Z.land flags (Z.lnot GLOBAL_CONFIG_KNOWN_FLAGS) =? 0)
                 || negb (bool_decide (pad = [0; 0; 0; 0])) || bool_decide (hot_authority = key_of 0))
        ChainError.InvalidAccountData;
  bump ← index_p data 2;
  Ok {| gc_hot_authority := hot_authority; gc_bump := bump |}.

(* chain/accounts.rs:109-118 position constants *)
Definition POSITION_LEN : nat := 424.
Definition POSITION_VERSION : Z := 2.
Definition POSITION_FLAG_TAKER_BUY : Z := 4.

(** The side a position's flags say. *)
Definition side_of (flags : Z) : TakerSide.t :=
  if negb (Z.land flags POSITION_FLAG_TAKER_BUY =? 0) then TakerSide.Buy else TakerSide.Sell.

(** Physical terms are read as they are; those of a spread must be consistent. *)
(* chain/accounts.rs:133-148 PositionInfo::from_account (terms) *)
Definition position_terms (data : bytes) : xres OptionTerms.t :=
  b ← index_p data 3;
  product ← map_err ChainError.InvalidPositionType (ChainPositionType.try_from b);
  strike ← read_u64 data 104;
  upper ← (if ChainPositionType.is_spread product then Some <$> read_u64 data 168 else Ok None);
  OptionTerms.from_chain <$>
    match product with
    | ChainPositionType.CoveredCall => Ok (ChainTerms.CoveredCall strike)
    | ChainPositionType.CashSecuredPut => Ok (ChainTerms.CashSecuredPut strike)
    | _ => map_err ChainError.Spread (ChainTerms.from_parts product strike upper)
    end.

(* chain/accounts.rs:121-166 PositionInfo::from_account *)
Definition position_from_account (account : Account) (program_id : key) : xres PositionInfo :=
  data ← current_layout account program_id POSITION_DISCRIMINATOR POSITION_VERSION POSITION_LEN;
  order_id ← slice_p data 128 160;
  terms ← position_terms data;
  flags ← index_p data 5;
  flags2 ← index_p data 6;
  flags3 ← index_p data 7;
  status ← (b ← index_p data 4; OnChainStatus.try_from b);
  writer ← read_pubkey data 8;
  holder ← read_pubkey data 40;
  market_pda ← read_pubkey data 72;
  quantity ← read_u64 data 112;
  Ok {| pi_terms := terms; pi_side := side_of flags; pi_flags := flags; pi_flags2 := flags2; pi_flags3 := flags3;
        pi_status := status; pi_writer := writer; pi_holder := holder; pi_market_pda := market_pda;
        pi_quantity := quantity; pi_order_id := order_id |}.

(* chain/accounts.rs:169-180 market constants *)
Definition MARKET_LEN : nat := 416.
Definition MARKET_FLAG_PUT : Z := 1.
Definition MARKET_FLAG_FINALIZED : Z := 2.

(* chain/accounts.rs:183-208 MarketInfo::from_account *)
Definition market_from_account (account : Account) (program_id : key) : xres MarketInfo :=
  data ← current_layout account program_id MARKET_DISCRIMINATOR ACCOUNT_VERSION MARKET_LEN;
  flags ← index_p data 5;
  _ ← reject_if (negb (Z.land flags (Z.lnot (Z.lor MARKET_FLAG_PUT MARKET_FLAG_FINALIZED)) =? 0))
        ChainError.InvalidAccountData;
  expiry_ts ← read_u64 data 8;
  settlement_price ← read_u64 data 16;
  underlying_decimals ← index_p data 3;
  quote_decimals ← index_p data 4;
  underlying_mint ← read_pubkey data 32;
  quote_mint ← read_pubkey data 64;
  underlying_token_program_id ← read_pubkey data 96;
  quote_token_program_id ← read_pubkey data 128;
  Ok {| mi_expiry_ts := expiry_ts; mi_is_put := negb (Z.land flags MARKET_FLAG_PUT =? 0);
        mi_is_finalized := negb (Z.land flags MARKET_FLAG_FINALIZED =? 0); mi_settlement_price := settlement_price;
        mi_underlying_mint := underlying_mint; mi_quote_mint := quote_mint;
        mi_underlying_token_program_id := underlying_token_program_id;
        mi_quote_token_program_id := quote_token_program_id; mi_underlying_decimals := underlying_decimals;
        mi_quote_decimals := quote_decimals |}.

(* chain/accounts.rs:218-220 maker constants *)
Definition MAKER_LEN : nat := 328.

(* chain/accounts.rs:223-236 MakerInfo::from_account *)
Definition maker_from_account (account : Account) (program_id : key) : xres MakerInfo :=
  data ← current_layout account program_id MAKER_DISCRIMINATOR ACCOUNT_VERSION MAKER_LEN;
  owner ← read_pubkey data 4;
  quote_signer ← read_pubkey data 36;
  Ok {| mk_owner := owner; mk_quote_signer := quote_signer |}.


(** ** Events *)

(* chain/events.rs:4-23 PositionOpenedEvent *)
Record PositionOpenedEvent := {
  po_position_pda : key; po_market_pda : key; po_order_id : key; po_writer : key; po_holder : key;
  po_flags : Z; po_side : TakerSide.t; po_terms : OptionTerms.t; po_quantity : Z; po_price : Z;
  po_gross_premium : Z; po_net_premium : Z; po_collateral : Z; po_valid_until : Z; po_created_at : Z }.

(* chain/events.rs:25-36 SettleSpreadEvent *)
Record SettleSpreadEvent := {
  ss_settler : key; ss_writer : key; ss_holder : key; ss_position_pda : key; ss_market_pda : key;
  ss_final_status : Z; ss_is_otm : bool; ss_holder_payoff : Z; ss_writer_return : Z }.

(* chain/events.rs:38-43 PositionEvent *)
Inductive PositionEvent := Opened (e : PositionOpenedEvent) | SpreadSettled (e : SettleSpreadEvent).

(* chain/events.rs:45-48 event constants *)
Definition HEADER : bytes := [65; 67; 84; 65; 2].
Definition POSITION_OPENED : Z := 11.
Definition SETTLE_SPREAD : Z := 79.

(** [array] and [word] are [read_pubkey] and [read_u64] on the bytes after the header. *)
(* chain/events.rs:70-106 decode_position_event (POSITION_OPENED) *)
Definition decode_opened (bytes : bytes) : xres PositionOpenedEvent :=
  _ ← reject_if (negb (length bytes =? 234)%nat) ChainError.InvalidAccountData;
  flags ← index_p bytes 160;
  b ← index_p bytes 161;
  product ← map_err ChainError.InvalidPositionType (ChainPositionType.try_from b);
  strike ← read_u64 bytes 162;
  upper ← (if ChainPositionType.is_spread product then Some <$> read_u64 bytes 170 else Ok None);
  position_pda ← read_pubkey bytes 0;
  market_pda ← read_pubkey bytes 32;
  order_id ← read_pubkey bytes 64;
  writer ← read_pubkey bytes 96;
  holder ← read_pubkey bytes 128;
  terms ← OptionTerms.from_chain <$> map_err ChainError.Spread (ChainTerms.from_parts product strike upper);
  quantity ← read_u64 bytes 178;
  price ← read_u64 bytes 186;
  gross_premium ← read_u64 bytes 194;
  net_premium ← read_u64 bytes 202;
  collateral ← read_u64 bytes 210;
  valid_until ← read_u64 bytes 218;
  created_at ← read_u64 bytes 226;
  Ok {| po_position_pda := position_pda; po_market_pda := market_pda; po_order_id := order_id; po_writer := writer;
        po_holder := holder; po_flags := flags; po_side := side_of flags; po_terms := terms;
        po_quantity := quantity; po_price := price; po_gross_premium := gross_premium;
        po_net_premium := net_premium; po_collateral := collateral; po_valid_until := valid_until;
        po_created_at := created_at |}.

(* chain/events.rs:107-122 decode_position_event (SETTLE_SPREAD) *)
Definition decode_settled (bytes : bytes) : xres SettleSpreadEvent :=
  _ ← reject_if (negb (length bytes =? 178)%nat) ChainError.InvalidAccountData;
  status ← index_p bytes 160;
  _ ← reject_if (negb (status =? 4)) ChainError.InvalidAccountData;
  otm ← index_p bytes 161;
  _ ← reject_if (1 <? otm) ChainError.InvalidAccountData;
  settler ← read_pubkey bytes 0;
  writer ← read_pubkey bytes 32;
  holder ← read_pubkey bytes 64;
  position_pda ← read_pubkey bytes 96;
  market_pda ← read_pubkey bytes 128;
  holder_payoff ← read_u64 bytes 162;
  writer_return ← read_u64 bytes 170;
  Ok {| ss_settler := settler; ss_writer := writer; ss_holder := holder; ss_position_pda := position_pda;
        ss_market_pda := market_pda; ss_final_status := status; ss_is_otm := otm =? 1;
        ss_holder_payoff := holder_payoff; ss_writer_return := writer_return |}.

(* chain/events.rs:50-125 decode_position_event *)
Definition decode_position_event (data : bytes) : xres (option PositionEvent) :=
  _ ← reject_if (length data <? 6)%nat ChainError.InvalidAccountData;
  head ← slice_p data 0 5;
  _ ← reject_if (negb (bool_decide (head = HEADER))) ChainError.InvalidAccountData;
  bytes ← slice_p data 6 (length data);
  kind ← index_p data 5;
  if kind =? POSITION_OPENED then Some ∘ Opened <$> decode_opened bytes
  else if kind =? SETTLE_SPREAD then Some ∘ SpreadSettled <$> decode_settled bytes
  else Ok None.

(** ** Accounts and events as they are laid out *)

(** The bytes a decoder does not read. *)
Definition physical_upper (terms : OptionTerms.t) (stale : bytes) : bytes :=
  match ChainTerms.upper_strike (OptionTerms.to_chain terms) with Some u => to_le_bytes 8 u | None => stale end.
Definition strike_bytes (terms : OptionTerms.t) : bytes := to_le_bytes 8 (ChainTerms.strike (OptionTerms.to_chain terms)).
Definition type_byte (terms : OptionTerms.t) : Z :=
  ChainPositionType.to_u8 (ChainTerms.position_type (OptionTerms.to_chain terms)).

(** Terms an account can hold: strikes are [u64]s, a spread is consistent, and a put
    spread from zero is written as the cash put it is. *)
Definition held (terms : OptionTerms.t) : Prop :=
  ChainTerms.typed (OptionTerms.to_chain terms) /\ OptionTerms.from_chain (OptionTerms.to_chain terms) = terms /\
  (ChainPositionType.is_spread (ChainTerms.position_type (OptionTerms.to_chain terms)) = true ->
   ChainTerms.valid (OptionTerms.to_chain terms)).

Definition position_segments (p : PositionInfo) (bump : Z) (pad1 pad2 stale pad3 : bytes) : list bytes :=
  [[POSITION_DISCRIMINATOR]; [POSITION_VERSION]; [bump]; [type_byte (pi_terms p)];
   [OnChainStatus.byte (pi_status p)]; [pi_flags p]; [pi_flags2 p]; [pi_flags3 p]; pi_writer p; pi_holder p;
   pi_market_pda p; strike_bytes (pi_terms p); to_le_bytes 8 (pi_quantity p); pad1; pi_order_id p; pad2;
   physical_upper (pi_terms p) stale; pad3].
Definition position_lens : list nat := [1; 1; 1; 1; 1; 1; 1; 1; 32; 32; 32; 8; 8; 8; 32; 8; 8; 248]%nat.
Definition position_wf (p : PositionInfo) : Prop :=
  held (pi_terms p) /\ pi_side p = side_of (pi_flags p) /\ fits 64 (pi_quantity p) /\
  Forall (fun k => length k = 32%nat) [pi_writer p; pi_holder p; pi_market_pda p; pi_order_id p].

Definition market_flags (m : MarketInfo) : Z := u8_of_bool (mi_is_put m) + 2 * u8_of_bool (mi_is_finalized m).
Definition market_segments (m : MarketInfo) (bump : Z) (pad1 pad2 pad3 : bytes) : list bytes :=
  [[MARKET_DISCRIMINATOR]; [ACCOUNT_VERSION]; [bump]; [mi_underlying_decimals m]; [mi_quote_decimals m];
   [market_flags m]; pad1; to_le_bytes 8 (mi_expiry_ts m); to_le_bytes 8 (mi_settlement_price m); pad2;
   mi_underlying_mint m; mi_quote_mint m; mi_underlying_token_program_id m; mi_quote_token_program_id m; pad3].
Definition market_lens : list nat := [1; 1; 1; 1; 1; 1; 2; 8; 8; 8; 32; 32; 32; 32; 256]%nat.
Definition market_wf (m : MarketInfo) : Prop :=
  fits 64 (mi_expiry_ts m) /\ fits 64 (mi_settlement_price m) /\
  Forall (fun k => length k = 32%nat)
    [mi_underlying_mint m; mi_quote_mint m; mi_underlying_token_program_id m; mi_quote_token_program_id m].

Definition maker_segments (m : MakerInfo) (pad1 pad2 : bytes) : list bytes :=
  [[MAKER_DISCRIMINATOR]; [ACCOUNT_VERSION]; pad1; mk_owner m; mk_quote_signer m; pad2].
Definition maker_lens : list nat := [1; 1; 2; 32; 32; 260]%nat.

Definition global_segments (g : GlobalConfigInfo) (flag : bool) (pad : bytes) : list bytes :=
  [[GLOBAL_CONFIG_DISCRIMINATOR]; [ACCOUNT_VERSION]; [gc_bump g]; [u8_of_bool flag]; [0; 0; 0; 0];
   gc_hot_authority g; pad].
Definition global_lens : list nat := [1; 1; 1; 1; 4; 32; 256]%nat.

(** An account of [program_id] that holds the concatenation of [segs]. *)
Definition holding (balance : Z) (program_id : key) (segs : list bytes) : Account :=
  {| owner := program_id; account_data := concat segs; lamports := balance |}.

Section segments.
Context {segs : list bytes} {lens : list nat} (Hlens : map length segs = lens).

Lemma pubkey_seg i s off :
  segs !! i = Some s -> off = sum_list (take i lens) -> lens !! i = Some 32%nat ->
  read_pubkey (concat segs) off = Ok s.
Proof. intros. unfold read_pubkey. by rewrite (range_at Hlens i s off 32). Qed.

Lemma word_seg i z off :
  segs !! i = Some (to_le_bytes 8 z) -> off = sum_list (take i lens) -> lens !! i = Some 8%nat -> fits 64 z ->
  read_u64 (concat segs) off = Ok z.
Proof. intros. unfold read_u64. rewrite (range_at Hlens i (to_le_bytes 8 z) off 8) by done.
  change (Ok (from_le_bytes (to_le_bytes 8 z)) = @Ok ChainError.t _ z). by rewrite from_to_le_bytes.
Qed.

Lemma layout_seg balance program_id d v :
  segs !! 0%nat = Some [d] -> segs !! 1%nat = Some [v] -> v <> 0 ->
  current_layout (holding balance program_id segs) program_id d v (sum_list lens) = Ok (concat segs).
Proof.
  intros H0 H1 Hv.
  assert (Hlens1 : sum_list (take 1 lens) = 1%nat).
  { rewrite <- Hlens. destruct segs as [|x l]; [done|]. by injection H0 as ->. }
  pose proof (segment_byte (E := ChainError.t) Hlens 0 d 0 H0 eq_refl) as Hd.
  pose proof (segment_byte (E := ChainError.t) Hlens 1 v 1 H1 (eq_sym Hlens1)) as Hw.
  unfold current_layout, validate_account. cbn [holding owner account_data].
  rewrite bool_decide_true by done. cbn.
  pose proof (proj1 (lookup_index_p _ _ _) Hd) as ->. cbn. rewrite Z.eqb_refl. cbn.
  pose proof (proj1 (lookup_index_p _ _ _) Hw) as ->.
  destruct (Z.eqb_spec v 0); [done|]. cbn.
  rewrite (segments_length Hlens), Nat.eqb_refl. cbn. rewrite Hw. cbn. by rewrite Z.eqb_refl.
Qed.
End segments.

Lemma position_lengths p bump pad1 pad2 stale pad3 :
  position_wf p -> map length [pad1; pad2; stale; pad3] = [8; 8; 8; 248]%nat ->
  map length (position_segments p bump pad1 pad2 stale pad3) = position_lens.
Proof.
  intros (_ & _ & _ & Hk) [= Hp1 Hp2 Hp3 Hp4]. repeat (apply Forall_cons in Hk as [? Hk]).
  assert (length (physical_upper (pi_terms p) stale) = 8%nat).
  { unfold physical_upper. destruct (ChainTerms.upper_strike _); [apply length_to_le_bytes|done]. }
  unfold position_segments, position_lens, strike_bytes. cbn [map length]. rewrite ?length_to_le_bytes. congruence.
Qed.

(** Terms read back from where a position keeps them. *)
Lemma held_upper terms stale segs lens i off :
  held terms -> map length segs = lens -> segs !! i = Some (physical_upper terms stale) ->
  off = sum_list (take i lens) -> lens !! i = Some 8%nat ->
  (if ChainPositionType.is_spread (ChainTerms.position_type (OptionTerms.to_chain terms))
   then Some <$> read_u64 (concat segs) off else Ok None) = Ok (ChainTerms.upper_strike (OptionTerms.to_chain terms)).
Proof.
  intros (Ht & _ & _) Hl Hi Ho Hn. unfold physical_upper in Hi.
  destruct (OptionTerms.to_chain terms) as [s|s|l u|l u]; cbn in *; try done;
    by rewrite (word_seg Hl i u off) by (done || apply Ht).
Qed.

Lemma held_strike terms : held terms -> fits 64 (ChainTerms.strike (OptionTerms.to_chain terms)).
Proof. intros (Ht & _ & _). destruct (OptionTerms.to_chain terms); cbn in *; tauto. Qed.

Lemma try_from_to_u8 c : ChainPositionType.try_from (ChainPositionType.to_u8 c) = Ok c.
Proof. by destruct c. Qed.

Lemma position_terms_seg p bump pad1 pad2 stale pad3 :
  position_wf p -> map length [pad1; pad2; stale; pad3] = [8; 8; 8; 248]%nat ->
  position_terms (concat (position_segments p bump pad1 pad2 stale pad3)) = Ok (pi_terms p).
Proof.
  intros Hp Hpads. pose proof (position_lengths p bump pad1 pad2 stale pad3 Hp Hpads) as Hl.
  destruct Hp as (Hh & _). unfold position_terms.
  rewrite (segment_byte Hl 3 (type_byte (pi_terms p)) 3) by done. cbn [mbind res_bind]. unfold type_byte.
  rewrite try_from_to_u8. cbn [map_err mbind res_bind].
  rewrite (word_seg Hl 11 (ChainTerms.strike (OptionTerms.to_chain (pi_terms p))) 104) by (done || by apply held_strike).
  cbn [mbind res_bind]. rewrite (held_upper _ stale _ _ 16 168 Hh Hl) by done. cbn [mbind res_bind].
  destruct Hh as (_ & Hc & Hs). destruct (OptionTerms.to_chain (pi_terms p)) as [s|s|l u|l u] eqn:Et.
  1, 2: cbn in *; by rewrite Hc.
  all: specialize (Hs eq_refl); assert (Hf := proj2 (from_parts_Ok _ _ _ _) (conj Hs (conj eq_refl (conj eq_refl eq_refl))));
    cbn [ChainTerms.position_type ChainTerms.strike ChainTerms.upper_strike] in Hf |- *; rewrite Hf;
    cbn [map_err fmap res_fmap]; by rewrite Hc.
Qed.

Lemma position_seg balance program_id p bump pad1 pad2 stale pad3 :
  position_wf p -> map length [pad1; pad2; stale; pad3] = [8; 8; 8; 248]%nat ->
  position_from_account (holding balance program_id (position_segments p bump pad1 pad2 stale pad3)) program_id = Ok p.
Proof.
  intros Hp Hpads. pose proof (position_lengths p bump pad1 pad2 stale pad3 Hp Hpads) as Hl.
  unfold position_from_account. change POSITION_LEN with (sum_list position_lens).
  rewrite (layout_seg Hl) by done. cbn [mbind res_bind].
  rewrite (slice_at Hl 14 (pi_order_id p) 128 32) by done. cbn [mbind res_bind].
  rewrite (position_terms_seg p bump pad1 pad2 stale pad3 Hp Hpads). cbn [mbind res_bind].
  destruct Hp as (_ & Hside & Hq & _).
  rewrite (segment_byte Hl 5 (pi_flags p) 5), (segment_byte Hl 6 (pi_flags2 p) 6), (segment_byte Hl 7 (pi_flags3 p) 7),
    (segment_byte Hl 4 (OnChainStatus.byte (pi_status p)) 4) by done. cbn [mbind res_bind].
  assert (OnChainStatus.try_from (OnChainStatus.byte (pi_status p)) = Ok (pi_status p)) as -> by (by destruct (pi_status p)).
  cbn [mbind res_bind].
  rewrite (pubkey_seg Hl 8 (pi_writer p) 8), (pubkey_seg Hl 9 (pi_holder p) 40), (pubkey_seg Hl 10 (pi_market_pda p) 72),
    (word_seg Hl 12 (pi_quantity p) 112) by done.
  cbn [mbind res_bind]. rewrite <- Hside. by destruct p.
Qed.

Lemma market_seg balance program_id m bump pad1 pad2 pad3 :
  market_wf m -> map length [pad1; pad2; pad3] = [2; 8; 256]%nat ->
  market_from_account (holding balance program_id (market_segments m bump pad1 pad2 pad3)) program_id = Ok m.
Proof.
  intros (He & Hs & Hk) [= H1 H2 H3]. repeat (apply Forall_cons in Hk as [? Hk]).
  assert (Hl : map length (market_segments m bump pad1 pad2 pad3) = market_lens).
  { unfold market_segments, market_lens. cbn [map length]. rewrite ?length_to_le_bytes. congruence. }
  unfold market_from_account. change MARKET_LEN with (sum_list market_lens).
  rewrite (layout_seg Hl) by done. cbn [mbind res_bind].
  rewrite (segment_byte Hl 5 (market_flags m) 5) by done. cbn [mbind res_bind].
  assert (Z.land (market_flags m) (Z.lnot (Z.lor MARKET_FLAG_PUT MARKET_FLAG_FINALIZED)) = 0) as ->
    by (unfold market_flags; by destruct (mi_is_put m), (mi_is_finalized m)).
  cbn [Z.eqb negb reject_if mbind res_bind].
  rewrite (word_seg Hl 7 (mi_expiry_ts m) 8), (word_seg Hl 8 (mi_settlement_price m) 16),
    (segment_byte Hl 3 (mi_underlying_decimals m) 3), (segment_byte Hl 4 (mi_quote_decimals m) 4),
    (pubkey_seg Hl 10 (mi_underlying_mint m) 32), (pubkey_seg Hl 11 (mi_quote_mint m) 64),
    (pubkey_seg Hl 12 (mi_underlying_token_program_id m) 96), (pubkey_seg Hl 13 (mi_quote_token_program_id m) 128)
    by done.
  cbn [mbind res_bind]. destruct m as [? p f]. unfold market_flags. cbn. by destruct p, f.
Qed.

Lemma maker_seg balance program_id m pad1 pad2 :
  map length [pad1; mk_owner m; mk_quote_signer m; pad2] = [2; 32; 32; 260]%nat ->
  maker_from_account (holding balance program_id (maker_segments m pad1 pad2)) program_id = Ok m.
Proof.
  intros [= H1 H2 H3 H4]. assert (Hl : map length (maker_segments m pad1 pad2) = maker_lens).
  { unfold maker_segments, maker_lens. cbn [map length]. congruence. }
  unfold maker_from_account. change MAKER_LEN with (sum_list maker_lens). rewrite (layout_seg Hl) by done.
  cbn [mbind res_bind]. rewrite (pubkey_seg Hl 3 (mk_owner m) 4), (pubkey_seg Hl 4 (mk_quote_signer m) 36) by done.
  by destruct m.
Qed.

Lemma global_seg balance program_id g flag pad :
  map length [gc_hot_authority g; pad] = [32; 256]%nat -> gc_hot_authority g <> key_of 0 ->
  global_config_from_account (holding balance program_id (global_segments g flag pad)) program_id = Ok g.
Proof.
  intros [= H1 H2] Hne. assert (Hl : map length (global_segments g flag pad) = global_lens).
  { unfold global_segments, global_lens. cbn [map length]. congruence. }
  unfold global_config_from_account. change GLOBAL_CONFIG_LEN with (sum_list global_lens).
  rewrite (layout_seg Hl) by done. cbn [mbind res_bind].
  rewrite (pubkey_seg Hl 5 (gc_hot_authority g) 8), (segment_byte Hl 3 (u8_of_bool flag) 3),
    (slice_at Hl 4 [0; 0; 0; 0] 4 4), (segment_byte Hl 2 (gc_bump g) 2) by done.
  cbn [mbind res_bind]. rewrite (bool_decide_false (gc_hot_authority g = _)) by done.
  destruct g, flag; reflexivity.
Qed.

(** What an accepted account is. *)
Lemma current_layout_Ok account program_id d v len data :
  current_layout account program_id d v len = Ok data ->
  owner account = program_id /\ data = account_data account /\ length data = len /\
  data !! 0%nat = Some d /\ data !! 1%nat = Some v.
Proof.
  unfold current_layout, validate_account. intros H. inv_ok H.
  destruct (Nat.eqb_spec (length (account_data account)) len) as [Hl|]; [|done]. cbn in H. inv_ok H. injection H as <-.
  repeat match goal with
  | H : negb (bool_decide _) = false |- _ => apply negb_false_iff, bool_decide_eq_true in H
  | H : negb (_ =? _) = false |- _ => apply negb_false_iff, Z.eqb_eq in H
  | H : index_p _ _ = Ok _ |- _ => apply lookup_index_p in H
  end. subst. auto.
Qed.

(** Reads of an account in range return. *)
Lemma returns_layout account program_id d v len :
  (2 <= len)%nat -> returns (current_layout account program_id d v len).
Proof.
  intros Hl. unfold current_layout, validate_account.
  destruct (Nat.eqb_spec (length (account_data account)) len) as [He|]; cbn [negb];
    repeat (returns_step || (apply returns_index; lia)).
Qed.
Lemma returns_read_pubkey data off : returns (read_pubkey data off).
Proof. apply returns_ok_or. Qed.
Lemma returns_read_u64 data off : returns (read_u64 data off).
Proof. apply returns_fmap, returns_ok_or. Qed.
Lemma returns_status b : returns (OnChainStatus.try_from b).
Proof. unfold OnChainStatus.try_from. repeat returns_step. Qed.
Lemma type_not_panic b : ChainPositionType.try_from b <> Panic.
Proof. unfold ChainPositionType.try_from. by repeat case_match. Qed.
Lemma terms_not_panic product s u : ChainTerms.from_parts product s u <> Panic.
Proof. unfold ChainTerms.from_parts. by repeat case_match. Qed.

Ltac reads :=
  repeat (returns_step ||
          first [apply returns_read_pubkey | apply returns_read_u64 | apply returns_status | apply type_not_panic
                | apply terms_not_panic | apply returns_index; lia | apply returns_slice; lia | apply returns_fmap]).

Lemma returns_accounts account program_id :
  returns (position_from_account account program_id) /\ returns (market_from_account account program_id) /\
  returns (maker_from_account account program_id) /\ returns (global_config_from_account account program_id).
Proof.
  repeat split; (apply returns_bind; [apply returns_layout; vm_compute; lia|]); intros data Hd;
    apply current_layout_Ok in Hd as (_ & _ & Hl & _);
    unfold POSITION_LEN, MARKET_LEN, MAKER_LEN, GLOBAL_CONFIG_LEN in Hl; unfold position_terms; reads.
Qed.

(** The program's accounts decode without a panic whatever their bytes, and only when
    the program owns them and they carry the discriminator, the version and the exact
    length of their kind; and every field is read from its place: the bytes that lay a
    position, a market, a maker or the global configuration out decode to it, whatever
    the unused bytes hold. *)
Theorem program_accounts_roundtrip balance program_id :
  (forall account,
     position_from_account account program_id <> Panic /\ market_from_account account program_id <> Panic /\
     maker_from_account account program_id <> Panic /\ global_config_from_account account program_id <> Panic) /\
  (forall account, let owned d v n := owner account = program_id /\ length (account_data account) = n /\
       account_data account !! 0%nat = Some d /\ account_data account !! 1%nat = Some v in
     (forall p, position_from_account account program_id = Ok p -> owned 1 2 424%nat) /\
     (forall m, market_from_account account program_id = Ok m -> owned 4 1 416%nat) /\
     (forall m, maker_from_account account program_id = Ok m -> owned 2 1 328%nat) /\
     (forall g, global_config_from_account account program_id = Ok g ->
        owned 6 1 296%nat /\ gc_hot_authority g <> key_of 0)) /\
  (forall p bump pad1 pad2 stale pad3, position_wf p -> map length [pad1; pad2; stale; pad3] = [8; 8; 8; 248]%nat ->
     position_from_account (holding balance program_id (position_segments p bump pad1 pad2 stale pad3)) program_id = Ok p) /\
  (forall m bump pad1 pad2 pad3, market_wf m -> map length [pad1; pad2; pad3] = [2; 8; 256]%nat ->
     market_from_account (holding balance program_id (market_segments m bump pad1 pad2 pad3)) program_id = Ok m) /\
  (forall m pad1 pad2, map length [pad1; mk_owner m; mk_quote_signer m; pad2] = [2; 32; 32; 260]%nat ->
     maker_from_account (holding balance program_id (maker_segments m pad1 pad2)) program_id = Ok m) /\
  (forall g flag pad, map length [gc_hot_authority g; pad] = [32; 256]%nat -> gc_hot_authority g <> key_of 0 ->
     global_config_from_account (holding balance program_id (global_segments g flag pad)) program_id = Ok g).
Proof.
  split; [intros account; apply returns_accounts|]. split.
  - intros account owned. subst owned. cbv beta. split; [|split; [|split]]; intros x H;
      unfold position_from_account, market_from_account, maker_from_account, global_config_from_account in H;
      apply bind_Ok in H as (data & Hd & H); apply current_layout_Ok in Hd as (? & -> & ? & ? & ?); auto.
    split; [done|]. inv_ok H. injection H as <-.
    match goal with H : _ || _ = false |- _ => by apply orb_false_iff in H as [_ Hk%bool_decide_eq_false] end.
  - split; [apply position_seg|]. split; [apply market_seg|]. split; [apply maker_seg|apply global_seg].
Qed.

(** ** Event layouts *)

Definition opened_segments (e : PositionOpenedEvent) (stale : bytes) : list bytes :=
  [po_position_pda e; po_market_pda e; po_order_id e; po_writer e; po_holder e; [po_flags e];
   [type_byte (po_terms e)]; strike_bytes (po_terms e); physical_upper (po_terms e) stale;
   to_le_bytes 8 (po_quantity e); to_le_bytes 8 (po_price e); to_le_bytes 8 (po_gross_premium e);
   to_le_bytes 8 (po_net_premium e); to_le_bytes 8 (po_collateral e); to_le_bytes 8 (po_valid_until e);
   to_le_bytes 8 (po_created_at e)].
Definition opened_lens : list nat := [32; 32; 32; 32; 32; 1; 1; 8; 8; 8; 8; 8; 8; 8; 8; 8]%nat.
Definition opened_wf (e : PositionOpenedEvent) : Prop :=
  held (po_terms e) /\ ChainTerms.valid (OptionTerms.to_chain (po_terms e)) /\ po_side e = side_of (po_flags e) /\
  Forall (fits 64) [po_quantity e; po_price e; po_gross_premium e; po_net_premium e; po_collateral e;
                    po_valid_until e; po_created_at e] /\
  Forall (fun k => length k = 32%nat) [po_position_pda e; po_market_pda e; po_order_id e; po_writer e; po_holder e].

Definition settled_segments (e : SettleSpreadEvent) : list bytes :=
  [ss_settler e; ss_writer e; ss_holder e; ss_position_pda e; ss_market_pda e; [ss_final_status e];
   [u8_of_bool (ss_is_otm e)]; to_le_bytes 8 (ss_holder_payoff e); to_le_bytes 8 (ss_writer_return e)].
Definition settled_lens : list nat := [32; 32; 32; 32; 32; 1; 1; 8; 8]%nat.
Definition settled_wf (e : SettleSpreadEvent) : Prop :=
  ss_final_status e = 4 /\ fits 64 (ss_holder_payoff e) /\ fits 64 (ss_writer_return e) /\
  Forall (fun k => length k = 32%nat) [ss_settler e; ss_writer e; ss_holder e; ss_position_pda e; ss_market_pda e].

(** An event in the program's log. *)
Definition envelope (kind : Z) (body : list bytes) : bytes := HEADER ++ [kind] ++ concat body.

Lemma opened_seg e stale :
  opened_wf e -> length stale = 8%nat -> decode_opened (concat (opened_segments e stale)) = Ok e.
Proof.
  intros (Hh & Hv & Hside & Hz & Hk) Hst.
  repeat (apply Forall_cons in Hk as [? Hk]). repeat (apply Forall_cons in Hz as [? Hz]).
  assert (Hl : map length (opened_segments e stale) = opened_lens).
  { assert (length (physical_upper (po_terms e) stale) = 8%nat).
    { unfold physical_upper. destruct (ChainTerms.upper_strike _); [apply length_to_le_bytes|done]. }
    unfold opened_segments, opened_lens, strike_bytes. cbn [map length]. rewrite ?length_to_le_bytes. congruence. }
  unfold decode_opened. rewrite (segments_length Hl). cbn [sum_list opened_lens Nat.eqb negb reject_if mbind res_bind Nat.add].
  rewrite (segment_byte Hl 5 (po_flags e) 160), (segment_byte Hl 6 (type_byte (po_terms e)) 161) by done.
  cbn [mbind res_bind]. unfold type_byte. rewrite try_from_to_u8. cbn [map_err mbind res_bind].
  rewrite (word_seg Hl 7 (ChainTerms.strike (OptionTerms.to_chain (po_terms e))) 162) by (done || by apply held_strike).
  cbn [mbind res_bind]. rewrite (held_upper _ stale _ _ 8 170 Hh Hl) by done. cbn [mbind res_bind].
  rewrite (pubkey_seg Hl 0 (po_position_pda e) 0), (pubkey_seg Hl 1 (po_market_pda e) 32),
    (pubkey_seg Hl 2 (po_order_id e) 64), (pubkey_seg Hl 3 (po_writer e) 96), (pubkey_seg Hl 4 (po_holder e) 128) by done.
  cbn [mbind res_bind].
  rewrite (proj2 (from_parts_Ok _ _ _ _) (conj Hv (conj eq_refl (conj eq_refl eq_refl)))).
  destruct Hh as (_ & Hc & _). cbn [map_err fmap res_fmap mbind res_bind]. rewrite Hc.
  rewrite (word_seg Hl 9 (po_quantity e) 178), (word_seg Hl 10 (po_price e) 186), (word_seg Hl 11 (po_gross_premium e) 194),
    (word_seg Hl 12 (po_net_premium e) 202), (word_seg Hl 13 (po_collateral e) 210), (word_seg Hl 14 (po_valid_until e) 218),
    (word_seg Hl 15 (po_created_at e) 226) by done.
  cbn [mbind res_bind]. rewrite <- Hside. by destruct e.
Qed.

Lemma settled_seg e : settled_wf e -> decode_settled (concat (settled_segments e)) = Ok e.
Proof.
  intros (Hs & Hp & Hr & Hk). repeat (apply Forall_cons in Hk as [? Hk]).
  assert (Hl : map length (settled_segments e) = settled_lens).
  { unfold settled_segments, settled_lens. cbn [map length]. rewrite ?length_to_le_bytes. congruence. }
  unfold decode_settled. rewrite (segments_length Hl). cbn [sum_list settled_lens Nat.eqb negb reject_if mbind res_bind Nat.add].
  rewrite (segment_byte Hl 5 (ss_final_status e) 160), (segment_byte Hl 6 (u8_of_bool (ss_is_otm e)) 161) by done.
  cbn [mbind res_bind]. rewrite (proj2 (Z.eqb_eq _ _) Hs). cbn [negb reject_if mbind res_bind].
  assert ((1 <? u8_of_bool (ss_is_otm e)) = false) as -> by (by destruct (ss_is_otm e)).
  cbn [reject_if mbind res_bind].
  rewrite (pubkey_seg Hl 0 (ss_settler e) 0), (pubkey_seg Hl 1 (ss_writer e) 32), (pubkey_seg Hl 2 (ss_holder e) 64),
    (pubkey_seg Hl 3 (ss_position_pda e) 96), (pubkey_seg Hl 4 (ss_market_pda e) 128),
    (word_seg Hl 7 (ss_holder_payoff e) 162), (word_seg Hl 8 (ss_writer_return e) 170) by done.
  cbn [mbind res_bind]. destruct e as [? ? ? ? ? ? b]. by destruct b.
Qed.

Lemma decode_envelope kind body :
  decode_position_event (envelope kind body) =
  if kind =? POSITION_OPENED then Some ∘ Opened <$> decode_opened (concat body)
  else if kind =? SETTLE_SPREAD then Some ∘ SpreadSettled <$> decode_settled (concat body) else Ok None.
Proof.
  unfold decode_position_event. assert (Hl : length (envelope kind body) = (6 + length (concat body))%nat) by done.
  rewrite Hl. destruct (Nat.ltb_spec (6 + length (concat body)) 6); [lia|]. cbn [reject_if mbind res_bind].
  assert (slice_p (E := ChainError.t) (envelope kind body) 0 5 = Ok HEADER) as -> by reflexivity.
  cbn [mbind res_bind]. rewrite bool_decide_true by done. cbn [negb reject_if mbind res_bind].
  assert (slice_p (E := ChainError.t) (envelope kind body) 6 (6 + length (concat body)) = Ok (concat body)) as ->.
  { apply slice_p_Ok, get_range_Some. rewrite Hl. split; [lia|]. rewrite Nat.add_comm, Nat.add_sub.
    change (drop 6 (envelope kind body)) with (drop 0 (concat body)). by rewrite drop_0, firstn_all. }
  done.
Qed.

(** Decoding a position event never panics, whatever the log says; it accepts nothing
    but the program's version 2 envelope; an open or a settlement laid out in one decodes
    to itself, and other kinds are skipped. *)
Theorem position_events_roundtrip :
  (forall data, decode_position_event data <> Panic) /\
  (forall data e, decode_position_event data = Ok e -> exists kind rest, data = HEADER ++ kind :: rest) /\
  (forall e stale, opened_wf e -> length stale = 8%nat ->
     decode_position_event (envelope POSITION_OPENED (opened_segments e stale)) = Ok (Some (Opened e))) /\
  (forall e, settled_wf e ->
     decode_position_event (envelope SETTLE_SPREAD (settled_segments e)) = Ok (Some (SpreadSettled e))) /\
  (forall kind body, kind <> POSITION_OPENED -> kind <> SETTLE_SPREAD ->
     decode_position_event (envelope kind body) = Ok None).
Proof.
  repeat split.
  - intros data. unfold decode_position_event. destruct (Nat.ltb_spec (length data) 6); [done|].
    change (returns (head ← slice_p data 0 5; _ ← reject_if (negb (bool_decide (head = HEADER))) ChainError.InvalidAccountData;
      bytes ← slice_p data 6 (length data); kind ← index_p data 5;
      if kind =? POSITION_OPENED then Some ∘ Opened <$> decode_opened bytes
      else if kind =? SETTLE_SPREAD then Some ∘ SpreadSettled <$> decode_settled bytes else Ok None)).
    reads; unfold decode_opened, decode_settled; (apply returns_bind; [apply returns_reject_if|]); intros ? Hl;
      apply reject_if_Ok, negb_false_iff, Nat.eqb_eq in Hl; reads.
  - intros data e H. unfold decode_position_event in H. apply bind_Ok in H as (? & Hn & H).
    apply bind_Ok in H as (head & Hh & H). apply bind_Ok in H as (? & Hhead & _).
    apply reject_if_Ok, Nat.ltb_ge in Hn. apply reject_if_Ok, negb_false_iff, bool_decide_eq_true in Hhead.
    apply slice_p_Ok, get_range_Some in Hh as [_ Hh]. rewrite Nat.sub_0_r, drop_0, Hhead in Hh.
    destruct data as [|a [|b [|c [|d [|f [|g l]]]]]]; simpl in Hn; try lia. injection Hh as <- <- <- <- <-.
    by exists g, l.
  - intros e stale He Hs. rewrite decode_envelope. cbn [POSITION_OPENED Z.eqb Pos.eqb]. by rewrite opened_seg.
  - intros e He. rewrite decode_envelope. cbn [SETTLE_SPREAD POSITION_OPENED Z.eqb Pos.eqb]. by rewrite settled_seg.
  - intros kind body H1 H2. rewrite decode_envelope.
    rewrite (proj2 (Z.eqb_neq _ _) H1), (proj2 (Z.eqb_neq _ _) H2). done.
Qed.

Module PositionSample.
Definition position : PositionInfo :=
  {| pi_terms := OptionTerms.CashPut 90; pi_side := TakerSide.Buy; pi_flags := 5; pi_flags2 := 0; pi_flags3 := 7;
     pi_status := OnChainStatus.Funded; pi_writer := key_of 1; pi_holder := key_of 2; pi_market_pda := key_of 3;
     pi_quantity := 1000; pi_order_id := key_of 4 |}.
Definition opened : PositionOpenedEvent :=
  {| po_position_pda := key_of 1; po_market_pda := key_of 2; po_order_id := key_of 3; po_writer := key_of 4;
     po_holder := key_of 5; po_flags := 4; po_side := TakerSide.Buy; po_terms := OptionTerms.CallSpread 100 120;
     po_quantity := 1000; po_price := 5; po_gross_premium := 50; po_net_premium := 45; po_collateral := 20;
     po_valid_until := 1760000000; po_created_at := 1750000000 |}.
End PositionSample.

Lemma program_accounts_roundtrip_witness :
  position_from_account
    (holding 5 (key_of 9) (position_segments PositionSample.position 255 (replicate 8 1) (replicate 8 2) (replicate 8 3)
       (replicate 248 4))) (key_of 9) = Ok PositionSample.position.
Proof.
  apply (program_accounts_roundtrip 5 (key_of 9)); [|reflexivity].
  unfold position_wf, held, fits. simpl. repeat split; repeat constructor; lia.
Defined.

Lemma position_events_roundtrip_witness :
  decode_position_event (envelope POSITION_OPENED (opened_segments PositionSample.opened (replicate 8 3)))
  = Ok (Some (Opened PositionSample.opened)).
Proof.
  apply (proj1 (proj2 (proj2 position_events_roundtrip))); [|reflexivity].
  unfold opened_wf, held, fits. simpl. repeat split; repeat constructor; lia.
Defined.
