(* ===== verification/Price.v ===== *)
(** * Price routes ([src/chain/vault/price_route.rs])

    How the program prices a mint: a product of bricks, decoded from the route's account.
    The code's [Reader] is a slice that shrinks; here it is a state monad over the bytes
    that are left. *)

From Stdlib Require Import ZArith Lia String.
From stdpp Require Import base list strings.
From S2P Require Import Prelude Quote Chain Account.

Open Scope Z_scope.

(* chain/vault/price_route.rs:6-14 price route constants *)
Definition PYTH_PUSH_ORACLE_ID : key :=
  [12; 74; 160; 18; 142; 149; 211; 225; 98; 42; 165; 1; 197; 133; 169; 235; 7; 179; 115; 84; 193; 8; 234;
   11; 121; 27; 69; 109; 199; 238; 163; 54].
Definition MAX_PRICE_BRICKS : nat := 6.
Definition MAX_PRICE_ROUTE_BYTES : nat := 640.
Definition MAX_RATIO_DISCRIMINATOR_LEN : nat := 8.
Definition PRICE_ROUTE_DISCRIMINATOR : Z := 15.
Definition PRICE_ROUTE_VERSION : Z := 1.
Definition BRICKS_OFFSET : nat := 48.

(* chain/vault/price_route.rs:16-19 pyth_price_feed_account *)
Definition pyth_price_feed_account `{P : Pda} (feed_id : key) (shard : Z) : key :=
  find_program_address [to_le_bytes 2 shard; feed_id] PYTH_PUSH_ORACLE_ID.

(* chain/vault/price_route.rs:35-41 PythBrick *)
Record PythBrick := { py_feed_id : key; py_max_age_secs : Z; py_min_band_ppm : Z }.
(* chain/vault/price_route.rs:62-67 RatioField *)
Record RatioField := { rf_at : Z; rf_width : Z }.
Module FreshnessUnit.
(* chain/vault/price_route.rs:76-81 FreshnessUnit *)
Inductive t := Epoch | Slot | UnixSecond.
End FreshnessUnit.
(* chain/vault/price_route.rs:69-74 RatioFreshness *)
Record RatioFreshness := { fr_unit : FreshnessUnit.t; fr_at : Z; fr_max_lag : Z }.
(* chain/vault/price_route.rs:43-60 AccountRatioBrick *)
Record AccountRatioBrick := {
  ar_account : key;
  ar_owner : key;
  ar_program_data : key;
  ar_deploy_slot : Z;
  ar_discriminator : bytes;
  ar_min_len : Z;
  ar_mint_at : option Z;
  ar_numerator : RatioField;
  ar_denominator : RatioField;
  ar_scale_exp : Z;
  ar_min_denominator : Z;
  ar_min : Z;
  ar_max : Z;
  ar_freshness : option RatioFreshness;
}.
(* chain/vault/price_route.rs:93-99 MaturitySource *)
Record MaturitySource := { ms_brick : Z; ms_start_at : Z; ms_duration_at : Z }.
(* chain/vault/price_route.rs:83-91 MaturityDiscountBrick *)
Record MaturityDiscountBrick := {
  md_maturity : Z;
  md_apy_low_ppm : Z;
  md_apy_mid_ppm : Z;
  md_apy_high_ppm : Z;
  md_maturity_source : option MaturitySource;
}.
(* chain/vault/price_route.rs:101-107 GrowthCapBrick *)
Record GrowthCapBrick := {
  gc_anchor_rate : Z; gc_anchor_ts : Z; gc_max_growth_ppm : Z; gc_max_anchor_age_secs : Z }.

(* chain/vault/price_route.rs:21-33 PriceBrick *)
Inductive PriceBrick :=
| Pyth (b : PythBrick)
| AccountRatio (b : AccountRatioBrick)
| MaturityDiscount (b : MaturityDiscountBrick)
| ClampMax (max : Z)
| GrowthCap (b : GrowthCapBrick).

(* chain/vault/price_route.rs:186-193 PriceRoute *)
Record PriceRoute := {
  pr_mint : key; pr_max_skew_secs : Z; pr_bricks : list PriceBrick; pr_updated_slot : Z }.

Definition route_error (reason : string) : VaultChainError.t := VaultChainError.PriceRoute reason.

(** A computation over the bytes that are left. *)
Definition R (A : Type) : Type := bytes -> cres (A * bytes).
Definition rret {A} (a : A) : R A := fun bs => Ok (a, bs).
Definition rfail {A} (reason : string) : R A := fun _ => Err (route_error reason).
Definition rbind {A B} (m : R A) (k : A -> R B) : R B := fun bs => '(a, bs) ← m bs; k a bs.
Declare Scope brick_scope.
Delimit Scope brick_scope with brick.
Notation "x <~ m ; k" := (rbind m (fun x => k))
  (at level 20, m at level 100, k at level 200, only parsing) : brick_scope.
Local Open Scope brick_scope.

Module BrickReader.
(* chain/vault/price_route.rs:294-301 Reader::take *)
Definition take (len : nat) : R bytes := fun bs =>
  if (len <=? length bs)%nat then Ok (firstn len bs, skipn len bs)
  else Err (route_error "brick is truncated").
(** [array] fills a buffer of the length it took. *)
(* chain/vault/price_route.rs:303-307 Reader::array *)
Definition array (n : nat) : R bytes := take n.
(* chain/vault/price_route.rs:309-311 Reader::pubkey *)
Definition pubkey : R key := array 32.
(** [u8], [u16], [u32], [u64], [u128]: [n] bytes, least significant first. *)
(* chain/vault/price_route.rs:313-331 Reader::u8 .. Reader::u128 *)
Definition int (n : nat) : R Z := bs <~ array n; rret (from_le_bytes bs).
(* chain/vault/price_route.rs:333-338 Reader::field *)
Definition field : R RatioField :=
  at_ <~ int 2; width <~ int 1; rret {| rf_at := at_; rf_width := width |}.
(* chain/vault/price_route.rs:340-349 Reader::option *)
Definition opt {A} (read : R A) : R (option A) :=
  tag <~ int 1;
  if tag =? 0 then rret None
  else if tag =? 1 then a <~ read; rret (Some a)
  else rfail "option tag must be 0 or 1".
End BrickReader.
Import BrickReader.

(** [i8::from_le_bytes]. *)
Definition i8_of_u8 (b : Z) : Z := if b <? 128 then b else b - 256.

Module PriceBrickOps.
(* chain/vault/price_route.rs:112-116 PriceBrick::decode (Pyth) *)
Definition read_pyth : R PriceBrick :=
  feed <~ array 32; age <~ int 4; band <~ int 4;
  rret (Pyth {| py_feed_id := feed; py_max_age_secs := age; py_min_band_ppm := band |}).

(* chain/vault/price_route.rs:122-131 PriceBrick::decode (discriminator) *)
Definition read_discriminator : R bytes :=
  len <~ int 1;
  if (MAX_RATIO_DISCRIMINATOR_LEN <? Z.to_nat len)%nat then rfail "ratio discriminator exceeds 8 bytes"
  else take (Z.to_nat len).

(* chain/vault/price_route.rs:139-150 PriceBrick::decode (freshness) *)
Definition read_freshness : R RatioFreshness :=
  tag <~ int 1;
  unit <~ (if tag =? 0 then rret FreshnessUnit.Epoch else if tag =? 1 then rret FreshnessUnit.Slot
           else if tag =? 2 then rret FreshnessUnit.UnixSecond else rfail "unknown freshness unit");
  at_ <~ int 2; max_lag <~ int 4;
  rret {| fr_unit := unit; fr_at := at_; fr_max_lag := max_lag |}.

(* chain/vault/price_route.rs:117-151 PriceBrick::decode (AccountRatio) *)
Definition read_ratio : R PriceBrick :=
  account <~ pubkey; owner <~ pubkey; program_data <~ pubkey; deploy_slot <~ int 8;
  discriminator <~ read_discriminator;
  min_len <~ int 2; mint_at <~ opt (int 2); numerator <~ field; denominator <~ field;
  scale_exp <~ int 1; min_denominator <~ int 8; min <~ int 16; max <~ int 16;
  freshness <~ opt read_freshness;
  rret (AccountRatio
    {| ar_account := account; ar_owner := owner; ar_program_data := program_data;
       ar_deploy_slot := deploy_slot; ar_discriminator := discriminator; ar_min_len := min_len;
       ar_mint_at := mint_at; ar_numerator := numerator; ar_denominator := denominator;
       ar_scale_exp := i8_of_u8 scale_exp; ar_min_denominator := min_denominator; ar_min := min;
       ar_max := max; ar_freshness := freshness |}).

(* chain/vault/price_route.rs:152-164 PriceBrick::decode (MaturityDiscount) *)
Definition read_discount : R PriceBrick :=
  maturity <~ int 8; low <~ int 4; mid <~ int 4; high <~ int 4;
  source <~ opt (brick <~ int 1; start_at <~ int 2; duration_at <~ int 2;
    rret {| ms_brick := brick; ms_start_at := start_at; ms_duration_at := duration_at |});
  rret (MaturityDiscount
    {| md_maturity := maturity; md_apy_low_ppm := low; md_apy_mid_ppm := mid; md_apy_high_ppm := high;
       md_maturity_source := source |}).

(* chain/vault/price_route.rs:166-171 PriceBrick::decode (GrowthCap) *)
Definition read_growth_cap : R PriceBrick :=
  rate <~ int 16; ts <~ int 8; growth <~ int 4; age <~ int 4;
  rret (GrowthCap {| gc_anchor_rate := rate; gc_anchor_ts := ts; gc_max_growth_ppm := growth;
                     gc_max_anchor_age_secs := age |}).

(* chain/vault/price_route.rs:110-174 PriceBrick::decode *)
Definition decode : R PriceBrick :=
  kind <~ int 1;
  if kind =? 0 then read_pyth
  else if kind =? 1 then read_ratio
  else if kind =? 2 then read_discount
  else if kind =? 3 then max <~ int 16; rret (ClampMax max)
  else if kind =? 4 then read_growth_cap
  else rfail "unknown brick kind".

(* chain/vault/price_route.rs:176-183 PriceBrick::account_count *)
Definition account_count (b : PriceBrick) : nat :=
  match b with
  | Pyth _ => 1 | AccountRatio _ => 2
  | MaturityDiscount _ | ClampMax _ | GrowthCap _ => 0
  end.
End PriceBrickOps.

Module PriceRouteOps.
(* chain/vault/price_route.rs:196-196 PriceRoute::LEN *)
Definition LEN : nat := 696.

(** The loop, with the bricks that may still be read. *)
(* chain/vault/price_route.rs:232-238 PriceRoute::parse (bricks) *)
Fixpoint read_bricks (room : nat) (bs : bytes) : cres (list PriceBrick) :=
  match bs with
  | [] => Ok []
  | _ =>
      match room with
      | O => Err (route_error "more than 6 bricks")
      | S room =>
          '(brick, bs) ← PriceBrickOps.decode bs;
          bricks ← read_bricks room bs;
          Ok (brick :: bricks)
      end
  end.

(* chain/vault/price_route.rs:212-257 PriceRoute::parse *)
Definition parse (data : bytes) : cres PriceRoute :=
  _ ← reject_if (negb (length data =? LEN)%nat) (VaultChainError.AccountLength LEN (length data));
  data ← header data LEN PRICE_ROUTE_DISCRIMINATOR PRICE_ROUTE_VERSION;
  len ← from_le_bytes <$> slice_p data 4 6;
  let len := Z.to_nat len in
  _ ← reject_if (MAX_PRICE_ROUTE_BYTES <? len)%nat (route_error "bricks exceed 640 bytes");
  blob ← slice_p data BRICKS_OFFSET (BRICKS_OFFSET + len);
  bricks ← read_bricks MAX_PRICE_BRICKS blob;
  _ ← reject_if (match bricks with [] => true | _ => false end) (route_error "route has no bricks");
  let accounts := sum_list (map PriceBrickOps.account_count bricks) in
  count ← index_p data 3;
  _ ← reject_if (negb (accounts =? Z.to_nat count)%nat)
        (route_error "account count does not match the bricks");
  mint ← bytes32 data 8;
  max_skew_secs ← from_le_bytes <$> slice_p data 40 44;
  updated_slot ← from_le_bytes <$> slice_p data 688 696;
  Ok {| pr_mint := mint; pr_max_skew_secs := max_skew_secs; pr_bricks := bricks;
        pr_updated_slot := updated_slot |}.

(* chain/vault/price_route.rs:198-210 PriceRoute::from_account *)
Definition from_account (account : Account) (program_id : key) : cres PriceRoute :=
  _ ← reject_if (negb (bool_decide (owner account = program_id)))
        (VaultChainError.Owner program_id (owner account));
  parse (account_data account).

Section accounts.
Context `{P : Pda}.
(** The accounts one brick adds. *)
Definition brick_accounts (shard : Z) (b : PriceBrick) : list AccountMeta :=
  match b with
  | Pyth pyth => [new_readonly (pyth_price_feed_account (py_feed_id pyth) shard) false]
  | AccountRatio ratio =>
      map (fun k => new_readonly k false) [ar_account ratio; ar_program_data ratio]
  | MaturityDiscount _ | ClampMax _ | GrowthCap _ => []
  end.

(* chain/vault/price_route.rs:259-279 PriceRoute::accounts *)
Definition accounts (self : PriceRoute) (address : key) (shard : Z) : list AccountMeta :=
  new_readonly address false :: concat (map (brick_accounts shard) (pr_bricks self)).
End accounts.

(* chain/vault/price_route.rs:281-286 PriceRoute::account_ratios *)
Definition account_ratios (self : PriceRoute) : list AccountRatioBrick :=
  omap (fun b => match b with AccountRatio ratio => Some ratio | _ => None end) (pr_bricks self).
End PriceRouteOps.

(** ** An encoder *)

Definition encode_opt {A} (f : A -> bytes) (o : option A) : bytes :=
  match o with None => [0] | Some a => 1 :: f a end.
Definition encode_field (f : RatioField) : bytes := to_le_bytes 2 (rf_at f) ++ to_le_bytes 1 (rf_width f).
Definition unit_byte (u : FreshnessUnit.t) : Z :=
  match u with FreshnessUnit.Epoch => 0 | FreshnessUnit.Slot => 1 | FreshnessUnit.UnixSecond => 2 end.
Definition encode_freshness (f : RatioFreshness) : bytes :=
  to_le_bytes 1 (unit_byte (fr_unit f)) ++ to_le_bytes 2 (fr_at f) ++ to_le_bytes 4 (fr_max_lag f).
Definition encode_source (s : MaturitySource) : bytes :=
  to_le_bytes 1 (ms_brick s) ++ to_le_bytes 2 (ms_start_at s) ++ to_le_bytes 2 (ms_duration_at s).

Definition encode_ratio (b : AccountRatioBrick) : bytes :=
  ar_account b ++ ar_owner b ++ ar_program_data b ++ to_le_bytes 8 (ar_deploy_slot b) ++
  (to_le_bytes 1 (Z.of_nat (length (ar_discriminator b))) ++ ar_discriminator b) ++
  to_le_bytes 2 (ar_min_len b) ++ encode_opt (to_le_bytes 2) (ar_mint_at b) ++
  encode_field (ar_numerator b) ++ encode_field (ar_denominator b) ++
  to_le_bytes 1 (ar_scale_exp b mod 256) ++ to_le_bytes 8 (ar_min_denominator b) ++
  to_le_bytes 16 (ar_min b) ++ to_le_bytes 16 (ar_max b) ++ encode_opt encode_freshness (ar_freshness b).

Definition encode_brick (b : PriceBrick) : bytes :=
  match b with
  | Pyth b => to_le_bytes 1 0 ++ py_feed_id b ++ to_le_bytes 4 (py_max_age_secs b) ++ to_le_bytes 4 (py_min_band_ppm b)
  | AccountRatio b => to_le_bytes 1 1 ++ encode_ratio b
  | MaturityDiscount b =>
      to_le_bytes 1 2 ++ to_le_bytes 8 (md_maturity b) ++ to_le_bytes 4 (md_apy_low_ppm b) ++
      to_le_bytes 4 (md_apy_mid_ppm b) ++ to_le_bytes 4 (md_apy_high_ppm b) ++
      encode_opt encode_source (md_maturity_source b)
  | ClampMax max => to_le_bytes 1 3 ++ to_le_bytes 16 max
  | GrowthCap b =>
      to_le_bytes 1 4 ++ to_le_bytes 16 (gc_anchor_rate b) ++ to_le_bytes 8 (gc_anchor_ts b) ++
      to_le_bytes 4 (gc_max_growth_ppm b) ++ to_le_bytes 4 (gc_max_anchor_age_secs b)
  end.

(** Fields within the widths of their types. *)
Definition field_wf (f : RatioField) : Prop := fits 16 (rf_at f) /\ fits 8 (rf_width f).
Definition opt_wf {A} (P : A -> Prop) (o : option A) : Prop := match o with None => True | Some a => P a end.
Definition brick_wf (b : PriceBrick) : Prop :=
  match b with
  | Pyth b => length (py_feed_id b) = 32%nat /\ fits 32 (py_max_age_secs b) /\ fits 32 (py_min_band_ppm b)
  | AccountRatio b =>
      (length (ar_account b) = 32%nat /\ length (ar_owner b) = 32%nat /\ length (ar_program_data b) = 32%nat) /\
      fits 64 (ar_deploy_slot b) /\ (length (ar_discriminator b) <= MAX_RATIO_DISCRIMINATOR_LEN)%nat /\
      fits 16 (ar_min_len b) /\ opt_wf (fits 16) (ar_mint_at b) /\ field_wf (ar_numerator b) /\
      field_wf (ar_denominator b) /\ -128 <= ar_scale_exp b < 128 /\ fits 64 (ar_min_denominator b) /\
      fits 128 (ar_min b) /\ fits 128 (ar_max b) /\
      opt_wf (fun f => fits 16 (fr_at f) /\ fits 32 (fr_max_lag f)) (ar_freshness b)
  | MaturityDiscount b =>
      fits 64 (md_maturity b) /\ fits 32 (md_apy_low_ppm b) /\ fits 32 (md_apy_mid_ppm b) /\
      fits 32 (md_apy_high_ppm b) /\
      opt_wf (fun s => fits 8 (ms_brick s) /\ fits 16 (ms_start_at s) /\ fits 16 (ms_duration_at s))
        (md_maturity_source b)
  | ClampMax max => fits 128 max
  | GrowthCap b =>
      fits 128 (gc_anchor_rate b) /\ fits 64 (gc_anchor_ts b) /\ fits 32 (gc_max_growth_ppm b) /\
      fits 32 (gc_max_anchor_age_secs b)
  end.

(** [m] reads [c] as [a], whatever follows. *)
Definition inverts {A} (m : R A) (a : A) (c : bytes) : Prop := forall rest, m (c ++ rest) = Ok (a, rest).

Lemma inverts_bind {A B} (m : R A) (k : A -> R B) a b c1 c2 :
  inverts m a c1 -> inverts (k a) b c2 -> inverts (rbind m k) b (c1 ++ c2).
Proof. intros Hm Hk rest. unfold rbind. rewrite <- app_assoc, Hm. cbn. apply Hk. Qed.

Lemma inverts_last {A B} (m : R A) (f : A -> B) a c :
  inverts m a c -> inverts (x <~ m; rret (f x)) (f a) c.
Proof. intros Hm rest. unfold rbind. by rewrite Hm. Qed.

Lemma inverts_array n c : length c = n -> inverts (array n) c c.
Proof.
  intros <- rest. unfold array, take. rewrite length_app.
  rewrite (proj2 (Nat.leb_le _ _)) by lia. by rewrite take_app_length, drop_app_length.
Qed.

Lemma inverts_int n z : fits (8 * Z.of_nat n) z -> inverts (int n) z (to_le_bytes n z).
Proof.
  intros Hz rest. unfold int, rbind. rewrite (inverts_array n) by apply length_to_le_bytes.
  cbn. by rewrite from_to_le_bytes.
Qed.

Lemma inverts_opt {A} (m : R A) (f : A -> bytes) o :
  (forall a, o = Some a -> inverts m a (f a)) -> inverts (opt m) o (encode_opt f o).
Proof.
  intros Hm. destruct o as [a|]; [|by intros rest].
  change (encode_opt f (Some a)) with (to_le_bytes 1 1 ++ f a).
  eapply inverts_bind; [by apply inverts_int|]. simpl. by apply inverts_last, Hm.
Qed.

Lemma inverts_field f : field_wf f -> inverts field f (encode_field f).
Proof.
  intros [Ha Hw]. unfold field, encode_field. eapply inverts_bind; [by apply inverts_int|].
  destruct f. by apply (inverts_last _ (fun w => {| rf_at := _; rf_width := w |})), inverts_int.
Qed.

Import PriceBrickOps.

(** Read one field and go on, or read the last one. *)
Ltac next_int := eapply inverts_bind; [apply inverts_int; assumption|]; cbv beta.
Ltac next_key := eapply inverts_bind; [apply inverts_array; assumption|]; cbv beta.

Lemma inverts_freshness f :
  fits 16 (fr_at f) /\ fits 32 (fr_max_lag f) -> inverts read_freshness f (encode_freshness f).
Proof.
  intros [Ha Hl]. unfold read_freshness, encode_freshness.
  eapply inverts_bind; [apply inverts_int; by destruct (fr_unit f)|]. cbv beta.
  rewrite <- (app_nil_l (to_le_bytes 2 (fr_at f) ++ _)).
  eapply (inverts_bind _ _ (fr_unit f)); [by destruct (fr_unit f)|]. cbv beta. next_int. destruct f.
  by apply (inverts_last _ (fun l => {| fr_unit := _; fr_at := _; fr_max_lag := l |})), inverts_int.
Qed.

Lemma inverts_source s :
  fits 8 (ms_brick s) /\ fits 16 (ms_start_at s) /\ fits 16 (ms_duration_at s) ->
  inverts (brick <~ int 1; start_at <~ int 2; duration_at <~ int 2;
    rret {| ms_brick := brick; ms_start_at := start_at; ms_duration_at := duration_at |}) s (encode_source s).
Proof.
  intros (Hb & Hs & Hd). unfold encode_source. next_int. next_int. destruct s.
  by apply (inverts_last _ (fun d => {| ms_brick := _; ms_start_at := _; ms_duration_at := d |})), inverts_int.
Qed.

Lemma inverts_discriminator d :
  (length d <= MAX_RATIO_DISCRIMINATOR_LEN)%nat ->
  inverts read_discriminator d (to_le_bytes 1 (Z.of_nat (length d)) ++ d).
Proof.
  intros Hd. unfold MAX_RATIO_DISCRIMINATOR_LEN in Hd. unfold read_discriminator.
  eapply inverts_bind; [apply inverts_int; unfold fits; lia|]. cbv beta. rewrite Nat2Z.id.
  rewrite (proj2 (Nat.ltb_ge _ _)) by done. by apply inverts_array.
Qed.

Lemma i8_roundtrip z : -128 <= z < 128 -> fits 8 (z mod 256) /\ i8_of_u8 (z mod 256) = z.
Proof.
  intros Hz. unfold fits, i8_of_u8. change (2 ^ 8) with 256. split; [apply Z.mod_pos_bound; lia|].
  destruct (Z.ltb_spec (z mod 256) 128); Z.to_euclidean_division_equations; lia.
Qed.

Lemma inverts_ratio b :
  brick_wf (AccountRatio b) -> inverts read_ratio (AccountRatio b) (encode_ratio b).
Proof.
  intros ((H1 & H2 & H3) & H4 & H5 & H6 & H7 & H8 & H9 & H10 & H11 & H12 & H13 & H14).
  destruct (i8_roundtrip _ H10) as [He1 He2].
  unfold read_ratio, encode_ratio, pubkey. do 3 next_key. next_int.
  eapply inverts_bind; [by apply inverts_discriminator|]. cbv beta. next_int.
  eapply inverts_bind; [apply inverts_opt; intros a Ha; rewrite Ha in H7; by apply inverts_int|]. cbv beta.
  do 2 (eapply inverts_bind; [by apply inverts_field|]; cbv beta). do 4 next_int.
  rewrite He2. destruct b.
  apply (inverts_last _ (fun f => AccountRatio {| ar_freshness := f |})).
  apply inverts_opt. intros f Hf. apply inverts_freshness. cbn [ar_freshness] in *. by subst.
Qed.

Lemma inverts_brick b : brick_wf b -> inverts PriceBrickOps.decode b (encode_brick b).
Proof.
  intros Hb. unfold PriceBrickOps.decode. destruct b as [b|b|b|m|b].
  - destruct Hb as (Hf & Ha & Hp). unfold encode_brick. eapply inverts_bind; [by apply inverts_int|].
    cbn [Z.eqb Pos.eqb]. unfold read_pyth. next_key. next_int. destruct b.
    by apply (inverts_last _ (fun p => Pyth {| py_feed_id := _; py_max_age_secs := _; py_min_band_ppm := p |})), inverts_int.
  - unfold encode_brick. eapply inverts_bind; [by apply inverts_int|]. by apply inverts_ratio.
  - destruct Hb as (H1 & H2 & H3 & H4 & H5). unfold encode_brick. eapply inverts_bind; [by apply inverts_int|].
    cbn [Z.eqb Pos.eqb]. unfold read_discount. do 4 next_int. destruct b.
    apply (inverts_last _ (fun s => MaturityDiscount {| md_maturity_source := s |})).
    apply inverts_opt. intros s Hs. apply inverts_source. cbn [md_maturity_source] in *. by subst.
  - unfold encode_brick. eapply inverts_bind; [by apply inverts_int|]. cbn [Z.eqb Pos.eqb]. by apply inverts_last, inverts_int.
  - destruct Hb as (H1 & H2 & H3 & H4). unfold encode_brick. eapply inverts_bind; [by apply inverts_int|].
    cbn [Z.eqb Pos.eqb]. unfold read_growth_cap. do 3 next_int. destruct b.
    by apply (inverts_last _ (fun a => GrowthCap {| gc_max_anchor_age_secs := a |})), inverts_int.
Qed.

Import PriceRouteOps.

Lemma read_bricks_encode bricks room :
  Forall brick_wf bricks -> (length bricks <= room)%nat ->
  read_bricks room (concat (map encode_brick bricks)) = Ok bricks.
Proof.
  intros Hb. revert room. induction Hb as [|b bricks Hw _ IH]; intros room Hl; [by destruct room|].
  destruct room as [|room]; [simpl in Hl; lia|]. cbn [map concat].
  assert (He : exists x l, encode_brick b ++ concat (map encode_brick bricks) = x :: l)
    by (destruct b; by eexists _, _).
  destruct He as (x & l & He). cbn [read_bricks]. rewrite He. rewrite <- He, (inverts_brick b Hw).
  cbn [mbind res_bind]. rewrite IH by (simpl in Hl; lia). done.
Qed.

(** The route's account: header, blob of bricks, slot. *)
Definition route_segments (r : PriceRoute) (p2 p6 p44 fill : bytes) : list bytes :=
  let blob := concat (map encode_brick (pr_bricks r)) in
  [[PRICE_ROUTE_DISCRIMINATOR]; [PRICE_ROUTE_VERSION]; p2;
   [Z.of_nat (sum_list (map account_count (pr_bricks r)))]; to_le_bytes 2 (Z.of_nat (length blob)); p6;
   pr_mint r; to_le_bytes 4 (pr_max_skew_secs r); p44; blob; fill; to_le_bytes 8 (pr_updated_slot r)].

Definition blob_len (r : PriceRoute) : nat := length (concat (map encode_brick (pr_bricks r))).

Record route_wf (r : PriceRoute) (p2 p6 p44 fill : bytes) : Prop := {
  rw_bricks : Forall brick_wf (pr_bricks r);
  rw_count : (1 <= length (pr_bricks r) <= MAX_PRICE_BRICKS)%nat;
  rw_blob : (blob_len r <= MAX_PRICE_ROUTE_BYTES)%nat;
  rw_mint : length (pr_mint r) = 32%nat;
  rw_skew : fits 32 (pr_max_skew_secs r);
  rw_slot : fits 64 (pr_updated_slot r);
  rw_pads : length p2 = 1%nat /\ length p6 = 2%nat /\ length p44 = 4%nat /\
            length fill = (MAX_PRICE_ROUTE_BYTES - blob_len r)%nat;
}.

Definition route_lens (r : PriceRoute) : list nat :=
  [1; 1; 1; 1; 2; 2; 32; 4; 4; blob_len r; 640 - blob_len r; 8]%nat.

Lemma parse_route r p2 p6 p44 fill :
  route_wf r p2 p6 p44 fill -> parse (concat (route_segments r p2 p6 p44 fill)) = Ok r.
Proof.
  intros [Hb Hc Hl Hm Hs Hu (H2 & H6 & H44 & Hf)]. set (segs := route_segments r p2 p6 p44 fill).
  unfold MAX_PRICE_ROUTE_BYTES, MAX_PRICE_BRICKS in *.
  assert (Hlens : map length segs = route_lens r).
  { unfold segs, route_segments, route_lens. cbn [map length]. rewrite ?length_to_le_bytes. fold (blob_len r). congruence. }
  destruct (header_seg Hlens LEN PRICE_ROUTE_DISCRIMINATOR PRICE_ROUTE_VERSION) as [Hlen Hh];
    [unfold LEN; cbn; lia|done..|].
  assert (Hcount : Z.to_nat (Z.of_nat (sum_list (map account_count (pr_bricks r)))) =
    sum_list (map account_count (pr_bricks r))) by lia.
  unfold parse. rewrite Hlen, Nat.eqb_refl. cbn [negb reject_if mbind res_bind]. rewrite Hh. cbn [mbind res_bind].
  assert (from_le_bytes <$> slice_p (E := VaultChainError.t) (concat segs) 4 6 = Ok (Z.of_nat (blob_len r))) as ->
    by (apply (int_at Hlens 4 2); (done || (unfold fits; lia))).
  cbn [mbind res_bind]. rewrite Nat2Z.id. unfold MAX_PRICE_ROUTE_BYTES.
  rewrite (proj2 (Nat.ltb_ge _ _)) by done. cbn [reject_if mbind res_bind].
  rewrite (slice_at Hlens 9 (concat (map encode_brick (pr_bricks r))) BRICKS_OFFSET (blob_len r)) by done.
  cbn [mbind res_bind]. rewrite read_bricks_encode by (done || unfold MAX_PRICE_BRICKS; lia). cbn [mbind res_bind].
  assert ((match pr_bricks r with [] => true | _ => false end) = false) as ->
    by (destruct (pr_bricks r); [simpl in Hc; lia|done]). cbn [reject_if mbind res_bind].
  rewrite (segment_byte Hlens 3 (Z.of_nat (sum_list (map account_count (pr_bricks r)))) 3) by done.
  cbn [mbind res_bind]. rewrite Hcount, Nat.eqb_refl. cbn [negb reject_if mbind res_bind].
  rewrite (key_seg Hlens 6 (pr_mint r) 8) by done.
  assert (from_le_bytes <$> slice_p (E := VaultChainError.t) (concat segs) 40 44 = Ok (pr_max_skew_secs r)) as ->
    by (by apply (int_at Hlens 7 4)).
  assert (from_le_bytes <$> slice_p (E := VaultChainError.t) (concat segs) 688 696 = Ok (pr_updated_slot r)) as ->
    by (apply (int_at Hlens 11 8); (done || (cbn; lia))).
  by destruct r.
Qed.

(** ** Every input is decoded or refused *)

Definition total {A} (m : R A) : Prop := forall bs, returns (m bs).

Lemma total_bind {A B} (m : R A) (k : A -> R B) : total m -> (forall a, total (k a)) -> total (rbind m k).
Proof. intros Hm Hk bs. unfold rbind. apply returns_bind; [apply Hm|]. intros [a r] _. apply Hk. Qed.
Lemma total_ret {A} (a : A) : total (rret a).
Proof. by intros bs. Qed.
Lemma total_fail {A} reason : total (@rfail A reason).
Proof. by intros bs. Qed.
Lemma total_take n : total (take n).
Proof. intros bs. unfold take. by destruct (n <=? length bs)%nat. Qed.
Lemma total_int n : total (int n).
Proof. apply total_bind; [apply total_take|]. intros. apply total_ret. Qed.
Lemma total_opt {A} (m : R A) : total m -> total (opt m).
Proof.
  intros Hm. apply total_bind; [apply total_int|]. intros tag.
  destruct (tag =? 0); [apply total_ret|]. destruct (tag =? 1); [|apply total_fail].
  apply total_bind; [done|]. intros. apply total_ret.
Qed.

Ltac total_step :=
  match goal with
  | |- total (rbind _ _) => apply total_bind; [|intros ?]
  | |- total (rret _) => apply total_ret
  | |- total (rfail _) => apply total_fail
  | |- total (take _) => apply total_take
  | |- total (array _) => apply total_take
  | |- total pubkey => apply total_take
  | |- total (int _) => apply total_int
  | |- total (opt _) => apply total_opt
  | |- total (if ?b then _ else _) => destruct b
  end.

Lemma total_decode : total PriceBrickOps.decode.
Proof.
  unfold PriceBrickOps.decode, read_pyth, read_ratio, read_discount, read_growth_cap, read_discriminator,
    read_freshness, field.
  repeat total_step.
Qed.

Lemma read_bricks_returns room bs : returns (read_bricks room bs).
Proof.
  revert bs. induction room as [|room IH]; intros [|b bs]; cbn [read_bricks]; try done.
  apply returns_bind; [apply total_decode|]. intros [brick r] _.
  apply returns_bind; [apply IH|]. intros. apply returns_Ok.
Qed.

Lemma parse_route_returns data : returns (parse data).
Proof.
  unfold parse. returns_step; [apply returns_reject_if|].
  returns_step; [apply returns_header; unfold LEN; lia|].
  match goal with H : header _ _ _ _ = Ok _ |- _ => apply header_length in H as [Hl _] end.
  unfold LEN in Hl. returns_step; [apply returns_fmap, returns_slice; lia|]. cbv zeta.
  returns_step; [apply returns_reject_if|].
  match goal with H : reject_if _ _ = Ok _ |- _ => apply reject_if_Ok, Nat.ltb_ge in H as Hb end.
  unfold MAX_PRICE_ROUTE_BYTES in Hb. unfold BRICKS_OFFSET.
  returns_step; [apply returns_slice; lia|]. returns_step; [apply read_bricks_returns|].
  repeat (returns_step || (apply returns_index; lia) || (apply returns_key; lia)
          || (apply returns_fmap, returns_slice; lia)).
Qed.

Lemma read_bricks_room room bs bricks : read_bricks room bs = Ok bricks -> (length bricks <= room)%nat.
Proof.
  revert bs bricks. induction room as [|room IH]; intros [|b bs] bricks; cbn [read_bricks].
  - intros [= <-]. simpl. lia.
  - done.
  - intros [= <-]. simpl. lia.
  - intros H. apply bind_Ok in H as ([brick r] & _ & H). inv_ok H. injection H as <-. apply IH in Hv. simpl. lia.
Qed.

Lemma length_accounts `{P : Pda} r address shard :
  length (accounts r address shard) = S (sum_list (map account_count (pr_bricks r))).
Proof.
  unfold accounts. cbn [length]. f_equal. induction (pr_bricks r) as [|b bricks IH]; [done|].
  cbn [map concat]. rewrite length_app, IH. cbn. by destruct b.
Qed.

(** Decoding a price route never panics; it reads back exactly the route an account
    lays out; and a decoded route has between one and six bricks and lists, for any
    shard, as many accounts as its account says, after its own address, none of them
    writable or a signer. *)
Theorem price_route_roundtrip `{P : Pda} :
  (forall data, parse data <> Panic) /\
  (forall r p2 p6 p44 fill, route_wf r p2 p6 p44 fill ->
     parse (concat (route_segments r p2 p6 p44 fill)) = Ok r) /\
  (forall data r, parse data = Ok r ->
     (1 <= length (pr_bricks r) <= MAX_PRICE_BRICKS)%nat /\
     forall address shard,
       (exists count, data !! 3%nat = Some count /\
          length (accounts r address shard) = S (Z.to_nat count)) /\
       Forall (fun m => is_signer m = false /\ is_writable m = false) (accounts r address shard)).
Proof.
  split; [apply parse_route_returns|]. split; [apply parse_route|]. intros data r H.
  unfold parse in H. inv_ok H. cbv zeta in H. inv_ok H. injection H as <-. cbn [pr_bricks] in *.
  apply read_bricks_room in Hv4. split; [destruct v4; simpl in *; [done|lia]|].
  intros address shard. split.
  - rewrite length_accounts. cbn [pr_bricks]. apply negb_false_iff, Nat.eqb_eq in Hv7. rewrite Hv7.
    apply lookup_index_p in Hv6. apply header_length in Hv0 as [_ ->].
    exists v6. split; [|done]. rewrite <- Hv6. symmetry. apply lookup_take_lt. unfold LEN. lia.
  - unfold accounts. cbn [pr_bricks]. constructor; [done|].
    apply Forall_concat, Forall_fmap, Forall_true. intros b. destruct b; cbn; repeat constructor.
Qed.

Module PriceSample.
Definition ratio : AccountRatioBrick :=
  {| ar_account := key_of 48; ar_owner := key_of 49; ar_program_data := key_of 50; ar_deploy_slot := 7;
     ar_discriminator := [1; 2; 3]; ar_min_len := 300; ar_mint_at := Some 8;
     ar_numerator := {| rf_at := 258; rf_width := 8 |}; ar_denominator := {| rf_at := 266; rf_width := 16 |};
     ar_scale_exp := -3; ar_min_denominator := 1; ar_min := 2; ar_max := 3;
     ar_freshness := Some {| fr_unit := FreshnessUnit.Epoch; fr_at := 274; fr_max_lag := 1 |} |}.
Definition pyth : PythBrick := {| py_feed_id := key_of 16; py_max_age_secs := 60; py_min_band_ppm := 500 |}.
Definition route : PriceRoute :=
  {| pr_mint := key_of 9; pr_max_skew_secs := 30; pr_bricks := [AccountRatio ratio; ClampMax 5; Pyth pyth];
     pr_updated_slot := 72623859790382856 |}.
End PriceSample.

Lemma price_route_roundtrip_witness :
  parse (concat (route_segments PriceSample.route [255] [0; 0] [0; 0; 0; 0]
           (replicate (640 - blob_len PriceSample.route) 0))) = Ok PriceSample.route.
Proof.
  apply (proj1 (proj2 (price_route_roundtrip (P := QuoteExample.pda)))).
  constructor; cbn [PriceSample.route pr_bricks pr_mint pr_max_skew_secs pr_updated_slot length];
    unfold MAX_PRICE_BRICKS; try lia.
  - repeat constructor; unfold fits; simpl; lia.
  - vm_compute. lia.
  - reflexivity.
  - unfold fits; lia.
  - unfold fits; lia.
  - rewrite length_replicate. repeat split.
Defined.
