(* ===== verification/Vault.v ===== *)
(** * The vault manager ([src/chain/vault/manager.rs])

    [VaultManager] holds a vault's identity and the addresses derived from it, and builds
    the instructions that act on the vault.  The compute-unit estimates of a capital batch
    depend on the bumps of the derivation and are not modelled. *)

From Stdlib Require Import ZArith Lia String.
From stdpp Require Import base list sets strings.
From S2P Require Import Prelude Signing Quote Challenge Chain Account Price.

Open Scope Z_scope.

(* chain/vault/manager.rs:17-17 VAULT_CAPITAL_BATCH_USERS *)
Definition VAULT_CAPITAL_BATCH_USERS : nat := 3.

Module VaultIx.
(* chain/vault/manager.rs:24-58 VaultIx *)
Inductive t :=
| Bootstrap | TopUpManagerStake | UnlockManagerStake | AcceptGovernance | RevokeGovernanceNomination
| ApplyFeeRecipientUpdate | StartShutdown | FinalizeShutdown | CloseVault | ProcessVaultEquity
| OpenPositionForVaultWriter | OpenPositionForVaultHolder | FundPositionForVaultHolder
| VaultSpotRebalance | RecoveryConvertToMain | ProcessWithdrawals | ProcessDeposits
| FinalizeVaultCycle | SetAcceptingDeposits | RotateVaultDelegate | ProposeVaultUpdate
| ApplyVaultUpdate | CancelVaultUpdate | ProcessFinalWithdrawal | OpenPositionBetweenVaults
| OpenSpreadForVaultWriter | OpenSpreadForVaultHolder | OpenSpreadBetweenVaults
| DisableVaultDelegate | ClosingConvertToMain | VaultStagingSwap.

(** [ix as u8]. *)
(* chain/vault/manager.rs:26-58 VaultIx *)
Definition code (ix : t) : Z :=
  match ix with
  | Bootstrap => 64 | TopUpManagerStake => 65 | UnlockManagerStake => 48 | AcceptGovernance => 58
  | RevokeGovernanceNomination => 63 | ApplyFeeRecipientUpdate => 66 | StartShutdown => 67
  | FinalizeShutdown => 69 | CloseVault => 59 | ProcessVaultEquity => 37
  | OpenPositionForVaultWriter => 41 | OpenPositionForVaultHolder => 42
  | FundPositionForVaultHolder => 43 | VaultSpotRebalance => 45 | RecoveryConvertToMain => 46
  | ProcessWithdrawals => 38 | ProcessDeposits => 39 | FinalizeVaultCycle => 40
  | SetAcceptingDeposits => 44 | RotateVaultDelegate => 47 | ProposeVaultUpdate => 55
  | ApplyVaultUpdate => 56 | CancelVaultUpdate => 57 | ProcessFinalWithdrawal => 60
  | OpenPositionBetweenVaults => 61 | OpenSpreadForVaultWriter => 78 | OpenSpreadForVaultHolder => 79
  | OpenSpreadBetweenVaults => 80 | DisableVaultDelegate => 62 | ClosingConvertToMain => 68
  | VaultStagingSwap => 76
  end.
End VaultIx.

(* chain/vault/manager.rs:60-65 DepositPayout *)
Record DepositPayout := { dp_user : key; dp_refund : option key; dp_shares : option key }.
(* chain/vault/manager.rs:102-106 WithdrawalPayout *)
Record WithdrawalPayout := { wp_user : key; wp_shares_back : option key }.

Module DepositPayouts.
(* chain/vault/manager.rs:69-75 DepositPayout::new *)
Definition new (user : key) : DepositPayout := {| dp_user := user; dp_refund := None; dp_shares := None |}.
(* chain/vault/manager.rs:78-81 DepositPayout::refund_to *)
Definition refund_to (self : DepositPayout) (account : key) : DepositPayout :=
  {| dp_user := dp_user self; dp_refund := Some account; dp_shares := dp_shares self |}.
(* chain/vault/manager.rs:84-87 DepositPayout::shares_to *)
Definition shares_to (self : DepositPayout) (account : key) : DepositPayout :=
  {| dp_user := dp_user self; dp_refund := dp_refund self; dp_shares := Some account |}.
(* chain/vault/manager.rs:90-94 From<Pubkey> for DepositPayout *)
Definition from (user : key) : DepositPayout := new user.
End DepositPayouts.

Module WithdrawalPayouts.
(* chain/vault/manager.rs:110-115 WithdrawalPayout::new *)
Definition new (user : key) : WithdrawalPayout := {| wp_user := user; wp_shares_back := None |}.
(* chain/vault/manager.rs:118-121 WithdrawalPayout::shares_back_to *)
Definition shares_back_to (self : WithdrawalPayout) (account : key) : WithdrawalPayout :=
  {| wp_user := wp_user self; wp_shares_back := Some account |}.
(* chain/vault/manager.rs:124-128 From<Pubkey> for WithdrawalPayout *)
Definition from (user : key) : WithdrawalPayout := new user.
End WithdrawalPayouts.

(* chain/vault/manager.rs:181-195 VaultManagerArgs *)
Record VaultManagerArgs := {
  a_program_id : key;
  a_vault_id : key;
  a_actor : key;
  a_delegate_authority : key;
  a_main_mint : key;
  a_second_mint : key;
  a_share_mint : key;
  a_main_token_program : key;
  a_second_token_program : key;
  a_second_leg_generation : Z;
}.

(* chain/vault/manager.rs:197-210 VaultAddresses *)
Record VaultAddresses := {
  ad_vault : key;
  ad_policy : key;
  ad_delegate : key;
  ad_global_config : key;
  ad_swap_venues : key;
  ad_main_price_route : key;
  ad_second_price_route : key;
  ad_manager_stake_authority : key;
  ad_vault_main_ata : key;
  ad_vault_second_ata : key;
  ad_manager_stake_ata : key;
}.

(* chain/vault/manager.rs:212-216 VaultManager *)
Record VaultManager := { vm_args : VaultManagerArgs; vm_addresses : VaultAddresses }.

Definition invalid_input {A} (reason : string) : cres A := Err (VaultChainError.InvalidInput reason).

(* chain/vault/manager.rs:732-748 validate_batch *)
Definition validate_batch (users : list key) (len : nat) : cres unit :=
  _ ← reject_if (len =? 0)%nat (VaultChainError.InvalidInput "vault batch cannot be empty");
  _ ← reject_if (VAULT_CAPITAL_BATCH_USERS <? len)%nat VaultChainError.BatchTooLarge;
  reject_if (negb (length (remove_dups users) =? len)%nat)
    (VaultChainError.InvalidInput "vault batch contains duplicate users").

Module Manager.
Section manager.
Context `{C : Crypto} `{P : Pda}.
Abbreviation ata := derive_associated_token_address (only parsing).

(* chain/vault/manager.rs:333-352 VaultManager::new (addresses) *)
Definition derive_addresses (args : VaultManagerArgs) : VaultAddresses :=
  let program_id := a_program_id args in
  let vault := pda.vault program_id (a_vault_id args) in
  let manager_stake_authority := pda.manager_stake program_id vault in
  {| ad_vault := vault;
     ad_policy := pda.vault_policy program_id vault;
     ad_delegate := pda.vault_delegate program_id vault (a_delegate_authority args);
     ad_global_config := pda.global_config program_id;
     ad_swap_venues := pda.swap_venues program_id;
     ad_main_price_route := pda.price_route program_id (a_main_mint args);
     ad_second_price_route := pda.price_route program_id (a_second_mint args);
     ad_manager_stake_authority := manager_stake_authority;
     ad_vault_main_ata := ata vault (a_main_mint args) (a_main_token_program args);
     ad_vault_second_ata := ata vault (a_second_mint args) (a_second_token_program args);
     ad_manager_stake_ata := ata manager_stake_authority (a_share_mint args) TOKEN_PROGRAM_ID |}.

(* chain/vault/manager.rs:326-332 VaultManager::new (token programs) *)
Definition spl_program (program : key) : cres unit :=
  reject_if (negb (bool_decide (program = TOKEN_PROGRAM_ID))
             && negb (bool_decide (program = TOKEN_2022_PROGRAM_ID)))
    (VaultChainError.InvalidInput "pair token program must be legacy SPL or Token-2022").

(** [Pubkey::default()] is 32 zero bytes. *)
(* chain/vault/manager.rs:309-354 VaultManager::new *)
Definition new (args : VaultManagerArgs) : cres VaultManager :=
  _ ← reject_if (bool_decide (a_vault_id args = key_of 0) || bool_decide (a_actor args = key_of 0)
                 || bool_decide (a_delegate_authority args = key_of 0))
        (VaultChainError.InvalidInput "vault id, actor and delegate authority must be non-zero");
  _ ← reject_if (bool_decide (a_main_mint args = a_second_mint args)
                 || bool_decide (a_share_mint args = a_main_mint args)
                 || bool_decide (a_share_mint args = a_second_mint args))
        (VaultChainError.InvalidInput "vault main, second and share mints must be distinct");
  _ ← try_map spl_program [a_main_token_program args; a_second_token_program args];
  Ok {| vm_args := args; vm_addresses := derive_addresses args |}.

(* chain/vault/manager.rs:225-242 VaultManager::from_vault *)
Definition from_vault (program_id actor : key) (vault : VaultAccount) : cres VaultManager :=
  new {| a_program_id := program_id; a_vault_id := va_vault_id vault; a_actor := actor;
         a_delegate_authority := va_primary_delegate vault; a_main_mint := va_main_mint vault;
         a_second_mint := va_second_mint vault; a_share_mint := va_share_mint vault;
         a_main_token_program := va_main_token_program vault;
         a_second_token_program := va_second_token_program vault;
         a_second_leg_generation := va_second_leg_generation vault |}.

(* chain/vault/manager.rs:244-259 VaultManager::ensure_current *)
Definition ensure_current (self : VaultManager) (vault : VaultAccount) : cres unit :=
  let args := vm_args self in
  _ ← reject_if (negb (bool_decide (va_vault_id vault = a_vault_id args)))
        (VaultChainError.InvalidInput "vault account belongs to another vault");
  reject_if (negb (va_second_leg_generation vault =? a_second_leg_generation args)
             || negb (bool_decide (va_second_mint vault = a_second_mint args))
             || negb (bool_decide (va_second_token_program vault = a_second_token_program args)))
    VaultChainError.SecondLegRolled.

(** The result, and the manager afterwards. *)
(* chain/vault/manager.rs:293-307 VaultManager::refresh *)
Definition refresh (self : VaultManager) (vault : VaultAccount) : cres bool * VaultManager :=
  match ensure_current self vault with
  | Err VaultChainError.SecondLegRolled =>
      let args := vm_args self in
      match new {| a_program_id := a_program_id args; a_vault_id := a_vault_id args;
                   a_actor := a_actor args; a_delegate_authority := a_delegate_authority args;
                   a_main_mint := a_main_mint args; a_second_mint := va_second_mint vault;
                   a_share_mint := a_share_mint args;
                   a_main_token_program := a_main_token_program args;
                   a_second_token_program := va_second_token_program vault;
                   a_second_leg_generation := va_second_leg_generation vault |} with
      | Ok self' => (Ok true, self')
      | Err e => (Err e, self)
      | Panic => (Panic, self)
      end
  | other => ((fun _ => false) <$> other, self)
  end.

(* chain/vault/manager.rs:715-729 VaultManager::instruction *)
Definition instruction (self : VaultManager) (ix : VaultIx.t) (metas : list AccountMeta) (args : bytes)
  : Instruction :=
  {| program_id := a_program_id (vm_args self); accounts := metas; data := VaultIx.code ix :: args |}.

(* chain/vault/manager.rs:711-713 VaultManager::share_ata *)
Definition share_ata (self : VaultManager) (user : key) : key :=
  ata user (a_share_mint (vm_args self)) TOKEN_PROGRAM_ID.

(* chain/vault/manager.rs:356-369 VaultManager::set_accepting_deposits *)
Definition set_accepting_deposits (self : VaultManager) (accepting : bool) : Instruction :=
  let a := vm_addresses self in
  instruction self VaultIx.SetAcceptingDeposits
    [new_readonly (a_actor (vm_args self)) true; meta_new (ad_vault a) false;
     new_readonly (ad_delegate a) false; new_readonly (a_share_mint (vm_args self)) false;
     new_readonly (ad_manager_stake_ata a) false]
    [u8_of_bool accepting].

(* chain/vault/manager.rs:371-386 VaultManager::price_section *)
Definition price_section (self : VaultManager) (main second : PriceRoute) (shard : Z)
  : cres (list AccountMeta) :=
  _ ← reject_if (negb (bool_decide (pr_mint main = a_main_mint (vm_args self)))
                 || negb (bool_decide (pr_mint second = a_second_mint (vm_args self))))
        (VaultChainError.InvalidInput "price routes must price the vault's main and second mints");
  Ok (PriceRouteOps.accounts main (ad_main_price_route (vm_addresses self)) shard ++
      PriceRouteOps.accounts second (ad_second_price_route (vm_addresses self)) shard).

(* chain/vault/manager.rs:388-408 VaultManager::process_equity *)
Definition process_equity (self : VaultManager) (section : list AccountMeta) : Instruction :=
  let a := vm_addresses self in
  let args := vm_args self in
  instruction self VaultIx.ProcessVaultEquity
    ([new_readonly (a_actor args) true; meta_new (ad_vault a) false; new_readonly (ad_policy a) false;
      new_readonly (ad_delegate a) false; meta_new (a_share_mint args) false;
      meta_new (ad_vault_main_ata a) false; meta_new (ad_vault_second_ata a) false;
      meta_new (ad_manager_stake_ata a) false; new_readonly (a_main_mint args) false;
      new_readonly (a_second_mint args) false; new_readonly (a_main_token_program args) false;
      new_readonly (a_second_token_program args) false; new_readonly TOKEN_PROGRAM_ID false] ++ section)
    [].

(* chain/vault/manager.rs:410-420 VaultManager::process_idle_withdrawal *)
Definition process_idle_withdrawal (self : VaultManager) (user : key) (section : list AccountMeta)
  : Instruction :=
  let request := pda.withdraw_request (a_program_id (vm_args self)) (ad_vault (vm_addresses self)) user in
  let ix := process_equity self section in
  {| program_id := program_id ix; accounts := accounts ix ++ [new_readonly request false]; data := data ix |}.

(* chain/vault/manager.rs:445-471 VaultManager::process_deposits (payout) *)
Definition deposit_accounts (self : VaultManager) (payout : DepositPayout) : list AccountMeta :=
  let args := vm_args self in
  let program := a_program_id args in
  let vault := ad_vault (vm_addresses self) in
  let user := dp_user payout in
  let escrow := pda.deposit_escrow_authority program vault user in
  let share_ata := share_ata self user in
  let refund := match dp_refund payout with
                | Some refund => refund
                | None => ata user (a_main_mint args) (a_main_token_program args)
                end in
  let share := match dp_shares payout with Some shares => shares | None => share_ata end in
  [meta_new user false; meta_new (pda.deposit_request program vault user) false; new_readonly escrow false;
   meta_new (ata escrow (a_main_mint args) (a_main_token_program args)) false; meta_new refund false;
   meta_new share false; new_readonly share_ata false].

(* chain/vault/manager.rs:422-474 VaultManager::process_deposits *)
Definition process_deposits (self : VaultManager) (payouts : list DepositPayout) : cres Instruction :=
  let a := vm_addresses self in
  let args := vm_args self in
  _ ← validate_batch (map dp_user payouts) (length payouts);
  Ok (instruction self VaultIx.ProcessDeposits
    ([meta_new (a_actor args) true; meta_new (ad_vault a) false; new_readonly (ad_delegate a) false;
      meta_new (a_share_mint args) false; meta_new (ad_vault_main_ata a) false;
      new_readonly (a_main_mint args) false; new_readonly (a_main_token_program args) false;
      new_readonly TOKEN_PROGRAM_ID false; new_readonly SYSTEM_PROGRAM_ID false;
      new_readonly ASSOCIATED_TOKEN_PROGRAM_ID false; new_readonly (ad_manager_stake_ata a) false] ++
     concat (map (deposit_accounts self) payouts)) []).

(* chain/vault/manager.rs:497-519 VaultManager::process_withdrawals (payout) *)
Definition withdrawal_accounts (self : VaultManager) (payout : WithdrawalPayout) : list AccountMeta :=
  let args := vm_args self in
  let program := a_program_id args in
  let vault := ad_vault (vm_addresses self) in
  let user := wp_user payout in
  let escrow := pda.withdraw_escrow_authority program vault user in
  let share_ata := share_ata self user in
  let share := match wp_shares_back payout with Some account => account | None => share_ata end in
  [meta_new user false; meta_new (pda.withdraw_request program vault user) false; new_readonly escrow false;
   meta_new (ata escrow (a_share_mint args) TOKEN_PROGRAM_ID) false;
   meta_new (ata user (a_main_mint args) (a_main_token_program args)) false;
   meta_new share false; new_readonly share_ata false].

(* chain/vault/manager.rs:476-521 VaultManager::process_withdrawals *)
Definition process_withdrawals (self : VaultManager) (payouts : list WithdrawalPayout) : cres Instruction :=
  let a := vm_addresses self in
  let args := vm_args self in
  _ ← validate_batch (map wp_user payouts) (length payouts);
  Ok (instruction self VaultIx.ProcessWithdrawals
    ([meta_new (a_actor args) true; meta_new (ad_vault a) false; new_readonly (ad_delegate a) false;
      meta_new (a_share_mint args) false; meta_new (ad_vault_main_ata a) false;
      new_readonly (a_main_mint args) false; new_readonly (a_main_token_program args) false;
      new_readonly TOKEN_PROGRAM_ID false; new_readonly SYSTEM_PROGRAM_ID false;
      new_readonly ASSOCIATED_TOKEN_PROGRAM_ID false] ++
     concat (map (withdrawal_accounts self) payouts)) []).

(* chain/vault/manager.rs:523-573 VaultManager::process_final_withdrawal *)
Definition process_final_withdrawal (self : VaultManager) (payout : WithdrawalPayout) : Instruction :=
  let args := vm_args self in
  let a := vm_addresses self in
  let program := a_program_id args in
  let user := wp_user payout in
  let escrow := pda.withdraw_escrow_authority program (ad_vault a) user in
  let share_ata := share_ata self user in
  let share := match wp_shares_back payout with Some account => account | None => share_ata end in
  instruction self VaultIx.ProcessFinalWithdrawal
    [meta_new (a_actor args) true; meta_new (ad_vault a) false; new_readonly (ad_delegate a) false;
     meta_new user false; meta_new (pda.withdraw_request program (ad_vault a) user) false;
     new_readonly escrow false; meta_new (ata escrow (a_share_mint args) TOKEN_PROGRAM_ID) false;
     meta_new (a_share_mint args) false; meta_new (ad_vault_main_ata a) false;
     meta_new (ad_vault_second_ata a) false;
     meta_new (ata user (a_main_mint args) (a_main_token_program args)) false;
     meta_new (ata user (a_second_mint args) (a_second_token_program args)) false;
     new_readonly (a_main_mint args) false; new_readonly (a_second_mint args) false;
     new_readonly (a_main_token_program args) false; new_readonly (a_second_token_program args) false;
     new_readonly TOKEN_PROGRAM_ID false; meta_new share false; new_readonly SYSTEM_PROGRAM_ID false;
     new_readonly ASSOCIATED_TOKEN_PROGRAM_ID false; new_readonly share_ata false]
    [].

(* chain/vault/manager.rs:575-590 VaultManager::finalize_cycle *)
Definition finalize_cycle (self : VaultManager) : Instruction :=
  let args := vm_args self in
  let a := vm_addresses self in
  instruction self VaultIx.FinalizeVaultCycle
    [new_readonly (a_actor args) true; meta_new (ad_vault a) false; new_readonly (ad_policy a) false;
     new_readonly (ad_delegate a) false; meta_new (ad_vault_main_ata a) false;
     new_readonly (a_main_mint args) false; new_readonly (a_main_token_program args) false]
    [].

(** The seed is the text of the hex digits, hashed as its bytes. *)
(* chain/vault/manager.rs:688-709 VaultManager::share_return_account *)
Definition share_return_account (self : VaultManager) (kind : VaultRequestKind.t) (user : key) : key :=
  let program := a_program_id (vm_args self) in
  let vault := ad_vault (vm_addresses self) in
  let request := match kind with
                 | VaultRequestKind.Deposit => pda.deposit_request program vault user
                 | VaultRequestKind.Withdraw => pda.withdraw_request program vault user
                 end in
  let digest := sha256 (as_bytes "acta-share-return-v1" ++ request) in
  let seed := hex_encode (take 16 digest) in
  sha256 (a_actor (vm_args self) ++ as_bytes seed ++ TOKEN_PROGRAM_ID).
End manager.
End Manager.

(** ** What a manager is *)

Definition spl (program : key) : Prop := program = TOKEN_PROGRAM_ID \/ program = TOKEN_2022_PROGRAM_ID.

(** A usable identity: nothing zero, three different mints, SPL token programs. *)
Record args_ok (args : VaultManagerArgs) : Prop := {
  ok_ids : a_vault_id args <> key_of 0 /\ a_actor args <> key_of 0 /\ a_delegate_authority args <> key_of 0;
  ok_mints : NoDup [a_main_mint args; a_second_mint args; a_share_mint args];
  ok_programs : spl (a_main_token_program args) /\ spl (a_second_token_program args);
}.

Section manager_facts.
Context `{P : Pda}.

Definition manager_wf (m : VaultManager) : Prop :=
  args_ok (vm_args m) /\ vm_addresses m = Manager.derive_addresses (vm_args m).

Lemma spl_program_Ok program u : Manager.spl_program program = Ok u <-> spl program.
Proof.
  unfold Manager.spl_program, spl. rewrite reject_if_Ok, andb_false_iff, !negb_false_iff, !bool_decide_eq_true.
  done.
Qed.

Lemma manager_new_Ok args m :
  Manager.new args = Ok m <-> args_ok args /\ m = {| vm_args := args; vm_addresses := Manager.derive_addresses args |}.
Proof.
  unfold Manager.new. split.
  - intros H. inv_ok H. injection H as <-. split; [|done]. apply try_map_Ok in Hv1.
    inversion Hv1 as [|? ? ? ? H1 Hr]; subst. inversion Hr as [|? ? ? ? H2 _]; subst.
    apply spl_program_Ok in H1, H2. apply orb_false_iff in Hv as [[Ha Hb]%orb_false_iff Hc].
    apply orb_false_iff in Hv0 as [[Hd He]%orb_false_iff Hf].
    apply bool_decide_eq_false in Ha, Hb, Hc, Hd, He, Hf. split; [done| |done].
    repeat constructor; set_solver.
  - intros [[(Ha & Hb & Hc) Hm [H1 H2]] ->]. rewrite !bool_decide_false; try done.
    + cbn [orb reject_if mbind res_bind try_map].
      rewrite (proj2 (spl_program_Ok _ tt) H1), (proj2 (spl_program_Ok _ tt) H2). done.
    + apply NoDup_cons in Hm as [_ Hm]. apply NoDup_cons in Hm as [Hm _]. set_solver.
    + apply NoDup_cons in Hm as [Hm _]. set_solver.
    + apply NoDup_cons in Hm as [Hm _]. set_solver.
Qed.

Lemma ensure_current_Ok m v u :
  Manager.ensure_current m v = Ok u <->
  va_vault_id v = a_vault_id (vm_args m) /\ va_second_leg_generation v = a_second_leg_generation (vm_args m) /\
  va_second_mint v = a_second_mint (vm_args m) /\ va_second_token_program v = a_second_token_program (vm_args m).
Proof.
  unfold Manager.ensure_current. cbv zeta. destruct u. split.
  - intros H. inv_ok H. apply negb_false_iff, bool_decide_eq_true in Hv.
    rewrite !orb_false_iff, !negb_false_iff, !bool_decide_eq_true, Z.eqb_eq in H. tauto.
  - intros (H1 & H2 & H3 & H4). by rewrite H2, Z.eqb_refl, !bool_decide_true.
Qed.

Lemma ensure_current_Err m v :
  match Manager.ensure_current m v with
  | Ok _ => True
  | Err VaultChainError.SecondLegRolled => va_vault_id v = a_vault_id (vm_args m)
  | Err (VaultChainError.InvalidInput _) => va_vault_id v <> a_vault_id (vm_args m)
  | _ => False
  end.
Proof.
  unfold Manager.ensure_current. cbv zeta. destruct (decide (va_vault_id v = a_vault_id (vm_args m))) as [H|H];
    [rewrite (bool_decide_true _ H)|by rewrite (bool_decide_false _ H)]. cbn [negb reject_if mbind res_bind].
  by match goal with |- context [reject_if ?b _] => destruct b end.
Qed.

(** [new] fails only on its input. *)
Lemma new_Err args : match Manager.new args with
  | Ok _ => True | Err (VaultChainError.InvalidInput _) => True | _ => False end.
Proof.
  unfold Manager.new. cbn [try_map]. unfold Manager.spl_program.
  repeat match goal with |- context [reject_if ?b _] => destruct b; cbn [reject_if mbind res_bind] end; exact I.
Qed.

(** C36: A manager is built exactly from an identity with non-zero ids, three different
    mints and SPL token programs, and its addresses are the ones derived from it.  A
    manager built from a vault account is current for it.  Refreshing never panics; when
    it succeeds the manager is current, still well formed and still the same vault, actor
    and first leg, and it reports a roll exactly when it was not current; when it fails
    the manager is unchanged. *)
Theorem manager_stays_current :
  (forall args m, Manager.new args = Ok m <->
     args_ok args /\ vm_args m = args /\ manager_wf m) /\
  (forall program actor v m, Manager.from_vault program actor v = Ok m ->
     manager_wf m /\ Manager.ensure_current m v = Ok tt) /\
  (forall m v, manager_wf m ->
     match Manager.refresh m v with
     | (Ok rolled, m') =>
         Manager.ensure_current m' v = Ok tt /\ manager_wf m' /\
         (rolled = false <-> Manager.ensure_current m v = Ok tt) /\ (rolled = false -> m' = m) /\
         ad_vault (vm_addresses m') = ad_vault (vm_addresses m) /\
         ad_vault_main_ata (vm_addresses m') = ad_vault_main_ata (vm_addresses m) /\
         a_actor (vm_args m') = a_actor (vm_args m)
     | (Err e, m') => m' = m /\ e <> VaultChainError.SecondLegRolled
     | (Panic, _) => False
     end).
Proof.
  split; [|split].
  - intros args m. rewrite manager_new_Ok. unfold manager_wf. split.
    + intros [Ha ->]. done.
    + intros (Ha & <- & _ & Hd). split; [done|]. destruct m. simpl in *. by subst.
  - intros program actor v m [Ha ->]%manager_new_Ok. split; [done|]. by apply ensure_current_Ok.
  - intros m v [Ha Hd]. unfold Manager.refresh.
    destruct (Manager.ensure_current m v) as [[]|e|] eqn:E.
    + cbn. done.
    + pose proof (ensure_current_Err m v) as He. rewrite E in He.
      destruct e; try done.
      match goal with |- context [Manager.new ?a] => pose proof (new_Err a) as Hnew end.
      destruct (Manager.new _) as [m'|e'|] eqn:En; cbn.
      * apply manager_new_Ok in En as [Ha' ->]. cbn. rewrite Hd. split_and!; try done.
        by apply ensure_current_Ok.
      * split; [done|]. by intros ->.
      * done.
    + pose proof (ensure_current_Err m v) as He. by rewrite E in He.
Qed.
End manager_facts.

Module VaultSample.
Definition args : VaultManagerArgs :=
  {| a_program_id := key_of 7; a_vault_id := key_of 1; a_actor := key_of 3; a_delegate_authority := key_of 3;
     a_main_mint := key_of 11; a_second_mint := key_of 15; a_share_mint := key_of 13;
     a_main_token_program := TOKEN_PROGRAM_ID; a_second_token_program := TOKEN_PROGRAM_ID;
     a_second_leg_generation := 0 |}.
Definition manager : VaultManager :=
  {| vm_args := args; vm_addresses := Manager.derive_addresses (P := QuoteExample.pda) args |}.
Lemma args_are_ok : args_ok args.
Proof.
  split; cbn; [by repeat split|repeat constructor; set_solver|unfold spl; auto].
Qed.
End VaultSample.

(** The sample account's second leg rolled after the sample manager was built. *)
Lemma manager_stays_current_witness :
  exists m', Manager.refresh (P := QuoteExample.pda) VaultSample.manager AccountSample.vault = (Ok true, m') /\
    Manager.ensure_current m' AccountSample.vault = Ok tt.
Proof.
  pose proof (proj2 (proj2 (manager_stays_current (P := QuoteExample.pda))) VaultSample.manager AccountSample.vault
    (conj VaultSample.args_are_ok eq_refl)) as H.
  destruct (Manager.refresh VaultSample.manager AccountSample.vault) as [r m'] eqn:E.
  exists m'. assert (Hr : r = Ok true) by (vm_compute in E; injection E as <- _; reflexivity).
  subst r. split; [reflexivity|]. apply H.
Defined.
