(* ===== verification/Opens.v ===== *)
(** * Opening positions for vaults ([src/chain/vault/trading.rs], positions)

    Physical options and cash spreads that a vault writes or holds: the terms, the order
    they stand for, the addresses they live at, and the instruction of each route. *)

From Stdlib Require Import ZArith Lia String.
From stdpp Require Import base list sets strings.
From S2P Require Import Prelude Spreads Terms Signing Orders Quote Challenge Chain Account Price Vault.

Open Scope Z_scope.

(* chain/vault/trading.rs:26-27 INSTRUCTIONS_SYSVAR_ID *)
Definition INSTRUCTIONS_SYSVAR_ID : key :=
  [6; 167; 213; 23; 24; 123; 209; 102; 53; 218; 212; 4; 85; 253; 194; 192; 193; 36; 198; 143; 33; 86; 117;
   165; 219; 186; 203; 95; 8; 0; 0; 0].

(* chain/vault/trading.rs:29-42 VaultTradeTerms *)
Record VaultTradeTerms := {
  tt_underlying_mint : key;
  tt_quote_mint : key;
  tt_expiry_ts : Z;
  tt_is_put : bool;
  tt_side : TakerSide.t;
  tt_strike : Z;
  tt_quantity : Z;
  tt_price : Z;
  tt_valid_until : Z;
  tt_nonce : Z;
}.

(* chain/vault/trading.rs:772-786 VaultSpreadTerms *)
Record VaultSpreadTerms := {
  st_underlying_mint : key;
  st_quote_mint : key;
  st_expiry_ts : Z;
  st_kind : SpreadType.t;
  st_side : TakerSide.t;
  st_lower_strike : Z;
  st_upper_strike : Z;
  st_quantity : Z;
  st_price : Z;
  st_valid_until : Z;
  st_nonce : Z;
}.

Module VaultSaleTerms.
(* chain/vault/trading.rs:788-793 VaultSaleTerms *)
Inductive t := Physical (terms : VaultTradeTerms) | Spread (terms : VaultSpreadTerms).
End VaultSaleTerms.

(* chain/vault/trading.rs:44-53 VaultPositionAddresses *)
Record VaultPositionAddresses := {
  pa_market : key;
  pa_position : key;
  pa_collateral_mint : key;
  pa_collateral_token_program : key;
  pa_collateral_ata : key;
  pa_config : key;
  pa_protocol_fee_ata : key;
}.

(* chain/vault/trading.rs:55-63 VaultPositionRef *)
Record VaultPositionRef := {
  pref_underlying_mint : key; pref_quote_mint : key; pref_expiry_ts : Z; pref_is_put : bool;
  pref_order_id : key }.

(* chain/vault/trading.rs:65-70 VaultOpenPosition *)
Record VaultOpenPosition := {
  vo_order_id : key; vo_addresses : VaultPositionAddresses; vo_instruction : Instruction }.

(* chain/vault/trading.rs:72-77 Asset *)
Record Asset := { as_mint : key; as_program : key; as_vault_ata : key }.
(* chain/vault/trading.rs:79-83 MarketLegs *)
Record MarketLegs := { underlying : Asset; quote : Asset }.

Module WriterHolder.
(* chain/vault/trading.rs:1137-1142 WriterHolder *)
Inductive t := Maker (k : key) | Wallet (k : key).
End WriterHolder.

(* chain/vault/trading.rs:1144-1153 require_side *)
Definition require_side (side route : TakerSide.t) : cres unit :=
  if bool_decide (side = route) then Ok tt
  else invalid_input (if TakerSide.is_taker_buy route then "taker_sell_unsupported"
                      else "taker_buy_unsupported").

Module MarketLegsOps.
(* chain/vault/trading.rs:86-116 MarketLegs::bind *)
Definition bind (manager : VaultManager) (underlying_mint quote_mint : key) : cres MarketLegs :=
  let args := vm_args manager in
  let a := vm_addresses manager in
  let main := {| as_mint := a_main_mint args; as_program := a_main_token_program args;
                 as_vault_ata := ad_vault_main_ata a |} in
  let second := {| as_mint := a_second_mint args; as_program := a_second_token_program args;
                   as_vault_ata := ad_vault_second_ata a |} in
  if bool_decide (as_mint main = underlying_mint) && bool_decide (as_mint second = quote_mint)
  then Ok {| underlying := main; quote := second |}
  else if bool_decide (as_mint main = quote_mint) && bool_decide (as_mint second = underlying_mint)
  then Ok {| underlying := second; quote := main |}
  else invalid_input "market mints must be the vault's main and second mints".

(* chain/vault/trading.rs:118-120 MarketLegs::collateral *)
Definition collateral (self : MarketLegs) (is_put : bool) : Asset :=
  if is_put then quote self else underlying self.
(* chain/vault/trading.rs:122-124 MarketLegs::settlement *)
Definition settlement (self : MarketLegs) (is_put : bool) : Asset :=
  if is_put then underlying self else quote self.
End MarketLegsOps.

Module TradeTerms.
Section trade.
Context `{C : Crypto} `{P : Pda}.

(* chain/vault/trading.rs:128-145 VaultTradeTerms::validate *)
Definition validate (self : VaultTradeTerms) : cres unit :=
  _ ← reject_if ((tt_expiry_ts self =? 0) || (tt_strike self =? 0) || (tt_quantity self =? 0)
                 || (tt_price self =? 0) || (tt_valid_until self =? 0))
        (VaultChainError.InvalidInput "vault trade terms require non-zero expiry and economic fields");
  reject_if (tt_expiry_ts self <? tt_valid_until self)
    (VaultChainError.InvalidInput "vault trade quote cannot outlive its market").

(* chain/vault/trading.rs:147-156 VaultTradeTerms::market *)
Definition market (self : VaultTradeTerms) (program_id : key) : key :=
  market_pda program_id (tt_underlying_mint self) (tt_quote_mint self) (tt_expiry_ts self) (tt_is_put self).

(** The order the terms stand for between [maker] and [taker]. *)
Definition order (self : VaultTradeTerms) (program_id maker taker : key) : OrderPreimageArgs :=
  {| o_chain_id := 0; o_program_id := program_id; o_side := tt_side self;
     o_position_type := if tt_is_put self then PositionType.CashSecuredPut else PositionType.CoveredCall;
     o_market := market self program_id; o_strike := tt_strike self; o_quantity := tt_quantity self;
     o_gross_price := tt_price self; o_valid_until := tt_valid_until self; o_maker := maker;
     o_taker := taker; o_nonce := tt_nonce self |}.

(* chain/vault/trading.rs:158-182 VaultTradeTerms::order_id *)
Definition order_id (self : VaultTradeTerms) (program_id maker taker : key) : cres key :=
  hash_order_preimage <$> build_physical_order_preimage (order self program_id maker taker) (tt_is_put self).

(* chain/vault/trading.rs:184-198 VaultTradeTerms::args *)
Definition args (self : VaultTradeTerms) (order_id : key) : bytes :=
  [u8_of_bool (tt_is_put self)] ++
  concat (map (to_le_bytes 8)
    [tt_strike self; tt_quantity self; tt_price self; tt_valid_until self; tt_nonce self]) ++ order_id.
End trade.
End TradeTerms.

Module SpreadTerms.
Section spread.
Context `{C : Crypto} `{P : Pda}.

(* chain/vault/trading.rs:796-813 VaultSpreadTerms::validate *)
Definition validate (self : VaultSpreadTerms) : cres unit :=
  _ ← map_err (fun _ => VaultChainError.InvalidInput "vault spread requires ordered strikes, positive call lower strike, and 0 < price < width")
        (validate_premium (st_kind self) (st_lower_strike self) (st_upper_strike self)
           (st_quantity self) (st_price self));
  reject_if ((st_expiry_ts self =? 0) || (st_valid_until self =? 0)
             || (st_expiry_ts self <? st_valid_until self))
    (VaultChainError.InvalidInput "vault spread quote must be valid before its market expiry").

(* chain/vault/trading.rs:815-824 VaultSpreadTerms::market *)
Definition market (self : VaultSpreadTerms) (program_id : key) : key :=
  market_pda program_id (st_underlying_mint self) (st_quote_mint self) (st_expiry_ts self)
    (bool_decide (st_kind self = SpreadType.PutSpread)).

Definition order (self : VaultSpreadTerms) (program_id maker taker : key) : SpreadOrderPreimageArgs :=
  {| s_chain_id := 0; s_program_id := program_id; s_side := st_side self; s_position_type := st_kind self;
     s_market := market self program_id; s_lower_strike := st_lower_strike self;
     s_upper_strike := st_upper_strike self; s_quantity := st_quantity self;
     s_gross_price := st_price self; s_valid_until := st_valid_until self; s_maker := maker;
     s_taker := taker; s_nonce := st_nonce self |}.

(* chain/vault/trading.rs:826-849 VaultSpreadTerms::order_id *)
Definition order_id (self : VaultSpreadTerms) (program_id maker taker : key) : cres key :=
  map_err (fun _ => VaultChainError.InvalidInput "invalid vault spread order")
    (compute_spread_order_id (order self program_id maker taker)).

(* chain/vault/trading.rs:851-866 VaultSpreadTerms::args *)
Definition args (self : VaultSpreadTerms) (order_id : key) : bytes :=
  [SpreadType.to_u8 (st_kind self)] ++
  concat (map (to_le_bytes 8)
    [st_lower_strike self; st_quantity self; st_price self; st_valid_until self; st_nonce self]) ++
  order_id ++ to_le_bytes 8 (st_upper_strike self).
End spread.
End SpreadTerms.

Module Opening.
Section opening.
Context `{C : Crypto} `{P : Pda}.
Abbreviation ata := derive_associated_token_address (only parsing).

(* chain/vault/trading.rs:292-311 VaultManager::position_addresses *)
Definition position_addresses (self : VaultManager) (legs : MarketLegs) (terms : VaultTradeTerms)
  (order_id : key) : VaultPositionAddresses :=
  let program := a_program_id (vm_args self) in
  let position := pda.position program order_id in
  let config := pda.premium_config program (as_mint (quote legs)) in
  let collateral := MarketLegsOps.collateral legs (tt_is_put terms) in
  {| pa_market := TradeTerms.market terms program; pa_position := position;
     pa_collateral_mint := as_mint collateral; pa_collateral_token_program := as_program collateral;
     pa_collateral_ata := ata position (as_mint collateral) (as_program collateral);
     pa_config := config;
     pa_protocol_fee_ata := ata config (as_mint (quote legs)) (as_program (quote legs)) |}.

(* chain/vault/trading.rs:870-889 VaultManager::spread_addresses *)
Definition spread_addresses (self : VaultManager) (legs : MarketLegs) (terms : VaultSpreadTerms)
  (order_id : key) : VaultPositionAddresses :=
  let program := a_program_id (vm_args self) in
  let position := pda.position program order_id in
  let config := pda.premium_config program (as_mint (quote legs)) in
  {| pa_market := SpreadTerms.market terms program; pa_position := position;
     pa_collateral_mint := as_mint (quote legs); pa_collateral_token_program := as_program (quote legs);
     pa_collateral_ata := ata position (as_mint (quote legs)) (as_program (quote legs));
     pa_config := config;
     pa_protocol_fee_ata := ata config (as_mint (quote legs)) (as_program (quote legs)) |}.

(* chain/vault/trading.rs:313-323 VaultManager::market_tail *)
Definition market_tail (self : VaultManager) (legs : MarketLegs) : list AccountMeta :=
  [new_readonly INSTRUCTIONS_SYSVAR_ID false; new_readonly (as_mint (underlying legs)) false;
   new_readonly (as_mint (quote legs)) false; new_readonly (as_program (underlying legs)) false;
   new_readonly (as_program (quote legs)) false; new_readonly SYSTEM_PROGRAM_ID false;
   new_readonly (ad_global_config (vm_addresses self)) false].

(* chain/vault/trading.rs:325-358 VaultManager::fund_holder_position *)
Definition fund_holder_position (self : VaultManager) (position : VaultPositionRef) : cres Instruction :=
  _ ← reject_if ((pref_expiry_ts position =? 0) || bool_decide (pref_order_id position = key_of 0))
        (VaultChainError.InvalidInput "vault position requires a non-zero expiry and order id");
  legs ← MarketLegsOps.bind self (pref_underlying_mint position) (pref_quote_mint position);
  let funding := MarketLegsOps.settlement legs (pref_is_put position) in
  let program := a_program_id (vm_args self) in
  let position_pda := pda.position program (pref_order_id position) in
  let market := market_pda program (pref_underlying_mint position) (pref_quote_mint position)
                  (pref_expiry_ts position) (pref_is_put position) in
  let a := vm_addresses self in
  Ok (Manager.instruction self VaultIx.FundPositionForVaultHolder
    [new_readonly (a_actor (vm_args self)) true; new_readonly (ad_vault a) false;
     new_readonly (ad_delegate a) false; meta_new position_pda false; new_readonly market false;
     meta_new (as_vault_ata funding) false;
     meta_new (ata position_pda (as_mint funding) (as_program funding)) false;
     new_readonly (as_mint funding) false; new_readonly (as_program funding) false] []).

(* chain/vault/trading.rs:1000-1047 VaultManager::open_as_writer *)
Definition open_as_writer (self : VaultManager) (ix : VaultIx.t) (keeper : key) (holder : WriterHolder.t)
  (legs : MarketLegs) (order_id : key) (addresses : VaultPositionAddresses) (args : bytes)
  : VaultOpenPosition :=
  let '(participant, counterparty, holder_kind) :=
    match holder with
    | WriterHolder.Maker maker => (a_actor (vm_args self), maker, 0)
    | WriterHolder.Wallet wallet => (wallet, wallet, 1)
    end in
  let a := vm_addresses self in
  let metas :=
    [meta_new keeper true; meta_new participant true; meta_new (ad_vault a) false;
     new_readonly (ad_policy a) false; new_readonly (ad_delegate a) false;
     meta_new (ad_vault_main_ata a) false; meta_new (ad_vault_second_ata a) false;
     new_readonly counterparty false;
     meta_new (ata counterparty (as_mint (quote legs)) (as_program (quote legs))) false;
     meta_new (pa_market addresses) false; meta_new (pa_position addresses) false;
     meta_new (pa_collateral_ata addresses) false; new_readonly (pa_config addresses) false;
     meta_new (pa_protocol_fee_ata addresses) false] ++ market_tail self legs ++
    [new_readonly (a_share_mint (vm_args self)) false; new_readonly (ad_manager_stake_ata a) false] in
  {| vo_order_id := order_id; vo_addresses := addresses;
     vo_instruction := Manager.instruction self ix metas (args ++ [holder_kind]) |}.

(* chain/vault/trading.rs:1049-1089 VaultManager::open_as_holder *)
Definition open_as_holder (self : VaultManager) (ix : VaultIx.t) (keeper taker : key) (legs : MarketLegs)
  (order_id : key) (addresses : VaultPositionAddresses) (args : bytes) : VaultOpenPosition :=
  let a := vm_addresses self in
  let metas :=
    [meta_new keeper true; meta_new taker true; meta_new (ad_vault a) false;
     new_readonly (ad_policy a) false; new_readonly (ad_delegate a) false;
     meta_new (as_vault_ata (quote legs)) false;
     meta_new (ata taker (as_mint (underlying legs)) (as_program (underlying legs))) false;
     meta_new (ata taker (as_mint (quote legs)) (as_program (quote legs))) false;
     meta_new (pa_market addresses) false; meta_new (pa_position addresses) false;
     meta_new (pa_collateral_ata addresses) false; new_readonly (pa_config addresses) false;
     meta_new (pa_protocol_fee_ata addresses) false] ++ market_tail self legs ++
    [new_readonly (a_share_mint (vm_args self)) false; new_readonly (ad_manager_stake_ata a) false] in
  {| vo_order_id := order_id; vo_addresses := addresses;
     vo_instruction := Manager.instruction self ix metas args |}.

(* chain/vault/trading.rs:1091-1134 VaultManager::open_between_vaults *)
Definition open_between_vaults (self : VaultManager) (ix : VaultIx.t) (keeper : key) (holder : VaultManager)
  (holder_legs legs : MarketLegs) (order_id : key) (addresses : VaultPositionAddresses) (args : bytes)
  : VaultOpenPosition :=
  let w := vm_addresses self in
  let h := vm_addresses holder in
  let metas :=
    [meta_new keeper true; meta_new (a_actor (vm_args self)) true; meta_new (ad_vault w) false;
     new_readonly (ad_policy w) false; new_readonly (ad_delegate w) false;
     meta_new (ad_vault_main_ata w) false; meta_new (ad_vault_second_ata w) false;
     meta_new (ad_vault h) false; new_readonly (ad_policy h) false; new_readonly (ad_delegate h) false;
     meta_new (as_vault_ata (quote holder_legs)) false; meta_new (pa_market addresses) false;
     meta_new (pa_position addresses) false; meta_new (pa_collateral_ata addresses) false;
     new_readonly (pa_config addresses) false; meta_new (pa_protocol_fee_ata addresses) false] ++
    market_tail self legs ++
    [new_readonly (a_share_mint (vm_args self)) false; new_readonly (ad_manager_stake_ata w) false;
     new_readonly (a_share_mint (vm_args holder)) false; new_readonly (ad_manager_stake_ata h) false] in
  {| vo_order_id := order_id; vo_addresses := addresses;
     vo_instruction := Manager.instruction self ix metas args |}.

(* chain/vault/trading.rs:360-382 VaultManager::open_position_as_writer *)
Definition open_position_as_writer (self : VaultManager) (keeper maker_owner : key)
  (terms : VaultTradeTerms) : cres VaultOpenPosition :=
  _ ← TradeTerms.validate terms;
  _ ← require_side (tt_side terms) TakerSide.Sell;
  legs ← MarketLegsOps.bind self (tt_underlying_mint terms) (tt_quote_mint terms);
  let program := a_program_id (vm_args self) in
  order_id ← TradeTerms.order_id terms program maker_owner (ad_vault (vm_addresses self));
  Ok (open_as_writer self VaultIx.OpenPositionForVaultWriter keeper
        (WriterHolder.Maker (maker_pda_with_program_id program maker_owner)) legs order_id
        (position_addresses self legs terms order_id) (TradeTerms.args terms order_id)).

(* chain/vault/trading.rs:384-406 VaultManager::open_position_for_wallet_holder *)
Definition open_position_for_wallet_holder (self : VaultManager) (keeper holder : key)
  (terms : VaultTradeTerms) : cres VaultOpenPosition :=
  _ ← TradeTerms.validate terms;
  _ ← require_side (tt_side terms) TakerSide.Buy;
  legs ← MarketLegsOps.bind self (tt_underlying_mint terms) (tt_quote_mint terms);
  let program := a_program_id (vm_args self) in
  order_id ← TradeTerms.order_id terms program (ad_vault (vm_addresses self)) holder;
  Ok (open_as_writer self VaultIx.OpenPositionForVaultWriter keeper (WriterHolder.Wallet holder) legs
        order_id (position_addresses self legs terms order_id) (TradeTerms.args terms order_id)).

(* chain/vault/trading.rs:408-429 VaultManager::open_position_as_holder *)
Definition open_position_as_holder (self : VaultManager) (keeper taker : key) (terms : VaultTradeTerms)
  : cres VaultOpenPosition :=
  _ ← TradeTerms.validate terms;
  _ ← require_side (tt_side terms) TakerSide.Sell;
  legs ← MarketLegsOps.bind self (tt_underlying_mint terms) (tt_quote_mint terms);
  order_id ← TradeTerms.order_id terms (a_program_id (vm_args self)) (ad_vault (vm_addresses self)) taker;
  Ok (open_as_holder self VaultIx.OpenPositionForVaultHolder keeper taker legs order_id
        (position_addresses self legs terms order_id) (TradeTerms.args terms order_id)).

(** Two vaults that trade with each other are different vaults of one program, on one pair. *)
(* chain/vault/trading.rs:442-450 VaultManager::open_position_with_vault_holder (pair) *)
Definition check_pair (self holder : VaultManager) (legs holder_legs : MarketLegs) : cres unit :=
  reject_if (bool_decide (ad_vault (vm_addresses self) = ad_vault (vm_addresses holder))
             || negb (bool_decide (a_program_id (vm_args self) = a_program_id (vm_args holder)))
             || negb (bool_decide (as_program (underlying holder_legs) = as_program (underlying legs)))
             || negb (bool_decide (as_program (quote holder_legs) = as_program (quote legs))))
    (VaultChainError.InvalidInput "vault-to-vault requires two distinct vaults on the same program and token pair").

(* chain/vault/trading.rs:431-467 VaultManager::open_position_with_vault_holder *)
Definition open_position_with_vault_holder (self : VaultManager) (keeper : key) (holder : VaultManager)
  (terms : VaultTradeTerms) : cres VaultOpenPosition :=
  _ ← TradeTerms.validate terms;
  _ ← require_side (tt_side terms) TakerSide.Sell;
  legs ← MarketLegsOps.bind self (tt_underlying_mint terms) (tt_quote_mint terms);
  holder_legs ← MarketLegsOps.bind holder (tt_underlying_mint terms) (tt_quote_mint terms);
  _ ← check_pair self holder legs holder_legs;
  order_id ← TradeTerms.order_id terms (a_program_id (vm_args self)) (ad_vault (vm_addresses holder))
               (ad_vault (vm_addresses self));
  Ok (open_between_vaults self VaultIx.OpenPositionBetweenVaults keeper holder holder_legs legs order_id
        (position_addresses self legs terms order_id) (TradeTerms.args terms order_id)).

(* chain/vault/trading.rs:891-914 VaultManager::open_spread_as_writer *)
Definition open_spread_as_writer (self : VaultManager) (keeper maker_owner : key)
  (terms : VaultSpreadTerms) : cres VaultOpenPosition :=
  _ ← SpreadTerms.validate terms;
  _ ← require_side (st_side terms) TakerSide.Sell;
  legs ← MarketLegsOps.bind self (st_underlying_mint terms) (st_quote_mint terms);
  let program := a_program_id (vm_args self) in
  order_id ← SpreadTerms.order_id terms program maker_owner (ad_vault (vm_addresses self));
  Ok (open_as_writer self VaultIx.OpenSpreadForVaultWriter keeper
        (WriterHolder.Maker (maker_pda_with_program_id program maker_owner)) legs order_id
        (spread_addresses self legs terms order_id) (SpreadTerms.args terms order_id)).

(* chain/vault/trading.rs:916-937 VaultManager::open_spread_for_wallet_holder *)
Definition open_spread_for_wallet_holder (self : VaultManager) (keeper holder : key)
  (terms : VaultSpreadTerms) : cres VaultOpenPosition :=
  _ ← SpreadTerms.validate terms;
  _ ← require_side (st_side terms) TakerSide.Buy;
  legs ← MarketLegsOps.bind self (st_underlying_mint terms) (st_quote_mint terms);
  order_id ← SpreadTerms.order_id terms (a_program_id (vm_args self)) (ad_vault (vm_addresses self)) holder;
  Ok (open_as_writer self VaultIx.OpenSpreadForVaultWriter keeper (WriterHolder.Wallet holder) legs
        order_id (spread_addresses self legs terms order_id) (SpreadTerms.args terms order_id)).

(* chain/vault/trading.rs:939-960 VaultManager::open_spread_as_holder *)
Definition open_spread_as_holder (self : VaultManager) (keeper taker : key) (terms : VaultSpreadTerms)
  : cres VaultOpenPosition :=
  _ ← SpreadTerms.validate terms;
  _ ← require_side (st_side terms) TakerSide.Sell;
  legs ← MarketLegsOps.bind self (st_underlying_mint terms) (st_quote_mint terms);
  order_id ← SpreadTerms.order_id terms (a_program_id (vm_args self)) (ad_vault (vm_addresses self)) taker;
  Ok (open_as_holder self VaultIx.OpenSpreadForVaultHolder keeper taker legs order_id
        (spread_addresses self legs terms order_id) (SpreadTerms.args terms order_id)).

(* chain/vault/trading.rs:962-998 VaultManager::open_spread_with_vault_holder *)
Definition open_spread_with_vault_holder (self : VaultManager) (keeper : key) (holder : VaultManager)
  (terms : VaultSpreadTerms) : cres VaultOpenPosition :=
  _ ← SpreadTerms.validate terms;
  _ ← require_side (st_side terms) TakerSide.Sell;
  legs ← MarketLegsOps.bind self (st_underlying_mint terms) (st_quote_mint terms);
  holder_legs ← MarketLegsOps.bind holder (st_underlying_mint terms) (st_quote_mint terms);
  _ ← check_pair self holder legs holder_legs;
  order_id ← SpreadTerms.order_id terms (a_program_id (vm_args self)) (ad_vault (vm_addresses holder))
               (ad_vault (vm_addresses self));
  Ok (open_between_vaults self VaultIx.OpenSpreadBetweenVaults keeper holder holder_legs legs order_id
        (spread_addresses self legs terms order_id) (SpreadTerms.args terms order_id)).
End opening.
End Opening.
