(* ===== verification/Wire.v ===== *)
(** * Transactions on the wire ([src/chain/vault/served.rs], the decoder)

    A served transaction is decoded from bytes before it is checked and signed.  The
    decoder is a cursor over a byte slice; here it is a state monad over the cursor.
    The theorem relates it to a grammar of transactions, in both directions, and to an
    encoder. *)

From Stdlib Require Import ZArith Lia String.
From stdpp Require Import base list strings.
From S2P Require Import Prelude Chain.

Open Scope Z_scope.

Module VaultIntentError.
(* chain/vault/served.rs:48-134 VaultIntentError *)
Inductive t :=
| InvalidBase64
| Malformed (reason : string)
| UnsupportedVersion (version : Z)
| OpenRequiresVersionZero
| OpenRequiresLookupTable
| OpenRequiresStaticAccount (account : key)
| OpenTransactionTooLarge (actual maximum : nat)
| MissingLookupTable (table : key)
| LookupIndex (table : key) (index : Z)
| FeePayer (expected found : key)
| InstructionCount (expected found : nat)
| Program (index : nat) (expected found : key)
| AccountCount (index expected found : nat)
| Account (index position : nat) (expected : key) (expected_signer expected_writable : bool)
    (found : key) (found_signer found_writable : bool)
| Data (index offset : nat)
| Privilege (account : key) (expected_writable found_writable : bool)
| SignerNotRequired (signer : key)
| ParticipantSigner (expected found : key)
| UnexpectedSigner (signer : key)
| UnexpectedAccount (account : key)
| ComputeUnitLimit (limit max : Z)
| ComputeUnitPrice (price max : Z)
| ComputeBudget (index : nat)
| QuoteSignature (reason : string)
| OrderId
| Route (reason : string)
| Terms (reason : string)
| PriceSection (leg : string)
| Setup (reason : string)
| Intent (error : VaultChainError.t).
End VaultIntentError.
Abbreviation ires A := (res VaultIntentError.t A) (only parsing).

(* chain/vault/served.rs:34-34 SIGNATURE_LEN *)
Definition SIGNATURE_LEN : nat := 64.

(* chain/vault/served.rs:840-844 Lookup *)
Record Lookup := { l_table : key; l_writable : bytes; l_readonly : bytes }.

(* chain/vault/served.rs:846-850 CompiledInstruction *)
Record CompiledInstruction := { ci_program : Z; ci_accounts : bytes; ci_data : bytes }.

(* chain/vault/served.rs:852-862 CompiledMessage *)
Record CompiledMessage := {
  signatures_start : nat;
  message_start : nat;
  required_signers : nat;
  readonly_signed : nat;
  readonly_unsigned : nat;
  static_keys : list key;
  instructions : list CompiledInstruction;
  lookups : list Lookup;
  is_version_zero : bool;
}.

(* chain/vault/served.rs:864-867 Reader *)
Record Reader := { r_bytes : bytes; r_pos : nat }.

(** A computation over the cursor. *)
Definition M (A : Type) : Type := Reader -> ires (A * Reader).

Definition ret {A} (a : A) : M A := fun r => Ok (a, r).
Definition throw {A} (e : VaultIntentError.t) : M A := fun _ => Err e.
Definition bind {A B} (m : M A) (k : A -> M B) : M B := fun r =>
  match m r with Ok (a, r) => k a r | Err e => Err e | Panic => Panic end.
Definition get_pos : M nat := fun r => Ok (r_pos r, r).

Declare Scope reader_scope.
Delimit Scope reader_scope with reader.
Notation "x <- m ; k" := (bind m (fun x => k))
  (at level 20, m at level 100, k at level 200, only parsing) : reader_scope.
Open Scope reader_scope.

Module ReaderOps.
(** [checked_add] overflows only past the end of any slice. *)
(* chain/vault/served.rs:870-879 Reader::take *)
Definition take (len : nat) : M bytes := fun r =>
  let end_ := (r_pos r + len)%nat in
  if (end_ <=? length (r_bytes r))%nat then
    slice ← slice_p (r_bytes r) (r_pos r) end_;
    Ok (slice, {| r_bytes := r_bytes r; r_pos := end_ |})
  else Err (VaultIntentError.Malformed "truncated transaction").

(* chain/vault/served.rs:881-883 Reader::byte *)
Definition byte : M Z :=
  slice <- take 1; fun r => b ← index_p slice 0; Ok (b, r).

(** The loop over the remaining [shifts]. *)
Fixpoint compact_from (shifts : list Z) (value : Z) : M nat :=
  match shifts with
  | [] => throw (VaultIntentError.Malformed "length prefix too long")
  | shift :: shifts =>
      byte <- byte;
      let value := Z.lor value (Z.shiftl (Z.land byte 127) shift) in
      if Z.land byte 128 =? 0 then ret (Z.to_nat value) else compact_from shifts value
  end.

(* chain/vault/served.rs:885-895 Reader::compact *)
Definition compact : M nat := compact_from [0; 7; 14] 0.

(* chain/vault/served.rs:897-901 Reader::key *)
Definition key : M key := take 32.

(* chain/vault/served.rs:903-906 Reader::vec *)
Definition vec : M bytes := len <- compact; take len.

(** [(0..n).map(|_| m).collect::<Result<Vec<_>, _>>()], and the loop of pushes. *)
Fixpoint times {A} (n : nat) (m : M A) : M (list A) :=
  match n with
  | O => ret []
  | S n => x <- m; xs <- times n m; ret (x :: xs)
  end.
End ReaderOps.

Import ReaderOps.

(** The version byte, if there is one. *)
(* chain/vault/served.rs:919-930 CompiledMessage::decode (version) *)
Definition version : M bool := fun r =>
  match r_bytes r !! r_pos r with
  | Some b =>
      if negb (Z.land b 128 =? 0) then
        (b <- byte;
         let version := Z.land b 127 in
         if negb (version =? 0) then throw (VaultIntentError.UnsupportedVersion version)
         else ret true) r
      else Ok (false, r)
  | None => Ok (false, r)
  end.

(* chain/vault/served.rs:948-954 CompiledMessage::decode (instruction) *)
Definition instruction : M CompiledInstruction :=
  program <- byte; accounts <- vec; data <- vec;
  ret {| ci_program := program; ci_accounts := accounts; ci_data := data |}.

(* chain/vault/served.rs:959-963 CompiledMessage::decode (lookup) *)
Definition lookup : M Lookup :=
  table <- key; writable <- vec; readonly <- vec;
  ret {| l_table := table; l_writable := writable; l_readonly := readonly |}.

(* chain/vault/served.rs:938-944 CompiledMessage::decode (header) *)
Definition bad_header (signatures required readonly_signed readonly_unsigned keys : nat) : bool :=
  negb (signatures =? required)%nat || (required <? readonly_signed)%nat ||
  (required =? readonly_signed)%nat || (keys <? required + readonly_unsigned)%nat.

(* chain/vault/served.rs:910-965 CompiledMessage::decode *)
Definition read_message : M CompiledMessage :=
  signatures <- compact;
  signatures_start <- get_pos;
  _ <- take (signatures * SIGNATURE_LEN);
  message_start <- get_pos;
  versioned <- version;
  required <- byte;
  readonly_signed <- byte;
  readonly_unsigned <- byte;
  key_count <- compact;
  static_keys <- times key_count key;
  if bad_header signatures (Z.to_nat required) (Z.to_nat readonly_signed)
       (Z.to_nat readonly_unsigned) (length static_keys)
  then throw (VaultIntentError.Malformed "invalid message header")
  else
    _ <- take 32;
    instruction_count <- compact;
    instructions <- times instruction_count instruction;
    lookups <- (if versioned : bool then n <- compact; times n lookup else ret []);
    ret {| signatures_start := signatures_start; message_start := message_start;
           required_signers := Z.to_nat required; readonly_signed := Z.to_nat readonly_signed;
           readonly_unsigned := Z.to_nat readonly_unsigned; static_keys := static_keys;
           instructions := instructions; lookups := lookups; is_version_zero := versioned |}.

(* chain/vault/served.rs:909-981 CompiledMessage::decode *)
Definition decode (transaction : bytes) : ires CompiledMessage :=
  match read_message {| r_bytes := transaction; r_pos := 0 |} with
  | Ok (m, r) =>
      if negb (r_pos r =? length transaction)%nat
      then Err (VaultIntentError.Malformed "trailing bytes") else Ok m
  | Err e => Err e
  | Panic => Panic
  end.

(** ** The grammar *)

(** [c] is an accepted encoding of the length [n]: up to three bytes of seven bits. *)
Definition more (b : Z) : bool := negb (Z.land b 128 =? 0).

Inductive Compact : nat -> bytes -> Prop :=
| Compact1 b : more b = false -> Compact (Z.to_nat (Z.land b 127)) [b]
| Compact2 b0 b1 : more b0 = true -> more b1 = false ->
    Compact (Z.to_nat (Z.lor (Z.land b0 127) (Z.shiftl (Z.land b1 127) 7))) [b0; b1]
| Compact3 b0 b1 b2 : more b0 = true -> more b1 = true -> more b2 = false ->
    Compact (Z.to_nat (Z.lor (Z.lor (Z.land b0 127) (Z.shiftl (Z.land b1 127) 7))
                         (Z.shiftl (Z.land b2 127) 14))) [b0; b1; b2].

Definition Array (n : nat) (v c : bytes) : Prop := length v = n /\ c = v.
Definition Vec (v c : bytes) : Prop := exists l, Compact (length v) l /\ c = l ++ v.
Definition Many {A} (G : A -> bytes -> Prop) (xs : list A) (c : bytes) : Prop :=
  exists cs, Forall2 G xs cs /\ c = concat cs.

Definition Inst (i : CompiledInstruction) (c : bytes) : Prop :=
  exists ca cd, Vec (ci_accounts i) ca /\ Vec (ci_data i) cd /\ c = ci_program i :: ca ++ cd.
Definition Look (l : Lookup) (c : bytes) : Prop :=
  exists cw cr, length (l_table l) = 32%nat /\ Vec (l_writable l) cw /\ Vec (l_readonly l) cr /\
    c = l_table l ++ cw ++ cr.

(** The byte that announces a version-0 message: only the high bit set. *)
Definition version_byte (b : Z) : Prop := more b = true /\ Z.land b 127 = 0.

(** A whole transaction: signatures, optional version byte, header, keys, blockhash,
    instructions and, in a version-0 message, lookups; nothing after them. *)
Definition Layout (m : CompiledMessage) (bs : bytes) : Prop :=
  exists cs sigs ver req ros rou ck keys hash ci insts ls,
    bs = cs ++ sigs ++ ver ++ [req; ros; rou] ++ ck ++ keys ++ hash ++ ci ++ insts ++ ls /\
    Compact (required_signers m) cs /\ length sigs = (required_signers m * SIGNATURE_LEN)%nat /\
    signatures_start m = length cs /\ message_start m = length (cs ++ sigs) /\
    (if is_version_zero m then exists b, version_byte b /\ ver = [b] else ver = [] /\ more req = false) /\
    required_signers m = Z.to_nat req /\ readonly_signed m = Z.to_nat ros /\
    readonly_unsigned m = Z.to_nat rou /\
    Compact (length (static_keys m)) ck /\ Many (Array 32) (static_keys m) keys /\
    (readonly_signed m < required_signers m)%nat /\
    (required_signers m + readonly_unsigned m <= length (static_keys m))%nat /\
    length hash = 32%nat /\
    Compact (length (instructions m)) ci /\ Many Inst (instructions m) insts /\
    (if is_version_zero m
     then exists cl cls, ls = cl ++ cls /\ Compact (length (lookups m)) cl /\ Many Look (lookups m) cls
     else ls = [] /\ lookups m = []).

(** ** What each reader reads *)

Definition rest (r : Reader) : bytes := drop (r_pos r) (r_bytes r).
Definition adv (r : Reader) (n : nat) : Reader := {| r_bytes := r_bytes r; r_pos := r_pos r + n |}.

(** [m] started at position [p] reads exactly the texts [c] with [G p a c]. *)
Definition reads {A} (m : M A) (G : nat -> A -> bytes -> Prop) : Prop :=
  forall r a r', (r_pos r <= length (r_bytes r))%nat ->
    m r = Ok (a, r') <-> exists c, G (r_pos r) a c /\ c `prefix_of` rest r /\ r' = adv r (length c).

Lemma rest_adv r c t : rest r = c ++ t -> rest (adv r (length c)) = t.
Proof. unfold rest, adv. simpl. intros H. by rewrite <- drop_drop, H, drop_app_length. Qed.

Lemma adv_valid r c :
  (r_pos r <= length (r_bytes r))%nat -> c `prefix_of` rest r ->
  (r_pos (adv r (length c)) <= length (r_bytes (adv r (length c))))%nat.
Proof.
  intros Hv [t Ht]. apply (f_equal length) in Ht. unfold rest in Ht.
  rewrite length_drop, length_app in Ht. simpl. lia.
Qed.

Lemma reads_ret {A} (x : A) : reads (ret x) (fun _ a c => a = x /\ c = []).
Proof.
  intros r a r' _. unfold ret. split.
  - intros [= <- <-]. exists []. split; [done|]. split; [apply prefix_nil|]. unfold adv. simpl.
    rewrite Nat.add_0_r. by destruct r.
  - intros (c & [-> ->] & _ & ->). unfold adv. simpl. rewrite Nat.add_0_r. by destruct r.
Qed.

Lemma reads_throw {A} e : reads (@throw A e) (fun _ _ _ => False).
Proof. intros r a r' _. split; [done|]. by intros (c & [] & _). Qed.

Lemma reads_pos : reads get_pos (fun p a c => a = p /\ c = []).
Proof.
  intros r a r' _. unfold get_pos. split.
  - intros [= <- <-]. exists []. split; [done|]. split; [apply prefix_nil|]. unfold adv. simpl.
    rewrite Nat.add_0_r. by destruct r.
  - intros (c & [-> ->] & _ & ->). unfold adv. simpl. rewrite Nat.add_0_r. by destruct r.
Qed.

Lemma reads_bind {A B} (m : M A) (k : A -> M B) G1 G2 :
  reads m G1 -> (forall a, reads (k a) (G2 a)) ->
  reads (bind m k) (fun p b c => exists a c1 c2, c = c1 ++ c2 /\ G1 p a c1 /\
    G2 a (p + length c1)%nat b c2).
Proof.
  intros Hm Hk r b r' Hv. unfold bind. split.
  - destruct (m r) as [[a r1]|e|] eqn:E; [|done..]. intros H.
    apply Hm in E as (c1 & H1 & [t Ht] & ->); [|done].
    apply Hk in H as (c2 & H2 & Hp2 & ->); [|apply adv_valid; [done|by exists t]].
    rewrite (rest_adv _ _ _ Ht) in Hp2. exists (c1 ++ c2). split; [eauto 10|]. split.
    + rewrite Ht. by apply prefix_app.
    + unfold adv. simpl. rewrite length_app. f_equal. lia.
  - intros (c & (a & c1 & c2 & -> & H1 & H2) & [t Ht] & ->). rewrite <- app_assoc in Ht.
    assert (m r = Ok (a, adv r (length c1))) as ->.
    { apply Hm; [done|]. exists c1. split; [done|]. split; [by eexists|done]. }
    apply Hk; [apply adv_valid; [done|by eexists]|]. exists c2. split; [done|].
    rewrite (rest_adv _ _ _ Ht). split; [by eexists|]. unfold adv. simpl. rewrite length_app. f_equal. lia.
Qed.

Lemma reads_ext {A} (m : M A) G G' :
  reads m G -> (forall p a c, G p a c <-> G' p a c) -> reads m G'.
Proof.
  intros Hm He r a r' Hv. rewrite (Hm r a r' Hv). split; intros (c & H & ?); exists c; (split; [by apply He|done]).
Qed.

Lemma reads_take n : reads (take n) (fun _ v c => Array n v c).
Proof.
  intros r v r' Hv. unfold take. split.
  - destruct (Nat.leb_spec (r_pos r + n) (length (r_bytes r))); [|done]. intros H1. inv_ok H1.
    apply slice_p_Ok in Hv0. injection H1 as <- <-.
    assert (Hl : length v0 = n) by (rewrite (get_range_length _ _ _ _ Hv0); lia).
    exists v0. split; [done|]. split; [|by rewrite Hl].
    apply get_range_Some in Hv0 as (_ & ->). unfold rest.
    eexists. by rewrite take_drop.
  - intros (c & [Hl ->] & [t Ht] & ->). assert (Hlen := f_equal length Ht). unfold rest in Hlen, Ht.
    rewrite length_drop, length_app, Hl in Hlen.
    destruct (Nat.leb_spec (r_pos r + n) (length (r_bytes r))); [|lia].
    assert (slice_p (r_bytes r) (r_pos r) (r_pos r + n) = Ok v) as ->; [|cbn; by rewrite Hl].
    apply slice_p_Ok, get_range_Some. split; [lia|].
    replace (r_pos r + n - r_pos r)%nat with n by lia. rewrite Ht, <- Hl. by rewrite take_app_length.
Qed.

Lemma reads_byte : reads byte (fun _ b c => c = [b]).
Proof.
  eapply reads_ext; [eapply reads_bind; [apply reads_take|]|].
  - intros slice r b r' Hv. instantiate (1 := fun slice _ b c => slice !! 0%nat = Some b /\ c = []). simpl.
    split.
    + intros H. inv_ok H. apply lookup_index_p in Hv0. injection H as <- <-. exists []. split; [done|].
      split; [apply prefix_nil|]. unfold adv. simpl. rewrite Nat.add_0_r. by destruct r.
    + intros (c & [Hb ->] & _ & ->). assert (index_p slice 0 = Ok b) as -> by (by apply lookup_index_p).
      unfold adv. simpl. rewrite Nat.add_0_r. by destruct r.
  - intros p b c. split.
    + intros (a & c1 & c2 & -> & [Hl ->] & Hb & ->). rewrite app_nil_r.
      destruct a as [|x [|? ?]]; try done. simpl in Hb. congruence.
    + intros ->. exists [b], [b], []. done.
Qed.

Lemma reads_compact : reads compact (fun _ n c => Compact n c).
Proof.
  unfold compact, compact_from. eapply reads_ext.
  - eapply reads_bind; [apply reads_byte|]. intros b0. cbv zeta.
    instantiate (1 := fun b0 p n c => if more b0 then
      exists b1 c', c = b1 :: c' /\ if more b1 then
        exists b2, c' = [b2] /\ more b2 = false /\
          n = Z.to_nat (Z.lor (Z.lor (Z.land b0 127) (Z.shiftl (Z.land b1 127) 7)) (Z.shiftl (Z.land b2 127) 14))
      else c' = [] /\ n = Z.to_nat (Z.lor (Z.land b0 127) (Z.shiftl (Z.land b1 127) 7))
      else c = [] /\ n = Z.to_nat (Z.land b0 127)).
    simpl. rewrite Z.shiftl_0_r. unfold more. destruct (Z.land b0 128 =? 0); simpl.
    { eapply reads_ext; [apply reads_ret|]. naive_solver. }
    eapply reads_ext.
    + eapply reads_bind; [apply reads_byte|]. intros b1.
      instantiate (1 := fun b1 p n c => if negb (Z.land b1 128 =? 0) then
        exists b2, c = [b2] /\ negb (Z.land b2 128 =? 0) = false /\
          n = Z.to_nat (Z.lor (Z.lor (Z.land b0 127) (Z.shiftl (Z.land b1 127) 7)) (Z.shiftl (Z.land b2 127) 14))
        else c = [] /\ n = Z.to_nat (Z.lor (Z.land b0 127) (Z.shiftl (Z.land b1 127) 7))).
      simpl. destruct (Z.land b1 128 =? 0); simpl.
      { eapply reads_ext; [apply reads_ret|]. naive_solver. }
      eapply reads_ext.
      * eapply reads_bind; [apply reads_byte|]. intros b2.
        instantiate (1 := fun b2 p n c => (Z.land b2 128 =? 0) = true /\ c = [] /\
          n = Z.to_nat (Z.lor (Z.lor (Z.land b0 127) (Z.shiftl (Z.land b1 127) 7)) (Z.shiftl (Z.land b2 127) 14))).
        simpl. destruct (Z.land b2 128 =? 0).
        -- eapply reads_ext; [apply reads_ret|]. naive_solver.
        -- eapply reads_ext; [apply reads_throw|]. naive_solver.
      * intros p n c. split.
        -- intros (b2 & c1 & c2 & -> & -> & Hb & -> & ->). exists b2. rewrite Hb. done.
        -- intros (b2 & -> & Hb & ->). exists b2, [b2], []. apply negb_false_iff in Hb. done.
    + intros p n c. split.
      * intros (b1 & c1 & c2 & -> & -> & H). exists b1, c2. done.
      * intros (b1 & c2 & -> & H). exists b1, [b1], c2. done.
  - intros p n c. split.
    + intros (b0 & c1 & c2 & -> & -> & H). simpl. destruct (more b0) eqn:E0.
      * destruct H as (b1 & c' & -> & H). destruct (more b1) eqn:E1.
        -- destruct H as (b2 & -> & E2 & ->). by constructor.
        -- destruct H as [-> ->]. by constructor.
      * destruct H as [-> ->]. by constructor.
    + intros H. destruct H as [b E|b0 b1 E0 E1|b0 b1 b2 E0 E1 E2].
      * exists b, [b], []. rewrite E. done.
      * exists b0, [b0], [b1]. rewrite E0. split; [done|]. split; [done|]. exists b1, []. by rewrite E1.
      * exists b0, [b0], [b1; b2]. rewrite E0. split; [done|]. split; [done|]. exists b1, [b2]. rewrite E1.
        split; [done|]. by exists b2.
Qed.

Lemma reads_vec : reads vec (fun _ v c => Vec v c).
Proof.
  eapply reads_ext; [eapply reads_bind; [apply reads_compact|intros n; apply reads_take]|].
  intros p v c. split.
  - intros (n & c1 & c2 & -> & Hc & [Hl ->]). exists c1. by rewrite Hl.
  - intros (l & Hc & ->). exists (length v), l, v. done.
Qed.

Lemma reads_times {A} (m : M A) (G : A -> bytes -> Prop) n :
  reads m (fun _ => G) -> reads (times n m) (fun _ xs c => length xs = n /\ Many G xs c).
Proof.
  intros Hm. induction n as [|n IH]; cbn [times].
  - eapply reads_ext; [apply reads_ret|]. intros p xs c. split.
    + intros [-> ->]. split; [done|]. by exists [].
    + intros [Hl (cs & Hf & ->)]. destruct xs; [|done]. by inversion Hf.
  - eapply reads_ext.
    + eapply reads_bind; [exact Hm|]. intros x. eapply reads_bind; [exact IH|]. intros xs. apply reads_ret.
    + intros p xs c. split.
      * intros (x & c1 & c2 & -> & Hx & xs' & c3 & c4 & -> & [Hl (cs & Hf & ->)] & -> & ->).
        split; [simpl; lia|]. exists (c1 :: cs). split; [by constructor|]. by rewrite app_nil_r.
      * intros [Hl (cs & Hf & ->)]. destruct xs as [|x xs]; [done|].
        inversion Hf as [|? c1 ? cs' Hx Hf']; subst. exists x, c1, (concat cs'). split; [done|].
        split; [done|]. exists xs, (concat cs'), []. rewrite app_nil_r. split; [done|].
        split; [split; [simpl in Hl; lia|by exists cs']|done].
Qed.

Lemma reads_instruction : reads instruction (fun _ => Inst).
Proof.
  eapply reads_ext.
  - eapply reads_bind; [apply reads_byte|]. intros pr. eapply reads_bind; [apply reads_vec|]. intros ac.
    eapply reads_bind; [apply reads_vec|]. intros da. apply reads_ret.
  - intros p i c. split.
    + intros (pr & ? & ? & -> & -> & ac & ca & ? & -> & Ha & da & cd & ? & -> & Hd & -> & ->).
      exists ca, cd. by rewrite app_nil_r.
    + intros (ca & cd & Ha & Hd & ->). eexists (ci_program i), [ci_program i], (ca ++ cd). split; [done|].
      split; [done|]. exists (ci_accounts i), ca, cd. split; [done|]. split; [done|].
      exists (ci_data i), cd, []. rewrite app_nil_r. split; [done|]. split; [done|]. by destruct i.
Qed.

Lemma reads_lookup : reads lookup (fun _ => Look).
Proof.
  eapply reads_ext.
  - eapply reads_bind; [apply reads_take|]. intros t. eapply reads_bind; [apply reads_vec|]. intros w.
    eapply reads_bind; [apply reads_vec|]. intros ro. apply reads_ret.
  - intros p l c. split.
    + intros (t & ? & ? & -> & [Hl ->] & w & cw & ? & -> & Hw & ro & cr & ? & -> & Hr & -> & ->).
      exists cw, cr. by rewrite app_nil_r.
    + intros (cw & cr & Hl & Hw & Hr & ->). eexists (l_table l), (l_table l), (cw ++ cr). split; [done|].
      split; [done|]. exists (l_writable l), cw, cr. split; [done|]. split; [done|].
      exists (l_readonly l), cr, []. rewrite app_nil_r. split; [done|]. split; [done|]. by destruct l.
Qed.

(** The version byte and the byte after it are read together: without a version byte
    it is the header's first byte that must not look like one. *)
Definition Versioned (v : bool) (b : Z) (c : bytes) : Prop :=
  if v then exists x, version_byte x /\ c = [x; b] else c = [b] /\ more b = false.

Lemma byte_read r b r' :
  (r_pos r <= length (r_bytes r))%nat ->
  byte r = Ok (b, r') <-> r_bytes r !! r_pos r = Some b /\ r' = adv r 1.
Proof.
  intros Hv. rewrite (reads_byte r b r' Hv). unfold rest. split.
  - intros (c & -> & [t Ht] & ->). split; [|done].
    rewrite <- (Nat.add_0_r (r_pos r)), <- lookup_drop, Ht. done.
  - intros [Hb ->]. exists [b]. split; [done|]. split; [|done].
    exists (drop (S (r_pos r)) (r_bytes r)). by apply drop_S.
Qed.

Lemma lookup_valid {A} (l : list A) i x : l !! i = Some x -> (i < length l)%nat.
Proof. apply lookup_lt_Some. Qed.

Lemma reads_version {A} (k : bool -> Z -> M A) G :
  (forall v b, reads (k v b) (G v b)) ->
  reads (bind version (fun v => bind byte (k v)))
    (fun p a c => exists v b c1 c2, c = c1 ++ c2 /\ Versioned v b c1 /\ G v b (p + length c1)%nat a c2).
Proof.
  intros Hk.
  assert (Hvb : reads (bind version (fun v => bind byte (fun b => ret (v, b))))
    (fun _ vb c => Versioned (fst vb) (snd vb) c)).
  { intros r [v b] r' Hv. cbn [fst snd]. unfold bind at 1, version.
    destruct (r_bytes r !! r_pos r) as [x|] eqn:Hx.
    - destruct (Z.land x 128 =? 0) eqn:Hm; cbn [negb].
      + (* no version byte *)
        unfold bind, ret. destruct (byte r) as [[b' r1]|e|] eqn:Hb.
        * apply byte_read in Hb as [Hb ->]; [|done]. rewrite Hx in Hb. injection Hb as <-. split.
          -- intros [= <- <- <-]. exists [x]. split; [split; [done|]; unfold more; by rewrite Hm|].
             split; [|done]. exists (drop (S (r_pos r)) (r_bytes r)). by apply drop_S.
          -- intros (c & Hc & [t Ht] & ->). unfold rest in Ht. rewrite (drop_S _ _ _ Hx) in Ht.
             destruct v; unfold Versioned in Hc.
             ++ destruct Hc as (y & [Hy _] & ->). injection Ht as <- _. unfold more in Hy. rewrite Hm in Hy. done.
             ++ destruct Hc as [-> _]. injection Ht as <- _. done.
        * exfalso. assert (byte r = Ok (x, adv r 1)) by (by apply byte_read). congruence.
        * exfalso. assert (byte r = Ok (x, adv r 1)) by (by apply byte_read). congruence.
      + (* a version byte *)
        assert (byte r = Ok (x, adv r 1)) as Hb by (by apply byte_read).
        unfold bind, ret. rewrite Hb. destruct (Z.land x 127 =? 0) eqn:Hz; cbn [negb].
        * assert (Hv1 : (r_pos (adv r 1) <= length (r_bytes (adv r 1)))%nat)
            by (apply lookup_valid in Hx; simpl; lia).
          assert (Hvx : version_byte x) by (split; [unfold more; by rewrite Hm|by apply Z.eqb_eq]).
          split.
          -- destruct (byte (adv r 1)) as [[b' r1]|e|] eqn:Hb2; [|done..]. intros [= <- <- <-].
             apply byte_read in Hb2 as [Hb2 ->]; [|done]. exists [x; b']. split; [by exists x|].
             split; [|unfold adv; simpl; f_equal; lia]. unfold rest. rewrite (drop_S _ _ _ Hx).
             simpl in Hb2. rewrite Nat.add_1_r in Hb2. rewrite (drop_S _ _ _ Hb2). by eexists.
          -- intros (c & Hc & [t Ht] & ->). unfold rest in Ht. rewrite (drop_S _ _ _ Hx) in Ht.
             destruct v; unfold Versioned in Hc.
             ++ destruct Hc as (y & _ & ->). injection Ht as <- Ht.
                assert (byte (adv r 1) = Ok (b, adv (adv r 1) 1)) as ->.
                { apply byte_read; [done|]. split; [|done]. simpl. rewrite Nat.add_1_r.
                  rewrite <- (Nat.add_0_r (S (r_pos r))), <- lookup_drop, Ht. done. }
                unfold adv. simpl. do 3 f_equal. lia.
             ++ destruct Hc as [-> Hm']. injection Ht as <- _. unfold more in Hm'. by rewrite Hm in Hm'.
        * split; [done|]. intros (c & Hc & [t Ht] & ->). unfold rest in Ht. rewrite (drop_S _ _ _ Hx) in Ht.
          destruct v; unfold Versioned in Hc.
          -- destruct Hc as (y & [_ Hy] & ->). injection Ht as <- _. by rewrite Hy in Hz.
          -- destruct Hc as [-> Hm']. injection Ht as <- _. unfold more in Hm'. by rewrite Hm in Hm'.
    - (* the end of the bytes *)
      unfold bind, ret. split.
      + destruct (byte r) as [[b' r1]|e|] eqn:Hb; [|done..].
        apply byte_read in Hb as [Hb _]; [|done]. congruence.
      + intros (c & Hc & [t Ht] & ->). unfold rest in Ht. apply lookup_ge_None in Hx.
        rewrite drop_ge in Ht by done. destruct v; unfold Versioned in Hc.
        * destruct Hc as (y & _ & ->). done.
        * destruct Hc as [-> _]. done. }
  assert (Heq : forall r, bind version (fun v => bind byte (k v)) r =
    bind (bind version (fun v => bind byte (fun b => ret (v, b)))) (fun vb => k (fst vb) (snd vb)) r).
  { intros r. unfold bind, ret. destruct (version r) as [[v r1]|e|]; [|done..].
    by destruct (byte r1) as [[b r2]|e|]. }
  intros r a r' Hv. rewrite Heq.
  rewrite (reads_bind _ _ _ _ Hvb (fun vb => Hk (fst vb) (snd vb)) r a r' Hv).
  split; intros (c & H & ?); (exists c; split; [|done]).
  - destruct H as ([v b] & c1 & c2 & -> & H1 & H2). eauto 10.
  - destruct H as (v & b & c1 & c2 & -> & H1 & H2). exists (v, b), c1, c2. done.
Qed.

(** What follows the header. *)
Definition Tail (v : bool) (m : CompiledMessage) (c : bytes) : Prop :=
  exists hash ci insts ls, c = hash ++ ci ++ insts ++ ls /\ length hash = 32%nat /\
    Compact (length (instructions m)) ci /\ Many Inst (instructions m) insts /\
    if v then exists cl cls, ls = cl ++ cls /\ Compact (length (lookups m)) cl /\ Many Look (lookups m) cls
    else ls = [] /\ lookups m = [].

Lemma reads_lookups (v : bool) :
  reads (if v : bool then bind compact (fun n => times n lookup) else ret [])
    (fun _ ls c => if v then exists cl cls, c = cl ++ cls /\ Compact (length ls) cl /\ Many Look ls cls
                   else c = [] /\ ls = []).
Proof.
  destruct v.
  - eapply reads_ext; [eapply reads_bind; [apply reads_compact|intros n; apply reads_times, reads_lookup]|].
    intros p ls c. split.
    + intros (n & c1 & c2 & -> & Hc & [Hl Hm]). exists c1, c2. by rewrite Hl.
    + intros (cl & cls & -> & Hc & Hm). exists (length ls), cl, cls. done.
  - eapply reads_ext; [apply reads_ret|]. intros p ls c. tauto.
Qed.

Lemma reads_tail (v : bool) (k : list CompiledInstruction -> list Lookup -> CompiledMessage) :
  (forall is_ ls, instructions (k is_ ls) = is_ /\ lookups (k is_ ls) = ls) ->
  reads (bind (take 32) (fun _ => bind compact (fun n => bind (times n instruction) (fun is_ =>
    bind (if v : bool then bind compact (fun n => times n lookup) else ret []) (fun ls => ret (k is_ ls))))))
    (fun _ m c => Tail v m c /\ exists is_ ls, m = k is_ ls).
Proof.
  intros Hk. eapply reads_ext.
  - eapply reads_bind; [apply reads_take|]. intros h. eapply reads_bind; [apply reads_compact|]. intros n.
    eapply reads_bind; [apply reads_times, reads_instruction|]. intros is_.
    eapply reads_bind; [apply reads_lookups|]. intros ls. apply reads_ret.
  - intros p m c. split.
    + intros (h & ? & ? & -> & [Hh ->] & n & ci & ? & -> & Hc & is_ & insts & ? & -> & [Hl Hm] &
        ls & cls & ? & -> & Hls & -> & ->). destruct (Hk is_ ls) as [Hi Hlk].
      split; [|eauto]. exists h, ci, insts, cls. rewrite Hi, Hlk, Hl, app_nil_r. done.
    + intros [(h & ci & insts & ls & -> & Hh & Hc & Hm & Hls) (is_ & lk & ->)].
      destruct (Hk is_ lk) as [Hi Hlk]. rewrite Hi in Hc, Hm. rewrite Hlk in Hls.
      exists h, h, (ci ++ insts ++ ls). split; [done|]. split; [done|].
      exists (length is_), ci, (insts ++ ls). split; [done|]. split; [done|].
      exists is_, insts, ls. split; [done|]. split; [done|]. exists lk, ls, []. rewrite app_nil_r.
      split; [done|]. split; [done|done].
Qed.

Lemma bad_header_false s req ros rou keys :
  bad_header s req ros rou keys = false <->
  s = req /\ (ros < req)%nat /\ (req + rou <= keys)%nat.
Proof.
  unfold bad_header. rewrite !orb_false_iff, negb_false_iff, Nat.eqb_eq, Nat.ltb_ge, Nat.eqb_neq, Nat.ltb_ge.
  lia.
Qed.

(** The message assembled from what was read. *)
Definition assembled (ss ms : nat) (v : bool) (req ros rou : Z) (keys : list bytes)
  (is_ : list CompiledInstruction) (ls : list Lookup) : CompiledMessage :=
  {| signatures_start := ss; message_start := ms; required_signers := Z.to_nat req;
     readonly_signed := Z.to_nat ros; readonly_unsigned := Z.to_nat rou; static_keys := keys;
     instructions := is_; lookups := ls; is_version_zero := v |}.

(** Everything after the keys. *)
Definition Body n ss ms (v : bool) req ros rou keys (m : CompiledMessage) (c : bytes) : Prop :=
  bad_header n (Z.to_nat req) (Z.to_nat ros) (Z.to_nat rou) (length keys) = false /\
  Tail v m c /\ exists is_ ls, m = assembled ss ms v req ros rou keys is_ ls.

Definition Parsed (p : nat) (m : CompiledMessage) (c : bytes) : Prop :=
  exists n cs sigs v req cv ros rou ck keys ckeys ct,
    c = cs ++ sigs ++ cv ++ [ros] ++ [rou] ++ ck ++ ckeys ++ ct /\
    Compact n cs /\ length sigs = (n * SIGNATURE_LEN)%nat /\ Versioned v req cv /\
    Compact (length keys) ck /\ Many (Array 32) keys ckeys /\
    Body n (p + length cs) (p + length cs + length sigs) v req ros rou keys m ct.

Lemma reads_parsed : reads read_message Parsed.
Proof.
  eapply reads_ext.
  - unfold read_message. eapply reads_bind; [apply reads_compact|]. intros n.
    eapply reads_bind; [apply reads_pos|]. intros ss. eapply reads_bind; [apply reads_take|]. intros sg.
    eapply reads_bind; [apply reads_pos|]. intros ms. eapply reads_version. intros v req.
    eapply reads_bind; [apply reads_byte|]. intros ros. eapply reads_bind; [apply reads_byte|]. intros rou.
    eapply reads_bind; [apply reads_compact|]. intros nk.
    eapply reads_bind; [apply reads_times, reads_take|]. intros keys.
    instantiate (1 := fun keys p m c => Body n ss ms v req ros rou keys m c).
    unfold Body. destruct (bad_header _ _ _ _ _); [eapply reads_ext; [apply reads_throw|]; naive_solver|].
    eapply reads_ext; [apply (reads_tail v (assembled ss ms v req ros rou keys)); done|]. naive_solver.
  - intros p m c. unfold Parsed. split.
    + intros (n & cs & ? & -> & Hn & ss & ? & ? & -> & [-> ->] & sg & sigs & ? & -> & [Hsg ->] &
        ms & ? & ? & -> & [-> ->] & v & req & cv & ? & -> & Hv & ros & ? & ? & -> & -> & rou & ? & ? & -> & -> &
        nk & ck & ? & -> & Hck & keys & ckeys & ct & -> & [Hl Hk] & Hb).
      exists n, cs, sg, v, req, cv, ros, rou, ck, keys, ckeys, ct. cbn [length] in Hb.
      rewrite !Nat.add_0_r in Hb. rewrite Hl. split_and!; done.
    + intros (n & cs & sigs & v & req & cv & ros & rou & ck & keys & ckeys & ct & -> & Hn & Hs & Hv & Hck & Hk & Hb).
      exists n, cs. eexists. split; [done|]. split; [done|].
      exists (p + length cs)%nat, []. eexists. split; [done|]. split; [done|].
      exists sigs, sigs. eexists. split; [done|]. split; [done|].
      exists (p + length cs + 0 + length sigs)%nat, []. eexists. split; [done|]. split; [done|].
      exists v, req, cv. eexists. split; [done|]. split; [done|].
      exists ros, [ros]. eexists. split; [done|]. split; [done|].
      exists rou, [rou]. eexists. split; [done|]. split; [done|].
      exists (length keys), ck. eexists. split; [done|]. split; [done|].
      exists keys, ckeys, ct. split; [done|]. split; [done|]. by rewrite !Nat.add_0_r.
Qed.

Lemma parsed_layout m c : Parsed 0 m c <-> Layout m c.
Proof.
  unfold Parsed, Layout, Body, Tail. split.
  - intros (n & cs & sigs & v & req & cv & ros & rou & ck & keys & ckeys & ct & -> & Hn & Hs & Hv & Hck & Hk &
      Hb & (hash & ci & insts & ls & -> & Hh & Hci & Hi & Hls) & is_ & lk & ->).
    apply bad_header_false in Hb as (-> & Hr & Hle). simpl in *.
    exists cs, sigs, (if v then removelast cv else []), req, ros, rou, ck, ckeys, hash, ci, insts, ls.
    rewrite length_app. destruct v; simpl in Hv.
    + destruct Hv as (x & Hx & ->). simpl. split_and!; eauto.
    + destruct Hv as [-> Hm], Hls as [-> ->]. simpl. split_and!; eauto.
  - intros (cs & sigs & ver & req & ros & rou & ck & ckeys & hash & ci & insts & ls & -> & Hn & Hs & Hss & Hms &
      Hv & Hreq & Hros & Hrou & Hck & Hk & Hlt & Hle & Hh & Hci & Hi & Hls).
    exists (required_signers m), cs, sigs, (is_version_zero m), req, (ver ++ [req]), ros, rou, ck,
      (static_keys m), ckeys, (hash ++ ci ++ insts ++ ls).
    rewrite length_app in Hms. split_and!; try done.
    + by rewrite <- !app_assoc.
    + unfold Versioned. destruct (is_version_zero m).
      * destruct Hv as (x & Hx & ->). by exists x.
      * by destruct Hv as [-> Hm].
    + apply bad_header_false. rewrite <- Hreq, <- Hros, <- Hrou. done.
    + by exists hash, ci, insts, ls.
    + exists (instructions m), (lookups m). unfold assembled. rewrite <- Hreq, <- Hros, <- Hrou. simpl.
      rewrite <- Hms, <- Hss. by destruct m.
Qed.

Lemma decode_layout bs m : decode bs = Ok m <-> Layout m bs.
Proof.
  unfold decode. set (r := {| r_bytes := bs; r_pos := 0 |}).
  assert (Hv : (r_pos r <= length (r_bytes r))%nat) by (simpl; lia).
  assert (Hr : rest r = bs) by done. rewrite <- parsed_layout. split.
  - destruct (read_message r) as [[m' r']|e|] eqn:E; [|done..].
    apply reads_parsed in E as (c & Hp & [t Ht] & ->); [|done]. rewrite Hr in Ht. simpl.
    destruct (Nat.eqb_spec (length c) (length bs)) as [Hl|]; [|done]. intros [= <-].
    assert (t = []) as -> by (apply (f_equal length) in Ht; rewrite length_app in Ht; destruct t; [done|simpl in Ht; lia]).
    by rewrite app_nil_r in Ht; subst c.
  - intros Hp. assert (read_message r = Ok (m, adv r (length bs))) as ->.
    { apply reads_parsed; [done|]. exists bs. by rewrite Hr. }
    simpl. by rewrite Nat.eqb_refl.
Qed.

(** ** An encoder *)

(** The shortest length prefix. *)
Definition encode_compact (n : nat) : bytes :=
  let z := Z.of_nat n in
  if z <? 128 then [z]
  else if z <? 16384 then [z mod 128 + 128; z / 128]
  else [z mod 128 + 128; z / 128 mod 128 + 128; z / 16384].

Definition encode_vec (v : bytes) : bytes := encode_compact (length v) ++ v.
Definition encode_inst (i : CompiledInstruction) : bytes :=
  ci_program i :: encode_vec (ci_accounts i) ++ encode_vec (ci_data i).
Definition encode_lookup (l : Lookup) : bytes :=
  l_table l ++ encode_vec (l_writable l) ++ encode_vec (l_readonly l).

Definition encode (m : CompiledMessage) (sigs hash : bytes) : bytes :=
  encode_compact (required_signers m) ++ sigs ++ (if is_version_zero m then [128] else []) ++
  [Z.of_nat (required_signers m); Z.of_nat (readonly_signed m); Z.of_nat (readonly_unsigned m)] ++
  encode_compact (length (static_keys m)) ++ concat (static_keys m) ++ hash ++
  encode_compact (length (instructions m)) ++ concat (map encode_inst (instructions m)) ++
  if is_version_zero m
  then encode_compact (length (lookups m)) ++ concat (map encode_lookup (lookups m)) else [].

(** Lengths a prefix can hold. *)
Definition short {A} (l : list A) : Prop := Z.of_nat (length l) < 2 ^ 21.

Record encodable (m : CompiledMessage) (sigs hash : bytes) : Prop := {
  enc_signers : (required_signers m < 128)%nat;
  enc_header : (readonly_signed m < required_signers m)%nat /\
    (required_signers m + readonly_unsigned m <= length (static_keys m))%nat;
  enc_sigs : length sigs = (required_signers m * SIGNATURE_LEN)%nat;
  enc_starts : signatures_start m = 1%nat /\ message_start m = (1 + length sigs)%nat;
  enc_keys : short (static_keys m) /\ Forall (fun k => length k = 32%nat) (static_keys m);
  enc_hash : length hash = 32%nat;
  enc_insts : short (instructions m) /\
    Forall (fun i => short (ci_accounts i) /\ short (ci_data i)) (instructions m);
  enc_lookups : short (lookups m) /\
    Forall (fun l => length (l_table l) = 32%nat /\ short (l_writable l) /\ short (l_readonly l)) (lookups m);
  enc_legacy : is_version_zero m = false -> lookups m = [];
}.

Lemma land_low b : 0 <= b < 128 -> Z.land (b + 128) 127 = b /\ Z.land b 127 = b.
Proof.
  intros H. assert (forall z, 0 <= z < 256 -> Z.land z 127 = z mod 128) as Hm.
  { intros z _. change 127 with (Z.ones 7). rewrite Z.land_ones by lia. done. }
  rewrite !Hm by lia. split; [|by apply Z.mod_small].
  rewrite <- (Z.mul_1_l 128) at 1. rewrite Z.mod_add by lia. by apply Z.mod_small.
Qed.

Lemma more_high b : 0 <= b < 128 -> more (b + 128) = true /\ more b = false.
Proof.
  intros H. assert (Hk : forall z, Z.land z 128 = if Z.testbit z 7 then 128 else 0).
  { intros z. apply Z.bits_inj'. intros n Hn. rewrite Z.land_spec.
    change 128 with (2 ^ 7). rewrite Z.pow2_bits_eqb by lia. destruct (Z.eqb_spec 7 n) as [<-|Hne].
    - rewrite andb_true_r. destruct (Z.testbit z 7); [by rewrite Z.pow2_bits_true|by rewrite Z.bits_0].
    - rewrite andb_false_r. destruct (Z.testbit z 7); [|by rewrite Z.bits_0].
      symmetry. by apply Z.pow2_bits_false. }
  assert (Ht : forall z, Z.testbit z 7 = Z.odd (z / 128))
    by (intros z; rewrite Z.testbit_odd, Z.shiftr_div_pow2 by lia; done).
  unfold more. rewrite !Hk, !Ht. rewrite (Z.div_small b) by lia.
  replace ((b + 128) / 128) with 1 by (Z.to_euclidean_division_equations; lia). done.
Qed.

Lemma land_disjoint a b n : 0 <= n -> 0 <= a < 2 ^ n -> Z.land a (b * 2 ^ n) = 0.
Proof.
  intros Hn Ha. apply Z.bits_inj'. intros k Hk. rewrite Z.land_spec, Z.bits_0.
  destruct (Z.ltb_spec k n); [by rewrite Z.mul_pow2_bits_low, andb_false_r|].
  rewrite <- (Z.mod_small a (2 ^ n)) by done. by rewrite Z.mod_pow2_bits_high by lia.
Qed.

Lemma lor_shift a b n : 0 <= n -> 0 <= a < 2 ^ n -> Z.lor a (Z.shiftl b n) = a + b * 2 ^ n.
Proof.
  intros Hn Ha. pose proof (land_disjoint a b n Hn Ha) as Hd.
  rewrite Z.shiftl_mul_pow2, Z.add_nocarry_lxor by done.
  apply Z.bits_inj'. intros k Hk. rewrite Z.lor_spec, Z.lxor_spec.
  apply (f_equal (fun z => Z.testbit z k)) in Hd. rewrite Z.land_spec, Z.bits_0 in Hd.
  by destruct (Z.testbit a k), (Z.testbit (b * 2 ^ n) k).
Qed.

Lemma encode_compact_ok n : Z.of_nat n < 2 ^ 21 -> Compact n (encode_compact n).
Proof.
  intros Hn. unfold encode_compact. set (z := Z.of_nat n).
  assert (Hz : 0 <= z < 2 ^ 21) by lia. assert (Hzn : Z.to_nat z = n) by lia. rewrite <- Hzn.
  destruct (Z.ltb_spec z 128) as [H1|H1]; [|destruct (Z.ltb_spec z 16384) as [H2|H2]].
  - rewrite <- (proj2 (land_low z ltac:(lia))) at 1. constructor. apply more_high; lia.
  - pose proof (Z.mod_pos_bound z 128 ltac:(lia)) as Hm.
    assert (Hq : 0 <= z / 128 < 128) by (Z.to_euclidean_division_equations; lia).
    replace z with (Z.lor (Z.land (z mod 128 + 128) 127) (Z.shiftl (Z.land (z / 128) 127) 7)) at 1.
    2: { rewrite (proj1 (land_low _ Hm)), (proj2 (land_low _ Hq)), lor_shift by lia.
         change (2 ^ 7) with 128. pose proof (Z.div_mod z 128). lia. }
    constructor; apply more_high; lia.
  - pose proof (Z.mod_pos_bound z 128 ltac:(lia)) as Hm.
    pose proof (Z.mod_pos_bound (z / 128) 128 ltac:(lia)) as Hm2.
    assert (Hq : 0 <= z / 16384 < 128) by (Z.to_euclidean_division_equations; lia).
    replace z with (Z.lor (Z.lor (Z.land (z mod 128 + 128) 127) (Z.shiftl (Z.land (z / 128 mod 128 + 128) 127) 7))
      (Z.shiftl (Z.land (z / 16384) 127) 14)) at 1.
    2: { rewrite (proj1 (land_low _ Hm)), (proj1 (land_low _ Hm2)), (proj2 (land_low _ Hq)).
         rewrite (lor_shift (z mod 128)) by lia. rewrite lor_shift by lia.
         change (2 ^ 7) with 128. change (2 ^ 14) with 16384.
         clear -Hz. Z.to_euclidean_division_equations. lia. }
    constructor; apply more_high; lia.
Qed.

Lemma encode_vec_ok v : short v -> Vec v (encode_vec v).
Proof. intros H. exists (encode_compact (length v)). split; [by apply encode_compact_ok|done]. Qed.

Lemma many_map {A} (G : A -> bytes -> Prop) (f : A -> bytes) xs :
  Forall (fun x => G x (f x)) xs -> Many G xs (concat (map f xs)).
Proof.
  intros H. exists (map f xs). split; [|done]. induction H; simpl; constructor; done.
Qed.

Lemma encode_layout m sigs hash : encodable m sigs hash -> Layout m (encode m sigs hash).
Proof.
  intros [Hs [Hh1 Hh2] Hsig [Hst Hms] [Hk1 Hk2] Hhash [Hi1 Hi2] [Hl1 Hl2] Hleg].
  assert (Hone : encode_compact (required_signers m) = [Z.of_nat (required_signers m)]).
  { unfold encode_compact. by rewrite (proj2 (Z.ltb_lt _ _)) by lia. }
  exists (encode_compact (required_signers m)), sigs, (if is_version_zero m then [128] else []),
    (Z.of_nat (required_signers m)), (Z.of_nat (readonly_signed m)), (Z.of_nat (readonly_unsigned m)),
    (encode_compact (length (static_keys m))), (concat (static_keys m)), hash,
    (encode_compact (length (instructions m))), (concat (map encode_inst (instructions m))),
    (if is_version_zero m
     then encode_compact (length (lookups m)) ++ concat (map encode_lookup (lookups m)) else []).
  split; [reflexivity|]. rewrite length_app, Hone, !Nat2Z.id. simpl length.
  split_and!; auto using encode_compact_ok.
  - rewrite <- Hone. apply encode_compact_ok. lia.
  - destruct (is_version_zero m); [by exists 128|]. split; [done|]. apply more_high. lia.
  - rewrite <- (map_id (static_keys m)) at 2. apply many_map. eapply Forall_impl; [exact Hk2|]. done.
  - apply many_map. eapply Forall_impl; [exact Hi2|]. intros i [Ha Hd].
    exists (encode_vec (ci_accounts i)), (encode_vec (ci_data i)). auto using encode_vec_ok.
  - destruct (is_version_zero m); [|auto]. eexists _, _. split; [done|].
    split; [by apply encode_compact_ok|]. apply many_map. eapply Forall_impl; [exact Hl2|].
    intros l (Ht & Hw & Hr). exists (encode_vec (l_writable l)), (encode_vec (l_readonly l)).
    auto using encode_vec_ok.
Qed.

(** C22: The transaction decoder accepts exactly the grammar of legacy and version-0
    transactions (signatures, header, keys, blockhash, instructions, lookups, nothing
    before or after), with the header's counts in range, and returns what the bytes
    spell out, with the offsets of the signatures and of the message; so it inverts
    the encoder. *)
Theorem wire_decoding :
  (forall bs m, decode bs = Ok m <-> Layout m bs) /\
  (forall m sigs hash, encodable m sigs hash -> decode (encode m sigs hash) = Ok m).
Proof.
  split; [apply decode_layout|]. intros m sigs hash H. by apply decode_layout, encode_layout.
Qed.

Module WireSample.
Definition message : CompiledMessage :=
  {| signatures_start := 1; message_start := 65; required_signers := 1; readonly_signed := 0;
     readonly_unsigned := 1; static_keys := [key_of 7; key_of 8];
     instructions := [{| ci_program := 1; ci_accounts := [0; 2]; ci_data := replicate 200 5 |}];
     lookups := [{| l_table := key_of 9; l_writable := [3]; l_readonly := [] |}];
     is_version_zero := true |}.
Definition sigs : bytes := replicate 64 1.
Definition hash : bytes := key_of 4.
End WireSample.

Lemma wire_decoding_witness :
  decode (encode WireSample.message WireSample.sigs WireSample.hash) = Ok WireSample.message.
Proof.
  apply (proj2 wire_decoding).
  constructor; simpl; try lia; repeat split; unfold short; simpl; try lia; repeat constructor; simpl; lia.
Defined.
