(* ===== verification/Swap.v ===== *)
(** * Vault swaps ([src/chain/vault/trading.rs], swaps; the hop decoder of [served.rs])

    A swap is a chain of calls into swap venues, from the input leg through transit
    accounts to the output leg.  [swap] validates a plan and encodes it; [served_hops]
    reads the hops back out of a served instruction. *)

From Stdlib Require Import ZArith Lia String.
From stdpp Require Import base list sets strings.
From S2P Require Import Prelude Terms Quote Chain Account Price Vault Wire.

Open Scope Z_scope.

(* chain/vault/trading.rs:16-24 swap limits *)
Definition MAX_VAULT_SWAP_ROUTE_ACCOUNTS : nat := 64.
Definition MAX_VAULT_SWAP_PATH_ACCOUNTS : nat := 128.
Definition MAX_VAULT_SWAP_ROUTE_DATA : nat := 1024.
Definition MAX_VAULT_SWAP_HOPS : nat := 4.
Definition NO_AMOUNT_OFFSET : Z := 65535.

(* chain/vault/trading.rs:215-221 VaultSwapAmountOffset *)
Record VaultSwapAmountOffset := { ao_offset : Z; ao_num : Z; ao_den : Z }.

(* chain/vault/trading.rs:201-213 VaultSwapHop *)
Record VaultSwapHop := {
  h_program : key;
  h_source : key;
  h_destination : key;
  h_accounts : list AccountMeta;
  h_data : bytes;
  h_amount_offset : option VaultSwapAmountOffset;
}.

(* chain/vault/trading.rs:223-235 VaultSwapPlan *)
Record VaultSwapPlan := {
  p_price_section : list AccountMeta;
  p_amount_in : Z;
  p_minimum_out : Z;
  p_valid_until : Z;
  p_hops : list VaultSwapHop;
}.

(* chain/vault/trading.rs:259-264 VaultStagingAsset *)
Record VaultStagingAsset := { sa_mint : key; sa_token_program : key }.

Module VaultSwapKind.
(* chain/vault/trading.rs:237-257 VaultSwapKind *)
Inductive t :=
| Rebalance (second_to_main : bool)
| Recovery
| Closing
| RecoveryStage (asset : VaultStagingAsset) (generation : Z) (main_price_section : list AccountMeta)
| Staging (step : VaultStagingStep.t) (leg : VaultLeg.t) (asset : VaultStagingAsset) (generation : Z).

(* chain/vault/trading.rs:274-279 VaultSwapKind::fixed_accounts *)
Definition fixed_accounts (k : t) : nat :=
  match k with
  | Rebalance _ | Staging _ _ _ _ | RecoveryStage _ _ _ => 14
  | Recovery | Closing => 11
  end.

(* chain/vault/trading.rs:281-288 VaultSwapKind::header_len *)
Definition header_len (k : t) : nat :=
  match k with
  | Rebalance _ => 27
  | Recovery | Closing => 26
  | Staging _ _ _ _ | RecoveryStage _ _ _ => 36
  end.
End VaultSwapKind.

Module Swapping.
Section swapping.
Context `{P : Pda}.
Abbreviation ata := derive_associated_token_address (only parsing).

(* chain/vault/trading.rs:267-270 VaultStagingAsset::vault_ata *)
Definition asset_ata (asset : VaultStagingAsset) (vault : key) : key :=
  ata vault (sa_mint asset) (sa_token_program asset).

(* chain/vault/trading.rs:738-769 VaultManager::swap_legs (staging) *)
Definition staging_legs (self : VaultManager) (step : VaultStagingStep.t) (leg : VaultLeg.t)
  (asset : VaultStagingAsset) : cres (key * key) :=
  let a := vm_addresses self in
  let args := vm_args self in
  _ ← reject_if (bool_decide (sa_mint asset ∈ [a_main_mint args; a_second_mint args; a_share_mint args]))
        (VaultChainError.InvalidInput "the staging mint must not be a vault mint");
  _ ← reject_if (negb (bool_decide (sa_token_program asset = TOKEN_PROGRAM_ID))
                 && negb (bool_decide (sa_token_program asset = TOKEN_2022_PROGRAM_ID)))
        (VaultChainError.InvalidInput "staging token program is not SPL Token");
  let leg := match leg with VaultLeg.Main => ad_vault_main_ata a | VaultLeg.Second => ad_vault_second_ata a end in
  let staging := asset_ata asset (ad_vault a) in
  Ok match step with
     | VaultStagingStep.Stage => (leg, staging)
     | VaultStagingStep.Unstage => (staging, leg)
     end.

(* chain/vault/trading.rs:723-769 VaultManager::swap_legs *)
Definition swap_legs (self : VaultManager) (kind : VaultSwapKind.t) : cres (key * key) :=
  let a := vm_addresses self in
  let main := ad_vault_main_ata a in
  let second := ad_vault_second_ata a in
  match kind with
  | VaultSwapKind.RecoveryStage asset _ _ => staging_legs self VaultStagingStep.Stage VaultLeg.Second asset
  | VaultSwapKind.Staging step leg asset _ => staging_legs self step leg asset
  | VaultSwapKind.Rebalance false => Ok (main, second)
  | _ => Ok (second, main)
  end.

Definition has_account (hop : VaultSwapHop) (k : key) : bool :=
  existsb (fun meta => bool_decide (pubkey meta = k)) (h_accounts hop).

(* chain/vault/trading.rs:677-717 VaultManager::validate_swap (hop) *)
Definition validate_hop (vault input output source : key) (index : nat) (last : bool) (hop : VaultSwapHop)
  : cres unit :=
  let invalid bad reason := reject_if bad (VaultChainError.InvalidInput reason) in
  _ ← invalid ((length (h_accounts hop) =? 0)%nat
               || (MAX_VAULT_SWAP_ROUTE_ACCOUNTS <? length (h_accounts hop))%nat)
        "invalid vault swap hop account count"%string;
  _ ← invalid ((length (h_data hop) =? 0)%nat) "vault swap hop needs data"%string;
  _ ← invalid (match h_amount_offset hop with
               | Some amount =>
                   (index =? 0)%nat || (ao_offset amount =? NO_AMOUNT_OFFSET)
                   || (length (h_data hop) <? Z.to_nat (ao_offset amount) + 8)%nat
                   || (ao_num amount =? 0) || (ao_den amount =? 0)
               | None => false
               end)
        "amount_offset needs a transit source, 8 bytes inside the data and a nonzero scale"%string;
  _ ← invalid (negb (bool_decide (h_source hop = source))
               || (last && negb (bool_decide (h_destination hop = output)))
               || (negb last && (bool_decide (h_destination hop = input)
                                 || bool_decide (h_destination hop = output))))
        "vault swap hops must chain input leg, transit ATAs, output leg"%string;
  _ ← invalid (existsb (fun meta => is_signer meta && negb (bool_decide (pubkey meta = vault))) (h_accounts hop))
        "only the vault PDA may sign a hop CPI"%string;
  _ ← invalid (existsb (fun meta =>
                 (bool_decide (pubkey meta = input) || bool_decide (pubkey meta = output))
                 && negb (bool_decide (pubkey meta = h_source hop))
                 && negb (bool_decide (pubkey meta = h_destination hop))) (h_accounts hop))
        "a leg ATA may appear only as its hop's source or destination"%string;
  invalid (negb (has_account hop vault) || negb (has_account hop (h_source hop))
           || negb (has_account hop (h_destination hop)))
    "hop must contain the vault, its source and its destination"%string.

(** The loop, from the hop at [index] spending [source]. *)
(* chain/vault/trading.rs:674-719 VaultManager::validate_swap (loop) *)
Fixpoint validate_hops (vault input output source : key) (index : nat) (hops : list VaultSwapHop) : cres unit :=
  match hops with
  | [] => Ok tt
  | hop :: rest =>
      _ ← validate_hop vault input output source index (match rest with [] => true | _ => false end) hop;
      validate_hops vault input output (h_destination hop) (S index) rest
  end.

(* chain/vault/trading.rs:654-721 VaultManager::validate_swap *)
Definition validate_swap (self : VaultManager) (kind : VaultSwapKind.t) (plan : VaultSwapPlan) : cres unit :=
  let invalid bad reason := reject_if bad (VaultChainError.InvalidInput reason) in
  _ ← invalid ((p_amount_in plan =? 0) || (p_minimum_out plan =? 0) || (p_valid_until plan =? 0))
        "swap amounts and validity must be non-zero"%string;
  let hops := p_hops plan in
  _ ← invalid ((length hops =? 0)%nat || (MAX_VAULT_SWAP_HOPS <? length hops)%nat)
        "invalid vault swap hop count"%string;
  let accounts := sum_list (map (fun hop => length (h_accounts hop) + 3)%nat hops) in
  let data := sum_list (map (fun hop => length (h_data hop)) hops) in
  _ ← invalid ((MAX_VAULT_SWAP_PATH_ACCOUNTS <? accounts)%nat || (MAX_VAULT_SWAP_ROUTE_DATA <? data)%nat)
        "vault swap hops exceed the account or data cap"%string;
  '(input, output) ← swap_legs self kind;
  validate_hops (ad_vault (vm_addresses self)) input output input 0 hops.

(** [hop.data.len() as u16] and the like keep the low bits. *)
(* chain/vault/trading.rs:630-640 VaultManager::swap (hop data) *)
Definition hop_bytes (hop : VaultSwapHop) : bytes :=
  [Z.of_nat (length (h_accounts hop)) mod 2 ^ 8] ++
  to_le_bytes 2 (Z.of_nat (length (h_data hop)) mod 2 ^ 16) ++
  match h_amount_offset hop with
  | Some amount => to_le_bytes 2 (ao_offset amount) ++ to_le_bytes 8 (ao_num amount) ++ to_le_bytes 8 (ao_den amount)
  | None => to_le_bytes 2 NO_AMOUNT_OFFSET
  end ++ h_data hop.

(* chain/vault/trading.rs:641-649 VaultManager::swap (hop accounts) *)
Definition hop_metas (hop : VaultSwapHop) : list AccountMeta :=
  [new_readonly (h_program hop) false; meta_new (h_source hop) false; meta_new (h_destination hop) false] ++
  map (fun meta => {| pubkey := pubkey meta; is_signer := false; is_writable := is_writable meta |})
    (h_accounts hop).

(* chain/vault/trading.rs:512-606 VaultManager::swap (prefix) *)
Definition swap_prefix (self : VaultManager) (kind : VaultSwapKind.t)
  : cres (list AccountMeta * VaultIx.t * bytes) :=
  let a := vm_addresses self in
  let args := vm_args self in
  let actor := new_readonly (a_actor args) true in
  let vault := meta_new (ad_vault a) false in
  let policy := new_readonly (ad_policy a) false in
  let custody := [meta_new (ad_vault_main_ata a) false; meta_new (ad_vault_second_ata a) false] in
  let pair := [new_readonly (a_main_mint args) false; new_readonly (a_second_mint args) false;
               new_readonly (a_main_token_program args) false; new_readonly (a_second_token_program args) false] in
  match kind with
  | VaultSwapKind.RecoveryStage _ _ _ => Panic
  | VaultSwapKind.Rebalance second_to_main =>
      Ok ([actor; vault; policy; new_readonly (ad_delegate a) false; new_readonly (ad_global_config a) false]
          ++ custody ++ pair ++
          [new_readonly (a_share_mint args) false; new_readonly (ad_manager_stake_ata a) false],
          VaultIx.VaultSpotRebalance, [u8_of_bool second_to_main])
  | VaultSwapKind.Recovery =>
      Ok ([actor; vault; policy] ++ custody ++ pair ++ [new_readonly (a_share_mint args) false],
          VaultIx.RecoveryConvertToMain, [])
  | VaultSwapKind.Closing =>
      Ok ([actor; vault; policy] ++ custody ++ pair ++ [new_readonly (ad_global_config a) false],
          VaultIx.ClosingConvertToMain, [])
  | VaultSwapKind.Staging step leg asset _ =>
      let '(leg_ata, leg_mint, leg_program, leg) :=
        match leg with
        | VaultLeg.Main => (ad_vault_main_ata a, a_main_mint args, a_main_token_program args, 0)
        | VaultLeg.Second => (ad_vault_second_ata a, a_second_mint args, a_second_token_program args, 1)
        end in
      let step := match step with VaultStagingStep.Stage => 0 | VaultStagingStep.Unstage => 1 end in
      Ok ([actor; vault; policy; new_readonly (ad_delegate a) false; new_readonly (ad_global_config a) false;
           meta_new leg_ata false; new_readonly leg_mint false; new_readonly leg_program false;
           meta_new (asset_ata asset (ad_vault a)) false; new_readonly (sa_mint asset) false;
           new_readonly (sa_token_program asset) false; new_readonly (a_share_mint args) false;
           new_readonly (ad_manager_stake_ata a) false],
          VaultIx.VaultStagingSwap, [step; leg])
  end.

(** Everything but a recovery stage. *)
(* chain/vault/trading.rs:607-651 VaultManager::swap (encoding) *)
Definition swap_direct (self : VaultManager) (kind : VaultSwapKind.t) (plan : VaultSwapPlan) : cres Instruction :=
  '(metas, ix, prefix) ← swap_prefix self kind;
  let metas := metas ++ [new_readonly (ad_swap_venues (vm_addresses self)) false] ++ p_price_section plan ++
               concat (map hop_metas (p_hops plan)) in
  let data := prefix ++
    concat (map (to_le_bytes 8) [p_amount_in plan; p_minimum_out plan; p_valid_until plan]) ++
    match kind with VaultSwapKind.Staging _ _ _ generation => to_le_bytes 8 generation | _ => [] end ++
    [Z.of_nat (length (p_hops plan)) mod 2 ^ 8] ++ concat (map hop_bytes (p_hops plan)) in
  Ok (Manager.instruction self ix metas data).

(** [Vec::splice(at..at, new)]. *)
Definition splice {A} (l : list A) (at_ : nat) (new : list A) : cres (list A) :=
  if (at_ <=? length l)%nat then Ok (take at_ l ++ new ++ drop at_ l) else Panic.

(* chain/vault/trading.rs:476-511 VaultManager::swap (recovery stage) *)
Definition recovery_stage (self : VaultManager) (asset : VaultStagingAsset) (generation : Z)
  (main_price_section : list AccountMeta) (plan : VaultSwapPlan) : cres Instruction :=
  _ ← reject_if ((length main_price_section =? 0)%nat
                 || existsb (fun meta => is_writable meta || is_signer meta) main_price_section)
        (VaultChainError.InvalidInput "recovery main price section must be nonempty and read-only");
  let inner := VaultSwapKind.Staging VaultStagingStep.Stage VaultLeg.Second asset generation in
  _ ← validate_swap self inner plan;
  instruction ← swap_direct self inner plan;
  _ ← index_p (data instruction) 1;
  let at_ := (VaultSwapKind.fixed_accounts (VaultSwapKind.RecoveryStage asset generation main_price_section)
              + length (p_price_section plan))%nat in
  metas ← splice (accounts instruction) at_
    ([meta_new (ad_vault_main_ata (vm_addresses self)) false;
      new_readonly (a_main_token_program (vm_args self)) false] ++ main_price_section);
  Ok {| program_id := program_id instruction; accounts := metas;
        data := <[1%nat := 2]> (data instruction) |}.

(* chain/vault/trading.rs:469-652 VaultManager::swap *)
Definition swap (self : VaultManager) (kind : VaultSwapKind.t) (plan : VaultSwapPlan) : cres Instruction :=
  _ ← validate_swap self kind plan;
  match kind with
  | VaultSwapKind.RecoveryStage asset generation section => recovery_stage self asset generation section plan
  | _ => swap_direct self kind plan
  end.
End swapping.
End Swapping.

(** ** Reading the hops of a served instruction *)

(** [rest.split_at_checked(n)]. *)
Definition split_at_checked {A} (l : list A) (n : nat) : option (list A * list A) :=
  if (n <=? length l)%nat then Some (take n l, drop n l) else None.

Definition truncated : VaultIntentError.t := VaultIntentError.Route "swap hops are truncated".

(* chain/vault/served.rs:768-787 served_hops (amount offset) *)
Definition served_amount (offset : Z) (rest : bytes) : ires (option VaultSwapAmountOffset * bytes) :=
  if offset =? NO_AMOUNT_OFFSET then Ok (None, rest)
  else
    '(num, rest) ← ok_or (split_at_checked rest 8) truncated;
    '(den, rest) ← ok_or (split_at_checked rest 8) truncated;
    Ok (Some {| ao_offset := offset; ao_num := from_le_bytes num; ao_den := from_le_bytes den |}, rest).

(* chain/vault/served.rs:757-808 served_hops *)
Fixpoint served_hops (count : nat) (data : bytes) (metas : list AccountMeta) : ires (list VaultSwapHop) :=
  match count with
  | O => Ok []
  | S count =>
      match data with
      | account_count :: lo :: hi :: offset_lo :: offset_hi :: rest =>
          '(amount_offset, rest) ← served_amount (from_le_bytes [offset_lo; offset_hi]) rest;
          '(hop_data, rest) ← ok_or (split_at_checked rest (Z.to_nat (from_le_bytes [lo; hi]))) truncated;
          match metas with
          | program :: source :: destination :: tail =>
              '(cpi, tail) ← ok_or (split_at_checked tail (Z.to_nat account_count)) truncated;
              hops ← served_hops count rest tail;
              Ok ({| h_program := pubkey program; h_source := pubkey source;
                     h_destination := pubkey destination; h_accounts := cpi; h_data := hop_data;
                     h_amount_offset := amount_offset |} :: hops)
          | _ => Err truncated
          end
      | _ => Err truncated
      end
  end.

(** ** What a valid plan is *)

Import Swapping.

(** Each hop spends what the one before filled; the last fills [output]; transit accounts
    are neither leg. *)
Fixpoint chained (input output source : key) (hops : list VaultSwapHop) : Prop :=
  match hops with
  | [] => False
  | [hop] => h_source hop = source /\ h_destination hop = output
  | hop :: rest =>
      h_source hop = source /\ h_destination hop <> input /\ h_destination hop <> output /\
      chained input output (h_destination hop) rest
  end.

(** What holds of every hop by itself; [first] is whether it spends the input leg. *)
Record hop_ok (vault input output : key) (first : bool) (hop : VaultSwapHop) : Prop := {
  ho_accounts : (1 <= length (h_accounts hop) <= MAX_VAULT_SWAP_ROUTE_ACCOUNTS)%nat;
  ho_data : h_data hop <> [];
  ho_amount : match h_amount_offset hop with
    | None => True
    | Some amount => first = false /\ ao_offset amount <> NO_AMOUNT_OFFSET /\
        (Z.to_nat (ao_offset amount) + 8 <= length (h_data hop))%nat /\ ao_num amount <> 0 /\ ao_den amount <> 0
    end;
  ho_signers : forall m, m ∈ h_accounts hop -> is_signer m = true -> pubkey m = vault;
  ho_legs : forall m, m ∈ h_accounts hop -> pubkey m = input \/ pubkey m = output ->
    pubkey m = h_source hop \/ pubkey m = h_destination hop;
  ho_contains : forall k, k ∈ [vault; h_source hop; h_destination hop] -> exists m, m ∈ h_accounts hop /\ pubkey m = k;
}.

Definition hops_ok (vault input output : key) (hops : list VaultSwapHop) : Prop :=
  forall i hop, hops !! i = Some hop -> hop_ok vault input output (i =? 0)%nat hop.

Record plan_ok (vault input output : key) (plan : VaultSwapPlan) : Prop := {
  po_amounts : p_amount_in plan <> 0 /\ p_minimum_out plan <> 0 /\ p_valid_until plan <> 0;
  po_count : (1 <= length (p_hops plan) <= MAX_VAULT_SWAP_HOPS)%nat;
  po_accounts : (sum_list (map (fun hop => length (h_accounts hop) + 3) (p_hops plan)) <= MAX_VAULT_SWAP_PATH_ACCOUNTS)%nat;
  po_data : (sum_list (map (fun hop => length (h_data hop)) (p_hops plan)) <= MAX_VAULT_SWAP_ROUTE_DATA)%nat;
  po_chain : chained input output input (p_hops plan);
  po_hops : hops_ok vault input output (p_hops plan);
}.

Lemma existsb_false {A} (f : A -> bool) l : existsb f l = false <-> forall x, x ∈ l -> f x = false.
Proof.
  rewrite <- not_true_iff_false, existsb_exists. setoid_rewrite list_elem_of_In. split.
  - intros H x Hx. apply not_true_iff_false. naive_solver.
  - intros H (x & Hx & Hf). rewrite H in Hf; done.
Qed.

Lemma has_account_true hop k : has_account hop k = true <-> exists m, m ∈ h_accounts hop /\ pubkey m = k.
Proof.
  unfold has_account. rewrite existsb_exists. setoid_rewrite bool_decide_eq_true. by setoid_rewrite list_elem_of_In.
Qed.

Lemma reject_bind_Ok {E A} b (e : E) (k : unit -> res E A) a :
  (reject_if b e ≫= k) = Ok a <-> b = false /\ k tt = Ok a.
Proof. destruct b; cbn; naive_solver. Qed.

Section hop.
Context (vault input output source : key) (hop : VaultSwapHop).

Lemma bad_accounts :
  ((length (h_accounts hop) =? 0) || (MAX_VAULT_SWAP_ROUTE_ACCOUNTS <? length (h_accounts hop)))%nat = false <->
  (1 <= length (h_accounts hop) <= MAX_VAULT_SWAP_ROUTE_ACCOUNTS)%nat.
Proof. rewrite orb_false_iff, Nat.eqb_neq, Nat.ltb_ge. lia. Qed.

Lemma bad_data : (length (h_data hop) =? 0)%nat = false <-> h_data hop <> [].
Proof. rewrite Nat.eqb_neq. destruct (h_data hop); simpl; naive_solver. Qed.

Lemma bad_amount index :
  match h_amount_offset hop with
  | Some amount => (index =? 0)%nat || (ao_offset amount =? NO_AMOUNT_OFFSET)
      || (length (h_data hop) <? Z.to_nat (ao_offset amount) + 8)%nat || (ao_num amount =? 0) || (ao_den amount =? 0)
  | None => false
  end = false <->
  match h_amount_offset hop with
  | None => True
  | Some amount => (index =? 0)%nat = false /\ ao_offset amount <> NO_AMOUNT_OFFSET /\
      (Z.to_nat (ao_offset amount) + 8 <= length (h_data hop))%nat /\ ao_num amount <> 0 /\ ao_den amount <> 0
  end.
Proof.
  destruct (h_amount_offset hop); [|done].
  rewrite !orb_false_iff, !Z.eqb_neq, Nat.ltb_ge. tauto.
Qed.

Lemma bad_chain (last : bool) :
  negb (bool_decide (h_source hop = source)) || (last && negb (bool_decide (h_destination hop = output)))
  || (negb last && (bool_decide (h_destination hop = input) || bool_decide (h_destination hop = output))) = false <->
  h_source hop = source /\
  (if last then h_destination hop = output else h_destination hop <> input /\ h_destination hop <> output).
Proof. repeat case_bool_decide; destruct last; cbn; naive_solver. Qed.

Lemma bad_signers :
  existsb (fun meta => is_signer meta && negb (bool_decide (pubkey meta = vault))) (h_accounts hop) = false <->
  forall m, m ∈ h_accounts hop -> is_signer m = true -> pubkey m = vault.
Proof.
  rewrite existsb_false. apply forall_proper. intros m. case_bool_decide; destruct (is_signer m); cbn; naive_solver.
Qed.

Lemma bad_legs :
  existsb (fun meta => (bool_decide (pubkey meta = input) || bool_decide (pubkey meta = output))
      && negb (bool_decide (pubkey meta = h_source hop))
      && negb (bool_decide (pubkey meta = h_destination hop))) (h_accounts hop) = false <->
  forall m, m ∈ h_accounts hop -> pubkey m = input \/ pubkey m = output ->
    pubkey m = h_source hop \/ pubkey m = h_destination hop.
Proof. rewrite existsb_false. apply forall_proper. intros m. repeat case_bool_decide; cbn; naive_solver. Qed.

Lemma bad_contains :
  negb (has_account hop vault) || negb (has_account hop (h_source hop)) || negb (has_account hop (h_destination hop))
    = false <->
  forall k, k ∈ [vault; h_source hop; h_destination hop] -> exists m, m ∈ h_accounts hop /\ pubkey m = k.
Proof.
  rewrite !orb_false_iff, !negb_false_iff, !has_account_true. split.
  - intros [[H1 H2] H3] k. rewrite !elem_of_cons, elem_of_nil. naive_solver.
  - intros H. split_and!; apply H; set_solver.
Qed.

Lemma validate_hop_Ok index last :
  validate_hop vault input output source index last hop = Ok tt <->
  hop_ok vault input output (index =? 0)%nat hop /\ h_source hop = source /\
  (if last then h_destination hop = output else h_destination hop <> input /\ h_destination hop <> output).
Proof.
  unfold validate_hop. cbv zeta. rewrite !reject_bind_Ok, reject_if_Ok.
  rewrite bad_accounts, bad_data, bad_amount, bad_chain, bad_signers, bad_legs, bad_contains. split.
  - intros (? & ? & ? & ? & ? & ? & ?). by split.
  - intros ([? ? ? ? ? ?] & ?). tauto.
Qed.
End hop.

Lemma validate_hops_Ok vault input output source index hops :
  hops <> [] ->
  validate_hops vault input output source index hops = Ok tt <->
  chained input output source hops /\
  forall i hop, hops !! i = Some hop -> hop_ok vault input output (index + i =? 0)%nat hop.
Proof.
  revert source index. induction hops as [|hop [|hop2 rest] IH]; intros source index Hne; [done|..]; cbn [validate_hops].
  - rewrite bind_Ok. split.
    + intros ([] & H%validate_hop_Ok & _). split; [by cbn; tauto|].
      intros [|i] h; [|done]. intros [= <-]. rewrite Nat.add_0_r. tauto.
    + intros [[Hs Hd] Hh]. exists tt. split; [|done]. apply validate_hop_Ok. split_and!; try done.
      rewrite <- (Nat.add_0_r index). by apply Hh.
  - rewrite bind_Ok. specialize (IH (h_destination hop) (S index) ltac:(done)). split.
    + intros ([] & (Hok & Hs & Hd1 & Hd2)%validate_hop_Ok & [Hc Hh]%IH). split; [done|].
      intros [|i] h; [intros [= <-]; by rewrite Nat.add_0_r|]. intros Hi. specialize (Hh i h Hi).
      by rewrite Nat.add_succ_r.
    + intros [(Hs & Hd1 & Hd2 & Hc) Hh]. exists tt. split.
      * apply validate_hop_Ok. split_and!; try done. rewrite <- (Nat.add_0_r index). by apply Hh.
      * apply IH. split; [done|]. intros i h Hi. rewrite Nat.add_succ_l, <- Nat.add_succ_r. by apply Hh.
Qed.

Section validation.
Context `{P : Pda}.

Lemma validate_swap_Ok self kind plan :
  validate_swap self kind plan = Ok tt <->
  exists input output, swap_legs self kind = Ok (input, output) /\
    plan_ok (ad_vault (vm_addresses self)) input output plan.
Proof.
  unfold validate_swap. cbv zeta. rewrite !reject_bind_Ok, bind_Ok.
  rewrite !orb_false_iff, !Z.eqb_neq, Nat.eqb_neq, !Nat.ltb_ge. split.
  - intros ([[Ha Hm] Hv] & [Hn Hl] & [Hacc Hdat] & [input output] & Hlegs & H).
    assert (p_hops plan <> []) by (intros E; rewrite E in Hn; done).
    apply validate_hops_Ok in H as [Hc Hh]; [|done]. exists input, output. split; [done|].
    split; try done. lia.
  - intros (input & output & Hlegs & [(Ha & Hm & Hv) Hc Hacc Hdat Hch Hh]).
    split_and!; try done; try lia. exists (input, output). split; [done|].
    apply validate_hops_Ok; [|done]. intros E. rewrite E in Hc. simpl in Hc. lia.
Qed.

Lemma validate_hop_returns vault input output source index last hop :
  returns (validate_hop vault input output source index last hop).
Proof. unfold validate_hop. cbv zeta. repeat returns_step. Qed.

Lemma validate_swap_returns self kind plan : returns (validate_swap self kind plan).
Proof.
  assert (Hh : forall hops vault input output source index, returns (validate_hops vault input output source index hops)).
  { induction hops as [|hop hops IH]; intros; cbn [validate_hops]; [done|].
    apply returns_bind; [apply validate_hop_returns|]. intros. apply IH. }
  unfold validate_swap. cbv zeta. do 3 (returns_step; [apply returns_reject_if|]).
  apply returns_bind; [|intros [input output] _; apply Hh].
  unfold swap_legs, staging_legs. cbv zeta. repeat (returns_step || done).
Qed.
End validation.

(** ** The hops read back *)

(** The transaction never asks a hop's account to sign: the program signs for the vault. *)
Definition unsigned (m : AccountMeta) : AccountMeta :=
  {| pubkey := pubkey m; is_signer := false; is_writable := is_writable m |}.
Definition unsigned_hop (h : VaultSwapHop) : VaultSwapHop :=
  {| h_program := h_program h; h_source := h_source h; h_destination := h_destination h;
     h_accounts := map unsigned (h_accounts h); h_data := h_data h; h_amount_offset := h_amount_offset h |}.

(** The integers of the plan are in range. *)
Definition amount_typed (o : option VaultSwapAmountOffset) : Prop :=
  match o with None => True | Some a => fits 16 (ao_offset a) /\ fits 64 (ao_num a) /\ fits 64 (ao_den a) end.
Definition plan_typed (plan : VaultSwapPlan) : Prop :=
  Forall (fun h => amount_typed (h_amount_offset h)) (p_hops plan) /\
  Forall (fits 64) [p_amount_in plan; p_minimum_out plan; p_valid_until plan].

(** What the hop encoding can hold. *)
Definition encodable_hop (h : VaultSwapHop) : Prop :=
  (length (h_accounts h) < 256)%nat /\ Z.of_nat (length (h_data h)) < 2 ^ 16 /\ amount_typed (h_amount_offset h) /\
  match h_amount_offset h with None => True | Some a => ao_offset a <> NO_AMOUNT_OFFSET end.

Lemma split_at_app {A} (a b : list A) n : n = length a -> split_at_checked (a ++ b) n = Some (a, b).
Proof.
  intros ->. unfold split_at_checked. rewrite length_app, (proj2 (Nat.leb_le _ _)) by lia.
  by rewrite take_app_length, drop_app_length.
Qed.

Lemma le_two z : fits 16 z -> exists lo hi, to_le_bytes 2 z = [lo; hi] /\ from_le_bytes [lo; hi] = z.
Proof. intros H. eexists _, _. split; [reflexivity|]. apply (from_to_le_bytes 2 z H). Qed.

Lemma served_amount_encode o lo hi rest :
  amount_typed o -> match o with None => True | Some a => ao_offset a <> NO_AMOUNT_OFFSET end ->
  from_le_bytes [lo; hi] = (match o with Some a => ao_offset a | None => NO_AMOUNT_OFFSET end) ->
  served_amount (from_le_bytes [lo; hi])
    ((match o with Some a => to_le_bytes 8 (ao_num a) ++ to_le_bytes 8 (ao_den a) | None => [] end) ++ rest)
  = Ok (o, rest).
Proof.
  intros Ht Hne ->. unfold served_amount. destruct o as [a|]; [|done]. destruct Ht as (_ & Hn & Hd).
  rewrite (proj2 (Z.eqb_neq _ _) Hne), <- !app_assoc.
  rewrite split_at_app by (by rewrite length_to_le_bytes). cbn [ok_or mbind res_bind].
  rewrite split_at_app by (by rewrite length_to_le_bytes). cbn [ok_or mbind res_bind].
  rewrite !from_to_le_bytes by done. by destruct a.
Qed.

Lemma served_hops_cons h rest metas hops count :
  encodable_hop h -> served_hops count rest metas = Ok hops ->
  served_hops (S count) (hop_bytes h ++ rest) (hop_metas h ++ metas) = Ok (unsigned_hop h :: hops).
Proof.
  intros (Ha & Hd & Ht & Hne) IH. unfold hop_bytes.
  destruct (le_two (Z.of_nat (length (h_data h)) mod 2 ^ 16)) as (lo & hi & El & Ev);
    [apply Z.mod_pos_bound; lia|].
  rewrite Z.mod_small in Ev by lia.
  destruct (le_two (match h_amount_offset h with Some a => ao_offset a | None => NO_AMOUNT_OFFSET end))
    as (olo & ohi & Eo & Eov).
  { destruct (h_amount_offset h); [apply Ht|]. unfold NO_AMOUNT_OFFSET, fits. lia. }
  rewrite El. replace (match h_amount_offset h with
    | Some amount => to_le_bytes 2 (ao_offset amount) ++ to_le_bytes 8 (ao_num amount) ++ to_le_bytes 8 (ao_den amount)
    | None => to_le_bytes 2 NO_AMOUNT_OFFSET end) with
    ([olo; ohi] ++ match h_amount_offset h with
      | Some a => to_le_bytes 8 (ao_num a) ++ to_le_bytes 8 (ao_den a) | None => [] end)
    by (rewrite <- Eo; destruct (h_amount_offset h); [done|by rewrite app_nil_r]).
  rewrite <- !app_assoc. cbn [app served_hops].
  rewrite (served_amount_encode (h_amount_offset h)) by done. cbn [mbind res_bind].
  rewrite Ev, Nat2Z.id, split_at_app by done. cbn [ok_or mbind res_bind hop_metas app].
  change (map (fun meta => {| pubkey := pubkey meta; is_signer := false; is_writable := is_writable meta |}) (h_accounts h))
    with (map unsigned (h_accounts h)).
  rewrite Z.mod_small, Nat2Z.id by lia.
  rewrite split_at_app by (by rewrite length_map). cbn [ok_or mbind res_bind].
  rewrite IH. done.
Qed.

Lemma served_hops_encode hops :
  Forall encodable_hop hops ->
  served_hops (length hops) (concat (map hop_bytes hops)) (concat (map hop_metas hops)) = Ok (map unsigned_hop hops).
Proof.
  induction 1 as [|h hops Hh _ IH]; [done|]. cbn [length map concat]. by apply served_hops_cons.
Qed.

(** A valid plan can be encoded. *)
Lemma plan_encodable vault input output plan :
  plan_ok vault input output plan -> plan_typed plan -> Forall encodable_hop (p_hops plan).
Proof.
  intros [_ _ _ Hd _ Hh] [Ht _]. apply Forall_lookup. intros i h Hi. rewrite Forall_lookup in Ht.
  destruct (Hh i h Hi) as [Ha _ Hao _ _ _]. unfold MAX_VAULT_SWAP_ROUTE_ACCOUNTS, MAX_VAULT_SWAP_ROUTE_DATA in *.
  assert (length (h_data h) <= sum_list (map (fun hop => length (h_data hop)) (p_hops plan)))%nat.
  { clear -Hi. revert i Hi. induction (p_hops plan) as [|x l IH]; intros [|i] Hi; try done; cbn.
    - injection Hi as ->. lia.
    - apply IH in Hi. lia. }
  split_and!; [lia|lia|by eapply Ht|]. by destruct (h_amount_offset h); [apply Hao|].
Qed.

(** ** The instruction of a swap *)

Section encoding.
Context `{P : Pda}.

(** Where the parts of the instruction are: bytes before the amounts, the generation, and
    the accounts a recovery stage inserts before the hops. *)
Definition lead_len (kind : VaultSwapKind.t) : nat :=
  match kind with
  | VaultSwapKind.Rebalance _ => 2
  | VaultSwapKind.Recovery | VaultSwapKind.Closing => 1
  | VaultSwapKind.Staging _ _ _ _ | VaultSwapKind.RecoveryStage _ _ _ => 3
  end.
Definition generation_bytes (kind : VaultSwapKind.t) : bytes :=
  match kind with
  | VaultSwapKind.Staging _ _ _ g | VaultSwapKind.RecoveryStage _ g _ => to_le_bytes 8 g
  | _ => []
  end.
Definition recovery_tail (self : VaultManager) (kind : VaultSwapKind.t) : list AccountMeta :=
  match kind with
  | VaultSwapKind.RecoveryStage _ _ section =>
      [meta_new (ad_vault_main_ata (vm_addresses self)) false;
       new_readonly (a_main_token_program (vm_args self)) false] ++ section
  | _ => []
  end.
Definition section_ok (kind : VaultSwapKind.t) : Prop :=
  match kind with
  | VaultSwapKind.RecoveryStage _ _ section =>
      section <> [] /\ forall m, m ∈ section -> is_writable m = false /\ is_signer m = false
  | _ => True
  end.
Definition amounts_bytes (plan : VaultSwapPlan) : bytes :=
  concat (map (to_le_bytes 8) [p_amount_in plan; p_minimum_out plan; p_valid_until plan]).

(** [ix] is [lead], the amounts, the generation, the hop count and the hops; its accounts
    are [head], the price section, the recovery tail and the hops'. *)
Definition laid_out (self : VaultManager) (kind : VaultSwapKind.t) (plan : VaultSwapPlan) (ix : Instruction)
  (lead : bytes) (head : list AccountMeta) : Prop :=
  program_id ix = a_program_id (vm_args self) /\
  length lead = lead_len kind /\ length head = VaultSwapKind.fixed_accounts kind /\
  data ix = lead ++ amounts_bytes plan ++ generation_bytes kind ++ [Z.of_nat (length (p_hops plan))] ++
            concat (map hop_bytes (p_hops plan)) /\
  accounts ix = head ++ p_price_section plan ++ recovery_tail self kind ++ concat (map hop_metas (p_hops plan)) /\
  map pubkey (filter (fun m => is_signer m = true) head) = [a_actor (vm_args self)].

Lemma swap_prefix_shape self kind :
  match kind with VaultSwapKind.RecoveryStage _ _ _ => False | _ => True end ->
  exists metas ix prefix, swap_prefix self kind = Ok (metas, ix, prefix) /\
    S (length prefix) = lead_len kind /\ S (length metas) = VaultSwapKind.fixed_accounts kind /\
    map pubkey (filter (fun m => is_signer m = true) metas) = [a_actor (vm_args self)].
Proof.
  intros Hk. destruct kind as [b| | | |step leg asset g]; [..|destruct leg]; try done;
    eexists _, _, _; (split; [reflexivity|]); done.
Qed.

Lemma swap_direct_laid_out self kind plan :
  (length (p_hops plan) < 256)%nat ->
  match kind with VaultSwapKind.RecoveryStage _ _ _ => False | _ => True end ->
  exists ix lead head, swap_direct self kind plan = Ok ix /\ laid_out self kind plan ix lead head.
Proof.
  intros Hl Hk. destruct (swap_prefix_shape self kind Hk) as (metas & ix & prefix & Hp & Hlen & Hfix & Hsig).
  unfold swap_direct. rewrite Hp. cbn [mbind res_bind].
  eexists _, (VaultIx.code ix :: prefix), (metas ++ [new_readonly (ad_swap_venues (vm_addresses self)) false]).
  split; [reflexivity|]. unfold laid_out, amounts_bytes. cbn [program_id data accounts Manager.instruction].
  rewrite Z.mod_small by lia. rewrite length_app, filter_app, map_app, Hsig. cbn [length].
  split_and!; try done; [lia| |].
  - cbn [app]. f_equal. f_equal. f_equal. by destruct kind.
  - rewrite <- !app_assoc. cbn [app]. destruct kind; done.
Qed.

Lemma recovery_stage_laid_out self asset g section plan ix lead head :
  laid_out self (VaultSwapKind.Staging VaultStagingStep.Stage VaultLeg.Second asset g) plan ix lead head ->
  (length (p_hops plan) < 256)%nat ->
  swap_direct self (VaultSwapKind.Staging VaultStagingStep.Stage VaultLeg.Second asset g) plan = Ok ix ->
  exists metas, index_p (E := VaultChainError.t) (data ix) 1 <> Panic /\
    splice (accounts ix) (14 + length (p_price_section plan))
      ([meta_new (ad_vault_main_ata (vm_addresses self)) false;
        new_readonly (a_main_token_program (vm_args self)) false] ++ section) = Ok metas /\
    laid_out self (VaultSwapKind.RecoveryStage asset g section) plan
      {| program_id := program_id ix; accounts := metas; data := <[1%nat := 2]> (data ix) |} (<[1%nat := 2]> lead) head.
Proof.
  intros (Hp & Hlead & Hhead & Hdata & Hacc & Hsig) Hl _. cbn in Hlead, Hhead.
  exists (head ++ p_price_section plan ++ recovery_tail self (VaultSwapKind.RecoveryStage asset g section) ++
          concat (map hop_metas (p_hops plan))).
  split.
  { rewrite Hdata. unfold index_p. destruct lead as [|x [|y lead]]; try done. }
  assert (H14 : (14 + length (p_price_section plan))%nat = length (head ++ p_price_section plan))
    by (rewrite length_app, Hhead; done).
  split.
  - unfold splice. rewrite Hacc, H14. cbn [recovery_tail app].
    rewrite app_assoc, (length_app (head ++ _)), (proj2 (Nat.leb_le _ _)) by lia.
    rewrite take_app_length, drop_app_length. f_equal. by rewrite <- !app_assoc.
  - unfold laid_out. cbn [program_id data accounts]. rewrite length_insert. split_and!; try done.
    rewrite Hdata. by rewrite insert_app_l by lia.
Qed.

(** The plan is valid for the kind of swap. *)
Definition swap_ok (self : VaultManager) (kind : VaultSwapKind.t) (plan : VaultSwapPlan) : Prop :=
  section_ok kind /\ exists input output, swap_legs self kind = Ok (input, output) /\
    plan_ok (ad_vault (vm_addresses self)) input output plan.

Definition swap_result (self : VaultManager) (kind : VaultSwapKind.t) (plan : VaultSwapPlan) (r : cres Instruction)
  : Prop :=
  match r with
  | Ok ix => swap_ok self kind plan /\ exists lead head, laid_out self kind plan ix lead head
  | Err _ => ~ swap_ok self kind plan
  | Panic => False
  end.

Lemma swap_direct_result self kind plan :
  match kind with VaultSwapKind.RecoveryStage _ _ _ => False | _ => True end ->
  (length (p_hops plan) < 256)%nat -> swap_ok self kind plan ->
  swap_result self kind plan (swap_direct self kind plan).
Proof.
  intros Hk Hl Hok. destruct (swap_direct_laid_out self kind plan Hl Hk) as (ix & lead & head & -> & Hlay).
  split; [done|]. by exists lead, head.
Qed.

Lemma swap_shape self kind plan : swap_result self kind plan (swap self kind plan).
Proof.
  unfold swap. pose proof (validate_swap_returns self kind plan) as Hr.
  destruct (validate_swap self kind plan) as [[]|e|] eqn:Ev; cbn [mbind res_bind]; [|..|done].
  2: { unfold swap_result, swap_ok. intros [_ H%validate_swap_Ok]. congruence. }
  pose proof (proj1 (validate_swap_Ok self kind plan) Ev) as (input & output & Hlegs & Hok).
  assert (Hl : (length (p_hops plan) < 256)%nat) by (destruct Hok; unfold MAX_VAULT_SWAP_HOPS in *; lia).
  destruct kind as [b| | |asset g section|step leg asset g].
  4: {
    unfold recovery_stage. cbv zeta.
    set (inner := VaultSwapKind.Staging VaultStagingStep.Stage VaultLeg.Second asset g).
    assert (Hi : validate_swap self inner plan = Ok tt).
    { apply validate_swap_Ok. exists input, output. split; [exact Hlegs|done]. }
    destruct (swap_direct_laid_out self inner plan Hl I) as (ix & lead & head & Hix & Hlay).
    destruct (recovery_stage_laid_out self asset g section plan ix lead head Hlay Hl Hix) as (metas & Hidx & Hsp & Hlay').
    destruct (_ || _) eqn:Hb; cbn [reject_if mbind res_bind].
    - unfold swap_result, swap_ok. intros [[Hne Hsec] _]. apply orb_true_iff in Hb as [Hb%Nat.eqb_eq|Hb].
      + by destruct section.
      + apply existsb_exists in Hb as (m & Hm%list_elem_of_In & Hb). apply Hsec in Hm as [Hw Hs]. by rewrite Hw, Hs in Hb.
    - rewrite Hi, Hix. cbn [mbind res_bind]. destruct (index_p (data ix) 1) eqn:E1; [|by unfold index_p in E1; destruct (data ix !! _)|done].
      cbn [mbind res_bind VaultSwapKind.fixed_accounts]. rewrite Hsp. cbn [mbind res_bind].
      split; [split; [|by eexists _, _]|by eexists _, _].
      apply orb_false_iff in Hb as [Hne%Nat.eqb_neq Hb]. split; [by destruct section|].
      intros m Hm. rewrite existsb_false in Hb. by apply Hb, orb_false_iff in Hm. }
  all: apply swap_direct_result; [exact I|exact Hl|split; [exact I|by eexists _, _]].
Qed.
(** Where the hops are: the data after the header, the accounts after everything else. *)
Lemma laid_out_hops self kind plan ix lead head :
  laid_out self kind plan ix lead head ->
  data ix !! (VaultSwapKind.header_len kind - 1)%nat = Some (Z.of_nat (length (p_hops plan))) /\
  drop (VaultSwapKind.header_len kind) (data ix) = concat (map hop_bytes (p_hops plan)) /\
  drop (VaultSwapKind.fixed_accounts kind + length (p_price_section plan) + length (recovery_tail self kind)) (accounts ix)
    = concat (map hop_metas (p_hops plan)) /\
  get_range (data ix) (lead_len kind) (lead_len kind + 24) = Some (amounts_bytes plan) /\
  get_range (accounts ix) (VaultSwapKind.fixed_accounts kind)
    (VaultSwapKind.fixed_accounts kind + length (p_price_section plan)) = Some (p_price_section plan).
Proof.
  intros (_ & Hlead & Hhead & Hdata & Hacc & _).
  assert (Ha : length (amounts_bytes plan) = 24%nat) by reflexivity.
  assert (Hh : VaultSwapKind.header_len kind = S (length (lead ++ amounts_bytes plan ++ generation_bytes kind))).
  { rewrite !length_app, Hlead, Ha. by destruct kind. }
  rewrite Hdata, Hacc. split_and!.
  - rewrite Hh, Nat.sub_succ, Nat.sub_0_r.
    replace (lead ++ amounts_bytes plan ++ generation_bytes kind ++ _ ++ _) with
      ((lead ++ amounts_bytes plan ++ generation_bytes kind) ++ [Z.of_nat (length (p_hops plan))] ++
       concat (map hop_bytes (p_hops plan))) by (by rewrite <- !app_assoc).
    rewrite lookup_app_r by done. by rewrite Nat.sub_diag.
  - replace (VaultSwapKind.header_len kind) with
      (length (lead ++ amounts_bytes plan ++ generation_bytes kind ++ [Z.of_nat (length (p_hops plan))]))
      by (rewrite Hh, !length_app; simpl; lia).
    replace (lead ++ amounts_bytes plan ++ generation_bytes kind ++ _ ++ concat _) with
      ((lead ++ amounts_bytes plan ++ generation_bytes kind ++ [Z.of_nat (length (p_hops plan))]) ++
       concat (map hop_bytes (p_hops plan))) by (by rewrite <- !app_assoc).
    by rewrite drop_app_length.
  - rewrite <- Hhead, <- !length_app, !app_assoc. by rewrite drop_app_length.
  - rewrite <- Hlead. by apply get_range_app; [|rewrite Ha].
  - rewrite <- Hhead. by apply get_range_app.
Qed.

Lemma laid_out_signers self kind plan ix lead head m :
  laid_out self kind plan ix lead head -> section_ok kind ->
  Forall (fun m => is_signer m = false) (p_price_section plan) ->
  m ∈ accounts ix -> is_signer m = true -> pubkey m = a_actor (vm_args self).
Proof.
  intros (_ & _ & _ & _ & Hacc & Hhead) Hs Hprice Hin Hsig. rewrite Hacc, !elem_of_app in Hin.
  destruct Hin as [Hin|[Hin|[Hin|Hin]]].
  - assert (pubkey m ∈ [a_actor (vm_args self)]) as Hx%list_elem_of_singleton; [|done].
    rewrite <- Hhead. change (map pubkey) with (fmap (M := list) pubkey). apply list_elem_of_fmap_2, list_elem_of_filter. done.
  - rewrite Forall_forall in Hprice. apply Hprice in Hin. congruence.
  - destruct kind; cbn [recovery_tail] in Hin; try (by apply elem_of_nil in Hin).
    rewrite elem_of_app, !elem_of_cons, elem_of_nil in Hin. destruct Hs as [_ Hs].
    destruct Hin as [[->|[->|[]]]|Hin]; [done..|]. apply Hs in Hin as [_ Hin]. congruence.
  - apply list_elem_of_In, in_concat in Hin as (l & Hl & Hin%list_elem_of_In).
    apply list_elem_of_In, list_elem_of_fmap in Hl as (h & -> & _). unfold hop_metas in Hin.
    rewrite elem_of_app, !elem_of_cons, elem_of_nil in Hin. destruct Hin as [[->|[->|[->|[]]]]|Hin]; [done..|].
    by apply list_elem_of_fmap in Hin as (x & -> & _).
Qed.

(** Building a swap never panics and succeeds exactly for a valid plan: one to four
    hops within the account and data caps that chain the input leg through transit
    accounts to the output leg, each a call that contains the vault, its source and its
    destination, touches no leg otherwise, and lets only the vault sign.  The instruction
    then carries the amounts and the price section in their places, asks no one but the
    actor to sign, and its hops read back are the plan's (the vault's signature is the
    program's to give). *)
Theorem swap_roundtrip self kind plan :
  plan_typed plan -> Forall (fun m => is_signer m = false) (p_price_section plan) ->
  match swap self kind plan with
  | Ok ix =>
      swap_ok self kind plan /\
      data ix !! (VaultSwapKind.header_len kind - 1)%nat = Some (Z.of_nat (length (p_hops plan))) /\
      served_hops (length (p_hops plan)) (drop (VaultSwapKind.header_len kind) (data ix))
        (drop (VaultSwapKind.fixed_accounts kind + length (p_price_section plan) + length (recovery_tail self kind))
           (accounts ix)) = Ok (map unsigned_hop (p_hops plan)) /\
      get_range (data ix) (lead_len kind) (lead_len kind + 24) = Some (amounts_bytes plan) /\
      get_range (accounts ix) (VaultSwapKind.fixed_accounts kind)
        (VaultSwapKind.fixed_accounts kind + length (p_price_section plan)) = Some (p_price_section plan) /\
      (forall m, m ∈ accounts ix -> is_signer m = true -> pubkey m = a_actor (vm_args self))
  | Err _ => ~ swap_ok self kind plan
  | Panic => False
  end.
Proof.
  intros Ht Hprice. pose proof (swap_shape self kind plan) as H.
  destruct (swap self kind plan) as [ix|e|]; [|exact H..]. destruct H as [Hok (lead & head & Hlay)].
  pose proof (laid_out_hops _ _ _ _ _ _ Hlay) as (Hn & Hd & Hm & Hamt & Hsec).
  destruct Hok as [Hs (input & output & Hlegs & Hplan)].
  split; [split; [done|by eexists _, _]|]. rewrite Hd, Hm. split; [done|].
  split; [by apply served_hops_encode; eapply plan_encodable|]. do 2 (split; [done|]).
  intros m Hin Hsig. by eapply laid_out_signers.
Qed.
End encoding.

Module SwapSample.
(** Addresses that depend on every seed. *)
#[global] Instance pda : Pda :=
  {| find_program_address seeds program :=
       map (fun i => foldl (fun acc b => (acc * 31 + b + Z.of_nat i) mod 65521) 7 (concat seeds ++ program) mod 256)
         (seq 0 32) |}.
Definition manager : VaultManager :=
  {| vm_args := VaultSample.args; vm_addresses := Manager.derive_addresses (P := pda) VaultSample.args |}.
Definition vault : key := ad_vault (vm_addresses manager).
Definition main : key := ad_vault_main_ata (vm_addresses manager).
Definition second : key := ad_vault_second_ata (vm_addresses manager).
Definition hop1 : VaultSwapHop :=
  {| h_program := key_of 30; h_source := main; h_destination := key_of 31;
     h_accounts := [{| pubkey := vault; is_signer := true; is_writable := false |};
                    meta_new main false; meta_new (key_of 31) false];
     h_data := [1; 2; 3]; h_amount_offset := None |}.
Definition hop2 : VaultSwapHop :=
  {| h_program := key_of 32; h_source := key_of 31; h_destination := second;
     h_accounts := [new_readonly vault false; meta_new (key_of 31) false; meta_new second false];
     h_data := [9; 0; 0; 0; 0; 0; 0; 0; 0]; h_amount_offset := Some {| ao_offset := 1; ao_num := 1; ao_den := 2 |} |}.
Definition plan : VaultSwapPlan :=
  {| p_price_section := [new_readonly (key_of 40) false]; p_amount_in := 1000; p_minimum_out := 990;
     p_valid_until := 1760000000; p_hops := [hop1; hop2] |}.
Definition kind : VaultSwapKind.t := VaultSwapKind.Rebalance false.

Lemma plan_is_typed : plan_typed plan.
Proof. split; repeat constructor; unfold fits; cbn; lia. Qed.
End SwapSample.

Lemma swap_roundtrip_witness :
  exists ix, swap SwapSample.manager SwapSample.kind SwapSample.plan = Ok ix /\
    served_hops 2 (drop 27 (data ix)) (drop 15 (accounts ix)) = Ok (map unsigned_hop [SwapSample.hop1; SwapSample.hop2]).
Proof.
  pose proof (swap_roundtrip SwapSample.manager SwapSample.kind SwapSample.plan SwapSample.plan_is_typed
    ltac:(repeat constructor)) as H.
  destruct (swap SwapSample.manager SwapSample.kind SwapSample.plan) as [ix|e|] eqn:E;
    [|exfalso; vm_compute in E; discriminate E..].
  exists ix. split; [reflexivity|]. apply H.
Defined.
