(* ===== verification/Served.v ===== *)
(** * Served transactions ([src/chain/vault/served.rs])

    What stands between a transaction built by the server and the client's signature:
    its accounts are resolved through the lookup tables, its compute budget and quote
    signature are checked, and [matches] compares it with the instructions the client
    rebuilt.  Base64 is another crate's code and a parameter. *)

From Stdlib Require Import ZArith Lia String.
From stdpp Require Import base list gmap strings.
From S2P Require Import Prelude Signing Orders Chain Wire.

Open Scope Z_scope.

(* chain/vault/served.rs:26-27 COMPUTE_BUDGET_PROGRAM_ID *)
Definition COMPUTE_BUDGET_PROGRAM_ID : key :=
  [3; 6; 70; 111; 229; 33; 23; 50; 255; 236; 173; 186; 114; 195; 155; 231; 188; 140; 229; 187; 197;
   247; 18; 107; 44; 67; 155; 58; 64; 0; 0; 0].
(* chain/vault/served.rs:28-29 ED25519_PROGRAM_ID *)
Definition ED25519_PROGRAM_ID : key :=
  [3; 125; 70; 214; 124; 147; 251; 190; 18; 249; 66; 143; 131; 141; 64; 255; 5; 112; 116; 73; 39;
   244; 138; 100; 252; 202; 112; 68; 128; 0; 0; 0].
(* chain/vault/served.rs:30-32 ED25519_HEADER *)
Definition ED25519_HEADER : bytes := [1; 0; 48; 0; 255; 255; 16; 0; 255; 255; 112; 0; 32; 0; 255; 255].
(* chain/vault/served.rs:33-33 ED25519_DATA_LEN *)
Definition ED25519_DATA_LEN : nat := 144.
(* chain/vault/served.rs:35-35 MAX_TRANSACTION_WIRE_BYTES *)
Definition MAX_TRANSACTION_WIRE_BYTES : nat := 1232.
(* chain/vault/served.rs:36-38 SET_COMPUTE_UNIT_LIMIT, SET_COMPUTE_UNIT_PRICE, MAX_COMPUTE_UNIT_LIMIT *)
Definition SET_COMPUTE_UNIT_LIMIT : Z := 2.
Definition SET_COMPUTE_UNIT_PRICE : Z := 3.
Definition MAX_COMPUTE_UNIT_LIMIT : Z := 1400000.

(* chain/vault/served.rs:136-141 ComputeBudgetBounds *)
Record ComputeBudgetBounds := { max_unit_limit : Z; max_unit_price_micro_lamports : Z }.

(* chain/vault/served.rs:983-987 Flags *)
Record Flags := { signer : bool; writable : bool }.
#[export] Instance flags_eq_dec : EqDecision Flags.
Proof. solve_decision. Defined.

(* chain/vault/served.rs:999-1005 VerifiedTransaction *)
Record VerifiedTransaction := {
  vt_bytes : bytes;
  vt_signatures_start : nat;
  vt_message_start : nat;
  vt_signers : list key;
}.

(** [sm_static] is the set of static keys, as their list. *)
(* chain/vault/served.rs:989-997 ServedMessage *)
Record ServedMessage := {
  sm_keys : list (key * Flags);
  sm_instructions : list Instruction;
  sm_transaction : VerifiedTransaction;
  sm_static : list key;
  sm_is_version_zero : bool;
  sm_has_lookup_table : bool;
  sm_wire_len : nat;
}.

(* chain/vault/served.rs:1044-1062 ServedMessage::decode (static keys) *)
Definition static_flags (m : CompiledMessage) (index : nat) : Flags :=
  if (index <? required_signers m)%nat then
    {| signer := true; writable := (index <? required_signers m - readonly_signed m)%nat |}
  else
    {| signer := false;
       writable := (index <? length (static_keys m) - readonly_unsigned m)%nat |}.

(* chain/vault/served.rs:1064-1089 ServedMessage::decode (lookups) *)
Definition looked_up (tables : list LookupTable) (w : bool) (l : Lookup) : ires (list (key * Flags)) :=
  table ← ok_or (list_find (fun t => table_key t = l_table l) tables)
            (VaultIntentError.MissingLookupTable (l_table l));
  try_map (fun index =>
    k ← ok_or (addresses (snd table) !! Z.to_nat index)
          (VaultIntentError.LookupIndex (l_table l) index);
    Ok (k, {| signer := false; writable := w |}))
    (if w then l_writable l else l_readonly l).

(* chain/vault/served.rs:1043-1090 ServedMessage::decode (keys) *)
Definition resolve_keys (tables : list LookupTable) (m : CompiledMessage)
  : ires (list (key * Flags)) :=
  let static := imap (fun index k => (k, static_flags m index)) (static_keys m) in
  written ← try_map (looked_up tables true) (lookups m);
  read ← try_map (looked_up tables false) (lookups m);
  Ok (static ++ concat written ++ concat read).

(* chain/vault/served.rs:1095-1121 ServedMessage::decode (instructions) *)
Definition resolve_instruction (keys : list (key * Flags)) (compiled : CompiledInstruction)
  : ires Instruction :=
  let at_ (index : Z) :=
    ok_or (keys !! Z.to_nat index) (VaultIntentError.Malformed "account index out of range") in
  program ← at_ (ci_program compiled);
  metas ← try_map (fun index =>
    '(k, f) ← at_ index;
    Ok {| pubkey := k; is_signer := signer f; is_writable := writable f |}) (ci_accounts compiled);
  Ok {| program_id := fst program; accounts := metas; data := ci_data compiled |}.

(* chain/vault/served.rs:1041-1139 ServedMessage::decode *)
Definition served_decode (tables : list LookupTable) (bs : bytes) : ires ServedMessage :=
  message ← decode bs;
  keys ← resolve_keys tables message;
  _ ← reject_if (negb (bool_decide (NoDup (map fst keys))))
        (VaultIntentError.Malformed "duplicate account key");
  instrs ← try_map (resolve_instruction keys) (instructions message);
  signers ← slice_p (static_keys message) 0 (required_signers message);
  Ok {| sm_keys := keys; sm_instructions := instrs;
        sm_transaction := {| vt_bytes := bs; vt_signatures_start := signatures_start message;
                             vt_message_start := message_start message; vt_signers := signers |};
        sm_static := static_keys message; sm_is_version_zero := is_version_zero message;
        sm_has_lookup_table :=
          existsb (fun l => negb (bool_decide (l_writable l = [])) || negb (bool_decide (l_readonly l = [])))
            (lookups message);
        sm_wire_len := length bs |}.

Section base64.
Context (base64_decode : string -> option bytes) (base64_encode : bytes -> string).

(* chain/vault/served.rs:1034-1140 ServedMessage::decode *)
Definition decode_base64 (tx_base64 : string) (tables : list LookupTable) : ires ServedMessage :=
  bs ← ok_or (base64_decode tx_base64) VaultIntentError.InvalidBase64;
  served_decode tables bs.

(* chain/vault/served.rs:691-700 served_lookup_table_keys *)
Definition served_lookup_table_keys (tx_base64 : string) : ires (list key) :=
  bs ← ok_or (base64_decode tx_base64) VaultIntentError.InvalidBase64;
  message ← decode bs;
  Ok (map l_table (lookups message)).
End base64.

(* chain/vault/served.rs:1142-1156 ServedMessage::require_vault_open_wire_shape *)
Definition require_vault_open_wire_shape (self : ServedMessage) : ires unit :=
  _ ← reject_if (negb (sm_is_version_zero self)) VaultIntentError.OpenRequiresVersionZero;
  _ ← reject_if (negb (sm_has_lookup_table self)) VaultIntentError.OpenRequiresLookupTable;
  reject_if (MAX_TRANSACTION_WIRE_BYTES <? sm_wire_len self)%nat
    (VaultIntentError.OpenTransactionTooLarge (sm_wire_len self) MAX_TRANSACTION_WIRE_BYTES).

(* chain/vault/served.rs:1158-1166 ServedMessage::require_static_accounts *)
Definition require_static_accounts (self : ServedMessage) (accts : list key) : ires unit :=
  match list_find (fun a => a ∉ sm_static self) accts with
  | Some (_, a) => Err (VaultIntentError.OpenRequiresStaticAccount a)
  | None => Ok tt
  end.

(** The value of a compute-budget instruction with this tag and data length. *)
(* chain/vault/served.rs:1172-1184 ServedMessage::compute_budget (budget) *)
Definition budget (self : ServedMessage) (index : nat) (tag : Z) (len : nat) : ires bytes :=
  match sm_instructions self !! index with
  | Some ix =>
      if bool_decide (program_id ix = COMPUTE_BUDGET_PROGRAM_ID) && bool_decide (accounts ix = [])
         && (length (data ix) =? len)%nat && bool_decide (head (data ix) = Some tag)
      then slice_p (data ix) 1 (length (data ix))
      else Err (VaultIntentError.ComputeBudget index)
  | None => Err (VaultIntentError.ComputeBudget index)
  end.

(* chain/vault/served.rs:1203-1212 ServedMessage::compute_budget (instruction) *)
Definition budget_instruction (tag : Z) (value : bytes) : Instruction :=
  {| program_id := COMPUTE_BUDGET_PROGRAM_ID; accounts := []; data := tag :: value |}.

(* chain/vault/served.rs:1168-1217 ServedMessage::compute_budget *)
Definition compute_budget (self : ServedMessage) (bounds : ComputeBudgetBounds)
  : ires (list Instruction) :=
  limit ← budget self 0 SET_COMPUTE_UNIT_LIMIT 5;
  let limit := from_le_bytes limit in
  price ← budget self 1 SET_COMPUTE_UNIT_PRICE 9;
  let price := from_le_bytes price in
  let max_limit := Z.min (max_unit_limit bounds) MAX_COMPUTE_UNIT_LIMIT in
  _ ← reject_if ((limit =? 0) || (max_limit <? limit)) (VaultIntentError.ComputeUnitLimit limit max_limit);
  _ ← reject_if (max_unit_price_micro_lamports bounds <? price)
        (VaultIntentError.ComputeUnitPrice price (max_unit_price_micro_lamports bounds));
  Ok [budget_instruction SET_COMPUTE_UNIT_LIMIT (to_le_bytes 4 limit);
      budget_instruction SET_COMPUTE_UNIT_PRICE (to_le_bytes 8 price)].

(* chain/vault/served.rs:1219-1251 ServedMessage::quote_signature *)
Definition quote_signature `{C : Crypto} (self : ServedMessage) (index : nat) (quote_signer : key)
  (order_id : bytes) : ires Instruction :=
  ix ← ok_or (sm_instructions self !! index) (VaultIntentError.QuoteSignature "missing");
  let not_inline := VaultIntentError.QuoteSignature "not a single inline Ed25519 check" in
  _ ← reject_if (negb (bool_decide (program_id ix = ED25519_PROGRAM_ID))
                 || negb (bool_decide (accounts ix = []))
                 || negb (length (data ix) =? ED25519_DATA_LEN)%nat) not_inline;
  header ← slice_p (data ix) 0 16;
  _ ← reject_if (negb (bool_decide (header = ED25519_HEADER))) not_inline;
  signer ← slice_p (data ix) 16 48;
  _ ← reject_if (negb (bool_decide (signer = quote_signer)))
        (VaultIntentError.QuoteSignature "binds a different quote signer");
  order ← slice_p (data ix) 112 (length (data ix));
  _ ← reject_if (negb (bool_decide (order = order_id)))
        (VaultIntentError.QuoteSignature "binds a different order");
  signature ← slice_p (data ix) 48 112;
  _ ← map_err (fun _ => VaultIntentError.QuoteSignature "signature does not verify")
        (verify_order_id_signature_bytes order_id signature quote_signer);
  Ok ix.

(** [HashMap::entry(k).or_insert(no flags)], read back. *)
Definition entry (flags : gmap key Flags) (k : key) : Flags :=
  default {| signer := false; writable := false |} (flags !! k).

Definition add_meta (flags : gmap key Flags) (meta : AccountMeta) : gmap key Flags :=
  let e := entry flags (pubkey meta) in
  <[pubkey meta := {| signer := signer e || is_signer meta; writable := writable e || is_writable meta |}]> flags.

Definition add_instruction (flags : gmap key Flags) (ix : Instruction) : gmap key Flags :=
  foldl add_meta (<[program_id ix := entry flags (program_id ix)]> flags) (accounts ix).

(* chain/vault/served.rs:1258-1279 ServedMessage::matches (flags) *)
Definition wanted_flags (payer : key) (expected : list Instruction) : gmap key Flags :=
  foldl add_instruction {[payer := {| signer := true; writable := true |}]} expected.

(** [iter().enumerate()]. *)
Definition enumerate {A} (l : list A) : list (nat * A) := imap pair l.

(* chain/vault/served.rs:1307-1333 ServedMessage::matches (account) *)
Definition match_account (flags : gmap key Flags) (index : nat)
  (entry : nat * (AccountMeta * AccountMeta)) : ires unit :=
  let '(position, (found, wanted)) := entry in
  let wanted_flags :=
    match flags !! pubkey wanted with
    | Some flags => flags
    | None => {| signer := is_signer wanted; writable := is_writable wanted |}
    end in
  reject_if (negb (bool_decide (pubkey found = pubkey wanted))
             || negb (eqb (is_signer found) (signer wanted_flags))
             || negb (eqb (is_writable found) (writable wanted_flags)))
    (VaultIntentError.Account index position (pubkey wanted) (signer wanted_flags)
       (writable wanted_flags) (pubkey found) (is_signer found) (is_writable found)).

(* chain/vault/served.rs:1335-1344 ServedMessage::matches (data offset) *)
Definition data_offset (served expected : bytes) : nat :=
  match list_find (fun p : Z * Z => fst p <> snd p) (zip served expected) with
  | Some (offset, _) => offset
  | None => Nat.min (length served) (length expected)
  end.

(* chain/vault/served.rs:1292-1346 ServedMessage::matches (instruction) *)
Definition match_instruction (flags : gmap key Flags) (entry : nat * (Instruction * Instruction))
  : ires unit :=
  let '(index, (served, expected)) := entry in
  _ ← reject_if (negb (bool_decide (program_id served = program_id expected)))
        (VaultIntentError.Program index (program_id expected) (program_id served));
  _ ← reject_if (negb (length (accounts served) =? length (accounts expected))%nat)
        (VaultIntentError.AccountCount index (length (accounts expected)) (length (accounts served)));
  _ ← try_map (match_account flags index) (enumerate (zip (accounts served) (accounts expected)));
  reject_if (negb (bool_decide (data served = data expected)))
    (VaultIntentError.Data index (data_offset (data served) (data expected))).

(* chain/vault/served.rs:1347-1361 ServedMessage::matches (keys) *)
Definition match_key (flags : gmap key Flags) (entry : key * Flags) : ires unit :=
  let '(k, found) := entry in
  match flags !! k with
  | None => Err (VaultIntentError.UnexpectedAccount k)
  | Some wanted =>
      if signer found && negb (signer wanted) then Err (VaultIntentError.UnexpectedSigner k)
      else if negb (bool_decide (found = wanted))
      then Err (VaultIntentError.Privilege k (writable wanted) (writable found))
      else Ok tt
  end.

(* chain/vault/served.rs:1253-1363 ServedMessage::matches *)
Definition matches (self : ServedMessage) (payer : key) (expected : list Instruction)
  : ires VerifiedTransaction :=
  let flags := wanted_flags payer expected in
  _ ← match sm_keys self with
      | (found, _) :: _ =>
          reject_if (negb (bool_decide (found = payer))) (VaultIntentError.FeePayer payer found)
      | [] => Ok tt
      end;
  _ ← reject_if (negb (length (sm_instructions self) =? length expected)%nat)
        (VaultIntentError.InstructionCount (length expected) (length (sm_instructions self)));
  _ ← try_map (match_instruction flags) (enumerate (zip (sm_instructions self) expected));
  _ ← try_map (match_key flags) (sm_keys self);
  Ok (sm_transaction self).

Section sign.
Context `{C : Crypto} `{SL : SignerLike T} (base64_encode : bytes -> string).

(** The bytes after signing, and the signature. *)
(* chain/vault/served.rs:1017-1026 VerifiedTransaction::sign_with_participant_signature *)
Definition sign_bytes (self : VerifiedTransaction) (signer : T) : ires (bytes * bytes) :=
  let key := pubkey_bytes signer in
  index ← ok_or (fst <$> list_find (fun required => required = key) (vt_signers self))
            (VaultIntentError.SignerNotRequired key);
  message ← slice_p (vt_bytes self) (vt_message_start self) (length (vt_bytes self));
  let signature := sign_message signer message in
  let slot := (vt_signatures_start self + index * SIGNATURE_LEN)%nat in
  _ ← slice_p (vt_bytes self) slot (slot + SIGNATURE_LEN);
  Ok (copy_at (vt_bytes self) slot signature, signature).

(* chain/vault/served.rs:1013-1031 VerifiedTransaction::sign_with_participant_signature *)
Definition sign_with_participant_signature (self : VerifiedTransaction) (signer : T)
  : ires (string * string) :=
  '(bs, signature) ← sign_bytes self signer;
  Ok (base64_encode bs, bs58_encode signature).

(* chain/vault/served.rs:1008-1011 VerifiedTransaction::sign *)
Definition sign (self : VerifiedTransaction) (signer : T) : ires string :=
  fst <$> sign_with_participant_signature self signer.
End sign.

(** ** What [matches] accepts *)

(** [k] is named by the payer or by an expected instruction, and whether any of them asks
    it to sign or to be writable. *)
Definition named (payer : key) (expected : list Instruction) (k : key) : Prop :=
  k = payer \/ exists ix, ix ∈ expected /\ (k = program_id ix \/ exists m, m ∈ accounts ix /\ k = pubkey m).
Definition asks (f : AccountMeta -> bool) (payer : key) (expected : list Instruction) (k : key) : Prop :=
  k = payer \/ exists ix m, ix ∈ expected /\ m ∈ accounts ix /\ k = pubkey m /\ f m = true.

(** The signer and writable flags of [k] are exactly the ones asked for. *)
Definition privileges (payer : key) (expected : list Instruction) (k : key) (s w : bool) : Prop :=
  (s = true <-> asks is_signer payer expected k) /\ (w = true <-> asks is_writable payer expected k).

(** A served instruction is an expected one: program, accounts and data, with the flags the
    whole transaction asks for. *)
Definition same_instruction payer expected (served wanted : Instruction) : Prop :=
  program_id served = program_id wanted /\ data served = data wanted /\
  Forall2 (fun f w => pubkey f = pubkey w /\
             privileges payer expected (pubkey w) (is_signer f) (is_writable f))
    (accounts served) (accounts wanted).

(** Every account the message loads is named, with exactly its privileges. *)
Definition loaded_as_asked payer expected (entry : key * Flags) : Prop :=
  named payer expected (fst entry) /\
  privileges payer expected (fst entry) (signer (snd entry)) (writable (snd entry)).

(** [flags] holds the accounts [N], with the signers [S] and the writable accounts [W]. *)
Definition holds (flags : gmap key Flags) (N S W : key -> Prop) : Prop := forall k,
  (is_Some (flags !! k) <-> N k) /\ (signer (entry flags k) = true <-> S k) /\
  (writable (entry flags k) = true <-> W k).

Lemma entry_insert flags k f x : entry (<[k := f]> flags) x = if decide (x = k) then f else entry flags x.
Proof. unfold entry. destruct (decide (x = k)) as [->|]; [by rewrite lookup_insert_eq|by rewrite lookup_insert_ne]. Qed.

Lemma holds_insert flags N S W k s w :
  holds flags N S W ->
  holds (<[k := {| signer := signer (entry flags k) || s; writable := writable (entry flags k) || w |}]> flags)
    (fun x => N x \/ x = k) (fun x => S x \/ x = k /\ s = true) (fun x => W x \/ x = k /\ w = true).
Proof.
  intros H x. specialize (H x) as (HN & HS & HW). rewrite entry_insert. destruct (decide (x = k)) as [->|Hne].
  - rewrite lookup_insert_eq. cbn [signer writable]. rewrite !orb_true_iff, HS, HW.
    split; [split; [intros _; by right|by eexists]|]. tauto.
  - rewrite lookup_insert_ne by done. rewrite HN, HS, HW. tauto.
Qed.

Lemma holds_ext flags N S W N' S' W' :
  holds flags N S W -> (forall k, N k <-> N' k) -> (forall k, S k <-> S' k) -> (forall k, W k <-> W' k) ->
  holds flags N' S' W'.
Proof. intros H HN HS HW k. rewrite <- HN, <- HS, <- HW. apply H. Qed.

Lemma holds_metas flags N S W metas :
  holds flags N S W ->
  holds (foldl add_meta flags metas) (fun k => N k \/ exists m, m ∈ metas /\ k = pubkey m)
    (fun k => S k \/ exists m, m ∈ metas /\ k = pubkey m /\ is_signer m = true)
    (fun k => W k \/ exists m, m ∈ metas /\ k = pubkey m /\ is_writable m = true).
Proof.
  revert flags N S W. induction metas as [|m metas IH]; intros flags N S W H; cbn [foldl].
  - eapply holds_ext; [exact H|..]; intros k; set_solver.
  - eapply holds_ext; [apply IH, (holds_insert _ _ _ _ _ (is_signer m) (is_writable m) H)|..];
      intros k; setoid_rewrite elem_of_cons; naive_solver.
Qed.

Lemma holds_instruction flags N S W ix :
  holds flags N S W ->
  holds (add_instruction flags ix)
    (fun k => N k \/ k = program_id ix \/ exists m, m ∈ accounts ix /\ k = pubkey m)
    (fun k => S k \/ exists m, m ∈ accounts ix /\ k = pubkey m /\ is_signer m = true)
    (fun k => W k \/ exists m, m ∈ accounts ix /\ k = pubkey m /\ is_writable m = true).
Proof.
  intros H. unfold add_instruction. apply (holds_insert _ _ _ _ (program_id ix) false false) in H.
  rewrite !orb_false_r in H. replace {| signer := _; writable := _ |} with (entry flags (program_id ix)) in H
    by (by destruct (entry _ _)).
  eapply holds_ext; [apply (holds_metas _ _ _ _ _ H)|..]; intros k; naive_solver.
Qed.

Lemma holds_instructions flags N S W expected :
  holds flags N S W ->
  holds (foldl add_instruction flags expected)
    (fun k => N k \/ exists ix, ix ∈ expected /\ (k = program_id ix \/ exists m, m ∈ accounts ix /\ k = pubkey m))
    (fun k => S k \/ exists ix m, ix ∈ expected /\ m ∈ accounts ix /\ k = pubkey m /\ is_signer m = true)
    (fun k => W k \/ exists ix m, ix ∈ expected /\ m ∈ accounts ix /\ k = pubkey m /\ is_writable m = true).
Proof.
  revert flags N S W. induction expected as [|ix expected IH]; intros flags N S W H; cbn [foldl].
  - eapply holds_ext; [exact H|..]; intros k; set_solver.
  - eapply holds_ext; [apply IH, (holds_instruction _ _ _ _ ix H)|..];
      intros k; setoid_rewrite elem_of_cons; naive_solver.
Qed.

Lemma wanted_flags_holds payer expected :
  holds (wanted_flags payer expected) (named payer expected) (asks is_signer payer expected)
    (asks is_writable payer expected).
Proof.
  apply (holds_instructions _ (fun k => k = payer) (fun k => k = payer) (fun k => k = payer)).
  intros k. unfold entry. destruct (decide (k = payer)) as [->|Hne].
  - rewrite lookup_singleton_eq. cbn. split; [split; [done|by eexists]|]. tauto.
  - rewrite lookup_singleton_ne by done. cbn. rewrite is_Some_alt. naive_solver.
Qed.

(** The flags found in the map are the privileges asked for. *)
Lemma wanted_privileges payer expected k f s w :
  wanted_flags payer expected !! k = Some f ->
  privileges payer expected k s w <-> s = signer f /\ w = writable f.
Proof.
  intros Hf. destruct (wanted_flags_holds payer expected k) as (_ & HS & HW).
  unfold entry in HS, HW. rewrite Hf in HS, HW. simpl in HS, HW. unfold privileges. rewrite <- HS, <- HW.
  destruct s, w, (signer f), (writable f); naive_solver.
Qed.

Lemma wanted_named payer expected k :
  named payer expected k <-> exists f, wanted_flags payer expected !! k = Some f.
Proof. symmetry. apply (wanted_flags_holds payer expected k). Qed.

(** Every step answers [unit]: a list of checks passes when each one does. *)
Lemma checks_Ok {E A} (f : A -> res E unit) l us :
  try_map f l = Ok us -> Forall (fun x => f x = Ok tt) l.
Proof. rewrite try_map_Ok. induction 1 as [|x [] l us Hx _ IH]; constructor; done. Qed.

Lemma checks_pass {E A} (f : A -> res E unit) l :
  Forall (fun x => f x = Ok tt) l -> try_map f l = Ok (map (fun _ => tt) l).
Proof. induction 1 as [|x l Hx _ IH]; [done|]. cbn. by rewrite Hx, IH. Qed.

(** A check of the pairs of two lists, whatever index it reports. *)
Lemma checks_zip {E A B} (f : nat * (A * B) -> res E unit) (R : A -> B -> Prop) la lb :
  (forall i a b, a ∈ la -> b ∈ lb -> f (i, (a, b)) = Ok tt <-> R a b) -> length la = length lb ->
  Forall (fun x => f x = Ok tt) (enumerate (zip la lb)) <-> Forall2 R la lb.
Proof.
  intros Hf Hl. unfold enumerate. rewrite Forall_lookup, Forall2_same_length_lookup.
  setoid_rewrite list_lookup_imap_Some. split.
  - intros H. split; [done|]. intros i a b Ha Hb. apply (Hf i); [by eapply list_elem_of_lookup_2..|].
    apply (H i). exists (a, b). split; [|done]. by apply lookup_zip_with_Some; eauto.
  - intros [_ H] i x ([a b] & Hab & ->).
    apply lookup_zip_with_Some in Hab as (a' & b' & [= <- <-] & Ha & Hb).
    apply Hf; [by eapply list_elem_of_lookup_2..|]. eauto.
Qed.

Section matched.
Context (payer : key) (expected : list Instruction).
Abbreviation flags := (wanted_flags payer expected) (only parsing).

Lemma match_account_Ok index position ix found wanted :
  ix ∈ expected -> wanted ∈ accounts ix ->
  match_account flags index (position, (found, wanted)) = Ok tt <->
  pubkey found = pubkey wanted /\
  privileges payer expected (pubkey wanted) (is_signer found) (is_writable found).
Proof.
  intros Hix Hw. assert (Hn : named payer expected (pubkey wanted)) by (right; eauto 10).
  apply wanted_named in Hn as [f Hf]. unfold match_account. rewrite (wanted_privileges _ _ _ _ _ _ Hf).
  rewrite Hf. rewrite reject_if_Ok, !orb_false_iff, !negb_false_iff, bool_decide_eq_true, !eqb_true_iff. tauto.
Qed.

Lemma match_instruction_Ok index served wanted :
  wanted ∈ expected ->
  match_instruction flags (index, (served, wanted)) = Ok tt <-> same_instruction payer expected served wanted.
Proof.
  intros Hw. unfold match_instruction, same_instruction. split.
  - intros H. inv_ok H. apply negb_false_iff in H, Hv, Hv0. apply bool_decide_eq_true in H, Hv.
    apply Nat.eqb_eq in Hv0. split; [done|]. split; [done|]. apply checks_Ok in Hv1.
    eapply (checks_zip _ _ _ _ _ Hv0), Hv1. Unshelve. intros i a b _ Hb. by eapply match_account_Ok.
  - intros (Hp & Hd & Ha). rewrite !bool_decide_true by done. cbn [negb reject_if mbind res_bind].
    rewrite (Forall2_length _ _ _ Ha), Nat.eqb_refl. cbn [negb reject_if mbind res_bind].
    rewrite checks_pass; [done|]. eapply checks_zip; [|by eapply Forall2_length|exact Ha].
    intros i a b _ Hb. by eapply match_account_Ok.
Qed.

Lemma match_key_Ok e : match_key flags e = Ok tt <-> loaded_as_asked payer expected e.
Proof.
  destruct e as [k found]. unfold match_key, loaded_as_asked. cbn [fst snd].
  rewrite wanted_named. destruct (flags !! k) as [wanted|] eqn:Hf.
  - rewrite (wanted_privileges _ _ _ _ _ _ Hf). destruct found as [s w], wanted as [s' w'].
    cbn [signer writable]. destruct s, s', w, w'; cbn; naive_solver.
  - split; [done|]. by intros ([f Hf'] & _).
Qed.
End matched.

Lemma matches_Ok self payer expected tx :
  matches self payer expected = Ok tx <->
  tx = sm_transaction self /\ (forall e, head (sm_keys self) = Some e -> fst e = payer) /\
  Forall2 (same_instruction payer expected) (sm_instructions self) expected /\
  Forall (loaded_as_asked payer expected) (sm_keys self).
Proof.
  assert (Hz : length (sm_instructions self) = length expected ->
    Forall (fun x => match_instruction (wanted_flags payer expected) x = Ok tt)
      (enumerate (zip (sm_instructions self) expected)) <->
    Forall2 (same_instruction payer expected) (sm_instructions self) expected).
  { apply checks_zip. intros i a b _ Hb. by apply match_instruction_Ok. }
  unfold matches. split.
  - intros H. inv_ok H. apply negb_false_iff, Nat.eqb_eq in Hv0. injection H as <-.
    apply checks_Ok, (Hz Hv0) in Hv1. apply checks_Ok in Hv2. split_and!; [done| |done|].
    + intros e He. destruct (sm_keys self) as [|[k f] ks]; [done|]. injection He as <-.
      inv_ok Hv. by apply negb_false_iff, bool_decide_eq_true in Hv.
    + eapply Forall_impl; [exact Hv2|]. intros e. apply match_key_Ok.
  - intros (-> & Hp & Hi & Hk). rewrite (Forall2_length _ _ _ Hi) in *. rewrite Nat.eqb_refl.
    rewrite (checks_pass (match_instruction _)) by (by apply Hz).
    rewrite (checks_pass (match_key _)) by (eapply Forall_impl; [exact Hk|]; intros e; apply match_key_Ok).
    destruct (sm_keys self) as [|[k f] ks]; [done|]. specialize (Hp _ eq_refl) as <-. cbn [fst].
    by rewrite bool_decide_true.
Qed.

(** ** What a decoded transaction is *)

Lemma served_decode_Ok tables bs self :
  served_decode tables bs = Ok self ->
  exists m, decode bs = Ok m /\ resolve_keys tables m = Ok (sm_keys self) /\
    NoDup (map fst (sm_keys self)) /\
    try_map (resolve_instruction (sm_keys self)) (instructions m) = Ok (sm_instructions self) /\
    sm_transaction self = {| vt_bytes := bs; vt_signatures_start := signatures_start m;
      vt_message_start := message_start m; vt_signers := take (required_signers m) (static_keys m) |}.
Proof.
  unfold served_decode. intros H. inv_ok H. injection H as <-. simpl. apply slice_p_Ok, get_range_Some in Hv3 as [_ ->].
  apply negb_false_iff, bool_decide_eq_true in Hv1. exists v. rewrite drop_0, Nat.sub_0_r. done.
Qed.

(** The header of a decoded message: at least one signer, all of them static. *)
Lemma decode_header bs m :
  decode bs = Ok m ->
  (0 < required_signers m <= length (static_keys m))%nat /\
  (required_signers m + readonly_unsigned m <= length (static_keys m))%nat.
Proof.
  rewrite decode_layout.
  intros (cs & sigs & ver & req & ros & rou & ck & ckeys & hash & ci & insts & ls & -> & Hn & Hs & Hss & Hms &
      Hv & Hreq & Hros & Hrou & Hck & Hk & Hlt & Hle & _). lia.
Qed.

(** A key of the message signs when it is among the first static keys. *)
Lemma resolve_keys_signers tables m keys k f :
  resolve_keys tables m = Ok keys -> (k, f) ∈ keys ->
  signer f = true -> k ∈ take (required_signers m) (static_keys m).
Proof.
  unfold resolve_keys. intros H Hin Hs. inv_ok H. injection H as <-.
  apply try_map_Ok in Hv, Hv0.
  assert (Hl : forall w ls out, Forall2 (fun l y => looked_up tables w l = Ok y) ls out ->
    (k, f) ∈ concat out -> False).
  { intros w ls out Ho Hc. apply list_elem_of_In, in_concat in Hc as (o & Ho' & Hc).
    apply list_elem_of_In, list_elem_of_lookup_1 in Ho' as [i Hi].
    apply (Forall2_lookup_r _ _ _ _ _ Ho) in Hi as (l & _ & Hi). unfold looked_up in Hi. inv_ok Hi.
    apply try_map_Ok in Hi. apply list_elem_of_In, list_elem_of_lookup_1 in Hc as [j Hj].
    apply (Forall2_lookup_r _ _ _ _ _ Hi) in Hj as (x & _ & Hx). inv_ok Hx. injection Hx as -> <-. done. }
  rewrite !elem_of_app in Hin. destruct Hin as [Hin|[Hin|Hin]]; [|exfalso; eauto..].
  apply elem_of_lookup_imap in Hin as (i & y & [= -> ->] & Hi). unfold static_flags in Hs.
  destruct (Nat.ltb_spec i (required_signers m)); [|done].
  eapply list_elem_of_lookup_2. rewrite lookup_take_lt; done.
Qed.

(** The static keys come first. *)
Lemma resolve_keys_static tables m keys i k :
  resolve_keys tables m = Ok keys -> static_keys m !! i = Some k ->
  keys !! i = Some (k, static_flags m i).
Proof.
  unfold resolve_keys. intros H Hi. inv_ok H. injection H as <-.
  apply lookup_app_l_Some. apply list_lookup_imap_Some. by exists k.
Qed.

(** Every account of an instruction is a key of the message. *)
Lemma resolve_instruction_keys keys c ix meta :
  resolve_instruction keys c = Ok ix -> meta ∈ accounts ix ->
  exists f, (pubkey meta, f) ∈ keys /\ is_signer meta = signer f /\ is_writable meta = writable f.
Proof.
  unfold resolve_instruction. intros H Hm. inv_ok H. injection H as <-. simpl in Hm.
  apply try_map_Ok in Hv0. apply list_elem_of_lookup_1 in Hm as [i Hi].
  apply (Forall2_lookup_r _ _ _ _ _ Hv0) in Hi as (x & _ & Hx). inv_ok Hx. destruct v1 as [k f].
  injection Hx as <-. exists f. split; [|done]. by eapply list_elem_of_lookup_2.
Qed.

Lemma matches_returns self payer expected : matches self payer expected <> Panic.
Proof.
  assert (Ht : forall {A} (f : A -> ires unit) l, (forall x, returns (f x)) -> returns (try_map f l)).
  { intros A f l Hf. induction l; cbn [try_map]; repeat returns_step; auto. }
  unfold matches. change (returns (matches self payer expected)). unfold matches.
  repeat (returns_step || apply Ht || intros [? [? ?]] || intros [? ?] ||
          unfold match_instruction || unfold match_account || unfold match_key).
Qed.

(** The keys that must sign are the ones the expected instructions ask for. *)
Lemma matched_signers tables bs self payer expected tx k :
  served_decode tables bs = Ok self -> matches self payer expected = Ok tx ->
  k ∈ vt_signers tx <-> asks is_signer payer expected k.
Proof.
  intros Hd Hm. apply matches_Ok in Hm as (-> & Hp & Hi & Hk).
  apply served_decode_Ok in Hd as (m & Hd & Hr & _ & Hix & Ht). rewrite Ht. cbn [vt_signers].
  destruct (decode_header _ _ Hd) as [Hs _]. split.
  - intros Hin. apply list_elem_of_lookup_1 in Hin as [i Hin]. apply lookup_take_Some in Hin as [Hl Hlt].
    apply (resolve_keys_static _ _ _ _ _ Hr) in Hl. apply list_elem_of_lookup_2 in Hl.
    rewrite Forall_forall in Hk. apply Hk in Hl as (_ & HS & _). apply HS. cbn. unfold static_flags.
    destruct (Nat.ltb_spec i (required_signers m)); [done|lia].
  - intros [->|(ix & meta & Hix' & Hmeta & -> & Hsig)].
    + destruct (static_keys m) as [|k0 ks] eqn:Ek; [simpl in Hs; lia|].
      assert (H0 : sm_keys self !! 0%nat = Some (k0, static_flags m 0))
        by (eapply resolve_keys_static; [exact Hr|by rewrite Ek]).
      specialize (Hp (k0, static_flags m 0)). destruct (sm_keys self); [done|]. injection H0 as ->.
      rewrite <- (Hp eq_refl). destruct (required_signers m); [lia|]. constructor.
    + assert (Hask : asks is_signer payer expected (pubkey meta)) by (right; by exists ix, meta).
      apply list_elem_of_lookup_1 in Hix' as [i Hix'].
      apply (Forall2_lookup_r _ _ _ _ _ Hi) in Hix' as (served & Hserved & _ & _ & Ha).
      apply list_elem_of_lookup_1 in Hmeta as [j Hmeta].
      apply (Forall2_lookup_r _ _ _ _ _ Ha) in Hmeta as (found & Hfound & Hkey & HS & _).
      apply try_map_Ok in Hix. apply (Forall2_lookup_r _ _ _ _ _ Hix) in Hserved as (c & _ & Hc).
      apply list_elem_of_lookup_2 in Hfound.
      destruct (resolve_instruction_keys _ _ _ found Hc Hfound) as (f & Hf & Hfs & _).
      rewrite <- Hkey. eapply resolve_keys_signers; [exact Hr|exact Hf|]. rewrite <- Hfs. by apply HS.
Qed.

(** The payer comes first, and what is accepted is the bytes that were decoded. *)
Lemma matched_payer tables bs self payer expected tx :
  served_decode tables bs = Ok self -> matches self payer expected = Ok tx ->
  head (vt_signers tx) = Some payer /\ vt_bytes tx = bs.
Proof.
  intros Hd Hm. apply matches_Ok in Hm as (-> & Hp & _ & _).
  apply served_decode_Ok in Hd as (m & Hd & Hr & _ & _ & ->). apply decode_header in Hd as [Hs _].
  cbn [vt_bytes vt_signers]. split; [|done].
  destruct (static_keys m) as [|k0 ks] eqn:Ek; [simpl in Hs; lia|].
  assert (H0 : sm_keys self !! 0%nat = Some (k0, static_flags m 0))
    by (eapply resolve_keys_static; [exact Hr|by rewrite Ek]).
  destruct (sm_keys self) as [|e keys]; [done|]. injection H0 as ->.
  specialize (Hp _ eq_refl). simpl in Hp. subst k0. by destruct (required_signers m); [lia|].
Qed.

(** C20: The check of a served transaction never panics and accepts exactly a transaction
    that is the expected one: its fee payer is the expected payer, its instructions are
    the expected ones in order (same program, data, accounts), and every account it loads
    is one of theirs, writable or signing exactly when some expected instruction (or
    paying the fee) asks for it.  What is accepted is the very bytes that were decoded,
    and the signatures they need are exactly the ones asked for, the payer's first. *)
Theorem matches_sound tables bs self payer expected :
  served_decode tables bs = Ok self ->
  matches self payer expected <> Panic /\
  forall tx, matches self payer expected = Ok tx <->
    head (map fst (sm_keys self)) = Some payer /\
    Forall2 (same_instruction payer expected) (sm_instructions self) expected /\
    Forall (loaded_as_asked payer expected) (sm_keys self) /\
    tx = sm_transaction self /\ vt_bytes tx = bs /\ head (vt_signers tx) = Some payer /\
    (forall k, k ∈ vt_signers tx <-> asks is_signer payer expected k).
Proof.
  intros Hd. split; [apply matches_returns|]. intros tx. split.
  - intros Hm. pose proof (fun k => matched_signers _ _ _ _ _ _ k Hd Hm) as Hsig.
    destruct (matched_payer _ _ _ _ _ _ Hd Hm) as [Hpay Hb]. apply matches_Ok in Hm as (-> & Hp & Hi & Hk).
    split_and!; try done. apply served_decode_Ok in Hd as (m & Hd & Hr & _ & _ & Ht).
    apply decode_header in Hd as [Hs _]. destruct (static_keys m) as [|k0 ks] eqn:Ek; [simpl in Hs; lia|].
    assert (H0 : sm_keys self !! 0%nat = Some (k0, static_flags m 0))
      by (eapply resolve_keys_static; [exact Hr|by rewrite Ek]).
    destruct (sm_keys self) as [|e keys]; [done|]. cbn. by rewrite (Hp _ eq_refl).
  - intros (Hp & Hi & Hk & -> & _). apply matches_Ok. split_and!; [done| |done..].
    intros e He. destruct (sm_keys self); [done|]. injection He as ->. by injection Hp.
Qed.

(** ** Signing *)

(** The 64 bytes of the [i]-th signature. *)
Definition slot (start : nat) (bs : bytes) (i : nat) : bytes :=
  take SIGNATURE_LEN (drop (start + i * SIGNATURE_LEN) bs).

(** Writing one chunk of a row of chunks of [n] elements. *)
Lemma copy_at_chunk n (pre sigs post chunk : bytes) c i :
  length sigs = (c * n)%nat -> length chunk = n -> (i < c)%nat ->
  exists sigs', copy_at (pre ++ sigs ++ post) (length pre + i * n) chunk = pre ++ sigs' ++ post /\
    length sigs' = length sigs /\ take n (drop (i * n) sigs') = chunk /\
    forall j, (j < c)%nat -> j <> i -> take n (drop (j * n) sigs') = take n (drop (j * n) sigs).
Proof.
  intros Hs Hc Hi. assert (Hb : (i * n + n <= length sigs)%nat) by nia.
  set (a := take (i * n) sigs). set (b := drop (i * n + n) sigs).
  assert (Ha : length a = (i * n)%nat) by (unfold a; rewrite length_take; lia).
  exists (a ++ chunk ++ b). unfold copy_at. rewrite Hc.
  rewrite take_app_add. rewrite <- Nat.add_assoc, drop_app_add.
  rewrite take_app_le, drop_app_le by lia. fold a b.
  split; [by rewrite <- !app_assoc|]. split.
  { rewrite !length_app, Ha, Hc. unfold b. rewrite length_drop. lia. }
  split; [by rewrite <- Ha, drop_app_length, <- Hc, take_app_length|].
  intros j Hj Hne. apply list_eq. intros q. destruct (decide (q < n)%nat) as [Hq|Hq];
    [|rewrite !lookup_take_ge by lia; done].
  rewrite !lookup_take_lt, !lookup_drop by done. destruct (decide (j < i)%nat) as [Hji|Hji].
  - rewrite lookup_app_l by nia. unfold a. by rewrite lookup_take_lt by nia.
  - rewrite lookup_app_r by nia. rewrite lookup_app_r by nia. unfold b. rewrite lookup_drop. f_equal. nia.
Qed.

(** A decoded transaction as its signatures and its message; other signatures of the same
    length leave what is decoded alone. *)
Lemma decode_split bs m :
  decode bs = Ok m -> exists pre sigs post, bs = pre ++ sigs ++ post /\
    length pre = signatures_start m /\ length (pre ++ sigs) = message_start m /\
    length sigs = (required_signers m * SIGNATURE_LEN)%nat /\
    forall sigs', length sigs' = length sigs -> decode (pre ++ sigs' ++ post) = Ok m.
Proof.
  rewrite decode_layout. intros (cs & sigs & ver & req & ros & rou & ck & ckeys & hash & ci & insts & ls & -> &
    Hn & Hs & Hss & Hms & Hrest).
  exists cs, sigs, (ver ++ [req; ros; rou] ++ ck ++ ckeys ++ hash ++ ci ++ insts ++ ls).
  split_and!; [done..|]. intros sigs' Hl. apply decode_layout.
  exists cs, sigs', ver, req, ros, rou, ck, ckeys, hash, ci, insts, ls.
  do 2 (split; [done|]). split; [by rewrite Hl|]. split; [done|].
  split; [rewrite Hms, !length_app; lia|exact Hrest].
Qed.

Section signing.
Context `{C : Crypto} {T : Type} `{SL : SignerLike T} {own : T -> Prop} `{!SignerLaws T own}.
Context (base64_encode : bytes -> string).

(** Signing a decoded transaction never panics and fails only for a key the
    transaction does not ask to sign.  It writes the signer's own slot and nothing else:
    the result has the same length, the same other signatures and the same message
    bytes, decodes to the same message, and the slot holds a signature of those message
    bytes that verifies under the signer's key. *)
Theorem sign_writes_own_slot tables bs self s :
  served_decode tables bs = Ok self -> own s -> (forall m, length (sign_message s m) = SIGNATURE_LEN) ->
  let tx := sm_transaction self in
  match sign_with_participant_signature base64_encode tx s with
  | Ok (text, text58) =>
      exists bs' i, text = base64_encode bs' /\ vt_signers tx !! i = Some (pubkey_bytes s) /\
        length bs' = length bs /\ take (vt_signatures_start tx) bs' = take (vt_signatures_start tx) bs /\
        drop (vt_message_start tx) bs' = drop (vt_message_start tx) bs /\
        decode bs' = decode bs /\
        (forall j, (j < length (vt_signers tx))%nat -> j <> i ->
           slot (vt_signatures_start tx) bs' j = slot (vt_signatures_start tx) bs j) /\
        text58 = bs58_encode (slot (vt_signatures_start tx) bs' i) /\
        ed_verify (pubkey_bytes s) (drop (vt_message_start tx) bs') (slot (vt_signatures_start tx) bs' i) = true
  | Err e => e = VaultIntentError.SignerNotRequired (pubkey_bytes s) /\ pubkey_bytes s ∉ vt_signers tx
  | Panic => False
  end.
Proof.
  intros Hd Hown Hlen. apply served_decode_Ok in Hd as (m & Hd & _ & _ & _ & ->). cbv zeta.
  destruct (decode_header _ _ Hd) as [Hreq _].
  destruct (decode_split _ _ Hd) as (pre & sigs & post & -> & Hpre & Hms & Hsigs & Hsame).
  unfold sign_with_participant_signature, sign_bytes.
  cbn [vt_bytes vt_signatures_start vt_message_start vt_signers].
  destruct (list_find _ _) as [[i k]|] eqn:Ef; cbn [fmap option_fmap option_map ok_or mbind res_bind fst].
  2: { split; [done|]. intros Hin. apply list_find_None in Ef. rewrite Forall_forall in Ef. by apply (Ef _ Hin). }
  apply list_find_Some in Ef as (Hi & -> & _).
  pose proof (lookup_lt_Some _ _ _ Hi) as Hlt. rewrite length_take in Hlt.
  rewrite length_app in Hms.
  assert (Hslice : forall a b, (a <= b <= length (pre ++ sigs ++ post))%nat ->
    slice_p (E := VaultIntentError.t) (pre ++ sigs ++ post) a b = Ok (take (b - a) (drop a (pre ++ sigs ++ post)))).
  { intros a b Hab. by apply slice_p_Ok, get_range_Some. }
  unfold SIGNATURE_LEN in *. rewrite Hslice by (rewrite !length_app; lia). cbn [mbind res_bind].
  rewrite Hslice by (rewrite !length_app; nia). cbn [mbind res_bind].
  rewrite (take_ge (drop _ _)) by (rewrite length_drop; lia). rewrite <- Hms, <- Hpre.
  rewrite drop_app_add, drop_app_length.
  destruct (copy_at_chunk 64 pre sigs post (sign_message s post) (required_signers m) i Hsigs (Hlen _) ltac:(lia))
    as (sigs' & -> & Hl & Hown' & Hother).
  exists (pre ++ sigs' ++ post), i. unfold slot, SIGNATURE_LEN.
  assert (Hslot : forall x j, (j < required_signers m)%nat -> length x = length sigs ->
    take 64 (drop (length pre + j * 64) (pre ++ x ++ post)) = take 64 (drop (j * 64) x)).
  { intros x j Hj Hx. rewrite drop_app_add, drop_app_le by nia. rewrite take_app_le; [done|].
    rewrite length_drop. nia. }
  rewrite (Hslot sigs' i) by (lia || done). rewrite Hown', !take_app_length, <- !Hl.
  rewrite !drop_app_add, !drop_app_length. split_and!; try done.
  - by rewrite !length_app, Hl.
  - rewrite Hd. by apply Hsame.
  - intros j Hj Hne. rewrite length_take in Hj. rewrite !Hslot by (lia || done). apply Hother; lia.
  - by apply signer_verifies.
Qed.
End signing.

(** ** Compute budget and quote signature *)

Lemma budget_Ok self index tag len v :
  budget self index tag len = Ok v <->
  sm_instructions self !! index = Some (budget_instruction tag v) /\ S (length v) = len.
Proof.
  unfold budget, budget_instruction. destruct (sm_instructions self !! index) as [[p a d]|]; [|naive_solver].
  cbn [program_id accounts data]. split.
  - destruct (_ && _ && _ && _) eqn:Hb; [|done].
    apply andb_true_iff in Hb as [[[Hp Ha]%andb_true_iff Hl]%andb_true_iff Ht].
    apply bool_decide_eq_true in Hp, Ha, Ht. apply Nat.eqb_eq in Hl.
    destruct d as [|t d]; [done|]. injection Ht as ->. subst.
    intros H%slice_p_Ok%get_range_Some. simpl in H. rewrite Nat.sub_0_r, firstn_all in H. destruct H as [_ ->]. done.
  - intros ([= -> -> ->] & <-). rewrite !bool_decide_true by done. cbn [length]. rewrite Nat.eqb_refl. cbn [andb].
    apply slice_p_Ok, get_range_Some. simpl. split; [lia|]. by rewrite Nat.sub_0_r, firstn_all.
Qed.

Lemma budget_returns self index tag len : (0 < len)%nat -> returns (budget self index tag len).
Proof.
  intros Hl. unfold budget. destruct (sm_instructions self !! index) as [[p a d]|]; [|done].
  cbn [program_id accounts data]. destruct (_ && _ && _ && _) eqn:Hb; [|done].
  apply andb_true_iff in Hb as [[_ Hn%Nat.eqb_eq]%andb_true_iff _].
  unfold slice_p. edestruct (get_range_is_Some d 1 (length d)) as [? ->]; [lia|done].
Qed.

Lemma compute_budget_returns self bounds : returns (compute_budget self bounds).
Proof.
  unfold compute_budget. cbv zeta. repeat (returns_step || (apply budget_returns; lia)).
Qed.

Lemma compute_budget_Ok self bounds ixs :
  Forall (fun ix => is_bytes (data ix)) (sm_instructions self) ->
  compute_budget self bounds = Ok ixs <->
    take 2 (sm_instructions self) = ixs /\
    exists limit price, fits 32 limit /\ fits 64 price /\
      ixs = [budget_instruction SET_COMPUTE_UNIT_LIMIT (to_le_bytes 4 limit);
             budget_instruction SET_COMPUTE_UNIT_PRICE (to_le_bytes 8 price)] /\
      0 < limit <= max_unit_limit bounds /\ limit <= MAX_COMPUTE_UNIT_LIMIT /\
      price <= max_unit_price_micro_lamports bounds.
Proof.
  intros Hbytes. split.
  - unfold compute_budget. cbv zeta. intros H. apply bind_Ok in H as (bl & Hl & H).
    apply bind_Ok in H as (bp & Hp & H). inv_ok H.
    apply budget_Ok in Hl as [Hl Ll], Hp as [Hp Lp].
    assert (is_bytes bl /\ is_bytes bp) as [Bl Bp].
    { rewrite Forall_lookup in Hbytes. apply Hbytes in Hl, Hp. by inversion Hl; inversion Hp. }
    pose proof (from_le_bytes_fits _ Bl) as Fl. pose proof (from_le_bytes_fits _ Bp) as Fp.
    replace (length bl) with 4%nat in Fl by lia. replace (length bp) with 8%nat in Fp by lia.
    assert (El : to_le_bytes 4 (from_le_bytes bl) = bl)
      by (replace 4%nat with (length bl) by lia; by apply to_from_le_bytes).
    assert (Ep : to_le_bytes 8 (from_le_bytes bp) = bp)
      by (replace 8%nat with (length bp) by lia; by apply to_from_le_bytes).
    apply orb_false_iff in Hv as [Hz Hm]. apply Z.eqb_neq in Hz. apply Z.ltb_ge in Hm, Hv0.
    rewrite El, Ep in H. injection H as <-. split; [|exists (from_le_bytes bl), (from_le_bytes bp)].
    + destruct (sm_instructions self) as [|x [|y l]]; [done..|].
      injection Hl as ->. injection Hp as ->. by destruct l.
    + rewrite El, Ep. unfold fits in *. split_and!; try done; lia.
  - intros (Ht & limit & price & Fl & Fp & -> & Hl & Hm & Hp).
    destruct (sm_instructions self) as [|x [|y l]] eqn:Ei; [done..|]. injection Ht as -> ->.
    unfold compute_budget. cbv zeta.
    rewrite (proj2 (budget_Ok self 0 SET_COMPUTE_UNIT_LIMIT 5 (to_le_bytes 4 limit))) by (by rewrite Ei).
    cbn [mbind res_bind].
    rewrite (proj2 (budget_Ok self 1 SET_COMPUTE_UNIT_PRICE 9 (to_le_bytes 8 price))) by (by rewrite Ei).
    cbn [mbind res_bind]. rewrite !from_to_le_bytes by done.
    rewrite (proj2 (orb_false_iff _ _)), (proj2 (Z.ltb_ge _ _) Hp); [done|].
    split; [apply Z.eqb_neq|apply Z.ltb_ge]; lia.
Qed.

(** The compute budget taken from a served transaction never panics and is accepted
    exactly when the first two instructions set a unit limit and a unit price and nothing
    else, the limit is positive and at most both the operator's bound and the
    protocol's, and the price at most the operator's bound; the expected instructions
    are then those two, byte for byte. *)
Theorem compute_budget_bounded self bounds :
  Forall (fun ix => is_bytes (data ix)) (sm_instructions self) ->
  compute_budget self bounds <> Panic /\
  forall ixs, compute_budget self bounds = Ok ixs <->
    take 2 (sm_instructions self) = ixs /\
    exists limit price, fits 32 limit /\ fits 64 price /\
      ixs = [budget_instruction SET_COMPUTE_UNIT_LIMIT (to_le_bytes 4 limit);
             budget_instruction SET_COMPUTE_UNIT_PRICE (to_le_bytes 8 price)] /\
      0 < limit <= max_unit_limit bounds /\ limit <= MAX_COMPUTE_UNIT_LIMIT /\
      price <= max_unit_price_micro_lamports bounds.
Proof.
  intros Hbytes. split; [apply compute_budget_returns|]. intros ixs. by apply compute_budget_Ok.
Qed.

(** Four consecutive fields of known widths. *)
Lemma fields_eq (l a b c d : bytes) :
  l = a ++ b ++ c ++ d ->
  get_range l 0 (length a) = Some a /\ get_range l (length a) (length a + length b) = Some b /\
  get_range l (length a + length b) (length a + length b + length c) = Some c /\
  get_range l (length a + length b + length c) (length l) = Some d.
Proof.
  intros ->. split_and!.
  - by apply (get_range_app []).
  - by apply get_range_app.
  - rewrite app_assoc. apply get_range_app; by rewrite ?length_app.
  - apply get_range_Some. rewrite !length_app. split; [lia|].
    rewrite <- !Nat.add_assoc, !drop_app_add, drop_app_length, take_ge by lia. done.
Qed.

Lemma get_range_join {A} (l : list A) a b c x y :
  get_range l a b = Some x -> get_range l b c = Some y -> get_range l a c = Some (x ++ y).
Proof.
  intros [Hab ->]%get_range_Some [Hbc ->]%get_range_Some. apply get_range_Some. split; [lia|].
  replace (c - a)%nat with ((b - a) + (c - b))%nat by lia.
  replace (drop b l) with (drop (b - a) (drop a l)) by (rewrite drop_drop; f_equal; lia).
  by rewrite take_take_drop.
Qed.

Lemma get_range_full {A} (l x : list A) : get_range l 0 (length l) = Some x -> x = l.
Proof. intros [_ ->]%get_range_Some. by rewrite drop_0, Nat.sub_0_r, firstn_all. Qed.

Lemma verify_bytes_Ok `{C : Crypto} order_id signature k u :
  verify_order_id_signature_bytes order_id signature k = Ok u <->
  vk_from_bytes k = Ok tt /\ ed_verify k order_id signature = true.
Proof.
  unfold verify_order_id_signature_bytes. rewrite bind_Ok. setoid_rewrite map_err_Ok.
  setoid_rewrite reject_if_Ok. setoid_rewrite negb_false_iff. split; [intros ([] & ?); done|]. by exists tt.
Qed.

Lemma quote_signature_returns `{C : Crypto} self index quote_signer order_id :
  vk_from_bytes quote_signer <> Panic -> returns (quote_signature self index quote_signer order_id).
Proof.
  intros Hvk. unfold quote_signature. cbv zeta.
  apply returns_bind; [apply returns_ok_or|intros ix _]. apply returns_bind; [apply returns_reject_if|].
  intros [] Hl%reject_if_Ok. apply orb_false_iff in Hl as [_ Hl%negb_false_iff%Nat.eqb_eq].
  unfold ED25519_DATA_LEN in Hl.
  repeat (returns_step || (apply returns_slice; lia)).
  apply (returns_bind (E := OrderError.t)); [by apply returns_map_err|]. intros. apply returns_reject_if.
Qed.

Lemma quote_signature_inv `{C : Crypto} self index quote_signer order_id ix :
  quote_signature self index quote_signer order_id = Ok ix ->
    sm_instructions self !! index = Some ix /\
    exists signature, length signature = SIGNATURE_LEN /\
      vk_from_bytes quote_signer = Ok tt /\ ed_verify quote_signer order_id signature = true /\
      ix = {| program_id := ED25519_PROGRAM_ID; accounts := [];
              data := ED25519_HEADER ++ quote_signer ++ signature ++ order_id |}.
Proof.
  unfold quote_signature. cbv zeta.
  intros H. apply bind_Ok in H as (ix_ & Hix & H). apply ok_or_Ok in Hix. inv_ok H. injection H as <-. split; [done|].
  repeat match goal with
  | H : (_ || _) = false |- _ => apply orb_false_iff in H as [? ?]
  | H : negb _ = false |- _ => apply negb_false_iff in H
  | H : bool_decide _ = true |- _ => apply bool_decide_eq_true in H
  | H : slice_p _ _ _ = Ok _ |- _ => apply slice_p_Ok in H
  | H : (_ =? _)%nat = true |- _ => apply Nat.eqb_eq in H
  end.
  apply verify_bytes_Ok in Hv7 as [Hvk7 Hver].
  pose proof (get_range_full _ _ (get_range_join _ _ _ _ _ _ Hv0 (get_range_join _ _ _ _ _ _ Hv2
    (get_range_join _ _ _ _ _ _ Hv6 Hv4)))) as Hdata.
  exists v6. split; [apply (get_range_length _ _ _ _ Hv6)|]. do 2 (split; [done|]).
  subst. destruct ix_; simpl in *; congruence.
Qed.

Lemma quote_signature_Ok `{C : Crypto} self index quote_signer order_id ix :
  length quote_signer = 32%nat -> length order_id = 32%nat ->
  quote_signature self index quote_signer order_id = Ok ix <->
    sm_instructions self !! index = Some ix /\
    exists signature, length signature = SIGNATURE_LEN /\
      vk_from_bytes quote_signer = Ok tt /\ ed_verify quote_signer order_id signature = true /\
      ix = {| program_id := ED25519_PROGRAM_ID; accounts := [];
              data := ED25519_HEADER ++ quote_signer ++ signature ++ order_id |}.
Proof.
  intros Hk Ho. split; [apply quote_signature_inv|]. unfold quote_signature. cbv zeta.
  intros (Hix & signature & Hl & Hvk' & Hver & ->). rewrite Hix. cbn [ok_or mbind res_bind program_id accounts data].
    destruct (fields_eq _ ED25519_HEADER quote_signer signature order_id eq_refl) as (H1 & H2 & H3 & H4).
    rewrite Hk in H2, H3, H4. rewrite Hl in H3, H4. change (length ED25519_HEADER) with 16%nat in H1, H2, H3, H4.
    set (d := ED25519_HEADER ++ quote_signer ++ signature ++ order_id) in *.
    assert (Hd : length d = ED25519_DATA_LEN) by (unfold d; rewrite !length_app, Hk, Hl, Ho; done).
    unfold slice_p. change (16 + 32)%nat with 48%nat in H2, H3, H4. change (48 + SIGNATURE_LEN)%nat with 112%nat in H3, H4.
    rewrite !bool_decide_true by done. rewrite Hd, Nat.eqb_refl, H1, H2, H3. rewrite Hd in H4. rewrite H4.
    cbn [negb orb reject_if mbind res_bind]. rewrite !bool_decide_true by done.
    cbn [negb orb reject_if mbind res_bind].
    by rewrite (proj2 (verify_bytes_Ok order_id signature quote_signer tt)).
Qed.

(** The quote signature taken from a served transaction never panics and is accepted
    exactly when the instruction there is one inline Ed25519 check of the given quote
    signer over the given order id, with a signature that verifies; it is returned
    unchanged. *)
Theorem quote_signature_sound `{C : Crypto} self index quote_signer order_id :
  length quote_signer = 32%nat -> length order_id = 32%nat -> vk_from_bytes quote_signer <> Panic ->
  quote_signature self index quote_signer order_id <> Panic /\
  forall ix, quote_signature self index quote_signer order_id = Ok ix <->
    sm_instructions self !! index = Some ix /\
    exists signature, length signature = SIGNATURE_LEN /\
      vk_from_bytes quote_signer = Ok tt /\ ed_verify quote_signer order_id signature = true /\
      ix = {| program_id := ED25519_PROGRAM_ID; accounts := [];
              data := ED25519_HEADER ++ quote_signer ++ signature ++ order_id |}.
Proof.
  intros Hk Ho Hvk. split; [by apply quote_signature_returns|]. intros ix. by apply quote_signature_Ok.
Qed.

Module ServedSample.
Import Sample.
Definition payer : key := key_of 5.
Definition program : key := key_of 8.
Definition order : key := key_of 4.
Definition tables : list LookupTable := [{| table_key := key_of 9; addresses := [key_of 1; key_of 2] |}].
Definition quote_data : bytes := ED25519_HEADER ++ key_of 6 ++ pad 64 (key_of 6 ++ order) ++ order.
Definition bounds : ComputeBudgetBounds :=
  {| max_unit_limit := 300000; max_unit_price_micro_lamports := 100 |}.
Definition expected : list Instruction :=
  [budget_instruction SET_COMPUTE_UNIT_LIMIT (to_le_bytes 4 250000);
   budget_instruction SET_COMPUTE_UNIT_PRICE (to_le_bytes 8 90);
   {| program_id := ED25519_PROGRAM_ID; accounts := []; data := quote_data |};
   {| program_id := program; data := [7];
      accounts := [{| pubkey := payer; is_signer := true; is_writable := false |};
                   {| pubkey := key_of 2; is_signer := false; is_writable := true |}] |}].
Definition message : CompiledMessage :=
  {| signatures_start := 1; message_start := 65; required_signers := 1; readonly_signed := 0;
     readonly_unsigned := 3;
     static_keys := [payer; COMPUTE_BUDGET_PROGRAM_ID; ED25519_PROGRAM_ID; program];
     instructions :=
       [{| ci_program := 1; ci_accounts := []; ci_data := 2 :: to_le_bytes 4 250000 |};
        {| ci_program := 1; ci_accounts := []; ci_data := 3 :: to_le_bytes 8 90 |};
        {| ci_program := 2; ci_accounts := []; ci_data := quote_data |};
        {| ci_program := 3; ci_accounts := [0; 4]; ci_data := [7] |}];
     lookups := [{| l_table := key_of 9; l_writable := [1]; l_readonly := [] |}];
     is_version_zero := true |}.
Definition wire : bytes := Wire.encode message (replicate 64 0) (key_of 3).

(** The decoded sample. *)
Definition served : ServedMessage :=
  match served_decode tables wire with
  | Ok s => s
  | _ => {| sm_keys := []; sm_instructions := []; sm_static := []; sm_is_version_zero := true;
            sm_has_lookup_table := true; sm_wire_len := 0;
            sm_transaction := {| vt_bytes := []; vt_signatures_start := 0; vt_message_start := 0; vt_signers := [] |} |}
  end.

Lemma served_ok : served_decode tables wire = Ok served.
Proof. vm_compute. reflexivity. Qed.
End ServedSample.

Lemma matches_sound_witness :
  exists tx, matches ServedSample.served ServedSample.payer ServedSample.expected = Ok tx /\
    vt_bytes tx = ServedSample.wire /\ head (vt_signers tx) = Some ServedSample.payer.
Proof.
  exists (sm_transaction ServedSample.served).
  assert (H : matches ServedSample.served ServedSample.payer ServedSample.expected
    = Ok (sm_transaction ServedSample.served)) by (vm_compute; reflexivity).
  split; [exact H|].
  apply (matches_sound ServedSample.tables ServedSample.wire ServedSample.served ServedSample.payer
    ServedSample.expected ServedSample.served_ok) in H.
  tauto.
Defined.

Lemma sign_writes_own_slot_witness :
  exists text text58,
    sign_with_participant_signature Sample.encode (sm_transaction ServedSample.served) (from_secret (key_of 5))
      = Ok (text, text58) /\
    exists bs', text = Sample.encode bs' /\ decode bs' = decode ServedSample.wire.
Proof.
  assert (Hl : forall m, length (sign_message (from_secret (key_of 5)) m) = SIGNATURE_LEN)
    by (intros m; apply (ed_sign_array (key_of 5) m)).
  pose proof (sign_writes_own_slot (own := signer_wf) Sample.encode ServedSample.tables ServedSample.wire ServedSample.served
    (from_secret (key_of 5)) ServedSample.served_ok eq_refl Hl) as H.
  cbv zeta in H. destruct (sign_with_participant_signature _ _ _) as [[text text58]|e|].
  - exists text, text58. split; [reflexivity|]. destruct H as (bs' & i & Ht & _ & _ & _ & _ & Hd & _).
    exists bs'. split; [exact Ht|exact Hd].
  - destruct H as [_ H]. exfalso. apply H. vm_compute. left.
  - destruct H.
Defined.

Lemma compute_budget_bounded_witness :
  compute_budget ServedSample.served ServedSample.bounds = Ok (take 2 ServedSample.expected).
Proof.
  apply (compute_budget_bounded ServedSample.served ServedSample.bounds).
  - apply (bool_decide_unpack _). vm_compute. reflexivity.
  - split; [vm_compute; reflexivity|]. exists 250000, 90. unfold fits, MAX_COMPUTE_UNIT_LIMIT. cbn [max_unit_limit max_unit_price_micro_lamports ServedSample.bounds].
    repeat split; lia.
Defined.

Lemma quote_signature_sound_witness :
  quote_signature ServedSample.served 2 (key_of 6) ServedSample.order <> Panic /\
  exists ix, quote_signature ServedSample.served 2 (key_of 6) ServedSample.order = Ok ix.
Proof.
  assert (Hv : vk_from_bytes (key_of 6) <> Panic) by (vm_compute; discriminate).
  destruct (quote_signature_sound ServedSample.served 2 (key_of 6) ServedSample.order eq_refl eq_refl Hv) as [Hp Hok].
  split; [exact Hp|]. eexists. apply Hok. split; [vm_compute; reflexivity|].
  exists (Sample.pad 64 (key_of 6 ++ ServedSample.order)).
  split; [reflexivity|]. split; [reflexivity|]. split; vm_compute; reflexivity.
Defined.
