(* ===== verification/Settle.v ===== *)
(** * Settling and funding positions
      ([src/chain/settlement.rs], [spreads.rs], [batch.rs], [ix.rs] and [vault/settle.rs])

    The instructions that open and settle cash spreads, settle physical positions, fund
    them and move a maker's premium; who is paid which asset when a position settles, and
    which accounts the instructions may touch. *)

From Stdlib Require Import ZArith Lia String.
From stdpp Require Import base list sets strings.
From S2P Require Import Prelude Spreads Amounts Terms Signing Orders Quote Chain Account Positions Opens Served.

Open Scope Z_scope.

(* chain/settlement.rs:6-23 required_settlement *)
Definition required_settlement (position_type strike quantity quote_decimals underlying_decimals : Z) : xres Z :=
  match ChainPositionType.try_from position_type with
  | Ok ChainPositionType.CoveredCall =>
      map_err (fun _ => ChainError.SettlementAmountOverflow)
        (scaled_quote_amount strike quantity quote_decimals underlying_decimals)
  | Ok ChainPositionType.CashSecuredPut => Ok quantity
  | Ok (ChainPositionType.CallSpread | ChainPositionType.PutSpread) | Err _ =>
      Err (ChainError.InvalidPositionType position_type)
  | Panic => Panic
  end.

(* chain/batch.rs:8-14 PositionSnapshot *)
Record PositionSnapshot := {
  ps_address : key; ps_position : PositionInfo; ps_market_address : key; ps_market : MarketInfo }.

(* chain/batch.rs:16-20 PremiumToken *)
Record PremiumToken := { pt_mint : key; pt_token_program : key }.
#[export] Instance premium_token_eq_dec : EqDecision PremiumToken.
Proof. solve_decision. Defined.

(* chain/spreads.rs:16-22 OpenSpreadIxArgs *)
Record OpenSpreadIxArgs := {
  os_order : SpreadOrderPreimageArgs; os_market : MarketInfo; os_keeper : key; os_quote_signer : key;
  os_signature : bytes }.

(* chain/spreads.rs:118-122 CashSettleDestinations *)
Record CashSettleDestinations := { csd_writer : key; csd_holder : key }.

(* chain/ix.rs:13-20 MakerDepositIxArgs *)
Record MakerDepositIxArgs := {
  md_maker_owner : key; md_amount : Z; md_premium_mint : key; md_token_program : key; md_create_atas : bool }.
(* chain/ix.rs:22-29 MakerWithdrawIxArgs *)
Record MakerWithdrawIxArgs := {
  mw_maker_owner : key; mw_amount : Z; mw_premium_mint : key; mw_token_program : key; mw_create_atas : bool }.
(* chain/ix.rs:31-42 FundPositionIxArgs *)
Record FundPositionIxArgs := {
  fp_holder : key; fp_position_pda : key; fp_market_pda : key; fp_position_type : Z; fp_underlying_mint : key;
  fp_quote_mint : key; fp_underlying_token_program_id : key; fp_quote_token_program_id : key;
  fp_create_atas : bool }.
(* chain/ix.rs:44-48 UpdateQuoteSigningIxArgs *)
Record UpdateQuoteSigningIxArgs := { uq_maker_owner : key; uq_new_quote_signing : key }.

Definition identity {A} (what : string) : xres A := Err (ChainError.Identity what).

(* chain/spreads.rs:265-275 validate_token_programs *)
Definition validate_token_programs (market : MarketInfo) : xres unit :=
  _ ← try_map (fun program =>
        reject_if (negb (bool_decide (program = TOKEN_PROGRAM_ID))
                   && negb (bool_decide (program = TOKEN_2022_PROGRAM_ID))) ChainError.InvalidAccountData)
      [mi_underlying_token_program_id market; mi_quote_token_program_id market];
  Ok tt.

Section building.
Context `{C : Crypto} `{P : Pda}.
Abbreviation ata := derive_associated_token_address (only parsing).

Definition market_address (program_id : key) (market : MarketInfo) : key :=
  market_pda program_id (mi_underlying_mint market) (mi_quote_mint market) (mi_expiry_ts market) (mi_is_put market).
Definition quote_ata (market : MarketInfo) (owner : key) : key :=
  ata owner (mi_quote_mint market) (mi_quote_token_program_id market).

(** ** Maker instructions *)

(* chain/ix.rs:205-218 InstructionKind, build_amount_instruction *)
Definition build_amount_instruction (kind amount : Z) : bytes := kind :: to_le_bytes 8 amount.

(* chain/ix.rs:50-93 build_maker_deposit_ixs *)
Definition build_maker_deposit_ixs (program_id : key) (args : MakerDepositIxArgs) (fee_payer : key) : list Instruction :=
  let maker_pda := maker_pda_with_program_id program_id (md_maker_owner args) in
  let maker_owner_premium_ata := ata (md_maker_owner args) (md_premium_mint args) (md_token_program args) in
  let maker_custody_ata := ata maker_pda (md_premium_mint args) (md_token_program args) in
  (if md_create_atas args then
     [create_associated_token_account_idempotent_ix fee_payer maker_owner_premium_ata (md_maker_owner args)
        (md_premium_mint args) (md_token_program args);
      create_associated_token_account_idempotent_ix fee_payer maker_custody_ata maker_pda
        (md_premium_mint args) (md_token_program args)]
   else []) ++
  [{| program_id := program_id;
      accounts := [meta_new (md_maker_owner args) true; new_readonly maker_pda false;
                   meta_new maker_owner_premium_ata false; meta_new maker_custody_ata false;
                   new_readonly (md_token_program args) false];
      data := build_amount_instruction 4 (md_amount args) |}].

(* chain/ix.rs:95-131 build_maker_withdraw_ixs *)
Definition build_maker_withdraw_ixs (program_id : key) (args : MakerWithdrawIxArgs) (fee_payer : key) : list Instruction :=
  let maker_pda := maker_pda_with_program_id program_id (mw_maker_owner args) in
  let maker_owner_premium_ata := ata (mw_maker_owner args) (mw_premium_mint args) (mw_token_program args) in
  let maker_custody_ata := ata maker_pda (mw_premium_mint args) (mw_token_program args) in
  (if mw_create_atas args then
     [create_associated_token_account_idempotent_ix fee_payer maker_owner_premium_ata (mw_maker_owner args)
        (mw_premium_mint args) (mw_token_program args)]
   else []) ++
  [{| program_id := program_id;
      accounts := [meta_new (mw_maker_owner args) true; meta_new maker_pda false;
                   meta_new maker_custody_ata false; meta_new maker_owner_premium_ata false;
                   new_readonly (mw_token_program args) false];
      data := build_amount_instruction 5 (mw_amount args) |}].

(* chain/ix.rs:133-150 build_update_quote_signing_ixs *)
Definition build_update_quote_signing_ixs (program_id : key) (args : UpdateQuoteSigningIxArgs) : list Instruction :=
  let maker_pda := maker_pda_with_program_id program_id (uq_maker_owner args) in
  [{| program_id := program_id;
      accounts := [new_readonly (uq_maker_owner args) true; meta_new maker_pda false];
      data := 3 :: uq_new_quote_signing args |}].

(* chain/ix.rs:152-203 build_fund_position_ixs *)
Definition build_fund_position_ixs (program_id : key) (args : FundPositionIxArgs) (fee_payer : key)
  : xres (list Instruction) :=
  let maker_pda := maker_pda_with_program_id program_id (fp_holder args) in
  '(settlement_mint, settlement_program) ←
    (if fp_position_type args =? 0 then Ok (fp_quote_mint args, fp_quote_token_program_id args)
     else if fp_position_type args =? 1 then Ok (fp_underlying_mint args, fp_underlying_token_program_id args)
     else Err (ChainError.Ix (fp_position_type args)));
  let holder_funding_ata := ata (fp_holder args) settlement_mint settlement_program in
  let pos_settlement_ata := ata (fp_position_pda args) settlement_mint settlement_program in
  Ok ((if fp_create_atas args then
         [create_associated_token_account_idempotent_ix fee_payer holder_funding_ata (fp_holder args)
            settlement_mint settlement_program;
          create_associated_token_account_idempotent_ix fee_payer pos_settlement_ata (fp_position_pda args)
            settlement_mint settlement_program]
       else []) ++
      [{| program_id := program_id;
          accounts := [meta_new (fp_holder args) true; new_readonly maker_pda false;
                       meta_new (fp_position_pda args) false; new_readonly (fp_market_pda args) false;
                       meta_new holder_funding_ata false; meta_new pos_settlement_ata false;
                       new_readonly settlement_program false];
          data := [9] |}]).

(** ** A snapshot of a position *)

Definition chain_type (position : PositionInfo) : Z :=
  ChainPositionType.to_u8 (ChainTerms.position_type (OptionTerms.to_chain (pi_terms position))).

(* chain/batch.rs:38-52 PositionSnapshot::settlement_token *)
Definition settlement_token (self : PositionSnapshot) : PremiumToken :=
  match OptionTerms.position_type (pi_terms (ps_position self)) with
  | PositionType.CoveredCall | PositionType.CallSpread | PositionType.PutSpread | PositionType.CashPut =>
      {| pt_mint := mi_quote_mint (ps_market self); pt_token_program := mi_quote_token_program_id (ps_market self) |}
  | PositionType.CashSecuredPut =>
      {| pt_mint := mi_underlying_mint (ps_market self);
         pt_token_program := mi_underlying_token_program_id (ps_market self) |}
  end.

(* chain/batch.rs:54-62 PositionSnapshot::required_settlement *)
Definition snapshot_required_settlement (self : PositionSnapshot) : xres Z :=
  required_settlement (chain_type (ps_position self)) (OptionTerms.strike (pi_terms (ps_position self)))
    (pi_quantity (ps_position self)) (mi_quote_decimals (ps_market self)) (mi_underlying_decimals (ps_market self)).

(* chain/batch.rs:64-105 PositionSnapshot::fund_instructions *)
Definition fund_instructions (self : PositionSnapshot) (program_id maker_owner fee_payer : key) (create_atas : bool)
  : xres (list Instruction) :=
  let position := ps_position self in
  let market := ps_market self in
  _ ← reject_if (TakerSide.is_taker_buy (pi_side position)) ChainError.TakerBuyUnsupported;
  _ ← reject_if (negb (bool_decide (ps_market_address self = pi_market_pda position))) (ChainError.Identity "market");
  _ ← reject_if (negb (bool_decide (pi_holder position = maker_owner))) (ChainError.Identity "maker owner");
  _ ← reject_if (negb (bool_decide (pi_status position = OnChainStatus.Open))
                 || negb (Bool.eqb (mi_is_put market)
                            (bool_decide (OptionTerms.position_type (pi_terms position) = PositionType.CashSecuredPut))))
        ChainError.InvalidAccountData;
  build_fund_position_ixs program_id
    {| fp_holder := maker_owner; fp_position_pda := ps_address self; fp_market_pda := pi_market_pda position;
       fp_position_type := chain_type position; fp_underlying_mint := mi_underlying_mint market;
       fp_quote_mint := mi_quote_mint market; fp_underlying_token_program_id := mi_underlying_token_program_id market;
       fp_quote_token_program_id := mi_quote_token_program_id market; fp_create_atas := create_atas |} fee_payer.

(* chain/batch.rs:108-127 decode_premium_balance *)
Definition decode_premium_balance (account : Account) (owner_ : key) (token : PremiumToken) : xres Z :=
  _ ← reject_if (negb (bool_decide (pt_token_program token = TOKEN_PROGRAM_ID))
                 && negb (bool_decide (pt_token_program token = TOKEN_2022_PROGRAM_ID))) ChainError.InvalidAccountData;
  _ ← reject_if (negb (bool_decide (owner account = pt_token_program token))) ChainError.InvalidAccountData;
  _ ← reject_if (length (account_data account) <? 165)%nat ChainError.InvalidAccountData;
  mint ← slice_p (account_data account) 0 32;
  _ ← reject_if (negb (bool_decide (mint = pt_mint token))) ChainError.InvalidAccountData;
  held_by ← slice_p (account_data account) 32 64;
  _ ← reject_if (negb (bool_decide (held_by = owner_))) ChainError.InvalidAccountData;
  state ← index_p (account_data account) 108;
  _ ← reject_if (negb (state =? 1)) ChainError.InvalidAccountData;
  from_le_bytes <$> slice_p (account_data account) 64 72.

(** ** Opening a cash spread *)

(** The Ed25519 program reads the signature at 16, the key at 80 and 32 message bytes at
    112, all from this instruction. *)
(* chain/spreads.rs:101-107 build_open_spread_ixs (signature) *)
Definition signature_data (signature quote_signer order_id : bytes) : bytes :=
  [1; 0] ++ concat (map (to_le_bytes 2) [16; 65535; 80; 65535; 112; 32; 65535]) ++
  signature ++ quote_signer ++ order_id.

(* chain/spreads.rs:66-78 build_open_spread_ixs (data) *)
Definition open_spread_data (order : SpreadOrderPreimageArgs) (order_id : key) : bytes :=
  [77; SpreadType.to_u8 (s_position_type order)] ++
  concat (map (to_le_bytes 8) [s_lower_strike order; s_quantity order; s_gross_price order; s_valid_until order;
                               s_nonce order]) ++
  order_id ++ to_le_bytes 8 (s_upper_strike order) ++ [u8_of_bool (TakerSide.is_taker_buy (s_side order))].

(* chain/spreads.rs:58-100 build_open_spread_ixs (accounts) *)
Definition open_spread_ix (args : OpenSpreadIxArgs) (order_id : key) : Instruction :=
  let order := os_order args in
  let market := os_market args in
  let program := s_program_id order in
  let maker_pda := maker_pda_with_program_id program (s_maker order) in
  let position := pda.position program order_id in
  let config := pda.premium_config program (mi_quote_mint market) in
  {| program_id := program; data := open_spread_data order order_id;
     accounts := [meta_new (os_keeper args) true; meta_new (s_taker order) true;
                  meta_new (quote_ata market (s_taker order)) false; meta_new (quote_ata market (s_taker order)) false;
                  new_readonly maker_pda false; meta_new (quote_ata market maker_pda) false;
                  meta_new (market_address program market) false; meta_new position false;
                  meta_new (quote_ata market position) false; new_readonly config false;
                  meta_new (quote_ata market config) false; new_readonly INSTRUCTIONS_SYSVAR_ID false;
                  new_readonly (mi_underlying_token_program_id market) false;
                  new_readonly (mi_quote_token_program_id market) false; new_readonly SYSTEM_PROGRAM_ID false;
                  new_readonly (pda.global_config program) false] |}.

(* chain/spreads.rs:24-116 build_open_spread_ixs *)
Definition build_open_spread_ixs (args : OpenSpreadIxArgs) : xres (list Instruction) :=
  let order := os_order args in
  let market := os_market args in
  _ ← reject_if (negb (s_chain_id order =? 0)
                 || negb (bool_decide (s_market order = market_address (s_program_id order) market))
                 || negb (Bool.eqb (mi_is_put market) (bool_decide (s_position_type order = SpreadType.PutSpread)))
                 || mi_is_finalized market || (s_valid_until order =? 0)
                 || (mi_expiry_ts market <? s_valid_until order)) ChainError.InvalidAccountData;
  _ ← validate_token_programs market;
  _ ← map_err ChainError.Spread
        (SpreadTerm.premium
           {| kind := s_position_type order; lower_strike := s_lower_strike order;
              upper_strike := s_upper_strike order; quantity := s_quantity order;
              quote_decimals := mi_quote_decimals market; underlying_decimals := mi_underlying_decimals market |}
           (s_gross_price order) 0 0);
  order_id ← map_err ChainError.Spread (compute_spread_order_id order);
  _ ← map_err (fun _ => ChainError.InvalidAccountData)
        (verify_order_id_signature_bytes order_id (os_signature args) (os_quote_signer args));
  Ok [{| program_id := ED25519_PROGRAM_ID; accounts := [];
         data := signature_data (os_signature args) (os_quote_signer args) order_id |};
      open_spread_ix args order_id].

(** ** Settling a cash spread *)

(** The first of [keys] that occurs earlier in the list. *)
Fixpoint has_repeat (before keys : list key) : bool :=
  match keys with
  | [] => false
  | k :: keys => bool_decide (k ∈ before) || has_repeat (before ++ [k]) keys
  end.

(* chain/spreads.rs:178-195 build_cash_settle_ix_with_destinations (distinct accounts) *)
Definition cash_settle_unique (program_id : key) (position : PositionInfo) (market : MarketInfo)
  (destinations : CashSettleDestinations) : list key :=
  let position_pda := pda.position program_id (pi_order_id position) in
  let shared := bool_decide (pi_writer position = pi_holder position)
                && bool_decide (csd_writer destinations = csd_holder destinations) in
  let unique := [position_pda; market_address program_id market; quote_ata market position_pda; SYSTEM_PROGRAM_ID;
                 csd_writer destinations; csd_holder destinations] in
  take (length unique - (if shared then 1 else 0)) unique.

(* chain/spreads.rs:196-212 build_cash_settle_ix_with_destinations (vaults) *)
Definition settled_vaults (position : PositionInfo) (market : MarketInfo) (destinations : CashSettleDestinations)
  : xres (list key) :=
  try_map (fun '(_, owner, destination) =>
    if bool_decide (destination = quote_ata market owner) then Ok owner
    else identity "vault spread destination must be the vault quote ATA")
  (List.filter (fun '(flag, _, _) => negb (Z.land (pi_flags position) flag =? 0))
     [(1, pi_writer position, csd_writer destinations); (2, pi_holder position, csd_holder destinations)]).

(* chain/spreads.rs:143-241 build_cash_settle_ix_with_destinations *)
Definition build_cash_settle_ix_with_destinations (program_id settler : key) (position : PositionInfo)
  (market : MarketInfo) (destinations : CashSettleDestinations) : xres Instruction :=
  kind ← map_err ChainError.Spread (spread_type_try_from (chain_type position));
  _ ← reject_if (negb (Z.land (pi_flags position) (Z.lnot 7) =? 0) || negb (pi_flags2 position =? 0)
                 || negb (pi_flags3 position =? 0) || negb (bool_decide (pi_status position = OnChainStatus.Open))
                 || negb (mi_is_finalized market)
                 || negb (Bool.eqb (mi_is_put market) (bool_decide (kind = SpreadType.PutSpread))))
        ChainError.InvalidSettlementState;
  upper ← ok_or (OptionTerms.upper_strike (pi_terms position)) ChainError.InvalidAccountData;
  _ ← map_err ChainError.Spread (width (ChainTerms.strike (OptionTerms.to_chain (pi_terms position))) upper);
  _ ← validate_token_programs market;
  let market_pda := market_address program_id market in
  _ ← reject_if (negb (bool_decide (market_pda = pi_market_pda position))) (ChainError.Identity "position market");
  let position_pda := pda.position program_id (pi_order_id position) in
  _ ← reject_if (has_repeat [] (cash_settle_unique program_id position market destinations))
        (ChainError.Identity "distinct cash settlement accounts");
  vaults ← settled_vaults position market destinations;
  let tail := match vaults with
              | [] => []
              | _ => [new_readonly (mi_underlying_mint market) false; new_readonly (mi_quote_mint market) false] ++
                     map (fun vault => meta_new vault false) vaults
              end in
  Ok {| program_id := program_id; data := [10; 0];
        accounts := [meta_new settler true; meta_new position_pda false; meta_new market_pda false;
                     meta_new (quote_ata market position_pda) false; new_readonly SYSTEM_PROGRAM_ID false;
                     meta_new (csd_writer destinations) false; meta_new (csd_holder destinations) false;
                     new_readonly (mi_underlying_token_program_id market) false;
                     new_readonly (mi_quote_token_program_id market) false] ++ tail |}.

(* chain/spreads.rs:124-141 build_cash_settle_ix *)
Definition build_cash_settle_ix (program_id settler : key) (position : PositionInfo) (market : MarketInfo)
  : xres Instruction :=
  build_cash_settle_ix_with_destinations program_id settler position market
    {| csd_writer := quote_ata market (pi_writer position); csd_holder := quote_ata market (pi_holder position) |}.

(* chain/spreads.rs:243-263 cash_settle_sequence *)
Definition cash_settle_sequence (program_id settler : key) (position : PositionInfo) (market : MarketInfo)
  : xres (list Instruction) :=
  settle ← build_cash_settle_ix program_id settler position market;
  Ok (map (fun owner =>
             create_associated_token_account_idempotent_ix settler
               (ata owner (mi_quote_mint market) (mi_quote_token_program_id market)) owner
               (mi_quote_mint market) (mi_quote_token_program_id market))
        [pi_writer position; pi_holder position] ++ [settle]).

(** ** Settling a physical position *)

(** A mint with its token program. *)
Abbreviation token := (key * key)%type (only parsing).

(* chain/vault/settle.rs:168-175 Destinations *)
Record Destinations := { ds_collateral : token; ds_settlement : token; ds_writer : token; ds_holder : token }.

(* chain/vault/settle.rs:160-166 is_otm *)
Definition is_otm (position : PositionInfo) (market : MarketInfo) : bool :=
  if mi_is_put market then OptionTerms.strike (pi_terms position) <=? mi_settlement_price market
  else mi_settlement_price market <=? OptionTerms.strike (pi_terms position).

(* chain/vault/settle.rs:177-198 destinations *)
Definition destinations (position : PositionInfo) (market : MarketInfo) : Destinations :=
  let underlying := (mi_underlying_mint market, mi_underlying_token_program_id market) in
  let quote := (mi_quote_mint market, mi_quote_token_program_id market) in
  let '(collateral, settlement) := if mi_is_put market then (quote, underlying) else (underlying, quote) in
  let otm := is_otm position market in
  let unfunded_buy := TakerSide.is_taker_buy (pi_side position)
                      && bool_decide (pi_status position = OnChainStatus.Open) in
  {| ds_collateral := collateral; ds_settlement := settlement;
     ds_writer := if otm || unfunded_buy then collateral else settlement;
     ds_holder := if otm then settlement else collateral |}.

(* chain/vault/settle.rs:145-158 require_maker_side *)
Definition require_maker_side (maker_owner : key) (position : PositionInfo) : xres unit :=
  let ok := if TakerSide.is_taker_buy (pi_side position)
            then negb (Z.land (pi_flags position) 1 =? 0) || bool_decide (pi_writer position = maker_owner)
            else (Z.land (pi_flags position) 2 =? 0) && bool_decide (pi_holder position = maker_owner) in
  if ok then Ok tt else identity "wallet maker owner".

(* chain/vault/settle.rs:15-103 build_settle_position_ix *)
Definition build_settle_position_ix (program_id maker_owner : key) (position : PositionInfo) (market : MarketInfo)
  : xres Instruction :=
  let buy := TakerSide.is_taker_buy (pi_side position) in
  _ ← require_maker_side maker_owner position;
  if OptionTerms.is_spread (pi_terms position)
  then build_cash_settle_ix program_id maker_owner position market
  else
    _ ← reject_if (negb (Z.land (pi_flags position) (Z.lnot 7) =? 0) || negb (pi_flags2 position =? 0)
                   || negb (pi_flags3 position =? 0)) ChainError.InvalidAccountData;
    let market_pda := market_address program_id market in
    _ ← reject_if (negb (bool_decide (market_pda = pi_market_pda position))) (ChainError.Identity "position market");
    _ ← reject_if (negb (mi_is_finalized market)
                   || negb (Bool.eqb (mi_is_put market)
                              (bool_decide (OptionTerms.position_type (pi_terms position) = PositionType.CashSecuredPut))))
          ChainError.InvalidSettlementState;
    _ ← validate_token_programs market;
    let otm := is_otm position market in
    let open := bool_decide (pi_status position = OnChainStatus.Open) in
    _ ← reject_if (negb (bool_decide (pi_status position = OnChainStatus.Funded)) && negb (otm || buy))
          ChainError.InvalidSettlementState;
    let d := destinations position market in
    let position_pda := pda.position program_id (pi_order_id position) in
    Ok {| program_id := program_id; data := [10; 0];
          accounts :=
            [meta_new maker_owner true; meta_new position_pda false; meta_new market_pda false;
             meta_new (ata position_pda (ds_collateral d).1 (ds_collateral d).2) false;
             (if open then new_readonly SYSTEM_PROGRAM_ID false
              else meta_new (ata position_pda (ds_settlement d).1 (ds_settlement d).2) false);
             meta_new (ata (pi_writer position) (ds_writer d).1 (ds_writer d).2) false;
             (if open then new_readonly ASSOCIATED_TOKEN_PROGRAM_ID false
              else meta_new (ata (pi_holder position) (ds_holder d).1 (ds_holder d).2) false);
             new_readonly (mi_underlying_token_program_id market) false;
             new_readonly (mi_quote_token_program_id market) false] ++
            (if negb (Z.land (pi_flags position) 1 =? 0) then
               [new_readonly (mi_underlying_mint market) false; new_readonly (mi_quote_mint market) false;
                meta_new (pi_writer position) false]
             else []) |}.

(* chain/vault/lifecycle.rs:220-239 create_destination_ata *)
Definition create_destination_ata (payer owner mint program : key) : Instruction :=
  {| program_id := ASSOCIATED_TOKEN_PROGRAM_ID;
     accounts := [meta_new payer true; meta_new (ata owner mint program) false; new_readonly owner false;
                  new_readonly mint false; new_readonly SYSTEM_PROGRAM_ID false; new_readonly program false];
     data := [1] |}.

(* chain/vault/settle.rs:105-143 settle_position_sequence *)
Definition settle_position_sequence (program_id maker_owner : key) (position : PositionInfo) (market : MarketInfo)
  : xres (list Instruction) :=
  if OptionTerms.is_spread (pi_terms position) then
    _ ← require_maker_side maker_owner position;
    cash_settle_sequence program_id maker_owner position market
  else
    settle ← build_settle_position_ix program_id maker_owner position market;
    let d := destinations position market in
    let funded := bool_decide (pi_status position = OnChainStatus.Funded) in
    Ok ((if (Z.land (pi_flags position) 1 =? 0) && (funded || TakerSide.is_taker_buy (pi_side position))
         then [create_destination_ata maker_owner (pi_writer position) (ds_writer d).1 (ds_writer d).2] else []) ++
        (if funded
         then [create_destination_ata maker_owner (pi_holder position) (ds_holder d).1 (ds_holder d).2] else []) ++
        [settle]).
End building.

(** ** What settling may do *)

Definition market_tokens (market : MarketInfo) : list (key * key) :=
  [(mi_underlying_mint market, mi_underlying_token_program_id market);
   (mi_quote_mint market, mi_quote_token_program_id market)].

(** The accounts a settlement may write: the payer, the position and its market, the token
    accounts of the position and of its two parties in the market's two tokens, and a
    party that is a vault. *)
Inductive settle_writes `{P : Pda} (program payer : key) (position : PositionInfo) (market : MarketInfo) : key -> Prop :=
| W_payer : settle_writes program payer position market payer
| W_position : settle_writes program payer position market (pda.position program (pi_order_id position))
| W_market : settle_writes program payer position market (pi_market_pda position)
| W_tokens owner token :
    owner ∈ [pda.position program (pi_order_id position); pi_writer position; pi_holder position] ->
    token ∈ market_tokens market ->
    settle_writes program payer position market (derive_associated_token_address owner token.1 token.2)
| W_vault_writer : Z.land (pi_flags position) 1 <> 0 -> settle_writes program payer position market (pi_writer position)
| W_vault_holder : Z.land (pi_flags position) 2 <> 0 -> settle_writes program payer position market (pi_holder position).

(** An instruction that only [payer] signs and that writes nothing outside [W]. *)
Definition confined (payer : key) (W : key -> Prop) (ix : Instruction) : Prop :=
  Forall (fun m => (is_signer m = true -> pubkey m = payer) /\ (is_writable m = true -> W (pubkey m))) (accounts ix).

(** ** Who is owed what

    Written from the terms of the option: what the writer pledged, what the holder pays
    for it, and which of them changes hands at the settlement price. *)
Definition underlying_token (market : MarketInfo) : key * key :=
  (mi_underlying_mint market, mi_underlying_token_program_id market).
Definition quote_token (market : MarketInfo) : key * key := (mi_quote_mint market, mi_quote_token_program_id market).
Definition pledged (position : PositionInfo) (market : MarketInfo) : key * key :=
  match pi_terms position with
  | OptionTerms.CashSecuredPut _ => quote_token market
  | _ => underlying_token market
  end.
Definition delivered (position : PositionInfo) (market : MarketInfo) : key * key :=
  match pi_terms position with
  | OptionTerms.CashSecuredPut _ => underlying_token market
  | _ => quote_token market
  end.
Definition in_the_money (position : PositionInfo) (market : MarketInfo) : bool :=
  match pi_terms position with
  | OptionTerms.CashSecuredPut strike => mi_settlement_price market <? strike
  | OptionTerms.CoveredCall strike => strike <? mi_settlement_price market
  | _ => false
  end.
Definition writer_is_owed (position : PositionInfo) (market : MarketInfo) : key * key :=
  if bool_decide (pi_status position = OnChainStatus.Open) then pledged position market
  else if in_the_money position market then delivered position market else pledged position market.
Definition holder_is_owed (position : PositionInfo) (market : MarketInfo) : key * key :=
  if in_the_money position market then pledged position market else delivered position market.

(** The account where [owner] keeps [token]. *)
Definition token_account `{P : Pda} (owner : key) (token : key * key) : key :=
  derive_associated_token_address owner token.1 token.2.

(** The accounts of the settling instruction: what it takes from, and where it pays. *)
Record Payment := { from_collateral : AccountMeta; from_settlement : AccountMeta; to_writer : AccountMeta;
                    to_holder : AccountMeta }.
Definition payment_of (settle : Instruction) : option Payment :=
  match accounts settle with
  | _ :: _ :: _ :: c :: s :: w :: h :: _ =>
      Some {| from_collateral := c; from_settlement := s; to_writer := w; to_holder := h |}
  | _ => None
  end.

Definition physical_payment `{P : Pda} (program : key) (position : PositionInfo) (market : MarketInfo) : Payment :=
  let self := pda.position program (pi_order_id position) in
  let open := bool_decide (pi_status position = OnChainStatus.Open) in
  {| from_collateral := meta_new (token_account self (pledged position market)) false;
     from_settlement := if open then new_readonly SYSTEM_PROGRAM_ID false
                        else meta_new (token_account self (delivered position market)) false;
     to_writer := meta_new (token_account (pi_writer position) (writer_is_owed position market)) false;
     to_holder := if open then new_readonly ASSOCIATED_TOKEN_PROGRAM_ID false
                  else meta_new (token_account (pi_holder position) (holder_is_owed position market)) false |}.

Definition cash_payment `{P : Pda} (program : key) (position : PositionInfo) (market : MarketInfo) : Payment :=
  let cash owner := meta_new (token_account owner (quote_token market)) false in
  {| from_collateral := cash (pda.position program (pi_order_id position));
     from_settlement := new_readonly SYSTEM_PROGRAM_ID false;
     to_writer := cash (pi_writer position); to_holder := cash (pi_holder position) |}.

(** The wallets whose accounts are created before the position settles, with the asset
    each is paid. *)
Definition paid_wallets (position : PositionInfo) (market : MarketInfo) : list (key * (key * key)) :=
  let funded := bool_decide (pi_status position = OnChainStatus.Funded) in
  if OptionTerms.is_spread (pi_terms position)
  then [(pi_writer position, quote_token market); (pi_holder position, quote_token market)]
  else (if (Z.land (pi_flags position) 1 =? 0) && (funded || TakerSide.is_taker_buy (pi_side position))
        then [(pi_writer position, writer_is_owed position market)] else []) ++
       (if funded then [(pi_holder position, holder_is_owed position market)] else []).

(** [ix] creates the account where a wallet is paid its asset, at the payer's expense. *)
Definition creates_account `{P : Pda} (payer : key) (wallet : key * (key * key)) (ix : Instruction) : Prop :=
  let '(owner, token) := wallet in
  program_id ix = ASSOCIATED_TOKEN_PROGRAM_ID /\ data ix = [1] /\
  take 6 (accounts ix) =
    [meta_new payer true; meta_new (token_account owner token) false; new_readonly owner false;
     new_readonly token.1 false; new_readonly SYSTEM_PROGRAM_ID false; new_readonly token.2 false].

(** A position that can settle: a spread while it is open, a physical position once it is
    funded, and in any other state when it is out of the money or the taker bought. *)
Definition settleable (position : PositionInfo) (market : MarketInfo) : Prop :=
  if OptionTerms.is_spread (pi_terms position) then pi_status position = OnChainStatus.Open
  else pi_status position = OnChainStatus.Funded \/ in_the_money position market = false \/
       TakerSide.is_taker_buy (pi_side position) = true.

Section sound.
Context `{C : Crypto} `{P : Pda}.
Context (program maker_owner : key) (position : PositionInfo) (market : MarketInfo).
Abbreviation W := (settle_writes program maker_owner position market) (only parsing).

Lemma quote_account_written owner :
  owner ∈ [pda.position program (pi_order_id position); pi_writer position; pi_holder position] ->
  W (quote_ata market owner).
Proof. intros H. apply (W_tokens _ _ _ _ owner (mi_quote_mint market, mi_quote_token_program_id market)); [done|set_solver]. Qed.

Lemma destinations_tokens :
  let d := destinations position market in
  ds_collateral d ∈ market_tokens market /\ ds_settlement d ∈ market_tokens market /\
  ds_writer d ∈ market_tokens market /\ ds_holder d ∈ market_tokens market.
Proof.
  unfold destinations, market_tokens. destruct (mi_is_put market), (is_otm position market); cbn;
    destruct (TakerSide.is_taker_buy (pi_side position) && bool_decide (pi_status position = OnChainStatus.Open)); cbn;
    set_solver.
Qed.

Ltac confined_step :=
  match goal with
  | |- Forall _ [] => constructor
  | |- Forall _ (_ :: _) => constructor; [cbn [pubkey is_signer is_writable meta_new new_readonly]; split; intros ?; try done|]
  | |- Forall _ (_ ++ _) => apply Forall_app; split
  end.

Lemma settled_vaults_Ok d vaults :
  settled_vaults position market d = Ok vaults ->
  Forall (fun v => W v) vaults.
Proof.
  unfold settled_vaults. cbn [List.filter]. intros H.
  destruct (Z.eqb_spec (Z.land (pi_flags position) 1) 0), (Z.eqb_spec (Z.land (pi_flags position) 2) 0); cbn in H;
    repeat (case_bool_decide; cbn in H; try done); injection H as <-;
    repeat first [apply List.Forall_nil | apply List.Forall_cons];
    first [by apply W_vault_writer | by apply W_vault_holder].
Qed.

(** The settler pays and signs; the position and its market are settled. *)
Definition parties (ix : Instruction) : Prop :=
  take 3 (accounts ix) = [meta_new maker_owner true; meta_new (pda.position program (pi_order_id position)) false;
                          meta_new (pi_market_pda position) false].

Lemma cash_settle_Ok ix :
  build_cash_settle_ix program maker_owner position market = Ok ix ->
  mi_is_finalized market = true /\ market_address program market = pi_market_pda position /\
  pi_status position = OnChainStatus.Open /\
  (program_id ix = program /\ data ix = [10; 0] /\ confined maker_owner (fun k => W k) ix) /\
  parties ix /\ payment_of ix = Some (cash_payment program position market).
Proof.
  unfold build_cash_settle_ix, build_cash_settle_ix_with_destinations. intros H. inv_ok H.
  injection H as <-. cbn [program_id data accounts].
  repeat match goal with H : _ || _ = false |- _ => apply orb_false_iff in H as [? ?] end.
  repeat match goal with H : negb _ = false |- _ => apply negb_false_iff in H end.
  repeat match goal with H : bool_decide _ = true |- _ => apply bool_decide_eq_true in H end.
  do 3 (split; [done|]). split; [|split; [unfold parties; cbn; by rewrite Hv4|reflexivity]].
  do 2 (split; [done|]). unfold confined. cbn [accounts csd_writer csd_holder].
  match goal with H : settled_vaults _ _ _ = Ok ?l |- _ =>
    rename l into vaults; pose proof (settled_vaults_Ok _ _ H) as Hvaults end.
  repeat confined_step; try (apply quote_account_written; set_solver); [apply W_payer|apply W_position| |].
  - rewrite Hv4. apply W_market.
  - destruct vaults as [|v' vs]; [constructor|]. repeat confined_step.
    rewrite Forall_map. eapply Forall_impl; [exact Hvaults|]. intros k Hk. by split.
Qed.

(** The code's destinations are what each side is owed. *)
Lemma destinations_owed :
  OptionTerms.is_spread (pi_terms position) = false ->
  mi_is_put market = bool_decide (OptionTerms.position_type (pi_terms position) = PositionType.CashSecuredPut) ->
  is_otm position market = negb (in_the_money position market) /\
  (settleable position market ->
   destinations position market =
   {| ds_collateral := pledged position market; ds_settlement := delivered position market;
      ds_writer := writer_is_owed position market; ds_holder := holder_is_owed position market |}).
Proof.
  intros Hs Hp.
  assert (Ho : is_otm position market = negb (in_the_money position market)).
  { unfold is_otm, in_the_money. rewrite Hp.
    destruct (pi_terms position); cbn in Hs |- *; try discriminate Hs; apply Z.leb_antisym. }
  split; [done|]. unfold settleable. rewrite Hs. intros Hst.
  unfold destinations, writer_is_owed, holder_is_owed, pledged, delivered. rewrite Ho, Hp.
  destruct (pi_terms position); try discriminate Hs; cbn; f_equal;
    destruct (in_the_money position market), (TakerSide.is_taker_buy (pi_side position)),
      (pi_status position); cbn; try reflexivity; destruct Hst as [?|[?|?]]; discriminate.
Qed.

Lemma physical_settle_Ok ix :
  OptionTerms.is_spread (pi_terms position) = false ->
  build_settle_position_ix program maker_owner position market = Ok ix ->
  mi_is_finalized market = true /\ market_address program market = pi_market_pda position /\
  mi_is_put market = bool_decide (OptionTerms.position_type (pi_terms position) = PositionType.CashSecuredPut) /\
  settleable position market /\
  (program_id ix = program /\ data ix = [10; 0] /\ confined maker_owner (fun k => W k) ix) /\
  parties ix /\ payment_of ix = Some (physical_payment program position market).
Proof.
  unfold build_settle_position_ix. intros Hs. rewrite Hs. intros H. inv_ok H. injection H as <-.
  repeat match goal with H : _ || _ = false |- _ => apply orb_false_iff in H as [? ?] end.
  repeat match goal with H : negb _ = false |- _ => apply negb_false_iff in H end.
  match goal with H : bool_decide (_ = pi_market_pda _) = true |- _ => apply bool_decide_eq_true in H as Hm end.
  match goal with H : Bool.eqb (mi_is_put _) _ = true |- _ => apply eqb_prop in H as Hput end.
  destruct (destinations_owed Hs Hput) as [Hotm Hd].
  assert (Hst : settleable position market).
  { unfold settleable. rewrite Hs, <- (negb_involutive (in_the_money _ _)), <- Hotm.
    match goal with H : _ && _ = false |- _ => apply andb_false_iff in H as [Hx|Hx] end.
    - apply negb_false_iff, bool_decide_eq_true in Hx. auto.
    - apply negb_false_iff, orb_true_iff in Hx as [-> | ->]; auto. }
  do 4 (split; [done|]). cbn [program_id data accounts]. split; [split; [done|split; [done|]]|].
  - destruct destinations_tokens as (Hc & Hse & Hw & Hh). unfold confined. cbn [accounts].
    repeat confined_step; try (rewrite Hm; apply W_market);
      try (apply W_tokens; [set_solver|done]); [apply W_payer|apply W_position| | | | |].
    1, 2, 3, 4: destruct (bool_decide (pi_status position = OnChainStatus.Open)); try done;
      (apply W_tokens; [set_solver|done]).
    destruct (Z.eqb_spec (Z.land (pi_flags position) 1) 0); cbn [negb]; repeat confined_step. by apply W_vault_writer.
  - rewrite (Hd Hst). split; [unfold parties; cbn; by rewrite Hm|reflexivity].
Qed.

(** Creating a party's token account writes nothing else. *)
Lemma create_confined owner token :
  owner ∈ [pi_writer position; pi_holder position] -> token ∈ market_tokens market ->
  confined maker_owner (fun k => W k) (create_destination_ata maker_owner owner token.1 token.2) /\
  confined maker_owner (fun k => W k)
    (create_associated_token_account_idempotent_ix maker_owner (derive_associated_token_address owner token.1 token.2)
       owner token.1 token.2).
Proof.
  intros Ho Ht. unfold confined, create_destination_ata, create_associated_token_account_idempotent_ix. cbn [accounts].
  split; repeat confined_step; try apply W_payer; (apply W_tokens; [set_solver|done]).
Qed.
End sound.

Lemma Forall_if {A} (Q : A -> Prop) (b : bool) x : Q x -> Forall Q (if b then [x] else []).
Proof. destruct b; by repeat constructor. Qed.

Lemma Forall2_if {A B} (R : A -> B -> Prop) (b : bool) x y :
  R x y -> Forall2 R (if b then [x] else []) (if b then [y] else []).
Proof. destruct b; by repeat constructor. Qed.

Lemma maker_side_Ok maker_owner position u :
  require_maker_side maker_owner position = Ok u ->
  if TakerSide.is_taker_buy (pi_side position)
  then Z.land (pi_flags position) 1 <> 0 \/ pi_writer position = maker_owner
  else Z.land (pi_flags position) 2 = 0 /\ pi_holder position = maker_owner.
Proof.
  unfold require_maker_side, identity. destruct (TakerSide.is_taker_buy (pi_side position)).
  - destruct (Z.eqb_spec (Z.land (pi_flags position) 1) 0); cbn; [|auto]. case_bool_decide; [auto|done].
  - destruct (Z.eqb_spec (Z.land (pi_flags position) 2) 0); cbn; [|done]. case_bool_decide; [auto|done].
Qed.

(** C31: Settling a position ends with one instruction of the program, on that position
    and its own market, which is final; it is built for the maker's side only: the wallet
    that holds when the taker sold, and when the taker bought the writer, or any settler if
    that is a vault.  Only the settler signs, and no instruction can write an account other
    than the settler, the position, its market, the token accounts of the position and of
    its two parties in the market's two tokens, and a party that is a vault.  The settling instruction takes the
    position's assets from the position's own accounts and pays them to its parties': of a
    physical position the writer's account is the one of the asset it pledged, or of the
    asset delivered in exchange when the option was exercised (the position is not [Open]
    and is in the money), and the holder's is the one of the other asset; while a position is
    [Open] only the writer is paid, its pledge back.  A cash spread pays both sides in the
    quote token.  The creations before it are of accounts it pays, exactly these:
    both sides' for a spread; for a physical position the holder's once it is funded, and
    the writer's, unless that is a vault, once it is funded or when the taker bought.  A
    physical position that is not funded is settled in any other state (one already closed
    too) if it is out of the money or the taker bought. *)
Theorem settle_position_sound `{C : Crypto} `{P : Pda} program maker_owner position market ixs :
  settle_position_sequence program maker_owner position market = Ok ixs ->
  exists creations settle,
    ixs = creations ++ [settle] /\ program_id settle = program /\ data settle = [10; 0] /\
    take 3 (accounts settle) =
      [meta_new maker_owner true; meta_new (pda.position program (pi_order_id position)) false;
       meta_new (pi_market_pda position) false] /\
    payment_of settle =
      Some (if OptionTerms.is_spread (pi_terms position) then cash_payment program position market
            else physical_payment program position market) /\
    Forall2 (creates_account maker_owner) (paid_wallets position market) creations /\
    Forall (confined maker_owner (fun k => settle_writes program maker_owner position market k)) ixs /\
    mi_is_finalized market = true /\ pi_market_pda position = market_address program market /\
    settleable position market /\
    (if TakerSide.is_taker_buy (pi_side position)
     then Z.land (pi_flags position) 1 <> 0 \/ pi_writer position = maker_owner
     else Z.land (pi_flags position) 2 = 0 /\ pi_holder position = maker_owner).
Proof.
  intros H. unfold settle_position_sequence in H.
  pose proof (maker_side_Ok maker_owner position) as Hside.
  destruct (OptionTerms.is_spread (pi_terms position)) eqn:Hs.
  - apply bind_Ok in H as (u & Hu & H). unfold cash_settle_sequence in H. apply bind_Ok in H as (settle & Hsettle & H).
    injection H as <-. apply cash_settle_Ok in Hsettle as (Hf & Hm & Ho & (Hp & Hd & Hc) & Hpa & Hpay).
    pose proof (create_confined program maker_owner position market) as Hcr.
    specialize (Hcr (pi_writer position) (quote_token market)) as Hcw.
    specialize (Hcr (pi_holder position) (quote_token market)) as Hch.
    eexists [_; _], settle. split; [reflexivity|]. do 4 (split; [done|]). unfold settleable, paid_wallets. rewrite Hs.
    split; [repeat constructor|]. split; [|do 3 (split; [done|]); exact (Hside u Hu)].
    cbn [map app]. constructor; [apply Hcw; [set_solver|set_solver]|].
    constructor; [apply Hch; [set_solver|set_solver]|]. by constructor.
  - apply bind_Ok in H as (settle & Hsettle & H). injection H as <-.
    assert (Hu : exists u, require_maker_side maker_owner position = Ok u).
    { unfold build_settle_position_ix in Hsettle. apply bind_Ok in Hsettle as (u & Hu & _). eauto. }
    destruct Hu as [u Hu].
    apply physical_settle_Ok in Hsettle as (Hf & Hm & Hput & Hst & (Hp & Hd & Hc) & Hpa & Hpay); [|done].
    destruct (destinations_tokens position market) as (_ & _ & Hw & Hh).
    destruct (destinations_owed position market Hs Hput) as [_ Hds]. rewrite (Hds Hst) in Hw, Hh |- *.
    pose proof (create_confined program maker_owner position market (pi_writer position) _ ltac:(set_solver) Hw) as Hcw.
    pose proof (create_confined program maker_owner position market (pi_holder position) _ ltac:(set_solver) Hh) as Hch.
    eexists (_ ++ _), settle. rewrite <- app_assoc. split; [reflexivity|]. do 4 (split; [done|]).
    split; [|split; [|do 3 (split; [done|]); exact (Hside u Hu)]].
    + unfold paid_wallets. rewrite Hs. apply Forall2_app; by apply Forall2_if.
    + rewrite !Forall_app. split; [apply Forall_if, Hcw|]. split; [apply Forall_if, Hch|by constructor].
Qed.

(** A cash spread is opened only for its own market, which is not final, before the
    market expires, with a premium below the collateral, and only with a valid signature
    of the order by the quote signer.  The two instructions fit together: the Ed25519
    check reads that signature, that key and the order id from its own data, and the open,
    which follows it at once, carries the same order id; only the keeper and the taker
    sign. *)
Theorem open_spread_sound `{C : Crypto} `{P : Pda} (args : OpenSpreadIxArgs) ixs :
  length (os_signature args) = 64%nat -> length (os_quote_signer args) = 32%nat ->
  (forall m, length (sha256 m) = 32%nat) ->
  build_open_spread_ixs args = Ok ixs ->
  let order := os_order args in
  exists order_id check open,
    ixs = [check; open] /\ compute_spread_order_id order = Ok order_id /\
    verify_order_id_signature_bytes order_id (os_signature args) (os_quote_signer args) = Ok tt /\
    program_id check = ED25519_PROGRAM_ID /\
    get_range (data check) 0 16 = Some ([1; 0; 16; 0; 255; 255; 80; 0; 255; 255; 112; 0; 32; 0; 255; 255]) /\
    get_range (data check) 16 80 = Some (os_signature args) /\
    get_range (data check) 80 112 = Some (os_quote_signer args) /\
    get_range (data check) 112 144 = Some order_id /\
    program_id open = s_program_id order /\ get_range (data open) 42 74 = Some order_id /\
    (forall m, m ∈ accounts open -> is_signer m = true -> pubkey m = os_keeper args \/ pubkey m = s_taker order) /\
    s_market order = market_address (s_program_id order) (os_market args) /\
    mi_is_finalized (os_market args) = false /\ s_valid_until order <> 0 /\
    s_valid_until order <= mi_expiry_ts (os_market args) /\
    (exists premium, SpreadTerm.premium
       {| kind := s_position_type order; lower_strike := s_lower_strike order; upper_strike := s_upper_strike order;
          quantity := s_quantity order; quote_decimals := mi_quote_decimals (os_market args);
          underlying_decimals := mi_underlying_decimals (os_market args) |} (s_gross_price order) 0 0 = Ok premium).
Proof.
  intros Hsig Hkey Hsha H order. unfold build_open_spread_ixs in H. fold order in H. inv_ok H. injection H as <-.
  rename v2 into order_id. rename Hv2 into Hid.
  assert (Hlen : length order_id = 32%nat).
  { unfold compute_spread_order_id in Hid. apply bind_Ok in Hid as (pre & _ & [= <-]). apply Hsha. }
  repeat match goal with H : _ || _ = false |- _ => apply orb_false_iff in H as [? ?] end.
  repeat match goal with H : negb (bool_decide _) = false |- _ => apply negb_false_iff, bool_decide_eq_true in H end.
  exists order_id. eexists _, _. split; [reflexivity|]. split; [done|]. split; [by destruct v3|]. split; [done|].
  cbn [data program_id accounts]. unfold signature_data. split; [reflexivity|].
  split. { apply (get_range_app ([1; 0] ++ concat (map (to_le_bytes 2) [16; 65535; 80; 65535; 112; 32; 65535]))
                    (os_signature args)); [done|by rewrite Hsig]. }
  rewrite !app_assoc. split. { rewrite <- app_assoc. apply get_range_app; rewrite ?length_app, ?Hsig, ?Hkey; done. }
  split. { rewrite <- (app_nil_r order_id) at 1. apply get_range_app; rewrite ?length_app, ?Hsig, ?Hkey, ?Hlen; done. }
  split; [done|]. split.
  { cbn [open_spread_ix data]. unfold open_spread_data. rewrite app_assoc. apply get_range_app; [done|by rewrite Hlen]. }
  split. { cbn [open_spread_ix accounts]. intros m Hm Hs.
    repeat (apply elem_of_cons in Hm as [->|Hm]; [try discriminate Hs; auto|]). by apply elem_of_nil in Hm. }
  split; [done|]. split; [done|]. split; [by apply Z.eqb_neq|]. split; [by apply Z.ltb_ge|eauto].
Qed.

Module SettleSample.
#[local] Existing Instance QuoteExample.pda.
Definition program : key := key_of 7.
Definition market : MarketInfo :=
  {| mi_expiry_ts := 1760000000; mi_is_put := true; mi_is_finalized := true; mi_settlement_price := 80;
     mi_underlying_mint := key_of 11; mi_quote_mint := key_of 12; mi_underlying_token_program_id := TOKEN_PROGRAM_ID;
     mi_quote_token_program_id := TOKEN_2022_PROGRAM_ID; mi_underlying_decimals := 9; mi_quote_decimals := 6 |}.
Definition position (status : OnChainStatus.t) (strike : Z) : PositionInfo :=
  {| pi_terms := OptionTerms.CashSecuredPut strike; pi_side := TakerSide.Sell; pi_flags := 0; pi_flags2 := 0;
     pi_flags3 := 0; pi_status := status; pi_writer := key_of 1; pi_holder := key_of 2;
     pi_market_pda := market_address program market; pi_quantity := 1000; pi_order_id := key_of 4 |}.
Definition sequence (p : PositionInfo) : xres (list Instruction) :=
  settle_position_sequence program (key_of 2) p market.
Definition spread_market : MarketInfo :=
  {| mi_expiry_ts := 1760000000; mi_is_put := true; mi_is_finalized := false; mi_settlement_price := 0;
     mi_underlying_mint := key_of 11; mi_quote_mint := key_of 12; mi_underlying_token_program_id := TOKEN_PROGRAM_ID;
     mi_quote_token_program_id := TOKEN_2022_PROGRAM_ID; mi_underlying_decimals := 9; mi_quote_decimals := 6 |}.
Definition order : SpreadOrderPreimageArgs :=
  {| s_chain_id := 0; s_program_id := program; s_side := TakerSide.Sell; s_position_type := SpreadType.PutSpread;
     s_market := market_address program spread_market; s_lower_strike := 0; s_upper_strike := 150000000000;
     s_quantity := 2000000000; s_gross_price := 3000000000; s_valid_until := 1750000000; s_maker := key_of 11;
     s_taker := key_of 13; s_nonce := 42 |}.
Definition args : OpenSpreadIxArgs :=
  {| os_order := order; os_market := spread_market; os_keeper := key_of 21; os_quote_signer := key_of 22;
     os_signature := match compute_spread_order_id order with
                     | Ok id => Sample.pad 64 (key_of 22 ++ id)
                     | _ => []
                     end |}.
End SettleSample.

Lemma settle_position_sound_witness :
  exists creations settle,
    SettleSample.sequence (SettleSample.position OnChainStatus.Funded 100) = Ok (creations ++ [settle]) /\
    length creations = 2%nat /\
    fmap to_writer (payment_of settle)
    = Some (meta_new (token_account (key_of 1) (key_of 11, TOKEN_PROGRAM_ID)) false) /\
    fmap to_holder (payment_of settle)
    = Some (meta_new (token_account (key_of 2) (key_of 12, TOKEN_2022_PROGRAM_ID)) false).
Proof.
  destruct (SettleSample.sequence (SettleSample.position OnChainStatus.Funded 100)) as [ixs|e|] eqn:H;
    [|vm_compute in H; discriminate H..].
  destruct (settle_position_sound SettleSample.program (key_of 2)
    (SettleSample.position OnChainStatus.Funded 100) SettleSample.market ixs H)
    as (creations & settle & -> & _ & _ & _ & Hpay & Hcr & _).
  exists creations, settle. split; [reflexivity|]. split; [by rewrite <- (Forall2_length _ _ _ Hcr)|].
  rewrite Hpay. split; vm_compute; reflexivity.
Defined.

Lemma open_spread_sound_witness :
  exists ixs order_id check open,
    build_open_spread_ixs (C := Sample.crypto) (P := QuoteExample.pda) SettleSample.args = Ok ixs /\
    ixs = [check; open] /\ compute_spread_order_id SettleSample.order = Ok order_id /\
    get_range (data open) 42 74 = Some order_id.
Proof.
  destruct (build_open_spread_ixs (C := Sample.crypto) (P := QuoteExample.pda) SettleSample.args) as [ixs|e|] eqn:H;
    [|vm_compute in H; discriminate H..].
  destruct (open_spread_sound SettleSample.args ixs (ltac:(vm_compute; reflexivity)) eq_refl
    (fun m => proj1 (Sample.pad_array 32 m)) H)
    as (id & check & open & Hi & Hid & _ & _ & _ & _ & _ & _ & _ & Hd & _).
  exists ixs, id, check, open. auto.
Defined.

(** A position that is already closed is still settled when it is out of the money. *)
Lemma closed_position_settles :
  exists ixs, SettleSample.sequence (SettleSample.position OnChainStatus.Closed 60) = Ok ixs.
Proof. eexists. vm_compute. reflexivity. Qed.
