(* ===== verification/Rpc.v ===== *)
(** * The RPC client ([src/chain/rpc.rs], reads and submission)

    [ChainClient] reads the cluster and submits transactions.  The cluster, reached
    through Solana's client, is a parameter: the class [Cluster] says what the [n]th call
    of each kind answers, so two reads of one account may differ.  An operation is a state
    transformer that counts calls and records the transactions that were submitted. *)

From Stdlib Require Import ZArith Lia String.
From stdpp Require Import base list sets strings.
From S2P Require Import Prelude Terms Signing Quote Challenge Chain Account Positions Settle.

Open Scope Z_scope.

(** Solana's [Transaction] as it is built here, and the filters of a program scan. *)
Record Transaction := {
  tx_payer : key; tx_instructions : list Instruction; tx_blockhash : bytes; tx_signers : list key }.
Inductive RpcFilter := DataSize (n : nat) | Memcmp (offset : nat) (content : bytes).

(** What the [n]th call answers; an error is its text. *)
Class Cluster := {
  get_account : nat -> key -> string + Account;
  get_account_with_commitment : nat -> key -> string + option Account;
  get_multiple_accounts_with_commitment : nat -> list key -> string + list (option Account);
  (** An account that does not decode is [None]. *)
  get_program_ui_accounts_with_config : nat -> key -> list RpcFilter -> string + list (key * option Account);
  get_balance : nat -> key -> string + Z;
  get_token_account_balance : nat -> key -> string + string;
  get_minimum_balance_for_rent_exemption : nat -> nat -> string + Z;
  get_latest_blockhash : nat -> string + bytes;
  get_fee_for_message : nat -> Transaction -> string + Z;
  (** [Transaction::try_sign]. *)
  try_sign : Transaction -> option string;
  send_transaction : nat -> Transaction -> string + bytes;
  (** For each signature, if it is known: whether it satisfies the client's commitment, and
      the text of its error. *)
  get_signature_statuses_with_history : nat -> list bytes -> string + list (option (bool * option string));
  confirm_transaction_with_spinner : nat -> bytes -> bytes -> string + unit;
}.

(** How many calls were made, and the transactions submitted so far. *)
Record RpcState := { calls : nat; submitted : list Transaction }.

Definition rpc (A : Type) : Type := RpcState -> xres A * RpcState.

#[export] Instance rpc_ret : MRet rpc := fun _ a s => (Ok a, s).
#[export] Instance rpc_bind : MBind rpc := fun _ _ k m s =>
  match m s with
  | (Ok a, s) => k a s
  | (Err e, s) => (Err e, s)
  | (Panic, s) => (Panic, s)
  end.

(** A computation without calls. *)
Definition lift {A} (m : xres A) : rpc A := fun s => (m, s).

(** One call of the client, counted. *)
Definition call {A} (f : nat -> string + A) : rpc A := fun s =>
  (match f (calls s) with inr a => Ok a | inl e => Err (ChainError.Rpc e) end,
   {| calls := S (calls s); submitted := submitted s |}).

(** [for x in l], stopping at the first error. *)
Fixpoint rpc_map {A B} (f : A -> rpc B) (l : list A) : rpc (list B) :=
  match l with
  | [] => mret []
  | x :: l => y ← f x; ys ← rpc_map f l; mret (y :: ys)
  end.

Lemma rpc_bind_Ok {A B} (m : rpc A) (k : A -> rpc B) s b s' :
  (m ≫= k) s = (Ok b, s') <-> exists a s1, m s = (Ok a, s1) /\ k a s1 = (Ok b, s').
Proof.
  unfold mbind, rpc_bind. split.
  - destruct (m s) as [[a|e|] s1]; intros H; try discriminate H. eauto.
  - by intros (a & s1 & -> & H).
Qed.

Lemma lift_Ok {A} (m : xres A) s a s' : lift m s = (Ok a, s') <-> m = Ok a /\ s' = s.
Proof. unfold lift. split; [by intros [= -> ->]|by intros [-> ->]]. Qed.

Lemma mret_Ok {A} (x : A) s a s' : (mret x : rpc A) s = (Ok a, s') <-> a = x /\ s' = s.
Proof. unfold mret, rpc_ret. split; [by intros [= -> ->]|by intros [-> ->]]. Qed.

Lemma call_Ok {A} (f : nat -> string + A) s a s' :
  call f s = (Ok a, s') <-> f (calls s) = inr a /\ s' = {| calls := S (calls s); submitted := submitted s |}.
Proof. unfold call. destruct (f (calls s)); split; intros H; destruct_and?; simplify_eq; done. Qed.

(** Take apart a hypothesis that says an operation succeeded. *)
Ltac inv_rpc H :=
  repeat lazymatch type of H with
  | (_ ≫= _) _ = (Ok _, _) =>
      let a := fresh "r" in let s := fresh "st" in let Ha := fresh "Hr" in
      apply rpc_bind_Ok in H as (a & s & Ha & H); try inv_rpc Ha
  | lift _ _ = (Ok _, _) =>
      let E := fresh "Hs" in apply lift_Ok in H as [H E]
  | mret _ _ = (Ok _, _) =>
      let E := fresh "Hs" in apply mret_Ok in H as [H E]
  | call _ _ = (Ok _, _) =>
      let E := fresh "Hs" in apply call_Ok in H as [H E]
  end.

(** An operation that submits nothing, whatever happens. *)
Definition reads_only {A} (m : rpc A) : Prop := forall s, submitted (m s).2 = submitted s.

Lemma reads_only_bind {A B} (m : rpc A) (k : A -> rpc B) :
  reads_only m -> (forall a, reads_only (k a)) -> reads_only (m ≫= k).
Proof.
  intros Hm Hk s. unfold mbind, rpc_bind. specialize (Hm s). destruct (m s) as [[a|e|] s1]; cbn in *; [|done..].
  by rewrite (Hk a s1).
Qed.
Lemma reads_only_lift {A} (m : xres A) : reads_only (lift m).
Proof. done. Qed.
Lemma reads_only_mret {A} (a : A) : reads_only (mret a : rpc A).
Proof. done. Qed.
Lemma reads_only_call {A} (f : nat -> string + A) : reads_only (call f).
Proof. done. Qed.
Lemma reads_only_map {A B} (f : A -> rpc B) l : (forall a, reads_only (f a)) -> reads_only (rpc_map f l).
Proof.
  intros Hf. induction l as [|x l IH]; cbn; [apply reads_only_mret|]. apply reads_only_bind; [done|].
  intros y. apply reads_only_bind; [done|]. intros ys. apply reads_only_mret.
Qed.
#[export] Hint Resolve reads_only_lift reads_only_mret reads_only_call reads_only_map : sdk.

Ltac reads_only_step :=
  match goal with
  | |- reads_only (_ ≫= _) => apply reads_only_bind; [|intros ?]
  | |- reads_only (lift _) => apply reads_only_lift
  | |- reads_only (mret _) => apply reads_only_mret
  | |- reads_only (call _) => apply reads_only_call
  | |- reads_only (rpc_map _ _) => apply reads_only_map; intros ?
  | |- reads_only (match ?x with _ => _ end) => destruct x
  | |- reads_only (let _ := _ in _) => cbv zeta
  end.

(** An operation that returns, whatever the cluster answers. *)
Definition survives {A} (m : rpc A) : Prop := forall s, returns (m s).1.

Lemma survives_bind {A B} (m : rpc A) (k : A -> rpc B) :
  survives m -> (forall a, survives (k a)) -> survives (m ≫= k).
Proof.
  intros Hm Hk s. specialize (Hm s). unfold mbind, rpc_bind. destruct (m s) as [[a|e|] s1]; cbn in *; [apply Hk|done..].
Qed.
Lemma survives_lift {A} (m : xres A) : returns m -> survives (lift m).
Proof. by intros Hm s. Qed.
Lemma survives_mret {A} (a : A) : survives (mret a : rpc A).
Proof. done. Qed.
Lemma survives_call {A} (f : nat -> string + A) : survives (call f).
Proof. intros s. unfold call. by destruct (f (calls s)). Qed.
Lemma survives_map {A B} (f : A -> rpc B) l : (forall a, survives (f a)) -> survives (rpc_map f l).
Proof.
  intros Hf. induction l as [|x l IH]; cbn; [apply survives_mret|]. apply survives_bind; [done|].
  intros y. apply survives_bind; [done|]. intros ys. apply survives_mret.
Qed.

Ltac survives_step :=
  match goal with
  | |- survives (_ ≫= _) => apply survives_bind; [|intros ?]
  | |- survives (lift _) => apply survives_lift
  | |- survives (mret _) => apply survives_mret
  | |- survives (call _) => apply survives_call
  | |- survives (rpc_map _ _) => apply survives_map; intros ?
  | |- survives (match ?x with _ => _ end) => destruct x
  | |- survives (let _ := _ in _) => cbv zeta
  end.

(** ** Reads *)

(* chain/rpc.rs:20-21 ADDRESS_LOOKUP_TABLE_PROGRAM_ID *)
Definition ADDRESS_LOOKUP_TABLE_PROGRAM_ID : key :=
  [2; 119; 166; 175; 151; 51; 155; 122; 200; 141; 24; 146; 201; 4; 70; 245; 0; 2; 48; 146; 102; 246; 46; 83; 193; 24;
   36; 73; 130; 0; 0; 0].

(** [as_chunks::<32>], and [chunks]: pieces of [n], the last one shorter. *)
Fixpoint chunks_fuel {A} (fuel n : nat) (l : list A) : list (list A) :=
  match fuel, l with
  | S fuel, _ :: _ => take n l :: chunks_fuel fuel n (drop n l)
  | _, _ => []
  end.
Definition chunks {A} (n : nat) (l : list A) : list (list A) := chunks_fuel (length l) n l.

(* chain/rpc.rs:24-57 parse_lookup_table *)
Definition parse_lookup_table (k : key) (account : Account) : xres LookupTable :=
  _ ← reject_if (negb (bool_decide (owner account = ADDRESS_LOOKUP_TABLE_PROGRAM_ID)))
        (ChainError.AccountOwnerMismatch ADDRESS_LOOKUP_TABLE_PROGRAM_ID (owner account));
  let data := account_data account in
  kind ← ok_or (get_range data 0 4) ChainError.InvalidAccountData;
  deactivation ← ok_or (get_range data 4 12) ChainError.InvalidAccountData;
  addresses ← ok_or (get_range data 56 (length data)) ChainError.InvalidAccountData;
  _ ← reject_if (negb (bool_decide (kind = to_le_bytes 4 1)) || negb (length addresses mod 32 =? 0)%nat)
        ChainError.InvalidAccountData;
  _ ← reject_if (negb (bool_decide (deactivation = to_le_bytes 8 (2 ^ 64 - 1)))) (ChainError.LookupTableDeactivated k);
  Ok {| table_key := k; addresses := chunks 32 addresses |}.

(* chain/rpc.rs:608-614 ensure_supported_token_program *)
Definition ensure_supported_token_program (program : key) : xres key :=
  if bool_decide (program = TOKEN_PROGRAM_ID) || bool_decide (program = TOKEN_2022_PROGRAM_ID) then Ok program
  else Err ChainError.InvalidAccountData.

(** The bump [find_program_address] returns with the address. *)
Class PdaBump := { find_bump : list bytes -> key -> Z }.

Section client.
Context `{C : Crypto} `{P : Pda} `{B : PdaBump} `{N : Cluster}.
(** The client's program. *)
Context (program : key).

(* chain/rpc.rs:446-448 ChainClient::fetch_account *)
Definition fetch_account (k : key) : rpc Account := call (fun n => get_account n k).
(* chain/rpc.rs:482-491 ChainClient::fetch_optional_account *)
Definition fetch_optional_account (k : key) : rpc (option Account) := call (fun n => get_account_with_commitment n k).

(* chain/rpc.rs:450-480 ChainClient::program_accounts *)
Definition program_accounts (filters : list RpcFilter) : rpc (list (key * Account)) :=
  accounts ← call (fun n => get_program_ui_accounts_with_config n program filters);
  lift (try_map (fun '(address, account) =>
          match account with Some account => Ok (address, account) | None => Err ChainError.InvalidAccountData end)
        accounts).

(* chain/rpc.rs:374-380 ChainClient::fetch_position_info *)
Definition fetch_position_info (position_pda : key) : rpc PositionInfo :=
  account ← fetch_account position_pda; lift (position_from_account account program).
(* chain/rpc.rs:382-385 ChainClient::fetch_market_info *)
Definition fetch_market_info (market : key) : rpc MarketInfo :=
  account ← fetch_account market; lift (market_from_account account program).
(* chain/rpc.rs:387-389 ChainClient::fetch_market_quote_mint *)
Definition fetch_market_quote_mint (market : key) : rpc key :=
  info ← fetch_market_info market; mret (mi_quote_mint info).

(* chain/rpc.rs:391-404 ChainClient::hot_authority *)
Definition hot_authority : rpc key :=
  let seeds := [as_bytes "global_config"] in
  account ← fetch_account (find_program_address seeds program);
  config ← lift (global_config_from_account account program);
  _ ← lift (reject_if (negb (gc_bump config =? find_bump seeds program)) (ChainError.Identity "global config PDA"));
  mret (gc_hot_authority config).

(* chain/rpc.rs:406-413 ChainClient::fetch_token_balance *)
Definition fetch_token_balance (token_account : key) : rpc Z :=
  amount ← call (fun n => get_token_account_balance n token_account);
  lift (ok_or (parse_u64 (as_bytes amount)) ChainError.InvalidAccountData).

(** [zip] stops at the shorter list. *)
(* chain/rpc.rs:415-432 ChainClient::address_lookup_tables *)
Definition address_lookup_tables (keys : list key) : rpc (list LookupTable) :=
  accounts ← call (fun n => get_multiple_accounts_with_commitment n keys);
  lift (try_map (fun '(k, account) =>
          match account with
          | Some account => parse_lookup_table k account
          | None => Err (ChainError.MissingLookupTable k)
          end) (zip keys accounts)).

(* chain/rpc.rs:434-444 ChainClient::resolve_token_program *)
Definition resolve_token_program (mint : key) (token_program : option key) : rpc key :=
  match token_program with
  | Some program => lift (ensure_supported_token_program program)
  | None => account ← call (fun n => get_account n mint); lift (ensure_supported_token_program (owner account))
  end.

(** [MakerDepositArgs] and [MakerWithdrawArgs] are the arguments of the builders with an
    optional token program. *)
(* chain/rpc.rs:190-210 ChainClient::build_maker_deposit_ixs *)
Definition fetch_maker_deposit_ixs (args : MakerDepositIxArgs) (token_program : option key) (fee_payer : key)
  : rpc (list Instruction) :=
  resolved ← resolve_token_program (md_premium_mint args) token_program;
  mret (build_maker_deposit_ixs program
    {| md_maker_owner := md_maker_owner args; md_amount := md_amount args; md_premium_mint := md_premium_mint args;
       md_token_program := resolved; md_create_atas := md_create_atas args |} fee_payer).
(* chain/rpc.rs:212-232 ChainClient::build_maker_withdraw_ixs *)
Definition fetch_maker_withdraw_ixs (args : MakerWithdrawIxArgs) (token_program : option key) (fee_payer : key)
  : rpc (list Instruction) :=
  resolved ← resolve_token_program (mw_premium_mint args) token_program;
  mret (build_maker_withdraw_ixs program
    {| mw_maker_owner := mw_maker_owner args; mw_amount := mw_amount args; mw_premium_mint := mw_premium_mint args;
       mw_token_program := resolved; mw_create_atas := mw_create_atas args |} fee_payer).

(* chain/batch.rs:150-168 ChainClient::fetch_accounts *)
Definition fetch_accounts (keys : list key) : rpc (list (option Account)) :=
  pages ← rpc_map (fun chunk =>
    values ← call (fun n => get_multiple_accounts_with_commitment n chunk);
    _ ← lift (reject_if (negb (length values =? length chunk)%nat) ChainError.InvalidAccountData);
    mret values) (chunks 100 keys);
  mret (concat pages).
End client.

(** A cluster that answers from fixed accounts and balances; used by the witnesses. *)
Module RpcSample.
Definition cluster (accounts : list (key * Account)) (balance fee rent : Z) : Cluster :=
  let find k := snd <$> List.find (fun '(k', _) => bool_decide (k' = k)) accounts in
  {| get_account _ k := match find k with Some a => inr a | None => inl "AccountNotFound"%string end;
     get_account_with_commitment _ k := inr (find k);
     get_multiple_accounts_with_commitment _ ks := inr (map find ks);
     get_program_ui_accounts_with_config _ _ _ := inr (map (fun '(k, a) => (k, Some a)) accounts);
     get_balance _ _ := inr balance;
     get_token_account_balance _ _ := inr "1000"%string;
     get_minimum_balance_for_rent_exemption _ _ := inr rent;
     get_latest_blockhash _ := inr (key_of 77);
     get_fee_for_message _ _ := inr fee;
     try_sign _ := None;
     send_transaction n _ := inr (replicate 64 (Z.of_nat n));
     get_signature_statuses_with_history _ sigs := inr (map (fun _ => Some (true, None)) sigs);
     confirm_transaction_with_spinner _ _ _ := inr tt |}.
Definition start : RpcState := {| calls := 0; submitted := [] |}.
End RpcSample.
