(* ===== verification/Batch.v ===== *)
(** * Budgets of capital batches ([chain/vault/manager.rs])

    Before a batch of deposits or withdrawals is sent, its compute budget is computed from
    its users and from how many of their destination accounts are missing, though not which.
    The budget counts the steps of each address derivation the program repeats, which are
    those the bump of the address tells. *)

From Stdlib Require Import ZArith Lia String.
From stdpp Require Import base list sorting strings.
From S2P Require Import Prelude Signing Quote Challenge Chain Account Price Vault Rpc.

Open Scope Z_scope.

(* chain/vault/manager.rs:19-22 BATCH_BASE_COMPUTE_UNITS, COMPUTE_UNITS_PER_USER, COMPUTE_UNITS_PER_CREATED_DESTINATION, COMPUTE_UNITS_PER_DERIVATION_STEP *)
Definition BATCH_BASE_COMPUTE_UNITS : Z := 40000.
Definition COMPUTE_UNITS_PER_USER : Z := 13000.
Definition COMPUTE_UNITS_PER_CREATED_DESTINATION : Z := 25000.
Definition COMPUTE_UNITS_PER_DERIVATION_STEP : Z := 1800.

(* chain/vault/manager.rs:136-142 CapitalBatchShape *)
Record CapitalBatchShape := { bs_users : Z; bs_created_destinations : Z; bs_derivation_steps : Z }.

(* chain/vault/manager.rs:158-160 batch_users *)
Definition batch_users (len : nat) : Z := Z.of_nat (Nat.min len VAULT_CAPITAL_BATCH_USERS).

(** The plain products panic where they overflow. *)
(* chain/vault/manager.rs:144-156 vault_capital_batch_compute_units *)
Definition vault_capital_batch_compute_units (shape : CapitalBatchShape) : res unit Z :=
  let users := Z.min (bs_users shape) (batch_users VAULT_CAPITAL_BATCH_USERS) in
  twice ← mul_p 32 users 2;
  let created := Z.min (bs_created_destinations shape) twice in
  per_user ← mul_p 32 users COMPUTE_UNITS_PER_USER;
  per_created ← mul_p 32 created COMPUTE_UNITS_PER_CREATED_DESTINATION;
  Ok (saturating_add 32
        (saturating_add 32 (saturating_add 32 BATCH_BASE_COMPUTE_UNITS per_user) per_created)
        (saturating_mul 32 (bs_derivation_steps shape) COMPUTE_UNITS_PER_DERIVATION_STEP)).

(* chain/vault/manager.rs:162-164 steps *)
Definition steps (bump : Z) : res unit Z := sub_p 255 bump.

(** [Iterator::sum]. *)
Definition sum_p (l : list Z) : res unit Z := foldl (fun acc x => a ← acc; add_p 32 a x) (Ok 0) l.

(** The array sorted from the largest. *)
(* chain/vault/manager.rs:170-179 max_creation_steps *)
Definition max_creation_steps (destination_steps : list Z) (count : nat) : res unit Z :=
  sum_p (take (Nat.min count VAULT_CAPITAL_BATCH_USERS) (merge_sort Z.ge destination_steps)).

Section shapes.
Context `{C : Crypto} `{P : Pda} `{B : PdaBump}.

(* chain/vault/manager.rs:166-168 ata_steps *)
Definition ata_steps (owner mint token_program : key) : res unit Z :=
  steps (find_bump [owner; token_program; mint] ASSOCIATED_TOKEN_PROGRAM_ID).

(** [let mut array = [0; N]], whose first entries are set one after the other. *)
Definition filled (l : list Z) : list Z := l ++ replicate (VAULT_CAPITAL_BATCH_USERS - length l) 0.

(** The checks of the main mint's accounts. *)
Definition main_checks (self : VaultManager) : Z :=
  if bool_decide (a_main_token_program (vm_args self) = TOKEN_2022_PROGRAM_ID) then 2 else 1.

(* chain/vault/manager.rs:649-676 VaultManager::batch_shape (user) *)
Definition user_steps (self : VaultManager) (kind : VaultRequestKind.t) (user : key) : res unit (Z * (Z * Z)) :=
  let program_id := a_program_id (vm_args self) in
  let vault := ad_vault (vm_addresses self) in
  let main_mint := a_main_mint (vm_args self) in
  let main_program := a_main_token_program (vm_args self) in
  let share_mint := a_share_mint (vm_args self) in
  '(request_bump, escrow_bump, escrow_steps) ←
    match kind with
    | VaultRequestKind.Deposit =>
        one ← ata_steps (pda.deposit_escrow_authority program_id vault user) main_mint main_program;
        all ← mul_p 32 one (main_checks self);
        Ok (find_bump [as_bytes "deposit_request"; vault; user] program_id,
            find_bump [as_bytes "deposit_escrow"; vault; user] program_id, all)
    | VaultRequestKind.Withdraw =>
        one ← ata_steps (pda.withdraw_escrow_authority program_id vault user) share_mint TOKEN_PROGRAM_ID;
        Ok (find_bump [as_bytes "withdraw_request"; vault; user] program_id,
            find_bump [as_bytes "withdraw_escrow"; vault; user] program_id, one)
    end;
  share_steps ← ata_steps user share_mint TOKEN_PROGRAM_ID;
  main_steps ← ata_steps user main_mint main_program;
  request_steps ← steps request_bump;
  escrow_bump_steps ← steps escrow_bump;
  total ← add_p 32 request_steps escrow_bump_steps;
  total ← add_p 32 total escrow_steps;
  total ← add_p 32 total main_steps;
  total ← add_p 32 total share_steps;
  Ok (total, (share_steps, main_steps)).

(* chain/vault/manager.rs:629-642 VaultManager::batch_shape (common_steps) *)
Definition common_steps (self : VaultManager) (kind : VaultRequestKind.t) : res unit Z :=
  let program_id := a_program_id (vm_args self) in
  let vault := ad_vault (vm_addresses self) in
  one ← ata_steps vault (a_main_mint (vm_args self)) (a_main_token_program (vm_args self));
  common ← mul_p 32 one (main_checks self);
  match kind with
  | VaultRequestKind.Deposit =>
      manager_steps ← steps (find_bump [as_bytes "manager_stake"; vault] program_id);
      stake_steps ← ata_steps (pda.manager_stake program_id vault) (a_share_mint (vm_args self)) TOKEN_PROGRAM_ID;
      more ← add_p 32 manager_steps stake_steps;
      add_p 32 common more
  | VaultRequestKind.Withdraw => Ok common
  end.

(* chain/vault/manager.rs:622-686 VaultManager::batch_shape *)
Definition batch_shape (self : VaultManager) (kind : VaultRequestKind.t) (users : list key)
  (missing_share missing_main : nat) : res unit CapitalBatchShape :=
  common ← common_steps self kind;
  per ← try_map (user_steps self kind) (take VAULT_CAPITAL_BATCH_USERS users);
  per_user ← sum_p (map fst per);
  created ← add_p 32 (batch_users missing_share) (batch_users missing_main);
  share ← max_creation_steps (filled (map (fun x => x.2.1) per)) (Nat.min missing_share (length users));
  main ← max_creation_steps (filled (map (fun x => x.2.2) per)) (Nat.min missing_main (length users));
  derivation ← add_p 32 per_user share;
  derivation ← add_p 32 derivation main;
  derivation ← add_p 32 derivation common;
  Ok {| bs_users := batch_users (length users); bs_created_destinations := created;
        bs_derivation_steps := derivation |}.

(* chain/vault/manager.rs:592-605 VaultManager::deposit_batch_shape *)
Definition deposit_batch_shape (self : VaultManager) (users : list key)
  (missing_share_accounts missing_main_refund_accounts : nat) : res unit CapitalBatchShape :=
  batch_shape self VaultRequestKind.Deposit users missing_share_accounts missing_main_refund_accounts.

(* chain/vault/manager.rs:607-620 VaultManager::withdrawal_batch_shape *)
Definition withdrawal_batch_shape (self : VaultManager) (users : list key)
  (missing_main_accounts missing_share_return_accounts : nat) : res unit CapitalBatchShape :=
  batch_shape self VaultRequestKind.Withdraw users missing_share_return_accounts missing_main_accounts.
End shapes.

(** ** The budget is enough *)

Definition sum (l : list Z) : Z := foldr Z.add 0 l.

Lemma sum_app l k : sum (l ++ k) = sum l + sum k.
Proof. induction l as [|x l IH]; simpl; lia. Qed.

#[export] Instance sum_proper : Proper ((≡ₚ) ==> (=)) sum.
Proof. induction 1; simpl; lia. Qed.

Lemma sum_nonneg l : Forall (Z.le 0) l -> 0 <= sum l.
Proof. induction 1; simpl; lia. Qed.

Lemma sum_le b l : Forall (fun x => 0 <= x <= b) l -> 0 <= sum l <= b * Z.of_nat (length l).
Proof. induction 1; simpl; lia. Qed.

Lemma sum_p_Ok l : Forall (Z.le 0) l -> sum l < 2 ^ 32 -> sum_p l = Ok (sum l).
Proof.
  unfold sum_p. intros Hl.
  assert (H : forall a, 0 <= a -> a + sum l < 2 ^ 32 ->
            foldl (fun acc x => a ← acc; add_p 32 a x) (Ok a : res unit Z) l = Ok (a + sum l)); [|intros; by apply (H 0)].
  induction Hl as [|x l Hx Hl IH]; intros a Ha Hs; cbn [sum foldl foldr] in *; [by rewrite Z.add_0_r|].
  fold (sum l) in *. pose proof (sum_nonneg l Hl).
  change (Ok a ≫= fun a => add_p 32 a x) with (@add_p unit 32 a x).
  unfold add_p at 2. rewrite (proj2 (Z.ltb_lt _ _)) by lia. rewrite IH by lia. by rewrite Z.add_assoc.
Qed.

#[export] Instance ge_transitive : Transitive Z.ge.
Proof. intros x y z. lia. Qed.

#[export] Instance ge_total : Total Z.ge.
Proof. intros x y. lia. Qed.

(** The largest entries of a list bound every choice of as many. *)
Lemma largest_bound d : StronglySorted Z.ge d -> Forall (Z.le 0) d ->
  forall n s, s ⊆+ d -> (length s <= n)%nat -> sum s <= sum (take n d).
Proof.
  induction 1 as [|x d Hd IH Hx]; intros Hp n s Hs Hn.
  { apply submseteq_nil_r in Hs as ->. by rewrite take_nil. }
  inversion Hp as [|? ? Hx0 Hd0]; subst.
  destruct n as [|n]; [destruct s; [done|simpl in Hn; lia]|].
  apply submseteq_cons_r in Hs as [Hs|(s' & Hp' & Hs)].
  - destruct s as [|y s].
    + simpl. pose proof (sum_nonneg (take n d) (Forall_take _ _ _ Hd0)). lia.
    + assert (Hy : y ∈ d) by (eapply elem_of_submseteq; [|exact Hs]; left).
      rewrite Forall_forall in Hx. specialize (Hx y Hy). simpl in Hn.
      assert (Hs' : s ⊆+ d) by (etrans; [|exact Hs]; by apply submseteq_cons).
      specialize (IH Hd0 n s Hs' ltac:(lia)). simpl. lia.
  - apply Permutation_length in Hp' as Hl. simpl in Hl. rewrite (sum_proper _ _ Hp').
    specialize (IH Hd0 n s' Hs ltac:(lia)). simpl. lia.
Qed.

(** The sum computed for [n] of the destinations: it is reached, and no choice of at most
    [n] of them exceeds it. *)
Lemma creation_steps {A} (f : A -> Z) (users : list A) (count : nat) :
  (length users <= VAULT_CAPITAL_BATCH_USERS)%nat -> (forall u, 0 <= f u <= 255) ->
  exists worst, max_creation_steps (filled (map f users)) count = Ok worst /\ 0 <= worst <= 765 /\
    (forall chosen, chosen ⊆+ users -> (length chosen <= count)%nat -> sum (map f chosen) <= worst) /\
    (exists chosen, chosen ⊆+ users /\ (length chosen <= count)%nat /\ worst = sum (map f chosen)).
Proof.
  intros Hlen Hf. unfold max_creation_steps, filled. rewrite length_map.
  set (zeros := replicate _ 0). set (d := merge_sort Z.ge (map f users ++ zeros)).
  assert (Hd : d ≡ₚ map f users ++ zeros) by apply merge_sort_Permutation.
  assert (Hr : Forall (fun x => 0 <= x <= 255) d).
  { rewrite Hd. apply Forall_app. split; [apply Forall_map; apply Forall_true; apply Hf|].
    apply Forall_replicate. lia. }
  assert (Hl : length d = VAULT_CAPITAL_BATCH_USERS).
  { rewrite (Permutation_length Hd), length_app, length_map. unfold zeros. rewrite length_replicate. lia. }
  set (top := take (Nat.min count VAULT_CAPITAL_BATCH_USERS) d).
  assert (Ht : Forall (fun x => 0 <= x <= 255) top) by by apply Forall_take.
  assert (Hp : Forall (Z.le 0) d) by (eapply Forall_impl; [exact Hr|]; simpl; lia).
  pose proof (sum_le 255 top Ht) as Hs.
  assert (Htl : (length top <= Nat.min count 3)%nat) by (unfold top; rewrite length_take; unfold VAULT_CAPITAL_BATCH_USERS; lia).
  exists (sum top). split; [apply sum_p_Ok; [by apply Forall_take|lia]|]. split; [lia|]. split.
  - intros chosen Hc Hn. apply largest_bound; [unfold d; apply (StronglySorted_merge_sort Z.ge)|done| |].
    + rewrite Hd. etrans; [|by apply submseteq_inserts_r]. by apply fmap_submseteq.
    + rewrite length_map. apply submseteq_length in Hc. unfold VAULT_CAPITAL_BATCH_USERS in *. lia.
  - assert (Hsub : top ⊆+ map f users ++ zeros).
    { rewrite <- Hd. apply sublist_submseteq, sublist_take. }
    apply submseteq_app_r in Hsub as (t1 & t2 & Ht12 & H1 & H2).
    apply submseteq_Permutation in H1 as [k Hk]. symmetry in Hk.
    apply Permutation_map_inv in Hk as (users' & Hu & Hperm).
    exists (take (length t1) users'). split_and!.
    + rewrite Hperm. apply sublist_submseteq, sublist_take.
    + rewrite length_take. apply Permutation_length in Ht12. rewrite length_app in Ht12. lia.
    + rewrite (sum_proper _ _ Ht12), sum_app, <- firstn_map, <- Hu, take_app_length.
      assert (Hz : forall l, l ⊆+ zeros -> sum l = 0); [|rewrite (Hz t2 H2); lia].
      intros l Hz. assert (Forall (eq 0) l) as H0; [|clear -H0; induction H0; simpl; lia].
      apply Forall_forall. intros x Hx. eapply elem_of_submseteq in Hx; [|exact Hz].
      by apply elem_of_replicate in Hx as [-> _].
Qed.

Section budget.
Context `{P : Pda} `{B : PdaBump}.

(** The steps of one derivation: the bumps tried before the one found. *)
Definition derivation (seeds : list bytes) (program : key) : Z := 255 - find_bump seeds program.
Definition ata_derivation (owner mint token_program : key) : Z :=
  derivation [owner; token_program; mint] ASSOCIATED_TOKEN_PROGRAM_ID.

Definition share_derivation (self : VaultManager) (user : key) : Z :=
  ata_derivation user (a_share_mint (vm_args self)) TOKEN_PROGRAM_ID.
Definition main_derivation (self : VaultManager) (user : key) : Z :=
  ata_derivation user (a_main_mint (vm_args self)) (a_main_token_program (vm_args self)).

(** What the program derives for a user: the request, the escrow's authority and its
    account, the two destinations; an account of the main mint is checked once more under
    Token-2022. *)
Definition user_derivations (self : VaultManager) (kind : VaultRequestKind.t) (user : key) : Z :=
  let program_id := a_program_id (vm_args self) in
  let vault := ad_vault (vm_addresses self) in
  match kind with
  | VaultRequestKind.Deposit =>
      derivation [as_bytes "deposit_request"; vault; user] program_id +
      derivation [as_bytes "deposit_escrow"; vault; user] program_id +
      main_checks self * main_derivation self (pda.deposit_escrow_authority program_id vault user)
  | VaultRequestKind.Withdraw =>
      derivation [as_bytes "withdraw_request"; vault; user] program_id +
      derivation [as_bytes "withdraw_escrow"; vault; user] program_id +
      share_derivation self (pda.withdraw_escrow_authority program_id vault user)
  end + main_derivation self user + share_derivation self user.

(** What it derives once: the vault's account and, for deposits, the manager's stake. *)
Definition common_derivations (self : VaultManager) (kind : VaultRequestKind.t) : Z :=
  let program_id := a_program_id (vm_args self) in
  let vault := ad_vault (vm_addresses self) in
  main_checks self * main_derivation self vault +
  match kind with
  | VaultRequestKind.Deposit =>
      derivation [as_bytes "manager_stake"; vault] program_id + share_derivation self (pda.manager_stake program_id vault)
  | VaultRequestKind.Withdraw => 0
  end.

(** The steps of a batch that creates these share and main destinations. *)
Definition batch_derivations (self : VaultManager) (kind : VaultRequestKind.t) (users shares mains : list key) : Z :=
  sum (map (user_derivations self kind) users) + sum (map (share_derivation self) shares) +
  sum (map (main_derivation self) mains) + common_derivations self kind.

Hypothesis u8_bumps : forall seeds program, fits 8 (find_bump seeds program).

Lemma derivation_range seeds program : 0 <= derivation seeds program <= 255.
Proof. unfold derivation. specialize (u8_bumps seeds program). unfold fits in *. lia. Qed.

Lemma steps_Ok seeds program : steps (find_bump seeds program) = Ok (derivation seeds program).
Proof.
  unfold steps, sub_p. specialize (u8_bumps seeds program). unfold fits in *.
  by rewrite (proj2 (Z.leb_le _ _)) by lia.
Qed.

Lemma ata_steps_Ok owner mint token_program : ata_steps owner mint token_program = Ok (ata_derivation owner mint token_program).
Proof. apply steps_Ok. Qed.

Lemma main_checks_range self : 1 <= main_checks self <= 2.
Proof. unfold main_checks. case_bool_decide; lia. Qed.

Lemma add32_Ok a b : a + b < 2 ^ 32 -> @add_p unit 32 a b = Ok (a + b).
Proof. intros H. unfold add_p. by rewrite (proj2 (Z.ltb_lt _ _) H). Qed.

Lemma mul32_Ok a b : a * b < 2 ^ 32 -> @mul_p unit 32 a b = Ok (a * b).
Proof. intros H. unfold mul_p. by rewrite (proj2 (Z.ltb_lt _ _) H). Qed.

(** Facts about every derivation in the goal. *)
Ltac ranges self :=
  unfold share_derivation, main_derivation, ata_derivation;
  pose proof (main_checks_range self);
  repeat match goal with
  | |- context [derivation ?s ?p] =>
      lazymatch goal with
      | _ : 0 <= derivation s p <= 255 |- _ => fail
      | _ => pose proof (derivation_range s p)
      end
  end.

Lemma user_steps_Ok self kind user :
  user_steps self kind user =
    Ok (user_derivations self kind user, (share_derivation self user, main_derivation self user)) /\
  0 <= user_derivations self kind user <= 1530.
Proof.
  unfold user_steps, user_derivations. rewrite !ata_steps_Ok.
  destruct kind; cbv zeta; rewrite ?ata_steps_Ok; cbn [mbind res_bind]; rewrite ?mul32_Ok by (ranges self; nia);
    cbn [mbind res_bind]; rewrite !steps_Ok; cbn [mbind res_bind];
    (split; [|ranges self; nia]); repeat (rewrite add32_Ok by (ranges self; nia); cbn [mbind res_bind]);
    unfold share_derivation, main_derivation; (apply (f_equal Ok), (f_equal2 pair); [lia|done]).
Qed.

Lemma common_steps_Ok self kind :
  common_steps self kind = Ok (common_derivations self kind) /\ 0 <= common_derivations self kind <= 1020.
Proof.
  unfold common_steps, common_derivations. cbv zeta. rewrite !ata_steps_Ok. cbn [mbind res_bind].
  rewrite mul32_Ok by (ranges self; nia). cbn [mbind res_bind].
  destruct kind; (split; [|ranges self; nia]).
  - rewrite steps_Ok. cbn [mbind res_bind]. repeat (rewrite add32_Ok by (ranges self; nia); cbn [mbind res_bind]).
    f_equal. ranges self. lia.
  - f_equal. ranges self. lia.
Qed.

Lemma users_Ok self kind users :
  try_map (user_steps self kind) users =
    Ok (map (fun u => (user_derivations self kind u, (share_derivation self u, main_derivation self u))) users).
Proof.
  induction users as [|u users IH]; [done|]. simpl. rewrite (proj1 (user_steps_Ok self kind u)). simpl. by rewrite IH.
Qed.

Lemma users_sum self kind users :
  0 <= sum (map (user_derivations self kind) users) <= 1530 * Z.of_nat (length users).
Proof.
  rewrite <- (length_map (user_derivations self kind)). apply sum_le, Forall_map, Forall_true.
  intros u. apply user_steps_Ok.
Qed.

(** The shape of a batch, over the worst choices of its missing destinations. *)
Lemma batch_shape_Ok self kind users missing_share missing_main :
  let taken := take VAULT_CAPITAL_BATCH_USERS users in
  exists share main,
    batch_shape self kind users missing_share missing_main =
      Ok {| bs_users := batch_users (length users);
            bs_created_destinations := batch_users missing_share + batch_users missing_main;
            bs_derivation_steps :=
              sum (map (user_derivations self kind) taken) + share + main + common_derivations self kind |} /\
    max_creation_steps (filled (map (share_derivation self) taken)) (Nat.min missing_share (length users)) = Ok share /\
    max_creation_steps (filled (map (main_derivation self) taken)) (Nat.min missing_main (length users)) = Ok main.
Proof.
  intros taken. unfold batch_shape. fold taken. destruct (common_steps_Ok self kind) as [-> Hc].
  cbn [mbind res_bind]. rewrite users_Ok. cbn [mbind res_bind]. rewrite !map_map. cbn [fst snd].
  change (fun x => user_derivations self kind x) with (user_derivations self kind).
  change (fun x => share_derivation self x) with (share_derivation self).
  change (fun x => main_derivation self x) with (main_derivation self).
  assert (Ht : (length taken <= VAULT_CAPITAL_BATCH_USERS)%nat) by (unfold taken; rewrite length_take; lia).
  pose proof (users_sum self kind taken) as Hu.
  rewrite sum_p_Ok; [|apply Forall_map, Forall_true; intros u; destruct (user_steps_Ok self kind u) as [_ ?]; simpl; lia|
                     unfold VAULT_CAPITAL_BATCH_USERS in *; lia].
  destruct (creation_steps (share_derivation self) taken (Nat.min missing_share (length users)) Ht
              (fun u => derivation_range _ _)) as (share & Hs & Hsr & _).
  destruct (creation_steps (main_derivation self) taken (Nat.min missing_main (length users)) Ht
              (fun u => derivation_range _ _)) as (main & Hm & Hmr & _).
  exists share, main. split; [|done]. cbn [mbind res_bind]. unfold VAULT_CAPITAL_BATCH_USERS in *.
  rewrite add32_Ok by (unfold batch_users, VAULT_CAPITAL_BATCH_USERS; lia). cbn [mbind res_bind].
  rewrite Hs. cbn [mbind res_bind]. rewrite Hm. cbn [mbind res_bind].
  by repeat (rewrite add32_Ok by lia; cbn [mbind res_bind]).
Qed.

(** Shapes of that size are priced without saturation. *)
Lemma compute_units_Ok users created derivations :
  0 <= users <= 3 -> 0 <= created -> 0 <= derivations <= 7140 ->
  vault_capital_batch_compute_units
    {| bs_users := users; bs_created_destinations := created; bs_derivation_steps := derivations |} =
  Ok (BATCH_BASE_COMPUTE_UNITS + users * COMPUTE_UNITS_PER_USER +
      Z.min created (users * 2) * COMPUTE_UNITS_PER_CREATED_DESTINATION +
      derivations * COMPUTE_UNITS_PER_DERIVATION_STEP).
Proof.
  intros Hu Hc Hd. unfold vault_capital_batch_compute_units. cbn [bs_users bs_created_destinations bs_derivation_steps].
  replace (Z.min users (batch_users VAULT_CAPITAL_BATCH_USERS)) with users
    by (unfold batch_users, VAULT_CAPITAL_BATCH_USERS; lia).
  unfold BATCH_BASE_COMPUTE_UNITS, COMPUTE_UNITS_PER_USER, COMPUTE_UNITS_PER_CREATED_DESTINATION,
    COMPUTE_UNITS_PER_DERIVATION_STEP, saturating_add, saturating_mul, umax.
  repeat (rewrite mul32_Ok by lia; cbn [mbind res_bind]). f_equal. lia.
Qed.

(** A batch of any size is priced. *)
Lemma batch_units_Ok self kind users missing_share missing_main :
  exists shape units, batch_shape self kind users missing_share missing_main = Ok shape /\
    vault_capital_batch_compute_units shape = Ok units.
Proof.
  destruct (batch_shape_Ok self kind users missing_share missing_main) as (share & main & Hs & Hsh & Hma).
  set (taken := take VAULT_CAPITAL_BATCH_USERS users) in *.
  assert (Ht : (length taken <= VAULT_CAPITAL_BATCH_USERS)%nat) by (unfold taken; rewrite length_take; lia).
  destruct (creation_steps (share_derivation self) taken (Nat.min missing_share (length users)) Ht
              (fun u => derivation_range _ _)) as (s & Hs' & Hsr & _).
  destruct (creation_steps (main_derivation self) taken (Nat.min missing_main (length users)) Ht
              (fun u => derivation_range _ _)) as (m & Hm' & Hmr & _).
  rewrite Hsh in Hs'. rewrite Hma in Hm'. injection Hs' as ->. injection Hm' as ->.
  pose proof (users_sum self kind taken) as Hu. destruct (common_steps_Ok self kind) as [_ Hc].
  unfold VAULT_CAPITAL_BATCH_USERS in Ht.
  eexists _, _. split; [exact Hs|apply compute_units_Ok; unfold batch_users, VAULT_CAPITAL_BATCH_USERS; lia].
Qed.
End budget.

(** C21: The compute budget of a batch is computed without overflow, for any number of users and
    missing destinations, and covers the batch: whichever of its users' share and main
    accounts turn out to be missing, as long as they are no more than was counted, the base
    cost, the users, the accounts created and every derivation step of the program stay
    within it.  The steps counted are those of some such choice, so none are paid for
    nothing. *)
Theorem batch_budget_covers `{P : Pda} `{B : PdaBump} self kind users missing_share missing_main :
  (forall seeds program, fits 8 (find_bump seeds program)) ->
  exists shape units,
    batch_shape self kind users missing_share missing_main = Ok shape /\
    vault_capital_batch_compute_units shape = Ok units /\ fits 32 units /\
    ((length users <= VAULT_CAPITAL_BATCH_USERS)%nat ->
     (forall shares mains, shares ⊆+ users -> mains ⊆+ users ->
        (length shares <= missing_share)%nat -> (length mains <= missing_main)%nat ->
        BATCH_BASE_COMPUTE_UNITS + COMPUTE_UNITS_PER_USER * Z.of_nat (length users) +
        COMPUTE_UNITS_PER_CREATED_DESTINATION * Z.of_nat (length shares + length mains) +
        COMPUTE_UNITS_PER_DERIVATION_STEP * batch_derivations self kind users shares mains <= units) /\
     exists shares mains, shares ⊆+ users /\ mains ⊆+ users /\
       (length shares <= missing_share)%nat /\ (length mains <= missing_main)%nat /\
       bs_derivation_steps shape = batch_derivations self kind users shares mains).
Proof.
  intros Hb. destruct (batch_shape_Ok Hb self kind users missing_share missing_main) as (share & main & Hs & Hsh & Hma).
  set (taken := take VAULT_CAPITAL_BATCH_USERS users) in *.
  assert (Ht : (length taken <= VAULT_CAPITAL_BATCH_USERS)%nat) by (unfold taken; rewrite length_take; lia).
  destruct (creation_steps (share_derivation self) taken (Nat.min missing_share (length users)) Ht
              (fun u => derivation_range Hb _ _)) as (s & Hs' & Hsr & Hsub & Hsx).
  destruct (creation_steps (main_derivation self) taken (Nat.min missing_main (length users)) Ht
              (fun u => derivation_range Hb _ _)) as (m & Hm' & Hmr & Hmub & Hmx).
  rewrite Hsh in Hs'. rewrite Hma in Hm'. injection Hs' as ->. injection Hm' as ->.
  pose proof (users_sum Hb self kind taken) as Hu. destruct (common_steps_Ok Hb self kind) as [_ Hc].
  unfold VAULT_CAPITAL_BATCH_USERS in Ht.
  eexists _, _. split; [exact Hs|]. split; [apply compute_units_Ok; unfold batch_users, VAULT_CAPITAL_BATCH_USERS; lia|].
  unfold BATCH_BASE_COMPUTE_UNITS, COMPUTE_UNITS_PER_USER, COMPUTE_UNITS_PER_CREATED_DESTINATION,
    COMPUTE_UNITS_PER_DERIVATION_STEP, batch_users, batch_derivations, VAULT_CAPITAL_BATCH_USERS, fits in *.
  split; [lia|]. intros Hl. assert (taken = users) as -> by (unfold taken; rewrite take_ge; [done|lia]). split.
  - intros shares mains H1 H2 L1 L2. pose proof (submseteq_length _ _ H1). pose proof (submseteq_length _ _ H2).
    pose proof (Hsub shares H1 ltac:(lia)). pose proof (Hmub mains H2 ltac:(lia)). lia.
  - destruct Hsx as (shares & ? & ? & ->). destruct Hmx as (mains & ? & ? & ->).
    exists shares, mains. cbn [bs_derivation_steps]. split_and!; (done || lia).
Qed.

Module BatchSample.
(** Each derivation tries as many bumps as its first seed is long, up to 200. *)
#[global] Instance bump : PdaBump := {| find_bump seeds _ := 255 - Z.min 200 (Z.of_nat (length (hd [] seeds))) |}.
Definition users : list key := [key_of 21; key_of 22].
End BatchSample.

Lemma batch_budget_covers_witness :
  exists shape units, batch_shape (P := QuoteExample.pda) VaultSample.manager VaultRequestKind.Deposit BatchSample.users 1 2 = Ok shape /\
    vault_capital_batch_compute_units shape = Ok units /\
    40000 + 13000 * 2 + 25000 * 3 + 1800 * batch_derivations (P := QuoteExample.pda) VaultSample.manager VaultRequestKind.Deposit
      BatchSample.users [key_of 22] BatchSample.users <= units.
Proof.
  destruct (batch_budget_covers (P := QuoteExample.pda) VaultSample.manager VaultRequestKind.Deposit BatchSample.users 1 2)
    as (shape & units & H1 & H2 & _ & H3).
  { intros seeds program. simpl. unfold fits. lia. }
  exists shape, units. split; [exact H1|]. split; [exact H2|].
  apply (proj1 (H3 ltac:(vm_compute; lia)) [key_of 22] BatchSample.users).
  - apply submseteq_cons. reflexivity.
  - reflexivity.
  - simpl. lia.
  - simpl. lia.
Defined.
