(* ===== verification/Confirm.v ===== *)
(** * Confirming transactions ([src/chain/confirmation.rs])

    A client subscribes to the signatures it submitted over one WebSocket and reads
    notifications until all are resolved, the stream ends or a deadline passes; what is
    still unresolved is read once over RPC.  The socket is the list of the events it will
    deliver; a list that runs out is the deadline.  Acknowledgements and notifications may
    arrive in any order: a notification whose subscription is not known yet is kept. *)

From Stdlib Require Import ZArith Lia String.
From stdpp Require Import base list gmap strings fin_maps.
From S2P Require Import Prelude Quote Chain Account Positions Rpc.

Open Scope Z_scope.

Module ConfirmationStatus.
(* chain/confirmation.rs:5-11 ConfirmationStatus *)
Inductive t := Confirmed | Failed (error : string) | Pending.
#[global] Instance t_eq_dec : EqDecision t.
Proof. solve_decision. Defined.
End ConfirmationStatus.
Abbreviation status := ConfirmationStatus.t (only parsing).

(** serde_json's [Value]; a number that is no integer is [Float]. *)
Inductive Json :=
| JNull | JBool (b : bool) | JInt (z : Z) | JFloat (text : string) | JString (s : string)
| JArray (l : list Json) | JObject (fields : list (string * Json)).

(** [Value::get] with a key, indexing with a key, and [Value::as_u64]. *)
Fixpoint field (fields : list (string * Json)) (k : string) : option Json :=
  match fields with
  | [] => None
  | (k', v) :: fields => if String.eqb k' k then Some v else field fields k
  end.
Definition json_get (v : Json) (k : string) : option Json :=
  match v with JObject fields => field fields k | _ => None end.
Definition json_index (v : Json) (k : string) : Json := match json_get v k with Some v => v | None => JNull end.
Definition as_u64 (v : Json) : option Z :=
  match v with JInt z => if (0 <=? z) && (z <? 2 ^ 64) then Some z else None | _ => None end.

(** What the socket delivers: text with the JSON it parses to, or the text of the parse
    error; a ping with the outcome of the pong; a close; another message; an error; the
    end of the stream. *)
Inductive SocketEvent :=
| Text (parsed : string + Json)
| Ping (pong : option string)
| Close
| Other
| SocketError (text : string)
| EndOfStream.

Record Tracking := {
  results : list status;
  subscriptions : gmap Z nat;
  early : gmap Z status;
}.

(** Go on with the loop, or leave it: [break] or an error. *)
Inductive Step := Continue (t : Tracking) | Leave (r : xres unit) (t : Tracking).

Section confirm.
Context (error_text : Json -> string).

Definition pending (s : status) : bool := bool_decide (s = ConfirmationStatus.Pending).
(** [results.iter().all(|status| *status != Pending)]. *)
Definition all_resolved (t : Tracking) : bool := forallb (fun s => negb (pending s)) (results t).

(* chain/confirmation.rs:111-119 ChainClient::subscribe_signatures (acknowledgement) *)
Definition acknowledge (n : nat) (t : Tracking) (id subscription : Z) : xres Tracking :=
  let index := Z.to_nat id in
  _ ← reject_if (n <=? index)%nat ChainError.InvalidAccountData;
  match early t !! subscription with
  | Some s => Ok {| results := <[index := s]> (results t); subscriptions := subscriptions t;
                    early := delete subscription (early t) |}
  | None => Ok {| results := results t; subscriptions := <[subscription := index]> (subscriptions t);
                  early := early t |}
  end.

Definition status_of (error : Json) : status :=
  match error with
  | JNull => ConfirmationStatus.Confirmed
  | _ => ConfirmationStatus.Failed (error_text error)
  end.

(* chain/confirmation.rs:121-139 ChainClient::subscribe_signatures (notification) *)
Definition notify (n : nat) (t : Tracking) (value : Json) : xres Tracking :=
  let params := json_index value "params" in
  subscription ← ok_or (as_u64 (json_index params "subscription")) ChainError.InvalidAccountData;
  error ← ok_or (json_get (json_index (json_index params "result") "value") "err") ChainError.InvalidAccountData;
  let s := status_of error in
  match subscriptions t !! subscription with
  | Some index =>
      Ok {| results := <[index := s]> (results t); subscriptions := delete subscription (subscriptions t);
            early := early t |}
  | None =>
      _ ← reject_if (n <=? size (early t))%nat ChainError.InvalidAccountData;
      Ok {| results := results t; subscriptions := subscriptions t; early := <[subscription := s]> (early t) |}
  end.

Definition is_notification (value : Json) : bool :=
  match json_index value "method" with
  | JString m => bool_decide (m = "signatureNotification"%string)
  | _ => false
  end.

(* chain/confirmation.rs:106-146 ChainClient::subscribe_signatures (message) *)
Definition handle (n : nat) (t : Tracking) (value : Json) : Step :=
  match json_get value "error" with
  | Some _ => Leave (Ok tt) t
  | None =>
      let handled :=
        match as_u64 (json_index value "id"), as_u64 (json_index value "result") with
        | Some id, Some subscription => acknowledge n t id subscription
        | _, _ => if is_notification value then notify n t value else Ok t
        end in
      match handled with
      | Ok t => if all_resolved t then Leave (Ok tt) t else Continue t
      | Err e => Leave (Err e) t
      | Panic => Leave Panic t
      end
  end.

(* chain/confirmation.rs:94-105 ChainClient::subscribe_signatures (event) *)
Definition on_event (n : nat) (t : Tracking) (e : SocketEvent) : Step :=
  match e with
  | Text (inr value) => handle n t value
  | Text (inl text) | SocketError text => Leave (Err (ChainError.Confirmation text)) t
  | Ping None => Continue t
  | Ping (Some text) => Leave (Err (ChainError.Confirmation text)) t
  | Close | EndOfStream => Leave (Ok tt) t
  | Other => Continue t
  end.

(** The loop; [None] while it waits for more. *)
Fixpoint listen (n : nat) (t : Tracking) (events : list SocketEvent) : option (xres unit) * Tracking :=
  match events with
  | [] => (None, t)
  | e :: events =>
      match on_event n t e with Continue t => listen n t events | Leave r t => (Some r, t) end
  end.

(** [connected] is the error of the connection, [sends] those of the subscriptions. *)
(* chain/confirmation.rs:75-149 ChainClient::subscribe_signatures *)
Definition subscribe_signatures (n : nat) (connected : option string) (sends : list (option string))
  (events : list SocketEvent) (rs : list status) : option (xres unit) * list status :=
  match connected with
  | Some text => (Some (Err (ChainError.Confirmation text)), rs)
  | None =>
      match list_find (fun o : option string => is_Some o) (take n sends) with
      | Some (_, Some text) => (Some (Err (ChainError.Confirmation text)), rs)
      | _ =>
          let '(r, t) := listen n {| results := rs; subscriptions := ∅; early := ∅ |} events in
          (r, results t)
      end
  end.

Context `{N : Cluster}.

(* chain/confirmation.rs:29-37 ChainClient::signature_statuses (status) *)
Definition reported (s : option (bool * option string)) : status :=
  match s with
  | Some (true, Some error) => ConfirmationStatus.Failed error
  | Some (true, None) => ConfirmationStatus.Confirmed
  | _ => ConfirmationStatus.Pending
  end.

(* chain/confirmation.rs:13-40 ChainClient::signature_statuses *)
Definition signature_statuses (signatures : list bytes) : rpc (list status) :=
  pages ← rpc_map (fun chunk =>
    statuses ← call (fun n => get_signature_statuses_with_history n chunk);
    _ ← lift (reject_if (negb (length statuses =? length chunk)%nat) ChainError.InvalidAccountData);
    mret (map reported statuses)) (chunks 256 signatures);
  mret (concat pages).

(** The indices of the statuses that are still pending. *)
Definition unresolved (rs : list status) : list nat :=
  map fst (List.filter (fun '(_, s) => pending s) (zip (seq 0 (length rs)) rs)).

Definition write_back (rs : list status) (updates : list (nat * status)) : list status :=
  foldl (fun rs '(i, s) => <[i := s]> rs) rs updates.

(* chain/confirmation.rs:42-73 ChainClient::confirm_signatures *)
Definition confirm_signatures (signatures : list bytes) (connected : option string) (sends : list (option string))
  (events : list SocketEvent) : rpc (list status) :=
  let start := replicate (length signatures) ConfirmationStatus.Pending in
  match signatures with
  | [] => mret start
  | _ =>
      let rs := (subscribe_signatures (length signatures) connected sends events start).2 in
      let open := unresolved rs in
      statuses ← signature_statuses (omap (fun i => signatures !! i) open);
      mret (write_back rs (zip open statuses))
  end.

(** [socket]: how the client's confirmation socket behaves, if a URL is set. *)
(* chain/rpc.rs:572-596 ChainClient::confirm_submitted *)
Definition confirm_submitted (socket : option (option string * list (option string) * list SocketEvent))
  (failed : bytes -> string -> string) (unresolved_text : bytes -> string) (signature blockhash : bytes) : rpc bytes :=
  match socket with
  | Some (connected, sends, events) =>
      statuses ← confirm_signatures [signature] connected sends events;
      match statuses with
      | [ConfirmationStatus.Confirmed] => mret signature
      | [ConfirmationStatus.Failed error] => lift (Err (ChainError.Confirmation (failed signature error)))
      | _ => lift (Err (ChainError.Confirmation (unresolved_text signature)))
      end
  | None =>
      _ ← call (fun n => confirm_transaction_with_spinner n signature blockhash);
      mret signature
  end.
End confirm.

(** ** What a message says *)

Section messages.
Context (error_text : Json -> string).

Definition ack_of (v : Json) : option (nat * Z) :=
  match json_get v "error", as_u64 (json_index v "id"), as_u64 (json_index v "result") with
  | None, Some id, Some subscription => Some (Z.to_nat id, subscription)
  | _, _, _ => None
  end.

Definition note_of (v : Json) : option (Z * status) :=
  match json_get v "error", ack_of v with
  | None, None =>
      if is_notification v then
        let params := json_index v "params" in
        subscription ← as_u64 (json_index params "subscription");
        error ← json_get (json_index (json_index params "result") "value") "err";
        Some (subscription, status_of error_text error)
      else None
  | _, _ => None
  end.

(** Among [events], subscription [k] was acknowledged for the [i]th signature; it was
    notified with status [s]. *)
Definition acked (events : list SocketEvent) (i : nat) (k : Z) : Prop :=
  exists v, Text (inr v) ∈ events /\ ack_of v = Some (i, k).
Definition noted (events : list SocketEvent) (k : Z) (s : status) : Prop :=
  exists v, Text (inr v) ∈ events /\ note_of v = Some (k, s).

Lemma acked_app seen more i k : acked seen i k -> acked (seen ++ more) i k.
Proof. intros (v & Hv & H). exists v. split; [set_solver|done]. Qed.
Lemma noted_app seen more k s : noted seen k s -> noted (seen ++ more) k s.
Proof. intros (v & Hv & H). exists v. split; [set_solver|done]. Qed.

(** Every result has its evidence among what was seen. *)
Record tracked (n : nat) (seen : list SocketEvent) (t : Tracking) : Prop := {
  t_length : length (results t) = n;
  t_results i s : results t !! i = Some s -> s <> ConfirmationStatus.Pending ->
                  exists k, acked seen i k /\ noted seen k s;
  t_subscriptions k i : subscriptions t !! k = Some i -> acked seen i k;
  t_early k s : early t !! k = Some s -> noted seen k s;
}.

Lemma tracked_app n seen more t : tracked n seen t -> tracked n (seen ++ more) t.
Proof.
  intros [Hl Hr Hs He]. split; [done| | |].
  - intros i s Hi Hp. destruct (Hr i s Hi Hp) as (k & Ha & Hn). exists k. split; [by apply acked_app|by apply noted_app].
  - intros k i Hk. by apply acked_app, Hs.
  - intros k s Hk. by apply noted_app, He.
Qed.

(** Recording [s] for the [i]th signature, with its evidence. *)
Lemma insert_backed n seen t i s k :
  tracked n seen t -> acked seen i k -> noted seen k s ->
  forall j s', <[i := s]> (results t) !! j = Some s' -> s' <> ConfirmationStatus.Pending ->
    exists k', acked seen j k' /\ noted seen k' s'.
Proof.
  intros Ht Ha Hn j s' Hj Hp. destruct (decide (i = j)) as [<-|Hij].
  - apply list_lookup_insert_Some in Hj as [(_ & <- & _)|[? _]]; [by exists k|done].
  - rewrite list_lookup_insert_ne in Hj by done. by apply (t_results _ _ _ Ht).
Qed.

Lemma acknowledge_tracked n seen t id k t' :
  tracked n seen t -> acked seen (Z.to_nat id) k -> acknowledge n t id k = Ok t' -> tracked n seen t'.
Proof.
  intros Ht Ha H. unfold acknowledge in H. apply bind_Ok in H as (_ & _ & H). destruct Ht as [Hl Hr Hs He] eqn:E.
  destruct (early t !! k) as [s|] eqn:Hk; injection H as <-; split; cbn.
  - by rewrite length_insert.
  - apply (insert_backed n seen t _ s k); [by subst|done|by apply He].
  - done.
  - intros k' s' H. apply lookup_delete_Some in H as [_ H]. by apply He.
  - done.
  - done.
  - intros k' i H. apply lookup_insert_Some in H as [[<- <-]|[_ H]]; [done|by apply Hs].
  - done.
Qed.

Lemma notify_tracked n seen t v t' :
  tracked n seen t -> Text (inr v) ∈ seen -> ack_of v = None -> json_get v "error" = None -> is_notification v = true ->
  notify error_text n t v = Ok t' -> tracked n seen t'.
Proof.
  intros Ht Hv Ha Herr Hn H. unfold notify in H. apply bind_Ok in H as (k & Hk & H). apply bind_Ok in H as (e & He' & H).
  apply ok_or_Ok in Hk, He'.
  assert (Hnote : noted seen k (status_of error_text e)).
  { exists v. split; [done|]. unfold note_of. rewrite Herr, Ha, Hn. by rewrite Hk; cbn; rewrite He'. }
  pose proof Ht as [Hl Hr Hs He].
  destruct (subscriptions t !! k) as [i|] eqn:Hi; [injection H as <-|apply bind_Ok in H as (_ & _ & [= <-])]; split; cbn.
  - by rewrite length_insert.
  - apply (insert_backed n seen t i _ k); [done|by apply Hs|done].
  - intros k' j H. apply lookup_delete_Some in H as [_ H]. by apply Hs.
  - done.
  - done.
  - done.
  - done.
  - intros k' s H. apply lookup_insert_Some in H as [[<- <-]|[_ H]]; [done|by apply He].
Qed.

Definition after (st : Step) : Tracking := match st with Continue t | Leave _ t => t end.

Lemma on_event_tracked n seen t e :
  tracked n seen t -> tracked n (seen ++ [e]) (after (on_event error_text n t e)).
Proof.
  intros Ht. apply (tracked_app _ _ [e]) in Ht. set (seen' := seen ++ [e]) in *.
  assert (Hin : e ∈ seen') by set_solver. clearbody seen'.
  destruct e as [[text|v]|[text|]| | |text|]; try exact Ht. cbn. unfold handle.
  destruct (json_get v "error") as [?|] eqn:Herr; [exact Ht|].
  assert (Hh : forall t', match as_u64 (json_index v "id"), as_u64 (json_index v "result") with
               | Some id, Some subscription => acknowledge n t id subscription
               | _, _ => if is_notification v then notify error_text n t v else Ok t
               end = Ok t' -> tracked n seen' t').
  { intros t' H. assert (Hno : ack_of v = None -> (if is_notification v then notify error_text n t v else Ok t) = Ok t' ->
      tracked n seen' t').
    { intros Ha Hn. destruct (is_notification v) eqn:En; [by eapply notify_tracked|by injection Hn as <-]. }
    unfold ack_of in Hno. rewrite Herr in Hno.
    destruct (as_u64 (json_index v "id")) as [id|] eqn:Hid; [|by apply Hno].
    destruct (as_u64 (json_index v "result")) as [k|] eqn:Hk; [|by apply Hno].
    eapply acknowledge_tracked; [done| |exact H]. exists v. split; [done|]. unfold ack_of. by rewrite Herr, Hid, Hk. }
  destruct (match as_u64 (json_index v "id"), as_u64 (json_index v "result") with
            | Some id, Some subscription => acknowledge n t id subscription
            | _, _ => if is_notification v then notify error_text n t v else Ok t
            end) as [t'|err|] eqn:E; [|exact Ht..].
  specialize (Hh t' eq_refl). by destruct (all_resolved t').
Qed.

Lemma listen_tracked n events : forall seen t,
  tracked n seen t -> tracked n (seen ++ events) (listen error_text n t events).2.
Proof.
  induction events as [|e events IH]; intros seen t Ht; cbn [listen]; [by rewrite app_nil_r|].
  pose proof (on_event_tracked n seen t e Ht) as H1. rewrite cons_middle, app_assoc.
  destruct (on_event error_text n t e) as [t'|r t']; cbn in H1; [by apply IH|]. cbn. by apply tracked_app.
Qed.
End messages.

(** ** Any order of the messages *)

(** The server acknowledges the [i]th signature, or notifies its subscription. *)
Inductive Said := Ack (i : nat) | Note (i : nat).
#[export] Instance said_eq_dec : EqDecision Said.
Proof. solve_decision. Defined.

Section any_order.
Context (error_text : Json -> string) (n : nat) (sub : nat -> Z) (err : nat -> Json).
Context (Hsub : forall i, (i < n)%nat -> 0 <= sub i < 2 ^ 64) (Hn : Z.of_nat n <= 2 ^ 64).
Context (Hinj : forall i j, (i < n)%nat -> (j < n)%nat -> sub i = sub j -> i = j).

Definition message (e : Said) : SocketEvent :=
  Text (inr match e with
            | Ack i => JObject [("jsonrpc", JString "2.0"); ("result", JInt (sub i)); ("id", JInt (Z.of_nat i))]
            | Note i =>
                JObject [("jsonrpc", JString "2.0"); ("method", JString "signatureNotification");
                         ("params", JObject [("result", JObject [("value", JObject [("err", err i)])]);
                                             ("subscription", JInt (sub i))])]
            end)%string.

Definition final (i : nat) : status := status_of error_text (err i).
Definition everything : list Said := map Ack (seq 0 n) ++ map Note (seq 0 n).
Definition result_at (seen : list Said) (i : nat) : status :=
  if bool_decide (Ack i ∈ seen /\ Note i ∈ seen) then final i else ConfirmationStatus.Pending.

(** The state once the messages [seen] were handled. *)
Record handled (seen : list Said) (t : Tracking) : Prop := {
  h_results : results t = map (result_at seen) (seq 0 n);
  h_subscriptions k i : subscriptions t !! k = Some i <-> (i < n)%nat /\ k = sub i /\ Ack i ∈ seen /\ Note i ∉ seen;
  h_early k s : early t !! k = Some s <->
    exists i, (i < n)%nat /\ k = sub i /\ s = final i /\ Note i ∈ seen /\ Ack i ∉ seen;
}.

Lemma final_resolved i : final i <> ConfirmationStatus.Pending.
Proof. unfold final, status_of. by destruct (err i). Qed.

Lemma elem_everything e :
  e ∈ everything <-> match e with Ack i | Note i => (i < n)%nat end.
Proof.
  unfold everything. rewrite elem_of_app, !list_elem_of_fmap. destruct e as [i|i].
  - split; [intros [(j & [= ->] & H)|(j & [=] & _)]; apply elem_of_seq in H; lia|]. intros H. left. exists i.
    split; [done|]. apply elem_of_seq. lia.
  - split; [intros [(j & [=] & _)|(j & [= ->] & H)]; apply elem_of_seq in H; lia|]. intros H. right. exists i.
    split; [done|]. apply elem_of_seq. lia.
Qed.

Lemma everything_nodup : NoDup everything.
Proof.
  apply NoDup_app. split; [apply NoDup_fmap_2; [by intros ?? [=]|apply NoDup_seq]|]. split.
  - intros e H1 H2. apply list_elem_of_fmap in H1 as (i & -> & _). by apply list_elem_of_fmap in H2 as (j & [=] & _).
  - apply NoDup_fmap_2; [by intros ?? [=]|apply NoDup_seq].
Qed.

Lemma as_u64_sub i : (i < n)%nat -> as_u64 (JInt (sub i)) = Some (sub i).
Proof. intros Hi. specialize (Hsub i Hi). cbn. reflect_bool; (done || lia). Qed.

Lemma results_insert seen e i :
  (i < n)%nat -> (e = Ack i /\ Note i ∈ seen) \/ (e = Note i /\ Ack i ∈ seen) ->
  <[i := final i]> (map (result_at seen) (seq 0 n)) = map (result_at (seen ++ [e])) (seq 0 n).
Proof.
  intros Hi He. apply list_eq. intros j. destruct (decide (i = j)) as [<-|Hij].
  - rewrite list_lookup_insert_eq by (by rewrite length_map, length_seq).
    change (map ?f ?l) with (f <$> l). rewrite list_lookup_fmap, lookup_seq_lt by done. cbn. unfold result_at.
    rewrite bool_decide_true; [done|]. set_solver.
  - rewrite list_lookup_insert_ne by done. change (map ?f ?l) with (f <$> l). rewrite !list_lookup_fmap.
    destruct (seq 0 n !! j) as [j'|] eqn:Hj; [|done]. apply lookup_seq in Hj as [-> _]. cbn. f_equal. unfold result_at.
    apply (f_equal (fun b : bool => if b then _ else _)). apply bool_decide_ext. set_solver.
Qed.

Lemma results_same seen e i :
  (e = Ack i /\ Note i ∉ seen) \/ (e = Note i /\ Ack i ∉ seen) ->
  map (result_at seen) (seq 0 n) = map (result_at (seen ++ [e])) (seq 0 n).
Proof.
  intros He. apply map_ext. intros j. unfold result_at.
  apply (f_equal (fun b : bool => if b then _ else _)). apply bool_decide_ext. set_solver.
Qed.

Lemma size_list_to_set_le (l : list Z) : (size (list_to_set (C := gset Z) l) <= length l)%nat.
Proof.
  induction l as [|x l IH]; [by rewrite list_to_set_nil, size_empty|].
  rewrite list_to_set_cons, size_union_alt, size_singleton. cbn [length].
  assert (list_to_set (C := gset Z) l ∖ {[x]} ⊆ list_to_set l) as H%subseteq_size by set_solver. lia.
Qed.

Lemma early_room seen t i :
  handled seen t -> (i < n)%nat -> Note i ∉ seen -> (size (early t) < n)%nat.
Proof.
  intros Ht Hi Hno. rewrite <- (size_dom (early t)) by apply _.
  assert (Hd : dom (early t) ⊆ list_to_set (C := gset Z) (map sub (List.filter (fun j => negb (j =? i)%nat) (seq 0 n)))).
  { intros k Hk. apply elem_of_dom in Hk as [s Hs]. apply (h_early _ _ Ht) in Hs as (j & Hj & -> & _ & Hnj & _).
    apply elem_of_list_to_set, list_elem_of_fmap. exists j. split; [done|]. apply list_elem_of_In, filter_In. split.
    - apply in_seq. lia.
    - apply negb_true_iff, Nat.eqb_neq. by intros ->. }
  apply subseteq_size in Hd. eapply Nat.le_lt_trans; [exact Hd|].
  eapply Nat.le_lt_trans; [apply size_list_to_set_le|]. rewrite length_map.
  assert (Hlen : (length (List.filter (fun j => negb (j =? i)%nat) (seq 0 n)) < length (seq 0 n))%nat).
  { rewrite <- (List.filter_length (fun j => (j =? i)%nat) (seq 0 n)).
    assert (In i (List.filter (fun j => (j =? i)%nat) (seq 0 n))) as Hin
      by (apply filter_In; split; [apply in_seq; lia|apply Nat.eqb_refl]).
    destruct (List.filter (fun j => (j =? i)%nat) (seq 0 n)); [done|]. cbn. lia. }
  by rewrite length_seq in Hlen.
Qed.

Lemma ack_handled seen t i :
  handled seen t -> (i < n)%nat -> Ack i ∉ seen ->
  exists t', acknowledge n t (Z.of_nat i) (sub i) = Ok t' /\ handled (seen ++ [Ack i]) t'.
Proof.
  intros Ht Hi Hno. unfold acknowledge. rewrite Nat2Z.id. destruct (Nat.leb_spec n i); [lia|]. cbn [reject_if mbind res_bind].
  destruct (early t !! sub i) as [s|] eqn:He.
  - apply (h_early _ _ Ht) in He as (j & Hj & Hk & -> & Hnote & Hna). apply Hinj in Hk as <-; [|done..].
    eexists. split; [reflexivity|]. split; cbn.
    + rewrite (h_results _ _ Ht). apply results_insert; [done|by left].
    + intros k j. rewrite (h_subscriptions _ _ Ht). split; [set_solver|]. intros (Hj' & -> & Ha & Hn').
      split; [done|]. split; [done|]. split; [|set_solver]. apply elem_of_app in Ha as [Ha|Ha]; [done|].
      apply list_elem_of_singleton in Ha as [= ->]. set_solver.
    + intros k s. rewrite lookup_delete_Some, (h_early _ _ Ht). split.
      * intros [Hne (j & Hj' & -> & -> & Hn' & Ha)]. exists j. repeat split; [done|set_solver|]. intros Hin.
        apply elem_of_app in Hin as [Hin|Hin]; [done|]. by apply list_elem_of_singleton in Hin as [= ->].
      * intros (j & Hj' & -> & -> & Hn' & Ha). split.
        -- intros Heq. apply Hinj in Heq as <-; [|done..]. apply Ha. set_solver.
        -- exists j. repeat split; [done| |set_solver]. apply elem_of_app in Hn' as [?|Hn']; [done|].
           by apply list_elem_of_singleton in Hn' as [=].
  - assert (Hnn : Note i ∉ seen).
    { intros Hin. assert (early t !! sub i = Some (final i)) as Hx; [|by rewrite Hx in He].
      apply (h_early _ _ Ht). by exists i. }
    eexists. split; [reflexivity|]. split; cbn.
    + rewrite (h_results _ _ Ht). apply (results_same _ _ i). by left.
    + intros k j. rewrite lookup_insert_Some, (h_subscriptions _ _ Ht). split.
      * intros [[<- <-]|(Hne & Hj' & -> & Ha & Hn')]; (split; [done|]; split; [done|]; set_solver).
      * intros (Hj' & -> & Ha & Hn'). destruct (decide (i = j)) as [<-|Hij]; [by left|right].
        split; [intros Heq; by apply Hij, Hinj|]. split; [done|]. split; [done|]. set_solver.
    + intros k s. rewrite (h_early _ _ Ht). split; intros (j & Hj' & -> & -> & Hn' & Ha); exists j; repeat split; try done.
      * set_solver.
      * intros Hin. apply elem_of_app in Hin as [?|Hin]; [done|]. apply list_elem_of_singleton in Hin as [= ->]. done.
      * apply elem_of_app in Hn' as [?|Hn']; [done|]. by apply list_elem_of_singleton in Hn' as [=].
      * set_solver.
Qed.

(** The new message is the [Ack] or the [Note] that [seen] lacks. *)
Lemma elem_snoc (e x : Said) seen : e ∈ seen ++ [x] <-> e ∈ seen \/ e = x.
Proof. rewrite elem_of_app, list_elem_of_singleton. done. Qed.

Lemma note_handled seen t i :
  handled seen t -> (i < n)%nat -> Note i ∉ seen ->
  exists t', match subscriptions t !! sub i with
             | Some index => Ok {| results := <[index := final i]> (results t);
                                   subscriptions := delete (sub i) (subscriptions t); early := early t |}
             | None => _ ← reject_if (n <=? size (early t))%nat ChainError.InvalidAccountData;
                       Ok {| results := results t; subscriptions := subscriptions t;
                             early := <[sub i := final i]> (early t) |}
             end = Ok t' /\ handled (seen ++ [Note i]) t'.
Proof.
  intros Ht Hi Hno. destruct (subscriptions t !! sub i) as [j|] eqn:Hs.
  - apply (h_subscriptions _ _ Ht) in Hs as (Hj & Hk & Ha & _). apply Hinj in Hk as <-; [|done..].
    eexists. split; [reflexivity|]. split; cbn.
    + rewrite (h_results _ _ Ht). apply results_insert; [done|by right].
    + intros k j. rewrite lookup_delete_Some, (h_subscriptions _ _ Ht). setoid_rewrite elem_snoc. split.
      * intros [Hne (Hj' & -> & Ha' & Hn')]. repeat split; [done|by left|]. intros [?|[= ->]]; done.
      * intros (Hj' & -> & Ha' & Hn'). split.
        -- intros Heq. apply Hinj in Heq as <-; [|done..]. apply Hn'. by right.
        -- repeat split; [done| |]. { destruct Ha' as [?|[=]]; done. } intros ?. apply Hn'. by left.
    + intros k s. rewrite (h_early _ _ Ht). setoid_rewrite elem_snoc.
      split; intros (j & Hj' & -> & -> & Hn' & Ha'); exists j; repeat split; try done.
      * by left.
      * intros [?|[=]]; done.
      * destruct Hn' as [?|[= ->]]; [done|]. exfalso. apply Ha'. by left.
      * intros ?. apply Ha'. by left.
  - assert (Hna : Ack i ∉ seen).
    { intros Hin. assert (subscriptions t !! sub i = Some i) as Hx; [|by rewrite Hx in Hs].
      by apply (h_subscriptions _ _ Ht). }
    pose proof (early_room seen t i Ht Hi Hno) as Hroom. destruct (Nat.leb_spec n (size (early t))); [lia|].
    eexists. split; [reflexivity|]. split; cbn.
    + rewrite (h_results _ _ Ht). apply (results_same _ _ i). by right.
    + intros k j. rewrite (h_subscriptions _ _ Ht). setoid_rewrite elem_snoc.
      split; intros (Hj' & -> & Ha' & Hn'); repeat split; try done.
      * by left.
      * intros [?|[= ->]]; done.
      * destruct Ha' as [?|[=]]; done.
      * intros ?. apply Hn'. by left.
    + intros k s. rewrite lookup_insert_Some, (h_early _ _ Ht). setoid_rewrite elem_snoc. split.
      * intros [[<- <-]|(Hne & j & Hj' & -> & -> & Hn' & Ha')]; [exists i|exists j]; repeat split; try done;
          [by right|intros [?|[=]]; done|by left|intros [?|[=]]; done].
      * intros (j & Hj' & -> & -> & Hn' & Ha'). destruct (decide (i = j)) as [<-|Hij]; [by left|right].
        split; [intros Heq; by apply Hij, Hinj|]. exists j. repeat split; try done.
        -- destruct Hn' as [?|[= ->]]; done.
        -- intros ?. apply Ha'. by left.
Qed.

Lemma message_handled seen t e :
  handled seen t -> e ∈ everything -> e ∉ seen ->
  exists t', handled (seen ++ [e]) t' /\
    on_event error_text n t (message e) = if all_resolved t' then Leave (Ok tt) t' else Continue t'.
Proof.
  intros Ht He Hno. apply elem_everything in He. destruct e as [i|i].
  - destruct (ack_handled seen t i Ht He Hno) as (t' & Ht' & Hh). exists t'. split; [done|].
    assert (Hid : as_u64 (JInt (Z.of_nat i)) = Some (Z.of_nat i)) by (cbn; reflect_bool; (done || lia)).
    unfold message, on_event, handle. cbn [json_get field String.eqb Ascii.eqb Bool.eqb json_index default].
    rewrite Hid, (as_u64_sub i He), Ht'. done.
  - destruct (note_handled seen t i Ht He Hno) as (t' & Ht' & Hh). exists t'. split; [done|].
    unfold message, on_event, handle, notify, json_index.
    cbn [json_get field String.eqb Ascii.eqb Bool.eqb default as_u64 is_notification json_index].
    rewrite bool_decide_true by done. fold (as_u64 (JInt (sub i))). rewrite (as_u64_sub i He).
    cbn [ok_or mbind res_bind]. fold (final i). rewrite Ht'. done.
Qed.

(** All are resolved exactly when everything was seen. *)
Lemma all_resolved_handled seen t :
  handled seen t -> seen ⊆ everything -> (all_resolved t = true <-> forall e, e ∈ everything -> e ∈ seen).
Proof.
  intros Ht Hseen. unfold all_resolved. rewrite (h_results _ _ Ht), forallb_forall. split.
  - intros H e He. apply elem_everything in He as Hi.
    set (i := match e with Ack i | Note i => i end). assert (Hin : (i < n)%nat) by (by destruct e).
    destruct (decide (Ack i ∈ seen /\ Note i ∈ seen)) as [Hd|Hd]; [subst i; destruct e; tauto|]. exfalso.
    assert (Hr : result_at seen i = ConfirmationStatus.Pending) by (unfold result_at; by rewrite bool_decide_false).
    specialize (H (result_at seen i) (in_map _ _ _ (proj2 (in_seq n 0 i) ltac:(lia)))). by rewrite Hr in H.
  - intros H s Hs. apply in_map_iff in Hs as (i & <- & Hi). apply in_seq in Hi. unfold result_at.
    rewrite bool_decide_true.
    + unfold pending. rewrite bool_decide_false; [done|apply final_resolved].
    + split; apply H, elem_everything; lia.
Qed.

Lemma listen_any_order rest : forall seen t,
  handled seen t -> seen ++ rest ≡ₚ everything -> rest <> [] ->
  exists t', listen error_text n t (map message rest) = (Some (Ok tt), t') /\ results t' = map final (seq 0 n).
Proof.
  induction rest as [|e rest IH]; intros seen t Ht Hperm Hne; [done|].
  assert (Hnd : NoDup (seen ++ e :: rest)) by (rewrite Hperm; apply everything_nodup).
  assert (He : e ∈ everything) by (rewrite <- Hperm; set_solver).
  assert (Hno : e ∉ seen) by (apply NoDup_app in Hnd as (_ & Hd & _); intros Hin; apply (Hd e Hin); set_solver).
  destruct (message_handled seen t e Ht He Hno) as (t' & Ht' & Hev). cbn [map listen]. rewrite Hev.
  assert (Hsub' : seen ++ [e] ⊆ everything).
  { intros x Hx. rewrite <- Hperm. apply elem_snoc in Hx. set_solver. }
  pose proof (all_resolved_handled _ _ Ht' Hsub') as Hall.
  destruct rest as [|e' rest].
  - assert (all_resolved t' = true) as ->.
    { apply Hall. intros x Hx. rewrite <- Hperm in Hx. done. }
    exists t'. split; [done|]. rewrite (h_results _ _ Ht'). apply map_ext_in. intros i Hi. apply in_seq in Hi.
    unfold result_at. rewrite bool_decide_true; [done|]. rewrite Hperm. split; apply elem_everything; lia.
  - assert (all_resolved t' = false) as ->.
    { apply not_true_iff_false. rewrite Hall. intros Hin.
      assert (He' : e' ∈ seen ++ [e]) by (apply Hin; rewrite <- Hperm; set_solver).
      rewrite cons_middle, app_assoc in Hnd. apply NoDup_app in Hnd as (_ & Hd & _). apply (Hd e' He'). set_solver. }
    apply (IH (seen ++ [e])); [done| |done]. by rewrite <- app_assoc.
Qed.
End any_order.

(** ** What is confirmed was confirmed *)

Lemma chunks_fuel_concat {A} n (l : list A) : forall fuel,
  (0 < n)%nat -> (length l <= fuel)%nat -> concat (chunks_fuel fuel n l) = l.
Proof.
  intros fuel Hn. revert l. induction fuel as [|fuel IH]; intros l Hl; [destruct l; [done|cbn in Hl; lia]|].
  destruct l as [|x l]; [done|]. cbn [chunks_fuel]. cbn [concat].
  rewrite IH; [apply take_drop|]. rewrite length_drop. cbn in *. lia.
Qed.
Lemma chunks_concat {A} n (l : list A) : (0 < n)%nat -> concat (chunks n l) = l.
Proof. intros Hn. by apply chunks_fuel_concat. Qed.

Lemma rpc_map_Ok {A B} (f : A -> rpc B) l : forall s ys s',
  rpc_map f l s = (Ok ys, s') -> Forall2 (fun x y => exists s1 s2, f x s1 = (Ok y, s2)) l ys.
Proof.
  induction l as [|x l IH]; intros s ys s' H; cbn in H; inv_rpc H.
  - subst. constructor.
  - subst. constructor; eauto.
Qed.

(** A list read in pieces of equal length, piece by piece. *)
Lemma concat_lookup {A B} (R : list A -> list B -> Prop) (xss : list (list A)) yss i y :
  Forall2 (fun xs ys => length xs = length ys /\ R xs ys) xss yss -> concat yss !! i = Some y ->
  exists xs ys j x, R xs ys /\ xs !! j = Some x /\ ys !! j = Some y /\ concat xss !! i = Some x.
Proof.
  intros H. revert i. induction H as [|xs ys xss yss [Hl HR] _ IH]; intros i Hi; [done|]. cbn in *.
  apply lookup_app_Some in Hi as [Hi|[Hge Hi]].
  - destruct (lookup_lt_is_Some_2 xs i) as [x Hx]; [rewrite Hl; by eapply lookup_lt_Some|].
    exists xs, ys, i, x. rewrite lookup_app_l by (by eapply lookup_lt_Some). done.
  - destruct (IH _ Hi) as (xs' & ys' & j & x & HR' & Hx & Hy & Hc). exists xs', ys', j, x.
    rewrite lookup_app_r by lia. by rewrite Hl.
Qed.

Section truthful.
Context (error_text : Json -> string) `{N : Cluster}.

(** A status read said [s] of [signature]. *)
Definition reported_by_rpc (signature : bytes) (s : status) : Prop :=
  exists n chunk statuses j x, get_signature_statuses_with_history n chunk = inr statuses /\
    chunk !! j = Some signature /\ statuses !! j = Some x /\ reported x = s.

Lemma statuses_reported signatures st rs st' :
  signature_statuses signatures st = (Ok rs, st') ->
  length rs = length signatures /\
  forall i s, rs !! i = Some s -> exists signature, signatures !! i = Some signature /\ reported_by_rpc signature s.
Proof.
  intros H. unfold signature_statuses in H. inv_rpc H. subst. apply rpc_map_Ok in Hr.
  set (R := fun (chunk : list bytes) (ss : list status) => exists n statuses,
    get_signature_statuses_with_history n chunk = inr statuses /\ ss = map reported statuses).
  assert (HR : Forall2 (fun chunk ss => length chunk = length ss /\ R chunk ss) (chunks 256 signatures) r).
  { eapply Forall2_impl; [exact Hr|]. intros chunk ss (s1 & s2 & H). inv_rpc H. subst. cbn in *.
    match goal with H : reject_if _ _ = Ok _ |- _ => apply reject_if_Ok, negb_false_iff, Nat.eqb_eq in H as Hlen end.
    rewrite length_map. split; [done|]. by eexists _, _. }
  split.
  - rewrite <- (chunks_concat 256 signatures) by lia. clear -HR. induction HR as [|c ss cs sss [Hl _] _ IH]; [done|].
    cbn. by rewrite !length_app, Hl, IH.
  - intros i s Hi. destruct (concat_lookup R _ _ i s HR Hi) as (chunk & ss & j & sig & (n & statuses & Hg & ->) & Hx & Hy & Hc).
    rewrite chunks_concat in Hc by lia. exists sig. split; [done|]. exists n, chunk, statuses, j.
    change (map ?f ?l) with (f <$> l) in Hy. rewrite list_lookup_fmap in Hy.
    destruct (statuses !! j) as [x|] eqn:Hj; [|done]. injection Hy as <-. by exists x.
Qed.

Lemma unresolved_lookup (rs : list status) i : i ∈ unresolved rs <-> rs !! i = Some ConfirmationStatus.Pending.
Proof.
  unfold unresolved. rewrite list_elem_of_fmap. split.
  - intros ([i' s] & -> & H). apply list_elem_of_In, filter_In in H as [Hin Hp]. apply list_elem_of_In in Hin.
    apply bool_decide_eq_true in Hp as ->. apply list_elem_of_lookup in Hin as [j Hj].
    apply lookup_zip_with_Some in Hj as (x & y & [= -> ->] & Hx & Hy). apply lookup_seq in Hx as [-> _]. done.
  - intros Hi. exists (i, ConfirmationStatus.Pending). split; [done|]. apply list_elem_of_In, filter_In. split; [|done].
    apply list_elem_of_In, list_elem_of_lookup. exists i. apply lookup_zip_with_Some. eexists _, _. split; [done|].
    split; [|done]. apply lookup_seq. split; [done|]. by eapply lookup_lt_Some.
Qed.

Lemma write_back_lookup updates : forall rs i s,
  write_back rs updates !! i = Some s -> rs !! i = Some s \/ (i, s) ∈ updates.
Proof.
  induction updates as [|[j u] updates IH]; intros rs i s H; [by left|]. cbn in H. apply IH in H as [H|H].
  - apply list_lookup_insert_Some in H as [(-> & -> & _)|[_ H]]; [right; set_solver|by left].
  - right. set_solver.
Qed.

Lemma write_back_length updates : forall rs, length (write_back rs updates) = length rs.
Proof. induction updates as [|[j u] updates IH]; intros rs; [done|]. cbn. by rewrite IH, length_insert. Qed.

Lemma subscribe_backed n connected sends events :
  let out := (subscribe_signatures error_text n connected sends events (replicate n ConfirmationStatus.Pending)).2 in
  length out = n /\
  forall i s, out !! i = Some s -> s <> ConfirmationStatus.Pending ->
    exists k, acked events i k /\ noted error_text events k s.
Proof.
  set (start := replicate n ConfirmationStatus.Pending).
  assert (Hstart : length start = n /\ forall i s, start !! i = Some s -> s <> ConfirmationStatus.Pending ->
    exists k, acked events i k /\ noted error_text events k s).
  { split; [apply length_replicate|]. intros i s Hi Hp. by apply lookup_replicate in Hi as [-> _]. }
  assert (H0 : tracked error_text n [] {| results := start; subscriptions := ∅; early := ∅ |}).
  { split; [apply length_replicate| |intros ?? H; cbn in H; by rewrite lookup_empty in H..].
    intros i s Hi Hp. cbn in Hi. by apply lookup_replicate in Hi as [-> _]. }
  unfold subscribe_signatures. destruct connected as [text|]; [exact Hstart|].
  pose proof (listen_tracked error_text n events [] _ H0) as [Hl Hr _ _]. cbn [app] in Hr.
  destruct (list_find _ _) as [[? [text|]]|]; [exact Hstart|..];
    destruct (listen error_text n {| results := start; subscriptions := ∅; early := ∅ |} events) as [r t]; by split.
Qed.

Lemma omap_lookup_all {A} (l : list A) (idx : list nat) : forall j i sg,
  Forall (fun i => is_Some (l !! i)) idx -> omap (fun i => l !! i) idx !! j = Some sg -> idx !! j = Some i -> l !! i = Some sg.
Proof.
  induction idx as [|k idx IH]; intros j i sg Hall Hs Hi; [done|]. apply Forall_cons in Hall as [[x Hx] Hall].
  cbn in Hs. rewrite Hx in Hs. destruct j as [|j]; cbn in *; [by simplify_eq|]. by apply (IH j).
Qed.
End truthful.

Lemma handled_start error_text n sub err :
  handled error_text n sub err [] {| results := replicate n ConfirmationStatus.Pending; subscriptions := ∅; early := ∅ |}.
Proof.
  split; cbn [results subscriptions early].
  - apply list_eq. intros i. change (map ?f ?l) with (f <$> l). rewrite list_lookup_fmap.
    destruct (decide (i < n)%nat) as [Hi|Hi].
    + rewrite lookup_replicate_2, lookup_seq_lt by done. cbn. unfold result_at. rewrite bool_decide_false; [done|]. set_solver.
    + rewrite lookup_seq_ge by lia. apply lookup_ge_None. rewrite length_replicate. lia.
  - intros k i. rewrite lookup_empty. set_solver.
  - intros k s. rewrite lookup_empty. set_solver.
Qed.

(** C30: Confirmation never invents an outcome: a signature reported confirmed or failed
    was either notified so on a subscription the server acknowledged for that very
    signature, or read so over RPC for it; each signature has one result, in order.  And
    it misses none: when the server acknowledges and notifies every subscription once,
    the loop ends with every signature's status, whatever the order of the messages. *)
Theorem confirmation_truthful (error_text : Json -> string) `{N : Cluster} :
  (forall signatures connected sends events st rs st',
     confirm_signatures error_text signatures connected sends events st = (Ok rs, st') ->
     length rs = length signatures /\
     forall i s, rs !! i = Some s -> s <> ConfirmationStatus.Pending ->
       (exists k, acked events i k /\ noted error_text events k s) \/
       (exists signature, signatures !! i = Some signature /\ reported_by_rpc signature s)) /\
  (forall n sub err events, (0 < n)%nat -> Z.of_nat n <= 2 ^ 64 ->
     (forall i, (i < n)%nat -> 0 <= sub i < 2 ^ 64) ->
     (forall i j, (i < n)%nat -> (j < n)%nat -> sub i = sub j -> i = j) ->
     events ≡ₚ map Ack (seq 0 n) ++ map Note (seq 0 n) ->
     subscribe_signatures error_text n None [] (map (message sub err) events)
       (replicate n ConfirmationStatus.Pending)
     = (Some (Ok tt), map (fun i => status_of error_text (err i)) (seq 0 n))).
Proof.
  split.
  - intros signatures connected sends events st rs st' H. unfold confirm_signatures in H.
    destruct (subscribe_backed error_text (length signatures) connected sends events) as [Hlen Hback].
    set (out := (subscribe_signatures _ _ _ _ _ _).2) in *. clearbody out.
    assert (Hin : Forall (fun i => is_Some (signatures !! i)) (unresolved out)).
    { apply Forall_forall. intros k Hk. apply unresolved_lookup, lookup_lt_Some in Hk. apply lookup_lt_is_Some. lia. }
    assert (Hr : (statuses ← signature_statuses (omap (fun i => signatures !! i) (unresolved out));
                  mret (write_back out (zip (unresolved out) statuses)) : rpc _) st = (Ok rs, st') \/ signatures = []).
    { destruct signatures; [by right|by left]. }
    destruct Hr as [Hr| ->]; [|inv_rpc H; by subst]. inv_rpc Hr. subst. apply statuses_reported in Hr0 as [Hl Hr].
    split; [by rewrite write_back_length|]. intros i s Hi Hp. apply write_back_lookup in Hi as [Hi|Hi].
    + left. by apply Hback.
    + right. apply list_elem_of_lookup in Hi as [j Hj]. apply lookup_zip_with_Some in Hj as (x & y & [= <- <-] & Hx & Hy).
      destruct (Hr j s Hy) as (signature & Hs & Hrep). exists signature. split; [|done]. by eapply omap_lookup_all.
  - intros n sub err events Hpos Hn Hsub Hinj Hperm.
    destruct (listen_any_order error_text n sub err Hsub Hn Hinj events [] _ (handled_start error_text n sub err))
      as (t' & Hl & Hr); [done| |].
    + intros ->. apply Permutation_nil in Hperm. destruct n; [lia|done].
    + unfold subscribe_signatures. destruct n as [|n']; [lia|]. cbn [take list_find]. by rewrite Hl, Hr.
Qed.

Lemma confirmation_truthful_witness :
  let N := RpcSample.cluster [] 0 0 0 in
  let text := fun _ : Json => "InstructionError"%string in
  subscribe_signatures text 2 None []
    (map (message (fun i => 10 + Z.of_nat i) (fun i => if (i =? 0)%nat then JNull else JBool true))
       [Note 1; Ack 0; Note 0; Ack 1]) (replicate 2 ConfirmationStatus.Pending)
  = (Some (Ok tt), [ConfirmationStatus.Confirmed; ConfirmationStatus.Failed "InstructionError"]) /\
  exists rs, confirm_signatures text [key_of 1; key_of 2] (Some "refused"%string) [] [] RpcSample.start
             = (Ok rs, {| calls := 1; submitted := [] |}) /\ length rs = 2%nat.
Proof.
  intros N text. split.
  - apply (proj2 (confirmation_truthful text) 2%nat (fun i => 10 + Z.of_nat i)
             (fun i => if (i =? 0)%nat then JNull else JBool true)); try lia.
    change (map Ack (seq 0 2) ++ map Note (seq 0 2)) with [Ack 0; Ack 1; Note 0; Note 1].
    apply NoDup_Permutation; [apply (bool_decide_unpack _); vm_compute; done..|].
    intros x. rewrite !list_elem_of_In. cbn. tauto.
  - eexists. split; [reflexivity|].
    apply (proj1 (confirmation_truthful text) [key_of 1; key_of 2] (Some "refused"%string) [] [] RpcSample.start _
             {| calls := 1; submitted := [] |}). reflexivity.
Defined.
