(* ===== verification/Funding.v ===== *)
(** * Funding positions and submitting transactions ([src/chain/wsol.rs], [rpc.rs])

    A maker funds a position it holds; when the settlement asset is wrapped SOL the missing
    amount may be wrapped from the wallet first, within a budget that is checked again when
    the transaction is submitted. *)

From Stdlib Require Import ZArith Lia String.
From stdpp Require Import base list sets strings.
From S2P Require Import Prelude Terms Signing Quote Chain Account Positions Served Settle Rpc Confirm.

Open Scope Z_scope.

(* chain/wsol.rs:13-14 DEFAULT_SOL_RESERVE_LAMPORTS *)
Definition DEFAULT_SOL_RESERVE_LAMPORTS : Z := 1200000.
(* chain/wsol.rs:15-15 NATIVE_MINT *)
Definition NATIVE_MINT : key :=
  [6; 155; 136; 87; 254; 171; 129; 132; 251; 104; 127; 99; 70; 24; 192; 53; 218; 196; 57; 220; 26; 235; 59; 85; 152; 160;
   240; 0; 0; 0; 0; 1].

Module NativeSolFunding.
(* chain/wsol.rs:33-40 NativeSolFunding *)
Inductive t := Disabled | WrapIfNeeded (reserve_lamports : Z).
(* chain/wsol.rs:43-48 NativeSolFunding::with_default_reserve *)
Definition with_default_reserve : t := WrapIfNeeded DEFAULT_SOL_RESERVE_LAMPORTS.
End NativeSolFunding.

Module WrapDecision.
(* chain/wsol.rs:51-62 WrapDecision *)
Inductive t := NotNeeded | Wrap (wrap_lamports : Z) | InsufficientNativeSol (needed_lamports available_lamports : Z).
End WrapDecision.

(* chain/wsol.rs:73-83 WsolWrapRequest *)
Record WsolWrapRequest := {
  wr_owner : key; wr_funding_ata : key; wr_token_program : key; wr_expected_settlement : Z; wr_reserve_lamports : Z;
  wr_allow_account_creation : bool; wr_fee_payer : key; wr_additional_ata_rent_lamports : Z }.

(* chain/wsol.rs:85-92 NativeSolBudget *)
Record NativeSolBudget := { nb_owner : key; nb_wrap_lamports : Z; nb_ata_rent_lamports : Z; nb_reserve_lamports : Z }.

Module WrapPlan.
(* chain/wsol.rs:64-71 WrapPlan *)
Inductive t := NotNeeded | Wrap (instructions : list Instruction) (budget : NativeSolBudget).
End WrapPlan.

(* chain/wsol.rs:96-102 NativeSolBudget::required_lamports *)
Definition required_lamports (self : NativeSolBudget) (fee_lamports : Z) : xres Z :=
  ok_or (value ← checked_add 64 (nb_wrap_lamports self) (nb_ata_rent_lamports self);
         value ← checked_add 64 value fee_lamports;
         checked_add 64 value (nb_reserve_lamports self)) ChainError.NativeSolBudgetOverflow.

(* chain/wsol.rs:104-117 NativeSolBudget::validate *)
Definition validate (self : NativeSolBudget) (available_lamports fee_lamports : Z) : xres unit :=
  needed_lamports ← required_lamports self fee_lamports;
  reject_if (available_lamports <? needed_lamports)
    (ChainError.InsufficientNativeSol needed_lamports available_lamports).

(* chain/wsol.rs:120-123 is_native_mint *)
Definition is_native_mint (mint : key) : bool := bool_decide (mint = NATIVE_MINT).

(* chain/wsol.rs:126-147 decide_wrap *)
Definition decide_wrap (existing_wsol expected_settlement sol_balance reserve_lamports ata_rent_lamports : Z)
  : WrapDecision.t :=
  if expected_settlement <=? existing_wsol then WrapDecision.NotNeeded
  else
    let wrap_lamports := expected_settlement - existing_wsol in
    let needed_lamports := saturating_add 64 (saturating_add 64 wrap_lamports ata_rent_lamports) reserve_lamports in
    if sol_balance <? needed_lamports then WrapDecision.InsufficientNativeSol needed_lamports sol_balance
    else WrapDecision.Wrap wrap_lamports.

(* chain/wsol.rs:222-237 parse_wsol_balance *)
Definition parse_wsol_balance (account : Account) (expected_owner token_program : key) : xres Z :=
  _ ← reject_if (negb (bool_decide (owner account = token_program)) || (length (account_data account) <? 72)%nat)
        ChainError.InvalidAccountData;
  mint ← read_pubkey (account_data account) 0;
  _ ← reject_if (negb (bool_decide (mint = NATIVE_MINT))) ChainError.InvalidAccountData;
  held_by ← read_pubkey (account_data account) 32;
  _ ← reject_if (negb (bool_decide (held_by = expected_owner))) ChainError.InvalidAccountData;
  read_u64 (account_data account) 64.

(* chain/wsol.rs:275-284 build_system_transfer_ix *)
Definition build_system_transfer_ix (from to : key) (lamports : Z) : Instruction :=
  {| program_id := SYSTEM_PROGRAM_ID; accounts := [meta_new from true; meta_new to false];
     data := to_le_bytes 4 2 ++ to_le_bytes 8 lamports |}.
(* chain/wsol.rs:286-292 build_sync_native_ix *)
Definition build_sync_native_ix (token_program native_account : key) : Instruction :=
  {| program_id := token_program; accounts := [meta_new native_account false]; data := [17] |}.

(* chain/rpc.rs:90-96 FundPositionArgs *)
Record FundPositionArgs := {
  fa_holder : key; fa_position_pda : key; fa_create_atas : bool; fa_native_sol : NativeSolFunding.t }.

(* chain/rpc.rs:98-101 PreparedFundPosition *)
Record PreparedFundPosition := { pf_instructions : list Instruction; pf_native_budget : option NativeSolBudget }.

(** [ComputeBudgetInstruction::set_compute_unit_limit]. *)
Definition set_compute_unit_limit (limit : Z) : Instruction :=
  {| program_id := COMPUTE_BUDGET_PROGRAM_ID; accounts := []; data := 2 :: to_le_bytes 4 limit |}.

Section funding.
Context `{P : Pda} `{N : Cluster}.
Context (program : key).
Abbreviation ata := derive_associated_token_address (only parsing).

(* chain/wsol.rs:259-273 build_wrap_sol_ixs *)
Definition build_wrap_sol_ixs (owner fee_payer : key) (lamports : Z) : list Instruction :=
  let account := ata owner NATIVE_MINT TOKEN_PROGRAM_ID in
  [create_associated_token_account_idempotent_ix fee_payer account owner NATIVE_MINT TOKEN_PROGRAM_ID;
   build_system_transfer_ix owner account lamports; build_sync_native_ix TOKEN_PROGRAM_ID account].

(* chain/wsol.rs:215-220 token_account_rent_lamports *)
Definition token_account_rent_lamports : rpc Z := call (fun n => get_minimum_balance_for_rent_exemption n 165%nat).

(* chain/wsol.rs:149-213 plan_wsol_wrap *)
Definition plan_wsol_wrap (account : option Account) (request : WsolWrapRequest) : rpc WrapPlan.t :=
  '(existing_wsol, ata_rent_lamports) ←
    match account with
    | Some account =>
        existing ← lift (parse_wsol_balance account (wr_owner request) (wr_token_program request)); mret (existing, 0)
    | None =>
        if wr_allow_account_creation request then
          rent ← (if bool_decide (wr_fee_payer request = wr_owner request) then token_account_rent_lamports else mret 0);
          mret (0, rent)
        else lift (Err (ChainError.MissingFundingAccount (wr_funding_ata request)))
    end;
  if wr_expected_settlement request <=? existing_wsol then mret WrapPlan.NotNeeded
  else
    sol_balance ← call (fun n => get_balance n (wr_owner request));
    match decide_wrap existing_wsol (wr_expected_settlement request) sol_balance (wr_reserve_lamports request)
            (saturating_add 64 ata_rent_lamports (wr_additional_ata_rent_lamports request)) with
    | WrapDecision.NotNeeded => mret WrapPlan.NotNeeded
    | WrapDecision.InsufficientNativeSol needed available =>
        lift (Err (ChainError.InsufficientNativeSol needed available))
    | WrapDecision.Wrap wrap_lamports =>
        rent ← lift (ok_or (checked_add 64 ata_rent_lamports (wr_additional_ata_rent_lamports request))
                       ChainError.NativeSolBudgetOverflow);
        mret (WrapPlan.Wrap
          [build_system_transfer_ix (wr_owner request) (wr_funding_ata request) wrap_lamports;
           build_sync_native_ix (wr_token_program request) (wr_funding_ata request)]
          {| nb_owner := wr_owner request; nb_wrap_lamports := wrap_lamports; nb_ata_rent_lamports := rent;
             nb_reserve_lamports := wr_reserve_lamports request |})
    end.

(* chain/rpc.rs:274-282 ChainClient::prepare_fund_position (settlement) *)
Definition settlement_asset (pos : PositionInfo) (market : MarketInfo) : xres (key * key) :=
  match OptionTerms.position_type (pi_terms pos) with
  | PositionType.CoveredCall => Ok (mi_quote_mint market, mi_quote_token_program_id market)
  | PositionType.CashSecuredPut => Ok (mi_underlying_mint market, mi_underlying_token_program_id market)
  | _ => Err ChainError.InvalidSettlementState
  end.

(** The funding account, and the rent of the position's own account when the holder pays
    for both. *)
(* chain/rpc.rs:312-338 ChainClient::prepare_fund_position (accounts) *)
Definition funding_accounts (args : FundPositionArgs) (fee_payer position_funding_ata funding_ata : key)
  : rpc (option Account * Z) :=
  if fa_create_atas args && bool_decide (fee_payer = fa_holder args) then
    values ← call (fun n => get_multiple_accounts_with_commitment n [position_funding_ata; funding_ata]);
    '(position_account, funding_account) ← lift
      match values with [p; f] => Ok (p, f) | _ => Err ChainError.InvalidAccountData end;
    rent ← match position_account with None => token_account_rent_lamports | Some _ => mret 0 end;
    mret (funding_account, rent)
  else
    account ← call (fun n => get_account_with_commitment n funding_ata);
    mret (account, 0).

(** The last instruction of the list, and those before it. *)
Definition pop (ixs : list Instruction) : option (list Instruction * Instruction) :=
  ix ← last ixs; Some (take (length ixs - 1) ixs, ix).

(* chain/rpc.rs:245-372 ChainClient::prepare_fund_position *)
Definition prepare_fund_position (args : FundPositionArgs) (fee_payer : key) : rpc PreparedFundPosition :=
  position_data ← fetch_account (fa_position_pda args);
  pos ← lift (position_from_account position_data program);
  market_data ← fetch_account (pi_market_pda pos);
  market ← lift (market_from_account market_data program);
  let snapshot := {| ps_address := fa_position_pda args; ps_market_address := pi_market_pda pos; ps_position := pos;
                     ps_market := market |} in
  fund_ixs ← lift (fund_instructions snapshot program (fa_holder args) fee_payer (fa_create_atas args));
  let plain := {| pf_instructions := fund_ixs; pf_native_budget := None |} in
  match fa_native_sol args with
  | NativeSolFunding.Disabled => mret plain
  | NativeSolFunding.WrapIfNeeded reserve_lamports =>
      '(settlement_mint, settlement_program) ← lift (settlement_asset pos market);
      if negb (is_native_mint settlement_mint) then mret plain
      else
        expected_settlement ← lift (required_settlement (chain_type pos) (OptionTerms.strike (pi_terms pos))
          (pi_quantity pos) (mi_quote_decimals market) (mi_underlying_decimals market));
        _ ← lift (reject_if (expected_settlement =? 0) ChainError.InvalidAccountData);
        _ ← lift (reject_if (negb (bool_decide (settlement_program = TOKEN_PROGRAM_ID)))
              (ChainError.InvalidNativeTokenProgram settlement_program));
        let funding_ata := ata (fa_holder args) settlement_mint settlement_program in
        let position_funding_ata := ata (fa_position_pda args) settlement_mint settlement_program in
        '(funding_account, additional) ← funding_accounts args fee_payer position_funding_ata funding_ata;
        plan ← plan_wsol_wrap funding_account
          {| wr_owner := fa_holder args; wr_funding_ata := funding_ata; wr_token_program := settlement_program;
             wr_expected_settlement := expected_settlement; wr_reserve_lamports := reserve_lamports;
             wr_allow_account_creation := fa_create_atas args; wr_fee_payer := fee_payer;
             wr_additional_ata_rent_lamports := additional |};
        match plan with
        | WrapPlan.NotNeeded => mret plain
        | WrapPlan.Wrap wrap_ixs budget =>
            '(before, deposit_ix) ← lift (ok_or (pop fund_ixs) ChainError.InvalidAccountData);
            mret {| pf_instructions := before ++ wrap_ixs ++ [deposit_ix]; pf_native_budget := Some budget |}
        end
  end.

(* chain/rpc.rs:234-243 ChainClient::build_fund_position_ixs *)
Definition fetch_fund_position_ixs (args : FundPositionArgs) (fee_payer : key) : rpc (list Instruction) :=
  prepared ← prepare_fund_position args fee_payer; mret (pf_instructions prepared).

(** Handing a signed transaction to the cluster. *)
Definition send (tx : Transaction) : rpc bytes := fun s =>
  call (fun n => send_transaction n tx) {| calls := calls s; submitted := submitted s ++ [tx] |}.

(* chain/rpc.rs:552-560 ChainClient::submit_instructions (native budget) *)
Definition check_budget (native_budget : option NativeSolBudget) (tx : Transaction) : rpc unit :=
  match native_budget with
  | None => mret tt
  | Some budget =>
      fee_lamports ← (if bool_decide (tx_payer tx = nb_owner budget)
                      then call (fun n => get_fee_for_message n tx) else mret 0);
      available_lamports ← call (fun n => get_balance n (nb_owner budget));
      lift (validate budget available_lamports fee_lamports)
  end.

(** Signers are their keys. *)
(* chain/rpc.rs:528-571 ChainClient::submit_instructions *)
Definition submit_instructions (instructions : list Instruction) (fee_payer : key) (extra_signers : list key)
  (compute_unit_limit : option Z) (native_budget : option NativeSolBudget) (blockhash : option bytes)
  : rpc (bytes * bytes) :=
  let instructions := match compute_unit_limit with
                      | Some limit => set_compute_unit_limit limit :: instructions
                      | None => instructions
                      end in
  recent ← match blockhash with Some hash => mret hash | None => call get_latest_blockhash end;
  let signers := fee_payer :: List.filter (fun signer => negb (bool_decide (signer = fee_payer))) extra_signers in
  let tx signers := {| tx_payer := fee_payer; tx_instructions := instructions; tx_blockhash := recent;
                       tx_signers := signers |} in
  _ ← check_budget native_budget (tx []);
  _ ← lift match try_sign (tx signers) with None => Ok tt | Some text => Err (ChainError.Signing text) end;
  signature ← send (tx signers);
  mret (signature, recent).

(** How a submitted transaction is confirmed (Confirm.v). *)
Context (error_text : Json -> string) (socket : option (option string * list (option string) * list SocketEvent)).
Context (failed : bytes -> string -> string) (unresolved_text : bytes -> string).
Abbreviation confirm := (confirm_submitted error_text socket failed unresolved_text) (only parsing).

(* chain/rpc.rs:493-505 ChainClient::send_instructions_with_options *)
Definition send_instructions_with_options (instructions : list Instruction) (fee_payer : key)
  (extra_signers : list key) (compute_unit_limit : option Z) : rpc bytes :=
  '(signature, blockhash) ← submit_instructions instructions fee_payer extra_signers compute_unit_limit None None;
  confirm signature blockhash.

(* chain/rpc.rs:507-526 ChainClient::send_instructions_with_blockhash *)
Definition send_instructions_with_blockhash (instructions : list Instruction) (fee_payer : key)
  (extra_signers : list key) (compute_unit_limit : option Z) (blockhash : bytes) : rpc bytes :=
  '(signature, _) ← submit_instructions instructions fee_payer extra_signers compute_unit_limit None (Some blockhash);
  mret signature.

(* chain/rpc.rs:142-153 ChainClient::maker_deposit *)
Definition maker_deposit (args : MakerDepositIxArgs) (token_program : option key) (maker_owner : key)
  (fee_payer : option key) : rpc bytes :=
  let payer := default maker_owner fee_payer in
  ixs ← fetch_maker_deposit_ixs program args token_program payer;
  send_instructions_with_options ixs payer [maker_owner] None.

(* chain/rpc.rs:155-166 ChainClient::maker_withdraw *)
Definition maker_withdraw (args : MakerWithdrawIxArgs) (token_program : option key) (maker_owner : key)
  (fee_payer : option key) : rpc bytes :=
  let payer := default maker_owner fee_payer in
  ixs ← fetch_maker_withdraw_ixs program args token_program payer;
  send_instructions_with_options ixs payer [maker_owner] None.

(* chain/rpc.rs:168-188 ChainClient::fund_position *)
Definition fund_position (args : FundPositionArgs) (maker_owner : key) (fee_payer : option key) : rpc bytes :=
  let payer := default maker_owner fee_payer in
  prepared ← prepare_fund_position args payer;
  '(signature, blockhash) ← submit_instructions (pf_instructions prepared) payer [maker_owner] None
    (pf_native_budget prepared) None;
  confirm signature blockhash.
End funding.

(** ** What funding submits *)

Section funded.
Context `{P : Pda} `{N : Cluster}.

(** The rent of one token account, as the cluster answered. *)
Definition rent_of_account (rent : Z) : Prop := exists n, get_minimum_balance_for_rent_exemption n 165%nat = inr rent.

(** What the funding account holds, and the rent of creating it, which is the owner's if the
    owner pays for the transaction. *)
Definition held_and_rent (account : option Account) (request : WsolWrapRequest) (existing rent : Z) : Prop :=
  match account with
  | Some a => parse_wsol_balance a (wr_owner request) (wr_token_program request) = Ok existing /\ rent = 0
  | None => existing = 0 /\ wr_allow_account_creation request = true /\
            if bool_decide (wr_fee_payer request = wr_owner request) then rent_of_account rent else rent = 0
  end.

Lemma held_and_rent_Ok account request existing rent s s' :
  match account with
  | Some account =>
      existing ← lift (parse_wsol_balance account (wr_owner request) (wr_token_program request)); mret (existing, 0)
  | None =>
      if wr_allow_account_creation request then
        rent ← (if bool_decide (wr_fee_payer request = wr_owner request) then token_account_rent_lamports else mret 0);
        mret (0, rent)
      else lift (Err (ChainError.MissingFundingAccount (wr_funding_ata request)))
  end s = (Ok (existing, rent), s') -> held_and_rent account request existing rent.
Proof.
  intros H. unfold held_and_rent, token_account_rent_lamports in *.
  destruct account as [a|]; [inv_rpc H; by simplify_eq|]. destruct (wr_allow_account_creation request); [|done].
  apply rpc_bind_Ok in H as (x & s1 & Hx & H). apply mret_Ok in H as [[= -> ->] _]. do 2 (split; [done|]).
  case_bool_decide; [apply call_Ok in Hx as [Hx _]; by eexists|by apply mret_Ok in Hx as [-> _]].
Qed.

(** No wrap: the account holds enough. *)
Lemma plan_none_Ok account request s s' :
  plan_wsol_wrap account request s = (Ok WrapPlan.NotNeeded, s') ->
  exists existing rent, held_and_rent account request existing rent /\ wr_expected_settlement request <= existing.
Proof.
  intros H. unfold plan_wsol_wrap in H. apply rpc_bind_Ok in H as ([existing rent] & s1 & Hacc & H).
  apply held_and_rent_Ok in Hacc. exists existing, rent. split; [done|].
  destruct (Z.leb_spec (wr_expected_settlement request) existing) as [|Hlt]; [done|].
  apply rpc_bind_Ok in H as (balance & s2 & _ & H). unfold decide_wrap in H.
  destruct (Z.leb_spec (wr_expected_settlement request) existing); [lia|].
  destruct (balance <? _); [done|]. by inv_rpc H.
Qed.

Lemma plan_wrap_Ok account request ixs budget s s' :
  plan_wsol_wrap account request s = (Ok (WrapPlan.Wrap ixs budget), s') ->
  exists existing rent, held_and_rent account request existing rent /\ existing < wr_expected_settlement request /\
    ixs = [build_system_transfer_ix (wr_owner request) (wr_funding_ata request) (wr_expected_settlement request - existing);
           build_sync_native_ix (wr_token_program request) (wr_funding_ata request)] /\
    nb_owner budget = wr_owner request /\ nb_wrap_lamports budget = wr_expected_settlement request - existing /\
    nb_reserve_lamports budget = wr_reserve_lamports request /\
    nb_ata_rent_lamports budget = rent + wr_additional_ata_rent_lamports request.
Proof.
  intros H. unfold plan_wsol_wrap in H. apply rpc_bind_Ok in H as ([existing rent] & s1 & Hacc & H).
  apply held_and_rent_Ok in Hacc.
  destruct (Z.leb_spec (wr_expected_settlement request) existing) as [|Hlt]; [by inv_rpc H|].
  apply rpc_bind_Ok in H as (balance & s2 & _ & H). unfold decide_wrap in H.
  destruct (Z.leb_spec (wr_expected_settlement request) existing); [lia|].
  destruct (balance <? _); [done|]. apply rpc_bind_Ok in H as (total & s3 & Ht & H). apply lift_Ok in Ht as [Ht _].
  apply ok_or_Ok in Ht. unfold checked_add in Ht. destruct (_ <? _) in Ht; [|done]. injection Ht as <-.
  apply mret_Ok in H as [[= -> ->] _]. by exists existing, rent.
Qed.

Lemma pop_Some ixs before ix : pop ixs = Some (before, ix) -> ixs = before ++ [ix].
Proof.
  unfold pop. destruct (last ixs) as [x|] eqn:Hl; [|done]. intros [= <- <-]. apply last_Some in Hl as [l ->].
  rewrite length_app, Nat.add_sub. by rewrite take_app_length.
Qed.

(** The plain funding instructions end with the deposit. *)
Lemma fund_instructions_Ok snapshot program owner payer create ixs :
  fund_instructions snapshot program owner payer create = Ok ixs ->
  pi_side (ps_position snapshot) = TakerSide.Sell /\ pi_holder (ps_position snapshot) = owner /\
  pi_status (ps_position snapshot) = OnChainStatus.Open /\ pi_market_pda (ps_position snapshot) = ps_market_address snapshot /\
  exists creates deposit, ixs = creates ++ [deposit] /\ program_id deposit = program /\ data deposit = [9] /\
    Forall (fun ix => program_id ix = ASSOCIATED_TOKEN_PROGRAM_ID) creates.
Proof.
  unfold fund_instructions. intros H. inv_ok H.
  repeat match goal with H : _ || _ = false |- _ => apply orb_false_iff in H as [? _] end.
  repeat match goal with H : negb (bool_decide _) = false |- _ => apply negb_false_iff, bool_decide_eq_true in H end.
  split; [by destruct (pi_side _)|]. do 2 (split; [done|]). split; [done|].
  unfold build_fund_position_ixs in H. apply bind_Ok in H as ([mint prog] & _ & [= <-]).
  eexists _, _. split; [reflexivity|]. do 2 (split; [done|]). destruct create; by repeat constructor.
Qed.

(** A read of the holder's funding account answered [account]; [rent] is the rent of the
    position's own account, which the holder owes if the holder pays to create it. *)
Definition read_as (args : FundPositionArgs) (payer position_ata funding : key) (account : option Account) (rent : Z) : Prop :=
  if fa_create_atas args && bool_decide (payer = fa_holder args) then
    exists n position_account,
      get_multiple_accounts_with_commitment n [position_ata; funding] = inr [position_account; account] /\
      match position_account with None => rent_of_account rent | Some _ => rent = 0 end
  else (exists n, get_account_with_commitment n funding = inr account) /\ rent = 0.

(** What the holder's account of wrapped SOL holds as it was read, what the settlement
    takes, and the rent the holder owes for the two accounts. *)
Definition wsol_read (args : FundPositionArgs) (payer : key) (pos : PositionInfo) (market : MarketInfo)
  (existing settlement rent : Z) : Prop :=
  let funding := derive_associated_token_address (fa_holder args) NATIVE_MINT TOKEN_PROGRAM_ID in
  let position_ata := derive_associated_token_address (fa_position_pda args) NATIVE_MINT TOKEN_PROGRAM_ID in
  exists account own additional,
    read_as args payer position_ata funding account additional /\ rent = own + additional /\
    match account with
    | Some a => parse_wsol_balance a (fa_holder args) TOKEN_PROGRAM_ID = Ok existing /\ own = 0
    | None => existing = 0 /\ fa_create_atas args = true /\
              if bool_decide (payer = fa_holder args) then rent_of_account own else own = 0
    end /\
    snapshot_required_settlement {| ps_address := fa_position_pda args; ps_position := pos;
      ps_market_address := pi_market_pda pos; ps_market := market |} = Ok settlement.

(** The wrap covers exactly what the funding account lacks. *)
Definition covers (args : FundPositionArgs) (payer : key) (pos : PositionInfo) (market : MarketInfo)
  (wrap : list Instruction) (budget : NativeSolBudget) : Prop :=
  let funding := derive_associated_token_address (fa_holder args) NATIVE_MINT TOKEN_PROGRAM_ID in
  exists existing lamports,
    wsol_read args payer pos market existing (existing + lamports) (nb_ata_rent_lamports budget) /\ 0 < lamports /\
    wrap = [build_system_transfer_ix (fa_holder args) funding lamports; build_sync_native_ix TOKEN_PROGRAM_ID funding] /\
    nb_owner budget = fa_holder args /\ nb_wrap_lamports budget = lamports /\
    fa_native_sol args = NativeSolFunding.WrapIfNeeded (nb_reserve_lamports budget).

(** Nothing is wrapped: it is not asked for, the settlement is in another asset, or the
    account holds enough. *)
Definition unneeded (args : FundPositionArgs) (payer : key) (pos : PositionInfo) (market : MarketInfo) : Prop :=
  fa_native_sol args = NativeSolFunding.Disabled \/
  (exists mint prog, settlement_asset pos market = Ok (mint, prog) /\ mint <> NATIVE_MINT) \/
  exists existing settlement rent, wsol_read args payer pos market existing settlement rent /\ settlement <= existing.

(** What a prepared funding holds. *)
Record prepared_ok (program : key) (args : FundPositionArgs) (payer : key) (p : PreparedFundPosition) (pos : PositionInfo)
  (market : MarketInfo) : Prop := {
  po_position : exists n a, get_account n (fa_position_pda args) = inr a /\ position_from_account a program = Ok pos;
  po_market : exists n a, get_account n (pi_market_pda pos) = inr a /\ market_from_account a program = Ok market;
  po_held : pi_side pos = TakerSide.Sell /\ pi_holder pos = fa_holder args /\ pi_status pos = OnChainStatus.Open;
  po_instructions : exists creates wrap deposit,
    pf_instructions p = creates ++ wrap ++ [deposit] /\ program_id deposit = program /\ data deposit = [9] /\
    Forall (fun ix => program_id ix = ASSOCIATED_TOKEN_PROGRAM_ID) creates /\
    match pf_native_budget p with
    | None => wrap = [] /\ unneeded args payer pos market
    | Some budget => covers args payer pos market wrap budget
    end;
}.

Lemma funding_accounts_Ok args payer pata funding account rent s s' :
  funding_accounts args payer pata funding s = (Ok (account, rent), s') -> read_as args payer pata funding account rent.
Proof.
  unfold funding_accounts, read_as, token_account_rent_lamports. destruct (fa_create_atas args && bool_decide (payer = fa_holder args)); intros H.
  - apply rpc_bind_Ok in H as (values & s1 & Hv & H). apply call_Ok in Hv as [Hv ->].
    apply rpc_bind_Ok in H as ([p f] & s2 & Hl & H). apply lift_Ok in Hl as [Hl ->].
    apply rpc_bind_Ok in H as (rent' & s3 & Hrent & H). apply mret_Ok in H as [[= -> ->] _].
    destruct values as [|x [|y [|]]]; try done. injection Hl as <- <-. eexists _, x. split; [done|].
    destruct x; [by apply mret_Ok in Hrent as [-> _]|apply call_Ok in Hrent as [Hrent _]; by eexists].
  - inv_rpc H. simplify_eq. split; [by eexists|done].
Qed.

Lemma prepare_Ok program args payer p s s' :
  prepare_fund_position program args payer s = (Ok p, s') -> exists pos market, prepared_ok program args payer p pos market.
Proof.
  intros H. unfold prepare_fund_position in H.
  apply rpc_bind_Ok in H as (pa & s1 & Hpa & H). apply rpc_bind_Ok in H as (pos & s2 & Hpos & H).
  apply rpc_bind_Ok in H as (ma & s3 & Hma & H). apply rpc_bind_Ok in H as (market & s4 & Hmarket & H).
  apply rpc_bind_Ok in H as (ixs & s5 & Hixs & H).
  apply call_Ok in Hpa as [Hpa ->]. apply call_Ok in Hma as [Hma ->].
  apply lift_Ok in Hpos as [Hpos ->]. apply lift_Ok in Hmarket as [Hmarket ->]. apply lift_Ok in Hixs as [Hixs ->].
  apply fund_instructions_Ok in Hixs as (Hside & Hholder & Hstatus & _ & creates & deposit & -> & Hprog & Hdata & Hcr).
  cbn [ps_position] in *. exists pos, market.
  assert (Hplain : unneeded args payer pos market ->
    prepared_ok program args payer {| pf_instructions := creates ++ [deposit]; pf_native_budget := None |} pos market).
  { intros Hun. split; [eauto|eauto|done|]. by exists creates, [], deposit. }
  destruct (fa_native_sol args) as [|reserve] eqn:Hnative; [inv_rpc H; subst; apply Hplain; by left|].
  apply rpc_bind_Ok in H as ([mint prog] & s6 & Hasset & H). apply lift_Ok in Hasset as [Hasset ->].
  unfold is_native_mint in H.
  case_bool_decide as Hm; cbn [negb] in H; [subst mint|inv_rpc H; subst; apply Hplain; right; left; by eexists _, _].
  apply rpc_bind_Ok in H as (expected & s7 & Hexp & H). apply lift_Ok in Hexp as [Hexp ->].
  apply rpc_bind_Ok in H as (? & s8 & Hnz & H). apply lift_Ok in Hnz as [_ ->].
  apply rpc_bind_Ok in H as (? & s9 & Htp & H). apply lift_Ok in Htp as [Htp ->].
  apply reject_if_Ok, negb_false_iff, bool_decide_eq_true in Htp as ->.
  apply rpc_bind_Ok in H as ([account rent] & s10 & Hacc & H). apply funding_accounts_Ok in Hacc.
  apply rpc_bind_Ok in H as (plan & s11 & Hplan & H).
  assert (Hread : forall existing own, held_and_rent account {| wr_owner := fa_holder args;
      wr_funding_ata := derive_associated_token_address (fa_holder args) NATIVE_MINT TOKEN_PROGRAM_ID;
      wr_token_program := TOKEN_PROGRAM_ID; wr_expected_settlement := expected; wr_reserve_lamports := reserve;
      wr_allow_account_creation := fa_create_atas args; wr_fee_payer := payer; wr_additional_ata_rent_lamports := rent |}
      existing own -> wsol_read args payer pos market existing expected (own + rent)).
  { intros existing own Hh. exists account, own, rent. split; [done|]. split; [done|]. split; [exact Hh|]. exact Hexp. }
  destruct plan as [|wrap budget].
  { apply plan_none_Ok in Hplan as (existing & own & Hh & Hle). inv_rpc H. subst. apply Hplain. right. right.
    eexists existing, expected, _. split; [by eapply Hread|done]. }
  apply plan_wrap_Ok in Hplan as (existing & own & Hh & Hlt & -> & Hown & Hw & Hres & Hrent). apply Hread in Hh. cbn in *.
  apply rpc_bind_Ok in H as ([before dep] & s12 & Hpop & H). apply lift_Ok in Hpop as [Hpop ->].
  apply ok_or_Ok, pop_Some, app_inj_2 in Hpop as [<- [= <-]]; [|done]. inv_rpc H. subst.
  split; [eauto|eauto|done|]. eexists creates, [_; _], deposit. split; [reflexivity|]. do 3 (split; [done|]).
  cbn. exists existing, (expected - existing). rewrite Hrent. replace (existing + (expected - existing)) with expected by lia.
  split_and!; try done. lia.
Qed.

(** The transaction before it is signed. *)
Definition unsigned_tx (tx : Transaction) : Transaction :=
  {| tx_payer := tx_payer tx; tx_instructions := tx_instructions tx; tx_blockhash := tx_blockhash tx; tx_signers := [] |}.

(** The owner's balance, as read, covers the budget and the fee, which is the cluster's for
    this transaction if the owner pays for it. *)
Definition affordable (budget : NativeSolBudget) (tx : Transaction) : Prop :=
  exists n balance fee, get_balance n (nb_owner budget) = inr balance /\
    (if bool_decide (tx_payer tx = nb_owner budget)
     then exists m, get_fee_for_message m (unsigned_tx tx) = inr fee else fee = 0) /\
    nb_wrap_lamports budget + nb_ata_rent_lamports budget + fee + nb_reserve_lamports budget <= balance.

(** A budget that was checked: the owner's balance, as read, leaves the reserve. *)
Lemma check_budget_Ok budget tx s u s' :
  check_budget (Some budget) tx s = (Ok u, s') ->
  tx_signers tx = [] -> submitted s' = submitted s /\ affordable budget tx.
Proof.
  intros H Hun. assert (Htx : unsigned_tx tx = tx) by (destruct tx; cbn in Hun; by subst).
  unfold affordable. rewrite Htx. clear Htx Hun. unfold check_budget in H. apply rpc_bind_Ok in H as (fee & s1 & Hfee & H).
  apply rpc_bind_Ok in H as (balance & s2 & Hb & H). apply call_Ok in Hb as [Hb ->]. apply lift_Ok in H as [H ->].
  cbn. split.
  { case_bool_decide; inv_rpc Hfee; by subst. }
  exists (calls s1), balance, fee. split; [done|]. split.
  { case_bool_decide; inv_rpc Hfee; subst; [by eexists|done]. }
  unfold validate, required_lamports, checked_add in H. inv_ok H.
  repeat match type of Hv with context [?a <? ?b] => destruct (Z.ltb_spec a b); cbn in Hv; [|discriminate Hv] end.
  injection Hv as <-. by apply Z.ltb_ge in H.
Qed.

Lemma check_budget_reads budget tx : reads_only (check_budget budget tx).
Proof. unfold check_budget. repeat reads_only_step. Qed.

(** Submitting: nothing, or one transaction, which is within the budget. *)
Lemma submit_one instructions payer extra limit budget hash s r s' :
  submit_instructions instructions payer extra limit budget hash s = (r, s') ->
  submitted s' = submitted s \/
  exists tx, submitted s' = submitted s ++ [tx] /\ tx_payer tx = payer /\
    tx_instructions tx = match limit with Some l => [set_compute_unit_limit l] | None => [] end ++ instructions /\
    tx_signers tx = payer :: List.filter (fun k => negb (bool_decide (k = payer))) extra /\
    match budget with None => True | Some b => affordable b tx end.
Proof.
  intros H. unfold submit_instructions in H.
  set (ixs := match limit with Some l => set_compute_unit_limit l :: instructions | None => instructions end) in *.
  set (get := match hash with Some h => mret h | None => call get_latest_blockhash end) in *.
  unfold mbind at 1, rpc_bind at 1 in H. assert (Hget : submitted (get s).2 = submitted s) by (subst get; by destruct hash).
  destruct (get s) as [[recent|e|] s1]; cbn in Hget; [|injection H as <- <-; by left..].
  unfold mbind at 1, rpc_bind at 1 in H.
  assert (Hb : submitted (check_budget budget {| tx_payer := payer; tx_instructions := ixs; tx_blockhash := recent;
                 tx_signers := [] |} s1).2 = submitted s1).
  { apply check_budget_reads. }
  destruct (check_budget budget _ s1) as [[u|e|] s2] eqn:Hc; cbn in Hb; [|injection H as <- <-; left; congruence..].
  unfold mbind at 1, rpc_bind at 1, lift in H. destruct (try_sign _) as [text|]; [injection H as <- <-; left; congruence|].
  right. unfold mbind, rpc_bind, send, call, mret, rpc_ret in H. cbn in H.
  eexists. split; [destruct (send_transaction _ _); injection H as <- <-; cbn; by rewrite Hb, Hget|].
  cbn. split; [done|]. split; [subst ixs; by destruct limit|]. split; [done|]. destruct budget as [b|]; [|done].
  apply check_budget_Ok in Hc as (_ & Hok); [exact Hok|done].
Qed.

(** What is reported as submitted was. *)
Lemma submit_sends instructions payer extra limit budget hash s signature s' :
  submit_instructions instructions payer extra limit budget hash s = (Ok signature, s') ->
  length (submitted s') = S (length (submitted s)).
Proof.
  intros H. unfold submit_instructions in H.
  apply rpc_bind_Ok in H as (recent & s1 & Hget & H). apply rpc_bind_Ok in H as (u & s2 & Hb & H).
  apply rpc_bind_Ok in H as (v & s3 & Hl & H). apply lift_Ok in Hl as [_ ->].
  apply rpc_bind_Ok in H as (sg & s4 & Hs & H). apply mret_Ok in H as [_ ->]. unfold send in Hs. apply call_Ok in Hs as [_ ->].
  match type of Hb with check_budget _ ?tx _ = _ => pose proof (check_budget_reads budget tx s1) as Hr end.
  rewrite Hb in Hr. cbn in *. rewrite length_app, Hr. cbn.
  assert (submitted s1 = submitted s) as ->; [|lia].
  destruct hash; inv_rpc Hget; by subst.
Qed.
End funded.

Lemma confirm_reads error_text socket failed unresolved_text `{N : Cluster} signature blockhash :
  reads_only (confirm_submitted error_text socket failed unresolved_text signature blockhash).
Proof.
  unfold confirm_submitted, confirm_signatures, signature_statuses. repeat reads_only_step.
Qed.

(** Sending and confirming: nothing and an error, or one transaction. *)
Lemma send_sends `{N : Cluster} error_text socket failed unresolved_text instructions payer extra limit s r s' :
  send_instructions_with_options error_text socket failed unresolved_text instructions payer extra limit s = (r, s') ->
  submitted s' = submitted s /\ is_ok r = false \/
  exists tx, submitted s' = submitted s ++ [tx] /\ tx_payer tx = payer /\
    tx_instructions tx = match limit with Some l => [set_compute_unit_limit l] | None => [] end ++ instructions /\
    tx_signers tx = payer :: List.filter (fun k => negb (bool_decide (k = payer))) extra.
Proof.
  intros H. unfold send_instructions_with_options in H. unfold mbind at 1, rpc_bind at 1 in H.
  destruct (submit_instructions _ _ _ _ _ _ s) as [r1 s1] eqn:Hs.
  assert (Hc : submitted s' = submitted s1 /\ (is_ok r = true -> is_ok r1 = true)).
  { destruct r1 as [[signature blockhash]|e|]; [|by injection H as <- <-..].
    pose proof (confirm_reads error_text socket failed unresolved_text signature blockhash s1) as Hc. by rewrite H in Hc. }
  destruct Hc as [Hc Hr]. rewrite Hc. pose proof (submit_one _ _ _ _ _ _ _ _ _ Hs) as [Hn|(tx & Htx & Hpay & Hix & Hsg & _)].
  - left. split; [done|]. destruct (is_ok r) eqn:Er; [|done]. specialize (Hr eq_refl).
    destruct r1 as [[sg bh]|e|]; try done. pose proof (submit_sends _ _ _ _ _ _ _ _ _ Hs) as Hl. rewrite Hn in Hl. lia.
  - right. by exists tx.
Qed.

Lemma prepare_reads `{P : Pda} `{N : Cluster} program args payer : reads_only (prepare_fund_position program args payer).
Proof.
  unfold prepare_fund_position, funding_accounts, plan_wsol_wrap, fetch_account, token_account_rent_lamports.
  repeat reads_only_step.
Qed.

(** C29: Funding a position submits nothing, or one transaction that the payer pays for.
    It is built from the position as it was read, an open sale the holder holds, and ends
    with the deposit.  When SOL is wrapped first, the wrapped amount is exactly what the
    funding account, as it was read, lacks of the settlement, and nothing is wrapped only
    if that was not asked for, the settlement is in another asset, or the account holds
    enough.  Before a transaction that wraps was submitted, the holder's balance was read
    and covered the wrap, the rent of the missing accounts the holder pays for (as the
    cluster named it), the cluster's fee for this very transaction if the holder pays it,
    and the reserve. *)
Theorem funding_covered `{P : Pda} `{N : Cluster} error_text socket failed unresolved_text
  program args maker fee_payer s r s' :
  fund_position program error_text socket failed unresolved_text args maker fee_payer s = (r, s') ->
  submitted s' = submitted s \/
  exists tx p pos market,
    submitted s' = submitted s ++ [tx] /\ tx_payer tx = default maker fee_payer /\
    tx_instructions tx = pf_instructions p /\ maker ∈ tx_signers tx /\
    prepared_ok program args (default maker fee_payer) p pos market /\
    match pf_native_budget p with None => True | Some b => affordable b tx end.
Proof.
  intros H. unfold fund_position in H. unfold mbind at 1, rpc_bind at 1 in H.
  pose proof (prepare_reads program args (default maker fee_payer) s) as Hread.
  destruct (prepare_fund_position program args (default maker fee_payer) s) as [[p|e|] s1] eqn:Hp; cbn in Hread;
    [|injection H as <- <-; by left..].
  apply prepare_Ok in Hp as (pos & market & Hok).
  unfold mbind at 1, rpc_bind at 1 in H.
  destruct (submit_instructions _ _ _ _ _ _ s1) as [[[signature blockhash]|e|] s2] eqn:Hs.
  all: assert (Hsub : submitted s' = submitted s2);
    [first [pose proof (confirm_reads error_text socket failed unresolved_text signature blockhash s2) as Hc;
            rewrite H in Hc; exact Hc | by injection H as _ <-]|].
  all: apply submit_one in Hs as [Hs|(tx & Hs & Hpay & Hix & Hsg & Hb)]; rewrite Hsub, Hs, Hread; [by left|right].
  all: exists tx, p, pos, market; do 3 (split; [done|]); (split; [|split; [done|]]).
  all: try (rewrite Hsg; destruct (decide (maker = default maker fee_payer)) as [<-|Hne]; [set_solver|];
            apply elem_of_cons; right; apply list_elem_of_In, filter_In; split; [by left|by rewrite bool_decide_false]).
  all: exact Hb.
Qed.

Module FundingSample.
#[local] Existing Instance QuoteExample.pda.
Definition program : key := key_of 7.
Definition market : MarketInfo :=
  {| mi_expiry_ts := 1760000000; mi_is_put := true; mi_is_finalized := false; mi_settlement_price := 0;
     mi_underlying_mint := NATIVE_MINT; mi_quote_mint := key_of 12; mi_underlying_token_program_id := TOKEN_PROGRAM_ID;
     mi_quote_token_program_id := TOKEN_PROGRAM_ID; mi_underlying_decimals := 9; mi_quote_decimals := 6 |}.
Definition position : PositionInfo :=
  {| pi_terms := OptionTerms.CashSecuredPut 100; pi_side := TakerSide.Sell; pi_flags := 0; pi_flags2 := 0;
     pi_flags3 := 0; pi_status := OnChainStatus.Open; pi_writer := key_of 1; pi_holder := key_of 2;
     pi_market_pda := key_of 3; pi_quantity := 5000000000; pi_order_id := key_of 4 |}.
Definition cluster : Cluster :=
  RpcSample.cluster
    [(key_of 5, holding 1 program (position_segments position 255 (replicate 8 0) (replicate 8 0) (replicate 8 0)
                                     (replicate 248 0)));
     (key_of 3, holding 1 program (market_segments market 255 (replicate 2 0) (replicate 8 0) (replicate 256 0)))]
    6000000000 5000 2039280.
Definition args : FundPositionArgs :=
  {| fa_holder := key_of 2; fa_position_pda := key_of 5; fa_create_atas := true;
     fa_native_sol := NativeSolFunding.with_default_reserve |}.
Definition run : xres bytes * RpcState :=
  fund_position (P := QuoteExample.pda) (N := cluster) program (fun _ => EmptyString) None (fun _ _ => EmptyString)
    (fun _ => EmptyString) args (key_of 2) None RpcSample.start.
End FundingSample.

Lemma funding_covered_witness :
  exists r s', FundingSample.run = (r, s') /\ length (submitted s') = 1%nat /\
    exists tx p, submitted s' = [tx] /\ tx_instructions tx = pf_instructions p /\ pf_native_budget p <> None.
Proof.
  destruct FundingSample.run as [r s'] eqn:H. exists r, s'. split; [reflexivity|].
  assert (Hl : length (submitted s') = 1%nat) by (vm_compute in H; injection H as _ <-; reflexivity).
  assert (Hw : map program_id (tx_instructions (nth 0 (submitted s')
                 {| tx_payer := []; tx_instructions := []; tx_blockhash := []; tx_signers := [] |}))
               = [ASSOCIATED_TOKEN_PROGRAM_ID; ASSOCIATED_TOKEN_PROGRAM_ID; SYSTEM_PROGRAM_ID; TOKEN_PROGRAM_ID; key_of 7])
    by (vm_compute in H; injection H as _ <-; vm_compute; reflexivity).
  split; [exact Hl|].
  destruct (funding_covered (P := QuoteExample.pda) (N := FundingSample.cluster) (fun _ => EmptyString) None
    (fun _ _ => EmptyString) (fun _ => EmptyString) FundingSample.program FundingSample.args (key_of 2) None
    RpcSample.start r s' H) as [Hn|(tx & p & pos & market & Hs & _ & Hix & _ & Hok & _)].
  - rewrite Hn in Hl. discriminate Hl.
  - exists tx, p. split; [exact Hs|]. split; [exact Hix|]. intros Hb. rewrite Hs in Hw. cbn in Hw. rewrite Hix in Hw.
    destruct Hok as [_ _ _ (creates & wrap & deposit & Hi & _ & _ & Hcr & Hm)]. rewrite Hb in Hm. destruct Hm as [-> _].
    rewrite Hi in Hw. rewrite map_app in Hw. apply (f_equal (fun l => l !! 2%nat)) in Hw as Hw2.
    assert (length creates = 4%nat) as Hlen.
    { apply (f_equal length) in Hw. rewrite length_app, length_map in Hw. cbn in Hw. lia. }
    destruct creates as [|c0 [|c1 [|c2 creates]]]; [discriminate Hlen..|]. cbn in Hw2.
    do 2 apply Forall_cons in Hcr as [_ Hcr]. apply Forall_cons in Hcr as [Hc2 _]. rewrite Hc2 in Hw2.
    vm_compute in Hw2. discriminate Hw2.
Defined.
