(* ===== verification/Owner.v ===== *)
(** * Owning a vault ([src/chain/vault/lifecycle.rs], [governance.rs], [owner_rpc.rs])

    The instructions of a vault's owner: bootstrap, the manager's stake, governance and its
    delayed updates, delegates, shutdown.  The operations of [owner_rpc.rs] read the vault
    first and refuse what the owner may not do in its state. *)

From Stdlib Require Import ZArith Lia String.
From stdpp Require Import base list sets strings.
From S2P Require Import Prelude Terms Signing Quote Challenge Chain Account Positions Price Vault Settle Rpc.

Open Scope Z_scope.

(* chain/vault/governance.rs:13-13 CAPABILITIES_KNOWN_MASK *)
Definition CAPABILITIES_KNOWN_MASK : Z := 7.
Definition MAX_REBALANCE_DRIFT_BPS : Z := 200.

(* chain/vault/governance.rs:16-21 VaultPolicyUpdate *)
Record VaultPolicyUpdate := {
  pu_max_open_positions : Z; pu_max_rebalance_drift_bps : Z; pu_min_main_liquidity_bps : Z }.

Module UpdateKind.
(* chain/vault/governance.rs:42-52 VaultGovernanceUpdateKind *)
Inductive t := CapLimit | Fees | HwmReset | Capabilities | Policy | GovernanceAuthority | SecondLeg.
#[global] Instance t_eq_dec : EqDecision t.
Proof. solve_decision. Defined.
(** [kind as u8]. *)
Definition code (k : t) : Z :=
  match k with
  | CapLimit => 0 | Fees => 1 | HwmReset => 2 | Capabilities => 3 | Policy => 4 | GovernanceAuthority => 5
  | SecondLeg => 6
  end.
End UpdateKind.

Module GovernanceUpdate.
(* chain/vault/governance.rs:23-40 VaultGovernanceUpdate *)
Inductive t :=
| CapLimit (v : Z)
| Fees (performance_bps management_bps : Z)
| HwmReset (v : Z)
| Capabilities (value mask : Z)
| Policy (p : VaultPolicyUpdate)
| GovernanceAuthority (k : key)
| SecondLeg (k : key).

(* chain/vault/governance.rs:55-66 VaultGovernanceUpdate::kind *)
Definition kind (u : t) : UpdateKind.t :=
  match u with
  | CapLimit _ => UpdateKind.CapLimit
  | Fees _ _ => UpdateKind.Fees
  | HwmReset _ => UpdateKind.HwmReset
  | Capabilities _ _ => UpdateKind.Capabilities
  | Policy _ => UpdateKind.Policy
  | GovernanceAuthority _ => UpdateKind.GovernanceAuthority
  | SecondLeg _ => UpdateKind.SecondLeg
  end.

(** The buffer of 32 zeros with [bs] copied to its front. *)
Definition front (bs : bytes) : bytes := copy_at (replicate 32 0) 0 bs.

(* chain/vault/governance.rs:68-118 VaultGovernanceUpdate::payload *)
Definition payload (u : t) : cres bytes :=
  match u with
  | CapLimit value => Ok (front (to_le_bytes 8 value))
  | HwmReset value => Ok (front (to_le_bytes 16 value))
  | Fees performance_bps management_bps =>
      _ ← reject_if ((10000 <? performance_bps) || (1000 <? management_bps))
            (VaultChainError.InvalidInput "fees exceed 10000 bps performance or 1000 bps management");
      Ok (front (to_le_bytes 2 performance_bps ++ to_le_bytes 2 management_bps))
  | Capabilities value mask =>
      _ ← reject_if ((mask =? 0) || negb (Z.land value (Z.lnot mask) =? 0)
                     || negb (Z.land mask (Z.lnot CAPABILITIES_KNOWN_MASK) =? 0))
            (VaultChainError.InvalidInput "capability mask must be non-zero and contain every value bit");
      Ok (front (to_le_bytes 4 value ++ to_le_bytes 4 mask))
  | Policy policy =>
      _ ← reject_if ((pu_max_open_positions policy =? 0) || (pu_max_rebalance_drift_bps policy =? 0)
                     || (MAX_REBALANCE_DRIFT_BPS <? pu_max_rebalance_drift_bps policy)
                     || (10000 <? pu_min_main_liquidity_bps policy))
            (VaultChainError.InvalidInput "vault policy requires positions > 0, drift in 1..=200 bps and liquidity <= 10000 bps");
      Ok (front (to_le_bytes 2 (pu_max_open_positions policy) ++ to_le_bytes 2 (pu_max_rebalance_drift_bps policy) ++
                 to_le_bytes 2 (pu_min_main_liquidity_bps policy)))
  | GovernanceAuthority k | SecondLeg k =>
      _ ← reject_if (bool_decide (k = key_of 0))
            (VaultChainError.InvalidInput "vault authority or second-leg update cannot use the zero pubkey");
      Ok k
  end.
End GovernanceUpdate.

Module Owner.
Section owner.
Context `{P : Pda}.
Abbreviation ata := derive_associated_token_address (only parsing).
Context (self : VaultManager).
Abbreviation a := (vm_addresses self) (only parsing).
Abbreviation p := (vm_args self) (only parsing).
Abbreviation ix := (Manager.instruction self) (only parsing).

(** ** Lifecycle *)

(* chain/vault/lifecycle.rs:9-38 VaultManager::bootstrap *)
Definition bootstrap (fee_recipient : key) (amount : Z) : cres Instruction :=
  _ ← reject_if ((amount <? 100000000) || bool_decide (fee_recipient = key_of 0))
        (VaultChainError.InvalidInput "bootstrap requires 100000000 main atoms and a nonzero recipient");
  Ok (ix VaultIx.Bootstrap
    [new_readonly (a_actor p) true; meta_new (ad_vault a) false; meta_new (a_share_mint p) false;
     meta_new (ad_manager_stake_ata a) false; meta_new (ata (a_actor p) (a_main_mint p) (a_main_token_program p)) false;
     meta_new (ad_vault_main_ata a) false; new_readonly (a_main_mint p) false;
     new_readonly (a_main_token_program p) false; new_readonly TOKEN_PROGRAM_ID false]
    (to_le_bytes 8 amount ++ fee_recipient)).

(* chain/vault/lifecycle.rs:202-211 VaultManager::owner_instruction *)
Definition owner_instruction (kind : VaultIx.t) (data : bytes) : Instruction :=
  ix kind [new_readonly (a_actor p) true; meta_new (ad_vault a) false] data.

(** [Vec::remove(3)]. *)
(* chain/vault/lifecycle.rs:213-217 VaultManager::owner_equity_accounts *)
Definition owner_equity_accounts : list AccountMeta :=
  let accounts := accounts (Manager.process_equity self []) in take 3 accounts ++ drop 4 accounts.

(* chain/vault/lifecycle.rs:40-64 VaultManager::top_up_manager_stake *)
Definition top_up_manager_stake (amount : Z) (prices : list AccountMeta) : cres Instruction :=
  _ ← reject_if (amount =? 0) (VaultChainError.InvalidInput "top-up amount must be positive");
  _ ← reject_if (match prices with [] => true | _ => false end) VaultChainError.MissingPriceSection;
  Ok (ix VaultIx.TopUpManagerStake
    (owner_equity_accounts ++ [meta_new (ata (a_actor p) (a_main_mint p) (a_main_token_program p)) false] ++ prices)
    (to_le_bytes 8 amount)).

(* chain/vault/lifecycle.rs:66-91 VaultManager::unlock_manager_stake *)
Definition unlock_manager_stake (fee_recipient : key) (shares : Z) : cres Instruction :=
  let destination := ata fee_recipient (a_share_mint p) TOKEN_PROGRAM_ID in
  _ ← reject_if ((shares =? 0) || bool_decide (destination = ad_manager_stake_ata a))
        (VaultChainError.InvalidInput "unlock requires positive shares and a distinct destination");
  Ok (ix VaultIx.UnlockManagerStake
    [new_readonly (a_actor p) true; meta_new (ad_vault a) false; new_readonly (ad_manager_stake_authority a) false;
     meta_new (ad_manager_stake_ata a) false; meta_new destination false; new_readonly (a_share_mint p) false;
     new_readonly TOKEN_PROGRAM_ID false]
    (to_le_bytes 8 shares)).

(* chain/vault/lifecycle.rs:93-108 VaultManager::unlock_manager_stake_sequence *)
Definition unlock_manager_stake_sequence (fee_recipient : key) (shares : Z) : cres (list Instruction) :=
  unlock ← unlock_manager_stake fee_recipient shares;
  Ok [create_destination_ata (a_actor p) fee_recipient (a_share_mint p) TOKEN_PROGRAM_ID; unlock].

(* chain/vault/lifecycle.rs:110-113 VaultManager::accept_governance *)
Definition accept_governance : Instruction := owner_instruction VaultIx.AcceptGovernance [].

(* chain/vault/lifecycle.rs:115-128 VaultManager::revoke_governance_nomination *)
Definition revoke_governance_nomination (expected_nominee : key) : cres Instruction :=
  _ ← reject_if (bool_decide (expected_nominee = key_of 0))
        (VaultChainError.InvalidInput "expected nominee must be nonzero");
  Ok (owner_instruction VaultIx.RevokeGovernanceNomination expected_nominee).

(* chain/vault/lifecycle.rs:130-144 VaultManager::apply_fee_recipient_update *)
Definition apply_fee_recipient_update (expected recipient : key) : cres Instruction :=
  _ ← reject_if (bool_decide (expected = recipient) || bool_decide (expected = key_of 0)
                 || bool_decide (recipient = key_of 0))
        (VaultChainError.InvalidInput "recipient must change between nonzero keys");
  Ok (owner_instruction VaultIx.ApplyFeeRecipientUpdate (expected ++ recipient)).

(* chain/vault/lifecycle.rs:146-149 VaultManager::start_shutdown *)
Definition start_shutdown : Instruction := owner_instruction VaultIx.StartShutdown [].

(* chain/vault/lifecycle.rs:151-157 VaultManager::finalize_shutdown *)
Definition finalize_shutdown (prices : list AccountMeta) : Instruction :=
  ix VaultIx.FinalizeShutdown (owner_equity_accounts ++ prices) [].

(* chain/vault/lifecycle.rs:159-188 VaultManager::close_vault *)
Definition close_vault : Instruction :=
  ix VaultIx.CloseVault
    [meta_new (a_actor p) true; meta_new (ad_vault a) false; meta_new (ad_delegate a) false;
     meta_new (ad_policy a) false; new_readonly (a_share_mint p) false; meta_new (ad_vault_main_ata a) false;
     meta_new (ad_vault_second_ata a) false; new_readonly (a_main_mint p) false; new_readonly (a_second_mint p) false;
     new_readonly (a_main_token_program p) false; new_readonly (a_second_token_program p) false;
     new_readonly (ad_manager_stake_authority a) false; meta_new (ad_manager_stake_ata a) false;
     new_readonly TOKEN_PROGRAM_ID false;
     meta_new (ata (a_actor p) (a_main_mint p) (a_main_token_program p)) false;
     meta_new (ata (a_actor p) (a_second_mint p) (a_second_token_program p)) false] [].

(* chain/vault/lifecycle.rs:190-200 VaultManager::close_vault_sequence *)
Definition close_vault_sequence : list Instruction :=
  [create_destination_ata (a_actor p) (a_actor p) (a_main_mint p) (a_main_token_program p);
   create_destination_ata (a_actor p) (a_actor p) (a_second_mint p) (a_second_token_program p); close_vault].

(** ** Governance *)

(* chain/vault/governance.rs:289-291 VaultManager::pending_update *)
Definition pending_update (kind : UpdateKind.t) : key :=
  pda.pending_vault_update (a_program_id p) (ad_vault a) (UpdateKind.code kind).

(* chain/vault/governance.rs:120-141 VaultManager::propose_update *)
Definition propose_update (update : GovernanceUpdate.t) : cres Instruction :=
  let kind := GovernanceUpdate.kind update in
  payload ← GovernanceUpdate.payload update;
  Ok (ix VaultIx.ProposeVaultUpdate
    [meta_new (a_actor p) true; meta_new (ad_vault a) false; meta_new (pending_update kind) false;
     new_readonly SYSTEM_PROGRAM_ID false; new_readonly (ad_global_config a) false]
    (UpdateKind.code kind :: payload)).

(** [equity.drain(1..4)]. *)
(* chain/vault/governance.rs:143-178 VaultManager::apply_update *)
Definition apply_update (kind : UpdateKind.t) (proposal_payer : key) (price_section : option (list AccountMeta))
  : cres Instruction :=
  _ ← reject_if (bool_decide (kind = UpdateKind.SecondLeg))
        (VaultChainError.InvalidInput "second-leg updates apply through apply_second_leg");
  let metas := [meta_new (ad_vault a) false; meta_new (ad_policy a) false; meta_new (pending_update kind) false;
                meta_new proposal_payer false] in
  match kind with
  | UpdateKind.Fees | UpdateKind.HwmReset =>
      match price_section with
      | None => invalid_input "fee and HWM updates require the price section to settle the old terms"
      | Some section =>
          let equity := accounts (Manager.process_equity self section) in
          Ok (ix VaultIx.ApplyVaultUpdate (metas ++ take 1 equity ++ drop 4 equity) [UpdateKind.code kind])
      end
  | _ => Ok (ix VaultIx.ApplyVaultUpdate metas [UpdateKind.code kind])
  end.

(* chain/vault/governance.rs:180-222 VaultManager::apply_second_leg *)
Definition apply_second_leg (proposal_payer new_mint : key) (price_section : option (list AccountMeta))
  : cres Instruction :=
  _ ← reject_if (bool_decide (new_mint ∈ [a_main_mint p; a_second_mint p; a_share_mint p; key_of 0]))
        (VaultChainError.InvalidInput "new second mint must differ from the vault's mints");
  let program := a_second_token_program p in
  Ok (ix VaultIx.ApplyVaultUpdate
    ([meta_new (ad_vault a) false; meta_new (ad_policy a) false; meta_new (pending_update UpdateKind.SecondLeg) false;
      meta_new proposal_payer false; meta_new (a_actor p) true; meta_new (a_second_mint p) false;
      meta_new (ad_vault_second_ata a) false; new_readonly program false; new_readonly new_mint false;
      meta_new (ata (ad_vault a) new_mint program) false; new_readonly program false;
      new_readonly (pda.price_route (a_program_id p) new_mint) false; new_readonly (ad_second_price_route a) false;
      new_readonly SYSTEM_PROGRAM_ID false; new_readonly ASSOCIATED_TOKEN_PROGRAM_ID false;
      new_readonly (ad_vault_main_ata a) false] ++ default [] price_section)
    [UpdateKind.code UpdateKind.SecondLeg]).

(* chain/vault/governance.rs:224-240 VaultManager::cancel_update *)
Definition cancel_update (kind : UpdateKind.t) (proposal_payer : key) : Instruction :=
  ix VaultIx.CancelVaultUpdate
    [new_readonly (a_actor p) true; meta_new (ad_vault a) false; meta_new (pending_update kind) false;
     meta_new proposal_payer false] [UpdateKind.code kind].

(* chain/vault/governance.rs:242-274 VaultManager::rotate_delegate *)
Definition rotate_delegate (new_delegate : key) (bits expires_at : Z) : cres Instruction :=
  _ ← reject_if (bool_decide (new_delegate = key_of 0) || (bits =? 0)
                 || negb (Z.land bits (Z.lnot VaultDelegatePermissions.KNOWN_MASK) =? 0))
        (VaultChainError.InvalidInput "new delegate must be non-zero and have known permissions");
  Ok (ix VaultIx.RotateVaultDelegate
    [meta_new (a_actor p) true; meta_new (ad_vault a) false; meta_new (ad_delegate a) false;
     meta_new (pda.vault_delegate (a_program_id p) (ad_vault a) new_delegate) false;
     new_readonly SYSTEM_PROGRAM_ID false]
    (new_delegate ++ to_le_bytes 4 bits ++ to_le_bytes 8 expires_at)).

(* chain/vault/governance.rs:279-287 VaultManager::disable_delegate *)
Definition disable_delegate : Instruction :=
  ix VaultIx.DisableVaultDelegate
    [new_readonly (a_actor p) true; new_readonly (ad_vault a) false; meta_new (ad_delegate a) false] [].
End owner.
End Owner.

(** ** From the chain *)

Definition vaulted {A} (m : cres A) : rpc A := lift (map_err ChainError.Vault m).

Module OwnerRpc.
Section from_chain.
Context `{P : Pda} `{B : PdaBump} `{N : Cluster}.
(** The client's program. *)
Context (program : key).

(* chain/vault/owner_rpc.rs:9-21 ChainClient::vault_manager *)
Definition vault_manager (vault actor : key) : rpc VaultManager :=
  account ← fetch_account vault;
  state ← vaulted (VaultAccountOps.from_account account program);
  manager ← vaulted (Manager.from_vault program actor state);
  _ ← lift (reject_if (negb (bool_decide (ad_vault (vm_addresses manager) = vault))) (ChainError.Identity "vault PDA"));
  mret manager.

Context (self : VaultManager).

(* chain/vault/owner_rpc.rs:25-38 VaultManager::current_owner_state *)
Definition current_owner_state : rpc VaultAccount :=
  _ ← lift (reject_if (negb (bool_decide (program = a_program_id (vm_args self)))) (ChainError.Identity "vault program"));
  account ← fetch_account (ad_vault (vm_addresses self));
  state ← vaulted (VaultAccountOps.from_account account program);
  _ ← vaulted (Manager.ensure_current self state);
  _ ← lift (reject_if (negb (bool_decide (va_primary_delegate state = a_delegate_authority (vm_args self))))
        (ChainError.Identity "vault delegate"));
  mret state.

(* chain/vault/owner_rpc.rs:49-67 VaultManager::load_price_section *)
Definition load_price_section (shard : Z) : rpc (list AccountMeta) :=
  main_account ← fetch_account (ad_main_price_route (vm_addresses self));
  main ← vaulted (PriceRouteOps.from_account main_account program);
  second_account ← fetch_account (ad_second_price_route (vm_addresses self));
  second ← vaulted (PriceRouteOps.from_account second_account program);
  vaulted (Manager.price_section self main second shard).

(* chain/vault/owner_rpc.rs:40-47 VaultManager::fetch_price_section *)
Definition fetch_price_section (shard : Z) : rpc (list AccountMeta) :=
  _ ← current_owner_state; load_price_section shard.

(* chain/vault/owner_rpc.rs:200-205 VaultManager::require_governance *)
Definition require_governance (state : VaultAccount) : rpc unit :=
  vaulted (reject_if (negb (bool_decide (a_actor (vm_args self) = va_governance_authority state)))
             VaultChainError.GovernanceAuthorityRequired).

(* chain/vault/owner_rpc.rs:290-295 require_unstaged *)
Definition require_unstaged (state : VaultAccount) : rpc unit :=
  vaulted (reject_if (match open (va_staging state) with Some _ => true | None => false end) VaultChainError.Staged).

(** What second custody holds: the token amount, or for wrapped SOL what the lamports
    leave above the reserve. *)
(* chain/vault/owner_rpc.rs:215-244 VaultManager::prices_for_second_balance (amount) *)
Definition second_balance (account : Account) : xres Z :=
  let data := account_data account in
  _ ← reject_if (negb (bool_decide (owner account = a_second_token_program (vm_args self)))
                 || (length data <? 165)%nat) ChainError.InvalidAccountData;
  mint ← slice_p data 0 32;
  _ ← reject_if (negb (bool_decide (mint = a_second_mint (vm_args self)))) ChainError.InvalidAccountData;
  held_by ← slice_p data 32 64;
  _ ← reject_if (negb (bool_decide (held_by = ad_vault (vm_addresses self)))) ChainError.InvalidAccountData;
  initialized ← index_p data 108;
  _ ← reject_if (negb (initialized =? 1)) ChainError.InvalidAccountData;
  amount ← from_le_bytes <$> slice_p data 64 72;
  native ← slice_p data 109 113;
  if bool_decide (native = [0; 0; 0; 0]) then Ok amount
  else if bool_decide (native = [1; 0; 0; 0]) then
    reserve ← from_le_bytes <$> slice_p data 113 121;
    ok_or (match checked_sub (lamports account) reserve with
           | Some synced => if amount <=? synced then Some synced else None
           | None => None
           end) ChainError.InvalidAccountData
  else Err ChainError.InvalidAccountData.

(* chain/vault/owner_rpc.rs:207-250 VaultManager::prices_for_second_balance *)
Definition prices_for_second_balance (shard : Z) : rpc (list AccountMeta) :=
  account ← fetch_account (ad_vault_second_ata (vm_addresses self));
  amount ← lift (second_balance account);
  if amount =? 0 then mret [] else load_price_section shard.

(* chain/vault/owner_rpc.rs:263-286 VaultManager::fetch_proposal (account) *)
Definition read_proposal (kind : UpdateKind.t) (account : Account) : xres (key * bytes) :=
  let data := account_data account in
  let seeds := [as_bytes "pending_update"; ad_vault (vm_addresses self); [UpdateKind.code kind]] in
  _ ← reject_if (negb (bool_decide (owner account = program)))
        (ChainError.AccountOwnerMismatch program (owner account));
  _ ← reject_if (negb (length data =? 368)%nat) ChainError.InvalidAccountData;
  discriminator ← index_p data 0;
  version ← index_p data 1;
  bump ← index_p data 2;
  code ← index_p data 3;
  vault ← slice_p data 8 40;
  payer ← slice_p data 40 72;
  _ ← reject_if (negb (discriminator =? 14) || negb (version =? 1)
                 || negb (bump =? find_bump seeds (a_program_id (vm_args self)))
                 || negb (code =? UpdateKind.code kind)
                 || negb (bool_decide (vault = ad_vault (vm_addresses self)))
                 || bool_decide (payer = key_of 0)) ChainError.InvalidAccountData;
  payload ← slice_p data 80 112;
  Ok (payer, payload).

(* chain/vault/owner_rpc.rs:252-287 VaultManager::fetch_proposal *)
Definition fetch_proposal (kind : UpdateKind.t) : rpc (key * bytes) :=
  account ← fetch_account (Owner.pending_update self kind);
  lift (read_proposal kind account).

(* chain/vault/owner_rpc.rs:69-79 VaultManager::top_up_manager_stake_from_chain *)
Definition top_up_manager_stake_from_chain (amount shard : Z) : rpc Instruction :=
  state ← current_owner_state;
  _ ← require_governance state;
  _ ← require_unstaged state;
  prices ← load_price_section shard;
  vaulted (Owner.top_up_manager_stake self amount prices).

(* chain/vault/owner_rpc.rs:81-90 VaultManager::finalize_shutdown_from_chain *)
Definition finalize_shutdown_from_chain (shard : Z) : rpc Instruction :=
  state ← current_owner_state;
  _ ← require_unstaged state;
  prices ← prices_for_second_balance shard;
  mret (Owner.finalize_shutdown self prices).

(* chain/vault/owner_rpc.rs:92-100 VaultManager::unlock_manager_stake_from_chain *)
Definition unlock_manager_stake_from_chain (shares : Z) : rpc Instruction :=
  state ← current_owner_state;
  _ ← require_governance state;
  vaulted (Owner.unlock_manager_stake self (va_fee_recipient state) shares).

(* chain/vault/owner_rpc.rs:102-110 VaultManager::apply_fee_recipient_update_from_chain *)
Definition apply_fee_recipient_update_from_chain (recipient : key) : rpc Instruction :=
  state ← current_owner_state;
  _ ← require_governance state;
  vaulted (Owner.apply_fee_recipient_update self (va_fee_recipient state) recipient).

(* chain/vault/owner_rpc.rs:112-119 VaultManager::revoke_governance_nomination_from_chain *)
Definition revoke_governance_nomination_from_chain : rpc Instruction :=
  state ← current_owner_state;
  _ ← require_governance state;
  vaulted (Owner.revoke_governance_nomination self (va_pending_governance_authority state)).

(* chain/vault/owner_rpc.rs:121-155 VaultManager::apply_update_from_chain *)
Definition apply_update_from_chain (kind : UpdateKind.t) (shard : Z) : rpc Instruction :=
  state ← current_owner_state;
  _ ← match kind with
      | UpdateKind.Fees | UpdateKind.HwmReset | UpdateKind.SecondLeg => require_unstaged state
      | _ => mret tt
      end;
  '(payer, payload) ← fetch_proposal kind;
  match kind with
  | UpdateKind.SecondLeg =>
      prices ← prices_for_second_balance shard;
      vaulted (Owner.apply_second_leg self payer payload (Some prices))
  | UpdateKind.Fees | UpdateKind.HwmReset =>
      prices ← load_price_section shard;
      vaulted (Owner.apply_update self kind payer (Some prices))
  | _ => vaulted (Owner.apply_update self kind payer None)
  end.

(* chain/vault/owner_rpc.rs:157-168 VaultManager::cancel_update_from_chain *)
Definition cancel_update_from_chain (kind : UpdateKind.t) : rpc Instruction :=
  _ ← vaulted (reject_if (bool_decide (kind = UpdateKind.HwmReset)) VaultChainError.ColdAuthorityRequired);
  _ ← current_owner_state;
  '(payer, _) ← fetch_proposal kind;
  mret (Owner.cancel_update self kind payer).

(* chain/vault/owner_rpc.rs:170-178 VaultManager::unlock_manager_stake_sequence_from_chain *)
Definition unlock_manager_stake_sequence_from_chain (shares : Z) : rpc (list Instruction) :=
  state ← current_owner_state;
  _ ← require_governance state;
  vaulted (Owner.unlock_manager_stake_sequence self (va_fee_recipient state) shares).

(* chain/vault/owner_rpc.rs:180-188 VaultManager::start_shutdown_from_chain *)
Definition start_shutdown_from_chain : rpc Instruction :=
  state ← current_owner_state;
  _ ← require_governance state;
  _ ← require_unstaged state;
  mret (Owner.start_shutdown self).

(* chain/vault/owner_rpc.rs:190-198 VaultManager::close_vault_from_chain *)
Definition close_vault_from_chain : rpc Instruction :=
  state ← current_owner_state;
  _ ← require_governance state;
  _ ← require_unstaged state;
  mret (Owner.close_vault self).
End from_chain.
End OwnerRpc.

(** ** The payload of an update *)

(** How a proposal of a kind is read back. *)
Definition read_payload (kind : UpdateKind.t) (bs : bytes) : GovernanceUpdate.t :=
  let int off n := from_le_bytes (take n (drop off bs)) in
  match kind with
  | UpdateKind.CapLimit => GovernanceUpdate.CapLimit (int 0%nat 8%nat)
  | UpdateKind.Fees => GovernanceUpdate.Fees (int 0%nat 2%nat) (int 2%nat 2%nat)
  | UpdateKind.HwmReset => GovernanceUpdate.HwmReset (int 0%nat 16%nat)
  | UpdateKind.Capabilities => GovernanceUpdate.Capabilities (int 0%nat 4%nat) (int 4%nat 4%nat)
  | UpdateKind.Policy =>
      GovernanceUpdate.Policy {| pu_max_open_positions := int 0%nat 2%nat; pu_max_rebalance_drift_bps := int 2%nat 2%nat;
                                 pu_min_main_liquidity_bps := int 4%nat 2%nat |}
  | UpdateKind.GovernanceAuthority => GovernanceUpdate.GovernanceAuthority bs
  | UpdateKind.SecondLeg => GovernanceUpdate.SecondLeg bs
  end.

(** The integers of an update at their widths. *)
Definition update_typed (u : GovernanceUpdate.t) : Prop :=
  match u with
  | GovernanceUpdate.CapLimit v => fits 64 v
  | GovernanceUpdate.Fees pb mb => fits 16 pb /\ fits 16 mb
  | GovernanceUpdate.HwmReset v => fits 128 v
  | GovernanceUpdate.Capabilities v m => fits 32 v /\ fits 32 m
  | GovernanceUpdate.Policy q =>
      fits 16 (pu_max_open_positions q) /\ fits 16 (pu_max_rebalance_drift_bps q) /\ fits 16 (pu_min_main_liquidity_bps q)
  | GovernanceUpdate.GovernanceAuthority k | GovernanceUpdate.SecondLeg k => length k = 32%nat
  end.

(** The updates that may be proposed. *)
Definition update_allowed (u : GovernanceUpdate.t) : Prop :=
  match u with
  | GovernanceUpdate.CapLimit _ | GovernanceUpdate.HwmReset _ => True
  | GovernanceUpdate.Fees pb mb => pb <= 10000 /\ mb <= 1000
  | GovernanceUpdate.Capabilities v m => m <> 0 /\ (forall i, 0 <= i -> Z.testbit v i = true -> Z.testbit m i = true) /\
      (forall i, 0 <= i -> Z.testbit m i = true -> i < 3)
  | GovernanceUpdate.Policy q =>
      0 <> pu_max_open_positions q /\ 0 < pu_max_rebalance_drift_bps q <= 200 /\ pu_min_main_liquidity_bps q <= 10000
  | GovernanceUpdate.GovernanceAuthority k | GovernanceUpdate.SecondLeg k => k <> key_of 0
  end.

(** No bit of [x] outside [m]. *)
Lemma land_lnot_zero x m :
  Z.land x (Z.lnot m) = 0 <-> forall i, 0 <= i -> Z.testbit x i = true -> Z.testbit m i = true.
Proof.
  split.
  - intros H i Hi Hx. assert (Hb : Z.testbit (Z.land x (Z.lnot m)) i = false) by (rewrite H; apply Z.bits_0).
    rewrite Z.land_spec, Z.lnot_spec, Hx in Hb by lia. by destruct (Z.testbit m i).
  - intros H. apply Z.bits_inj'. intros i Hi. rewrite Z.land_spec, Z.lnot_spec, Z.bits_0 by lia. specialize (H i Hi).
    destruct (Z.testbit x i); [by rewrite H|done].
Qed.

Lemma known_bits m : Z.land m (Z.lnot CAPABILITIES_KNOWN_MASK) = 0 <-> forall i, 0 <= i -> Z.testbit m i = true -> i < 3.
Proof.
  rewrite land_lnot_zero. unfold CAPABILITIES_KNOWN_MASK. split; intros H i Hi Hm; specialize (H i Hi Hm).
  - change 7 with (Z.ones 3) in H. rewrite Z.testbit_ones_nonneg in H by lia. by apply Z.ltb_lt.
  - change 7 with (Z.ones 3). rewrite Z.testbit_ones_nonneg by lia. by apply Z.ltb_lt.
Qed.

Lemma Ok_inj {E A} (a b : A) : @Ok E A a = Ok b -> a = b.
Proof. by intros [= ->]. Qed.

Lemma front_length bs : (length bs <= 32)%nat -> length (GovernanceUpdate.front bs) = 32%nat.
Proof. intros H. unfold GovernanceUpdate.front, copy_at. rewrite take_0, !length_app, length_drop, length_replicate. cbn. lia. Qed.

Lemma front_read (pre x post : bytes) :
  take (length x) (drop (length pre) (GovernanceUpdate.front (pre ++ x ++ post))) = x.
Proof.
  unfold GovernanceUpdate.front, copy_at. rewrite take_0. cbn [app]. rewrite <- !app_assoc.
  by rewrite drop_app_length, take_app_length.
Qed.

Lemma front_int n m (pre post : bytes) z :
  length pre = n -> fits (8 * Z.of_nat m) z ->
  from_le_bytes (take m (drop n (GovernanceUpdate.front (pre ++ to_le_bytes m z ++ post)))) = z.
Proof.
  intros <- Hz. pose proof (front_read pre (to_le_bytes m z) post) as H. rewrite length_to_le_bytes in H. rewrite H.
  by rewrite from_to_le_bytes.
Qed.

(** An update is proposed exactly when it is allowed: fees, policy and capability
    values in their bounds, no zero key.  Its payload has 32 bytes and is read back, for
    its kind, as the update that was proposed. *)
Theorem governance_payload_roundtrip u :
  update_typed u ->
  (update_allowed u <-> exists bs, GovernanceUpdate.payload u = Ok bs) /\
  (forall bs, GovernanceUpdate.payload u = Ok bs ->
     length bs = 32%nat /\ read_payload (GovernanceUpdate.kind u) bs = u) /\
  GovernanceUpdate.payload u <> Panic.
Proof.
  intros Ht. assert (Hp : GovernanceUpdate.payload u <> Panic) by (destruct u; cbn [GovernanceUpdate.payload]; unfold reject_if; by repeat case_match).
  destruct u as [v|pb mb|v|v m|[mp md ml]|k|k]; cbn [update_typed update_allowed GovernanceUpdate.kind read_payload] in *;
    (split; [|split; [|exact Hp]]); clear Hp; cbn [GovernanceUpdate.payload].
  - split; [eauto|done].
  - intros bs <-%Ok_inj. split; [apply front_length; rewrite length_to_le_bytes; lia|]. f_equal.
    rewrite <- (app_nil_r (to_le_bytes 8 v)). apply (front_int 0 8 []); [done|apply Ht].
  - split; [intros [H1 H2]; eexists|intros [bs H]; inv_ok H]; reflect_bool; try done; lia.
  - intros bs H. inv_ok H. apply Ok_inj in H as <-.
    split; [apply front_length; rewrite length_app, !length_to_le_bytes; lia|]. f_equal; [apply (front_int 0 2 []); [done|apply Ht]|].
    rewrite <- (app_nil_r (to_le_bytes 2 mb)). apply (front_int 2 2); [apply length_to_le_bytes|apply Ht].
  - split; [eauto|done].
  - intros bs <-%Ok_inj. split; [apply front_length; rewrite length_to_le_bytes; lia|]. f_equal.
    rewrite <- (app_nil_r (to_le_bytes 16 v)). apply (front_int 0 16 []); [done|apply Ht].
  - rewrite <- land_lnot_zero, <- known_bits. split.
    + intros (H1 & H2 & H3). rewrite H2, H3, (proj2 (Z.eqb_neq m 0) H1). eexists. reflexivity.
    + intros [bs H]. inv_ok H. reflect_bool; done.
  - intros bs H. inv_ok H. apply Ok_inj in H as <-.
    split; [apply front_length; rewrite length_app, !length_to_le_bytes; lia|]. f_equal; [apply (front_int 0 4 []); [done|apply Ht]|].
    rewrite <- (app_nil_r (to_le_bytes 4 m)). apply (front_int 4 4); [apply length_to_le_bytes|apply Ht].
  - cbn [pu_max_open_positions pu_max_rebalance_drift_bps pu_min_main_liquidity_bps] in *.
    unfold MAX_REBALANCE_DRIFT_BPS, fits in *.
    split; [intros H; eexists|intros [bs H]; inv_ok H]; reflect_bool; try done; lia.
  - cbn [pu_max_open_positions pu_max_rebalance_drift_bps pu_min_main_liquidity_bps] in *.
    intros bs H. inv_ok H. apply Ok_inj in H as <-.
    split; [apply front_length; rewrite !length_app, !length_to_le_bytes; lia|]. do 2 f_equal.
    + apply (front_int 0 2 []); [done|apply Ht].
    + apply (front_int 2 2); [apply length_to_le_bytes|apply Ht].
    + rewrite app_assoc, <- (app_nil_r (to_le_bytes 2 ml)). apply (front_int 4 2);
        [by rewrite length_app, !length_to_le_bytes|apply Ht].
  - split; [intros H; rewrite bool_decide_false by done; eexists; reflexivity|].
    intros [bs H]. inv_ok H. match goal with H : bool_decide _ = false |- _ => by apply bool_decide_eq_false in H end.
  - intros bs H. inv_ok H. by apply Ok_inj in H as <-.
  - split; [intros H; rewrite bool_decide_false by done; eexists; reflexivity|].
    intros [bs H]. inv_ok H. match goal with H : bool_decide _ = false |- _ => by apply bool_decide_eq_false in H end.
  - intros bs H. inv_ok H. by apply Ok_inj in H as <-.
Qed.

Lemma governance_payload_roundtrip_witness :
  GovernanceUpdate.payload (GovernanceUpdate.Policy {| pu_max_open_positions := 4; pu_max_rebalance_drift_bps := 50;
                                                       pu_min_main_liquidity_bps := 1000 |})
  = Ok ([4; 0; 50; 0; 232; 3] ++ replicate 26 0) /\
  read_payload UpdateKind.Policy ([4; 0; 50; 0; 232; 3] ++ replicate 26 0)
  = GovernanceUpdate.Policy {| pu_max_open_positions := 4; pu_max_rebalance_drift_bps := 50;
                               pu_min_main_liquidity_bps := 1000 |}.
Proof.
  split; [reflexivity|].
  apply (governance_payload_roundtrip (GovernanceUpdate.Policy {| pu_max_open_positions := 4;
    pu_max_rebalance_drift_bps := 50; pu_min_main_liquidity_bps := 1000 |})); [|reflexivity].
  cbn. unfold fits. lia.
Defined.

(** ** What the owner's operations require *)

(** The operations that read the vault before they build their instruction. *)
Inductive OwnerOp :=
| TopUp (amount shard : Z)
| FinalizeShutdown (shard : Z)
| Unlock (shares : Z)
| ApplyFeeRecipient (recipient : key)
| RevokeNomination
| ApplyUpdate (kind : UpdateKind.t) (shard : Z)
| CancelUpdate (kind : UpdateKind.t)
| StartShutdown
| CloseVault.

(** Which need the actor to be the vault's governance, and which an empty staging slot. *)
Definition needs_governance (op : OwnerOp) : bool :=
  match op with FinalizeShutdown _ | ApplyUpdate _ _ | CancelUpdate _ => false | _ => true end.
Definition needs_unstaged (op : OwnerOp) : bool :=
  match op with
  | TopUp _ _ | FinalizeShutdown _ | StartShutdown | CloseVault => true
  | ApplyUpdate (UpdateKind.Fees | UpdateKind.HwmReset | UpdateKind.SecondLeg) _ => true
  | _ => false
  end.
Definition op_code (op : OwnerOp) : Z :=
  VaultIx.code match op with
  | TopUp _ _ => VaultIx.TopUpManagerStake | FinalizeShutdown _ => VaultIx.FinalizeShutdown
  | Unlock _ => VaultIx.UnlockManagerStake | ApplyFeeRecipient _ => VaultIx.ApplyFeeRecipientUpdate
  | RevokeNomination => VaultIx.RevokeGovernanceNomination | ApplyUpdate _ _ => VaultIx.ApplyVaultUpdate
  | CancelUpdate _ => VaultIx.CancelVaultUpdate | StartShutdown => VaultIx.StartShutdown | CloseVault => VaultIx.CloseVault
  end.

Create HintDb owner.
Create HintDb owner_ops.

(** Show an operation as what it does after its first call. *)
Ltac rpc_unfold := unfold mbind, rpc_bind.

Section guards.
Context `{P : Pda} `{B : PdaBump} `{N : Cluster}.

Definition run_owner (program : key) (self : VaultManager) (op : OwnerOp) : rpc Instruction :=
  match op with
  | TopUp amount shard => OwnerRpc.top_up_manager_stake_from_chain program self amount shard
  | FinalizeShutdown shard => OwnerRpc.finalize_shutdown_from_chain program self shard
  | Unlock shares => OwnerRpc.unlock_manager_stake_from_chain program self shares
  | ApplyFeeRecipient recipient => OwnerRpc.apply_fee_recipient_update_from_chain program self recipient
  | RevokeNomination => OwnerRpc.revoke_governance_nomination_from_chain program self
  | ApplyUpdate kind shard => OwnerRpc.apply_update_from_chain program self kind shard
  | CancelUpdate kind => OwnerRpc.cancel_update_from_chain program self kind
  | StartShutdown => OwnerRpc.start_shutdown_from_chain program self
  | CloseVault => OwnerRpc.close_vault_from_chain program self
  end.

#[local] Hint Unfold OwnerRpc.top_up_manager_stake_from_chain
  OwnerRpc.finalize_shutdown_from_chain OwnerRpc.unlock_manager_stake_from_chain
  OwnerRpc.apply_fee_recipient_update_from_chain OwnerRpc.revoke_governance_nomination_from_chain
  OwnerRpc.apply_update_from_chain OwnerRpc.cancel_update_from_chain OwnerRpc.start_shutdown_from_chain
  OwnerRpc.close_vault_from_chain OwnerRpc.current_owner_state OwnerRpc.require_governance
  OwnerRpc.require_unstaged OwnerRpc.load_price_section OwnerRpc.prices_for_second_balance OwnerRpc.fetch_proposal
  fetch_account vaulted : owner.

#[local] Hint Unfold OwnerRpc.top_up_manager_stake_from_chain
  OwnerRpc.finalize_shutdown_from_chain OwnerRpc.unlock_manager_stake_from_chain
  OwnerRpc.apply_fee_recipient_update_from_chain OwnerRpc.revoke_governance_nomination_from_chain
  OwnerRpc.apply_update_from_chain OwnerRpc.start_shutdown_from_chain OwnerRpc.close_vault_from_chain : owner_ops.

Lemma run_owner_reads program self op : reads_only (run_owner program self op).
Proof.
  destruct op; cbn; repeat first [reads_only_step | apply reads_only_lift | progress (autounfold with owner)].
Qed.

(** The state an operation saw: read from the vault's own account, current for the manager
    and under the delegate it was built for. *)
Definition saw (program : key) (self : VaultManager) (state : VaultAccount) : Prop :=
  program = a_program_id (vm_args self) /\
  (exists n account, get_account n (ad_vault (vm_addresses self)) = inr account /\
     VaultAccountOps.from_account account program = Ok state) /\
  Manager.ensure_current self state = Ok tt /\ va_primary_delegate state = a_delegate_authority (vm_args self).

Lemma vaulted_Ok {A} (m : cres A) s a s' : vaulted m s = (Ok a, s') <-> m = Ok a /\ s' = s.
Proof. unfold vaulted. rewrite lift_Ok, map_err_Ok. done. Qed.

Lemma current_owner_state_Ok program self s state s' :
  OwnerRpc.current_owner_state program self s = (Ok state, s') -> saw program self state.
Proof.
  intros H. unfold OwnerRpc.current_owner_state in H.
  apply rpc_bind_Ok in H as (? & s1 & H1 & H). apply lift_Ok in H1 as [H1 ->].
  apply reject_if_Ok, negb_false_iff, bool_decide_eq_true in H1.
  apply rpc_bind_Ok in H as (account & s2 & H2 & H). apply call_Ok in H2 as [H2 ->].
  apply rpc_bind_Ok in H as (state' & s3 & H3 & H). apply vaulted_Ok in H3 as [H3 ->].
  apply rpc_bind_Ok in H as ([] & s4 & H4 & H). apply vaulted_Ok in H4 as [H4 ->].
  apply rpc_bind_Ok in H as (? & s5 & H5 & H). apply lift_Ok in H5 as [H5 ->].
  apply reject_if_Ok, negb_false_iff, bool_decide_eq_true in H5. apply mret_Ok in H as [-> _].
  split; [done|]. split; [by eexists _, _|done].
Qed.

Lemma require_governance_Ok self state s u s' :
  OwnerRpc.require_governance self state s = (Ok u, s') ->
  a_actor (vm_args self) = va_governance_authority state.
Proof. intros [H _]%vaulted_Ok. by apply reject_if_Ok, negb_false_iff, bool_decide_eq_true in H. Qed.

Lemma require_unstaged_Ok state s u s' :
  OwnerRpc.require_unstaged state s = (Ok u, s') -> open (va_staging state) = None.
Proof. intros [H _]%vaulted_Ok. apply reject_if_Ok in H. by destruct (open _). Qed.

(** Every account but the actor's own is unsigned. *)
Definition actor_signs (self : VaultManager) (ix : Instruction) : Prop :=
  forall m, m ∈ accounts ix -> is_signer m = true -> pubkey m = a_actor (vm_args self).

Definition unsigned (metas : list AccountMeta) : Prop := Forall (fun m => is_signer m = false) metas.

Lemma price_section_unsigned self main second shard section :
  Manager.price_section self main second shard = Ok section -> unsigned section.
Proof.
  intros H. apply Forall_forall. unfold Manager.price_section in H. inv_ok H. apply Ok_inj in H as <-. intros m Hm.
  apply elem_of_app in Hm as [Hm|Hm]; unfold PriceRouteOps.accounts, PriceRouteOps.brick_accounts in Hm;
    (apply elem_of_cons in Hm as [->|Hm]; [done|]; apply list_elem_of_In, in_concat in Hm as (l & Hl & Hm);
     apply in_map_iff in Hl as (b & <- & _); destruct b; cbn in Hm; intuition; by subst).
Qed.

Lemma load_price_section_unsigned program self shard s section s' :
  OwnerRpc.load_price_section program self shard s = (Ok section, s') -> unsigned section.
Proof.
  intros H. unfold OwnerRpc.load_price_section in H.
  apply rpc_bind_Ok in H as (? & s1 & _ & H). apply rpc_bind_Ok in H as (main & s2 & _ & H).
  apply rpc_bind_Ok in H as (? & s3 & _ & H). apply rpc_bind_Ok in H as (second & s4 & _ & H).
  apply vaulted_Ok in H as [H _]. by eapply price_section_unsigned.
Qed.

Lemma second_prices_unsigned program self shard s section s' :
  OwnerRpc.prices_for_second_balance program self shard s = (Ok section, s') -> unsigned section.
Proof.
  intros H. unfold OwnerRpc.prices_for_second_balance in H.
  apply rpc_bind_Ok in H as (? & s1 & _ & H). apply rpc_bind_Ok in H as (amount & s2 & _ & H).
  destruct (amount =? 0); [apply mret_Ok in H as [-> _]; by constructor|]. by eapply load_price_section_unsigned.
Qed.

(** A list of accounts that only the actor signs, followed by unsigned ones. *)
Lemma actor_signs_app self ix metas section :
  accounts ix = metas ++ section ->
  Forall (fun m => is_signer m = true -> pubkey m = a_actor (vm_args self)) metas ->
  unsigned section -> actor_signs self ix.
Proof.
  unfold actor_signs. intros -> Hm Hs m Hin Hsig. apply elem_of_app in Hin as [Hin|Hin].
  - rewrite Forall_forall in Hm. by apply Hm.
  - unfold unsigned in Hs. rewrite Forall_forall in Hs. by rewrite (Hs m Hin) in Hsig.
Qed.

Lemma actor_signs_all self ix :
  Forall (fun m => is_signer m = true -> pubkey m = a_actor (vm_args self)) (accounts ix) -> actor_signs self ix.
Proof. intros H m. rewrite Forall_forall in H. apply H. Qed.

(** Peel one step off an operation of the owner. *)
Ltac owner_step H :=
  lazymatch type of H with
  | vaulted _ _ = (Ok _, _) => apply vaulted_Ok in H as [H _]
  | mret _ _ = (Ok _, _) => apply mret_Ok in H as [-> _]
  | _ =>
      let a := fresh "v" in let s := fresh "st" in let H' := fresh "Hop" in
      apply rpc_bind_Ok in H as (a & s & H' & H);
      first [apply current_owner_state_Ok in H' | apply require_governance_Ok in H' | apply require_unstaged_Ok in H'
            | apply load_price_section_unsigned in H' | apply second_prices_unsigned in H' | idtac]
  end.

Lemma built_update_Ok self kind payer prices ix :
  Owner.apply_update self kind payer prices = Ok ix -> unsigned (default [] prices) ->
  program_id ix = a_program_id (vm_args self) /\ data ix !! 0%nat = Some (VaultIx.code VaultIx.ApplyVaultUpdate) /\
  actor_signs self ix.
Proof.
  intros H Hp. unfold Owner.apply_update in H. apply bind_Ok in H as (? & _ & H).
  destruct kind; try (apply Ok_inj in H as <-; do 2 (split; [done|]); apply actor_signs_all; by repeat constructor);
    (destruct prices as [section|]; [|done]; apply Ok_inj in H as <-; do 2 (split; [done|]);
     eapply (actor_signs_app _ _ [_; _; _; _; _; _; _; _; _; _; _; _; _; _] section);
     [reflexivity|by repeat constructor|exact Hp]).
Qed.

Lemma built_second_leg_Ok self payer mint prices ix :
  Owner.apply_second_leg self payer mint (Some prices) = Ok ix -> unsigned prices ->
  program_id ix = a_program_id (vm_args self) /\ data ix !! 0%nat = Some (VaultIx.code VaultIx.ApplyVaultUpdate) /\
  actor_signs self ix.
Proof.
  intros H Hp. unfold Owner.apply_second_leg in H. apply bind_Ok in H as (? & _ & H). apply Ok_inj in H as <-.
  do 2 (split; [done|]). eapply actor_signs_app; [reflexivity|by repeat constructor|exact Hp].
Qed.

Lemma apply_update_Ok program self kind shard s ix s' :
  OwnerRpc.apply_update_from_chain program self kind shard s = (Ok ix, s') ->
  exists state, saw program self state /\
    (needs_governance (ApplyUpdate kind shard) = true -> a_actor (vm_args self) = va_governance_authority state) /\
    (needs_unstaged (ApplyUpdate kind shard) = true -> open (va_staging state) = None) /\
    program_id ix = a_program_id (vm_args self) /\ data ix !! 0%nat = Some (VaultIx.code VaultIx.ApplyVaultUpdate) /\
    actor_signs self ix.
Proof.
  intros H. owner_step H. apply rpc_bind_Ok in H as (u & s1 & Hu & H). owner_step H. destruct v0 as [payer payload].
  exists v. split; [done|]. split; [done|]. split.
  - intros Hn. destruct kind; try discriminate Hn; by apply require_unstaged_Ok in Hu.
  - destruct kind; repeat owner_step H; first [by eapply built_second_leg_Ok | by eapply built_update_Ok | idtac].
    all: eapply built_update_Ok; [exact H|by constructor].
Qed.

(** What each operation's instruction is, once built. *)
Lemma run_owner_Ok program self op s ix s' :
  run_owner program self op s = (Ok ix, s') ->
  exists state, saw program self state /\
    (needs_governance op = true -> a_actor (vm_args self) = va_governance_authority state) /\
    (needs_unstaged op = true -> open (va_staging state) = None) /\
    program_id ix = a_program_id (vm_args self) /\ data ix !! 0%nat = Some (op_code op) /\ actor_signs self ix.
Proof.
  intros H. destruct op as [amount shard|shard|shares|recipient| |kind shard|kind| |]; cbn [run_owner] in H.
  - do 5 owner_step H. unfold Owner.top_up_manager_stake in H. inv_ok H. apply Ok_inj in H as <-. exists v.
    do 5 (split; [done|]). eapply (actor_signs_app _ _ (Owner.owner_equity_accounts self ++ [_]) v2);
      [by rewrite <- app_assoc|by repeat constructor|done].
  - do 4 owner_step H. exists v. do 5 (split; [done|]).
    apply (actor_signs_app _ _ (Owner.owner_equity_accounts self) v1); [done|by repeat constructor|done].
  - do 3 owner_step H. unfold Owner.unlock_manager_stake in H. inv_ok H. apply Ok_inj in H as <-. exists v.
    do 5 (split; [done|]). apply actor_signs_all. by repeat constructor.
  - do 3 owner_step H. unfold Owner.apply_fee_recipient_update in H. inv_ok H. apply Ok_inj in H as <-. exists v.
    do 5 (split; [done|]). apply actor_signs_all. by repeat constructor.
  - do 3 owner_step H. unfold Owner.revoke_governance_nomination in H. inv_ok H. apply Ok_inj in H as <-. exists v.
    do 5 (split; [done|]). apply actor_signs_all. by repeat constructor.
  - by eapply apply_update_Ok.
  - do 3 owner_step H. destruct v1 as [payer payload]. owner_step H. exists v0.
    do 5 (split; [done|]). apply actor_signs_all. by repeat constructor.
  - do 4 owner_step H. exists v. do 5 (split; [done|]). apply actor_signs_all. by repeat constructor.
  - do 4 owner_step H. exists v. do 5 (split; [done|]). apply actor_signs_all. by repeat constructor.
Qed.
(** A guard that fails is the operation's answer, right after the vault was read. *)
Lemma run_owner_refused program self op s state s1 :
  OwnerRpc.current_owner_state program self s = (Ok state, s1) ->
  (needs_governance op = true -> a_actor (vm_args self) <> va_governance_authority state ->
   run_owner program self op s = (Err (ChainError.Vault VaultChainError.GovernanceAuthorityRequired), s1)) /\
  (needs_unstaged op = true -> (needs_governance op = true -> a_actor (vm_args self) = va_governance_authority state) ->
   open (va_staging state) <> None ->
   run_owner program self op s = (Err (ChainError.Vault VaultChainError.Staged), s1)).
Proof.
  intros H. split.
  - intros Hop Hno. destruct op; try discriminate Hop; unfold run_owner; autounfold with owner_ops;
      rpc_unfold; rewrite H; cbn; by rewrite bool_decide_false.
  - intros Hop Hyes Hst. destruct op as [| | | | |kind shard| | |]; try destruct kind; try discriminate Hop;
      unfold run_owner; autounfold with owner_ops; rpc_unfold; rewrite H; cbn;
      rewrite ?bool_decide_true by (by apply Hyes); by destruct (open _).
Qed.

(** Once read, with the guards met, a shutdown is started and a vault closed. *)
Lemma run_owner_done program self s state s1 :
  OwnerRpc.current_owner_state program self s = (Ok state, s1) ->
  a_actor (vm_args self) = va_governance_authority state -> open (va_staging state) = None ->
  run_owner program self StartShutdown s = (Ok (Owner.start_shutdown self), s1) /\
  run_owner program self CloseVault s = (Ok (Owner.close_vault self), s1).
Proof.
  intros H Hgov Hopen. unfold run_owner. autounfold with owner_ops. rpc_unfold.
  rewrite !H. cbn. by rewrite (bool_decide_true _ Hgov), Hopen.
Qed.
End guards.

(** C34: An owner's operation only reads: whatever its result, it has submitted nothing.
    It builds its instruction only for a vault it has read: the vault's own account, owned
    by the manager's program and current for the manager and its delegate.  Topping up and
    unlocking the manager's stake, setting the fee recipient, revoking a nomination,
    starting a shutdown and closing the vault need the actor to be the vault's governance;
    finalizing a shutdown and applying or cancelling a proposed update do not.  Topping up,
    starting and finalizing a shutdown, closing, and applying new fees, a high-water mark
    reset or a second leg need an empty staging slot.  A vault that fails its guard is
    refused with that error before anything else is read, and with the guards met a
    shutdown is started and a vault closed; a high-water mark reset is never cancelled
    here, without even a read.  The instruction is the operation's, for the manager's
    program, and no one but the actor signs it. *)
Theorem owner_operations_guarded `{P : Pda} `{B : PdaBump} `{N : Cluster} program self :
  (forall op s, submitted (run_owner program self op s).2 = submitted s) /\
  (forall op s ix s', run_owner program self op s = (Ok ix, s') ->
     exists state, saw program self state /\
       (needs_governance op = true -> a_actor (vm_args self) = va_governance_authority state) /\
       (needs_unstaged op = true -> open (va_staging state) = None) /\
       program_id ix = a_program_id (vm_args self) /\ data ix !! 0%nat = Some (op_code op) /\
       (forall m, m ∈ accounts ix -> is_signer m = true -> pubkey m = a_actor (vm_args self))) /\
  (forall s state s1, OwnerRpc.current_owner_state program self s = (Ok state, s1) ->
     (forall op, needs_governance op = true -> a_actor (vm_args self) <> va_governance_authority state ->
        run_owner program self op s = (Err (ChainError.Vault VaultChainError.GovernanceAuthorityRequired), s1)) /\
     (forall op, needs_unstaged op = true ->
        (needs_governance op = true -> a_actor (vm_args self) = va_governance_authority state) ->
        open (va_staging state) <> None ->
        run_owner program self op s = (Err (ChainError.Vault VaultChainError.Staged), s1)) /\
     (a_actor (vm_args self) = va_governance_authority state -> open (va_staging state) = None ->
      run_owner program self StartShutdown s = (Ok (Owner.start_shutdown self), s1) /\
      run_owner program self CloseVault s = (Ok (Owner.close_vault self), s1))) /\
  (forall s, run_owner program self (CancelUpdate UpdateKind.HwmReset) s
             = (Err (ChainError.Vault VaultChainError.ColdAuthorityRequired), s)).
Proof.
  split; [apply run_owner_reads|]. split; [apply run_owner_Ok|]. split; [|done].
  intros s state s1 H. split; [intros op; by apply (run_owner_refused program self op s)|].
  split; [intros op; by apply (run_owner_refused program self op s)|by apply run_owner_done].
Qed.

Module OwnerSample.
(** A program-derived address that depends on every seed. *)
#[local] Instance pda : Pda :=
  {| find_program_address seeds program :=
       key_of (foldl (fun h b => (31 * h + b + 1) mod 251) 0 (concat seeds ++ program)) |}.
#[global] Instance bump : PdaBump := {| find_bump _ _ := 255 |}.
Definition manager_of (actor : key) : VaultManager :=
  match Manager.from_vault (key_of 7) actor AccountSample.vault with
  | Ok m => m
  | _ => VaultSample.manager
  end.
Definition manager : VaultManager := manager_of (key_of 2).
Definition stranger : VaultManager := manager_of (key_of 99).
Definition vault : VaultAccount :=
  {| va_vault_id := key_of 1; va_phase := VaultPhase.Idle; va_safety := VaultSafety.Normal;
     va_equity_computed := false; va_accepting_deposits := true; va_governance_authority := key_of 2;
     va_primary_delegate := key_of 3; va_pending_governance_authority := key_of 0;
     va_fee_recipient := key_of 4; va_main_mint := key_of 11; va_second_mint := key_of 12;
     va_share_mint := key_of 13; va_main_token_program := TOKEN_PROGRAM_ID;
     va_second_token_program := TOKEN_2022_PROGRAM_ID; va_active_expiry := 0;
     va_open_positions := 0; va_total_shares := 5000; va_pending_deposit_count := 0;
     va_pending_withdraw_count := 0; va_capital_fallback_delay_secs := 3600; va_closing_started_at := 0;
     va_boundary_equity := 7; va_boundary_shares := 8;
     va_staging := {| generation := 3; open := None |}; va_second_leg_generation := 1 |}.
Definition cluster : Cluster :=
  RpcSample.cluster
    [(ad_vault (vm_addresses manager),
      holding 1 (key_of 7) (vault_segments vault 0 1 AccountSample.reserved));
     (ad_vault_second_ata (vm_addresses manager),
      holding 1 (a_second_token_program (vm_args manager))
        [a_second_mint (vm_args manager); ad_vault (vm_addresses manager); replicate 44 0; [1]; replicate 56 0])] 0 0 0.
End OwnerSample.

Lemma owner_operations_guarded_witness :
  exists ix s', run_owner (P := OwnerSample.pda) (N := OwnerSample.cluster) (key_of 7) OwnerSample.manager StartShutdown
                  RpcSample.start = (Ok ix, s') /\
    submitted s' = [] /\ data ix !! 0%nat = Some 67.
Proof.
  destruct (owner_operations_guarded (P := OwnerSample.pda) (N := OwnerSample.cluster) (key_of 7)
    OwnerSample.manager) as (Hs & Hok & _).
  specialize (Hs StartShutdown RpcSample.start).
  destruct (run_owner (P := OwnerSample.pda) (N := OwnerSample.cluster) (key_of 7) OwnerSample.manager StartShutdown
    RpcSample.start) as [r s'] eqn:H.
  assert (Hr : exists ix, r = Ok ix) by (vm_compute in H; injection H as <- _; by eexists).
  destruct Hr as [ix ->]. exists ix, s'. split; [reflexivity|]. split; [exact Hs|].
  destruct (Hok StartShutdown RpcSample.start ix s' H) as (_ & _ & _ & _ & _ & Hd & _). exact Hd.
Defined.

(** An actor who is not the vault's governance cannot start its shutdown, and can finalize
    it. *)
Example finalizing_needs_no_governance :
  let ran op := (run_owner (P := OwnerSample.pda) (N := OwnerSample.cluster) (key_of 7) OwnerSample.stranger op
                   RpcSample.start).1 in
  ran StartShutdown = Err (ChainError.Vault VaultChainError.GovernanceAuthorityRequired) /\
  ran (FinalizeShutdown 0) = Ok (Owner.finalize_shutdown OwnerSample.stranger []).
Proof. split; vm_compute; reflexivity. Qed.
