(* ===== verification/Intent.v ===== *)
(** * Opening a position on a vault's behalf ([src/chain/vault/served.rs], [verify_vault_open])

    The signer says what it agreed to open; the expected transaction is rebuilt from that
    and the served one must be it. *)

From Stdlib Require Import ZArith Lia Ascii String.
From stdpp Require Import base list gmap sets strings.
From S2P Require Import Prelude Spreads Terms Signing Orders Quote Messages Challenge Chain Account Price Vault Opens Wire Served.

Open Scope Z_scope.

Module VaultOpenIntent.
(* chain/vault/served.rs:143-184 VaultOpenIntent *)
Inductive t :=
| Sale (keeper : key) (writer : VaultManager) (maker_owner maker_quote_signer : key) (terms : VaultSaleTerms.t)
| BetweenVaults (keeper : key) (writer holder : VaultManager) (terms : VaultSaleTerms.t)
| Fill (keeper : key) (holder : VaultManager) (taker : key) (terms : VaultSaleTerms.t)
| Buy (keeper : key) (writer : VaultManager) (holder : key) (terms : VaultSaleTerms.t).
End VaultOpenIntent.

Section open.
Context `{C : Crypto} `{P : Pda} (base64_decode : string -> option bytes).
Abbreviation ata := derive_associated_token_address (only parsing).

(* chain/vault/served.rs:817-838 create_ata_idempotent *)
Definition create_ata_idempotent (payer owner mint token_program : key) : Instruction :=
  {| program_id := ASSOCIATED_TOKEN_PROGRAM_ID;
     accounts := [meta_new payer true; meta_new (ata owner mint token_program) false;
                  new_readonly owner false; new_readonly mint false;
                  new_readonly SYSTEM_PROGRAM_ID false; new_readonly token_program false];
     data := [1] |}.

(** What the intent stands for: keeper, participant, quote signer, and the open itself.
    [?] wraps a [VaultChainError] as [Intent]. *)
(* chain/vault/served.rs:217-291 verify_vault_open (intent) *)
Definition intended (intent : VaultOpenIntent.t) : ires (key * key * key * VaultOpenPosition) :=
  match intent with
  | VaultOpenIntent.Sale keeper writer maker_owner maker_quote_signer terms =>
      opened ← map_err VaultIntentError.Intent
        match terms with
        | VaultSaleTerms.Physical terms => Opening.open_position_as_writer writer keeper maker_owner terms
        | VaultSaleTerms.Spread terms => Opening.open_spread_as_writer writer keeper maker_owner terms
        end;
      Ok (keeper, a_actor (vm_args writer), maker_quote_signer, opened)
  | VaultOpenIntent.BetweenVaults keeper writer holder terms =>
      opened ← map_err VaultIntentError.Intent
        match terms with
        | VaultSaleTerms.Physical terms => Opening.open_position_with_vault_holder writer keeper holder terms
        | VaultSaleTerms.Spread terms => Opening.open_spread_with_vault_holder writer keeper holder terms
        end;
      Ok (keeper, a_actor (vm_args writer), a_delegate_authority (vm_args holder), opened)
  | VaultOpenIntent.Fill keeper holder taker terms =>
      opened ← map_err VaultIntentError.Intent
        match terms with
        | VaultSaleTerms.Physical terms => Opening.open_position_as_holder holder keeper taker terms
        | VaultSaleTerms.Spread terms => Opening.open_spread_as_holder holder keeper taker terms
        end;
      Ok (keeper, taker, a_delegate_authority (vm_args holder), opened)
  | VaultOpenIntent.Buy keeper writer holder terms =>
      opened ← map_err VaultIntentError.Intent
        match terms with
        | VaultSaleTerms.Physical terms => Opening.open_position_for_wallet_holder writer keeper holder terms
        | VaultSaleTerms.Spread terms => Opening.open_spread_for_wallet_holder writer keeper holder terms
        end;
      Ok (keeper, holder, a_delegate_authority (vm_args writer), opened)
  end.

(* chain/vault/served.rs:308-330 verify_vault_open (taker account) *)
Definition taker_account (intent : VaultOpenIntent.t) (keeper : key) : list Instruction :=
  match intent with
  | VaultOpenIntent.Fill _ holder taker terms =>
      let quote_mint := match terms with
                        | VaultSaleTerms.Physical terms => tt_quote_mint terms
                        | VaultSaleTerms.Spread terms => st_quote_mint terms
                        end in
      let args := vm_args holder in
      let '(mint, program) :=
        if bool_decide (a_main_mint args = quote_mint)
        then (a_main_mint args, a_main_token_program args)
        else (a_second_mint args, a_second_token_program args) in
      [create_ata_idempotent keeper taker mint program]
  | _ => []
  end.

(* chain/vault/served.rs:295-341 verify_vault_open (static accounts) *)
Definition static_accounts (keeper participant : key) (opened : VaultOpenPosition)
  (expected : list Instruction) : list key :=
  [keeper; participant; pa_position (vo_addresses opened); pa_collateral_ata (vo_addresses opened)] ++
  map program_id expected ++
  map pubkey (filter (fun m => is_signer m = true) (concat (map accounts expected))).

(* chain/vault/served.rs:208-344 verify_vault_open *)
Definition verify_vault_open (to_sign : SponsoredTxToSignData) (intent : VaultOpenIntent.t)
  (tables : list LookupTable) (bounds : ComputeBudgetBounds) : ires VerifiedTransaction :=
  served ← decode_base64 base64_decode (stx_tx_base64 to_sign) tables;
  _ ← require_vault_open_wire_shape served;
  '(keeper, participant, quote_signer, opened) ← intended intent;
  _ ← reject_if (negb (bool_decide (vo_order_id opened = stx_order_id to_sign))) VaultIntentError.OrderId;
  let addresses := vo_addresses opened in
  let collateral_ata := create_ata_idempotent keeper (pa_position addresses)
                          (pa_collateral_mint addresses) (pa_collateral_token_program addresses) in
  budget ← compute_budget served bounds;
  let expected := budget ++ taker_account intent keeper ++ [collateral_ata] in
  signature ← quote_signature served (length expected) quote_signer (vo_order_id opened);
  let expected := expected ++ [signature; vo_instruction opened] in
  _ ← require_static_accounts served (static_accounts keeper participant opened expected);
  matches served keeper expected.
End open.

(** ** Who signs *)

Definition signers_of (ix : Instruction) : list key := map pubkey (filter (fun m => is_signer m = true) (accounts ix)).

Lemma elem_signers_of k ix : k ∈ signers_of ix <-> exists m, m ∈ accounts ix /\ k = pubkey m /\ is_signer m = true.
Proof.
  unfold signers_of. change (map pubkey) with (fmap (M := list) pubkey). rewrite list_elem_of_fmap.
  setoid_rewrite list_elem_of_filter. naive_solver.
Qed.

Lemma asks_signers payer expected k :
  asks is_signer payer expected k <-> k = payer \/ exists ix, ix ∈ expected /\ k ∈ signers_of ix.
Proof. unfold asks. setoid_rewrite elem_signers_of. naive_solver. Qed.

Section facts.
Context `{C : Crypto} `{P : Pda}.

(** Every route asks exactly the keeper and its participant to sign. *)
Lemma intended_signers intent keeper participant quote_signer opened :
  intended intent = Ok (keeper, participant, quote_signer, opened) ->
  signers_of (vo_instruction opened) = [keeper; participant].
Proof.
  destruct intent as [? ? ? ? []|? ? ? []|? ? ? []|? ? ? []]; intros H; unfold intended in H; inv_ok H;
    injection H as <- <- <- <-;
    unfold Opening.open_position_as_writer, Opening.open_spread_as_writer,
      Opening.open_position_with_vault_holder, Opening.open_spread_with_vault_holder,
      Opening.open_position_as_holder, Opening.open_spread_as_holder,
      Opening.open_position_for_wallet_holder, Opening.open_spread_for_wallet_holder in Hv; cbv zeta in Hv;
    repeat match goal with H : (_ ≫= _) = Ok _ |- _ => apply bind_Ok in H as (? & _ & H) end;
    by injection Hv as <-.
Qed.

(** Only the keeper signs for the accounts that are created. *)
Lemma taker_account_signers intent keeper ix :
  ix ∈ taker_account intent keeper -> signers_of ix = [keeper].
Proof.
  destruct intent as [| |? holder taker terms|]; cbn [taker_account]; try (by intros ?%elem_of_nil).
  case_bool_decide; intros ->%list_elem_of_singleton; done.
Qed.
End facts.

(** The instructions a decoded transaction carries are made of bytes. *)
Lemma served_data_bytes tables bs self :
  served_decode tables bs = Ok self -> is_bytes bs ->
  Forall (fun ix => is_bytes (data ix)) (sm_instructions self).
Proof.
  intros Hd Hb. apply served_decode_Ok in Hd as (m & Hd & _ & _ & Hi & _). apply try_map_Ok in Hi.
  apply decode_layout in Hd as (cs & sigs & ver & req & ros & rou & ck & ckeys & hash & ci & insts & ls & -> &
    _ & _ & _ & _ & _ & _ & _ & _ & _ & _ & _ & _ & _ & _ & Hm & _).
  assert (Hins : is_bytes insts) by (unfold is_bytes in *; rewrite !Forall_app in Hb; tauto).
  destruct Hm as (texts & Hm & ->). clear Hb.
  revert texts Hm Hins. induction Hi as [|c ix cs' ixs Hc _ IH]; intros texts Hm Hins; [constructor|].
  inversion Hm as [|? text ? texts' (ca & cd & _ & (l & _ & ->) & ->) Hm']; subst. cbn [concat] in Hins.
  unfold is_bytes in *. rewrite !Forall_app in Hins. destruct Hins as [Ht Hr].
  constructor; [|by eapply IH]. unfold resolve_instruction in Hc. inv_ok Hc. injection Hc as <-. cbn.
  apply Forall_cons in Ht as [_ Ht]. rewrite !Forall_app in Ht. tauto.
Qed.

(** An inline Ed25519 check. *)
Definition ed25519_check (signer signature order_id : bytes) : Instruction :=
  {| program_id := ED25519_PROGRAM_ID; accounts := [];
     data := ED25519_HEADER ++ signer ++ signature ++ order_id |}.

Section sound.
Context `{C : Crypto} `{P : Pda} (base64_decode : string -> option bytes).

(** The whole transaction an intent stands for. *)
Definition open_transaction (intent : VaultOpenIntent.t) (limit price : Z) (signature : bytes)
  (keeper quote_signer : key) (opened : VaultOpenPosition) : list Instruction :=
  let a := vo_addresses opened in
  [budget_instruction SET_COMPUTE_UNIT_LIMIT (to_le_bytes 4 limit);
   budget_instruction SET_COMPUTE_UNIT_PRICE (to_le_bytes 8 price)] ++
  taker_account intent keeper ++
  [create_ata_idempotent keeper (pa_position a) (pa_collateral_mint a) (pa_collateral_token_program a);
   ed25519_check quote_signer signature (vo_order_id opened); vo_instruction opened].

Lemma open_signers intent limit price signature keeper participant quote_signer opened k :
  intended intent = Ok (keeper, participant, quote_signer, opened) ->
  asks is_signer keeper (open_transaction intent limit price signature keeper quote_signer opened) k <->
  k = keeper \/ k = participant.
Proof.
  intros Hi%intended_signers. rewrite asks_signers. unfold open_transaction. cbv zeta. split.
  - intros [->|(ix & Hix & Hk)]; [by left|].
    rewrite !elem_of_app, !elem_of_cons, elem_of_nil in Hix.
    destruct Hix as [[->|[->|[]]]|[Hix|[->|[->|[->|[]]]]]]; try (by apply elem_of_nil in Hk).
    + apply taker_account_signers in Hix. rewrite Hix in Hk. left. by apply list_elem_of_singleton in Hk.
    + left. by apply list_elem_of_singleton in Hk.
    + rewrite Hi in Hk. rewrite !elem_of_cons, elem_of_nil in Hk. tauto.
  - intros [->| ->]; [by left|]. right. exists (vo_instruction opened).
    rewrite Hi. split; [|set_solver]. rewrite !elem_of_app, !elem_of_cons. tauto.
Qed.

(** C24: A served open is accepted only if it is the transaction the intent stands for:
    a version-0 transaction that fits a packet, for the order id it is served for, whose
    instructions are a compute budget within bounds, the token accounts of the route, one
    Ed25519 check of the quote signer's valid signature over that order id, and the open
    instruction rebuilt from the terms.  The bytes accepted are the bytes served, and
    they ask for exactly two signatures, the keeper's (who pays) and the participant's. *)
Theorem verify_open_sound to_sign intent tables bounds tx :
  (forall s b, base64_decode s = Some b -> is_bytes b) ->
  verify_vault_open base64_decode to_sign intent tables bounds = Ok tx ->
  exists bs self keeper participant quote_signer opened limit price signature,
    base64_decode (stx_tx_base64 to_sign) = Some bs /\ vt_bytes tx = bs /\
    served_decode tables bs = Ok self /\ sm_is_version_zero self = true /\
    (sm_wire_len self <= MAX_TRANSACTION_WIRE_BYTES)%nat /\
    intended intent = Ok (keeper, participant, quote_signer, opened) /\
    vo_order_id opened = stx_order_id to_sign /\
    0 < limit <= Z.min (max_unit_limit bounds) MAX_COMPUTE_UNIT_LIMIT /\
    0 <= price <= max_unit_price_micro_lamports bounds /\
    ed_verify quote_signer (vo_order_id opened) signature = true /\
    (let expected := open_transaction intent limit price signature keeper quote_signer opened in
     Forall2 (same_instruction keeper expected) (sm_instructions self) expected) /\
    head (vt_signers tx) = Some keeper /\
    (forall k, k ∈ vt_signers tx <-> k = keeper \/ k = participant).
Proof.
  intros Hb64 H. unfold verify_vault_open in H. apply bind_Ok in H as (self & Hself & H).
  unfold decode_base64 in Hself. inv_ok Hself. rename v into bs.
  apply bind_Ok in H as ([] & Hshape & H). apply bind_Ok in H as ([[[keeper participant] quote_signer] opened] & Hint & H).
  apply bind_Ok in H as (u & Hid & H). inv_ok Hid. apply negb_false_iff, bool_decide_eq_true in Hid.
  cbv zeta in H. apply bind_Ok in H as (budget & Hbud & H). apply bind_Ok in H as (sig & Hsig & H).
  apply bind_Ok in H as (u' & _ & H).
  assert (Hbytes : Forall (fun ix => is_bytes (data ix)) (sm_instructions self))
    by (eapply served_data_bytes; [exact Hself|by eapply Hb64]).
  apply (compute_budget_Ok _ _ _ Hbytes) in Hbud as (_ & limit & price & Fl & Fp & -> & Hl & Hm & Hp).
  apply quote_signature_inv in Hsig as (_ & signature & _ & _ & Hver & ->).
  set (expected := open_transaction intent limit price signature keeper quote_signer opened).
  match type of H with matches _ _ ?e = _ => replace e with expected in H
    by (unfold expected, open_transaction; by rewrite <- !app_assoc) end.
  pose proof (fun k => matched_signers _ _ _ _ _ _ k Hself H) as Hs.
  pose proof (matched_payer _ _ _ _ _ _ Hself H) as [Hpay Hbs].
  apply matches_Ok in H as (-> & _ & Hix & _). unfold require_vault_open_wire_shape in Hshape. inv_ok Hshape.
  apply negb_false_iff in Hv0. apply Nat.ltb_ge in Hshape. unfold fits in *.
  exists bs, self, keeper, participant, quote_signer, opened, limit, price, signature.
  split_and!; try done; try lia. intros k. rewrite Hs. by eapply open_signers.
Qed.
End sound.

(** ** A served open, built here *)

Module OpenSample.
#[local] Existing Instance QuoteExample.pda.

(** A version-0 message for [expected]: the keys of [inline] in the message, the others
    through one lookup table. *)
Definition compile (payer : key) (expected : list Instruction) (inline : list key) (table : key)
  : CompiledMessage * LookupTable :=
  let entries := map_to_list (wanted_flags payer expected) in
  let pick s w := filter (fun k => k <> payer)
    (map fst (filter (fun e : key * Flags => snd e = {| signer := s; writable := w |}) entries)) in
  let signers := payer :: pick true true ++ pick true false in
  let static := signers ++ filter (fun k => k ∈ inline) (pick false true) ++
                filter (fun k => k ∈ inline) (pick false false) in
  let written := filter (fun k => k ∉ inline) (pick false true) in
  let read := filter (fun k => k ∉ inline) (pick false false) in
  let index (k : key) : Z :=
    match list_find (fun x => x = k) (static ++ written ++ read) with Some (i, _) => Z.of_nat i | None => 0 end in
  let n := length signers in
  ({| signatures_start := 1; message_start := 1 + 64 * n; required_signers := n;
      readonly_signed := length (pick true false);
      readonly_unsigned := length (filter (fun k => k ∈ inline) (pick false false));
      static_keys := static;
      instructions := map (fun ix => {| ci_program := index (program_id ix);
        ci_accounts := map (fun m => index (pubkey m)) (accounts ix); ci_data := data ix |}) expected;
      lookups := [{| l_table := table; l_writable := map Z.of_nat (seq 0 (length written));
                     l_readonly := map Z.of_nat (seq (length written) (length read)) |}];
      is_version_zero := true |},
   {| table_key := table; addresses := written ++ read |}).

Definition keeper : key := key_of 20.
Definition quote_signer : key := key_of 22.
Definition terms : VaultTradeTerms :=
  {| tt_underlying_mint := key_of 11; tt_quote_mint := key_of 15; tt_expiry_ts := 1760000000; tt_is_put := false;
     tt_side := TakerSide.Sell; tt_strike := 200; tt_quantity := 3; tt_price := 4; tt_valid_until := 1750000000;
     tt_nonce := 42 |}.
Definition intent : VaultOpenIntent.t :=
  VaultOpenIntent.Sale keeper VaultSample.manager (key_of 21) quote_signer (VaultSaleTerms.Physical terms).
Definition bounds : ComputeBudgetBounds := {| max_unit_limit := 300000; max_unit_price_micro_lamports := 100 |}.

Definition opened : VaultOpenPosition :=
  match intended intent with
  | Ok (_, _, _, opened) => opened
  | _ => {| vo_order_id := []; vo_instruction := budget_instruction 0 [];
            vo_addresses := {| pa_market := []; pa_position := []; pa_collateral_mint := [];
              pa_collateral_token_program := []; pa_collateral_ata := []; pa_config := []; pa_protocol_fee_ata := [] |} |}
  end.
Definition expected : list Instruction :=
  open_transaction intent 250000 90 (Sample.pad 64 (quote_signer ++ vo_order_id opened)) keeper quote_signer opened.
Definition compiled : CompiledMessage * LookupTable :=
  compile keeper expected (static_accounts keeper (key_of 3) opened expected) (key_of 99).
Definition wire : bytes := encode (fst compiled) (replicate 128 0) (key_of 5).
Definition to_sign : SponsoredTxToSignData :=
  {| stx_order_id := vo_order_id opened; stx_tx_base64 := Sample.encode wire; stx_last_valid_block_height := 77;
     stx_signature_deadline := 1750000000 * 1000000000 |}.
Definition base64_decode (s : string) : option bytes := Some (Sample.decode s).

Lemma base64_bytes s b : base64_decode s = Some b -> is_bytes b.
Proof.
  intros [= <-]. induction s as [|a s IH]; [constructor|]. constructor; [|exact IH].
  unfold fits. pose proof (N_ascii_bounded a). lia.
Qed.
End OpenSample.

Lemma verify_open_sound_witness :
  exists tx,
    verify_vault_open (P := QuoteExample.pda) OpenSample.base64_decode OpenSample.to_sign OpenSample.intent
      [snd OpenSample.compiled] OpenSample.bounds = Ok tx /\
    exists keeper participant, forall k, k ∈ vt_signers tx <-> k = keeper \/ k = participant.
Proof.
  destruct (verify_vault_open (P := QuoteExample.pda) OpenSample.base64_decode OpenSample.to_sign OpenSample.intent
      [snd OpenSample.compiled] OpenSample.bounds) as [tx| |] eqn:E;
    [|exfalso; vm_compute in E; discriminate E..].
  exists tx. split; [reflexivity|].
  destruct (verify_open_sound OpenSample.base64_decode _ _ _ _ _ OpenSample.base64_bytes E)
    as (bs & self & keeper & participant & qs & opened & limit & price & signature & _ & _ & _ & _ & _ & _ & _ & _ & _ & _ & _ & _ & Hs).
  exists keeper, participant. exact Hs.
Defined.
