(* ===== verification/SwapIntent.v ===== *)
(** * Swapping on a vault's behalf ([src/chain/vault/served.rs], [verify_vault_swap])

    The server chooses the route of a swap; the operator's request, its price routes and
    its floor bound what that route may do.  The served instruction is taken apart, the
    swap is rebuilt from the parts, and the transaction must be the rebuilt one. *)

From Stdlib Require Import ZArith Lia Ascii String.
From stdpp Require Import base list gmap sets strings.
From S2P Require Import Prelude Terms Signing Quote Messages Challenge Texts Chain Account Price Vault Wire Swap Served Intent.

Open Scope Z_scope.

(* chain/vault/served.rs:39-46 swap constants *)
Definition BPS : Z := 10000.
Definition STAGING_GENERATION_OFFSET : nat := 27.
Definition STAKE_POOL_PROGRAM_IDS : list key :=
  [[6; 129; 78; 212; 202; 246; 138; 23; 70; 114; 253; 172; 134; 3; 26; 99; 232; 78; 161; 94; 250; 29; 68; 183;
    34; 147; 246; 219; 219; 0; 22; 80];
   [6; 128; 202; 15; 153; 129; 125; 198; 134; 8; 196; 172; 91; 156; 165; 34; 163; 58; 89; 41; 241; 107; 218; 130;
    68; 164; 28; 3; 22; 185; 8; 237]].
Definition UPDATE_STAKE_POOL_BALANCE : Z := 7.

(* chain/vault/served.rs:186-194 PairPriceRoutes *)
Record PairPriceRoutes := {
  pp_main : PriceRoute; pp_second : PriceRoute; pp_staging : list PriceRoute; pp_shards : list Z }.

(* chain/vault/served.rs:196-206 VaultSwapIntent *)
Record VaultSwapIntent := {
  si_vault : VaultManager;
  si_request : SwapQuoteData;
  si_quote : SwapQuoteResultData;
  si_price_routes : PairPriceRoutes;
  si_min_output_floor : Z;
  si_account : VaultAccount;
}.

(* chain/vault/served.rs:810-815 parse_amount *)
Definition parse_amount (value field : string) : ires Z :=
  ok_or (parse_u64 (trim (as_bytes value))) (VaultIntentError.Terms field).

(** ** Parts of the check *)

Section swap.
Context `{C : Crypto} `{P : Pda} (base64_decode : string -> option bytes).
Abbreviation ata := derive_associated_token_address (only parsing).

(* chain/vault/served.rs:369-383 verify_vault_swap (kind) *)
Definition requested_kind (request : SwapQuoteData) : ires VaultSwapKind.t :=
  match rq_mode request, rq_direction request with
  | VaultSwapMode.Rebalance, VaultSwapDirection.MainToSecond => Ok (VaultSwapKind.Rebalance false)
  | VaultSwapMode.Rebalance, VaultSwapDirection.SecondToMain => Ok (VaultSwapKind.Rebalance true)
  | VaultSwapMode.Recovery, VaultSwapDirection.SecondToMain => Ok VaultSwapKind.Recovery
  | VaultSwapMode.Closing, VaultSwapDirection.SecondToMain => Ok VaultSwapKind.Closing
  | _, _ => Err (VaultIntentError.Terms "unsupported swap mode or direction")
  end.

(* chain/vault/served.rs:386-405 verify_vault_swap (amount) *)
Definition check_amount (request : SwapQuoteData) (staging : option VaultStagingStep.t)
  (open_slot : option VaultStagedSlot) (amount_in : Z) : ires unit :=
  match staging, open_slot with
  | Some VaultStagingStep.Unstage, Some slot =>
      reject_if (negb (amount_in =? slot_amount slot))
        (VaultIntentError.Terms "an unstage must spend the whole staged amount")
  | Some VaultStagingStep.Unstage, None => Err (VaultIntentError.Terms "nothing is staged to unstage")
  | Some VaultStagingStep.Stage, Some _ => Err (VaultIntentError.Terms "a stage needs an empty staging slot")
  | _, _ =>
      requested ← parse_amount (rq_amount request) "request amount";
      reject_if (negb (amount_in =? requested)) (VaultIntentError.Terms "quoted input differs from request")
  end.

(** Products of a [u64] and at most 10000 fit [u128]. *)
(* chain/vault/served.rs:408-423 verify_vault_swap (minimum output) *)
Definition check_output (request : SwapQuoteData) (staging : option VaultStagingStep.t)
  (quoted_out minimum_out floor : Z) : ires unit :=
  let slippage := rq_slippage_bps request in
  _ ← reject_if ((BPS <? slippage) || (quoted_out =? 0) || (minimum_out =? 0)
                 || (minimum_out <? quoted_out * (BPS - slippage) / BPS))
        (VaultIntentError.Terms "minimum output exceeds the requested slippage");
  reject_if (negb (bool_decide (staging = Some VaultStagingStep.Stage)) && (minimum_out <? floor))
    (VaultIntentError.Terms "minimum output is below the operator's floor").

(* chain/vault/served.rs:672-688 update_stake_pool_balance *)
Definition update_stake_pool_balance (program pool validators reserve fee mint token_program : key) : Instruction :=
  let authority := find_program_address [pool; as_bytes "withdraw"] program in
  {| program_id := program;
     accounts := [meta_new pool false; new_readonly authority false; meta_new validators false;
                  new_readonly reserve false; meta_new fee false; meta_new mint false;
                  new_readonly token_program false];
     data := [UPDATE_STAKE_POOL_BALANCE] |}.

(** The account keys of a setup instruction, by position. *)
Definition setup_key (served : Instruction) (position : nat) : ires key :=
  ok_or (pubkey <$> accounts served !! position) (VaultIntentError.Setup "instruction is truncated").

Definition setup_program (served : Instruction) (position : nat) : ires key :=
  program ← setup_key served position;
  if bool_decide (program = TOKEN_PROGRAM_ID) || bool_decide (program = TOKEN_2022_PROGRAM_ID)
  then Ok program else Err (VaultIntentError.Setup "token program is not SPL Token").

Definition pins (routes : PairPriceRoutes) (pool : key) : bool :=
  existsb (fun ratio => bool_decide (ar_account ratio = pool))
    (concat (map PriceRouteOps.account_ratios ([pp_main routes; pp_second routes] ++ pp_staging routes))).

(* chain/vault/served.rs:612-670 swap_setup *)
Definition swap_setup (vault : VaultManager) (routes : PairPriceRoutes) (payer : key) (served : Instruction)
  : ires Instruction :=
  if bool_decide (program_id served = ASSOCIATED_TOKEN_PROGRAM_ID) then
    mint ← setup_key served 3;
    let args := vm_args vault in
    _ ← reject_if (bool_decide (mint ∈ [a_main_mint args; a_second_mint args; a_share_mint args]))
          (VaultIntentError.Setup "creates an account for a vault leg or share mint");
    program ← setup_program served 5;
    Ok (create_ata_idempotent payer (ad_vault (vm_addresses vault)) mint program)
  else if negb (bool_decide (program_id served ∈ STAKE_POOL_PROGRAM_IDS)) then
    Err (VaultIntentError.Setup "unexpected instruction before the swap")
  else
    pool ← setup_key served 0;
    _ ← reject_if (negb (pins routes pool))
          (VaultIntentError.Setup "updates a stake pool the vault's routes do not pin");
    validators ← setup_key served 2;
    reserve ← setup_key served 3;
    fee ← setup_key served 4;
    mint ← setup_key served 5;
    program ← setup_program served 6;
    Ok (update_stake_pool_balance (program_id served) pool validators reserve fee mint program).

(** The loop over the instructions after the compute budget: what is set up, and the
    first instruction of the vault's program with what follows. *)
(* chain/vault/served.rs:429-435 verify_vault_swap (setup) *)
Fixpoint setups (vault : VaultManager) (routes : PairPriceRoutes) (payer : key) (served : list Instruction)
  : ires (list Instruction * list Instruction) :=
  match served with
  | ix :: rest =>
      if bool_decide (program_id ix = a_program_id (vm_args vault)) then Ok ([], served)
      else
        expected ← swap_setup vault routes payer ix;
        '(more, served) ← setups vault routes payer rest;
        Ok (expected :: more, served)
  | [] => Ok ([], [])
  end.

(** A leg of the price section: its name, the route's address, and the route. *)
Definition PricedLeg : Type := string * key * PriceRoute.

(* chain/vault/served.rs:702-726 served_price_section *)
Fixpoint served_price_section (legs : list PricedLeg) (shards : list Z) (served : list AccountMeta)
  : ires (list AccountMeta) :=
  match legs with
  | [] => Ok []
  | (leg, address, route) :: legs =>
      let matches_ (expected : list AccountMeta) :=
        (length expected <=? length served)%nat &&
        forallb (fun p : AccountMeta * AccountMeta => bool_decide (pubkey (fst p) = pubkey (snd p)))
          (zip (take (length expected) served) expected) in
      '(_, found) ← ok_or (list_find (fun expected => matches_ expected = true)
                             (map (fun shard => PriceRouteOps.accounts route address shard) shards))
                      (VaultIntentError.PriceSection leg);
      more ← served_price_section legs shards (drop (length found) served);
      Ok (found ++ more)
  end.

(** [routed] is computed before the duplicate check, as in the source. *)
(* chain/vault/served.rs:728-755 require_route_atas *)
Fixpoint route_atas (transit hops : list VaultSwapHop) (created : list key) (setup : list Instruction) : ires unit :=
  match setup with
  | [] => Ok tt
  | ix :: setup =>
      if bool_decide (program_id ix = ASSOCIATED_TOKEN_PROGRAM_ID) then
        meta ← index_p (accounts ix) 1;
        let ata := pubkey meta in
        let routed := existsb (fun hop => bool_decide (h_destination hop = ata)) transit
                      || existsb (fun hop => Swapping.has_account hop ata) hops in
        _ ← reject_if (negb routed) (VaultIntentError.Setup "creates an account the route does not use");
        _ ← reject_if (bool_decide (ata ∈ created)) (VaultIntentError.Setup "creates the same account twice");
        route_atas transit hops (created ++ [ata]) setup
      else route_atas transit hops created setup
  end.

Definition require_route_atas (setup : list Instruction) (hops : list VaultSwapHop) : ires unit :=
  route_atas (removelast hops) hops [] setup.

(* chain/vault/served.rs:491-496 verify_vault_swap (leg) *)
Definition staged_leg (step : VaultStagingStep.t) (direction : VaultSwapDirection.t) : VaultLeg.t :=
  match step, direction with
  | VaultStagingStep.Stage, VaultSwapDirection.MainToSecond
  | VaultStagingStep.Unstage, VaultSwapDirection.SecondToMain => VaultLeg.Main
  | _, _ => VaultLeg.Second
  end.

(** The kind of a staged swap, and its priced legs. *)
(* chain/vault/served.rs:457-513 verify_vault_swap (staging) *)
Definition staging_kind (vault : VaultManager) (routes : PairPriceRoutes) (slot : VaultStagingState)
  (direction : VaultSwapDirection.t) (step : VaultStagingStep.t) (swap : Instruction) (legs : PricedLeg * PricedLeg)
  : ires (VaultSwapKind.t * list PricedLeg) :=
  match accounts swap !! 9%nat, accounts swap !! 10%nat with
  | Some mint, Some token_program =>
      '(_, route) ← ok_or (list_find (fun route => pr_mint route = pubkey mint) (pp_staging routes))
                      (VaultIntentError.PriceSection "staging");
      expected ← (match step, open slot with
                  | VaultStagingStep.Unstage, Some staged =>
                      if negb (bool_decide (slot_mint staged = pubkey mint))
                      then Err (VaultIntentError.Terms "unstage names another staging mint")
                      else Ok (Some (generation slot))
                  | VaultStagingStep.Unstage, None => Ok (Some (generation slot))
                  | VaultStagingStep.Stage, _ => Ok (checked_add 64 (generation slot) 1)
                  end);
      let served := from_le_bytes <$> get_range (data swap) STAGING_GENERATION_OFFSET (STAGING_GENERATION_OFFSET + 8) in
      g ← (match expected, served with
           | Some expected, Some served =>
               if expected =? served then Ok expected
               else Err (VaultIntentError.Terms "staging generation does not name the vault's slot")
           | _, _ => Err (VaultIntentError.Terms "staging generation does not name the vault's slot")
           end);
      let leg := staged_leg step direction in
      let priced := match leg with VaultLeg.Main => fst legs | VaultLeg.Second => snd legs end in
      Ok (VaultSwapKind.Staging step leg
            {| sa_mint := pubkey mint; sa_token_program := pubkey token_program |} g,
          [priced; ("staging"%string, pda.price_route (a_program_id (vm_args vault)) (pr_mint route), route)])
  | _, _ => Err (VaultIntentError.Route "swap instruction is shorter than its fixed layout")
  end.

(** The recovery tail before the hops of a recovery stage: the kind it makes, and the hops'
    accounts after it. *)
(* chain/vault/served.rs:525-549 verify_vault_swap (recovery tail) *)
Definition recovery_kind (vault : VaultManager) (routes : PairPriceRoutes) (mode : VaultSwapMode.t)
  (kind : VaultSwapKind.t) (hop_accounts : list AccountMeta) : ires (VaultSwapKind.t * list AccountMeta * nat) :=
  match mode, kind with
  | VaultSwapMode.Recovery, VaultSwapKind.Staging VaultStagingStep.Stage _ asset g =>
      tail ← ok_or (get_range hop_accounts 2 (length hop_accounts)) (VaultIntentError.Route "recovery tail is truncated");
      main_price_section ← served_price_section
        [("main"%string, ad_main_price_route (vm_addresses vault), pp_main routes)] (pp_shards routes) tail;
      let recovery_tail_len := (2 + length main_price_section)%nat in
      rest ← slice_p hop_accounts recovery_tail_len (length hop_accounts);
      Ok (VaultSwapKind.RecoveryStage asset g main_price_section, rest, recovery_tail_len)
  | _, _ => Ok (kind, hop_accounts, 0%nat)
  end.

(** The program, source and destination of each hop. *)
(* chain/vault/served.rs:592-595 verify_vault_swap (pinned hops) *)
Fixpoint pinned_hops (metas : list AccountMeta) (position : nat) (hops : list VaultSwapHop) : ires (list AccountMeta) :=
  match hops with
  | [] => Ok []
  | hop :: hops =>
      pinned ← slice_p metas position (position + 3);
      more ← pinned_hops metas (position + 3 + length (h_accounts hop)) hops;
      Ok (pinned ++ more)
  end.

(** The accounts of the instruction that a route may not make writable. *)
(* chain/vault/served.rs:576-595 verify_vault_swap (pinned) *)
Definition pinned (vault : VaultManager) (kind : VaultSwapKind.t) (plan : VaultSwapPlan) (fixed tail_len : nat)
  (instruction : Instruction) : ires (list AccountMeta) :=
  let staging := match kind with
                 | VaultSwapKind.Staging _ _ asset _ | VaultSwapKind.RecoveryStage asset _ _ => Some (sa_mint asset)
                 | _ => None
                 end in
  let mint (k : key) := bool_decide (k = a_main_mint (vm_args vault)) || bool_decide (k = a_second_mint (vm_args vault))
                        || bool_decide (Some k = staging) in
  head ← slice_p (accounts instruction) 0 fixed;
  let position := (fixed + length (p_price_section plan))%nat in
  tail ← slice_p (accounts instruction) position (position + tail_len);
  hops ← pinned_hops (accounts instruction) (position + tail_len) (p_hops plan);
  Ok (filter (fun meta => mint (pubkey meta) = false) head ++ tail ++ hops).

(** The swap the served instruction stands for, rebuilt from its parts. *)
(* chain/vault/served.rs:516-606 verify_vault_swap (rebuild) *)
Definition rebuild_swap (vault : VaultManager) (routes : PairPriceRoutes) (mode : VaultSwapMode.t)
  (kind : VaultSwapKind.t) (legs : list PricedLeg) (amount_in minimum_out valid_until : Z) (swap : Instruction)
  : ires (VaultSwapKind.t * VaultSwapPlan * Instruction) :=
  let payer := a_actor (vm_args vault) in
  let fixed := VaultSwapKind.fixed_accounts kind in
  let header := VaultSwapKind.header_len kind in
  match get_range (accounts swap) fixed (length (accounts swap)), get_range (data swap) header (length (data swap)) with
  | Some priced, Some hop_data =>
      price_section ← served_price_section legs (pp_shards routes) priced;
      hop_accounts ← slice_p priced (length price_section) (length priced);
      '(kind, hop_accounts, tail_len) ← recovery_kind vault routes mode kind hop_accounts;
      _ ← reject_if (existsb (fun meta => bool_decide (pubkey meta = payer)) hop_accounts)
            (VaultIntentError.Route "route uses the fee payer");
      let share_mint := a_share_mint (vm_args vault) in
      let share_ata := ata (ad_vault (vm_addresses vault)) share_mint TOKEN_PROGRAM_ID in
      _ ← reject_if (existsb (fun meta => bool_decide (pubkey meta = share_mint) || bool_decide (pubkey meta = share_ata))
                       hop_accounts)
            (VaultIntentError.Route "route touches the vault share mint or its share account");
      count ← index_p (data swap) (header - 1);
      hops ← served_hops (Z.to_nat count) hop_data hop_accounts;
      let plan := {| p_price_section := price_section; p_amount_in := amount_in; p_minimum_out := minimum_out;
                     p_valid_until := valid_until; p_hops := hops |} in
      instruction ← map_err (fun error => match error with
                                          | VaultChainError.InvalidInput reason => VaultIntentError.Route reason
                                          | other => VaultIntentError.Intent other
                                          end) (Swapping.swap vault kind plan);
      pinned ← pinned vault kind plan fixed tail_len instruction;
      _ ← reject_if (existsb (fun meta => is_writable meta &&
                       existsb (fun fixed => bool_decide (pubkey fixed = pubkey meta) && negb (is_writable fixed)) pinned)
                       hop_accounts)
            (VaultIntentError.Route "route makes a read-only account writable");
      Ok (kind, plan, instruction)
  | _, _ => Err (VaultIntentError.Route "swap instruction is shorter than its fixed layout")
  end.

(* chain/vault/served.rs:346-610 verify_vault_swap *)
Definition verify_vault_swap (intent : VaultSwapIntent) (tables : list LookupTable) (bounds : ComputeBudgetBounds)
  : ires VerifiedTransaction :=
  let vault := si_vault intent in
  let request := si_request intent in
  let quote := si_quote intent in
  let a := vm_addresses vault in
  let args := vm_args vault in
  _ ← map_err VaultIntentError.Intent (Manager.ensure_current vault (si_account intent));
  let slot := va_staging (si_account intent) in
  _ ← reject_if (negb (bool_decide (rq_vault_pda request = ad_vault a)))
        (VaultIntentError.Terms "request names a different vault");
  _ ← reject_if (negb (qt_request_id quote =? rq_request_id request) || negb (bool_decide (qt_mode quote = rq_mode request)))
        (VaultIntentError.Terms "quote answers a different request or mode");
  kind ← requested_kind request;
  amount_in ← parse_amount (qt_in_amount quote) "quoted input";
  _ ← check_amount request (qt_staging quote) (open slot) amount_in;
  quoted_out ← parse_amount (qt_quoted_out_amount quote) "quoted output";
  minimum_out ← parse_amount (qt_minimum_out_amount quote) "minimum output";
  _ ← check_output request (qt_staging quote) quoted_out minimum_out (si_min_output_floor intent);
  valid_until ← parse_amount (qt_valid_until quote) "valid_until";
  served ← decode_base64 base64_decode (qt_tx_base64 quote) tables;
  let payer := a_actor args in
  let routes := si_price_routes intent in
  budget ← compute_budget served bounds;
  '(setup, rest) ← setups vault routes payer (drop (length budget) (sm_instructions served));
  let expected := budget ++ setup in
  swap ← ok_or (head rest) (VaultIntentError.InstructionCount (S (length expected)) (length (sm_instructions served)));
  _ ← reject_if (negb (bool_decide (pr_mint (pp_main routes) = a_main_mint args))
                 || negb (bool_decide (pr_mint (pp_second routes) = a_second_mint args)))
        (VaultIntentError.Intent (VaultChainError.InvalidInput "price routes must price the vault's main and second mints"));
  let main := ("main"%string, ad_main_price_route a, pp_main routes) in
  let second := ("second"%string, ad_second_price_route a, pp_second routes) in
  '(kind, legs) ← match qt_staging quote with
                  | None => Ok (kind, [main; second])
                  | Some step => staging_kind vault routes slot (rq_direction request) step swap (main, second)
                  end;
  '(_, plan, instruction) ← rebuild_swap vault routes (rq_mode request) kind legs amount_in minimum_out valid_until swap;
  _ ← require_route_atas expected (p_hops plan);
  matches served payer (expected ++ [instruction]).
End swap.

(** ** What each part establishes *)

Definition read_only (m : AccountMeta) : Prop := is_signer m = false /\ is_writable m = false.

(** Every key a hop mentions. *)
Definition hop_keys (h : VaultSwapHop) : list key :=
  [h_program h; h_source h; h_destination h] ++ map pubkey (h_accounts h).

Lemma elem_keys (m : AccountMeta) l : m ∈ l -> pubkey m ∈ map pubkey l.
Proof. intros H. change (map pubkey) with (fmap (M := list) pubkey). by apply list_elem_of_fmap_2. Qed.

Lemma split_at_Some {A} (l a b : list A) n : split_at_checked l n = Some (a, b) -> l = a ++ b.
Proof. unfold split_at_checked. destruct (_ <=? _)%nat; [|done]. intros [= <- <-]. by rewrite take_drop. Qed.

(** The hops only name accounts of the instruction. *)
Lemma served_hops_keys count bs metas hops h k :
  served_hops count bs metas = Ok hops -> h ∈ hops -> k ∈ hop_keys h -> k ∈ map pubkey metas.
Proof.
  revert bs metas hops. induction count as [|count IH]; intros bs metas hops; cbn [served_hops].
  - intros [= <-] []%elem_of_nil.
  - destruct bs as [|a [|b [|c [|d [|e rest]]]]]; try done. intros H.
    apply bind_Ok in H as ([o rest1] & _ & H). apply bind_Ok in H as ([hd rest2] & _ & H).
    destruct metas as [|m1 [|m2 [|m3 tail]]]; try done.
    apply bind_Ok in H as ([cpi tail'] & Hcpi & H). apply bind_Ok in H as (more & Hmore & H). injection H as <-.
    apply ok_or_Ok, split_at_Some in Hcpi as ->. intros [->|Hh]%elem_of_cons Hk.
    + unfold hop_keys in Hk. cbn in Hk. cbn [map]. rewrite map_app. rewrite !elem_of_cons, elem_of_app in *. tauto.
    + pose proof (IH _ _ _ Hmore Hh Hk) as Hin. cbn [map]. rewrite map_app, !elem_of_cons, elem_of_app. tauto.
Qed.

Section parts.
Context `{C : Crypto} `{P : Pda}.

Lemma route_accounts_read_only route address shard :
  Forall read_only (PriceRouteOps.accounts route address shard).
Proof.
  unfold PriceRouteOps.accounts. constructor; [done|]. apply Forall_concat, Forall_fmap, Forall_true.
  intros b. destruct b; cbn; repeat constructor.
Qed.

(** A price section is read-only, and as long as what it was matched with. *)
Lemma price_section_Ok legs shards served section :
  served_price_section legs shards served = Ok section ->
  Forall read_only section /\ (length section <= length served)%nat.
Proof.
  revert served section. induction legs as [|[[leg address] route] legs IH]; intros served section; cbn [served_price_section].
  - intros [= <-]. split; [constructor|simpl; lia].
  - intros H. apply bind_Ok in H as ([i found] & Hf & H). apply bind_Ok in H as (more & Hm & H). injection H as <-.
    apply ok_or_Ok, list_find_Some in Hf as (Hf & Hmatch & _). apply andb_true_iff in Hmatch as [Hlen%Nat.leb_le _].
    apply IH in Hm as [Hr Hl]. rewrite length_drop in Hl. rewrite length_app. split; [|lia].
    apply Forall_app. split; [|done]. apply list_elem_of_lookup_2, list_elem_of_fmap in Hf as (shard & -> & _).
    apply route_accounts_read_only.
Qed.

Lemma price_section_returns legs shards served : returns (served_price_section legs shards served).
Proof.
  revert served. induction legs as [|[[leg address] route] legs IH]; intros served; cbn [served_price_section]; [done|].
  apply returns_bind; [apply returns_ok_or|]. intros [i found] _. apply returns_bind; [apply IH|]. intros. apply returns_Ok.
Qed.

(** A setup instruction is one of two: a token account of the vault for a mint that is not
    its own, or the balance update of a stake pool that a route pins. *)
Definition setup_ok (vault : VaultManager) (routes : PairPriceRoutes) (ix : Instruction) : Prop :=
  let args := vm_args vault in
  (exists mint program, mint ∉ [a_main_mint args; a_second_mint args; a_share_mint args] /\ spl program /\
     ix = create_ata_idempotent (a_actor args) (ad_vault (vm_addresses vault)) mint program) \/
  (exists pool_program pool validators reserve fee mint program,
     pool_program ∈ STAKE_POOL_PROGRAM_IDS /\ pins routes pool = true /\ spl program /\
     ix = update_stake_pool_balance pool_program pool validators reserve fee mint program).

Lemma setup_program_Ok served position k : setup_program served position = Ok k -> spl k.
Proof.
  unfold setup_program. intros H. apply bind_Ok in H as (program & _ & H).
  destruct (_ || _) eqn:E; [|done]. injection H as <-. apply orb_true_iff in E. rewrite !bool_decide_eq_true in E. done.
Qed.

Lemma swap_setup_Ok vault routes served ix :
  swap_setup vault routes (a_actor (vm_args vault)) served = Ok ix -> setup_ok vault routes ix.
Proof.
  unfold swap_setup. case_bool_decide as Hata.
  - intros H. apply bind_Ok in H as (mint & _ & H). cbv zeta in H. apply bind_Ok in H as (u & Hm & H).
    apply bind_Ok in H as (program & Hp & H). injection H as <-. inv_ok Hm. apply bool_decide_eq_false in Hm.
    left. exists mint, program. split_and!; [done|by eapply setup_program_Ok|done].
  - case_bool_decide as Hpool; cbn [negb]; [|done]. intros H.
    apply bind_Ok in H as (pool & _ & H). apply bind_Ok in H as (u & Hpin & H). inv_ok Hpin. apply negb_false_iff in Hpin.
    apply bind_Ok in H as (validators & _ & H). apply bind_Ok in H as (reserve & _ & H).
    apply bind_Ok in H as (fee & _ & H). apply bind_Ok in H as (mint & _ & H). apply bind_Ok in H as (program & Hp & H).
    injection H as <-. right. exists (program_id served), pool, validators, reserve, fee, mint, program.
    split_and!; [done|done|by eapply setup_program_Ok|done].
Qed.

Lemma setups_Ok vault routes served setup rest :
  setups vault routes (a_actor (vm_args vault)) served = Ok (setup, rest) -> Forall (setup_ok vault routes) setup.
Proof.
  revert setup rest. induction served as [|ix served IH]; intros setup rest; cbn [setups]; [by intros [= <- _]|].
  case_bool_decide as Hp; [by intros [= <- _]|]. intros H. apply bind_Ok in H as (e & He & H).
  apply bind_Ok in H as ([more rest'] & Hm & H). injection H as <- <-. constructor; [by eapply swap_setup_Ok|by eapply IH].
Qed.

Lemma setup_signers vault routes ix k :
  setup_ok vault routes ix -> k ∈ signers_of ix -> k = a_actor (vm_args vault).
Proof.
  intros [(mint & program & _ & _ & ->)|(? & ? & ? & ? & ? & ? & ? & _ & _ & _ & ->)].
  - by intros ->%list_elem_of_singleton.
  - by intros []%elem_of_nil.
Qed.

(** What a route may not do: spend through the fee payer, touch the share mint or the
    vault's share account. *)
Definition route_bound (vault : VaultManager) (plan : VaultSwapPlan) : Prop :=
  let args := vm_args vault in
  forall h k, h ∈ p_hops plan -> k ∈ hop_keys h ->
    k <> a_actor args /\ k <> a_share_mint args /\
    k <> derive_associated_token_address (ad_vault (vm_addresses vault)) (a_share_mint args) TOKEN_PROGRAM_ID.

Definition staging_mint (kind : VaultSwapKind.t) : option key :=
  match kind with
  | VaultSwapKind.Staging _ _ asset _ | VaultSwapKind.RecoveryStage asset _ _ => Some (sa_mint asset)
  | _ => None
  end.
(** Nor write what the vault's instruction only reads: its fixed accounts (the pair's and
    the staging mint apart), the tail of a recovery stage, the programs of the hops.  The
    price section is left to it. *)
Definition writes_bound (vault : VaultManager) (kind : VaultSwapKind.t) (plan : VaultSwapPlan) (ix : Instruction) : Prop :=
  forall h m, h ∈ p_hops plan -> m ∈ h_accounts h -> is_writable m = true ->
    (forall f, f ∈ take (VaultSwapKind.fixed_accounts kind) (accounts ix) -> pubkey f = pubkey m ->
       pubkey f <> a_main_mint (vm_args vault) -> pubkey f <> a_second_mint (vm_args vault) ->
       Some (pubkey f) <> staging_mint kind -> is_writable f = true) /\
    (forall f, f ∈ recovery_tail vault kind -> pubkey f = pubkey m -> is_writable f = true) /\
    (forall h', h' ∈ p_hops plan -> h_program h' <> pubkey m).

(** A recovery turns a stage into a recovery stage. *)
Definition recovered (mode : VaultSwapMode.t) (kind kind' : VaultSwapKind.t) : Prop :=
  kind' = kind \/ mode = VaultSwapMode.Recovery /\ exists leg asset g section,
    kind = VaultSwapKind.Staging VaultStagingStep.Stage leg asset g /\
    kind' = VaultSwapKind.RecoveryStage asset g section.

Lemma recovery_kind_Ok vault routes mode kind metas kind' rest n :
  recovery_kind vault routes mode kind metas = Ok (kind', rest, n) ->
  match kind with VaultSwapKind.RecoveryStage _ _ _ => False | _ => True end ->
  recovered mode kind kind' /\ VaultSwapKind.fixed_accounts kind' = VaultSwapKind.fixed_accounts kind /\
  n = length (recovery_tail vault kind').
Proof.
  unfold recovery_kind, recovered. intros H Hk. revert H.
  destruct mode; try (by intros [= <- <- <-]; split; [left|split; [|by destruct kind]]).
  destruct kind as [b| | |a g s|step leg asset g]; try (by intros [= <- <- <-]; split; [left|]).
  destruct step; try (by intros [= <- <- <-]; split; [left|]).
  intros H. apply bind_Ok in H as (tail & _ & H). apply bind_Ok in H as (section & _ & H). cbv zeta in H.
  apply bind_Ok in H as (rest' & _ & H). injection H as <- <- <-. split; [|done]. right. split; [done|]. by eexists _, _, _, _.
Qed.

(** A served hop's accounts are metas of the instruction. *)
Lemma served_hops_metas count bs metas hops h m :
  served_hops count bs metas = Ok hops -> h ∈ hops -> m ∈ h_accounts h -> m ∈ metas.
Proof.
  revert bs metas hops. induction count as [|count IH]; intros bs metas hops; cbn [served_hops].
  - intros [= <-] []%elem_of_nil.
  - destruct bs as [|a [|b [|c [|d [|e rest]]]]]; try done. intros H.
    apply bind_Ok in H as ([o rest1] & _ & H). apply bind_Ok in H as ([hd rest2] & _ & H).
    destruct metas as [|m1 [|m2 [|m3 tail]]]; try done.
    apply bind_Ok in H as ([cpi tail'] & Hcpi & H). apply bind_Ok in H as (more & Hmore & H). injection H as <-.
    apply ok_or_Ok, split_at_Some in Hcpi as ->. rewrite !elem_of_cons, elem_of_app.
    intros [->|Hh] Hm; [cbn in Hm; tauto|]. pose proof (IH _ _ _ Hmore Hh Hm). tauto.
Qed.

Lemma pinned_head vault kind plan fixed n ix ps f :
  pinned vault kind plan fixed n ix = Ok ps -> f ∈ take fixed (accounts ix) ->
  pubkey f <> a_main_mint (vm_args vault) -> pubkey f <> a_second_mint (vm_args vault) ->
  Some (pubkey f) <> staging_mint kind -> f ∈ ps.
Proof.
  unfold pinned. intros H Hf H1 H2 H3. cbv zeta in H. apply bind_Ok in H as (head & Hh & H).
  apply bind_Ok in H as (tail & _ & H). apply bind_Ok in H as (hops & _ & H). injection H as <-.
  apply slice_p_Ok, get_range_Some in Hh as [_ ->]. rewrite drop_0, Nat.sub_0_r.
  apply elem_of_app. left. apply list_elem_of_filter. split; [|done].
  rewrite !bool_decide_false by done. done.
Qed.

(** The programs of the hops are pinned. *)
Lemma pinned_hops_programs metas position hops ps h :
  pinned_hops metas position hops = Ok ps -> drop position metas = concat (map Swapping.hop_metas hops) ->
  h ∈ hops -> new_readonly (h_program h) false ∈ ps.
Proof.
  revert position ps. induction hops as [|hop hops IH]; intros position ps H Hd; [by intros []%elem_of_nil|].
  cbn [pinned_hops] in H. apply bind_Ok in H as (three & H3 & H). apply bind_Ok in H as (more & Hm & H). injection H as <-.
  apply slice_p_Ok, get_range_Some in H3 as [_ ->]. rewrite elem_of_app, Hd. cbn [map concat Swapping.hop_metas].
  intros [->|Hh]%elem_of_cons.
  - left. replace (position + 3 - position)%nat with 3%nat by lia. cbn. set_solver.
  - right. eapply IH; [exact Hm| |done].
    rewrite <- Nat.add_assoc, <- drop_drop, Hd. cbn [map concat]. apply drop_app_length'.
    unfold Swapping.hop_metas. rewrite length_app, length_map. done.
Qed.

Lemma pinned_rest vault kind plan ix ps :
  Swapping.swap vault kind plan = Ok ix ->
  pinned vault kind plan (VaultSwapKind.fixed_accounts kind) (length (recovery_tail vault kind)) ix = Ok ps ->
  recovery_tail vault kind ⊆ ps /\ forall h, h ∈ p_hops plan -> new_readonly (h_program h) false ∈ ps.
Proof.
  intros Hs H. pose proof (swap_shape vault kind plan) as Hok. rewrite Hs in Hok. destruct Hok as [_ (lead & head & Hlay)].
  pose proof (laid_out_hops _ _ _ _ _ _ Hlay) as (_ & _ & Hhops & _). destruct Hlay as (_ & _ & Hhead & _ & Hacc & _).
  unfold pinned in H. cbv zeta in H. apply bind_Ok in H as (hd & _ & H). apply bind_Ok in H as (tail & Ht & H).
  apply bind_Ok in H as (hops & Hh & H). injection H as <-. split.
  - apply slice_p_Ok in Ht. rewrite Hacc, app_assoc, get_range_app in Ht by (rewrite ?length_app; lia). injection Ht as <-. set_solver.
  - intros h Hin. rewrite !elem_of_app. right. right. by eapply pinned_hops_programs.
Qed.

Lemma rebuild_swap_Ok vault routes mode kind legs amount_in minimum_out valid_until swap_ kind' plan ix :
  rebuild_swap vault routes mode kind legs amount_in minimum_out valid_until swap_ = Ok (kind', plan, ix) ->
  match kind with VaultSwapKind.RecoveryStage _ _ _ => False | _ => True end ->
  Swapping.swap vault kind' plan = Ok ix /\ recovered mode kind kind' /\
  p_amount_in plan = amount_in /\ p_minimum_out plan = minimum_out /\ p_valid_until plan = valid_until /\
  Forall read_only (p_price_section plan) /\ route_bound vault plan /\ writes_bound vault kind' plan ix.
Proof.
  unfold rebuild_swap. cbv zeta.
  destruct (get_range (accounts swap_) _ _) as [priced|]; [|done].
  destruct (get_range (data swap_) _ _) as [hop_data|]; [|done]. intros H Hk.
  apply bind_Ok in H as (section & Hsec & H). apply bind_Ok in H as (metas0 & _ & H).
  apply bind_Ok in H as ([[k metas] n] & Hrec & H). apply bind_Ok in H as (u1 & Hpay & H).
  apply bind_Ok in H as (u2 & Hshare & H). apply bind_Ok in H as (count & _ & H).
  apply bind_Ok in H as (hops & Hhops & H). apply bind_Ok in H as (ix' & Hswap & H).
  apply bind_Ok in H as (ps & Hps & H). apply bind_Ok in H as (u3 & Hw & H). injection H as <- <- <-.
  inv_ok Hpay. inv_ok Hshare. inv_ok Hswap. inv_ok Hw. rewrite existsb_false in Hpay, Hshare, Hw.
  apply price_section_Ok in Hsec as [Hro _]. apply recovery_kind_Ok in Hrec as (Hrec & Hfix & ->); [|done].
  split_and!; try done.
  - intros h x Hh Hx. pose proof (served_hops_keys _ _ _ _ _ _ Hhops Hh Hx) as Hin.
    change (map pubkey) with (fmap (M := list) pubkey) in Hin. apply list_elem_of_fmap in Hin as (m & -> & Hm).
    pose proof (Hpay m Hm) as H1%bool_decide_eq_false. pose proof (Hshare m Hm) as [H2 H3]%orb_false_iff.
    apply bool_decide_eq_false in H2, H3. done.
  - intros h m Hh Hm Hwr.
    pose proof (Hw m (served_hops_metas _ _ _ _ _ _ Hhops Hh Hm)) as Hb. rewrite Hwr in Hb. cbn in Hb.
    rewrite existsb_false in Hb.
    assert (Hpin : forall f, f ∈ ps -> pubkey f = pubkey m -> is_writable f = true).
    { intros f Hin Hfm. apply Hb in Hin. rewrite bool_decide_true in Hin by done. by apply negb_false_iff in Hin. }
    rewrite <- Hfix in Hps. destruct (pinned_rest _ _ _ _ _ Hswap Hps) as [Htail Hprog]. split_and!.
    + intros f Hf Hfm H1 H2 H3. apply Hpin; [|done]. by eapply pinned_head.
    + intros f Hf Hfm. apply Hpin; auto.
    + intros h' Hh' Heq. by specialize (Hpin _ (Hprog h' Hh') Heq).
Qed.

(** The kind a request and its staging step stand for.  A stage fills an empty slot under
    the next generation; an unstage empties the open slot, whose mint it names. *)
Definition asked_kind (intent : VaultSwapIntent) (kind : VaultSwapKind.t) : Prop :=
  let request := si_request intent in
  let slot := va_staging (si_account intent) in
  match qt_staging (si_quote intent) with
  | None => requested_kind request = Ok kind
  | Some step => exists asset g,
      (exists kind0, requested_kind request = Ok kind0) /\
      sa_mint asset ∈ map pr_mint (pp_staging (si_price_routes intent)) /\
      match step with
      | VaultStagingStep.Stage => open slot = None /\ g = generation slot + 1
      | VaultStagingStep.Unstage => (slot_mint <$> open slot) = Some (sa_mint asset) /\ g = generation slot
      end /\
      recovered (rq_mode request) (VaultSwapKind.Staging step (staged_leg step (rq_direction request)) asset g) kind
  end.

(** What the operator bounds: the input is what was requested (the whole open slot for an
    unstage), and the least output is within the requested slippage of the quote and, but
    for a stage, at least the operator's floor. *)
Definition amounts_asked (intent : VaultSwapIntent) (amount_in minimum_out : Z) : Prop :=
  let request := si_request intent in
  let quote := si_quote intent in
  match qt_staging quote with
  | Some VaultStagingStep.Unstage => (slot_amount <$> open (va_staging (si_account intent))) = Some amount_in
  | _ => parse_u64 (trim (as_bytes (rq_amount request))) = Some amount_in
  end /\
  parse_u64 (trim (as_bytes (qt_in_amount quote))) = Some amount_in /\
  rq_slippage_bps request <= BPS /\
  (exists quoted_out, parse_u64 (trim (as_bytes (qt_quoted_out_amount quote))) = Some quoted_out /\ quoted_out <> 0 /\
     quoted_out * (BPS - rq_slippage_bps request) / BPS <= minimum_out) /\
  minimum_out <> 0 /\
  (qt_staging quote = Some VaultStagingStep.Stage \/ si_min_output_floor intent <= minimum_out).

Lemma check_amount_Ok request staging slot amount_in :
  check_amount request staging slot amount_in = Ok tt ->
  match staging with
  | Some VaultStagingStep.Unstage => (slot_amount <$> slot) = Some amount_in
  | Some VaultStagingStep.Stage => slot = None /\ parse_u64 (trim (as_bytes (rq_amount request))) = Some amount_in
  | None => parse_u64 (trim (as_bytes (rq_amount request))) = Some amount_in
  end.
Proof.
  unfold check_amount, parse_amount. intros H.
  destruct staging as [[]|], slot as [s|]; try done; inv_ok H; cbn; try (apply negb_false_iff, Z.eqb_eq in H; subst; done).
Qed.

Lemma check_output_Ok request staging quoted_out minimum_out floor :
  check_output request staging quoted_out minimum_out floor = Ok tt ->
  rq_slippage_bps request <= BPS /\ quoted_out <> 0 /\ minimum_out <> 0 /\
  quoted_out * (BPS - rq_slippage_bps request) / BPS <= minimum_out /\
  (staging = Some VaultStagingStep.Stage \/ floor <= minimum_out).
Proof.
  unfold check_output. cbv zeta. intros H. apply bind_Ok in H as (u & H1 & H2). inv_ok H1. inv_ok H2.
  rewrite !orb_false_iff, !Z.ltb_ge, !Z.eqb_neq in H1. destruct H1 as [[[? ?] ?] ?]. split_and!; try done.
  case_bool_decide; [by left|]. right. cbn in H2. by apply Z.ltb_ge.
Qed.

Lemma staging_kind_Ok vault routes slot direction step swap legs kind legs' :
  staging_kind vault routes slot direction step swap legs = Ok (kind, legs') ->
  exists asset g, kind = VaultSwapKind.Staging step (staged_leg step direction) asset g /\
    sa_mint asset ∈ map pr_mint (pp_staging routes) /\
    match step with
    | VaultStagingStep.Stage => g = generation slot + 1
    | VaultStagingStep.Unstage =>
        (forall s, open slot = Some s -> slot_mint s = sa_mint asset) /\ g = generation slot
    end.
Proof.
  unfold staging_kind. destruct (accounts swap !! 9%nat) as [mint|]; [|done].
  destruct (accounts swap !! 10%nat) as [program|]; [|done]. intros H.
  apply bind_Ok in H as ([i route] & Hr & H). apply ok_or_Ok, list_find_Some in Hr as (Hr & Hm & _).
  apply bind_Ok in H as (expected & He & H). cbv zeta in H. apply bind_Ok in H as (g & Hg & H). injection H as <- _.
  eexists _, g. split; [reflexivity|]. cbn [sa_mint]. split.
  - rewrite <- Hm. change (map pr_mint) with (fmap (M := list) pr_mint).
    by eapply list_elem_of_fmap_2, list_elem_of_lookup_2.
  - destruct expected as [e|]; [|done]. destruct (_ <$> _) as [served|]; [|done].
    destruct (_ =? _); [|done]. injection Hg as <-. destruct step.
    + injection He as He. unfold checked_add in He. destruct (_ <? _) in He; [|done]. by injection He.
    + destruct (open slot) as [s|]; [|by injection He as <-].
      destruct (bool_decide _) eqn:Hb in He; cbn in He; [|done]. injection He as <-.
      apply bool_decide_eq_true in Hb. split; [|done]. by intros ? [= <-].
Qed.

Lemma asked_kind_Ok intent kind0 kind1 kind vault swap main second legs amount_in (amount_ok : Prop) :
  requested_kind (si_request intent) = Ok kind0 ->
  match qt_staging (si_quote intent) with
  | Some VaultStagingStep.Unstage => (slot_amount <$> open (va_staging (si_account intent))) = Some amount_in
  | Some VaultStagingStep.Stage => open (va_staging (si_account intent)) = None /\ amount_ok
  | None => amount_ok
  end ->
  match qt_staging (si_quote intent) with
  | None => Ok (kind0, [main; second])
  | Some step => staging_kind vault (si_price_routes intent) (va_staging (si_account intent))
                   (rq_direction (si_request intent)) step swap (main, second)
  end = Ok (kind1, legs) ->
  recovered (rq_mode (si_request intent)) kind1 kind ->
  asked_kind intent kind.
Proof.
  intros Hr Ha Hk Hrec. unfold asked_kind. cbv zeta. destruct (qt_staging (si_quote intent)) as [step|].
  - apply staging_kind_Ok in Hk as (asset & g & -> & Hm & Hg). exists asset, g. split_and!; [by exists kind0|done| |done].
    destruct step; [tauto|]. destruct Hg as [Hs ->]. destruct (open _) as [s|]; [|done]. cbn. by rewrite (Hs s).
  - injection Hk as <- _. destruct Hrec as [->|(_ & leg & asset & g & section & -> & ->)]; [done|].
    exfalso. revert Hr. unfold requested_kind. by destruct (rq_mode _), (rq_direction _).
Qed.
End parts.

Section sound.
Context `{C : Crypto} `{P : Pda} (base64_decode : string -> option bytes).

(** The whole transaction: the compute budget, the setup and the swap. *)
Definition swap_transaction (limit price : Z) (setup : list Instruction) (swap : Instruction) : list Instruction :=
  [budget_instruction SET_COMPUTE_UNIT_LIMIT (to_le_bytes 4 limit);
   budget_instruction SET_COMPUTE_UNIT_PRICE (to_le_bytes 8 price)] ++ setup ++ [swap].

(** A swap whose price section is read-only is signed by the actor alone. *)
Lemma swap_signers vault kind plan ix k :
  Swapping.swap vault kind plan = Ok ix -> Forall read_only (p_price_section plan) ->
  k ∈ signers_of ix -> k = a_actor (vm_args vault).
Proof.
  intros Hs Hro (m & Hm & -> & Hsig)%elem_signers_of. pose proof (swap_shape vault kind plan) as H. rewrite Hs in H.
  destruct H as [[Hsec _] (lead & head & Hlay)]. eapply laid_out_signers; try done.
  eapply Forall_impl; [exact Hro|]. by intros ? [].
Qed.

Lemma swap_transaction_signers vault routes kind plan limit price setup swap k :
  Swapping.swap vault kind plan = Ok swap -> Forall read_only (p_price_section plan) ->
  Forall (setup_ok vault routes) setup ->
  asks is_signer (a_actor (vm_args vault)) (swap_transaction limit price setup swap) k <-> k = a_actor (vm_args vault).
Proof.
  intros Hs Hro Hset. rewrite asks_signers. split; [|by left]. intros [->|(ix & Hix & Hk)]; [done|].
  unfold swap_transaction in Hix. rewrite !elem_of_app, !elem_of_cons, elem_of_nil in Hix.
  destruct Hix as [[->|[->|[]]]|[Hix|[->|[]]]]; try (by apply elem_of_nil in Hk).
  - rewrite Forall_forall in Hset. by eapply setup_signers; [apply Hset|].
  - by eapply swap_signers.
Qed.

End sound.

(** ** A served swap, built here: through a transit account that the setup creates *)

Module SwapIntentSample.
#[local] Existing Instance SwapSample.pda.

Definition args : VaultManagerArgs :=
  {| a_program_id := key_of 7; a_vault_id := key_of 1; a_actor := key_of 3; a_delegate_authority := key_of 3;
     a_main_mint := key_of 11; a_second_mint := key_of 12; a_share_mint := key_of 13;
     a_main_token_program := TOKEN_PROGRAM_ID; a_second_token_program := TOKEN_2022_PROGRAM_ID;
     a_second_leg_generation := 1 |}.
Definition manager : VaultManager := {| vm_args := args; vm_addresses := Manager.derive_addresses args |}.
Definition a : VaultAddresses := vm_addresses manager.
Definition vault : key := ad_vault a.
Definition transit : key := derive_associated_token_address vault (key_of 42) TOKEN_PROGRAM_ID.

Definition hop (program source destination : key) (data : bytes) : VaultSwapHop :=
  {| h_program := program; h_source := source; h_destination := destination;
     h_accounts := [new_readonly vault false; meta_new source false; meta_new destination false];
     h_data := data; h_amount_offset := None |}.
Definition route (mint : key) : PriceRoute :=
  {| pr_mint := mint; pr_max_skew_secs := 30; pr_bricks := [Pyth PriceSample.pyth]; pr_updated_slot := 1 |}.
Definition routes : PairPriceRoutes :=
  {| pp_main := route (key_of 11); pp_second := route (key_of 12); pp_staging := []; pp_shards := [0; 1] |}.
Definition plan : VaultSwapPlan :=
  {| p_price_section := PriceRouteOps.accounts (pp_main routes) (ad_main_price_route a) 1 ++
       PriceRouteOps.accounts (pp_second routes) (ad_second_price_route a) 0;
     p_amount_in := 1000; p_minimum_out := 990; p_valid_until := 1760000000;
     p_hops := [hop (key_of 30) (ad_vault_main_ata a) transit [1; 2; 3];
                hop (key_of 32) transit (ad_vault_second_ata a) [4]] |}.
Definition swap : Instruction :=
  match Swapping.swap manager (VaultSwapKind.Rebalance false) plan with
  | Ok ix => ix
  | _ => budget_instruction 0 []
  end.
Definition expected : list Instruction :=
  swap_transaction 250000 90 [create_ata_idempotent (key_of 3) vault (key_of 42) TOKEN_PROGRAM_ID] swap.
Definition compiled : CompiledMessage * LookupTable := OpenSample.compile (key_of 3) expected [] (key_of 99).
Definition wire : bytes := encode (fst compiled) (replicate 64 0) (key_of 5).
Definition intent : VaultSwapIntent :=
  {| si_vault := manager;
     si_request := {| rq_request_id := 5; rq_vault_pda := vault; rq_mode := VaultSwapMode.Rebalance;
       rq_direction := VaultSwapDirection.MainToSecond; rq_amount := "1000"%string; rq_slippage_bps := 100 |};
     si_quote := {| qt_request_id := 5; qt_execution_id := key_of 44; qt_mode := VaultSwapMode.Rebalance; qt_tx_base64 := Sample.encode wire;
       qt_in_amount := "1000"%string; qt_quoted_out_amount := " 1000 "%string; qt_minimum_out_amount := "+990"%string;
       qt_valid_until := "1760000000"%string; qt_staging := None |};
     si_price_routes := routes; si_min_output_floor := 980; si_account := AccountSample.vault |}.
End SwapIntentSample.

