(* ===== verification/Snapshot.v ===== *)
(** * Snapshots of the chain ([src/chain/batch.rs], [vault/scan.rs], [vault/counterparty.rs], [vault/settle.rs])

    Reads that gather many accounts: a maker's positions with their markets and premium
    balances, a vault's unfunded positions and queued requests, the counterparty of a sale,
    and the position a settlement is built from. *)

From Stdlib Require Import ZArith Lia String.
From stdpp Require Import base list gmap sorting strings.
From S2P Require Import Prelude Terms Signing Quote Chain Account Positions Price Vault Opens Settle Intent Rpc Owner Confirm.

Open Scope Z_scope.

(* chain/batch.rs:22-28 PremiumBalance *)
Record PremiumBalance := { pb_token : PremiumToken; pb_address : key; pb_amount : option Z }.
(* chain/batch.rs:30-35 MakerSnapshot *)
Record MakerSnapshot := {
  ms_positions : list PositionSnapshot; ms_premium_balances : list PremiumBalance; ms_missing_positions : list key }.

(** [Pubkey]'s order is that of its bytes. *)
Fixpoint bytes_leb (x y : bytes) : bool :=
  match x, y with
  | [], _ => true
  | _ :: _, [] => false
  | a :: x, b :: y => if a =? b then bytes_leb x y else a <? b
  end.
Definition bytes_le (x y : bytes) : Prop := bytes_leb x y = true.
#[export] Instance bytes_le_dec : RelDecision bytes_le.
Proof. intros x y. unfold bytes_le. apply _. Defined.

(** [sort_unstable] and [dedup]. *)
Definition sort_keys (l : list key) : list key := merge_sort bytes_le l.
Fixpoint dedup (l : list key) : list key :=
  match l with
  | x :: (y :: _) as l => if bool_decide (x = y) then dedup l else x :: dedup l
  | l => l
  end.

(* chain/vault/scan.rs:13-18 PendingCapitalRequests *)
Record PendingCapitalRequests := { pc_deposits : list (key * Z); pc_withdrawals : list (key * Z) }.

Module Counterparty.
(* chain/vault/counterparty.rs:8-13 Counterparty *)
Inductive t := Maker (owner quote_signer : key) | Vault (holder : VaultManager).

(* chain/vault/counterparty.rs:41-67 Counterparty::sale *)
Definition sale (self : t) (writer : VaultManager) (keeper : key) (terms : VaultSaleTerms.t) : VaultOpenIntent.t :=
  match self with
  | Maker owner quote_signer => VaultOpenIntent.Sale keeper writer owner quote_signer terms
  | Vault holder => VaultOpenIntent.BetweenVaults keeper writer holder terms
  end.
End Counterparty.

Section snapshots.
Context `{P : Pda} `{N : Cluster}.
(** The client's program. *)
Context (program : key).
Abbreviation ata := derive_associated_token_address (only parsing).

(* chain/batch.rs:135-147 maker_position_filters *)
Definition maker_position_filters (owner : key) : list RpcFilter :=
  [DataSize POSITION_LEN; Memcmp 0 [POSITION_DISCRIMINATOR]; Memcmp 40 owner].

(** The position of each account, which the owner must hold. *)
(* chain/batch.rs:170-189 ChainClient::maker_open_positions *)
Definition maker_open_positions (owner : key) : rpc (list (key * PositionInfo)) :=
  accounts ← program_accounts program (maker_position_filters owner);
  decoded ← lift (try_map (fun '(k, account) =>
    position ← position_from_account account program;
    _ ← reject_if (negb (bool_decide (pi_holder position = owner))) (ChainError.Identity "maker owner");
    Ok (k, position)) accounts);
  mret (List.filter (fun '(_, position) =>
    match pi_status position with OnChainStatus.Open | OnChainStatus.Funded => true | _ => false end) decoded).

(** [map[key]], which panics on a missing key. *)
Definition index_map {A} (m : gmap key A) (k : key) : xres A :=
  match m !! k with Some a => Ok a | None => Panic end.

(** The positions found, and the addresses of those that were not. *)
(* chain/batch.rs:218-231 ChainClient::maker_snapshot (positions) *)
Fixpoint decode_positions (accounts : gmap key (option Account)) (owner : key) (positions : list key)
  : xres (list (key * PositionInfo) * list key) :=
  match positions with
  | [] => Ok ([], [])
  | k :: positions =>
      found ← index_map accounts k;
      match found with
      | Some account =>
          position ← position_from_account account program;
          _ ← reject_if (negb (bool_decide (pi_holder position = owner))) (ChainError.Identity "maker owner");
          '(decoded, missing) ← decode_positions accounts owner positions;
          Ok ((k, position) :: decoded, missing)
      | None =>
          '(decoded, missing) ← decode_positions accounts owner positions;
          Ok (decoded, k :: missing)
      end
  end.

(* chain/batch.rs:246-261 ChainClient::maker_snapshot (balances) *)
Definition premium_balance (accounts : gmap key (option Account)) (maker : key) (token : PremiumToken)
  : xres PremiumBalance :=
  let address := ata maker (pt_mint token) (pt_token_program token) in
  account ← index_map accounts address;
  amount ← match account with
           | Some account => Some <$> decode_premium_balance account maker token
           | None => Ok None
           end;
  Ok {| pb_token := token; pb_address := address; pb_amount := amount |}.

(* chain/batch.rs:239-242 ChainClient::maker_snapshot (markets) *)
Definition decode_market (entry : key * option Account) : xres (key * MarketInfo) :=
  let '(k, account) := entry in
  account ← ok_or account (ChainError.MissingAccount k);
  market ← market_from_account account program;
  Ok (k, market).

(* chain/batch.rs:264-271 ChainClient::maker_snapshot (position) *)
Definition snapshot_position (markets : gmap key MarketInfo) (entry : key * PositionInfo) : xres PositionSnapshot :=
  let '(address, position) := entry in
  market ← index_map markets (pi_market_pda position);
  Ok {| ps_address := address; ps_position := position; ps_market_address := pi_market_pda position;
        ps_market := market |}.

Definition known_program (token : PremiumToken) : bool :=
  bool_decide (pt_token_program token = TOKEN_PROGRAM_ID) || bool_decide (pt_token_program token = TOKEN_2022_PROGRAM_ID).

(* chain/batch.rs:191-276 ChainClient::maker_snapshot *)
Definition maker_snapshot (owner : key) (positions : list key) (premiums : list PremiumToken) : rpc MakerSnapshot :=
  _ ← lift (reject_if (existsb (fun token => negb (known_program token)) premiums) ChainError.InvalidAccountData);
  let maker := maker_pda_with_program_id program owner in
  let keys := dedup (sort_keys (positions ++ map (fun t => ata maker (pt_mint t) (pt_token_program t)) premiums)) in
  values ← fetch_accounts keys;
  let accounts : gmap key (option Account) := list_to_map (zip keys values) in
  '(decoded, missing_positions) ← lift (decode_positions accounts owner positions);
  let market_keys := dedup (sort_keys (map (fun '(_, position) => pi_market_pda position) decoded)) in
  market_values ← fetch_accounts market_keys;
  market_entries ← lift (try_map decode_market (zip market_keys market_values));
  let markets : gmap key MarketInfo := list_to_map market_entries in
  premium_balances ← lift (try_map (premium_balance accounts maker) premiums);
  found ← lift (try_map (snapshot_position markets) decoded);
  mret {| ms_positions := found; ms_premium_balances := premium_balances; ms_missing_positions := missing_positions |}.

(** ** Scans *)

(* chain/vault/scan.rs:21-50 ChainClient::unfunded_positions *)
Definition unfunded_positions (vault : key) : rpc (list (key * PositionInfo)) :=
  accounts ← program_accounts program [DataSize 424; Memcmp 0 [1]; Memcmp 4 [1]; Memcmp 40 vault];
  lift (try_map (fun '(address, account) =>
    position ← position_from_account account program; Ok (address, position)) accounts).

(* chain/vault/scan.rs:63-89 ChainClient::requests *)
Definition requests (vault : key) (kind : VaultRequestKind.t) : rpc (list (key * Z)) :=
  accounts ← program_accounts program
    [DataSize VaultRequestOps.LEN; Memcmp 0 [VaultRequestKind.discriminator kind];
     Memcmp VaultRequestOps.VAULT_OFFSET vault];
  decoded ← lift (try_map (fun '(_, account) =>
    request ← map_err ChainError.Vault (VaultRequestOps.from_account account program kind);
    _ ← reject_if (negb (bool_decide (vr_vault request = vault))) (ChainError.Identity "request vault");
    Ok request) accounts);
  mret (map (fun request => (vr_user request, vr_amount request)) (List.filter (fun r => 0 <? vr_amount r) decoded)).

(* chain/vault/scan.rs:52-61 ChainClient::pending_capital_requests *)
Definition pending_capital_requests (vault : key) : rpc PendingCapitalRequests :=
  deposits ← requests vault VaultRequestKind.Deposit;
  withdrawals ← requests vault VaultRequestKind.Withdraw;
  mret {| pc_deposits := deposits; pc_withdrawals := withdrawals |}.

(** ** The other side of a sale *)

(* chain/vault/counterparty.rs:15-39 Counterparty::load *)
Definition load_counterparty (owner_ : key) : rpc Counterparty.t :=
  found ← fetch_optional_account owner_;
  let vault_account := match found with
                       | Some account => bool_decide (owner account = program)
                                         && bool_decide (head (account_data account) = Some 9)
                       | None => false
                       end in
  match found, vault_account with
  | Some account, true =>
      vault ← vaulted (VaultAccountOps.from_account account program);
      holder ← vaulted (Manager.from_vault program (va_primary_delegate vault) vault);
      _ ← lift (reject_if (negb (bool_decide (ad_vault (vm_addresses holder) = owner_)))
            (ChainError.Identity "holder vault PDA"));
      mret (Counterparty.Vault holder)
  | _, _ =>
      account ← fetch_account (maker_pda_with_program_id program owner_);
      maker ← lift (maker_from_account account program);
      _ ← lift (reject_if (negb (bool_decide (mk_owner maker = owner_))) (ChainError.Identity "maker owner"));
      mret (Counterparty.Maker owner_ (mk_quote_signer maker))
  end.

(** ** Settling from the chain *)

(* chain/vault/settle.rs:220-230 ChainClient::settlement_snapshots *)
Definition settlement_snapshots (position_pda : key) : rpc (PositionInfo * MarketInfo) :=
  position ← fetch_position_info program position_pda;
  _ ← lift (reject_if (negb (bool_decide (pda.position program (pi_order_id position) = position_pda)))
        (ChainError.Identity "position PDA"));
  market ← fetch_market_info program (pi_market_pda position);
  mret (position, market).

(* chain/vault/settle.rs:202-209 ChainClient::build_settle_position *)
Definition build_settle_position (maker_owner position_pda : key) : rpc Instruction :=
  '(position, market) ← settlement_snapshots position_pda;
  lift (build_settle_position_ix program maker_owner position market).

(* chain/vault/settle.rs:211-218 ChainClient::settle_position_sequence *)
Definition fetch_settle_position_sequence (maker_owner position_pda : key) : rpc (list Instruction) :=
  '(position, market) ← settlement_snapshots position_pda;
  lift (settle_position_sequence program maker_owner position market).
End snapshots.

(** ** What a snapshot says *)

Lemma dedup_elem k l : k ∈ dedup l <-> k ∈ l.
Proof.
  induction l as [|x l IH]; [done|]. destruct l as [|y l]; [done|]. cbn [dedup]. case_bool_decide as H; set_solver.
Qed.

Lemma sorted_keys_elem k l : k ∈ dedup (sort_keys l) <-> k ∈ l.
Proof. rewrite dedup_elem. unfold sort_keys. by rewrite (merge_sort_Permutation bytes_le l). Qed.

Lemma Forall2_with_l {A B} (R : A -> B -> Prop) (Q : A -> Prop) l k :
  Forall2 R l k -> Forall Q l -> Forall2 (fun x y => R x y /\ Q x) l k.
Proof. intros H. induction H; intros HQ; inversion_clear HQ; constructor; auto. Qed.

Section faithful.
Context `{P : Pda} `{N : Cluster}.
Context (program : key).

(** Some read answered [v] for [k]. *)
Definition answered (k : key) (v : option Account) : Prop :=
  exists n ks values j, get_multiple_accounts_with_commitment n ks = inr values /\
    ks !! j = Some k /\ values !! j = Some v.

Lemma fetch_accounts_Ok keys s vs s' :
  fetch_accounts keys s = (Ok vs, s') ->
  length vs = length keys /\ forall k v, (k, v) ∈ zip keys vs -> answered k v.
Proof.
  intros H. unfold fetch_accounts in H. inv_rpc H. subst. apply rpc_map_Ok in Hr.
  set (R := fun (chunk : list key) (vs : list (option Account)) => exists n,
    get_multiple_accounts_with_commitment n chunk = inr vs).
  assert (HR : Forall2 (fun chunk vs => length chunk = length vs /\ R chunk vs) (chunks 100 keys) r).
  { eapply Forall2_impl; [exact Hr|]. intros chunk v (s1 & s2 & H). inv_rpc H. subst. cbn in *.
    match goal with H : reject_if _ _ = Ok _ |- _ => apply reject_if_Ok, negb_false_iff, Nat.eqb_eq in H as Hlen end.
    split; [done|]. by eexists. }
  split.
  - rewrite <- (chunks_concat 100 keys) by lia. clear -HR. induction HR as [|c v cs vs [Hl _] _ IH]; [done|].
    cbn. by rewrite !length_app, Hl, IH.
  - intros k v Hkv. apply list_elem_of_lookup in Hkv as [i Hi]. apply lookup_zip_with_Some in Hi as (k' & v' & [= <- <-] & Hk & Hv).
    destruct (concat_lookup R _ _ i v HR Hv) as (chunk & values & j & k' & (n & Hg) & Hx & Hy & Hc).
    rewrite chunks_concat in Hc by lia. assert (k' = k) as -> by congruence. by exists n, chunk, values, j.
Qed.

(** The map of what was read answers every key asked for. *)
Lemma accounts_map keys vs k :
  length vs = length keys -> k ∈ keys ->
  exists v, (list_to_map (zip keys vs) : gmap key (option Account)) !! k = Some v /\ (k, v) ∈ zip keys vs.
Proof.
  intros Hl Hk. destruct ((list_to_map (zip keys vs) : gmap key (option Account)) !! k) as [v|] eqn:E.
  - exists v. split; [done|]. by apply elem_of_list_to_map_2.
  - apply not_elem_of_list_to_map_2 in E. by rewrite fst_zip in E by lia.
Qed.

Lemma decode_positions_Ok accounts owner positions decoded missing :
  decode_positions program accounts owner positions = Ok (decoded, missing) ->
  map fst decoded = List.filter (fun k => match accounts !! k with Some (Some _) => true | _ => false end) positions /\
  missing = List.filter (fun k => match accounts !! k with Some None => true | _ => false end) positions /\
  Forall (fun '(k, position) => exists a, accounts !! k = Some (Some a) /\ position_from_account a program = Ok position /\
            pi_holder position = owner) decoded.
Proof.
  revert decoded missing. induction positions as [|k positions IH]; intros decoded missing H; cbn in H.
  - injection H as <- <-. repeat split. constructor.
  - apply bind_Ok in H as (found & Hf & H). unfold index_map in Hf. cbn [List.filter].
    destruct (accounts !! k) as [v|] eqn:Hk; [|done]. injection Hf as ->. destruct found as [a|].
    + apply bind_Ok in H as (position & Hp & H). apply bind_Ok in H as (? & Hh & H).
      apply bind_Ok in H as ([d m] & Hd & H). injection H as <- <-. apply IH in Hd as (Hd & Hm & Hf).
      apply reject_if_Ok, negb_false_iff, bool_decide_eq_true in Hh.
      split; [cbn; by rewrite Hd|]. split; [done|]. constructor; [eauto|done].
    + apply bind_Ok in H as ([d m] & Hd & H). injection H as <- <-. apply IH in Hd as (Hd & Hm & Hf).
      split; [done|]. split; [by rewrite Hm|done].
Qed.

Lemma decode_positions_returns accounts owner positions :
  (forall k, k ∈ positions -> is_Some (accounts !! k)) -> returns (decode_positions program accounts owner positions).
Proof.
  induction positions as [|k positions IH]; intros H; cbn; [done|].
  assert (returns (decode_positions program accounts owner positions)) by (apply IH; set_solver).
  unfold index_map. destruct (H k) as [v ->]; [set_solver|]. cbn [mbind res_bind].
  destruct v as [a|]; repeat (returns_step || apply returns_accounts || done).
Qed.

Lemma decode_premium_returns account owner token : returns (decode_premium_balance account owner token).
Proof.
  unfold decode_premium_balance. returns_step; [returns_step|]. returns_step; [returns_step|].
  destruct (Nat.ltb_spec (length (account_data account)) 165); [done|]. cbn [reject_if mbind res_bind].
  repeat (returns_step || (apply returns_slice; lia) || (apply returns_index; lia) || apply returns_fmap).
Qed.

(** The market of each position found. *)
Lemma markets_Ok keys vs entries k m :
  (forall k v, (k, v) ∈ zip keys vs -> answered k v) ->
  try_map (decode_market program) (zip keys vs) = Ok entries -> (k, m) ∈ entries ->
  exists a, answered k (Some a) /\ market_from_account a program = Ok m.
Proof.
  intros Hans He Hin. apply try_map_Ok in He. apply list_elem_of_lookup in Hin as [i Hi].
  destruct (Forall2_lookup_r _ _ _ _ _ He Hi) as ([k' v] & Hk & Hd). apply list_elem_of_lookup_2 in Hk.
  unfold decode_market in Hd. inv_ok Hd. injection Hd as -> ->.
  match goal with H : v = Some _ |- _ => rewrite H in Hk end. eauto.
Qed.

Lemma markets_index keys vs entries k :
  length vs = length keys -> try_map (decode_market program) (zip keys vs) = Ok entries -> k ∈ keys ->
  exists m, (list_to_map entries : gmap key MarketInfo) !! k = Some m /\ (k, m) ∈ entries.
Proof.
  intros Hl He Hk. apply try_map_Ok in He.
  assert (Hf : entries.*1 = keys).
  { rewrite <- (fst_zip keys vs) by lia. clear -He. induction He as [|[k v] [k' m] l l' H _ IH]; [done|].
    unfold decode_market in H. inv_ok H. injection H as -> _. cbn. by rewrite IH. }
  destruct ((list_to_map entries : gmap key MarketInfo) !! k) as [m|] eqn:E.
  - exists m. split; [done|]. by apply elem_of_list_to_map_2.
  - apply not_elem_of_list_to_map_2 in E. by rewrite Hf in E.
Qed.

(** A snapshot of what [acc] answered. *)
Record snapshot_of (owner : key) (positions : list key) (premiums : list PremiumToken)
  (acc : key -> option Account) (snap : MakerSnapshot) : Prop := {
  so_answered k : k ∈ positions -> answered k (acc k);
  so_missing : ms_missing_positions snap = List.filter (fun k => match acc k with None => true | _ => false end) positions;
  so_found : map ps_address (ms_positions snap)
             = List.filter (fun k => match acc k with Some _ => true | _ => false end) positions;
  so_positions : Forall (fun p => exists a m, acc (ps_address p) = Some a /\
      position_from_account a program = Ok (ps_position p) /\ pi_holder (ps_position p) = owner /\
      ps_market_address p = pi_market_pda (ps_position p) /\ answered (ps_market_address p) (Some m) /\
      market_from_account m program = Ok (ps_market p)) (ms_positions snap);
  so_balances : Forall2 (fun token b => pb_token b = token /\
      pb_address b = derive_associated_token_address (maker_pda_with_program_id program owner) (pt_mint token)
                       (pt_token_program token) /\
      answered (pb_address b) (acc (pb_address b)) /\
      match acc (pb_address b) with
      | None => pb_amount b = None
      | Some a => exists v, pb_amount b = Some v /\
          decode_premium_balance a (maker_pda_with_program_id program owner) token = Ok v
      end) premiums (ms_premium_balances snap);
}.

(** Each position found is listed with the market it names. *)
Lemma found_Ok decoded mvs entries found :
  let mkeys := dedup (sort_keys (map (fun '(_, position) => pi_market_pda position) decoded)) in
  length mvs = length mkeys -> (forall k v, (k, v) ∈ zip mkeys mvs -> answered k v) ->
  try_map (decode_market program) (zip mkeys mvs) = Ok entries ->
  try_map (snapshot_position (list_to_map entries)) decoded = Ok found ->
  Forall2 (fun e p => ps_address p = e.1 /\ ps_position p = e.2 /\ ps_market_address p = pi_market_pda e.2 /\
    exists m, answered (pi_market_pda e.2) (Some m) /\ market_from_account m program = Ok (ps_market p)) decoded found.
Proof.
  intros mkeys Hl Hans He Hf. apply try_map_Ok in Hf.
  assert (Hin : Forall (fun e : key * PositionInfo => pi_market_pda e.2 ∈ mkeys) decoded).
  { apply Forall_forall. intros [k position] Hk. apply sorted_keys_elem, list_elem_of_fmap. by exists (k, position). }
  eapply Forall2_impl; [exact (Forall2_with_l _ _ _ _ Hf Hin)|]. clear Hf Hin.
  intros [k position] p (Hp & Hk). cbn in *. destruct (markets_index _ _ _ _ Hl He Hk) as (m & Hm & Hmin).
  unfold index_map in Hp. rewrite Hm in Hp. apply Ok_inj in Hp as <-. cbn.
  repeat split. exact (markets_Ok _ _ _ _ _ Hans He Hmin).
Qed.

Lemma filter_same {A} (f g : A -> bool) l : (forall k, k ∈ l -> f k = g k) -> List.filter f l = List.filter g l.
Proof. intros Hfg. apply filter_ext_in. intros k Hk. apply Hfg. by apply list_elem_of_In. Qed.

Lemma maker_snapshot_Ok owner positions premiums s snap s' :
  maker_snapshot program owner positions premiums s = (Ok snap, s') ->
  exists acc, snapshot_of owner positions premiums acc snap.
Proof.
  intros H. unfold maker_snapshot in H. set (maker := maker_pda_with_program_id program owner) in *.
  set (atas := map (fun t => derive_associated_token_address maker (pt_mint t) (pt_token_program t)) premiums) in *.
  apply rpc_bind_Ok in H as (? & s1 & _ & H). apply rpc_bind_Ok in H as (vs & s2 & Hvs & H).
  apply rpc_bind_Ok in H as ([decoded missing] & s3 & Hd & H). apply lift_Ok in Hd as [Hd ->].
  apply rpc_bind_Ok in H as (mvs & s4 & Hmvs & H). apply rpc_bind_Ok in H as (entries & s5 & He & H).
  apply lift_Ok in He as [He ->]. apply rpc_bind_Ok in H as (balances & s6 & Hb & H). apply lift_Ok in Hb as [Hb ->].
  apply rpc_bind_Ok in H as (found & s7 & Hf & H). apply lift_Ok in Hf as [Hf ->]. apply mret_Ok in H as [-> _].
  apply fetch_accounts_Ok in Hvs as [Hl Hans]. apply fetch_accounts_Ok in Hmvs as [Hml Hmans].
  set (keys := dedup (sort_keys (positions ++ atas))) in *.
  set (accounts := list_to_map (zip keys vs) : gmap key (option Account)) in *.
  assert (Hkeys : forall k, k ∈ positions ++ atas -> exists v, accounts !! k = Some v /\ answered k v).
  { intros k Hk. destruct (accounts_map keys vs k Hl) as (v & Hv & Hin); [by apply sorted_keys_elem|]. eauto. }
  pose proof (found_Ok _ _ _ _ Hml Hmans He Hf) as Hsnap.
  apply decode_positions_Ok in Hd as (Hfst & -> & Hdec). apply try_map_Ok in Hb.
  exists (fun k => default None (accounts !! k)). constructor; cbn.
  - intros k Hk. destruct (Hkeys k) as (v & -> & ?); [set_solver|done].
  - apply filter_same. intros k Hk. destruct (Hkeys k) as (v & -> & ?); [set_solver|by destruct v].
  - transitivity (map fst decoded).
    + clear -Hsnap. induction Hsnap as [|e p l l' (He & _) _ IH]; [done|]. cbn. by rewrite He, IH.
    + rewrite Hfst. apply filter_same. intros k Hk. destruct (Hkeys k) as (v & -> & ?); [set_solver|by destruct v].
  - apply Forall_lookup. intros i p Hp. destruct (Forall2_lookup_r _ _ _ _ _ Hsnap Hp) as ([k position] & Hk & Ha & Hq & Hm & m & Hma & Hmk).
    destruct (Forall_lookup_1 _ _ _ _ Hdec Hk) as (a & Hac & Hpos & Hown). cbn in *. subst.
    exists a, m. rewrite Hac, Hm. by repeat split.
  - assert (Hsub : Forall (fun t => derive_associated_token_address maker (pt_mint t) (pt_token_program t) ∈ atas) premiums).
    { apply Forall_forall. intros t Ht. apply list_elem_of_fmap. eauto. }
    eapply Forall2_impl; [exact (Forall2_with_l _ _ _ _ Hb Hsub)|]. intros t b (Hpb & Hin).
    destruct (Hkeys (derive_associated_token_address maker (pt_mint t) (pt_token_program t))) as (v & Hv & Hva); [set_solver|].
    unfold premium_balance, index_map in Hpb. rewrite Hv in Hpb. cbn in Hpb. apply bind_Ok in Hpb as (amount & Ham & Hpb).
    apply Ok_inj in Hpb as <-. cbn. rewrite Hv. repeat split; [done|]. destruct v as [a|]; cbn in *.
    + destruct (decode_premium_balance a maker t) as [w|e|] eqn:E; [|done..]. apply Ok_inj in Ham as <-. eauto.
    + by apply Ok_inj in Ham as <-.
Qed.
End faithful.

(** An operation that never panics, from whatever state. *)
Definition rpc_returns {A} (m : rpc A) : Prop := forall s, (m s).1 <> Panic.

Lemma rpc_returns_bind {A B} (m : rpc A) (k : A -> rpc B) s :
  (m s).1 <> Panic -> (forall a s', m s = (Ok a, s') -> (k a s').1 <> Panic) -> ((m ≫= k) s).1 <> Panic.
Proof. unfold mbind, rpc_bind. destruct (m s) as [[a|e|] s1]; cbn; auto. Qed.

Lemma fetch_accounts_returns `{N : Cluster} keys : rpc_returns (fetch_accounts keys).
Proof.
  intros s. unfold fetch_accounts. apply rpc_returns_bind; [|done]. generalize (chunks 100 keys) as cs. revert s.
  intros s cs. revert s. induction cs as [|c cs IH]; intros s; cbn [rpc_map]; [done|].
  apply rpc_returns_bind.
  - apply rpc_returns_bind; [unfold call; by case_match|]. intros a s' _.
    apply rpc_returns_bind; [cbn; unfold reject_if; by case_match|done].
  - intros y s' _. apply rpc_returns_bind; [apply IH|done].
Qed.

Section total.
Context `{P : Pda} `{N : Cluster}.
Context (program : key).

Lemma maker_snapshot_returns owner positions premiums : rpc_returns (maker_snapshot program owner positions premiums).
Proof.
  intros s. unfold maker_snapshot. set (maker := maker_pda_with_program_id program owner).
  set (atas := map _ premiums). apply rpc_returns_bind; [cbn; unfold reject_if; by case_match|]. intros _ s1 _.
  apply rpc_returns_bind; [apply fetch_accounts_returns|]. intros vs s2 [Hl _]%fetch_accounts_Ok.
  assert (Hkeys : forall k, k ∈ positions ++ atas -> is_Some
    ((list_to_map (zip (dedup (sort_keys (positions ++ atas))) vs) : gmap key (option Account)) !! k)).
  { intros k Hk. destruct (accounts_map _ vs k Hl) as (v & Hv & _); [by apply sorted_keys_elem|]. by exists v. }
  apply rpc_returns_bind; [apply decode_positions_returns; intros; apply Hkeys; set_solver|].
  intros [decoded missing] s3 _. apply rpc_returns_bind; [apply fetch_accounts_returns|].
  intros mvs s4 [Hml _]%fetch_accounts_Ok. apply rpc_returns_bind.
  { apply try_map_returns. intros [k v] _. unfold decode_market. repeat (returns_step || apply returns_accounts). }
  intros entries s5 [He _]%lift_Ok. apply rpc_returns_bind.
  { apply try_map_returns. intros t Ht. unfold premium_balance, index_map.
    destruct (Hkeys (derive_associated_token_address maker (pt_mint t) (pt_token_program t))) as [v ->].
    { apply elem_of_app. right. apply list_elem_of_fmap. eauto. }
    repeat (returns_step || apply decode_premium_returns || apply returns_fmap || case_match). }
  intros balances s6 _. apply rpc_returns_bind; [|done]. apply try_map_returns. intros [k p] Hk.
  unfold snapshot_position, index_map. destruct (markets_index program _ _ _ (pi_market_pda p) Hml He) as (m & -> & _).
  { apply sorted_keys_elem, list_elem_of_fmap. by exists (k, p). }
  done.
Qed.

Lemma fetch_accounts_reads keys : reads_only (fetch_accounts keys).
Proof. unfold fetch_accounts. repeat reads_only_step. Qed.

(** C32: A snapshot of a maker never panics, although it indexes maps by the addresses it
    derived, and submits nothing. When it returns, everything in it comes from one answer
    of the cluster per address: the positions listed and the missing ones split the
    addresses asked for, in their order, by whether an account was there; each position is
    the decoding of its account, is held by the owner, and comes with the decoding of the
    market it names; and each premium token has the balance of the maker's token account,
    or none when there is no account. *)
Theorem maker_snapshot_faithful owner positions premiums s :
  (maker_snapshot program owner positions premiums s).1 <> Panic /\
  submitted (maker_snapshot program owner positions premiums s).2 = submitted s /\
  forall snap s', maker_snapshot program owner positions premiums s = (Ok snap, s') ->
    exists acc, snapshot_of program owner positions premiums acc snap.
Proof.
  split; [apply maker_snapshot_returns|]. split; [|intros snap s'; apply maker_snapshot_Ok].
  revert s. change (reads_only (maker_snapshot program owner positions premiums)). unfold maker_snapshot.
  repeat (reads_only_step || apply fetch_accounts_reads || (intros; match goal with |- reads_only (let '_ := ?x in _) => destruct x end)).
Qed.

End total.

(** A maker with one funded position, one address without an account and a premium token. *)
Module SnapshotSample.
#[local] Existing Instance QuoteExample.pda.
Definition program : key := key_of 7.
Definition market : key := key_of 3.
Definition token : PremiumToken := {| pt_mint := key_of 12; pt_token_program := TOKEN_PROGRAM_ID |}.
Definition maker : key := maker_pda_with_program_id program (key_of 2).
Definition cluster : Cluster := RpcSample.cluster
  [(key_of 50, holding 5 program (position_segments PositionSample.position 255 (replicate 8 1) (replicate 8 2)
                 (replicate 8 3) (replicate 248 4)));
   (market, holding 5 program (market_segments SettleSample.market 254 (replicate 2 0) (replicate 8 0) (replicate 256 0)));
   (derive_associated_token_address maker (key_of 12) TOKEN_PROGRAM_ID,
    {| owner := TOKEN_PROGRAM_ID; lamports := 5;
       account_data := key_of 12 ++ maker ++ to_le_bytes 8 900 ++ replicate 36 0 ++ [1] ++ replicate 56 0 |})] 0 0 0.
Definition run : xres MakerSnapshot * RpcState :=
  maker_snapshot (N := cluster) program (key_of 2) [key_of 51; key_of 50] [token] RpcSample.start.
End SnapshotSample.

Lemma maker_snapshot_faithful_witness :
  exists snap s' acc, SnapshotSample.run = (Ok snap, s') /\ ms_missing_positions snap = [key_of 51] /\
    map ps_position (ms_positions snap) = [PositionSample.position] /\ map pb_amount (ms_premium_balances snap) = [Some 900] /\
    snapshot_of (P := QuoteExample.pda) (N := SnapshotSample.cluster) SnapshotSample.program (key_of 2)
      [key_of 51; key_of 50] [SnapshotSample.token] acc snap.
Proof.
  destruct SnapshotSample.run as [[snap|e|] s'] eqn:H; [|vm_compute in H; discriminate H..].
  destruct (proj2 (proj2 (maker_snapshot_faithful (P := QuoteExample.pda) (N := SnapshotSample.cluster)
    SnapshotSample.program (key_of 2) [key_of 51; key_of 50] [SnapshotSample.token] RpcSample.start)) snap s' H) as [acc Hacc].
  exists snap, s', acc. split; [reflexivity|]. vm_compute in H. injection H as <- <-.
  split; [reflexivity|]. split; [reflexivity|]. split; [reflexivity|exact Hacc].
Defined.
