(* ===== verification/Operator.v ===== *)
(** * The operator of a vault ([ws/vault/client.rs], [tx.rs], [gate.rs])

    A vault's operator sends commands that the server answers one by one, and signs the
    transactions it serves.  A failed command is classified by what can have happened to
    it: nothing, or nobody knows.

    A caller's gate is asked before each trading command; its answer is an argument, as
    are the reply the command gets and what the clock reads. *)

From Stdlib Require Import ZArith Lia String.
From stdpp Require Import base list gmap strings.
From S2P Require Import Prelude Time Terms Signing Orders Quote Messages Tracker Subscriptions Writer Control Session Running Handle Challenge Texts Chain Account Vault Opens Wire Served Intent SwapIntent.

Open Scope Z_scope.

Module VaultRequestError.
(* ws/vault/client.rs:46-68 VaultRequestError *)
Inductive t :=
| TakerBuyUnsupported
| SessionError (e : ManagedWsError.t)
| Transport (e : SendAwaitError.t)
| Rejected (request_id : Uuid) (response : ServerMessage.t)
| UnexpectedResponse (expected : string) (response : ServerMessage.t)
| Gated.

(* ws/vault/client.rs:71-80 VaultRequestError::server_error *)
Definition server_error (self : t) : option ServerError.t :=
  match self with
  | Rejected _ (ServerMessage.RequestError _ error _) => Some error
  | _ => None
  end.

(* ws/vault/client.rs:82-107 VaultRequestError::delivery *)
Definition delivery (self : t) : option Delivery.t :=
  match self with
  | Rejected _ response =>
      match response with
      | ServerMessage.RequestError _ _ delivery => delivery
      | _ => Some Delivery.Unknown
      end
  | SessionError (ManagedWsError.NotReady | ManagedWsError.QueueFull)
  | Gated | TakerBuyUnsupported
  | Transport (SendAwaitError.SubscriptionPending | SendAwaitError.NotReady | SendAwaitError.NoCorrelationKey
               | SendAwaitError.DuplicateInFlight | SendAwaitError.TooManyPending _ | SendAwaitError.QueueFull
               | SendAwaitError.InvalidMessage _) => Some Delivery.NotForwarded
  | SessionError _ | Transport _ | UnexpectedResponse _ _ => Some Delivery.Unknown
  end.
End VaultRequestError.

Module VaultTxError.
(* ws/vault/tx.rs:5-23 VaultTxError *)
Inductive t :=
| InvalidDeadline (field deadline : string)
| Expired (field : string) (deadline now : Z)
| ClockBeforeEpoch
| Intent (e : VaultIntentError.t).
End VaultTxError.
Abbreviation txres := (res VaultTxError.t).

(* ws/vault/tx.rs:59-68 ensure_ahead *)
Definition ensure_ahead (field : string) (deadline now : Z) : txres Z :=
  if deadline <=? now then Err (VaultTxError.Expired field deadline now) else Ok deadline.

(** [clock] is [SystemTime::now()]. *)
(* ws/vault/tx.rs:69-75 unix_now *)
Definition unix_now (clock : Z) : txres Z :=
  elapsed ← ok_or (duration_since clock 0) VaultTxError.ClockBeforeEpoch;
  Ok (as_secs elapsed).

(* ws/vault/tx.rs:32-46 ensure_deadline_ahead_at *)
Definition ensure_deadline_ahead_at (field deadline : string) (now : Z) : txres Z :=
  deadline_secs ← ok_or (parse_u64 (trim (as_bytes deadline))) (VaultTxError.InvalidDeadline field deadline);
  ensure_ahead field deadline_secs now.

(* ws/vault/tx.rs:25-30 ensure_deadline_ahead *)
Definition ensure_deadline_ahead (field deadline : string) (clock : Z) : txres Z :=
  now ← unix_now clock;
  ensure_deadline_ahead_at field deadline now.

(* ws/vault/tx.rs:48-57 ensure_system_time_ahead *)
Definition ensure_system_time_ahead (field : string) (deadline clock : Z) : txres Z :=
  since ← ok_or (duration_since deadline 0) VaultTxError.ClockBeforeEpoch;
  now ← unix_now clock;
  ensure_ahead field (as_secs since) now.

(** ** Requests *)

(* ws/vault/client.rs:496-508 VaultOperatorClient::correlated *)
Definition correlated {T} (response : ServerMessage.t) (expected : string) (extract : ServerMessage.t -> option T)
  : res VaultRequestError.t T :=
  match response with
  | ServerMessage.RequestError request_id _ _ => Err (VaultRequestError.Rejected request_id response)
  | _ => ok_or (extract response) (VaultRequestError.UnexpectedResponse expected response)
  end.

(** The shape both [command] and [gated_command] expect. *)
(* ws/vault/client.rs:439-445 VaultOperatorClient::command (extract) *)
Definition command_accepted (message : ServerMessage.t) : option unit :=
  match message with ServerMessage.CommandAccepted _ => Some tt | _ => None end.

Section requests.
Context (serialize : ClientMessage.t -> string + string).

(** [admitted]: the gate ran the enqueue; [rx]: how the reply came. *)
(* ws/vault/client.rs:467-483 VaultOperatorClient::gated_request *)
Definition gated_request {T} (admitted : bool) (h : Handle) (connection_epoch : Z) (message : ClientMessage.t)
  (expected : string) (extract : ServerMessage.t -> option T) (rx : Awaited (res SendAwaitError.t ServerMessage.t))
  : res VaultRequestError.t T * Handle :=
  if admitted then
    match try_send_await_in_epoch serialize h message connection_epoch with
    | (Err e, h) => (Err (VaultRequestError.Transport e), h)
    | (Panic, h) => (Panic, h)
    | (Ok await_id, h) =>
        match response h await_id rx with
        | (Ok message, h) => (correlated message expected extract, h)
        | (Err e, h) => (Err (VaultRequestError.Transport e), h)
        | (Panic, h) => (Panic, h)
        end
    end
  else (Err VaultRequestError.Gated, h).

(* ws/vault/client.rs:447-465 VaultOperatorClient::gated_command *)
Definition gated_command (admitted : bool) (h : Handle) (connection_epoch : Z) (message : ClientMessage.t)
  (rx : Awaited (res SendAwaitError.t ServerMessage.t)) : res VaultRequestError.t unit * Handle :=
  gated_request admitted h connection_epoch message "command_accepted" command_accepted rx.

(* ws/vault/client.rs:485-494 VaultOperatorClient::request *)
Definition request {T} (wait : Handle -> option Handle) (h : Handle) (message : ClientMessage.t)
  (expected : string) (extract : ServerMessage.t -> option T) (rx : Awaited (res SendAwaitError.t ServerMessage.t))
  : res VaultRequestError.t T * Handle :=
  match ensure_ready h with
  | Err e => (Err (VaultRequestError.SessionError e), h)
  | Panic => (Panic, h)
  | Ok _ =>
      match send_await serialize wait h message with
      | (Err e, h) => (Err (VaultRequestError.Transport e), h)
      | (Panic, h) => (Panic, h)
      | (Ok await_id, h) =>
          match response h await_id rx with
          | (Ok message, h) => (correlated message expected extract, h)
          | (Err e, h) => (Err (VaultRequestError.Transport e), h)
          | (Panic, h) => (Panic, h)
          end
      end
  end.

(* ws/vault/client.rs:439-445 VaultOperatorClient::command *)
Definition command (wait : Handle -> option Handle) (h : Handle) (message : ClientMessage.t)
  (rx : Awaited (res SendAwaitError.t ServerMessage.t)) : res VaultRequestError.t unit * Handle :=
  request wait h message "command_accepted" command_accepted rx.

(* ws/vault/client.rs:243-249 VaultOperatorClient::rfq_request *)
Definition rfq_request (wait : Handle -> option Handle) (h : Handle) (payload : RfqRequestMessage)
  (rx : Awaited (res SendAwaitError.t ServerMessage.t)) : res VaultRequestError.t unit * Handle :=
  if TakerSide.is_taker_buy (rr_side payload) then (Err VaultRequestError.TakerBuyUnsupported, h)
  else command wait h (ClientMessage.RfqRequest payload) rx.

(* ws/vault/client.rs:434-437 VaultOperatorClient::send *)
Definition vault_send (wait : Handle -> Handle) (h : Handle) (message : ClientMessage.t) : res ManagedWsError.t nat * Handle :=
  match ensure_ready h with
  | Ok _ => send serialize wait h message
  | Err e => (Err e, h)
  | Panic => (Panic, h)
  end.
End requests.

(** ** What the operator may do *)

(* ws/vault/client.rs:150-160 VaultOperatorClient::can_maker *)
Definition can_maker (h : Handle) (auth : option VaultAuthSuccessData) : bool :=
  is_ready h &&
  match auth with
  | Some auth => match va_operator_kind auth with Delegate | Governance => true end
                 && VaultDelegatePermissions.can_maker (va_permissions auth)
  | None => false
  end.

(* ws/vault/client.rs:163-169 VaultOperatorClient::can_write_buys *)
Definition can_write_buys (h : Handle) (auth : option VaultAuthSuccessData) : bool :=
  is_ready h && match auth with Some auth => VaultDelegatePermissions.can_write_buys (va_permissions auth) | None => false end.

(* ws/vault/client.rs:171-177 VaultOperatorClient::can_taker *)
Definition can_taker (h : Handle) (auth : option VaultAuthSuccessData) : bool :=
  is_ready h && match auth with Some auth => VaultDelegatePermissions.can_taker (va_permissions auth) | None => false end.

(** ** Signing *)

Section signing.
Context `{C : Crypto} `{P : Pda} `{SL : SignerLike T}.
Context (base64_decode : string -> option bytes) (base64_encode : bytes -> string).
(** The operator's signer. *)
Context (operator : T).

(* ws/vault/client.rs:184-189 VaultOperatorClient::sign_quote *)
Definition sign_quote (vault_pda : key) (quote : QuoteBuilder) : qres QuoteMessage :=
  QuoteBuilderOps.sign (QuoteBuilderOps.maker_owner quote vault_pda) operator.

(* ws/vault/client.rs:280-285 verify_and_sign_sponsored_tx_with_participant_signature (participant) *)
Definition expected_participant (intent : VaultOpenIntent.t) : key :=
  match intent with
  | VaultOpenIntent.Sale _ writer _ _ _ | VaultOpenIntent.BetweenVaults _ writer _ _ => a_actor (vm_args writer)
  | VaultOpenIntent.Fill _ _ taker _ => taker
  | VaultOpenIntent.Buy _ _ holder _ => holder
  end.

(** [request_id] is the fresh [Uuid::new_v4()]. *)
(* ws/vault/client.rs:273-306 VaultOperatorClient::verify_and_sign_sponsored_tx_with_participant_signature *)
Definition verify_and_sign_sponsored_tx_with_participant_signature (clock : Z) (request_id : Uuid)
  (to_sign : SponsoredTxToSignData) (intent : VaultOpenIntent.t) (tables : list LookupTable) (bounds : ComputeBudgetBounds)
  : txres (SubmitSignedSponsoredTxData * string) :=
  let signer := pubkey_bytes operator in
  _ ← reject_if (negb (bool_decide (signer = expected_participant intent)))
        (VaultTxError.Intent (VaultIntentError.ParticipantSigner (expected_participant intent) signer));
  transaction ← map_err VaultTxError.Intent (verify_vault_open base64_decode to_sign intent tables bounds);
  _ ← ensure_system_time_ahead "signature_deadline" (stx_signature_deadline to_sign) clock;
  '(tx_base64, participant_signature) ←
    map_err VaultTxError.Intent (sign_with_participant_signature base64_encode transaction operator);
  Ok ({| ss_request_id := request_id; ss_order_id := stx_order_id to_sign; ss_tx_base64 := tx_base64 |},
      participant_signature).

(* ws/vault/client.rs:259-271 VaultOperatorClient::verify_and_sign_sponsored_tx *)
Definition verify_and_sign_sponsored_tx (clock : Z) (request_id : Uuid)
  (to_sign : SponsoredTxToSignData) (intent : VaultOpenIntent.t) (tables : list LookupTable) (bounds : ComputeBudgetBounds)
  : txres SubmitSignedSponsoredTxData :=
  fst <$> verify_and_sign_sponsored_tx_with_participant_signature clock request_id to_sign intent tables bounds.

(* ws/vault/client.rs:331-345 VaultOperatorClient::verify_and_sign_swap *)
Definition verify_and_sign_swap (clock : Z) (request_id : Uuid) (intent : VaultSwapIntent) (tables : list LookupTable)
  (bounds : ComputeBudgetBounds) : txres SwapSubmitData :=
  transaction ← map_err VaultTxError.Intent (verify_vault_swap base64_decode intent tables bounds);
  _ ← ensure_deadline_ahead "valid_until" (qt_valid_until (si_quote intent)) clock;
  signed_tx_base64 ← map_err VaultTxError.Intent (Served.sign base64_encode transaction operator);
  Ok {| sw_request_id := request_id; sw_execution_id := qt_execution_id (si_quote intent);
        sw_signed_tx_base64 := signed_tx_base64 |}.
End signing.

(** ** What a refusal means *)

(** The refusals that say a command was not forwarded. *)
Definition refused (e : SendAwaitError.t) : bool :=
  bool_decide (VaultRequestError.delivery (VaultRequestError.Transport e) = Some Delivery.NotForwarded).

(** Replies a step of the session adds. *)
Definition adds (r r' : Running) (tx : nat) (x : Reply) : Prop := exists more, r_replies r' = r_replies r ++ more /\ (tx, x) ∈ more.

Lemma adds_none r r' tx x : r_replies r' = r_replies r -> ~ adds r r' tx x.
Proof. intros He (more & Hr & Hin). rewrite He, <- (app_nil_r (r_replies r)) in Hr at 1. apply app_inv_head in Hr as <-. set_solver. Qed.

Lemma adds_one r r' tx x tx' x' : r_replies r' = r_replies r ++ [(tx', x')] -> adds r r' tx x -> tx = tx' /\ x = x'.
Proof. intros He (more & Hr & Hin). rewrite He in Hr. apply app_inv_head in Hr as <-. set_solver. Qed.

Lemma frame_refused w m done rc w' l d : Lanes.frame_with_receipt w m done rc = (w', Err (l, d)) -> w' = w /\ d = done.
Proof. intros H. apply frame_cases in H as [(? & _)|[(? & _ & ->)|(? & _ & ->)]]; simplify_eq; done. Qed.

Lemma registered_cancel f t id keys tx t' :
  Tracker.register f t id keys tx = (t', Ok tt) -> (Tracker.cancel t' id).2 = Some tx.
Proof.
  unfold Tracker.register. set (t1 := if _ || _ then _ else t).
  destruct (Tracker.at_limit t1); [done|]. destruct (Tracker.key_taken t1 keys); [done|]. intros [= <-].
  unfold Tracker.cancel. simpl. by rewrite lookup_insert_eq.
Qed.

Lemma register_refused f t id keys tx t' e tx' : Tracker.register f t id keys tx = (t', Err (e, tx')) -> tx' = tx.
Proof.
  unfold Tracker.register. set (t1 := if _ || _ then _ else t).
  destruct (Tracker.at_limit t1); [by intros [= _ _ <-]|]. destruct (Tracker.key_taken t1 keys); [by intros [= _ _ <-]|done].
Qed.

Ltac silent := let H := fresh in intros H; exfalso; revert H; apply adds_none.
Ltac answer := let H := fresh in intros H; eapply adds_one in H as [-> _]; [|reflexivity].

(** An answer to a command is its caller's, and leaves the lanes as they were. *)
Lemma command_answers is_closed epoch r c tx x (r' := (handle_command is_closed epoch r (Some c)).1) :
  adds r r' tx x -> tx = tx_of c /\ r_lanes r' = r_lanes r.
Proof.
  subst r'. unfold handle_command. destruct c as [m e t|id m e keys t]; simpl.
  - destruct (is_closed t); [by silent|].
    destruct (epoch_differs e epoch); [by answer|].
    destruct (blocked r _); [by answer|].
    destruct (Lanes.frame_with_receipt _ _ _ _) as [w [u|[[] d]|]] eqn:Hf; simpl.
    + silent. by destruct (SubscriptionChange.from_message m).
    + apply frame_refused in Hf as [-> ->]. by answer.
    + apply frame_refused in Hf as [-> ->]. by answer.
    + by silent.
  - destruct (is_closed t); [by silent|].
    destruct (epoch_differs e epoch); [by answer|].
    destruct (blocked r _); [by answer|].
    destruct (Tracker.register _ _ _ _ _) as [tr [[]|[x' tx']|]] eqn:Hg.
    + apply registered_cancel in Hg.
      destruct (Lanes.frame_with_receipt _ _ _ _) as [w [u|[[] d]|]] eqn:Hf; simpl;
        destruct (Tracker.cancel tr id) as [tr' s]; simpl in Hg; subst s.
      * silent. by destruct (SubscriptionChange.from_message m).
      * apply frame_refused in Hf as [-> _]. by answer.
      * apply frame_refused in Hf as [-> _]. by answer.
      * by silent.
    + apply register_refused in Hg as ->. by answer.
    + by silent.
Qed.

Lemma session_message_replies signed r m : r_replies (handle_session_message signed r m).1 = r_replies r.
Proof.
  unfold handle_session_message. destruct m; try done.
  destruct signed as [| |[u|e]]; try done. by destruct (Lanes.frame _ _ _) as [w []].
Qed.

(** A frame answers with what it holds, or as unreadable. *)
Lemma read_answers signed r item tx e (r' := (handle_ws_read signed r item).1) :
  adds r r' tx (AwaitFailed e) -> refused e = false.
Proof.
  subst r'. unfold handle_ws_read. destruct item as [[m|er]|]; simpl; [|destruct er as [| |frame| | | | |]; simpl; try by silent|by silent].
  - destruct (Tracker.take_for_message _ m) as [t sender].
    set (r1 := match sender with Some tx0 => _ | None => _ end).
    pose proof (session_message_replies signed r1 m) as H1.
    destruct (handle_session_message signed r1 m) as [r2 [f|]]; simpl in H1;
      (assert (H2 : forall r3, r_replies r3 = r_replies r2 -> adds r r3 tx (AwaitFailed e) -> refused e = false);
       [intros r3 Hr3; rewrite H1 in Hr3; unfold r1 in Hr3; destruct sender as [s|];
         [intros Ha; by destruct (adds_one _ _ _ _ _ _ Hr3 Ha) as [_ [=]]|by silent]|]).
    + by destruct f; apply H2.
    + by apply H2.
  - destruct (uf_request_id frame) as [id|]; [|by silent]. destruct (Tracker.take_for_request _ id) as [t [s|]]; [|by silent].
    intros Ha. apply (adds_one r _ tx _ s (AwaitFailed (SendAwaitError.UnreadableResponse frame))) in Ha as [_ [= ->]]; reflexivity.
Qed.

Lemma refusals_queue_nothing config r l r' end_ tx e :
  loop_step config r l = Some (r', end_) -> adds r r' tx (AwaitFailed e) -> refused e = true ->
  exists is_closed c, l = LCommand is_closed (Some c) /\ tx = tx_of c /\ r_lanes r' = r_lanes r.
Proof.
  intros H Ha He.
  destruct l as [| | |is_closed [c|]|at_|now|[id|]| |now|now|signed [[[m|payload|]|er]|]|wl];
    cbn [loop_step] in H;
    try (exfalso; revert Ha; apply adds_none; repeat case_match; simplify_eq; done).
  - exists is_closed, c. split; [done|]. pose proof (command_answers is_closed (current_epoch config) r c tx (AwaitFailed e)) as Hc.
    destruct (handle_command _ _ r (Some c)) as [r1 [e1|]]; simplify_eq; by apply Hc.
  - simpl in H. simplify_eq. exfalso. by eapply adds_none.
  - apply (inj Some) in H. pose proof (read_answers signed (before_read r m) (Some (inl m)) tx e) as Hr.
    rewrite H in Hr. rewrite Hr in He; [done|]. unfold adds in *. unfold before_read. by destruct (is_pong m).
  - apply (inj Some) in H. pose proof (read_answers signed r (Some (inr er)) tx e) as Hr. rewrite H in Hr.
    by rewrite Hr in He.
  - apply (inj Some) in H. pose proof (read_answers signed r None tx e) as Hr. rewrite H in Hr. by rewrite Hr in He.
Qed.

Lemma try_send_await_refused serialize h m epoch e h' :
  try_send_await_in_epoch serialize h m epoch = (Err e, h') -> h_queue h' = h_queue h.
Proof.
  unfold try_send_await_in_epoch. case_bool_decide; [|by intros [= _ <-]].
  destruct (await_command serialize h m (Some epoch)) as [[[c id]| |] h1] eqn:E; apply await_command_cases in E as [Hq _];
    [|by intros [= _ <-]|done].
  unfold cmd_try_send. destruct (h_gone h1); [by intros [= _ <-]|]. destruct (_ <=? _)%nat; [by intros [= _ <-]|done].
Qed.

(** What the transport answered the request with. *)
Definition answered_with {T} (m : res VaultRequestError.t T) (rx : Awaited (res SendAwaitError.t ServerMessage.t)) : Prop :=
  match rx with
  | Replied (Err e) => m = Err (VaultRequestError.Transport e)
  | Replied (Ok (ServerMessage.RequestError id error delivery)) =>
      m = Err (VaultRequestError.Rejected id (ServerMessage.RequestError id error delivery))
  | _ => False
  end.

(** C17: A failure is classified truthfully.  A gated request that fails as not forwarded was
    never queued for the session, or the session refused it, or the server itself says that
    it did not forward it.  And a refusal by the session comes from the very command it
    refuses, and gives nothing to the socket's writer.  (A request that the gate does not
    admit is never queued.) *)
Theorem not_forwarded_is_truthful serialize :
  (forall T admitted h epoch m expected (extract : ServerMessage.t -> option T) rx e h',
     gated_request serialize admitted h epoch m expected extract rx = (Err e, h') ->
     VaultRequestError.delivery e = Some Delivery.NotForwarded ->
     h_queue h' = h_queue h \/
     (admitted = true /\ answered_with (Err e : res VaultRequestError.t T) rx /\
      ((exists err, e = VaultRequestError.Transport err /\ refused err = true) \/
       exists id error, rx = Replied (Ok (ServerMessage.RequestError id error (Some Delivery.NotForwarded)))))) /\
  (forall config r l r' end_ tx err,
     loop_step config r l = Some (r', end_) -> adds r r' tx (AwaitFailed err) -> refused err = true ->
     exists is_closed c, l = LCommand is_closed (Some c) /\ tx = tx_of c /\ r_lanes r' = r_lanes r).
Proof.
  split; [|intros *; apply refusals_queue_nothing].
  intros T admitted h epoch m expected extract rx e h' H Hd. unfold gated_request in H.
  destruct admitted; [|simplify_eq; by left].
  destruct (try_send_await_in_epoch serialize h m epoch) as [[id0|e0|] h1] eqn:E; [| |done].
  - right. split; [done|]. unfold response in H.
    destruct rx as [[reply|err|]| |]; try done; simplify_eq; simpl.
    + destruct reply; try (injection H as <-; simpl in Hd; discriminate Hd);
        try (unfold correlated in H; destruct (extract _); simpl in H; simplify_eq; simpl in Hd; discriminate Hd).
      simpl in H. simplify_eq. simpl in Hd. subst. split; [done|]. right. by eexists _, _.
    + split; [done|]. left. eexists. split; [done|]. unfold refused. by rewrite Hd.
  - simplify_eq. left. by eapply try_send_await_refused.
Qed.
