(* ===== verification/Sell.v ===== *)
(** * Selling an option through an RFQ ([ws/vault/sell.rs])

    A vault asks for quotes, takes one, checks and signs the transaction the venue serves
    for it, and hands it back.  The sale is a loop over what the session receives; each
    command goes through the caller's gate and is bound to one connection epoch.

    What the world does is an input: the messages with their deadline, for the n-th command
    the gate's answer, the handle as it is then and the reply; the desk's decisions, and
    whether they came in time; the chain, as in Rpc.v. *)

From Stdlib Require Import ZArith Lia String.
From stdpp Require Import base list gmap sets strings.
From S2P Require Import Prelude Spreads Time Terms Signing Orders Quote Messages Tracker Control Session Running Handle Inbound Challenge Chain Account Positions Vault Opens Wire Served Intent Rpc Snapshot Operator.

Open Scope Z_scope.

(* ws/vault/sell.rs:25-38 VaultSale *)
Record VaultSale := {
  vs_market_pda : key;
  vs_market : MarketInfo;
  vs_terms : OptionTerms.t;
  vs_quantity : Z;
  vs_rfq_timeout : Z;
  vs_window : Z;
  vs_bounds : ComputeBudgetBounds;
}.

(** It is [Ok] whatever the terms. *)
(* ws/vault/sell.rs:41-89 VaultSale::signed_terms *)
Definition signed_terms (self : VaultSale) (quote : QuoteReceivedMessage) : VaultSaleTerms.t :=
  let market := vs_market self in
  let spread kind lower_strike upper_strike :=
    VaultSaleTerms.Spread
      {| st_underlying_mint := mi_underlying_mint market; st_quote_mint := mi_quote_mint market;
         st_expiry_ts := mi_expiry_ts market; st_kind := kind; st_side := rv_side quote;
         st_lower_strike := lower_strike; st_upper_strike := upper_strike; st_quantity := vs_quantity self;
         st_price := rv_price quote; st_valid_until := rv_valid_until quote; st_nonce := rv_nonce quote |} in
  match vs_terms self with
  | OptionTerms.CashPut strike => spread SpreadType.PutSpread 0 strike
  | OptionTerms.CoveredCall strike | OptionTerms.CashSecuredPut strike =>
      VaultSaleTerms.Physical
        {| tt_underlying_mint := mi_underlying_mint market; tt_quote_mint := mi_quote_mint market;
           tt_expiry_ts := mi_expiry_ts market; tt_is_put := mi_is_put market; tt_side := rv_side quote;
           tt_strike := strike; tt_quantity := vs_quantity self; tt_price := rv_price quote;
           tt_valid_until := rv_valid_until quote; tt_nonce := rv_nonce quote |}
  | OptionTerms.CallSpread lower_strike upper_strike => spread SpreadType.CallSpread lower_strike upper_strike
  | OptionTerms.PutSpread lower_strike upper_strike => spread SpreadType.PutSpread lower_strike upper_strike
  end.

(* ws/vault/sell.rs:116-126 SignedSale *)
Record SignedSale := { sg_order_id : bytes; sg_participant_signature : string; sg_last_valid_block_height : Z }.

Module SaleOutcome.
(* ws/vault/sell.rs:128-135 SaleOutcome *)
Inductive t := Unfilled | Submitted (sale : SignedSale).
End SaleOutcome.

Module SaleStage.
(* ws/vault/sell.rs:137-143 SaleStage *)
Inductive t := Request | Take | Accept | Sign.
End SaleStage.

Module SaleError.
(* ws/vault/sell.rs:145-179 SaleError *)
Inductive t (E : Type) :=
| Market
| Spread (e : SpreadError.t)
| Desk (e : E)
| Rejected (stage : SaleStage.t) (error : VaultRequestError.t)
| Stream (e : ManagedReceiveError.t)
| SessionChanged
| Unserved
| TimedOut (stage : SaleStage.t)
| Chain (e : ChainError.t)
| Sign (e : VaultTxError.t)
| Submit (sale : SignedSale) (error : VaultRequestError.t).
Arguments Market {E}.
Arguments Spread {E} e.
Arguments Desk {E} e.
Arguments Rejected {E} stage error.
Arguments Stream {E} e.
Arguments SessionChanged {E}.
Arguments Unserved {E}.
Arguments TimedOut {E} stage.
Arguments Chain {E} e.
Arguments Sign {E} e.
Arguments Submit {E} sale error.

(* ws/vault/sell.rs:182-192 SaleError::in_flight *)
Definition in_flight {E} (self : t E) : option SignedSale :=
  match self with
  | Submit sale error =>
      if bool_decide (VaultRequestError.delivery error = Some Delivery.NotForwarded) then None else Some sale
  | _ => None
  end.
End SaleError.

(** The trait; [None] is a decision that did not come before the deadline. *)
(* ws/vault/sell.rs:90-114 SaleDesk *)
Class SaleDesk (D E : Type) := {
  take : D -> QuoteReceivedMessage -> option (E + bool) * D;
  accepting : D -> QuoteReceivedMessage -> (E + unit) * D;
  writer : D -> option (E + VaultManager) * D;
  signed : D -> SignedSale -> (E + unit) * D;
}.

(** What [messages.recv()] gives under the deadline. *)
Inductive SaleEvent :=
| SaleDeadline
| SaleStream (e : ManagedReceiveError.t)
| SaleInbound (connection_epoch : Z) (message : ServerMessage.t).

(** The circumstances of one command. *)
Record Turn := { tn_admitted : bool; tn_handle : Handle; tn_reply : Awaited (res SendAwaitError.t ServerMessage.t) }.

(** [w_sign_late]: signing did not finish before the deadline. *)
Record SaleWorld := { w_turn : nat -> Turn; w_new_v4 : nat -> Uuid; w_clock : Z; w_sign_late : bool }.

(** [sl_sent]: the commands the sale has put in the session's queue. *)
Record Sale (D : Type) := { sl_desk : D; sl_turn : nat; sl_uuids : nat; sl_rpc : RpcState; sl_sent : list ManagedCommand }.
Arguments sl_desk {D} s.
Arguments sl_turn {D} s.
Arguments sl_uuids {D} s.
Arguments sl_rpc {D} s.
Arguments sl_sent {D} s.

Definition selling (D E A : Type) : Type := Sale D -> res (SaleError.t E) A * Sale D.
#[export] Instance selling_ret {D E} : MRet (selling D E) := fun _ a s => (Ok a, s).
#[export] Instance selling_bind {D E} : MBind (selling D E) := fun _ _ k m s =>
  match m s with
  | (Ok a, s) => k a s
  | (Err e, s) => (Err e, s)
  | (Panic, s) => (Panic, s)
  end.

Section sell.
Context `{C : Crypto} `{P : Pda} `{B : PdaBump} `{N : Cluster} `{SL : SignerLike T}.
Context (base64_decode : string -> option bytes) (base64_encode : bytes -> string).
Context (serialize : ClientMessage.t -> string + string).
Context {D E : Type} `{K : !SaleDesk D E}.
(** The chain client's program, the operator, and the world. *)
Context (program : key) (operator : T) (w : SaleWorld).
Abbreviation sm := (selling D E) (only parsing).

Definition sthrow {A} (m : res (SaleError.t E) A) : sm A := fun s => (m, s).

Definition fresh_uuid : sm Uuid := fun s =>
  (Ok (w_new_v4 w (sl_uuids s)),
   {| sl_desk := sl_desk s; sl_turn := sl_turn s; sl_uuids := S (sl_uuids s); sl_rpc := sl_rpc s; sl_sent := sl_sent s |}).

Definition on_desk {A} (f : D -> A * D) : sm A := fun s =>
  let '(a, d) := f (sl_desk s) in
  (Ok a, {| sl_desk := d; sl_turn := sl_turn s; sl_uuids := sl_uuids s; sl_rpc := sl_rpc s; sl_sent := sl_sent s |}).

Definition on_chain {A} (m : rpc A) : sm A := fun s =>
  let '(r, c) := m (sl_rpc s) in
  (map_err SaleError.Chain r,
   {| sl_desk := sl_desk s; sl_turn := sl_turn s; sl_uuids := sl_uuids s; sl_rpc := c; sl_sent := sl_sent s |}).

(** A gated command of the sale; what it queues is remembered. *)
Definition sale_command (connection_epoch : Z) (message : ClientMessage.t) (failed : VaultRequestError.t -> SaleError.t E)
  : sm unit := fun s =>
  let turn := w_turn w (sl_turn s) in
  let '(r, h) := gated_command serialize (tn_admitted turn) (tn_handle turn) connection_epoch message (tn_reply turn) in
  (map_err failed r,
   {| sl_desk := sl_desk s; sl_turn := S (sl_turn s); sl_uuids := sl_uuids s; sl_rpc := sl_rpc s;
      sl_sent := sl_sent s ++ drop (length (h_queue (tn_handle turn))) (h_queue h) |}).

(** [.map_err(SaleError::Desk)?], and [TimedOut] where the decision is bounded. *)
Definition decided {A} (x : E + A) : sm A := match x with inr a => mret a | inl e => sthrow (Err (SaleError.Desk e)) end.
Definition decided_in_time {A} (stage : SaleStage.t) (x : option (E + A)) : sm A :=
  match x with Some x => decided x | None => sthrow (Err (SaleError.TimedOut stage)) end.

(* ws/vault/sell.rs:315-347 VaultOperatorClient::sign_sale *)
Definition sign_sale (sale : VaultSale) (quote : QuoteReceivedMessage) (served : SponsoredTxToSignData)
  : sm (SignedSale * SubmitSignedSponsoredTxData) :=
  answer ← on_desk writer;
  writer ← decided_in_time SaleStage.Sign answer;
  let maker := rv_maker quote in
  counterparty ← on_chain (load_counterparty program maker);
  keeper ← on_chain (hot_authority program);
  keys ← sthrow (map_err (fun e => SaleError.Sign (VaultTxError.Intent e))
                   (served_lookup_table_keys base64_decode (stx_tx_base64 served)));
  tables ← on_chain (address_lookup_tables keys);
  request_id ← fresh_uuid;
  '(submit, participant_signature) ←
    sthrow (map_err SaleError.Sign
      (verify_and_sign_sponsored_tx_with_participant_signature base64_decode base64_encode operator (w_clock w) request_id served
         (Counterparty.sale counterparty writer keeper (signed_terms sale quote)) tables (vs_bounds sale)));
  mret ({| sg_order_id := stx_order_id served; sg_participant_signature := participant_signature;
           sg_last_valid_block_height := stx_last_valid_block_height served |}, submit).

(* ws/vault/sell.rs:349-371 VaultOperatorClient::submit_sale *)
Definition submit_sale (connection_epoch : Z) (sale : SignedSale) (submit : SubmitSignedSponsoredTxData) : sm (option SaleOutcome.t) :=
  recorded ← on_desk (fun d => signed d sale);
  _ ← decided recorded;
  _ ← sale_command connection_epoch (ClientMessage.SubmitSignedSponsoredTx submit) (SaleError.Submit sale);
  mret (Some (SaleOutcome.Submitted sale)).

(** [timeout_at]: whatever it computed, a late signature is dropped. *)
(* ws/vault/sell.rs:301-306 VaultOperatorClient::sell_rfq (sign) *)
Definition sign_in_time (sale : VaultSale) (quote : QuoteReceivedMessage) (served : SponsoredTxToSignData)
  : sm (SignedSale * SubmitSignedSponsoredTxData) := fun s =>
  let '(r, s) := sign_sale sale quote served s in
  if w_sign_late w then (Err (SaleError.TimedOut SaleStage.Sign), s) else (r, s).

(** [None]: the events ran out, the sale is still under way. *)
(* ws/vault/sell.rs:252-312 VaultOperatorClient::sell_rfq (loop) *)
Fixpoint sell_loop (sale : VaultSale) (connection_epoch : Z) (request_id : Uuid) (events : list SaleEvent)
  (rfq_id : option Uuid) (taken : option QuoteReceivedMessage) : sm (option SaleOutcome.t) :=
  match events with
  | [] => mret None
  | SaleDeadline :: _ =>
      match taken with None => mret (Some SaleOutcome.Unfilled) | Some _ => sthrow (Err SaleError.Unserved) end
  | SaleStream e :: _ => sthrow (Err (SaleError.Stream e))
  | SaleInbound epoch message :: events =>
      if negb (epoch =? connection_epoch) then sthrow (Err SaleError.SessionChanged)
      else
        match message, taken with
        | ServerMessage.RfqCreated created, _ =>
            if bool_decide (cr_request_id created = Some request_id)
            then sell_loop sale connection_epoch request_id events (Some (cr_rfq_id created)) taken
            else sell_loop sale connection_epoch request_id events rfq_id taken
        | ServerMessage.QuoteReceived quote, None =>
            takes ← (if bool_decide (Some (rv_rfq_id quote) = rfq_id) && bool_decide (rv_terms quote = vs_terms sale)
                        && bool_decide (rv_side quote = TakerSide.Sell)
                     then answer ← on_desk (fun d => take d quote); decided_in_time SaleStage.Take answer
                     else mret false);
            if (takes : bool) then
              ready ← on_desk (fun d => accepting d quote);
              _ ← decided ready;
              id ← fresh_uuid;
              _ ← sale_command connection_epoch
                    (ClientMessage.AcceptQuote {| aq_request_id := id; aq_rfq_id := rv_rfq_id quote;
                       aq_maker := rv_maker quote; aq_order_id := rv_order_id quote |})
                    (SaleError.Rejected SaleStage.Accept);
              sell_loop sale connection_epoch request_id events rfq_id (Some quote)
            else sell_loop sale connection_epoch request_id events rfq_id taken
        | ServerMessage.SponsoredTxToSign served, Some quote =>
            if bool_decide (rv_order_id quote = stx_order_id served) then
              '(sale, submit) ← sign_in_time sale quote served;
              submit_sale connection_epoch sale submit
            else sell_loop sale connection_epoch request_id events rfq_id taken
        | _, _ => sell_loop sale connection_epoch request_id events rfq_id taken
        end
  end.

(* ws/vault/sell.rs:208-231 VaultOperatorClient::sell_rfq (checks) *)
Definition check_sale (sale : VaultSale) : res (SaleError.t E) unit :=
  let market := vs_market sale in
  let terms := vs_terms sale in
  let canonical := market_pda program (mi_underlying_mint market) (mi_quote_mint market) (mi_expiry_ts market) (mi_is_put market) in
  _ ← reject_if (negb (bool_decide (canonical = vs_market_pda sale))
                 || negb (Bool.eqb (PositionType.is_put (OptionTerms.position_type terms)) (mi_is_put market)))
        SaleError.Market;
  match OptionTerms.upper_strike terms with
  | None => Ok tt
  | Some upper =>
      _ ← reject_if (negb (bool_decide (OptionTerms.position_type terms = PositionType.CashPut))
                     && (OptionTerms.strike terms =? 0)) (SaleError.Spread SpreadError.InvalidStrikes);
      kind ← map_err SaleError.Spread
               (spread_type_try_from (ChainPositionType.to_u8 (ChainTerms.position_type (OptionTerms.to_chain terms))));
      _ ← map_err SaleError.Spread (validate_strikes kind (ChainTerms.strike (OptionTerms.to_chain terms)) upper);
      Ok tt
  end.

(* ws/vault/sell.rs:200-313 VaultOperatorClient::sell_rfq *)
Definition sell_rfq (sale : VaultSale) (connection_epoch : Z) (events : list SaleEvent) : sm (option SaleOutcome.t) :=
  _ ← sthrow (check_sale sale);
  request_id ← fresh_uuid;
  _ ← sale_command connection_epoch
        (ClientMessage.RfqRequest {| rr_request_id := request_id; rr_market := vs_market_pda sale; rr_terms := vs_terms sale;
           rr_side := TakerSide.Sell; rr_quantity := vs_quantity sale; rr_timeout_seconds := vs_rfq_timeout sale |})
        (SaleError.Rejected SaleStage.Request);
  sell_loop sale connection_epoch request_id events None None.
End sell.

(** ** What a sale sends *)

Section sound.
Context `{C : Crypto} `{P : Pda} `{B : PdaBump} `{N : Cluster} `{SL : SignerLike T}.
Context (base64_decode : string -> option bytes) (base64_encode : bytes -> string).
Context (serialize : ClientMessage.t -> string + string).
Context {D E : Type} `{K : !SaleDesk D E}.
Context (program : key) (operator : T) (w : SaleWorld).
Context (sale : VaultSale) (epoch : Z).
Abbreviation sm := (selling D E) (only parsing).

(** Commands in the epoch of the sale. *)
Definition sends (c : ManagedCommand) (m : ClientMessage.t) : Prop := message_of c = m /\ epoch_of c = Some epoch.

Definition quiet {A} (m : sm A) : Prop := forall s, sl_sent (m s).2 = sl_sent s.

Lemma quiet_bind {A X} (m : sm A) (k : A -> sm X) : quiet m -> (forall a, quiet (k a)) -> quiet (m ≫= k).
Proof.
  intros Hm Hk s. unfold mbind, selling_bind. specialize (Hm s). destruct (m s) as [[a|e|] s1]; simpl in *; [|done..].
  by rewrite (Hk a s1).
Qed.
Lemma quiet_throw {A} (m : res (SaleError.t E) A) : quiet (sthrow m).
Proof. done. Qed.
Lemma quiet_ret {A} (a : A) : quiet (mret a).
Proof. done. Qed.
Lemma quiet_uuid : quiet (fresh_uuid w).
Proof. done. Qed.
Lemma quiet_desk {A} (f : D -> A * D) : quiet (on_desk f).
Proof. intros s. unfold on_desk. by destruct (f (sl_desk s)). Qed.
Lemma quiet_chain {A} (m : rpc A) : quiet (on_chain m).
Proof. intros s. unfold on_chain. by destruct (m (sl_rpc s)). Qed.
Lemma quiet_decided {A} (x : E + A) : quiet (decided x).
Proof. by destruct x. Qed.
Lemma quiet_in_time {A} stage (x : option (E + A)) : quiet (decided_in_time stage x).
Proof. destruct x; [apply quiet_decided|done]. Qed.

Ltac be_quiet :=
  repeat first [apply quiet_bind; [|intros ?] | apply quiet_throw | apply quiet_ret | apply quiet_uuid
               | apply quiet_desk | apply quiet_chain | apply quiet_decided | apply quiet_in_time
               | match goal with |- quiet (match ?x with _ => _ end) => destruct x end ].

Lemma quiet_sign_sale quote served : quiet (sign_sale base64_decode base64_encode program operator w sale quote served).
Proof. unfold sign_sale. be_quiet. Qed.

Lemma quiet_sign quote served : quiet (sign_in_time base64_decode base64_encode program operator w sale quote served).
Proof.
  intros s. unfold sign_in_time. pose proof (quiet_sign_sale quote served s) as H.
  destruct (sign_sale _ _ _ _ _ _ _ _ s) as [r s1]. by destruct (w_sign_late w).
Qed.

Lemma selling_bind_cases {A X} (m : sm A) (k : A -> sm X) s r s' :
  (m ≫= k) s = (r, s') ->
  (exists a s1, m s = (Ok a, s1) /\ k a s1 = (r, s')) \/ (exists e, m s = (Err e, s') /\ r = Err e) \/ (m s = (Panic, s') /\ r = Panic).
Proof. unfold mbind, selling_bind. destruct (m s) as [[a|e|] s1]; intros H; simplify_eq; eauto 10. Qed.

(** A command puts at most itself in the queue, and does when it succeeds. *)
Lemma sale_command_sent m (failed : VaultRequestError.t -> SaleError.t E) (s : Sale D) r s' :
  sale_command serialize w epoch m failed s = (r, s') ->
  exists more, sl_sent s' = sl_sent s ++ more /\ (more = [] \/ exists c, more = [c] /\ sends c m) /\
    match r with Ok _ => more <> [] | Err e => exists error, e = failed error | Panic => True end.
Proof.
  unfold sale_command. destruct (w_turn w (sl_turn s)) as [admitted h rx]. simpl.
  destruct (gated_command serialize admitted h epoch m rx) as [g h1] eqn:G. intros [= <- <-]. simpl.
  eexists. split; [done|]. unfold gated_command, gated_request in G. destruct admitted.
  2: { simplify_eq. rewrite drop_all. split; [by left|]. simpl. eauto. }
  pose proof (try_send_await_stamped serialize (fun _ => h) (fun _ => None) h m epoch) as (q & Hq & Hs).
  assert (q = h_queue h) as ->. { destruct Hq as [|(? & [|])]; done. } clear Hq.
  destruct (try_send_await_in_epoch serialize h m epoch) as [[id|e|] h2]; simpl in Hs.
  - destruct Hs as (_ & c & Hc & Hm & He).
    assert (h_queue h1 = h_queue h2) as Hsame.
    { unfold response in G. destruct rx as [[x|x|]| |]; simplify_eq; done. }
    rewrite Hsame, Hc, drop_app_length. split; [right; by exists c|]. destruct g; simpl; eauto.
  - simplify_eq. rewrite Hs, drop_all. split; [by left|]. simpl. eauto.
  - simplify_eq. rewrite Hs, drop_all. split; [by left|done].
Qed.

Section trace.
(** Everything the session received during the sale. *)
Context (events : list SaleEvent).
Definition heard (m : ServerMessage.t) : Prop := SaleInbound epoch m ∈ events.

Definition request (id : Uuid) : ClientMessage.t :=
  ClientMessage.RfqRequest {| rr_request_id := id; rr_market := vs_market_pda sale; rr_terms := vs_terms sale;
    rr_side := TakerSide.Sell; rr_quantity := vs_quantity sale; rr_timeout_seconds := vs_rfq_timeout sale |}.

Definition acceptance (id : Uuid) (q : QuoteReceivedMessage) : ClientMessage.t :=
  ClientMessage.AcceptQuote {| aq_request_id := id; aq_rfq_id := rv_rfq_id q; aq_maker := rv_maker q; aq_order_id := rv_order_id q |}.

(** The RFQ that the venue created for this request. *)
Definition created (id : Uuid) (rfq : Uuid) : Prop :=
  exists m, heard (ServerMessage.RfqCreated m) /\ cr_request_id m = Some id /\ cr_rfq_id m = rfq.

(** A quote for it, of the terms that are for sale. *)
Record offered (id : Uuid) (q : QuoteReceivedMessage) : Prop := {
  of_heard : heard (ServerMessage.QuoteReceived q);
  of_terms : rv_terms q = vs_terms sale;
  of_side : rv_side q = TakerSide.Sell;
  of_rfq : created id (rv_rfq_id q);
}.

(** The transaction served for it opens exactly the position of the sale, between the
    writer the desk named and the counterparty the chain has for the quote's maker. *)
Definition agreed (q : QuoteReceivedMessage) (sg : SignedSale) (submit : SubmitSignedSponsoredTxData) : Prop :=
  exists served writer counterparty keeper tables request_id,
    heard (ServerMessage.SponsoredTxToSign served) /\ stx_order_id served = rv_order_id q /\
    (exists c c', load_counterparty program (rv_maker q) c = (Ok counterparty, c')) /\
    (exists c c', hot_authority program c = (Ok keeper, c')) /\
    verify_and_sign_sponsored_tx_with_participant_signature base64_decode base64_encode operator (w_clock w) request_id served
      (Counterparty.sale counterparty writer keeper (signed_terms sale q)) tables (vs_bounds sale)
      = Ok (submit, sg_participant_signature sg) /\
    sg_order_id sg = rv_order_id q.

(** How far a sale got: what it sent, and how that relates to its result. *)
Inductive traded (id : Uuid) : list ManagedCommand -> res (SaleError.t E) (option SaleOutcome.t) -> Prop :=
| t_asked c r : sends c (request id) -> (forall sg, r <> Ok (Some (SaleOutcome.Submitted sg))) -> traded id [c] r
| t_accepted c q id1 c1 r :
    sends c (request id) -> offered id q -> sends c1 (acceptance id1 q) ->
    (forall sg, r <> Ok (Some (SaleOutcome.Submitted sg))) -> r <> Ok (Some SaleOutcome.Unfilled) -> traded id [c; c1] r
| t_submitted c q id1 c1 sg submit c2 r :
    sends c (request id) -> offered id q -> sends c1 (acceptance id1 q) -> agreed q sg submit ->
    sends c2 (ClientMessage.SubmitSignedSponsoredTx submit) ->
    (r = Ok (Some (SaleOutcome.Submitted sg)) \/ (exists error, r = Err (SaleError.Submit sg error)) \/ r = Panic) ->
    traded id [c; c1; c2] r.

Lemma selling_bind_Ok {A X} (m : sm A) (k : A -> sm X) s b s' :
  (m ≫= k) s = (Ok b, s') -> exists a s1, m s = (Ok a, s1) /\ k a s1 = (Ok b, s').
Proof. intros [?|[(? & _ & [=])|(_ & [=])]]%selling_bind_cases. done. Qed.

Lemma on_chain_Ok {A} (m : rpc A) (s : Sale D) a s' : on_chain (E := E) m s = (Ok a, s') -> exists c, m (sl_rpc s) = (Ok a, c).
Proof. unfold on_chain. destruct (m (sl_rpc s)) as [[] c]; intros [= <- <-]. eauto. Qed.

Lemma sign_agreed q served s sg submit s' :
  heard (ServerMessage.SponsoredTxToSign served) -> rv_order_id q = stx_order_id served ->
  sign_in_time base64_decode base64_encode program operator w sale q served s = (Ok (sg, submit), s') -> agreed q sg submit.
Proof.
  intros Hh Ho. unfold sign_in_time. destruct (sign_sale _ _ _ _ _ _ _ _ s) as [r s1] eqn:Hs.
  destruct (w_sign_late w); [done|]. intros [= -> ->]. unfold sign_sale in Hs.
  apply selling_bind_Ok in Hs as (answer & s2 & _ & Hs). apply selling_bind_Ok in Hs as (writer & s3 & _ & Hs).
  apply selling_bind_Ok in Hs as (counterparty & s4 & Hcp & Hs). apply selling_bind_Ok in Hs as (keeper & s5 & Hk & Hs).
  apply selling_bind_Ok in Hs as (keys & s6 & _ & Hs). apply selling_bind_Ok in Hs as (tables & s7 & _ & Hs).
  apply selling_bind_Ok in Hs as (rid & s8 & _ & Hs). apply selling_bind_Ok in Hs as ([sub sig] & s9 & Hv & Hs).
  injection Hs as <- <- <-. apply on_chain_Ok in Hcp as [c1 Hcp]. apply on_chain_Ok in Hk as [c2 Hk].
  unfold sthrow in Hv. injection Hv as Hv _. apply map_err_Ok in Hv.
  exists served, writer, counterparty, keeper, tables, rid. split_and!; eauto.
Qed.

(** The commands of a sale that has, or has not, taken a quote. *)
Definition sent_for (id : Uuid) (c : ManagedCommand) (taken : option QuoteReceivedMessage) (sent : list ManagedCommand) : Prop :=
  sends c (request id) /\
  match taken with
  | None => sent = [c]
  | Some q => offered id q /\ exists id1 c1, sends c1 (acceptance id1 q) /\ sent = [c; c1]
  end.

Lemma traded_so_far id c taken sent r :
  sent_for id c taken sent -> (forall sg, r <> Ok (Some (SaleOutcome.Submitted sg))) ->
  (taken <> None -> r <> Ok (Some SaleOutcome.Unfilled)) -> traded id sent r.
Proof.
  intros [Hc Ht] Hr Hu. destruct taken as [q|]; [|subst; by constructor].
  destruct Ht as (Ho & id1 & c1 & H1 & ->). econstructor; eauto.
Qed.

Lemma submit_traded id c q s r s' sg submit :
  sent_for id c (Some q) (sl_sent s) -> agreed q sg submit ->
  submit_sale serialize w epoch sg submit s = (r, s') -> traded id (sl_sent s') r.
Proof.
  intros [Hc (Ho & id1 & c1 & H1 & Hsent)] Ha H. unfold submit_sale in H.
  assert (Hfar : forall r', (forall sg, r' <> Ok (Some (SaleOutcome.Submitted sg))) -> r' <> Ok (Some SaleOutcome.Unfilled) ->
    traded id [c; c1] r') by (intros; econstructor; eauto).
  apply selling_bind_cases in H as [(x & s1 & E1 & H)|[(e & E1 & ->)|[E1 ->]]];
    pose proof (quiet_desk (fun d => signed d sg) s) as Q1; rewrite E1 in Q1; cbn [snd] in Q1;
    [|rewrite Q1, Hsent; by apply Hfar..].
  apply selling_bind_cases in H as [([] & s2 & E2 & H)|[(e & E2 & ->)|[E2 ->]]];
    pose proof (quiet_decided x s1) as Q2; rewrite E2 in Q2; cbn [snd] in Q2;
    [|rewrite Q2, Q1, Hsent; by apply Hfar..].
  apply selling_bind_cases in H as [([] & s3 & E3 & H)|[(e & E3 & ->)|[E3 ->]]];
    apply sale_command_sent in E3 as (more & Hm & Hcase & Hres); rewrite Q2, Q1, Hsent in Hm.
  - injection H as <- <-. destruct Hcase as [->|(c2 & -> & H2)]; [done|]. rewrite Hm. simpl.
    econstructor; eauto.
  - destruct Hres as [error ->]. rewrite Hm. destruct Hcase as [->|(c2 & -> & H2)]; simpl; [by apply Hfar|].
    econstructor; eauto 10.
  - rewrite Hm. destruct Hcase as [->|(c2 & -> & H2)]; simpl; [by apply Hfar|]. econstructor; eauto 10.
Qed.

(** A step that sends nothing fails, or goes on from the same commands. *)
Lemma quiet_cases {A} id c taken (m : sm A) (k : A -> sm (option SaleOutcome.t)) s r s' :
  sent_for id c taken (sl_sent s) -> (m ≫= k) s = (r, s') -> quiet m ->
  traded id (sl_sent s') r \/ exists a s1, m s = (Ok a, s1) /\ sent_for id c taken (sl_sent s1) /\ k a s1 = (r, s').
Proof.
  intros Hs H Hq. specialize (Hq s).
  apply selling_bind_cases in H as [(a & s1 & E1 & H)|[(e & E1 & ->)|[E1 ->]]]; rewrite E1 in Hq; cbn [snd] in Hq.
  - right. exists a, s1. by rewrite Hq.
  - left. rewrite Hq. by eapply traded_so_far.
  - left. rewrite Hq. by eapply traded_so_far.
Qed.

(** The desk takes a quote only when it is one for this sale. *)
Definition considers (rfq_id : option Uuid) (q : QuoteReceivedMessage) : bool :=
  bool_decide (Some (rv_rfq_id q) = rfq_id) && bool_decide (rv_terms q = vs_terms sale)
  && bool_decide (rv_side q = TakerSide.Sell).

Lemma considers_offered id rfq_id q :
  considers rfq_id q = true -> heard (ServerMessage.QuoteReceived q) -> (forall i, rfq_id = Some i -> created id i) -> offered id q.
Proof.
  unfold considers. intros [[H1 H2]%andb_true_iff H3]%andb_true_iff Hh Hi.
  apply bool_decide_eq_true in H1, H2, H3. constructor; [done..|]. by apply Hi.
Qed.

Lemma loop_traded id c : forall evs rfq_id taken (s : Sale D) r s',
  evs ⊆ events -> (forall i, rfq_id = Some i -> created id i) -> sent_for id c taken (sl_sent s) ->
  sell_loop base64_decode base64_encode serialize program operator w sale epoch id evs rfq_id taken s = (r, s') ->
  traded id (sl_sent s') r.
Proof.
  induction evs as [|e evs IH]; intros rfq_id taken s r s' Hsub Hi Hs H.
  { injection H as <- <-. by eapply traded_so_far. }
  assert (Hrest : evs ⊆ events) by set_solver.
  destruct e as [|e|x m]; cbn [sell_loop] in H.
  { destruct taken; injection H as <- <-; by eapply traded_so_far. }
  { injection H as <- <-. by eapply traded_so_far. }
  destruct (Z.eqb_spec x epoch) as [->|]; cbn [negb] in H; [|injection H as <- <-; by eapply traded_so_far].
  assert (Hm : heard m) by (apply Hsub; left). 
  destruct m; try (by eapply IH).
  - case_bool_decide as Hc; [|by eapply IH]. eapply IH; [done| |done|done]. intros i [= <-]. by eexists.
  - destruct taken as [q|]; [by eapply IH|]. fold (considers rfq_id m) in H.
    destruct (quiet_cases id c None _ _ _ _ _ Hs H) as [?|(takes & s1 & E1 & H1 & H')]; [|done|clear H].
    { destruct (considers rfq_id m); be_quiet. }
    destruct takes; [|by eapply IH].
    destruct (considers rfq_id m) eqn:Hc; [|by injection E1].
    pose proof (considers_offered _ _ _ Hc Hm Hi) as Ho.
    destruct (quiet_cases id c None _ _ _ _ _ H1 H' (quiet_desk _)) as [?|(ready & s2 & _ & H2 & H3)]; [done|].
    destruct (quiet_cases id c None _ _ _ _ _ H2 H3 (quiet_decided _)) as [?|([] & s3 & _ & H4 & H5)]; [done|].
    destruct (quiet_cases id c None _ _ _ _ _ H4 H5 quiet_uuid) as [?|(id1 & s4 & _ & [Hsc H6] & H)]; [done|].
    clear H' H3 H5.
    apply selling_bind_cases in H as [([] & s5 & E5 & H)|[(e & E5 & ->)|[E5 ->]]];
      apply sale_command_sent in E5 as (more & Hmore & Hcase & Hres); rewrite H6 in Hmore.
    + destruct Hcase as [->|(c1 & -> & Hc1)]; [done|]. eapply IH; [done|done| |exact H].
      split; [done|]. split; [done|]. exists id1, c1. by rewrite Hmore.
    + rewrite Hmore. destruct Hres as [error ->]. destruct Hcase as [->|(c1 & -> & Hc1)]; econstructor; eauto; done.
    + rewrite Hmore. destruct Hcase as [->|(c1 & -> & Hc1)]; econstructor; eauto; done.
  - destruct taken as [q|]; [|by eapply IH]. case_bool_decide as Hord; [|by eapply IH].
    destruct (quiet_cases id c (Some q) _ _ _ _ _ Hs H (quiet_sign _ _)) as [?|([sg submit] & s1 & E1 & H1 & H')]; [done|].
    eapply submit_traded; [done| |done]. by eapply sign_agreed.
Qed.
End trace.
End sound.

(** C25: Selling through an RFQ.  A sale sends at most three commands, in this order and all
    bound to the connection epoch it was started in: one request for the terms, side and
    quantity of the sale; one acceptance, of a quote of those terms received for the RFQ the
    venue created for that request; one submission, of a transaction served for the accepted
    order that was verified to open exactly that position between the vault and the
    counterparty the chain names, and signed.  [Submitted] means the third was sent; and
    when a failed sale says that nothing is in flight, a submission was not sent, or it was
    answered as not forwarded. *)
Theorem sale_sound `{C : Crypto} `{P : Pda} `{B : PdaBump} `{N : Cluster} `{SL : SignerLike T} {D E : Type} `{K : !SaleDesk D E}
  base64_decode base64_encode serialize program (operator : T) w sale epoch events (s : Sale D) r s' :
  sell_rfq base64_decode base64_encode serialize program operator w sale epoch events s = (r, s') -> sl_sent s = [] ->
  (sl_sent s' = [] /\ (forall o, r <> Ok o) \/
   exists id, traded base64_decode base64_encode program operator w sale epoch events id (sl_sent s') r) /\
  (forall e, r = Err e -> SaleError.in_flight e = None ->
   forall c submit, c ∈ sl_sent s' -> message_of c = ClientMessage.SubmitSignedSponsoredTx submit ->
   exists sg error, e = SaleError.Submit sg error /\ VaultRequestError.delivery error = Some Delivery.NotForwarded).
Proof.
  intros H Hs.
  assert (Ht : sl_sent s' = [] /\ (forall o, r <> Ok o) \/
    exists id, traded base64_decode base64_encode program operator w sale epoch events id (sl_sent s') r).
  { unfold sell_rfq in H. apply selling_bind_cases in H as [([] & s1 & E1 & H)|[(e & E1 & ->)|[E1 ->]]];
      injection E1 as _ <-; [|by left..].
    apply selling_bind_cases in H as [(id & s2 & E2 & H)|[(e & E2 & _)|[E2 _]]]; [|discriminate E2..].
    assert (Hs2 : sl_sent s2 = []) by (by injection E2 as _ <-).
    apply selling_bind_cases in H as [([] & s3 & E3 & H)|[(e & E3 & ->)|[E3 ->]]];
      apply sale_command_sent in E3 as (more & Hmore & Hcase & Hres); rewrite Hs2 in Hmore; simpl in Hmore.
    - destruct Hcase as [->|(c & -> & Hc)]; [done|]. right. exists id. eapply loop_traded; [| | |exact H]; [done|done|].
      split; [exact Hc|done].
    - rewrite Hmore. destruct Hcase as [->|(c & -> & Hc)]; [by left|]. right. exists id. constructor; [exact Hc|done].
    - rewrite Hmore. destruct Hcase as [->|(c & -> & Hc)]; [by left|]. right. exists id. constructor; [exact Hc|done]. }
  split; [exact Ht|]. intros e -> Hin c submit Hc Hmsg. destruct Ht as [[Hnil _]|[id Ht]]; [rewrite Hnil in Hc; set_solver|].
  remember (Err e) as r eqn:Hr0. revert Hc.
  destruct Ht as [c0 r [Hm0 _] _|c0 q id1 c1 r [Hm0 _] _ [Hm1 _] _ _|c0 q id1 c1 sg sub c2 r [Hm0 _] _ [Hm1 _] _ [Hm2 _] Hr]; intros Hc.
  - exfalso. rewrite ?elem_of_cons, elem_of_nil in Hc. unfold request, acceptance in *. destruct_or?; simplify_eq; congruence.
  - exfalso. rewrite ?elem_of_cons, elem_of_nil in Hc. unfold request, acceptance in *. destruct_or?; simplify_eq; congruence.
  - subst r. destruct Hr as [[=]|[[error [= ->]]|[=]]]. exists sg, error. split; [done|]. simpl in Hin. by case_bool_decide.
Qed.

(** ** A sale that goes through *)

Module SellSample.
#[local] Existing Instance QuoteExample.pda.
#[global] Instance bump : PdaBump := {| find_bump _ _ := 255 |}.
Definition program : key := key_of 7.
Definition table : LookupTable := snd OpenSample.compiled.
Definition cluster : Cluster := RpcSample.cluster
  [(maker_pda_with_program_id program (key_of 21),
    holding 5 program (maker_segments {| mk_owner := key_of 21; mk_quote_signer := key_of 22 |} (replicate 2 0) (replicate 260 0)));
   (find_program_address [as_bytes "global_config"] program,
    holding 5 program (global_segments {| gc_hot_authority := OpenSample.keeper; gc_bump := 255 |} true (replicate 256 0)));
   (table_key table,
    {| owner := ADDRESS_LOOKUP_TABLE_PROGRAM_ID; lamports := 5;
       account_data := to_le_bytes 4 1 ++ to_le_bytes 8 (2 ^ 64 - 1) ++ replicate 44 0 ++ concat (addresses table) |})] 0 0 0.

Definition sale : VaultSale :=
  {| vs_market_pda := market_pda program (key_of 11) (key_of 15) 1760000000 false;
     vs_market := {| mi_expiry_ts := 1760000000; mi_is_put := false; mi_is_finalized := false; mi_settlement_price := 0;
       mi_underlying_mint := key_of 11; mi_quote_mint := key_of 15; mi_underlying_token_program_id := TOKEN_PROGRAM_ID;
       mi_quote_token_program_id := TOKEN_PROGRAM_ID; mi_underlying_decimals := 9; mi_quote_decimals := 6 |};
     vs_terms := OptionTerms.CoveredCall 200; vs_quantity := 3; vs_rfq_timeout := 30; vs_window := 60 * NANOS;
     vs_bounds := OpenSample.bounds |}.

(** A desk that takes the first quote of at least the price it wants. *)
#[global] Instance desk : SaleDesk Z unit :=
  {| take d q := (Some (inr (d <=? rv_price q)), d); accepting d _ := (inr tt, d);
     writer d := (Some (inr VaultSample.manager), d); signed d _ := (inr tt, d) |}.

Definition handle : Handle :=
  {| h_state := ManagedWsState.Ready 6; h_queue := []; h_capacity := 4; h_gone := false; h_cancels := [];
     h_next_await_id := 1; h_next_tx := 1; h_max_batch_quotes := 50; h_max_outbound_message_size := 1000 |}.
Definition world : SaleWorld :=
  {| w_turn n := {| tn_admitted := true; tn_handle := handle;
       tn_reply := Replied (Ok (ServerMessage.CommandAccepted (Z.of_nat n))) |};
     w_new_v4 n := 500 + Z.of_nat n; w_clock := 1700000000 * NANOS; w_sign_late := false |}.
Definition quote (rfq price : Z) : QuoteReceivedMessage :=
  {| rv_rfq_id := rfq; rv_terms := OptionTerms.CoveredCall 200; rv_side := TakerSide.Sell; rv_maker := key_of 21; rv_price := price;
     rv_valid_until := 1750000000; rv_nonce := 42; rv_order_id := vo_order_id OpenSample.opened; rv_net_price := None |}.

(** A quote of another RFQ and one below the price are passed over. *)
Definition events : list SaleEvent :=
  [SaleInbound 6 (ServerMessage.RfqCreated {| cr_rfq_id := 99; cr_terms := OptionTerms.CoveredCall 200;
     cr_side := TakerSide.Sell; cr_request_id := Some 500 |});
   SaleInbound 6 (ServerMessage.QuoteReceived (quote 98 9)); SaleInbound 6 (ServerMessage.QuoteReceived (quote 99 1));
   SaleInbound 6 (ServerMessage.QuoteReceived (quote 99 4)); SaleInbound 6 (ServerMessage.SponsoredTxToSign OpenSample.to_sign)].
Definition start : Sale Z := {| sl_desk := 4; sl_turn := 0; sl_uuids := 0; sl_rpc := RpcSample.start; sl_sent := [] |}.
Definition serialize (m : ClientMessage.t) : string + string := inr "{}"%string.
End SellSample.

Lemma sale_sound_witness :
  exists r s', sell_rfq (P := QuoteExample.pda) (N := SellSample.cluster) OpenSample.base64_decode Sample.encode
      SellSample.serialize SellSample.program (from_secret (key_of 3)) SellSample.world SellSample.sale 6 SellSample.events
      SellSample.start = (r, s') /\ length (sl_sent s') = 3%nat /\
    exists id, traded (P := QuoteExample.pda) (N := SellSample.cluster) OpenSample.base64_decode Sample.encode SellSample.program
      (from_secret (key_of 3)) SellSample.world SellSample.sale 6 SellSample.events id (sl_sent s') r.
Proof.
  assert (Hrun : (length (sl_sent (sell_rfq (P := QuoteExample.pda) (N := SellSample.cluster) OpenSample.base64_decode
      Sample.encode SellSample.serialize SellSample.program (from_secret (key_of 3)) SellSample.world SellSample.sale 6
      SellSample.events SellSample.start).2) =? 3)%nat = true) by (vm_compute; reflexivity).
  pose proof (sale_sound (P := QuoteExample.pda) (N := SellSample.cluster) OpenSample.base64_decode Sample.encode
    SellSample.serialize SellSample.program (from_secret (key_of 3)) SellSample.world SellSample.sale 6 SellSample.events
    SellSample.start) as H.
  destruct (sell_rfq _ _ _ _ _ _ _ _ _ _) as [r s']. exists r, s'. split; [reflexivity|].
  apply Nat.eqb_eq in Hrun. cbn [snd] in Hrun. split; [exact Hrun|].
  destruct (H r s' eq_refl eq_refl) as [[[Hnil _]|Ht] _]; [rewrite Hnil in Hrun; discriminate Hrun|exact Ht].
Defined.
