(* ===== verification/Venues.v ===== *)
(** * Swap venues ([src/chain/vault/venues])

    What a curator's hops call: the registry of venues a vault may use, Exponent's market,
    standardised yield and core vault, SPL stake pools, and Jupiter's quotes.  Accounts of
    other programs are read byte by byte; each venue turns an amount into a hop. *)

From Stdlib Require Import ZArith Lia String.
From stdpp Require Import base list strings.
From S2P Require Import Prelude Signing Quote Challenge Chain Account Price Vault Wire Swap Served Owner Intent SwapIntent Rpc Confirm.

Open Scope Z_scope.

(* chain/vault/venues/mod.rs:8-10 invalid *)
Definition invalid (message : string) : VaultChainError.t := VaultChainError.InvalidInput message.

(** [bytes.starts_with(prefix)]. *)
Definition starts_with (prefix l : bytes) : bool := bool_decide (take (length prefix) l = prefix).

(** ** Reading an account *)

(* chain/vault/venues/mod.rs:60-63 Reader *)
Record Reader := { rd_data : bytes; rd_at : Z }.

(** A step of a reader: a value and the reader after it. *)
Definition vread (A : Type) : Type := Reader -> cres (A * Reader).
#[export] Instance vread_ret : MRet vread := fun _ a r => Ok (a, r).
#[export] Instance vread_bind : MBind vread := fun _ _ k m r => '(a, r) ← m r; k a r.

Definition vlift {A} (m : cres A) : vread A := fun r => a ← m; Ok (a, r).

(* chain/vault/venues/mod.rs:65-67 Reader::new *)
Definition reader (data : bytes) (at_ : Z) : Reader := {| rd_data := data; rd_at := at_ |}.

(* chain/vault/venues/mod.rs:68-79 Reader::take *)
Definition vtake (len : Z) : vread bytes := fun r =>
  end_ ← ok_or (checked_add 64 (rd_at r) len) (invalid "venue offset overflow");
  bytes ← ok_or (if end_ <=? Z.of_nat (length (rd_data r))
                 then get_range (rd_data r) (Z.to_nat (rd_at r)) (Z.to_nat end_) else None)
            (invalid "truncated venue account");
  Ok (bytes, {| rd_data := rd_data r; rd_at := end_ |}).

(** [array::<N>()] is [take(N)]: the slice has [N] bytes. *)
(* chain/vault/venues/mod.rs:85-87 Reader::byte *)
Definition vbyte : vread Z := bytes ← vtake 1; vlift (index_p bytes 0).
(* chain/vault/venues/mod.rs:88-90 Reader::u32 *)
Definition vu32 : vread Z := bytes ← vtake 4; mret (from_le_bytes bytes).
(* chain/vault/venues/mod.rs:91-93 Reader::u64 *)
Definition vu64 : vread Z := bytes ← vtake 8; mret (from_le_bytes bytes).
(* chain/vault/venues/mod.rs:94-96 Reader::key *)
Definition vkey : vread key := vtake 32.
(* chain/vault/venues/mod.rs:97-105 Reader::skip_vec *)
Definition skip_vec (width : Z) : vread unit :=
  count ← vu32;
  len ← vlift (ok_or (checked_mul 64 count width) (invalid "venue vector overflow"));
  _ ← vtake len;
  mret tt.

Definition vrequire (bad : bool) (message : string) : vread unit := vlift (reject_if bad (invalid message)).

(** [for _ in 0..n]. *)
Fixpoint vrepeat {A} (n : nat) (m : vread A) : vread (list A) :=
  match n with
  | O => mret []
  | S n => a ← m; l ← vrepeat n m; mret (a :: l)
  end.

(** The value a reader of [data] from [at_] returns. *)
Definition run {A} (m : vread A) (data : bytes) (at_ : Z) : cres A := fst <$> m (reader data at_).

(** ** The registry of venues *)

Module SwapVenues.
(* chain/vault/venues/mod.rs:12-13 SwapVenues *)
Abbreviation t := (list (key * list bytes)) (only parsing).

(* chain/vault/venues/mod.rs:35-40 SwapVenues::parse (selector) *)
Definition selector : vread bytes :=
  len ← vbyte;
  bytes ← vtake 8;
  _ ← vrequire (negb ((1 <=? len) && (len <=? 8)) || existsb (fun b => negb (b =? 0)) (drop (Z.to_nat len) bytes))
        "invalid venue selector";
  mret (take (Z.to_nat len) bytes).

(* chain/vault/venues/mod.rs:27-42 SwapVenues::parse (slot) *)
Definition slot : vread (key * list bytes) :=
  program ← vkey;
  count ← vbyte;
  _ ← vrequire (negb ((1 <=? count) && (count <=? 8))) "invalid venue selector count";
  selectors ← vrepeat (Z.to_nat count) selector;
  mret (program, selectors).

(** The length is checked before a byte is indexed. *)
(* chain/vault/venues/mod.rs:16-45 SwapVenues::parse *)
Definition parse (data : bytes) : cres t :=
  let bad := invalid "invalid SwapVenues account" in
  _ ← reject_if (negb (length data =? 3364)%nat) bad;
  discriminator ← index_p data 0;
  _ ← reject_if (negb (discriminator =? 16)) bad;
  version ← index_p data 1;
  _ ← reject_if (negb (version =? 1)) bad;
  count ← index_p data 3;
  _ ← reject_if (32 <? count) bad;
  slots ← slice_p data 4 (length data);
  try_map (fun bytes => run slot bytes 0) (take (Z.to_nat count) (chunks 105 slots)).

(* chain/vault/venues/mod.rs:46-57 SwapVenues::allows *)
Definition allows (self : t) (hop : VaultSwapHop) : bool :=
  existsb (fun '(program, selectors) =>
    bool_decide (program = h_program hop) &&
    existsb (fun s =>
      starts_with s (h_data hop) &&
      match h_amount_offset hop with
      | Some offset => Z.of_nat (length s) <=? ao_offset offset
      | None => true
      end) selectors) self.
End SwapVenues.

(** ** Exponent *)

Module Exponent.
(* chain/vault/venues/exponent.rs:7-10 program ids *)
Definition CLMM : key :=
  [7; 200; 131; 170; 8; 125; 210; 119; 176; 137; 159; 146; 144; 168; 27; 210; 252; 191; 73; 102; 8; 106; 154; 107; 177;
   201; 192; 215; 184; 192; 243; 129].
Definition GENERIC_SY : key :=
  [7; 200; 77; 162; 10; 143; 74; 141; 113; 228; 172; 119; 210; 209; 174; 37; 97; 231; 43; 178; 113; 129; 77; 244; 9; 133;
   31; 93; 48; 202; 19; 176].
Definition CORE : key :=
  [207; 116; 238; 2; 40; 37; 87; 248; 191; 209; 204; 35; 112; 8; 76; 68; 243; 235; 174; 212; 14; 103; 246; 91; 171; 203;
   67; 168; 55; 203; 162; 132].
Definition INDEX_ONE : Z := 1000000000000.

(* chain/vault/venues/exponent.rs:12-25 Market *)
Record Market := {
  mk_address : key; mk_lookup_table : key; mk_pt : key; mk_sy : key; mk_vault : key; mk_pt_escrow : key;
  mk_sy_escrow : key; mk_fee_sy : key; mk_fee_pt : key; mk_ticks : key; mk_cpi : list (Z * bool) }.
(* chain/vault/venues/exponent.rs:154-162 GenericSy *)
Record GenericSy := {
  sy_address : key; sy_mint : key; sy_base : key; sy_index : Z; sy_interface_accounts : list key;
  sy_emissions : list key }.
(* chain/vault/venues/exponent.rs:269-281 CoreVault *)
Record CoreVault := {
  cv_address : key; cv_sy : key; cv_yt : key; cv_pt : key; cv_escrow_sy : key; cv_yield_position : key;
  cv_lookup_table : key; cv_maturity : Z; cv_authority : key; cv_cpi : list (Z * bool) }.
(* chain/vault/venues/exponent.rs:383-393 StakePool *)
Record StakePool := {
  sp_address : key; sp_program : key; sp_validator_list : key; sp_reserve : key; sp_mint : key; sp_fee : key;
  sp_token_program : key; sp_epoch : Z }.

(* chain/vault/venues/exponent.rs:30-35 contexts (entry) *)
Definition context : vread (Z * bool) :=
  index ← vbyte;
  _ ← vbyte;
  writable ← vbyte;
  mret (index, writable =? 1).
(* chain/vault/venues/exponent.rs:27-37 contexts *)
Definition contexts : vread (list (Z * bool)) := count ← vu32; vrepeat (Z.to_nat count) context.

(* chain/vault/venues/exponent.rs:38-47 cpi *)
Definition cpi : vread (list (Z * bool)) :=
  state ← contexts;
  deposit ← contexts;
  withdraw ← contexts;
  count ← vu32;
  _ ← vrepeat (Z.to_nat count) contexts;
  position ← contexts;
  mret (state ++ position ++ deposit ++ withdraw).

(** The meta of [k] in [out] becomes writable if it must be; a new one goes to the end. *)
(* chain/vault/venues/exponent.rs:54-62 resolve (account) *)
Fixpoint add_meta (k : key) (writable : bool) (out : list AccountMeta) : list AccountMeta :=
  match out with
  | [] => [{| pubkey := k; is_signer := false; is_writable := writable |}]
  | m :: out =>
      if bool_decide (pubkey m = k)
      then {| pubkey := pubkey m; is_signer := is_signer m; is_writable := is_writable m || writable |} :: out
      else m :: add_meta k writable out
  end.
Fixpoint resolve_from (out : list AccountMeta) (indices : list (Z * bool)) (table : list key) : cres (list AccountMeta) :=
  match indices with
  | [] => Ok out
  | (index, writable) :: indices =>
      k ← ok_or (table !! Z.to_nat index) (invalid "Exponent ALT index missing");
      resolve_from (add_meta k writable out) indices table
  end.
(* chain/vault/venues/exponent.rs:48-65 resolve *)
Definition resolve (indices : list (Z * bool)) (table : list key) : cres (list AccountMeta) :=
  resolve_from [] indices table.

(* chain/vault/venues/exponent.rs:364-366 w *)
Definition w (k : key) : AccountMeta := meta_new k false.
(* chain/vault/venues/exponent.rs:367-369 ro *)
Definition ro (k : key) : AccountMeta := new_readonly k false.
(* chain/vault/venues/exponent.rs:370-376 offset *)
Definition offset (num den : Z) : VaultSwapAmountOffset := {| ao_offset := 1; ao_num := num; ao_den := den |}.
(* chain/vault/venues/exponent.rs:377-381 amount_data *)
Definition amount_data (tag amount : Z) : bytes := tag :: to_le_bytes 8 amount.

(* chain/vault/venues/exponent.rs:67-107 Market::parse *)
Definition market_parse (address : key) (data : bytes) : cres Market :=
  _ ← reject_if (negb (starts_with [242; 240; 26; 15; 148; 186; 185; 205] data)) (invalid "not Exponent MarketThree");
  head ← run (
    lookup_table ← vkey;
    pt ← vkey;
    sy ← vkey;
    _ ← vtake 32;
    vault ← vkey;
    pt_escrow ← vkey;
    sy_escrow ← vkey;
    _ ← vtake 32;
    fee_sy ← vkey;
    fee_pt ← vkey;
    self ← vkey;
    _ ← vrequire (negb (bool_decide (self = address))) "Exponent market identity mismatch";
    ticks ← vkey;
    _ ← vtake 2;
    program ← vkey;
    _ ← vrequire (negb (bool_decide (program = GENERIC_SY))) "unsupported SY program";
    mret (fun accounts => {| mk_address := address; mk_lookup_table := lookup_table; mk_pt := pt; mk_sy := sy;
      mk_vault := vault; mk_pt_escrow := pt_escrow; mk_sy_escrow := sy_escrow; mk_fee_sy := fee_sy;
      mk_fee_pt := fee_pt; mk_ticks := ticks; mk_cpi := accounts |})) data 40;
  accounts ← run (_ ← skip_vec 72; _ ← vtake 4; _ ← skip_vec 76; cpi) data 1588;
  Ok (head accounts).

(* chain/vault/venues/exponent.rs:190-191 GenericSy::parse (emission) *)
Definition emission : vread key := bytes ← vtake 200; vlift (run vkey bytes 128).
(* chain/vault/venues/exponent.rs:164-201 GenericSy::parse *)
Definition sy_parse (address : key) (data : bytes) : cres GenericSy :=
  _ ← reject_if (negb (starts_with [254; 147; 136; 16; 163; 203; 98; 93] data)) (invalid "not Generic SY meta");
  mint ← run vkey data 8;
  run (
    index ← vu64;
    _ ← vrequire (index =? 0) "SY index is zero or exceeds u64";
    high ← vtake 24;
    _ ← vrequire (existsb (fun b => negb (b =? 0)) high) "SY index is zero or exceeds u64";
    base ← vkey;
    kind ← vbyte;
    _ ← vrequire (negb (kind =? 1)) "SY must be a hook-free SPL stake pool";
    hook ← vbyte;
    _ ← vrequire (negb (hook =? 0)) "SY must be a hook-free SPL stake pool";
    _ ← vtake 33;
    _ ← skip_vec 1;
    _ ← skip_vec 1;
    count ← vu32;
    interface_accounts ← vrepeat (Z.to_nat count) vkey;
    _ ← vrequire (length interface_accounts =? 0)%nat "SY has no stake pool";
    count ← vu32;
    emissions ← vrepeat (Z.to_nat count) emission;
    mret {| sy_address := address; sy_mint := mint; sy_base := base; sy_index := index;
            sy_interface_accounts := interface_accounts; sy_emissions := emissions |}) data 97.

(* chain/vault/venues/exponent.rs:283-320 CoreVault::parse *)
Definition core_parse (address : key) (data : bytes) : cres CoreVault :=
  _ ← reject_if (negb (starts_with [211; 8; 232; 43; 2; 152; 117; 119] data)) (invalid "not Exponent core vault");
  head ← run (
    program ← vkey;
    _ ← vrequire (negb (bool_decide (program = GENERIC_SY))) "unsupported core SY program";
    sy ← vkey;
    yt ← vkey;
    pt ← vkey;
    _ ← vtake 32;
    escrow_sy ← vkey;
    yield_position ← vkey;
    lookup_table ← vkey;
    start ← vu32;
    duration ← vu32;
    maturity ← vlift (add_p 64 start duration);
    _ ← vtake 32;
    authority ← vkey;
    mret (fun accounts => {| cv_address := address; cv_sy := sy; cv_yt := yt; cv_pt := pt; cv_escrow_sy := escrow_sy;
      cv_yield_position := yield_position; cv_lookup_table := lookup_table; cv_maturity := maturity;
      cv_authority := authority; cv_cpi := accounts |})) data 8;
  accounts ← run (
    _ ← skip_vec 170;
    state ← contexts;
    _ ← contexts;
    withdraw ← contexts;
    mret (state ++ withdraw)) data 524;
  Ok (head accounts).

(* chain/vault/venues/exponent.rs:395-419 StakePool::parse *)
Definition pool_parse (address program : key) (data : bytes) : cres StakePool :=
  _ ← reject_if (negb (bool_decide (head data = Some 1)) || negb (bool_decide (program ∈ STAKE_POOL_PROGRAM_IDS)))
        (invalid "unsupported stake pool");
  run (
    validator_list ← vkey;
    reserve ← vkey;
    mint ← vkey;
    fee ← vkey;
    token_program ← vkey;
    _ ← vtake 16;
    epoch ← vu64;
    mret {| sp_address := address; sp_program := program; sp_validator_list := validator_list; sp_reserve := reserve;
            sp_mint := mint; sp_fee := fee; sp_token_program := token_program; sp_epoch := epoch |}) data 98.

(* chain/vault/venues/exponent.rs:202-205 GenericSy::mint_amount *)
Definition mint_amount (self : GenericSy) (base : Z) : cres Z :=
  above ← add_p 128 base 1;
  product ← mul_p 128 above (sy_index self);
  product ← sub_p product 1;
  scaled ← div_p product INDEX_ONE;
  ok_or (try_from 64 scaled) (invalid "SY mint amount overflow").

Section hops.
Context `{P : Pda}.
Abbreviation ata := derive_associated_token_address (only parsing).
Definition event_authority (program : key) : key := find_program_address [as_bytes "__event_authority"] program.

(* chain/vault/venues/exponent.rs:108-151 Market::trade *)
Definition trade (self : Market) (owner : key) (amount : Z) (buy : bool) (table : list key) (patch : bool)
  : cres VaultSwapHop :=
  let sy := ata owner (mk_sy self) TOKEN_PROGRAM_ID in
  let pt := ata owner (mk_pt self) TOKEN_PROGRAM_ID in
  let fixed := [meta_new owner true; w (mk_address self); w (mk_ticks self); w sy; w pt; w (mk_sy_escrow self);
                w (mk_pt_escrow self); ro (mk_lookup_table self); ro TOKEN_PROGRAM_ID; ro GENERIC_SY;
                w (mk_fee_sy self); w (mk_fee_pt self); ro (event_authority CLMM); ro CLMM] in
  remaining ← resolve (mk_cpi self) table;
  let remaining := if existsb (fun m => bool_decide (pubkey m = mk_vault self)) remaining then remaining
                   else remaining ++ [ro (mk_vault self)] in
  Ok {| h_program := CLMM; h_source := if buy then sy else pt; h_destination := if buy then pt else sy;
        h_accounts := fixed ++ remaining; h_data := amount_data 3 amount ++ [u8_of_bool buy; 0; 0];
        h_amount_offset := if patch then Some (offset 1 1) else None |}.

(* chain/vault/venues/exponent.rs:206-266 GenericSy::hop *)
Definition sy_hop (self : GenericSy) (owner base_program : key) (amount : Z) (mint patch : bool) : cres VaultSwapHop :=
  let base := ata owner (sy_base self) base_program in
  let sy := ata owner (sy_mint self) TOKEN_PROGRAM_ID in
  let escrow := ata (sy_address self) (sy_base self) base_program in
  let fixed :=
    if mint
    then [meta_new owner true; w (sy_address self); w (sy_mint self); ro (sy_base self); w base; w escrow; w sy;
          ro base_program; ro TOKEN_PROGRAM_ID]
    else [meta_new owner true; w (sy_address self); w base; w escrow; w sy; w (sy_mint self); ro (sy_base self);
          ro base_program; ro TOKEN_PROGRAM_ID] in
  amount ← (if patch then Ok 0 else if mint then mint_amount self amount else Ok amount);
  Ok {| h_program := GENERIC_SY; h_source := if mint then base else sy; h_destination := if mint then sy else base;
        h_accounts := fixed ++ map w (sy_interface_accounts self) ++ map ro (sy_emissions self);
        h_data := amount_data (if mint then 1 else 2) amount;
        h_amount_offset := if patch then Some (if mint then offset (sy_index self) INDEX_ONE else offset 1 1) else None |}.

(* chain/vault/venues/exponent.rs:321-362 CoreVault::merge *)
Definition merge (self : CoreVault) (owner : key) (amount now : Z) (table : list key) : cres VaultSwapHop :=
  _ ← reject_if (now <=? cv_maturity self) (invalid "PT redemption requires maturity");
  let sy := ata owner (cv_sy self) TOKEN_PROGRAM_ID in
  let pt := ata owner (cv_pt self) TOKEN_PROGRAM_ID in
  let yt := ata owner (cv_yt self) TOKEN_PROGRAM_ID in
  let fixed := [meta_new owner true; w (cv_authority self); w (cv_address self); w sy; w (cv_escrow_sy self); w yt; w pt;
                w (cv_yt self); w (cv_pt self); ro TOKEN_PROGRAM_ID; ro GENERIC_SY; ro (cv_lookup_table self);
                w (cv_yield_position self); ro (event_authority CORE); ro CORE] in
  remaining ← resolve (cv_cpi self) table;
  Ok {| h_program := CORE; h_source := pt; h_destination := sy; h_accounts := fixed ++ remaining;
        h_data := amount_data 5 amount; h_amount_offset := None |}.

(* chain/vault/venues/exponent.rs:420-432 StakePool::update *)
Definition pool_update (self : StakePool) : Instruction :=
  update_stake_pool_balance (sp_program self) (sp_address self) (sp_validator_list self) (sp_reserve self) (sp_fee self)
    (sp_mint self) (sp_token_program self).
End hops.
End Exponent.

(** ** Jupiter *)

Module Jupiter.
(* chain/vault/venues/jupiter.rs:10-16 PROGRAM, EXACT_IN_SELECTORS *)
Definition PROGRAM : key :=
  [4; 121; 213; 91; 242; 49; 192; 110; 238; 116; 197; 110; 206; 104; 21; 7; 253; 177; 178; 222; 163; 244; 142; 81; 2;
   177; 205; 162; 86; 188; 19; 143].
Definition EXACT_IN_SELECTORS : list bytes :=
  [[229; 23; 203; 151; 122; 227; 173; 42]; [193; 32; 155; 51; 65; 214; 156; 129]; [187; 100; 250; 204; 49; 196; 175; 20];
   [209; 152; 83; 147; 124; 254; 216; 233]].

(* chain/vault/venues/jupiter.rs:30-40 Request *)
Record Request := {
  jr_owner : key; jr_payer : key; jr_input_mint : key; jr_output_mint : key; jr_source : key; jr_destination : key;
  jr_amount : Z; jr_slippage_bps : Z }.
(* chain/vault/venues/jupiter.rs:64-70 WireAccount *)
Record WireAccount := { wa_pubkey : string; wa_is_signer : bool; wa_is_writable : bool }.
(* chain/vault/venues/jupiter.rs:57-63 WireInstruction *)
Record WireInstruction := { wi_program_id : string; wi_accounts : list WireAccount; wi_data : string }.
(** The map of tables is listed in the order of its keys. *)
(* chain/vault/venues/jupiter.rs:41-56 BuildResponse *)
Record BuildResponse := {
  br_in_amount : string; br_out_amount : string; br_other_amount_threshold : string; br_slippage_bps : Z;
  br_swap_mode : option string; br_swap_instruction : WireInstruction;
  br_cleanup_instruction : option WireInstruction; br_tip_instruction : option WireInstruction;
  br_other_instructions : list WireInstruction;
  br_addresses_by_lookup_table_address : option (list (string * list string)) }.
(* chain/vault/venues/jupiter.rs:71-78 Quote *)
Record Quote := { jq_request : Request; jq_output : Z; jq_minimum : Z; jq_hop : VaultSwapHop; jq_tables : list LookupTable }.

(* chain/vault/venues/jupiter.rs:173-175 parse_amount *)
Definition parse_amount (s : string) : cres Z := ok_or (parse_u64 (as_bytes s)) (invalid "invalid Jupiter amount").

(** [iter().position(p)]. *)
Fixpoint position {A} (p : A -> bool) (l : list A) : option nat :=
  match l with [] => None | x :: l => if p x then Some O else S <$> position p l end.

(* chain/vault/venues/jupiter.rs:177-193 input_offset *)
Definition input_offset (data : bytes) : cres Z :=
  kind ← ok_or (position (fun s => starts_with s data) EXACT_IN_SELECTORS) (invalid "unsupported Jupiter ExactIn selector");
  minimum ← index_p [31; 32; 34; 35]%nat kind;
  _ ← reject_if (length data <? minimum)%nat (invalid "truncated Jupiter ExactIn data");
  match kind with
  | 0%nat | 1%nat => sub_p (Z.of_nat (length data)) 19
  | 2%nat => Ok 8
  | 3%nat => Ok 9
  | _ => Err (invalid "unsupported Jupiter ExactIn selector")
  end.

(* chain/vault/venues/jupiter.rs:157-168 Quote::hop *)
Definition hop (self : Quote) (patch : bool) : cres VaultSwapHop :=
  if patch then
    at_ ← input_offset (h_data (jq_hop self));
    at_ ← ok_or (try_from 16 at_) (invalid "Jupiter data too large");
    let h := jq_hop self in
    Ok {| h_program := h_program h; h_source := h_source h; h_destination := h_destination h; h_accounts := h_accounts h;
          h_data := h_data h; h_amount_offset := Some {| ao_offset := at_; ao_num := 1; ao_den := 1 |} |}
  else Ok (jq_hop self).

Section quotes.
(** [Pubkey::from_str] and the base64 engine's [decode]. *)
Context (parse_key : string -> option key) (base64_decode : string -> option bytes).

(* chain/vault/venues/jupiter.rs:170-172 key *)
Definition key_of_text (s : string) : cres key := ok_or (parse_key s) (invalid "invalid Jupiter public key").

(** The products are of a [u64] and at most 10000. *)
(* chain/vault/venues/jupiter.rs:81-96 BuildResponse::into_quote (amounts) *)
Definition check_amounts (self : BuildResponse) (request : Request) : cres (Z * Z) :=
  let bad := invalid "Jupiter quote does not match ExactIn request" in
  output ← parse_amount (br_out_amount self);
  minimum ← parse_amount (br_other_amount_threshold self);
  _ ← reject_if (jr_amount request =? 0) bad;
  input ← parse_amount (br_in_amount self);
  _ ← reject_if (negb (input =? jr_amount request)
                 || negb (br_slippage_bps self =? jr_slippage_bps request)
                 || match br_swap_mode self with Some m => negb (bool_decide (m = "ExactIn"%string)) | None => false end
                 || (minimum =? 0) || (output <? minimum)
                 || (minimum <? output * saturating_sub 10000 (jr_slippage_bps request) / 10000)) bad;
  Ok (output, minimum).

Definition is_Some_b {A} (o : option A) : bool := match o with Some _ => true | None => false end.

(* chain/vault/venues/jupiter.rs:80-154 BuildResponse::into_quote *)
Definition into_quote (self : BuildResponse) (request : Request) : cres Quote :=
  '(output, minimum) ← check_amounts self request;
  _ ← reject_if (is_Some_b (br_cleanup_instruction self) || is_Some_b (br_tip_instruction self)
                 || negb (length (br_other_instructions self) =? 0)%nat) (invalid "unsupported Jupiter side instruction");
  let wire := br_swap_instruction self in
  program ← key_of_text (wi_program_id wire);
  _ ← reject_if (negb (bool_decide (program = PROGRAM))) (invalid "unexpected Jupiter program");
  data ← ok_or (base64_decode (wi_data wire)) (invalid "invalid Jupiter instruction base64");
  at_ ← input_offset data;
  amount ← slice_p data (Z.to_nat at_) (Z.to_nat (at_ + 8));
  _ ← reject_if (negb (from_le_bytes amount =? jr_amount request)) (invalid "Jupiter instruction input differs from quote");
  metas ← try_map (fun a =>
    k ← key_of_text (wa_pubkey a);
    Ok {| pubkey := k; is_signer := wa_is_signer a; is_writable := wa_is_writable a |}) (wi_accounts wire);
  tables ← try_map (fun '(k, v) =>
    k ← key_of_text k;
    addresses ← try_map key_of_text v;
    Ok {| table_key := k; addresses := addresses |}) (default [] (br_addresses_by_lookup_table_address self));
  Ok {| jq_request := request; jq_output := output; jq_minimum := minimum;
        jq_hop := {| h_program := PROGRAM; h_source := jr_source request; h_destination := jr_destination request;
                     h_accounts := metas; h_data := data; h_amount_offset := None |};
        jq_tables := tables |}.
End quotes.
End Jupiter.

(** ** Readers *)

(** [m] reads [x] as [a], wherever it stands. *)
Definition reads_as {A} (m : vread A) (x : bytes) (a : A) : Prop := forall pre post,
  Z.of_nat (length (pre ++ x ++ post)) < 2 ^ 64 ->
  m (reader (pre ++ x ++ post) (Z.of_nat (length pre)))
  = Ok (a, reader (pre ++ x ++ post) (Z.of_nat (length pre) + Z.of_nat (length x))).

Lemma reads_as_ret {A} (a : A) : reads_as (mret a) [] a.
Proof. intros pre post _. cbn. by rewrite Z.add_0_r. Qed.

Lemma reads_as_bind {A B} (m : vread A) (k : A -> vread B) x y a b :
  reads_as m x a -> reads_as (k a) y b -> reads_as (m ≫= k) (x ++ y) b.
Proof.
  intros Hm Hk pre post Hl. unfold mbind, vread_bind. rewrite <- app_assoc in *.
  rewrite (Hm pre (y ++ post) Hl). cbn [mbind res_bind]. replace (pre ++ x ++ y ++ post) with ((pre ++ x) ++ y ++ post) in *
    by (by rewrite <- app_assoc).
  replace (Z.of_nat (length pre) + Z.of_nat (length x)) with (Z.of_nat (length (pre ++ x))) by (rewrite length_app; lia).
  rewrite (Hk _ _ Hl). do 3 f_equal. rewrite !length_app. lia.
Qed.

Lemma reads_as_lift {A B} (m : cres A) (k : A -> vread B) x a b :
  m = Ok a -> reads_as (k a) x b -> reads_as (vlift m ≫= k) x b.
Proof. intros -> Hk. apply (reads_as_bind _ _ [] x a); [|done]. intros pre post _. cbn. by rewrite Z.add_0_r. Qed.

Lemma reads_as_require {B} bad message (k : unit -> vread B) x b :
  bad = false -> reads_as (k tt) x b -> reads_as (vrequire bad message ≫= k) x b.
Proof. intros ->. by apply reads_as_lift. Qed.

Lemma reads_as_take x : reads_as (vtake (Z.of_nat (length x))) x x.
Proof.
  intros pre post Hl. unfold vtake, checked_add. rewrite !length_app in Hl. cbn [rd_at rd_data reader].
  rewrite (proj2 (Z.ltb_lt _ _)) by lia. cbn [ok_or mbind res_bind].
  rewrite (proj2 (Z.leb_le _ _)) by (rewrite !length_app; lia). rewrite (get_range_app pre x post) by lia. done.
Qed.

Lemma reads_as_take' n x : n = Z.of_nat (length x) -> reads_as (vtake n) x x.
Proof. intros ->. apply reads_as_take. Qed.

Lemma reads_as_byte b : reads_as vbyte [b] b.
Proof.
  change [b] with ([b] ++ []). eapply reads_as_bind; [by apply reads_as_take'|]. cbn.
  intros pre post _. cbn. by rewrite Z.add_0_r.
Qed.

Lemma reads_as_repeat {A} (m : vread A) (xs : list bytes) (l : list A) :
  Forall2 (reads_as m) xs l -> reads_as (vrepeat (length l) m) (concat xs) l.
Proof.
  induction 1 as [|x a xs l Hx _ IH]; [apply reads_as_ret|]. cbn [vrepeat length concat].
  eapply reads_as_bind; [exact Hx|]. rewrite <- (app_nil_r (concat xs)). eapply reads_as_bind; [exact IH|]. apply reads_as_ret.
Qed.

(** A reader that never panics on bytes, and returns only values with [Q]. *)
Definition vyields {A} (m : vread A) (Q : A -> Prop) : Prop := forall r, is_bytes (rd_data r) -> 0 <= rd_at r ->
  returns (m r) /\ forall a r', m r = Ok (a, r') -> Q a /\ rd_data r' = rd_data r /\ 0 <= rd_at r'.

Lemma vyields_bind {A B} (m : vread A) (k : A -> vread B) Q R :
  vyields m Q -> (forall a, Q a -> vyields (k a) R) -> vyields (m ≫= k) R.
Proof.
  intros Hm Hk r Hr Ha. destruct (Hm r Hr Ha) as [H1 H2]. unfold mbind, vread_bind. unfold returns in *.
  destruct (m r) as [[a r1]|e|]; cbn; [|split; [done|discriminate]|done].
  destruct (H2 a r1 eq_refl) as (Hq & Hd & Hp). destruct (Hk a Hq r1) as [H3 H4]; [by rewrite Hd|done|]. split; [done|].
  intros b r2 Hb. apply H4 in Hb as (? & ? & ?). split; [done|]. split; [congruence|done].
Qed.

Lemma vyields_ret {A} (a : A) (Q : A -> Prop) : Q a -> vyields (mret a) Q.
Proof. intros Hq r _ Ha. split; [done|]. by intros b r' [= <- <-]. Qed.

Lemma vyields_lift {A} (m : cres A) (Q : A -> Prop) :
  returns m -> (forall a, m = Ok a -> Q a) -> vyields (vlift m) Q.
Proof.
  intros Hm Hq r _ Ha. unfold vlift, returns in *. destruct m; cbn; [|split; [done|discriminate]|done].
  split; [done|]. intros b r' [= <- <-]. auto.
Qed.

Lemma vyields_require bad message : vyields (vrequire bad message) (fun _ => True).
Proof. apply vyields_lift; [apply returns_reject_if|done]. Qed.

(** What [vtake] returns has the length asked for, and is bytes. *)
Lemma vyields_take n : 0 <= n -> vyields (vtake n) (fun x => Z.of_nat (length x) = n /\ is_bytes x).
Proof.
  intros Hn r Hb Ha. split; [unfold vtake; repeat returns_step|]. intros x r' H.
  unfold vtake, checked_add in H. inv_ok H. destruct (Z.ltb_spec (rd_at r + n) (2 ^ 64)); [|done].
  simplify_eq. destruct (Z.leb_spec (rd_at r + n) (Z.of_nat (length (rd_data r)))); [|done]. cbn.
  match goal with H : get_range _ _ _ = Some _ |- _ => pose proof (get_range_length _ _ _ _ H); pose proof (get_range_bytes _ _ _ _ Hb H) end.
  repeat split; [lia|done|lia].
Qed.

Lemma vyields_byte : vyields vbyte (fun _ => True).
Proof.
  eapply vyields_bind; [by apply vyields_take|]. intros x [Hl _]. apply vyields_lift; [apply returns_index; lia|done].
Qed.
Lemma vyields_u32 : vyields vu32 (fits 32).
Proof.
  eapply vyields_bind; [by apply vyields_take|]. intros x [Hl Hx]. apply vyields_ret.
  pose proof (from_le_bytes_fits x Hx) as H. by rewrite Hl in H.
Qed.
Lemma vyields_u64 : vyields vu64 (fits 64).
Proof.
  eapply vyields_bind; [by apply vyields_take|]. intros x [Hl Hx]. apply vyields_ret.
  pose proof (from_le_bytes_fits x Hx) as H. by rewrite Hl in H.
Qed.
Lemma vyields_key : vyields vkey (fun k => length k = 32%nat).
Proof. intros r Hb Ha. destruct (vyields_take 32 ltac:(done) r Hb Ha) as [H1 H2]. split; [done|]. intros a r' H. apply H2 in H as ((? & _) & ?). split; [lia|done]. Qed.
Lemma vyields_skip w : 0 <= w -> vyields (skip_vec w) (fun _ => True).
Proof.
  intros Hw. eapply vyields_bind; [apply vyields_u32|]. intros n [Hn _].
  eapply vyields_bind; [apply (vyields_lift _ (fun z => 0 <= z)); [apply returns_ok_or|]|].
  - intros z Hz. apply ok_or_Ok in Hz. unfold checked_mul in Hz. case_match; simplify_eq. nia.
  - intros z Hz. eapply vyields_bind; [by apply vyields_take|]. intros x _. by apply vyields_ret.
Qed.
Lemma vyields_repeat {A} (m : vread A) n Q : vyields m Q -> vyields (vrepeat n m) (fun l => length l = n /\ Forall Q l).
Proof.
  intros Hm. induction n as [|n IH]; cbn [vrepeat]; [by apply vyields_ret|]. eapply vyields_bind; [exact Hm|]. intros a Ha.
  eapply vyields_bind; [exact IH|]. intros l [Hl Hq]. apply vyields_ret. cbn. auto.
Qed.
Lemma vyields_weaken {A} (m : vread A) (Q R : A -> Prop) : (forall a, Q a -> R a) -> vyields m Q -> vyields m R.
Proof. intros HQ Hm r Hb Ha. destruct (Hm r Hb Ha) as [H1 H2]. split; [done|]. intros a r' H. apply H2 in H as (? & ?). auto. Qed.

Lemma vyields_run {A} (m : vread A) Q data at_ :
  vyields m Q -> is_bytes data -> 0 <= at_ -> returns (run m data at_) /\ forall a, run m data at_ = Ok a -> Q a.
Proof.
  intros Hm Hb Ha. destruct (Hm (reader data at_) Hb Ha) as [H1 H2]. unfold run, returns in *.
  destruct (m (reader data at_)) as [[a r]|e|]; cbn; [|done..]. split; [done|]. intros b <-%Ok_inj.
  by destruct (H2 a r eq_refl).
Qed.
#[export] Hint Resolve vyields_byte vyields_u32 vyields_u64 vyields_key vyields_require : sdk.

(** Go through the steps of a reader. *)
Ltac vyields :=
  repeat match goal with
  | |- vyields (_ ≫= _) _ => eapply vyields_bind; [|intros ? ?]
  | |- vyields (mret _) _ => apply vyields_ret; try done
  | |- vyields (vtake _) _ => apply vyields_take; done
  | |- vyields (skip_vec _) _ => apply vyields_skip; done
  | |- vyields (vrepeat _ _) _ => apply vyields_repeat
  | |- vyields _ _ => solve [eauto with sdk]
  end.

Import Exponent.

Lemma vyields_context : vyields context (fun _ => True).
Proof. unfold context. vyields. Qed.
#[export] Hint Resolve vyields_context : sdk.
Lemma vyields_emission : vyields emission (fun _ => True).
Proof.
  eapply vyields_bind; [by apply vyields_take|]. intros x [_ Hx]. apply vyields_lift; [|done].
  by apply (vyields_run vkey _ x 128 vyields_key).
Qed.
#[export] Hint Resolve vyields_emission : sdk.
Lemma vyields_contexts : vyields contexts (fun _ => True).
Proof. unfold contexts. eapply vyields_bind; [apply vyields_u32|]. intros n _. eapply vyields_weaken; [|vyields]. done. Qed.
#[export] Hint Resolve vyields_contexts : sdk.
Lemma vyields_cpi : vyields cpi (fun _ => True).
Proof. unfold cpi. vyields. Qed.
#[export] Hint Resolve vyields_cpi : sdk.

Lemma vyields_selector : vyields SwapVenues.selector (fun _ => True).
Proof. unfold SwapVenues.selector. vyields. Qed.
#[export] Hint Resolve vyields_selector : sdk.

Lemma chunks_bytes n l x : x ∈ chunks n l -> is_bytes l -> is_bytes x.
Proof.
  unfold chunks. generalize (length l) as fuel. intros fuel. revert l. induction fuel as [|fuel IH]; intros l Hx Hl; cbn in Hx.
  - by apply not_elem_of_nil in Hx.
  - destruct l as [|b l]; [by apply not_elem_of_nil in Hx|]. apply elem_of_cons in Hx as [->|Hx]; [by apply Forall_take|].
    eapply IH; [exact Hx|]. by apply Forall_drop.
Qed.

(** The accounts of the venues decode without a panic, whatever their bytes. *)
Lemma venue_accounts_return address program data :
  is_bytes data ->
  returns (market_parse address data) /\ returns (sy_parse address data) /\ returns (core_parse address data) /\
  returns (pool_parse address program data) /\ returns (SwapVenues.parse data).
Proof.
  intros Hb.
  assert (Hrun' : forall A (m : vread A) Q at_ data, vyields m Q -> 0 <= at_ -> is_bytes data -> returns (run m data at_)).
  { intros A m Q at_ d Hm Ha Hd. by apply (vyields_run m Q). }
  assert (Hrun : forall A (m : vread A) Q at_, vyields m Q -> 0 <= at_ -> returns (run m data at_)).
  { intros A m Q at_ Hm Ha. by apply (vyields_run m Q). }
  split; [|split; [|split; [|split]]].
  - unfold market_parse. repeat returns_step; (eapply (Hrun _ _ (fun _ => True)); [vyields|done]).
  - unfold sy_parse. repeat returns_step; [eapply Hrun; [apply vyields_key|done]|].
    eapply (Hrun _ _ (fun _ => True)); [vyields|done].
  - unfold core_parse. repeat returns_step; (eapply (Hrun _ _ (fun _ => True)); [vyields|done]).
    apply (vyields_lift _ (fun _ => True)); [|done]. unfold add_p, fits in *. case_match; [done|]. lia.
  - unfold pool_parse. repeat returns_step; (eapply (Hrun _ _ (fun _ => True)); [vyields|done]).
  - unfold SwapVenues.parse. destruct (Nat.eqb_spec (length data) 3364) as [Hl|]; [|done]. cbn [negb reject_if mbind res_bind].
    repeat (returns_step || (apply returns_index; lia) || (apply returns_slice; lia)).
    apply try_map_returns. intros x Hx. eapply (Hrun' _ _ (fun _ => True)); [|done|].
    + unfold SwapVenues.slot. vyields.
    + apply elem_of_take in Hx as (i & Hx & _). apply list_elem_of_lookup_2 in Hx. eapply chunks_bytes; [exact Hx|].
      match goal with H : slice_p _ _ _ = Ok _ |- _ => apply slice_p_Ok in H; by eapply get_range_bytes end.
Qed.

(** ** The registry *)

Definition pad_to (n : nat) (l : bytes) : bytes := l ++ replicate (n - length l) 0.
Definition selector_bytes (s : bytes) : bytes := Z.of_nat (length s) :: pad_to 8 s.
Definition slot_bytes (venue : key * list bytes) : bytes :=
  pad_to 105 (venue.1 ++ [Z.of_nat (length venue.2)] ++ concat (map selector_bytes venue.2)).
(** A registry account of [venues], whatever the third byte is. *)
Definition venues_bytes (bump : Z) (venues : SwapVenues.t) : bytes :=
  [16; 1; bump; Z.of_nat (length venues)] ++ pad_to 3360 (concat (map slot_bytes venues)).

Record venue_wf (venue : key * list bytes) : Prop := {
  vw_key : length venue.1 = 32%nat;
  vw_count : (1 <= length venue.2 <= 8)%nat;
  vw_selectors : Forall (fun s => (1 <= length s <= 8)%nat) venue.2;
}.

Lemma length_pad_to n l : (length l <= n)%nat -> length (pad_to n l) = n.
Proof. intros H. unfold pad_to. rewrite length_app, length_replicate. lia. Qed.

Lemma reads_selector s : (1 <= length s <= 8)%nat -> reads_as SwapVenues.selector (selector_bytes s) s.
Proof.
  intros Hs. unfold selector_bytes. change (?a :: ?l) with ([a] ++ l). eapply reads_as_bind; [apply reads_as_byte|].
  rewrite <- (app_nil_r (pad_to 8 s)). eapply reads_as_bind; [apply reads_as_take'; by rewrite length_pad_to by lia|].
  rewrite Nat2Z.id. unfold pad_to. rewrite drop_app_length, take_app_length. apply reads_as_require; [|apply reads_as_ret].
  rewrite (proj2 (Z.leb_le 1 _)), (proj2 (Z.leb_le _ 8)) by lia. cbn [andb negb orb].
  apply not_true_iff_false. rewrite existsb_exists. intros (b & Hb & Hn). apply list_elem_of_In, elem_of_replicate in Hb as [-> _].
  done.
Qed.

Lemma selectors_length l :
  Forall (fun s => (1 <= length s <= 8)%nat) l -> length (concat (map selector_bytes l)) = (9 * length l)%nat.
Proof.
  induction 1 as [|s l Hs _ IH]; [done|]. cbn [map concat length]. unfold selector_bytes at 1.
  rewrite length_app. cbn [length]. rewrite length_pad_to, IH by lia. lia.
Qed.

Lemma slot_length venue : venue_wf venue -> length (slot_bytes venue) = 105%nat.
Proof.
  intros [Hk Hc Hs]. apply length_pad_to. rewrite !length_app, selectors_length, Hk by done. cbn [length]. lia.
Qed.

Lemma reads_slot venue : venue_wf venue -> run SwapVenues.slot (slot_bytes venue) 0 = Ok venue.
Proof.
  intros Hwf. pose proof (slot_length venue Hwf) as Hl. destruct Hwf as [Hk Hc Hs].
  assert (H : reads_as SwapVenues.slot (venue.1 ++ [Z.of_nat (length venue.2)] ++ concat (map selector_bytes venue.2)) venue).
  { eapply reads_as_bind; [by apply reads_as_take'; rewrite Hk|]. eapply reads_as_bind; [apply reads_as_byte|].
    apply reads_as_require.
    { rewrite (proj2 (Z.leb_le 1 _)), (proj2 (Z.leb_le _ 8)) by lia. done. }
    rewrite Nat2Z.id. rewrite <- (app_nil_r (concat _)). eapply reads_as_bind.
    - apply reads_as_repeat. clear -Hs. induction Hs; constructor; [by apply reads_selector|done].
    - destruct venue. apply reads_as_ret. }
  unfold slot_bytes, pad_to in *. set (body := venue.1 ++ _) in *. clearbody body.
  specialize (H [] (replicate (105 - length body) 0)). unfold run. cbn [app length] in H. change (Z.of_nat 0) with 0 in H.
  rewrite H by lia. done.
Qed.

(** Pieces of one size are the first chunks of their concatenation. *)
Lemma chunks_pieces n (xs : list bytes) rest :
  (0 < n)%nat -> Forall (fun x => length x = n) xs -> take (length xs) (chunks n (concat xs ++ rest)) = xs.
Proof.
  intros Hn Hx. unfold chunks. generalize (le_n (length (concat xs ++ rest))).
  generalize (length (concat xs ++ rest)) at 2 3 as fuel. intros fuel. revert xs Hx.
  induction fuel as [|fuel IH]; intros xs Hx Hf; destruct xs as [|x xs]; try done;
    apply Forall_cons in Hx as [Hl Hx]; cbn [concat] in *; rewrite <- app_assoc in *; rewrite length_app in Hf; [lia|].
  cbn [chunks_fuel]. destruct x as [|b x]; [cbn in Hl; lia|]. cbn [app]. cbn [length take].
  change (b :: x ++ concat xs ++ rest) with ((b :: x) ++ concat xs ++ rest). rewrite <- Hl, take_app_length, drop_app_length.
  f_equal. rewrite Hl. apply IH; [done|lia].
Qed.

Lemma concat_length n (xs : list bytes) : Forall (fun x => length x = n) xs -> length (concat xs) = (n * length xs)%nat.
Proof. induction 1 as [|x xs Hx _ IH]; [cbn; lia|]. cbn. rewrite length_app, Hx, IH. lia. Qed.

Lemma venues_parse bump venues :
  (length venues <= 32)%nat -> Forall venue_wf venues -> SwapVenues.parse (venues_bytes bump venues) = Ok venues.
Proof.
  intros Hn Hv. assert (Hs : Forall (fun x => length x = 105%nat) (map slot_bytes venues)).
  { apply Forall_map. eapply Forall_impl; [exact Hv|]. apply slot_length. }
  assert (Hl : length (pad_to 3360 (concat (map slot_bytes venues))) = 3360%nat).
  { apply length_pad_to. rewrite (concat_length _ _ Hs), length_map. lia. }
  unfold SwapVenues.parse, venues_bytes. rewrite length_app, Hl.
  cbn [length Nat.add Nat.eqb negb reject_if mbind res_bind app].
  change (index_p (?a :: ?b :: ?c :: ?d :: ?l) 0%nat ≫= ?k) with (k a). cbn [Z.eqb Pos.eqb negb reject_if mbind res_bind].
  change (index_p (?a :: ?b :: ?c :: ?d :: ?l) 1%nat ≫= ?k) with (k b). cbn [Z.eqb Pos.eqb negb reject_if mbind res_bind].
  change (index_p (?a :: ?b :: ?c :: ?d :: ?l) 3%nat ≫= ?k) with (k d). cbn beta.
  rewrite (proj2 (Z.ltb_ge 32 _)) by lia. cbn [reject_if mbind res_bind].
  unfold slice_p. change (16 :: 1 :: bump :: Z.of_nat (length venues) :: ?l) with ([16; 1; bump; Z.of_nat (length venues)] ++ l).
  rewrite <- (app_nil_r (pad_to 3360 _)), (get_range_app [16; 1; bump; Z.of_nat (length venues)] _ []) by (rewrite ?Hl; done).
  cbn [mbind res_bind]. rewrite Nat2Z.id. unfold pad_to. rewrite <- (length_map slot_bytes venues), chunks_pieces by (done || lia).
  apply try_map_Ok. clear -Hv. induction Hv; constructor; [by apply reads_slot|done].
Qed.

Lemma allows_spec venues hop :
  SwapVenues.allows venues hop = true <->
  exists program selectors s, (program, selectors) ∈ venues /\ program = h_program hop /\ s ∈ selectors /\
    take (length s) (h_data hop) = s /\
    forall o, h_amount_offset hop = Some o -> Z.of_nat (length s) <= ao_offset o.
Proof.
  unfold SwapVenues.allows. rewrite existsb_exists. split.
  - intros ([program selectors] & Hin & H). apply andb_true_iff in H as [Hp H]. apply bool_decide_eq_true in Hp.
    apply existsb_exists in H as (s & Hs & H). apply andb_true_iff in H as [Hd Ho]. unfold starts_with in Hd.
    apply bool_decide_eq_true in Hd. exists program, selectors, s. rewrite !list_elem_of_In. repeat split; [done..|].
    intros o Ho'. rewrite Ho' in Ho. lia.
  - intros (program & selectors & s & Hin & Hp & Hs & Hd & Ho). exists (program, selectors). split; [by apply list_elem_of_In|].
    rewrite (bool_decide_true _ Hp). cbn. apply existsb_exists. exists s. split; [by apply list_elem_of_In|].
    unfold starts_with. rewrite (bool_decide_true _ Hd). cbn. destruct (h_amount_offset hop); [|done].
    specialize (Ho _ eq_refl). lia.
Qed.

(** Writing an amount at its offset leaves an allowed selector as it was. *)
Lemma patched_prefix s data at_ src :
  take (length s) data = s -> (length s <= at_)%nat -> take (length s) (copy_at data at_ src) = s.
Proof.
  intros Hs Ha. unfold copy_at. destruct (decide (at_ <= length data)%nat) as [Hl|Hl].
  - rewrite take_app_le by (rewrite length_take; lia). by rewrite take_take, Nat.min_l by lia.
  - rewrite (take_ge data) by lia. assert (length s <= length data)%nat.
    { rewrite <- Hs, length_take. lia. }
    by rewrite take_app_le by lia.
Qed.

(** The registry of venues decodes without a panic, reads back every registry that can
    be laid out, and allows a hop exactly when its program is registered with a selector
    the data begins with, the amount to be patched being beyond it; so what the vault
    calls after the patch is still the call that was allowed. *)
Theorem venue_registry_sound :
  (forall data, is_bytes data -> SwapVenues.parse data <> Panic) /\
  (forall bump venues, (length venues <= 32)%nat -> Forall venue_wf venues ->
     SwapVenues.parse (venues_bytes bump venues) = Ok venues) /\
  (forall venues hop,
     SwapVenues.allows venues hop = true <->
     exists program selectors s, (program, selectors) ∈ venues /\ program = h_program hop /\ s ∈ selectors /\
       take (length s) (h_data hop) = s /\
       forall o amount, h_amount_offset hop = Some o ->
         Z.of_nat (length s) <= ao_offset o /\
         take (length s) (copy_at (h_data hop) (Z.to_nat (ao_offset o)) amount) = s).
Proof.
  split; [intros data Hb; apply (venue_accounts_return [] [] data Hb)|]. split; [apply venues_parse|].
  intros venues hop. rewrite allows_spec. split; intros (program & selectors & s & Hin & Hp & Hs & Hd & Ho);
    exists program, selectors, s; (repeat (split; [done|])).
  - intros o amount H. specialize (Ho o H). split; [done|]. apply patched_prefix; [done|lia].
  - intros o H. by apply (Ho o []).
Qed.

Lemma venue_registry_sound_witness :
  let venues := [(key_of 5, [[1; 2]; [3]]); (CLMM, [[3]])] in
  SwapVenues.parse (venues_bytes 255 venues) = Ok venues /\
  SwapVenues.allows venues {| h_program := CLMM; h_source := key_of 1; h_destination := key_of 2; h_accounts := [];
    h_data := amount_data 3 9; h_amount_offset := Some (offset 1 1) |} = true.
Proof.
  intros venues. split; [|vm_compute; reflexivity].
  apply (proj1 (proj2 venue_registry_sound)); [cbn; lia|]. repeat constructor; cbn; lia.
Defined.

(** ** Amounts of standardised yield *)

(** The SY minted for an amount of base is the largest whose value in base, rounded
    down at the index, is within it; it is computed without overflow, and refused exactly
    when it does not fit 64 bits. *)
Theorem mint_amount_largest self base :
  fits 64 (sy_index self) -> 0 < sy_index self -> fits 64 base ->
  let value m := m * INDEX_ONE / sy_index self in
  match mint_amount self base with
  | Ok m => fits 64 m /\ value m <= base /\ forall m', m < m' -> base < value m'
  | Err e => e = invalid "SY mint amount overflow" /\ value (2 ^ 64) <= base
  | Panic => False
  end.
Proof.
  intros Hi Hpos Hb value. unfold fits in *. set (i := sy_index self) in *.
  assert (Hp : 1 <= (base + 1) * i < 2 ^ 128) by nia.
  unfold mint_amount, add_p, mul_p, sub_p, div_p. rewrite (proj2 (Z.ltb_lt (base + 1) _)) by lia. cbn [mbind res_bind].
  fold i. rewrite (proj2 (Z.ltb_lt _ _)) by lia. cbn [mbind res_bind].
  rewrite (proj2 (Z.leb_le _ _)) by lia. cbn [mbind res_bind]. change (INDEX_ONE =? 0) with false. cbn [mbind res_bind].
  set (m := ((base + 1) * i - 1) / INDEX_ONE).
  assert (Hm : m * INDEX_ONE < (base + 1) * i <= (m + 1) * INDEX_ONE).
  { pose proof (Z.div_mod ((base + 1) * i - 1) INDEX_ONE ltac:(done)).
    pose proof (Z.mod_pos_bound ((base + 1) * i - 1) INDEX_ONE ltac:(done)). fold m in H. lia. }
  assert (Hlow : forall x, x <= m -> value x <= base).
  { intros x Hx. unfold value. apply Z.lt_succ_r, Z.div_lt_upper_bound; [lia|]. unfold INDEX_ONE in *. nia. }
  assert (0 <= m) by (unfold m; apply Z.div_pos; unfold INDEX_ONE; lia).
  unfold try_from. destruct (Z.ltb_spec m (2 ^ 64)); cbn [ok_or].
  - split; [lia|]. split; [apply Hlow; lia|]. intros m' Hm'. unfold value.
    apply Z.lt_le_trans with (base + 1); [lia|]. apply Z.div_le_lower_bound; [lia|]. unfold INDEX_ONE in *. nia.
  - split; [done|]. apply Hlow. lia.
Qed.

Lemma mint_amount_largest_witness :
  let sy := {| sy_address := key_of 1; sy_mint := key_of 2; sy_base := key_of 3; sy_index := 1100000000000;
               sy_interface_accounts := []; sy_emissions := [] |} in
  mint_amount sy 10 = Ok 12 /\ 12 * INDEX_ONE / 1100000000000 <= 10.
Proof.
  intros sy. pose proof (mint_amount_largest sy 10 ltac:(unfold fits; cbn; lia) ltac:(cbn; lia) ltac:(unfold fits; lia)) as H.
  split; [vm_compute; reflexivity|]. replace (mint_amount sy 10) with (Ok (E := VaultChainError.t) 12) in H by (vm_compute; reflexivity).
  exact (proj1 (proj2 H)).
Defined.

(** ** Jupiter's quotes *)

Section jupiter.
Import Jupiter.
Context (parse_key : string -> option key) (base64_decode : string -> option bytes).

Lemma position_Some {A} (p : A -> bool) l i : position p l = Some i -> exists x, l !! i = Some x /\ p x = true.
Proof.
  revert i. induction l as [|x l IH]; intros i H; cbn in H; [done|]. destruct (p x) eqn:E.
  - injection H as <-. by exists x.
  - destruct (position p l) as [j|]; [|done]. injection H as <-. by destruct (IH j eq_refl) as (y & Hy & Hp); exists y.
Qed.

(** The amount is beyond the selector, and inside the data. *)
Lemma input_offset_Ok data :
  input_offset data <> Panic /\
  forall at_, input_offset data = Ok at_ ->
    8 <= at_ /\ at_ + 8 <= Z.of_nat (length data) /\ take 8 data ∈ EXACT_IN_SELECTORS.
Proof.
  unfold input_offset. destruct (position _ _) as [kind|] eqn:E; cbn [ok_or mbind res_bind]; [|done].
  apply position_Some in E as (s & Hs & Hd). unfold starts_with in Hd. apply bool_decide_eq_true in Hd.
  assert (Hin : take 8 data ∈ EXACT_IN_SELECTORS).
  { apply list_elem_of_lookup_2 in Hs as Hin. replace 8%nat with (length s); [by rewrite Hd|].
    revert Hin. clear. unfold EXACT_IN_SELECTORS. rewrite !elem_of_cons, elem_of_nil. by intros [->|[->|[->|[->|[]]]]]. }
  assert (Hkind : forall n (r : cres Z),
    ((n <= length data)%nat -> r <> Panic /\ forall at_, r = Ok at_ -> 8 <= at_ /\ at_ + 8 <= Z.of_nat (length data)) ->
    let m := (_ ← reject_if (length data <? n)%nat (invalid "truncated Jupiter ExactIn data"); r) in
    m <> Panic /\ forall at_, m = Ok at_ -> 8 <= at_ /\ at_ + 8 <= Z.of_nat (length data) /\ take 8 data ∈ EXACT_IN_SELECTORS).
  { intros n r Hr m. subst m. destruct (Nat.ltb_spec (length data) n); cbn [reject_if mbind res_bind]; [done|].
    destruct Hr as [Hp Hr]; [done|]. split; [done|]. intros at_ Ha. apply Hr in Ha as [? ?]. done. }
  destruct kind as [|[|[|[|kind]]]]; [apply (Hkind 31%nat)|apply (Hkind 32%nat)|apply (Hkind 34%nat)|apply (Hkind 35%nat)|done];
    intros Hl; unfold sub_p; try rewrite (proj2 (Z.leb_le 19 _)) by lia; (split; [done|]); intros at_ <-%Ok_inj; lia.
Qed.

(** A quote is taken from Jupiter's answer without a panic, and only when it is an
    exact-in swap of the amount asked for, with no side instruction, whose minimum is
    positive, at most the output and within the slippage asked for.  The hop is a call of
    Jupiter between the accounts of the request; the amount it spends stands in its data
    beyond the selector, and that is where a patched hop says to write. *)
Theorem jupiter_quote_bound response request :
  into_quote parse_key base64_decode response request <> Panic /\
  forall q, into_quote parse_key base64_decode response request = Ok q ->
    let slippage := Z.min 10000 (jr_slippage_bps request) in
    jq_request q = request /\ jr_amount request <> 0 /\
    jq_minimum q <> 0 /\ jq_minimum q <= jq_output q /\ jq_output q * (10000 - slippage) / 10000 <= jq_minimum q /\
    br_cleanup_instruction response = None /\ br_tip_instruction response = None /\ br_other_instructions response = [] /\
    hop q false = Ok (jq_hop q) /\ h_program (jq_hop q) = PROGRAM /\ h_source (jq_hop q) = jr_source request /\
    h_destination (jq_hop q) = jr_destination request /\ h_amount_offset (jq_hop q) = None /\
    exists at_ amount, 8 <= at_ /\ get_range (h_data (jq_hop q)) (Z.to_nat at_) (Z.to_nat at_ + 8) = Some amount /\
      from_le_bytes amount = jr_amount request /\ take 8 (h_data (jq_hop q)) ∈ EXACT_IN_SELECTORS /\
      hop q true <> Panic /\
      forall h, hop q true = Ok h -> h_data h = h_data (jq_hop q) /\
        h_amount_offset h = Some {| ao_offset := at_; ao_num := 1; ao_den := 1 |}.
Proof.
  split.
  { change (returns (into_quote parse_key base64_decode response request)).
    unfold into_quote, check_amounts, parse_amount, key_of_text.
    repeat (returns_step || (apply try_map_returns; intros ? ?)).
    - apply input_offset_Ok.
    - match goal with H : input_offset _ = Ok _ |- _ => apply input_offset_Ok in H as (? & ? & _) end. apply returns_slice. lia. }
  intros q H slippage. unfold into_quote in H. apply bind_Ok in H as ([output minimum] & Hamt & H).
  unfold check_amounts, parse_amount in Hamt. inv_ok Hamt. injection Hamt as -> ->.
  apply bind_Ok in H as (? & Hside & H). apply bind_Ok in H as (program & _ & H). apply bind_Ok in H as (? & Hprog & H).
  apply bind_Ok in H as (data & _ & H). apply bind_Ok in H as (at_ & Hat & H). apply bind_Ok in H as (amount & Ham & H).
  apply bind_Ok in H as (? & Heq & H). apply bind_Ok in H as (metas & _ & H). apply bind_Ok in H as (tables & _ & H).
  apply Ok_inj in H as <-. cbn. apply reject_if_Ok in Hside, Heq. apply slice_p_Ok in Ham.
  repeat match goal with H : _ || _ = false |- _ => apply orb_false_iff in H as [? ?] end.
  destruct (proj2 (input_offset_Ok data) at_ Hat) as (Hlo & Hhi & Hsel). unfold saturating_sub in *.
  replace (10000 - slippage) with (Z.max 0 (10000 - jr_slippage_bps request)) by lia.
  split; [done|]. split; [lia|]. split; [lia|]. split; [lia|]. split; [lia|].
  do 3 (split; [by destruct response as [? ? ? ? ? ? [] [] []]|]).
  do 5 (split; [done|]). exists at_, amount. split; [done|].
  split; [by replace (Z.to_nat at_ + 8)%nat with (Z.to_nat (at_ + 8)) by lia|]. split; [lia|]. split; [done|].
  unfold hop. cbn. rewrite Hat. cbn. unfold try_from. destruct (at_ <? 2 ^ 16); [|done]. cbn. split; [done|].
  by intros h <-%Ok_inj.
Qed.
End jupiter.

Module VenueSample.
Definition parse_key (s : string) : option key :=
  Some (if bool_decide (s = "JUP"%string) then Jupiter.PROGRAM else key_of 9).
Definition base64_decode (s : string) : option bytes :=
  Some ([187; 100; 250; 204; 49; 196; 175; 20] ++ to_le_bytes 8 1000 ++ replicate 20 0).
Definition request : Jupiter.Request :=
  {| Jupiter.jr_owner := key_of 1; Jupiter.jr_payer := key_of 2; Jupiter.jr_input_mint := key_of 3;
     Jupiter.jr_output_mint := key_of 4; Jupiter.jr_source := key_of 5; Jupiter.jr_destination := key_of 6;
     Jupiter.jr_amount := 1000; Jupiter.jr_slippage_bps := 50 |}.
Definition response : Jupiter.BuildResponse :=
  {| Jupiter.br_in_amount := "1000"; Jupiter.br_out_amount := "2000"; Jupiter.br_other_amount_threshold := "1990";
     Jupiter.br_slippage_bps := 50; Jupiter.br_swap_mode := Some "ExactIn"%string;
     Jupiter.br_swap_instruction := {| Jupiter.wi_program_id := "JUP";
       Jupiter.wi_accounts := [{| Jupiter.wa_pubkey := "a"; Jupiter.wa_is_signer := false; Jupiter.wa_is_writable := true |}];
       Jupiter.wi_data := "data" |};
     Jupiter.br_cleanup_instruction := None; Jupiter.br_tip_instruction := None; Jupiter.br_other_instructions := [];
     Jupiter.br_addresses_by_lookup_table_address := Some [("t"%string, ["a"%string])] |}.
Definition quote : cres Jupiter.Quote := Jupiter.into_quote parse_key base64_decode response request.
End VenueSample.

Lemma jupiter_quote_bound_witness :
  exists q at_, VenueSample.quote = Ok q /\ Jupiter.jq_minimum q = 1990 /\ 8 <= at_ /\
    (forall h, Jupiter.hop q true = Ok h -> h_amount_offset h = Some {| ao_offset := at_; ao_num := 1; ao_den := 1 |}) /\
    Jupiter.hop q true <> Panic.
Proof.
  destruct VenueSample.quote as [q|e|] eqn:H; [|vm_compute in H; discriminate H..].
  destruct (proj2 (jupiter_quote_bound VenueSample.parse_key VenueSample.base64_decode VenueSample.response VenueSample.request) q H)
    as (_ & _ & _ & _ & _ & _ & _ & _ & _ & _ & _ & _ & _ & at_ & amount & Ha & _ & _ & _ & Hp & Hh).
  exists q, at_. split; [reflexivity|]. split; [vm_compute in H; by injection H as <-|]. split; [exact Ha|].
  split; [intros h Hq; exact (proj2 (Hh h Hq))|exact Hp].
Defined.
