(* ===== verification/Oracle.v ===== *)
(** * Off-chain oracle estimates ([src/chain/vault/router_price.rs])

    A curator screens quotes with a midpoint computed in [f64] from the accounts of a price
    route.  [f64] is the Standard Library's specification of IEEE-754 binary64
    ([SpecFloat] at precision 53 and exponent 1024), so conversions, products, quotients
    and comparisons are those of the hardware; [powi] and [powf], whose precision Rust
    leaves open, are parameters. *)

From Stdlib Require Import ZArith Lia String SpecFloat.
From stdpp Require Import base list gmap strings.
From S2P Require Import Prelude Signing Quote Challenge Chain Account Price Vault Wire Swap Served Owner Intent SwapIntent Rpc Confirm Venues.

Open Scope Z_scope.

(** ** [f64] *)

Abbreviation f64 := spec_float (only parsing).
(** [z as f64]: the nearest, ties to even. *)
Definition f64_of (z : Z) : f64 := binary_normalize 53 1024 z 0 false.
Definition f64_mul (x y : f64) : f64 := SFmul 53 1024 x y.
Definition f64_div (x y : f64) : f64 := SFdiv 53 1024 x y.
Definition f64_add (x y : f64) : f64 := SFadd 53 1024 x y.
Definition f64_neg (x : f64) : f64 := SFopp x.
Definition f64_ltb (x y : f64) : bool := SFltb x y.
Definition f64_leb (x y : f64) : bool := SFleb x y.
Definition is_finite (x : f64) : bool :=
  match x with S754_zero _ | S754_finite _ _ _ => true | _ => false end.
(** [f64::min]: the other number when one is not a number. *)
Definition f64_min (x y : f64) : f64 :=
  match x, y with
  | S754_nan, _ => y
  | _, S754_nan => x
  | _, _ => if f64_ltb y x then y else x
  end.
(** [x.floor() as u64], which saturates. *)
Definition floor_u64 (x : f64) : Z :=
  match x with
  | S754_finite false m e => Z.min (umax 64) (Z.shiftl (Z.pos m) e)
  | S754_infinity false => umax 64
  | _ => 0
  end.
(** The literal [0.99]. *)
Definition F99 : f64 := f64_div (f64_of 99) (f64_of 100).

Class Powers := { powi : f64 -> Z -> f64; powf : f64 -> f64 -> f64 }.

(** [i64::from_le_bytes] and [i32::from_le_bytes]. *)
Definition signed (w z : Z) : Z := if z <? 2 ^ (w - 1) then z else z - 2 ^ w.

(* chain/vault/router_price.rs:6-10 PriceClock *)
Record PriceClock := { ck_now : Z; ck_epoch : Z }.
(* chain/vault/router_price.rs:11-17 OraclePrice *)
Record OraclePrice := { op_mint : key; op_usd : f64; op_decimals : Z }.

Section oracle.
Context `{P : Pda} `{W : Powers}.

Definition pow10 (n : Z) : f64 := powi (f64_of 10) n.

(* chain/vault/router_price.rs:19-26 OraclePrice::convert *)
Definition convert (self : OraclePrice) (amount : Z) (to : OraclePrice) : cres Z :=
  let value := f64_mul (f64_div (f64_mul (f64_of amount) (op_usd self)) (op_usd to))
                 (pow10 (op_decimals to - op_decimals self)) in
  _ ← reject_if (negb (is_finite value) || f64_ltb value (f64_of 1) || f64_leb (f64_of (umax 64)) value)
        (invalid "oracle conversion outside u64");
  Ok (floor_u64 value).

(* chain/vault/router_price.rs:27-37 OraclePrice::check_quote *)
Definition check_quote (self : OraclePrice) (amount : Z) (to : OraclePrice) (output : Z) : cres unit :=
  let input_value := f64_div (f64_mul (f64_of amount) (op_usd self)) (pow10 (op_decimals self)) in
  let output_value := f64_div (f64_mul (f64_of output) (op_usd to)) (pow10 (op_decimals to)) in
  reject_if (negb (is_finite input_value) || negb (is_finite output_value)
             || f64_ltb output_value (f64_mul input_value F99))
    (invalid "Jupiter quote exceeds one percent oracle loss").

(* chain/vault/router_price.rs:39-44 field *)
Definition field (n : nat) (data : bytes) (at_ : nat) : cres bytes :=
  ok_or (get_range data at_ (at_ + n)) (invalid "truncated oracle source").

(* chain/vault/router_price.rs:45-51 number *)
Definition number (data : bytes) (at_ : nat) (width : Z) : cres Z :=
  if width =? 8 then from_le_bytes <$> field 8 data at_
  else if width =? 16 then from_le_bytes <$> field 16 data at_
  else Err (invalid "unsupported oracle integer width").

(** The midpoint so far, and the oldest and the newest publication seen. *)
Record Midpoint := { mid : f64; oldest : Z; newest : Z }.

Definition dependency (accounts : gmap key Account) (k : key) : cres Account :=
  ok_or (accounts !! k) (invalid "oracle dependency missing").

(* chain/vault/router_price.rs:73-92 evaluate (Pyth) *)
Definition pyth_brick (accounts : gmap key Account) (shard : Z) (clock : PriceClock) (s : Midpoint) (p : PythBrick)
  : cres Midpoint :=
  account ← dependency accounts (pyth_price_feed_account (py_feed_id p) shard);
  let d := account_data account in
  price ← signed 64 <$> (from_le_bytes <$> field 8 d 73);
  exp ← signed 32 <$> (from_le_bytes <$> field 4 d 89);
  published ← signed 64 <$> (from_le_bytes <$> field 8 d 93);
  _ ← reject_if ((price <=? 0) || (published <? 0)) (invalid "invalid Pyth price");
  _ ← reject_if ((saturating_add 64 (ck_now clock) 5 <? published)
                 || (py_max_age_secs p <? saturating_sub (ck_now clock) published)) (invalid "stale Pyth price");
  Ok {| mid := f64_mul (mid s) (f64_mul (f64_of price) (pow10 exp));
        oldest := Z.min (oldest s) published; newest := Z.max (newest s) published |}.

(* chain/vault/router_price.rs:72-109 evaluate (bricks) *)
Definition price_brick (accounts : gmap key Account) (shard : Z) (clock : PriceClock) (s : Midpoint) (brick : PriceBrick)
  : cres Midpoint :=
  let times value := {| mid := f64_mul (mid s) value; oldest := oldest s; newest := newest s |} in
  match brick with
  | Pyth p => pyth_brick accounts shard clock s p
  | AccountRatio r =>
      account ← dependency accounts (ar_account r);
      let d := account_data account in
      num ← number d (Z.to_nat (rf_at (ar_numerator r))) (rf_width (ar_numerator r));
      den ← number d (Z.to_nat (rf_at (ar_denominator r))) (rf_width (ar_denominator r));
      Ok (times (f64_mul (f64_div (f64_of num) (f64_of den)) (pow10 (ar_scale_exp r))))
  | MaturityDiscount m =>
      let years := f64_div (f64_of (saturating_sub (md_maturity m) (ck_now clock))) (f64_of 31536000) in
      Ok (times (powf (f64_add (f64_of 1) (f64_div (f64_of (md_apy_mid_ppm m)) (f64_of 1000000))) (f64_neg years)))
  | ClampMax max =>
      Ok {| mid := f64_min (mid s) (f64_div (f64_of max) (f64_of (10 ^ 18))); oldest := oldest s; newest := newest s |}
  | GrowthCap _ => Ok s
  end.

(* chain/vault/router_price.rs:71-110 evaluate (loop) *)
Fixpoint price_bricks (accounts : gmap key Account) (shard : Z) (clock : PriceClock) (s : Midpoint)
  (bricks : list PriceBrick) : cres Midpoint :=
  match bricks with
  | [] => Ok s
  | brick :: bricks => s ← price_brick accounts shard clock s brick; price_bricks accounts shard clock s bricks
  end.

(* chain/vault/router_price.rs:52-123 evaluate *)
Definition evaluate (route : PriceRoute) (accounts : gmap key Account) (shard : Z) (clock : PriceClock) : cres OraclePrice :=
  mint ← dependency accounts (pr_mint route);
  decimals ← ok_or (account_data mint !! 44%nat) (invalid "truncated mint");
  _ ← reject_if (18 <? decimals) (invalid "unsupported mint decimals");
  s ← price_bricks accounts shard clock {| mid := f64_of 1; oldest := umax 64; newest := 0 |} (pr_bricks route);
  _ ← reject_if ((oldest s =? umax 64) || (pr_max_skew_secs route <? saturating_sub (newest s) (oldest s))
                 || negb (is_finite (mid s)) || f64_leb (mid s) (f64_of 0)) (invalid "invalid oracle midpoint or skew");
  Ok {| op_mint := pr_mint route; op_usd := mid s; op_decimals := decimals |}.
End oracle.

(** ** Fresh prices *)

Section fresh.
Context `{P : Pda} `{W : Powers}.
Context (accounts : gmap key Account) (shard : Z) (clock : PriceClock).

(** When the feed of [p] says it was published, and that it has a positive price. *)
Definition published (p : PythBrick) (t : Z) : Prop :=
  exists account at_price at_time, accounts !! pyth_price_feed_account (py_feed_id p) shard = Some account /\
    get_range (account_data account) 73 81 = Some at_price /\ 0 < signed 64 (from_le_bytes at_price) /\
    get_range (account_data account) 93 101 = Some at_time /\ t = signed 64 (from_le_bytes at_time).

Definition fresh (p : PythBrick) (t : Z) : Prop :=
  published p t /\ 0 <= t <= ck_now clock + 5 /\ ck_now clock - t <= py_max_age_secs p.

Definition is_pyth (b : PriceBrick) : bool := match b with Pyth _ => true | _ => false end.

Lemma pyth_brick_Ok s p s' :
  pyth_brick accounts shard clock s p = Ok s' ->
  exists t, fresh p t /\ oldest s' = Z.min (oldest s) t /\ newest s' = Z.max (newest s) t.
Proof.
  intros H. unfold pyth_brick, field, dependency in H. apply bind_Ok in H as (account & Ha & H). apply ok_or_Ok in Ha.
  apply bind_Ok in H as (price & Hp & H). apply bind_Ok in H as (e & _ & H). apply bind_Ok in H as (t & Ht & H).
  apply bind_Ok in H as (? & H1 & H). apply bind_Ok in H as (? & H2 & H). apply Ok_inj in H as <-. cbn.
  apply reject_if_Ok in H1, H2. exists t.
  destruct (get_range (account_data account) 73 (73 + 8)) as [bp|] eqn:Ep; [|done]. cbn in Hp. apply Ok_inj in Hp as <-.
  destruct (get_range (account_data account) 93 (93 + 8)) as [bt|] eqn:Et; [|done]. cbn in Ht. apply Ok_inj in Ht as <-.
  unfold saturating_add, saturating_sub in *. apply orb_false_iff in H1 as [? ?], H2 as [? ?].
  split; [|done]. split; [|lia]. exists account, bp, bt. repeat split; [done|done|lia|done].
Qed.

Lemma price_brick_Ok s b s' :
  price_brick accounts shard clock s b = Ok s' ->
  match b with
  | Pyth p => exists t, fresh p t /\ oldest s' = Z.min (oldest s) t /\ newest s' = Z.max (newest s) t
  | _ => oldest s' = oldest s /\ newest s' = newest s
  end.
Proof.
  destruct b as [p|r|m|x|g]; cbn [price_brick]; [apply pyth_brick_Ok| |by intros <-%Ok_inj..].
  intros H. apply bind_Ok in H as (? & _ & H). apply bind_Ok in H as (? & _ & H). apply bind_Ok in H as (? & _ & H).
  by apply Ok_inj in H as <-.
Qed.

Lemma price_bricks_Ok bricks : forall s s',
  price_bricks accounts shard clock s bricks = Ok s' ->
  oldest s' <= oldest s /\ newest s <= newest s' /\
  (forall p, Pyth p ∈ bricks -> exists t, fresh p t /\ oldest s' <= t <= newest s') /\
  ((forall p, Pyth p ∉ bricks) -> oldest s' = oldest s).
Proof.
  induction bricks as [|b bricks IH]; intros s s' H; cbn in H.
  - apply Ok_inj in H as <-. split; [lia|]. split; [lia|]. split; [|done]. intros p Hp. by apply not_elem_of_nil in Hp.
  - apply bind_Ok in H as (s1 & H1 & H). apply price_brick_Ok in H1. destruct (IH _ _ H) as (Ho & Hn & Hall & Hno).
    assert (Hs : oldest s1 <= oldest s /\ newest s <= newest s1) by (destruct b; [destruct H1 as (t & _ & -> & ->)|..]; lia).
    split; [lia|]. split; [lia|]. split.
    + intros p Hp. apply elem_of_cons in Hp as [<-|Hp]; [|by apply Hall].
      destruct H1 as (t & Ht & Ho1 & Hn1). exists t. split; [done|lia].
    + intros Hnone. rewrite Hno by (intros p Hp; apply (Hnone p); set_solver).
      destruct b as [p| | | |]; [exfalso; apply (Hnone p); set_solver|apply H1..].
Qed.

Lemma number_returns data at_ width : returns (number data at_ width).
Proof. unfold number, field. repeat returns_step; apply returns_fmap, returns_ok_or. Qed.

Lemma price_bricks_returns bricks : forall s, returns (price_bricks accounts shard clock s bricks).
Proof.
  induction bricks as [|b bricks IH]; intros s; cbn [price_bricks]; [done|]. apply returns_bind; [|intros s' _; apply IH].
  destruct b as [p|r|m|x|g]; cbn [price_brick]; [|unfold dependency; repeat (returns_step || apply number_returns)|done..].
  unfold pyth_brick, dependency, field. repeat (returns_step || apply returns_fmap).
Qed.
End fresh.

(** Every feed of a route with an estimate is fresh. *)
Lemma evaluate_fresh `{P : Pda} `{W : Powers} route accounts shard clock price p :
  evaluate route accounts shard clock = Ok price -> Pyth p ∈ pr_bricks route -> exists t, fresh accounts shard clock p t.
Proof.
  intros H Hp. unfold evaluate in H. apply bind_Ok in H as (? & _ & H). apply bind_Ok in H as (? & _ & H).
  apply bind_Ok in H as (? & _ & H). apply bind_Ok in H as (s & Hs & _).
  apply price_bricks_Ok in Hs as (_ & _ & Hall & _). destruct (Hall p Hp) as (t & Ht & _). by exists t.
Qed.

(** A price estimate never panics.  One is given only when every Pyth feed of the route
    was there with a positive price, not from more than five seconds ahead and no older
    than the feed allows, all of them published within the route's skew of each other,
    and at least one is in the route; the estimate is then a finite number above zero. *)
Theorem oracle_prices_fresh `{P : Pda} `{W : Powers} route accounts shard clock :
  evaluate route accounts shard clock <> Panic /\
  forall price, evaluate route accounts shard clock = Ok price ->
    op_mint price = pr_mint route /\ op_decimals price <= 18 /\
    is_finite (op_usd price) = true /\ f64_leb (op_usd price) (f64_of 0) = false /\
    (exists p, Pyth p ∈ pr_bricks route) /\
    (forall p, Pyth p ∈ pr_bricks route -> exists t, fresh accounts shard clock p t) /\
    (forall p q t u, Pyth p ∈ pr_bricks route -> Pyth q ∈ pr_bricks route ->
       fresh accounts shard clock p t -> fresh accounts shard clock q u -> Z.abs (t - u) <= pr_max_skew_secs route).
Proof.
  split.
  { unfold evaluate, dependency. apply returns_bind; [apply returns_ok_or|]. intros m _. apply returns_bind; [apply returns_ok_or|].
    intros d _. apply returns_bind; [apply returns_reject_if|]. intros _ _. apply returns_bind; [apply price_bricks_returns|].
    intros s _. apply returns_bind; [apply returns_reject_if|done]. }
  intros price H. unfold evaluate in H. apply bind_Ok in H as (m & _ & H). apply bind_Ok in H as (d & _ & H).
  apply bind_Ok in H as (? & Hd & H). apply bind_Ok in H as (s & Hs & H). apply bind_Ok in H as (? & Hr & H).
  apply Ok_inj in H as <-. cbn. apply reject_if_Ok in Hd, Hr. apply price_bricks_Ok in Hs as (_ & _ & Hall & Hno).
  repeat match goal with H : _ || _ = false |- _ => apply orb_false_iff in H as [? ?] end.
  split; [done|]. split; [lia|]. split; [by apply negb_false_iff|]. split; [done|].
  assert (Hp : forall p t, Pyth p ∈ pr_bricks route -> fresh accounts shard clock p t -> oldest s <= t <= newest s).
  { intros p t Hin ((a & b1 & b2 & Ha & _ & _ & Hb & ->) & _).
    destruct (Hall p Hin) as (t & ((a' & ? & b2' & Ha' & _ & _ & Hb' & ->) & _) & Ht).
    rewrite Ha in Ha'. injection Ha' as <-. rewrite Hb in Hb'. by injection Hb' as <-. }
  split; [|split].
  - destruct (existsb is_pyth (pr_bricks route)) eqn:He.
    + apply existsb_exists in He as ([p| | | |] & Hin & Hb); [|done..]. exists p. by apply list_elem_of_In.
    + exfalso. destruct (Z.eqb_spec (oldest s) (umax 64)) as [|Hx]; [done|]. apply Hx, Hno. intros p Hin. by apply (proj1 (existsb_false _ _) He) in Hin.
  - intros p Hin. destruct (Hall p Hin) as (t & Ht & _). by exists t.
  - intros p q t u Hpin Hqin Ht Hu. pose proof (Hp p t Hpin Ht). pose proof (Hp q u Hqin Hu).
    unfold saturating_sub in *. lia.
Qed.

Module OracleSample.
#[global] Instance powers : Powers :=
  {| powi x n := if n <? 0 then f64_div (f64_of 1) (f64_of (10 ^ (- n))) else f64_of (10 ^ n); powf x y := f64_of 1 |}.
Definition route : PriceRoute :=
  {| pr_mint := key_of 9; pr_max_skew_secs := 30;
     pr_bricks := [Pyth {| py_feed_id := key_of 16; py_max_age_secs := 60; py_min_band_ppm := 500 |}; ClampMax (2 * 10 ^ 20)];
     pr_updated_slot := 7 |}.
Definition feed : Account :=
  {| owner := PYTH_PUSH_ORACLE_ID; lamports := 1;
     account_data := replicate 73 0 ++ to_le_bytes 8 15025000000 ++ replicate 8 0 ++ to_le_bytes 4 (2 ^ 32 - 8)
                     ++ to_le_bytes 8 1759999990 ++ replicate 33 0 |}.
Definition mint : Account := {| owner := TOKEN_PROGRAM_ID; lamports := 1; account_data := replicate 44 0 ++ [9] ++ replicate 37 0 |}.
Definition accounts : gmap key Account :=
  list_to_map [(key_of 9, mint); (pyth_price_feed_account (P := QuoteExample.pda) (key_of 16) 0, feed)].
Definition clock : PriceClock := {| ck_now := 1760000000; ck_epoch := 900 |}.
Definition price : cres OraclePrice := evaluate (P := QuoteExample.pda) route accounts 0 clock.
(** A dollar stablecoin. *)
Definition dollar : OraclePrice := {| op_mint := key_of 8; op_usd := f64_of 1; op_decimals := 6 |}.
End OracleSample.

(** A fresh feed at 150.25 dollars: two tokens convert to 300.5 dollars. *)
Lemma oracle_prices_fresh_witness :
  exists price, OracleSample.price = Ok price /\ convert price 2000000000 OracleSample.dollar = Ok 300500000 /\
    (forall p, Pyth p ∈ pr_bricks OracleSample.route ->
       exists t, fresh (P := QuoteExample.pda) OracleSample.accounts 0 OracleSample.clock p t).
Proof.
  destruct OracleSample.price as [price|e|] eqn:H; [|vm_compute in H; discriminate H..].
  exists price. split; [reflexivity|]. unfold OracleSample.price in H.
  destruct (proj2 (oracle_prices_fresh (P := QuoteExample.pda) OracleSample.route OracleSample.accounts 0
    OracleSample.clock) price H) as (_ & _ & _ & _ & _ & Hf & _).
  split; [|exact Hf]. vm_compute in H. injection H as <-. vm_compute. reflexivity.
Defined.
