(* ===== verification/Pricing.v ===== *)
(** * The price of a spread from a model of its legs ([spreads.rs])

    [price_spread] asks a model, which the caller supplies and which may keep state, for the
    values of the two legs, and accepts their difference only if it is a price a spread can
    have.  [f64] is that of Oracle.v. *)

From Stdlib Require Import ZArith Lia SpecFloat.
From stdpp Require Import base list.
From S2P Require Import Prelude Spreads Oracle.

Open Scope Z_scope.

Definition f64_sub (x y : f64) : f64 := SFsub 53 1024 x y.
Definition f64_eqb (x y : f64) : bool := SFeqb x y.

(* spreads.rs:223-228 SpreadPricingContext *)
Record SpreadPricingContext := { time_to_expiry_years : f64; volatility : f64 }.

Section pricing.
(** [FnMut(bool, f64, SpreadPricingContext) -> f64], over the state [S] it captures. *)
Context {S : Type} (long_leg_value : bool -> f64 -> SpreadPricingContext -> S -> f64 * S).

(* spreads.rs:237-249 price_spread (inputs) *)
Definition invalid_inputs (kind : SpreadType.t) (lower_strike upper_strike : f64) (context : SpreadPricingContext) : bool :=
  negb (is_finite lower_strike) || negb (is_finite upper_strike) || f64_ltb lower_strike (f64_of 0)
  || (bool_decide (kind = SpreadType.CallSpread) && f64_eqb lower_strike (f64_of 0))
  || f64_leb upper_strike lower_strike
  || negb (is_finite (time_to_expiry_years context)) || f64_ltb (time_to_expiry_years context) (f64_of 0)
  || negb (is_finite (volatility context)) || f64_ltb (volatility context) (f64_of 0).

(* spreads.rs:257-265 price_spread (price) *)
Definition invalid_price (lower_strike upper_strike low high price : f64) : bool :=
  negb (is_finite low) || negb (is_finite high) || f64_ltb low (f64_of 0) || f64_ltb high (f64_of 0)
  || negb (is_finite price) || f64_ltb price (f64_of 0) || f64_ltb (f64_sub upper_strike lower_strike) price.

(* spreads.rs:230-268 price_spread *)
Definition price_spread (kind : SpreadType.t) (lower_strike upper_strike : f64) (context : SpreadPricingContext) (s : S)
  : res SpreadError.t f64 * S :=
  if invalid_inputs kind lower_strike upper_strike context then (Err SpreadError.InvalidPricing, s)
  else
    let is_put := bool_decide (kind = SpreadType.PutSpread) in
    let '(low, s) :=
      if is_put && f64_eqb lower_strike (f64_of 0) then (f64_of 0, s) else long_leg_value is_put lower_strike context s in
    let '(high, s) := long_leg_value is_put upper_strike context s in
    let price := if is_put then f64_sub high low else f64_sub low high in
    if invalid_price lower_strike upper_strike low high price then (Err SpreadError.InvalidPricing, s)
    else (Ok price, s).
End pricing.

(** A model that records what it is asked. *)
Definition Ask : Type := bool * f64 * SpreadPricingContext.
Definition recording (value : bool -> f64 -> SpreadPricingContext -> f64) (is_put : bool) (strike : f64)
  (context : SpreadPricingContext) (asked : list Ask) : f64 * list Ask :=
  (value is_put strike context, asked ++ [(is_put, strike, context)]).

Lemma finite_nonneg p : is_finite p = true -> f64_ltb p (f64_of 0) = false -> f64_leb (f64_of 0) p = true.
Proof. change (f64_of 0) with (S754_zero false). by destruct p as [[]| | |[] m e]. Qed.

(** The legs a spread consists of: a put spread whose lower strike is zero has only its
    upper one. *)
Definition legs (kind : SpreadType.t) (lower_strike upper_strike : f64) (context : SpreadPricingContext) : list Ask :=
  match kind with
  | SpreadType.CallSpread => [(false, lower_strike, context); (false, upper_strike, context)]
  | SpreadType.PutSpread =>
      (if f64_eqb lower_strike (f64_of 0) then [] else [(true, lower_strike, context)]) ++ [(true, upper_strike, context)]
  end.

(** The price of a spread, for every model of its legs, numbers or not: a price that is
    returned is finite, not negative and not above the width of the spread, and is the long
    leg's value less the short leg's; the model was asked for the legs of the spread, each
    once, lower strike first, under the caller's context.  Strikes, times or volatilities
    that make no sense are refused before the model is asked anything; the only error is
    [InvalidPricing]. *)
Theorem spread_prices_bounded value kind lower_strike upper_strike context :
  let low := if bool_decide (kind = SpreadType.PutSpread) && f64_eqb lower_strike (f64_of 0) then f64_of 0
             else value (bool_decide (kind = SpreadType.PutSpread)) lower_strike context in
  let high := value (bool_decide (kind = SpreadType.PutSpread)) upper_strike context in
  let '(r, asked) := price_spread (recording value) kind lower_strike upper_strike context [] in
  match r with
  | Ok price =>
      is_finite price = true /\ f64_leb (f64_of 0) price = true /\
      f64_ltb (f64_sub upper_strike lower_strike) price = false /\
      price = match kind with SpreadType.CallSpread => f64_sub low high | SpreadType.PutSpread => f64_sub high low end
  | Err e => e = SpreadError.InvalidPricing
  | Panic => False
  end /\
  asked = if invalid_inputs kind lower_strike upper_strike context then [] else legs kind lower_strike upper_strike context.
Proof.
  cbv zeta. unfold price_spread. destruct (invalid_inputs kind lower_strike upper_strike context); [done|].
  assert (Hp : forall low high price, invalid_price lower_strike upper_strike low high price = false ->
            is_finite price = true /\ f64_leb (f64_of 0) price = true /\
            f64_ltb (f64_sub upper_strike lower_strike) price = false).
  { intros low high price H. unfold invalid_price in H. rewrite !orb_false_iff, !negb_false_iff in H.
    destruct H as [[[[_ H1] H2] H3] H4] || destruct H as [[[[[[_ _] _] _] H1] H2] H3].
    split_and!; try done. by apply finite_nonneg. }
  destruct kind; unfold recording, legs; rewrite ?(bool_decide_false (SpreadType.CallSpread = SpreadType.PutSpread)),
    ?(bool_decide_true (SpreadType.PutSpread = SpreadType.PutSpread)) by done; cbn [andb].
  - match goal with |- context [invalid_price ?a ?b ?c ?d ?e] => destruct (invalid_price a b c d e) eqn:H end; [done|].
    split; [|done]. by destruct (Hp _ _ _ H) as (? & ? & ?).
  - destruct (f64_eqb lower_strike (f64_of 0));
      (match goal with |- context [invalid_price ?a ?b ?c ?d ?e] => destruct (invalid_price a b c d e) eqn:H end; [done|]);
      (split; [|done]); by destruct (Hp _ _ _ H) as (? & ? & ?).
Qed.
