(* ===== verification/Config.v ===== *)
(** * Configuration of a session ([ws/managed/config.rs], [endpoint.rs], the transport limits of [ws/client.rs])

    What a session is spawned with is checked first; the checks bound what its queues can
    hold.  Sizes and durations are integers (nanoseconds); the jitter ratio is a binary64
    number, as in Oracle.v.  The keys, the signer and the greeting are only carried, and
    left out. *)

From Stdlib Require Import ZArith Lia String.
From stdpp Require Import base list gmap strings.
From S2P Require Import Prelude Time Terms Quote Rows Messages Control Session Running Handle Ready Challenge Texts SwapIntent Oracle.

Open Scope Z_scope.

Module GapPolicy.
(* ws/managed/config.rs:12-25 GapPolicy *)
Inductive t := EndpointDefault | Surface | Reconnect.
End GapPolicy.

Module AuthFlow.
(* ws/managed/config.rs:32-41 AuthFlow *)
Inductive t := Maker | Vault (vault_pda : key).
End AuthFlow.

Module WsTransportConfigError.
(* ws/error.rs:24-33 WsTransportConfigError *)
Inductive t := ZeroConnectTimeout | ZeroMessageOrFrameLimit | InvalidWriteBufferRange.
End WsTransportConfigError.

Module ManagedWsConfigError.
(* ws/managed/config.rs:342-383 ManagedWsConfigError *)
Inductive t :=
| EmptyUrl
| ZeroCapacity (field : string)
| ZeroDuration (field : string)
| InvalidReconnectRange
| InvalidReconnectJitter
| InitialSubscribeOnDataEndpoint
| VaultEndpointAuthMismatch
| InitialSubscribeTooLarge (actual limit : Z)
| ProtocolLimitExceeded (field : string) (configured limit : Z)
| InitialSubscribeNotSerializable
| CapacityTooLarge (field : string) (configured limit : Z)
| MemoryEnvelopeTooLarge (queue : string) (configured limit : Z)
| Transport (e : WsTransportConfigError.t).
End ManagedWsConfigError.

(* ws/managed/config.rs:27-30 MAX_INBOUND_RING_SLOTS, MAX_OUTBOUND_QUEUE_WIRE_BYTES, SERVER_MAX_BATCH_QUOTES, SERVER_MAX_CLIENT_MESSAGE_BYTES *)
Definition MAX_INBOUND_RING_SLOTS : Z := 65536.
Definition MAX_OUTBOUND_QUEUE_WIRE_BYTES : Z := 256 * 1024 * 1024.
Definition SERVER_MAX_BATCH_QUOTES : Z := 50.
Definition SERVER_MAX_CLIENT_MESSAGE_BYTES : Z := 32 * 1024.

(* ws/client.rs:148-158 WsTransportConfig *)
Record WsTransportConfig := {
  tc_connect_timeout : Z;
  tc_read_buffer_size : Z;
  tc_write_buffer_size : Z;
  tc_max_write_buffer_size : Z;
  tc_max_message_size : Z;
  tc_max_frame_size : Z;
  tc_tcp_nodelay : bool;
}.

(* ws/client.rs:161-171 WsTransportConfig::default *)
Definition default_transport : WsTransportConfig :=
  {| tc_connect_timeout := 10 * NANOS; tc_read_buffer_size := 64 * 1024; tc_write_buffer_size := 0;
     tc_max_write_buffer_size := 1024 * 1024; tc_max_message_size := 2 * 1024 * 1024;
     tc_max_frame_size := 2 * 1024 * 1024; tc_tcp_nodelay := true |}.

(* ws/client.rs:175-190 WsTransportConfig::validate *)
Definition validate_transport (self : WsTransportConfig) : res WsTransportConfigError.t unit :=
  _ ← reject_if (tc_connect_timeout self =? 0) WsTransportConfigError.ZeroConnectTimeout;
  _ ← reject_if (tc_max_write_buffer_size self <=? tc_write_buffer_size self) WsTransportConfigError.InvalidWriteBufferRange;
  reject_if ((tc_max_message_size self =? 0) || (tc_max_frame_size self =? 0)) WsTransportConfigError.ZeroMessageOrFrameLimit.

(* ws/managed/config.rs:43-77 ManagedWsConfig *)
Record ManagedWsConfig := {
  c_url : bytes;
  c_endpoint : MakerWsEndpoint.t;
  c_auth_flow : AuthFlow.t;
  c_initial_subscribe : option SubscribeData;
  c_reconnect_delay : Z;
  c_max_reconnect_delay : Z;
  c_reconnect_jitter_ratio : f64;
  c_max_reconnect_attempts : Z;
  c_connect_timeout : Z;
  c_ping_interval : Z;
  c_auth_timeout : Z;
  c_readiness_timeout : Z;
  c_write_timeout : Z;
  c_command_buffer : Z;
  c_broadcast_buffer : Z;
  c_max_batch_quotes : Z;
  c_max_outbound_message_size : Z;
  c_ws_read_timeout : option Z;
  c_pong_timeout : Z;
  c_transport : WsTransportConfig;
  c_max_pending_awaits : Z;
  c_gap_policy : GapPolicy.t;
}.

(* ws/managed/config.rs:97-130 ManagedWsConfig::new_with_signing *)
Definition new_with_signing (url : bytes) : ManagedWsConfig :=
  {| c_url := url; c_endpoint := MakerWsEndpoint.Quote; c_auth_flow := AuthFlow.Maker; c_initial_subscribe := None;
     c_reconnect_delay := 250 * MILLI; c_max_reconnect_delay := 5 * NANOS;
     c_reconnect_jitter_ratio := f64_div (f64_of 2) (f64_of 10); c_max_reconnect_attempts := 0;
     c_connect_timeout := 10 * NANOS; c_ping_interval := 30 * NANOS; c_auth_timeout := 15 * NANOS;
     c_readiness_timeout := 15 * NANOS; c_write_timeout := 5 * NANOS; c_command_buffer := 256;
     c_broadcast_buffer := 4096; c_max_batch_quotes := SERVER_MAX_BATCH_QUOTES;
     c_max_outbound_message_size := SERVER_MAX_CLIENT_MESSAGE_BYTES; c_ws_read_timeout := None;
     c_pong_timeout := 10 * NANOS; c_transport := default_transport; c_max_pending_awaits := 1024;
     c_gap_policy := GapPolicy.EndpointDefault |}.

(* ws/managed/config.rs:132-141 ManagedWsConfig::low_latency *)
Definition low_latency (self : ManagedWsConfig) : ManagedWsConfig :=
  {| c_url := c_url self; c_endpoint := c_endpoint self; c_auth_flow := c_auth_flow self;
     c_initial_subscribe := c_initial_subscribe self; c_reconnect_delay := c_reconnect_delay self;
     c_max_reconnect_delay := c_max_reconnect_delay self; c_reconnect_jitter_ratio := c_reconnect_jitter_ratio self;
     c_max_reconnect_attempts := c_max_reconnect_attempts self; c_connect_timeout := c_connect_timeout self;
     c_ping_interval := 2 * NANOS; c_auth_timeout := c_auth_timeout self; c_readiness_timeout := c_readiness_timeout self;
     c_write_timeout := NANOS; c_command_buffer := 1024; c_broadcast_buffer := c_broadcast_buffer self;
     c_max_batch_quotes := c_max_batch_quotes self; c_max_outbound_message_size := c_max_outbound_message_size self;
     c_ws_read_timeout := c_ws_read_timeout self; c_pong_timeout := 2 * NANOS; c_transport := c_transport self;
     c_max_pending_awaits := c_max_pending_awaits self; c_gap_policy := GapPolicy.Reconnect |}.

(** [request_id] is the fresh [Uuid::new_v4()]. *)
(* ws/managed/config.rs:168-184 ManagedWsConfig::with_vault_auth *)
Definition with_vault_auth (self : ManagedWsConfig) (vault_pda : key) (products : Z) (request_id : Uuid) : ManagedWsConfig :=
  {| c_url := c_url self; c_endpoint := MakerWsEndpoint.Vault; c_auth_flow := AuthFlow.Vault vault_pda;
     c_initial_subscribe := Some {| sub_products := products; sub_request_id := request_id; sub_channels := [WsChannel.Vaults];
       sub_underlying_mints := []; sub_quote_mints := [] |};
     c_reconnect_delay := c_reconnect_delay self;
     c_max_reconnect_delay := c_max_reconnect_delay self; c_reconnect_jitter_ratio := c_reconnect_jitter_ratio self;
     c_max_reconnect_attempts := c_max_reconnect_attempts self; c_connect_timeout := c_connect_timeout self;
     c_ping_interval := c_ping_interval self; c_auth_timeout := c_auth_timeout self; c_readiness_timeout := c_readiness_timeout self;
     c_write_timeout := c_write_timeout self; c_command_buffer := c_command_buffer self; c_broadcast_buffer := c_broadcast_buffer self;
     c_max_batch_quotes := c_max_batch_quotes self; c_max_outbound_message_size := c_max_outbound_message_size self;
     c_ws_read_timeout := c_ws_read_timeout self; c_pong_timeout := c_pong_timeout self; c_transport := c_transport self;
     c_max_pending_awaits := c_max_pending_awaits self; c_gap_policy := c_gap_policy self |}.

(* ws/managed/config.rs:149-155 ManagedWsConfig::reconnect_on_gap *)
Definition reconnect_on_gap (self : ManagedWsConfig) : bool :=
  match c_gap_policy self with
  | GapPolicy.EndpointDefault => bool_decide (c_endpoint self = MakerWsEndpoint.Quote)
  | GapPolicy.Surface => false
  | GapPolicy.Reconnect => true
  end.

(* ws/managed/config.rs:186-191 ManagedWsConfig::vault_pda *)
Definition config_vault_pda (self : ManagedWsConfig) : option key :=
  match c_auth_flow self with AuthFlow.Vault vault_pda => Some vault_pda | AuthFlow.Maker => None end.

(* ws/managed/config.rs:284-288 ManagedWsConfig::effective_transport *)
Definition effective_transport (self : ManagedWsConfig) : WsTransportConfig :=
  let t := c_transport self in
  {| tc_connect_timeout := c_connect_timeout self; tc_read_buffer_size := tc_read_buffer_size t;
     tc_write_buffer_size := tc_write_buffer_size t; tc_max_write_buffer_size := tc_max_write_buffer_size t;
     tc_max_message_size := tc_max_message_size t; tc_max_frame_size := tc_max_frame_size t; tc_tcp_nodelay := tc_tcp_nodelay t |}.

(* ws/managed/config.rs:291-304 validate_server_limit *)
Definition validate_server_limit (field : string) (configured limit : Z) : res ManagedWsConfigError.t unit :=
  reject_if (limit <? configured) (ManagedWsConfigError.ProtocolLimitExceeded field configured limit).

(* ws/managed/config.rs:306-320 validate_slot_cap *)
Definition validate_slot_cap (field : string) (capacity limit : Z) : res ManagedWsConfigError.t unit :=
  reject_if (limit <? capacity) (ManagedWsConfigError.CapacityTooLarge field capacity limit).

(** [usize::saturating_mul] on 64 bits. *)
Definition saturating_mul (a b : Z) : Z := Z.min (a * b) (2 ^ 64 - 1).

(* ws/managed/config.rs:322-340 validate_memory_envelope *)
Definition validate_memory_envelope (queue : string) (capacity max_message_size limit : Z) : res ManagedWsConfigError.t unit :=
  let configured := saturating_mul capacity max_message_size in
  reject_if (limit <? configured) (ManagedWsConfigError.MemoryEnvelopeTooLarge queue configured limit).

(** [for (field, value) in [...] { if value == 0 { return Err(..) } }]. *)
Definition non_zero (e : string -> ManagedWsConfigError.t) (fields : list (string * Z)) : res ManagedWsConfigError.t unit :=
  match List.find (fun '(_, value) => value =? 0) fields with Some (field, _) => Err (e field) | None => Ok tt end.

(* ws/managed/config.rs:199-282 ManagedWsConfig::validate *)
Definition validate (serialize : ClientMessage.t -> string + string) (self : ManagedWsConfig) : res ManagedWsConfigError.t unit :=
  _ ← reject_if (bool_decide (trim (c_url self) = [])) ManagedWsConfigError.EmptyUrl;
  _ ← non_zero ManagedWsConfigError.ZeroCapacity
        [("command_buffer", c_command_buffer self); ("broadcast_buffer", c_broadcast_buffer self);
         ("max_pending_awaits", c_max_pending_awaits self); ("max_batch_quotes", c_max_batch_quotes self);
         ("max_outbound_message_size", c_max_outbound_message_size self)]%string;
  _ ← non_zero ManagedWsConfigError.ZeroDuration
        [("reconnect_delay", c_reconnect_delay self); ("max_reconnect_delay", c_max_reconnect_delay self);
         ("connect_timeout", c_connect_timeout self); ("ping_interval", c_ping_interval self);
         ("auth_timeout", c_auth_timeout self); ("readiness_timeout", c_readiness_timeout self);
         ("write_timeout", c_write_timeout self); ("pong_timeout", c_pong_timeout self)]%string;
  _ ← reject_if (match c_ws_read_timeout self with Some duration => duration =? 0 | None => false end)
        (ManagedWsConfigError.ZeroDuration "ws_read_timeout");
  _ ← reject_if (c_max_reconnect_delay self <? c_reconnect_delay self) ManagedWsConfigError.InvalidReconnectRange;
  _ ← reject_if (negb (f64_leb (f64_of 0) (c_reconnect_jitter_ratio self) && f64_leb (c_reconnect_jitter_ratio self) (f64_of 1)))
        ManagedWsConfigError.InvalidReconnectJitter;
  _ ← validate_server_limit "max_batch_quotes" (c_max_batch_quotes self) SERVER_MAX_BATCH_QUOTES;
  _ ← validate_server_limit "max_outbound_message_size" (c_max_outbound_message_size self) SERVER_MAX_CLIENT_MESSAGE_BYTES;
  _ ← reject_if (bool_decide (c_endpoint self = MakerWsEndpoint.Data) && bool_decide (is_Some (c_initial_subscribe self)))
        ManagedWsConfigError.InitialSubscribeOnDataEndpoint;
  _ ← reject_if (negb (Bool.eqb (bool_decide (c_endpoint self = MakerWsEndpoint.Vault)) (bool_decide (is_Some (config_vault_pda self)))))
        ManagedWsConfigError.VaultEndpointAuthMismatch;
  _ ← match c_initial_subscribe self with
      | None => Ok tt
      | Some subscribe =>
          match serialize (ClientMessage.Subscribe subscribe) with
          | inl _ => Err ManagedWsConfigError.InitialSubscribeNotSerializable
          | inr text =>
              let len := Z.of_nat (String.length text) in
              reject_if (c_max_outbound_message_size self <? len)
                (ManagedWsConfigError.InitialSubscribeTooLarge len (c_max_outbound_message_size self))
          end
      end;
  _ ← map_err ManagedWsConfigError.Transport (validate_transport (effective_transport self));
  _ ← validate_slot_cap "broadcast_buffer" (c_broadcast_buffer self) MAX_INBOUND_RING_SLOTS;
  validate_memory_envelope "outbound command queue" (c_command_buffer self) (c_max_outbound_message_size self)
    MAX_OUTBOUND_QUEUE_WIRE_BYTES.

(** The handle of a fresh session. *)
(* ws/managed/mod.rs:576-582 spawn_managed_ws (limits) *)
Definition spawn_managed_ws (serialize : ClientMessage.t -> string + string) (config : ManagedWsConfig)
  : res ManagedWsConfigError.t Handle :=
  _ ← validate serialize config;
  Ok {| h_state := ManagedWsState.Connecting; h_queue := []; h_capacity := Z.to_nat (c_command_buffer config);
        h_gone := false; h_cancels := []; h_next_await_id := 1; h_next_tx := 0;
        h_max_batch_quotes := Z.to_nat (c_max_batch_quotes config);
        h_max_outbound_message_size := Z.to_nat (c_max_outbound_message_size config) |}.

(** ** Endpoints

    URLs are their bytes. *)

(* ws/managed/endpoint.rs:11-17 MakerWsEndpoint::path *)
Definition path (self : MakerWsEndpoint.t) : bytes :=
  as_bytes match self with
           | MakerWsEndpoint.Quote => "/maker"
           | MakerWsEndpoint.Data => "/maker/data"
           | MakerWsEndpoint.Vault => "/vault"
           end.

Fixpoint drop_slashes (l : bytes) : bytes := match l with 47 :: l => drop_slashes l | _ => l end.
(** [str::trim_end_matches('/')]. *)
Definition trim_end_slashes (url : bytes) : bytes := reverse (drop_slashes (reverse url)).

Definition strip_prefix (p l : bytes) : option bytes :=
  if bool_decide (take (length p) l = p) then Some (drop (length p) l) else None.
Definition strip_suffix (p l : bytes) : option bytes := reverse <$> strip_prefix (reverse p) (reverse l).

Fixpoint strip_one_of (suffixes : list bytes) (url : bytes) : bytes :=
  match suffixes with
  | [] => url
  | s :: suffixes => match strip_suffix s url with Some base => base | None => strip_one_of suffixes url end
  end.

(* ws/managed/endpoint.rs:26-48 ws_base_url *)
Definition ws_base_url (url : bytes) : bytes :=
  let url := trim_end_slashes (trim url) in
  let url := match strip_prefix (as_bytes "http://") url with
             | Some rest => as_bytes "ws://" ++ rest
             | None =>
                 match strip_prefix (as_bytes "https://") url with
                 | Some rest => as_bytes "wss://" ++ rest
                 | None => url
                 end
             end in
  strip_one_of [as_bytes "/maker/data"; as_bytes "/maker"; as_bytes "/vault"; as_bytes "/taker"] url.

(* ws/managed/endpoint.rs:20-24 normalize_maker_ws_url_for_endpoint *)
Definition normalize_maker_ws_url_for_endpoint (url : bytes) (endpoint : MakerWsEndpoint.t) : bytes :=
  ws_base_url url ++ path endpoint.

(* ws/managed/endpoint.rs:50-53 normalize_maker_ws_url *)
Definition normalize_maker_ws_url (url : bytes) : bytes := normalize_maker_ws_url_for_endpoint url MakerWsEndpoint.Quote.
(* ws/managed/endpoint.rs:55-58 normalize_maker_data_ws_url *)
Definition normalize_maker_data_ws_url (url : bytes) : bytes := normalize_maker_ws_url_for_endpoint url MakerWsEndpoint.Data.

(** The origin's host is taken for an endpoint when it is named like one. *)
Example host_named_like_an_endpoint :
  normalize_maker_ws_url (as_bytes "http://vault") = as_bytes "ws://maker" /\
  normalize_maker_ws_url (as_bytes "http://vault:80/") = as_bytes "ws://vault:80/maker".
Proof. split; reflexivity. Qed.

(** ** What the queue of commands can hold *)

Section memory.
Context (serialize : ClientMessage.t -> string + string) (config : ManagedWsConfig).

(** The handle's limits are the configured ones. *)
Definition limited (h : Handle) : Prop :=
  h_capacity h = Z.to_nat (c_command_buffer config) /\
  h_max_batch_quotes h = Z.to_nat (c_max_batch_quotes config) /\
  h_max_outbound_message_size h = Z.to_nat (c_max_outbound_message_size config).

Definition has_room (h : Handle) : Prop := (length (h_queue h) < h_capacity h)%nat.

(** The bytes of a queued command on the wire. *)
Definition wire_bytes (c : ManagedCommand) : Z :=
  match serialize (message_of c) with inr text => Z.of_nat (String.length text) | inl _ => 0 end.
Definition queue_bytes (q : list ManagedCommand) : Z := foldr (fun c sum => wire_bytes c + sum) 0 q.

Definition quotes_of (m : ClientMessage.t) : nat := match m with ClientMessage.BatchQuotes quotes => length quotes | _ => 0 end.

(** A command the limits admit. *)
Definition admitted (c : ManagedCommand) : Prop :=
  wire_bytes c <= Z.of_nat (Z.to_nat (c_max_outbound_message_size config)) /\
  (quotes_of (message_of c) <= Z.to_nat (c_max_batch_quotes config))%nat.

Definition sized (h : Handle) : Prop := limited h /\ (length (h_queue h) <= h_capacity h)%nat /\ Forall admitted (h_queue h).

Definition set_session (h : Handle) (state : ManagedWsState.t) (gone : bool) : Handle :=
  {| h_state := state; h_queue := h_queue h; h_capacity := h_capacity h; h_gone := gone; h_cancels := h_cancels h;
     h_next_await_id := h_next_await_id h; h_next_tx := h_next_tx h; h_max_batch_quotes := h_max_batch_quotes h;
     h_max_outbound_message_size := h_max_outbound_message_size h |}.

(** What can happen to a spawned handle: any caller sends, after a wait for room if it
    waits ([later]: the handle by then; [None]: its deadline passed); a reply arrives, is
    lost or is late; the session takes the oldest command, changes its state, or is gone. *)
Inductive handle_reach : Handle -> Prop :=
| hr_spawn h : spawn_managed_ws serialize config = Ok h -> handle_reach h
| hr_op op h h1 (later : option Handle) m :
    handle_reach h -> handle_reach h1 -> has_room h1 -> (later = Some h1 \/ later = None) ->
    handle_reach (run_op serialize (fun _ => h1) (fun _ => later) op h m).2
| hr_reply h id rx : handle_reach h -> handle_reach (response h id rx).2
| hr_taken h c q : handle_reach h -> h_queue h = c :: q -> handle_reach (set_queue h q)
| hr_session h state gone : handle_reach h -> handle_reach (set_session h state gone).

Lemma prepared_admitted h c : limited h -> prepare_outbound serialize h (message_of c) = Ok tt -> admitted c.
Proof.
  intros (_ & Hb & Hm) H. unfold prepare_outbound in H. unfold admitted, wire_bytes. rewrite <- Hb, <- Hm.
  apply bind_Ok in H as (_ & _ & H). apply bind_Ok in H as (u & Hq & H). destruct (serialize (message_of c)); [done|].
  apply reject_if_Ok, Nat.ltb_ge in H. split; [lia|]. destruct (message_of c); simpl; try lia.
  apply reject_if_Ok, Nat.ltb_ge in Hq. exact Hq.
Qed.

Lemma sized_push h c : sized h -> has_room h -> admitted c -> sized (set_queue h (h_queue h ++ [c])).
Proof.
  intros (Hl & Hn & Hq) Hr Hc. unfold has_room in Hr. split; [exact Hl|]. simpl. rewrite length_app. simpl.
  split; [lia|]. apply Forall_app. auto.
Qed.

Lemma sized_try_send h c : sized h -> admitted c -> sized (cmd_try_send h c).2.
Proof.
  intros Hs Hc. unfold cmd_try_send. destruct (h_gone h); [done|]. destruct (Nat.leb_spec (h_capacity h) (length (h_queue h))); [done|].
  by apply sized_push.
Qed.

Lemma sized_send h c : sized h -> has_room h -> admitted c -> sized (cmd_send h c).2.
Proof. intros Hs Hr Hc. unfold cmd_send. destruct (h_gone h); [done|]. by apply sized_push. Qed.

Lemma sized_await h m e : sized h ->
  sized (await_command serialize h m e).2 /\
  match (await_command serialize h m e).1 with Ok (c, _) => admitted c | _ => True end.
Proof.
  intros Hs. unfold await_command. destruct (prepare_outbound serialize h m) as [[]| |] eqn:Hp; [|done..].
  destruct (Tracker.Tracker.prepare m) as [keys| |]; [|done..]. simpl. split; [exact Hs|].
  apply (prepared_admitted h); [apply Hs|exact Hp].
Qed.

Lemma sized_try_send_with h m e : sized h -> sized (try_send_with_epoch serialize h m e).2.
Proof.
  intros Hs. unfold try_send_with_epoch. destruct (prepare_outbound serialize h m) as [[]| |] eqn:Hp; [|done..]. simpl.
  set (h1 := Build_Handle _ _ _ _ _ _ _ _ _). assert (Hs1 : sized h1) by exact Hs.
  pose proof (sized_try_send h1 (Send m e (h_next_tx h)) Hs1 (prepared_admitted h (Send m e (h_next_tx h)) (proj1 Hs) Hp)) as H.
  destruct (cmd_try_send h1 _) as [[|[]|] h2]; exact H.
Qed.

Lemma sized_send_with h h1 m e : sized h -> sized h1 -> has_room h1 -> sized (send_with_epoch serialize (fun _ => h1) h m e).2.
Proof.
  intros Hs Hs1 Hr. unfold send_with_epoch. destruct (prepare_outbound serialize h m) as [[]| |] eqn:Hp; [|done..]. simpl.
  pose proof (sized_send h1 (Send m e (h_next_tx h)) Hs1 Hr (prepared_admitted h (Send m e (h_next_tx h)) (proj1 Hs) Hp)) as H.
  destruct (cmd_send h1 _) as [[|[]|] h2]; exact H.
Qed.

Lemma sized_send_await_with h h1 later m e :
  sized h -> sized h1 -> has_room h1 -> (later = Some h1 \/ later = None) ->
  sized (send_await_with_epoch serialize (fun _ => later) h m e).2.
Proof.
  intros Hs Hs1 Hr Hl. unfold send_await_with_epoch. pose proof (sized_await h m e Hs) as [Ha Hc].
  destruct (await_command serialize h m e) as [[[c id]|er|] h2]; [|exact Ha..].
  destruct Hl as [->| ->]; [|exact Ha]. pose proof (sized_send h1 c Hs1 Hr Hc) as H.
  destruct (cmd_send h1 c) as [[|[]|] h3]; exact H.
Qed.

Lemma sized_run_op op h h1 later m :
  sized h -> sized h1 -> has_room h1 -> (later = Some h1 \/ later = None) ->
  sized (run_op serialize (fun _ => h1) (fun _ => later) op h m).2.
Proof.
  intros Hs Hs1 Hr Hl. destruct op as [ | | | |e|e|e]; simpl.
  - unfold send. destruct (command_epoch h m); [by apply sized_send_with|done..].
  - unfold try_send. destruct (command_epoch h m); [by apply sized_try_send_with|done..].
  - unfold send_await. destruct (command_epoch h m); [by eapply sized_send_await_with|done..].
  - unfold send_await_ready. destruct (ready_epoch h); [by eapply sized_send_await_with|done..].
  - unfold send_in_epoch. destruct (ready_epoch h); [case_match; [by apply sized_send_with|done]|done..].
  - unfold try_send_in_epoch. destruct (ready_epoch h); [case_match; [by apply sized_try_send_with|done]|done..].
  - unfold try_send_await_in_epoch. case_bool_decide as Hready; [|done]. pose proof (sized_await h m (Some e) Hs) as [Ha Hc].
    destruct (await_command serialize h m (Some e)) as [[[c id]|er|] h2]; [|exact Ha..].
    pose proof (sized_try_send h2 c Ha Hc) as H. destruct (cmd_try_send h2 c) as [[|[]|] h3]; exact H.
Qed.

Lemma reach_sized h : handle_reach h -> sized h.
Proof.
  induction 1 as [h H|op h h1 later m _ IH _ IH1 Hr Hl|h id rx _ IH|h c q _ (Hl & Hn & Hq) E|h state gone _ IH].
  - unfold spawn_managed_ws in H. apply bind_Ok in H as (_ & _ & [= <-]). split; [done|]. simpl. split; [lia|constructor].
  - by apply sized_run_op.
  - by destruct rx.
  - split; [exact Hl|]. rewrite E in Hn, Hq. inversion Hq; subst. simpl in *. split; [lia|done].
  - exact IH.
Qed.

Lemma queue_bytes_bound q k : 0 <= k -> Forall (fun c => wire_bytes c <= k) q -> queue_bytes q <= Z.of_nat (length q) * k.
Proof. intros Hk. induction 1; simpl; [lia|]. nia. Qed.

Lemma reach_spawned h : handle_reach h -> validate serialize config = Ok tt.
Proof.
  induction 1 as [h H| | | |]; [|done..]. unfold spawn_managed_ws in H. by apply bind_Ok in H as ([] & H & _).
Qed.
End memory.

(** What a validated configuration promises of its queue. *)
Lemma validated_envelope serialize config :
  0 <= c_command_buffer config -> 0 <= c_max_outbound_message_size config -> validate serialize config = Ok tt ->
  c_command_buffer config * c_max_outbound_message_size config <= MAX_OUTBOUND_QUEUE_WIRE_BYTES /\
  c_max_outbound_message_size config <= SERVER_MAX_CLIENT_MESSAGE_BYTES /\ c_max_batch_quotes config <= SERVER_MAX_BATCH_QUOTES /\
  0 < c_command_buffer config.
Proof.
  intros H0 H1 H. unfold validate in H.
  apply bind_Ok in H as (? & _ & H). apply bind_Ok in H as (? & Hz & H). do 4 apply bind_Ok in H as (? & _ & H).
  apply bind_Ok in H as (? & Hb & H). apply bind_Ok in H as (? & Hm & H). do 5 apply bind_Ok in H as (? & _ & H).
  unfold validate_server_limit in Hb, Hm. apply reject_if_Ok, Z.ltb_ge in Hb, Hm.
  unfold validate_memory_envelope, saturating_mul in H. apply reject_if_Ok, Z.ltb_ge in H.
  unfold MAX_OUTBOUND_QUEUE_WIRE_BYTES in *. split; [lia|]. split; [lia|]. split; [lia|].
  unfold non_zero in Hz. simpl in Hz. destruct (Z.eqb_spec (c_command_buffer config) 0); [done|lia].
Qed.

(** C19: A session that could be spawned holds at most 256 MiB of outbound commands, whatever
    its callers, its session and the network do: the queue is never longer than its
    capacity, and every queued message is within the server's limits of 32 KiB and of 50
    quotes. *)
Theorem outbound_memory_bounded serialize config h :
  0 <= c_command_buffer config -> 0 <= c_max_outbound_message_size config -> 0 <= c_max_batch_quotes config ->
  handle_reach serialize config h ->
  Z.of_nat (length (h_queue h)) <= c_command_buffer config /\
  queue_bytes serialize (h_queue h) <= 268435456 /\
  forall c, c ∈ h_queue h -> wire_bytes serialize c <= 32768 /\ Z.of_nat (quotes_of (message_of c)) <= 50.
Proof.
  intros H0 H1 H2 H. pose proof (reach_sized _ _ _ H) as ((Hc & _ & _) & Hn & Hq).
  destruct (validated_envelope _ _ H0 H1 (reach_spawned _ _ _ H)) as (He & Hm & Hb & _).
  unfold MAX_OUTBOUND_QUEUE_WIRE_BYTES, SERVER_MAX_CLIENT_MESSAGE_BYTES, SERVER_MAX_BATCH_QUOTES in *.
  assert (Hlen : Z.of_nat (length (h_queue h)) <= c_command_buffer config) by lia. split; [done|]. split.
  - assert (Hbytes : queue_bytes serialize (h_queue h) <= Z.of_nat (length (h_queue h)) * c_max_outbound_message_size config).
    { apply queue_bytes_bound; [done|]. eapply Forall_impl; [exact Hq|]. intros c [Hw _]. lia. }
    nia.
  - intros c Hin. rewrite Forall_forall in Hq. destruct (Hq c Hin) as [Hw Hk]. lia.
Qed.

Module ConfigSample.
(** Four commands of at most 64 bytes. *)
Definition config : ManagedWsConfig :=
  let c := low_latency (new_with_signing (as_bytes "wss://h/maker")) in
  {| c_url := c_url c; c_endpoint := c_endpoint c; c_auth_flow := c_auth_flow c; c_initial_subscribe := None;
     c_reconnect_delay := c_reconnect_delay c; c_max_reconnect_delay := c_max_reconnect_delay c;
     c_reconnect_jitter_ratio := c_reconnect_jitter_ratio c; c_max_reconnect_attempts := 0;
     c_connect_timeout := c_connect_timeout c; c_ping_interval := c_ping_interval c; c_auth_timeout := c_auth_timeout c;
     c_readiness_timeout := c_readiness_timeout c; c_write_timeout := c_write_timeout c; c_command_buffer := 4;
     c_broadcast_buffer := c_broadcast_buffer c; c_max_batch_quotes := 2; c_max_outbound_message_size := 64;
     c_ws_read_timeout := None; c_pong_timeout := c_pong_timeout c; c_transport := c_transport c;
     c_max_pending_awaits := c_max_pending_awaits c; c_gap_policy := c_gap_policy c |}.
Definition serialize (m : ClientMessage.t) : string + string := inr "{}"%string.
Definition spawned : Handle :=
  match spawn_managed_ws serialize config with
  | Ok h => h
  | _ => {| h_state := ManagedWsState.Connecting; h_queue := []; h_capacity := 0; h_gone := true; h_cancels := [];
            h_next_await_id := 0; h_next_tx := 0; h_max_batch_quotes := 0; h_max_outbound_message_size := 0 |}
  end.
Definition ready : Handle := set_session spawned (ManagedWsState.Ready 1) false.
Definition sent : Handle := (run_op serialize (fun _ => ready) (fun _ => None) (OpTrySendInEpoch 1) ready (ClientMessage.CancelQuote {| cn_rfq_id := 5; cn_request_id := 3 |})).2.
End ConfigSample.

Lemma outbound_memory_bounded_witness :
  length (h_queue ConfigSample.sent) = 1%nat /\ queue_bytes ConfigSample.serialize (h_queue ConfigSample.sent) <= 268435456.
Proof.
  split; [vm_compute; reflexivity|].
  assert (H : handle_reach ConfigSample.serialize ConfigSample.config ConfigSample.ready).
  { apply hr_session, hr_spawn. vm_compute. reflexivity. }
  apply (outbound_memory_bounded ConfigSample.serialize ConfigSample.config ConfigSample.sent); [vm_compute; congruence..|].
  apply hr_op; [exact H|exact H| |by right]. unfold has_room. apply Nat.ltb_lt. vm_compute. reflexivity.
Defined.
