(* ===== verification/Transport.v ===== *)
(** * The socket client ([ws/client.rs], [ws/error.rs], [CloseCode] of [ws/types/common.rs])

    The two readers of a socket, the raw client's and the one the managed session splits off
    it, the server's close frame they record, the frames they cannot read, and the typed
    sends.  A socket is the list of what its stream yields, and the results of the writes to
    come; the JSON text is serde's, a class. *)

From Stdlib Require Import ZArith Lia String.
From stdpp Require Import base list strings.
From S2P Require Import Prelude Terms Quote Paging Rows Messages Tracker Writer Challenge Control Session Running Config.

Open Scope Z_scope.

Module CloseCode.
(* ws/types/common.rs:17-25 CloseCode *)
Inductive t :=
| IdleTimeout | AuthTimeout | SlowConsumer | RateLimited | SessionReplaced | HelloTimeout
| UnsupportedProtocolVersion.
#[global] Instance t_eq_dec : EqDecision t.
Proof. solve_decision. Defined.

(* ws/types/common.rs:29-39 CloseCode::code *)
Definition code (self : t) : Z :=
  match self with
  | IdleTimeout => 4000
  | AuthTimeout => 4001
  | SlowConsumer => 4002
  | RateLimited => 4003
  | SessionReplaced => 4004
  | HelloTimeout => 4005
  | UnsupportedProtocolVersion => 4006
  end.

(** The name in snake case, which strum derives. *)
(* ws/types/common.rs:42-44 CloseCode::reason *)
Definition reason (self : t) : string :=
  match self with
  | IdleTimeout => "idle_timeout"
  | AuthTimeout => "auth_timeout"
  | SlowConsumer => "slow_consumer"
  | RateLimited => "rate_limited"
  | SessionReplaced => "session_replaced"
  | HelloTimeout => "hello_timeout"
  | UnsupportedProtocolVersion => "unsupported_protocol_version"
  end.

(* ws/types/common.rs:47-58 CloseCode::from_code *)
Definition from_code (code : Z) : option t :=
  match code with
  | 4000 => Some IdleTimeout
  | 4001 => Some AuthTimeout
  | 4002 => Some SlowConsumer
  | 4003 => Some RateLimited
  | 4004 => Some SessionReplaced
  | 4005 => Some HelloTimeout
  | 4006 => Some UnsupportedProtocolVersion
  | _ => None
  end.
End CloseCode.

(** ** What the socket carries *)

(* ws/client.rs:73-78 ServerClose *)
Record ServerClose := { sc_code : Z; sc_reason : string }.

(* ws/client.rs:81-85 ServerClose::close_code *)
Definition close_code (self : ServerClose) : option CloseCode.t := CloseCode.from_code (sc_code self).

(** tungstenite's [Message]. *)
Inductive Message :=
| Text (text : bytes)
| Binary (bin : bytes)
| Ping (payload : bytes)
| Pong (payload : bytes)
| Close (frame : option (Z * string))
| Frame.

(** A stream: what it yields, [inr] for an error, before it ends; whether each of the next
    writes succeeds (a write past the list fails); what was written. *)
Record Socket := { so_incoming : list (Message + unit); so_accepts : list bool; so_sent : list Message }.

(* ws/client.rs:54-64 WsClient *)
Record WsClient := { wc_stream : Socket; wc_server_close : option ServerClose }.

(** [WsReader] holds the same two fields; its stream is only read. *)
(* ws/client.rs:68-71 WsReader *)
Abbreviation WsReader := WsClient.

Definition yielded (c : WsClient) (rest : list (Message + unit)) : WsClient :=
  {| wc_stream := {| so_incoming := rest; so_accepts := so_accepts (wc_stream c); so_sent := so_sent (wc_stream c) |};
     wc_server_close := wc_server_close c |}.

(** [self.stream.send(m).await]. *)
Definition write (c : WsClient) (m : Message) : res WsClientError.t unit * WsClient :=
  let s := wc_stream c in
  let after sent := {| wc_stream := {| so_incoming := so_incoming s; so_accepts := tl (so_accepts s); so_sent := sent |};
                       wc_server_close := wc_server_close c |} in
  match so_accepts s with
  | true :: _ => (Ok tt, after (so_sent s ++ [m])%list)
  | _ => (Err WsClientError.WebSocket, after (so_sent s))
  end.

(** [OnceLock::set]: a set slot keeps its value. *)
(* ws/client.rs:88-95 record_close *)
Definition record_close (slot : option ServerClose) (frame : option (Z * string)) : option ServerClose :=
  match frame with
  | Some (code, reason) =>
      match slot with Some kept => Some kept | None => Some {| sc_code := code; sc_reason := reason |} end
  | None => slot
  end.

Definition recorded (c : WsClient) (frame : option (Z * string)) : WsClient :=
  {| wc_stream := wc_stream c; wc_server_close := record_close (wc_server_close c) frame |}.

(** *** [std::str::from_utf8] *)

Definition within (lo hi b : Z) : bool := (lo <=? b) && (b <=? hi).

(** The well-formed byte sequences of the Unicode standard. *)
Fixpoint from_utf8 (bs : bytes) : bool :=
  match bs with
  | [] => true
  | b0 :: bs =>
      if within 0 127 b0 then from_utf8 bs
      else
        match bs with
        | [] => false
        | b1 :: bs =>
            if within 194 223 b0 then within 128 191 b1 && from_utf8 bs
            else
              match bs with
              | [] => false
              | b2 :: bs =>
                  let three lo hi := within lo hi b1 && within 128 191 b2 && from_utf8 bs in
                  if b0 =? 224 then three 160 191
                  else if within 225 236 b0 || within 238 239 b0 then three 128 191
                  else if b0 =? 237 then three 128 159
                  else
                    match bs with
                    | [] => false
                    | b3 :: bs =>
                        let four lo hi := within lo hi b1 && within 128 191 b2 && within 128 191 b3 && from_utf8 bs in
                        if b0 =? 240 then four 144 191
                        else if within 241 243 b0 then four 128 191
                        else if b0 =? 244 then four 128 143
                        else false
                    end
              end
        end
  end.

(** ** Reading *)

(** [serde_json] and [uuid], as the client uses them; [inr] is an error's text. *)
Class WsJson := {
  from_str : bytes -> ServerMessage.t + string;
  from_slice : bytes -> ServerMessage.t + string;
  JsonValue : Set;
  value_from_slice : bytes -> option JsonValue;
  json_get : JsonValue -> string -> option JsonValue;
  json_as_str : JsonValue -> option string;
  uuid_parse_str : string -> option Uuid;
}.

Section transport.
Context `{WJ : WsJson}.

(* ws/error.rs:48-63 UnreadableFrame::from_raw *)
Definition from_raw (raw : bytes) (error : string) : UnreadableFrame :=
  let value := value_from_slice raw in
  {| uf_frame_type := value ≫= fun value => json_get value "type" ≫= json_as_str;
     uf_request_id :=
       (value ≫= fun value => json_get value "data" ≫= fun data => json_get data "request_id" ≫= json_as_str)
         ≫= uuid_parse_str;
     uf_error := error |}.

(* ws/types/server/mod.rs:429-431 parse_server_message *)
Definition parse_server_message (text : bytes) : ServerMessage.t + string := from_str text.

(* ws/client.rs:488-496 parse_frame *)
Definition parse_frame (raw : bytes) : res WsClientError.t ServerMessage.t :=
  match (if from_utf8 raw then parse_server_message raw else from_slice raw) with
  | inl message => Ok message
  | inr error => Err (WsClientError.UnreadableFrame (from_raw raw error))
  end.

(** What the loop of [next] does with what its stream yields. *)
(* ws/client.rs:406-437 WsClient::next *)
Fixpoint client_next (incoming : list (Message + unit)) (c : WsClient)
  : option (res WsClientError.t ServerMessage.t) * WsClient :=
  match incoming with
  | [] => (None, yielded c [])
  | inr _ :: rest => (Some (Err WsClientError.WebSocket), yielded c rest)
  | inl msg :: rest =>
      match msg with
      | Text text => (Some (parse_frame text), yielded c rest)
      | Binary bin => (Some (parse_frame bin), yielded c rest)
      | Ping payload =>
          match write (yielded c rest) (Pong payload) with
          | (Ok _, c) => client_next rest c
          | (Err e, c) => (Some (Err e), c)
          | (Panic, c) => (Some Panic, c)
          end
      | Pong _ => client_next rest c
      | Close frame => (None, recorded (yielded c rest) frame)
      | Frame => client_next rest c
      end
  end.

Definition next (c : WsClient) : option (res WsClientError.t ServerMessage.t) * WsClient :=
  client_next (so_incoming (wc_stream c)) c.

(* ws/client.rs:464-485 WsReader::next *)
Fixpoint reader_next (incoming : list (Message + unit)) (c : WsReader) : option (res WsClientError.t WsFrame) * WsReader :=
  match incoming with
  | [] => (None, yielded c [])
  | inr _ :: rest => (Some (Err WsClientError.WebSocket), yielded c rest)
  | inl msg :: rest =>
      match msg with
      | Text text => (Some (FrameMessage <$> parse_frame text), yielded c rest)
      | Binary bin => (Some (FrameMessage <$> parse_frame bin), yielded c rest)
      | Ping payload => (Some (Ok (FramePing payload)), yielded c rest)
      | Pong _ => (Some (Ok FramePong), yielded c rest)
      | Close frame => (None, recorded (yielded c rest) frame)
      | Frame => reader_next rest c
      end
  end.

Definition next_frame (c : WsReader) : option (res WsClientError.t WsFrame) * WsReader :=
  reader_next (so_incoming (wc_stream c)) c.

(** [reads] calls of [next] return within the grace. *)
(* ws/client.rs:401-407 WsClient::await_server_close *)
Fixpoint await_server_close (reads : nat) (c : WsClient) : WsClient :=
  match reads with
  | O => c
  | S reads => match next c with (Some (Ok _), c) => await_server_close reads c | (_, c) => c end
  end.

(* ws/client.rs:457-463 WsReader::await_server_close *)
Fixpoint reader_await_server_close (reads : nat) (c : WsReader) : WsReader :=
  match reads with
  | O => c
  | S reads => match next_frame c with (Some (Ok _), c) => reader_await_server_close reads c | (_, c) => c end
  end.

(* ws/client.rs:444-453 WsClient::split *)
Definition split (c : WsClient) : Socket * WsReader := (wc_stream c, c).
End transport.

(** ** Sending *)

Module WsSends.
(** [serde_json::to_string]. *)
Class ToJson := serialize : ClientMessage.t -> string + string.

Abbreviation sending := (res WsClientError.t unit * WsClient)%type.

(* ws/client.rs:104-109 PreparedClientMessage *)
Record PreparedClientMessage := {
  pm_text : string; pm_lane : Lane.t; pm_subscription : option SubscriptionChange.t;
}.

(* ws/client.rs:120-124 PreparedClientMessage::take_subscription *)
Definition take_subscription (self : PreparedClientMessage) : option SubscriptionChange.t * PreparedClientMessage :=
  (pm_subscription self, {| pm_text := pm_text self; pm_lane := pm_lane self; pm_subscription := None |}).

(* ws/client.rs:138-141 PreparedClientMessage::len *)
Definition len (self : PreparedClientMessage) : nat := String.length (pm_text self).

(* ws/client.rs:143-146 PreparedClientMessage::is_empty *)
Definition is_empty (self : PreparedClientMessage) : bool := String.eqb (pm_text self) "".

(** tungstenite's limits, from the configuration. *)
Record WebSocketConfig := {
  ws_read_buffer_size : Z; ws_write_buffer_size : Z; ws_max_write_buffer_size : Z;
  ws_max_message_size : option Z; ws_max_frame_size : option Z;
}.

(** How [connect_async_with_config] came out within the timeout: a socket, an error, or not
    at all. *)
(* ws/client.rs:198-214 WsClient::connect_with_config *)
Definition connect_with_config (connect_async : string -> WebSocketConfig -> bool -> Z -> option (Socket + unit))
  (url : string) (config : WsTransportConfig) : res WsClientError.t WsClient :=
  match validate_transport config with
  | Err _ => Err WsClientError.InvalidTransportConfig
  | Panic => Panic
  | Ok _ =>
      let websocket_config :=
        {| ws_read_buffer_size := tc_read_buffer_size config; ws_write_buffer_size := tc_write_buffer_size config;
           ws_max_write_buffer_size := tc_max_write_buffer_size config;
           ws_max_message_size := Some (tc_max_message_size config);
           ws_max_frame_size := Some (tc_max_frame_size config) |} in
      match connect_async url websocket_config (tc_tcp_nodelay config) (tc_connect_timeout config) with
      | None => Err WsClientError.ConnectTimeout
      | Some (inr _) => Err WsClientError.WebSocket
      | Some (inl stream) => Ok {| wc_stream := stream; wc_server_close := None |}
      end
  end.

(* ws/client.rs:194-196 WsClient::connect *)
Definition connect connect_async (url : string) : res WsClientError.t WsClient :=
  connect_with_config connect_async url default_transport.

Section sends.
Context `{TJ : ToJson}.

(* ws/client.rs:112-118 PreparedClientMessage::new *)
Definition prepared (message : ClientMessage.t) : res string PreparedClientMessage :=
  match serialize message with
  | inl text =>
      Ok {| pm_text := text; pm_lane := Lane.of_message message;
            pm_subscription := SubscriptionChange.from_message message |}
  | inr error => Err error
  end.

(* ws/client.rs:222-227 WsClient::send_prepared *)
Definition send_prepared (message : PreparedClientMessage) (c : WsClient) : sending :=
  write c (Text (as_bytes (pm_text message))).

(* ws/client.rs:230-233 WsClient::send_prepared_owned *)
Definition send_prepared_owned (message : PreparedClientMessage) (c : WsClient) : sending :=
  write c (Text (as_bytes (pm_text message))).

(* ws/client.rs:216-220 WsClient::send *)
Definition send (msg : ClientMessage.t) (c : WsClient) : sending :=
  match prepared msg with
  | Ok message => send_prepared message c
  | Err _ => (Err WsClientError.Json, c)
  | Panic => (Panic, c)
  end.

(** The first page, asked under a new id. *)
(* ws/client.rs:41-52 ws_method_request_id *)
Definition ws_method_request_id (variant : PageRequest -> ClientMessage.t) (new_v4 : Uuid) (c : WsClient) : sending :=
  send (variant {| pq_request_id := new_v4; pq_limit := 200; pq_cursor := Cursor.Start |}) c.

(* ws/client.rs:235-235 WsClient::send_hello *)
Definition send_hello (data : HelloData) (c : WsClient) : sending := send (ClientMessage.Hello data) c.

(* ws/client.rs:236-236 WsClient::resume_auth *)
Definition resume_auth (data : ResumeAuthData) (c : WsClient) : sending := send (ClientMessage.ResumeAuth data) c.

(* ws/client.rs:237-237 WsClient::auth_challenge *)
Definition auth_challenge (data : AuthChallengeData) (c : WsClient) : sending := send (ClientMessage.AuthChallenge data) c.

(* ws/client.rs:238-238 WsClient::quote *)
Definition quote (data : QuoteMessage) (c : WsClient) : sending := send (ClientMessage.Quote data) c.

(* ws/client.rs:239-239 WsClient::replace_quote *)
Definition replace_quote (data : ReplaceQuoteMessage) (c : WsClient) : sending := send (ClientMessage.ReplaceQuote data) c.

(* ws/client.rs:240-240 WsClient::batch_quotes *)
Definition batch_quotes (data : list QuoteMessage) (c : WsClient) : sending := send (ClientMessage.BatchQuotes data) c.

(* ws/client.rs:241-241 WsClient::subscribe *)
Definition subscribe (data : SubscribeData) (c : WsClient) : sending := send (ClientMessage.Subscribe data) c.

(* ws/client.rs:242-242 WsClient::unsubscribe *)
Definition unsubscribe (data : UnsubscribeData) (c : WsClient) : sending := send (ClientMessage.Unsubscribe data) c.

(* ws/client.rs:243-243 WsClient::get_my_quotes *)
Definition get_my_quotes (data : GetMyQuotesMessage) (c : WsClient) : sending := send (ClientMessage.GetMyQuotes data) c.

(* ws/client.rs:244-248 WsClient::get_maker_positions *)
Definition get_maker_positions (data : GetPositionsMessage) (c : WsClient) : sending := send (ClientMessage.GetMakerPositions data) c.

(* ws/client.rs:249-253 WsClient::get_markets_for_maker *)
Definition get_markets_for_maker (data : GetMarketsForMakerMessage) (c : WsClient) : sending := send (ClientMessage.GetMarketsForMaker data) c.

(* ws/client.rs:254-254 WsClient::rfq_request *)
Definition rfq_request (data : RfqRequestMessage) (c : WsClient) : sending := send (ClientMessage.RfqRequest data) c.

(* ws/client.rs:255-255 WsClient::accept_quote *)
Definition accept_quote (data : AcceptQuoteMessage) (c : WsClient) : sending := send (ClientMessage.AcceptQuote data) c.

(* ws/client.rs:256-260 WsClient::submit_signed_sponsored_tx *)
Definition submit_signed_sponsored_tx (data : SubmitSignedSponsoredTxData) (c : WsClient) : sending := send (ClientMessage.SubmitSignedSponsoredTx data) c.

(* ws/client.rs:261-265 WsClient::indicative_prices_response *)
Definition indicative_prices_response (data : IndicativePricesResponseMessage) (c : WsClient) : sending := send (ClientMessage.IndicativePricesResponse data) c.

(* ws/client.rs:266-270 WsClient::get_indicative_prices *)
Definition get_indicative_prices (data : GetIndicativePricesMessage) (c : WsClient) : sending := send (ClientMessage.GetIndicativePrices data) c.

(* ws/client.rs:271-275 WsClient::get_market_descriptors *)
Definition get_market_descriptors (data : PageRequest) (c : WsClient) : sending := send (ClientMessage.GetMarketDescriptors data) c.

(* ws/client.rs:276-276 WsClient::get_tokens *)
Definition get_tokens (data : PageRequest) (c : WsClient) : sending := send (ClientMessage.GetTokens data) c.

(* ws/client.rs:277-277 WsClient::get_expiries *)
Definition get_expiries (data : GetExpiriesMessage) (c : WsClient) : sending := send (ClientMessage.GetExpiries data) c.

(* ws/client.rs:278-278 WsClient::get_order_status *)
Definition get_order_status (data : GetOrderStatusMessage) (c : WsClient) : sending := send (ClientMessage.GetOrderStatus data) c.

(* ws/client.rs:279-279 WsClient::redeem_invite *)
Definition redeem_invite (data : RedeemInviteData) (c : WsClient) : sending := send (ClientMessage.RedeemInvite data) c.

(* ws/client.rs:280-284 WsClient::claim_referral_code *)
Definition claim_referral_code (data : ClaimReferralCodeData) (c : WsClient) : sending := send (ClientMessage.ClaimReferralCode data) c.

(* ws/client.rs:285-289 WsClient::get_my_referral_info *)
Definition get_my_referral_info (data : GetMyReferralInfoData) (c : WsClient) : sending := send (ClientMessage.GetMyReferralInfo data) c.

(* ws/client.rs:291-291 WsClient::get_mm_summary *)
Definition get_mm_summary (data : PageRequest) (c : WsClient) : sending := send (ClientMessage.GetMmSummary data) c.

(* ws/client.rs:292-296 WsClient::get_position_summary *)
Definition get_position_summary (data : PageRequest) (c : WsClient) : sending := send (ClientMessage.GetPositionSummary data) c.

(* ws/client.rs:297-297 WsClient::get_subscriptions *)
Definition get_subscriptions (new_v4 : Uuid) (c : WsClient) : sending := ws_method_request_id ClientMessage.GetSubscriptions new_v4 c.

(* ws/client.rs:298-298 WsClient::get_markets *)
Definition get_markets (new_v4 : Uuid) (c : WsClient) : sending := ws_method_request_id ClientMessage.GetMarkets new_v4 c.

(* ws/client.rs:300-300 WsClient::get_positions *)
Definition get_positions (data : GetPositionsMessage) (c : WsClient) : sending := send (ClientMessage.GetPositions data) c.

(* ws/client.rs:301-301 WsClient::get_my_active_rfqs *)
Definition get_my_active_rfqs (data : PageRequest) (c : WsClient) : sending := send (ClientMessage.GetMyActiveRfqs data) c.

(* ws/client.rs:302-302 WsClient::get_active_rfqs *)
Definition get_active_rfqs (data : PageRequest) (c : WsClient) : sending := send (ClientMessage.GetActiveRfqs data) c.

(* ws/client.rs:304-306 WsClient::ping *)
Definition ping (c : WsClient) : sending :=
  send ClientMessage.Ping c.

(* ws/client.rs:308-310 WsClient::logout *)
Definition logout (c : WsClient) : sending :=
  send ClientMessage.Logout c.

(* ws/client.rs:312-315 WsClient::start_auth *)
Definition start_auth (pubkey : key) (c : WsClient) : sending :=
  send (ClientMessage.StartAuth {| sa_pubkey := pubkey |}) c.

(* ws/client.rs:317-323 WsClient::cancel_quote *)
Definition cancel_quote (new_v4 rfq_id : Uuid) (c : WsClient) : sending :=
  send (ClientMessage.CancelQuote {| cn_rfq_id := rfq_id; cn_request_id := new_v4 |}) c.

(* ws/client.rs:325-334 WsClient::cancel_all_quotes *)
Definition cancel_all_quotes (new_v4 : Uuid) (market : QueryFilter.t key) (c : WsClient) : sending :=
  send (ClientMessage.CancelAllQuotes {| ca_request_id := new_v4; ca_market := market |}) c.

(* ws/client.rs:336-342 WsClient::cancel_rfq *)
Definition cancel_rfq (new_v4 rfq_id : Uuid) (c : WsClient) : sending :=
  send (ClientMessage.CancelRfq {| cx_rfq_id := rfq_id; cx_request_id := new_v4 |}) c.

(* ws/client.rs:344-355 WsClient::add_mints *)
Definition add_mints (new_v4 : Uuid) (underlying_mints quote_mints : list key) (c : WsClient) : sending :=
  send (ClientMessage.AddMints {| mints_request_id := new_v4; mints_underlying := underlying_mints; mints_quote := quote_mints |}) c.

(* ws/client.rs:357-368 WsClient::remove_mints *)
Definition remove_mints (new_v4 : Uuid) (underlying_mints quote_mints : list key) (c : WsClient) : sending :=
  send (ClientMessage.RemoveMints {| mints_request_id := new_v4; mints_underlying := underlying_mints; mints_quote := quote_mints |}) c.

(* ws/client.rs:370-376 WsClient::add_channels *)
Definition add_channels (new_v4 : Uuid) (channels : list WsChannel.t) (c : WsClient) : sending :=
  send (ClientMessage.AddChannels {| ch_request_id := new_v4; ch_channels := channels |}) c.

(* ws/client.rs:378-384 WsClient::remove_channels *)
Definition remove_channels (new_v4 : Uuid) (channels : list WsChannel.t) (c : WsClient) : sending :=
  send (ClientMessage.RemoveChannels {| ch_request_id := new_v4; ch_channels := channels |}) c.

(* ws/client.rs:386-389 WsClient::send_text *)
Definition send_text (text : string) (c : WsClient) : sending := write c (Text (as_bytes text)).

(* ws/client.rs:439-442 WsClient::close *)
Definition close (c : WsClient) : sending := write c (Close None).

(** A call and the message it sends. *)
Inductive op :=
| Op_send_hello (data : HelloData)
| Op_resume_auth (data : ResumeAuthData)
| Op_auth_challenge (data : AuthChallengeData)
| Op_quote (data : QuoteMessage)
| Op_replace_quote (data : ReplaceQuoteMessage)
| Op_batch_quotes (data : list QuoteMessage)
| Op_subscribe (data : SubscribeData)
| Op_unsubscribe (data : UnsubscribeData)
| Op_get_my_quotes (data : GetMyQuotesMessage)
| Op_get_maker_positions (data : GetPositionsMessage)
| Op_get_markets_for_maker (data : GetMarketsForMakerMessage)
| Op_rfq_request (data : RfqRequestMessage)
| Op_accept_quote (data : AcceptQuoteMessage)
| Op_submit_signed_sponsored_tx (data : SubmitSignedSponsoredTxData)
| Op_indicative_prices_response (data : IndicativePricesResponseMessage)
| Op_get_indicative_prices (data : GetIndicativePricesMessage)
| Op_get_market_descriptors (data : PageRequest)
| Op_get_tokens (data : PageRequest)
| Op_get_expiries (data : GetExpiriesMessage)
| Op_get_order_status (data : GetOrderStatusMessage)
| Op_redeem_invite (data : RedeemInviteData)
| Op_claim_referral_code (data : ClaimReferralCodeData)
| Op_get_my_referral_info (data : GetMyReferralInfoData)
| Op_get_mm_summary (data : PageRequest)
| Op_get_position_summary (data : PageRequest)
| Op_get_subscriptions (new_v4 : Uuid)
| Op_get_markets (new_v4 : Uuid)
| Op_get_positions (data : GetPositionsMessage)
| Op_get_my_active_rfqs (data : PageRequest)
| Op_get_active_rfqs (data : PageRequest)
| Op_ping 
| Op_logout 
| Op_start_auth (pubkey : key)
| Op_cancel_quote (new_v4 rfq_id : Uuid)
| Op_cancel_all_quotes (new_v4 : Uuid) (market : QueryFilter.t key)
| Op_cancel_rfq (new_v4 rfq_id : Uuid)
| Op_add_mints (new_v4 : Uuid) (underlying_mints quote_mints : list key)
| Op_remove_mints (new_v4 : Uuid) (underlying_mints quote_mints : list key)
| Op_add_channels (new_v4 : Uuid) (channels : list WsChannel.t)
| Op_remove_channels (new_v4 : Uuid) (channels : list WsChannel.t).

Definition run (o : op) : WsClient -> sending :=
  match o with
  | Op_send_hello data => send_hello data
  | Op_resume_auth data => resume_auth data
  | Op_auth_challenge data => auth_challenge data
  | Op_quote data => quote data
  | Op_replace_quote data => replace_quote data
  | Op_batch_quotes data => batch_quotes data
  | Op_subscribe data => subscribe data
  | Op_unsubscribe data => unsubscribe data
  | Op_get_my_quotes data => get_my_quotes data
  | Op_get_maker_positions data => get_maker_positions data
  | Op_get_markets_for_maker data => get_markets_for_maker data
  | Op_rfq_request data => rfq_request data
  | Op_accept_quote data => accept_quote data
  | Op_submit_signed_sponsored_tx data => submit_signed_sponsored_tx data
  | Op_indicative_prices_response data => indicative_prices_response data
  | Op_get_indicative_prices data => get_indicative_prices data
  | Op_get_market_descriptors data => get_market_descriptors data
  | Op_get_tokens data => get_tokens data
  | Op_get_expiries data => get_expiries data
  | Op_get_order_status data => get_order_status data
  | Op_redeem_invite data => redeem_invite data
  | Op_claim_referral_code data => claim_referral_code data
  | Op_get_my_referral_info data => get_my_referral_info data
  | Op_get_mm_summary data => get_mm_summary data
  | Op_get_position_summary data => get_position_summary data
  | Op_get_subscriptions new_v4 => get_subscriptions new_v4
  | Op_get_markets new_v4 => get_markets new_v4
  | Op_get_positions data => get_positions data
  | Op_get_my_active_rfqs data => get_my_active_rfqs data
  | Op_get_active_rfqs data => get_active_rfqs data
  | Op_ping => ping 
  | Op_logout  => logout 
  | Op_start_auth pubkey => start_auth pubkey
  | Op_cancel_quote new_v4 rfq_id => cancel_quote new_v4 rfq_id
  | Op_cancel_all_quotes new_v4 market => cancel_all_quotes new_v4 market
  | Op_cancel_rfq new_v4 rfq_id => cancel_rfq new_v4 rfq_id
  | Op_add_mints new_v4 underlying_mints quote_mints => add_mints new_v4 underlying_mints quote_mints
  | Op_remove_mints new_v4 underlying_mints quote_mints => remove_mints new_v4 underlying_mints quote_mints
  | Op_add_channels new_v4 channels => add_channels new_v4 channels
  | Op_remove_channels new_v4 channels => remove_channels new_v4 channels
  end.

Definition sends (o : op) : ClientMessage.t :=
  match o with
  | Op_send_hello data => ClientMessage.Hello data
  | Op_resume_auth data => ClientMessage.ResumeAuth data
  | Op_auth_challenge data => ClientMessage.AuthChallenge data
  | Op_quote data => ClientMessage.Quote data
  | Op_replace_quote data => ClientMessage.ReplaceQuote data
  | Op_batch_quotes data => ClientMessage.BatchQuotes data
  | Op_subscribe data => ClientMessage.Subscribe data
  | Op_unsubscribe data => ClientMessage.Unsubscribe data
  | Op_get_my_quotes data => ClientMessage.GetMyQuotes data
  | Op_get_maker_positions data => ClientMessage.GetMakerPositions data
  | Op_get_markets_for_maker data => ClientMessage.GetMarketsForMaker data
  | Op_rfq_request data => ClientMessage.RfqRequest data
  | Op_accept_quote data => ClientMessage.AcceptQuote data
  | Op_submit_signed_sponsored_tx data => ClientMessage.SubmitSignedSponsoredTx data
  | Op_indicative_prices_response data => ClientMessage.IndicativePricesResponse data
  | Op_get_indicative_prices data => ClientMessage.GetIndicativePrices data
  | Op_get_market_descriptors data => ClientMessage.GetMarketDescriptors data
  | Op_get_tokens data => ClientMessage.GetTokens data
  | Op_get_expiries data => ClientMessage.GetExpiries data
  | Op_get_order_status data => ClientMessage.GetOrderStatus data
  | Op_redeem_invite data => ClientMessage.RedeemInvite data
  | Op_claim_referral_code data => ClientMessage.ClaimReferralCode data
  | Op_get_my_referral_info data => ClientMessage.GetMyReferralInfo data
  | Op_get_mm_summary data => ClientMessage.GetMmSummary data
  | Op_get_position_summary data => ClientMessage.GetPositionSummary data
  | Op_get_subscriptions new_v4 => ClientMessage.GetSubscriptions (default_request new_v4)
  | Op_get_markets new_v4 => ClientMessage.GetMarkets (default_request new_v4)
  | Op_get_positions data => ClientMessage.GetPositions data
  | Op_get_my_active_rfqs data => ClientMessage.GetMyActiveRfqs data
  | Op_get_active_rfqs data => ClientMessage.GetActiveRfqs data
  | Op_ping => ClientMessage.Ping
  | Op_logout  => ClientMessage.Logout
  | Op_start_auth pubkey => (ClientMessage.StartAuth {| sa_pubkey := pubkey |})
  | Op_cancel_quote new_v4 rfq_id => (ClientMessage.CancelQuote {| cn_rfq_id := rfq_id; cn_request_id := new_v4 |})
  | Op_cancel_all_quotes new_v4 market => (ClientMessage.CancelAllQuotes {| ca_request_id := new_v4; ca_market := market |})
  | Op_cancel_rfq new_v4 rfq_id => (ClientMessage.CancelRfq {| cx_rfq_id := rfq_id; cx_request_id := new_v4 |})
  | Op_add_mints new_v4 underlying_mints quote_mints => (ClientMessage.AddMints {| mints_request_id := new_v4; mints_underlying := underlying_mints; mints_quote := quote_mints |})
  | Op_remove_mints new_v4 underlying_mints quote_mints => (ClientMessage.RemoveMints {| mints_request_id := new_v4; mints_underlying := underlying_mints; mints_quote := quote_mints |})
  | Op_add_channels new_v4 channels => (ClientMessage.AddChannels {| ch_request_id := new_v4; ch_channels := channels |})
  | Op_remove_channels new_v4 channels => (ClientMessage.RemoveChannels {| ch_request_id := new_v4; ch_channels := channels |})
  end.
End sends.
End WsSends.

(** ** What the readers deliver *)

Section delivery.
Context `{WJ : WsJson}.

(** Calling [next] until it says that the stream ended. *)
Fixpoint drain {A} (read : WsClient -> option A * WsClient) (calls : nat) (c : WsClient) : list A * WsClient :=
  match calls with
  | O => ([], c)
  | S calls =>
      match read c with
      | (Some a, c) => let '(l, c) := drain read calls c in (a :: l, c)
      | (None, c) => ([], c)
      end
  end.

(** The stream up to the server's close frame, that frame, and what follows it. *)
Fixpoint before_close (l : list (Message + unit)) : list (Message + unit) :=
  match l with [] | inl (Close _) :: _ => [] | x :: l => x :: before_close l end.

Fixpoint closing (l : list (Message + unit)) : option (Z * string) :=
  match l with [] => None | inl (Close frame) :: _ => frame | _ :: l => closing l end.

Fixpoint after_close (l : list (Message + unit)) : list (Message + unit) :=
  match l with [] => [] | inl (Close _) :: l => l | _ :: l => after_close l end.

(** Messages and failures, in the order of the stream. *)
Definition delivered (x : Message + unit) : option (res WsClientError.t ServerMessage.t) :=
  match x with
  | inl (Text raw) | inl (Binary raw) => Some (parse_frame raw)
  | inr _ => Some (Err WsClientError.WebSocket)
  | _ => None
  end.

Definition pinged (x : Message + unit) : option bytes := match x with inl (Ping payload) => Some payload | _ => None end.

(** What a frame of the split reader is to a reader of messages. *)
Definition message_of_frame (f : res WsClientError.t WsFrame) : option (res WsClientError.t ServerMessage.t) :=
  match f with
  | Ok (FrameMessage m) => Some (Ok m)
  | Ok _ => None
  | Err e => Some (Err e)
  | Panic => Some Panic
  end.

Definition ping_of_frame (f : res WsClientError.t WsFrame) : option bytes :=
  match f with Ok (FramePing payload) => Some payload | _ => None end.

Definition client_at (incoming : list (Message + unit)) (accepts : list bool) (sent : list Message)
  (close : option ServerClose) : WsClient :=
  {| wc_stream := {| so_incoming := incoming; so_accepts := accepts; so_sent := sent |}; wc_server_close := close |}.

Lemma client_next_incoming l m m' a s k : client_next l (client_at m a s k) = client_next l (client_at m' a s k).
Proof.
  revert a s. induction l as [|[[t|b|p|p|f|]|[]] l IH]; intros a s; try done; cbn [client_next]; try apply IH.
Qed.

Lemma reader_next_incoming l m m' a s k : reader_next l (client_at m a s k) = reader_next l (client_at m' a s k).
Proof. induction l as [|[[t|b|p|p|f|]|[]] l IH]; try done; cbn [reader_next]; apply IH. Qed.

(** A frame that [next] passes over is read for nothing. *)
Lemma next_skips x l a s k :
  x = inl Frame \/ (exists p, x = inl (Pong p)) ->
  next (client_at (x :: l) a s k) = next (client_at l a s k).
Proof. unfold next. intros [->|[p ->]]; simpl; apply client_next_incoming. Qed.

Lemma next_pings p l a s k :
  next (client_at (inl (Ping p) :: l) (true :: a) s k) = next (client_at l a (s ++ [Pong p]) k).
Proof. unfold next. simpl. apply client_next_incoming. Qed.

Lemma next_delivers x l r a s k :
  delivered x = Some r -> next (client_at (x :: l) a s k) = (Some r, client_at l a s k).
Proof. by destruct x as [[t|b|p|p|f|]|[]]; intros [= <-]. Qed.

Lemma drain_same {A} (read : WsClient -> option A * WsClient) n c c' :
  (0 < n)%nat -> read c = read c' -> drain read n c = drain read n c'.
Proof. intros Hn H. destruct n; [lia|]. simpl. by rewrite H. Qed.

Lemma drain_client l n a s k :
  (length l < n)%nat -> (length (omap pinged (before_close l)) <= length a)%nat -> Forall (eq true) a ->
  drain next n (client_at l a s k) =
    (omap delivered (before_close l),
     client_at (after_close l) (drop (length (omap pinged (before_close l))) a)
       (s ++ (Pong <$> omap pinged (before_close l))) (record_close k (closing l))).
Proof.
  revert n a s. induction l as [|x l IH]; intros n a s Hn Ha Ht; (destruct n as [|n]; [simpl in Hn; lia|]); simpl in Hn.
  { simpl. unfold client_at, yielded. simpl. by rewrite drop_0, app_nil_r. }
  assert (Hs : forall c, next (client_at (x :: l) a s k) = next c -> drain next (S n) (client_at (x :: l) a s k) = drain next (S n) c)
    by (intros; apply drain_same; [lia|done]).
  destruct x as [[t|b|p|p|f|]|[]]; simpl in Ha.
  - cbn [drain]. erewrite next_delivers by done. rewrite (IH n a s) by (done || lia). done.
  - cbn [drain]. erewrite next_delivers by done. rewrite (IH n a s) by (done || lia). done.
  - destruct a as [|b a]; simpl in Ha; [lia|]. inversion Ht; subst.
    rewrite (Hs _ (next_pings _ _ _ _ _)), (IH (S n) a (s ++ [Pong p])) by (done || lia || exact (le_S_n _ _ Ha)).
    simpl. by rewrite <- app_assoc.
  - rewrite (Hs (client_at l a s k)) by (apply next_skips; eauto). rewrite (IH (S n) a s) by (done || lia). done.
  - simpl. unfold client_at, recorded, yielded. simpl. by rewrite drop_0, app_nil_r.
  - rewrite (Hs (client_at l a s k)) by (apply next_skips; eauto). rewrite (IH (S n) a s) by (done || lia). done.
  - cbn [drain]. erewrite next_delivers by done. rewrite (IH n a s) by (done || lia). done.
Qed.

(** What the split reader makes of one frame. *)
Definition framed (x : Message + unit) : option (res WsClientError.t WsFrame) :=
  match x with
  | inl (Text raw) | inl (Binary raw) => Some (FrameMessage <$> parse_frame raw)
  | inl (Ping payload) => Some (Ok (FramePing payload))
  | inl (Pong _) => Some (Ok FramePong)
  | inl (Close _) | inl Frame => None
  | inr _ => Some (Err WsClientError.WebSocket)
  end.

Lemma framed_spec x f : framed x = Some f -> message_of_frame f = delivered x /\ ping_of_frame f = pinged x.
Proof. destruct x as [[t|b|p|p|g|]|[]]; intros [= <-]; simpl; try done; by destruct (parse_frame _). Qed.

Lemma next_frames x l f a s k :
  framed x = Some f -> next_frame (client_at (x :: l) a s k) = (Some f, client_at l a s k).
Proof. by destruct x as [[t|b|p|p|g|]|[]]; intros [= <-]. Qed.

Lemma drain_reader l n a s k :
  (length l < n)%nat ->
  exists frames, drain next_frame n (client_at l a s k) = (frames, client_at (after_close l) a s (record_close k (closing l))) /\
    omap message_of_frame frames = omap delivered (before_close l) /\
    omap ping_of_frame frames = omap pinged (before_close l).
Proof.
  revert n. induction l as [|x l IH]; intros n Hn; (destruct n as [|n]; [simpl in Hn; lia|]); simpl in Hn.
  { by exists []. }
  destruct (framed x) as [f|] eqn:Hx.
  - destruct (IH n ltac:(lia)) as (fs & H1 & H2 & H3). exists (f :: fs).
    destruct (framed_spec x f Hx) as [Hm Hp]. cbn [drain]. rewrite (next_frames x l f a s k Hx), H1.
    assert (Hb : before_close (x :: l) = x :: before_close l /\ after_close (x :: l) = after_close l /\
      closing (x :: l) = closing l) by by destruct x as [[t|b|p|p|g|]|[]].
    destruct Hb as (-> & -> & ->). split; [done|]. unfold omap in *. cbn [list_omap]. by rewrite Hm, Hp, H2, H3.
  - destruct x as [[t|b|p|p|g|]|[]]; try done; [by exists []|].
    destruct (IH (S n) ltac:(lia)) as (fs & H1 & H2 & H3). exists fs. split; [|done].
    etrans; [|exact H1]. apply drain_same; [lia|]. unfold next_frame. simpl. apply reader_next_incoming.
Qed.

(** Waiting for the close frame is draining the stream, as long as nothing fails. *)
Lemma await_is_drain n c : Forall (fun r => is_ok r = true) (drain next n c).1 -> await_server_close n c = (drain next n c).2.
Proof.
  revert c. induction n as [|n IH]; intros c; [done|]. simpl. destruct (next c) as [[[m|e|]|] c']; try done;
    specialize (IH c'); destruct (drain next n c') as [l c'']; simpl in *; intros H; inversion H; auto; done.
Qed.

Lemma reader_await_is_drain n c :
  Forall (fun r => is_ok r = true) (drain next_frame n c).1 -> reader_await_server_close n c = (drain next_frame n c).2.
Proof.
  revert c. induction n as [|n IH]; intros c; [done|]. simpl. destruct (next_frame c) as [[[m|e|]|] c']; try done;
    specialize (IH c'); destruct (drain next_frame n c') as [l c'']; simpl in *; intros H; inversion H; auto; done.
Qed.

(** A frame fails where its message does. *)
Lemma frames_ok frames :
  Forall (fun r => is_ok r = true) (omap message_of_frame frames) -> Forall (fun r => is_ok r = true) frames.
Proof.
  induction frames as [|[[m|p|]|e|] fs IH]; simpl; intros H; try (inversion H; subst); constructor; auto; done.
Qed.
End delivery.

(** Read to its end, a stream gives both readers the same: every message and every failure
    before the server's close frame, in order, a frame that does not decode as an
    [UnreadableFrame] in its place; every ping before it, which the raw client has answered
    with its payload, in order, and the split reader hands to its owner; the close frame's
    code and reason, unless one was recorded before.  Waiting for the close frame records
    it too, if nothing failed on the way. *)
Theorem readers_agree `{WJ : WsJson} l n accepts sent close :
  (length l < n)%nat -> (length (omap pinged (before_close l)) <= length accepts)%nat -> Forall (eq true) accepts ->
  let c := client_at l accepts sent close in
  let raw := drain next n c in
  let split := drain next_frame n c in
  let told := omap delivered (before_close l) in
  raw.1 = told /\ omap message_of_frame split.1 = told /\
  so_sent (wc_stream raw.2) = (sent ++ (Pong <$> omap ping_of_frame split.1))%list /\
  omap ping_of_frame split.1 = omap pinged (before_close l) /\
  wc_server_close raw.2 = record_close close (closing l) /\
  wc_server_close split.2 = record_close close (closing l) /\
  (Forall (fun r => is_ok r = true) told ->
   wc_server_close (await_server_close n c) = record_close close (closing l) /\
  wc_server_close (reader_await_server_close n c) = record_close close (closing l)).
Proof.
  intros Hn Ha Ht. cbv zeta. destruct (drain_reader l n accepts sent close Hn) as (frames & Hf & Hm & Hp).
  rewrite (drain_client l n accepts sent close Hn Ha Ht), Hf. simpl. split_and!; try done.
  - by rewrite Hp.
  - intros Hok. split.
    + rewrite await_is_drain; by rewrite (drain_client l n accepts sent close Hn Ha Ht).
    + rewrite reader_await_is_drain; rewrite Hf; [done|]. apply frames_ok. simpl. by rewrite Hm.
Qed.

(** A close code and its number determine each other; other numbers are no code. *)
Theorem close_codes code n : CloseCode.from_code n = Some code <-> n = CloseCode.code code.
Proof.
  split; [|intros ->; by destruct code].
  unfold CloseCode.from_code. intros H. by repeat case_match; simplify_eq.
Qed.

(** A typed send writes one text frame, the JSON of its message, or nothing: it reports
    [Json] if the message does not serialize, and the socket's error if the write fails. *)
Theorem sends_write_their_message `{TJ : WsSends.ToJson} o c :
  WsSends.run o c =
    match WsSends.serialize (WsSends.sends o) with
    | inl text => write c (Text (as_bytes text))
    | inr _ => (Err WsClientError.Json, c)
    end /\
  (so_sent (wc_stream (WsSends.run o c).2) = so_sent (wc_stream c) \/
   exists text, WsSends.serialize (WsSends.sends o) = inl text /\ (WsSends.run o c).1 = Ok tt /\
  so_sent (wc_stream (WsSends.run o c).2) = (so_sent (wc_stream c) ++ [Text (as_bytes text)])%list).
Proof.
  assert (H : WsSends.run o c = WsSends.send (WsSends.sends o) c) by by destruct o.
  rewrite H. unfold WsSends.send, WsSends.prepared, WsSends.send_prepared.
  destruct (WsSends.serialize _) as [text|e]; simpl; split; auto. unfold write.
  destruct (so_accepts (wc_stream c)) as [|[] a]; simpl; eauto.
Qed.

Module TransportSample.
(** A reader of [Pong] messages: every text decodes but the empty one. *)
#[export] Instance json : WsJson := {|
  from_str raw := match raw with [] => inr "EOF"%string | _ => inl ServerMessage.Pong end;
  from_slice raw := inr "invalid utf-8"%string;
  JsonValue := unit;
  value_from_slice _ := None;
  json_get _ _ := None;
  json_as_str _ := None;
  uuid_parse_str _ := None;
|}.

(** A message, a ping, a text that does not decode, a close frame, and what is not read. *)
Definition stream : list (Message + unit) :=
  [inl (Text [123; 125]); inl (Ping [7]); inl (Pong [1]); inl (Text []); inl (Close (Some (4002, "slow_consumer"%string)));
   inl (Text [123; 125])].
End TransportSample.
Import TransportSample.

Lemma readers_agree_witness :
  let c := client_at TransportSample.stream [true] [] None in
  let unreadable := {| uf_frame_type := None; uf_request_id := None; uf_error := "EOF" |} in
  (drain next 7 c).1 = [Ok ServerMessage.Pong; Err (WsClientError.UnreadableFrame unreadable)] /\
  so_sent (wc_stream (drain next 7 c).2) = [Pong [7]] /\
  (wc_server_close (drain next_frame 7 c).2 ≫= close_code) = Some CloseCode.SlowConsumer.
Proof.
  destruct (readers_agree TransportSample.stream 7 [true] [] None) as (H1 & _ & H2 & H3 & _ & H4 & _);
    [vm_compute; lia|vm_compute; lia|by repeat constructor|].
  cbv zeta. rewrite H1, H2, H3, H4. split_and!; vm_compute; reflexivity.
Defined.
