(* ===== verification/Teardown.v ===== *)
(** * The end of a session ([ws/managed/session.rs], [ws/managed/mod.rs])

    How the socket's two halves are taken down when the session's loop has ended, and what
    the task that panicked leaves behind. *)

From Stdlib Require Import ZArith Lia String.
From stdpp Require Import base list strings.
From S2P Require Import Prelude Terms Quote Rows Messages Tracker Subscriptions Writer Control Session Running Transport.

Open Scope Z_scope.

(** What a torn-down session leaves: the writer, the awaiters and the senders told that the
    connection is gone, the reader with the server's close frame, and whether the sink that
    the writer gave back was closed. *)
Record Torn := {
  td_writer : Writer; td_tracker : AwaitTracker; td_told : list Sender; td_reader : WsReader; td_sink_closed : bool;
}.

(** [timeout(write_timeout, &mut task).await], then [abort]: [ls] are the steps the task
    takes within the timeout; the second component is whether it returned its sink. *)
Definition wait_for_task (w : Writer) (waits : bool) (ls : list label) : Writer * bool :=
  if waits then
    let w := default w (writer_run w ls) in
    match w_task w with Ended returned => (w, returned) | _ => (Lanes.abort w, false) end
  else (w, false).

Section teardown.
Context `{WJ : WsJson}.

(* ws/managed/session.rs:599-602 run_session (final_end) *)
Definition final_end (end_ : AuthenticatedSessionEnd.t) : bool :=
  match end_ with
  | AuthenticatedSessionEnd.CloseRequested | AuthenticatedSessionEnd.Terminated _ => true
  | _ => false
  end.

(** [reads] calls of the reader return within [SERVER_CLOSE_GRACE]. *)
(* ws/managed/session.rs:603-618 run_session (end) *)
Definition tear_down (end_ : AuthenticatedSessionEnd.t) (server_rejection : bool) (w : Writer) (tracker : AwaitTracker)
  (reader : WsReader) (ls : list label) (reads : nat) : Torn :=
  if server_rejection then
    let '(w, waits) := Lanes.stop w in
    let '(w, sink) := wait_for_task w waits ls in
    let '(tracker, told) := Tracker.drain_all tracker in
    {| td_writer := w; td_tracker := tracker; td_told := told; td_reader := reader_await_server_close reads reader;
       td_sink_closed := final_end end_ && sink |}
  else if final_end end_ then
    let '(w, waits) := Lanes.close w in
    {| td_writer := (wait_for_task w waits ls).1; td_tracker := tracker; td_told := []; td_reader := reader;
       td_sink_closed := false |}
  else
    {| td_writer := Lanes.abort (Lanes.drop w); td_tracker := tracker; td_told := []; td_reader := reader;
       td_sink_closed := false |}.

(** An end before the split: the client is closed for good, or dropped. *)
(* ws/managed/session.rs:630-636 finish_unsplit *)
Definition finish_unsplit (client : WsClient) (end_ : SessionEnd.t) : WsClient :=
  match end_ with
  | SessionEnd.CloseRequested | SessionEnd.Terminated _ => (write client (Close None)).2
  | _ => client
  end.
End teardown.

(** ** A panic *)

(** [connection_open], as the outputs have left it. *)
Fixpoint opened (open : bool) (outs : list out) : bool :=
  match outs with
  | [] => open
  | Transition _ ManagedWsEvent.Connected :: outs => opened true outs
  | Event (ManagedWsEvent.Disconnected _) :: outs => opened false outs
  | _ :: outs => opened open outs
  end.

(** The handler of the spawned task; the grant of a vault is revoked with it. *)
(* ws/managed/mod.rs:609-621 spawn_managed_ws (panic) *)
Definition panicked (open : bool) : list out := connection_ended open None ++ terminate ManagedWsTerminationReason.SessionPanicked.

Definition is_open (p : phase) : bool := match p with Idle | Over => false | _ => true end.

Lemma opened_step st o st' outs :
  observe st o = Some st' -> opened (is_open st.2) (o :: outs) = opened (is_open st'.2) outs.
Proof.
  destruct st as [n p], o as [s e|e|s]; destruct p; simpl; try done; destruct s || destruct e; try done;
    try (destruct e; try done); intros H; repeat case_match; by simplify_eq.
Qed.

Lemma opened_observed outs st st' : observes st outs = Some st' -> opened (is_open st.2) outs = is_open st'.2.
Proof.
  revert st. induction outs as [|o outs IH]; intros st; simpl; [by intros [= ->]|].
  destruct (observe st o) as [st1|] eqn:Ho; [|done]. intros H. rewrite <- (IH _ H).
  by apply (opened_step st o st1 outs).
Qed.

(** A panic at any point of the task's life still closes it for its subscribers: whatever
    was sent before, the handler's outputs continue the lifecycle automaton, with the
    [Disconnected] of the open connection if there is one, and end it with [Terminated]. *)
Theorem panics_are_reported config ts pre rest :
  Z.of_nat (length ts) < 2 ^ 64 - 1 -> (run_managed_ws config ts).1 = pre ++ rest ->
  Forall (fun o => is_terminated o = false) pre ->
  exists n, observes (0, Idle) (pre ++ panicked (opened false pre)) = Some (n, Over).
Proof.
  intros Hl Hr Hp. destruct (turns_stage config (initial_supervisor config) ts) as (m & _ & Hs); [simpl; lia..|].
  change (turns config (initial_supervisor config) ts) with (run_managed_ws config ts) in Hs.
  assert (Ho : exists st, observes (0, Idle) pre = Some st).
  { unfold stage in Hs. rewrite Hr, observes_app in Hs. destruct (observes _ pre) as [st|]; [by exists st|].
    destruct (run_managed_ws config ts).2; [by destruct Hs|done]. }
  destruct Ho as [[n p] Ho]. exists n. rewrite observes_app, Ho. unfold panicked.
  rewrite (opened_observed pre (0, Idle) (n, p) Ho : opened false pre = is_open p).
  pose proof (observes_terminated _ _ _ _ Ho ltac:(done)) as Ht.
  destruct p; simpl; rewrite ?bool_decide_true by done; try done.
  destruct Ht as (pre' & r & -> & _). apply Forall_app in Hp as [_ Hp]. by inversion Hp.
Qed.

(** ** The writer and the reader *)

(** Without senders nothing more is accepted. *)
Lemma dropped_step w l w' :
  w_senders w = false -> writer_step w l = Some w' -> w_senders w' = false /\ w_accepted w' = w_accepted w.
Proof.
  intros Hs. destruct l as [lane c| | | |o]; simpl; rewrite ?Hs; try done.
  - by intros [= <-].
  - intros [= <-]. unfold Lanes.abort. by destruct (is_ended w).
  - destruct (w_task w); try done. unfold select, recv. rewrite Hs. intros H.
    repeat case_match; simplify_eq; simpl; try done; destruct c; simpl; done.
  - destruct (w_task w) as [|lane c|]; try done. intros [= <-]. unfold complete.
    destruct c; simpl; try done; by destruct (WriteOutcome.is_ok o).
Qed.

Lemma dropped_run w ls w' :
  w_senders w = false -> writer_run w ls = Some w' -> w_senders w' = false /\ w_accepted w' = w_accepted w.
Proof.
  revert w. induction ls as [|l ls IH]; intros w Hs; simpl; [by intros [= <-]|].
  destruct (writer_step w l) as [w1|] eqn:Hw; [|done]. destruct (dropped_step w l w1 Hs Hw) as [H1 H2].
  intros H. destruct (IH w1 H1 H) as [H3 H4]. by rewrite H4, H2.
Qed.

Lemma enqueue_written w lane c : w_written (Lanes.enqueue w lane c).1 = w_written w.
Proof. unfold Lanes.enqueue. destruct (is_ended w); [done|]. case_match; [done|]. by destruct lane. Qed.

Lemma enqueue_accepted w lane c :
  w_accepted (Lanes.enqueue w lane c).1 = w_accepted w \/
  w_accepted (Lanes.enqueue w lane c).1 = w_accepted w ++ [(lane, c)].
Proof.
  unfold Lanes.enqueue. destruct (is_ended w); [by left|]. case_match; [by left|]. right. by destruct lane.
Qed.

Lemma inv_enqueue w lane c : writer_inv w -> w_senders w = true -> writer_inv (Lanes.enqueue w lane c).1.
Proof. intros Hi Hs. apply (inv_step w (Enqueue lane c)); [done|]. simpl. by rewrite Hs. Qed.

Lemma abort_ended w : is_ended (Lanes.abort w) = true.
Proof. unfold Lanes.abort. by destruct (is_ended w) eqn:H. Qed.

Lemma inv_abort w : writer_inv w -> writer_inv (Lanes.abort w).
Proof. intros Hi. by apply (inv_step w Abort). Qed.

Lemma abort_keeps w : w_written (Lanes.abort w) = w_written w /\ w_accepted (Lanes.abort w) = w_accepted w.
Proof. unfold Lanes.abort. by destruct (is_ended w). Qed.

(** The writer after a last command [c] was queued, the senders dropped and the task waited
    for: it has ended, and wrote nothing that was not accepted before, but [c]. *)
Lemma last_command w c ls :
  writer_inv w -> w_senders w = true ->
  let '(w1, r) := Lanes.enqueue w Lane.Control c in
  let w2 := Lanes.drop w1 in
  let w3 := (wait_for_task (if is_ok r then w2 else Lanes.abort w2) (is_ok r) ls).1 in
  is_ended w3 = true /\ writer_inv w3 /\
  forall p, p ∈ w_written w3 -> p ∈ w_accepted w \/ p = (Lane.Control, c).
Proof.
  intros Hi Hs. pose proof (inv_enqueue w Lane.Control c Hi Hs) as H1.
  pose proof (enqueue_accepted w Lane.Control c) as Ha.
  destruct (Lanes.enqueue w Lane.Control c) as [w1 r]. cbn [fst] in *. cbv zeta.
  set (w2 := Lanes.drop w1). assert (H2 : writer_inv w2) by by apply inv_drop.
  assert (Hw : forall w3, writer_inv w3 -> w_accepted w3 = w_accepted w2 ->
            forall p, p ∈ w_written w3 -> p ∈ w_accepted w \/ p = (Lane.Control, c)).
  { intros w3 H3 He [lane d] Hp.
    assert (Hd : d ∈ per_lane lane (w_written w3)).
    { apply list_elem_of_omap. exists (lane, d). split; [done|]. unfold on_lane. simpl. by rewrite decide_True. }
    pose proof (elem_of_prefix _ _ _ Hd (written_prefix w3 lane H3)) as Hd'. clear Hd.
    apply list_elem_of_omap in Hd' as ([lane' d'] & Hin & Hl). unfold on_lane in Hl. simpl in Hl.
    case_decide; [|done]. simplify_eq. rewrite He in Hin. unfold w2 in Hin. simpl in Hin.
    destruct Ha as [Ha|Ha]; rewrite Ha in Hin; [by left|]. apply elem_of_app in Hin as [?|Hin]; [by left|].
    right. by apply list_elem_of_singleton in Hin. }
  assert (Hx : forall w3, writer_inv w3 -> w_accepted w3 = w_accepted w2 ->
            is_ended (Lanes.abort w3) = true /\ writer_inv (Lanes.abort w3) /\
            forall p, p ∈ w_written (Lanes.abort w3) -> p ∈ w_accepted w \/ p = (Lane.Control, c)).
  { intros w3 H3 He. split; [apply abort_ended|]. split; [by apply inv_abort|].
    apply Hw; [by apply inv_abort|]. by rewrite (proj2 (abort_keeps w3)). }
  unfold wait_for_task. destruct (is_ok r); [|by apply Hx].
  assert (H3 : writer_inv (default w2 (writer_run w2 ls)) /\ w_accepted (default w2 (writer_run w2 ls)) = w_accepted w2).
  { destruct (writer_run w2 ls) as [w3|] eqn:Hr; [|done]. split; [by apply (inv_run _ _ _ H2 Hr)|].
    by apply (dropped_run w2 ls w3 eq_refl Hr). }
  destruct H3 as [H3 He]. set (w3 := default w2 _) in *.
  destruct (w_task w3) eqn:Ht; [by apply Hx..|]. split; [unfold is_ended; simpl; by rewrite Ht|]. split; [done|by apply Hw].
Qed.

(** A session that ends leaves no task behind and tells its peer no more than it should.
    The writer's task has ended.  If the server rejected the session, everyone who awaited a
    reply is told, nothing but what was queued is written, so no [Close] before the server's
    own, and the server's close frame is recorded if it comes without an error before it.
    If the session ends for good, a [Close] follows everything written, if there was time
    for it.  If it will reconnect, nothing more is written. *)
Theorem sessions_are_torn_down `{WJ : WsJson} end_ rejection w tracker l accepts sent close ls reads :
  writer_inv w -> w_senders w = true -> Forall (fun p => p.2 <> WriterCommand.Close) (w_accepted w) ->
  (length l < reads)%nat ->
  let t := tear_down end_ rejection w tracker (client_at l accepts sent close) ls reads in
  is_ended (td_writer t) = true /\
  (rejection = true ->
     Forall (fun p => p.2 <> WriterCommand.Close) (w_written (td_writer t)) /\
     by_id (td_tracker t) = ∅ /\ td_told t = (Tracker.drain_all tracker).2 /\
     (Forall (fun r => is_ok r = true) (omap delivered (before_close l)) ->
      wc_server_close (td_reader t) = record_close close (closing l))) /\
  (rejection = false -> final_end end_ = true ->
     forall a p b, w_written (td_writer t) = a ++ p :: b -> p.2 = WriterCommand.Close -> b = []) /\
  (rejection = false -> final_end end_ = false -> w_written (td_writer t) = w_written w).
Proof.
  intros Hi Hs Hc Hr. cbv zeta. unfold tear_down. destruct rejection.
  - pose proof (last_command w WriterCommand.Stop ls Hi Hs) as H. unfold Lanes.stop.
    destruct (Lanes.enqueue w Lane.Control WriterCommand.Stop) as [w1 r].
    assert (Heq : (let w0 := Lanes.drop w1 in if is_ok r then (w0, true) else (Lanes.abort w0, false)) =
      (if is_ok r then Lanes.drop w1 else Lanes.abort (Lanes.drop w1), is_ok r)) by by destruct (is_ok r).
    cbv zeta in Heq, H. rewrite Heq. revert H. destruct (wait_for_task _ (is_ok r) ls) as [w3 sink]. intros (He & _ & Hw). simpl in *. split; [done|]. split; [|by split]. intros _. split_and!; try done.
    + apply Forall_forall. intros p Hp. destruct (Hw p Hp) as [Ha| ->]; [|done].
      rewrite Forall_forall in Hc. by apply Hc.
    + intros Hok. destruct (drain_reader l reads accepts sent close Hr) as (frames & Hf & Hm & _).
      rewrite reader_await_is_drain; rewrite Hf; [done|]. apply frames_ok. simpl. by rewrite Hm.
  - destruct (final_end end_).
    + pose proof (last_command w WriterCommand.Close ls Hi Hs) as H. unfold Lanes.close.
      destruct (Lanes.enqueue w Lane.Control WriterCommand.Close) as [w1 r].
      assert (Heq : (let w0 := Lanes.drop w1 in if is_ok r then (w0, true) else (Lanes.abort w0, false)) =
        (if is_ok r then Lanes.drop w1 else Lanes.abort (Lanes.drop w1), is_ok r)) by by destruct (is_ok r).
      cbv zeta in Heq. rewrite Heq. destruct H as (He & H3 & _). simpl. split_and!; try done.
      intros _ _ a p b Hw Hp. apply (wi_last _ H3 a p b Hw). by rewrite Hp.
    + simpl. split; [apply abort_ended|]. split_and!; try done. intros _ _. by rewrite (proj1 (abort_keeps _)).
Qed.
