(* ===== verification/Lifetime.v ===== *)
(** * The lifetime of a handle ([ws/managed/mod.rs])

    A session is asked to shut down when a caller closes it or when its last handle is
    dropped.  Closing also waits for the session's task, which is behind a mutex: any number
    of callers may close at once, on any clones of the handle, and each may give up. *)

From Stdlib Require Import ZArith Lia String.
From stdpp Require Import base list strings.
From S2P Require Import Prelude Session.

(** The receiver made when the session was spawned, and [fresh], one made now. *)
(* ws/managed/mod.rs:236-242 ManagedWsHandle::subscribe_events *)
Definition subscribe_events {A} (initial : option A) (fresh : A) : A * option A := (default fresh initial, None).

(** The spawned task: how it ended, if it did. *)
Inductive Task := TaskRunning | TaskEnded (panicked : bool).
#[export] Instance task_eq_dec : EqDecision Task.
Proof. solve_decision. Defined.

(** A call of [close]: waiting for the mutex, joining the task with the mutex held,
    returned with whether joining failed, or dropped before it returned. *)
Inductive Closer := Locking | Joining | Returned (join_failed : bool) | Dropped.
#[export] Instance closer_eq_dec : EqDecision Closer.
Proof. solve_decision. Defined.

(** The clones of the handle, which share one [ShutdownOnLastHandle]; the value of its
    channel; the task; whether its join handle was taken; the calls of [close]. *)
(* ws/managed/mod.rs:199-201 ShutdownOnLastHandle *)
Record Lifetime := {
  lt_handles : nat; lt_shutdown : bool; lt_task : Task; lt_taken : bool; lt_closers : list Closer }.

(* ws/managed/mod.rs:203-207 ShutdownOnLastHandle::request *)
Definition request (l : Lifetime) : Lifetime :=
  {| lt_handles := lt_handles l; lt_shutdown := true; lt_task := lt_task l; lt_taken := lt_taken l;
     lt_closers := lt_closers l |}.

Definition set_closer (l : Lifetime) (i : nat) (c : Closer) (taken : bool) : Lifetime :=
  {| lt_handles := lt_handles l; lt_shutdown := lt_shutdown l; lt_task := lt_task l; lt_taken := taken;
     lt_closers := <[i := c]> (lt_closers l) |}.

Definition set_handles (l : Lifetime) (n : nat) : Lifetime :=
  {| lt_handles := n; lt_shutdown := lt_shutdown l; lt_task := lt_task l; lt_taken := lt_taken l;
     lt_closers := lt_closers l |}.

(** A call that has not returned borrows a handle. *)
Definition pending (c : Closer) : bool := match c with Locking | Joining => true | _ => false end.
Definition holds (c : Closer) : bool := bool_decide (c = Joining).

(** One handle, just spawned. *)
Definition spawned : Lifetime :=
  {| lt_handles := 1; lt_shutdown := false; lt_task := TaskRunning; lt_taken := false; lt_closers := [] |}.

(* ws/managed/mod.rs:209-213 Drop for ShutdownOnLastHandle *)
Definition drop_handle (l : Lifetime) : option Lifetime :=
  match lt_handles l with
  | O => None
  | S O => if existsb pending (lt_closers l) then None else Some (request (set_handles l 0))
  | S n => Some (set_handles l n)
  end.

(** The parts of [close] between its awaits: the request and the call's turn at the mutex,
    then the join. *)
(* ws/managed/mod.rs:491-493 ManagedWsHandle::close (request) *)
Definition close_request (l : Lifetime) : option Lifetime :=
  match lt_handles l with
  | O => None
  | _ => Some {| lt_handles := lt_handles l; lt_shutdown := true; lt_task := lt_task l; lt_taken := lt_taken l;
                 lt_closers := lt_closers l ++ [Locking] |}
  end.
(* ws/managed/mod.rs:493-500 ManagedWsHandle::close (lock) *)
Definition close_lock (l : Lifetime) (i : nat) : option Lifetime :=
  match lt_closers l !! i with
  | Some Locking =>
      if existsb holds (lt_closers l) then None
      else Some (set_closer l i (if lt_taken l then Returned false else Joining) (lt_taken l))
  | _ => None
  end.
(* ws/managed/mod.rs:494-498 ManagedWsHandle::close (join) *)
Definition close_join (l : Lifetime) (i : nat) : option Lifetime :=
  match lt_closers l !! i, lt_task l with
  | Some Joining, TaskEnded panicked => Some (set_closer l i (Returned panicked) true)
  | _, _ => None
  end.

Inductive event := Clone | Drop | Close | Lock (i : nat) | Join (i : nat) | GiveUp (i : nat) | End (panicked : bool).

(** What may happen next. *)
Definition happens (l : Lifetime) (e : event) : option Lifetime :=
  match e with
  | Clone => match lt_handles l with O => None | n => Some (set_handles l (S n)) end
  | Drop => drop_handle l
  | Close => close_request l
  | Lock i => close_lock l i
  | Join i => close_join l i
  | GiveUp i =>
      match lt_closers l !! i with
      | Some c => if pending c then Some (set_closer l i Dropped (lt_taken l)) else None
      | None => None
      end
  | End panicked =>
      match lt_task l with
      | TaskRunning => Some {| lt_handles := lt_handles l; lt_shutdown := lt_shutdown l; lt_task := TaskEnded panicked;
                               lt_taken := lt_taken l; lt_closers := lt_closers l |}
      | _ => None
      end
  end.

Inductive lived : Lifetime -> Prop :=
| lived_spawned : lived spawned
| lived_step l e l' : lived l -> happens l e = Some l' -> lived l'.

(** ** Closing *)

(** The join handle is taken by the one call that reports how the task ended. *)
Definition taken_by (l : Lifetime) : Prop :=
  exists i panicked, lt_closers l !! i = Some (Returned panicked) /\ lt_task l = TaskEnded panicked /\
    forall j, lt_closers l !! j = Some (Returned true) -> j = i.

Record alive (l : Lifetime) : Prop := {
  al_shutdown : lt_shutdown l = true <-> lt_handles l = 0%nat \/ lt_closers l <> [];
  al_borrow : lt_handles l = 0%nat -> Forall (fun c => pending c = false) (lt_closers l);
  al_lock : forall i j, lt_closers l !! i = Some Joining -> lt_closers l !! j = Some Joining -> i = j;
  al_open : lt_taken l = false -> forall i b, lt_closers l !! i <> Some (Returned b);
  al_taken : lt_taken l = true -> taken_by l /\ forall i, lt_closers l !! i <> Some Joining;
}.

Lemma spawned_alive : alive spawned.
Proof. by split; [split; [|intros [?|?]]|constructor|intros i j ?|..]. Qed.

Lemma no_holder l i : existsb holds (lt_closers l) = false -> lt_closers l !! i <> Some Joining.
Proof.
  intros H Hi. apply not_true_iff_false in H. apply H, existsb_exists. exists Joining.
  split; [by apply list_elem_of_In, list_elem_of_lookup_2 with i|done].
Qed.

(** Changing one call that had not returned. *)
Lemma insert_cases (cs : list Closer) i c j x :
  <[i := c]> cs !! j = Some x -> j = i /\ x = c \/ j <> i /\ cs !! j = Some x.
Proof. rewrite list_lookup_insert_Some. naive_solver. Qed.

Lemma set_closer_alive l i old c taken :
  alive l -> lt_closers l !! i = Some old -> pending old = true ->
  (c = Joining -> taken = false /\ forall j, lt_closers l !! j <> Some Joining) ->
  (forall b, c = Returned b -> taken = true) -> c <> Locking ->
  (taken = lt_taken l /\ (lt_taken l = true -> c <> Returned true) \/
   exists b, c = Returned b /\ old = Joining /\ lt_task l = TaskEnded b /\ taken = true) ->
  alive (set_closer l i c taken).
Proof.
  intros [Hs Hb Hl Ho Ht] Hi Hp Hj Hr Hc Hk.
  assert (Hne : <[i := c]> (lt_closers l) <> []).
  { intros H. apply (f_equal length) in H. rewrite length_insert in H. destruct (lt_closers l); [by rewrite lookup_nil in Hi|done]. }
  assert (Hh : lt_handles l <> 0%nat).
  { intros H. specialize (Hb H). rewrite Forall_lookup in Hb. specialize (Hb _ _ Hi). congruence. }
  split; cbn [set_closer lt_shutdown lt_handles lt_task lt_taken lt_closers].
  - rewrite Hs. split; intros _; right; [done|]. intros E. by rewrite E in Hi.
  - done.
  - intros a b Ha Hb'. apply insert_cases in Ha as [[-> Ec]|[Hna Ha]]; apply insert_cases in Hb' as [[-> Ec']|[Hnb Hb']].
    + done.
    + destruct (Hj (eq_sym Ec)) as [_ Hj']. by destruct (Hj' b).
    + destruct (Hj (eq_sym Ec')) as [_ Hj']. by destruct (Hj' a).
    + by apply Hl.
  - intros Htk a b Ha. apply insert_cases in Ha as [[-> Ec]|[Hna Ha]]; [by rewrite (Hr b (eq_sym Ec)) in Htk|].
    destruct Hk as [[Hk _]|(? & _ & _ & _ & Hk)]; [|congruence]. by apply (Ho (eq_trans (eq_sym Hk) Htk) a b).
  - intros Htk. destruct Hk as [[Hk Hn]|(b & -> & -> & Htask & _)].
    + rewrite Htk in Hk. symmetry in Hk. destruct (Ht Hk) as [(a & p & Ha & Hta & Huniq) Hnj]. specialize (Hn Hk). split.
      * assert (a <> i) by (intros ->; rewrite Hi in Ha; injection Ha as ->; done).
        exists a, p. cbn. rewrite list_lookup_insert_ne by done. split_and!; [done..|].
        intros j Hj'. apply insert_cases in Hj' as [[-> Ec]|[_ Hj']]; [congruence|by apply Huniq].
      * intros j Hj'. apply insert_cases in Hj' as [[-> Ec]|[_ Hj']]; [|by apply (Hnj j)].
        destruct (Hj (eq_sym Ec)) as [? _]. congruence.
    + destruct (lt_taken l) eqn:El; [by destruct (Ht eq_refl) as [_ Hnj]; destruct (Hnj i)|]. split.
      * exists i, b. cbn. rewrite list_lookup_insert_eq by (by eapply lookup_lt_Some). split_and!; [done..|].
        intros j Hj'. apply insert_cases in Hj' as [[-> _]|[_ Hj']]; [done|]. by destruct (Ho eq_refl j true).
      * intros j Hj'. apply insert_cases in Hj' as [[_ ?]|[Hnj Hj']]; [done|]. by apply Hnj, Hl.
Qed.

Lemma alive_step l e l' : alive l -> happens l e = Some l' -> alive l'.
Proof.
  intros Hal H. destruct e; cbn in H.
  - destruct (lt_handles l) as [|n] eqn:En; [done|]. injection H as <-. destruct Hal as [Hs Hb Hl Ho Ht].
    split; cbn; [|done..]. rewrite Hs, En. naive_solver.
  - unfold drop_handle in H. destruct (lt_handles l) as [|[|n]] eqn:En; [done| |].
    + destruct (existsb pending _) eqn:Ep; [done|]. injection H as <-. destruct Hal as [Hs Hb Hl Ho Ht].
      split; cbn; [naive_solver| |done..]. intros _. apply Forall_forall. intros c Hc. apply not_true_iff_false. intros Hp.
      apply not_true_iff_false in Ep. apply Ep, existsb_exists. exists c. split; [by apply list_elem_of_In|done].
    + injection H as <-. destruct Hal as [Hs Hb Hl Ho Ht]. split; cbn; [|done..]. rewrite Hs, En. naive_solver.
  - unfold close_request in H. destruct (lt_handles l) as [|n] eqn:En; [done|]. injection H as <-.
    destruct Hal as [Hs Hb Hl Ho Ht].
    assert (Hnew : forall j x, (lt_closers l ++ [Locking]) !! j = Some x -> x <> Locking -> lt_closers l !! j = Some x).
    { intros j x Hj Hx. apply lookup_app_Some in Hj as [Hj|[_ Hj]]; [done|]. apply list_lookup_singleton_Some in Hj as [_ <-]. done. }
    split; cbn.
    + split; [intros _; right; by destruct (lt_closers l)|done].
    + done.
    + intros i j Hi Hj. apply Hl; by apply Hnew.
    + intros Hk i b Hi. by apply (Ho Hk i b), Hnew.
    + intros Hk. destruct (Ht Hk) as [(i & p & Hi & Hp & Hu) Hn]. split.
      * exists i, p. cbn. rewrite lookup_app_l by (by eapply lookup_lt_Some). split_and!; [done..|].
        intros j Hj. by apply Hu, Hnew.
      * intros j Hj. by apply (Hn j), Hnew.
  - unfold close_lock in H. destruct (lt_closers l !! i) as [[]|] eqn:Ei; try done.
    destruct (existsb holds _) eqn:Eh; [done|]. injection H as <-. destruct (lt_taken l) eqn:Et.
    + eapply set_closer_alive; try done. left. by rewrite Et.
    + eapply set_closer_alive; try done; [|left; by rewrite Et]. intros _. split; [done|]. intros j. by apply no_holder.
  - unfold close_join in H. destruct (lt_closers l !! i) as [[]|] eqn:Ei; try done.
    destruct (lt_task l) as [|p] eqn:Et; [done|]. injection H as <-. eapply set_closer_alive; try done. right. eauto.
  - destruct (lt_closers l !! i) as [c|] eqn:Ei; [|done]. destruct (pending c) eqn:Ep; [|done]. injection H as <-.
    eapply set_closer_alive; try done. by left.
  - destruct (lt_task l) eqn:Et; [|done]. injection H as <-. destruct Hal as [Hs Hb Hl Ho Ht]. split; cbn; try done.
    intros Hk. destruct (Ht Hk) as [(i & p & _ & Hp & _) _]. congruence.
Qed.

Lemma lived_alive l : lived l -> alive l.
Proof. induction 1; [apply spawned_alive|by eapply alive_step]. Qed.

Fixpoint happen (l : Lifetime) (es : list event) : option Lifetime :=
  match es with [] => Some l | e :: es => l ← happens l e; happen l es end.

Lemma happen_lived l es l' : lived l -> happen l es = Some l' -> lived l'.
Proof.
  revert l. induction es as [|e es IH]; intros l Hl H; cbn in H; [by injection H as <-|].
  destruct (happens l e) as [l1|] eqn:He; [|done]. apply (IH l1); [by eapply lived_step|done].
Qed.

(** A call that waits for an ended task gets there, whoever else is closing. *)
Lemma closer_returns l i p :
  alive l -> lt_task l = TaskEnded p -> lt_closers l !! i = Some Locking \/ lt_closers l !! i = Some Joining ->
  exists es l' b, (length es <= 2)%nat /\ happen l es = Some l' /\ lt_closers l' !! i = Some (Returned b).
Proof.
  intros Hal Hp [Hi|Hi].
  2: { exists [Join i]. eexists _, p. split; [cbn; lia|]. cbn. unfold close_join. rewrite Hi, Hp. cbn. split; [done|].
       apply list_lookup_insert_eq. by eapply lookup_lt_Some. }
  destruct (existsb holds (lt_closers l)) eqn:Eh.
  - apply existsb_exists in Eh as (c & Hin & Hc). apply bool_decide_eq_true in Hc as ->.
    apply list_elem_of_In, list_elem_of_lookup_1 in Hin as [k Hk]. exists [Join k; Lock i]. eexists _, false.
    split; [cbn; lia|]. cbn. unfold close_join. rewrite Hk, Hp. cbn. unfold close_lock.
    assert (k <> i) by congruence. cbn [set_closer lt_closers]. rewrite list_lookup_insert_ne, Hi by done.
    destruct (existsb holds _) eqn:Eh'.
    + exfalso. apply existsb_exists in Eh' as (c & Hin & Hc). apply bool_decide_eq_true in Hc as ->.
      apply list_elem_of_In, list_elem_of_lookup_1 in Hin as [m Hm].
      apply insert_cases in Hm as [[_ ?]|[Hn Hm]]; [done|]. by apply Hn, (al_lock _ Hal).
    + split; [done|]. cbn. apply list_lookup_insert_eq. rewrite length_insert. by eapply lookup_lt_Some.
  - destruct (lt_taken l) eqn:Et.
    + exists [Lock i]. eexists _, false. split; [cbn; lia|]. cbn. unfold close_lock. rewrite Hi, Eh, Et. split; [done|].
      apply list_lookup_insert_eq. by eapply lookup_lt_Some.
    + exists [Lock i; Join i]. eexists _, p. split; [cbn; lia|]. cbn. unfold close_lock. rewrite Hi, Eh, Et.
      cbn. unfold close_join. cbn. rewrite list_lookup_insert_eq by (by eapply lookup_lt_Some). rewrite Hp. split; [done|].
      cbn. apply list_lookup_insert_eq. rewrite length_insert. by eapply lookup_lt_Some.
Qed.

(** However handles are cloned and dropped and closed, from as many callers and in whatever
    order: the session is asked to shut down exactly once some caller closed it or no handle
    is left; a close returns only after the task has ended; a task that panicked is reported
    to exactly one of the calls that return; and once the task has ended, every call that
    still waits can return. *)
Theorem close_is_a_barrier l :
  lived l ->
  (lt_shutdown l = true <-> lt_handles l = 0%nat \/ lt_closers l <> []) /\
  (forall i b, lt_closers l !! i = Some (Returned b) ->
     exists j p, lt_task l = TaskEnded p /\ lt_closers l !! j = Some (Returned p) /\
       forall k, lt_closers l !! k = Some (Returned true) -> k = j) /\
  (forall i c p, lt_task l = TaskEnded p -> lt_closers l !! i = Some c -> pending c = true ->
     exists es l' b, (length es <= 2)%nat /\ happen l es = Some l' /\ lt_closers l' !! i = Some (Returned b)).
Proof.
  intros H%lived_alive. split; [apply H|]. split.
  - intros i b Hi. destruct (lt_taken l) eqn:Et; [|by destruct (al_open _ H Et i b)].
    destruct (al_taken _ H Et) as [(j & p & Hj & Hp & Hu) _]. by exists j, p.
  - intros i c p Hp Hi Hc. eapply closer_returns; [done..|]. destruct c; try done; auto.
Qed.

(** Two calls close one session that panics; one of them is told. *)
Lemma close_is_a_barrier_witness :
  exists l, happen spawned [Clone; Close; Close; Lock 1; End true; Join 1; Lock 0; Drop] = Some l /\
    lt_closers l = [Returned false; Returned true] /\ lt_shutdown l = true.
Proof.
  eexists. split; [reflexivity|]. split; [reflexivity|].
  match goal with |- lt_shutdown ?l = true => assert (Hl : lived l) end.
  { exact (happen_lived _ _ _ lived_spawned
      (eq_refl : happen spawned [Clone; Close; Close; Lock 1; End true; Join 1; Lock 0; Drop] = Some _)). }
  apply (proj1 (close_is_a_barrier _ Hl)). right. discriminate.
Defined.
