(* ===== verification/Data.v ===== *)
(** * The maker's data client ([ws/maker/data.rs])

    Queries with a typed answer.  A request is a message; a reply of another kind, or a
    refusal, is an error.  A list is read page by page to its end.

    Each page is one awaited request over the handle of Handle.v.  What happens while the
    n-th call waits for room in the queue, and while it waits for its reply, is an argument,
    as is the n-th [Uuid::new_v4]. *)

From Stdlib Require Import ZArith Lia String.
From stdpp Require Import base list gmap strings.
From S2P Require Import Prelude Time Terms Quote Paging Rows Messages Tracker Control Session Running Handle Ready Config.

Open Scope Z_scope.
Local Open Scope string_scope.

(** ** Requests

    Every list request has an id, a limit and a cursor: what the macro [paged_request!]
    assigns. *)
Record PageLens (Q : Type) := {
  l_request_id : Q -> Uuid;
  l_limit : Q -> Z;
  l_cursor : Q -> Cursor.t;
  l_set : Uuid -> Z -> Cursor.t -> Q -> Q;
}.
Arguments l_request_id {Q} _ _.
Arguments l_limit {Q} _ _.
Arguments l_cursor {Q} _ _.
Arguments l_set {Q} _ _ _ _ _.

(** The methods a paged request is given by its macro arguments; the others are the same
    for all, below. *)
(* ws/maker/data.rs:40-48 PagedRequest *)
Record PagedRequest (Q R : Type) := {
  pr_lens : PageLens Q;
  append : R -> R -> R;
  cursor : R -> option string;
}.
Arguments pr_lens {Q R} _.
Arguments append {Q R} _ _ _.
Arguments cursor {Q R} _ _.

(** [paged]: whether [fetch] is overridden to follow the pages. *)
(* ws/maker/data.rs:19-38 MakerDataRequest *)
Record MakerDataRequest (Q R : Type) := {
  into_message : Q -> ClientMessage.t;
  into_response : ServerMessage.t -> res ServerMessage.t R;
  RESPONSE_TYPE : string;
  paged : option (PagedRequest Q R);
}.
Arguments into_message {Q R} _ _.
Arguments into_response {Q R} _ _.
Arguments RESPONSE_TYPE {Q R} _.
Arguments paged {Q R} _.

Section macro.
Context {Q R : Type} (P : PagedRequest Q R).

(* ws/maker/data.rs:53-57 PagedRequest::first_page *)
Definition first_page (new_v4 : Uuid) (self : Q) : Q := l_set (pr_lens P) new_v4 200 Cursor.Start self.

(** The request for the page after [page], when there is one. *)
(* ws/maker/data.rs:58-65 PagedRequest::next_page *)
Definition next_page (new_v4 : Uuid) (self : Q) (page : R) : option Q :=
  match cursor P page with
  | None => None
  | Some id =>
      if bool_decide (id = "") || bool_decide (Cursor.After id = l_cursor (pr_lens P) self) then None
      else Some (l_set (pr_lens P) new_v4 (l_limit (pr_lens P) self) (Cursor.After id) self)
  end.

(* ws/maker/data.rs:71-71 PagedRequest::has_more *)
Definition has_more (page : R) : bool := bool_decide (is_Some (cursor P page)).

(* ws/maker/data.rs:73-73 PagedRequest::request_cursor *)
Definition request_cursor (new_v4 : Uuid) (c : Cursor.t) (self : Q) : Q :=
  l_set (pr_lens P) new_v4 (l_limit (pr_lens P) self) c self.
End macro.

(** ** Merging the pages of a token's markets

    A market, or one of its indicatives, may continue on the next page. *)

(* ws/maker/data.rs:167-177 PagedRequest::append (GetTokenMarketsInfoMessage, indicatives) *)
Definition add_indicative (existing : list TokenMarketIndicatives.t) (indicative : TokenMarketIndicatives.t)
  : list TokenMarketIndicatives.t :=
  match list_find (fun i => TokenMarketIndicatives.position_type i = TokenMarketIndicatives.position_type indicative) existing with
  | Some (n, current) =>
      <[n := {| TokenMarketIndicatives.position_type := TokenMarketIndicatives.position_type current;
                TokenMarketIndicatives.updated_at := TokenMarketIndicatives.updated_at current;
                TokenMarketIndicatives.is_stale := TokenMarketIndicatives.is_stale current;
                TokenMarketIndicatives.strikes :=
                  TokenMarketIndicatives.strikes current ++ TokenMarketIndicatives.strikes indicative |}]> existing
  | None => existing ++ [indicative]
  end.

(* ws/maker/data.rs:161-181 PagedRequest::append (GetTokenMarketsInfoMessage, markets) *)
Definition add_market (all : list TokenMarketEntry.t) (market : TokenMarketEntry.t) : list TokenMarketEntry.t :=
  match list_find (fun m => TokenMarketEntry.market_pda m = TokenMarketEntry.market_pda market) all with
  | Some (n, existing) =>
      <[n := {| TokenMarketEntry.products := TokenMarketEntry.products existing;
                TokenMarketEntry.market_pda := TokenMarketEntry.market_pda existing;
                TokenMarketEntry.expiry_ts := TokenMarketEntry.expiry_ts existing;
                TokenMarketEntry.is_put := TokenMarketEntry.is_put existing;
                TokenMarketEntry.indicatives :=
                  foldl add_indicative (TokenMarketEntry.indicatives existing) (TokenMarketEntry.indicatives market) |}]> all
  | None => all ++ [market]
  end.

(* ws/maker/data.rs:160-183 PagedRequest::append (GetTokenMarketsInfoMessage) *)
Definition merge_token_markets (all page : TokenMarketsInfoData.t) : TokenMarketsInfoData.t :=
  {| TokenMarketsInfoData.underlying_symbol := TokenMarketsInfoData.underlying_symbol all;
     TokenMarketsInfoData.underlying_decimals := TokenMarketsInfoData.underlying_decimals all;
     TokenMarketsInfoData.quote_symbol := TokenMarketsInfoData.quote_symbol all;
     TokenMarketsInfoData.quote_decimals := TokenMarketsInfoData.quote_decimals all;
     TokenMarketsInfoData.size_rule := TokenMarketsInfoData.size_rule all;
     TokenMarketsInfoData.reference_price := TokenMarketsInfoData.reference_price all;
     TokenMarketsInfoData.markets :=
       foldl add_market (TokenMarketsInfoData.markets all) (TokenMarketsInfoData.markets page) |}.

(** ** Appending a page

    The listed fields are extended, the continuation is the new page's, the rest stays the
    first page's. *)

(* ws/maker/data.rs:66-70 PagedRequest::append *)
Definition append_page {B} (extend : B -> B -> B) (all page : PageReply B) : PageReply B :=
  {| pg_request_id := pg_request_id all; pg_next_cursor := pg_next_cursor page;
     pg_body := extend (pg_body all) (pg_body page) |}.

(* ws/maker/data.rs:78-83 PagedRequest::append (GetMakerPositionsMessage) *)
Definition extend_maker_positions (all page : MakerPositionsMessage.t) : MakerPositionsMessage.t :=
  {| MakerPositionsMessage.positions := MakerPositionsMessage.positions all ++ MakerPositionsMessage.positions page;
     MakerPositionsMessage.unrenderable := MakerPositionsMessage.unrenderable all ++ MakerPositionsMessage.unrenderable page |}.

(* ws/maker/data.rs:84-84 PagedRequest::append (GetMyTradesMessage) *)
Definition extend_my_trades (all page : MyTradesMessage.t) : MyTradesMessage.t :=
  {| MyTradesMessage.trades := MyTradesMessage.trades all ++ MyTradesMessage.trades page |}.

(* ws/maker/data.rs:85-85 PagedRequest::append (GetMyQuotesMessage) *)
Definition extend_my_quotes (all page : MyQuotesMessage.t) : MyQuotesMessage.t :=
  {| MyQuotesMessage.quotes := MyQuotesMessage.quotes all ++ MyQuotesMessage.quotes page |}.

(* ws/maker/data.rs:86-86 PagedRequest::append (GetMarketsMessage) *)
Definition extend_markets (all page : MarketsData.t) : MarketsData.t :=
  {| MarketsData.markets := MarketsData.markets all ++ MarketsData.markets page |}.

(* ws/maker/data.rs:87-87 PagedRequest::append (GetMarketDescriptorsMessage) *)
Definition extend_market_descriptors (all page : MarketDescriptorsData.t) : MarketDescriptorsData.t :=
  {| MarketDescriptorsData.markets := MarketDescriptorsData.markets all ++ MarketDescriptorsData.markets page |}.

(* ws/maker/data.rs:88-88 PagedRequest::append (GetExpiriesMessage) *)
Definition extend_expiries (all page : ExpiriesData.t) : ExpiriesData.t :=
  {| ExpiriesData.expiries_ts := ExpiriesData.expiries_ts all ++ ExpiriesData.expiries_ts page |}.

(* ws/maker/data.rs:89-89 PagedRequest::append (GetTokensMessage) *)
Definition extend_tokens (all page : TokensData.t) : TokensData.t :=
  {| TokensData.tokens := TokensData.tokens all ++ TokensData.tokens page |}.

(* ws/maker/data.rs:90-90 PagedRequest::append (GetActiveRfqsMessage) *)
Definition extend_active_rfqs (all page : ActiveRfqsData.t) : ActiveRfqsData.t :=
  {| ActiveRfqsData.rfqs := ActiveRfqsData.rfqs all ++ ActiveRfqsData.rfqs page |}.

(* ws/maker/data.rs:91-91 PagedRequest::append (GetMyActiveRfqsMessage) *)
Definition extend_my_active_rfqs (all page : MyActiveRfqsData.t) : MyActiveRfqsData.t :=
  {| MyActiveRfqsData.rfqs := MyActiveRfqsData.rfqs all ++ MyActiveRfqsData.rfqs page |}.

(* ws/maker/data.rs:92-92 PagedRequest::append (GetPositionsMessage) *)
Definition extend_positions (all page : PositionsData.t) : PositionsData.t :=
  {| PositionsData.positions := PositionsData.positions all ++ PositionsData.positions page |}.

(* ws/maker/data.rs:93-93 PagedRequest::append (GetPositionSummaryMessage) *)
Definition extend_position_summary (all page : PositionSummaryData.t) : PositionSummaryData.t :=
  {| PositionSummaryData.summaries := PositionSummaryData.summaries all ++ PositionSummaryData.summaries page |}.

(* ws/maker/data.rs:94-94 PagedRequest::append (GetIndicativePricesMessage) *)
Definition extend_indicative_prices (all page : IndicativePricesMessage.t) : IndicativePricesMessage.t :=
  {| IndicativePricesMessage.market := IndicativePricesMessage.market all;
     IndicativePricesMessage.position_type := IndicativePricesMessage.position_type all;
     IndicativePricesMessage.updated_at := IndicativePricesMessage.updated_at all;
     IndicativePricesMessage.is_stale := IndicativePricesMessage.is_stale all;
     IndicativePricesMessage.strikes := IndicativePricesMessage.strikes all ++ IndicativePricesMessage.strikes page |}.

(* ws/maker/data.rs:95-95 PagedRequest::append (GetMarketsForMakerMessage) *)
Definition extend_maker_markets (all page : MakerMarketsMessage.t) : MakerMarketsMessage.t :=
  {| MakerMarketsMessage.markets := MakerMarketsMessage.markets all ++ MakerMarketsMessage.markets page |}.

(* ws/maker/data.rs:96-103 PagedRequest::append (GetTokenCapsMessage) *)
Definition extend_token_caps (all page : TokenCapsData.t) : TokenCapsData.t :=
  {| TokenCapsData.tokens := TokenCapsData.tokens all ++ TokenCapsData.tokens page;
     TokenCapsData.markets := TokenCapsData.markets all ++ TokenCapsData.markets page;
     TokenCapsData.quotes := TokenCapsData.quotes all ++ TokenCapsData.quotes page;
     TokenCapsData.quote_liabilities := TokenCapsData.quote_liabilities all ++ TokenCapsData.quote_liabilities page |}.

(* ws/maker/data.rs:104-110 PagedRequest::append (GetMyCapsMessage) *)
Definition extend_my_caps (all page : MyCapsData.t) : MyCapsData.t :=
  {| MyCapsData.positions := MyCapsData.positions all;
     MyCapsData.notional := MyCapsData.notional all ++ MyCapsData.notional page;
     MyCapsData.balances := MyCapsData.balances all ++ MyCapsData.balances page;
     MyCapsData.quote_liabilities := MyCapsData.quote_liabilities all ++ MyCapsData.quote_liabilities page |}.

(* ws/maker/data.rs:111-111 PagedRequest::append (GetEarnSummaryMessage) *)
Definition extend_earn_summary (all page : EarnSummaryData.t) : EarnSummaryData.t :=
  {| EarnSummaryData.assets := EarnSummaryData.assets all ++ EarnSummaryData.assets page;
     EarnSummaryData.computed_at := EarnSummaryData.computed_at all |}.

(** The nested fields [caps.notional], [caps.balances] and [caps.quote_liabilities]. *)
(* ws/maker/data.rs:127-129 PagedRequest::append (GetMmSummaryMessage, caps) *)
Definition extend_caps (all page : MakerCapsSnapshot.t) : MakerCapsSnapshot.t :=
  {| MakerCapsSnapshot.positions := MakerCapsSnapshot.positions all;
     MakerCapsSnapshot.notional := MakerCapsSnapshot.notional all ++ MakerCapsSnapshot.notional page;
     MakerCapsSnapshot.balances := MakerCapsSnapshot.balances all ++ MakerCapsSnapshot.balances page;
     MakerCapsSnapshot.quote_liabilities :=
       MakerCapsSnapshot.quote_liabilities all ++ MakerCapsSnapshot.quote_liabilities page |}.

(* ws/maker/data.rs:119-130 PagedRequest::append (GetMmSummaryMessage) *)
Definition extend_mm_summary (all page : MmSummaryData.t) : MmSummaryData.t :=
  {| MmSummaryData.maker_pda := MmSummaryData.maker_pda all;
     MmSummaryData.caps := extend_caps (MmSummaryData.caps all) (MmSummaryData.caps page);
     MmSummaryData.positions := MmSummaryData.positions all ++ MmSummaryData.positions page;
     MmSummaryData.active_quotes := MmSummaryData.active_quotes all ++ MmSummaryData.active_quotes page;
     MmSummaryData.markets := MmSummaryData.markets all ++ MmSummaryData.markets page;
     MmSummaryData.tokens := MmSummaryData.tokens all ++ MmSummaryData.tokens page;
     MmSummaryData.computed_at := MmSummaryData.computed_at all;
     MmSummaryData.unrenderable_positions :=
       MmSummaryData.unrenderable_positions all ++ MmSummaryData.unrenderable_positions page |}.

(** ** The requests *)

Definition page_lens : PageLens PageRequest := {|
  l_request_id := pq_request_id; l_limit := pq_limit; l_cursor := pq_cursor;
  l_set id limit c q := {| pq_request_id := id; pq_limit := limit; pq_cursor := c |}
|}.

Definition positions_lens : PageLens GetPositionsMessage := {|
  l_request_id := gp_request_id; l_limit := gp_limit; l_cursor := gp_cursor;
  l_set id limit c q := {| gp_request_id := id; gp_market := gp_market q; gp_underlying_mint := gp_underlying_mint q; gp_status := gp_status q; gp_min_expiry_ts := gp_min_expiry_ts q; gp_limit := limit; gp_cursor := c |}
|}.

Definition quotes_lens : PageLens GetMyQuotesMessage := {|
  l_request_id := gq_request_id; l_limit := gq_limit; l_cursor := gq_cursor;
  l_set id limit c q := {| gq_request_id := id; gq_scope := gq_scope q; gq_limit := limit; gq_cursor := c |}
|}.

Definition maker_markets_lens : PageLens GetMarketsForMakerMessage := {|
  l_request_id := gm_request_id; l_limit := gm_limit; l_cursor := gm_cursor;
  l_set id limit c q := {| gm_request_id := id; gm_limit := limit; gm_cursor := c; gm_underlying_mints := gm_underlying_mints q; gm_quote_mints := gm_quote_mints q; gm_min_expiry_ts := gm_min_expiry_ts q; gm_max_expiry_ts := gm_max_expiry_ts q; gm_is_put := gm_is_put q |}
|}.

Definition caps_lens : PageLens GetTokenCapsMessage := {|
  l_request_id := gc_request_id; l_limit := gc_limit; l_cursor := gc_cursor;
  l_set id limit c q := {| gc_limit := limit; gc_cursor := c; gc_request_id := id; gc_include_markets := gc_include_markets q |}
|}.

Definition expiries_lens : PageLens GetExpiriesMessage := {|
  l_request_id := ge_request_id; l_limit := ge_limit; l_cursor := ge_cursor;
  l_set id limit c q := {| ge_limit := limit; ge_cursor := c; ge_request_id := id; ge_underlying_mint := ge_underlying_mint q; ge_quote_mint := ge_quote_mint q; ge_is_put := ge_is_put q |}
|}.

Definition indicatives_lens : PageLens GetIndicativePricesMessage := {|
  l_request_id := gi_request_id; l_limit := gi_limit; l_cursor := gi_cursor;
  l_set id limit c q := {| gi_limit := limit; gi_cursor := c; gi_request_id := id; gi_market := gi_market q; gi_position_type := gi_position_type q |}
|}.

Definition trades_lens : PageLens GetMyTradesMessage := {|
  l_request_id := gt_request_id; l_limit := gt_limit; l_cursor := gt_cursor;
  l_set id limit c q := {| gt_request_id := id; gt_limit := limit; gt_cursor := c; gt_market := gt_market q |}
|}.

Definition token_markets_lens : PageLens GetTokenMarketsInfoMessage := {|
  l_request_id := gk_request_id; l_limit := gk_limit; l_cursor := gk_cursor;
  l_set id limit c q := {| gk_limit := limit; gk_cursor := c; gk_request_id := id; gk_underlying_mint := gk_underlying_mint q |}
|}.

(* ws/maker/data.rs:415-421 MakerDataRequest for GetActiveRfqsMessage *)
Definition get_active_rfqs : MakerDataRequest PageRequest (PageReply ActiveRfqsData.t) := {|
  into_message := ClientMessage.GetActiveRfqs;
  into_response message := match message with ServerMessage.ActiveRfqs response => Ok response | other => Err other end;
  RESPONSE_TYPE := "ActiveRfqs";
  paged := Some {| pr_lens := page_lens; append := append_page extend_active_rfqs; cursor := pg_next_cursor |}
|}.

(* ws/maker/data.rs:422-422 MakerDataRequest for GetMarketsMessage *)
Definition get_markets : MakerDataRequest PageRequest (PageReply MarketsData.t) := {|
  into_message := ClientMessage.GetMarkets;
  into_response message := match message with ServerMessage.Markets response => Ok response | other => Err other end;
  RESPONSE_TYPE := "Markets";
  paged := Some {| pr_lens := page_lens; append := append_page extend_markets; cursor := pg_next_cursor |}
|}.

(* ws/maker/data.rs:423-429 MakerDataRequest for GetMarketDescriptorsMessage *)
Definition get_market_descriptors : MakerDataRequest PageRequest (PageReply MarketDescriptorsData.t) := {|
  into_message := ClientMessage.GetMarketDescriptors;
  into_response message := match message with ServerMessage.MarketDescriptors response => Ok response | other => Err other end;
  RESPONSE_TYPE := "MarketDescriptors";
  paged := Some {| pr_lens := page_lens; append := append_page extend_market_descriptors; cursor := pg_next_cursor |}
|}.

(* ws/maker/data.rs:430-436 MakerDataRequest for GetExpiriesMessage *)
Definition get_expiries : MakerDataRequest GetExpiriesMessage (PageReply ExpiriesData.t) := {|
  into_message := ClientMessage.GetExpiries;
  into_response message := match message with ServerMessage.Expiries response => Ok response | other => Err other end;
  RESPONSE_TYPE := "Expiries";
  paged := Some {| pr_lens := expiries_lens; append := append_page extend_expiries; cursor := pg_next_cursor |}
|}.

(* ws/maker/data.rs:437-437 MakerDataRequest for GetTokensMessage *)
Definition get_tokens : MakerDataRequest PageRequest (PageReply TokensData.t) := {|
  into_message := ClientMessage.GetTokens;
  into_response message := match message with ServerMessage.Tokens response => Ok response | other => Err other end;
  RESPONSE_TYPE := "Tokens";
  paged := Some {| pr_lens := page_lens; append := append_page extend_tokens; cursor := pg_next_cursor |}
|}.

(* ws/maker/data.rs:438-444 MakerDataRequest for GetIndicativePricesMessage *)
Definition get_indicative_prices : MakerDataRequest GetIndicativePricesMessage (PageReply IndicativePricesMessage.t) := {|
  into_message := ClientMessage.GetIndicativePrices;
  into_response message := match message with ServerMessage.IndicativePrices response => Ok response | other => Err other end;
  RESPONSE_TYPE := "IndicativePrices";
  paged := Some {| pr_lens := indicatives_lens; append := append_page extend_indicative_prices; cursor := pg_next_cursor |}
|}.

(* ws/maker/data.rs:445-451 MakerDataRequest for GetMakerPositionsMessage *)
Definition get_maker_positions : MakerDataRequest GetPositionsMessage (PageReply MakerPositionsMessage.t) := {|
  into_message := ClientMessage.GetMakerPositions;
  into_response message := match message with ServerMessage.MakerPositions response => Ok response | other => Err other end;
  RESPONSE_TYPE := "MakerPositions";
  paged := Some {| pr_lens := positions_lens; append := append_page extend_maker_positions; cursor := pg_next_cursor |}
|}.

(* ws/maker/data.rs:452-458 MakerDataRequest for GetMyQuotesMessage *)
Definition get_my_quotes : MakerDataRequest GetMyQuotesMessage (PageReply MyQuotesMessage.t) := {|
  into_message := ClientMessage.GetMyQuotes;
  into_response message := match message with ServerMessage.MyQuotes response => Ok response | other => Err other end;
  RESPONSE_TYPE := "MyQuotes";
  paged := Some {| pr_lens := quotes_lens; append := append_page extend_my_quotes; cursor := pg_next_cursor |}
|}.

(* ws/maker/data.rs:459-464 MakerDataRequest for GetOrderStatusMessage *)
Definition get_order_status : MakerDataRequest GetOrderStatusMessage OrderStatusMessage.t := {|
  into_message := ClientMessage.GetOrderStatus;
  into_response message := match message with ServerMessage.OrderStatus response => Ok response | other => Err other end;
  RESPONSE_TYPE := "OrderStatus";
  paged := None
|}.

(* ws/maker/data.rs:465-471 MakerDataRequest for GetMarketsForMakerMessage *)
Definition get_markets_for_maker : MakerDataRequest GetMarketsForMakerMessage (PageReply MakerMarketsMessage.t) := {|
  into_message := ClientMessage.GetMarketsForMaker;
  into_response message := match message with ServerMessage.MakerMarkets response => Ok response | other => Err other end;
  RESPONSE_TYPE := "MakerMarkets";
  paged := Some {| pr_lens := maker_markets_lens; append := append_page extend_maker_markets; cursor := pg_next_cursor |}
|}.

(* ws/maker/data.rs:472-478 MakerDataRequest for GetTokenCapsMessage *)
Definition get_token_caps : MakerDataRequest GetTokenCapsMessage (PageReply TokenCapsData.t) := {|
  into_message := ClientMessage.GetTokenCaps;
  into_response message := match message with ServerMessage.TokenCaps response => Ok response | other => Err other end;
  RESPONSE_TYPE := "TokenCaps";
  paged := Some {| pr_lens := caps_lens; append := append_page extend_token_caps; cursor := pg_next_cursor |}
|}.

(* ws/maker/data.rs:479-479 MakerDataRequest for GetMyCapsMessage *)
Definition get_my_caps : MakerDataRequest PageRequest (PageReply MyCapsData.t) := {|
  into_message := ClientMessage.GetMyCaps;
  into_response message := match message with ServerMessage.MyCaps response => Ok response | other => Err other end;
  RESPONSE_TYPE := "MyCaps";
  paged := Some {| pr_lens := page_lens; append := append_page extend_my_caps; cursor := pg_next_cursor |}
|}.

(* ws/maker/data.rs:480-480 MakerDataRequest for CheckQuoteMessage *)
Definition check_quote : MakerDataRequest CheckQuoteMessage QuoteCheckData.t := {|
  into_message := ClientMessage.CheckQuote;
  into_response message := match message with ServerMessage.QuoteCheck response => Ok response | other => Err other end;
  RESPONSE_TYPE := "QuoteCheck";
  paged := None
|}.

(* ws/maker/data.rs:481-487 MakerDataRequest for GetMyTradesMessage *)
Definition get_my_trades : MakerDataRequest GetMyTradesMessage (PageReply MyTradesMessage.t) := {|
  into_message := ClientMessage.GetMyTrades;
  into_response message := match message with ServerMessage.MyTrades response => Ok response | other => Err other end;
  RESPONSE_TYPE := "MyTrades";
  paged := Some {| pr_lens := trades_lens; append := append_page extend_my_trades; cursor := pg_next_cursor |}
|}.

(* ws/maker/data.rs:488-494 MakerDataRequest for GetEarnSummaryMessage *)
Definition get_earn_summary : MakerDataRequest PageRequest (PageReply EarnSummaryData.t) := {|
  into_message := ClientMessage.GetEarnSummary;
  into_response message := match message with ServerMessage.EarnSummary response => Ok response | other => Err other end;
  RESPONSE_TYPE := "EarnSummary";
  paged := Some {| pr_lens := page_lens; append := append_page extend_earn_summary; cursor := pg_next_cursor |}
|}.

(* ws/maker/data.rs:495-501 MakerDataRequest for GetMmSummaryMessage *)
Definition get_mm_summary : MakerDataRequest PageRequest (PageReply MmSummaryData.t) := {|
  into_message := ClientMessage.GetMmSummary;
  into_response message := match message with ServerMessage.MmSummary response => Ok response | other => Err other end;
  RESPONSE_TYPE := "MmSummary";
  paged := Some {| pr_lens := page_lens; append := append_page extend_mm_summary; cursor := pg_next_cursor |}
|}.

(* ws/maker/data.rs:502-508 MakerDataRequest for GetTokenMarketsInfoMessage *)
Definition get_token_markets_info : MakerDataRequest GetTokenMarketsInfoMessage (PageReply TokenMarketsInfoData.t) := {|
  into_message := ClientMessage.GetTokenMarketsInfo;
  into_response message := match message with ServerMessage.TokenMarketsInfo response => Ok response | other => Err other end;
  RESPONSE_TYPE := "TokenMarketsInfo";
  paged := Some {| pr_lens := token_markets_lens; append := append_page merge_token_markets; cursor := pg_next_cursor |}
|}.

(* ws/maker/data.rs:510-516 MakerDataRequest for GetPositionsMessage *)
Definition get_positions : MakerDataRequest GetPositionsMessage (PageReply PositionsData.t) := {|
  into_message := ClientMessage.GetPositions;
  into_response message := match message with ServerMessage.Positions response => Ok response | other => Err other end;
  RESPONSE_TYPE := "Positions";
  paged := Some {| pr_lens := positions_lens; append := append_page extend_positions; cursor := pg_next_cursor |}
|}.

(* ws/maker/data.rs:517-523 MakerDataRequest for GetPositionSummaryMessage *)
Definition get_position_summary : MakerDataRequest PageRequest (PageReply PositionSummaryData.t) := {|
  into_message := ClientMessage.GetPositionSummary;
  into_response message := match message with ServerMessage.PositionSummary response => Ok response | other => Err other end;
  RESPONSE_TYPE := "PositionSummary";
  paged := Some {| pr_lens := page_lens; append := append_page extend_position_summary; cursor := pg_next_cursor |}
|}.

(* ws/maker/data.rs:524-530 MakerDataRequest for GetMyActiveRfqsMessage *)
Definition get_my_active_rfqs : MakerDataRequest PageRequest (PageReply MyActiveRfqsData.t) := {|
  into_message := ClientMessage.GetMyActiveRfqs;
  into_response message := match message with ServerMessage.MyActiveRfqs response => Ok response | other => Err other end;
  RESPONSE_TYPE := "MyActiveRfqs";
  paged := Some {| pr_lens := page_lens; append := append_page extend_my_active_rfqs; cursor := pg_next_cursor |}
|}.

(* ws/maker/data.rs:531-537 MakerDataRequest for GetSubscriptionsMessage *)
Definition get_subscriptions : MakerDataRequest PageRequest SubscriptionsMessage := {|
  into_message := ClientMessage.GetSubscriptions;
  into_response message := match message with ServerMessage.Subscriptions response => Ok response | other => Err other end;
  RESPONSE_TYPE := "Subscriptions";
  paged := Some {| pr_lens := page_lens; append := append_subscriptions; cursor := subs_next_cursor |}
|}.

(** ** The client *)

Module MakerDataRequestError.
(* ws/maker/data.rs:210-231 MakerDataRequestError *)
Inductive t :=
| InvalidPage
| Continuation (e : Paging.InvalidPage)
| SessionError (e : ManagedWsError.t)
| Transport (e : SendAwaitError.t)
| Rejected (request_id : Uuid) (response : ServerMessage.t)
| UnexpectedResponse (expected : string) (response : ServerMessage.t).

(* ws/maker/data.rs:234-243 MakerDataRequestError::server_error *)
Definition server_error (self : t) : option ServerError.t :=
  match self with
  | Rejected _ (ServerMessage.RequestError _ error _) => Some error
  | _ => None
  end.
End MakerDataRequestError.

Module MakerClientError.
(* ws/maker/mod.rs:15-26 MakerClientError *)
Inductive t :=
| WrongEndpoint (client : string) (required actual : MakerWsEndpoint.t)
| InvalidConfig (e : ManagedWsConfigError.t).
End MakerClientError.

Section client.
Context (serialize : ClientMessage.t -> string + string).

(* ws/maker/data.rs:260-269 MakerDataClient::prepare_config *)
Definition prepare_config (config : ManagedWsConfig) : res MakerClientError.t ManagedWsConfig :=
  _ ← reject_if (negb (bool_decide (c_endpoint config = MakerWsEndpoint.Data)))
        (MakerClientError.WrongEndpoint "MakerDataClient" MakerWsEndpoint.Data (c_endpoint config));
  Ok config.

(* ws/maker/data.rs:253-258 MakerDataClient::spawn *)
Definition data_spawn (config : ManagedWsConfig) : res MakerClientError.t Handle :=
  config ← prepare_config config;
  map_err MakerClientError.InvalidConfig (spawn_managed_ws serialize config).

(** [wait n]: what happens while the n-th call waits for room ([None]: until its deadline);
    [turn n]: how the handle is when the n-th reply is decided, and the reply. *)
Context (new_v4 : nat -> Uuid).
Context (wait : nat -> Handle -> option Handle).
Context (turn : nat -> Handle -> Handle * Awaited (res SendAwaitError.t ServerMessage.t)).

(** The calls made and the ids drawn so far; [dw_sent] records what was handed to the
    session. *)
Record DataWorld := {
  dw_handle : Handle;
  dw_calls : nat;
  dw_ids : nat;
  dw_sent : list ClientMessage.t;
}.

Definition draw (w : DataWorld) : Uuid * DataWorld :=
  (new_v4 (dw_ids w),
   {| dw_handle := dw_handle w; dw_calls := dw_calls w; dw_ids := S (dw_ids w); dw_sent := dw_sent w |}).

(** [send_await_ready], to its end. *)
Definition awaited_ready (w : DataWorld) (message : ClientMessage.t)
  : DataWorld * res SendAwaitError.t ServerMessage.t :=
  let n := dw_calls w in
  let next h sent := {| dw_handle := h; dw_calls := S n; dw_ids := dw_ids w; dw_sent := (dw_sent w ++ sent)%list |} in
  match send_await_ready serialize (wait n) (dw_handle w) message with
  | (Err e, h) => (next h [], Err e)
  | (Panic, h) => (next h [], Panic)
  | (Ok await_id, h) =>
      let '(h, rx) := turn n h in
      let '(reply, h) := response h await_id rx in
      (next h [message], reply)
  end.

Section request.
Context {Q R : Type} (D : MakerDataRequest Q R).

(* ws/maker/data.rs:282-308 MakerDataClient::request_page *)
Definition request_page (w : DataWorld) (request : Q) : DataWorld * res MakerDataRequestError.t R :=
  let '(w, reply) := awaited_ready w (into_message D request) in
  (w,
   message ← map_err MakerDataRequestError.Transport reply;
   match message with
   | ServerMessage.RequestError request_id _ _ => Err (MakerDataRequestError.Rejected request_id message)
   | _ => map_err (MakerDataRequestError.UnexpectedResponse (RESPONSE_TYPE D)) (into_response D message)
   end).

(** The closure given to [fetch_all]. *)
(* ws/maker/data.rs:319-327 MakerDataClient::all_pages (load) *)
Definition load_page (P : PagedRequest Q R) (request : Q) (w : DataWorld) (c : Cursor.t)
  : DataWorld * res MakerDataRequestError.t R :=
  let '(id, w) := draw w in request_page w (request_cursor P id c request).

(* ws/maker/data.rs:310-332 MakerDataClient::all_pages *)
Definition all_pages (P : PagedRequest Q R) (fuel : nat) (w : DataWorld) (request : Q)
  : option (DataWorld * res MakerDataRequestError.t R) :=
  let '(id, w) := draw w in
  fetch_all MakerDataRequestError.Continuation (load_page P (first_page P id request)) (cursor P) (append P) fuel w.

(** [R::fetch]: the pages of a list, or one answer. *)
(* ws/maker/data.rs:273-279 MakerDataClient::request_all *)
Definition request_all (fuel : nat) (w : DataWorld) (request : Q)
  : option (DataWorld * res MakerDataRequestError.t R) :=
  match paged D with
  | Some P => all_pages P fuel w request
  | None => Some (request_page w request)
  end.
End request.
End client.

(** ** What a list holds *)

Section lawful.
Context {Q R : Type}.

(** The assignments of the macro reach the three fields and no other. *)
Definition lens_lawful (l : PageLens Q) : Prop :=
  forall i n c q, l_request_id l (l_set l i n c q) = i /\ l_limit l (l_set l i n c q) = n /\ l_cursor l (l_set l i n c q) = c /\
    (forall i' n' c', l_set l i' n' c' (l_set l i n c q) = l_set l i' n' c' q) /\
    l_set l (l_request_id l q) (l_limit l q) (l_cursor l q) q = q.

(** A request is correlated by its id; a list takes over the continuation of its last page. *)
Definition lawful_request (D : MakerDataRequest Q R) : Prop :=
  (forall message, into_response D message <> Panic) /\
  match paged D with
  | Some P =>
      lens_lawful (pr_lens P) /\
      (forall q, ClientMessage.request_id (into_message D q) = Some (l_request_id (pr_lens P) q)) /\
      (forall all page, cursor P (append P all page) = cursor P page)
  | None => True
  end.

(** A field whose rows are collected. *)
Definition extends {A} (D : MakerDataRequest Q R) (rows : R -> list A) : Prop :=
  match paged D with
  | Some P => forall all page, rows (append P all page) = (rows all ++ rows page)%list
  | None => False
  end.
End lawful.

Definition requests_lawful : Prop :=
  lawful_request get_active_rfqs /\
  lawful_request get_markets /\
  lawful_request get_market_descriptors /\
  lawful_request get_expiries /\
  lawful_request get_tokens /\
  lawful_request get_indicative_prices /\
  lawful_request get_maker_positions /\
  lawful_request get_my_quotes /\
  lawful_request get_order_status /\
  lawful_request get_markets_for_maker /\
  lawful_request get_token_caps /\
  lawful_request get_my_caps /\
  lawful_request check_quote /\
  lawful_request get_my_trades /\
  lawful_request get_earn_summary /\
  lawful_request get_mm_summary /\
  lawful_request get_token_markets_info /\
  lawful_request get_positions /\
  lawful_request get_position_summary /\
  lawful_request get_my_active_rfqs /\
  lawful_request get_subscriptions.

Definition rows_collected : Prop :=
  extends get_active_rfqs (fun p => ActiveRfqsData.rfqs (pg_body p)) /\
  extends get_markets (fun p => MarketsData.markets (pg_body p)) /\
  extends get_market_descriptors (fun p => MarketDescriptorsData.markets (pg_body p)) /\
  extends get_expiries (fun p => ExpiriesData.expiries_ts (pg_body p)) /\
  extends get_tokens (fun p => TokensData.tokens (pg_body p)) /\
  extends get_indicative_prices (fun p => IndicativePricesMessage.strikes (pg_body p)) /\
  extends get_maker_positions (fun p => MakerPositionsMessage.positions (pg_body p)) /\
  extends get_maker_positions (fun p => MakerPositionsMessage.unrenderable (pg_body p)) /\
  extends get_my_quotes (fun p => MyQuotesMessage.quotes (pg_body p)) /\
  extends get_markets_for_maker (fun p => MakerMarketsMessage.markets (pg_body p)) /\
  extends get_token_caps (fun p => TokenCapsData.tokens (pg_body p)) /\
  extends get_token_caps (fun p => TokenCapsData.markets (pg_body p)) /\
  extends get_token_caps (fun p => TokenCapsData.quotes (pg_body p)) /\
  extends get_token_caps (fun p => TokenCapsData.quote_liabilities (pg_body p)) /\
  extends get_my_caps (fun p => MyCapsData.notional (pg_body p)) /\
  extends get_my_caps (fun p => MyCapsData.balances (pg_body p)) /\
  extends get_my_caps (fun p => MyCapsData.quote_liabilities (pg_body p)) /\
  extends get_my_trades (fun p => MyTradesMessage.trades (pg_body p)) /\
  extends get_earn_summary (fun p => EarnSummaryData.assets (pg_body p)) /\
  extends get_mm_summary (fun p => MmSummaryData.positions (pg_body p)) /\
  extends get_mm_summary (fun p => MmSummaryData.unrenderable_positions (pg_body p)) /\
  extends get_mm_summary (fun p => MmSummaryData.active_quotes (pg_body p)) /\
  extends get_mm_summary (fun p => MmSummaryData.markets (pg_body p)) /\
  extends get_mm_summary (fun p => MmSummaryData.tokens (pg_body p)) /\
  extends get_mm_summary (fun p => MakerCapsSnapshot.notional (MmSummaryData.caps (pg_body p))) /\
  extends get_mm_summary (fun p => MakerCapsSnapshot.balances (MmSummaryData.caps (pg_body p))) /\
  extends get_mm_summary (fun p => MakerCapsSnapshot.quote_liabilities (MmSummaryData.caps (pg_body p))) /\
  extends get_positions (fun p => PositionsData.positions (pg_body p)) /\
  extends get_position_summary (fun p => PositionSummaryData.summaries (pg_body p)) /\
  extends get_my_active_rfqs (fun p => MyActiveRfqsData.rfqs (pg_body p)) /\
  extends get_subscriptions subs_channels /\
  extends get_subscriptions subs_underlying_mints /\
  extends get_subscriptions subs_quote_mints.

Lemma requests_are_lawful : requests_lawful.
Proof.
  unfold requests_lawful, lawful_request; split_and!; try by intros [].
  all: first [exact I | split; [intros i n c []; split_and!; done|split; done]].
Qed.

Lemma rows_are_collected : rows_collected.
Proof. unfold rows_collected. split_and!; intros all page; done. Qed.

Local Open Scope list_scope.

(** *** The markets of a token *)

(** The strikes listed for a market and a position type. *)
Definition indicative_strikes (pt : PositionType.t) (i : TokenMarketIndicatives.t) : list IndicativeStrikeBest.t :=
  if decide (TokenMarketIndicatives.position_type i = pt) then TokenMarketIndicatives.strikes i else [].
Definition entry_strikes (m : key) (pt : PositionType.t) (e : TokenMarketEntry.t) : list IndicativeStrikeBest.t :=
  if decide (TokenMarketEntry.market_pda e = m) then TokenMarketEntry.indicatives e ≫= indicative_strikes pt else [].
Definition strikes_of (m : key) (pt : PositionType.t) (d : TokenMarketsInfoData.t) : list IndicativeStrikeBest.t :=
  TokenMarketsInfoData.markets d ≫= entry_strikes m pt.

Lemma bind_insert {A B} (f : A -> list B) (l : list A) n x y extra :
  l !! n = Some x -> f y ≡ₚ f x ++ extra -> (<[n := y]> l ≫= f) ≡ₚ (l ≫= f) ++ extra.
Proof.
  intros Hl Hy. pose proof (lookup_lt_Some _ _ _ Hl).
  rewrite insert_take_drop by done. rewrite <- (take_drop_middle l n x Hl) at 3.
  rewrite !bind_app, !bind_cons, Hy. solve_Permutation.
Qed.

Lemma add_indicative_strikes pt l i :
  (add_indicative l i ≫= indicative_strikes pt) ≡ₚ (l ≫= indicative_strikes pt) ++ indicative_strikes pt i.
Proof.
  unfold add_indicative. destruct (list_find _ l) as [[n current]|] eqn:E.
  - apply list_find_Some in E as (Hl & Hp & _). eapply bind_insert; [exact Hl|].
    unfold indicative_strikes. simpl. rewrite Hp. by case_decide.
  - rewrite bind_app. simpl. by rewrite app_nil_r.
Qed.

Lemma add_indicatives_strikes pt xs l :
  (foldl add_indicative l xs ≫= indicative_strikes pt) ≡ₚ (l ≫= indicative_strikes pt) ++ (xs ≫= indicative_strikes pt).
Proof.
  revert l. induction xs as [|i xs IH]; intros l; simpl; [by rewrite app_nil_r|].
  rewrite IH, add_indicative_strikes. by rewrite <- app_assoc.
Qed.

Lemma add_market_strikes m pt l e :
  (add_market l e ≫= entry_strikes m pt) ≡ₚ (l ≫= entry_strikes m pt) ++ entry_strikes m pt e.
Proof.
  unfold add_market. destruct (list_find _ l) as [[n existing]|] eqn:E.
  - apply list_find_Some in E as (Hl & Hp & _). eapply bind_insert; [exact Hl|].
    unfold entry_strikes. simpl. rewrite Hp. case_decide; [|done]. apply add_indicatives_strikes.
  - rewrite bind_app. simpl. by rewrite app_nil_r.
Qed.

Lemma add_markets_strikes m pt es l :
  (foldl add_market l es ≫= entry_strikes m pt) ≡ₚ (l ≫= entry_strikes m pt) ++ (es ≫= entry_strikes m pt).
Proof.
  revert l. induction es as [|e es IH]; intros l; simpl; [by rewrite app_nil_r|].
  rewrite IH, add_market_strikes. by rewrite <- app_assoc.
Qed.

(** No market is listed twice once none is. *)
Lemma add_market_pdas l e :
  NoDup (TokenMarketEntry.market_pda <$> l) -> NoDup (TokenMarketEntry.market_pda <$> add_market l e).
Proof.
  intros H. unfold add_market. destruct (list_find _ l) as [[n existing]|] eqn:E.
  - apply list_find_Some in E as (Hl & _ & _). rewrite list_fmap_insert. simpl.
    rewrite list_insert_id; [done|]. by rewrite list_lookup_fmap, Hl.
  - rewrite fmap_app. apply NoDup_app. split; [done|]. split; [|apply NoDup_singleton].
    intros k Hk Hin. apply list_find_None in E. apply list_elem_of_singleton in Hin as ->.
    apply list_elem_of_fmap in Hk as (e' & He & Hin). rewrite Forall_forall in E. by apply (E e').
Qed.

Lemma add_markets_pdas es l :
  NoDup (TokenMarketEntry.market_pda <$> l) -> NoDup (TokenMarketEntry.market_pda <$> foldl add_market l es).
Proof. revert l. induction es as [|e es IH]; intros l H; simpl; [done|]. apply IH. by apply add_market_pdas. Qed.

(** *** Reading a list *)

Section reading.
Context (serialize : ClientMessage.t -> string + string) (new_v4 : nat -> Uuid).
Context (wait : nat -> Handle -> option Handle).
Context (turn : nat -> Handle -> Handle * Awaited (res SendAwaitError.t ServerMessage.t)).
Context {Q R : Type} (D : MakerDataRequest Q R) (P : PagedRequest Q R).

(** What a page can be: the typed content of a reply. *)
Definition answered (page : R) : Prop :=
  exists n h h' message, turn n h = (h', Replied (Ok message)) /\ into_response D message = Ok page.

Lemma request_page_Ok w request w' page :
  request_page serialize wait turn D w request = (w', Ok page) ->
  dw_sent w' = dw_sent w ++ [into_message D request] /\ dw_ids w' = dw_ids w /\ answered page.
Proof.
  unfold request_page, awaited_ready.
  destruct (send_await_ready _ _ _ _) as [[id|e|] h] eqn:Es; [|by intros [= _ H]..].
  destruct (turn (dw_calls w) h) as [h1 rx] eqn:Et.
  destruct rx as [[message|e|]| |]; simpl; try by intros [= _ H].
  destruct (into_response D message) as [p|other|] eqn:Er; simpl; [|by destruct message; intros [= _ H]..].
  intros H. assert (Hp : p = page) by (destruct message; by injection H).
  injection H as <- _. subst p. split_and!; [done..|]. exists (dw_calls w), h, h1, message. done.
Qed.

Lemma send_await_ready_returns timed h m : (send_await_ready serialize timed h m).1 <> Panic.
Proof.
  unfold send_await_ready. destruct (ready_epoch h) as [epoch| |]; [|done..]. unfold send_await_with_epoch, await_command.
  assert (Hp : prepare_outbound serialize h m <> Panic).
  { change (returns (prepare_outbound serialize h m)). unfold prepare_outbound. repeat returns_step. }
  destruct (prepare_outbound serialize h m) as [u| |]; [|done..].
  unfold Tracker.prepare. destruct (Tracker.for_client m); simpl; [|done].
  destruct (timed _) as [h1|]; [|done]. by destruct (cmd_send h1 _) as [[]].
Qed.

Lemma request_page_returns w request w' :
  (forall message, into_response D message <> Panic) ->
  request_page serialize wait turn D w request = (w', Panic) -> exists n h, (turn n h).2 = Replied Panic.
Proof.
  intros Hi. unfold request_page, awaited_ready.
  pose proof (send_await_ready_returns (wait (dw_calls w)) (dw_handle w) (into_message D request)) as Hs.
  destruct (send_await_ready _ _ _ _) as [[id|e|] h] eqn:Es; [|by intros [= _ H]|done].
  destruct (turn (dw_calls w) h) as [h1 rx] eqn:Et.
  destruct rx as [[message|e|]| |]; simpl; try by intros [= _ H].
  - specialize (Hi message). destruct (into_response D message) as [p|other|] eqn:Er; simpl; [| |done];
      by destruct message; intros [= _ H].
  - intros _. exists (dw_calls w), h. by rewrite Et.
Qed.

Hypothesis HP : paged D = Some P.
Hypothesis HD : lawful_request D.

(** The [k]th id drawn, at the largest page size. *)
Definition asked (request : Q) (k : nat) (c : Cursor.t) : ClientMessage.t :=
  into_message D (l_set (pr_lens P) (new_v4 k) 200 c request).

Lemma load_page_Ok first request w c w' page :
  load_page serialize new_v4 wait turn D P (first_page P first request) w c = (w', Ok page) ->
  dw_sent w' = dw_sent w ++ [asked request (dw_ids w) c] /\ dw_ids w' = S (dw_ids w) /\ answered page.
Proof.
  unfold load_page, draw, request_cursor, first_page. intros H. apply request_page_Ok in H as (Hs & Hi & Ha).
  destruct HD as [_ Hl]. rewrite HP in Hl. destruct Hl as [Hl _].
  destruct (Hl first 200 Cursor.Start request) as (_ & Hn & _ & Hss & _). rewrite Hn, Hss in Hs. done.
Qed.

(** The cursors of a chain: the start, then each page's continuation. *)
Definition cursors (earlier : list R) : list Cursor.t := Cursor.Start :: (Cursor.After <$> omap (cursor P) earlier).

Lemma chain_sent first request w earlier page w' :
  page_chain (load_page serialize new_v4 wait turn D P (first_page P first request)) (cursor P) w earlier page w' ->
  dw_sent w' = dw_sent w ++ imap (fun i c => asked request (dw_ids w + i) c) (cursors earlier) /\
  dw_ids w' = (dw_ids w + S (length earlier))%nat /\ length (omap (cursor P) earlier) = length earlier /\
  NoDup (omap (cursor P) earlier) /\ "" ∉ omap (cursor P) earlier /\ Forall answered (earlier ++ [page]).
Proof.
  induction 1 as [page w1 Hl|earlier page w1 id page' w2 Hc IH Hn Hne Hni Hl].
  - apply load_page_Ok in Hl as (-> & -> & Ha). simpl. rewrite Nat.add_0_r, Nat.add_1_r.
    split_and!; [done..|constructor|set_solver|by apply Forall_singleton].
  - destruct IH as (Hs & Hi & Hlen & Hnd & Hnn & Hf). apply load_page_Ok in Hl as (-> & -> & Ha).
    unfold cursors in *. rewrite omap_app. simpl. rewrite Hn. rewrite fmap_app. simpl.
    rewrite Hs, Hi, !length_app, Hlen. simpl. rewrite imap_app, length_fmap, Hlen. simpl.
    split_and!.
    + rewrite <- app_assoc. simpl. do 2 f_equal. f_equal. f_equal. by rewrite Nat.add_0_r.
    + lia.
    + lia.
    + apply NoDup_app. split; [done|]. split; [set_solver|apply NoDup_singleton].
    + set_solver.
    + apply Forall_app. split; [done|by apply Forall_singleton].
Qed.

Lemma load_page_answered request w c w' page :
  load_page serialize new_v4 wait turn D P request w c = (w', Ok page) -> answered page.
Proof. unfold load_page, draw. intros H. by apply request_page_Ok in H as (_ & _ & Ha). Qed.

(** How a failed read ends: no reply, a refusal, a reply of another kind, or a server that
    repeats itself. *)
Definition failed (e : MakerDataRequestError.t) : Prop :=
  e = MakerDataRequestError.Continuation invalid_page \/
  exists w request w', request_page serialize wait turn D w request = (w', Err e).

Lemma all_pages_ends fuel w request w' r :
  all_pages serialize new_v4 wait turn D P fuel w request = Some (w', r) ->
  match r with
  | Ok result =>
      exists earlier page, cursor P page = None /\ result = merge_pages (append P) earlier page /\
        dw_sent w' = dw_sent w ++ imap (fun i c => asked request (S (dw_ids w) + i) c) (cursors earlier) /\
        length (omap (cursor P) earlier) = length earlier /\ NoDup (omap (cursor P) earlier) /\
        Forall answered (earlier ++ [page])
  | Err e => failed e
  | Panic => exists n h, (turn n h).2 = Replied Panic
  end.
Proof.
  intros H. destruct HD as [Hr Hl]. rewrite HP in Hl. destruct Hl as (_ & _ & Hc).
  apply (fetch_all_traversed _ _ _ _ Hc) in H. unfold traversed in H. destruct r as [result|e|].
  - destruct H as (earlier & page & Hch & Hn & ->). apply chain_sent in Hch as (Hs & _ & Hlen & Hnd & _ & Hf).
    exists earlier, page. done.
  - destruct H as [H|(earlier & page & w1 & id & _ & _ & [(_ & -> & _)|H])]; [|by left|]; right;
      unfold load_page, draw in H; eauto.
  - destruct H as (w1 & c & H). unfold load_page, draw in H. by eapply request_page_returns.
Qed.

Lemma all_pages_terminate (ids : list string) w request :
  (forall page id, answered page -> cursor P page = Some id -> id ∈ ids) ->
  is_Some (all_pages serialize new_v4 wait turn D P (S (length ids)) w request).
Proof.
  intros Hb. destruct HD as [_ Hl]. rewrite HP in Hl. destruct Hl as (_ & _ & Hc).
  apply fetch_all_complete. split; [|exact Hc]. intros w1 c w2 page id Hload Hn.
  apply load_page_answered in Hload. by eapply Hb.
Qed.
End reading.

(** C14: A list the data client returns is the server's whole list.  For every list request
    (all nineteen are lawful), a successful [all_pages] has asked for the start and then for
    every continuation, once each, with a fresh id, the largest page size and the caller's
    filters; every page it merges is the typed answer to one of those requests, the last has no
    continuation, and every collected field is the concatenation of the pages' rows, in
    order.  For a token's markets no strike is lost or invented, and no market is listed twice
    unless a page did.  If anything fails, the read is an error and returns no part of the list;
    it never panics unless the session does; and it ends as soon as the server has finitely
    many continuations to offer. *)
Theorem lists_are_complete :
  requests_lawful /\ rows_collected /\
  (forall m pt all page,
     strikes_of m pt (merge_token_markets all page) ≡ₚ strikes_of m pt all ++ strikes_of m pt page) /\
  (forall all page, NoDup (TokenMarketEntry.market_pda <$> TokenMarketsInfoData.markets all) ->
     NoDup (TokenMarketEntry.market_pda <$> TokenMarketsInfoData.markets (merge_token_markets all page))) /\
  forall serialize new_v4 wait turn Q R (D : MakerDataRequest Q R) P,
  paged D = Some P -> lawful_request D ->
  (forall fuel w request w' r, all_pages serialize new_v4 wait turn D P fuel w request = Some (w', r) ->
     match r with
     | Ok result =>
         exists earlier page, cursor P page = None /\ Forall (answered turn D) (earlier ++ [page]) /\
           dw_sent w' = dw_sent w ++ imap (fun i c => asked new_v4 D P request (S (dw_ids w) + i) c) (cursors P earlier) /\
           length (cursors P earlier) = length (earlier ++ [page]) /\ NoDup (cursors P earlier) /\
           (forall A (rows : R -> list A), extends D rows -> rows result = (earlier ++ [page]) ≫= rows) /\
           (forall A (rows : R -> list A), (forall a b, rows (append P a b) ≡ₚ rows a ++ rows b) ->
              rows result ≡ₚ (earlier ++ [page]) ≫= rows)
     | Err e => failed serialize wait turn D e
     | Panic => exists n h, (turn n h).2 = Replied Panic
     end) /\
  (forall ids w request, (forall page id, answered turn D page -> cursor P page = Some id -> id ∈ ids) ->
     is_Some (all_pages serialize new_v4 wait turn D P (S (length ids)) w request)).
Proof.
  split; [exact requests_are_lawful|]. split; [exact rows_are_collected|].
  split; [intros m pt all page; apply add_markets_strikes|]. split; [intros all page; apply add_markets_pdas|].
  intros serialize new_v4 wait turn Q R D P HP HD. split; [|by intros ids w request; apply all_pages_terminate].
  intros fuel w request w' r H. apply all_pages_ends in H; [|done..]. destruct r as [result|e|]; [|done..].
  destruct H as (earlier & page & Hn & -> & Hs & Hlen & Hnd & Hf). exists earlier, page. split_and!; try done.
  - unfold cursors. simpl. by rewrite length_fmap, length_app, Hlen, Nat.add_1_r.
  - unfold cursors. constructor; [rewrite list_elem_of_fmap; by intros (c & [=] & _)|].
    apply NoDup_fmap; [by intros a b [=]|done].
  - intros A rows Hr. unfold extends in Hr. rewrite HP in Hr. by apply merge_rows.
  - intros A rows Hr. by apply merge_rows_perm.
Qed.

(** Two pages of a token's markets, whose market continues on the second. *)
Example markets_continue :
  let best k := {| IndicativeStrikeBest.strike := k; IndicativeStrikeBest.best_price := None |} in
  let calls at_ ks := {| TokenMarketIndicatives.position_type := PositionType.CoveredCall;
    TokenMarketIndicatives.updated_at := at_; TokenMarketIndicatives.is_stale := false;
    TokenMarketIndicatives.strikes := best <$> ks |} in
  let entry m is_ := {| TokenMarketEntry.products := 1; TokenMarketEntry.market_pda := m; TokenMarketEntry.expiry_ts := 9;
    TokenMarketEntry.is_put := false; TokenMarketEntry.indicatives := is_ |} in
  foldl add_market [entry [1] [calls 5 [10; 20]]] [entry [1] [calls 6 [30]]; entry [2] [calls 6 [40]]] =
  [entry [1] [calls 5 [10; 20; 30]]; entry [2] [calls 6 [40]]].
Proof. reflexivity. Qed.

(** ** Decimals of the markets ([ws/market_decimals.rs]) *)

(* ws/market_decimals.rs:8-13 TokenDecimals *)
Record TokenDecimals := { td_underlying : Z; td_quote : Z }.

(* ws/market_decimals.rs:15-23 MarketDecimals *)
Definition MarketDecimals : Type := gmap string TokenDecimals.

Section decimals.
(** [Address32::to_base58]. *)
Context (to_base58 : key -> string).

Definition decimals_of (info : MarketDescriptorInfo.t) : TokenDecimals :=
  {| td_underlying := MarketDescriptorInfo.underlying_decimals info; td_quote := MarketDescriptorInfo.quote_decimals info |}.
Definition market_key (info : MarketDescriptorInfo.t) : string :=
  to_base58 (md_market_pda (MarketDescriptorInfo.market info)).

(* ws/market_decimals.rs:31-39 MarketDecimals::insert *)
Definition insert_decimals (self : MarketDecimals) (info : MarketDescriptorInfo.t) : MarketDecimals :=
  <[market_key info := decimals_of info]> self.

(* ws/market_decimals.rs:41-48 MarketDecimals::observe *)
Definition observe_decimals (self : MarketDecimals) (message : ServerMessage.t) : MarketDecimals :=
  match message with
  | ServerMessage.MarketDescriptors data => foldl insert_decimals self (MarketDescriptorsData.markets (pg_body data))
  | _ => self
  end.

(* ws/market_decimals.rs:50-53 MarketDecimals::get *)
Definition get_decimals (self : MarketDecimals) (market_pda : string) : option TokenDecimals := self !! market_pda.

(** The descriptors of a stream of messages. *)
Definition described (messages : list ServerMessage.t) : list MarketDescriptorInfo.t :=
  messages ≫= fun m => match m with ServerMessage.MarketDescriptors data => MarketDescriptorsData.markets (pg_body data) | _ => [] end.

Lemma observe_described self messages : foldl observe_decimals self messages = foldl insert_decimals self (described messages).
Proof.
  revert self. induction messages as [|m messages IH]; intros self; simpl; [done|]. rewrite IH, foldl_app. by destruct m.
Qed.

(** The cache answers with the last descriptor seen for a market, and knows no other market. *)
Lemma decimals_are_last messages k :
  get_decimals (foldl observe_decimals ∅ messages) k =
  decimals_of <$> last (filter (fun info => market_key info = k) (described messages)).
Proof.
  rewrite observe_described. unfold get_decimals. induction (described messages) as [|info infos IH] using rev_ind; [done|].
  rewrite foldl_app, filter_app. change (foldl insert_decimals ?m [info]) with (<[market_key info := decimals_of info]> (m : MarketDecimals)).
  rewrite filter_cons, filter_nil.
  destruct (decide (market_key info = k)) as [<-|Hk].
  - rewrite last_snoc. by apply (lookup_insert_eq (M := gmap string)).
  - rewrite app_nil_r, <- IH. by apply (lookup_insert_ne (M := gmap string)).
Qed.
End decimals.
