(* ===== verification/Clients.v ===== *)
(** * The clients' typed sends ([ws/maker/quote.rs], [ws/vault/client.rs])

    Each method of the quote client and of the operator's client is one message over the
    handle of Handle.v, guarded by the session being ready or bound to a connection epoch. *)

From Stdlib Require Import ZArith Lia String.
From stdpp Require Import base list gmap strings.
From S2P Require Import Prelude Time Terms Signing Quote Challenge Rows Messages Tracker Subscriptions Writer Control Login Session Running Handle Ready Oracle Config Operator Data.

Open Scope Z_scope.

(** [self.inner.ensure_ready()?; ...] *)
Definition after_ready (h : Handle) (x : res ManagedWsError.t nat * Handle) : res ManagedWsError.t nat * Handle :=
  match ensure_ready h with Ok _ => x | Err e => (Err e, h) | Panic => (Panic, h) end.

Module MakerQuoteClient.
Section methods.
Context (serialize : ClientMessage.t -> string + string).
(** What happens while a call waits for room in the queue. *)
Context (wait : Handle -> Handle).

(* ws/maker/quote.rs:25-36 MakerQuoteClient::spawn *)
Definition quote_spawn (config : ManagedWsConfig) : res MakerClientError.t Handle :=
  _ ← reject_if (negb (bool_decide (c_endpoint config = MakerWsEndpoint.Quote)))
        (MakerClientError.WrongEndpoint "MakerQuoteClient" MakerWsEndpoint.Quote (c_endpoint config));
  map_err MakerClientError.InvalidConfig (spawn_managed_ws serialize config).

(* ws/maker/quote.rs:38-50 MakerQuoteClient::quote_in_epoch *)
Definition quote_in_epoch (h : Handle) (payload : QuoteMessage) (connection_epoch : Z) : res ManagedWsError.t nat * Handle :=
  send_in_epoch serialize wait h (ClientMessage.Quote payload) connection_epoch.

(* ws/maker/quote.rs:52-59 MakerQuoteClient::try_quote_in_epoch *)
Definition try_quote_in_epoch (h : Handle) (payload : QuoteMessage) (connection_epoch : Z) : res ManagedWsError.t nat * Handle :=
  try_send_in_epoch serialize h (ClientMessage.Quote payload) connection_epoch.

(* ws/maker/quote.rs:61-69 MakerQuoteClient::replace_in_epoch *)
Definition replace_in_epoch (h : Handle) (payload : ReplaceQuoteMessage) (connection_epoch : Z) : res ManagedWsError.t nat * Handle :=
  send_in_epoch serialize wait h (ClientMessage.ReplaceQuote payload) connection_epoch.

(* ws/maker/quote.rs:71-78 MakerQuoteClient::try_replace_in_epoch *)
Definition try_replace_in_epoch (h : Handle) (payload : ReplaceQuoteMessage) (connection_epoch : Z) : res ManagedWsError.t nat * Handle :=
  try_send_in_epoch serialize h (ClientMessage.ReplaceQuote payload) connection_epoch.

(* ws/maker/quote.rs:80-88 MakerQuoteClient::batch_quotes_in_epoch *)
Definition batch_quotes_in_epoch (h : Handle) (payload : list QuoteMessage) (connection_epoch : Z) : res ManagedWsError.t nat * Handle :=
  send_in_epoch serialize wait h (ClientMessage.BatchQuotes payload) connection_epoch.

(* ws/maker/quote.rs:90-97 MakerQuoteClient::try_batch_quotes_in_epoch *)
Definition try_batch_quotes_in_epoch (h : Handle) (payload : list QuoteMessage) (connection_epoch : Z) : res ManagedWsError.t nat * Handle :=
  try_send_in_epoch serialize h (ClientMessage.BatchQuotes payload) connection_epoch.

(* ws/maker/quote.rs:99-102 MakerQuoteClient::cancel_quote *)
Definition cancel_quote (h : Handle) (payload : CancelQuoteData) : res ManagedWsError.t nat * Handle :=
  after_ready h (send serialize wait h (ClientMessage.CancelQuote payload)).

(* ws/maker/quote.rs:104-107 MakerQuoteClient::try_cancel_quote *)
Definition try_cancel_quote (h : Handle) (payload : CancelQuoteData) : res ManagedWsError.t nat * Handle :=
  after_ready h (try_send serialize h (ClientMessage.CancelQuote payload)).

(* ws/maker/quote.rs:109-117 MakerQuoteClient::cancel_all_quotes *)
Definition cancel_all_quotes (h : Handle) (payload : CancelAllQuotesMessage) : res ManagedWsError.t nat * Handle :=
  after_ready h (send serialize wait h (ClientMessage.CancelAllQuotes payload)).

(* ws/maker/quote.rs:119-125 MakerQuoteClient::try_cancel_all_quotes *)
Definition try_cancel_all_quotes (h : Handle) (payload : CancelAllQuotesMessage) : res ManagedWsError.t nat * Handle :=
  after_ready h (try_send serialize h (ClientMessage.CancelAllQuotes payload)).

(* ws/maker/quote.rs:127-135 MakerQuoteClient::indicative_prices_response *)
Definition indicative_prices_response (h : Handle) (payload : IndicativePricesResponseMessage) : res ManagedWsError.t nat * Handle :=
  after_ready h (send serialize wait h (ClientMessage.IndicativePricesResponse payload)).

(* ws/maker/quote.rs:137-144 MakerQuoteClient::try_indicative_prices_response *)
Definition try_indicative_prices_response (h : Handle) (payload : IndicativePricesResponseMessage) : res ManagedWsError.t nat * Handle :=
  after_ready h (try_send serialize h (ClientMessage.IndicativePricesResponse payload)).

(* ws/maker/quote.rs:146-149 MakerQuoteClient::subscribe *)
Definition subscribe (h : Handle) (payload : SubscribeData) : res ManagedWsError.t nat * Handle :=
  after_ready h (send serialize wait h (ClientMessage.Subscribe payload)).

(* ws/maker/quote.rs:151-154 MakerQuoteClient::unsubscribe *)
Definition unsubscribe (h : Handle) (payload : UnsubscribeData) : res ManagedWsError.t nat * Handle :=
  after_ready h (send serialize wait h (ClientMessage.Unsubscribe payload)).

(* ws/maker/quote.rs:156-159 MakerQuoteClient::add_mints *)
Definition add_mints (h : Handle) (payload : MintsData) : res ManagedWsError.t nat * Handle :=
  after_ready h (send serialize wait h (ClientMessage.AddMints payload)).

(* ws/maker/quote.rs:161-164 MakerQuoteClient::remove_mints *)
Definition remove_mints (h : Handle) (payload : MintsData) : res ManagedWsError.t nat * Handle :=
  after_ready h (send serialize wait h (ClientMessage.RemoveMints payload)).

(* ws/maker/quote.rs:166-169 MakerQuoteClient::add_channels *)
Definition add_channels (h : Handle) (payload : ChannelsData) : res ManagedWsError.t nat * Handle :=
  after_ready h (send serialize wait h (ClientMessage.AddChannels payload)).

(* ws/maker/quote.rs:171-176 MakerQuoteClient::remove_channels *)
Definition remove_channels (h : Handle) (payload : ChannelsData) : res ManagedWsError.t nat * Handle :=
  after_ready h (send serialize wait h (ClientMessage.RemoveChannels payload)).

(** A call, the message it sends and the epoch it names. *)
Inductive op :=
| Op_quote_in_epoch (payload : QuoteMessage) (connection_epoch : Z)
| Op_try_quote_in_epoch (payload : QuoteMessage) (connection_epoch : Z)
| Op_replace_in_epoch (payload : ReplaceQuoteMessage) (connection_epoch : Z)
| Op_try_replace_in_epoch (payload : ReplaceQuoteMessage) (connection_epoch : Z)
| Op_batch_quotes_in_epoch (payload : list QuoteMessage) (connection_epoch : Z)
| Op_try_batch_quotes_in_epoch (payload : list QuoteMessage) (connection_epoch : Z)
| Op_cancel_quote (payload : CancelQuoteData)
| Op_try_cancel_quote (payload : CancelQuoteData)
| Op_cancel_all_quotes (payload : CancelAllQuotesMessage)
| Op_try_cancel_all_quotes (payload : CancelAllQuotesMessage)
| Op_indicative_prices_response (payload : IndicativePricesResponseMessage)
| Op_try_indicative_prices_response (payload : IndicativePricesResponseMessage)
| Op_subscribe (payload : SubscribeData)
| Op_unsubscribe (payload : UnsubscribeData)
| Op_add_mints (payload : MintsData)
| Op_remove_mints (payload : MintsData)
| Op_add_channels (payload : ChannelsData)
| Op_remove_channels (payload : ChannelsData).

Definition call (op : op) (h : Handle) : res ManagedWsError.t nat * Handle :=
  match op with
  | Op_quote_in_epoch p e => quote_in_epoch h p e
  | Op_try_quote_in_epoch p e => try_quote_in_epoch h p e
  | Op_replace_in_epoch p e => replace_in_epoch h p e
  | Op_try_replace_in_epoch p e => try_replace_in_epoch h p e
  | Op_batch_quotes_in_epoch p e => batch_quotes_in_epoch h p e
  | Op_try_batch_quotes_in_epoch p e => try_batch_quotes_in_epoch h p e
  | Op_cancel_quote p => cancel_quote h p
  | Op_try_cancel_quote p => try_cancel_quote h p
  | Op_cancel_all_quotes p => cancel_all_quotes h p
  | Op_try_cancel_all_quotes p => try_cancel_all_quotes h p
  | Op_indicative_prices_response p => indicative_prices_response h p
  | Op_try_indicative_prices_response p => try_indicative_prices_response h p
  | Op_subscribe p => subscribe h p
  | Op_unsubscribe p => unsubscribe h p
  | Op_add_mints p => add_mints h p
  | Op_remove_mints p => remove_mints h p
  | Op_add_channels p => add_channels h p
  | Op_remove_channels p => remove_channels h p
  end.

Definition message (op : op) : ClientMessage.t :=
  match op with
  | Op_quote_in_epoch p _ => ClientMessage.Quote p
  | Op_try_quote_in_epoch p _ => ClientMessage.Quote p
  | Op_replace_in_epoch p _ => ClientMessage.ReplaceQuote p
  | Op_try_replace_in_epoch p _ => ClientMessage.ReplaceQuote p
  | Op_batch_quotes_in_epoch p _ => ClientMessage.BatchQuotes p
  | Op_try_batch_quotes_in_epoch p _ => ClientMessage.BatchQuotes p
  | Op_cancel_quote p => ClientMessage.CancelQuote p
  | Op_try_cancel_quote p => ClientMessage.CancelQuote p
  | Op_cancel_all_quotes p => ClientMessage.CancelAllQuotes p
  | Op_try_cancel_all_quotes p => ClientMessage.CancelAllQuotes p
  | Op_indicative_prices_response p => ClientMessage.IndicativePricesResponse p
  | Op_try_indicative_prices_response p => ClientMessage.IndicativePricesResponse p
  | Op_subscribe p => ClientMessage.Subscribe p
  | Op_unsubscribe p => ClientMessage.Unsubscribe p
  | Op_add_mints p => ClientMessage.AddMints p
  | Op_remove_mints p => ClientMessage.RemoveMints p
  | Op_add_channels p => ClientMessage.AddChannels p
  | Op_remove_channels p => ClientMessage.RemoveChannels p
  end.

Definition epoch (op : op) : option Z :=
  match op with
  | Op_quote_in_epoch _ e
  | Op_try_quote_in_epoch _ e
  | Op_replace_in_epoch _ e
  | Op_try_replace_in_epoch _ e
  | Op_batch_quotes_in_epoch _ e
  | Op_try_batch_quotes_in_epoch _ e => Some e
  | _ => None
  end.
End methods.
End MakerQuoteClient.

Module VaultOperatorClient.
Section methods.
Context (serialize : ClientMessage.t -> string + string).
(** What happens while a call waits for room in the queue. *)
Context (wait : Handle -> Handle).

(* ws/vault/client.rs:191-201 VaultOperatorClient::quote_in_epoch *)
Definition quote_in_epoch (h : Handle) (payload : QuoteMessage) (connection_epoch : Z) : res ManagedWsError.t nat * Handle :=
  send_in_epoch serialize wait h (ClientMessage.Quote payload) connection_epoch.

(* ws/vault/client.rs:203-210 VaultOperatorClient::try_quote_in_epoch *)
Definition try_quote_in_epoch (h : Handle) (payload : QuoteMessage) (connection_epoch : Z) : res ManagedWsError.t nat * Handle :=
  try_send_in_epoch serialize h (ClientMessage.Quote payload) connection_epoch.

(* ws/vault/client.rs:212-220 VaultOperatorClient::replace_in_epoch *)
Definition replace_in_epoch (h : Handle) (payload : ReplaceQuoteMessage) (connection_epoch : Z) : res ManagedWsError.t nat * Handle :=
  send_in_epoch serialize wait h (ClientMessage.ReplaceQuote payload) connection_epoch.

(* ws/vault/client.rs:222-230 VaultOperatorClient::batch_quotes_in_epoch *)
Definition batch_quotes_in_epoch (h : Handle) (payload : list QuoteMessage) (connection_epoch : Z) : res ManagedWsError.t nat * Handle :=
  send_in_epoch serialize wait h (ClientMessage.BatchQuotes payload) connection_epoch.

(* ws/vault/client.rs:232-234 VaultOperatorClient::cancel_quote *)
Definition cancel_quote (h : Handle) (payload : CancelQuoteData) : res ManagedWsError.t nat * Handle :=
  vault_send serialize wait h (ClientMessage.CancelQuote payload).

(* ws/vault/client.rs:236-241 VaultOperatorClient::cancel_all_quotes *)
Definition cancel_all_quotes (h : Handle) (payload : CancelAllQuotesMessage) : res ManagedWsError.t nat * Handle :=
  vault_send serialize wait h (ClientMessage.CancelAllQuotes payload).

(* ws/vault/client.rs:251-253 VaultOperatorClient::cancel_rfq *)
Definition cancel_rfq (h : Handle) (payload : CancelRfqData) : res ManagedWsError.t nat * Handle :=
  vault_send serialize wait h (ClientMessage.CancelRfq payload).

(* ws/vault/client.rs:387-389 VaultOperatorClient::subscribe *)
Definition subscribe (h : Handle) (payload : SubscribeData) : res ManagedWsError.t nat * Handle :=
  vault_send serialize wait h (ClientMessage.Subscribe payload).

(* ws/vault/client.rs:391-393 VaultOperatorClient::unsubscribe *)
Definition unsubscribe (h : Handle) (payload : UnsubscribeData) : res ManagedWsError.t nat * Handle :=
  vault_send serialize wait h (ClientMessage.Unsubscribe payload).

(** A call, the message it sends and the epoch it names. *)
Inductive op :=
| Op_quote_in_epoch (payload : QuoteMessage) (connection_epoch : Z)
| Op_try_quote_in_epoch (payload : QuoteMessage) (connection_epoch : Z)
| Op_replace_in_epoch (payload : ReplaceQuoteMessage) (connection_epoch : Z)
| Op_batch_quotes_in_epoch (payload : list QuoteMessage) (connection_epoch : Z)
| Op_cancel_quote (payload : CancelQuoteData)
| Op_cancel_all_quotes (payload : CancelAllQuotesMessage)
| Op_cancel_rfq (payload : CancelRfqData)
| Op_subscribe (payload : SubscribeData)
| Op_unsubscribe (payload : UnsubscribeData).

Definition call (op : op) (h : Handle) : res ManagedWsError.t nat * Handle :=
  match op with
  | Op_quote_in_epoch p e => quote_in_epoch h p e
  | Op_try_quote_in_epoch p e => try_quote_in_epoch h p e
  | Op_replace_in_epoch p e => replace_in_epoch h p e
  | Op_batch_quotes_in_epoch p e => batch_quotes_in_epoch h p e
  | Op_cancel_quote p => cancel_quote h p
  | Op_cancel_all_quotes p => cancel_all_quotes h p
  | Op_cancel_rfq p => cancel_rfq h p
  | Op_subscribe p => subscribe h p
  | Op_unsubscribe p => unsubscribe h p
  end.

Definition message (op : op) : ClientMessage.t :=
  match op with
  | Op_quote_in_epoch p _ => ClientMessage.Quote p
  | Op_try_quote_in_epoch p _ => ClientMessage.Quote p
  | Op_replace_in_epoch p _ => ClientMessage.ReplaceQuote p
  | Op_batch_quotes_in_epoch p _ => ClientMessage.BatchQuotes p
  | Op_cancel_quote p => ClientMessage.CancelQuote p
  | Op_cancel_all_quotes p => ClientMessage.CancelAllQuotes p
  | Op_cancel_rfq p => ClientMessage.CancelRfq p
  | Op_subscribe p => ClientMessage.Subscribe p
  | Op_unsubscribe p => ClientMessage.Unsubscribe p
  end.

Definition epoch (op : op) : option Z :=
  match op with
  | Op_quote_in_epoch _ e
  | Op_try_quote_in_epoch _ e
  | Op_replace_in_epoch _ e
  | Op_batch_quotes_in_epoch _ e => Some e
  | _ => None
  end.

(** A reply is what the command's channel carries. *)
Context (timed : Handle -> option Handle) (rx : Awaited (res SendAwaitError.t ServerMessage.t)).

(* ws/vault/client.rs:255-257 VaultOperatorClient::accept_quote *)
Definition accept_quote (h : Handle) (payload : AcceptQuoteMessage) : res VaultRequestError.t unit * Handle :=
  command serialize timed h (ClientMessage.AcceptQuote payload) rx.

(* ws/vault/client.rs:308-314 VaultOperatorClient::submit_signed_sponsored_tx *)
Definition submit_signed_sponsored_tx (h : Handle) (payload : SubmitSignedSponsoredTxData)
  : res VaultRequestError.t unit * Handle :=
  command serialize timed h (ClientMessage.SubmitSignedSponsoredTx payload) rx.

(* ws/vault/client.rs:316-329 VaultOperatorClient::swap_quote *)
Definition swap_quote (h : Handle) (payload : SwapQuoteData) : res VaultRequestError.t SwapQuoteResultData * Handle :=
  request serialize timed h (ClientMessage.SwapQuote payload) "swap_quote_result"
    (fun message => match message with ServerMessage.SwapQuoteResult data => Some data | _ => None end) rx.

(** [admitted]: the gate ran the enqueue. *)
(* ws/vault/client.rs:347-366 VaultOperatorClient::swap_submit_in_epoch *)
Definition swap_submit_in_epoch (admitted : bool) (h : Handle) (payload : SwapSubmitData) (connection_epoch : Z)
  : res VaultRequestError.t SwapSubmitResultData.t * Handle :=
  gated_request serialize admitted h connection_epoch (ClientMessage.SwapSubmit payload) "swap_submit_result"
    (fun message => match message with ServerMessage.SwapSubmitResult data => Some data | _ => None end) rx.

(** [request_id] is the fresh [Uuid::new_v4()]. *)
(* ws/vault/client.rs:368-385 VaultOperatorClient::swap_status *)
Definition swap_status (request_id : Uuid) (h : Handle) (execution_id : bytes)
  : res VaultRequestError.t SwapStatusMessage.t * Handle :=
  request serialize timed h
    (ClientMessage.GetSwapStatus {| sg_request_id := request_id; sg_execution_id := execution_id |}) "swap_status"
    (fun message => match message with ServerMessage.SwapStatus data => Some data | _ => None end) rx.
End methods.
End VaultOperatorClient.

(** ** Nothing is sent outside a ready session *)

Section ready_only.
Context (serialize : ClientMessage.t -> string + string) (wait : Handle -> Handle).

(** What a typed send does: outside a ready session, or in another epoch than the one it
    names, nothing; otherwise one command of that message, stamped with the session's epoch,
    at the end of the queue, or nothing. *)
Definition sends (h : Handle) (m : ClientMessage.t) (named : option Z) (x : res ManagedWsError.t nat * Handle) : Prop :=
  match ready_epoch h with
  | Ok e =>
      if bool_decide (named = None \/ named = Some e)
      then stamped serialize wait (fun _ => None) h m (Some e) (is_ok x.1, x.2)
      else x = (Err ManagedWsError.NotReady, h)
  | _ => x = (Err ManagedWsError.NotReady, h)
  end.

Lemma ready_state h e : ready_epoch h = Ok e -> forall m, command_epoch h m = Ok (Some e).
Proof. unfold ready_epoch, command_epoch. destruct (h_state h); intros [= <-]; done. Qed.

Lemma not_ready h : (forall e, ready_epoch h <> Ok e) -> ready_epoch h = Err ManagedWsError.NotReady.
Proof. unfold ready_epoch. destruct (h_state h); intros H; try done. by destruct (H connection_epoch). Qed.

Lemma sends_ready h m x :
  (forall e, ready_epoch h = Ok e -> stamped serialize wait (fun _ => None) h m (Some e) (is_ok x.1, x.2)) ->
  sends h m None (after_ready h x).
Proof.
  intros H. unfold sends, after_ready, ensure_ready. destruct (ready_epoch h) as [e|e|] eqn:E; cbn [fmap res_fmap].
  - rewrite bool_decide_true by auto. by apply H.
  - rewrite not_ready in E by congruence. by injection E as <-.
  - rewrite not_ready in E by congruence. done.
Qed.

Lemma after_ready_send h m : sends h m None (after_ready h (send serialize wait h m)).
Proof. apply sends_ready. intros e E. unfold send. rewrite (ready_state h e E). apply send_stamped. Qed.

Lemma after_ready_try_send h m : sends h m None (after_ready h (try_send serialize h m)).
Proof. apply sends_ready. intros e E. unfold try_send. rewrite (ready_state h e E). apply try_send_stamped. Qed.

Lemma sends_in_epoch h m e0 x :
  (forall e, ready_epoch h = Ok e -> x = if e =? e0 then send_with_epoch serialize wait h m (Some e0) else (Err ManagedWsError.NotReady, h)) ->
  (ready_epoch h = Err ManagedWsError.NotReady -> x = (Err ManagedWsError.NotReady, h)) -> sends h m (Some e0) x.
Proof.
  intros H Hn. unfold sends. destruct (ready_epoch h) as [e|e|] eqn:E.
  - rewrite (H e eq_refl). destruct (Z.eqb_spec e e0) as [->|Hne].
    + rewrite bool_decide_true by auto. apply send_stamped.
    + rewrite bool_decide_false by (intros [?|[= ?]]; congruence). done.
  - rewrite not_ready in E by congruence. injection E as <-. by apply Hn.
  - rewrite not_ready in E by congruence. done.
Qed.

Lemma send_in_epoch_sends h m e0 : sends h m (Some e0) (send_in_epoch serialize wait h m e0).
Proof. apply sends_in_epoch; unfold send_in_epoch; [intros e ->; by case_match|by intros ->]. Qed.

Lemma try_send_in_epoch_sends h m e0 : sends h m (Some e0) (try_send_in_epoch serialize h m e0).
Proof.
  unfold sends, try_send_in_epoch. destruct (ready_epoch h) as [e|e|] eqn:E.
  - destruct (Z.eqb_spec e e0) as [->|Hne].
    + rewrite bool_decide_true by auto. apply try_send_stamped.
    + rewrite bool_decide_false by (intros [?|[= ?]]; congruence). done.
  - rewrite not_ready in E by congruence. by injection E as <-.
  - rewrite not_ready in E by congruence. done.
Qed.

(** Every typed send of either client goes out in a ready session only, as the message and in
    the epoch its caller gave. *)
Theorem typed_sends_are_ready :
  (forall op h, sends h (MakerQuoteClient.message op) (MakerQuoteClient.epoch op) (MakerQuoteClient.call serialize wait op h)) /\
  (forall op h, sends h (VaultOperatorClient.message op) (VaultOperatorClient.epoch op) (VaultOperatorClient.call serialize wait op h)).
Proof.
  split; intros [] h; simpl;
    first [apply send_in_epoch_sends | apply try_send_in_epoch_sends | apply after_ready_send | apply after_ready_try_send].
Qed.
End ready_only.

(** ** The operator's configuration *)

Section operator.
Context `{C : Crypto} {T : Type} `{SL : SignerLike T}.

(** The managed configuration, with the part of it that authenticates. *)
(* ws/vault/config.rs:8-14 VaultOperatorConfig *)
Record VaultOperatorConfig := {
  vo_managed : ManagedWsConfig; vo_auth : AuthConfig; vo_request_timeout : Z; vo_vault_pda : key; vo_operator : T;
}.

(** [request_id] is the fresh [Uuid::new_v4()] of the initial subscription. *)
(* ws/vault/config.rs:18-39 VaultOperatorConfig::new *)
Definition operator_config (products : Z) (url : bytes) (hello : HelloData) (vault_pda : key) (operator : T)
  (request_id : Uuid) : VaultOperatorConfig :=
  let managed := with_vault_auth (new_with_signing url) vault_pda products request_id in
  {| vo_managed := managed;
     vo_auth := {| Login.hello := hello; auth_pubkey := pubkey_bytes operator; challenge_signing := Local operator;
                   Login.vault_pda := config_vault_pda managed |};
     vo_request_timeout := 5 * NANOS; vo_vault_pda := vault_pda; vo_operator := operator |}.

(** [adjust] is the caller's. *)
(* ws/vault/config.rs:42-45 VaultOperatorConfig::with_managed *)
Definition with_managed (self : VaultOperatorConfig) (adjust : ManagedWsConfig -> ManagedWsConfig) : VaultOperatorConfig :=
  {| vo_managed := adjust (vo_managed self); vo_auth := vo_auth self; vo_request_timeout := vo_request_timeout self;
     vo_vault_pda := vo_vault_pda self; vo_operator := vo_operator self |}.

(* ws/vault/config.rs:48-51 VaultOperatorConfig::with_request_timeout *)
Definition with_request_timeout (self : VaultOperatorConfig) (timeout : Z) : VaultOperatorConfig :=
  {| vo_managed := vo_managed self; vo_auth := vo_auth self; vo_request_timeout := timeout;
     vo_vault_pda := vo_vault_pda self; vo_operator := vo_operator self |}.

(* ws/vault/config.rs:59-61 VaultOperatorConfig::operator_pubkey *)
Definition operator_pubkey (self : VaultOperatorConfig) : key := pubkey_bytes (vo_operator self).

(* ws/vault/client.rs:120-127 VaultOperatorClient::spawn *)
Definition operator_spawn (serialize : ClientMessage.t -> string + string) (config : VaultOperatorConfig)
  : res ManagedWsConfigError.t Handle := spawn_managed_ws serialize (vo_managed config).

(** An operator's session authenticates on the vault's endpoint, as the operator, for the
    vault it was made for: the attempt can only be granted by a [VaultAuthSuccess], and what
    it signs is a challenge that names this operator and this vault. *)
Theorem operator_authenticates_for_its_vault products url hello vault operator request_id (s : Login.Socket) resume o s' resume' :
  let config := operator_config products url hello vault operator request_id in
  Login.sent s = [] ->
  authenticate (vo_auth config) s resume = Some (Ok o, s', resume') ->
  c_endpoint (vo_managed config) = MakerWsEndpoint.Vault /\
  (exists d, ao_vault o = Some d /\ last (Login.published s') = Some (ServerMessage.VaultAuthSuccess d)) /\
  forall d, ClientMessage.AuthChallenge d ∈ Login.sent s' ->
    validate_vault_auth_challenge (ac_challenge d) (operator_pubkey config) vault = Ok tt /\
    ac_pubkey d = operator_pubkey config.
Proof.
  cbv zeta. intros Hs H. destruct (authenticate_ok _ s resume _ _ _ H) as [(c & l & _ & _ & H3 & H4) Hq].
  split; [done|]. split.
  - destruct Hq as [[? _]|(o' & [= <-] & Hg & _)]; [done|]. destruct Hg as (d & ? & ? & ?). eauto.
  - intros d Hd. rewrite H3, Hs in Hd. rewrite Forall_forall in H4. destruct (H4 _ Hd) as [_ Hb].
    destruct (build_auth_response_Ok _ _ _ Hb) as (Ha & _ & ?). done.
Qed.
End operator.
