(* ===== verification/HttpRows.v ===== *)
(** * Rows of the public API ([src/http/types.rs])

    The records of the HTTP API, as Rows.v has those of the session.  Amounts wider than
    JSON's numbers stay decimal strings. *)

From Stdlib Require Import ZArith Lia String SpecFloat.
From stdpp Require Import base list strings.
From S2P Require Import Prelude Terms Quote Rows Account.

Module TokenProgramKind.
(* http/types.rs:135-141 TokenProgramKind *)
Inductive t :=
| LegacySpl | Token2022.
End TokenProgramKind.

Module VaultStaging.
(* http/types.rs:124-133 VaultStaging *)
Record t := {
  mint : string; from_leg : VaultLeg.t; amount : string; staged_at : string; generation : string;
}.
End VaultStaging.

Module VaultPolicy.
(* http/types.rs:143-148 VaultPolicy *)
Record t := {
  max_open_positions : Z; max_rebalance_drift_bps : Z; min_main_liquidity_bps : Z;
}.
End VaultPolicy.

Module ProjectionCursor.
(* http/types.rs:150-157 ProjectionCursor *)
Record t := {
  version : string; slot : string; transaction_index : Z; signature : string; event_index : Z;
}.
End ProjectionCursor.

Module VaultCapacity.
(* http/types.rs:159-168 VaultCapacity *)
Inductive t :=
| Unlimited | Limited (cap_limit : string) (remaining : string).
End VaultCapacity.

Module PremiumFlow.
(* http/types.rs:178-184 PremiumFlow *)
Record t := {
  received : string; paid : option string;
}.
End PremiumFlow.

Module VaultPremium.
(* http/types.rs:170-176 VaultPremium *)
Record t := {
  quote_mint : string; cycle : PremiumFlow.t; generation : PremiumFlow.t;
}.
End VaultPremium.

Module VaultFees.
(* http/types.rs:186-192 VaultFees *)
Record t := {
  management_fee_assessed : string; performance_fee_assessed : string; realized_fee_value : string;
}.
End VaultFees.

Module WindowReturn.
(* http/types.rs:238-244 WindowReturn *)
Record t := {
  return_pct : spec_float; from_time : string; to_time : string;
}.
End WindowReturn.

Module VaultReturns.
(* http/types.rs:222-236 VaultReturns *)
Record t := {
  d7 : option WindowReturn.t; d30 : option WindowReturn.t; d90 : option WindowReturn.t;
  all : option WindowReturn.t;
}.
End VaultReturns.

Module VaultPerformance.
(* http/types.rs:194-220 VaultPerformance *)
Record t := {
  capital_generation : string; computed_at : string; covered : bool; returns : VaultReturns.t;
  apy_30d : option spec_float; apy_90d : option spec_float; max_drawdown_pct : option spec_float;
  worst_cycle_return_pct : option spec_float; losing_cycles : option Z; cycles_completed : option Z;
}.
End VaultPerformance.

Module VaultMetadata.
(* http/types.rs:100-122 VaultMetadata *)
Record t := {
  name : string; curator : option string; strategy : option string; description : option string;
  website : option string; twitter : option string; logo_url : option string;
}.
End VaultMetadata.

Module Vault.
(* http/types.rs:6-98 Vault *)
Record t := {
  vault_pda : string; vault_id : string; governance : string; fee_recipient : string; primary_delegate : string;
  main_mint : string; second_mint : string; share_mint : string; main_token_program : TokenProgramKind.t;
  second_token_program : TokenProgramKind.t; main_decimals : Z; second_decimals : Z; phase : string;
  safety : string; capabilities : Z; active_expiry : string; open_positions : string; total_shares : string;
  share_price : string; equity : string; capital_generation : string; second_leg_generation : string;
  accepting_deposits : bool; equity_computed : bool; pending_deposit_count : Z; pending_withdraw_count : Z;
  pending_deposit_amount : string; pending_withdraw_shares : string; performance_fee_bps : Z;
  management_fee_bps : Z; manager_stake_min_bps : Z; share_price_hwm : string; last_hwm_update_ts : string;
  last_hwm_reset_ts : string; last_settlement_ts : string; capacity : VaultCapacity.t;
  capital_fallback_delay_secs : string; deposit_window_set_ts : option string; main_balance : option string;
  second_balance : option string; balance_updated_at : option string; live_share_supply : option string;
  observed_manager_stake_shares : option string; balance_chain_slot : option string;
  staging : option VaultStaging.t; staged_generation : string; policy : VaultPolicy.t;
  projection : ProjectionCursor.t; created_at : option string; generation_started_at : option string;
  tvl_usd_1e9 : option string; price_time : option string; premium : option (list VaultPremium.t);
  fees : option VaultFees.t; depositors_in_generation : option Z; performance : option VaultPerformance.t;
  metadata : option VaultMetadata.t;
}.
End Vault.

Module VaultPositionProduct.
(* http/types.rs:274-283 VaultPositionProduct *)
Inductive t :=
| Physical | Spread (upper_strike : string) (collateral : string).
End VaultPositionProduct.

Module VaultPositionRole.
(* http/types.rs:285-290 VaultPositionRole *)
Inductive t :=
| Writer | Holder.
End VaultPositionRole.

Module VaultPositionType.
(* http/types.rs:292-300 VaultPositionType *)
Inductive t :=
| CoveredCall | CashSecuredPut | CallSpread | PutSpread | CashPut.
End VaultPositionType.

Module VaultPositionStatus.
(* http/types.rs:302-309 VaultPositionStatus *)
Inductive t :=
| Open | Funded | Liquidated | Settled.
End VaultPositionStatus.

Module VaultPosition.
(* http/types.rs:246-272 VaultPosition *)
Record t := {
  vault : string; position : string; order_id : string; role : VaultPositionRole.t; market : string;
  position_type : VaultPositionType.t; strike : string; product : VaultPositionProduct.t; quantity : string;
  net_premium : string; counterparty : string; funded_amount : option string; status : VaultPositionStatus.t;
  is_otm : option bool; created_at : string; acquired_at : string; settled_at : option string;
  transaction_signature : option string;
}.
End VaultPosition.

Module VaultExposurePosition.
(* http/types.rs:323-357 VaultExposurePosition *)
Record t := {
  position : string; market : string; position_type : VaultPositionType.t; role : VaultPositionRole.t;
  status : VaultPositionStatus.t; strike : string; quantity : string; expiry : string; underlying_mint : string;
  quote_mint : string; underlying_decimals : option Z; quote_decimals : option Z; spot : option string;
  spot_time : option string; distance_pct : option spec_float; itm : option bool; intrinsic : option string;
}.
End VaultExposurePosition.

Module VaultExposureTotal.
(* http/types.rs:359-369 VaultExposureTotal *)
Record t := {
  quote_mint : string; notional_at_strike : option string; outstanding_intrinsic : option string;
}.
End VaultExposureTotal.

Module VaultExposure.
(** Besides the continuation. *)
(* http/types.rs:311-321 VaultExposure *)
Record t := {
  vault_pda : string; as_of : string; positions : list VaultExposurePosition.t;
  totals : list VaultExposureTotal.t;
}.
End VaultExposure.

Module VaultCycle.
(* http/types.rs:371-393 VaultCycle *)
Record t := {
  cycle_number : string; capital_generation : option string; expiry : string; started_at : string;
  finished_at : option string; share_price_start : string; share_price_end : option string;
  equity_start : string; equity_end : option string; positions_opened : Z; positions_settled : Z;
  return_pct : option spec_float; performance_fee_assessed : string; management_fee_assessed : string;
}.
End VaultCycle.

Module VaultDepositRequest.
(* http/types.rs:395-403 VaultDepositRequest *)
Record t := {
  wallet : string; amount : string; created_at : string; transaction_signature : option string;
}.
End VaultDepositRequest.

Module VaultWithdrawRequest.
(* http/types.rs:405-413 VaultWithdrawRequest *)
Record t := {
  wallet : string; shares : string; created_at : string; transaction_signature : option string;
}.
End VaultWithdrawRequest.

Module CountLimit.
(* http/types.rs:456-462 CountLimit *)
Inductive t :=
| Unlimited | Limited (value : Z).
End CountLimit.

Module Venue.
(* http/types.rs:464-479 Venue *)
Record t := {
  protocol_fee_bps_premium : Z; protocol_fee_bps_volume : Z; program_id : key; min_quote_validity_seconds : Z;
  settlement_buffer_seconds : Z; quote_refresh_lead_seconds : Z; min_rfq_timeout_seconds : Z;
  max_rfq_timeout_seconds : Z; signature_timeout_seconds : Z; max_quotes_per_rfq : CountLimit.t;
  max_active_rfqs_per_taker : CountLimit.t; pre_expiry_cutoff_seconds : Z;
}.
End Venue.
