(* ===== verification/Http.v ===== *)
(** * The HTTP client ([src/http/mod.rs])

    A read-only client of the public API.  Answers are cached by path with their [ETag]; a
    request carries the tag it has, and a [304] stands for the cached body.  Lists are read
    to their end.

    The client is shared by its clones: while a request is under way, others may change the
    cache ([others]).  The network is [send], the n-th request's response; [Url] is the [url]
    crate; decoding is serde's, a class. *)

From Stdlib Require Import ZArith Lia Ascii String.
From stdpp Require Import base list gmap strings pretty.
From S2P Require Import Prelude Terms Quote Paging Rows HttpRows.

Local Open Scope string_scope.
Open Scope Z_scope.

Module HttpError.
(* http/mod.rs:27-40 HttpError *)
Inductive t :=
| Request (e : string)
| Status (status : Z) (body : string)
| Decode (e : string)
| InvalidCursor
| InvalidPage (e : Paging.InvalidPage).
End HttpError.

(** ** Queries *)

(* http/mod.rs:42-49 MarketFilter *)
Record MarketFilter := {
  mf_underlying : option key;
  mf_quote : option key;
  mf_expiry : option Z;
  mf_is_put : option bool;
  mf_active : option bool;
}.

(** [bool]'s [Display]. *)
Definition display_bool (b : bool) : string := if b then "true" else "false".

(** [[String]::join]. *)
Fixpoint join (sep : string) (l : list string) : string :=
  match l with [] => "" | [s] => s | s :: l => s +:+ sep +:+ join sep l end.

Section query.
(** [Address32]'s [Display], base58. *)
Context (display_key : key -> string).

(* http/mod.rs:52-74 MarketFilter::query *)
Definition query (self : MarketFilter) : string :=
  let param {A} (name : string) (display : A -> string) (o : option A) : list string :=
    match o with Some a => [name +:+ "=" +:+ display a] | None => [] end in
  let params :=
    (param "underlying" display_key (mf_underlying self) ++ param "quote" display_key (mf_quote self) ++
     param "expiry" pretty (mf_expiry self) ++ param "is_put" display_bool (mf_is_put self) ++
     param "active" display_bool (mf_active self))%list in
  match params with [] => "" | _ => "?" +:+ join "&" params end.
End query.

(** ** Requests *)

(** What the client reads of a response; [rs_etag] is the header when it is there and is
    text, [rs_text] and [rs_body] the two ways to read the body, which may fail. *)
Record Response := {
  rs_status : Z;
  rs_etag : option string;
  rs_text : string + string;
  rs_body : string + bytes;
}.

(** [StatusCode::is_success]. *)
Definition is_success (r : Response) : bool := (200 <=? rs_status r) && (rs_status r <? 300).
Definition NOT_MODIFIED : Z := 304.

(* http/mod.rs:84-88 Cached *)
Record Cached := { etag : string; body : bytes }.
Abbreviation Cache := (gmap string Cached).

(** [while base_url.ends_with('/') { base_url.pop(); }], on the reversed text. *)
Fixpoint pop_slashes (reversed : list ascii) : list ascii :=
  match reversed with
  | "/"%char :: rest => pop_slashes rest
  | _ => reversed
  end.

(* http/mod.rs:97-108 HttpClient::with_client *)
Definition with_client (base_url : string) : string :=
  String.string_of_list_ascii (rev (pop_slashes (rev (String.list_ascii_of_string base_url)))).

(** [serde_json::from_slice]. *)
Class DeserializeOwned (T : Type) := from_slice : bytes -> string + T.

Definition decode {T} `{DeserializeOwned T} (b : bytes) : res HttpError.t T :=
  match from_slice b with inr v => Ok v | inl e => Err (HttpError.Decode e) end.

(** The client's calls so far, and the shared cache. *)
Record HttpWorld := { hw_cache : Cache; hw_calls : nat }.

(** A response is an answer, or a body still to be read. *)
Inductive Got (A : Type) := Answer (r : res HttpError.t A) | Reading (etag : option string) (body : string + bytes).
Arguments Answer {A} r.
Arguments Reading {A} etag body.

(** A page: its continuation and its other fields. *)
Record ListPage {B : Type} := { lp_next_cursor : option string; lp_body : B }.
Arguments ListPage B : clear implicits.

(** The [url] crate, as [page_path] uses it. *)
Class UrlCrate := {
  Url : Set;
  url_parse : string -> option Url;
  append_pair : Url -> string -> string -> Url;
  url_path : Url -> string;
  url_query : Url -> option string;
}.

Section client.
Context `{UC : UrlCrate}.
Context (display_key : key -> string).
(** The client's [base_url]; the n-th request's answer, with the tag it carries; what the
    other clones do to the cache before it is answered, and before its body is read. *)
Context (base_url : string).
Context (send : nat -> string -> option string -> string + Response).
Context (others : nat -> bool -> Cache -> Cache).

(** *** [get], between the points where it waits *)

(* http/mod.rs:313-316 HttpClient::get (request) *)
Definition get_request (cache : Cache) (path : string) : string * option string :=
  (base_url +:+ path, etag <$> cache !! path).

(* http/mod.rs:317-336 HttpClient::get (response) *)
Definition get_response {T} `{DeserializeOwned T} (cache : Cache) (path : string) (response : string + Response) : Got T :=
  match response with
  | inl e => Answer (Err (HttpError.Request e))
  | inr r =>
      let cached := if rs_status r =? NOT_MODIFIED then body <$> cache !! path else None in
      match cached with
      | Some body => Answer (decode body)
      | None =>
          if negb (is_success r) then
            match rs_text r with
            | inl e => Answer (Err (HttpError.Request e))
            | inr text => Answer (Err (HttpError.Status (rs_status r) text))
            end
          else Reading (rs_etag r) (rs_body r)
      end
  end.

(* http/mod.rs:336-347 HttpClient::get (body) *)
Definition get_body {T} `{DeserializeOwned T} (cache : Cache) (path : string) (tag : option string) (read : string + bytes)
  : res HttpError.t T * Cache :=
  match read with
  | inl e => (Err (HttpError.Request e), cache)
  | inr b =>
      match decode b with
      | Ok value =>
          (Ok value, match tag with Some e => <[path := {| etag := e; body := b |}]> cache | None => cache end)
      | Err e => (Err e, cache)
      | Panic => (Panic, cache)
      end
  end.

(* http/mod.rs:312-348 HttpClient::get *)
Definition get {T} `{DeserializeOwned T} (w : HttpWorld) (path : string) : HttpWorld * res HttpError.t T :=
  let n := hw_calls w in
  let '(url, tag) := get_request (hw_cache w) path in
  let response := send n url tag in
  let cache := others n false (hw_cache w) in
  match get_response cache path response with
  | Answer r => ({| hw_cache := cache; hw_calls := S n |}, r)
  | Reading tag read =>
      let '(r, cache) := get_body (others n true cache) path tag read in
      ({| hw_cache := cache; hw_calls := S n |}, r)
  end.

(** *** Lists *)

(* http/mod.rs:282-286 HttpClient::page_path (pairs) *)
Definition page_pairs (url : Url) (limit : Z) (cursor : Cursor.t) : Url :=
  let url := append_pair url "limit" (pretty limit) in
  match cursor with Cursor.After id => append_pair url "cursor" id | Cursor.Start => url end.

(* http/mod.rs:275-292 HttpClient::page_path *)
Definition page_path (path : string) (limit : Z) (cursor : Cursor.t) : res HttpError.t string :=
  url ← ok_or (url_parse ("http://localhost" +:+ path)) HttpError.InvalidCursor;
  let url := page_pairs url limit cursor in
  Ok (url_path url +:+ "?" +:+ default "" (url_query url)).

(** The closure given to [fetch_all]. *)
(* http/mod.rs:301-301 HttpClient::collect (load) *)
Definition load_list {T} `{DeserializeOwned T} (path : string) (limit : Z) (w : HttpWorld) (cursor : Cursor.t)
  : HttpWorld * res HttpError.t T :=
  match page_path path limit cursor with
  | Ok path => get w path
  | Err e => (w, Err e)
  | Panic => (w, Panic)
  end.

(** What every list does with a page. *)
(* http/mod.rs:120-123 HttpClient::vaults (append) *)
Definition append_list {B} (extend : B -> B -> B) (all page : ListPage B) : ListPage B :=
  {| lp_next_cursor := lp_next_cursor page; lp_body := extend (lp_body all) (lp_body page) |}.

(* http/mod.rs:294-306 HttpClient::collect *)
Definition collect {B} `{DeserializeOwned (ListPage B)} (path : string) (extend : B -> B -> B) (fuel : nat) (w : HttpWorld)
  : option (HttpWorld * res HttpError.t (ListPage B)) :=
  fetch_all HttpError.InvalidPage (load_list path 200) lp_next_cursor (append_list extend) fuel w.

(** The pages that are a list of rows and a continuation. *)
(* http/types.rs:435-440 VaultsResponse *)
Definition VaultsResponse : Type := ListPage (list Vault.t).
(* http/types.rs:429-433 VaultPositionsResponse *)
Definition VaultPositionsResponse : Type := ListPage (list VaultPosition.t).
(* http/types.rs:415-420 VaultCyclesResponse *)
Definition VaultCyclesResponse : Type := ListPage (list VaultCycle.t).
(* http/types.rs:422-427 VaultRequestsResponse *)
Definition VaultRequestsResponse (T : Type) : Type := ListPage (list T).
(* http/types.rs:442-447 MarketsResponse *)
Definition MarketsResponse : Type := ListPage (list MarketInfo.t).
(* http/types.rs:449-454 TokensResponse *)
Definition TokensResponse : Type := ListPage (list TokenInfo.t).

(** The rows of a list, when the page is nothing else. *)
Definition collect_rows {A} `{DeserializeOwned (ListPage (list A))} (path : string) (fuel : nat) (w : HttpWorld)
  : option (HttpWorld * res HttpError.t (list A)) :=
  match collect path (app (A := A)) fuel w with
  | Some (w, r) => Some (w, lp_body <$> r)
  | None => None
  end.

(** *** The endpoints *)

(* http/mod.rs:115-127 HttpClient::vaults *)
Definition vaults `{DeserializeOwned VaultsResponse} (fuel : nat) (w : HttpWorld) :=
  collect_rows (A := Vault.t) "/api/v1/vaults" fuel w.

(* http/mod.rs:129-146 HttpClient::delegated_vaults *)
Definition delegated_vaults `{DeserializeOwned VaultsResponse} (delegate : key) (fuel : nat) (w : HttpWorld) :=
  collect_rows (A := Vault.t) ("/api/v1/vaults?delegate=" +:+ display_key delegate) fuel w.

(* http/mod.rs:148-150 HttpClient::vault *)
Definition vault `{DeserializeOwned Vault.t} (pda : key) (w : HttpWorld) : HttpWorld * res HttpError.t Vault.t :=
  get w ("/api/v1/vaults/" +:+ display_key pda).

(* http/mod.rs:152-168 HttpClient::vault_positions *)
Definition vault_positions `{DeserializeOwned VaultPositionsResponse} (pda : key) (fuel : nat) (w : HttpWorld) :=
  collect_rows (A := VaultPosition.t) ("/api/v1/vaults/" +:+ display_key pda +:+ "/positions?settled=false") fuel w.

(* http/mod.rs:170-183 HttpClient::vault_cycles *)
Definition vault_cycles `{DeserializeOwned VaultCyclesResponse} (pda : key) (fuel : nat) (w : HttpWorld) :=
  collect_rows (A := VaultCycle.t) ("/api/v1/vaults/" +:+ display_key pda +:+ "/cycles") fuel w.

(** Its pages are of 100. *)
(* http/mod.rs:203-214 HttpClient::vault_requests *)
Definition vault_requests {T} `{DeserializeOwned (VaultRequestsResponse T)} (path : string) (fuel : nat) (w : HttpWorld)
  : option (HttpWorld * res HttpError.t (list T)) :=
  match fetch_all HttpError.InvalidPage (load_list path 100) lp_next_cursor (append_list (app (A := T))) fuel w with
  | Some (w, r) => Some (w, lp_body <$> r)
  | None => None
  end.

(* http/mod.rs:185-192 HttpClient::vault_deposit_requests *)
Definition vault_deposit_requests `{DeserializeOwned (VaultRequestsResponse VaultDepositRequest.t)} (pda : key) (fuel : nat)
  (w : HttpWorld) :=
  vault_requests (T := VaultDepositRequest.t) ("/api/v1/vaults/" +:+ display_key pda +:+ "/deposit-requests") fuel w.

(* http/mod.rs:194-201 HttpClient::vault_withdraw_requests *)
Definition vault_withdraw_requests `{DeserializeOwned (VaultRequestsResponse VaultWithdrawRequest.t)} (pda : key) (fuel : nat)
  (w : HttpWorld) :=
  vault_requests (T := VaultWithdrawRequest.t) ("/api/v1/vaults/" +:+ display_key pda +:+ "/withdraw-requests") fuel w.

(** The totals are the first page's. *)
(* http/mod.rs:221-224 HttpClient::vault_exposure (append) *)
Definition extend_exposure (all page : VaultExposure.t) : VaultExposure.t :=
  {| VaultExposure.vault_pda := VaultExposure.vault_pda all;
     VaultExposure.as_of := VaultExposure.as_of all;
     VaultExposure.positions := VaultExposure.positions all ++ VaultExposure.positions page;
     VaultExposure.totals := VaultExposure.totals all |}.

(* http/mod.rs:216-227 HttpClient::vault_exposure *)
Definition vault_exposure `{DeserializeOwned (ListPage VaultExposure.t)} (pda : key) (fuel : nat) (w : HttpWorld) :=
  collect ("/api/v1/vaults/" +:+ display_key pda +:+ "/exposure") extend_exposure fuel w.

(* http/mod.rs:229-241 HttpClient::vault_exposure_page *)
Definition vault_exposure_page `{DeserializeOwned (ListPage VaultExposure.t)} (pda : key) (limit : Z) (cursor : option string)
  (w : HttpWorld) : HttpWorld * res HttpError.t (ListPage VaultExposure.t) :=
  let cursor := match cursor with None => Cursor.Start | Some id => Cursor.After id end in
  load_list ("/api/v1/vaults/" +:+ display_key pda +:+ "/exposure") limit w cursor.

(* http/mod.rs:243-255 HttpClient::markets *)
Definition markets `{DeserializeOwned MarketsResponse} (filter : MarketFilter) (fuel : nat) (w : HttpWorld) :=
  collect_rows (A := MarketInfo.t) ("/api/v1/markets" +:+ query display_key filter) fuel w.

(** [collect] into a [BTreeMap]: a later token of the same mint replaces an earlier one. *)
(* http/mod.rs:257-273 HttpClient::tokens *)
Definition tokens `{DeserializeOwned TokensResponse} (fuel : nat) (w : HttpWorld)
  : option (HttpWorld * res HttpError.t (gmap key TokenInfo.t)) :=
  match collect_rows (A := TokenInfo.t) "/api/v1/tokens" fuel w with
  | Some (w, r) => Some (w, foldl (fun m token => <[TokenInfo.mint token := token]> m) ∅ <$> r)
  | None => None
  end.

(* http/mod.rs:308-310 HttpClient::venue *)
Definition venue `{DeserializeOwned Venue.t} (w : HttpWorld) : HttpWorld * res HttpError.t Venue.t := get w "/api/v1/venue".
End client.

(** ** Cached answers

    The responses the server gave: the tag and the body of a successful one, for a path. *)

Section cached.
Context `{UC : UrlCrate}.
Context (base_url : string).
Context (send : nat -> string -> option string -> string + Response).
Context (others : nat -> bool -> Cache -> Cache).

Definition served_body (path : string) (b : bytes) : Prop :=
  exists n tag r, send n (base_url +:+ path) tag = inr r /\ is_success r = true /\ rs_body r = inr b.

Definition served_tagged (path e : string) (b : bytes) : Prop :=
  exists n tag r, send n (base_url +:+ path) tag = inr r /\ is_success r = true /\ rs_etag r = Some e /\ rs_body r = inr b.

Lemma tagged_served path e b : served_tagged path e b -> served_body path b.
Proof. intros (n & tag & r & Hs & Hok & _ & Hb). by exists n, tag, r. Qed.

(** The cache holds tags with the bodies they came with. *)
Definition cache_honest (cache : Cache) : Prop :=
  forall path c, cache !! path = Some c -> served_tagged path (etag c) (body c).

Lemma honest_empty : cache_honest ∅.
Proof. by intros path c. Qed.

Lemma honest_insert cache path e b :
  cache_honest cache -> served_tagged path e b -> cache_honest (<[path := {| etag := e; body := b |}]> cache).
Proof.
  intros H Hs path' c Hc. destruct (decide (path = path')) as [<-|Hne].
  - rewrite lookup_insert_eq in Hc. by injection Hc as <-.
  - rewrite lookup_insert_ne in Hc by done. by apply H.
Qed.

(** The other clones run the same code (see [get_keeps_honest]). *)
Hypothesis others_honest : forall n late cache, cache_honest cache -> cache_honest (others n late cache).

Context {T : Type} `{DeserializeOwned T}.

(** Where an answer came from: a new response to this very request, or a body the server
    gave before, which a [304] stands for. *)
Definition answered_from (w : HttpWorld) (path : string) (b : bytes) : Prop :=
  let '(url, tag) := get_request base_url (hw_cache w) path in
  exists r, send (hw_calls w) url tag = inr r /\
  (is_success r = true /\ rs_body r = inr b \/
   rs_status r = NOT_MODIFIED /\ exists c, others (hw_calls w) false (hw_cache w) !! path = Some c /\ body c = b /\
     served_tagged path (etag c) b).

Lemma decode_Ok b (v : T) : decode b = Ok v <-> from_slice b = inr v.
Proof. unfold decode. destruct (from_slice b); split; congruence. Qed.

Lemma decode_returns b : decode (T := T) b <> Panic.
Proof. unfold decode. by destruct (from_slice b). Qed.

Lemma get_sound w path w' (x : res HttpError.t T) :
  cache_honest (hw_cache w) -> get base_url send others w path = (w', x) ->
  cache_honest (hw_cache w') /\
  match x with Ok v => exists b, from_slice b = inr v /\ answered_from w path b | Err _ => True | Panic => False end.
Proof.
  intros Hw. unfold get, answered_from, get_request. set (tag := etag <$> hw_cache w !! path).
  pose proof (others_honest (hw_calls w) false _ Hw) as H1. set (c1 := others (hw_calls w) false (hw_cache w)) in *.
  destruct (send (hw_calls w) (base_url +:+ path) tag) as [e|r] eqn:Es; simpl; [by intros [= <- <-]|].
  destruct (if rs_status r =? NOT_MODIFIED then body <$> c1 !! path else None) as [b|] eqn:Ec; simpl.
  - destruct (Z.eqb_spec (rs_status r) NOT_MODIFIED) as [Hst|]; [|done].
    destruct (c1 !! path) as [c|] eqn:Ep; [|done]. injection Ec as <-.
    intros [= <- <-]. split; [done|]. destruct (decode (body c)) as [v|e|] eqn:Ed; [|done|by destruct (decode_returns _ Ed)].
    exists (body c). rewrite <- decode_Ok. split; [done|]. exists r. split; [done|]. right. split; [done|].
    exists c. split_and!; [done..|]. by apply H1.
  - destruct (is_success r) eqn:Ok_; simpl; [|destruct (rs_text r); by intros [= <- <-]].
    pose proof (others_honest (hw_calls w) true _ H1) as H2.
    destruct (rs_body r) as [e|b] eqn:Eb; simpl; [by intros [= <- <-]|].
    destruct (decode b) as [v|e|] eqn:Ed; [|by intros [= <- <-]|by destruct (decode_returns _ Ed)].
    intros [= <- <-]. simpl. split.
    + destruct (rs_etag r) as [e|] eqn:Ee; [|done]. apply honest_insert; [done|].
      exists (hw_calls w), tag, r. done.
    + exists b. rewrite <- decode_Ok. split; [done|]. exists r. split; [done|]. by left.
Qed.

(** What a clone's [get] does to the cache is what [others_honest] asks of it. *)
Lemma get_keeps_honest w path w' (x : res HttpError.t T) :
  cache_honest (hw_cache w) -> get base_url send others w path = (w', x) -> cache_honest (hw_cache w').
Proof. intros Hw Hg. by apply (get_sound w path w' x). Qed.

(** *** A server that honours its tags

    [current n path]: the tag and body of the path when the n-th request is answered. *)
Definition honours_tags (current : nat -> string -> string * bytes) : Prop :=
  (forall n path tag r, send n (base_url +:+ path) tag = inr r -> is_success r = true ->
     rs_body r = inr (current n path).2 /\ rs_etag r = Some (current n path).1) /\
  (forall n path tag r, send n (base_url +:+ path) tag = inr r -> rs_status r = NOT_MODIFIED ->
     tag = Some (current n path).1) /\
  (forall n n' path, (current n path).1 = (current n' path).1 -> (current n path).2 = (current n' path).2).

Lemma get_current current w path w' (v : T) :
  cache_honest (hw_cache w) -> honours_tags current ->
  others (hw_calls w) false (hw_cache w) !! path = hw_cache w !! path ->
  get base_url send others w path = (w', Ok v) -> from_slice (current (hw_calls w) path).2 = inr v.
Proof.
  intros Hw (H200 & H304 & Htag) Hsame Hg. apply get_sound in Hg as [_ (b & Hb & Ha)]; [|done].
  unfold answered_from, get_request in Ha. destruct Ha as (r & Hs & [[Hok Hr]|(Hst & c & Hc & <- & Ht)]).
  - destruct (H200 _ _ _ _ Hs Hok) as [Hr' _]. rewrite Hr in Hr'. injection Hr' as ->. done.
  - rewrite Hsame in Hc. rewrite Hc in Hs. simpl in Hs. pose proof (H304 _ _ _ _ Hs Hst) as [= He].
    destruct Ht as (n & tag & r' & Hs' & Hok & Hetag & Hbody).
    destruct (H200 _ _ _ _ Hs' Hok) as [Hb' He']. rewrite Hetag in He'. injection He' as He'.
    rewrite Hbody in Hb'. injection Hb' as Hb'. rewrite Hb' in Hb. rewrite <- Hb. f_equal. apply Htag. congruence.
Qed.

(** *** Lists *)

(** A page of a list: decoded from a body the server gave for that page's path. *)
Definition page_of (path : string) (limit : Z) (c : Cursor.t) (p : T) : Prop :=
  exists path' b, page_path path limit c = Ok path' /\ served_body path' b /\ from_slice b = inr p.

Lemma load_list_sound path limit w c w' (x : res HttpError.t T) :
  cache_honest (hw_cache w) -> load_list base_url send others path limit w c = (w', x) ->
  cache_honest (hw_cache w') /\ match x with Ok p => page_of path limit c p | Err _ => True | Panic => False end.
Proof.
  intros Hw. unfold load_list. destruct (page_path path limit c) as [path'|e|] eqn:Ep.
  - intros Hg. apply get_sound in Hg as [Hw' Hx]; [|done]. split; [done|]. destruct x as [p| |]; [|done..].
    destruct Hx as (b & Hb & Ha). exists path', b. split_and!; [done| |done].
    unfold answered_from, get_request in Ha. destruct Ha as (r & Hs & [[Hok Hr]|(_ & c' & _ & <- & Ht)]).
    + by exists (hw_calls w), (etag <$> hw_cache w !! path'), r.
    + by eapply tagged_served.
  - by intros [= <- <-].
  - unfold page_path in Ep. by destruct (url_parse _).
Qed.

Context (next : T -> option string) (append : T -> T -> T).
Hypothesis next_append : forall all page, next (append all page) = next page.

Lemma list_chain path limit w earlier page w' :
  cache_honest (hw_cache w) ->
  page_chain (load_list base_url send others path limit) next w earlier page w' ->
  cache_honest (hw_cache w') /\
  Forall2 (page_of path limit) (Cursor.Start :: (Cursor.After <$> omap next earlier)) (earlier ++ [page]) /\
  NoDup (omap next earlier).
Proof.
  intros Hw. induction 1 as [page w1 Hl|earlier page w1 id page' w2 Hc IH Hn Hne Hni Hl].
  - apply load_list_sound in Hl as [H1 Hp]; [|done]. split_and!; [done|by repeat constructor|constructor].
  - destruct IH as (Hw1 & Hf & Hnd). apply load_list_sound in Hl as [H1 Hp]; [|done]. split; [done|].
    rewrite omap_app. simpl. rewrite Hn. simpl. rewrite fmap_app. split.
    + rewrite app_comm_cons. apply Forall2_app; [done|by repeat constructor].
    + apply NoDup_app. split; [done|]. split; [set_solver|apply NoDup_singleton].
Qed.

Lemma list_sound path limit fuel w w' (x : res HttpError.t T) :
  cache_honest (hw_cache w) ->
  fetch_all HttpError.InvalidPage (load_list base_url send others path limit) next append fuel w = Some (w', x) ->
  match x with
  | Ok result =>
      cache_honest (hw_cache w') /\
      exists earlier page, next page = None /\ result = merge_pages append earlier page /\
        Forall2 (page_of path limit) (Cursor.Start :: (Cursor.After <$> omap next earlier)) (earlier ++ [page]) /\
        NoDup (omap next earlier)
  | _ => True
  end.
Proof.
  intros Hw Hf. apply (fetch_all_traversed _ _ _ _ next_append) in Hf. destruct x as [result| |]; [|done..].
  destruct Hf as (earlier & page & Hc & Hn & ->). apply list_chain in Hc as (Hw' & Hp & Hnd); [|done]. eauto 8.
Qed.
End cached.

(** A list as the endpoints return it: the rows of its pages, in order. *)
Lemma collect_rows_sound `{UC : UrlCrate} base_url send others {A} `{DeserializeOwned (ListPage (list A))} path fuel w w' (rows : list A) :
  (forall n late cache, cache_honest base_url send cache -> cache_honest base_url send (others n late cache)) ->
  cache_honest base_url send (hw_cache w) ->
  collect_rows base_url send others path fuel w = Some (w', Ok rows) ->
  exists pages : list (ListPage (list A)),
    rows = pages ≫= lp_body /\ lp_next_cursor <$> last pages = Some None /\
    Forall2 (page_of base_url send path 200)
      (Cursor.Start :: (Cursor.After <$> omap lp_next_cursor (removelast pages))) pages.
Proof.
  intros Ho Hw. unfold collect_rows, collect. destruct (fetch_all _ _ _ _ _ _) as [[w1 x]|] eqn:Ef; [|done].
  destruct x as [result| |]; [|done..]. cbn [fmap res_fmap]. intros [= -> <-].
  apply list_sound in Ef as (_ & earlier & page & Hn & -> & Hf & _); [|done..].
  exists (earlier ++ [page])%list. rewrite last_snoc, removelast_last. simpl. rewrite Hn. split_and!; [|done|done].
  by apply merge_rows.
Qed.

(** C18: What the HTTP client answers is what the server served.  An answer decodes either the
    body of the response to this very request, or, for a [304], the body the server sent with
    the cached tag, whatever other clones of the client do to the cache meanwhile; no call
    panics, and every call keeps the cache a set of tags with the bodies they came with.  If the
    server honours its tags and no clone refreshed the path meanwhile, the answer is the path's
    current content.  A list is made of the pages the server served for its path: from the
    start, each at the continuation of the one before, to the one without; its rows are theirs,
    in order. *)
Theorem http_answers_are_served `{UC : UrlCrate} base_url send others
  (Hothers : forall n late cache, cache_honest base_url send cache -> cache_honest base_url send (others n late cache))
  w (Hw : cache_honest base_url send (hw_cache w)) :
  (forall T (D : DeserializeOwned T) path w' (x : res HttpError.t T), get base_url send others w path = (w', x) ->
     cache_honest base_url send (hw_cache w') /\
     match x with
     | Ok v => exists b, from_slice b = inr v /\ answered_from base_url send others w path b
     | Err _ => True
     | Panic => False
     end) /\
  (forall T (D : DeserializeOwned T) current path w' (v : T), honours_tags base_url send current ->
     others (hw_calls w) false (hw_cache w) !! path = hw_cache w !! path ->
     get base_url send others w path = (w', Ok v) -> from_slice (current (hw_calls w) path).2 = inr v) /\
  (forall A (D : DeserializeOwned (ListPage (list A))) path fuel w' (rows : list A),
     collect_rows base_url send others path fuel w = Some (w', Ok rows) ->
     exists pages : list (ListPage (list A)),
       rows = pages ≫= lp_body /\ lp_next_cursor <$> last pages = Some None /\
       Forall2 (page_of base_url send path 200)
         (Cursor.Start :: (Cursor.After <$> omap lp_next_cursor (removelast pages))) pages).
Proof.
  split_and!.
  - intros T D path w' x. by apply get_sound.
  - intros T D current path w' v Ht Hs Hg. by eapply get_current.
  - intros A D path fuel w' rows. by apply collect_rows_sound.
Qed.

(** A server with one document, and a client that has read it. *)
Module HttpSample.
Definition base : string := "http://x".
Definition document (tag : option string) : Response :=
  if bool_decide (tag = Some "v1"%string)
  then {| rs_status := 304; rs_etag := None; rs_text := inr ""%string; rs_body := inr [] |}
  else {| rs_status := 200; rs_etag := Some "v1"%string; rs_text := inr ""%string; rs_body := inr [7] |}.
Definition send (n : nat) (url : string) (tag : option string) : string + Response := inr (document tag).
Definition others (n : nat) (late : bool) (cache : Cache) : Cache := cache.
Definition read (b : bytes) : string + Z := match b with [z] => inr z | _ => inl "not a number"%string end.
#[export] Instance url : UrlCrate :=
  {| Url := string; url_parse := Some; append_pair u k v := u +:+ "&" +:+ k +:+ "=" +:+ v; url_path u := u;
     url_query u := None |}.
Definition world : HttpWorld := {| hw_cache := {["/p"%string := {| etag := "v1"%string; body := [7] |}]}; hw_calls := 1 |}.
End HttpSample.

Lemma http_answers_are_served_witness :
  get HttpSample.base HttpSample.send HttpSample.others (H := HttpSample.read) HttpSample.world "/p" =
    ({| hw_cache := hw_cache HttpSample.world; hw_calls := 2 |}, Ok 7) /\
  HttpSample.read (snd ("v1"%string, [7])) = inr 7.
Proof.
  assert (Hg : get HttpSample.base HttpSample.send HttpSample.others (H := HttpSample.read) HttpSample.world "/p" =
    ({| hw_cache := hw_cache HttpSample.world; hw_calls := 2 |}, Ok 7)) by (vm_compute; reflexivity).
  split; [exact Hg|].
  assert (Ho : forall n late cache, cache_honest HttpSample.base HttpSample.send cache ->
    cache_honest HttpSample.base HttpSample.send (HttpSample.others n late cache)) by (intros n late cache H; exact H).
  assert (Hw : cache_honest HttpSample.base HttpSample.send (hw_cache HttpSample.world)).
  { intros path c Hc. unfold HttpSample.world in Hc. cbn [hw_cache] in Hc.
    apply lookup_singleton_Some in Hc as [<- <-]. exists 0%nat, None, (HttpSample.document None). repeat split. }
  assert (Ht : honours_tags HttpSample.base HttpSample.send (fun _ _ => ("v1"%string, [7]))).
  { split_and!; [| |done]; intros n path tag r [= <-]; unfold HttpSample.document; by case_bool_decide. }
  exact (proj1 (proj2 (http_answers_are_served (UC := HttpSample.url) HttpSample.base HttpSample.send HttpSample.others Ho HttpSample.world Hw))
    Z HttpSample.read (fun _ _ => ("v1"%string, [7])) "/p"%string _ 7 Ht eq_refl Hg).
Defined.
