(* ===== verification/Fleet.v ===== *)
(** * Following the vaults an operator may run ([ws/vault/fleet.rs])

    A feed subscribes to the catalog of vaults and lists the operator's vaults again after
    every change.  The session is a loop over a biased [select!]: each poll says what the
    time is, what the socket and the listing in flight have ready, and how a write it
    causes comes out.  Everything that leaves or enters the session is kept in its log. *)

From Stdlib Require Import ZArith Lia String.
From stdpp Require Import base list gmap sets strings.
From S2P Require Import Prelude Time Terms Signing Orders Quote Reconnect Rows Messages Control Challenge Config.

Open Scope Z_scope.

(* ws/vault/fleet.rs:23-24 MIN_INTERVAL, MAX_INTERVAL *)
Definition MIN_INTERVAL : Z := 100 * MILLI.
Definition MAX_INTERVAL : Z := 60 * NANOS.

(** The greeting's version; the URL and the HTTP client are used by the inputs. *)
(* ws/vault/fleet.rs:26-35 VaultFleetConfig *)
Record VaultFleetConfig := { fc_protocol_version : string; fc_retry : Z; fc_timeout : Z }.

(* ws/vault/fleet.rs:37-53 VaultFleetConfig::new *)
Definition new_fleet (protocol_version : string) : VaultFleetConfig :=
  {| fc_protocol_version := protocol_version; fc_retry := 5 * NANOS; fc_timeout := 5 * NANOS |}.

(** [Ord::clamp]. *)
Definition clamp (x low high : Z) : Z := if x <? low then low else if high <? x then high else x.

(* ws/vault/fleet.rs:55-61 VaultFleetConfig::with_retry *)
Definition with_retry (self : VaultFleetConfig) (retry : Z) : VaultFleetConfig :=
  {| fc_protocol_version := fc_protocol_version self; fc_retry := clamp retry MIN_INTERVAL MAX_INTERVAL; fc_timeout := fc_timeout self |}.

(* ws/vault/fleet.rs:63-69 VaultFleetConfig::with_timeout *)
Definition with_timeout (self : VaultFleetConfig) (timeout : Z) : VaultFleetConfig :=
  {| fc_protocol_version := fc_protocol_version self; fc_retry := fc_retry self; fc_timeout := clamp timeout MIN_INTERVAL MAX_INTERVAL |}.

(** Why a feed ended; the text is for people. *)
Module FeedError.
Inductive t :=
| TimedOut (what : string)
| Io (e : WsClientError.t)
| ClosedBeforeWelcome
| VersionMismatch (m : VersionMismatchData)
| AuthRejected (reason : WsErrorCode.t)
| ServerFailed (e : ServerError.t)
| ExpectedWelcome (other : ServerMessage.t)
| InvalidChallenge (e : SigningError)
| SubscriptionRejected (e : ServerError.t)
| NotSubscribed
| WentSilent
| Closed.
End FeedError.

(** A listing: the vaults' addresses, an HTTP error by its text, or the deadline. *)
Module Listed.
(* ws/vault/fleet.rs:287-287 Listed *)
Inductive t := Vaults (pdas : list string) | Failed (e : string) | Elapsed.
End Listed.

Module FleetListing.
Inductive reason := Listing (e : string) | CatalogFeed (e : FeedError.t).
(* ws/vault/fleet.rs:72-83 FleetListing *)
Inductive t := Pending | Listed (pdas : gset string) | Failed (why : reason).
End FleetListing.

(** What the feed writes. *)
Inductive FeedMessage :=
| Hello
| StartAuth (pubkey : key)
| AuthChallenge (challenge signature : string) (pubkey : key)
| Subscribe (data : SubscribeData)
| Ping.

(** What happened, in order. *)
Inductive FeedStep :=
| Wrote (m : FeedMessage)
| Heard (m : ServerMessage.t)
| Requested
| Published (l : FleetListing.t).

Inductive Within (A : Type) := Finished (a : A) | Broken (e : WsClientError.t) | Late.
Arguments Finished {A} a.
Arguments Broken {A} e.
Arguments Late {A}.

(* ws/vault/fleet.rs:316-325 within *)
Definition within {A} (what : string) (future : Within A) : res FeedError.t A :=
  match future with
  | Finished a => Ok a
  | Broken e => Err (FeedError.Io e)
  | Late => Err (FeedError.TimedOut what)
  end.

Record Poll := {
  pl_now : Z;
  pl_socket : option (option (WsClientError.t + ServerMessage.t));
  pl_listed : option Listed.t;
  pl_write : Within unit;
  pl_then : Z;
}.

Inductive FeedEvent :=
| EvSocket (message : option (WsClientError.t + ServerMessage.t))
| EvListed (listed : Listed.t)
| EvRelist | EvProbe | EvSilent.

(* ws/vault/fleet.rs:334-339 due_at *)
Definition due_at (at_ : option Z) (now : Z) : bool := match at_ with Some at_ => at_ <=? now | None => false end.

(* ws/vault/fleet.rs:327-332 in_flight *)
Definition listing_ready (listing : bool) (poll : Poll) : option Listed.t := if listing then pl_listed poll else None.

(** [None]: no arm is ready at this poll. *)
(* ws/vault/fleet.rs:297-314 next_event *)
Definition next_event (poll : Poll) (listing : bool) (relist_at probe_at : option Z) (silent_at : Z) : option FeedEvent :=
  match pl_socket poll with
  | Some message => Some (EvSocket message)
  | None =>
      match listing_ready listing poll with
      | Some listed => Some (EvListed listed)
      | None =>
          if due_at relist_at (pl_now poll) then Some EvRelist
          else if due_at probe_at (pl_now poll) then Some EvProbe
          else if silent_at <=? pl_now poll then Some EvSilent else None
      end
  end.

(** The session's variables, with the delay it shares with the loop around it. *)
(* ws/vault/fleet.rs:170-174 session (variables) *)
Record Feed := {
  fd_probe_at : option Z;
  fd_relist_at : option Z;
  fd_listing : bool;
  fd_wanted : bool;
  fd_silent_at : Z;
  fd_delay : Z;
  fd_log : list FeedStep;
}.

Definition logs (f : Feed) (s : FeedStep) : Feed :=
  {| fd_probe_at := fd_probe_at f; fd_relist_at := fd_relist_at f; fd_listing := fd_listing f; fd_wanted := fd_wanted f;
     fd_silent_at := fd_silent_at f; fd_delay := fd_delay f; fd_log := fd_log f ++ [s] |}.
Definition set_listing (f : Feed) (listing wanted : bool) (relist_at : option Z) : Feed :=
  {| fd_probe_at := fd_probe_at f; fd_relist_at := relist_at; fd_listing := listing; fd_wanted := wanted;
     fd_silent_at := fd_silent_at f; fd_delay := fd_delay f; fd_log := fd_log f |}.
Definition set_times (f : Feed) (probe_at : option Z) (silent_at : Z) : Feed :=
  {| fd_probe_at := probe_at; fd_relist_at := fd_relist_at f; fd_listing := fd_listing f; fd_wanted := fd_wanted f;
     fd_silent_at := silent_at; fd_delay := fd_delay f; fd_log := fd_log f |}.
Definition set_delay (f : Feed) (delay : Z) : Feed :=
  {| fd_probe_at := fd_probe_at f; fd_relist_at := fd_relist_at f; fd_listing := fd_listing f; fd_wanted := fd_wanted f;
     fd_silent_at := fd_silent_at f; fd_delay := delay; fd_log := fd_log f |}.

Section feed.
Context `{C : Crypto} `{SL : SignerLike T} (config : VaultFleetConfig) (operator : T) (subscribe_id : Uuid).

(** A write: the message is in the log when it was sent. *)
Definition write (f : Feed) (what : string) (m : FeedMessage) (w : Within unit) : Feed * res FeedError.t unit :=
  match within what w with Ok _ => (logs f (Wrote m), Ok tt) | r => (f, r) end.

(** The catalog subscription. *)
Definition subscription : SubscribeData :=
  {| sub_products := ProductSet.ALL; sub_request_id := subscribe_id; sub_channels := [WsChannel.Vaults];
     sub_underlying_mints := []; sub_quote_mints := [] |}.

(* ws/vault/fleet.rs:176-184 session (start a listing) *)
Definition start_listing (f : Feed) : Feed :=
  if fd_wanted f && negb (fd_listing f) then logs (set_listing f true false None) Requested else f.

(** The next listing is due [retry] after a failure. *)
(* ws/vault/fleet.rs:341-355 publish *)
Definition publish (listed : Listed.t) (now : Z) : FleetListing.t * option Z :=
  match listed with
  | Listed.Vaults pdas => (FleetListing.Listed (list_to_set pdas), None)
  | Listed.Failed e => (FleetListing.Failed (FleetListing.Listing e), Some (now + fc_retry config))
  | Listed.Elapsed => (FleetListing.Failed (FleetListing.Listing "listing timed out"), Some (now + fc_retry config))
  end.

(* ws/vault/fleet.rs:217-265 session (message) *)
Definition on_message (f : Feed) (poll : Poll) (message : ServerMessage.t) : Feed * option FeedError.t :=
  let fails (x : Feed * res FeedError.t unit) := match x with (f, Err e) => (f, Some e) | (f, _) => (f, None) end in
  match message with
  | ServerMessage.AuthRequest challenge =>
      match validate_wallet_auth_challenge challenge (encode_base58 (pubkey_bytes operator)) with
      | Err e => (f, Some (FeedError.InvalidChallenge e))
      | _ =>
          let signature := encode_base58 (sign_message operator (as_bytes challenge)) in
          fails (write f "auth challenge" (AuthChallenge challenge signature (pubkey_bytes operator)) (pl_write poll))
      end
  | ServerMessage.AuthSuccess _ => fails (write f "subscribe" (Subscribe subscription) (pl_write poll))
  | ServerMessage.SubscribeAck request_id =>
      if request_id =? subscribe_id then
        let f := set_delay f (fc_retry config) in
        let f := set_times f (Some (pl_now poll + fc_timeout config)) (pl_now poll + fc_timeout config * 2) in
        (set_listing f (fd_listing f) true (fd_relist_at f), None)
      else (f, None)
  | ServerMessage.VaultCatalogChanged => (set_listing f (fd_listing f) true (fd_relist_at f), None)
  | ServerMessage.VersionMismatch mismatch => (f, Some (FeedError.VersionMismatch mismatch))
  | ServerMessage.AuthError error => (f, Some (FeedError.AuthRejected (ae_reason error)))
  | ServerMessage.RequestError request_id error _ =>
      if request_id =? subscribe_id then (f, Some (FeedError.SubscriptionRejected error)) else (f, None)
  | _ => (f, None)
  end.

(** One turn of the loop; an error ends the session. *)
(* ws/vault/fleet.rs:175-266 session (loop) *)
Definition feed_turn (f : Feed) (poll : Poll) : Feed * option FeedError.t :=
  let f := start_listing f in
  match next_event poll (fd_listing f) (fd_relist_at f) (fd_probe_at f) (fd_silent_at f) with
  | None => (f, None)
  | Some (EvListed listed) =>
      let '(l, relist_at) := publish listed (pl_now poll) in
      (logs (set_listing f false (fd_wanted f) relist_at) (Published l), None)
  | Some EvRelist => (set_listing f (fd_listing f) true (fd_relist_at f), None)
  | Some EvProbe =>
      match write f "ping" Ping (pl_write poll) with
      | (f, Err e) => (f, Some e)
      | (f, _) => (set_times f (Some (pl_then poll + fc_timeout config)) (fd_silent_at f), None)
      end
  | Some EvSilent =>
      (f, Some (if bool_decide (is_Some (fd_probe_at f)) then FeedError.WentSilent else FeedError.NotSubscribed))
  | Some (EvSocket None) => (f, Some FeedError.Closed)
  | Some (EvSocket (Some (inl e))) => (f, Some (FeedError.Io e))
  | Some (EvSocket (Some (inr message))) =>
      let f := logs f (Heard message) in
      let f := if bool_decide (is_Some (fd_probe_at f))
               then set_times f (fd_probe_at f) (pl_now poll + fc_timeout config * 2) else f in
      on_message f poll message
  end.

(** The loop over the polls; [None]: it goes on. *)
Fixpoint feed_loop (f : Feed) (polls : list Poll) : Feed * option FeedError.t :=
  match polls with
  | [] => (f, None)
  | poll :: polls => match feed_turn f poll with (f, Some e) => (f, Some e) | (f, None) => feed_loop f polls end
  end.

(* ws/vault/fleet.rs:269-285 validate_welcome *)
Definition validate_welcome (next : option (WsClientError.t + ServerMessage.t)) : res FeedError.t unit :=
  match next with
  | None => Err FeedError.ClosedBeforeWelcome
  | Some (inl e) => Err (FeedError.Io e)
  | Some (inr message) =>
      match message with
      | ServerMessage.Welcome version =>
          if String.eqb version (fc_protocol_version config) then Ok tt else Err (FeedError.ExpectedWelcome message)
      | ServerMessage.VersionMismatch mismatch => Err (FeedError.VersionMismatch mismatch)
      | ServerMessage.AuthError error => Err (FeedError.AuthRejected (ae_reason error))
      | ServerMessage.Error error => Err (FeedError.ServerFailed error)
      | other => Err (FeedError.ExpectedWelcome other)
      end
  end.

(** How the start of a session comes out, and its polls. *)
Record FeedInput := {
  in_started : Z;
  in_connect : Within unit;
  in_hello : Within unit;
  in_welcome : Within (option (WsClientError.t + ServerMessage.t));
  in_start_auth : Within unit;
  in_polls : list Poll;
}.

(* ws/vault/fleet.rs:141-267 session *)
Definition feed_session (log : list FeedStep) (delay : Z) (x : FeedInput) : Feed * option FeedError.t :=
  let f := {| fd_probe_at := None; fd_relist_at := None; fd_listing := false; fd_wanted := false;
              fd_silent_at := in_started x + fc_timeout config; fd_delay := delay; fd_log := log |} in
  match within "connect" (in_connect x) with
  | Err e => (f, Some e)
  | _ =>
      match write f "hello" Hello (in_hello x) with
      | (f, Err e) => (f, Some e)
      | (f, _) =>
          match next ← within "welcome" (in_welcome x); validate_welcome next with
          | Err e => (f, Some e)
          | _ =>
              match write f "start auth" (StartAuth (pubkey_bytes operator)) (in_start_auth x) with
              | (f, Err e) => (f, Some e)
              | (f, _) => feed_loop f (in_polls x)
              end
          end
      end
  end.
End feed.

(** The feed for ever: each session has its own subscription id. *)
(* ws/vault/fleet.rs:116-129 follow *)
Fixpoint follow `{C : Crypto} `{SL : SignerLike T} (config : VaultFleetConfig) (operator : T) (log : list FeedStep) (delay : Z)
  (sessions : list (Uuid * FeedInput)) : list FeedStep * Z :=
  match sessions with
  | [] => (log, delay)
  | (subscribe_id, x) :: sessions =>
      match feed_session config operator subscribe_id log delay x with
      | (f, None) => (fd_log f, fd_delay f)
      | (f, Some e) =>
          follow config operator (fd_log f ++ [Published (FleetListing.Failed (FleetListing.CatalogFeed e))])
            (next_reconnect_delay (fd_delay f) MAX_INTERVAL) sessions
      end
  end.

(** ** The published listing is current *)

Section current.
Context `{C : Crypto} `{SL : SignerLike T} (config : VaultFleetConfig) (operator : T) (subscribe_id : Uuid).

(** A subscription or a change of the catalog. *)
Definition news (s : FeedStep) : bool :=
  match s with
  | Heard (ServerMessage.SubscribeAck id) => id =? subscribe_id
  | Heard ServerMessage.VaultCatalogChanged => true
  | _ => false
  end.
Definition publishes (s : FeedStep) : bool := match s with Published _ => true | _ => false end.
Definition calm (l : list FeedStep) : Prop := Forall (fun s => news s = false) l.
Definition unpublished (l : list FeedStep) : Prop := Forall (fun s => publishes s = false) l.

(** The last thing published is a listing that was requested after the last news. *)
Definition current (log : list FeedStep) : Prop :=
  exists before between after pdas,
    log = before ++ Requested :: between ++ Published (FleetListing.Listed pdas) :: after /\
    calm between /\ calm after /\ unpublished between /\ unpublished after.

Lemma current_snoc log s : current log -> news s = false -> publishes s = false -> current (log ++ [s]).
Proof.
  intros (b & m & a & pdas & -> & H1 & H2 & H3 & H4) Hn Hp. exists b, m, (a ++ [s]), pdas.
  split; [by rewrite <- !app_assoc; simpl; rewrite <- !app_assoc|]. unfold calm, unpublished in *. rewrite !Forall_app, ?Forall_singleton. tauto.
Qed.

(** [log]: what happened before the session. *)
Definition feed_inv (log : list FeedStep) (f : Feed) : Prop := exists part,
  fd_log f = log ++ part /\
  (fd_listing f = true -> exists l1 l2, fd_log f = l1 ++ Requested :: l2 /\ unpublished l2 /\ (fd_wanted f = false -> calm l2)) /\
  (fd_listing f = false -> fd_wanted f = false -> fd_relist_at f = None -> calm part \/ current (fd_log f)).

(** A step that is no news and publishes nothing. *)
Lemma inv_logs log f s : feed_inv log f -> news s = false -> publishes s = false -> feed_inv log (logs f s).
Proof.
  intros (part & Hl & Hr & Hc) Hn Hp. exists (part ++ [s]). simpl. split; [by rewrite Hl, app_assoc|]. split.
  - intros Hli. destruct (Hr Hli) as (l1 & l2 & -> & Hu & Hw). exists l1, (l2 ++ [s]).
    split; [by rewrite <- app_assoc|]. unfold calm, unpublished in *. rewrite !Forall_app, ?Forall_singleton. tauto.
  - intros H1 H2 H3. destruct (Hc H1 H2 H3) as [Hca|Hcu]; [left|right; by apply current_snoc].
    unfold calm in *. by rewrite Forall_app, Forall_singleton.
Qed.

(** Anything may be heard once a listing is wanted. *)
Lemma inv_wanted log f s : feed_inv log f -> publishes s = false -> feed_inv log (set_listing (logs f s) (fd_listing f) true (fd_relist_at f)).
Proof.
  intros (part & Hl & Hr & Hc) Hp. exists (part ++ [s]). simpl. split; [by rewrite Hl, app_assoc|]. split; [|done].
  intros Hli. destruct (Hr Hli) as (l1 & l2 & -> & Hu & Hw). exists l1, (l2 ++ [s]).
  split; [by rewrite <- app_assoc|]. split; [|done]. unfold unpublished in *. by rewrite Forall_app, Forall_singleton.
Qed.

Lemma inv_relist log f : feed_inv log f -> feed_inv log (set_listing f (fd_listing f) true (fd_relist_at f)).
Proof.
  intros (part & Hl & Hr & Hc). exists part. simpl. split; [done|]. split; [|done].
  intros Hli. destruct (Hr Hli) as (l1 & l2 & -> & Hu & Hw). by exists l1, l2.
Qed.

Lemma inv_start log f : feed_inv log f -> feed_inv log (start_listing f).
Proof.
  intros Hi. unfold start_listing. destruct (fd_wanted f && negb (fd_listing f)) eqn:E; [|done].
  destruct Hi as (part & Hl & _ & _). exists (part ++ [Requested]). simpl. split; [by rewrite Hl, app_assoc|]. split; [|done].
  intros _. exists (fd_log f), []. split; [done|]. split; [constructor|]. intros _. constructor.
Qed.

Lemma inv_publish log f listed now :
  feed_inv log f -> fd_listing f = true ->
  let '(l, relist_at) := publish config listed now in
  feed_inv log (logs (set_listing f false (fd_wanted f) relist_at) (Published l)).
Proof.
  intros (part & Hl & Hr & _) Hli. destruct (Hr Hli) as (l1 & l2 & He & Hu & Hw).
  assert (Hfail : forall why at_, feed_inv log (logs (set_listing f false (fd_wanted f) (Some at_)) (Published why))).
  { intros why at_. exists (part ++ [Published why]). simpl. by rewrite Hl, app_assoc. }
  destruct listed as [pdas|e|]; simpl; [|apply Hfail..].
  eexists (part ++ [_]). simpl. split; [by rewrite Hl, app_assoc|]. split; [done|]. intros _ Hwant _. right.
  exists l1, l2, [], (list_to_set pdas). rewrite He. split; [by rewrite <- app_assoc|].
  split; [by apply Hw|]. split; [constructor|]. split; [done|constructor].
Qed.

(** Times and delay do not matter. *)
Lemma inv_ext log f g :
  feed_inv log f -> fd_log g = fd_log f -> fd_listing g = fd_listing f -> fd_wanted g = fd_wanted f ->
  fd_relist_at g = fd_relist_at f -> feed_inv log g.
Proof. unfold feed_inv. by intros Hi -> -> -> ->. Qed.

Lemma inv_write log f what m w : feed_inv log f -> feed_inv log (write f what m w).1.
Proof. intros Hi. unfold write. destruct (within what w); simpl; [by apply inv_logs|done..]. Qed.

Lemma inv_message log f poll m :
  feed_inv log f -> news (Heard m) = false -> feed_inv log (on_message config operator subscribe_id f poll m).1.
Proof.
  intros Hi Hn. destruct m; simpl; try done.
  - destruct (validate_wallet_auth_challenge _ _); [| done |].
    all: pose proof (inv_write log f "auth challenge" (AuthChallenge challenge (encode_base58 (sign_message operator (as_bytes challenge)))
           (pubkey_bytes operator)) (pl_write poll) Hi) as H; by destruct (write _ _ _ _) as [? []].
  - pose proof (inv_write log f "subscribe" (Subscribe (subscription subscribe_id)) (pl_write poll) Hi) as H.
    by destruct (write _ _ _ _) as [? []].
  - by destruct (_ =? _).
  - simpl in Hn. by rewrite Hn.
Qed.

Lemma inv_turn log f poll : feed_inv log f -> feed_inv log (feed_turn config operator subscribe_id f poll).1.
Proof.
  intros Hi. unfold feed_turn. apply inv_start in Hi. revert Hi. generalize (start_listing f) as f1. clear f. intros f Hi.
  unfold next_event. destruct (pl_socket poll) as [[[e|m]|]|]; [done| |done|].
  - set (f1 := if bool_decide _ then _ else _).
    assert (Hf1 : fd_log f1 = fd_log f ++ [Heard m] /\ fd_listing f1 = fd_listing f /\ fd_relist_at f1 = fd_relist_at f /\
      fd_wanted f1 = fd_wanted f) by (unfold f1; by case_bool_decide).
    destruct (news (Heard m)) eqn:Hn.
    + destruct Hf1 as (Hlog & Hli & Hre & _). destruct m; simpl in Hn; try done.
      * simpl. rewrite Hn. apply (inv_ext _ _ _ (inv_wanted log f (Heard (ServerMessage.SubscribeAck request_id)) Hi eq_refl)); done.
      * apply (inv_ext _ _ _ (inv_wanted log f (Heard ServerMessage.VaultCatalogChanged) Hi eq_refl)); done.
    + apply inv_message; [|done]. destruct Hf1 as (Hlog & Hli & Hre & Hw).
      apply (inv_ext _ _ _ (inv_logs log f (Heard m) Hi Hn eq_refl)); done.
  - destruct (listing_ready (fd_listing f) poll) as [l|] eqn:Hr.
    { unfold listing_ready in Hr. destruct (fd_listing f) eqn:Hli; [|done].
      pose proof (inv_publish log f l (pl_now poll) Hi Hli) as H. by destruct (publish config l (pl_now poll)). }
    destruct (due_at (fd_relist_at f) (pl_now poll)); [by apply inv_relist|].
    destruct (due_at (fd_probe_at f) (pl_now poll)); [|by destruct (_ <=? _)].
    pose proof (inv_write log f "ping" Ping (pl_write poll) Hi) as H. by destruct (write _ _ _ _) as [? []].
Qed.

Lemma inv_loop log polls : forall f, feed_inv log f -> feed_inv log (feed_loop config operator subscribe_id f polls).1.
Proof.
  induction polls as [|poll polls IH]; intros f Hi; [done|]. simpl. pose proof (inv_turn log f poll Hi) as Ht.
  destruct (feed_turn config operator subscribe_id f poll) as [g [e|]]; [done|]. by apply IH.
Qed.

Lemma inv_session log delay x : feed_inv log (feed_session config operator subscribe_id log delay x).1.
Proof.
  unfold feed_session. set (f0 := Build_Feed _ _ _ _ _ _ _).
  assert (H0 : feed_inv log f0).
  { exists []. rewrite app_nil_r. split; [done|]. split; [done|]. left. constructor. }
  destruct (within "connect" (in_connect x)); [|done|].
  all: pose proof (inv_write log f0 "hello" Hello (in_hello x) H0) as H1; destruct (write f0 "hello" _ _) as [f1 [| |]]; [|done|].
  all: destruct (within "welcome" (in_welcome x) ≫= _); [|done|].
  all: pose proof (inv_write log f1 "start auth" (StartAuth (pubkey_bytes operator)) (in_start_auth x) H1) as H2;
    destruct (write f1 "start auth" _ _) as [f2 [| |]]; [|done|]; by apply inv_loop.
Qed.
End current.

(** ** What the feed signs *)

Section signs.
Context `{C : Crypto} `{SL : SignerLike T} (config : VaultFleetConfig) (operator : T).

(** Every signature answers the challenge just heard, which names the operator's wallet. *)
Definition signs_challenges (log : list FeedStep) : Prop := forall i challenge signature pubkey,
  log !! i = Some (Wrote (AuthChallenge challenge signature pubkey)) ->
  exists j, i = S j /\ log !! j = Some (Heard (ServerMessage.AuthRequest challenge)) /\
    validate_wallet_auth_challenge challenge (encode_base58 (pubkey_bytes operator)) = Ok tt /\
    signature = encode_base58 (sign_message operator (as_bytes challenge)) /\ pubkey = pubkey_bytes operator.

Lemma signs_snoc log s : signs_challenges log -> (forall c sg k, s <> Wrote (AuthChallenge c sg k)) -> signs_challenges (log ++ [s]).
Proof.
  intros Hl Hs i c sg k H. apply lookup_app_Some in H as [H|[_ H]].
  - destruct (Hl i c sg k H) as (j & -> & Hj & Hrest). exists j. split; [done|]. split; [by apply lookup_app_l_Some|done].
  - apply list_lookup_singleton_Some in H as [_ H]. by destruct (Hs c sg k).
Qed.

Lemma signs_write f what m w : signs_challenges (fd_log f) -> (forall c sg k, m <> AuthChallenge c sg k) ->
  signs_challenges (fd_log (write f what m w).1).
Proof. intros Hf Hm. unfold write. destruct (within what w); simpl; [|done..]. apply signs_snoc; [done|]. intros c sg k [= ->]. by destruct (Hm c sg k). Qed.

Lemma signs_answer f challenge w :
  let m := AuthChallenge challenge (encode_base58 (sign_message operator (as_bytes challenge))) (pubkey_bytes operator) in
  signs_challenges (fd_log f) -> last (fd_log f) = Some (Heard (ServerMessage.AuthRequest challenge)) ->
  validate_wallet_auth_challenge challenge (encode_base58 (pubkey_bytes operator)) = Ok tt ->
  signs_challenges (fd_log (write f "auth challenge" m w).1).
Proof.
  intros m Hf Hlast Hv. unfold write. destruct (within "auth challenge" w); simpl; [|done..].
  intros i c sg k H. apply lookup_app_Some in H as [H|[Hi H]].
  - destruct (Hf i c sg k H) as (j & -> & Hj & Hrest). exists j. split; [done|]. split; [by apply lookup_app_l_Some|done].
  - apply list_lookup_singleton_Some in H as [Hi' [= <- <- <-]]. rewrite last_lookup in Hlast.
    pose proof (lookup_lt_Some _ _ _ Hlast) as Hlt. exists (pred (length (fd_log f))). split; [lia|].
    split; [by apply lookup_app_l_Some|done].
Qed.

Lemma signs_message f poll id m :
  signs_challenges (fd_log f) -> last (fd_log f) = Some (Heard m) -> signs_challenges (fd_log (on_message config operator id f poll m).1).
Proof.
  intros Hf Hlast. destruct m; simpl; try done.
  - destruct (validate_wallet_auth_challenge _ _) as [[]| |] eqn:Hv; [|done|].
    + pose proof (signs_answer f challenge (pl_write poll) Hf Hlast Hv) as H. by destruct (write _ _ _ _) as [? []].
    + unfold validate_wallet_auth_challenge in Hv. by destruct (_ && _).
  - pose proof (signs_write f "subscribe" (Subscribe (subscription id)) (pl_write poll) Hf) as H.
    destruct (write _ _ _ _) as [? []]; by apply H.
  - by destruct (_ =? _).
  - by destruct (_ =? _).
Qed.

Lemma signs_turn id f poll : signs_challenges (fd_log f) -> signs_challenges (fd_log (feed_turn config operator id f poll).1).
Proof.
  intros Hf. unfold feed_turn.
  assert (H0 : signs_challenges (fd_log (start_listing f))).
  { unfold start_listing. destruct (_ && _); simpl; [by apply signs_snoc|done]. }
  revert H0. generalize (start_listing f) as f1. clear f Hf. intros f Hf.
  destruct (next_event _ _ _ _ _) as [[[[e|m]|]|l| | |]|]; try done.
  - set (f1 := if bool_decide _ then _ else _).
    assert (Hf1 : fd_log f1 = fd_log f ++ [Heard m]) by (unfold f1; by case_bool_decide).
    apply signs_message; rewrite Hf1; [by apply signs_snoc|by rewrite last_snoc].
  - destruct (publish config l (pl_now poll)) as [x y]. simpl. by apply signs_snoc.
  - pose proof (signs_write f "ping" Ping (pl_write poll) Hf) as H. destruct (write _ _ _ _) as [? []]; by apply H.
Qed.

Lemma signs_loop id polls : forall f, signs_challenges (fd_log f) -> signs_challenges (fd_log (feed_loop config operator id f polls).1).
Proof.
  induction polls as [|poll polls IH]; intros f Hf; [done|]. simpl. pose proof (signs_turn id f poll Hf) as Ht.
  destruct (feed_turn config operator id f poll) as [g [e|]]; [done|]. by apply IH.
Qed.

Lemma signs_session id log delay x : signs_challenges log -> signs_challenges (fd_log (feed_session config operator id log delay x).1).
Proof.
  intros Hl. unfold feed_session. set (f0 := Build_Feed _ _ _ _ _ _ _).
  destruct (within "connect" (in_connect x)); [|done|].
  all: pose proof (signs_write f0 "hello" Hello (in_hello x) Hl) as H1; destruct (write f0 "hello" _ _) as [f1 [| |]]; [|by apply H1|].
  all: destruct (within "welcome" (in_welcome x) ≫= _); [|by apply H1|].
  all: pose proof (signs_write f1 "start auth" (StartAuth (pubkey_bytes operator)) (in_start_auth x) (H1 ltac:(done))) as H2;
    destruct (write f1 "start auth" _ _) as [f2 [| |]]; [|by apply H2|]; apply signs_loop; by apply H2.
Qed.

Lemma signs_follow sessions : forall log delay, signs_challenges log -> signs_challenges (follow config operator log delay sessions).1.
Proof.
  induction sessions as [|[id x] sessions IH]; intros log delay Hl; [done|]. simpl.
  pose proof (signs_session id log delay x Hl) as H. destruct (feed_session config operator id log delay x) as [f [e|]]; [|done].
  apply IH. by apply signs_snoc.
Qed.
End signs.

(** C16: The fleet's listing is current.  While a subscribed feed is up and has nothing left to
    do (no listing wanted, in flight or scheduled), the last thing published is a listing
    that was requested after the last subscription or change of the catalog it heard.  A
    feed that is down ends at once and publishes no listing, even one that finished with
    it.  And whatever the server says over any number of sessions, the operator signs only
    valid challenges to its own wallet, each in answer to the one just heard. *)
Theorem fleet_is_current `{C : Crypto} `{SL : SignerLike T} config (operator : T) :
  (forall id log delay x f,
     feed_session config operator id log delay x = (f, None) ->
     fd_wanted f = false -> fd_listing f = false -> fd_relist_at f = None ->
     (exists part, fd_log f = log ++ part /\ Heard (ServerMessage.SubscribeAck id) ∈ part) -> current id (fd_log f)) /\
  (forall id f poll, (pl_socket poll = Some None \/ exists e, pl_socket poll = Some (Some (inl e))) ->
     let '(f', e) := feed_turn config operator id f poll in
     is_Some e /\ (fd_log f' = fd_log f \/ fd_log f' = fd_log f ++ [Requested])) /\
  (forall delay sessions, signs_challenges operator (follow config operator [] delay sessions).1).
Proof.
  split; [|split].
  - intros id log delay x f Hf Hw Hli Hre (part & Hlog & Hack).
    pose proof (inv_session config operator id log delay x) as (part' & Hlog' & _ & Hc). rewrite Hf in Hlog', Hc. simpl in Hlog', Hc.
    rewrite Hlog in Hlog'. apply app_inv_head in Hlog' as <-. destruct (Hc Hli Hw Hre) as [Hcalm|]; [|done].
    unfold calm in Hcalm. rewrite Forall_forall in Hcalm. specialize (Hcalm _ Hack). simpl in Hcalm. by rewrite Z.eqb_refl in Hcalm.
  - intros id f poll Hs. unfold feed_turn, next_event. assert (Hst : fd_log (start_listing f) = fd_log f \/ fd_log (start_listing f) = fd_log f ++ [Requested]).
    { unfold start_listing. destruct (_ && _); auto. }
    destruct Hs as [->|[e ->]]; (split; [by eexists|exact Hst]).
  - intros delay sessions. apply signs_follow. intros i c sg k H. by rewrite lookup_nil in H.
Qed.
