(* ===== verification/Router.v ===== *)
(** * Routing a curator's trade ([src/chain/vault/router.rs])

    A curator moves a vault between its main asset and an Exponent principal token.  The
    router turns an intent into one transaction, or, when that does not fit, into a staged
    pair through an intermediate asset; an open staging slot is finished first.  The
    compiler of v0 messages is Solana's, a parameter. *)

From Stdlib Require Import ZArith Lia String.
From stdpp Require Import base list gmap strings.
From S2P Require Import Prelude Spreads Amounts Terms Signing Quote Challenge Chain Account Crank Positions Price Vault Wire Swap Served Owner Intent SwapIntent Rpc Confirm Venues Oracle.

Open Scope Z_scope.
Import Exponent.

Module RouterIntent.
(* chain/vault/router.rs:21-26 Intent *)
Inductive t := Buy (amount : Z) | Sell (amount : Z) | Redeem (amount : Z).
(* chain/vault/router.rs:28-32 Intent::amount *)
Definition amount (self : t) : Z := match self with Buy a | Sell a | Redeem a => a end.
(* chain/vault/router.rs:33-35 Intent::buying *)
Definition buying (self : t) : bool := match self with Buy _ => true | _ => false end.
End RouterIntent.

(* chain/vault/router.rs:56-61 TxParts *)
Record TxParts := { tx_instructions : list Instruction; tx_tables : list LookupTable; tx_kind : VaultSwapKind.t }.
Module Plan.
(* chain/vault/router.rs:62-66 Plan *)
Inductive t := Single (parts : TxParts) | Staged (stage unstage : TxParts).
(* chain/vault/router.rs:68-73 Plan::first *)
Definition first (self : t) : TxParts := match self with Single tx => tx | Staged stage _ => stage end.
End Plan.
(* chain/vault/router.rs:75-79 Fit *)
Record Fit := { fit_account_locks : nat; fit_bytes : nat }.
(* chain/vault/router.rs:81-83 Fit::fits *)
Definition fit_fits (self : Fit) : bool := (fit_account_locks self <=? 64)%nat && (fit_bytes self <=? 1232)%nat.

(** A compiled v0 message: its static keys, the indexes of each lookup, the signatures it
    requires and its bytes. *)
Record V0Message := {
  v0_account_keys : list key;
  v0_lookups : list (list Z * list Z);
  v0_num_required_signatures : nat;
  v0_serialized : bytes;
}.
(** [v0::Message::try_compile]: payer, instructions, tables, blockhash. *)
Class MessageCompiler := { try_compile : key -> list Instruction -> list LookupTable -> bytes -> option V0Message }.

(* chain/vault/router.rs:113-130 Router *)
Record Router := {
  ro_manager : VaultManager; ro_account : VaultAccount; ro_main : PriceRoute; ro_second : PriceRoute;
  ro_staging : PriceRoute; ro_registry : SwapVenues.t; ro_market : Market; ro_sy : GenericSy; ro_core : CoreVault;
  ro_tables : list LookupTable; ro_shard : Z; ro_now : Z; ro_valid_until : Z; ro_base_program : key;
  ro_setup : list Instruction; ro_price_main : OraclePrice; ro_price_second : OraclePrice; ro_price_staging : OraclePrice }.

(* chain/vault/router.rs:413-432 recovery_buy *)
Definition recovery_buy (account : VaultAccount) (intent : RouterIntent.t) (now maturity : Z) : cres bool :=
  match slot_from_leg <$> open (va_staging account) with
  | Some VaultLeg.Main =>
      Ok ((now <=? maturity) && bool_decide (va_safety account = VaultSafety.Normal)
          && bool_decide (va_phase account = VaultPhase.Active) && (now <? va_active_expiry account))
  | Some VaultLeg.Second => Ok false
  | None =>
      match intent with
      | RouterIntent.Buy _ => if maturity <=? now then Err (invalid "cannot buy matured PT") else Ok true
      | RouterIntent.Sell _ => if maturity <? now then Err (invalid "use Redeem after maturity") else Ok false
      | RouterIntent.Redeem _ => if now <=? maturity then Err (invalid "PT redemption requires maturity") else Ok false
      end
  end.

Section router.
Context `{P : Pda} `{W : Powers} `{K : MessageCompiler}.

(* chain/vault/router.rs:86-94 TxParts::compile *)
Definition tx_compile (self : TxParts) (payer : key) (blockhash : bytes) : cres V0Message :=
  ok_or (try_compile payer (tx_instructions self) (tx_tables self) blockhash)
    (invalid "v0 transaction compilation failed").

(* chain/vault/router.rs:95-110 TxParts::fit *)
Definition tx_fit (self : TxParts) (payer : key) : cres Fit :=
  v0 ← tx_compile self payer (key_of 0);
  Ok {| fit_account_locks := length (v0_account_keys v0)
          + sum_list (map (fun '(writable, readonly) => length writable + length readonly) (v0_lookups v0));
        fit_bytes := 1 + 64 * v0_num_required_signatures v0 + length (v0_serialized v0) |}%nat.

Section plan.
Context (self : Router).

(* chain/vault/router.rs:132-138 Router::table *)
Definition ro_table (k : key) : cres (list key) :=
  ok_or (addresses <$> List.find (fun t => bool_decide (table_key t = k)) (ro_tables self))
    (invalid "Exponent ALT missing").

(* chain/vault/router.rs:139-144 Router::asset *)
Definition ro_asset : VaultStagingAsset :=
  {| sa_mint := sy_base (ro_sy self); sa_token_program := ro_base_program self |}.

(* chain/vault/router.rs:145-165 Router::prices *)
Definition ro_prices (kind : VaultSwapKind.t) : cres (list AccountMeta) :=
  match kind with
  | VaultSwapKind.Staging _ leg _ _ =>
      let route := match leg with VaultLeg.Main => ro_main self | VaultLeg.Second => ro_second self end in
      let program := a_program_id (vm_args (ro_manager self)) in
      Ok (PriceRouteOps.accounts route (pda.price_route program (pr_mint route)) (ro_shard self) ++
          PriceRouteOps.accounts (ro_staging self) (pda.price_route program (pr_mint (ro_staging self))) (ro_shard self))
  | _ => Manager.price_section (ro_manager self) (ro_main self) (ro_second self) (ro_shard self)
  end.

(** Which setup instructions stay: all but the creation of token accounts no hop uses.
    [ix.accounts[1]] is read once a hop has an account to compare with. *)
(* chain/vault/router.rs:181-186 Router::parts (setup) *)
Definition keep_setup (hops : list VaultSwapHop) (ix : Instruction) : cres bool :=
  if negb (bool_decide (program_id ix = ASSOCIATED_TOKEN_PROGRAM_ID)) then Ok true
  else match concat (map h_accounts hops) with
       | [] => Ok false
       | metas =>
           created ← index_p (accounts ix) 1;
           Ok (existsb (fun a : AccountMeta => bool_decide (pubkey a = pubkey created)) metas)
       end.
(* chain/vault/router.rs:177-189 Router::parts (filter) *)
Fixpoint filter_setup (hops : list VaultSwapHop) (setup : list Instruction) : cres (list Instruction) :=
  match setup with
  | [] => Ok []
  | ix :: setup =>
      keep ← keep_setup hops ix;
      kept ← filter_setup hops setup;
      Ok (if keep : bool then ix :: kept else kept)
  end.

(* chain/vault/router.rs:200-209 Router::parts (tables) *)
Fixpoint merge_tables (tables new : list LookupTable) : cres (list LookupTable) :=
  match new with
  | [] => Ok tables
  | table :: new =>
      match List.find (fun t => bool_decide (table_key t = table_key table)) tables with
      | Some existing =>
          _ ← reject_if (negb (bool_decide (addresses existing = addresses table))) (invalid "conflicting lookup table contents");
          merge_tables tables new
      | None => merge_tables (tables ++ [table]) new
      end
  end.

(* chain/vault/router.rs:166-215 Router::parts *)
Definition ro_parts (kind : VaultSwapKind.t) (amount minimum : Z) (hops : list VaultSwapHop) (quote : option Jupiter.Quote)
  : cres TxParts :=
  _ ← reject_if (existsb (fun h => negb (SwapVenues.allows (ro_registry self) h)) hops) (invalid "hop not allowed by SwapVenues");
  setup ← filter_setup hops (ro_setup self);
  prices ← ro_prices kind;
  swap ← Swapping.swap (ro_manager self) kind
    {| p_price_section := prices; p_amount_in := amount; p_minimum_out := minimum; p_valid_until := ro_valid_until self;
       p_hops := hops |};
  tables ← merge_tables (ro_tables self) (match quote with Some q => Jupiter.jq_tables q | None => [] end);
  Ok {| tx_instructions := setup ++ [swap]; tx_tables := tables; tx_kind := kind |}.

(* chain/vault/router.rs:216-223 Router::stage_kind *)
Definition stage_kind (leg : VaultLeg.t) (step : VaultStagingStep.t) (generation : Z) : VaultSwapKind.t :=
  VaultSwapKind.Staging step leg ro_asset generation.

(* chain/vault/router.rs:224-237 Router::validate *)
Definition ro_validate (intent : RouterIntent.t) : cres bool :=
  _ ← Manager.ensure_current (ro_manager self) (ro_account self);
  let slot := open (va_staging (ro_account self)) in
  _ ← reject_if ((ro_valid_until self <=? ro_now self)
                 || (match slot with None => true | _ => false end && (RouterIntent.amount intent =? 0)))
        (invalid "invalid curator amount or deadline");
  _ ← reject_if (match slot with Some s => negb (bool_decide (slot_mint s = sy_base (ro_sy self))) | None => false end)
        (invalid "unsupported open staging mint");
  recovery_buy (ro_account self) intent (ro_now self) (cv_maturity (ro_core self)).

(* chain/vault/router.rs:395-400 Router::single_fitting *)
Definition single_fitting (parts : TxParts) : cres Plan.t :=
  fit ← tx_fit parts (a_actor (vm_args (ro_manager self)));
  _ ← reject_if (negb (fit_fits fit)) (invalid "curator transaction does not fit");
  Ok (Plan.Single parts).

(* chain/vault/router.rs:401-411 Router::check_quote *)
Definition ro_check_quote (q : Jupiter.Quote) (buy : bool) (amount : Z) : cres unit :=
  _ ← reject_if (negb (Jupiter.jr_amount (Jupiter.jq_request q) =? amount)) (invalid "Jupiter quote input mismatch");
  let '(input, output) := if buy then (ro_price_main self, ro_price_staging self)
                          else (ro_price_staging self, ro_price_main self) in
  Oracle.check_quote input amount output (Jupiter.jq_output q).

Definition ro_owner : key := ad_vault (vm_addresses (ro_manager self)).

(** Base to principal token: mint the SY, then buy with all of it. *)
(* chain/vault/router.rs:254-264 Router::plan (base to second) *)
Definition to_second (amount : Z) (patch : bool) : cres (list VaultSwapHop) :=
  mint ← sy_hop (ro_sy self) ro_owner (ro_base_program self) amount true patch;
  table ← ro_table (mk_lookup_table (ro_market self));
  trade ← trade (ro_market self) ro_owner 0 true table true;
  Ok [mint; trade].

(* chain/vault/router.rs:250-283 Router::plan (open slot) *)
Definition plan_recovery (slot : VaultStagedSlot) (buy : bool) (quote : option Jupiter.Quote) (minimum_out : Z)
  : cres Plan.t :=
  '(leg, hops) ← (if buy then
      hops ← to_second (slot_amount slot) false;
      Ok (VaultLeg.Second, hops)
    else
      quote ← ok_or quote (invalid "Jupiter quote required for unstage to main");
      _ ← ro_check_quote quote false (slot_amount slot);
      hop ← Jupiter.hop quote false;
      Ok (VaultLeg.Main, [hop]));
  parts ← ro_parts (stage_kind leg VaultStagingStep.Unstage (generation (va_staging (ro_account self))))
            (slot_amount slot) minimum_out hops quote;
  single_fitting parts.

(* chain/vault/router.rs:294-314 Router::plan (first leg) *)
Definition first_leg (intent : RouterIntent.t) (buy : bool) (quote : Jupiter.Quote) : cres (list VaultSwapHop) :=
  if buy then hop ← Jupiter.hop quote false; Ok [hop]
  else
    hop ← match intent with
          | RouterIntent.Redeem amount =>
              table ← ro_table (cv_lookup_table (ro_core self));
              merge (ro_core self) ro_owner amount (ro_now self) table
          | _ =>
              table ← ro_table (mk_lookup_table (ro_market self));
              trade (ro_market self) ro_owner (RouterIntent.amount intent) false table false
          end;
    redeem ← sy_hop (ro_sy self) ro_owner (ro_base_program self) 0 false true;
    Ok [hop; redeem].

(* chain/vault/router.rs:320-336 Router::plan (tail) *)
Definition tail (buy : bool) (quote : Jupiter.Quote) (staged_amount : Z) (patch : bool) : cres (list VaultSwapHop) :=
  if buy then to_second staged_amount patch else hop ← Jupiter.hop quote patch; Ok [hop].

(* chain/vault/router.rs:349-393 Router::plan (staged) *)
Definition plan_staged (intent : RouterIntent.t) (buy : bool) (quote : Jupiter.Quote) (first : list VaultSwapHop)
  (staged_amount minimum_out minimum_staged : Z) : cres Plan.t :=
  _ ← reject_if (minimum_staged =? 0) (invalid "staging minimum must be nonzero");
  generation ← ok_or (checked_add 64 (generation (va_staging (ro_account self))) 1) (invalid "staging generation overflow");
  stage ← ro_parts (stage_kind (if buy then VaultLeg.Main else VaultLeg.Second) VaultStagingStep.Stage generation)
            (RouterIntent.amount intent) minimum_staged first (Some quote);
  hops ← tail buy quote staged_amount false;
  unstage ← ro_parts (stage_kind (if buy then VaultLeg.Second else VaultLeg.Main) VaultStagingStep.Unstage generation)
              staged_amount minimum_out hops (Some quote);
  let payer := a_actor (vm_args (ro_manager self)) in
  fit ← tx_fit stage payer;
  _ ← reject_if (negb (fit_fits fit)) (invalid "curator transaction does not fit");
  fit ← tx_fit unstage payer;
  _ ← reject_if (negb (fit_fits fit)) (invalid "curator transaction does not fit");
  Ok (Plan.Staged stage unstage).

(* chain/vault/router.rs:284-394 Router::plan (no slot) *)
Definition plan_fresh (intent : RouterIntent.t) (buy : bool) (quote : option Jupiter.Quote) (minimum_out minimum_staged : Z)
  : cres Plan.t :=
  quote ← ok_or quote (invalid "Jupiter quote required");
  let requested := Jupiter.jr_amount (Jupiter.jq_request quote) in
  _ ← ro_check_quote quote buy (if buy then RouterIntent.amount intent else requested);
  first ← first_leg intent buy quote;
  let staged_amount := if buy then Jupiter.jq_output quote else requested in
  last ← tail buy quote staged_amount true;
  let single := parts ← ro_parts (VaultSwapKind.Rebalance (negb buy)) (RouterIntent.amount intent) minimum_out (first ++ last)
                          (Some quote);
                single_fitting parts in
  match single with
  | Ok plan => Ok plan
  | Err _ => plan_staged intent buy quote first staged_amount minimum_out minimum_staged
  | Panic => Panic
  end.

(* chain/vault/router.rs:238-394 Router::plan *)
Definition ro_plan (intent : RouterIntent.t) (quote : option Jupiter.Quote) (minimum_out minimum_staged : Z) : cres Plan.t :=
  buy ← ro_validate intent;
  _ ← reject_if (minimum_out =? 0) (invalid "invalid curator amount or deadline");
  match open (va_staging (ro_account self)) with
  | Some slot => plan_recovery slot buy quote minimum_out
  | None => plan_fresh intent buy quote minimum_out minimum_staged
  end.
End plan.
End router.

(** ** Funding needs *)

(* chain/vault/router.rs:434-440 FundingNeeds *)
Record FundingNeeds := { fn_main : Z; fn_second : Z; fn_cycle_expiry : Z; fn_can_acquire_second : bool }.
(* chain/vault/router.rs:441-446 FundingMarket *)
Record FundingMarket := { fm_address : key; fm_market : MarketInfo; fm_price : Z }.

(* chain/vault/router.rs:490-503 funding_needs (amount) *)
Definition funding_amount (position : PositionInfo) (market : MarketInfo) (put : bool) : cres (key * Z) :=
  if put then Ok (mi_underlying_mint market, pi_quantity position)
  else
    amount ← map_err (fun _ => invalid "funding amount overflow")
      (scaled_quote_amount (OptionTerms.strike (pi_terms position)) (pi_quantity position) (mi_quote_decimals market)
         (mi_underlying_decimals market));
    Ok (mi_quote_mint market, amount).

(** One turn of the loop: what the position adds, if anything. *)
(* chain/vault/router.rs:460-513 funding_needs (position) *)
Definition funding_position (vault : VaultAccount) (vault_address : key) (markets : list FundingMarket)
  (needs : FundingNeeds) (position : PositionInfo) : cres FundingNeeds :=
  if negb (bool_decide (pi_holder position = vault_address)) || negb (bool_decide (pi_status position = OnChainStatus.Open))
  then Ok needs
  else
    _ ← reject_if (OptionTerms.is_spread (pi_terms position)) (invalid "vaults cannot hold spreads");
    item ← ok_or (List.find (fun m => bool_decide (fm_address m = pi_market_pda position)) markets)
             (invalid "held position market missing");
    let market := fm_market item in
    if negb (mi_expiry_ts market =? va_active_expiry vault) then Ok needs
    else
      _ ← reject_if (fm_price item =? 0) (invalid "funding requires a nonzero price");
      let put := bool_decide (OptionTerms.position_type (pi_terms position) = PositionType.CashSecuredPut) in
      let strike := OptionTerms.strike (pi_terms position) in
      let itm := if put then fm_price item <? strike else strike <? fm_price item in
      if negb itm then Ok needs
      else
        '(mint, amount) ← funding_amount position market put;
        if bool_decide (mint = va_main_mint vault) then
          total ← ok_or (checked_add 64 (fn_main needs) amount) (invalid "funding sum overflow");
          Ok {| fn_main := total; fn_second := fn_second needs; fn_cycle_expiry := fn_cycle_expiry needs;
                fn_can_acquire_second := fn_can_acquire_second needs |}
        else if bool_decide (mint = va_second_mint vault) then
          total ← ok_or (checked_add 64 (fn_second needs) amount) (invalid "funding sum overflow");
          Ok {| fn_main := fn_main needs; fn_second := total; fn_cycle_expiry := fn_cycle_expiry needs;
                fn_can_acquire_second := fn_can_acquire_second needs |}
        else Err (invalid "funding mint outside vault pair").

(* chain/vault/router.rs:459-514 funding_needs (loop) *)
Fixpoint funding_positions (vault : VaultAccount) (vault_address : key) (markets : list FundingMarket)
  (needs : FundingNeeds) (positions : list PositionInfo) : cres FundingNeeds :=
  match positions with
  | [] => Ok needs
  | position :: positions =>
      needs ← funding_position vault vault_address markets needs position;
      funding_positions vault vault_address markets needs positions
  end.

(* chain/vault/router.rs:447-516 funding_needs *)
Definition funding_needs (vault : VaultAccount) (vault_address : key) (positions : list PositionInfo)
  (markets : list FundingMarket) (now : Z) : cres FundingNeeds :=
  funding_positions vault vault_address markets
    {| fn_main := 0; fn_second := 0; fn_cycle_expiry := va_active_expiry vault;
       fn_can_acquire_second := (now <? va_active_expiry vault) && bool_decide (va_phase vault = VaultPhase.Active) |}
    positions.

(** ** What a plan promises *)

Section sound.
Context `{P : Pda} `{W : Powers} `{K : MessageCompiler}.
Context (self : Router).

(** The parts fit a transaction of the actor. *)
Definition parts_fit (parts : TxParts) : Prop :=
  exists fit, tx_fit parts (a_actor (vm_args (ro_manager self))) = Ok fit /\
    (fit_account_locks fit <= 64)%nat /\ (fit_bytes fit <= 1232)%nat.

(** After setup instructions of the router, the parts make one swap of the kind, whose hops
    the registry allows and which is valid for the vault: they chain the leg the kind
    spends to the leg it fills. *)
Definition swaps (parts : TxParts) (kind : VaultSwapKind.t) (amount minimum : Z) : Prop :=
  exists setup ix plan,
    tx_instructions parts = setup ++ [ix] /\ setup ⊆ ro_setup self /\ tx_kind parts = kind /\
    Swapping.swap (ro_manager self) kind plan = Ok ix /\ swap_ok (ro_manager self) kind plan /\
    p_amount_in plan = amount /\ p_minimum_out plan = minimum /\ p_valid_until plan = ro_valid_until self /\
    Forall (fun hop => SwapVenues.allows (ro_registry self) hop = true) (p_hops plan).

Lemma filter_setup_sub hops setup kept : filter_setup hops setup = Ok kept -> kept ⊆ setup.
Proof.
  revert kept. induction setup as [|ix setup IH]; intros kept H; cbn in H; [apply Ok_inj in H as <-; done|].
  apply bind_Ok in H as (keep & _ & H). apply bind_Ok in H as (rest & Hr & H). apply Ok_inj in H as <-. apply IH in Hr.
  destruct keep; set_solver.
Qed.

Lemma ro_parts_Ok kind amount minimum hops quote parts :
  ro_parts self kind amount minimum hops quote = Ok parts -> swaps parts kind amount minimum.
Proof.
  intros H. unfold ro_parts in H. apply bind_Ok in H as (? & Hall & H). apply bind_Ok in H as (setup & Hs & H).
  apply bind_Ok in H as (prices & _ & H). apply bind_Ok in H as (ix & Hix & H). apply bind_Ok in H as (tables & _ & H).
  apply Ok_inj in H as <-. eexists setup, ix, _. cbn. split; [done|]. split; [by eapply filter_setup_sub|].
  split; [done|]. split; [exact Hix|]. cbn. split; [|repeat split].
  - pose proof (swap_shape (ro_manager self) kind {| p_price_section := prices; p_amount_in := amount;
      p_minimum_out := minimum; p_valid_until := ro_valid_until self; p_hops := hops |}) as Hsh.
    rewrite Hix in Hsh. apply Hsh.
  - apply reject_if_Ok in Hall. apply Forall_forall. intros h Hh. apply (proj1 (existsb_false _ _) Hall) in Hh.
    by apply negb_false_iff.
Qed.

Lemma fit_Ok parts e :
  (fit ← tx_fit parts (a_actor (vm_args (ro_manager self))); reject_if (negb (fit_fits fit)) e) = Ok tt -> parts_fit parts.
Proof.
  intros H. apply bind_Ok in H as (fit & Hf & H). apply reject_if_Ok, negb_false_iff, andb_true_iff in H as [H1 H2].
  exists fit. split; [done|]. split; [by apply Nat.leb_le|by apply Nat.leb_le].
Qed.

Lemma single_fitting_Ok parts p : single_fitting self parts = Ok p -> p = Plan.Single parts /\ parts_fit parts.
Proof.
  intros H. unfold single_fitting in H. apply bind_Ok in H as (fit & Hf & H). apply bind_Ok in H as ([] & Hr & H).
  apply Ok_inj in H as <-. split; [done|]. eapply fit_Ok. rewrite Hf. exact Hr.
Qed.

(** What an amount is worth by an oracle price, in binary64. *)
Definition worth (price : OraclePrice) (amount : Z) : f64 :=
  f64_div (f64_mul (f64_of amount) (op_usd price)) (pow10 (op_decimals price)).

(** The quote was screened: what it gives is worth at least 99 per cent of what it takes,
    by the prices of the staged asset and of the main one. *)
Definition screened (q : Jupiter.Quote) (buy : bool) : Prop :=
  let '(input, output) := if buy then (ro_price_main self, ro_price_staging self)
                          else (ro_price_staging self, ro_price_main self) in
  let taken := worth input (Jupiter.jr_amount (Jupiter.jq_request q)) in
  let given := worth output (Jupiter.jq_output q) in
  is_finite taken = true /\ is_finite given = true /\ f64_ltb given (f64_mul taken F99) = false.

Lemma ro_check_quote_Ok q buy amount u :
  ro_check_quote self q buy amount = Ok u -> Jupiter.jr_amount (Jupiter.jq_request q) = amount /\ screened q buy.
Proof.
  intros H. unfold ro_check_quote in H. apply bind_Ok in H as (? & H1 & H). apply reject_if_Ok, negb_false_iff, Z.eqb_eq in H1.
  split; [done|]. unfold screened. rewrite H1. destruct buy; cbv beta iota zeta in H |- *; unfold Oracle.check_quote in H;
    cbv zeta in H; apply reject_if_Ok in H; rewrite !orb_false_iff, !negb_false_iff in H; destruct H as [[? ?] ?]; done.
Qed.

Definition other (leg : VaultLeg.t) : VaultLeg.t :=
  match leg with VaultLeg.Main => VaultLeg.Second | VaultLeg.Second => VaultLeg.Main end.
(** The leg a trade starts from. *)
Definition from_leg (buy : bool) : VaultLeg.t := if buy then VaultLeg.Main else VaultLeg.Second.

Lemma plan_recovery_Ok slot buy quote minimum_out p :
  plan_recovery self slot buy quote minimum_out = Ok p ->
  exists parts, p = Plan.Single parts /\ parts_fit parts /\
    swaps parts (stage_kind self (other (from_leg buy)) VaultStagingStep.Unstage (generation (va_staging (ro_account self))))
      (slot_amount slot) minimum_out /\
    (buy = false -> exists q, quote = Some q /\ Jupiter.jr_amount (Jupiter.jq_request q) = slot_amount slot /\ screened q false).
Proof.
  intros H. unfold plan_recovery in H. apply bind_Ok in H as ([leg hops] & Hh & H). apply bind_Ok in H as (parts & Hp & H).
  apply single_fitting_Ok in H as [-> Hf]. apply ro_parts_Ok in Hp. exists parts. split; [done|]. split; [done|].
  destruct buy.
  - apply bind_Ok in Hh as (? & _ & Hh). apply Ok_inj in Hh. injection Hh as <- <-. done.
  - apply bind_Ok in Hh as (q & Hq & Hh). apply ok_or_Ok in Hq as ->. apply bind_Ok in Hh as (? & Hc & Hh).
    apply bind_Ok in Hh as (? & _ & Hh). apply Ok_inj in Hh. injection Hh as <- <-. split; [done|].
    intros _. exists q. split; [done|]. by eapply ro_check_quote_Ok.
Qed.

(** A staged pair: the first half fills the staging slot from the leg the trade starts
    from, the second empties it into the other leg; both name the next generation. *)
Definition staged_pair (intent : RouterIntent.t) (buy : bool) (q : Jupiter.Quote) (minimum_out minimum_staged : Z)
  (stage unstage : TxParts) : Prop :=
  let next := generation (va_staging (ro_account self)) + 1 in
  next < 2 ^ 64 /\
  swaps stage (stage_kind self (from_leg buy) VaultStagingStep.Stage next) (RouterIntent.amount intent) minimum_staged /\
  swaps unstage (stage_kind self (other (from_leg buy)) VaultStagingStep.Unstage next)
    (if buy then Jupiter.jq_output q else Jupiter.jr_amount (Jupiter.jq_request q)) minimum_out /\
  parts_fit stage /\ parts_fit unstage.

Lemma plan_staged_Ok intent (buy : bool) q first staged minimum_out minimum_staged p :
  staged = (if buy then Jupiter.jq_output q else Jupiter.jr_amount (Jupiter.jq_request q)) ->
  plan_staged self intent buy q first staged minimum_out minimum_staged = Ok p ->
  exists stage unstage, p = Plan.Staged stage unstage /\ staged_pair intent buy q minimum_out minimum_staged stage unstage.
Proof.
  intros -> H. unfold plan_staged in H. apply bind_Ok in H as (? & _ & H). apply bind_Ok in H as (g & Hg & H).
  apply ok_or_Ok in Hg. unfold checked_add in Hg. destruct (Z.ltb_spec (generation (va_staging (ro_account self)) + 1) (2 ^ 64)); [|done].
  injection Hg as <-. apply bind_Ok in H as (stage & Hs & H). apply bind_Ok in H as (hops & _ & H).
  apply bind_Ok in H as (unstage & Hu & H). apply bind_Ok in H as (f1 & Hf1 & H). apply bind_Ok in H as ([] & Hr1 & H).
  apply bind_Ok in H as (f2 & Hf2 & H). apply bind_Ok in H as ([] & Hr2 & H). apply Ok_inj in H as <-.
  exists stage, unstage. split; [done|]. apply ro_parts_Ok in Hs, Hu. split; [done|]. split; [by destruct buy|].
  split; [by destruct buy|]. split; (eapply fit_Ok); [rewrite Hf1; exact Hr1|rewrite Hf2; exact Hr2].
Qed.

Lemma plan_fresh_Ok intent (buy : bool) quote minimum_out minimum_staged p :
  plan_fresh self intent buy quote minimum_out minimum_staged = Ok p ->
  exists q, quote = Some q /\
    (buy = true -> Jupiter.jr_amount (Jupiter.jq_request q) = RouterIntent.amount intent) /\ screened q buy /\
    match p with
    | Plan.Single parts =>
        parts_fit parts /\ swaps parts (VaultSwapKind.Rebalance (negb buy)) (RouterIntent.amount intent) minimum_out
    | Plan.Staged stage unstage => staged_pair intent buy q minimum_out minimum_staged stage unstage
    end.
Proof.
  intros H. unfold plan_fresh in H. apply bind_Ok in H as (q & Hq & H). apply ok_or_Ok in Hq as ->.
  apply bind_Ok in H as (? & Hc & H). apply bind_Ok in H as (first & _ & H). apply bind_Ok in H as (last & _ & H).
  apply ro_check_quote_Ok in Hc as [Hamt Hsc]. exists q. split; [done|]. split; [by intros ->|]. split; [done|]. cbv zeta in H.
  destruct (ro_parts self (VaultSwapKind.Rebalance (negb buy)) _ _ _ _ ≫= _) as [plan|e|] eqn:Hs; [|..|done].
  - apply Ok_inj in H as <-. apply bind_Ok in Hs as (parts & Hp & Hs). apply single_fitting_Ok in Hs as [-> Hf].
    split; [done|]. by eapply ro_parts_Ok.
  - apply plan_staged_Ok in H as (stage & unstage & -> & H); [done|done].
Qed.

(** A plan of two transactions begins by filling a slot. *)
Lemma ro_plan_stages intent quote minimum_out minimum_staged stage unstage :
  ro_plan self intent quote minimum_out minimum_staged = Ok (Plan.Staged stage unstage) ->
  exists leg asset generation, tx_kind stage = VaultSwapKind.Staging VaultStagingStep.Stage leg asset generation.
Proof.
  intros H. unfold ro_plan in H. apply bind_Ok in H as (buy & _ & H). apply bind_Ok in H as (? & _ & H).
  destruct (open _) as [slot|].
  - by apply plan_recovery_Ok in H as (parts & ? & _).
  - apply plan_fresh_Ok in H as (q & _ & _ & _ & _ & (? & ? & ? & _ & _ & Hk & _) & _). by eexists _, _, _.
Qed.
End sound.

Section total.
Context `{P : Pda} `{W : Powers} `{K : MessageCompiler}.
Context (self : Router).

(** The setup instructions that create token accounts name them, the index of the SY is a
    positive 64-bit number. *)
Record router_wf : Prop := {
  rw_setup : Forall (fun ix => program_id ix = ASSOCIATED_TOKEN_PROGRAM_ID -> (2 <= length (accounts ix))%nat) (ro_setup self);
  rw_index : fits 64 (sy_index (ro_sy self)) /\ 0 < sy_index (ro_sy self);
}.
Context (Hwf : router_wf).

Lemma indices_resolve_returns indices table : forall out, returns (resolve_from out indices table).
Proof. induction indices as [|[i b] l IH]; intros out; cbn [resolve_from]; [done|]. returns_step; [returns_step|]. apply IH. Qed.

Lemma trade_returns market owner amount buy table patch : returns (trade market owner amount buy table patch).
Proof. unfold trade. apply returns_bind; [apply indices_resolve_returns|done]. Qed.
Lemma merge_returns core owner amount now table : returns (merge core owner amount now table).
Proof. unfold merge. returns_step; [returns_step|]. apply returns_bind; [apply indices_resolve_returns|done]. Qed.
Lemma jupiter_hop_returns q patch : returns (Jupiter.hop q patch).
Proof. unfold Jupiter.hop. destruct patch; [|done]. apply returns_bind; [apply input_offset_Ok|]. intros a _. repeat returns_step. Qed.

Lemma mint_amount_returns amount : fits 64 amount -> returns (mint_amount (ro_sy self) amount).
Proof.
  intros Ha. destruct Hwf as [_ [Hi Hpos]]. unfold fits in *. set (i := sy_index (ro_sy self)) in *.
  assert (1 <= (amount + 1) * i < 2 ^ 128) by nia. unfold mint_amount, add_p, mul_p, sub_p, div_p. fold i.
  rewrite (proj2 (Z.ltb_lt (amount + 1) _)) by lia. cbn [mbind res_bind]. rewrite (proj2 (Z.ltb_lt _ _)) by lia.
  cbn [mbind res_bind]. rewrite (proj2 (Z.leb_le _ _)) by lia. cbn [mbind res_bind]. apply returns_ok_or.
Qed.

Lemma sy_hop_returns owner program amount mint patch : fits 64 amount -> returns (sy_hop (ro_sy self) owner program amount mint patch).
Proof.
  intros Ha. unfold sy_hop. apply returns_bind; [|done]. destruct patch; [done|]. destruct mint; [|done].
  by apply mint_amount_returns.
Qed.

Lemma filter_setup_returns hops setup :
  Forall (fun ix => program_id ix = ASSOCIATED_TOKEN_PROGRAM_ID -> (2 <= length (accounts ix))%nat) setup ->
  returns (filter_setup hops setup).
Proof.
  induction 1 as [|ix setup Hix _ IH]; cbn [filter_setup]; [done|]. apply returns_bind; [|intros keep _; by apply returns_bind].
  unfold keep_setup. case_bool_decide as Hp; cbn [negb]; [|done]. destruct (concat (map h_accounts hops)); [done|].
  apply returns_bind; [apply returns_index; specialize (Hix Hp); lia|done].
Qed.

Lemma merge_tables_returns new : forall tables, returns (merge_tables tables new).
Proof.
  induction new as [|t new IH]; intros tables; cbn [merge_tables]; [done|]. destruct (List.find _ _); [|apply IH].
  returns_step; [returns_step|apply IH].
Qed.

Lemma ro_parts_returns kind amount minimum hops quote : returns (ro_parts self kind amount minimum hops quote).
Proof.
  unfold ro_parts. returns_step; [returns_step|]. apply returns_bind; [apply filter_setup_returns, Hwf|]. intros setup _.
  apply returns_bind; [destruct kind; unfold ro_prices, Manager.price_section; repeat returns_step|]. intros prices _.
  apply returns_bind.
  - match goal with |- returns (Swapping.swap _ _ ?p) => pose proof (swap_shape (ro_manager self) kind p) as Hshape end.
    unfold returns. destruct (Swapping.swap _ _ _); [done|done|]. by destruct Hshape.
  - intros ix _. apply returns_bind; [apply merge_tables_returns|done].
Qed.

Lemma tx_fit_returns parts payer : returns (tx_fit parts payer).
Proof. unfold tx_fit, tx_compile. repeat returns_step. Qed.
Lemma single_fitting_returns parts : returns (single_fitting self parts).
Proof. unfold single_fitting. apply returns_bind; [apply tx_fit_returns|]. intros fit _. repeat returns_step. Qed.
Lemma ro_check_quote_returns q buy amount : returns (ro_check_quote self q buy amount).
Proof. unfold ro_check_quote, Oracle.check_quote. destruct buy; repeat returns_step. Qed.
Lemma to_second_returns amount patch : fits 64 amount -> returns (to_second self amount patch).
Proof.
  intros Ha. unfold to_second, ro_table. apply returns_bind; [by apply sy_hop_returns|]. intros mint _.
  returns_step; [returns_step|]. apply returns_bind; [apply trade_returns|done].
Qed.
Lemma tail_returns (buy : bool) q staged patch : fits 64 staged -> returns (tail self buy q staged patch).
Proof.
  intros Hs. unfold tail. destruct buy; [by apply to_second_returns|]. apply returns_bind; [apply jupiter_hop_returns|done].
Qed.

Lemma plan_staged_returns intent (buy : bool) q first staged minimum_out minimum_staged :
  fits 64 staged -> returns (plan_staged self intent buy q first staged minimum_out minimum_staged).
Proof.
  intros Hs. unfold plan_staged.
  repeat (returns_step || apply ro_parts_returns || apply tx_fit_returns || (apply tail_returns; done)).
Qed.

Lemma ro_plan_returns intent quote minimum_out minimum_staged :
  (forall slot, open (va_staging (ro_account self)) = Some slot -> fits 64 (slot_amount slot)) ->
  (forall q, quote = Some q -> fits 64 (Jupiter.jq_output q) /\ fits 64 (Jupiter.jr_amount (Jupiter.jq_request q))) ->
  returns (ro_plan self intent quote minimum_out minimum_staged).
Proof.
  intros Hslot Hq. unfold ro_plan. apply returns_bind.
  { unfold ro_validate, Manager.ensure_current, recovery_buy. repeat returns_step. }
  intros buy _. returns_step; [returns_step|]. destruct (open (va_staging (ro_account self))) as [slot|].
  - specialize (Hslot slot eq_refl). unfold plan_recovery. apply returns_bind.
    + destruct buy; [apply returns_bind; [by apply to_second_returns|done]|].
      returns_step; [returns_step|]. apply returns_bind; [apply ro_check_quote_returns|]. intros ? _.
      apply returns_bind; [apply jupiter_hop_returns|done].
    + intros [leg hops] _. apply returns_bind; [apply ro_parts_returns|]. intros parts _. apply single_fitting_returns.
  - unfold plan_fresh. apply returns_bind; [apply returns_ok_or|]. intros q Hqq. apply ok_or_Ok in Hqq.
    destruct (Hq q Hqq) as [Ho Hr]. apply returns_bind; [apply ro_check_quote_returns|]. intros ? _.
    apply returns_bind.
    { unfold first_leg, ro_table. destruct buy; [apply returns_bind; [apply jupiter_hop_returns|done]|].
      apply returns_bind; [destruct intent; (returns_step; [returns_step|]); (apply trade_returns || apply merge_returns)|].
      intros hop _. apply returns_bind; [by apply sy_hop_returns|done]. }
    intros first _. apply returns_bind; [apply tail_returns; by destruct buy|]. intros last _. cbv zeta.
    assert (Hsingle : returns (parts ← ro_parts self (VaultSwapKind.Rebalance (negb buy)) (RouterIntent.amount intent)
      minimum_out (first ++ last) (Some q); single_fitting self parts)).
    { apply returns_bind; [apply ro_parts_returns|]. intros parts _. apply single_fitting_returns. }
    destruct (_ ≫= _) as [plan|e|]; [done| |done]. apply plan_staged_returns. by destruct buy.
Qed.
End total.

(** Without an open slot the intent decides, within its dates. *)
Lemma recovery_buy_None account intent now maturity buy :
  open (va_staging account) = None -> recovery_buy account intent now maturity = Ok buy ->
  buy = RouterIntent.buying intent /\
  match intent with
  | RouterIntent.Buy _ => now < maturity
  | RouterIntent.Sell _ => now <= maturity
  | RouterIntent.Redeem _ => maturity < now
  end.
Proof.
  intros He H. unfold recovery_buy in H. rewrite He in H. cbn in H.
  destruct intent; case_match; try discriminate H; apply Ok_inj in H as <-; split; (done || lia).
Qed.

(** C26: Planning a trade does not panic, for a router whose setup instructions that create
    token accounts name them, as the curator's do, and whose SY has a positive index (the
    public fields allow others: [bare_setup_panics]).  A plan is given only before its
    deadline, for a current vault, and every transaction of it fits and makes one valid swap, of hops the
    registry allows, that chains the leg it spends to the leg it fills.  An open slot is
    emptied, whole, into the side recovery decides, whatever was asked.  Otherwise the
    plan trades the amount asked for, in one transaction or in a pair that fills a slot of
    the next generation and empties it into the other leg; principal tokens are bought
    only before maturity, sold until it and redeemed after it; and a quote that is used
    loses no more than one per cent by the oracle.  A quote takes the amount asked for
    when buying and the whole slot when finishing; when selling, the amount of the staged
    asset it takes is its own, and is what the second transaction of a pair spends. *)
Theorem router_plan_sound `{P : Pda} `{W : Powers} `{K : MessageCompiler} self intent quote minimum_out minimum_staged :
  router_wf self ->
  (forall slot, open (va_staging (ro_account self)) = Some slot -> fits 64 (slot_amount slot)) ->
  (forall q, quote = Some q -> fits 64 (Jupiter.jq_output q) /\ fits 64 (Jupiter.jr_amount (Jupiter.jq_request q))) ->
  ro_plan self intent quote minimum_out minimum_staged <> Panic /\
  forall p, ro_plan self intent quote minimum_out minimum_staged = Ok p ->
    Manager.ensure_current (ro_manager self) (ro_account self) = Ok tt /\ ro_now self < ro_valid_until self /\
    match open (va_staging (ro_account self)) with
    | Some slot =>
        slot_mint slot = sy_base (ro_sy self) /\
        exists buy parts,
          recovery_buy (ro_account self) intent (ro_now self) (cv_maturity (ro_core self)) = Ok buy /\
          p = Plan.Single parts /\ parts_fit self parts /\
          swaps self parts (stage_kind self (other (from_leg buy)) VaultStagingStep.Unstage
                              (generation (va_staging (ro_account self)))) (slot_amount slot) minimum_out /\
          (buy = false -> exists q, quote = Some q /\
             Jupiter.jr_amount (Jupiter.jq_request q) = slot_amount slot /\ screened self q false)
    | None =>
        RouterIntent.amount intent <> 0 /\
        match intent with
        | RouterIntent.Buy _ => ro_now self < cv_maturity (ro_core self)
        | RouterIntent.Sell _ => ro_now self <= cv_maturity (ro_core self)
        | RouterIntent.Redeem _ => cv_maturity (ro_core self) < ro_now self
        end /\
        let buy := RouterIntent.buying intent in
        exists q, quote = Some q /\
          (buy = true -> Jupiter.jr_amount (Jupiter.jq_request q) = RouterIntent.amount intent) /\ screened self q buy /\
          match p with
          | Plan.Single parts =>
              parts_fit self parts /\
              swaps self parts (VaultSwapKind.Rebalance (negb buy)) (RouterIntent.amount intent) minimum_out
          | Plan.Staged stage unstage => staged_pair self intent buy q minimum_out minimum_staged stage unstage
          end
    end.
Proof.
  intros Hwf Hslot Hq. split; [by apply ro_plan_returns|]. intros p H. unfold ro_plan in H.
  apply bind_Ok in H as (buy & Hv & H). apply bind_Ok in H as (? & _ & H). unfold ro_validate in Hv.
  apply bind_Ok in Hv as ([] & Hcur & Hv). apply bind_Ok in Hv as (? & Hdead & Hv). apply bind_Ok in Hv as (? & Hmint & Hv).
  apply reject_if_Ok in Hdead, Hmint. apply orb_false_iff in Hdead as [Hdead Hzero].
  split; [done|]. split; [lia|]. destruct (open (va_staging (ro_account self))) as [slot|] eqn:Es.
  - apply negb_false_iff, bool_decide_eq_true in Hmint. split; [done|].
    apply plan_recovery_Ok in H as (parts & Hp & Hf & Hs & Hc). by exists buy, parts.
  - apply plan_fresh_Ok in H as (q & Hqq & Hamt & Hsc & Hp). cbn in Hzero. split; [lia|].
    apply (recovery_buy_None _ _ _ _ _ Es) in Hv as [-> Hm]. split; [done|by exists q].
Qed.

(** ** What a vault must have *)

(** What one position needs, in atoms of [mint]: nothing unless the vault holds it open, on
    a market of this cycle, in the money at the market's price; a put needs its quantity of
    the underlying, a call its strike value in quote atoms, rounded down. *)
Definition needed (vault_address : key) (expiry : Z) (markets : list FundingMarket) (mint : key) (position : PositionInfo) : Z :=
  if negb (bool_decide (pi_holder position = vault_address /\ pi_status position = OnChainStatus.Open)) then 0
  else match List.find (fun m => bool_decide (fm_address m = pi_market_pda position)) markets with
       | Some item =>
           let market := fm_market item in
           let strike := OptionTerms.strike (pi_terms position) in
           if negb (mi_expiry_ts market =? expiry) then 0
           else match pi_terms position with
                | OptionTerms.CashSecuredPut _ =>
                    if (fm_price item <? strike) && bool_decide (mi_underlying_mint market = mint)
                    then pi_quantity position else 0
                | _ =>
                    if (strike <? fm_price item) && bool_decide (mi_quote_mint market = mint)
                    then exact_quote strike (pi_quantity position) (mi_quote_decimals market) (mi_underlying_decimals market) false
                    else 0
                end
       | None => 0
       end.

Definition position_typed (position : PositionInfo) : Prop :=
  fits 64 (OptionTerms.strike (pi_terms position)) /\ fits 64 (pi_quantity position).
Definition market_typed (item : FundingMarket) : Prop :=
  fits 8 (mi_quote_decimals (fm_market item)) /\ fits 8 (mi_underlying_decimals (fm_market item)).

Lemma funding_position_Ok vault address markets needs position needs' :
  position_typed position -> Forall market_typed markets -> va_main_mint vault <> va_second_mint vault ->
  funding_position vault address markets needs position = Ok needs' ->
  let need mint := needed address (va_active_expiry vault) markets mint position in
  fn_main needs' = fn_main needs + need (va_main_mint vault) /\
  fn_second needs' = fn_second needs + need (va_second_mint vault) /\
  fn_cycle_expiry needs' = fn_cycle_expiry needs /\ fn_can_acquire_second needs' = fn_can_acquire_second needs /\
  (fn_main needs < 2 ^ 64 -> fn_main needs' < 2 ^ 64) /\ (fn_second needs < 2 ^ 64 -> fn_second needs' < 2 ^ 64).
Proof.
  intros [Hst Hqt] Hm Hne H need. unfold funding_position in H. subst need. unfold needed.
  destruct (decide (pi_holder position = address)) as [Hh|Hh];
    [rewrite (bool_decide_true (pi_holder position = address)) in H by done
    |rewrite (bool_decide_false (pi_holder position = address)) in H by done].
  2: { cbn in H. apply Ok_inj in H as <-. rewrite bool_decide_false by (intros [? _]; done). cbn. repeat split; lia. }
  destruct (decide (pi_status position = OnChainStatus.Open)) as [Ho|Ho];
    [rewrite (bool_decide_true (pi_status position = OnChainStatus.Open)) in H by done
    |rewrite (bool_decide_false (pi_status position = OnChainStatus.Open)) in H by done].
  2: { cbn in H. apply Ok_inj in H as <-. rewrite bool_decide_false by (intros [_ ?]; done). cbn. repeat split; lia. }
  rewrite (bool_decide_true (_ /\ _)) by done. cbn [negb orb] in *.
  apply bind_Ok in H as (? & Hsp & H). apply reject_if_Ok in Hsp. apply bind_Ok in H as (item & Hi & H). apply ok_or_Ok in Hi.
  rewrite Hi. destruct (mi_expiry_ts (fm_market item) =? va_active_expiry vault); cbn [negb] in *;
    [|apply Ok_inj in H as <-; repeat split; lia].
  apply bind_Ok in H as (? & _ & H). apply find_some in Hi as [Hi _]. apply list_elem_of_In in Hi.
  pose proof (proj1 (Forall_forall _ _) Hm item Hi) as [Hqd Hud].
  set (market := fm_market item) in *. set (strike := OptionTerms.strike (pi_terms position)) in *.
  assert (Hmain : forall mint amount,
    (if bool_decide (mint = va_main_mint vault)
     then total ← ok_or (checked_add 64 (fn_main needs) amount) (invalid "funding sum overflow");
          Ok {| fn_main := total; fn_second := fn_second needs; fn_cycle_expiry := fn_cycle_expiry needs;
                fn_can_acquire_second := fn_can_acquire_second needs |}
     else if bool_decide (mint = va_second_mint vault)
     then total ← ok_or (checked_add 64 (fn_second needs) amount) (invalid "funding sum overflow");
          Ok {| fn_main := fn_main needs; fn_second := total; fn_cycle_expiry := fn_cycle_expiry needs;
                fn_can_acquire_second := fn_can_acquire_second needs |}
     else Err (invalid "funding mint outside vault pair")) = Ok needs' ->
    fn_main needs' = fn_main needs + (if bool_decide (mint = va_main_mint vault) then amount else 0) /\
    fn_second needs' = fn_second needs + (if bool_decide (mint = va_second_mint vault) then amount else 0) /\
    fn_cycle_expiry needs' = fn_cycle_expiry needs /\ fn_can_acquire_second needs' = fn_can_acquire_second needs /\
    (fn_main needs < 2 ^ 64 -> fn_main needs' < 2 ^ 64) /\ (fn_second needs < 2 ^ 64 -> fn_second needs' < 2 ^ 64)).
  { intros mint amount Ha. unfold checked_add in Ha. case_bool_decide as H1.
    - rewrite bool_decide_false by congruence. destruct (Z.ltb_spec (fn_main needs + amount) (2 ^ 64)); [|done].
      cbn in Ha. apply Ok_inj in Ha as <-. cbn. repeat split; lia.
    - case_bool_decide as H2; [|done]. destruct (Z.ltb_spec (fn_second needs + amount) (2 ^ 64)); [|done].
      cbn in Ha. apply Ok_inj in Ha as <-. cbn. repeat split; lia. }
  unfold funding_amount in H.
  destruct (pi_terms position) as [k|k|k|k1 k2|k1 k2]; try discriminate Hsp; cbn [OptionTerms.position_type] in H;
    [rewrite (bool_decide_false (PositionType.CoveredCall = _)) in H by done|rewrite bool_decide_true in H by done];
    cbn [negb] in H; cbn [OptionTerms.strike] in *.
  - destruct (strike <? fm_price item); cbn [negb] in H; [|apply Ok_inj in H as <-; cbn; repeat split; lia].
    apply bind_Ok in H as ([mint amount] & Hamt & H). apply bind_Ok in Hamt as (a & Ha & Hamt). apply Ok_inj in Hamt.
    injection Hamt as <- <-. apply map_err_Ok in Ha. apply scaled_quote_amount_Ok in Ha; [|done|done|apply Hqd|apply Hud].
    apply quote_amount_Ok in Ha as (_ & _ & -> & _); [|done|done|apply Hqd|apply Hud]. by apply Hmain in H.
  - destruct (fm_price item <? strike); cbn [negb] in H; [|apply Ok_inj in H as <-; cbn; repeat split; lia].
    cbn in H. by apply Hmain in H.
Qed.

Definition sum_of (f : PositionInfo -> Z) (positions : list PositionInfo) : Z := foldr (fun p sum => f p + sum) 0 positions.

Lemma funding_positions_Ok vault address markets positions : forall needs needs',
  Forall position_typed positions -> Forall market_typed markets -> va_main_mint vault <> va_second_mint vault ->
  funding_positions vault address markets needs positions = Ok needs' ->
  let need mint := sum_of (needed address (va_active_expiry vault) markets mint) positions in
  fn_main needs' = fn_main needs + need (va_main_mint vault) /\
  fn_second needs' = fn_second needs + need (va_second_mint vault) /\
  fn_cycle_expiry needs' = fn_cycle_expiry needs /\ fn_can_acquire_second needs' = fn_can_acquire_second needs /\
  (fn_main needs < 2 ^ 64 -> fn_main needs' < 2 ^ 64) /\ (fn_second needs < 2 ^ 64 -> fn_second needs' < 2 ^ 64).
Proof.
  induction positions as [|p positions IH]; intros needs needs' Hp Hm Hne H; cbn in H.
  - apply Ok_inj in H as <-. cbn. repeat split; lia.
  - apply Forall_cons in Hp as [Hp Hps]. apply bind_Ok in H as (n1 & H1 & H).
    apply funding_position_Ok in H1 as (? & ? & ? & ? & ? & ?); [|done..].
    apply IH in H as (? & ? & ? & ? & ? & ?); [|done..]. cbv zeta in *.
    unfold sum_of in *. cbn [foldr]. split_and!; [lia|lia|congruence|congruence|tauto|tauto].
Qed.

(** C33: The needs of a vault are exact: in each of its two mints, the sum over the positions
    it holds open in this cycle that are in the money of what settling them takes (the
    quantity of a put in the underlying, the strike value of a call in quote atoms, rounded
    down); each sum fits 64 bits, positions of other holders, other states and other cycles
    count for nothing, and the second asset may be acquired exactly while the cycle is
    active and has not expired. *)
Theorem funding_needs_exact vault address positions markets now needs :
  Forall position_typed positions -> Forall market_typed markets -> va_main_mint vault <> va_second_mint vault ->
  funding_needs vault address positions markets now = Ok needs ->
  let need mint := sum_of (needed address (va_active_expiry vault) markets mint) positions in
  fn_main needs = need (va_main_mint vault) /\ fn_second needs = need (va_second_mint vault) /\
  fn_main needs < 2 ^ 64 /\ fn_second needs < 2 ^ 64 /\ fn_cycle_expiry needs = va_active_expiry vault /\
  (fn_can_acquire_second needs = true <-> now < va_active_expiry vault /\ va_phase vault = VaultPhase.Active).
Proof.
  intros Hp Hm Hne H. unfold funding_needs in H. apply funding_positions_Ok in H as (H1 & H2 & H3 & H4 & H5 & H6); [|done..].
  cbn [fn_main fn_second fn_cycle_expiry fn_can_acquire_second] in *. cbv zeta.
  split_and!; [lia|lia|lia|lia|done|]. by rewrite H4, andb_true_iff, Z.ltb_lt, bool_decide_eq_true.
Qed.

Module RouterSample.
#[local] Existing Instance SwapSample.pda.
#[local] Existing Instance OracleSample.powers.
(** A message of twenty bytes for each account named. *)
#[global] Instance compiler : MessageCompiler :=
  {| try_compile payer ixs tables blockhash :=
       Some {| v0_account_keys := [payer]; v0_lookups := [([1; 2], [3])]; v0_num_required_signatures := 1;
               v0_serialized := replicate (20 * sum_list (map (fun ix => length (accounts ix)) ixs)) 0 |} |}.
Definition args : VaultManagerArgs :=
  {| a_program_id := key_of 7; a_vault_id := key_of 1; a_actor := key_of 3; a_delegate_authority := key_of 3;
     a_main_mint := key_of 11; a_second_mint := key_of 12; a_share_mint := key_of 13;
     a_main_token_program := TOKEN_PROGRAM_ID; a_second_token_program := TOKEN_PROGRAM_ID;
     a_second_leg_generation := 1 |}.
Definition manager : VaultManager := {| vm_args := args; vm_addresses := Manager.derive_addresses args |}.
Definition vault : key := ad_vault (vm_addresses manager).
Definition account : VaultAccount :=
  {| va_vault_id := key_of 1; va_phase := VaultPhase.Active; va_safety := VaultSafety.Normal;
     va_equity_computed := false; va_accepting_deposits := true; va_governance_authority := key_of 2;
     va_primary_delegate := key_of 3; va_pending_governance_authority := key_of 0;
     va_fee_recipient := key_of 4; va_main_mint := key_of 11; va_second_mint := key_of 12;
     va_share_mint := key_of 13; va_main_token_program := TOKEN_PROGRAM_ID;
     va_second_token_program := TOKEN_PROGRAM_ID; va_active_expiry := 1760000000;
     va_open_positions := 2; va_total_shares := 5000; va_pending_deposit_count := 1;
     va_pending_withdraw_count := 0; va_capital_fallback_delay_secs := 3600; va_closing_started_at := 0;
     va_boundary_equity := 7; va_boundary_shares := 8; va_staging := {| generation := 3; open := None |};
     va_second_leg_generation := 1 |}.
Definition market : Market :=
  {| mk_address := key_of 60; mk_lookup_table := key_of 61; mk_pt := key_of 12; mk_sy := key_of 22; mk_vault := key_of 62;
     mk_pt_escrow := key_of 63; mk_sy_escrow := key_of 64; mk_fee_sy := key_of 65; mk_fee_pt := key_of 66;
     mk_ticks := key_of 67; mk_cpi := [(0, true); (0, false)] |}.
Definition sy : GenericSy :=
  {| sy_address := key_of 70; sy_mint := key_of 22; sy_base := key_of 23; sy_index := 1100000000000;
     sy_interface_accounts := [key_of 71]; sy_emissions := [] |}.
Definition core : CoreVault :=
  {| cv_address := key_of 62; cv_sy := key_of 22; cv_yt := key_of 80; cv_pt := key_of 12; cv_escrow_sy := key_of 81;
     cv_yield_position := key_of 82; cv_lookup_table := key_of 83; cv_maturity := 1770000000; cv_authority := key_of 84;
     cv_cpi := [] |}.
Definition router : Router :=
  {| ro_manager := manager; ro_account := account; ro_main := SwapIntentSample.route (key_of 11);
     ro_second := SwapIntentSample.route (key_of 12); ro_staging := SwapIntentSample.route (key_of 23);
     ro_registry := [(Jupiter.PROGRAM, [[187; 100]]); (GENERIC_SY, [[1]; [2]]); (CLMM, [[3]])];
     ro_market := market; ro_sy := sy; ro_core := core;
     ro_tables := [{| table_key := key_of 61; addresses := [key_of 90] |}]; ro_shard := 0; ro_now := 1750000000;
     ro_valid_until := 1750000060; ro_base_program := TOKEN_PROGRAM_ID;
     ro_setup := [create_ata_idempotent (key_of 3) vault (key_of 22) TOKEN_PROGRAM_ID];
     ro_price_main := OracleSample.dollar; ro_price_second := OracleSample.dollar; ro_price_staging := OracleSample.dollar |}.
Definition base_ata : key := derive_associated_token_address vault (key_of 23) TOKEN_PROGRAM_ID.
Definition quote : Jupiter.Quote :=
  {| Jupiter.jq_request := {| Jupiter.jr_owner := vault; Jupiter.jr_payer := key_of 3; Jupiter.jr_input_mint := key_of 11;
       Jupiter.jr_output_mint := key_of 23; Jupiter.jr_source := ad_vault_main_ata (vm_addresses manager);
       Jupiter.jr_destination := base_ata; Jupiter.jr_amount := 1000; Jupiter.jr_slippage_bps := 50 |};
     Jupiter.jq_output := 995; Jupiter.jq_minimum := 990;
     Jupiter.jq_hop := {| h_program := Jupiter.PROGRAM; h_source := ad_vault_main_ata (vm_addresses manager);
       h_destination := base_ata;
       h_accounts := [meta_new vault true; meta_new (ad_vault_main_ata (vm_addresses manager)) false; meta_new base_ata false];
       h_data := [187; 100; 250; 204; 49; 196; 175; 20] ++ to_le_bytes 8 1000 ++ replicate 20 0; h_amount_offset := None |};
     Jupiter.jq_tables := [] |}.
Definition is_staged (m : cres Plan.t) : bool := match m with Ok (Plan.Staged _ _) => true | _ => false end.
End RouterSample.

(** An instruction for the token-account program without accounts, in the public setup. *)
Example bare_setup_panics :
  filter_setup [Jupiter.jq_hop RouterSample.quote] [{| program_id := ASSOCIATED_TOKEN_PROGRAM_ID; accounts := []; data := [] |}] = Panic.
Proof. vm_compute. reflexivity. Qed.

(** One transaction would not fit, so the purchase is staged at generation four. *)
Lemma router_plan_sound_witness :
  exists stage unstage,
    ro_plan (P := SwapSample.pda) RouterSample.router (RouterIntent.Buy 1000) (Some RouterSample.quote) 980 985
      = Ok (Plan.Staged stage unstage) /\
    staged_pair (P := SwapSample.pda) RouterSample.router (RouterIntent.Buy 1000) true RouterSample.quote 980 985 stage unstage.
Proof.
  assert (Hb : RouterSample.is_staged (ro_plan (P := SwapSample.pda) RouterSample.router (RouterIntent.Buy 1000)
    (Some RouterSample.quote) 980 985) = true) by (vm_compute; reflexivity).
  destruct (router_plan_sound (P := SwapSample.pda) RouterSample.router (RouterIntent.Buy 1000) (Some RouterSample.quote) 980 985)
    as [_ Hp].
  - split; [|unfold fits; cbn; lia]. repeat constructor.
  - intros slot Hs. discriminate Hs.
  - intros q [= <-]. unfold fits. cbn. lia.
  - destruct (ro_plan RouterSample.router _ _ _ _) as [[parts|stage unstage]|e|]; [discriminate Hb| |discriminate Hb..].
    exists stage, unstage. split; [reflexivity|].
    destruct (Hp _ eq_refl) as (_ & _ & _ & _ & q & Hq & _ & _ & Hshape). injection Hq as <-. exact Hshape.
Defined.

Lemma funding_needs_exact_witness :
  let put := {| pi_terms := OptionTerms.CashSecuredPut 100; pi_side := TakerSide.Sell; pi_flags := 0; pi_flags2 := 0;
     pi_flags3 := 0; pi_status := OnChainStatus.Open; pi_writer := key_of 1; pi_holder := key_of 50;
     pi_market_pda := key_of 3; pi_quantity := 1000; pi_order_id := key_of 4 |} in
  let market := {| mi_expiry_ts := 1760000000; mi_is_put := true; mi_is_finalized := false; mi_settlement_price := 0;
     mi_underlying_mint := key_of 12; mi_quote_mint := key_of 11; mi_underlying_token_program_id := TOKEN_PROGRAM_ID;
     mi_quote_token_program_id := TOKEN_PROGRAM_ID; mi_underlying_decimals := 9; mi_quote_decimals := 6 |} in
  exists needs,
    funding_needs RouterSample.account (key_of 50) [put; put] [{| fm_address := key_of 3; fm_market := market; fm_price := 90 |}]
      1750000000 = Ok needs /\ fn_second needs = 2000 /\ fn_can_acquire_second needs = true.
Proof.
  intros put market. eexists. split; [reflexivity|].
  destruct (funding_needs_exact RouterSample.account (key_of 50) [put; put]
    [{| fm_address := key_of 3; fm_market := market; fm_price := 90 |}] 1750000000 _
    ltac:(repeat constructor; unfold fits; cbn; lia) ltac:(repeat constructor; unfold fits; cbn; lia) ltac:(done) eq_refl)
    as (_ & Hs & _ & _ & _ & Hc).
  split; [exact Hs|]. apply Hc. split; [cbn; lia|reflexivity].
Defined.
