(* ===== verification/Curator.v ===== *)
(** * The curator ([src/chain/vault/curator.rs])

    The edges of a curator's plans: one batched read of every account a plan depends on,
    quotes from Jupiter requested with ever fewer accounts until the plan fits, and the
    driver that sends a plan and, after a staged half is confirmed, finishes it.

    The Solana client and Jupiter's HTTP service are parameters that answer each call by
    its number; a run carries how many calls were made. *)

From Stdlib Require Import ZArith Lia String.
From stdpp Require Import base list gmap strings.
From S2P Require Import Prelude Terms Signing Quote Challenge Chain Account Crank Price Vault Wire Swap Served Owner Intent SwapIntent Rpc Confirm Snapshot Venues Oracle Router.

Open Scope Z_scope.
Import Exponent.

Module CuratorError.
(** [Box<dyn Error>], by where it comes from. *)
(* chain/vault/curator.rs:138-144 StageError *)
Inductive t :=
| Vault (e : VaultChainError.t)
| Text (message : string)
| Missing (dependency : key)
| Rpc (message : string)
| Http (message : string)
| Stage (signature : bytes) (source : t).
End CuratorError.

(** ** The driver *)

Module Outcome.
(* chain/vault/curator.rs:128-137 Outcome *)
Inductive t := Executed (signatures : list bytes) | Recovered (signature : bytes).
End Outcome.

(** The trait, over the state [D] of what implements it. *)
(* chain/vault/curator.rs:118-126 Driver *)
Class Driver (D : Type) := {
  refresh : RouterIntent.t -> D -> res CuratorError.t Plan.t * D;
  send_confirmed : TxParts -> D -> res CuratorError.t bytes * D;
}.

Definition unstages (kind : VaultSwapKind.t) : bool :=
  match kind with VaultSwapKind.Staging VaultStagingStep.Unstage _ _ _ => true | _ => false end.

#[export] Instance staging_asset_eq_dec : EqDecision VaultStagingAsset.
Proof. solve_decision. Defined.

Section execute.
Context {D : Type} `{V : Driver D}.

(** The completion of a confirmed stage, and whether it went back to the leg it came from. *)
(* chain/vault/curator.rs:172-193 execute (completion) *)
Definition complete_stage (intent : RouterIntent.t) (asset : VaultStagingAsset) (generation : Z) (staged_leg : VaultLeg.t)
  (d : D) : res CuratorError.t (bytes * bool) * D :=
  match refresh intent d with
  | (Ok (Plan.Single parts), d) =>
      match tx_kind parts with
      | VaultSwapKind.Staging VaultStagingStep.Unstage leg asset' generation' =>
          if bool_decide ((asset', generation') = (asset, generation)) then
            match send_confirmed parts d with
            | (Ok signature, d) => (Ok (signature, bool_decide (leg = staged_leg)), d)
            | (Err e, d) => (Err e, d)
            | (Panic, d) => (Panic, d)
            end
          else (Err (CuratorError.Text "expected full-slot unstage after stage"), d)
      | _ => (Err (CuratorError.Text "expected full-slot unstage after stage"), d)
      end
  | (Ok (Plan.Staged _ _), d) => (Err (CuratorError.Text "confirmed stage did not produce an open slot"), d)
  | (Err e, d) => (Err e, d)
  | (Panic, d) => (Panic, d)
  end.

(* chain/vault/curator.rs:146-203 execute *)
Definition execute (intent : RouterIntent.t) (d : D) : res CuratorError.t Outcome.t * D :=
  match refresh intent d with
  | (Err e, d) => (Err e, d)
  | (Panic, d) => (Panic, d)
  | (Ok plan, d) =>
      match send_confirmed (Plan.first plan) d with
      | (Err e, d) => (Err e, d)
      | (Panic, d) => (Panic, d)
      | (Ok signature, d) =>
          match plan with
          | Plan.Single parts =>
              (Ok (if unstages (tx_kind parts) then Outcome.Recovered signature else Outcome.Executed [signature]), d)
          | Plan.Staged stage _ =>
              match tx_kind stage with
              | VaultSwapKind.Staging _ staged_leg asset generation =>
                  match complete_stage intent asset generation staged_leg d with
                  | (Ok (completion, rolled_back), d) =>
                      (Ok (if rolled_back then Outcome.Recovered completion
                           else Outcome.Executed [signature; completion]), d)
                  | (Err source, d) => (Err (CuratorError.Stage signature source), d)
                  | (Panic, d) => (Panic, d)
                  end
              | _ => (Err (CuratorError.Stage signature (CuratorError.Text "expected staging transaction")), d)
              end
          end
      end
  end.
End execute.

(** ** The curator over the network *)

(** Jupiter's answer to a request with at most so many accounts; submitting a message until
    it is confirmed; simulating one; a fresh blockhash. *)
Class CuratorIO := {
  jupiter_build : nat -> Jupiter.Request -> Z -> string + Jupiter.BuildResponse;
  send_and_confirm : nat -> V0Message -> string + bytes;
  simulate_transaction : nat -> V0Message -> string + option string;
  sign_message : V0Message -> option string;
  parse_key : string -> option key;
  base64_decode : string -> option bytes;
}.

(** How many calls were made. *)
Definition cur (A : Type) : Type := nat -> res CuratorError.t A * nat.
#[export] Instance cur_ret : MRet cur := fun _ a s => (Ok a, s).
#[export] Instance cur_bind : MBind cur := fun _ _ k m s =>
  match m s with (Ok a, s) => k a s | (Err e, s) => (Err e, s) | (Panic, s) => (Panic, s) end.
Definition clift {A} (m : res CuratorError.t A) : cur A := fun s => (m, s).
(** [?] on a [VaultChainError]. *)
Definition cvault {A} (m : cres A) : cur A := clift (map_err CuratorError.Vault m).
Definition ccall {A} (f : nat -> string + A) (e : string -> CuratorError.t) : cur A := fun s =>
  (match f s with inr a => Ok a | inl m => Err (e m) end, S s).
Definition crequire (bad : bool) (message : string) : cur unit := clift (reject_if bad (CuratorError.Text message)).

(* chain/vault/curator.rs:233-233 CLOCK *)
Definition CLOCK : key :=
  [6; 167; 213; 23; 24; 199; 116; 201; 40; 86; 99; 152; 105; 29; 94; 182; 139; 94; 184; 163; 155; 75; 109; 92; 115; 85; 91;
   33; 0; 0; 0; 0].

(* chain/vault/curator.rs:234-243 Config *)
Record Config := {
  cf_manager : VaultManager; cf_market : key; cf_sy : key; cf_core : key; cf_shard : Z; cf_keys : list key;
  cf_ata_setup : list Instruction }.

Abbreviation snapshot := (gmap key Account) (only parsing).

(* chain/vault/curator.rs:341-345 account *)
Definition account_of (s : snapshot) (k : key) : res CuratorError.t Account := ok_or (s !! k) (CuratorError.Missing k).

(* chain/vault/curator.rs:346-356 account_data *)
Definition data_of (s : snapshot) (k owner_ : key) : res CuratorError.t bytes :=
  account ← account_of s k;
  _ ← reject_if (negb (bool_decide (owner account = owner_))) (CuratorError.Text "snapshot account owner mismatch");
  Ok (account_data account).

(* chain/vault/curator.rs:357-380 table *)
Definition table_of (s : snapshot) (k : key) : res CuratorError.t LookupTable :=
  let bad := CuratorError.Text "invalid or deactivated ALT" in
  data ← data_of s k ADDRESS_LOOKUP_TABLE_PROGRAM_ID;
  _ ← reject_if (length data <? 56)%nat bad;
  kind ← slice_p data 0 4;
  _ ← reject_if (negb (bool_decide (kind = to_le_bytes 4 1))) bad;
  deactivation ← slice_p data 4 12;
  _ ← reject_if (negb (bool_decide (deactivation = to_le_bytes 8 (2 ^ 64 - 1)))) bad;
  _ ← reject_if (negb ((length data - 56) mod 32 =? 0)%nat) bad;
  rest ← slice_p data 56 (length data);
  Ok {| table_key := k; addresses := chunks 32 rest |}.

(* chain/vault/curator.rs:656-668 missing_ata_setup *)
Fixpoint missing_ata_setup (setup : list Instruction) (s : snapshot) : res CuratorError.t (list Instruction) :=
  match setup with
  | [] => Ok []
  | ix :: setup =>
      created ← index_p (accounts ix) 1;
      rest ← missing_ata_setup setup s;
      Ok (match s !! pubkey created with Some _ => rest | None => ix :: rest end)
  end.

(* chain/vault/curator.rs:647-657 sell_quote_amount *)
Definition sell_quote_amount `{W : Powers} (input : OraclePrice) (amount : Z) (base : OraclePrice) (slippage_bps : Z) : cres Z :=
  value ← convert input amount base;
  factor ← sub_p 10000 slippage_bps;
  product ← mul_p 128 value factor;
  Ok (product / 10000 mod 2 ^ 64).

(** [10_000 - slippage] of ten thousand, kept to 64 bits. *)
(* chain/vault/curator.rs:541-543 Curator::plan (discounted) *)
Definition discounted (slippage_bps value : Z) : cres Z :=
  factor ← sub_p 10000 slippage_bps;
  product ← mul_p 128 value factor;
  Ok (product / 10000 mod 2 ^ 64).

Section fitting.
(** [fit_with_quotes] over any way to fetch a quote and to plan with it. *)
Context (fetch : Z -> cur Jupiter.Quote) (plan : Jupiter.Quote -> cres Plan.t).
Definition does_not_fit : VaultChainError.t := invalid "curator transaction does not fit".

(* chain/vault/curator.rs:103-115 fit_with_quotes (loop) *)
Fixpoint fit_loop (budgets : list Z) : cur Plan.t :=
  match budgets with
  | [] => clift (Err (CuratorError.Vault does_not_fit))
  | budget :: budgets =>
      quote ← fetch budget;
      match plan quote with
      | Ok plan => mret plan
      | Err (VaultChainError.InvalidInput reason) =>
          if bool_decide (reason = "curator transaction does not fit"%string) && negb (budget =? 12)
          then fit_loop budgets
          else clift (Err (CuratorError.Vault (VaultChainError.InvalidInput reason)))
      | Err e => clift (Err (CuratorError.Vault e))
      | Panic => clift Panic
      end
  end.
(* chain/vault/curator.rs:96-116 fit_with_quotes *)
Definition fit_with_quotes : cur Plan.t := fit_loop [48; 36; 24; 12].
End fitting.

Section curator.
Context `{P : Pda} `{W : Powers} `{K : MessageCompiler} `{N : Cluster} `{IO : CuratorIO}.

(* chain/vault/curator.rs:62-80 fetch_snapshot *)
Definition fetch_snapshot (keys : list key) : cur snapshot :=
  values ← ccall (fun n => get_multiple_accounts_with_commitment n keys) CuratorError.Rpc;
  mret (list_to_map (omap (fun '(k, account) => (fun a => (k, a)) <$> account) (rev (zip keys values))) : snapshot).

(* chain/vault/curator.rs:38-60 JupiterClient::quote *)
Definition jupiter_quote (request : Jupiter.Request) (max_accounts : Z) : cur Jupiter.Quote :=
  response ← ccall (fun n => jupiter_build n request max_accounts) CuratorError.Http;
  cvault (Jupiter.into_quote parse_key base64_decode response request).

(** Each table Jupiter supplied must be the one on chain, which replaces it. *)
(* chain/vault/curator.rs:82-94 verify_quote_tables *)
Definition verify_quote_tables (quote : Jupiter.Quote) (s : snapshot) : res CuratorError.t Jupiter.Quote :=
  tables ← try_map (fun supplied =>
    on_chain ← table_of s (table_key supplied);
    _ ← reject_if (negb (bool_decide (addresses supplied = addresses on_chain)))
          (CuratorError.Text "Jupiter lookup table contents differ from RPC");
    Ok on_chain) (Jupiter.jq_tables quote);
  Ok {| Jupiter.jq_request := Jupiter.jq_request quote; Jupiter.jq_output := Jupiter.jq_output quote;
        Jupiter.jq_minimum := Jupiter.jq_minimum quote; Jupiter.jq_hop := Jupiter.jq_hop quote; Jupiter.jq_tables := tables |}.

(** The three accounts of the venue, decoded from a snapshot. *)
Definition venue_of (s : snapshot) (market sy core : key) : cur (Market * GenericSy * CoreVault) :=
  data ← clift (data_of s market CLMM);
  m ← cvault (market_parse market data);
  data ← clift (data_of s sy GENERIC_SY);
  y ← cvault (sy_parse sy data);
  data ← clift (data_of s core CORE);
  c ← cvault (core_parse core data);
  mret (m, y, c).

(** The price route of each address, for its mint, with the accounts it reads. *)
(* chain/vault/curator.rs:307-316 Config::discover (routes) *)
Fixpoint route_keys (s : snapshot) (program : key) (shard : Z) (routes : list (key * key)) : cur (list key) :=
  match routes with
  | [] => mret []
  | (k, mint) :: routes =>
      account ← clift (account_of s k);
      route ← cvault (PriceRouteOps.from_account account program);
      _ ← crequire (negb (bool_decide (pr_mint route = mint))) "price route mint mismatch";
      rest ← route_keys s program shard routes;
      mret (map pubkey (PriceRouteOps.accounts route k shard) ++ rest)
  end.

(* chain/vault/curator.rs:245-336 Config::discover *)
Definition discover (program vault actor market sy core : key) (shard : Z) : cur Config :=
  first ← fetch_snapshot [vault; market; sy; core];
  account ← clift (account_of first vault);
  state ← cvault (VaultAccountOps.from_account account program);
  manager ← cvault (Manager.from_vault program actor state);
  _ ← crequire (negb (bool_decide (ad_vault (vm_addresses manager) = vault))) "vault PDA mismatch";
  '(m, s, c) ← venue_of first market sy core;
  let routes := [ad_main_price_route (vm_addresses manager); ad_second_price_route (vm_addresses manager);
                 pda.price_route program (sy_base s)] in
  second ← fetch_snapshot (routes ++ [sy_base s]);
  _ ← crequire (negb (bool_decide (mk_pt m = va_second_mint state)) || negb (bool_decide (mk_sy m = sy_mint s))
                || negb (bool_decide (mk_vault m = cv_address c)) || negb (bool_decide (cv_pt c = mk_pt m))
                || negb (bool_decide (cv_sy c = sy_mint s))) "Exponent venue does not match vault pair";
  base ← clift (account_of second (sy_base s));
  let base_program := owner base in
  read ← route_keys second program shard (zip routes [va_main_mint state; va_second_mint state; sy_base s]);
  let ata_setup := [create_ata_idempotent actor vault (sy_base s) base_program;
                    create_ata_idempotent actor vault (sy_mint s) TOKEN_PROGRAM_ID;
                    create_ata_idempotent actor vault (cv_yt c) TOKEN_PROGRAM_ID] in
  atas ← clift (try_map (fun ix => pubkey <$> index_p (accounts ix) 1) ata_setup);
  let keys := [vault; market; sy; core; CLOCK; ad_swap_venues (vm_addresses manager); mk_lookup_table m; cv_lookup_table c;
               va_main_mint state; va_second_mint state; sy_base s] ++ sy_interface_accounts s ++ read ++ atas in
  mret {| cf_manager := manager; cf_market := market; cf_sy := sy; cf_core := core; cf_shard := shard;
          cf_keys := dedup (sort_keys keys); cf_ata_setup := ata_setup |}.
End curator.

(* chain/vault/curator.rs:382-389 Curator *)
Record Curator := { cu_signer : key; cu_config : Config; cu_slippage_bps : Z; cu_lifetime_secs : Z }.

(* chain/vault/curator.rs:391-411 Curator::new *)
Definition new_curator (signer : key) (config : Config) (slippage_bps lifetime_secs : Z) : res CuratorError.t Curator :=
  _ ← reject_if (negb (bool_decide (signer = a_actor (vm_args (cf_manager config)))) || (100 <? slippage_bps)
                 || (lifetime_secs =? 0)) (CuratorError.Text "invalid curator signer, slippage or lifetime");
  Ok {| cu_signer := signer; cu_config := config; cu_slippage_bps := slippage_bps; cu_lifetime_secs := lifetime_secs |}.

Section planning.
Context `{P : Pda} `{W : Powers} `{K : MessageCompiler} `{N : Cluster} `{IO : CuratorIO}.
Context (self : Curator).

(* chain/vault/curator.rs:437-445 Curator::plan (clock) *)
Definition clock_of (data : bytes) : res CuratorError.t PriceClock :=
  let u64_at at_ := from_le_bytes <$> ok_or (get_range data at_ (at_ + 8)) (CuratorError.Text "truncated clock") in
  now ← u64_at 32%nat;
  epoch ← u64_at 16%nat;
  Ok {| ck_now := now; ck_epoch := epoch |}.

(* chain/vault/curator.rs:446-456 Curator::plan (routes) *)
Definition route_of (s : snapshot) (k : key) : res CuratorError.t PriceRoute :=
  account ← account_of s k;
  map_err CuratorError.Vault (PriceRouteOps.from_account account (a_program_id (vm_args (cf_manager (cu_config self))))).

(** The setup: the compute limit, the token accounts that are missing, and the update of a
    stake pool that is behind. *)
(* chain/vault/curator.rs:477-495 Curator::plan (setup) *)
Definition setup_of (s : snapshot) (sy : GenericSy) (base_program : key) (clock : PriceClock)
  : res CuratorError.t (list Instruction) :=
  missing ← missing_ata_setup (cf_ata_setup (cu_config self)) s;
  pool_key ← ok_or (head (sy_interface_accounts sy)) (CuratorError.Text "SY pool missing");
  pool_account ← account_of s pool_key;
  pool ← map_err CuratorError.Vault (pool_parse pool_key (owner pool_account) (account_data pool_account));
  _ ← reject_if (negb (bool_decide (sp_mint pool = sy_base sy)) || negb (bool_decide (sp_token_program pool = base_program)))
        (CuratorError.Text "SY stake pool mint mismatch");
  Ok (budget_instruction SET_COMPUTE_UNIT_LIMIT (to_le_bytes 4 1400000) :: missing
      ++ (if sp_epoch pool <? ck_epoch clock then [pool_update pool] else [])).

(** The router of one snapshot. *)
(* chain/vault/curator.rs:418-516 Curator::plan (snapshot) *)
Definition router_of (s : snapshot) : res CuratorError.t Router :=
  let cfg := cu_config self in
  let a := vm_addresses (cf_manager cfg) in
  let program := a_program_id (vm_args (cf_manager cfg)) in
  account ← account_of s (ad_vault a);
  state ← map_err CuratorError.Vault (VaultAccountOps.from_account account program);
  data ← data_of s (cf_market cfg) CLMM;
  m ← map_err CuratorError.Vault (market_parse (cf_market cfg) data);
  data ← data_of s (cf_sy cfg) GENERIC_SY;
  sy ← map_err CuratorError.Vault (sy_parse (cf_sy cfg) data);
  data ← data_of s (cf_core cfg) CORE;
  core ← map_err CuratorError.Vault (core_parse (cf_core cfg) data);
  clock ← account_of s CLOCK;
  clock ← clock_of (account_data clock);
  main ← route_of s (ad_main_price_route a);
  second ← route_of s (ad_second_price_route a);
  staging ← route_of s (pda.price_route program (sy_base sy));
  price_main ← map_err CuratorError.Vault (evaluate main s (cf_shard cfg) clock);
  price_second ← map_err CuratorError.Vault (evaluate second s (cf_shard cfg) clock);
  price_staging ← map_err CuratorError.Vault (evaluate staging s (cf_shard cfg) clock);
  table_market ← table_of s (mk_lookup_table m);
  table_core ← table_of s (cv_lookup_table core);
  venues ← data_of s (ad_swap_venues a) program;
  registry ← map_err CuratorError.Vault (SwapVenues.parse venues);
  base ← account_of s (sy_base sy);
  setup ← setup_of s sy (owner base) clock;
  valid_until ← ok_or (checked_add 64 (ck_now clock) (cu_lifetime_secs self)) (CuratorError.Text "deadline overflow");
  Ok {| ro_manager := cf_manager cfg; ro_account := state; ro_main := main; ro_second := second; ro_staging := staging;
        ro_registry := registry; ro_market := m; ro_sy := sy; ro_core := core; ro_tables := [table_market; table_core];
        ro_shard := cf_shard cfg; ro_now := ck_now clock; ro_valid_until := valid_until; ro_base_program := owner base;
        ro_setup := setup; ro_price_main := price_main; ro_price_second := price_second; ro_price_staging := price_staging |}.

(* chain/vault/curator.rs:523-540 Curator::plan (request) *)
Definition request_of (router : Router) (buy : bool) (amount : Z) : Jupiter.Request :=
  let a := vm_addresses (cf_manager (cu_config self)) in
  let base_mint := sy_base (ro_sy router) in
  let base := derive_associated_token_address (ad_vault a) base_mint (ro_base_program router) in
  {| Jupiter.jr_owner := ad_vault a; Jupiter.jr_payer := cu_signer self;
     Jupiter.jr_input_mint := if buy then va_main_mint (ro_account router) else base_mint;
     Jupiter.jr_output_mint := if buy then base_mint else va_main_mint (ro_account router);
     Jupiter.jr_source := if buy then ad_vault_main_ata a else base;
     Jupiter.jr_destination := if buy then base else ad_vault_main_ata a;
     Jupiter.jr_amount := amount; Jupiter.jr_slippage_bps := cu_slippage_bps self |}.

(** A quote whose lookup tables are those on chain. *)
(* chain/vault/curator.rs:555-566 Curator::plan (quote) *)
Definition checked_quote (request : Jupiter.Request) (budget : Z) : cur Jupiter.Quote :=
  quote ← jupiter_quote request budget;
  match Jupiter.jq_tables quote with
  | [] => mret quote
  | tables => s ← fetch_snapshot (map table_key tables); clift (verify_quote_tables quote s)
  end.

(* chain/vault/curator.rs:567-579 Curator::plan (plan) *)
Definition plan_with (router : Router) (intent : RouterIntent.t) (buy : bool) (quote : Jupiter.Quote) : cres Plan.t :=
  minimum_out ← (if buy then
      value ← convert (ro_price_main router) (RouterIntent.amount intent) (ro_price_second router);
      discounted (cu_slippage_bps self) value
    else Ok (Jupiter.jq_minimum quote));
  ro_plan router intent (Some quote) minimum_out
    (if buy then Jupiter.jq_minimum quote else Jupiter.jr_amount (Jupiter.jq_request quote)).

(* chain/vault/curator.rs:412-582 Curator::plan *)
Definition curator_plan (intent : RouterIntent.t) : cur Plan.t :=
  s ← fetch_snapshot (cf_keys (cu_config self));
  router ← clift (router_of s);
  buy ← cvault (ro_validate router intent);
  let slot := open (va_staging (ro_account router)) in
  amount ← cvault (match slot, buy with
                   | Some slot, false => Ok (slot_amount slot)
                   | _, true => Ok (RouterIntent.amount intent)
                   | _, _ => sell_quote_amount (ro_price_second router) (RouterIntent.amount intent) (ro_price_staging router)
                               (cu_slippage_bps self)
                   end);
  match slot, buy with
  | Some slot, true =>
      cvault (value ← convert (ro_price_staging router) (slot_amount slot) (ro_price_second router);
              minimum ← discounted (cu_slippage_bps self) value;
              ro_plan router intent None minimum 0)
  | _, _ => fit_with_quotes (checked_quote (request_of router buy amount)) (plan_with router intent buy)
  end.

(* chain/vault/curator.rs:205-212 sign *)
Definition sign_parts (parts : TxParts) : cur V0Message :=
  blockhash ← ccall get_latest_blockhash CuratorError.Rpc;
  message ← cvault (tx_compile parts (cu_signer self) blockhash);
  match sign_message message with Some e => clift (Err (CuratorError.Text e)) | None => mret message end.

(* chain/vault/curator.rs:213-231 send_confirmed *)
Definition send_parts (parts : TxParts) : cur bytes :=
  message ← sign_parts parts;
  ccall (fun n => send_and_confirm n message) CuratorError.Rpc.

(* chain/vault/curator.rs:584-596 Curator::simulate *)
Definition simulate (intent : RouterIntent.t) : cur unit :=
  plan ← curator_plan intent;
  message ← sign_parts (Plan.first plan);
  outcome ← ccall (fun n => simulate_transaction n message) CuratorError.Rpc;
  match outcome with Some e => clift (Err (CuratorError.Text e)) | None => mret tt end.

(* chain/vault/curator.rs:598-605 Curator (Driver) *)
#[global] Instance curator_driver : Driver nat := {| refresh := curator_plan; send_confirmed := send_parts |}.
End planning.

(** ** What was sent is accounted for *)

(** What [execute] relies on: the first transaction of a plan of two fills a slot. *)
Class StagingDriver (D : Type) {V : Driver D} : Prop :=
  staged_plans_stage : forall intent (d : D) stage unstage d',
    refresh intent d = (Ok (Plan.Staged stage unstage), d') ->
    exists leg asset generation, tx_kind stage = VaultSwapKind.Staging VaultStagingStep.Stage leg asset generation.

Section accounting.
Context {D : Type} `{V : Driver D}.

(** The driver, with a log of what was sent and how it ended. *)
Definition log : Type := list (TxParts * res CuratorError.t bytes).
Definition logged : Driver (D * log) := {|
  refresh intent '(d, l) := let '(r, d) := refresh intent d in (r, (d, l));
  send_confirmed parts '(d, l) := let '(r, d) := send_confirmed parts d in (r, (d, l ++ [(parts, r)])) |}.

(** [first] fills a slot from a leg and [second] empties it, into the same leg or not. *)
Definition completes (first second : TxParts) (same_leg : bool) : Prop :=
  exists leg leg' asset generation,
    tx_kind first = VaultSwapKind.Staging VaultStagingStep.Stage leg asset generation /\
    tx_kind second = VaultSwapKind.Staging VaultStagingStep.Unstage leg' asset generation /\
    same_leg = bool_decide (leg' = leg).

(** The driver itself panicked. *)
Definition driver_panics : Prop :=
  exists (d : D), (exists intent, (refresh intent d).1 = Panic) \/ (exists parts, (send_confirmed parts d).1 = Panic).

(** How an execution ended, against the log. *)
Definition accounted (r : res CuratorError.t Outcome.t) (l : log) : Prop :=
  match r with
  | Ok (Outcome.Executed [s]) => exists parts, l = [(parts, Ok s)] /\ unstages (tx_kind parts) = false
  | Ok (Outcome.Executed [s1; s2]) =>
      exists first second, l = [(first, Ok s1); (second, Ok s2)] /\ completes first second false
  | Ok (Outcome.Executed _) => False
  | Ok (Outcome.Recovered s) =>
      (exists parts, l = [(parts, Ok s)] /\ unstages (tx_kind parts) = true) \/
      (exists first second s1, l = [(first, Ok s1); (second, Ok s)] /\ completes first second true)
  | Err e =>
      l = [] \/ (exists parts, l = [(parts, Err e)]) \/
      (exists first s source, e = CuratorError.Stage s source /\
         (l = [(first, Ok s)] \/ exists second, l = [(first, Ok s); (second, Err source)] /\
                                   exists b, completes first second b))
  | Panic => driver_panics
  end.

Lemma complete_stage_log intent asset generation leg d l r d' l' :
  complete_stage (V := logged) intent asset generation leg (d, l) = (r, (d', l')) ->
  match r with
  | Ok (s, b) => exists second leg', l' = l ++ [(second, Ok s)] /\
      tx_kind second = VaultSwapKind.Staging VaultStagingStep.Unstage leg' asset generation /\ b = bool_decide (leg' = leg)
  | Err e => l' = l \/ exists second leg', l' = l ++ [(second, Err e)] /\
      tx_kind second = VaultSwapKind.Staging VaultStagingStep.Unstage leg' asset generation
  | Panic => driver_panics
  end.
Proof.
  unfold complete_stage. cbn. destruct (refresh intent d) as [[[parts|s1 s2]|e|] d1] eqn:Er; cbn; intros H;
    [|injection H as <- <- <-; auto..|injection H as <- <- <-; exists d; left; exists intent; by rewrite Er].
  destruct (tx_kind parts) as [b| | |a g sec|step leg' asset' generation'] eqn:Ek; try (injection H as <- <- <-; auto).
  destruct step; [injection H as <- <- <-; auto|]. case_bool_decide as Heq; [|injection H as <- <- <-; auto].
  injection Heq as -> ->. destruct (send_confirmed parts d1) as [[s|e|] d2] eqn:Es; injection H as <- <- <-; [|right|]; eauto.
  exists d1. right. exists parts. by rewrite Es.
Qed.

(** C28: Executing a plan sends one transaction, or two: the first fills a staging slot and
    the second empties the slot of that asset and generation.  A trade that was executed
    names the signature of every transaction it confirmed.  A trade that was not made, an
    older slot being finished or its own going back to the leg it came from, names the
    transaction that emptied the slot (and, in the second case, not the one that filled
    it).  When completion fails after a confirmed stage, the error carries the stage's
    signature.  It panics only if the driver does. *)
Theorem execute_accounts `{!StagingDriver D} intent d r d' l :
  execute (V := logged) intent (d, []) = (r, (d', l)) -> accounted r l.
Proof.
  unfold execute. cbn [refresh logged]. destruct (refresh intent d) as [[plan|e|] d1] eqn:Er; intros H;
    [|injection H as <- <- <-; cbn; auto|injection H as <- <- <-; exists d; left; exists intent; by rewrite Er].
  cbn [send_confirmed logged] in H. destruct (send_confirmed (Plan.first plan) d1) as [[s|e|] d2] eqn:Es; cbn [app] in H;
    [|injection H as <- <- <-; cbn; eauto|injection H as <- <- <-; exists d1; right; eexists; by rewrite Es].
  destruct plan as [parts|stage unstage]; cbn [Plan.first] in H.
  - injection H as <- <- <-. destruct (unstages (tx_kind parts)) eqn:E; cbn; eauto.
  - destruct (staged_plans_stage _ _ _ _ _ Er) as (leg & asset & generation & Ek). rewrite Ek in H.
    destruct (complete_stage (V := logged) intent asset generation leg (d2, [(stage, Ok s)])) as [r1 [d3 l3]] eqn:Hc.
    apply complete_stage_log in Hc. destruct r1 as [[s2 b]|e|]; injection H as <- <- <-; [|..|exact Hc].
    + destruct Hc as (second & leg' & -> & Hk & ->). destruct (bool_decide (leg' = leg)) eqn:El; cbn.
      * right. exists stage, second, s. split; [done|]. by exists leg, leg', asset, generation.
      * exists stage, second. split; [done|]. by exists leg, leg', asset, generation.
    + cbn. right. right. exists stage, s, e. split; [done|]. destruct Hc as [->|(second & leg' & -> & Hk)]; [by left|].
      right. exists second. split; [done|]. by exists (bool_decide (leg' = leg)), leg, leg', asset, generation.
Qed.
End accounting.

Module CuratorSample.
Definition asset : VaultStagingAsset := {| sa_mint := key_of 23; sa_token_program := TOKEN_PROGRAM_ID |}.
Definition parts (step : VaultStagingStep.t) (leg : VaultLeg.t) : TxParts :=
  {| tx_instructions := []; tx_tables := []; tx_kind := VaultSwapKind.Staging step leg asset 4 |}.
(** Stages from the main leg, then finds the slot open and empties it into the second. *)
#[local] Instance driver : Driver nat := {|
  refresh _ n := (Ok (match n with
    | O => Plan.Staged (parts VaultStagingStep.Stage VaultLeg.Main) (parts VaultStagingStep.Unstage VaultLeg.Second)
    | _ => Plan.Single (parts VaultStagingStep.Unstage VaultLeg.Second)
    end), n);
  send_confirmed _ n := (Ok (key_of (Z.of_nat n)), S n) |}.
Definition run : res CuratorError.t Outcome.t * (nat * log) := execute (V := logged) (RouterIntent.Buy 1000) (0%nat, []).
End CuratorSample.

Lemma execute_accounts_witness :
  exists d l, CuratorSample.run = (Ok (Outcome.Executed [key_of 0; key_of 1]), (d, l)) /\
    accounted (V := CuratorSample.driver) (Ok (Outcome.Executed [key_of 0; key_of 1])) l.
Proof.
  eexists _, _. split; [reflexivity|].
  assert (Hs : StagingDriver (V := CuratorSample.driver) nat)
    by (intros intent [|d] stage unstage d' [= <- <- <-]; by eexists _, _, _).
  eapply (execute_accounts (V := CuratorSample.driver) (RouterIntent.Buy 1000) 0%nat). reflexivity.
Defined.

(** ** What a plan comes from *)

Lemma cur_bind_Ok {A B} (m : cur A) (k : A -> cur B) s b s' :
  (m ≫= k) s = (Ok b, s') <-> exists a s1, m s = (Ok a, s1) /\ k a s1 = (Ok b, s').
Proof.
  unfold mbind, cur_bind. split.
  - destruct (m s) as [[a|e|] s1]; intros H; try discriminate H. eauto.
  - by intros (a & s1 & -> & H).
Qed.
Lemma clift_Ok {A} (m : res CuratorError.t A) s a s' : clift m s = (Ok a, s') <-> m = Ok a /\ s' = s.
Proof. unfold clift. split; [by intros [= -> ->]|by intros [-> ->]]. Qed.
Lemma cvault_Ok {A} (m : cres A) s a s' : cvault m s = (Ok a, s') <-> m = Ok a /\ s' = s.
Proof. unfold cvault. rewrite clift_Ok, map_err_Ok. done. Qed.
Lemma ccall_Ok {A} (f : nat -> string + A) e s a s' : ccall f e s = (Ok a, s') <-> f s = inr a /\ s' = S s.
Proof. unfold ccall. destruct (f s); split; intros H; destruct_and?; simplify_eq; done. Qed.
Lemma cret_Ok {A} (x : A) s a s' : (mret x : cur A) s = (Ok a, s') <-> a = x /\ s' = s.
Proof. unfold mret, cur_ret. split; [by intros [= -> ->]|by intros [-> ->]]. Qed.

Section fit.
Context (fetch : Z -> cur Jupiter.Quote) (plan : Jupiter.Quote -> cres Plan.t).

(** Quotes are tried in the order of their budgets: the plan is that of the first whose
    budget made it fit, and each quote before it did not. *)
Lemma fit_loop_Ok budgets : forall s p s',
  fit_loop fetch plan budgets s = (Ok p, s') ->
  exists budget quote n n', budget ∈ budgets /\ fetch budget n = (Ok quote, n') /\ plan quote = Ok p.
Proof.
  induction budgets as [|budget budgets IH]; intros s p s' H; cbn [fit_loop] in H; [discriminate H|].
  apply cur_bind_Ok in H as (quote & s1 & Hf & H). destruct (plan quote) as [p'|e|] eqn:Hp.
  - apply cret_Ok in H as [-> _]. exists budget, quote, s, s1. split; [set_solver|done].
  - destruct e as [| | | |? ?|? ?|? ?|? ?|?|?|?|?|?|?|?|?| | |reason]; try discriminate H.
    destruct (bool_decide (reason = "curator transaction does not fit"%string) && negb (budget =? 12)); [|discriminate H].
    apply IH in H as (b & q & n & n' & Hb & H). exists b, q, n, n'. split; [set_solver|done].
  - discriminate H.
Qed.
End fit.

Section sound.
Context `{P : Pda} `{W : Powers} `{K : MessageCompiler} `{N : Cluster} `{IO : CuratorIO}.
Context (self : Curator).

(** The snapshot of the accounts an answer lists. *)
Definition snapshot_from (keys : list key) (values : list (option Account)) : snapshot :=
  list_to_map (omap (fun '(k, account) => (fun a => (k, a)) <$> account) (rev (zip keys values))).

Lemma fetch_snapshot_Ok keys n s n' :
  fetch_snapshot keys n = (Ok s, n') ->
  exists values, get_multiple_accounts_with_commitment n keys = inr values /\ s = snapshot_from keys values.
Proof.
  intros H. unfold fetch_snapshot in H. apply cur_bind_Ok in H as (values & n1 & H1 & H). apply ccall_Ok in H1 as [H1 _].
  apply cret_Ok in H as [-> _]. by exists values.
Qed.

(** Every table of the quote was read on chain. *)
Definition tables_on_chain (q : Jupiter.Quote) : Prop :=
  Jupiter.jq_tables q = [] \/
  exists n keys values, get_multiple_accounts_with_commitment n keys = inr values /\
    Forall (fun t => table_of (snapshot_from keys values) (table_key t) = Ok t) (Jupiter.jq_tables q).

(** The quote is Jupiter's answer to the request, with the tables of the chain. *)
Definition quoted (request : Jupiter.Request) (q : Jupiter.Quote) : Prop :=
  tables_on_chain q /\
  exists n budget response q0, jupiter_build n request budget = inr response /\ budget ∈ [48; 36; 24; 12] /\
    Jupiter.into_quote parse_key base64_decode response request = Ok q0 /\
    Jupiter.jq_request q = Jupiter.jq_request q0 /\ Jupiter.jq_output q = Jupiter.jq_output q0 /\
    Jupiter.jq_minimum q = Jupiter.jq_minimum q0 /\ Jupiter.jq_hop q = Jupiter.jq_hop q0 /\
    map table_key (Jupiter.jq_tables q) = map table_key (Jupiter.jq_tables q0) /\
    map addresses (Jupiter.jq_tables q) = map addresses (Jupiter.jq_tables q0).

Lemma table_of_key s k t : table_of s k = Ok t -> table_key t = k.
Proof. intros H. unfold table_of in H. cbv zeta in H. inv_ok H. by apply Ok_inj in H as <-. Qed.

Lemma verify_quote_tables_Ok q s q' :
  verify_quote_tables q s = Ok q' ->
  Jupiter.jq_request q' = Jupiter.jq_request q /\ Jupiter.jq_output q' = Jupiter.jq_output q /\
  Jupiter.jq_minimum q' = Jupiter.jq_minimum q /\ Jupiter.jq_hop q' = Jupiter.jq_hop q /\
  map table_key (Jupiter.jq_tables q') = map table_key (Jupiter.jq_tables q) /\
  map addresses (Jupiter.jq_tables q') = map addresses (Jupiter.jq_tables q) /\
  Forall (fun t => table_of s (table_key t) = Ok t) (Jupiter.jq_tables q').
Proof.
  intros H. unfold verify_quote_tables in H. apply bind_Ok in H as (tables & Ht & H). apply Ok_inj in H as <-. cbn.
  do 4 (split; [done|]). apply try_map_Ok in Ht. induction Ht as [|t t' l l' H _ IH]; [done|].
  apply bind_Ok in H as (c & Hc & H). apply bind_Ok in H as (? & Ha & H). apply Ok_inj in H as <-.
  apply reject_if_Ok, negb_false_iff, bool_decide_eq_true in Ha. destruct IH as (IH1 & IH2 & IH3). cbn.
  pose proof (table_of_key _ _ _ Hc) as Hk. rewrite Hk, IH1, IH2, Ha. split; [done|]. split; [done|]. constructor; [by rewrite Hk|done].
Qed.

Lemma checked_quote_Ok request budget n q n' :
  budget ∈ [48; 36; 24; 12] -> checked_quote request budget n = (Ok q, n') -> quoted request q.
Proof.
  intros Hb H. unfold checked_quote in H. apply cur_bind_Ok in H as (q0 & n1 & Hq & H).
  unfold jupiter_quote in Hq. apply cur_bind_Ok in Hq as (response & n2 & Hr & Hq). apply ccall_Ok in Hr as [Hr _].
  apply cvault_Ok in Hq as [Hq _]. destruct (Jupiter.jq_tables q0) as [|t l] eqn:Et.
  - apply cret_Ok in H as [-> _]. split; [by left|]. by exists n, budget, response, q0.
  - apply cur_bind_Ok in H as (s & n3 & Hs & H). apply clift_Ok in H as [H _].
    apply fetch_snapshot_Ok in Hs as (values & Hv & ->). apply verify_quote_tables_Ok in H as (H1 & H2 & H3 & H4 & H5 & H6 & H7).
    split; [right; by eexists _, _, values|]. by exists n, budget, response, q0.
Qed.

(** What the router of a snapshot is made of. *)
Lemma router_of_Ok s router :
  router_of self s = Ok router ->
  ro_manager router = cf_manager (cu_config self) /\ ro_valid_until router = ro_now router + cu_lifetime_secs self /\
  exists clock data, s !! CLOCK = Some data /\ clock_of (account_data data) = Ok clock /\ ro_now router = ck_now clock /\
    evaluate (ro_main router) s (cf_shard (cu_config self)) clock = Ok (ro_price_main router) /\
    evaluate (ro_second router) s (cf_shard (cu_config self)) clock = Ok (ro_price_second router) /\
    evaluate (ro_staging router) s (cf_shard (cu_config self)) clock = Ok (ro_price_staging router) /\
    exists account, s !! ad_vault (vm_addresses (cf_manager (cu_config self))) = Some account /\
      VaultAccountOps.from_account account (a_program_id (vm_args (cf_manager (cu_config self)))) = Ok (ro_account router).
Proof.
  intros H. unfold router_of, account_of in H. cbv zeta in H.
  apply bind_Ok in H as (account & Ha & H). apply bind_Ok in H as (state & Hs & H).
  do 6 (apply bind_Ok in H as (? & _ & H)). apply bind_Ok in H as (data & Hd & H). apply bind_Ok in H as (clock & Hc & H).
  do 3 (apply bind_Ok in H as (? & _ & H)). apply bind_Ok in H as (p1 & H1 & H). apply bind_Ok in H as (p2 & H2 & H).
  apply bind_Ok in H as (p3 & H3 & H). do 6 (apply bind_Ok in H as (? & _ & H)).
  apply bind_Ok in H as (valid_until & Hv & H). apply Ok_inj in H as <-. cbn.
  apply ok_or_Ok in Ha, Hd, Hv. apply map_err_Ok in Hs, H1, H2, H3. unfold checked_add in Hv.
  destruct (ck_now clock + cu_lifetime_secs self <? 2 ^ 64); [|done]. injection Hv as <-.
  split; [done|]. split; [done|]. exists clock, data. do 6 (split; [done|]). by exists account.
Qed.

Lemma discounted_Ok value slippage m :
  0 <= slippage <= 10000 -> fits 64 value -> discounted slippage value = Ok m -> m = value * (10000 - slippage) / 10000.
Proof.
  intros Hs [Hv0 Hv] H. unfold discounted, sub_p, mul_p in H. destruct (Z.leb_spec slippage 10000); [|done]. cbn in H.
  destruct (value * (10000 - slippage) <? 2 ^ 128); [|done]. cbn in H. apply Ok_inj in H as <-.
  apply Z.mod_small. split; [apply Z.div_pos; nia|]. apply Z.div_lt_upper_bound; nia.
Qed.

Lemma convert_fits price amount to v : convert price amount to = Ok v -> fits 64 v.
Proof.
  intros H. unfold convert in H. cbv zeta in H. apply bind_Ok in H as (? & _ & H). apply Ok_inj in H as <-.
  unfold fits, floor_u64, umax. destruct (f64_mul _ _) as [b|[]| |[] m e]; try lia.
  split; [|lia]. apply Z.min_glb; [lia|]. apply Z.shiftl_nonneg. lia.
Qed.

(** A plan is the router's: without a quote to finish a purchase, with a checked one
    otherwise. *)
Lemma curator_plan_cases intent n plan n' :
  curator_plan self intent n = (Ok plan, n') ->
  exists values router buy amount,
    get_multiple_accounts_with_commitment n (cf_keys (cu_config self)) = inr values /\
    router_of self (snapshot_from (cf_keys (cu_config self)) values) = Ok router /\ ro_validate router intent = Ok buy /\
    ((exists slot, open (va_staging (ro_account router)) = Some slot /\ buy = true /\
        (value ← convert (ro_price_staging router) (slot_amount slot) (ro_price_second router);
         minimum ← discounted (cu_slippage_bps self) value; ro_plan router intent None minimum 0) = Ok plan) \/
     ((open (va_staging (ro_account router)) = None \/ buy = false) /\ exists budget q k k', budget ∈ [48; 36; 24; 12] /\
        checked_quote (request_of self router buy amount) budget k = (Ok q, k') /\ plan_with self router intent buy q = Ok plan)).
Proof.
  intros H. unfold curator_plan in H. apply cur_bind_Ok in H as (s & n1 & Hs & H).
  apply fetch_snapshot_Ok in Hs as (values & Hv & ->). apply cur_bind_Ok in H as (router & n2 & Hro & H).
  apply clift_Ok in Hro as [Hro _]. apply cur_bind_Ok in H as (buy & n3 & Hbuy & H). apply cvault_Ok in Hbuy as [Hbuy _].
  apply cur_bind_Ok in H as (amount & n4 & _ & H). exists values, router, buy, amount. do 3 (split; [done|]). cbv zeta in H.
  destruct (open (va_staging (ro_account router))) as [slot|], buy.
  - apply cvault_Ok in H as [H _]. left. by exists slot.
  - apply fit_loop_Ok in H as (b & q & k & k' & Hb & Hq & Hp). right. split; [by right|]. by exists b, q, k, k'.
  - apply fit_loop_Ok in H as (b & q & k & k' & Hb & Hq & Hp). right. split; [by left|]. by exists b, q, k, k'.
  - apply fit_loop_Ok in H as (b & q & k & k' & Hb & Hq & Hp). right. split; [by left|]. by exists b, q, k, k'.
Qed.

(** The curator is such a driver. *)
#[global] Instance curator_stages : StagingDriver (V := curator_driver self) nat.
Proof.
  intros intent d stage unstage d' H. apply curator_plan_cases in H as (values & router & buy & amount & _ & _ & _ & H).
  destruct H as [(slot & _ & _ & H)|(_ & b & q & k & k' & _ & _ & H)].
  - apply bind_Ok in H as (value & _ & H). apply bind_Ok in H as (minimum & _ & H). by eapply ro_plan_stages.
  - unfold plan_with in H. apply bind_Ok in H as (minimum & _ & H). by eapply ro_plan_stages.
Qed.
End sound.

(** C27: A curator's plan is the router's plan for one snapshot: all its accounts come from a
    single read of the configured keys, the three prices from feeds fresh at that
    snapshot's clock, and the deadline is the configured lifetime after it.  What a
    purchase must give is what the oracle values it at less the slippage, which never
    exceeds one per cent.  A quote that is used answers the curator's own request, and its
    lookup tables were read from the chain. *)
Theorem curator_plan_sound `{P : Pda} `{W : Powers} `{K : MessageCompiler} `{N : Cluster} `{IO : CuratorIO}
  signer config slippage lifetime self intent n plan n' :
  0 <= slippage -> new_curator signer config slippage lifetime = Ok self ->
  curator_plan self intent n = (Ok plan, n') ->
  slippage <= 100 /\ signer = a_actor (vm_args (cf_manager config)) /\
  exists values router clock quote minimum staged,
    let s := snapshot_from (cf_keys config) values in
    get_multiple_accounts_with_commitment n (cf_keys config) = inr values /\ router_of self s = Ok router /\
    ro_now router = ck_now clock /\ ro_valid_until router = ck_now clock + lifetime /\ lifetime <> 0 /\
    (forall route p, route ∈ [ro_main router; ro_second router; ro_staging router] -> Pyth p ∈ pr_bricks route ->
       exists t, fresh s (cf_shard config) clock p t) /\
    ro_plan router intent quote minimum staged = Ok plan /\
    (forall q, quote = Some q -> exists buy amount, quoted (request_of self router buy amount) q) /\
    (forall buy, ro_validate router intent = Ok buy -> buy = true ->
       exists value, minimum = value * (10000 - slippage) / 10000 /\
         match open (va_staging (ro_account router)) with
         | Some slot => convert (ro_price_staging router) (slot_amount slot) (ro_price_second router) = Ok value
         | None => convert (ro_price_main router) (RouterIntent.amount intent) (ro_price_second router) = Ok value
         end).
Proof.
  intros Hsl Hnew H. unfold new_curator in Hnew. apply bind_Ok in Hnew as (? & Hr & Hnew). apply Ok_inj in Hnew as <-.
  apply reject_if_Ok, orb_false_iff in Hr as [Hr Hlife]. apply orb_false_iff in Hr as [Hsig Hslip].
  apply negb_false_iff, bool_decide_eq_true in Hsig. split; [lia|]. split; [done|].
  apply curator_plan_cases in H as (values & router & buy & amount & Hv & Hro & Hbuy & Hcase). cbn in Hv, Hro, Hcase.
  pose proof (router_of_Ok _ _ _ Hro) as (_ & Hval & clock & data & _ & _ & Hnow & H1 & H2 & H3 & _). cbn in Hval, H1, H2, H3.
  assert (Hfresh : forall route p, route ∈ [ro_main router; ro_second router; ro_staging router] -> Pyth p ∈ pr_bricks route ->
    exists t, fresh (snapshot_from (cf_keys config) values) (cf_shard config) clock p t).
  { intros route p Hin Hp. rewrite !elem_of_cons, elem_of_nil in Hin. destruct Hin as [->|[->|[->|[]]]];
      [exact (evaluate_fresh _ _ _ _ _ _ H1 Hp)|exact (evaluate_fresh _ _ _ _ _ _ H2 Hp)|exact (evaluate_fresh _ _ _ _ _ _ H3 Hp)]. }
  destruct Hcase as [(slot & Hslot & -> & Hp)|(Hno & budget & q & k & k' & Hb & Hq & Hp)].
  - apply bind_Ok in Hp as (value & Hval' & Hp). apply bind_Ok in Hp as (m & Hm & Hp).
    apply discounted_Ok in Hm; [|lia|by eapply convert_fits]. exists values, router, clock, None, m, 0. cbv zeta.
    do 3 (split; [done|]). split; [lia|]. split; [lia|]. do 2 (split; [done|]). split; [done|].
    intros buy' Hb' _. exists value. by rewrite Hslot.
  - unfold plan_with in Hp. cbn [cu_slippage_bps] in Hp. apply bind_Ok in Hp as (m & Hm & Hp). eexists values, router, clock, (Some q), m, _. cbv zeta.
    do 3 (split; [done|]). split; [lia|]. split; [lia|]. split; [done|]. split; [exact Hp|]. split.
    { intros q' [= <-]. exists buy, amount. by eapply checked_quote_Ok. }
    intros buy' Hb' ->. rewrite Hbuy in Hb'. apply Ok_inj in Hb' as ->. destruct Hno as [Hno|]; [|done]. rewrite Hno.
    apply bind_Ok in Hm as (value & Hc & Hm). apply discounted_Ok in Hm; [|lia|by eapply convert_fits]. by exists value.
Qed.

Module PlanSample.
#[local] Existing Instance SwapSample.pda.
#[local] Existing Instance OracleSample.powers.
(** A message of ten bytes for each account named. *)
#[global] Instance compiler : MessageCompiler :=
  {| try_compile payer ixs tables blockhash :=
       Some {| v0_account_keys := [payer]; v0_lookups := [([1; 2], [3])]; v0_num_required_signatures := 1;
               v0_serialized := replicate (10 * sum_list (map (fun ix => length (accounts ix)) ixs)) 0 |} |}.
Definition program : key := key_of 7.
Definition at_size (n : nat) (l : bytes) : bytes := l ++ replicate (n - length l) 0.
Definition owned (owner_ : key) (data : bytes) : Account := {| owner := owner_; account_data := data; lamports := 1 |}.
Definition market_bytes : bytes :=
  at_size 1588 ([242; 240; 26; 15; 148; 186; 185; 205] ++ key_of 0 ++ key_of 61 ++ key_of 12 ++ key_of 22 ++ key_of 0 ++ key_of 62
    ++ key_of 63 ++ key_of 64 ++ key_of 0 ++ key_of 65 ++ key_of 66 ++ key_of 60 ++ key_of 67 ++ [0; 0] ++ GENERIC_SY)
  ++ replicate 12 0 ++ (to_le_bytes 4 1 ++ [0; 0; 1]) ++ replicate 16 0.
Definition sy_bytes : bytes :=
  at_size 97 ([254; 147; 136; 16; 163; 203; 98; 93] ++ key_of 22) ++ to_le_bytes 8 1100000000000 ++ replicate 24 0 ++ key_of 23
  ++ [1; 0] ++ replicate 33 0 ++ replicate 8 0 ++ to_le_bytes 4 1 ++ key_of 71 ++ to_le_bytes 4 0.
Definition core_bytes : bytes :=
  at_size 524 ([211; 8; 232; 43; 2; 152; 117; 119] ++ GENERIC_SY ++ key_of 22 ++ key_of 80 ++ key_of 12 ++ key_of 0 ++ key_of 81
    ++ key_of 82 ++ key_of 83 ++ to_le_bytes 4 1700000000 ++ to_le_bytes 4 70000000 ++ key_of 0 ++ key_of 84)
  ++ replicate 16 0.
Definition pool_bytes : bytes :=
  at_size 98 [1] ++ key_of 72 ++ key_of 73 ++ key_of 23 ++ key_of 74 ++ TOKEN_PROGRAM_ID ++ replicate 16 0 ++ to_le_bytes 8 899.
Definition table_bytes : bytes := to_le_bytes 4 1 ++ to_le_bytes 8 (2 ^ 64 - 1) ++ replicate 44 0 ++ key_of 90.
Definition clock_bytes : bytes := replicate 16 0 ++ to_le_bytes 8 900 ++ replicate 8 0 ++ to_le_bytes 8 1760000000.
Definition route_bytes (mint : key) : bytes :=
  let route := {| pr_mint := mint; pr_max_skew_secs := 30;
    pr_bricks := [Pyth {| py_feed_id := key_of 16; py_max_age_secs := 60; py_min_band_ppm := 500 |}]; pr_updated_slot := 7 |} in
  concat (route_segments route [255] [0; 0] [0; 0; 0; 0] (replicate (640 - blob_len route) 0)).
Definition a : VaultAddresses := vm_addresses RouterSample.manager.
Definition venues : SwapVenues.t := [(Jupiter.PROGRAM, [[187; 100]]); (GENERIC_SY, [[1]; [2]]); (CLMM, [[3]])].
Definition mint : Account := owned TOKEN_PROGRAM_ID (replicate 44 0 ++ [6] ++ replicate 37 0).
Definition chain : list (key * Account) :=
  [(ad_vault a, owned program (concat (vault_segments RouterSample.account 0 0 AccountSample.reserved)));
   (key_of 60, owned CLMM market_bytes); (key_of 70, owned GENERIC_SY sy_bytes); (key_of 62, owned CORE core_bytes);
   (CLOCK, owned (key_of 0) clock_bytes); (key_of 71, owned (nth 0 STAKE_POOL_PROGRAM_IDS []) pool_bytes);
   (key_of 61, owned ADDRESS_LOOKUP_TABLE_PROGRAM_ID table_bytes); (key_of 83, owned ADDRESS_LOOKUP_TABLE_PROGRAM_ID table_bytes);
   (ad_swap_venues a, owned program (venues_bytes 255 venues));
   (ad_main_price_route a, owned program (route_bytes (key_of 11)));
   (ad_second_price_route a, owned program (route_bytes (key_of 12)));
   (pda.price_route program (key_of 23), owned program (route_bytes (key_of 23)));
   (pyth_price_feed_account (key_of 16) 0, OracleSample.feed);
   (key_of 11, mint); (key_of 12, mint); (key_of 23, mint)].
#[global] Instance cluster : Cluster := RpcSample.cluster chain 0 0 0.
Definition config : Config :=
  {| cf_manager := RouterSample.manager; cf_market := key_of 60; cf_sy := key_of 70; cf_core := key_of 62; cf_shard := 0;
     cf_keys := map fst chain;
     cf_ata_setup := [create_ata_idempotent (key_of 3) (ad_vault a) (key_of 22) TOKEN_PROGRAM_ID] |}.
Definition curator : Curator := {| cu_signer := key_of 3; cu_config := config; cu_slippage_bps := 50; cu_lifetime_secs := 60 |}.
Definition wire (name : string) : Jupiter.WireAccount :=
  {| Jupiter.wa_pubkey := name; Jupiter.wa_is_signer := false; Jupiter.wa_is_writable := true |}.
#[global] Instance io : CuratorIO :=
  {| jupiter_build _ request _ := inr {| Jupiter.br_in_amount := "1000"; Jupiter.br_out_amount := "999";
       Jupiter.br_other_amount_threshold := "998"; Jupiter.br_slippage_bps := 50; Jupiter.br_swap_mode := None;
       Jupiter.br_swap_instruction := {| Jupiter.wi_program_id := "jupiter";
         Jupiter.wi_accounts := [wire "vault"; wire "main"; wire "base"]; Jupiter.wi_data := "" |};
       Jupiter.br_cleanup_instruction := None; Jupiter.br_tip_instruction := None; Jupiter.br_other_instructions := [];
       Jupiter.br_addresses_by_lookup_table_address := None |};
     send_and_confirm n _ := inr (replicate 64 (Z.of_nat n));
     simulate_transaction _ _ := inr None;
     sign_message _ := None;
     parse_key s :=
       if bool_decide (s = "jupiter"%string) then Some Jupiter.PROGRAM
       else if bool_decide (s = "vault"%string) then Some (ad_vault a)
       else if bool_decide (s = "main"%string) then Some (ad_vault_main_ata a)
       else Some (derive_associated_token_address (ad_vault a) (key_of 23) TOKEN_PROGRAM_ID);
     base64_decode := VenueSample.base64_decode |}.
End PlanSample.

Lemma curator_plan_sound_witness :
  exists plan n values router, let s := snapshot_from (cf_keys PlanSample.config) values in
    curator_plan (P := SwapSample.pda) (K := PlanSample.compiler) PlanSample.curator (RouterIntent.Buy 1000) 0%nat = (Ok plan, n) /\
    router_of (P := SwapSample.pda) PlanSample.curator s = Ok router /\ ro_valid_until router = ro_now router + 60.
Proof.
  assert (Hb : is_ok (fst (curator_plan (P := SwapSample.pda) (K := PlanSample.compiler) PlanSample.curator (RouterIntent.Buy 1000) 0%nat))
    = true) by (vm_compute; reflexivity).
  destruct (curator_plan (P := SwapSample.pda) (K := PlanSample.compiler) PlanSample.curator (RouterIntent.Buy 1000) 0%nat)
    as [[plan|e|] n] eqn:H; [|discriminate Hb..].
  destruct (curator_plan_sound (P := SwapSample.pda) (K := PlanSample.compiler) (key_of 3) PlanSample.config 50 60 PlanSample.curator
    (RouterIntent.Buy 1000) 0%nat plan n ltac:(lia) ltac:(vm_compute; reflexivity) H)
    as (_ & _ & values & router & clock & quote & minimum & staged & _ & Hro & Hnow & Hv & _).
  exists plan, n, values, router. split; [reflexivity|]. split; [exact Hro|].
  rewrite Hnow. exact Hv.
Defined.
