(* ===== verification/Backend.v ===== *)
(** * A curator's purchase through the venue ([chain/vault/curator.rs], [chain/vault/router.rs])

    [backend_swap] asks the venue for a swap that buys what the intent says, checks what it
    served, signs it and submits it in one connection epoch: the composition of the curator's
    reads, the operator's requests and the check of served swaps. *)

From Stdlib Require Import ZArith Lia Ascii String.
From stdpp Require Import base list gmap strings pretty.
From S2P Require Import Prelude Terms Signing Quote Challenge Texts Rows Messages Tracker Chain Account Price Vault Wire Swap Served Intent SwapIntent Rpc Session Running Handle Operator Clients Router Curator.

Open Scope Z_scope.

(** [Box<dyn Error>], by where it comes from. *)
Module BackendError.
Inductive t :=
| Chain (e : VaultChainError.t)
| Request (e : VaultRequestError.t)
| Intent (e : VaultIntentError.t)
| Curator (e : CuratorError.t)
| Tx (e : VaultTxError.t).
End BackendError.

(** [u64::to_string]. *)
Definition u64_to_string (n : Z) : string := pretty (Z.to_N n).

(** [new_v4] is the fresh request id. *)
(* chain/vault/router.rs:36-54 Intent::backend_request *)
Definition backend_request (self : RouterIntent.t) (new_v4 : Uuid) (vault : key) (slippage_bps : Z) : cres SwapQuoteData :=
  _ ← reject_if (negb (RouterIntent.buying self))
        (VaultChainError.InvalidInput "backend does not yet serve Exponent PT sell/redemption");
  Ok {| rq_request_id := new_v4; rq_vault_pda := vault; rq_mode := VaultSwapMode.Rebalance;
        rq_direction := VaultSwapDirection.MainToSecond; rq_amount := u64_to_string (RouterIntent.amount self);
        rq_slippage_bps := slippage_bps |}.

(** What the call meets: the ids it draws, the replies it gets, the handle as it is when it
    submits, whether the gate admits it, the clock when it signs. *)
Record Backend := {
  bk_quote_id : Uuid; bk_submit_id : Uuid;
  bk_timed : Handle -> option Handle;
  bk_quote_reply : Awaited (res SendAwaitError.t ServerMessage.t);
  bk_handle : Handle -> Handle;
  bk_admitted : bool;
  bk_submit_reply : Awaited (res SendAwaitError.t ServerMessage.t);
  bk_clock : Z;
}.

Section backend.
Context `{C : Crypto} `{P : Pda} {T : Type} `{SL : SignerLike T} `{N : Cluster}.
Context (serialize : ClientMessage.t -> string + string).
Context (base64_decode : string -> option bytes) (base64_encode : bytes -> string).
Context (operator : T).

(** [n] counts the calls of the cluster. *)
(* chain/vault/curator.rs:608-645 backend_swap *)
Definition backend_swap (b : Backend) (h : Handle) (n : nat) (intent : RouterIntent.t) (manager : VaultManager)
  (state : VaultAccount) (routes : PairPriceRoutes) (minimum slippage_bps : Z) (bounds : ComputeBudgetBounds) (epoch : Z)
  : res BackendError.t SwapSubmitResultData.t * Handle :=
  match map_err BackendError.Chain
          (backend_request intent (bk_quote_id b) (ad_vault (vm_addresses manager)) slippage_bps) with
  | Err e => (Err e, h)
  | Panic => (Panic, h)
  | Ok request =>
      let '(quoted, h) := VaultOperatorClient.swap_quote serialize (bk_timed b) (bk_quote_reply b) h request in
      let signed :=
        quote ← map_err BackendError.Request quoted;
        keys ← map_err BackendError.Intent (served_lookup_table_keys base64_decode (qt_tx_base64 quote));
        snapshot ← map_err BackendError.Curator (fetch_snapshot keys n).1;
        tables ← map_err BackendError.Curator (try_map (table_of snapshot) keys);
        map_err BackendError.Tx
          (verify_and_sign_swap base64_decode base64_encode operator (bk_clock b) (bk_submit_id b)
             {| si_vault := manager; si_request := request; si_quote := quote; si_price_routes := routes;
                si_min_output_floor := minimum; si_account := state |} tables bounds) in
      match signed with
      | Err e => (Err e, h)
      | Panic => (Panic, h)
      | Ok submit =>
          let '(r, h) := VaultOperatorClient.swap_submit_in_epoch serialize (bk_submit_reply b) (bk_admitted b) (bk_handle b h)
                           submit epoch in
          (map_err BackendError.Request r, h)
      end
  end.
End backend.

(** ** The text of an amount *)

Lemma pretty_digit d : (d < 10)%N -> Z.of_nat (nat_of_ascii (pretty_N_char d)) = 48 + Z.of_N d.
Proof.
  intros H. assert (Hd : (d = 0 \/ d = 1 \/ d = 2 \/ d = 3 \/ d = 4 \/ d = 5 \/ d = 6 \/ d = 7 \/ d = 8 \/ d = 9)%N) by lia.
  by repeat destruct Hd as [->|Hd]; subst.
Qed.

Lemma parse_digits_pretty x s :
  (x < 2 ^ 64)%N -> parse_digits (as_bytes (pretty_N_go x s)) 0 = parse_digits (as_bytes s) (Z.of_N x).
Proof.
  revert s. induction (N.lt_wf_0 x) as [x _ IH]. intros s Hx. destruct (decide (x = 0)%N) as [->|Hn]; [done|].
  assert (Hd : (x / 10 < x)%N) by (apply N.div_lt; lia).
  assert (Hm : (x mod 10 < 10)%N) by (apply N.mod_lt; lia).
  assert (Hx10 : Z.of_N (x / 10) * 10 + Z.of_N (x mod 10) = Z.of_N x).
  { pose proof (N.div_mod x 10 ltac:(lia)). lia. }
  assert (Hx' : Z.of_N x < 2 ^ 64) by lia.
  rewrite pretty_N_go_step by lia. rewrite IH by lia.
  change (as_bytes (String (pretty_N_char (x mod 10)) s)) with
    (Z.of_nat (nat_of_ascii (pretty_N_char (x mod 10))) :: as_bytes s).
  rewrite pretty_digit by done. set (d := (x mod 10)%N) in *. set (q := (x / 10)%N) in *. clearbody d q. cbn [parse_digits].
  assert (Hdig : is_ascii_digit (48 + Z.of_N d) = true).
  { unfold is_ascii_digit. rewrite andb_true_iff, !Z.leb_le. lia. }
  rewrite Hdig. unfold checked_mul. rewrite (proj2 (Z.ltb_lt (Z.of_N q * 10) _)) by lia. cbn [mbind option_bind].
  replace (48 + Z.of_N d - 48) with (Z.of_N d) by lia. unfold checked_add. rewrite Hx10.
  by rewrite (proj2 (Z.ltb_lt _ _) Hx').
Qed.

Lemma parse_digits_digits bs v r : parse_digits bs v = Some r -> Forall (fun b => 48 <= b <= 57) bs.
Proof.
  revert v. induction bs as [|b bs IH]; intros v; [by constructor|]. cbn [parse_digits].
  destruct (is_ascii_digit b) eqn:Hb; [|done]. intros H. constructor.
  - unfold is_ascii_digit in Hb. by rewrite andb_true_iff, !Z.leb_le in Hb.
  - destruct (checked_mul 64 v 10); [|done]. simpl in H. destruct (checked_add 64 _ _); [|done]. by apply (IH _ H).
Qed.

(** A number reads back from its text. *)
Lemma parse_amount_to_string n field : fits 64 n -> parse_amount (u64_to_string n) field = Ok n.
Proof.
  intros Hn. unfold fits in Hn. unfold parse_amount, u64_to_string.
  assert (H : parse_digits (as_bytes (pretty (Z.to_N n))) 0 = Some n /\ as_bytes (pretty (Z.to_N n)) <> []).
  { destruct (decide (n = 0)) as [->|Hz]; [done|]. unfold pretty, pretty_N. rewrite decide_False by lia.
    pose proof (parse_digits_pretty (Z.to_N n) "" ltac:(lia)) as Hp. simpl in Hp. rewrite Z2N.id in Hp by lia.
    split; [done|]. intros He. rewrite He in Hp. simpl in Hp. congruence. }
  destruct H as [H He]. pose proof (parse_digits_digits _ _ _ H) as Hd.
  rewrite trim_id by (eapply Forall_impl; [exact Hd|]; simpl; lia).
  assert (Hp : parse_u64 (as_bytes (pretty (Z.to_N n))) = Some n); [|by rewrite Hp].
  revert H Hd He. generalize (as_bytes (pretty (Z.to_N n))). intros [|b bs] H Hd He; [done|].
  inversion Hd; subst. unfold parse_u64. rewrite <- H. destruct b as [|p|p]; try done.
  do 6 (destruct p as [p|p|]; try done); lia.
Qed.

(** A purchase that is submitted is the one that was asked for: the intent buys, the venue
    was asked to swap exactly its amount from the main asset into the second, the transaction
    it served passed the check of swaps against that request with the tables read from the
    chain, its deadline was ahead, and what is handed to the session, once and only in the
    given epoch, is that transaction signed by the operator.  Anything else leaves the
    session's queue as it was after the question. *)
Theorem backend_swap_submits_what_was_asked `{C : Crypto} `{P : Pda} {T : Type} `{SL : SignerLike T} `{N : Cluster}
  serialize base64_decode base64_encode (operator : T) b h n intent manager state routes minimum slippage_bps bounds epoch r h' :
  fits 64 (RouterIntent.amount intent) ->
  backend_swap serialize base64_decode base64_encode operator b h n intent manager state routes minimum slippage_bps bounds
    epoch = (Ok r, h') ->
  exists request quote keys snapshot tables tx signed,
    RouterIntent.buying intent = true /\
    rq_vault_pda request = ad_vault (vm_addresses manager) /\
    rq_mode request = VaultSwapMode.Rebalance /\ rq_direction request = VaultSwapDirection.MainToSecond /\
    parse_amount (rq_amount request) "amount" = Ok (RouterIntent.amount intent) /\
    rq_slippage_bps request = slippage_bps /\
    (VaultOperatorClient.swap_quote serialize (bk_timed b) (bk_quote_reply b) h request).1 = Ok quote /\
    served_lookup_table_keys base64_decode (qt_tx_base64 quote) = Ok keys /\ (fetch_snapshot keys n).1 = Ok snapshot /\
    try_map (table_of snapshot) keys = Ok tables /\
    verify_vault_swap base64_decode
      {| si_vault := manager; si_request := request; si_quote := quote; si_price_routes := routes;
         si_min_output_floor := minimum; si_account := state |} tables bounds = Ok tx /\
    Served.sign base64_encode tx operator = Ok signed /\ bk_admitted b = true /\
    VaultOperatorClient.swap_submit_in_epoch serialize (bk_submit_reply b) true
      (bk_handle b (VaultOperatorClient.swap_quote serialize (bk_timed b) (bk_quote_reply b) h request).2)
      {| sw_request_id := bk_submit_id b; sw_execution_id := qt_execution_id quote; sw_signed_tx_base64 := signed |}
      epoch = (Ok r, h').
Proof.
  intros Hf H. unfold backend_swap in H.
  destruct (backend_request intent (bk_quote_id b) (ad_vault (vm_addresses manager)) slippage_bps) as [request|e|] eqn:Hq;
    simpl in H; try done.
  unfold backend_request in Hq. apply bind_Ok in Hq as (u & Hb & Hq). apply reject_if_Ok, negb_false_iff in Hb.
  injection Hq as Hq. destruct (VaultOperatorClient.swap_quote _ _ _ h request) as [quoted h1] eqn:Hsq.
  match type of H with match ?s with _ => _ end = _ => destruct s as [submit|e|] eqn:Hs; try done end.
  apply bind_Ok in Hs as (quote & Hquote & Hs). apply map_err_Ok in Hquote as ->.
  apply bind_Ok in Hs as (keys & Hkeys & Hs). apply map_err_Ok in Hkeys.
  apply bind_Ok in Hs as (snapshot & Hsnap & Hs). apply map_err_Ok in Hsnap.
  apply bind_Ok in Hs as (tables & Htab & Hs). apply map_err_Ok in Htab. apply map_err_Ok in Hs.
  unfold verify_and_sign_swap in Hs. apply bind_Ok in Hs as (tx & Htx & Hs). apply map_err_Ok in Htx.
  apply bind_Ok in Hs as (u' & _ & Hs). apply bind_Ok in Hs as (signed & Hsig & Hs). apply map_err_Ok in Hsig.
  injection Hs as <-.
  destruct (VaultOperatorClient.swap_submit_in_epoch _ _ _ _ _ _) as [r' h2] eqn:Hsub. injection H as Hr ->.
  apply map_err_Ok in Hr as ->. destruct (bk_admitted b) eqn:Ha; [|done].
  exists request, quote, keys, snapshot, tables, tx, signed. rewrite Hsq. subst request. cbn. split_and!; try done.
  by apply parse_amount_to_string.
Qed.
