(* ===== verification/Capital.v ===== *)
(** * Cranking a vault ([examples/vault_capital.rs])

    The program an operator keeps running for a vault: every pass reads the vault, asks the
    crank which step is due, builds it with a manager of the vault as it was read, and sends
    it.  The pass composes the account parsers, the window tracker, the crank, the planner of
    withdrawals, the budgets of batches, the manager's instructions and the RPC client. *)

From Stdlib Require Import ZArith Lia String.
From stdpp Require Import base list strings.
From S2P Require Import Prelude Terms Signing Quote Challenge Chain Account Crank Positions Price Vault Rpc Batch Confirm Funding.

Open Scope Z_scope.

(* examples/vault_capital.rs:25-29 POLICY *)
Definition POLICY : WindowPolicy :=
  {| reopen := true; deposit_window := 120 * 1000000000; trading_window := 600 * 1000000000 |}.

(** The supply of a mint, by the [n]th call of the client; the amount is its decimal text. *)
Class TokenSupply := { get_token_supply : nat -> key -> string + string }.

(** [Box<dyn Error>]: an error of the chain client, an error of the vault's accounts, or a
    text. *)
Definition of_vault {A} (m : cres A) : xres A := map_err ChainError.Vault m.
Definition of_text {A} (o : option A) (text : string) : xres A := ok_or o (ChainError.Rpc text).
(** The sizes of a batch are computed with arithmetic that can only panic. *)
Definition of_size {A} (m : res unit A) : xres A := match m with Ok a => Ok a | _ => Panic end.

Section crank.
Context `{C : Crypto} `{P : Pda} `{B : PdaBump} `{N : Cluster} `{S : TokenSupply}.
(** How the chain client confirms what it submits (Confirm.v). *)
Context (error_text : Json -> string) (socket : option (option string * list (option string) * list SocketEvent)).
Context (failed : bytes -> string -> string) (unresolved_text : bytes -> string).

(** The operator is its key. *)
(* examples/vault_capital.rs:31-37 Crank *)
Record Crank := { operator : key; crank_program : key; vault_pda : key }.

(* examples/vault_capital.rs:189-201 Crank::send *)
Definition send_ix (self : Crank) (ix : Instruction) (compute_unit_limit : option Z) : rpc unit :=
  _ ← send_instructions_with_options error_text socket failed unresolved_text [ix] (operator self) [] compute_unit_limit;
  mret tt.

(* examples/vault_capital.rs:150-155 Crank::price_section (route) *)
Definition read_route (self : Crank) (address : key) : rpc PriceRoute :=
  account ← call (fun n => get_account n address);
  lift (of_vault (PriceRouteOps.from_account account (crank_program self))).

(* examples/vault_capital.rs:148-159 Crank::price_section *)
Definition read_prices (self : Crank) (manager : VaultManager) : rpc (list AccountMeta) :=
  main ← read_route self (ad_main_price_route (vm_addresses manager));
  second ← read_route self (ad_second_price_route (vm_addresses manager));
  lift (of_vault (Manager.price_section manager main second 0)).

(* examples/vault_capital.rs:162-176 Crank::requests (config) *)
Definition request_filters (self : Crank) (kind : VaultRequestKind.t) : list RpcFilter :=
  [DataSize VaultRequestOps.LEN; Memcmp 0 [VaultRequestKind.discriminator kind];
   Memcmp VaultRequestOps.VAULT_OFFSET (vault_pda self)].

(* examples/vault_capital.rs:161-187 Crank::requests *)
Definition read_requests (self : Crank) (kind : VaultRequestKind.t) : rpc (list VaultRequest) :=
  accounts ← call (fun n => get_program_ui_accounts_with_config n (crank_program self) (request_filters self kind));
  lift (try_map (fun '(_, account) =>
          account ← of_text account "undecodable request account";
          of_vault (VaultRequestOps.parse (account_data account) kind)) accounts).

(* examples/vault_capital.rs:102-110 Crank::pass (deposit batch) *)
Definition send_deposits (self : Crank) (manager : VaultManager) (batch : list key) : rpc unit :=
  units ← lift (of_size (shape ← deposit_batch_shape manager batch (length batch) (length batch);
                         vault_capital_batch_compute_units shape));
  ix ← lift (of_vault (Manager.process_deposits manager (map DepositPayouts.from batch)));
  send_ix self ix (Some units).

(* examples/vault_capital.rs:126-134 Crank::pass (withdrawal batch) *)
Definition send_withdrawals (self : Crank) (manager : VaultManager) (batch : list key) : rpc unit :=
  units ← lift (of_size (shape ← withdrawal_batch_shape manager batch (length batch) (length batch);
                         vault_capital_batch_compute_units shape));
  ix ← lift (of_vault (Manager.process_withdrawals manager (map WithdrawalPayouts.from batch)));
  send_ix self ix (Some units).

(* examples/vault_capital.rs:112-142 Crank::pass (ProcessWithdrawals) *)
Definition withdraw_step (self : Crank) (vault : VaultAccount) (manager : VaultManager) : rpc unit :=
  requests ← read_requests self VaultRequestKind.Withdraw;
  let queued := map (fun request => (vr_user request, vr_amount request)) requests in
  text ← call (fun n => get_token_supply n (va_share_mint vault));
  supply ← lift (of_text (parse_u64 (as_bytes text)) "invalid integer");
  let plan := plan_withdrawals queued supply in
  _ ← rpc_map (send_withdrawals self manager) (chunks VAULT_CAPITAL_BATCH_USERS (partial plan));
  match final_user plan with
  | Some user =>
      if (va_pending_deposit_count vault =? 0) || bool_decide (va_safety vault = VaultSafety.WithdrawOnly)
      then send_ix self (Manager.process_final_withdrawal manager (WithdrawalPayouts.from user)) None
      else mret tt
  | None => mret tt
  end.

(* examples/vault_capital.rs:79-144 Crank::pass (match step) *)
Definition take_step (self : Crank) (vault : VaultAccount) (manager : VaultManager) (step : CapitalStep.t) : rpc unit :=
  match step with
  | CapitalStep.CloseDeposits =>
      _ ← (if (0 <? va_pending_deposit_count vault) || (0 <? va_pending_withdraw_count vault)
           then read_prices self manager else mret []);
      send_ix self (Manager.set_accepting_deposits manager false) None
  | CapitalStep.OpenDeposits => send_ix self (Manager.set_accepting_deposits manager true) None
  | CapitalStep.ComputeEquity =>
      prices ← read_prices self manager;
      send_ix self (Manager.process_equity manager prices) None
  | CapitalStep.ProcessDeposits =>
      requests ← read_requests self VaultRequestKind.Deposit;
      _ ← rpc_map (send_deposits self manager) (chunks VAULT_CAPITAL_BATCH_USERS (map vr_user requests));
      mret tt
  | CapitalStep.ProcessWithdrawals => withdraw_step self vault manager
  | CapitalStep.FinalizeCycle => send_ix self (Manager.finalize_cycle manager) None
  end.

(* examples/vault_capital.rs:75-78 Crank::pass (step) *)
Definition act (self : Crank) (vault : VaultAccount) (clock : WindowClock) : rpc (option CapitalStep.t) :=
  match next_step (view_of vault) clock POLICY with
  | None => mret None
  | Some step =>
      manager ← lift (of_vault (Manager.from_vault (crank_program self) (operator self) vault));
      _ ← take_step self vault manager step;
      mret (Some step)
  end.

(** The result, and the tracker afterwards; [now] is the instant after the vault was read. *)
(* examples/vault_capital.rs:72-146 Crank::pass *)
Definition pass (self : Crank) (window : WindowTracker) (now : Z) (s : RpcState)
  : xres (option CapitalStep.t) * WindowTracker * RpcState :=
  let read := account ← call (fun n => get_account n (vault_pda self));
              lift (of_vault (VaultAccountOps.parse (account_data account))) in
  match read s with
  | (Ok vault, s) =>
      let '(clock, window) := observe window (va_accepting_deposits vault) now in
      let '(r, s) := act self vault clock s in (r, window, s)
  | (Err e, s) => (Err e, window, s)
  | (Panic, s) => (Panic, window, s)
  end.

(** The passes at the given instants, until one panics: what each returned, and the state
    between them.  Errors are logged and the loop goes on. *)
(* examples/vault_capital.rs:60-68 main *)
Fixpoint crank_loop (self : Crank) (times : list Z) (window : WindowTracker) (s : RpcState)
  : list (xres (option CapitalStep.t)) * WindowTracker * RpcState :=
  match times with
  | [] => ([], window, s)
  | now :: times =>
      let '(r, window, s) := pass self window now s in
      match r with
      | Panic => ([Panic], window, s)
      | r => let '(rs, window, s) := crank_loop self times window s in (r :: rs, window, s)
      end
  end.
End crank.

(** ** What a pass sends *)

Section passes.
Context `{P : Pda} `{B : PdaBump} `{N : Cluster} `{S : TokenSupply}.
Context (error_text : Json -> string) (socket : option (option string * list (option string) * list SocketEvent)).
Context (failed : bytes -> string -> string) (unresolved_text : bytes -> string).
Context (self : Crank).
Abbreviation sending := (send_ix error_text socket failed unresolved_text self) (only parsing).

(** What one transaction of the crank does. *)
Inductive Sent :=
| Accept (accepting : bool)
| Equity (prices : list AccountMeta)
| Deposits (users : list key)
| Withdrawals (users : list key)
| Final (user : key)
| Finalize.

(** Its instructions: a batch carries the budget for the case that every destination is
    missing. *)
Definition instructions_of (manager : VaultManager) (x : Sent) (ixs : list Instruction) : Prop :=
  match x with
  | Accept accepting => ixs = [Manager.set_accepting_deposits manager accepting]
  | Equity prices => ixs = [Manager.process_equity manager prices]
  | Deposits users => exists shape units ix,
      batch_shape manager VaultRequestKind.Deposit users (length users) (length users) = Ok shape /\
      vault_capital_batch_compute_units shape = Ok units /\
      Manager.process_deposits manager (map DepositPayouts.new users) = Ok ix /\ ixs = [set_compute_unit_limit units; ix]
  | Withdrawals users => exists shape units ix,
      batch_shape manager VaultRequestKind.Withdraw users (length users) (length users) = Ok shape /\
      vault_capital_batch_compute_units shape = Ok units /\
      Manager.process_withdrawals manager (map WithdrawalPayouts.new users) = Ok ix /\ ixs = [set_compute_unit_limit units; ix]
  | Final user => ixs = [Manager.process_final_withdrawal manager (WithdrawalPayouts.new user)]
  | Finalize => ixs = [Manager.finalize_cycle manager]
  end.

(** The operator pays for the transaction and is its only signer. *)
Definition carries (manager : VaultManager) (x : Sent) (tx : Transaction) : Prop :=
  tx_payer tx = operator self /\ tx_signers tx = [operator self] /\ instructions_of manager x (tx_instructions tx).

(** The plan is carried out in order, until something fails; if nothing does, the whole of
    it is. *)
Definition attempts {A} (manager : VaultManager) (m : rpc A) (plan : list Sent) : Prop := forall s r s',
  m s = (r, s') ->
  exists txs, submitted s' = submitted s ++ txs /\ Forall2 (carries manager) (take (length txs) plan) txs /\
    (is_ok r = true -> length txs = length plan).

Lemma attempts_reads {A} manager (m : rpc A) : reads_only m -> attempts manager m [].
Proof.
  intros Hr s r s' H. exists []. specialize (Hr s). rewrite H in Hr. cbn in *. rewrite app_nil_r.
  split; [done|]. split; [constructor|done].
Qed.

Lemma attempts_bind {A B'} manager (m : rpc A) (k : A -> rpc B') p q :
  attempts manager m p -> (forall a, attempts manager (k a) q) -> attempts manager (m ≫= k) (p ++ q).
Proof.
  intros Hm Hk s r s' H. unfold mbind, rpc_bind in H. destruct (m s) as [r1 s1] eqn:E.
  destruct (Hm _ _ _ E) as (txs & Hs & Hf & Hok).
  assert (Hle : (length txs <= length p)%nat).
  { apply Forall2_length in Hf. rewrite length_take in Hf. lia. }
  destruct r1 as [a|e|].
  - destruct (Hk a _ _ _ H) as (txs' & Hs' & Hf' & Hok'). exists (txs ++ txs'). specialize (Hok eq_refl).
    rewrite Hs', Hs, app_assoc. split; [done|]. rewrite !length_app, Hok. split; [|intros Hr; by rewrite Hok'].
    rewrite take_app. rewrite Hok in Hf. rewrite firstn_all in Hf. rewrite take_ge by lia.
    apply Forall2_app; [done|]. by replace (length p + length txs' - length p)%nat with (length txs') by lia.
  - injection H as <- <-. exists txs. split; [done|]. split; [|done]. by rewrite take_app_le by lia.
  - injection H as <- <-. exists txs. split; [done|]. split; [|done]. by rewrite take_app_le by lia.
Qed.

(** A read first: what follows may depend on what was read. *)
Lemma attempts_after {A B'} manager (m : rpc A) (k : A -> rpc B') p :
  reads_only m -> (forall a, attempts manager (k a) p) -> attempts manager (m ≫= k) p.
Proof. intros Hm Hk. change p with ([] ++ p). apply attempts_bind; [by apply attempts_reads|done]. Qed.

Lemma attempts_map {A B'} manager (f : A -> rpc B') (g : A -> Sent) l :
  (forall x, attempts manager (f x) [g x]) -> attempts manager (rpc_map f l) (map g l).
Proof.
  intros Hf. induction l as [|x l IH]; cbn; [apply attempts_reads, reads_only_mret|].
  change (g x :: map g l) with ([g x] ++ map g l). apply attempts_bind; [done|]. intros y.
  rewrite <- (app_nil_r (map g l)). apply attempts_bind; [done|]. intros ys. apply attempts_reads, reads_only_mret.
Qed.

Lemma attempts_lift {A B'} manager (m : xres A) (k : A -> rpc B') p :
  (forall a, m = Ok a -> attempts manager (k a) p) -> attempts manager (lift m ≫= k) p.
Proof.
  intros Hk s r s' H. unfold mbind, rpc_bind, lift in H. destruct m as [a|e|]; [by apply (Hk a eq_refl)| |].
  all: injection H as <- <-; exists []; rewrite app_nil_r; split; [done|]; split; [constructor|done].
Qed.

(** One transaction. *)
Lemma attempts_send manager x ix limit :
  instructions_of manager x (match limit with Some l => [set_compute_unit_limit l] | None => [] end ++ [ix]) ->
  attempts manager (sending ix limit) [x].
Proof.
  intros Hx s r s' H. unfold send_ix, mbind, rpc_bind in H.
  destruct (send_instructions_with_options _ _ _ _ _ _ _ _ s) as [r1 s1] eqn:Hs.
  assert (Hr : s' = s1 /\ is_ok r = is_ok r1) by (by destruct r1; injection H as <- <-). destruct Hr as [-> ->].
  apply send_sends in Hs as [[Hn Hk]|(tx & Htx & Hpay & Hix & Hsg)].
  - exists []. rewrite Hn, Hk, app_nil_r. split; [done|]. by split; [constructor|].
  - exists [tx]. rewrite Htx. split; [done|]. split; [|done]. cbn. constructor; [|constructor].
    unfold carries. rewrite Hpay, Hsg, Hix. done.
Qed.

(** A read first: it fails and nothing is sent, or what follows goes on from what was read. *)
Lemma after_read {A B'} (m : rpc A) (k : A -> rpc B') s r s' :
  reads_only m -> (m ≫= k) s = (r, s') ->
  submitted s' = submitted s /\ is_ok r = false \/
  exists a s1, m s = (Ok a, s1) /\ submitted s1 = submitted s /\ k a s1 = (r, s').
Proof.
  intros Hm H. specialize (Hm s). unfold mbind, rpc_bind in H. destruct (m s) as [[a|e|] s1]; cbn in Hm.
  - right. by exists a, s1.
  - injection H as <- <-. by left.
  - injection H as <- <-. by left.
Qed.

(** ** What was read *)

(** An account satisfies a filter of a scan. *)
Definition satisfies (a : Account) (f : RpcFilter) : Prop :=
  match f with
  | DataSize n => length (account_data a) = n
  | Memcmp offset content => take (length content) (drop offset (account_data a)) = content
  end.

(** The requests of this vault, as some scan answered them. *)
Definition asked (kind : VaultRequestKind.t) (requests : list VaultRequest) : Prop :=
  Forall (fun r => vr_vault r = vault_pda self) requests /\
  exists n accounts,
    get_program_ui_accounts_with_config n (crank_program self) (request_filters self kind) = inr accounts /\
    Forall2 (fun entry r => exists a, snd entry = Some a /\ VaultRequestOps.parse (account_data a) kind = Ok r)
      accounts requests.

(** The section of both price routes, as they were read at the manager's addresses. *)
Definition priced (manager : VaultManager) (prices : list AccountMeta) : Prop :=
  exists n1 n2 a1 a2 main second,
    get_account n1 (ad_main_price_route (vm_addresses manager)) = inr a1 /\
    get_account n2 (ad_second_price_route (vm_addresses manager)) = inr a2 /\
    PriceRouteOps.from_account a1 (crank_program self) = Ok main /\
    PriceRouteOps.from_account a2 (crank_program self) = Ok second /\
    Manager.price_section manager main second 0 = Ok prices.

(** Users in batches the program takes. *)
Definition batched (users : list key) (batches : list (list key)) : Prop :=
  concat batches = users /\ Forall (fun b => (0 < length b <= VAULT_CAPITAL_BATCH_USERS)%nat) batches.

(** The plan of a step, of what was read. *)
Inductive due (vault : VaultAccount) (manager : VaultManager) : CapitalStep.t -> list Sent -> Prop :=
| due_close : due vault manager CapitalStep.CloseDeposits [Accept false]
| due_open : due vault manager CapitalStep.OpenDeposits [Accept true]
| due_equity prices : priced manager prices -> due vault manager CapitalStep.ComputeEquity [Equity prices]
| due_deposits requests batches :
    asked VaultRequestKind.Deposit requests -> batched (map vr_user requests) batches ->
    due vault manager CapitalStep.ProcessDeposits (map Deposits batches)
| due_withdrawals requests n text supply batches :
    asked VaultRequestKind.Withdraw requests ->
    get_token_supply n (va_share_mint vault) = inr text -> parse_u64 (as_bytes text) = Some supply ->
    let plan := plan_withdrawals (map (fun r => (vr_user r, vr_amount r)) requests) supply in
    batched (partial plan) batches ->
    due vault manager CapitalStep.ProcessWithdrawals
      (map Withdrawals batches ++ match final_user plan with Some user => [Final user] | None => [] end)
| due_finalize : due vault manager CapitalStep.FinalizeCycle [Finalize].

(** The client's scans honour their filters, and accounts hold bytes. *)
Context (Hfilters : forall n program filters accounts, get_program_ui_accounts_with_config n program filters = inr accounts ->
  Forall (fun entry => forall a, snd entry = Some a -> Forall (satisfies a) filters) accounts).
Context (Hpda : length (vault_pda self) = 32%nat).

Lemma request_vault a kind r :
  VaultRequestOps.parse (account_data a) kind = Ok r -> satisfies a (Memcmp VaultRequestOps.VAULT_OFFSET (vault_pda self)) ->
  vr_vault r = vault_pda self.
Proof.
  intros H Hs. unfold VaultRequestOps.parse in H. apply bind_Ok in H as (d & Hd & H).
  apply header_length in Hd as [Hl ->]. inv_ok H. injection H as <-. cbn [vr_vault].
  match goal with H : bytes32 _ VaultRequestOps.VAULT_OFFSET = Ok _ |- _ => rename H into Hk end.
  unfold bytes32, slice_p in Hk. destruct (get_range _ _ _) as [x|] eqn:E; [|done]. injection Hk as <-.
  apply get_range_Some in E as [_ ->]. unfold satisfies in Hs. rewrite Hpda in Hs. rewrite <- Hs at 1.
  unfold VaultRequestOps.VAULT_OFFSET, VaultRequestOps.LEN in *. rewrite skipn_firstn_comm, take_take. done.
Qed.

Lemma read_requests_asked kind s requests s' :
  read_requests self kind s = (Ok requests, s') -> asked kind requests.
Proof.
  intros H. unfold read_requests in H. inv_rpc H. apply try_map_Ok in H.
  assert (Hf : Forall2 (fun entry r => exists a, snd entry = Some a /\ VaultRequestOps.parse (account_data a) kind = Ok r)
                 r requests).
  { eapply Forall2_impl; [exact H|]. intros [k o] q Hq. apply bind_Ok in Hq as (a & Ha & Hq).
    apply ok_or_Ok in Ha. apply map_err_Ok in Hq. by exists a. }
  split; [|by exists (calls s), r].
  specialize (Hfilters _ _ _ _ Hr). clear H Hr. induction Hf as [|[k o] q l l' (a & Ha & Hq) _ IH]; [constructor|].
  inversion Hfilters as [|? ? H1 H2]; subst. constructor; [|by apply IH].
  specialize (H1 a Ha). unfold request_filters in H1. rewrite !Forall_cons in H1.
  eapply request_vault; [exact Hq|]. apply H1.
Qed.

Lemma read_prices_priced manager s prices s' :
  read_prices self manager s = (Ok prices, s') -> priced manager prices.
Proof.
  intros H. unfold read_prices, read_route in H. apply rpc_bind_Ok in H as (main & s1 & Hm & H).
  apply rpc_bind_Ok in H as (second & s2 & Hs & H). inv_rpc Hm. inv_rpc Hs. inv_rpc H. apply map_err_Ok in Hm, Hs, H.
  by exists (calls s), (calls s1), r, r0, main, second.
Qed.

(** ** The steps *)

Lemma chunks_batched users : batched users (chunks VAULT_CAPITAL_BATCH_USERS users).
Proof.
  split; [apply chunks_concat; unfold VAULT_CAPITAL_BATCH_USERS; lia|].
  unfold chunks. generalize (length users) as fuel. intros fuel. revert users.
  induction fuel as [|fuel IH]; intros users; [constructor|]. destruct users as [|u users]; [constructor|].
  cbn [chunks_fuel]. constructor; [|apply IH]. rewrite length_take. unfold VAULT_CAPITAL_BATCH_USERS. cbn [length]. lia.
Qed.

Lemma of_size_Ok {A} (m : res unit A) a : of_size m = Ok a <-> m = Ok a.
Proof. destruct m; cbn; split; congruence. Qed.

Lemma deposits_attempt manager batch :
  attempts manager (send_deposits error_text socket failed unresolved_text self manager batch) [Deposits batch].
Proof.
  apply attempts_lift. intros units Hu. apply of_size_Ok, bind_Ok in Hu as (shape & Hsh & Hu).
  apply attempts_lift. intros ix Hix. apply map_err_Ok in Hix. apply attempts_send. by exists shape, units, ix.
Qed.

Lemma withdrawals_attempt manager batch :
  attempts manager (send_withdrawals error_text socket failed unresolved_text self manager batch) [Withdrawals batch].
Proof.
  apply attempts_lift. intros units Hu. apply of_size_Ok, bind_Ok in Hu as (shape & Hsh & Hu).
  apply attempts_lift. intros ix Hix. apply map_err_Ok in Hix. apply attempts_send. by exists shape, units, ix.
Qed.

Lemma requests_read kind : reads_only (read_requests self kind).
Proof. unfold read_requests. repeat reads_only_step. Qed.
Lemma prices_read manager : reads_only (read_prices self manager).
Proof. unfold read_prices, read_route. repeat reads_only_step. Qed.

(** What a step did: nothing and it failed, or its plan in order, the whole of it if it
    succeeded. *)
Definition did {A} (vault : VaultAccount) (manager : VaultManager) (step : CapitalStep.t) (s : RpcState) (r : xres A)
  (s' : RpcState) : Prop :=
  submitted s' = submitted s /\ is_ok r = false \/
  exists plan txs, due vault manager step plan /\ submitted s' = submitted s ++ txs /\
    Forall2 (carries manager) (take (length txs) plan) txs /\ (is_ok r = true -> length txs = length plan).

Lemma attempts_did {A} vault manager step plan (m : rpc A) s0 s r s' :
  due vault manager step plan -> attempts manager m plan -> submitted s = submitted s0 -> m s = (r, s') ->
  did vault manager step s0 r s'.
Proof.
  intros Hd Ha Hs H. right. destruct (Ha _ _ _ H) as (txs & H1 & H2 & H3). exists plan, txs.
  by rewrite H1, Hs.
Qed.

(** Withdrawals are due only once deposits are through, or the vault only pays out: the
    guard of the final redemption always holds. *)
Lemma final_guard vault clock :
  0 <= va_pending_deposit_count vault -> next_step (view_of vault) clock POLICY = Some CapitalStep.ProcessWithdrawals ->
  (va_pending_deposit_count vault =? 0) || bool_decide (va_safety vault = VaultSafety.WithdrawOnly) = true.
Proof.
  intros Hn H. apply next_step_iff in H as (_ & H). cbn in H. apply orb_true_iff. rewrite bool_decide_eq_true.
  destruct (va_safety vault); try done; [left..|by right]; apply Z.eqb_eq; lia.
Qed.

Lemma withdraw_did vault manager clock s r s' :
  0 <= va_pending_deposit_count vault -> next_step (view_of vault) clock POLICY = Some CapitalStep.ProcessWithdrawals ->
  withdraw_step error_text socket failed unresolved_text self vault manager s = (r, s') ->
  did vault manager CapitalStep.ProcessWithdrawals s r s'.
Proof.
  intros Hn Hstep H. unfold withdraw_step in H.
  apply after_read in H as [H|(requests & s1 & Hreq & Hs1 & H)]; [by left| |apply requests_read].
  apply after_read in H as [H|(text & s2 & Ht & Hs2 & H)]; [left; by rewrite <- Hs1| |apply reads_only_call].
  apply after_read in H as [H|(supply & s3 & Hsup & Hs3 & H)]; [left; by rewrite <- Hs1, <- Hs2| |apply reads_only_lift].
  apply call_Ok in Ht as [Ht _]. apply lift_Ok in Hsup as [Hsup _]. apply ok_or_Ok in Hsup.
  rewrite (final_guard _ _ Hn Hstep) in H.
  eapply attempts_did; [eapply due_withdrawals; [by eapply read_requests_asked|exact Ht|exact Hsup|apply chunks_batched]| | |exact H].
  2: by rewrite Hs3, Hs2.
  apply attempts_bind; [apply attempts_map, withdrawals_attempt|]. intros _.
  destruct (final_user _) as [user|]; [by apply attempts_send|apply attempts_reads, reads_only_mret].
Qed.

Lemma step_did vault manager clock step s r s' :
  0 <= va_pending_deposit_count vault -> next_step (view_of vault) clock POLICY = Some step ->
  take_step error_text socket failed unresolved_text self vault manager step s = (r, s') ->
  did vault manager step s r s'.
Proof.
  intros Hn Hstep H. destruct step; cbn [take_step] in H.
  - eapply attempts_did; [apply due_close| |done|exact H]. apply attempts_after; [|intros; by apply attempts_send].
    destruct (_ || _); [apply prices_read|apply reads_only_mret].
  - eapply attempts_did; [apply due_open| |done|exact H]. by apply attempts_send.
  - apply after_read in H as [H|(prices & s1 & Hp & Hs1 & H)]; [by left| |apply prices_read].
    eapply attempts_did; [eapply due_equity, read_prices_priced, Hp| |done|exact H]. by apply attempts_send.
  - by eapply withdraw_did.
  - apply after_read in H as [H|(requests & s1 & Hreq & Hs1 & H)]; [by left| |apply requests_read].
    eapply attempts_did; [eapply due_deposits; [by eapply read_requests_asked|apply chunks_batched]| |done|exact H].
    rewrite <- (app_nil_r (map Deposits _)). apply attempts_bind; [apply attempts_map, deposits_attempt|].
    intros _. apply attempts_reads, reads_only_mret.
  - eapply attempts_did; [apply due_finalize| |done|exact H]. by apply attempts_send.
Qed.

(** ** Passes *)

Context (Hbytes : forall n k a, get_account n k = inr a -> is_bytes (account_data a)).

Lemma parse_count data vault :
  is_bytes data -> VaultAccountOps.parse data = Ok vault -> 0 <= va_pending_deposit_count vault.
Proof.
  intros Hd H. unfold VaultAccountOps.parse in H. apply bind_Ok in H as (u & _ & H).
  apply bind_Ok in H as (d & Hh & H). apply header_length in Hh as [_ ->]. inv_ok H. injection H as <-.
  cbn [va_pending_deposit_count]. match goal with H : u32_at _ 320 = Ok ?v |- 0 <= ?v => rename H into Hc end.
  unfold u32_at, slice_p in Hc. destruct (get_range _ _ _) as [b|] eqn:E; [|done]. injection Hc as <-.
  apply get_range_Some in E as [_ ->]. apply from_le_bytes_fits. by apply Forall_take, Forall_drop, Forall_take.
Qed.

(** A pass: when it was made, the vault as it was read, what it returned and what it sent. *)
Record Pass := {
  p_now : Z; p_vault : option VaultAccount; p_result : xres (option CapitalStep.t); p_sent : list Transaction }.

(** When the window was seen open or closed, the latest first. *)
Definition history (log : list Pass) : list (bool * Z) :=
  omap (fun p => (fun v => (va_accepting_deposits v, p_now p)) <$> p_vault p) log.

(** How long the window has been as it is, since the first of the latest reads that agree. *)
Definition window_clock (older : list (bool * Z)) (open : bool) (now : Z) : WindowClock :=
  let held := Z.max 0 (now - since open now older) in
  if open then {| open_for := Some held; closed_for := None |} else {| open_for := None; closed_for := Some held |}.

(** What a pass may do after the passes [older]: nothing without a vault, nor when no step is
    due, and then no request waits that could be served; or the plan of the step that is
    due, with a manager of the vault as it was read. *)
Definition pass_ok (older : list (bool * Z)) (p : Pass) : Prop :=
  match p_vault p with
  | None => is_ok (p_result p) = false /\ p_sent p = []
  | Some vault =>
      let clock := window_clock older (va_accepting_deposits vault) (p_now p) in
      (exists n a, get_account n (vault_pda self) = inr a /\ VaultAccountOps.parse (account_data a) = Ok vault) /\
      (p_result p = Ok None /\ p_sent p = [] /\ (forall step, ~ may_step (view_of vault) clock POLICY step) /\
       ~ waiting (view_of vault) \/
       exists step, (forall other, may_step (view_of vault) clock POLICY other <-> other = step) /\
         (is_ok (p_result p) = true -> p_result p = Ok (Some step)) /\
         (is_ok (p_result p) = false /\ p_sent p = [] \/
          exists manager plan,
            Manager.from_vault (crank_program self) (operator self) vault = Ok manager /\
            due vault manager step plan /\
            Forall2 (carries manager) (take (length (p_sent p)) plan) (p_sent p) /\
            (is_ok (p_result p) = true -> length (p_sent p) = length plan)))
  end.

Abbreviation passing := (pass error_text socket failed unresolved_text self) (only parsing).

Lemma act_ok older vault now s r s' n a :
  get_account n (vault_pda self) = inr a -> VaultAccountOps.parse (account_data a) = Ok vault ->
  act error_text socket failed unresolved_text self vault
    (window_clock older (va_accepting_deposits vault) now) s = (r, s') ->
  exists sent, submitted s' = submitted s ++ sent /\
    pass_ok older {| p_now := now; p_vault := Some vault; p_result := r; p_sent := sent |}.
Proof.
  intros Ha Hp H. unfold act in H. unfold pass_ok. cbn [p_vault p_now p_result p_sent]. cbv zeta.
  destruct (next_step _ _ _) as [step|] eqn:Hstep.
  2: { injection H as <- <-. exists []. rewrite app_nil_r. split; [done|]. split; [by exists n, a|]. left. split_and!; [done..| |].
       - intros step. by rewrite <- next_step_iff, Hstep.
       - intros Hw. by apply (next_step_live _ (window_clock older (va_accepting_deposits vault) now) POLICY) in Hw. }
  assert (Hmay : forall other, may_step (view_of vault) (window_clock older (va_accepting_deposits vault) now) POLICY other
                               <-> other = step) by (intros other; rewrite <- next_step_iff, Hstep; split; congruence).
  apply after_read in H as [[Hs Hr]|(manager & s1 & Hm & Hs1 & H)]; [| |apply reads_only_lift].
  { exists []. rewrite app_nil_r. split; [done|]. split; [by exists n, a|]. right. exists step.
    split; [done|]. split; [by rewrite Hr|by left]. }
  apply lift_Ok in Hm as [Hm ->]. apply map_err_Ok in Hm.
  unfold mbind, rpc_bind in H. destruct (take_step _ _ _ _ _ _ _ _ _) as [r1 s2] eqn:Ht.
  assert (Hr : s' = s2 /\ r = match r1 with Ok _ => Ok (Some step) | Err e => Err e | Panic => Panic end).
  { destruct r1; injection H as <- <-; done. }
  destruct Hr as [-> ->]. apply (step_did vault manager _ _ _ _ _ (parse_count _ _ (Hbytes _ _ _ Ha) Hp) Hstep) in Ht.
  destruct Ht as [[Hs Hr]|(plan & txs & Hd & Hs & Hc & Hr)].
  - exists []. rewrite app_nil_r. split; [done|]. split; [by exists n, a|]. right. exists step. split; [done|].
    by destruct r1; [|split; [|left]..].
  - exists txs. split; [done|]. split; [by exists n, a|]. right. exists step. split; [done|]. split; [by destruct r1|].
    right. exists manager, plan. split_and!; [done..|]. by destruct r1.
Qed.

Lemma pass_makes older now s r window s' :
  passing (Crank.tracked older) now s = (r, window, s') ->
  exists p, p_now p = now /\ p_result p = r /\ submitted s' = submitted s ++ p_sent p /\ pass_ok older p /\
    window = Crank.tracked (history [p] ++ older).
Proof.
  intros H. unfold pass in H.
  match type of H with context [match ?m s with _ => _ end] => destruct (m s) as [r1 s1] eqn:Hr; assert (Hro : reads_only m) end.
  { repeat reads_only_step. }
  specialize (Hro s). rewrite Hr in Hro. cbn in Hro. destruct r1 as [vault|e|].
  2,3: injection H as <- <- <-; eexists {| p_now := now; p_vault := None; p_result := _; p_sent := [] |}; cbn;
    rewrite app_nil_r; done.
  inv_rpc Hr. subst. apply map_err_Ok in Hr.
  destruct (observe (Crank.tracked older) (va_accepting_deposits vault) now) as [clock window1] eqn:Ho.
  destruct (act _ _ _ _ _ _ _ _) as [r2 s2] eqn:Hact. injection H as <- <- <-.
  assert (clock = window_clock older (va_accepting_deposits vault) now) as ->.
  { pose proof (window_clock_exact older (va_accepting_deposits vault) now) as Hw. by rewrite Ho in Hw. }
  eapply act_ok in Hact as (sent & Hs & Hok); [|eassumption..].
  eexists. split; [|split; [|split; [|split; [exact Hok|]]]]; [done|done|done|]. cbn. by rewrite Ho.
Qed.

(** Each pass of a log, after those before it. *)
Fixpoint log_ok (older : list (bool * Z)) (log : list Pass) : Prop :=
  match log with
  | [] => True
  | p :: log => pass_ok older p /\ log_ok (history [p] ++ older) log
  end.

Lemma loop_logs times : forall older s rs window s',
  crank_loop error_text socket failed unresolved_text self times (Crank.tracked older) s = (rs, window, s') ->
  exists log, rs = map p_result log /\ map p_now log = take (length log) times /\
    (forallb (fun r => match r with Panic => false | _ => true end) rs = true -> length log = length times) /\
    submitted s' = submitted s ++ concat (map p_sent log) /\ log_ok older log.
Proof.
  induction times as [|now times IH]; intros older s rs window s' H; cbn in H.
  { injection H as <- <- <-. exists []. by rewrite app_nil_r. }
  destruct (pass _ _ _ _ _ _ _ _) as [[r w1] s1] eqn:Hp. apply pass_makes in Hp as (p & Hn & Hr & Hs & Hok & ->).
  assert (Hgo : r = Panic /\ (rs, window, s') = ([Panic], Crank.tracked (history [p] ++ older), s1) \/
                exists rs', crank_loop error_text socket failed unresolved_text self times
                              (Crank.tracked (history [p] ++ older)) s1 = (rs', window, s') /\ rs = r :: rs').
  { destruct r as [x|e|]; [right..|by left]; destruct (crank_loop _ _ _ _ _ _ _ s1) as [[rs' w] s2];
      injection H as <- <- <-; by exists rs'. }
  destruct Hgo as [[-> [= -> -> ->]]|(rs' & Hrest & ->)].
  - exists [p]. cbn. rewrite app_nil_r, Hr, Hn. split_and!; [done..|]. by split.
  - apply IH in Hrest as (log & -> & Hl & Hall & Hsub & Hlog). exists (p :: log). cbn.
    subst now r. rewrite Hsub, Hs, <- app_assoc, Hl. split_and!; [done|done| |done|done|done].
    intros Hk. apply andb_true_iff in Hk as [_ Hk]. by rewrite (Hall Hk).
Qed.

(** ** The crank survives *)

Context (Hbump : forall seeds program, fits 8 (find_bump seeds program)).

Lemma confirm_survives signature blockhash :
  survives (confirm_submitted error_text socket failed unresolved_text signature blockhash).
Proof.
  unfold confirm_submitted, confirm_signatures, signature_statuses. repeat (survives_step || returns_step).
Qed.

Lemma send_survives ix limit : survives (sending ix limit).
Proof.
  unfold send_ix, send_instructions_with_options, submit_instructions, check_budget, send.
  repeat (survives_step || returns_step); try apply confirm_survives.
  intros s. cbn. by destruct (send_transaction _ _).
Qed.

Lemma of_vault_returns {A} (m : cres A) : returns m -> returns (of_vault m).
Proof. apply returns_map_err. Qed.

Lemma route_survives address : survives (read_route self address).
Proof.
  unfold read_route. repeat survives_step. apply of_vault_returns. unfold PriceRouteOps.from_account.
  returns_step; [returns_step|apply parse_route_returns].
Qed.

Lemma prices_survive manager : survives (read_prices self manager).
Proof.
  unfold read_prices. apply survives_bind; [apply route_survives|intros main].
  apply survives_bind; [apply route_survives|intros second]. apply survives_lift, of_vault_returns.
  unfold Manager.price_section. repeat returns_step.
Qed.

Lemma requests_survive kind : survives (read_requests self kind).
Proof.
  unfold read_requests. repeat survives_step. apply try_map_returns. intros [k o] _. unfold of_text. repeat returns_step.
  apply of_vault_returns, request_returns.
Qed.

Lemma batch_returns users len : returns (validate_batch users len).
Proof. unfold validate_batch. repeat returns_step. Qed.

Lemma size_returns manager kind users n m :
  returns (of_size (shape ← batch_shape manager kind users n m; vault_capital_batch_compute_units shape)).
Proof. destruct (batch_units_Ok Hbump manager kind users n m) as (shape & units & -> & Hu). cbn. by rewrite Hu. Qed.

Lemma deposits_survive manager batch :
  survives (send_deposits error_text socket failed unresolved_text self manager batch).
Proof.
  unfold send_deposits, deposit_batch_shape. apply survives_bind; [apply survives_lift, size_returns|intros units].
  apply survives_bind; [|intros; apply send_survives]. apply survives_lift, of_vault_returns.
  unfold Manager.process_deposits. cbv zeta. returns_step; [apply batch_returns|returns_step].
Qed.

Lemma withdrawals_survive manager batch :
  survives (send_withdrawals error_text socket failed unresolved_text self manager batch).
Proof.
  unfold send_withdrawals, withdrawal_batch_shape. apply survives_bind; [apply survives_lift, size_returns|intros units].
  apply survives_bind; [|intros; apply send_survives]. apply survives_lift, of_vault_returns.
  unfold Manager.process_withdrawals. cbv zeta. returns_step; [apply batch_returns|returns_step].
Qed.

Lemma step_survives vault manager step :
  survives (take_step error_text socket failed unresolved_text self vault manager step).
Proof.
  destruct step; unfold take_step, withdraw_step, of_text;
    repeat (survives_step || apply send_survives || apply prices_survive || apply requests_survive
            || apply deposits_survive || apply withdrawals_survive || returns_step).
Qed.

Lemma pass_survives window now s : returns (passing window now s).1.1.
Proof.
  unfold pass.
  match goal with |- context [match ?m s with _ => _ end] => assert (Hm : survives m) end.
  { repeat survives_step. apply of_vault_returns, parse_returns. }
  specialize (Hm s). match type of Hm with returns (?r).1 => destruct r as [[vault|e|] s1] end; cbn in Hm; [|done..].
  destruct (observe _ _ _) as [clock window1].
  assert (Ha : survives (act error_text socket failed unresolved_text self vault clock)).
  { unfold act. repeat survives_step; [|apply step_survives]. apply of_vault_returns. unfold Manager.from_vault.
    match goal with |- returns (Manager.new ?a) => pose proof (new_Err a) as Hn; unfold returns; by destruct (Manager.new a) end. }
  specialize (Ha s1). by destruct (act _ _ _ _ _ _ _ s1).
Qed.

Lemma loop_survives times : forall window s,
  Forall returns (crank_loop error_text socket failed unresolved_text self times window s).1.1.
Proof.
  induction times as [|now times IH]; intros window s; cbn; [constructor|].
  pose proof (pass_survives window now s) as Hp. destruct (pass _ _ _ _ _ _ _ _) as [[r w1] s1]. cbn in Hp.
  specialize (IH w1 s1). destruct (crank_loop _ _ _ _ _ _ _ s1) as [[rs w2] s2].
  destruct r; [..|done]; cbn; constructor; done.
Qed.
End passes.

(** C35: The crank keeps running and does exactly what is due, whatever else the cluster
    answers provided that its scans honour their filters and its accounts hold bytes.  No
    pass panics, so every wake-up is a pass.  A pass that cannot read the vault sends
    nothing; otherwise it takes the one step that is due of the vault as it was just read
    and of the exact time its window has been seen open or closed, and does nothing only
    when none is.  Equity is priced and a cycle finalized with nothing staged; a normal or
    frozen vault takes deposits before withdrawals, a withdraw-only one pays withdrawals
    first while it is idle and refunds deposits otherwise, a closing one only refunds; the
    window is closed for queued requests or after its time, and opened after its time when
    none are.  With nothing staged a step is due whenever requests wait: any in an idle or
    processing vault that is normal or frozen, deposits in a closing or withdraw-only one,
    withdrawals in an idle withdraw-only one.  What the pass sends is the plan of that step,
    in order, up to the first failure, and all of it if the pass reports the step: the
    operator pays and is the only signer, instructions are of a manager of that vault,
    requests are those of this vault, in batches of one to three users with the budget for
    every destination missing, and the final redemption of a withdrawal plan is never
    withheld. *)
Theorem crank_does_what_is_due `{P : Pda} `{B : PdaBump} `{N : Cluster} `{S : TokenSupply}
  error_text socket failed unresolved_text (self : Crank) times s rs window s' :
  (forall n program filters accounts, get_program_ui_accounts_with_config n program filters = inr accounts ->
     Forall (fun entry => forall a, snd entry = Some a -> Forall (satisfies a) filters) accounts) ->
  (forall n k a, get_account n k = inr a -> is_bytes (account_data a)) ->
  (forall seeds program, fits 8 (find_bump seeds program)) ->
  length (vault_pda self) = 32%nat ->
  crank_loop error_text socket failed unresolved_text self times None s = (rs, window, s') ->
  exists log, rs = map p_result log /\ map p_now log = times /\
    submitted s' = submitted s ++ concat (map p_sent log) /\ log_ok self [] log.
Proof.
  intros Hf Hb Hbump Hpda H.
  pose proof (loop_survives error_text socket failed unresolved_text self Hbump times None s) as Hr. rewrite H in Hr. cbn in Hr.
  apply (loop_logs error_text socket failed unresolved_text self Hf Hpda Hb times []) in H
    as (log & -> & Hn & Hall & Hs & Hlog).
  assert (Hl : length log = length times).
  { apply Hall, forallb_forall. intros r Hin. rewrite Forall_forall in Hr.
    specialize (Hr r (proj2 (list_elem_of_In _ _) Hin)). by destruct r. }
  exists log. rewrite Hn, Hl, firstn_all. done.
Qed.

(** A vault with four deposits to process: two batches. *)
Module CapitalSample.
#[local] Existing Instance QuoteExample.pda.
#[local] Existing Instance BatchSample.bump.
Definition vault : VaultAccount :=
  let v := AccountSample.vault in
  {| va_vault_id := va_vault_id v; va_phase := VaultPhase.Idle; va_safety := VaultSafety.Normal;
     va_equity_computed := true; va_accepting_deposits := false;
     va_governance_authority := va_governance_authority v; va_primary_delegate := va_primary_delegate v;
     va_pending_governance_authority := va_pending_governance_authority v; va_fee_recipient := va_fee_recipient v;
     va_main_mint := va_main_mint v; va_second_mint := va_second_mint v; va_share_mint := va_share_mint v;
     va_main_token_program := va_main_token_program v; va_second_token_program := va_second_token_program v;
     va_active_expiry := 0; va_open_positions := 0; va_total_shares := 5000; va_pending_deposit_count := 4;
     va_pending_withdraw_count := 0; va_capital_fallback_delay_secs := 3600; va_closing_started_at := 0;
     va_boundary_equity := 7; va_boundary_shares := 8; va_staging := {| generation := 3; open := None |};
     va_second_leg_generation := 1 |}.
Definition request (user : key) : bytes :=
  [12; 1] ++ replicate 6 0 ++ user ++ key_of 5 ++ to_le_bytes 8 100 ++ to_le_bytes 8 9 ++ replicate 256 0.
Definition accounts : list (key * Account) :=
  (key_of 5, {| owner := key_of 7; lamports := 1;
                account_data := concat (vault_segments vault 0 1 AccountSample.reserved) |}) ::
  map (fun n => (key_of (30 + n), {| owner := key_of 7; lamports := 1; account_data := request (key_of (20 + n)) |}))
    [1; 2; 3; 4].
(** Scans answer the accounts that satisfy the filters. *)
Definition satisfiesb (a : Account) (f : RpcFilter) : bool :=
  match f with
  | DataSize n => bool_decide (length (account_data a) = n)
  | Memcmp offset content => bool_decide (take (length content) (drop offset (account_data a)) = content)
  end.
Definition scan (filters : list RpcFilter) : list (key * option Account) :=
  map (fun e => (fst e, Some (snd e))) (List.filter (fun e => forallb (satisfiesb (snd e)) filters) accounts).
Definition find (k : key) : option Account := snd <$> List.find (fun e => bool_decide (fst e = k)) accounts.
#[global] Instance cluster : Cluster :=
  let base := RpcSample.cluster accounts 1000 5 1 in
  {| get_account := @get_account base;
     get_account_with_commitment := @get_account_with_commitment base;
     get_multiple_accounts_with_commitment := @get_multiple_accounts_with_commitment base;
     get_program_ui_accounts_with_config _ _ filters := inr (scan filters);
     get_balance := @get_balance base; get_token_account_balance := @get_token_account_balance base;
     get_minimum_balance_for_rent_exemption := @get_minimum_balance_for_rent_exemption base;
     get_latest_blockhash := @get_latest_blockhash base; get_fee_for_message := @get_fee_for_message base;
     try_sign := @try_sign base; send_transaction := @send_transaction base;
     get_signature_statuses_with_history := @get_signature_statuses_with_history base;
     confirm_transaction_with_spinner := @confirm_transaction_with_spinner base |}.
#[global] Instance supply : TokenSupply := {| get_token_supply _ _ := inr "5000"%string |}.
Definition self : Crank := {| operator := key_of 3; crank_program := key_of 7; vault_pda := key_of 5 |}.
Abbreviation run := (crank_loop (P := QuoteExample.pda) (fun _ => EmptyString) None (fun _ _ => EmptyString)
  (fun _ => EmptyString) self [0; 10] None RpcSample.start) (only parsing).

Lemma scan_honest filters :
  Forall (fun entry => forall a, snd entry = Some a -> Forall (satisfies a) filters) (scan filters).
Proof.
  apply Forall_forall. intros [k o] Hin a [= ->]. apply list_elem_of_In, in_map_iff in Hin as ([k' a'] & [= -> ->] & Hin).
  apply filter_In in Hin as [_ Hin]. apply Forall_forall. intros f Hf. rewrite forallb_forall in Hin.
  specialize (Hin f (proj1 (list_elem_of_In _ _) Hf)). destruct f; by apply bool_decide_eq_true in Hin.
Qed.

Lemma accounts_are_bytes n k a : get_account n k = inr a -> is_bytes (account_data a).
Proof.
  intros H. unfold get_account in H. cbn [cluster RpcSample.cluster get_account] in H.
  destruct (List.find _ accounts) as [[k' a']|] eqn:E; [|done]. injection H as <-. apply find_some in E as [Hin _].
  assert (Hall : Forall (fun e => is_bytes (account_data (snd e))) accounts)
    by (apply (bool_decide_unpack _); vm_compute; exact I).
  rewrite Forall_forall in Hall. exact (Hall _ (proj2 (list_elem_of_In _ _) Hin)).
Qed.
End CapitalSample.

Lemma crank_does_what_is_due_witness :
  exists log, map p_result log = [Ok (Some CapitalStep.ProcessDeposits); Ok (Some CapitalStep.ProcessDeposits)] /\
    length (concat (map p_sent log)) = 4%nat /\ log_ok (P := QuoteExample.pda) CapitalSample.self [] log.
Proof.
  destruct CapitalSample.run as [[rs window] s'] eqn:H.
  assert (Hr : rs = [Ok (Some CapitalStep.ProcessDeposits); Ok (Some CapitalStep.ProcessDeposits)])
    by (vm_compute in H; injection H as <- _ _; reflexivity).
  assert (Hs : length (submitted s') = 4%nat) by (vm_compute in H; injection H as _ _ <-; reflexivity).
  destruct (crank_does_what_is_due (P := QuoteExample.pda) (B := BatchSample.bump) (N := CapitalSample.cluster) (fun _ => EmptyString) None
    (fun _ _ => EmptyString) (fun _ => EmptyString) CapitalSample.self [0; 10] RpcSample.start rs window s') as (log & H1 & _ & H2 & H3).
  - intros n program filters accounts [= <-]. apply CapitalSample.scan_honest.
  - apply CapitalSample.accounts_are_bytes.
  - intros seeds program. simpl. unfold fits. lia.
  - reflexivity.
  - exact H.
  - exists log. rewrite <- H1. split; [exact Hr|]. split; [|exact H3]. rewrite H2 in Hs. exact Hs.
Defined.
