(* ===== verification/Quoters.v ===== *)
(** * Programs that quote ([examples/managed_quote.rs], [vault_operator.rs], [taker_buy_quote.rs])

    The loops a maker and a vault's operator run: they read what the session publishes, bind
    each RFQ they answer, sign a quote and send it in the connection epoch its recovery was
    applied in.  One turn of a loop is a function of what was received and of its
    surroundings: the session's handle, the clock, the nonce generator and the session's
    reply. *)

From Stdlib Require Import ZArith Lia String.
From stdpp Require Import base list gmap strings.
From S2P Require Import Prelude Time Terms Signing Orders Quote Rows Messages Tracker Outcome Control Session Running Handle Inbound Challenge Chain Account Vault Positions Opens Wire Served Rpc Intent SwapIntent Operator Config Clients HttpRows.

Open Scope Z_scope.

Section venue.
Context `{C : Crypto}.
(* quote.rs:333-338 QuoteBuilder::venue *)
Definition venue_window (self : QuoteBuilder) (now : Z) (venue : Venue.t) : QuoteBuilder :=
  QuoteBuilderOps.quote_window self now (Venue.min_quote_validity_seconds venue) (Venue.settlement_buffer_seconds venue).
End venue.

(** [Box<dyn Error>], as far as the loops tell errors apart. *)
Module QuoterError.
Inductive t :=
| Clock | Nonce | Build (e : QuoteBuildError.t) | Session (e : ManagedWsError.t) | Stream (e : ManagedReceiveError.t)
| Chain (e : ChainError.t) | Challenge (e : SigningError) | Server.
End QuoterError.

(** What a turn meets: the handle, the grant, what the clock reads, the next nonce if the
    generator gives one, and the session's reply to what is sent. *)
Record Turn := {
  t_handle : Handle; t_auth : option VaultAuthSuccessData; t_clock : Z; t_nonce : option Z;
  t_reply : option (res ManagedWsError.t unit) }.

(** The loop goes on, ends, or fails. *)
Inductive Flow (A : Type) := Next (a : A) | Stop | Fail (e : QuoterError.t).
Arguments Next {A} a.
Arguments Stop {A}.
Arguments Fail {A} e.

Section quoters.
Context `{C : Crypto} `{P : Pda} `{SL : SignerLike T}.
Context (serialize : ClientMessage.t -> string + string) (wait : Handle -> Handle).
Context (signer : T) (venue : Venue.t).

(* examples/managed_quote.rs:27-27 main (lifetime) *)
Definition lifetime : Z := (Venue.min_quote_validity_seconds venue + 60) * NANOS.

(** The quote of an RFQ, or none when its market ends too soon. *)
(* examples/managed_quote.rs:111-128 main (quote) *)
Definition quote_of (program owner : key) (price : Z) (t : Turn) (rfq : RfqBroadcastMessage)
  : res QuoterError.t (option QuoteMessage) :=
  valid_until ← ok_or (QuoteExpiry.after (t_clock t) lifetime) QuoterError.Clock;
  binding ← map_err QuoterError.Build (from_broadcast_for_program rfq program);
  nonce ← ok_or (t_nonce t) QuoterError.Nonce;
  let builder := QuoteBuilderOps.nonce (venue_window (QuoteBuilderOps.valid_until (QuoteBuilderOps.price
                   (QuoteBuilderOps.maker_owner (Quote.quote binding) owner) price) valid_until) (t_clock t) venue) nonce in
  match QuoteBuilderOps.sign builder signer with
  | Ok quote => Ok (Some quote)
  | Err (QuoteBuildError.ValidUntilAfterMarketExpiry _ _) => Ok None
  | Err e => Err (QuoterError.Build e)
  | Panic => Panic
  end.

(** Sending in an epoch: a session that is not ready any more is no failure. *)
(* examples/managed_quote.rs:131-134 main (send) *)
Definition send_quote (t : Turn) (quote : QuoteMessage) (epoch : Z) : res QuoterError.t unit * Handle :=
  match MakerQuoteClient.quote_in_epoch serialize wait (t_handle t) quote epoch with
  | (Ok _, h) =>
      (match ticket_wait (t_reply t) with
       | Ok _ | Err ManagedWsError.NotReady => Ok tt
       | Err e => Err (QuoterError.Session e)
       | Panic => Panic
       end, h)
  | (Err ManagedWsError.NotReady, h) => (Ok tt, h)
  | (Err e, h) => (Err (QuoterError.Session e), h)
  | (Panic, h) => (Panic, h)
  end.

(** A turn's result and the handle after it; [None] is a panic. *)
Definition finish {A} (next : A) (x : res QuoterError.t unit * Handle) : option (Flow A) * Handle :=
  match x with
  | (Ok _, h) => (Some (Next next), h)
  | (Err e, h) => (Some (Fail e), h)
  | (Panic, h) => (None, h)
  end.

Definition answer {A} (next : A) (owner : key) (price : Z) (t : Turn) (rfq : RfqBroadcastMessage) (epoch : Z)
  : option (Flow A) * Handle :=
  match quote_of ACTA_PROGRAM_ID owner price t rfq with
  | Ok (Some quote) => finish next (send_quote t quote epoch)
  | Ok None => (Some (Next next), t_handle t)
  | Err e => (Some (Fail e), t_handle t)
  | Panic => (None, t_handle t)
  end.

(** The epoch whose recovery is being applied, and what was received of it. *)
(* examples/managed_quote.rs:81-82 main (recovery) *)
Record Recovery := { recovery_epoch : Z; recovered_rfqs : bool; recovered_quotes : bool }.

Context (owner : key).

(* examples/managed_quote.rs:84-176 main (loop) *)
Definition managed_turn (st : Recovery) (t : Turn) (msg : res ManagedReceiveError.t ManagedInbound)
  : option (Flow Recovery) * Handle :=
  match msg with
  | Ok msg =>
      let epoch := in_connection_epoch msg in
      let st := if epoch =? recovery_epoch st then st
                else {| recovery_epoch := epoch; recovered_rfqs := false; recovered_quotes := false |} in
      match in_message msg with
      | ServerMessage.ActiveRfqs _ =>
          (Some (Next {| recovery_epoch := recovery_epoch st; recovered_rfqs := true;
                         recovered_quotes := recovered_quotes st |}), t_handle t)
      | ServerMessage.MyQuotes _ =>
          (Some (Next {| recovery_epoch := recovery_epoch st; recovered_rfqs := recovered_rfqs st;
                         recovered_quotes := true |}), t_handle t)
      | ServerMessage.RfqBroadcast rfq =>
          if recovered_rfqs st && recovered_quotes st then answer st owner 1000000000 t rfq (recovery_epoch st)
          else (Some (Next st), t_handle t)
      | _ => (Some (Next st), t_handle t)
      end
  | Err ManagedReceiveError.Closed => (Some Stop, t_handle t)
  | Err e => (Some (Fail (QuoterError.Stream e)), t_handle t)
  | Panic => (None, t_handle t)
  end.

(** [owner] is the vault; [sign_quote] sets it. *)
(* examples/vault_operator.rs:94-146 main (loop) *)
Definition operator_turn (t : Turn) (msg : res ManagedReceiveError.t ManagedInbound) : option (Flow unit) * Handle :=
  match msg with
  | Ok msg =>
      match in_message msg with
      | ServerMessage.RfqBroadcast rfq =>
          if OptionTerms.is_spread (rb_terms rfq) then (Some (Next tt), t_handle t)
          else if TakerSide.is_taker_buy (rb_side rfq) then
            if can_write_buys (t_handle t) (t_auth t)
            then answer tt owner 2000000000 t rfq (in_connection_epoch msg) else (Some (Next tt), t_handle t)
          else
            if can_maker (t_handle t) (t_auth t)
            then answer tt owner 1000000000 t rfq (in_connection_epoch msg) else (Some (Next tt), t_handle t)
      | _ => (Some (Next tt), t_handle t)
      end
  | Err (ManagedReceiveError.Gap _) => (Some (Next tt), t_handle t)
  | Err ManagedReceiveError.Closed => (Some Stop, t_handle t)
  | Panic => (None, t_handle t)
  end.
End quoters.

(** ** Following a vault's projection *)

(** What the follower tells its operator. *)
Inductive Told := TellLag (skipped : Z) | TellGap (previous current : Z) | TellReload (version : Z).

(* examples/vault_operator.rs:61-81 main (projections) *)
Fixpoint follow_projections (last_version : option Z) (received : list (res ManagedReceiveError.t VaultProjection))
  : list Told * option Z :=
  match received with
  | [] => ([], last_version)
  | Ok step :: received =>
      match last_version with
      | Some previous =>
          if Inbound.version step <=? previous then follow_projections last_version received
          else
            let '(told, last) := follow_projections (Some (Inbound.version step)) received in
            ((if follows_version step previous then [] else [TellGap previous (Inbound.version step)])
               ++ TellReload (Inbound.version step) :: told, last)
      | None =>
          let '(told, last) := follow_projections (Some (Inbound.version step)) received in (TellReload (Inbound.version step) :: told, last)
      end
  | Err (ManagedReceiveError.Gap skipped) :: received =>
      let '(told, last) := follow_projections last_version received in (TellLag skipped :: told, last)
  | _ :: _ => ([], last_version)
  end.

(** ** Signing what the server serves *)

(* examples/vault_operator.rs:151-154 COMPUTE_BOUNDS *)
Definition COMPUTE_BOUNDS : ComputeBudgetBounds := {| max_unit_limit := 600000; max_unit_price_micro_lamports := 50000 |}.

(** What stopped [sign_fill] or [rebalance]. *)
Module OperateError.
Inductive t := Chain (e : ChainError.t) | Tx (e : VaultTxError.t) | Request (e : VaultRequestError.t) | Ready (e : option Reason).
End OperateError.

Section operate.
Context `{C : Crypto} `{P : Pda} `{B : PdaBump} `{N : Cluster} `{SL : SignerLike T}.
Context (serialize : ClientMessage.t -> string + string) (timed : Handle -> option Handle).
Context (base64_decode : string -> option bytes) (base64_encode : bytes -> string).
Context (operator : T).

(** [rx]: how the server replies to what is submitted. *)
(* examples/vault_operator.rs:157-180 sign_fill *)
Definition sign_fill (program : key) (holder : VaultManager) (taker : key) (terms : VaultSaleTerms.t)
  (lookup_tables : list LookupTable) (to_sign : SponsoredTxToSignData) (clock : Z) (request_id : Uuid)
  (rx : Awaited (res SendAwaitError.t ServerMessage.t)) (s : RpcState) (h : Handle)
  : res OperateError.t unit * RpcState * Handle :=
  match hot_authority program s with
  | (Ok keeper, s) =>
      match verify_and_sign_sponsored_tx base64_decode base64_encode operator clock request_id to_sign
              (VaultOpenIntent.Fill keeper holder taker terms) lookup_tables COMPUTE_BOUNDS with
      | Ok signed =>
          let '(r, h) := VaultOperatorClient.submit_signed_sponsored_tx serialize timed rx h signed in
          (map_err OperateError.Request r, s, h)
      | Err e => (Err (OperateError.Tx e), s, h)
      | Panic => (Panic, s, h)
      end
  | (Err e, s) => (Err (OperateError.Chain e), s, h)
  | (Panic, s) => (Panic, s, h)
  end.

(** [rx1] and [rx2] are the replies to the two requests; [later] is what happens to the
    session while the swap is verified, and [states] what its state channel then takes. *)
(* examples/vault_operator.rs:183-219 rebalance *)
Definition rebalance (vault_pda : key) (vault : VaultManager) (price_routes : PairPriceRoutes)
  (lookup_tables : list LookupTable) (direction : VaultSwapDirection.t) (amount : string) (min_output_floor : Z)
  (account : VaultAccount) (ids : Uuid * Uuid) (clock : Z)
  (rx1 rx2 : Awaited (res SendAwaitError.t ServerMessage.t)) (later : Handle -> Handle) (states : list ManagedWsState.t)
  (h : Handle) : res OperateError.t SwapSubmitResultData.t * Handle :=
  let request := {| rq_request_id := ids.1; rq_vault_pda := vault_pda; rq_mode := VaultSwapMode.Rebalance;
                    rq_direction := direction; rq_amount := amount; rq_slippage_bps := 50 |} in
  match VaultOperatorClient.swap_quote serialize timed rx1 h request with
  | (Ok quote, h) =>
      match verify_and_sign_swap base64_decode base64_encode operator clock ids.2
              {| si_vault := vault; si_request := request; si_quote := quote; si_price_routes := price_routes;
                 si_min_output_floor := min_output_floor; si_account := account |} lookup_tables COMPUTE_BOUNDS with
      | Ok submit =>
          match wait_until_ready states with
          | Ok epoch =>
              let '(r, h) := VaultOperatorClient.swap_submit_in_epoch serialize rx2 true (later h) submit epoch in
              (map_err OperateError.Request r, h)
          | Err e => (Err (OperateError.Ready e), h)
          | Panic => (Panic, h)
          end
      | Err e => (Err (OperateError.Tx e), h)
      | Panic => (Panic, h)
      end
  | (Err e, h) => (Err (OperateError.Request e), h)
  | (Panic, h) => (Panic, h)
  end.
End operate.

(** ** What a turn sends *)

Section sound.
Context `{C : Crypto} `{P : Pda} `{SL : SignerLike T}.
Context (serialize : ClientMessage.t -> string + string) (wait : Handle -> Handle).
Context (signer : T) (venue : Venue.t) (owner : key).

(** A quote of this RFQ at this price: the RFQ bound to the program, with the venue's window
    and a fresh nonce, signed. *)
Definition quoted (program : key) (price : Z) (t : Turn) (rfq : RfqBroadcastMessage) (q : QuoteMessage) : Prop :=
  exists valid_until binding nonce,
    QuoteExpiry.after (t_clock t) (lifetime venue) = Some valid_until /\
    from_broadcast_for_program rfq program = Ok binding /\ t_nonce t = Some nonce /\
    QuoteBuilderOps.sign (QuoteBuilderOps.nonce (venue_window (QuoteBuilderOps.valid_until (QuoteBuilderOps.price
      (QuoteBuilderOps.maker_owner (Quote.quote binding) owner) price) valid_until) (t_clock t) venue) nonce) signer = Ok q.

(** A turn leaves the session alone, or makes one send: a quote of the RFQ, in the epoch. *)
Definition quotes (price : Z) (t : Turn) (rfq : RfqBroadcastMessage) (epoch : Z) (h : Handle) : Prop :=
  exists q r, quoted ACTA_PROGRAM_ID price t rfq q /\ sends serialize wait (t_handle t) (ClientMessage.Quote q) (Some epoch) (r, h).

Lemma quote_of_Ok program price t rfq q :
  quote_of signer venue program owner price t rfq = Ok (Some q) -> quoted program price t rfq q.
Proof.
  unfold quote_of. intros H. apply bind_Ok in H as (valid_until & Hv & H). apply ok_or_Ok in Hv.
  apply bind_Ok in H as (binding & Hb & H). apply map_err_Ok in Hb. apply bind_Ok in H as (nonce & Hn & H). apply ok_or_Ok in Hn.
  exists valid_until, binding, nonce. cbv zeta in H.
  match type of H with match ?s with _ => _ end = _ => destruct s as [q'|e|] eqn:Hs end; [|by destruct e|done].
  injection H as ->. eauto.
Qed.

Lemma answer_quotes {A} (next : A) price t rfq epoch flow h :
  answer serialize wait signer venue next owner price t rfq epoch = (flow, h) ->
  h = t_handle t \/ quotes price t rfq epoch h.
Proof.
  unfold answer. destruct (quote_of _ _ _ _ _ _ _) as [[q|]|e|] eqn:Hq; [|by intros [= _ <-]; left..].
  apply quote_of_Ok in Hq. intros H. right.
  pose proof (send_in_epoch_sends serialize wait (t_handle t) (ClientMessage.Quote q) epoch) as Hs.
  unfold send_quote, MakerQuoteClient.quote_in_epoch in H.
  destruct (send_in_epoch _ _ _ _ _) as [r h1]. exists q, r. split; [done|].
  assert (h = h1) as ->; [|done].
  destruct r as [c|e|]; [|destruct e|]; cbn in H; try (by injection H as _ <-).
  destruct (ticket_wait _) as [u|e|]; [|destruct e|]; cbn in H; by injection H as _ <-.
Qed.

(** *** The maker *)

(** The messages received so far leave the loop in a state. *)
Inductive reached (start : Recovery) : list ManagedInbound -> Recovery -> Prop :=
| reached_start : reached start [] start
| reached_turn msgs st t msg st' h :
    reached start msgs st -> managed_turn serialize wait signer venue owner st t (Ok msg) = (Some (Next st'), h) ->
    reached start (msgs ++ [msg]) st'.

(** Both snapshots of the epoch were received in it, and nothing of another epoch since. *)
Definition recovered_in (msgs : list ManagedInbound) (epoch : Z) (pick : ServerMessage.t -> bool) : Prop :=
  exists before since m, msgs = before ++ since /\ Forall (fun m => in_connection_epoch m = epoch) since /\
    m ∈ since /\ pick (in_message m) = true.
Definition is_active_rfqs (m : ServerMessage.t) : bool := match m with ServerMessage.ActiveRfqs _ => true | _ => false end.
Definition is_my_quotes (m : ServerMessage.t) : bool := match m with ServerMessage.MyQuotes _ => true | _ => false end.

Record recovery_ok (msgs : list ManagedInbound) (st : Recovery) : Prop := {
  ro_rfqs : recovered_rfqs st = true -> recovered_in msgs (recovery_epoch st) is_active_rfqs;
  ro_quotes : recovered_quotes st = true -> recovered_in msgs (recovery_epoch st) is_my_quotes;
}.

Lemma recovered_more msgs msg pick epoch :
  recovered_in msgs epoch pick -> in_connection_epoch msg = epoch -> recovered_in (msgs ++ [msg]) epoch pick.
Proof.
  intros (before & since & m & -> & Hf & Hin & Hp) He. exists before, (since ++ [msg]), m. rewrite app_assoc.
  split_and!; [done| |set_solver|done]. apply Forall_app. split; [done|]. by repeat constructor.
Qed.

Lemma recovered_now msgs msg pick : pick (in_message msg) = true -> recovered_in (msgs ++ [msg]) (in_connection_epoch msg) pick.
Proof. intros Hp. exists msgs, [msg], msg. split_and!; [done|by repeat constructor|set_solver|done]. Qed.

(** The state as a message finds it: another epoch's recovery does not count. *)
Definition in_epoch (st : Recovery) (epoch : Z) : Recovery :=
  if epoch =? recovery_epoch st then st
  else {| recovery_epoch := epoch; recovered_rfqs := false; recovered_quotes := false |}.

Lemma in_epoch_ok msgs msg st :
  recovery_ok msgs st -> recovery_ok (msgs ++ [msg]) (in_epoch st (in_connection_epoch msg)) /\
  recovery_epoch (in_epoch st (in_connection_epoch msg)) = in_connection_epoch msg.
Proof.
  intros [Hr Hq]. unfold in_epoch. destruct (Z.eqb_spec (in_connection_epoch msg) (recovery_epoch st)) as [He|Hne]; [|done].
  split; [|done]. split; intros H; (apply recovered_more; [auto|done]).
Qed.

(** A message that is no snapshot leaves the state as it found it. *)
Lemma turn_state st t msg st' h :
  managed_turn serialize wait signer venue owner st t (Ok msg) = (Some (Next st'), h) ->
  let st1 := in_epoch st (in_connection_epoch msg) in
  recovery_epoch st' = recovery_epoch st1 /\
  recovered_rfqs st' = recovered_rfqs st1 || is_active_rfqs (in_message msg) /\
  recovered_quotes st' = recovered_quotes st1 || is_my_quotes (in_message msg).
Proof.
  unfold managed_turn. fold (in_epoch st (in_connection_epoch msg)). set (st1 := in_epoch _ _). cbv zeta.
  destruct (in_message msg) eqn:Em; cbn [is_active_rfqs is_my_quotes]; intros H;
    try (by injection H as <- _; rewrite ?orb_false_r, ?orb_true_r).
  rewrite !orb_false_r. destruct (_ && _); [|by injection H as <- _].
  unfold answer, finish in H. destruct (quote_of _ _ _ _ _ _ _) as [[q|]|e|]; try done; [|by injection H as <- _].
  destruct (send_quote _ _ _ _ _) as [[u|e|] h1]; try done. by injection H as <- _.
Qed.

Lemma reached_recovered start msgs st :
  recovered_rfqs start = false -> recovered_quotes start = false -> reached start msgs st -> recovery_ok msgs st.
Proof.
  intros H1 H2 H. induction H as [|msgs st t msg st' h Hreach IH Hturn]; [split; congruence|].
  destruct (in_epoch_ok msgs msg st IH) as [[Hr Hq] He]. apply turn_state in Hturn as (He' & Hr' & Hq').
  split; rewrite He'; [rewrite Hr'|rewrite Hq']; intros [Hx|Hx]%orb_true_iff; auto; rewrite He; by apply recovered_now.
Qed.

(** A maker quotes only what it has recovered: a turn leaves the session alone, or the
    message is an RFQ, both snapshots of its own connection were received on it before, with
    nothing of another connection in between, and the turn makes one send: the quote of that
    very RFQ, signed in the venue's window, in that connection's epoch. *)
Theorem makers_quote_after_recovery start msgs st t msg flow h :
  recovered_rfqs start = false -> recovered_quotes start = false ->
  reached start msgs st -> managed_turn serialize wait signer venue owner st t (Ok msg) = (flow, h) ->
  h = t_handle t \/
  exists rfq, in_message msg = ServerMessage.RfqBroadcast rfq /\ quotes 1000000000 t rfq (in_connection_epoch msg) h /\
    recovered_in msgs (in_connection_epoch msg) is_active_rfqs /\ recovered_in msgs (in_connection_epoch msg) is_my_quotes.
Proof.
  intros H1 H2 Hreach H. destruct (reached_recovered _ _ _ H1 H2 Hreach) as [Hr Hq].
  unfold managed_turn in H. fold (in_epoch st (in_connection_epoch msg)) in H. cbv zeta in H.
  destruct (in_message msg) eqn:Em; try (left; by injection H as _ <-).
  unfold in_epoch in H. destruct (Z.eqb_spec (in_connection_epoch msg) (recovery_epoch st)) as [He|Hne];
    [|left; by injection H as _ <-].
  destruct (recovered_rfqs st) eqn:Er, (recovered_quotes st) eqn:Eq; try (left; by injection H as _ <-).
  apply answer_quotes in H as [H|H]; [by left|right]. rewrite He. eexists. split_and!; [done|exact H|by apply Hr|by apply Hq].
Qed.

(** *** The operator *)

(** An operator quotes RFQs it may answer: no spreads, a buy only with the permission to
    write buys and a sale only with the permission to quote, both of a ready session; one
    send, in the epoch the RFQ came in.  A lag ends nothing. *)
Theorem operators_quote_with_permission t msg flow h :
  operator_turn serialize wait signer venue owner t msg = (flow, h) ->
  h = t_handle t \/
  exists m rfq, msg = Ok m /\ in_message m = ServerMessage.RfqBroadcast rfq /\ OptionTerms.is_spread (rb_terms rfq) = false /\
    if TakerSide.is_taker_buy (rb_side rfq)
    then can_write_buys (t_handle t) (t_auth t) = true /\ quotes 2000000000 t rfq (in_connection_epoch m) h
    else can_maker (t_handle t) (t_auth t) = true /\ quotes 1000000000 t rfq (in_connection_epoch m) h.
Proof.
  intros H. unfold operator_turn in H. destruct msg as [m|[]|]; try (left; by injection H as _ <-).
  destruct (in_message m) eqn:Em; try (left; by injection H as _ <-).
  destruct (OptionTerms.is_spread _) eqn:Es; [left; by injection H as _ <-|].
  destruct (TakerSide.is_taker_buy _) eqn:Eb.
  - destruct (can_write_buys _ _) eqn:Ec; [|left; by injection H as _ <-].
    apply answer_quotes in H as [H|H]; [by left|right]. exists m, m0. by rewrite Eb.
  - destruct (can_maker _ _) eqn:Ec; [|left; by injection H as _ <-].
    apply answer_quotes in H as [H|H]; [by left|right]. exists m, m0. by rewrite Eb.
Qed.
End sound.

(** ** What the follower tells *)

(** The versions to reload, with the gaps before them, after [last]. *)
Fixpoint announce (last : option Z) (versions : list Z) : list Told :=
  match versions with
  | [] => []
  | v :: versions =>
      match last with Some p => if v =? p + 1 then [] else [TellGap p v] | None => [] end
        ++ TellReload v :: announce (Some v) versions
  end.
Definition is_lag (x : Told) : bool := match x with TellLag _ => true | _ => false end.

(** Increasing, and above [last]. *)
Fixpoint above (last : option Z) (versions : list Z) : Prop :=
  match versions with
  | [] => True
  | v :: versions => match last with Some p => p < v | None => True end /\ above (Some v) versions
  end.

(** What was received before the stream ended. *)
Fixpoint before_end (received : list (res ManagedReceiveError.t VaultProjection)) : list Z :=
  match received with
  | Ok step :: received => Inbound.version step :: before_end received
  | Err (ManagedReceiveError.Gap _) :: received => before_end received
  | _ => []
  end.

Lemma last_cons {A} (l : list A) : forall x d, List.last l x = List.last (x :: l) d.
Proof. induction l as [|y l IH]; intros x d; [done|]. change (List.last (y :: l) x = List.last (y :: l) d). by rewrite <- !(IH y). Qed.

(** The follower reloads at strictly increasing versions, told of a gap exactly where one was
    skipped, and never stays behind: the version it is left at is the highest it received. *)
Theorem follower_keeps_up received : forall last told last',
  Forall (fits 64) (before_end received) ->
  match last with Some p => fits 64 p | None => True end ->
  follow_projections last received = (told, last') ->
  exists versions, above last versions /\ List.filter (fun x => negb (is_lag x)) told = announce last versions /\
    last' = List.last (map Some versions) last /\ versions ⊆ before_end received /\
    Forall (fun v => match last' with Some w => v <= w | None => False end) (before_end received) /\
    match last, last' with Some p, Some w => p <= w | Some _, None => False | None, _ => True end.
Proof.
  induction received as [|[step|[|skipped]|] received IH]; intros last told last' Hf Hl H; cbn in H.
  1,3,5: injection H as <- <-; exists []; split_and!; try done; try set_solver; by destruct last.
  - cbn in Hf. apply Forall_cons in Hf as [Hv Hf]. assert (Hcase : (exists p, last = Some p /\ Inbound.version step <= p) \/
                    match last with Some p => p < Inbound.version step | None => True end).
    { destruct last as [p|]; [|by right]. destruct (Z.lt_ge_cases p (Inbound.version step)); [by right|left; by exists p]. }
    destruct Hcase as [(p & -> & Hle)|Hg].
    + rewrite (proj2 (Z.leb_le _ _) Hle) in H. destruct (IH (Some p) _ _ Hf Hl H) as (versions & Ha & Ht & Hlast & Hsub & Hall & Hm).
      exists versions. split_and!; [done..|set_solver| |done]. cbn. constructor; [|done]. destruct last'; [lia|done].
    + destruct (follow_projections (Some (Inbound.version step)) received) as [told1 last1] eqn:E.
      destruct (IH (Some (Inbound.version step)) _ _ Hf Hv E) as (versions & Ha & Ht & Hlast & Hsub & Hall & Hm).
      assert (Hout : told = match last with Some p => if Inbound.version step =? p + 1 then []
                                                      else [TellGap p (Inbound.version step)] | None => [] end
                            ++ TellReload (Inbound.version step) :: told1 /\ last' = last1).
      { destruct last as [p|]; [|by injection H as <- <-]. rewrite (proj2 (Z.leb_gt _ _) Hg) in H. injection H as <- <-.
        split; [|done]. f_equal. unfold follows_version, checked_add. rewrite (proj2 (Z.ltb_lt _ _)) by (unfold fits in *; lia).
        rewrite Z.eqb_sym. done. }
      destruct Hout as [-> ->]. exists (Inbound.version step :: versions). split_and!.
      * by split.
      * cbn. rewrite List.filter_app. cbn. rewrite Ht. f_equal. destruct last as [p|]; [|done]. by destruct (_ =? _).
      * rewrite Hlast. cbn [map]. by apply last_cons.
      * cbn. set_solver.
      * cbn. constructor; [|done]. by destruct last1.
      * destruct last as [p|], last1 as [w|]; try done. lia.
  - destruct (follow_projections last received) as [told1 last1] eqn:E. injection H as <- <-.
    destruct (IH last _ _ Hf Hl E) as (versions & Hrest). exists versions. exact Hrest.
Qed.

(** ** What the operator signs *)

Section signs.
Context `{C : Crypto} `{P : Pda} `{B : PdaBump} `{N : Cluster} `{SL : SignerLike T}.
Context (serialize : ClientMessage.t -> string + string) (timed : Handle -> option Handle).
Context (base64_decode : string -> option bytes) (base64_encode : bytes -> string).
Context (operator : T).

Lemma swap_quote_Ok rx h request quote h' :
  VaultOperatorClient.swap_quote serialize timed rx h request = (Ok quote, h') ->
  rx = Replied (Ok (ServerMessage.SwapQuoteResult quote)).
Proof.
  unfold VaultOperatorClient.swap_quote, Operator.request. intros H.
  destruct (ensure_ready h) as [u|e|]; [|done..].
  destruct (send_await _ _ _ _) as [[id|e|] h1]; [|done..].
  unfold response in H. destruct rx as [[m|e|]| |]; try done.
  injection H as H _. unfold correlated in H. destruct m; try done. by injection H as ->.
Qed.

(** A rebalance submits a swap only after it has verified the very quote the server gave for
    the request it made: until then the session is only asked for that quote, and what is
    submitted is the signature of the verified transaction, for that quote's execution,
    before its deadline, in a ready epoch. *)
Theorem rebalance_submits_what_it_verified vault_pda vault routes tables direction amount floor account ids clock
  rx1 rx2 later states h r h' :
  rebalance serialize timed base64_decode base64_encode operator vault_pda vault routes tables direction amount floor
    account ids clock rx1 rx2 later states h = (r, h') ->
  let request := {| rq_request_id := ids.1; rq_vault_pda := vault_pda; rq_mode := VaultSwapMode.Rebalance;
                    rq_direction := direction; rq_amount := amount; rq_slippage_bps := 50 |} in
  let asked := VaultOperatorClient.swap_quote serialize timed rx1 h request in
  is_ok r = false /\ h' = snd asked \/
  exists quote tx deadline signed epoch,
    rx1 = Replied (Ok (ServerMessage.SwapQuoteResult quote)) /\
    verify_vault_swap base64_decode
      {| si_vault := vault; si_request := request; si_quote := quote; si_price_routes := routes;
         si_min_output_floor := floor; si_account := account |} tables COMPUTE_BOUNDS = Ok tx /\
    ensure_deadline_ahead "valid_until" (qt_valid_until quote) clock = Ok deadline /\
    Served.sign base64_encode tx operator = Ok signed /\ wait_until_ready states = Ok epoch /\
    h' = snd (VaultOperatorClient.swap_submit_in_epoch serialize rx2 true (later (snd asked))
                {| sw_request_id := ids.2; sw_execution_id := qt_execution_id quote; sw_signed_tx_base64 := signed |} epoch).
Proof.
  intros H request asked. unfold rebalance in H. cbv zeta in H. fold request in H. fold asked in H.
  destruct asked as [[quote|e|] h1] eqn:Ea; [|left; by injection H as <- <-..].
  apply swap_quote_Ok in Ea. unfold verify_and_sign_swap in H.
  destruct (verify_vault_swap _ _ _ _) as [tx|e|] eqn:Ev; cbn in H; [|left; by injection H as <- <-..].
  destruct (ensure_deadline_ahead _ _ _) as [deadline|e|] eqn:Ed; cbn in H; [|left; by injection H as <- <-..].
  destruct (Served.sign _ _ _) as [signed|e|] eqn:Es; cbn in H; [|left; by injection H as <- <-..].
  destruct (wait_until_ready states) as [epoch|e|] eqn:Ew; [|left; by injection H as <- <-..].
  right. exists quote, tx, deadline, signed, epoch. split_and!; try done.
  cbn [snd]. match type of H with (let (_, _) := ?x in _) = _ => destruct x as [r2 h2] eqn:E2 end. injection H as _ <-. exact (eq_sym (f_equal snd E2)).
Qed.

(** A fill is signed only by its taker: for anyone else's fill [sign_fill] reads the keeper
    and submits nothing. *)
Theorem fills_are_signed_by_their_taker program holder taker terms tables to_sign clock request_id rx s h r s' h' :
  sign_fill serialize timed base64_decode base64_encode operator program holder taker terms tables to_sign clock
    request_id rx s h = (r, s', h') ->
  pubkey_bytes operator <> taker -> is_ok r = false /\ h' = h /\ submitted s' = submitted s.
Proof.
  intros H Hne. unfold sign_fill in H.
  assert (Hro : reads_only (hot_authority program)) by (unfold hot_authority, fetch_account; repeat reads_only_step).
  specialize (Hro s). destruct (hot_authority program s) as [[keeper|e|] s1]; cbn in Hro; [|by injection H as <- <- <-..].
  unfold verify_and_sign_sponsored_tx, verify_and_sign_sponsored_tx_with_participant_signature in H. cbn [expected_participant] in H.
  rewrite (bool_decide_false _ Hne) in H. cbn in H. by injection H as <- <- <-.
Qed.
End signs.
