(* ===== verification/Custody.v ===== *)
(** * A writer of taker buys ([examples/taker_buy_quote.rs])

    The collateral of a buy leaves the maker's custody account when it opens.  The program
    keeps that account at a target, at its start and after every fill or skipped RFQ, and
    quotes asks. *)

From Stdlib Require Import ZArith Lia String.
From stdpp Require Import base list gmap strings.
From S2P Require Import Prelude Time Terms Signing Quote Rows Messages Tracker Outcome Control Session Running Handle Inbound Challenge Chain Account Positions Settle Rpc Confirm Funding Clients HttpRows Quoters.

Open Scope Z_scope.

(** The owner is its key. *)
(* examples/taker_buy_quote.rs:28-36 Custody *)
Record Custody := { cu_program : key; cu_owner : key; cu_mint : key; cu_token_program : key; cu_target : Z }.

Section custody.
Context `{P : Pda} `{N : Cluster}.
(** How the chain client confirms what it submits (Confirm.v). *)
Context (error_text : Json -> string) (socket : option (option string * list (option string) * list SocketEvent)).
Context (failed : bytes -> string -> string) (unresolved_text : bytes -> string).
Context (self : Custody).

(* examples/taker_buy_quote.rs:56-58 Custody::top_up (custody) *)
Definition custody_account : key :=
  derive_associated_token_address (maker_pda_with_program_id (cu_program self) (cu_owner self)) (cu_mint self)
    (cu_token_program self).

(** [fetch_token_balance(..).await.unwrap_or(0)]. *)
(* examples/taker_buy_quote.rs:59-59 Custody::top_up (balance) *)
Definition custody_balance : rpc Z := fun s =>
  match fetch_token_balance custody_account s with
  | (Ok balance, s) => (Ok balance, s)
  | (Err _, s) => (Ok 0, s)
  | (Panic, s) => (Panic, s)
  end.

(* examples/taker_buy_quote.rs:63-76 Custody::top_up (deposit) *)
Definition deposit_missing (balance : Z) : rpc unit :=
  amount ← lift (sub_p (cu_target self) balance);
  _ ← maker_deposit (cu_program self) error_text socket failed unresolved_text
        {| md_maker_owner := cu_owner self; md_amount := amount; md_premium_mint := cu_mint self;
           md_token_program := cu_token_program self; md_create_atas := true |}
        (Some (cu_token_program self)) (cu_owner self) None;
  mret tt.

(* examples/taker_buy_quote.rs:55-79 Custody::top_up *)
Definition top_up : rpc unit :=
  balance ← custody_balance;
  if cu_target self <=? balance then mret tt else deposit_missing balance.

Context `{C : Crypto} `{SL : SignerLike T} (serialize : ClientMessage.t -> string + string) (wait : Handle -> Handle).
Context (signer : T) (venue : Venue.t) (owner : key).

Definition topped (t : Turn) (s : RpcState) : option (Flow unit) * Handle * RpcState :=
  match top_up s with
  | (Ok _, s) => (Some (Next tt), t_handle t, s)
  | (Err e, s) => (Some (Fail (QuoterError.Chain e)), t_handle t, s)
  | (Panic, s) => (None, t_handle t, s)
  end.

(* examples/taker_buy_quote.rs:120-163 main (loop) *)
Definition buy_turn (t : Turn) (s : RpcState) (msg : res ManagedReceiveError.t ManagedInbound)
  : option (Flow unit) * Handle * RpcState :=
  match msg with
  | Ok msg =>
      match in_message msg with
      | ServerMessage.RfqBroadcast rfq =>
          if TakerSide.is_taker_buy (rb_side rfq)
          then (answer serialize wait signer venue tt owner 2000000000 t rfq (in_connection_epoch msg), s)
          else (Some (Next tt), t_handle t, s)
      | ServerMessage.RfqSkipped _ | ServerMessage.QuoteFilled _ => topped t s
      | _ => (Some (Next tt), t_handle t, s)
      end
  | Err ManagedReceiveError.Closed => (Some Stop, t_handle t, s)
  | Err e => (Some (Fail (QuoterError.Stream e)), t_handle t, s)
  | Panic => (None, t_handle t, s)
  end.

(** ** Topping up *)

(** The deposit of an amount into the custody account, from the owner's wallet. *)
Definition deposits (amount : Z) (tx : Transaction) : Prop :=
  tx_payer tx = cu_owner self /\ tx_signers tx = [cu_owner self] /\
  exists creates deposit, tx_instructions tx = creates ++ [deposit] /\
    Forall (fun ix => Chain.program_id ix = ASSOCIATED_TOKEN_PROGRAM_ID) creates /\
    Chain.program_id deposit = cu_program self /\ Chain.data deposit = build_amount_instruction 4 amount /\
    custody_account ∈ map pubkey (accounts deposit).

Lemma balance_reads : reads_only custody_balance.
Proof.
  intros s. unfold custody_balance.
  assert (Hr : reads_only (fetch_token_balance custody_account)) by (unfold fetch_token_balance; repeat reads_only_step).
  specialize (Hr s). by destruct (fetch_token_balance _ s) as [[b|e|] s1].
Qed.

Lemma balance_returns s : returns (fetch_token_balance custody_account s).1.
Proof. revert s. change (survives (fetch_token_balance custody_account)). unfold fetch_token_balance. repeat (survives_step || returns_step). Qed.

(** The balance as it was read, and zero where it could not be. *)
Definition balance_of (s : RpcState) : Z :=
  match (fetch_token_balance custody_account s).1 with Ok balance => balance | _ => 0 end.

Lemma maker_deposit_sends args payer s r s' :
  maker_deposit (cu_program self) error_text socket failed unresolved_text args (Some (md_token_program args)) payer None s = (r, s') ->
  submitted s' = submitted s /\ is_ok r = false \/
  exists tx, submitted s' = submitted s ++ [tx] /\ tx_payer tx = payer /\ tx_signers tx = [payer] /\
    tx_instructions tx = build_maker_deposit_ixs (cu_program self) args payer.
Proof.
  intros H. unfold maker_deposit in H. cbn [default] in H. unfold mbind at 1, rpc_bind at 1 in H.
  unfold fetch_maker_deposit_ixs at 1, resolve_token_program at 1 in H. unfold mbind at 1, rpc_bind at 1, lift at 1 in H.
  destruct (ensure_supported_token_program (md_token_program args)) as [resolved|e|] eqn:Ee;
    [|injection H as <- <-; by left..].
  assert (resolved = md_token_program args) as ->.
  { unfold ensure_supported_token_program in Ee. repeat case_match; congruence. }
  unfold mret, rpc_ret in H.
  apply send_sends in H as [H|(tx & Htx & Hpay & Hix & Hsg)]; [by left|right]. exists tx.
  cbn in Hsg. rewrite bool_decide_true in Hsg by done. split_and!; [done..|]. rewrite Hix. by destruct args.
Qed.

Lemma missing_is_deposited balance s r s' :
  0 <= balance < cu_target self -> deposit_missing balance s = (r, s') ->
  submitted s' = submitted s /\ is_ok r = false \/
  exists tx, submitted s' = submitted s ++ [tx] /\ deposits (cu_target self - balance) tx.
Proof.
  intros Hb H. unfold deposit_missing, sub_p in H. rewrite (proj2 (Z.leb_le balance (cu_target self))) in H by lia.
  unfold mbind at 1, rpc_bind at 1, lift at 1 in H. cbv beta iota in H. unfold mbind, rpc_bind in H.
  match type of H with match ?m with _ => _ end = _ => destruct m as [r1 s1] eqn:Hm end.
  assert (Hr1 : s' = s1 /\ is_ok r = is_ok r1) by (by destruct r1; injection H as <- <-). destruct Hr1 as [-> ->].
  apply (maker_deposit_sends {| md_maker_owner := cu_owner self; md_amount := cu_target self - balance;
    md_premium_mint := cu_mint self; md_token_program := cu_token_program self; md_create_atas := true |}) in Hm
    as [Hn|(tx & Htx & H1 & H2 & H3)]; [by left|right].
  exists tx. split; [done|]. split_and!; [done..|]. rewrite H3. unfold build_maker_deposit_ixs. cbn [md_create_atas].
  eexists _, _. split; [reflexivity|]. split_and!; [by repeat constructor|done|done|].
  unfold custody_account. cbn. set_solver.
Qed.

(** The custody account is brought to its target.  Of the balance, as it was read and taken
    as zero where it could not be, nothing is submitted if it reaches the target; otherwise
    at most one transaction is, and one if topping up succeeds: the owner pays for it and
    alone signs it, and it deposits exactly what is missing. *)
Theorem custody_reaches_its_target s r s' :
  top_up s = (r, s') -> 0 <= balance_of s ->
  if cu_target self <=? balance_of s then r = Ok tt /\ submitted s' = submitted s
  else
    submitted s' = submitted s /\ is_ok r = false \/
    exists tx, submitted s' = submitted s ++ [tx] /\ deposits (cu_target self - balance_of s) tx.
Proof.
  intros H Hb. unfold top_up in H. unfold mbind, rpc_bind in H. pose proof (balance_reads s) as Hr.
  assert (Hc : exists s1, custody_balance s = (Ok (balance_of s), s1)).
  { pose proof (balance_returns s) as Hp. unfold balance_of, custody_balance.
    destruct (fetch_token_balance custody_account s) as [[balance|e|] s1]; cbn in *; [by eexists..|done]. }
  destruct Hc as [s1 Hc]. rewrite Hc in H, Hr. cbn [snd] in Hr. rewrite <- Hr.
  destruct (Z.leb_spec (cu_target self) (balance_of s)) as [Hle|Hlt]; [by injection H as <- <-|].
  by apply missing_is_deposited in H.
Qed.
End custody.

(** A balance that cannot be read counts as zero, whatever the account holds: the whole
    target is deposited. *)
Module CustodySample.
Definition custody : Custody :=
  {| cu_program := key_of 7; cu_owner := key_of 2; cu_mint := key_of 11; cu_token_program := TOKEN_PROGRAM_ID;
     cu_target := 500 |}.
Definition cluster (balance : string + string) : Cluster :=
  let base := RpcSample.cluster [] 6000000000 5000 2039280 in
  {| get_account := @get_account base;
     get_account_with_commitment := @get_account_with_commitment base;
     get_multiple_accounts_with_commitment := @get_multiple_accounts_with_commitment base;
     get_program_ui_accounts_with_config := @get_program_ui_accounts_with_config base;
     get_balance := @get_balance base; get_token_account_balance _ _ := balance;
     get_minimum_balance_for_rent_exemption := @get_minimum_balance_for_rent_exemption base;
     get_latest_blockhash := @get_latest_blockhash base; get_fee_for_message := @get_fee_for_message base;
     try_sign := @try_sign base; send_transaction := @send_transaction base;
     get_signature_statuses_with_history := @get_signature_statuses_with_history base;
     confirm_transaction_with_spinner := @confirm_transaction_with_spinner base |}.
(** What topping up deposits. *)
Definition deposited (balance : string + string) : list bytes :=
  let s := snd (top_up (P := QuoteExample.pda) (N := cluster balance) (fun _ => EmptyString) None (fun _ _ => EmptyString)
                  (fun _ => EmptyString) custody RpcSample.start) in
  map (fun tx => default [] (data <$> last (tx_instructions tx))) (submitted s).
End CustodySample.

Example unread_custody_is_filled_again :
  CustodySample.deposited (inr "500"%string) = [] /\
  CustodySample.deposited (inr "480"%string) = [build_amount_instruction 4 20] /\
  CustodySample.deposited (inl "node is behind"%string) = [build_amount_instruction 4 500].
Proof. vm_compute. done. Qed.
