(* ===== verification/SpreadQuotes.v ===== *)
(** * Programs on the bare socket ([examples/quote.rs], [spread_quote.rs], [hello_auth.rs])

    Without the managed session a program answers the server's messages one by one: it
    starts authentication, signs the challenge, subscribes and quotes.  One of them quotes
    spreads, at a quarter of their width, if that price gives a premium the settlement
    arithmetic accepts. *)

From Stdlib Require Import ZArith Lia String.
From stdpp Require Import base list strings.
From S2P Require Import Prelude Spreads Time Terms Signing Quote Challenge Rows Messages HttpRows Quoters.

Open Scope Z_scope.

(* examples/spread_quote.rs:18-19 PRICE_FRACTION_BPS *)
Definition PRICE_FRACTION_BPS : Z := 2500.

(* examples/spread_quote.rs:90-90 main (price) *)
Definition spread_price (lower upper : Z) : res QuoterError.t Z :=
  width ← sub_p upper lower;
  scaled ← mul_p 64 width PRICE_FRACTION_BPS;
  div_p scaled 10000.

Section spreads.
Context `{C : Crypto} `{P : Pda} `{SL : SignerLike T} (signer : T) (venue : Venue.t) (owner : key).
(** The decimals of the tokens that were listed. *)
Context (tokens : key -> option Z).

(** The terms of an RFQ for a spread between listed tokens; [None] is skipped. *)
(* examples/spread_quote.rs:74-89 main (terms) *)
Definition spread_terms (rfq : RfqBroadcastMessage) : res QuoterError.t (option SpreadTerms) :=
  let chain := OptionTerms.to_chain (rb_terms rfq) in
  match OptionTerms.upper_strike (rb_terms rfq), tokens (md_underlying_mint (rb_market rfq)),
        tokens (md_quote_mint (rb_market rfq)) with
  | Some upper, Some underlying_decimals, Some quote_decimals =>
      kind ← map_err (fun e => QuoterError.Build (QuoteBuildError.Spread e))
               match ChainTerms.position_type chain with
               | ChainPositionType.CallSpread => Ok SpreadType.CallSpread
               | ChainPositionType.PutSpread => Ok SpreadType.PutSpread
               | _ => Err SpreadError.InvalidType
               end;
      Ok (Some {| kind := kind; lower_strike := ChainTerms.strike chain; upper_strike := upper;
                  quantity := rb_quantity rfq; quote_decimals := quote_decimals;
                  underlying_decimals := underlying_decimals |})
  | _, _, _ => Ok None
  end.

(** What is quoted: the premium and the signed quote. *)
(* examples/spread_quote.rs:72-126 main (RfqBroadcast) *)
Definition spread_quote_of (t : Turn) (rfq : RfqBroadcastMessage) : res QuoterError.t (option (SpreadPremium * QuoteMessage)) :=
  terms ← spread_terms rfq;
  match terms with
  | None => Ok None
  | Some terms =>
      price ← spread_price (lower_strike terms) (upper_strike terms);
      match SpreadTerm.premium terms price (Venue.protocol_fee_bps_premium venue) (Venue.protocol_fee_bps_volume venue) with
      | Err _ => Ok None
      | Panic => Panic
      | Ok premium =>
          quote ← quote_of signer venue (Venue.program_id venue) owner price t rfq;
          Ok ((fun q => (premium, q)) <$> quote)
      end
  end.

(** ** What is quoted *)

(** A spread is quoted at a quarter of its width, rounded down, strictly inside it, for the
    program of the venue, and only if the premium adds up: what the maker posts is the
    collateral less the net premium, and the fee is part of the gross premium. *)
Theorem spreads_are_priced_inside t rfq premium q :
  fits 16 (Venue.protocol_fee_bps_premium venue) -> fits 16 (Venue.protocol_fee_bps_volume venue) ->
  (forall terms, spread_terms rfq = Ok (Some terms) -> terms_typed terms) ->
  spread_quote_of t rfq = Ok (Some (premium, q)) ->
  exists terms, spread_terms rfq = Ok (Some terms) /\
    let width := upper_strike terms - lower_strike terms in
    let price := width * 2500 / 10000 in
    0 < price < width /\ quoted signer venue owner (Venue.program_id venue) price t rfq q /\
    sp_net_premium premium + sp_protocol_fee premium = sp_gross_premium premium /\
    sp_prefunded_quote premium + sp_net_premium premium = sp_collateral premium /\
    0 < sp_gross_premium premium < sp_collateral premium.
Proof.
  intros Hpb Hvb Hty H. unfold spread_quote_of in H. apply bind_Ok in H as ([terms|] & Ht & H); [|done].
  specialize (Hty _ Ht). exists terms. split; [done|]. cbv zeta. apply bind_Ok in H as (price & Hp & H).
  unfold spread_price, PRICE_FRACTION_BPS, sub_p, mul_p, div_p in Hp.
  destruct (Z.leb_spec (lower_strike terms) (upper_strike terms)) as [Hle|]; [|done]. cbn in Hp.
  destruct (Z.ltb_spec ((upper_strike terms - lower_strike terms) * 2500) (2 ^ 64)) as [Hlt|]; [|done]. cbn in Hp.
  injection Hp as <-. set (w := upper_strike terms - lower_strike terms) in *. set (price := w * 2500 / 10000) in *.
  assert (Hw : fits 64 price).
  { unfold fits in *. split; [apply Z.div_pos; lia|]. apply Z.div_lt_upper_bound; lia. }
  pose proof (premium_accounts terms price _ _ Hty Hw Hpb Hvb) as Hacc. cbv zeta in Hacc.
  destruct (SpreadTerm.premium _ _ _ _) as [r|e|]; [|done..]. apply bind_Ok in H as ([q'|] & Hq & H); [|done].
  injection H as <- <-. apply quote_of_Ok in Hq.
  destruct Hacc as ((_ & Hpr & _ & _ & _ & _ & _ & _ & Hg & _) & Hc & Hgr & _ & _ & Hn & Hpf & _).
  rewrite Hc, Hgr in *. split_and!; done || lia.
Qed.
End spreads.

(** A spread wider than [2 ^ 64 / 2500] is not priced: the product overflows. *)
Example wide_spreads_overflow :
  spread_price 0 7378697629483820 = Ok 1844674407370955 /\ spread_price 0 7378697629483821 = Panic.
Proof. by vm_compute. Qed.

(** ** Answering the server *)

Section raw.
Context `{C : Crypto} `{P : Pda} `{SL : SignerLike T} (signer : T) (venue : Venue.t) (owner : key).

(** [sign_message_base58]. *)
Definition sign_message_base58 (message : bytes) : string := bs58_encode (sign_message signer message).

(** What a program sends when it is told to authenticate; [None] of a reply is no answer. *)
(* examples/hello_auth.rs:21-35 main (authentication) *)
Definition raw_auth (msg : ServerMessage.t) : option (res QuoterError.t ClientMessage.t) :=
  match msg with
  | ServerMessage.Welcome _ => Some (Ok (ClientMessage.StartAuth {| sa_pubkey := owner |}))
  | ServerMessage.AuthRequest challenge =>
      Some (_ ← map_err QuoterError.Challenge (validate_maker_auth_challenge challenge);
            Ok (ClientMessage.AuthChallenge {| ac_challenge := challenge;
                  ac_signature := sign_message_base58 (as_bytes challenge); ac_pubkey := owner |}))
  | ServerMessage.AuthError _ | ServerMessage.VersionMismatch _ | ServerMessage.Error _ => Some (Err QuoterError.Server)
  | _ => None
  end.

(** The turn of a program that quotes an RFQ with [quotes]. *)
Context (quotes : Turn -> RfqBroadcastMessage -> res QuoterError.t (option QuoteMessage)).
Context (subscription : Uuid -> SubscribeData).

(* examples/quote.rs:34-92 main (loop) *)
Definition raw_turn (t : Turn) (request_id : Uuid) (msg : ServerMessage.t) : res QuoterError.t (option ClientMessage.t) :=
  match raw_auth msg with
  | Some r => out ← r; Ok (Some out)
  | None =>
      match msg with
      | ServerMessage.AuthSuccess _ => Ok (Some (ClientMessage.Subscribe (subscription request_id)))
      | ServerMessage.RfqBroadcast rfq => quote ← quotes t rfq; Ok (option_map ClientMessage.Quote quote)
      | _ => Ok None
      end
  end.
End raw.

Section raw_programs.
Context `{C : Crypto} `{P : Pda} `{SL : SignerLike T} (signer : T) (venue : Venue.t) (owner : key).
Context (tokens : key -> option Z).

(* examples/quote.rs:50-60 main (subscription) *)
Definition quote_subscription (request_id : Uuid) : SubscribeData :=
  {| sub_products := ProductSet.ALL; sub_request_id := request_id; sub_channels := [WsChannel.Rfqs];
     sub_underlying_mints := []; sub_quote_mints := [] |}.
(* examples/quote.rs:61-87 main (RfqBroadcast) *)
Definition quote_rfq (t : Turn) (rfq : RfqBroadcastMessage) : res QuoterError.t (option QuoteMessage) :=
  quote_of signer venue ACTA_PROGRAM_ID owner 1000000000 t rfq.

(** [ProductSet::new(&[CallSpread, PutSpread, CashPut])]. *)
(* examples/spread_quote.rs:57-71 main (subscription) *)
Definition spread_subscription (request_id : Uuid) : SubscribeData :=
  {| sub_products := 28; sub_request_id := request_id; sub_channels := [WsChannel.Rfqs];
     sub_underlying_mints := []; sub_quote_mints := [] |}.
Definition spread_rfq (t : Turn) (rfq : RfqBroadcastMessage) : res QuoterError.t (option QuoteMessage) :=
  o ← spread_quote_of signer venue owner tokens t rfq; Ok (option_map snd o).

Lemma spread_products : ProductSet.new [PositionType.CallSpread; PositionType.PutSpread; PositionType.CashPut] = Ok 28.
Proof. done. Qed.

(** A program on the bare socket signs a challenge only if it is one of the maker's protocol,
    and for its own owner; it subscribes only after it was authenticated; and what it quotes
    is the quote of the RFQ it was just sent. *)
Theorem raw_programs_answer_what_they_are_asked quotes subscription t id msg out :
  raw_turn signer owner quotes subscription t id msg = Ok (Some out) ->
  match out with
  | ClientMessage.StartAuth m => sa_pubkey m = owner /\ exists v, msg = ServerMessage.Welcome v
  | ClientMessage.AuthChallenge m =>
      msg = ServerMessage.AuthRequest (ac_challenge m) /\ validate_maker_auth_challenge (ac_challenge m) = Ok tt /\
      ac_signature m = sign_message_base58 signer (as_bytes (ac_challenge m)) /\ ac_pubkey m = owner
  | ClientMessage.Subscribe m => m = subscription id /\ exists s, msg = ServerMessage.AuthSuccess s
  | ClientMessage.Quote q => exists rfq, msg = ServerMessage.RfqBroadcast rfq /\ quotes t rfq = Ok (Some q)
  | _ => False
  end.
Proof.
  unfold raw_turn, raw_auth. intros H. destruct msg; cbn in H; try done.
  - injection H as <-. eauto.
  - destruct (validate_maker_auth_challenge _) as [[]|e|] eqn:E; cbn in H; try done. by injection H as <-.
  - injection H as <-. eauto.
  - destruct (quotes t m) as [[q|]|e|] eqn:E; cbn in H; try done. injection H as <-. eauto.
Qed.
End raw_programs.
